(* ===== verification/_CoqProject ===== *)
-Q . S2P
Prelude.v
Sequences.v
Clock.v
ResourceAdmission.v
SourceQuota.v
SourceQuotaInv.v
SourceQuotaOps.v
SourceQuotaThms.v
DeliveryContracts.v
SignalBus.v
SignalBusInv.v
SignalBusRoutes.v
SignalBusThms.v
SignalBusPages.v
NotificationWorker.v
NotificationSystem.v
NotificationBatch.v
Decimal.v
OrderCosts.v
DecimalEq.v
PaperContracts.v
PaperBroker.v
PaperReconcile.v
PaperInv.v
PaperLedger.v
PaperSteps.v
PaperTrust.v
PaperDemo.v
PaperThms.v
PortfolioWeights.v
PortfolioNumbers.v
PortfolioFill.v
PortfolioThms.v
PortfolioDrawdown.v
PortfolioExposure.v
L2Payload.v
L2Request.v
L2RequestThms.v
L2Snappy.v
L2Table.v
L2Response.v
SignalRouter.v
SignalRouterThms.v
RoutingPolicy.v
RunnerSource.v
