(* ===== verification/Prelude.v ===== *)
(** * rQuant: a Rocq development of the runtime's core decision code

    rQuant ([src/src/rquant/]) runs a trading research and signalling system.  Its own logic is a
    set of small durable state machines, most of them kept in SQLite: a quota ledger that hands
    out units of external data sources, an admission gate that decides whether a research job may
    start beside live trading, a signal bus that numbers strategy signals, routes them to people and
    delivers each one with leases and retries, and a paper broker that executes orders against an
    attested ledger of cash, lots and receipts.  Beside them are pure calculations: order costs,
    target portfolios with their drawdown limits and attribution, and the codec of the level-2 market
    feed.  This library models these parts as executable functions and proves what they promise.

    ** Files

    - [Prelude.v] (this file): Python exceptions as values of [res] with its notations, the shared
      tactics and hint databases, 64-bit integers, string trimming, SQL tables as row lists
      ([select], [fetchone], [update]) and the transaction combinator [txn] (a raised exception
      rolls the database back).
    - [Sequences.v]: tables numbered without gaps, for paged reads and batches.
    - [Clock.v]: [datetime] as microseconds since 0001-01-01 UTC ([normalize_aware_utc] and the
      ISO text of [_iso] and [_encode_time]).  Civil dates are computed, so that window ids and
      texts are the strings the source writes.
    - [ResourceAdmission.v]: [resource_admission.py], the contracts of snapshots, policies, leases,
      requests and decisions, [derive_lab_admission_request] and [evaluate_admission].
    - [SourceQuota.v]: [source_quota_store.py].  The six tables are the fields of [store]; every
      method of [SourceQuotaStore] is one definition.  [SourceQuotaInv.v] has the step relation of
      the ledger and its invariant, [SourceQuotaOps.v] proves that each method is a sequence of
      steps, [SourceQuotaThms.v] has the theorems about sequences of calls.
    - [DeliveryContracts.v]: [delivery_contracts.py].
    - [SignalBus.v]: [signal_bus.py] and the parts of [signal_contracts.py] it needs.  The tables
      are the fields of [bus].  [SignalBusInv.v] has the delivery invariant,
      [SignalBusRoutes.v] the route and numbering invariants, [SignalBusThms.v] the theorems about
      sequences of calls and [SignalBusPages.v] those about paged reads.
    - [SignalRouter.v]: [route_runner_signals] of [signal_router_runtime.py], which moves a strategy's
      signals to the bus, with [SignalRouterThms.v] its theorems; [RunnerSource.v]: the bounded reads of
      a strategy's stored signals; [RoutingPolicy.v]: the frozen policy resolver of
      [runtime_routing_policy.py].
    - [NotificationWorker.v]: [notification_worker.py] as a program over store calls, clock readings
      and provider calls; [NotificationSystem.v] runs any number of workers against one bus, with
      crashes and failing store calls; [NotificationBatch.v] has the theorems about one batch.
    - [Decimal.v]: Python's [decimal] at 28 digits and its meaning in the rationals.
    - [OrderCosts.v]: [order_execution_costs.py] and the cost contracts of [research_run_spec.py].
    - [DecimalEq.v]: equality of decimals as numbers, with the operations that respect it.
    - [PaperContracts.v]: [paper_contracts.py]; [PaperBroker.v]: [paper_broker.py], the paper-trading
      ledger with its attestation chain; [PaperReconcile.v]: its [reconcile].  [PaperInv.v] has the
      facts about validators and insertions, [PaperLedger.v] the ledger invariant, [PaperSteps.v]
      what each operation does to the tables and that it keeps the invariant, [PaperTrust.v] the
      attestation chain and the reading back of receipts, [PaperDemo.v] a concrete broker and
      [PaperThms.v] the theorems about sequences of calls.
    - [PortfolioWeights.v]: [portfolio/weights.py], fractions as rationals and each loop with a bound;
      [PortfolioNumbers.v] has the decimals it reports, [PortfolioFill.v] the water filling and
      [PortfolioThms.v] the rest and the theorems.
    - [PortfolioDrawdown.v]: [portfolio/drawdown.py]; [PortfolioExposure.v]: [portfolio/exposure.py].
    - [L2Payload.v], [L2Request.v]: [l2/_request.py], [l2/symbols.py] and the request side of
      [l2/_codec.py]; [L2RequestThms.v] has their round trips.  [L2Snappy.v]: the Snappy decoder of
      [l2/_codec.py] and its format; [L2Table.v]: the run-length code and numbers of [l2/_table.py];
      [L2Response.v]: its tables and the response decoders.

    ** What is assumed

    SHA-256 and JSON text are parameters: the JSON decoder of stored signals, a function for the lease digest in the quota ledger and for
    the digests of market tables, the
    class [Codec] with the laws [CodecLaws] for the signal bus, [CostDigest] for costs, [PaperDigest]
    and [BrokerDigest] for the paper ledger (digests are 64 hexadecimal digits,
    decoding canonical text gives back what was encoded, the delivery keys of distinct signals
    differ).  The witnesses instantiate them with concrete functions.  Clock readings, boot ids and
    random tokens are arguments of the operations that read them.  [LedgerEnv] holds what the paper
    ledger reads of its schema and never changes, and the calendar of Asia/Shanghai.  Messages that
    interpolate an identifier are kept without it.

    ** What the theorems show

    - Quota ledger: the ledger invariant under any calls; windows are never over-reserved while
      clocks do not go back; attempts never overspend whatever the clock does; [remaining] and
      [acquire] are exact; attempts complete exactly once; a restart recovers every pending
      attempt of a database written through attempts.
    - Admission: the gate always decides, its decision and its reason codes mean what they say, it is
      monotone in the headroom, and never admits a HEAVY shard in a live session.
    - Signal bus: the whole-database invariant, the attempt history of every delivery, the
      delivery state machine (only the holder of a lease hands a row back), exact pages, the
      retry delay.
    - Signal router: a run, returned or raised, commits a prefix of its batch, one receipt per record
      with the record's decision, whatever others do to the bus while the batch is read; a policy
      routes every signal to exactly the targets of its enabled rules; a read of stored signals is
      exactly the asked slice and passes the router's checks.
    - Notification workers: over all workers, crashes and store faults a provider is called again for
      a row only after confirmed failures, at most [max_attempts] times; a batch accounts for every
      record it claimed (what is unknown or not attempted is not recorded as an attempt) and is an
      execution of the shared system.
    - Order costs: both calculators compute the rational formulas exactly; slippage never favours the
      trader.
    - Paper broker: over any calls, whichever fail, the ledger invariant (one order per intent,
      numbered fills, conserved lots), a verifying attestation chain whose counts follow the tables, T+1 and entry-bound sales,
      limits and expiry, orders that only advance, and idempotent submissions and executions.
    - Portfolios: the loops of the allocation end, the filling succeeds exactly when some allocation
      within the limits exists, a returned portfolio keeps every limit and is placed to the cent, and its
      reported weights add up to one.  A series of net asset values ends in the drawdown state its
      history defines, and every state built satisfies its contract.  An attribution succeeds exactly
      when the returns cover the industries, and its reconciliation checks never fail.
    - Market codec: queries and frames read back as what they were built from, the payload decoder
      accepts exactly the canonical encodings, the Snappy decoder exactly its format, the run-length
      decoder always ends, and decoded tables hold every byte of their rows.
    - Examples beside the theorems exhibit behaviour the source does not intend: plain leases
      overspend after a clock rollback, an unknown outcome reported after its lease makes reads raise,
      an accepted paper execution fails reconciliation, and fees of a sale overdraw a paper account.

    Most loops of the source run over finite row lists and are structural.  The digit counts of
    [Decimal.v] and [OrderCosts.v] use fuel, the base-2 logarithm of the number, which exceeds its
    number of decimal digits less one.  The loops of [PortfolioWeights.v] get one turn more than the
    active stocks (each turn finishes or retires a stock), one per remaining cent and one per eligible
    stock; running out is the value [OutOfFuel], which [allocation_returns] excludes.  The Snappy
    decoder gets one turn per byte left and the run-length decoder one per expected byte, which each
    turn consumes or writes; [snappy_decompress_refines] and [decode_rle_total] exclude [OutOfFuel].

    ** Not modelled

    SQLite connections, PRAGMAs, file locks and schema migrations; text encodings inside the codec;
    float inputs of durations; the connections, caches and archives of the
    market feed; and the file-system, socket, process, DuckDB and web parts of the
    system (lab workers, release and recovery coordination, brokers, serving, dashboards). *)

From Stdlib Require Import ZArith Lia Bool.
From stdpp Require Import base list strings pretty.

(** The development's own notations live in this scope. *)
Declare Scope rq_scope.
Delimit Scope rq_scope with rq.
Open Scope Z_scope.
Open Scope rq_scope.

(** ** Python exceptions as values

    A call that raises is [Err]; the exception class is an enumeration and the message is
    the text the source raises, so that the branch taken can be read off the value. *)

Inductive exn_class :=
  | ValueError | TypeError | KeyError | RuntimeError | OverflowError | InvalidOperation | IntegrityError
  | OperationalError
  | SourceQuotaConflictError | SourceQuotaExhaustedError
  | ResearchAdapterSourceUsageError
  | LegacySignalWriteActivationError
  | SignalBusLeaseError | SignalBusIntegrityError | SignalRouteConflictError
  | SignalRouteSequenceError | SignalBusSourceSequenceError | SignalBusWatermarkError
  | DuplicateIntentConflictError | DuplicateExecutionConflictError
  | PaperBrokerReconciliationError | PaperLedgerQuarantinedError
  | NoExecutableSellQuantityError
  | PortfolioAllocationError | PortfolioAttributionError | RoutingPolicyConflictError | DrawdownInputError
  | AssertionError | ConfirmedDeliveryFailureError | UnknownDeliveryOutcomeError
  (** not an exception: the bound of a modelled loop ran out, which the theorems exclude *)
  | OutOfFuel.

#[export] Instance exn_class_eq_dec : EqDecision exn_class.
Proof. solve_decision. Defined.

Record exn := Raise { exn_cls : exn_class; exn_msg : string }.

#[export] Instance exn_eq_dec : EqDecision exn.
Proof. solve_decision. Defined.

Inductive res (A : Type) :=
  | Ok (a : A)
  | Err (e : exn).
Arguments Ok {A} _.
Arguments Err {A} _.

Definition is_ok {A} (r : res A) : bool :=
  match r with Ok _ => true | Err _ => false end.

Definition rbind {A B} (r : res A) (k : A -> res B) : res B :=
  match r with Ok a => k a | Err e => Err e end.

Notation "x <~ r ;; k" := (rbind r (fun x => k))
  (at level 100, r at next level, right associativity) : rq_scope.
Notation "'bind' p 'from' r ;; k" := (rbind r (fun x => match x with p => k end))
  (at level 100, p pattern, r at next level, right associativity) : rq_scope.
(** [guard b cls msg ;; k] is [if b: raise cls(msg)] followed by [k]. *)
Notation "'raise_if' b 'as' c 'saying' m ;; k" := (if b then Err (Raise c m) else k)
  (at level 100, b at level 99, c at level 9, m at level 9, right associativity) : rq_scope.

Lemma rbind_ok {A B} (r : res A) (k : A -> res B) b :
  rbind r k = Ok b <-> exists a, r = Ok a /\ k a = Ok b.
Proof. destruct r; cbn; naive_solver. Qed.

Lemma rbind_err {A B} (r : res A) (k : A -> res B) e :
  rbind r k = Err e <-> r = Err e \/ exists a, r = Ok a /\ k a = Err e.
Proof. destruct r; cbn; naive_solver. Qed.

Lemma rbind_assoc {A B C} (r : res A) (f : A -> res B) (g : B -> res C) :
  rbind (rbind r f) g = rbind r (fun a => rbind (f a) g).
Proof. by destruct r. Qed.

(** Sequencing over a list, stopping at the first error: a Python comprehension whose
    element expression may raise. *)
Fixpoint rmap {A B} (f : A -> res B) (l : list A) : res (list B) :=
  match l with
  | [] => Ok []
  | x :: l => y <~ f x ;; ys <~ rmap f l ;; Ok (y :: ys)
  end.

Lemma rmap_ok_Forall2 {A B} (f : A -> res B) l ys :
  rmap f l = Ok ys <-> Forall2 (fun x y => f x = Ok y) l ys.
Proof.
  revert ys. induction l as [|x l IH]; intros ys; cbn.
  - split; [intros [= <-]; constructor | intros H; inversion H; done].
  - rewrite rbind_ok. setoid_rewrite rbind_ok. split.
    + intros (y & Hy & zs & Hzs & [= <-]). constructor; [done|]. by apply IH.
    + intros H; inversion H as [|? y ? zs Hy Hzs]; subst.
      exists y; split; [done|]. exists zs; split; [by apply IH | done].
Qed.

(** ** Proof automation *)

Create HintDb rq.
Create Rewrite HintDb rq_rw.
#[export] Hint Rewrite @length_app @length_map : rq_rw.

(** Case analysis on the innermost scrutinee of a [match] or [if] in [H]. *)
Ltac case_in H :=
  match type of H with
  | context [match ?x with _ => _ end] =>
      lazymatch x with
      | context [match _ with _ => _ end] => fail
      | _ => let E := fresh "E" in destruct x eqn:E
      end
  end.

Ltac case_goal :=
  match goal with
  | |- context [match ?x with _ => _ end] =>
      lazymatch x with
      | context [match _ with _ => _ end] => fail
      | _ => let E := fresh "E" in destruct x eqn:E
      end
  end.

(** Walk down a computation that returned [Ok]: bindings become existential facts, every
    guard becomes a hypothesis, and the branches that raise are discarded. *)
Ltac ok_inv H :=
  repeat first
    [ discriminate H
    | progress (apply rbind_ok in H as (? & ? & H))
    | progress cbn beta iota in H
    | (case_in H; try discriminate H) ];
  try (injection H as H; subst).

(** The next guard of a computation that returned [Ok] did not raise. *)
Ltac pass_guard H := match type of H with (if ?b then _ else _) = Ok _ => let E := fresh "E" in destruct b eqn:E; [discriminate H|] end.

Ltac bool_hyps :=
  repeat match goal with
  | H : _ && _ = true |- _ => apply andb_true_iff in H as [? ?]
  | H : _ || _ = false |- _ => apply orb_false_iff in H as [? ?]
  | H : negb _ = true |- _ => apply negb_true_iff in H
  | H : negb _ = false |- _ => apply negb_false_iff in H
  | H : bool_decide _ = true |- _ => apply bool_decide_eq_true in H
  | H : bool_decide _ = false |- _ => apply bool_decide_eq_false in H
  | H : (_ <? _) = true |- _ => apply Z.ltb_lt in H
  | H : (_ <? _) = false |- _ => apply Z.ltb_ge in H
  | H : (_ <=? _) = true |- _ => apply Z.leb_le in H
  | H : (_ <=? _) = false |- _ => apply Z.leb_gt in H
  | H : (_ =? _) = true |- _ => apply Z.eqb_eq in H
  | H : (_ =? _) = false |- _ => apply Z.eqb_neq in H
  end.

(** Linear arithmetic with division and modulus by constants. *)
Ltac divlia := Z.to_euclidean_division_equations; lia.

(** ** Machine-width integers of SQLite *)

Definition int64_max : Z := 2 ^ 63 - 1.

Definition in_int64 (z : Z) : bool := (- 2 ^ 63 <=? z) && (z <=? int64_max).

(** ** Python strings

    [str.strip()] on the ASCII whitespace characters. *)

Definition py_space (c : Ascii.ascii) : bool :=
  let n := Ascii.nat_of_ascii c in
  ((9 <=? n) && (n <=? 13) || (28 <=? n) && (n <=? 32))%nat.

Fixpoint lstrip (s : string) : string :=
  match s with
  | EmptyString => EmptyString
  | String c s' => if py_space c then lstrip s' else s
  end.

Fixpoint rstrip (s : string) : string :=
  match s with
  | EmptyString => EmptyString
  | String c s' =>
      match rstrip s' with
      | EmptyString => if py_space c then EmptyString else String c EmptyString
      | t => String c t
      end
  end.

Definition strip (s : string) : string := rstrip (lstrip s).

(** [str.upper] on ASCII letters. *)
Definition upper_char (c : Ascii.ascii) : Ascii.ascii :=
  let n := Ascii.nat_of_ascii c in
  if ((97 <=? n) && (n <=? 122))%nat then Ascii.ascii_of_nat (n - 32) else c.

Fixpoint upper (s : string) : string :=
  match s with EmptyString => EmptyString | String c s => String (upper_char c) (upper s) end.

Arguments strip : simpl never.

Definition nonempty (s : string) : bool :=
  match s with EmptyString => false | _ => true end.

Lemma lstrip_idem s : lstrip (lstrip s) = lstrip s.
Proof.
  induction s as [|c s IH]; cbn; [done|]. destruct (py_space c) eqn:E; [done|].
  cbn. by rewrite E.
Qed.

Lemma rstrip_idem s : rstrip (rstrip s) = rstrip s.
Proof.
  induction s as [|c s IH]; cbn; [done|].
  destruct (rstrip s) as [|c' s'] eqn:E; [destruct (py_space c) eqn:Ec; cbn; by rewrite ?Ec|].
  rewrite <- IH at 2. change (rstrip (String c (String c' s')))
    with (match rstrip (String c' s') with
          | EmptyString => if py_space c then EmptyString else String c EmptyString
          | t => String c t end). by rewrite IH.
Qed.

Lemma lstrip_rstrip s : lstrip s = s -> lstrip (rstrip s) = rstrip s.
Proof.
  destruct s as [|c s]; [done|]. cbn. destruct (py_space c) eqn:E.
  - intros H. exfalso. assert (String.length (lstrip s) <= String.length s)%nat.
    { clear. induction s as [|d s IH]; cbn; [lia|]. destruct (py_space d); cbn; lia. }
    rewrite H in *. cbn in *. lia.
  - intros _. destruct (rstrip s); cbn; by rewrite E.
Qed.

Lemma strip_idem s : strip (strip s) = strip s.
Proof.
  unfold strip. rewrite lstrip_rstrip by apply lstrip_idem. apply rstrip_idem.
Qed.

(** ** Sums over a table *)

Section Sums.
Context {R : Type}.

Definition sumZ (f : R -> Z) (l : list R) : Z := fold_right (fun r acc => f r + acc) 0 l.

Lemma sumZ_cons f r l : sumZ f (r :: l) = f r + sumZ f l.
Proof. done. Qed.

Lemma sumZ_app f l k : sumZ f (l ++ k) = sumZ f l + sumZ f k.
Proof. induction l; cbn; [done|]. unfold sumZ in *. lia. Qed.

Lemma sumZ_nonneg f l : (forall r, In r l -> 0 <= f r) -> 0 <= sumZ f l.
Proof.
  induction l as [|r l IH]; cbn; intros H; [lia|].
  pose proof (H r (or_introl eq_refl)).
  assert (0 <= sumZ f l) by (apply IH; intros; apply H; by right).
  unfold sumZ in *. lia.
Qed.

Lemma sumZ_le f g l : (forall r, In r l -> f r <= g r) -> sumZ f l <= sumZ g l.
Proof.
  induction l as [|r l IH]; cbn; intros H; [lia|].
  pose proof (H r (or_introl eq_refl)).
  assert (sumZ f l <= sumZ g l) by (apply IH; intros; apply H; by right).
  unfold sumZ in *. lia.
Qed.

Lemma sumZ_ext f g l : (forall r, In r l -> f r = g r) -> sumZ f l = sumZ g l.
Proof.
  intros H. apply Z.le_antisymm; apply sumZ_le; intros r Hr; rewrite (H r Hr); lia.
Qed.

Lemma sumZ_zero f l : (forall r, In r l -> f r = 0) -> sumZ f l = 0.
Proof.
  induction l as [|r l IH]; intros H; [done|].
  rewrite sumZ_cons, (H r), IH; [done | intros; apply H; by right | by left].
Qed.

Lemma sumZ_add f g l : sumZ (fun r => f r + g r) l = sumZ f l + sumZ g l.
Proof. induction l; cbn; [done|]. unfold sumZ in *. lia. Qed.

Lemma sumZ_filter f (p : R -> bool) l :
  sumZ f (List.filter p l) = sumZ (fun r => if p r then f r else 0) l.
Proof.
  induction l as [|r l IH]; cbn; [done|].
  destruct (p r); cbn; unfold sumZ in *; rewrite IH; lia.
Qed.
End Sums.
Arguments sumZ {R} f l : simpl never.

Lemma sumZ_map {A B} (f : A -> B) (g : B -> Z) l : sumZ g (map f l) = sumZ (fun a => g (f a)) l.
Proof. induction l; [done|]. cbn [map]. rewrite !sumZ_cons. by rewrite IHl. Qed.

#[export] Hint Rewrite @sumZ_app @sumZ_cons : rq_rw.

(** ** SQLite tables as row lists

    A table is the list of its rows in insertion order; [select] is [SELECT ... WHERE],
    [fetchone] the first row of it and [update] is [UPDATE ... WHERE]. *)

Section Tables.
Context {R : Type}.
Implicit Types (p q : R -> bool) (t : list R).

Definition select p t : list R := List.filter p t.
Definition fetchone p t : option R := List.find p t.
Definition update p (f : R -> R) t : list R := map (fun r => if p r then f r else r) t.
Definition exists_row p t : bool := existsb p t.

Lemma fetchone_Some p t r : fetchone p t = Some r -> In r t /\ p r = true.
Proof. apply List.find_some. Qed.

Lemma fetchone_None p t : fetchone p t = None <-> forall r, In r t -> p r = false.
Proof.
  split; [apply List.find_none|].
  induction t as [|x t IH]; cbn; intros H; [done|].
  rewrite (H x) by auto. apply IH. eauto.
Qed.

Lemma exists_row_false p t : exists_row p t = false <-> forall r, In r t -> p r = false.
Proof.
  unfold exists_row. rewrite <- not_true_iff_false, existsb_exists. split.
  - intros H r Hr. destruct (p r) eqn:E; [|done]. destruct H; eauto.
  - intros H (r & Hr & E). rewrite (H r Hr) in E. done.
Qed.

Lemma In_update p f t r :
  In r (update p f t) <-> exists r0, In r0 t /\ r = (if p r0 then f r0 else r0).
Proof. unfold update. rewrite in_map_iff. naive_solver. Qed.

(** A key column no update touches stays duplicate free. *)
Lemma update_map_key {K} (key : R -> K) p f t :
  (forall r, key (f r) = key r) -> map key (update p f t) = map key t.
Proof.
  intros H. unfold update. rewrite map_map. apply map_ext. intros r.
  destruct (p r); auto.
Qed.

(** With duplicate-free keys, a row is determined by its key. *)
Lemma NoDup_key_eq {K} (key : R -> K) t r1 r2 :
  List.NoDup (map key t) -> In r1 t -> In r2 t -> key r1 = key r2 -> r1 = r2.
Proof.
  induction t as [|x t IH]; cbn; intros Hnd H1 H2 Hk; [done|].
  inversion Hnd as [|? ? Hnin Hnd']; subst.
  destruct H1 as [->|H1], H2 as [->|H2]; auto.
  - destruct Hnin. rewrite Hk. by apply in_map.
  - destruct Hnin. rewrite <- Hk. by apply in_map.
Qed.

Lemma NoDup_key_app {K} (key : R -> K) t r :
  List.NoDup (map key t) -> (forall r', In r' t -> key r' <> key r) ->
  List.NoDup (map key (t ++ [r])).
Proof.
  intros Hnd Hfr. rewrite map_app. apply List.NoDup_app; [done| |].
  - repeat constructor. by intros [].
  - intros k Hk [<-|[]]. apply in_map_iff in Hk as (r' & Hr' & Hin). by apply (Hfr r').
Qed.

Lemma update_none p f t : (forall r, In r t -> p r = false) -> update p f t = t.
Proof.
  intros H. unfold update. rewrite <- (map_id t) at 2. apply map_ext_in.
  intros r Hr. by rewrite (H r Hr).
Qed.

(** Updating the one row a key selects changes a sum by that row's difference. *)
Lemma sumZ_update_key {K} (key : R -> K) p f (g : R -> Z) t r :
  List.NoDup (map key t) -> In r t -> p r = true ->
  (forall r', In r' t -> p r' = true -> key r' = key r) ->
  sumZ g (update p f t) = sumZ g t - g r + g (f r).
Proof.
  induction t as [|x t IH]; intros Hnd Hin Hp Hk; [done|].
  cbn [map] in Hnd. inversion Hnd as [|? ? Hnin Hnd']; subst.
  change (update p f (x :: t)) with ((if p x then f x else x) :: update p f t).
  rewrite !sumZ_cons. destruct Hin as [->|Hin].
  - rewrite Hp, update_none; [lia|]. intros y Hy. destruct (p y) eqn:Ey; [|done].
    destruct Hnin. rewrite <- (Hk y (or_intror Hy) Ey). by apply in_map.
  - destruct (p x) eqn:Ex.
    { destruct Hnin. rewrite (Hk x (or_introl eq_refl) Ex). by apply in_map. }
    rewrite IH; auto; [lia|]. intros y Hy. apply Hk. by right.
Qed.

(** A selected row, looked up again after an update that leaves its selector alone. *)
Lemma fetchone_update p q f t :
  (forall r, q (if p r then f r else r) = q r) ->
  fetchone q (update p f t) = (fun r => if p r then f r else r) <$> fetchone q t.
Proof.
  intros H. induction t as [|x t IH]; [done|].
  cbn. rewrite H. destruct (q x); [done|]. apply IH.
Qed.

Lemma fetchone_app p t r : fetchone p t = None -> fetchone p (t ++ [r]) =
  if p r then Some r else None.
Proof.
  intros H. induction t as [|x t IH]; cbn in *; [done|].
  destruct (p x); [done|]. auto.
Qed.

Lemma Forall2_update_l {S} (P : R -> S -> Prop) p f t (k : list S) :
  Forall2 P (update p f t) k -> Forall2 (fun r s => P (if p r then f r else r) s) t k.
Proof.
  revert k. induction t as [|r t IH]; intros k H; cbn in H; inversion H; constructor; auto.
Qed.

Lemma In_snoc t r x : In x (t ++ [r]) <-> In x t \/ x = r.
Proof. rewrite in_app_iff. cbn. naive_solver. Qed.
End Tables.

Arguments select {R} p t : simpl never.
Arguments fetchone {R} p t : simpl never.
Arguments update {R} p f t : simpl never.
Arguments exists_row {R} p t : simpl never.

#[export] Hint Resolve fetchone_Some NoDup_key_app : rq.

Lemma update_update {R} (p : R -> bool) f g t : (forall r, p (g r) = p r) ->
  update p f (update p g t) = update p (fun r => f (g r)) t.
Proof.
  intros H. unfold update. rewrite map_map. apply map_ext. intros r.
  destruct (p r) eqn:E; [by rewrite H, E | by rewrite E].
Qed.

(** ** Strings as SQL and Python compare them *)

Definition eqs (a b : string) : bool := bool_decide (a = b).

Lemma eqs_true a b : eqs a b = true <-> a = b.
Proof. unfold eqs. apply bool_decide_eq_true. Qed.
Lemma eqs_false a b : eqs a b = false <-> a <> b.
Proof. unfold eqs. apply bool_decide_eq_false. Qed.
Lemma eqs_refl a : eqs a a = true.
Proof. by apply eqs_true. Qed.

Ltac str_hyps := repeat match goal with
  | H : eqs _ _ = true |- _ => apply eqs_true in H
  | H : eqs _ _ = false |- _ => apply eqs_false in H
  | H : _ && _ = true |- _ => apply andb_true_iff in H as [? ?]
  end.

(** [re.fullmatch("[0-9a-f]{64}")]. *)
Definition is_hex (c : Ascii.ascii) : bool :=
  let n := Ascii.nat_of_ascii c in
  ((48 <=? n) && (n <=? 57) || (97 <=? n) && (n <=? 102))%nat.

Fixpoint all_hex (s : string) : bool :=
  match s with EmptyString => true | String c s => is_hex c && all_hex s end.

Definition is_hex64 (s : string) : bool := (String.length s =? 64)%nat && all_hex s.

Lemma hex_not_space c : is_hex c = true -> py_space c = false.
Proof.
  unfold is_hex, py_space. generalize (Ascii.nat_of_ascii c). intros n H.
  apply orb_true_iff in H as [H|H]; apply andb_true_iff in H as [H1 H2];
    apply Nat.leb_le in H1, H2; apply orb_false_iff; rewrite !andb_false_iff, !Nat.leb_gt; lia.
Qed.

Lemma strip_hex s : all_hex s = true -> strip s = s.
Proof.
  intros H. unfold strip.
  assert (lstrip s = s) as ->.
  { destruct s as [|c s]; [done|]. cbn in *. apply andb_true_iff in H as [Hc _].
    by rewrite (hex_not_space c Hc). }
  induction s as [|c s IH]; [done|]. cbn in *. apply andb_true_iff in H as [Hc H].
  rewrite (IH H). destruct s; [by rewrite (hex_not_space c Hc)|done].
Qed.

Lemma strip_hex64 s : is_hex64 s = true -> strip s = s.
Proof. unfold is_hex64. intros [_ H]%andb_true_iff. by apply strip_hex. Qed.

Lemma fetchone_key {R} (key : R -> string) (t : list R) r (p : string -> R -> bool) :
  (forall k x, p k x = eqs (key x) k) -> List.NoDup (map key t) -> In r t ->
  fetchone (p (key r)) t = Some r.
Proof.
  intros Hp Hnd Hin. destruct (fetchone (p (key r)) t) as [r'|] eqn:E.
  - apply fetchone_Some in E as [Hin' He]. rewrite Hp in He. str_hyps. f_equal.
    by apply (NoDup_key_eq key t).
  - rewrite fetchone_None in E. specialize (E r Hin). by rewrite Hp, eqs_refl in E.
Qed.

(** ** Transactions

    [txn s body]: the body either raises, and the store is rolled back, or yields the
    committed store together with what is returned after the commit. *)
Definition txn {S A} (s : S) (body : res (S * res A)) : S * res A :=
  match body with
  | Ok (s', r) => (s', r)
  | Err e => (s, Err e)
  end.

Definition committed {S A} (s : S) (a : A) : res (S * res A) := Ok (s, Ok a).

Lemma txn_cases {S A} (s : S) (body : res (S * res A)) :
  fst (txn s body) = s \/ exists s' r, body = Ok (s', r) /\ fst (txn s body) = s'.
Proof. destruct body as [[s' r]|e]; cbn; [right; eauto|by left]. Qed.

(** A method that raised before its commit left the store alone; otherwise look at the body. *)
Ltac txn_case H :=
  match goal with
  | |- context [fst (txn ?s ?b)] =>
      let s' := fresh "s'" in let r := fresh "r" in
      destruct (txn_cases s b) as [->|(s' & r & H & ->)]; [constructor|]
  end.

Lemma txn_err {S A} (s : S) (b : res (S * res A)) e : b = Err e -> fst (txn s b) = s.
Proof. by intros ->. Qed.

(** ** Constraint failures of SQLite *)

Definition sql_int (z : Z) : bool := in_int64 z.

Definition integrity {A} (what : string) : res A := Err (Raise IntegrityError what).
Definition too_large {A} : res A :=
  Err (Raise OverflowError "Python int too large to convert to SQLite INTEGER").
