(* ===== verification/Sequences.v ===== *)
(** * Numbered rows

    Tables whose rows are numbered without gaps in the order they were added: selecting a range of
    numbers is taking a slice, and sorting by number changes nothing.  The pages of the signal bus and
    the batches of the signal router rest on it. *)

From Stdlib Require Import ZArith Lia Bool.
From stdpp Require Import base list sorting.
From S2P Require Import Prelude.
Open Scope Z_scope.
Open Scope rq_scope.

Section Numbered.
Context {R : Type} {key : R -> Z}.

(** A list of rows numbered from [k + 1] on. *)
Definition numbered_by (k : Z) (l : list R) : Prop :=
  forall i e, nth_error l i = Some e -> key e = k + Z.of_nat i + 1.

Lemma numbered_tail k e l : numbered_by k (e :: l) -> numbered_by (k + 1) l.
Proof. intros H i x Hx. specialize (H (S i) x Hx). lia. Qed.

Lemma numbered_head k e l : numbered_by k (e :: l) -> key e = k + 1.
Proof. intros H. specialize (H 0%nat e eq_refl). lia. Qed.

Lemma numbered_lower k l e : numbered_by k l -> In e l -> k < key e.
Proof. intros H [i Hi]%In_nth_error. rewrite (H i e Hi). lia. Qed.

Definition in_page (a t : Z) (e : R) : bool :=
  (a <? key e) && (key e <=? t).

(** Selecting a range of numbers is taking a slice. *)
Lemma select_slice l k (a t : nat) : numbered_by k l -> (a <= t)%nat ->
  select (in_page (k + Z.of_nat a) (k + Z.of_nat t)) l = take (t - a) (drop a l).
Proof.
  unfold select. revert k a t. induction l as [|e l IH]; intros k a t Hn Hat.
  - cbn. rewrite drop_nil, take_nil. done.
  - pose proof (numbered_head _ _ _ Hn) as He. pose proof (numbered_tail _ _ _ Hn) as Hn'.
    cbn [List.filter]. unfold in_page at 1. rewrite He.
    destruct a as [|a].
    + rewrite (proj2 (Z.ltb_lt _ _)) by lia. cbn [andb drop]. destruct t as [|t].
      * rewrite (proj2 (Z.leb_gt _ _)) by lia. cbn [take].
        destruct (List.filter _ l) as [|x r] eqn:E; [done|]. exfalso.
        assert (In x (x :: r)) as Hx by by left. rewrite <- E in Hx. apply filter_In in Hx as [Hx Hp].
        unfold in_page in Hp. bool_hyps. pose proof (numbered_lower _ _ _ Hn' Hx). lia.
      * rewrite (proj2 (Z.leb_le _ _)) by lia. cbn [take Nat.sub]. f_equal.
        pose proof (IH (k + 1) 0%nat t Hn' ltac:(lia)) as E. rewrite drop_0, Nat.sub_0_r in E. rewrite <- E.
        apply filter_ext_in. intros x Hx. pose proof (numbered_lower _ _ _ Hn' Hx). unfold in_page.
        rewrite !(proj2 (Z.ltb_lt _ _)) by lia. cbn [andb]. f_equal. lia.
    + rewrite (proj2 (Z.ltb_ge _ _)) by lia. cbn [andb drop]. destruct t as [|t]; [lia|].
      cbn [Nat.sub]. rewrite <- (IH (k + 1) a t Hn') by lia. unfold in_page.
      apply List.filter_ext. intros x. f_equal; f_equal; lia.
Qed.

Lemma numbered_drop k l n : numbered_by k l -> numbered_by (k + Z.of_nat n) (drop n l).
Proof.
  revert k n. induction l as [|e l IH]; intros k n H.
  - rewrite drop_nil. by intros [|i].
  - destruct n as [|n]; [by replace (k + Z.of_nat 0) with k by lia|].
    cbn [drop]. replace (k + Z.of_nat (S n)) with (k + 1 + Z.of_nat n) by lia.
    by apply IH, (numbered_tail _ e).
Qed.

Lemma nth_error_take {A} (l : list A) n i x : nth_error (take n l) i = Some x -> nth_error l i = Some x.
Proof.
  revert n i. induction l as [|y l IH]; intros [|n] [|i] Hx; cbn in *; try done. by eapply IH.
Qed.

Lemma nth_error_drop {A} (l : list A) n i x : nth_error (drop n l) i = Some x -> nth_error l (n + i) = Some x.
Proof.
  revert n. induction l as [|y l IH]; intros [|n] Hx; cbn in *; try done; [by destruct i|by apply IH].
Qed.

Lemma numbered_take k l n : numbered_by k l -> numbered_by k (take n l).
Proof. intros H i e Hi. by apply H, (nth_error_take l n). Qed.

(** A numbered list is its own sorted order. *)
Lemma numbered_sorted (le : relation R) `{!RelDecision le} k l : (forall a b, le a b <-> key a <= key b) ->
  numbered_by k l -> merge_sort le l = l.
Proof.
  intros Hle Hn. assert (Sorted le l) as Hs.
  { revert k Hn. induction l as [|e l IH]; intros k Hn; constructor.
    - by eapply IH, numbered_tail.
    - pose proof (numbered_head _ _ _ Hn). pose proof (numbered_tail _ _ _ Hn) as Ht.
      destruct l as [|e' l]; constructor. pose proof (numbered_head _ _ _ Ht). apply Hle. lia. }
  assert (Total le) by (intros x y; rewrite !Hle; lia).
  assert (Transitive le) by (intros x y z; rewrite !Hle; lia).
  apply (Sorted_unique_strong le); [|by apply Sorted_merge_sort|done|apply merge_sort_Permutation].
  intros x y Hx Hy H1 H2. rewrite merge_sort_Permutation in Hx.
  apply list_elem_of_In, In_nth_error in Hx as [i Hi]. apply list_elem_of_In, In_nth_error in Hy as [j Hj].
  rewrite Hle in H1, H2. pose proof (Hn i x Hi). pose proof (Hn j y Hj).
  assert (i = j) as -> by lia. congruence.
Qed.
End Numbered.
Arguments numbered_by {R} key k l.
Arguments in_page {R} key a t e.
