(* ===== verification/Clock.v ===== *)
(** * Instants, civil dates and ISO text

    Models the time values the runtime passes around: [datetime.datetime] as a number of
    microseconds since 0001-01-01T00:00:00 UTC, [normalize_aware_utc] of
    [runtime_contracts.py], and [_iso] of [source_quota_store.py], whose text the SQLite
    stores compare with [<] and [>].  The main result is that this comparison of texts is
    the comparison of instants, so that the other files may keep instants in their rows. *)

From Stdlib Require Import ZArith Lia Bool.
From stdpp Require Import base list strings pretty.
From S2P Require Import Prelude.
Open Scope Z_scope.
Open Scope rq_scope.

Definition us_per_second : Z := 1000000.
Definition us_per_minute : Z := 60 * us_per_second.
Definition us_per_day : Z := 86400 * us_per_second.

(** [datetime.max], 9999-12-31T23:59:59.999999; [date.max.toordinal()] is 3652059. *)
Definition max_ordinal : Z := 3652059.
Definition max_instant : Z := max_ordinal * us_per_day - 1.

Definition in_range (t : Z) : bool := (0 <=? t) && (t <=? max_instant).

(** A [datetime] argument: [Aware] carries the UTC instant its offset gives. *)
Inductive pydatetime :=
  | Aware (utc_us : Z)
  | Naive (local_us : Z).

(** [value.astimezone(UTC)] leaves the supported range with an [OverflowError]. *)
Definition normalize_aware_utc (value : pydatetime) : res Z :=
  match value with
  | Naive _ => Err (Raise ValueError "datetime must be timezone-aware")
  | Aware t => if in_range t then Ok t else Err (Raise OverflowError "date value out of range")
  end.

(** [datetime + timedelta]. *)
Definition add_us (t d : Z) : res Z :=
  if in_range (t + d) then Ok (t + d) else Err (Raise OverflowError "date value out of range").

Lemma normalize_aware_utc_ok d t :
  normalize_aware_utc d = Ok t <-> d = Aware t /\ in_range t = true.
Proof.
  destruct d as [u|u]; cbn; [|split; [done | by intros [? ?]]].
  destruct (in_range u) eqn:E; split.
  - by intros [= ->].
  - by intros [[= ->] _].
  - done.
  - intros [[= ->] ?]; congruence.
Qed.

Lemma add_us_ok t d r : add_us t d = Ok r -> r = t + d /\ in_range r = true.
Proof. unfold add_us. destruct (in_range (t + d)) eqn:E; [by intros [= <-]|done]. Qed.

(** ** Civil dates: [date.fromordinal] and [date.toordinal] *)

Definition is_leap (y : Z) : bool :=
  (y mod 4 =? 0) && (negb (y mod 100 =? 0) || (y mod 400 =? 0)).

Definition days_before_year (y : Z) : Z :=
  (y - 1) * 365 + (y - 1) / 4 - (y - 1) / 100 + (y - 1) / 400.

Definition days_in_month (y m : Z) : Z :=
  if (m =? 2) && is_leap y then 29
  else match m with
       | 4 | 6 | 9 | 11 => 30
       | 2 => 28
       | _ => 31
       end.

Definition days_before_month (y m : Z) : Z :=
  let leap := if is_leap y then 1 else 0 in
  match m with
  | 1 => 0 | 2 => 31 | 3 => 59 + leap | 4 => 90 + leap | 5 => 120 + leap
  | 6 => 151 + leap | 7 => 181 + leap | 8 => 212 + leap | 9 => 243 + leap
  | 10 => 273 + leap | 11 => 304 + leap | _ => 334 + leap
  end.

(** [toordinal]: the day number, 0001-01-01 being 1. *)
Definition ymd2ord (y m d : Z) : Z := days_before_year y + days_before_month y m + d.

(** [fromordinal], by 400, 100, 4 and 1 year cycles. *)
Definition ord_year (n : Z) : Z * Z :=
  let n := n - 1 in
  let n400 := n / 146097 in let n := n mod 146097 in
  let n100 := n / 36524 in let n := n mod 36524 in
  let n4 := n / 1461 in let n := n mod 1461 in
  let n1 := n / 365 in let n := n mod 365 in
  let year := n400 * 400 + n100 * 100 + n4 * 4 + n1 in
  if (n1 =? 4) || (n100 =? 4) then (year, 365) else (year + 1, n).

Fixpoint month_of (fuel : nat) (y m n : Z) : Z * Z :=
  match fuel with
  | O => (m, n)
  | S fuel => if n <? days_in_month y m then (m, n) else month_of fuel y (m + 1) (n - days_in_month y m)
  end.

Definition ord2ymd (n : Z) : Z * Z * Z :=
  let (y, r) := ord_year n in
  let (m, d) := month_of 12 y 1 r in (y, m, d + 1).

Definition valid_ymd (y m d : Z) : Prop :=
  1 <= m <= 12 /\ 1 <= d <= days_in_month y m.

Definition year_len (y : Z) : Z := if is_leap y then 366 else 365.

(** The one place the leap-year test is related to the closed form of the day count. *)
Lemma days_before_year_succ y : days_before_year (y + 1) = days_before_year y + year_len y.
Proof.
  unfold days_before_year, year_len, is_leap.
  destruct (Z.eqb_spec (y mod 4) 0), (Z.eqb_spec (y mod 100) 0), (Z.eqb_spec (y mod 400) 0);
    cbn [andb orb negb]; divlia.
Qed.

Lemma year_len_bounds y : 365 <= year_len y <= 366.
Proof. unfold year_len. destruct (is_leap y); lia. Qed.

Ltac month_cases m :=
  let H := fresh in
  assert (m = 1 \/ m = 2 \/ m = 3 \/ m = 4 \/ m = 5 \/ m = 6 \/ m = 7 \/ m = 8 \/ m = 9
          \/ m = 10 \/ m = 11 \/ m = 12) as H by lia;
  repeat (destruct H as [H|H]; [subst m|]); [..|subst m].

Lemma days_before_month_succ y m : 1 <= m < 12 ->
  days_before_month y (m + 1) = days_before_month y m + days_in_month y m.
Proof.
  intros Hm. unfold days_before_month, days_in_month.
  month_cases m; try lia; destruct (is_leap y); reflexivity.
Qed.

Lemma days_in_month_bounds y m : 28 <= days_in_month y m <= 31.
Proof.
  unfold days_in_month. destruct ((m =? 2) && is_leap y); [lia|].
  destruct m as [|p|p]; try lia.
  do 4 (destruct p as [p|p|]; try lia).
Qed.

Lemma month_end y m d : valid_ymd y m d ->
  1 <= days_before_month y m + d <= year_len y.
Proof.
  intros [Hm Hd]. unfold year_len, days_in_month, days_before_month in *.
  month_cases m; destruct (is_leap y); cbn in *; lia.
Qed.

(** Lexicographic order of dates is the order of their ordinals. *)
Lemma days_before_year_mono y1 y2 : y1 < y2 ->
  days_before_year y1 + year_len y1 <= days_before_year y2.
Proof.
  intros H. rewrite <- days_before_year_succ. unfold days_before_year. divlia.
Qed.

Lemma days_before_month_mono y m1 m2 : 1 <= m1 -> m1 < m2 -> m2 <= 12 ->
  days_before_month y m1 + days_in_month y m1 <= days_before_month y m2.
Proof.
  intros H1 H12 H2. rewrite <- days_before_month_succ by lia.
  assert (forall n, (Z.of_nat n + (m1 + 1) <= 12) ->
    days_before_month y (m1 + 1) <= days_before_month y (Z.of_nat n + (m1 + 1))) as Hs.
  { induction n as [|n IH]; [change (Z.of_nat 0) with 0; rewrite Z.add_0_l; lia|]. intros Hn.
    rewrite Nat2Z.inj_succ.
    replace (Z.succ (Z.of_nat n) + (m1 + 1)) with ((Z.of_nat n + (m1 + 1)) + 1) by lia.
    etransitivity; [apply IH; lia|]. set (k := Z.of_nat n + (m1 + 1)) in *.
    rewrite (days_before_month_succ y k) by lia. pose proof (days_in_month_bounds y k). lia. }
  specialize (Hs (Z.to_nat (m2 - (m1 + 1)))).
  rewrite Z2Nat.id in Hs by lia. replace (m2 - (m1 + 1) + (m1 + 1)) with m2 in Hs by lia.
  apply Hs. lia.
Qed.

Definition lexc (c1 c2 : comparison) : comparison :=
  match c1 with Eq => c2 | _ => c1 end.

Lemma ymd2ord_compare y1 m1 d1 y2 m2 d2 :
  valid_ymd y1 m1 d1 -> valid_ymd y2 m2 d2 ->
  lexc (y1 ?= y2) (lexc (m1 ?= m2) (d1 ?= d2)) = (ymd2ord y1 m1 d1 ?= ymd2ord y2 m2 d2).
Proof.
  intros H1 H2. pose proof (month_end _ _ _ H1). pose proof (month_end _ _ _ H2).
  destruct H1 as [Hm1 Hd1], H2 as [Hm2 Hd2]. unfold ymd2ord. symmetry.
  destruct (Z.compare_spec y1 y2) as [->|Hy|Hy]; cbn [lexc].
  - destruct (Z.compare_spec m1 m2) as [->|Hm|Hm]; cbn [lexc].
    + destruct (Z.compare_spec d1 d2); [apply Z.compare_eq_iff | apply Z.compare_lt_iff
        | apply Z.compare_gt_iff]; lia.
    + pose proof (days_before_month_mono y2 m1 m2). apply Z.compare_lt_iff. lia.
    + pose proof (days_before_month_mono y2 m2 m1). apply Z.compare_gt_iff. lia.
  - pose proof (days_before_year_mono y1 y2 Hy). apply Z.compare_lt_iff. lia.
  - pose proof (days_before_year_mono y2 y1 Hy). apply Z.compare_gt_iff. lia.
Qed.

(** [fromordinal] inverts [toordinal]. *)
Lemma ord_year_spec n : 1 <= n ->
  let (y, r) := ord_year n in
  n = days_before_year y + r + 1 /\ 0 <= r < year_len y /\ 1 <= y.
Proof.
  intros Hn. unfold ord_year.
  assert (exists k, n = k + 1 /\ 0 <= k) as (k & -> & Hk) by (exists (n - 1); lia).
  replace (k + 1 - 1) with k by lia.
  pose proof (Z.div_mod k 146097 ltac:(lia)). pose proof (Z.mod_pos_bound k 146097 ltac:(lia)).
  set (n400 := k / 146097) in *. set (r4 := k mod 146097) in *.
  pose proof (Z.div_mod r4 36524 ltac:(lia)). pose proof (Z.mod_pos_bound r4 36524 ltac:(lia)).
  set (n100 := r4 / 36524) in *. set (r1 := r4 mod 36524) in *.
  pose proof (Z.div_mod r1 1461 ltac:(lia)). pose proof (Z.mod_pos_bound r1 1461 ltac:(lia)).
  set (n4 := r1 / 1461) in *. set (q := r1 mod 1461) in *.
  pose proof (Z.div_mod q 365 ltac:(lia)). pose proof (Z.mod_pos_bound q 365 ltac:(lia)).
  set (n1 := q / 365) in *. set (r := q mod 365) in *.
  assert (0 <= n400 /\ 0 <= n100 <= 4 /\ 0 <= n4 <= 24 /\ 0 <= n1 <= 4) as (? & ? & ? & ?) by lia.
  clearbody n400 r4 n100 r1 n4 q n1 r.
  destruct (Z.eqb_spec n1 4) as [->|]; [|destruct (Z.eqb_spec n100 4) as [->|]]; cbn [orb].
  - assert (n100 <= 3) by lia. assert (n100 < 3 -> n4 <= 24) by lia.
    unfold days_before_year, year_len, is_leap.
    replace ((n400 * 400 + n100 * 100 + n4 * 4 + 4) mod 4) with 0 by divlia.
    destruct (Z.eqb_spec ((n400 * 400 + n100 * 100 + n4 * 4 + 4) mod 100) 0),
      (Z.eqb_spec ((n400 * 400 + n100 * 100 + n4 * 4 + 4) mod 400) 0); cbn; divlia.
  - assert (n4 = 0 /\ n1 = 0 /\ r = 0) as (-> & -> & ->) by lia.
    unfold days_before_year, year_len, is_leap.
    replace ((n400 * 400 + 4 * 100 + 0 * 4 + 0) mod 4) with 0 by divlia.
    replace ((n400 * 400 + 4 * 100 + 0 * 4 + 0) mod 400) with 0 by divlia.
    replace ((n400 * 400 + 4 * 100 + 0 * 4 + 0) mod 100) with 0 by divlia. cbn. divlia.
  - pose proof (year_len_bounds (n400 * 400 + n100 * 100 + n4 * 4 + n1 + 1)).
    unfold days_before_year. divlia.
Qed.

Lemma month_of_spec fuel y m n : 1 <= m <= 12 -> m + Z.of_nat fuel = 13 ->
  0 <= n < year_len y - days_before_month y m ->
  let (m', d) := month_of fuel y m n in
  valid_ymd y m' (d + 1) /\ days_before_month y m' + d = days_before_month y m + n.
Proof.
  revert m n. induction fuel as [|fuel IH]; intros m n Hm Hf Hn; cbn [month_of].
  - lia.
  - destruct (Z.ltb_spec n (days_in_month y m)).
    + split; [split; lia | lia].
    + destruct (Z.eq_dec m 12) as [->|Hne].
      * exfalso. unfold year_len, days_before_month, days_in_month in *.
        destruct (is_leap y); cbn in *; lia.
      * pose proof (days_before_month_succ y m ltac:(lia)) as Hs.
        specialize (IH (m + 1) (n - days_in_month y m)).
        destruct (month_of fuel y (m + 1) (n - days_in_month y m)) as [m' d].
        destruct IH as [? ?]; [lia|lia|lia|]. split; [done|lia].
Qed.

Lemma ord2ymd_spec n : 1 <= n ->
  let '(y, m, d) := ord2ymd n in valid_ymd y m d /\ ymd2ord y m d = n /\ 1 <= y.
Proof.
  intros Hn. unfold ord2ymd. pose proof (ord_year_spec n Hn) as Hy.
  destruct (ord_year n) as [y r]. destruct Hy as (Hn' & Hr & Hy1).
  pose proof (month_of_spec 12 y 1 r ltac:(lia) ltac:(lia)) as Hm.
  destruct (month_of 12 y 1 r) as [m d].
  destruct Hm as [Hv Hm]; [change (days_before_month y 1) with 0; lia|].
  split_and!; [done| |lia]. unfold ymd2ord.
  change (days_before_month y 1) with 0 in Hm. lia.
Qed.

Lemma ord2ymd_year_bound n y m d : 1 <= n <= max_ordinal -> ord2ymd n = (y, m, d) ->
  1 <= y <= 9999 /\ valid_ymd y m d /\ ymd2ord y m d = n.
Proof.
  intros Hn E. pose proof (ord2ymd_spec n ltac:(lia)) as H. rewrite E in H.
  destruct H as (Hv & Ho & Hy). split_and!; try done.
  destruct (Z.leb_spec y 9999); [done|]. exfalso.
  pose proof (month_end _ _ _ Hv). unfold ymd2ord in Ho.
  assert (days_before_year 10000 <= days_before_year y)
    by (unfold days_before_year; divlia).
  change (days_before_year 10000) with 3652059 in *. unfold max_ordinal in *. lia.
Qed.

(** ** ISO 8601 text *)

Definition digit (d : Z) : Ascii.ascii := Ascii.ascii_of_N (Z.to_N (48 + d)).

(** [w] decimal digits, most significant first ([f"{n:0{w}d}"]). *)
Fixpoint digits (w : nat) (n : Z) : string :=
  match w with
  | O => EmptyString
  | S w' => String (digit (n / 10 ^ Z.of_nat w' mod 10)) (digits w' n)
  end.

Definition date_text (sep : string) (n : Z) : string :=
  let '(y, m, d) := ord2ymd n in
  digits 4 y +:+ sep +:+ digits 2 m +:+ sep +:+ digits 2 d.

Definition ordinal_of (t : Z) : Z := t / us_per_day + 1.
Definition hour_of (t : Z) : Z := t / (60 * us_per_minute) mod 24.
Definition minute_of (t : Z) : Z := t / us_per_minute mod 60.
Definition second_of (t : Z) : Z := t / us_per_second mod 60.
Definition micro_of (t : Z) : Z := t mod us_per_second.

(** [isoformat(timespec="microseconds")] of a UTC instant, up to the UTC marker. *)
Definition isoformat (marker : string) (t : Z) : string :=
  date_text "-" (ordinal_of t) +:+ "T" +:+ digits 2 (hour_of t) +:+ ":"
  +:+ digits 2 (minute_of t) +:+ ":" +:+ digits 2 (second_of t) +:+ "."
  +:+ digits 6 (micro_of t) +:+ marker.

(** [_iso] of the quota store, and [_encode_time] of the signal bus, which writes [Z]. *)
Definition iso (t : Z) : string := isoformat "+00:00" t.
Definition encode_time (t : Z) : string := isoformat "Z" t.

(** [strftime("%Y%m%d")] and [strftime("%Y%m%dT%H%MZ")]. *)
Definition strftime_day (t : Z) : string := date_text "" (ordinal_of t).
Definition strftime_minute (t : Z) : string :=
  date_text "" (ordinal_of t) +:+ "T" +:+ digits 2 (hour_of t) +:+ digits 2 (minute_of t) +:+ "Z".

Example iso_example : iso (ymd2ord 2026 7 6 * us_per_day - us_per_day + 34200000001)
  = "2026-07-06T09:30:00.000001+00:00"%string.
Proof. vm_compute. reflexivity. Qed.

Lemma compare_cons c1 s1 c2 s2 :
  String.compare (String c1 s1) (String c2 s2) =
  lexc (Ascii.compare c1 c2) (String.compare s1 s2).
Proof. unfold lexc. cbn. by destruct (Ascii.compare c1 c2). Qed.

Lemma append_cons c s t : (String c s +:+ t)%string = String c (s +:+ t).
Proof. reflexivity. Qed.

Lemma append_assoc (s t u : string) : ((s +:+ t) +:+ u)%string = (s +:+ (t +:+ u))%string.
Proof. induction s as [|c s IH]; [done|]. by rewrite !append_cons, IH. Qed.

(** Comparing two fixed-width numerals, then whatever follows them. *)
Lemma digit_compare a b : 0 <= a < 10 -> 0 <= b < 10 ->
  Ascii.compare (digit a) (digit b) = (a ?= b).
Proof.
  intros Ha Hb. unfold Ascii.compare, digit.
  rewrite !Ascii.N_ascii_embedding by lia.
  rewrite <- N2Z.inj_compare, !Z2N.id by lia.
  rewrite <- (Z.add_compare_mono_l 48 a b). done.
Qed.

Lemma digits_mod w n : digits w n = digits w (n mod 10 ^ Z.of_nat w).
Proof.
  assert (forall k, (w <= k)%nat -> digits w n = digits w (n mod 10 ^ Z.of_nat k)) as H; [|by apply H].
  induction w as [|w IH]; intros k Hk; [done|]. cbn [digits].
  rewrite <- IH by lia. do 2 f_equal.
  replace (Z.of_nat k) with (Z.of_nat w + (1 + (Z.of_nat k - Z.of_nat w - 1))) by lia.
  rewrite !Z.pow_add_r by lia. set (j := 10 ^ (Z.of_nat k - Z.of_nat w - 1)).
  assert (0 < j) by (apply Z.pow_pos_nonneg; lia).
  assert (0 < 10 ^ Z.of_nat w) by (apply Z.pow_pos_nonneg; lia).
  rewrite Z.rem_mul_r, Z.mul_comm, Z.div_add by lia.
  rewrite (Z.div_small (n mod _)) by (apply Z.mod_pos_bound; lia).
  change (10 ^ 1) with 10. rewrite Z.add_0_l, Z.rem_mul_r by lia.
  rewrite (Z.mul_comm 10), Z.mod_add, Z.mod_mod by lia. done.
Qed.

Lemma digits_compare w a b s t :
  0 <= a < 10 ^ Z.of_nat w -> 0 <= b < 10 ^ Z.of_nat w ->
  String.compare (digits w a +:+ s) (digits w b +:+ t) = lexc (a ?= b) (String.compare s t).
Proof.
  revert a b. induction w as [|w IH]; intros a b Ha Hb; cbn [digits].
  - change (10 ^ Z.of_nat 0) with 1 in *. assert (a = b) as -> by lia.
    by rewrite Z.compare_refl.
  - rewrite Nat2Z.inj_succ, Z.pow_succ_r in * by lia.
    set (k := 10 ^ Z.of_nat w) in *.
    assert (0 < k) by (apply Z.pow_pos_nonneg; lia).
    assert (forall x, 0 <= x < 10 * k -> 0 <= x / k < 10) as Hdiv.
    { intros x Hx. split; [apply Z.div_pos; lia | apply Z.div_lt_upper_bound; lia]. }
    pose proof (Hdiv a Ha). pose proof (Hdiv b Hb).
    rewrite !append_cons, compare_cons, !(Z.mod_small (_ / k)) by lia.
    rewrite digit_compare, digits_mod, (digits_mod w b) by lia. fold k.
    pose proof (Z.mod_pos_bound a k ltac:(lia)). pose proof (Z.mod_pos_bound b k ltac:(lia)).
    rewrite IH by lia.
    pose proof (Z.div_mod a k ltac:(lia)). pose proof (Z.div_mod b k ltac:(lia)).
    destruct (Z.compare_spec (a / k) (b / k)) as [Hq|Hq|Hq];
      destruct (Z.compare_spec a b) as [Hab|Hab|Hab]; cbn [lexc]; try done; try nia.
    + subst b. by rewrite Z.compare_refl.
    + assert (a mod k < b mod k) as Hlt%Z.compare_lt_iff by nia. by rewrite Hlt.
    + assert (b mod k < a mod k) as Hlt%Z.compare_gt_iff by nia. by rewrite Hlt.
Qed.

(** The same text in front does not matter. *)
Lemma append_compare p s t : String.compare (p +:+ s) (p +:+ t) = String.compare s t.
Proof.
  induction p as [|c p IH]; [done|]. rewrite !append_cons, compare_cons.
  unfold Ascii.compare. by rewrite N.compare_refl.
Qed.

(** Splitting an instant into a quotient and a remainder splits its comparison. *)
Lemma divmod_compare k a b : 0 < k ->
  (a ?= b) = lexc (a / k ?= b / k) (a mod k ?= b mod k).
Proof.
  intros Hk. pose proof (Z.div_mod a k ltac:(lia)). pose proof (Z.div_mod b k ltac:(lia)).
  pose proof (Z.mod_pos_bound a k Hk). pose proof (Z.mod_pos_bound b k Hk).
  destruct (Z.compare_spec (a / k) (b / k)) as [Hq|Hq|Hq]; cbn [lexc].
  - rewrite H, H0, Hq. by rewrite Z.add_compare_mono_l, <- Hq, <- H, Hq, <- H0.
  - apply Z.compare_lt_iff. nia.
  - apply Z.compare_gt_iff. nia.
Qed.

Lemma date_text_compare n1 n2 s t :
  1 <= n1 <= max_ordinal -> 1 <= n2 <= max_ordinal ->
  String.compare (date_text "-" n1 +:+ s) (date_text "-" n2 +:+ t)
  = lexc (n1 ?= n2) (String.compare s t).
Proof.
  intros H1 H2. unfold date_text.
  destruct (ord2ymd n1) as [[y1 m1] d1] eqn:E1, (ord2ymd n2) as [[y2 m2] d2] eqn:E2.
  destruct (ord2ymd_year_bound _ _ _ _ H1 E1) as (Hy1 & Hv1 & <-).
  destruct (ord2ymd_year_bound _ _ _ _ H2 E2) as (Hy2 & Hv2 & <-).
  rewrite <- (ymd2ord_compare _ _ _ _ _ _ Hv1 Hv2).
  destruct Hv1 as [Hm1 Hd1], Hv2 as [Hm2 Hd2].
  pose proof (days_in_month_bounds y1 m1). pose proof (days_in_month_bounds y2 m2).
  rewrite !append_assoc.
  rewrite (digits_compare 4) by (change (10 ^ Z.of_nat 4) with 10000; lia).
  rewrite append_compare.
  rewrite (digits_compare 2) by (change (10 ^ Z.of_nat 2) with 100; lia).
  rewrite append_compare.
  rewrite (digits_compare 2) by (change (10 ^ Z.of_nat 2) with 100; lia).
  by destruct (y1 ?= y2), (m1 ?= m2), (d1 ?= d2).
Qed.

Lemma lexc_assoc a b c : lexc (lexc a b) c = lexc a (lexc b c).
Proof. by destruct a. Qed.

(** One step of reassembling a mixed-radix comparison. *)
Lemma radix_compare k j a b : 0 < k -> 0 < j ->
  lexc (a / (k * j) ?= b / (k * j)) (a / k mod j ?= b / k mod j) = (a / k ?= b / k).
Proof.
  intros Hk Hj. rewrite (divmod_compare j (a / k)) by done.
  by rewrite !Z.div_div by lia.
Qed.

Lemma compare_refl s : String.compare s s = Eq.
Proof.
  induction s as [|c s IH]; [done|]. rewrite compare_cons. unfold Ascii.compare.
  by rewrite N.compare_refl.
Qed.

Lemma digit_hex d : 0 <= d < 10 -> is_hex (digit d) = true.
Proof.
  intros Hd. unfold is_hex, digit.
  assert (d = 0 \/ d = 1 \/ d = 2 \/ d = 3 \/ d = 4 \/ d = 5 \/ d = 6 \/ d = 7 \/ d = 8 \/ d = 9)
    as Hc by lia.
  repeat destruct Hc as [->|Hc]; try reflexivity. by subst.
Qed.

Lemma digits_hex w n : String.length (digits w n) = w /\ all_hex (digits w n) = true.
Proof.
  induction w as [|w [IHl IHh]]; [done|]. cbn [digits String.length all_hex].
  rewrite IHl, IHh, digit_hex; [done|]. apply Z.mod_pos_bound. lia.
Qed.

Lemma digits_hex64 n : is_hex64 (digits 64 n) = true.
Proof. unfold is_hex64. by destruct (digits_hex 64 n) as [-> ->]. Qed.

(** The comparison SQLite makes on the stored text is the comparison of the instants. *)
Lemma isoformat_compare marker a b : in_range a = true -> in_range b = true ->
  String.compare (isoformat marker a) (isoformat marker b) = (a ?= b).
Proof.
  unfold in_range. intros Ha Hb. bool_hyps. unfold max_instant in *.
  assert (forall t, 0 <= t <= max_ordinal * us_per_day - 1 -> 1 <= ordinal_of t <= max_ordinal)
    as Ho by (intros t Ht; unfold ordinal_of, us_per_day, us_per_second in *; divlia).
  unfold isoformat. rewrite date_text_compare by (apply Ho; lia). rewrite append_compare.
  assert (forall t, 0 <= hour_of t < 100 /\ 0 <= minute_of t < 100 /\ 0 <= second_of t < 100
    /\ 0 <= micro_of t < 1000000) as Hf
    by (intros t; unfold hour_of, minute_of, second_of, micro_of, us_per_second; divlia).
  pose proof (Hf a). pose proof (Hf b).
  change 100 with (10 ^ Z.of_nat 2) in *. change 1000000 with (10 ^ Z.of_nat 6) in *.
  rewrite !digits_compare, !append_compare, !digits_compare, !append_compare,
    !digits_compare, !append_compare, digits_compare by tauto.
  assert (String.compare marker marker = Eq) as -> by apply compare_refl.
  assert ((ordinal_of a ?= ordinal_of b) = (a / us_per_day ?= b / us_per_day)) as ->.
  { unfold ordinal_of. rewrite !(Z.add_comm _ 1). apply Z.add_compare_mono_l. }
  unfold hour_of, minute_of, second_of, micro_of.
  rewrite <- !lexc_assoc. change us_per_day with (60 * us_per_minute * 24).
  rewrite radix_compare by (unfold us_per_minute, us_per_second; lia).
  change (60 * us_per_minute) with (us_per_minute * 60).
  rewrite radix_compare by (unfold us_per_minute, us_per_second; lia).
  change us_per_minute with (us_per_second * 60).
  rewrite radix_compare by (unfold us_per_second; lia).
  rewrite (divmod_compare us_per_second a b) by (unfold us_per_second; lia).
  by destruct (a / us_per_second ?= b / us_per_second), (a mod us_per_second ?= b mod us_per_second).
Qed.

(** The fixed-width ISO text the ledgers store ([_iso] and [_encode_time]) orders like the
    instants it denotes and denotes one instant only, so that [<], [>], [MAX] and [=] on the
    stored text are comparisons of time. *)
Theorem iso_text_order a b : in_range a = true -> in_range b = true ->
  String.compare (iso a) (iso b) = (a ?= b) /\ (iso a = iso b <-> a = b)
  /\ String.compare (encode_time a) (encode_time b) = (a ?= b)
  /\ (encode_time a = encode_time b <-> a = b).
Proof.
  intros Ha Hb.
  assert (forall m, isoformat m a = isoformat m b <-> a = b) as Hinj.
  { intros m. split; [|by intros ->]. intros E. apply Z.compare_eq_iff.
    rewrite <- (isoformat_compare m a b Ha Hb), E, isoformat_compare by done. apply Z.compare_refl. }
  split_and!; [by apply isoformat_compare|apply Hinj|by apply isoformat_compare|apply Hinj].
Qed.

Lemma iso_text_order_witness :
  String.compare (iso 63000000000000000) (iso 63000000000000001) = Lt.
Proof.
  destruct (iso_text_order 63000000000000000 63000000000000001) as (H & _);
    [reflexivity|reflexivity|]. exact H.
Defined.
