(* ===== verification/ResourceAdmission.v ===== *)
(** * Resource admission ([src/rquant/resource_admission.py])

    The contracts of the research admission gate (quota leases, snapshots, policies,
    requests, decisions), the static cost profiles from which a shard's request is derived,
    and [evaluate_admission], the fail-closed decision itself.  Pydantic models are records
    together with the validation their constructors run; a model that fails validation is
    the [ValueError] pydantic raises.  The digest [canonical_sha256] is a parameter. *)

From Stdlib Require Import ZArith Lia Bool QArith.
From stdpp Require Import base list strings gmap sorting pretty.
From S2P Require Import Prelude Clock.
Open Scope Z_scope.
Open Scope rq_scope.

Inductive TradingSession :=
  | PRE_MARKET | MORNING | LUNCH | AFTERNOON | POST_MARKET | CLOSED.

Inductive AdmissionOutcome := ADMITTED | DEFERRED | REJECTED.

Inductive ResourceClass := INTERACTIVE | STANDARD | HEAVY.

(** [session in _LIVE_SESSIONS]. *)
Definition live_session (s : TradingSession) : bool :=
  match s with
  | PRE_MARKET | MORNING | LUNCH | AFTERNOON => true
  | POST_MARKET | CLOSED => false
  end.

Definition MAX_RESOURCE_CAPACITY_BYTES : Z := 2 ^ 63 - 1.
Definition MAX_RESOURCE_COUNT : Z := 2 ^ 63 - 1.
Definition MAX_DURATION_MICROSECONDS : Z := 2 ^ 63 - 1.
Definition MAX_ADMISSION_DURATION_MS : Z := 30 * 86400 * 1000.
Definition MAX_ADMISSION_RETRY_SECONDS : Z := 86400.
Definition MAX_SAFE_RESOURCE_OBSERVED_AT : Z :=
  max_instant - MAX_ADMISSION_RETRY_SECONDS * us_per_second.

Definition between (lo hi x : Z) : bool := (lo <=? x) && (x <=? hi).

(** Percentages are finite floats in [0, 100]; only their order is used, so a value is kept
    as the rational the double denotes. *)
Definition pct_ok (q : Q) : bool := Qle_bool 0 q && Qle_bool q 100.
Definition Qgtb (a b : Q) : bool := negb (Qle_bool a b).

(** [timedelta_microseconds]: a timedelta is its (days, seconds, microseconds) triple. *)
Definition timedelta_microseconds (days seconds microseconds : Z) : Z :=
  days * 86400000000 + seconds * 1000000 + microseconds.

(** The normalised triple Python keeps for a difference of [us] microseconds. *)
Definition timedelta_of_us (us : Z) : Z * Z * Z :=
  (us / us_per_day, us mod us_per_day / us_per_second, us mod us_per_second).

Lemma timedelta_microseconds_of_us us :
  (let '(d, s, u) := timedelta_of_us us in timedelta_microseconds d s u) = us.
Proof.
  unfold timedelta_of_us, timedelta_microseconds, us_per_day, us_per_second. divlia.
Qed.

(** ** Contracts *)

Record ResourceSnapshot := {
  observed_at : Z;
  session : TradingSession;
  live_slo_applicable : bool;
  live_backlog_age_microseconds : Z;
  live_p95_latency_microseconds : Z;
  available_memory_bytes : Z;
  available_disk_bytes : Z;
  io_pressure_pct : Q;
  cpu_load_pct : Q;
  source_quota_remaining : Z;
  live_healthy : bool
}.

Definition validate_snapshot (s : ResourceSnapshot) : res ResourceSnapshot :=
  raise_if negb (between 0 MAX_DURATION_MICROSECONDS (live_backlog_age_microseconds s)
                 && between 0 MAX_DURATION_MICROSECONDS (live_p95_latency_microseconds s)
                 && between 0 MAX_RESOURCE_CAPACITY_BYTES (available_memory_bytes s)
                 && between 0 MAX_RESOURCE_CAPACITY_BYTES (available_disk_bytes s)
                 && pct_ok (io_pressure_pct s) && pct_ok (cpu_load_pct s)
                 && between 0 MAX_RESOURCE_COUNT (source_quota_remaining s)
                 && in_range (observed_at s))
    as ValueError saying "field out of range" ;;
  raise_if MAX_SAFE_RESOURCE_OBSERVED_AT <? observed_at s
    as ValueError saying "observed_at is outside the safe admission arithmetic range" ;;
  raise_if negb (bool_decide (live_slo_applicable s = live_session (session s)))
    as ValueError saying "live_slo_applicable must match the trading session" ;;
  Ok s.

Record LeaseIdentity := {
  id_source : string; id_owner : string; id_units : Z;
  id_granted_at : Z; id_expires_at : Z; id_quota_reset_at : Z
}.

Record SourceQuotaLease := {
  lease_id : string;
  source : string;
  owner : string;
  units : Z;
  granted_at : Z;
  expires_at : Z;
  quota_reset_at : Z;
  released_at : option Z
}.

Definition identity_payload (l : SourceQuotaLease) : LeaseIdentity :=
  {| id_source := source l; id_owner := owner l; id_units := units l;
     id_granted_at := granted_at l; id_expires_at := expires_at l;
     id_quota_reset_at := quota_reset_at l |}.

Section Lease.
(** [canonical_sha256] of a lease's identity payload. *)
Context (lease_sha256 : LeaseIdentity -> string).

(** Construction of a [SourceQuotaLease]: the string fields are stripped, the numeric
    bounds checked, then [validate_lease] runs and sets the content-derived identifier. *)
Definition mk_lease (l : SourceQuotaLease) : res SourceQuotaLease :=
  let src := strip (source l) in
  let own := strip (owner l) in
  let given := strip (lease_id l) in
  raise_if negb (nonempty src && nonempty own)
    as ValueError saying "String should have at least 1 character" ;;
  raise_if negb (between 1 MAX_RESOURCE_COUNT (units l))
    as ValueError saying "units out of range" ;;
  raise_if expires_at l <=? granted_at l
    as ValueError saying "expires_at must follow granted_at" ;;
  raise_if quota_reset_at l <? expires_at l
    as ValueError saying "quota_reset_at cannot precede expires_at" ;;
  raise_if match released_at l with Some r => r <? granted_at l | None => false end
    as ValueError saying "released_at cannot precede granted_at" ;;
  let l' := {| lease_id := given; source := src; owner := own; units := units l;
               granted_at := granted_at l; expires_at := expires_at l;
               quota_reset_at := quota_reset_at l; released_at := released_at l |} in
  let expected_id := lease_sha256 (identity_payload l') in
  raise_if nonempty given && negb (bool_decide (given = expected_id))
    as ValueError saying "lease_id does not match canonical lease content" ;;
  Ok {| lease_id := expected_id; source := src; owner := own; units := units l;
        granted_at := granted_at l; expires_at := expires_at l;
        quota_reset_at := quota_reset_at l; released_at := released_at l |}.
End Lease.

Record ResearchAdapterSourceUsage := {
  adapter_id : string;
  external : bool;
  immutable_snapshot : bool;
  usage_source : option string;
  expected_calls : Z;
  actual_calls : Z;
  usage_quota_lease : option SourceQuotaLease
}.

(** [ResearchAdapterSourceUsage.validate_source_usage]. *)
Definition validate_source_usage (u : ResearchAdapterSourceUsage)
    : res ResearchAdapterSourceUsage :=
  raise_if expected_calls u <? actual_calls u
    as ValueError saying "actual source calls exceed the declared estimate" ;;
  if external u then
    raise_if immutable_snapshot u
      as ValueError saying "external adapter cannot claim an immutable local snapshot" ;;
    match usage_source u, usage_quota_lease u with
    | Some src, Some lease =>
        raise_if expected_calls u =? 0
          as ValueError saying "external adapter requires source, calls, and quota lease" ;;
        raise_if negb (bool_decide (source lease = src))
          as ValueError saying "external adapter quota lease source conflicts" ;;
        raise_if units lease <? expected_calls u
          as ValueError saying "external adapter quota lease is below declared calls" ;;
        Ok u
    | _, _ => Err (Raise ValueError "external adapter requires source, calls, and quota lease")
    end
  else
    raise_if negb (immutable_snapshot u)
             || bool_decide (is_Some (usage_source u))
             || negb (expected_calls u =? 0) || negb (actual_calls u =? 0)
             || bool_decide (is_Some (usage_quota_lease u))
      as ValueError saying "zero quota is reserved for immutable local snapshot adapters" ;;
    Ok u.

Definition require_research_adapter_source_usage (adapter : string)
    (usage : option ResearchAdapterSourceUsage) : res ResearchAdapterSourceUsage :=
  match usage with
  | None => Err (Raise ResearchAdapterSourceUsageError "research adapter source usage is required")
  | Some u =>
      raise_if negb (bool_decide (adapter_id u = adapter))
        as ResearchAdapterSourceUsageError
        saying "research adapter source usage identity conflicts" ;;
      Ok u
  end.

Record AdmissionPolicy := {
  allow_live_session : bool;
  max_live_shard_duration_ms : Z;
  max_snapshot_age_microseconds : Z;
  max_live_backlog_age_microseconds : Z;
  max_live_p95_latency_microseconds : Z;
  min_available_memory_bytes : Z;
  min_available_disk_bytes : Z;
  max_io_pressure_pct : Q;
  max_cpu_load_pct : Q;
  max_expected_memory_bytes : Z;
  max_expected_disk_bytes : Z;
  max_expected_quota_units : Z;
  retry_delay_seconds : Z
}.

Definition validate_policy (p : AdmissionPolicy) : res AdmissionPolicy :=
  raise_if negb (between 1 MAX_ADMISSION_DURATION_MS (max_live_shard_duration_ms p)
                 && between 1 MAX_DURATION_MICROSECONDS (max_snapshot_age_microseconds p)
                 && between 0 MAX_DURATION_MICROSECONDS (max_live_backlog_age_microseconds p)
                 && between 0 MAX_DURATION_MICROSECONDS (max_live_p95_latency_microseconds p)
                 && between 0 MAX_RESOURCE_CAPACITY_BYTES (min_available_memory_bytes p)
                 && between 0 MAX_RESOURCE_CAPACITY_BYTES (min_available_disk_bytes p)
                 && pct_ok (max_io_pressure_pct p) && pct_ok (max_cpu_load_pct p)
                 && between 0 MAX_RESOURCE_CAPACITY_BYTES (max_expected_memory_bytes p)
                 && between 0 MAX_RESOURCE_CAPACITY_BYTES (max_expected_disk_bytes p)
                 && between 0 MAX_RESOURCE_COUNT (max_expected_quota_units p)
                 && between 1 MAX_ADMISSION_RETRY_SECONDS (retry_delay_seconds p))
    as ValueError saying "field out of range" ;;
  Ok p.

Record AdmissionRequest := {
  job_id : string;
  resource_class : ResourceClass;
  expected_memory_bytes : Z;
  expected_disk_bytes : Z;
  expected_quota_units : Z;
  expected_duration_ms : Z;
  request_source : option string;
  preemptible : bool;
  read_only : bool;
  deadline : Z
}.

Definition validate_request (r : AdmissionRequest) : res AdmissionRequest :=
  raise_if negb (nonempty (strip (job_id r))
                 && between 0 MAX_RESOURCE_CAPACITY_BYTES (expected_memory_bytes r)
                 && between 0 MAX_RESOURCE_CAPACITY_BYTES (expected_disk_bytes r)
                 && between 0 MAX_RESOURCE_COUNT (expected_quota_units r)
                 && between 1 MAX_ADMISSION_DURATION_MS (expected_duration_ms r)
                 && in_range (deadline r))
    as ValueError saying "field out of range" ;;
  raise_if match request_source r with Some s => negb (nonempty (strip s)) | None => false end
    as ValueError saying "String should have at least 1 character" ;;
  raise_if (0 <? expected_quota_units r) && bool_decide (request_source r = None)
    as ValueError saying "source is required when expected_quota_units is positive" ;;
  Ok {| job_id := strip (job_id r); resource_class := resource_class r;
        expected_memory_bytes := expected_memory_bytes r;
        expected_disk_bytes := expected_disk_bytes r;
        expected_quota_units := expected_quota_units r;
        expected_duration_ms := expected_duration_ms r;
        request_source := strip <$> request_source r;
        preemptible := preemptible r; read_only := read_only r; deadline := deadline r |}.

(** ** Static cost profiles *)

Record LabAdmissionCostProfile := {
  base_memory_bytes : Z;
  memory_bytes_per_work_step : Z;
  work_units_per_step : Z;
  memory_bytes_per_duration_step : Z;
  duration_ms_per_step : Z;
  max_memory_bytes : Z;
  base_disk_bytes : Z;
  disk_bytes_per_work_step : Z;
  disk_bytes_per_duration_step : Z;
  max_disk_bytes : Z;
  profile_preemptible : bool
}.

(** [LabAdmissionCostProfile.validate_bounds] and the field bounds. *)
Definition profile_ok (p : LabAdmissionCostProfile) : bool :=
  forallb (between 0 MAX_RESOURCE_CAPACITY_BYTES)
    [base_memory_bytes p; memory_bytes_per_work_step p; memory_bytes_per_duration_step p;
     base_disk_bytes p; disk_bytes_per_work_step p; disk_bytes_per_duration_step p]
  && between 1 MAX_RESOURCE_COUNT (work_units_per_step p)
  && between 1 MAX_ADMISSION_DURATION_MS (duration_ms_per_step p)
  && between 1 MAX_RESOURCE_CAPACITY_BYTES (max_memory_bytes p)
  && between 1 MAX_RESOURCE_CAPACITY_BYTES (max_disk_bytes p)
  && (base_memory_bytes p <=? max_memory_bytes p)
  && (base_disk_bytes p <=? max_disk_bytes p).

Definition MIB : Z := 1024 ^ 2.
Definition GIB : Z := 1024 ^ 3.

Definition LAB_ADMISSION_COST_PROFILES (c : ResourceClass) : LabAdmissionCostProfile :=
  match c with
  | INTERACTIVE =>
      {| base_memory_bytes := 256 * MIB; memory_bytes_per_work_step := 64 * MIB;
         work_units_per_step := 500; memory_bytes_per_duration_step := 32 * MIB;
         duration_ms_per_step := 15 * 60 * 1000; max_memory_bytes := 1536 * MIB;
         base_disk_bytes := 128 * MIB; disk_bytes_per_work_step := 32 * MIB;
         disk_bytes_per_duration_step := 64 * MIB; max_disk_bytes := 4 * GIB;
         profile_preemptible := true |}
  | STANDARD =>
      {| base_memory_bytes := 512 * MIB; memory_bytes_per_work_step := 64 * MIB;
         work_units_per_step := 1000; memory_bytes_per_duration_step := 64 * MIB;
         duration_ms_per_step := 60 * 60 * 1000; max_memory_bytes := 4 * GIB;
         base_disk_bytes := 256 * MIB; disk_bytes_per_work_step := 64 * MIB;
         disk_bytes_per_duration_step := 256 * MIB; max_disk_bytes := 16 * GIB;
         profile_preemptible := true |}
  | HEAVY =>
      {| base_memory_bytes := 1 * GIB; memory_bytes_per_work_step := 128 * MIB;
         work_units_per_step := 5000; memory_bytes_per_duration_step := 128 * MIB;
         duration_ms_per_step := 6 * 60 * 60 * 1000; max_memory_bytes := 8 * GIB;
         base_disk_bytes := 512 * MIB; disk_bytes_per_work_step := 256 * MIB;
         disk_bytes_per_duration_step := 1 * GIB; max_disk_bytes := 64 * GIB;
         profile_preemptible := false |}
  end.

Definition ceil_div (value divisor : Z) : Z := (value + divisor - 1) / divisor.

(** The part of a [LabShardWorkPlan] admission reads; both counts are in [1, 2^63 - 1]. *)
Record LabShardWorkPlan := { work_units : Z; static_duration_ms : Z }.

Definition work_plan_ok (w : LabShardWorkPlan) : bool :=
  between 1 int64_max (work_units w) && between 1 int64_max (static_duration_ms w).

(** [derive_lab_admission_request]; [spec] contributes its resource class and deadline. *)
Definition derive_lab_admission_request (jid : string) (cls : ResourceClass) (dl : Z)
    (work_plan : option LabShardWorkPlan) : res AdmissionRequest :=
  match work_plan with
  | None => Err (Raise ValueError "resource admission requires an explicit shard work plan")
  | Some plan =>
      raise_if negb (work_plan_ok plan) as ValueError saying "field out of range" ;;
      let profile := LAB_ADMISSION_COST_PROFILES cls in
      let work_steps := ceil_div (work_units plan) (work_units_per_step profile) in
      let duration_steps := ceil_div (static_duration_ms plan) (duration_ms_per_step profile) in
      let expected_memory :=
        Z.min (max_memory_bytes profile)
          (base_memory_bytes profile + work_steps * memory_bytes_per_work_step profile
           + duration_steps * memory_bytes_per_duration_step profile) in
      let expected_disk :=
        Z.min (max_disk_bytes profile)
          (base_disk_bytes profile + work_steps * disk_bytes_per_work_step profile
           + duration_steps * disk_bytes_per_duration_step profile) in
      validate_request
        {| job_id := jid; resource_class := cls; expected_memory_bytes := expected_memory;
           expected_disk_bytes := expected_disk; expected_quota_units := 0;
           expected_duration_ms := static_duration_ms plan; request_source := None;
           preemptible := profile_preemptible profile; read_only := true; deadline := dl |}
  end.

(** ** Decisions *)

Record AdmissionDecision := {
  outcome : AdmissionOutcome;
  reason_codes : list string;
  decided_at : Z;
  retry_at : option Z;
  decision_quota_lease : option SourceQuotaLease
}.

Definition sort_strings (l : list string) : list string := merge_sort String.le l.

(** [AdmissionDecision.validate_reason_codes]. *)
Definition validate_reason_codes (value : list string) : res (list string) :=
  raise_if existsb (fun r => negb (nonempty r)) value
    as ValueError saying "reason_codes cannot contain empty values" ;;
  raise_if negb (bool_decide (NoDup value))
    as ValueError saying "reason_codes must be unique" ;;
  Ok (sort_strings value).

(** Construction of an [AdmissionDecision]: [validate_reason_codes], [validate_outcome]. *)
Definition mk_decision (d : AdmissionDecision) : res AdmissionDecision :=
  reasons <~ validate_reason_codes (reason_codes d) ;;
  let d := {| outcome := outcome d; reason_codes := reasons; decided_at := decided_at d;
              retry_at := retry_at d; decision_quota_lease := decision_quota_lease d |} in
  raise_if match retry_at d with Some t => t <=? decided_at d | None => false end
    as ValueError saying "retry_at must follow observed_at" ;;
  match outcome d with
  | ADMITTED =>
      raise_if negb (bool_decide (reason_codes d = [])) || bool_decide (is_Some (retry_at d))
        as ValueError saying "admitted decision cannot have reasons or retry_at" ;; Ok d
  | DEFERRED =>
      raise_if bool_decide (reason_codes d = [])
        as ValueError saying "deferred decision requires reasons" ;;
      raise_if bool_decide (retry_at d = None)
        as ValueError saying "deferred decision requires retry_at" ;; Ok d
  | REJECTED =>
      raise_if bool_decide (reason_codes d = [])
        as ValueError saying "rejected decision requires reasons" ;;
      raise_if bool_decide (is_Some (retry_at d))
        as ValueError saying "rejected decision cannot have retry_at" ;; Ok d
  end.

Definition reason_if (b : bool) (r : string) : option string := if b then Some r else None.

(** The quota-lease chain of [evaluate_admission]: the reason and the retry time it leaves. *)
Definition quota_reason (request : AdmissionRequest) (snapshot : ResourceSnapshot)
    (quota_lease : option SourceQuotaLease) (retry : Z) : option string * Z :=
  if 0 <? expected_quota_units request then
    match quota_lease with
    | None => (Some "quota_lease_missing"%string, retry)
    | Some l =>
        if negb (bool_decide (owner l = job_id request)) then
          (Some "quota_lease_owner_mismatch"%string, retry)
        else if negb (bool_decide (Some (source l) = request_source request)) then
          (Some "quota_lease_source_mismatch"%string, retry)
        else if bool_decide (is_Some (released_at l)) then
          (Some "quota_lease_released"%string, retry)
        else if observed_at snapshot <? granted_at l then
          (Some "quota_lease_not_active"%string, retry)
        else if expires_at l <=? observed_at snapshot then
          (Some "quota_lease_expired"%string, Z.max retry (quota_reset_at l))
        else if units l <? expected_quota_units request then
          (Some "quota_lease_insufficient"%string, retry)
        else (None, retry)
    end
  else (None, retry).

(** The other checks of [evaluate_admission], one entry per [if]/[elif] chain. *)
Definition admission_reasons (request : AdmissionRequest) (snapshot : ResourceSnapshot)
    (policy : AdmissionPolicy) : list (option string) :=
  [ (if live_session (session snapshot) then
       if negb (allow_live_session policy) then Some "live_session_blocked"%string
       else if negb (preemptible request) then Some "non_preemptible_live_session"%string
       else reason_if (max_live_shard_duration_ms policy <? expected_duration_ms request)
              "live_duration_exceeded"
     else None);
    reason_if (live_slo_applicable snapshot && negb (live_healthy snapshot)) "live_unhealthy";
    reason_if (live_slo_applicable snapshot
               && (max_live_backlog_age_microseconds policy
                   <? live_backlog_age_microseconds snapshot)) "live_backlog_stale";
    reason_if (live_slo_applicable snapshot
               && (max_live_p95_latency_microseconds policy
                   <? live_p95_latency_microseconds snapshot)) "live_latency_high";
    reason_if (Qgtb (io_pressure_pct snapshot) (max_io_pressure_pct policy)) "io_pressure_high";
    reason_if (Qgtb (cpu_load_pct snapshot) (max_cpu_load_pct policy)) "cpu_load_high";
    reason_if (max_expected_memory_bytes policy <? expected_memory_bytes request)
      "expected_memory_cost_exceeded";
    reason_if (max_expected_disk_bytes policy <? expected_disk_bytes request)
      "expected_disk_cost_exceeded";
    reason_if (max_expected_quota_units policy <? expected_quota_units request)
      "expected_quota_cost_exceeded";
    reason_if (available_memory_bytes snapshot - expected_memory_bytes request
               <? min_available_memory_bytes policy) "insufficient_memory";
    reason_if (available_disk_bytes snapshot - expected_disk_bytes request
               <? min_available_disk_bytes policy) "insufficient_disk";
    reason_if (source_quota_remaining snapshot <? expected_quota_units request)
      "insufficient_source_quota";
    (if deadline request <=? observed_at snapshot then Some "deadline_expired"%string
     else reason_if
            ((let '(d, s, u) := timedelta_of_us (deadline request - observed_at snapshot) in
              timedelta_microseconds d s u) <? expected_duration_ms request * 1000)
            "deadline_insufficient") ].

(** [evaluate_admission]; [reasons] is the Python set. *)
Definition evaluate_admission (request : AdmissionRequest) (snapshot : ResourceSnapshot)
    (policy : AdmissionPolicy) (quota_lease : option SourceQuotaLease) : res AdmissionDecision :=
  if negb (read_only request) then
    mk_decision {| outcome := REJECTED; reason_codes := ["non_read_only"%string];
                   decided_at := observed_at snapshot; retry_at := None;
                   decision_quota_lease := None |}
  else
    retry <~ add_us (observed_at snapshot) (retry_delay_seconds policy * us_per_second) ;;
    let '(q, retry) := quota_reason request snapshot quota_lease retry in
    let reasons : gset string :=
      list_to_set (omap id (admission_reasons request snapshot policy ++ [q])) in
    if negb (bool_decide (reasons = ∅)) then
      mk_decision {| outcome := DEFERRED; reason_codes := sort_strings (elements reasons);
                     decided_at := observed_at snapshot; retry_at := Some retry;
                     decision_quota_lease := quota_lease |}
    else
      mk_decision {| outcome := ADMITTED; reason_codes := []; decided_at := observed_at snapshot;
                     retry_at := None; decision_quota_lease := quota_lease |}.

(** ** Specification: what admission promises

    [admissible] lists, as propositions, everything an admitted request satisfies. *)

Definition live_ok (request : AdmissionRequest) (snapshot : ResourceSnapshot)
    (policy : AdmissionPolicy) : Prop :=
  live_session (session snapshot) = true ->
  allow_live_session policy = true /\ preemptible request = true
  /\ expected_duration_ms request <= max_live_shard_duration_ms policy.

Definition slo_ok (snapshot : ResourceSnapshot) (policy : AdmissionPolicy) : Prop :=
  live_slo_applicable snapshot = true ->
  live_healthy snapshot = true
  /\ live_backlog_age_microseconds snapshot <= max_live_backlog_age_microseconds policy
  /\ live_p95_latency_microseconds snapshot <= max_live_p95_latency_microseconds policy.

Definition lease_ok (request : AdmissionRequest) (snapshot : ResourceSnapshot)
    (quota_lease : option SourceQuotaLease) : Prop :=
  0 < expected_quota_units request ->
  exists l, quota_lease = Some l /\ owner l = job_id request
    /\ request_source request = Some (source l) /\ released_at l = None
    /\ granted_at l <= observed_at snapshot < expires_at l
    /\ expected_quota_units request <= units l.

Record admissible (request : AdmissionRequest) (snapshot : ResourceSnapshot)
    (policy : AdmissionPolicy) (quota_lease : option SourceQuotaLease) : Prop := {
  adm_read_only : read_only request = true;
  adm_live : live_ok request snapshot policy;
  adm_slo : slo_ok snapshot policy;
  adm_io : (io_pressure_pct snapshot <= max_io_pressure_pct policy)%Q;
  adm_cpu : (cpu_load_pct snapshot <= max_cpu_load_pct policy)%Q;
  adm_memory_cost : expected_memory_bytes request <= max_expected_memory_bytes policy;
  adm_disk_cost : expected_disk_bytes request <= max_expected_disk_bytes policy;
  adm_quota_cost : expected_quota_units request <= max_expected_quota_units policy;
  adm_memory : expected_memory_bytes request + min_available_memory_bytes policy
               <= available_memory_bytes snapshot;
  adm_disk : expected_disk_bytes request + min_available_disk_bytes policy
             <= available_disk_bytes snapshot;
  adm_quota : expected_quota_units request <= source_quota_remaining snapshot;
  adm_deadline : observed_at snapshot + expected_duration_ms request * 1000 <= deadline request;
  adm_future : observed_at snapshot < deadline request;
  adm_lease : lease_ok request snapshot quota_lease
}.

(** What each reason code of a deferral says: the limit it names does not hold.  Of the live-session
    conditions, the deadline's and the lease's only the first that fails is named. *)
Inductive fails (request : AdmissionRequest) (snapshot : ResourceSnapshot) (policy : AdmissionPolicy)
    (quota_lease : option SourceQuotaLease) : string -> Prop :=
  | f_live : live_session (session snapshot) = true -> allow_live_session policy = false ->
      fails request snapshot policy quota_lease "live_session_blocked"
  | f_preemptible : live_session (session snapshot) = true -> allow_live_session policy = true ->
      preemptible request = false -> fails request snapshot policy quota_lease "non_preemptible_live_session"
  | f_duration : live_session (session snapshot) = true -> allow_live_session policy = true ->
      preemptible request = true -> max_live_shard_duration_ms policy < expected_duration_ms request ->
      fails request snapshot policy quota_lease "live_duration_exceeded"
  | f_unhealthy : live_slo_applicable snapshot = true -> live_healthy snapshot = false ->
      fails request snapshot policy quota_lease "live_unhealthy"
  | f_backlog : live_slo_applicable snapshot = true ->
      max_live_backlog_age_microseconds policy < live_backlog_age_microseconds snapshot ->
      fails request snapshot policy quota_lease "live_backlog_stale"
  | f_latency : live_slo_applicable snapshot = true ->
      max_live_p95_latency_microseconds policy < live_p95_latency_microseconds snapshot ->
      fails request snapshot policy quota_lease "live_latency_high"
  | f_io : (max_io_pressure_pct policy < io_pressure_pct snapshot)%Q ->
      fails request snapshot policy quota_lease "io_pressure_high"
  | f_cpu : (max_cpu_load_pct policy < cpu_load_pct snapshot)%Q ->
      fails request snapshot policy quota_lease "cpu_load_high"
  | f_memory_cost : max_expected_memory_bytes policy < expected_memory_bytes request ->
      fails request snapshot policy quota_lease "expected_memory_cost_exceeded"
  | f_disk_cost : max_expected_disk_bytes policy < expected_disk_bytes request ->
      fails request snapshot policy quota_lease "expected_disk_cost_exceeded"
  | f_quota_cost : max_expected_quota_units policy < expected_quota_units request ->
      fails request snapshot policy quota_lease "expected_quota_cost_exceeded"
  | f_memory : available_memory_bytes snapshot < expected_memory_bytes request + min_available_memory_bytes policy ->
      fails request snapshot policy quota_lease "insufficient_memory"
  | f_disk : available_disk_bytes snapshot < expected_disk_bytes request + min_available_disk_bytes policy ->
      fails request snapshot policy quota_lease "insufficient_disk"
  | f_quota : source_quota_remaining snapshot < expected_quota_units request ->
      fails request snapshot policy quota_lease "insufficient_source_quota"
  | f_expired : deadline request <= observed_at snapshot ->
      fails request snapshot policy quota_lease "deadline_expired"
  | f_deadline : observed_at snapshot < deadline request < observed_at snapshot + expected_duration_ms request * 1000 ->
      fails request snapshot policy quota_lease "deadline_insufficient"
  | f_lease : 0 < expected_quota_units request -> quota_lease = None ->
      fails request snapshot policy quota_lease "quota_lease_missing"
  | f_owner l : 0 < expected_quota_units request -> quota_lease = Some l -> owner l <> job_id request ->
      fails request snapshot policy quota_lease "quota_lease_owner_mismatch"
  | f_source l : 0 < expected_quota_units request -> quota_lease = Some l -> owner l = job_id request ->
      request_source request <> Some (source l) -> fails request snapshot policy quota_lease "quota_lease_source_mismatch"
  | f_released l : 0 < expected_quota_units request -> quota_lease = Some l -> owner l = job_id request ->
      request_source request = Some (source l) -> is_Some (released_at l) ->
      fails request snapshot policy quota_lease "quota_lease_released"
  | f_active l : 0 < expected_quota_units request -> quota_lease = Some l -> owner l = job_id request ->
      request_source request = Some (source l) -> released_at l = None -> observed_at snapshot < granted_at l ->
      fails request snapshot policy quota_lease "quota_lease_not_active"
  | f_over l : 0 < expected_quota_units request -> quota_lease = Some l -> owner l = job_id request ->
      request_source request = Some (source l) -> released_at l = None -> granted_at l <= observed_at snapshot ->
      expires_at l <= observed_at snapshot -> fails request snapshot policy quota_lease "quota_lease_expired"
  | f_units l : 0 < expected_quota_units request -> quota_lease = Some l -> owner l = job_id request ->
      request_source request = Some (source l) -> released_at l = None ->
      granted_at l <= observed_at snapshot < expires_at l -> units l < expected_quota_units request ->
      fails request snapshot policy quota_lease "quota_lease_insufficient".

(** ** Lemmas *)

Lemma reason_if_None b r : reason_if b r = None <-> b = false.
Proof. destruct b; cbn; naive_solver. Qed.

Lemma reasons_empty (l : list (option string)) :
  (list_to_set (omap id l) : gset string) = ∅ <-> Forall (fun o => o = None) l.
Proof.
  induction l as [|[r|] l IH].
  - split; [constructor | done].
  - split; [|by inversion 1]. cbn. intros H. exfalso.
    assert (r ∈ (∅ : gset string)) by (rewrite <- H; set_solver). set_solver.
  - etransitivity; [exact IH|]. split; [by constructor | by inversion 1].
Qed.

Lemma validate_snapshot_ok s : validate_snapshot s = Ok s ->
  0 <= observed_at s <= MAX_SAFE_RESOURCE_OBSERVED_AT
  /\ live_slo_applicable s = live_session (session s).
Proof.
  unfold validate_snapshot, in_range. intros H. ok_inv H. bool_hyps. split; [lia|done].
Qed.

Lemma validate_policy_ok p : validate_policy p = Ok p ->
  1 <= retry_delay_seconds p <= MAX_ADMISSION_RETRY_SECONDS.
Proof.
  unfold validate_policy, between. intros H. ok_inv H. bool_hyps. lia.
Qed.

(** A validated observation time leaves room for every retry delay the policy allows. *)
Lemma retry_no_overflow s p : validate_snapshot s = Ok s -> validate_policy p = Ok p ->
  add_us (observed_at s) (retry_delay_seconds p * us_per_second)
  = Ok (observed_at s + retry_delay_seconds p * us_per_second).
Proof.
  intros Hs%validate_snapshot_ok Hp%validate_policy_ok. unfold add_us.
  replace (in_range _) with true; [done|]. symmetry. unfold in_range.
  unfold MAX_SAFE_RESOURCE_OBSERVED_AT, MAX_ADMISSION_RETRY_SECONDS, us_per_second in *.
  rewrite andb_true_iff, !Z.leb_le. lia.
Qed.

#[local] Ltac by_contra_lease :=
  first [ congruence | lia | match goal with H : is_Some None |- _ => by destruct H end ].

Lemma quota_reason_spec request snapshot lease retry :
  let '(q, retry') := quota_reason request snapshot lease retry in
  (q = None <-> lease_ok request snapshot lease) /\ retry <= retry'
  /\ (q = None -> retry' = retry).
Proof.
  unfold quota_reason, lease_ok.
  destruct (Z.ltb_spec 0 (expected_quota_units request)) as [Hq|Hq];
    [|split_and!; [|lia|done]; split; [intros _ ?; exfalso; lia|done]].
  destruct lease as [l|]; [|split_and!; [|lia|done]; split; [done|];
    intros H; destruct (H Hq) as (? & ? & _); done].
  repeat (case_goal; [split_and!; [|lia|done]; split; [done|]; intros Hl;
    destruct (Hl Hq) as (l' & [= <-] & ? & ? & Hrel & ? & ?); exfalso; bool_hyps;
    rewrite ?Hrel in *; by_contra_lease|]).
  bool_hyps. split_and!; [|lia|done]. split; [intros _ _|done].
  exists l. split_and!; try done; try lia.
  destruct (released_at l) eqn:Hr; [|done]. exfalso. naive_solver.
Qed.

Lemma admission_reasons_None request snapshot policy :
  Forall (fun o => o = None) (admission_reasons request snapshot policy) <->
  live_ok request snapshot policy /\ slo_ok snapshot policy
  /\ (io_pressure_pct snapshot <= max_io_pressure_pct policy)%Q
  /\ (cpu_load_pct snapshot <= max_cpu_load_pct policy)%Q
  /\ expected_memory_bytes request <= max_expected_memory_bytes policy
  /\ expected_disk_bytes request <= max_expected_disk_bytes policy
  /\ expected_quota_units request <= max_expected_quota_units policy
  /\ expected_memory_bytes request + min_available_memory_bytes policy
     <= available_memory_bytes snapshot
  /\ expected_disk_bytes request + min_available_disk_bytes policy
     <= available_disk_bytes snapshot
  /\ expected_quota_units request <= source_quota_remaining snapshot
  /\ observed_at snapshot + expected_duration_ms request * 1000 <= deadline request
  /\ observed_at snapshot < deadline request.
Proof.
  unfold admission_reasons, live_ok, slo_ok, Qgtb.
  pose proof (timedelta_microseconds_of_us (deadline request - observed_at snapshot)) as Hd.
  destruct (timedelta_of_us _) as [[td ts] tu]. rewrite Hd. clear Hd.
  rewrite !Forall_cons, Forall_nil, !reason_if_None, !negb_false_iff, !Qle_bool_iff,
    !andb_false_iff, !negb_false_iff, !Z.ltb_ge.
  destruct (live_session (session snapshot)), (live_slo_applicable snapshot),
    (allow_live_session policy), (preemptible request), (live_healthy snapshot); cbn;
    rewrite ?reason_if_None, ?Z.ltb_ge;
    (destruct (Z.leb_spec (deadline request) (observed_at snapshot));
       rewrite ?reason_if_None, ?Z.ltb_ge; naive_solver lia).
Qed.

Lemma reason_if_Some b r c : Some c = reason_if b r <-> b = true /\ c = r.
Proof. unfold reason_if. destruct b; naive_solver. Qed.

Lemma qgtb_true a b : Qgtb a b = true <-> (b < a)%Q.
Proof.
  unfold Qgtb. rewrite negb_true_iff, <- not_true_iff_false, Qle_bool_iff. split; [apply Qnot_le_lt|apply Qlt_not_le].
Qed.

Lemma deadline_short request snapshot :
  ((let '(d, s, u) := timedelta_of_us (deadline request - observed_at snapshot) in timedelta_microseconds d s u)
     <? expected_duration_ms request * 1000) = true <-> deadline request < observed_at snapshot + expected_duration_ms request * 1000.
Proof.
  pose proof (timedelta_microseconds_of_us (deadline request - observed_at snapshot)) as Hd.
  destruct (timedelta_of_us _) as [[td ts] tu]. rewrite Hd, Z.ltb_lt. lia.
Qed.

(** The code of a lease that does not do. *)
Lemma quota_reason_fails request snapshot policy lease retry c :
  fst (quota_reason request snapshot lease retry) = Some c -> fails request snapshot policy lease c.
Proof.
  unfold quota_reason. case_goal; [|done]. destruct lease as [l|]; [|intros [= <-]; bool_hyps; by constructor].
  repeat (case_goal; [intros [= <-]; bool_hyps; econstructor; try done; try lia; try congruence;
    try (by apply eq_None_not_Some); naive_solver|]). done.
Qed.

Lemma admission_reasons_fail request snapshot policy lease c :
  Some c ∈ admission_reasons request snapshot policy -> fails request snapshot policy lease c.
Proof.
  unfold admission_reasons. rewrite !elem_of_cons, elem_of_nil. intros Hc.
  repeat destruct Hc as [Hc|Hc]; try done;
    try (apply reason_if_Some in Hc as [Hb ->]; rewrite ?andb_true_iff, ?qgtb_true, ?negb_true_iff, ?Z.ltb_lt in Hb; constructor; naive_solver lia).
  - revert Hc. repeat case_goal; intros Hc; try (by injection Hc as ->; bool_hyps; constructor); try done.
    apply reason_if_Some in Hc as [Hb ->]. bool_hyps. by constructor.
  - revert Hc. case_goal; intros Hc; bool_hyps; [injection Hc as ->; by constructor|].
    apply reason_if_Some in Hc as [Hb ->]. apply deadline_short in Hb. constructor. lia.
Qed.

(** Every limit that fails is named. *)
Lemma fails_named request snapshot policy lease retry c : fails request snapshot policy lease c ->
  Some c ∈ admission_reasons request snapshot policy ++ [fst (quota_reason request snapshot lease retry)].
Proof.
  intros Hf. apply elem_of_app. rewrite list_elem_of_singleton. unfold admission_reasons. rewrite !elem_of_cons, elem_of_nil.
  destruct Hf; subst; try match goal with Hq : 0 < expected_quota_units _ |- _ => right; unfold quota_reason; rewrite (proj2 (Z.ltb_lt _ _) Hq) end.
  all: try (left; rewrite ?reason_if_Some, ?andb_true_iff, ?qgtb_true, ?negb_true_iff, ?Z.ltb_lt; naive_solver lia).
  all: try (left; repeat match goal with E : _ = true |- _ => rewrite E | E : _ = false |- _ => rewrite E end; cbn [negb];
    rewrite ?reason_if_Some, ?Z.ltb_lt; naive_solver).
  - left. do 12 right. left. by rewrite (proj2 (Z.leb_le _ _)).
  - left. do 12 right. left. rewrite (proj2 (Z.leb_gt _ _)) by lia. apply reason_if_Some. split; [|done]. apply deadline_short. lia.
  - done.
  - by rewrite bool_decide_eq_false_2.
  - rewrite bool_decide_eq_true_2, bool_decide_eq_false_2 by (done || congruence). done.
  - rewrite !bool_decide_eq_true_2 by (done || congruence). done.
  - rewrite !bool_decide_eq_true_2, bool_decide_eq_false_2 by (done || congruence || (intros [? ?]; congruence)).
    cbn. by rewrite (proj2 (Z.ltb_lt _ _)).
  - rewrite !bool_decide_eq_true_2, bool_decide_eq_false_2 by (done || congruence || (intros [? ?]; congruence)).
    cbn. by rewrite (proj2 (Z.ltb_ge _ _)), (proj2 (Z.leb_le _ _)).
  - rewrite !bool_decide_eq_true_2, bool_decide_eq_false_2 by (done || congruence || (intros [? ?]; congruence)).
    cbn. by rewrite (proj2 (Z.ltb_ge _ _)), (proj2 (Z.leb_gt _ _)), (proj2 (Z.ltb_lt _ _)) by lia.
Qed.

Lemma sort_strings_perm l : sort_strings l ≡ₚ l.
Proof. apply merge_sort_Permutation. Qed.

Lemma sort_strings_sorted l : Sorted String.le (sort_strings l).
Proof. apply Sorted_merge_sort. apply _. Qed.

(** Every reason the gate can give is a nonempty literal. *)
Definition reason_nonempty (o : option string) : Prop :=
  match o with Some r => nonempty r = true | None => True end.

Lemma reason_if_nonempty b r : nonempty r = true -> reason_nonempty (reason_if b r).
Proof. by destruct b. Qed.

Lemma admission_reasons_nonempty request snapshot policy :
  Forall reason_nonempty (admission_reasons request snapshot policy).
Proof.
  unfold admission_reasons.
  destruct (timedelta_of_us _) as [[td ts] tu].
  repeat (apply Forall_cons; split); try apply Forall_nil; try done;
    repeat case_goal; try by apply reason_if_nonempty.
    all: done.
Qed.

Lemma quota_reason_nonempty request snapshot lease retry :
  reason_nonempty (fst (quota_reason request snapshot lease retry)).
Proof. unfold quota_reason. by repeat case_goal. Qed.

Lemma reasons_existsb_nonempty (l : list (option string)) :
  Forall reason_nonempty l ->
  existsb (fun r => negb (nonempty r)) (sort_strings (elements (list_to_set (omap id l) : gset string)))
  = false.
Proof.
  intros Hl. apply not_true_iff_false. rewrite existsb_exists. intros (r & Hr & Hn).
  apply list_elem_of_In in Hr. rewrite sort_strings_perm, elem_of_elements in Hr.
  apply elem_of_list_to_set, list_elem_of_omap in Hr as (o & Ho & Hr).
  unfold id in Hr. subst o. rewrite Forall_forall in Hl. specialize (Hl _ Ho). cbn in Hl.
  by rewrite Hl in Hn.
Qed.

(** A deferral built from a nonempty reason set and a later retry time validates. *)
Lemma mk_decision_deferred (l : list (option string)) at_ retry lease :
  Forall reason_nonempty l -> (list_to_set (omap id l) : gset string) <> ∅ -> at_ < retry ->
  exists d, mk_decision {| outcome := DEFERRED;
      reason_codes := sort_strings (elements (list_to_set (omap id l) : gset string));
      decided_at := at_; retry_at := Some retry; decision_quota_lease := lease |} = Ok d
    /\ outcome d = DEFERRED /\ retry_at d = Some retry /\ decided_at d = at_
    /\ decision_quota_lease d = lease
    /\ reason_codes d = sort_strings (sort_strings (elements (list_to_set (omap id l) : gset string))).
Proof.
  intros Hl Hne Ht. unfold mk_decision, validate_reason_codes.
  cbn [reason_codes outcome decided_at retry_at decision_quota_lease].
  rewrite (reasons_existsb_nonempty l Hl).
  set (rs := elements _). assert (NoDup (sort_strings rs)) as Hnd
    by (rewrite sort_strings_perm; apply NoDup_elements).
  rewrite bool_decide_eq_true_2 by done. cbn -[sort_strings].
  replace (retry <=? at_) with false by (symmetry; apply Z.leb_gt; lia).
  rewrite bool_decide_eq_false_2; [eexists; split_and!; done|].
  intros E. apply Hne. apply leibniz_equiv, elements_empty_inv.
  apply Permutation_nil_r. by rewrite <- E, !sort_strings_perm.
Qed.

(** The codes of a decision: none for an admission, the failing limits of a deferral, each once and in
    order, and the one of a rejection. *)
Definition reasons_given request snapshot policy lease (d : AdmissionDecision) : Prop :=
  match outcome d with
  | ADMITTED => reason_codes d = []
  | REJECTED => reason_codes d = ["non_read_only"%string]
  | DEFERRED => reason_codes d <> [] /\ NoDup (reason_codes d) /\ Sorted String.le (reason_codes d)
      /\ forall c, c ∈ reason_codes d <-> fails request snapshot policy lease c
  end.

Lemma deferral_reasons request snapshot policy lease retry d :
  let l := admission_reasons request snapshot policy ++ [fst (quota_reason request snapshot lease retry)] in
  outcome d = DEFERRED -> (list_to_set (omap id l) : gset string) <> ∅ ->
  reason_codes d = sort_strings (sort_strings (elements (list_to_set (omap id l) : gset string))) ->
  reasons_given request snapshot policy lease d.
Proof.
  intros l Ho Hne E. unfold reasons_given. rewrite Ho, E.
  assert (sort_strings (sort_strings (elements (list_to_set (omap id l) : gset string))) ≡ₚ elements (list_to_set (omap id l) : gset string)) as Hp
    by by rewrite !sort_strings_perm.
  split_and!; [|by rewrite Hp; apply NoDup_elements|apply sort_strings_sorted|].
  - intros E0. rewrite E0 in Hp. apply Hne, leibniz_equiv, elements_empty_inv. by apply Permutation_nil_r.
  - intros c. rewrite Hp, elem_of_elements, elem_of_list_to_set, list_elem_of_omap. split.
    + intros (o & Hin & Hc). unfold id in Hc. subst o. apply elem_of_app in Hin as [Hin|Hin]; [by apply admission_reasons_fail|].
      apply list_elem_of_singleton in Hin. by apply (quota_reason_fails _ _ _ _ retry).
    + intros Hf. exists (Some c). split; [by apply fails_named|done].
Qed.

(** The decision and its meaning, from which the claims below are read off. *)
Lemma evaluate_admission_spec request snapshot policy lease :
  validate_snapshot snapshot = Ok snapshot -> validate_policy policy = Ok policy ->
  exists d, evaluate_admission request snapshot policy lease = Ok d
    /\ decided_at d = observed_at snapshot
    /\ (outcome d = ADMITTED <-> admissible request snapshot policy lease)
    /\ (outcome d = REJECTED <-> read_only request = false)
    /\ (outcome d = DEFERRED -> exists t, retry_at d = Some t
         /\ observed_at snapshot + retry_delay_seconds policy * us_per_second <= t)
    /\ reasons_given request snapshot policy lease d.
Proof.
  intros Hs Hp. unfold evaluate_admission.
  destruct (read_only request) eqn:Hro; cbn [negb]; cycle 1.
  { eexists; split; [reflexivity|]. cbn. split_and!; try done. split; [done|].
    intros []; congruence. }
  rewrite (retry_no_overflow _ _ Hs Hp). cbn [rbind].
  apply validate_policy_ok in Hp.
  pose proof (quota_reason_spec request snapshot lease
    (observed_at snapshot + retry_delay_seconds policy * us_per_second)) as Hq.
  pose proof (quota_reason_nonempty request snapshot lease
    (observed_at snapshot + retry_delay_seconds policy * us_per_second)) as Hqn.
  pose proof (deferral_reasons request snapshot policy lease
    (observed_at snapshot + retry_delay_seconds policy * us_per_second)) as Hgiven. cbv zeta in Hgiven.
  destruct (quota_reason _ _ _ _) as [q retry]. destruct Hq as (Hq & Hle & _). cbn [fst] in Hgiven.
  set (l := admission_reasons request snapshot policy ++ [q]).
  assert (Forall reason_nonempty l) as Hl.
  { apply Forall_app; split; [apply admission_reasons_nonempty|]. by repeat constructor. }
  assert ((list_to_set (omap id l) : gset string) = ∅ <-> admissible request snapshot policy lease)
    as Hadm.
  { rewrite reasons_empty. unfold l. rewrite Forall_app, Forall_singleton,
      admission_reasons_None, Hq. split.
    - intros [(? & ? & ? & ? & ? & ? & ? & ? & ? & ? & ? & ?) ?]. constructor; assumption.
    - intros []. split_and!; assumption. }
  case_bool_decide as He; cbn [negb].
  - eexists; split; [reflexivity|]. cbn. split_and!; try done; tauto.
  - destruct (mk_decision_deferred l (observed_at snapshot) retry lease Hl He)
      as (d & -> & Ho & Hr & Hd & _ & Hcodes); [unfold us_per_second in *; lia|].
    exists d. rewrite Ho. split; [reflexivity|]. split; [assumption|].
    split; [split; [discriminate|intros Ha; by apply Hadm in Ha]|].
    split; [split; discriminate|]. split; [intros _; by exists retry|]. by apply Hgiven.
Qed.

(** A snapshot with at least as much headroom: same instant and session, no less memory,
    disk and quota, no more pressure, and no worse live service levels. *)
Record snapshot_le (s s' : ResourceSnapshot) : Prop := {
  sle_at : observed_at s' = observed_at s;
  sle_session : session s' = session s;
  sle_slo : live_slo_applicable s' = live_slo_applicable s;
  sle_healthy : live_healthy s = true -> live_healthy s' = true;
  sle_backlog : live_backlog_age_microseconds s' <= live_backlog_age_microseconds s;
  sle_latency : live_p95_latency_microseconds s' <= live_p95_latency_microseconds s;
  sle_memory : available_memory_bytes s <= available_memory_bytes s';
  sle_disk : available_disk_bytes s <= available_disk_bytes s';
  sle_io : (io_pressure_pct s' <= io_pressure_pct s)%Q;
  sle_cpu : (cpu_load_pct s' <= cpu_load_pct s)%Q;
  sle_quota : source_quota_remaining s <= source_quota_remaining s'
}.

Lemma admissible_snapshot_le request s s' policy lease :
  snapshot_le s s' -> admissible request s policy lease -> admissible request s' policy lease.
Proof.
  intros [Hat Hse Hsl Hh Hb Hl ? ? ? ? ?] [? Hlive Hslo ? ? ? ? ? ? ? ? ? ? Hlease].
  constructor; try assumption; try lia; try (eapply Qle_trans; eassumption).
  - unfold live_ok in *. by rewrite Hse.
  - unfold slo_ok in *. rewrite Hsl. intros H. specialize (Hslo H).
    split_and!; [naive_solver|lia|lia].
  - unfold lease_ok in *. by rewrite Hat.
Qed.

(** ** Claims *)

(** C29: on validated inputs the gate always decides, and its decision means what it says: a
    request is ADMITTED exactly when it is [admissible] (read-only, every live, SLO, pressure,
    cost, headroom, quota, deadline and lease condition met), REJECTED exactly when it is not
    read-only, and otherwise DEFERRED with a retry time at least the policy's delay away (the
    addition never overflows [datetime.max]).  The reason codes of a deferral are exactly the codes
    of the limits that fail, each once and in order; an admission has none, a rejection its own. *)
Theorem evaluate_admission_decides request snapshot policy lease :
  validate_snapshot snapshot = Ok snapshot -> validate_policy policy = Ok policy ->
  exists d, evaluate_admission request snapshot policy lease = Ok d
    /\ decided_at d = observed_at snapshot
    /\ (outcome d = ADMITTED <-> admissible request snapshot policy lease)
    /\ (outcome d = REJECTED <-> read_only request = false)
    /\ (outcome d = DEFERRED -> exists t, retry_at d = Some t
         /\ observed_at snapshot + retry_delay_seconds policy * us_per_second <= t)
    /\ reasons_given request snapshot policy lease d.
Proof. apply evaluate_admission_spec. Qed.

(** More headroom never turns an admission into a deferral. *)
Theorem admission_monotone request s s' policy lease d :
  validate_snapshot s = Ok s -> validate_snapshot s' = Ok s' ->
  validate_policy policy = Ok policy -> snapshot_le s s' ->
  evaluate_admission request s policy lease = Ok d -> outcome d = ADMITTED ->
  exists d', evaluate_admission request s' policy lease = Ok d' /\ outcome d' = ADMITTED.
Proof.
  intros Hs Hs' Hp Hle He Hd.
  destruct (evaluate_admission_spec request s policy lease Hs Hp) as (d0 & E0 & _ & Ha & _).
  destruct (evaluate_admission_spec request s' policy lease Hs' Hp) as (d' & E' & _ & Ha' & _).
  rewrite He in E0. injection E0 as <-. exists d'. split; [done|].
  apply Ha', (admissible_snapshot_le _ s), Ha; done.
Qed.

Lemma profiles_ok c : profile_ok (LAB_ADMISSION_COST_PROFILES c) = true.
Proof. by destruct c. Qed.

Lemma ceil_div_nonneg a b : 0 <= a -> 0 < b -> 0 <= ceil_div a b.
Proof. intros. unfold ceil_div. apply Z.div_pos; lia. Qed.

Lemma ceil_div_mono a a' b : 0 < b -> a <= a' -> ceil_div a b <= ceil_div a' b.
Proof. intros. unfold ceil_div. apply Z.div_le_mono; lia. Qed.

(** A capped linear cost stays between its base and its cap. *)
Lemma capped_cost_bounds cap base w wc d dc :
  0 <= base <= cap -> 0 <= w -> 0 <= wc -> 0 <= d -> 0 <= dc ->
  base <= Z.min cap (base + w * wc + d * dc) <= cap.
Proof. intros. nia. Qed.

Lemma profile_bounds c : let p := LAB_ADMISSION_COST_PROFILES c in
  0 <= base_memory_bytes p <= max_memory_bytes p
  /\ 0 <= memory_bytes_per_work_step p /\ 0 <= memory_bytes_per_duration_step p
  /\ 0 <= base_disk_bytes p <= max_disk_bytes p
  /\ 0 <= disk_bytes_per_work_step p /\ 0 <= disk_bytes_per_duration_step p
  /\ 0 < work_units_per_step p /\ 0 < duration_ms_per_step p
  /\ max_memory_bytes p <= MAX_RESOURCE_CAPACITY_BYTES
  /\ max_disk_bytes p <= MAX_RESOURCE_CAPACITY_BYTES.
Proof. destruct c; cbn; unfold MIB, GIB, MAX_RESOURCE_CAPACITY_BYTES; lia. Qed.

(** A shard's derived request is accepted exactly when its job id is nonblank, its deadline
    representable and its static duration at most 30 days; it is read-only, asks for no quota,
    and its memory and disk stay between the class's base and its ceiling (so within a signed
    64-bit integer). *)
Theorem derive_lab_admission_request_spec jid cls dl plan :
  work_plan_ok plan = true ->
  (exists r, derive_lab_admission_request jid cls dl (Some plan) = Ok r
     /\ read_only r = true /\ expected_quota_units r = 0 /\ request_source r = None
     /\ preemptible r = profile_preemptible (LAB_ADMISSION_COST_PROFILES cls)
     /\ expected_duration_ms r = static_duration_ms plan /\ deadline r = dl
     /\ base_memory_bytes (LAB_ADMISSION_COST_PROFILES cls) <= expected_memory_bytes r
        <= max_memory_bytes (LAB_ADMISSION_COST_PROFILES cls)
     /\ base_disk_bytes (LAB_ADMISSION_COST_PROFILES cls) <= expected_disk_bytes r
        <= max_disk_bytes (LAB_ADMISSION_COST_PROFILES cls))
  <-> nonempty (strip jid) = true /\ in_range dl = true
      /\ static_duration_ms plan <= MAX_ADMISSION_DURATION_MS.
Proof.
  intros Hplan. unfold work_plan_ok, between in Hplan.
  pose proof (profile_bounds cls) as (Hm & Hmw & Hmd & Hk & Hkw & Hkd & Hw & Hd & Hmm & Hkk).
  unfold derive_lab_admission_request, work_plan_ok, between. rewrite Hplan. cbn [negb].
  bool_hyps. set (p := LAB_ADMISSION_COST_PROFILES cls) in *.
  pose proof (ceil_div_nonneg (work_units plan) (work_units_per_step p) ltac:(lia) Hw) as Hws.
  pose proof (ceil_div_nonneg (static_duration_ms plan) (duration_ms_per_step p) ltac:(lia) Hd) as Hds.
  pose proof (capped_cost_bounds _ _ _ _ _ _ Hm Hws Hmw Hds Hmd) as Bm.
  pose proof (capped_cost_bounds _ _ _ _ _ _ Hk Hws Hkw Hds Hkd) as Bk.
  set (em := Z.min (max_memory_bytes p) _) in *. set (ed := Z.min (max_disk_bytes p) _) in *.
  unfold validate_request, between. cbn.
  change (0 <=? MAX_RESOURCE_COUNT) with true.
  assert ((0 <=? em) && (em <=? MAX_RESOURCE_CAPACITY_BYTES) = true) as ->
    by (rewrite andb_true_iff, !Z.leb_le; lia).
  assert ((0 <=? ed) && (ed <=? MAX_RESOURCE_CAPACITY_BYTES) = true) as ->
    by (rewrite andb_true_iff, !Z.leb_le; lia).
  replace (1 <=? static_duration_ms plan) with true by (symmetry; apply Z.leb_le; lia).
  destruct (nonempty (strip jid)), (in_range dl),
    (Z.leb_spec (static_duration_ms plan) MAX_ADMISSION_DURATION_MS); cbn;
    (split;
     [ intros (r & E & _); first [discriminate E | split_and!; first [done | lia]]
     | intros (? & ? & ?); first [discriminate | lia
         | eexists; split; [reflexivity|]; cbn; split_and!; first [done | lia]] ]).
Qed.

(** A HEAVY shard, whose profile is not preemptible, is never admitted during a live
    session, whatever the resources and the policy. *)
Theorem heavy_never_admitted_live jid dl plan r snapshot policy lease d :
  validate_snapshot snapshot = Ok snapshot -> validate_policy policy = Ok policy ->
  derive_lab_admission_request jid HEAVY dl plan = Ok r ->
  live_session (session snapshot) = true ->
  evaluate_admission r snapshot policy lease = Ok d -> outcome d = DEFERRED.
Proof.
  intros Hs Hp Hr Hl He.
  assert (preemptible r = false /\ read_only r = true) as [Hpre Hro].
  { unfold derive_lab_admission_request, validate_request in Hr. ok_inv Hr; done. }
  destruct (evaluate_admission_spec r snapshot policy lease Hs Hp)
    as (d0 & E0 & _ & Ha & Hrej & _).
  rewrite He in E0. injection E0 as <-. destruct (outcome d) eqn:Ho; [|done|].
  - destruct (proj1 Ha eq_refl) as [_ Hlive _ _ _ _ _ _ _ _ _ _ _ _].
    destruct (Hlive Hl) as (_ & ? & _). congruence.
  - rewrite (proj1 Hrej eq_refl) in Hro. discriminate.
Qed.

(** *** Witnesses *)

Definition example_snapshot : ResourceSnapshot :=
  {| observed_at := 63900000000000000; session := CLOSED; live_slo_applicable := false;
     live_backlog_age_microseconds := 0; live_p95_latency_microseconds := 0;
     available_memory_bytes := 8 * GIB; available_disk_bytes := 64 * GIB;
     io_pressure_pct := 1 # 2; cpu_load_pct := 10; source_quota_remaining := 0;
     live_healthy := true |}.

Definition example_live_snapshot : ResourceSnapshot :=
  {| observed_at := 63900000000000000; session := MORNING; live_slo_applicable := true;
     live_backlog_age_microseconds := 0; live_p95_latency_microseconds := 0;
     available_memory_bytes := 64 * GIB; available_disk_bytes := 64 * GIB;
     io_pressure_pct := 1 # 2; cpu_load_pct := 10; source_quota_remaining := 0;
     live_healthy := true |}.

Definition example_policy : AdmissionPolicy :=
  {| allow_live_session := true; max_live_shard_duration_ms := 5000;
     max_snapshot_age_microseconds := 5000000; max_live_backlog_age_microseconds := 1000000;
     max_live_p95_latency_microseconds := 1000000; min_available_memory_bytes := GIB;
     min_available_disk_bytes := GIB; max_io_pressure_pct := 20; max_cpu_load_pct := 80;
     max_expected_memory_bytes := 8 * GIB; max_expected_disk_bytes := 64 * GIB;
     max_expected_quota_units := 100; retry_delay_seconds := 30 |}.

Definition example_plan : LabShardWorkPlan := {| work_units := 1200; static_duration_ms := 60000 |}.

Definition example_request : AdmissionRequest :=
  {| job_id := "job-1"; resource_class := STANDARD; expected_memory_bytes := 704 * MIB;
     expected_disk_bytes := 640 * MIB; expected_quota_units := 0; expected_duration_ms := 60000;
     request_source := None; preemptible := true; read_only := true;
     deadline := 63900000100000000 |}.

Example derive_example :
  derive_lab_admission_request "job-1" STANDARD 63900000100000000 (Some example_plan)
  = Ok example_request.
Proof. vm_compute. reflexivity. Qed.

(** Too little memory and a busy disk. *)
Definition example_busy : ResourceSnapshot :=
  {| observed_at := 63900000000000000; session := CLOSED; live_slo_applicable := false;
     live_backlog_age_microseconds := 0; live_p95_latency_microseconds := 0;
     available_memory_bytes := GIB; available_disk_bytes := 64 * GIB;
     io_pressure_pct := 30; cpu_load_pct := 10; source_quota_remaining := 0;
     live_healthy := true |}.

Lemma evaluate_admission_decides_witness :
  (exists d, evaluate_admission example_request example_snapshot example_policy None = Ok d
    /\ (outcome d = ADMITTED <-> admissible example_request example_snapshot example_policy None))
  /\ exists d, evaluate_admission example_request example_busy example_policy None = Ok d
    /\ reason_codes d = ["insufficient_memory"; "io_pressure_high"]%string
    /\ reasons_given example_request example_busy example_policy None d.
Proof.
  split.
  - destruct (evaluate_admission_decides example_request example_snapshot example_policy None)
      as (d & E & _ & H & _); [vm_compute; reflexivity | vm_compute; reflexivity |].
    exists d. split; assumption.
  - destruct (evaluate_admission_decides example_request example_busy example_policy None)
      as (d & E & _ & _ & _ & _ & H); [vm_compute; reflexivity | vm_compute; reflexivity |].
    exists d. split; [exact E|]. split; [|exact H]. vm_compute in E. injection E as <-. reflexivity.
Defined.

Lemma admission_monotone_witness :
  exists d', evaluate_admission example_request example_snapshot example_policy None = Ok d'
    /\ outcome d' = ADMITTED.
Proof.
  apply (admission_monotone example_request example_snapshot example_snapshot example_policy None
    {| outcome := ADMITTED; reason_codes := []; decided_at := 63900000000000000;
       retry_at := None; decision_quota_lease := None |});
    try (vm_compute; reflexivity).
  constructor; try reflexivity; try (vm_compute; discriminate); intros H; exact H.
Defined.

Lemma derive_lab_admission_request_spec_witness :
  exists r, derive_lab_admission_request "job-1" STANDARD 63900000100000000 (Some example_plan) = Ok r
    /\ read_only r = true.
Proof.
  destruct (proj2 (derive_lab_admission_request_spec "job-1" STANDARD 63900000100000000
    example_plan eq_refl)) as (r & E & H & _).
  - split; [reflexivity|]. split; [reflexivity|]. vm_compute. discriminate.
  - exists r. split; assumption.
Defined.

Definition example_heavy_request : AdmissionRequest :=
  {| job_id := "job-1"; resource_class := HEAVY; expected_memory_bytes := 1280 * MIB;
     expected_disk_bytes := 1792 * MIB; expected_quota_units := 0;
     expected_duration_ms := 60000; request_source := None; preemptible := false;
     read_only := true; deadline := 63900000100000000 |}.

Definition example_heavy_decision : AdmissionDecision :=
  {| outcome := DEFERRED; reason_codes := ["non_preemptible_live_session"%string];
     decided_at := 63900000000000000; retry_at := Some 63900000030000000;
     decision_quota_lease := None |}.

Lemma heavy_never_admitted_live_witness :
  evaluate_admission example_heavy_request example_live_snapshot example_policy None
    = Ok example_heavy_decision
  /\ outcome example_heavy_decision = DEFERRED.
Proof.
  assert (evaluate_admission example_heavy_request example_live_snapshot example_policy None
    = Ok example_heavy_decision) as E by (vm_compute; reflexivity).
  split; [exact E|].
  apply (heavy_never_admitted_live "job-1" 63900000100000000 (Some example_plan)
    example_heavy_request example_live_snapshot example_policy None);
    [vm_compute; reflexivity .. | exact E].
Defined.
