(* ===== verification/SourceQuota.v ===== *)
(** * Source quota ledger ([src/rquant/source_quota_store.py])

    [SourceQuotaStore] is a SQLite ledger of quota windows, expiring leases, idempotent
    usages and crash-safe attempts.  The store is a record of row lists; a method is a
    function from the store to the store after it and the value returned or the exception
    raised.  [BEGIN IMMEDIATE] makes a method atomic, so an exception before the commit
    leaves the store as it was ([txn]).  Stored timestamps are instants: [Clock.isoformat_compare]
    shows that the text comparisons of the SQL are comparisons of instants. *)

From Stdlib Require Import ZArith Lia Bool.
From Stdlib Require Import Floats.SpecFloat.
From stdpp Require Import base list strings sorting pretty.
From S2P Require Import Prelude Clock ResourceAdmission.
Open Scope Z_scope.
Open Scope rq_scope.

(** ** Rows *)

Inductive SourceQuotaAttemptOutcome := PENDING | SUCCESS | FAILURE | UNKNOWN.

#[export] Instance outcome_eq_dec : EqDecision SourceQuotaAttemptOutcome.
Proof. solve_decision. Defined.

Record quota_window := {
  w_source : string; w_window_id : string;
  w_starts_at : Z; w_resets_at : Z; w_total_units : Z
}.

#[export] Instance window_eq_dec : EqDecision quota_window.
Proof. solve_decision. Defined.

Record quota_lease := {
  l_lease_id : string; l_source : string; l_window_id : string; l_owner : string;
  l_units : Z; l_used_units : Z;
  l_granted_at : Z; l_expires_at : Z; l_quota_reset_at : Z; l_released_at : option Z
}.

Record quota_usage := {
  u_usage_id : string; u_lease_id : string; u_units : Z; u_consumed_at : Z
}.

(** Also the fields of the [SourceQuotaAttempt] contract a row is turned into. *)
Record quota_attempt := {
  a_attempt_id : string; a_source : string; a_owner : string; a_lease_id : string;
  a_units : Z; a_prepared_at : Z; a_dispatched_at : option Z;
  a_outcome : SourceQuotaAttemptOutcome; a_committed_at : option Z;
  a_boot_id : string; a_last_monotonic_ns : Z;
  a_lifecycle_sequence : Z; a_clock_rollback_count : Z
}.

Record quota_transport_attempt := {
  t_attempt_id : string; t_source : string; t_logical_request_id : string;
  t_api_name : string; t_call_ordinal : Z
}.

#[export] Instance transport_eq_dec : EqDecision quota_transport_attempt.
Proof. solve_decision. Defined.

Record quota_source_clock := {
  c_source : string; c_window_kind : string; c_trusted_at : Z; c_rollback_count : Z
}.

Record store := {
  windows : list quota_window;
  leases : list quota_lease;
  usages : list quota_usage;
  attempts : list quota_attempt;
  transports : list quota_transport_attempt;
  clocks : list quota_source_clock
}.

Definition empty_store : store :=
  {| windows := []; leases := []; usages := []; attempts := []; transports := []; clocks := [] |}.

Definition with_windows s x := {| windows := x; leases := leases s; usages := usages s;
  attempts := attempts s; transports := transports s; clocks := clocks s |}.
Definition with_leases s x := {| windows := windows s; leases := x; usages := usages s;
  attempts := attempts s; transports := transports s; clocks := clocks s |}.
Definition with_usages s x := {| windows := windows s; leases := leases s; usages := x;
  attempts := attempts s; transports := transports s; clocks := clocks s |}.
Definition with_attempts s x := {| windows := windows s; leases := leases s; usages := usages s;
  attempts := x; transports := transports s; clocks := clocks s |}.
Definition with_transports s x := {| windows := windows s; leases := leases s; usages := usages s;
  attempts := attempts s; transports := x; clocks := clocks s |}.
Definition with_clocks s x := {| windows := windows s; leases := leases s; usages := usages s;
  attempts := attempts s; transports := transports s; clocks := x |}.

(** ** Selectors *)

Definition is_window (src wid : string) (w : quota_window) : bool :=
  eqs (w_source w) src && eqs (w_window_id w) wid.
Definition overlaps (src : string) (starts resets : Z) (w : quota_window) : bool :=
  eqs (w_source w) src && (w_starts_at w <? resets) && (starts <? w_resets_at w).
Definition is_active (src : string) (now : Z) (w : quota_window) : bool :=
  eqs (w_source w) src && (w_starts_at w <=? now) && (now <? w_resets_at w).
Definition in_window (src wid : string) (l : quota_lease) : bool :=
  eqs (l_source l) src && eqs (l_window_id l) wid.
Definition is_owner (src wid own : string) (l : quota_lease) : bool :=
  in_window src wid l && eqs (l_owner l) own.
Definition is_lease (lid : string) (l : quota_lease) : bool := eqs (l_lease_id l) lid.
Definition is_usage (uid : string) (u : quota_usage) : bool := eqs (u_usage_id u) uid.
Definition is_attempt (aid : string) (a : quota_attempt) : bool := eqs (a_attempt_id a) aid.
Definition attempt_on (lid : string) (a : quota_attempt) : bool := eqs (a_lease_id a) lid.
Definition is_pending (a : quota_attempt) : bool := bool_decide (a_outcome a = PENDING).
Definition pending_on (lid : string) (a : quota_attempt) : bool :=
  attempt_on lid a && is_pending a.
Definition is_transport (aid : string) (t : quota_transport_attempt) : bool :=
  eqs (t_attempt_id t) aid.
Definition is_call (src req : string) (ord : Z) (t : quota_transport_attempt) : bool :=
  eqs (t_source t) src && eqs (t_logical_request_id t) req && (t_call_ordinal t =? ord).
Definition is_clock (src : string) (c : quota_source_clock) : bool := eqs (c_source c) src.

(** ** Inserts, with the constraints of the schema *)

Definition insert_window (w : quota_window) (s : store) : res store :=
  if negb (sql_int (w_total_units w)) then too_large
  else if negb (0 <? w_total_units w) then integrity "CHECK(total_units > 0)"
  else if exists_row (is_window (w_source w) (w_window_id w)) (windows s)
  then integrity "PRIMARY KEY(source, window_id)"
  else Ok (with_windows s (windows s ++ [w])).

Definition insert_lease (l : quota_lease) (s : store) : res store :=
  if negb (sql_int (l_units l) && sql_int (l_used_units l)) then too_large
  else if negb ((0 <? l_units l) && (0 <=? l_used_units l)) then integrity "CHECK(units > 0)"
  else if exists_row (is_lease (l_lease_id l)) (leases s) then integrity "PRIMARY KEY(lease_id)"
  else if exists_row (is_owner (l_source l) (l_window_id l) (l_owner l)) (leases s)
  then integrity "UNIQUE(source, window_id, owner)"
  else if negb (exists_row (is_window (l_source l) (l_window_id l)) (windows s))
  then integrity "FOREIGN KEY(source, window_id)"
  else Ok (with_leases s (leases s ++ [l])).

Definition insert_usage (u : quota_usage) (s : store) : res store :=
  if negb (sql_int (u_units u)) then too_large
  else if negb (0 <? u_units u) then integrity "CHECK(units > 0)"
  else if exists_row (is_usage (u_usage_id u)) (usages s) then integrity "PRIMARY KEY(usage_id)"
  else if negb (exists_row (is_lease (u_lease_id u)) (leases s)) then integrity "FOREIGN KEY(lease_id)"
  else Ok (with_usages s (usages s ++ [u])).

Definition insert_attempt (a : quota_attempt) (s : store) : res store :=
  if negb (sql_int (a_units a) && sql_int (a_last_monotonic_ns a)
           && sql_int (a_lifecycle_sequence a) && sql_int (a_clock_rollback_count a)) then too_large
  else if negb (0 <? a_units a) then integrity "CHECK(units > 0)"
  else if exists_row (is_attempt (a_attempt_id a)) (attempts s)
  then integrity "PRIMARY KEY(attempt_id)"
  else if exists_row (attempt_on (a_lease_id a)) (attempts s) then integrity "UNIQUE(lease_id)"
  else if negb (exists_row (is_lease (a_lease_id a)) (leases s)) then integrity "FOREIGN KEY(lease_id)"
  else Ok (with_attempts s (attempts s ++ [a])).

Definition insert_transport (t : quota_transport_attempt) (s : store) : res store :=
  if negb (sql_int (t_call_ordinal t)) then too_large
  else if negb (0 <? t_call_ordinal t) then integrity "CHECK(call_ordinal > 0)"
  else if exists_row (is_transport (t_attempt_id t)) (transports s)
  then integrity "PRIMARY KEY(attempt_id)"
  else if exists_row (is_call (t_source t) (t_logical_request_id t) (t_call_ordinal t)) (transports s)
  then integrity "UNIQUE(source, logical_request_id, call_ordinal)"
  else if negb (exists_row (is_attempt (t_attempt_id t)) (attempts s))
  then integrity "FOREIGN KEY(attempt_id)"
  else Ok (with_transports s (transports s ++ [t])).

Definition insert_clock (c : quota_source_clock) (s : store) : res store :=
  if negb (eqs (c_window_kind c) "day" || eqs (c_window_kind c) "minute")
  then integrity "CHECK(window_kind IN ('day', 'minute'))"
  else if exists_row (is_clock (c_source c)) (clocks s) then integrity "PRIMARY KEY(source)"
  else Ok (with_clocks s (clocks s ++ [c])).

(** ** Queries shared by the methods *)

(** [ORDER BY starts_at DESC LIMIT 1]. *)
Definition latest_window (ws : list quota_window) : option quota_window :=
  fold_left (fun best w => match best with
    | Some b => if w_starts_at b <? w_starts_at w then Some w else best
    | None => Some w end) ws None.

Definition active_window (s : store) (src : string) (now : Z) : res quota_window :=
  match latest_window (select (is_active src now) (windows s)) with
  | None => Err (Raise SourceQuotaExhaustedError ("no active window for source " +:+ src))
  | Some w => Ok w
  end.

(** SQLite [SUM] over an INTEGER column raises once the running sum leaves 64 bits. *)
Definition sql_sum (zs : list Z) : res Z :=
  fold_left (fun acc z => a <~ acc ;;
    if in_int64 (a + z) then Ok (a + z) else Err (Raise OperationalError "integer overflow")) zs (Ok 0).

(** The units a lease still holds against its window. *)
Definition lease_reserved (s : store) (now : Z) (l : quota_lease) : Z :=
  match l_released_at l with
  | None => if (now <? l_expires_at l) || exists_row (pending_on (l_lease_id l)) (attempts s)
            then l_units l - l_used_units l else 0
  | Some _ => 0
  end.

Definition remaining_in_window (s : store) (w : quota_window) (now : Z) : res Z :=
  let ls := select (in_window (w_source w) (w_window_id w)) (leases s) in
  consumed <~ sql_sum (map l_used_units ls) ;;
  reserved <~ sql_sum (map (lease_reserved s now) ls) ;;
  Ok (w_total_units w - consumed - reserved).

(** [SourceQuotaAttempt.validate_lifecycle]. *)
Definition validate_lifecycle (a : quota_attempt) : res quota_attempt :=
  let lt_opt x := match x with Some d => fun t => t <? d | None => fun _ => false end in
  raise_if match a_dispatched_at a with Some d => d <? a_prepared_at a | None => false end
    as ValueError saying "attempt dispatch precedes preparation" ;;
  match a_outcome a, a_committed_at a with
  | PENDING, Some _ => Err (Raise ValueError "pending attempt cannot be committed")
  | PENDING, None => Ok a
  | _, None => Err (Raise ValueError "completed attempt requires committed_at")
  | _, Some c =>
      raise_if c <? a_prepared_at a
        as ValueError saying "attempt completion precedes preparation" ;;
      raise_if lt_opt (a_dispatched_at a) c
        as ValueError saying "attempt completion precedes dispatch" ;;
      Ok a
  end.

(** [_attempt_from_row]: the contract model strips its strings and checks its fields. *)
Definition attempt_from_row (row : quota_attempt) : res quota_attempt :=
  let a := {| a_attempt_id := strip (a_attempt_id row); a_source := strip (a_source row);
              a_owner := strip (a_owner row); a_lease_id := strip (a_lease_id row);
              a_units := a_units row; a_prepared_at := a_prepared_at row;
              a_dispatched_at := a_dispatched_at row; a_outcome := a_outcome row;
              a_committed_at := a_committed_at row; a_boot_id := strip (a_boot_id row);
              a_last_monotonic_ns := a_last_monotonic_ns row;
              a_lifecycle_sequence := a_lifecycle_sequence row;
              a_clock_rollback_count := a_clock_rollback_count row |} in
  raise_if negb (nonempty (a_attempt_id a) && nonempty (a_source a) && nonempty (a_owner a)
                 && is_hex64 (a_lease_id a) && (0 <? a_units a) && nonempty (a_boot_id a)
                 && (0 <=? a_last_monotonic_ns a) && (1 <=? a_lifecycle_sequence a)
                 && (0 <=? a_clock_rollback_count a))
    as ValueError saying "field out of range" ;;
  validate_lifecycle a.

(** [_quota_window]: the day or the minute around an instant. *)
Definition quota_window_bounds (observed : Z) (kind : string) : res (string * Z * Z) :=
  if eqs kind "day" then
    let starts := observed - observed mod us_per_day in
    resets <~ add_us starts us_per_day ;; Ok (strftime_day starts, starts, resets)
  else
    let starts := observed - observed mod us_per_minute in
    resets <~ add_us starts us_per_minute ;; Ok (strftime_minute starts, starts, resets).

(** [int(min_age.total_seconds() * 1_000_000_000)], in binary64: the number of seconds is
    the quotient of the microseconds by a million, then a product, then truncation. *)
Definition float_of_Z (z : Z) : spec_float := binary_normalize 53 1024 z 0 false.

Definition trunc_float (f : spec_float) : Z :=
  match f with
  | S754_finite sgn m e =>
      let a := if 0 <=? e then Z.pos m * 2 ^ e else Z.pos m / 2 ^ (- e) in
      if sgn then - a else a
  | _ => 0
  end.

Definition minimum_age_ns (min_age_us : Z) : Z :=
  trunc_float (SFmul 53 1024 (SFdiv 53 1024 (float_of_Z min_age_us) (float_of_Z 1000000))
                 (float_of_Z 1000000000)).

Example minimum_age_ns_tenth : minimum_age_ns 100000 = 100000000.
Proof. vm_compute. reflexivity. Qed.

(** ** The methods *)

Section Methods.
(** [canonical_sha256] of a lease identity, and the store's [boot_id]. *)
Context (lease_sha256 : LeaseIdentity -> string) (boot_id : string).

(** [_lease_from_row]. *)
Definition lease_from_row (row : quota_lease) : res SourceQuotaLease :=
  mk_lease lease_sha256
    {| lease_id := l_lease_id row; source := l_source row; owner := l_owner row;
       units := l_units row; granted_at := l_granted_at row; expires_at := l_expires_at row;
       quota_reset_at := l_quota_reset_at row; released_at := l_released_at row |}.

Definition declare_window (src wid : string) (starts_at resets_at : pydatetime)
    (total_units : Z) (s : store) : store * res unit :=
  let src := strip src in
  let wid := strip wid in
  txn s (
    starts <~ normalize_aware_utc starts_at ;;
    resets <~ normalize_aware_utc resets_at ;;
    raise_if negb (nonempty src && nonempty wid)
      as ValueError saying "source and window_id must be nonempty" ;;
    raise_if resets <=? starts as ValueError saying "resets_at must follow starts_at" ;;
    raise_if total_units <? 1 as ValueError saying "total_units must be positive" ;;
    let payload := {| w_source := src; w_window_id := wid; w_starts_at := starts;
                      w_resets_at := resets; w_total_units := total_units |} in
    match fetchone (is_window src wid) (windows s) with
    | Some existing =>
        raise_if negb (bool_decide (existing = payload))
          as SourceQuotaConflictError saying "quota window contract conflicts" ;;
        committed s tt
    | None =>
        match fetchone (overlaps src starts resets) (windows s) with
        | Some o => Err (Raise SourceQuotaConflictError ("quota window overlaps " +:+ w_window_id o))
        | None => s' <~ insert_window payload s ;; committed s' tt
        end
    end).

Definition remaining (src : string) (now : pydatetime) (s : store) : store * res Z :=
  txn s (
    observed <~ normalize_aware_utc now ;;
    window <~ active_window s src observed ;;
    r <~ remaining_in_window s window observed ;;
    committed s r).

Definition exhausted {A} (u r : Z) : res A :=
  Err (Raise SourceQuotaExhaustedError
    ("quota exhausted: requested=" +:+ pretty u +:+ ", remaining=" +:+ pretty r)).

(** The lease contract built from a fresh grant, and the row stored for it. *)
Definition new_lease (src own : string) (u granted expires reset : Z) : res SourceQuotaLease :=
  mk_lease lease_sha256
    {| lease_id := ""; source := src; owner := own; units := u; granted_at := granted;
       expires_at := expires; quota_reset_at := reset; released_at := None |}.

Definition lease_row (l : SourceQuotaLease) (wid : string) : quota_lease :=
  {| l_lease_id := lease_id l; l_source := source l; l_window_id := wid; l_owner := owner l;
     l_units := units l; l_used_units := 0; l_granted_at := granted_at l;
     l_expires_at := expires_at l; l_quota_reset_at := quota_reset_at l;
     l_released_at := None |}.

Definition acquire (src own : string) (u : Z) (now expires_at : pydatetime) (s : store)
    : store * res SourceQuotaLease :=
  let src := strip src in
  let own := strip own in
  txn s (
    observed <~ normalize_aware_utc now ;;
    expires <~ normalize_aware_utc expires_at ;;
    raise_if negb (nonempty src && nonempty own)
      as ValueError saying "source and owner must be nonempty" ;;
    raise_if u <? 1 as ValueError saying "units must be positive" ;;
    window <~ active_window s src observed ;;
    let reset := w_resets_at window in
    raise_if (expires <=? observed) || (reset <? expires)
      as ValueError saying "expires_at must be after now and no later than reset" ;;
    match fetchone (is_owner src (w_window_id window) own) (leases s) with
    | Some existing =>
        raise_if negb (l_units existing =? u) || negb (l_expires_at existing =? expires)
          as SourceQuotaConflictError saying "quota owner retry conflicts" ;;
        Ok (s, lease_from_row existing)
    | None =>
        rem <~ remaining_in_window s window observed ;;
        if rem <? u then exhausted u rem else
        lease <~ new_lease src own u observed expires reset ;;
        s' <~ insert_lease (lease_row lease (w_window_id window)) s ;;
        committed s' lease
    end).

Definition get_attempt (aid : string) (s : store) : store * res (option quota_attempt) :=
  let identifier := strip aid in
  txn s (
    raise_if negb (nonempty identifier) as ValueError saying "attempt_id must be nonempty" ;;
    match fetchone (is_attempt identifier) (attempts s) with
    | None => committed s None
    | Some row => a <~ attempt_from_row row ;; committed s (Some a)
    end).

(** [ORDER BY prepared_at, attempt_id]. *)
Definition attempt_le (a b : quota_attempt) : Prop :=
  a_prepared_at a < a_prepared_at b
  \/ a_prepared_at a = a_prepared_at b /\ String.le (a_attempt_id a) (a_attempt_id b).

#[local] Instance attempt_le_dec : RelDecision attempt_le.
Proof. intros a b. unfold attempt_le. apply _. Defined.

Definition by_prepared (l : list quota_attempt) : list quota_attempt := merge_sort attempt_le l.

Definition list_attempts (src : option string) (s : store) : store * res (list quota_attempt) :=
  txn s (
    rows <~ match src with
            | None => Ok (by_prepared (attempts s))
            | Some src =>
                let normalized := strip src in
                raise_if negb (nonempty normalized) as ValueError saying "source must be nonempty" ;;
                Ok (by_prepared (select (fun a => eqs (a_source a) normalized) (attempts s)))
            end ;;
    out <~ rmap attempt_from_row rows ;;
    committed s out).

Definition bind_transport_attempt (aid src req api : string) (ord : Z) (s : store)
    : store * res unit :=
  let identifier := strip aid in
  let src := strip src in
  let req := strip req in
  let api := strip api in
  txn s (
    raise_if negb (nonempty identifier && nonempty src && nonempty req && nonempty api)
      as ValueError
      saying "attempt_id, source, logical_request_id, and api_name must be nonempty" ;;
    raise_if ord <? 1 as ValueError saying "call_ordinal must be a positive int" ;;
    let expected := {| t_attempt_id := identifier; t_source := src;
                       t_logical_request_id := req; t_api_name := api; t_call_ordinal := ord |} in
    match fetchone (is_attempt identifier) (attempts s) with
    | None => Err (Raise SourceQuotaConflictError "quota transport attempt does not exist")
    | Some attempt =>
        raise_if negb (eqs (a_source attempt) src)
          as SourceQuotaConflictError saying "quota transport attempt source conflicts" ;;
        match fetchone (is_transport identifier) (transports s) with
        | Some existing =>
            raise_if negb (bool_decide (existing = expected))
              as SourceQuotaConflictError saying "quota transport attempt binding conflicts" ;;
            committed s tt
        | None =>
            raise_if bool_decide (is_Some (fetchone (is_call src req ord) (transports s)))
              as SourceQuotaConflictError saying "quota transport call ordinal conflicts" ;;
            s' <~ insert_transport expected s ;; committed s' tt
        end
    end).

(** [ORDER BY transport.call_ordinal] over the join of transports and attempts. *)
Definition ordinal_le (a b : Z * quota_attempt) : Prop := fst a <= fst b.

#[local] Instance ordinal_le_dec : RelDecision ordinal_le.
Proof. intros a b. unfold ordinal_le. apply _. Defined.

Definition transport_join (src req : string) (s : store) : list (Z * quota_attempt) :=
  flat_map (fun t =>
      if eqs (t_source t) src && eqs (t_logical_request_id t) req
      then map (pair (t_call_ordinal t)) (select (is_attempt (t_attempt_id t)) (attempts s))
      else [])
    (transports s).

Definition list_transport_attempts (src req : string) (s : store)
    : store * res (list quota_attempt) :=
  let src := strip src in
  let req := strip req in
  txn s (
    raise_if negb (nonempty src && nonempty req)
      as ValueError saying "source and logical_request_id must be nonempty" ;;
    out <~ rmap attempt_from_row (map snd (merge_sort ordinal_le (transport_join src req s))) ;;
    committed s out).

(** The source clock part of [begin_transport_dispatch]: the effective time, which never
    goes back, the rollback flag, and the store with the clock row written. *)
Definition coalesce_dispatched (a : quota_attempt) : Z :=
  match a_dispatched_at a with Some d => d | None => a_prepared_at a end.

Definition latest_attempt_at (src : string) (s : store) : option Z :=
  fold_left (fun m a => match m with
      | None => Some (coalesce_dispatched a)
      | Some x => Some (Z.max x (coalesce_dispatched a)) end)
    (select (fun a => eqs (a_source a) src) (attempts s)) None.

Definition advance_source_clock (src kind : string) (observed : Z) (s : store)
    : res (Z * Z * store) :=
  match fetchone (is_clock src) (clocks s) with
  | None =>
      let '(effective, rollback) :=
        match latest_attempt_at src s with
        | Some previous => if observed <? previous then (previous, 1) else (observed, 0)
        | None => (observed, 0)
        end in
      s' <~ insert_clock {| c_source := src; c_window_kind := kind; c_trusted_at := effective;
                            c_rollback_count := rollback |} s ;;
      Ok (effective, rollback, s')
  | Some row =>
      raise_if negb (eqs (c_window_kind row) kind)
        as SourceQuotaConflictError saying "source quota window kind conflicts" ;;
      let '(effective, rollback) :=
        if observed <? c_trusted_at row then (c_trusted_at row, 1) else (observed, 0) in
      Ok (effective, rollback,
          with_clocks s (update (is_clock src)
            (fun c => {| c_source := c_source c; c_window_kind := c_window_kind c;
                         c_trusted_at := effective;
                         c_rollback_count := c_rollback_count c + rollback |}) (clocks s)))
  end.

(** The window part: the declared window of the effective time, inserted when absent. *)
Definition ensure_transport_window (src : string) (total : Z) (bounds : string * Z * Z)
    (s : store) : res (quota_window * store) :=
  let '(wid, starts, resets) := bounds in
  let payload := {| w_source := src; w_window_id := wid; w_starts_at := starts;
                    w_resets_at := resets; w_total_units := total |} in
  match fetchone (is_window src wid) (windows s) with
  | None =>
      match fetchone (overlaps src starts resets) (windows s) with
      | Some o => Err (Raise SourceQuotaConflictError ("quota window overlaps " +:+ w_window_id o))
      | None => s' <~ insert_window payload s ;; Ok (payload, s')
      end
  | Some window =>
      raise_if negb (bool_decide (window = payload))
        as SourceQuotaConflictError saying "quota window contract conflicts" ;;
      Ok (window, s)
  end.

Definition begin_transport_dispatch (src own aid req api : string) (ord u total : Z)
    (kind : string) (clock : pydatetime) (monotonic_ns : Z) (s : store)
    : store * res (quota_attempt * bool) :=
  let src := strip src in
  let own := strip own in
  let identifier := strip aid in
  let req := strip req in
  let api := strip api in
  let binding := {| t_attempt_id := identifier; t_source := src;
                    t_logical_request_id := req; t_api_name := api; t_call_ordinal := ord |} in
  txn s (
    raise_if negb (nonempty src && nonempty own && nonempty identifier && nonempty req
                   && nonempty api)
      as ValueError saying "transport attempt identifiers must be nonempty" ;;
    raise_if ord <? 1 as ValueError saying "call_ordinal must be a positive int" ;;
    raise_if (u <? 1) || (total <? 1)
      as ValueError saying "transport quota units must be positive" ;;
    raise_if negb (eqs kind "day" || eqs kind "minute")
      as ValueError saying "window_kind must be day or minute" ;;
    observed <~ normalize_aware_utc clock ;;
    raise_if monotonic_ns <? 0 as ValueError saying "monotonic_ns must be nonnegative" ;;
    match fetchone (is_attempt identifier) (attempts s) with
    | Some row =>
        existing <~ attempt_from_row row ;;
        raise_if negb (eqs (a_source existing) src && eqs (a_owner existing) own
                       && (a_units existing =? u))
          as SourceQuotaConflictError saying "quota attempt retry conflicts" ;;
        match fetchone (is_transport identifier) (transports s) with
        | None => s' <~ insert_transport binding s ;; committed s' (existing, false)
        | Some b =>
            raise_if negb (bool_decide (b = binding))
              as SourceQuotaConflictError saying "quota transport attempt binding conflicts" ;;
            committed s (existing, false)
        end
    | None =>
        bind (effective, rollback, s1) from advance_source_clock src kind observed s ;;
        bounds <~ quota_window_bounds effective kind ;;
        bind (window, s2) from ensure_transport_window src total bounds s1 ;;
        let wid := w_window_id window in
        let resets := snd bounds in
        raise_if bool_decide (is_Some (fetchone (is_owner src wid own) (leases s2)))
          as SourceQuotaConflictError saying "quota owner already has an attempt" ;;
        rem <~ remaining_in_window s2 window effective ;;
        if rem <? u then exhausted u rem else
        lease <~ new_lease src own u effective resets resets ;;
        s3 <~ insert_lease (lease_row lease wid) s2 ;;
        let attempt :=
          {| a_attempt_id := identifier; a_source := src; a_owner := own;
             a_lease_id := lease_id lease; a_units := u; a_prepared_at := effective;
             a_dispatched_at := Some effective; a_outcome := PENDING; a_committed_at := None;
             a_boot_id := boot_id; a_last_monotonic_ns := monotonic_ns;
             a_lifecycle_sequence := 2; a_clock_rollback_count := rollback |} in
        s4 <~ insert_attempt attempt s3 ;;
        s5 <~ insert_transport binding s4 ;;
        Ok (s5, a <~ attempt_from_row attempt ;; Ok (a, true))
    end).

Definition begin_attempt (src own aid : string) (u : Z) (now expires_at : pydatetime)
    (monotonic_ns : Z) (s : store) : store * res quota_attempt :=
  let src := strip src in
  let own := strip own in
  let aid := strip aid in
  txn s (
    observed <~ normalize_aware_utc now ;;
    raise_if monotonic_ns <? 0 as ValueError saying "monotonic_ns must be nonnegative" ;;
    expires <~ normalize_aware_utc expires_at ;;
    raise_if negb (nonempty src && nonempty own && nonempty aid)
      as ValueError saying "source, owner, and attempt_id must be nonempty" ;;
    raise_if u <? 1 as ValueError saying "units must be positive" ;;
    match fetchone (is_attempt aid) (attempts s) with
    | Some row =>
        attempt <~ attempt_from_row row ;;
        raise_if negb (eqs (a_source attempt) src && eqs (a_owner attempt) own
                       && (a_units attempt =? u))
          as SourceQuotaConflictError saying "quota attempt retry conflicts" ;;
        committed s attempt
    | None =>
        window <~ active_window s src observed ;;
        let reset := w_resets_at window in
        raise_if (expires <=? observed) || (reset <? expires)
          as ValueError saying "expires_at must be after now and no later than reset" ;;
        raise_if bool_decide (is_Some (fetchone (is_owner src (w_window_id window) own) (leases s)))
          as SourceQuotaConflictError saying "quota owner already has an attempt" ;;
        rem <~ remaining_in_window s window observed ;;
        if rem <? u then exhausted u rem else
        lease <~ new_lease src own u observed expires reset ;;
        s1 <~ insert_lease (lease_row lease (w_window_id window)) s ;;
        let attempt :=
          {| a_attempt_id := aid; a_source := src; a_owner := own;
             a_lease_id := lease_id lease; a_units := u; a_prepared_at := observed;
             a_dispatched_at := None; a_outcome := PENDING; a_committed_at := None;
             a_boot_id := boot_id; a_last_monotonic_ns := monotonic_ns;
             a_lifecycle_sequence := 1; a_clock_rollback_count := 0 |} in
        s2 <~ insert_attempt attempt s1 ;;
        Ok (s2, attempt_from_row attempt)
    end).

Definition set_dispatched (at_ ns rollback : Z) (a : quota_attempt) : quota_attempt :=
  {| a_attempt_id := a_attempt_id a; a_source := a_source a; a_owner := a_owner a;
     a_lease_id := a_lease_id a; a_units := a_units a; a_prepared_at := a_prepared_at a;
     a_dispatched_at := Some at_; a_outcome := a_outcome a; a_committed_at := a_committed_at a;
     a_boot_id := a_boot_id a; a_last_monotonic_ns := ns;
     a_lifecycle_sequence := a_lifecycle_sequence a + 1;
     a_clock_rollback_count := a_clock_rollback_count a + rollback |}.

Definition set_outcome (o : SourceQuotaAttemptOutcome) (at_ ns rollback : Z)
    (a : quota_attempt) : quota_attempt :=
  {| a_attempt_id := a_attempt_id a; a_source := a_source a; a_owner := a_owner a;
     a_lease_id := a_lease_id a; a_units := a_units a; a_prepared_at := a_prepared_at a;
     a_dispatched_at := a_dispatched_at a; a_outcome := o; a_committed_at := Some at_;
     a_boot_id := a_boot_id a; a_last_monotonic_ns := ns;
     a_lifecycle_sequence := a_lifecycle_sequence a + 1;
     a_clock_rollback_count := a_clock_rollback_count a + rollback |}.

Definition set_used (u : Z) (l : quota_lease) : quota_lease :=
  {| l_lease_id := l_lease_id l; l_source := l_source l; l_window_id := l_window_id l;
     l_owner := l_owner l; l_units := l_units l; l_used_units := l_used_units l + u;
     l_granted_at := l_granted_at l; l_expires_at := l_expires_at l;
     l_quota_reset_at := l_quota_reset_at l; l_released_at := l_released_at l |}.

Definition set_released (at_ : Z) (l : quota_lease) : quota_lease :=
  {| l_lease_id := l_lease_id l; l_source := l_source l; l_window_id := l_window_id l;
     l_owner := l_owner l; l_units := l_units l; l_used_units := l_used_units l;
     l_granted_at := l_granted_at l; l_expires_at := l_expires_at l;
     l_quota_reset_at := l_quota_reset_at l; l_released_at := Some at_ |}.

(** Re-selecting an attempt row after an update of it. *)
Definition reread_attempt (aid : string) (s : store) : res quota_attempt :=
  match fetchone (is_attempt aid) (attempts s) with
  | Some row => attempt_from_row row
  | None => Err (Raise TypeError "'NoneType' object is not subscriptable")
  end.

Definition mark_dispatched (aid : string) (now : pydatetime) (monotonic_ns : Z) (s : store)
    : store * res quota_attempt :=
  txn s (
    observed <~ normalize_aware_utc now ;;
    raise_if monotonic_ns <? 0 as ValueError saying "monotonic_ns must be nonnegative" ;;
    match fetchone (is_attempt aid) (attempts s) with
    | None => Err (Raise SourceQuotaConflictError "quota attempt does not exist")
    | Some row =>
        attempt <~ attempt_from_row row ;;
        raise_if negb (is_pending attempt)
          as SourceQuotaConflictError saying "quota attempt is already completed" ;;
        match a_dispatched_at attempt with
        | None =>
            let effective := Z.max observed (a_prepared_at attempt) in
            let rollback := if observed <? a_prepared_at attempt then 1 else 0 in
            if negb (sql_int monotonic_ns) then too_large else
            let s' := with_attempts s (update (is_attempt aid)
                        (set_dispatched effective monotonic_ns rollback) (attempts s)) in
            Ok (s', reread_attempt aid s')
        | Some _ => Ok (s, attempt_from_row row)
        end
    end).

Definition complete_attempt (aid : string) (o : SourceQuotaAttemptOutcome) (now : pydatetime)
    (monotonic_ns : Z) (s : store) : store * res quota_attempt :=
  txn s (
    raise_if bool_decide (o = PENDING) as ValueError saying "attempt outcome must be final" ;;
    observed <~ normalize_aware_utc now ;;
    raise_if monotonic_ns <? 0 as ValueError saying "monotonic_ns must be nonnegative" ;;
    match fetchone (is_attempt aid) (attempts s) with
    | None => Err (Raise SourceQuotaConflictError "quota attempt does not exist")
    | Some row =>
        attempt <~ attempt_from_row row ;;
        if negb (is_pending attempt) then
          raise_if negb (bool_decide (a_outcome attempt = o))
            as SourceQuotaConflictError saying "quota attempt completion conflicts" ;;
          committed s attempt
        else
          let floor := coalesce_dispatched attempt in
          let effective := Z.max observed floor in
          let rollback := if observed <? floor then 1 else 0 in
          match fetchone (is_lease (a_lease_id attempt)) (leases s) with
          | None => Err (Raise SourceQuotaConflictError "quota attempt lease is not active")
          | Some lease =>
              raise_if bool_decide (is_Some (l_released_at lease))
                as SourceQuotaConflictError saying "quota attempt lease is not active" ;;
              raise_if l_units lease <? l_used_units lease + a_units attempt
                as SourceQuotaConflictError saying "attempt consumption exceeds reserved units" ;;
              let lid := a_lease_id attempt in
              let s1 := with_leases s (update (is_lease lid) (set_used (a_units attempt)) (leases s)) in
              s2 <~ insert_usage {| u_usage_id := "attempt:" +:+ a_attempt_id attempt;
                                    u_lease_id := lid; u_units := a_units attempt;
                                    u_consumed_at := effective |} s1 ;;
              let s3 := with_leases s2 (update (is_lease lid) (set_released effective) (leases s2)) in
              if negb (sql_int monotonic_ns) then too_large else
              let s4 := with_attempts s3 (update (is_attempt (a_attempt_id attempt))
                          (set_outcome o effective monotonic_ns rollback) (attempts s3)) in
              Ok (s4, reread_attempt aid s4)
          end
    end).

Definition commit_attempt := complete_attempt.

Definition recover_attempt (aid : string) (now : pydatetime) (monotonic_ns : Z) (s : store)
    : store * res quota_attempt :=
  complete_attempt aid UNKNOWN now monotonic_ns s.

(** The eligible identifiers of [recover_stale_attempts], at most [max_count] of them. *)
Fixpoint stale_eligible (now_ns min_ns max_count : Z) (found : Z) (rows : list quota_attempt)
    : list string :=
  match rows with
  | [] => []
  | row :: rows =>
      let eligible :=
        if negb (eqs (a_boot_id row) boot_id) then true
        else (a_last_monotonic_ns row <=? now_ns)
             && (min_ns <=? now_ns - a_last_monotonic_ns row) in
      let found := if eligible then found + 1 else found in
      let rest := if found =? max_count then [] else stale_eligible now_ns min_ns max_count found rows in
      if eligible then a_attempt_id row :: rest else rest
  end.

(** One transaction per identifier: an exception keeps what was already recovered.  Every
    recovery reads the monotonic clock again; [ns_of] is the reading taken for an identifier. *)
Fixpoint recover_each (ids : list string) (now : pydatetime) (ns_of : string -> Z) (s : store)
    : store * res (list quota_attempt) :=
  match ids with
  | [] => (s, Ok [])
  | aid :: ids =>
      match get_attempt aid s with
      | (s, Err e) => (s, Err e)
      | (s, Ok None) => recover_each ids now ns_of s
      | (s, Ok (Some current)) =>
          if negb (is_pending current) then recover_each ids now ns_of s
          else match recover_attempt aid now (ns_of aid) s with
               | (s, Err e) => (s, Err e)
               | (s, Ok a) =>
                   match recover_each ids now ns_of s with
                   | (s, Ok l) => (s, Ok (a :: l))
                   | (s, Err e) => (s, Err e)
                   end
               end
      end
  end.

Definition recover_stale_attempts (src : string) (now : pydatetime) (min_age_us max_count : Z)
    (monotonic_ns : Z) (ns_of : string -> Z) (s : store) : store * res (list quota_attempt) :=
  let src := strip src in
  if negb (nonempty src) then (s, Err (Raise ValueError "source must be nonempty"))
  else if min_age_us <? 0 then (s, Err (Raise ValueError "min_age must be nonnegative"))
  else if max_count <? 1 then (s, Err (Raise ValueError "max_count must be positive"))
  else if monotonic_ns <? 0 then (s, Err (Raise ValueError "monotonic_ns must be nonnegative"))
  else
    let rows := by_prepared (select (fun a => eqs (a_source a) src && is_pending a) (attempts s)) in
    recover_each (stale_eligible monotonic_ns (minimum_age_ns min_age_us) max_count 0 rows)
      now ns_of s.

Definition consume (lid uid : string) (u : Z) (now : pydatetime) (s : store) : store * res unit :=
  let uid := strip uid in
  txn s (
    raise_if negb (nonempty uid) as ValueError saying "usage_id must be nonempty" ;;
    raise_if u <? 1 as ValueError saying "units must be positive" ;;
    observed <~ normalize_aware_utc now ;;
    match fetchone (is_lease lid) (leases s) with
    | None => Err (Raise SourceQuotaConflictError "quota lease does not exist")
    | Some row =>
        match fetchone (attempt_on lid) (attempts s) with
        | Some a => Err (Raise SourceQuotaConflictError
            ("quota attempt lease requires explicit completion " +:+ a_attempt_id a))
        | None =>
            match fetchone (is_usage uid) (usages s) with
            | Some usage =>
                raise_if negb (eqs (u_lease_id usage) lid) || negb (u_units usage =? u)
                  as SourceQuotaConflictError saying "usage_id retry conflicts" ;;
                committed s tt
            | None =>
                raise_if bool_decide (is_Some (l_released_at row)) || (l_expires_at row <=? observed)
                  as SourceQuotaConflictError saying "quota lease is not active" ;;
                raise_if l_units row <? l_used_units row + u
                  as SourceQuotaConflictError saying "consumption exceeds reserved units" ;;
                let s1 := with_leases s (update (is_lease lid) (set_used u) (leases s)) in
                s2 <~ insert_usage {| u_usage_id := uid; u_lease_id := lid; u_units := u;
                                      u_consumed_at := observed |} s1 ;;
                committed s2 tt
            end
        end
    end).

Definition release (lid : string) (now : pydatetime) (s : store) : store * res SourceQuotaLease :=
  txn s (
    observed <~ normalize_aware_utc now ;;
    match fetchone (is_lease lid) (leases s) with
    | None => Err (Raise SourceQuotaConflictError "quota lease does not exist")
    | Some row =>
        match fetchone (pending_on lid) (attempts s) with
        | Some a => Err (Raise SourceQuotaConflictError
            ("quota lease has pending attempt " +:+ a_attempt_id a))
        | None =>
            match l_released_at row with
            | Some _ => Ok (s, lease_from_row row)
            | None =>
                raise_if observed <? l_granted_at row
                  as SourceQuotaConflictError saying "release precedes grant" ;;
                let s' := with_leases s (update (is_lease lid) (set_released observed) (leases s)) in
                Ok (s', lease_from_row (set_released observed row))
            end
        end
    end).
End Methods.
