(* ===== verification/SourceQuotaInv.v ===== *)
(** * Source quota ledger: transitions and invariants

    The methods of [SourceQuota.v] refine a transition relation [step] on stores, indexed by
    the instant a transition is made at; [Inv] is the well-formedness of the ledger, kept by
    every transition, and the two quota bounds follow from it. *)

From Stdlib Require Import ZArith Lia Bool.
From stdpp Require Import base list strings sorting pretty.
From S2P Require Import Prelude Clock ResourceAdmission SourceQuota.
Open Scope Z_scope.
Open Scope rq_scope.

(** ** What an accepted insert says *)

Lemma insert_window_ok w s s' : insert_window w s = Ok s' ->
  s' = with_windows s (windows s ++ [w]) /\ 0 < w_total_units w <= int64_max
  /\ (forall w0, In w0 (windows s) -> (w_source w0, w_window_id w0) <> (w_source w, w_window_id w)).
Proof.
  unfold insert_window, sql_int, in_int64. intros H. ok_inv H. bool_hyps.
  split_and!; [done|lia|lia|]. intros w0 Hw0 [= Hs Hi].
  rewrite exists_row_false in E1. specialize (E1 w0 Hw0).
  unfold is_window in E1. by rewrite Hs, Hi, !eqs_refl in E1.
Qed.

Lemma insert_lease_ok l s s' : insert_lease l s = Ok s' ->
  s' = with_leases s (leases s ++ [l]) /\ 0 < l_units l <= int64_max
  /\ (forall l0, In l0 (leases s) -> l_lease_id l0 <> l_lease_id l)
  /\ (forall l0, In l0 (leases s) ->
        (l_source l0, l_window_id l0, l_owner l0) <> (l_source l, l_window_id l, l_owner l)).
Proof.
  unfold insert_lease, sql_int, in_int64. intros H. ok_inv H. bool_hyps.
  rewrite exists_row_false in E1, E2. split_and!; [done|lia|lia| |].
  - intros l0 Hl0 He. specialize (E1 l0 Hl0). unfold is_lease in E1. by rewrite He, eqs_refl in E1.
  - intros l0 Hl0 [= Ha Hb Hc]. specialize (E2 l0 Hl0). unfold is_owner, in_window in E2.
    by rewrite Ha, Hb, Hc, !eqs_refl in E2.
Qed.

Lemma insert_usage_ok u s s' : insert_usage u s = Ok s' ->
  s' = with_usages s (usages s ++ [u]) /\ 0 < u_units u
  /\ (forall u0, In u0 (usages s) -> u_usage_id u0 <> u_usage_id u).
Proof.
  unfold insert_usage. intros H. ok_inv H. bool_hyps. rewrite exists_row_false in E1.
  split_and!; [done|done|]. intros u0 Hu0 He. specialize (E1 u0 Hu0).
  unfold is_usage in E1. by rewrite He, eqs_refl in E1.
Qed.

Lemma insert_attempt_ok a s s' : insert_attempt a s = Ok s' ->
  s' = with_attempts s (attempts s ++ [a])
  /\ (forall a0, In a0 (attempts s) -> a_attempt_id a0 <> a_attempt_id a)
  /\ (forall a0, In a0 (attempts s) -> a_lease_id a0 <> a_lease_id a).
Proof.
  unfold insert_attempt. intros H. ok_inv H. bool_hyps. rewrite exists_row_false in E1, E2.
  split_and!; [done| |]; intros a0 Ha0 He.
  - specialize (E1 a0 Ha0). unfold is_attempt in E1. by rewrite He, eqs_refl in E1.
  - specialize (E2 a0 Ha0). unfold attempt_on in E2. by rewrite He, eqs_refl in E2.
Qed.

Lemma insert_transport_ok t s s' : insert_transport t s = Ok s' ->
  s' = with_transports s (transports s ++ [t]).
Proof. unfold insert_transport. intros H. by ok_inv H. Qed.

Lemma insert_clock_ok c s s' : insert_clock c s = Ok s' ->
  s' = with_clocks s (clocks s ++ [c]).
Proof. unfold insert_clock. intros H. by ok_inv H. Qed.

(** ** Transitions *)

(** A lease row as the store grants it at [now] in window [w]. *)
Record fresh_lease (sha : LeaseIdentity -> string) (now : Z) (w : quota_window)
    (l : quota_lease) : Prop := {
  fl_source : l_source l = w_source w;
  fl_window : l_window_id l = w_window_id w;
  fl_used : l_used_units l = 0;
  fl_granted : l_granted_at l = now;
  fl_expires : now < l_expires_at l <= w_resets_at w;
  fl_reset : l_quota_reset_at l = w_resets_at w;
  fl_released : l_released_at l = None;
  fl_strip : strip (l_source l) = l_source l /\ strip (l_owner l) = l_owner l
             /\ nonempty (l_source l) = true /\ nonempty (l_owner l) = true;
  fl_id : l_lease_id l = sha {| id_source := l_source l; id_owner := l_owner l;
            id_units := l_units l; id_granted_at := l_granted_at l;
            id_expires_at := l_expires_at l; id_quota_reset_at := l_quota_reset_at l |}
}.

(** An attempt row as the store begins it on lease [l]. *)
Record fresh_attempt (now : Z) (l : quota_lease) (a : quota_attempt) : Prop := {
  fa_lease : a_lease_id a = l_lease_id l;
  fa_source : a_source a = l_source l;
  fa_owner : a_owner a = l_owner l;
  fa_units : a_units a = l_units l;
  fa_prepared : a_prepared_at a = now;
  fa_dispatched : a_dispatched_at a = None \/ a_dispatched_at a = Some now;
  fa_outcome : a_outcome a = PENDING;
  fa_committed : a_committed_at a = None;
  fa_id : strip (a_attempt_id a) = a_attempt_id a /\ nonempty (a_attempt_id a) = true;
  fa_ns : 0 <= a_last_monotonic_ns a;
  fa_seq : 1 <= a_lifecycle_sequence a;
  fa_rollback : 0 <= a_clock_rollback_count a
}.

Definition same_ledger (s s' : store) : Prop :=
  windows s' = windows s /\ leases s' = leases s /\ usages s' = usages s /\ attempts s' = attempts s.

Section Steps.
Context (sha : LeaseIdentity -> string) (boot : string) (grants : bool).

(** [grants] allows leases that no attempt stands behind, as [acquire] makes them. *)
Inductive step (now : Z) (s : store) : store -> Prop :=
  | step_window w s' :
      insert_window w s = Ok s' -> w_starts_at w < w_resets_at w ->
      (forall w0, In w0 (windows s) ->
         overlaps (w_source w) (w_starts_at w) (w_resets_at w) w0 = false) ->
      step now s s'
  | step_grant w l rem s' :
      grants = true -> In w (windows s) -> remaining_in_window s w now = Ok rem -> l_units l <= rem ->
      fresh_lease sha now w l -> insert_lease l s = Ok s' ->
      step now s s'
  | step_attempt w l a rem s1 s' :
      In w (windows s) -> remaining_in_window s w now = Ok rem -> l_units l <= rem ->
      fresh_lease sha now w l -> insert_lease l s = Ok s1 ->
      fresh_attempt now l a -> a_boot_id a = boot -> insert_attempt a s1 = Ok s' ->
      step now s s'
  | step_aux s' :
      same_ledger s s' ->
      (forall c, In c (clocks s') -> In c (clocks s) \/ c_trusted_at c <= now) ->
      step now s s'
  | step_dispatch row ns rb :
      In row (attempts s) -> a_outcome row = PENDING -> a_dispatched_at row = None ->
      0 <= ns -> 0 <= rb ->
      step now s (with_attempts s (update (is_attempt (a_attempt_id row))
        (set_dispatched (Z.max now (a_prepared_at row)) ns rb) (attempts s)))
  | step_complete row l o ns rb s2 :
      In row (attempts s) -> a_outcome row = PENDING -> o <> PENDING ->
      In l (leases s) -> l_lease_id l = a_lease_id row -> l_released_at l = None ->
      l_used_units l + a_units row <= l_units l -> 0 <= ns -> 0 <= rb ->
      insert_usage {| u_usage_id := "attempt:" +:+ a_attempt_id row;
                      u_lease_id := l_lease_id l; u_units := a_units row;
                      u_consumed_at := Z.max now (coalesce_dispatched row) |}
        (with_leases s (update (is_lease (l_lease_id l)) (set_used (a_units row)) (leases s)))
        = Ok s2 ->
      step now s
        (with_attempts
           (with_leases s2 (update (is_lease (l_lease_id l))
              (set_released (Z.max now (coalesce_dispatched row))) (leases s2)))
           (update (is_attempt (a_attempt_id row))
              (set_outcome o (Z.max now (coalesce_dispatched row)) ns rb) (attempts s2)))
  | step_consume l uid u s2 :
      In l (leases s) -> l_released_at l = None -> now < l_expires_at l ->
      (forall a, In a (attempts s) -> a_lease_id a <> l_lease_id l) ->
      l_used_units l + u <= l_units l ->
      insert_usage {| u_usage_id := uid; u_lease_id := l_lease_id l; u_units := u;
                      u_consumed_at := now |}
        (with_leases s (update (is_lease (l_lease_id l)) (set_used u) (leases s))) = Ok s2 ->
      step now s s2
  | step_release l :
      In l (leases s) -> l_released_at l = None -> l_granted_at l <= now ->
      (forall a, In a (attempts s) -> a_lease_id a = l_lease_id l -> a_outcome a <> PENDING) ->
      step now s (with_leases s
        (update (is_lease (l_lease_id l)) (set_released now) (leases s))).

(** A method makes zero or more transitions at one instant. *)
Inductive steps (now : Z) : store -> store -> Prop :=
  | steps_refl s : steps now s s
  | steps_next s s1 s2 : step now s s1 -> steps now s1 s2 -> steps now s s2.

Lemma steps_one now s s' : step now s s' -> steps now s s'.
Proof. intros. eapply steps_next; [done|constructor]. Qed.

Lemma steps_trans now s1 s2 s3 : steps now s1 s2 -> steps now s2 s3 -> steps now s1 s3.
Proof. induction 1; [done|]. eauto using steps. Qed.
End Steps.

(** ** The ledger invariant *)

(** Units recorded against a lease by the usage table. *)
Definition usage_of (lid : string) (us : list quota_usage) : Z :=
  sumZ (fun u => if eqs (u_lease_id u) lid then u_units u else 0) us.

Arguments usage_of : simpl never.

Record wf_window (w : quota_window) : Prop := {
  ww_order : w_starts_at w < w_resets_at w;
  ww_total : 0 < w_total_units w <= int64_max
}.

Record wf_lease (sha : LeaseIdentity -> string) (ws : list quota_window) (us : list quota_usage)
    (l : quota_lease) : Prop := {
  wl_window : exists w, In w ws /\ w_source w = l_source l /\ w_window_id w = l_window_id l
                /\ w_resets_at w = l_quota_reset_at l;
  wl_units : 0 < l_units l <= int64_max;
  wl_used : 0 <= l_used_units l <= l_units l;
  wl_ledger : l_used_units l = usage_of (l_lease_id l) us;
  wl_times : l_granted_at l < l_expires_at l <= l_quota_reset_at l;
  wl_released : forall r, l_released_at l = Some r -> l_granted_at l <= r;
  wl_strings : strip (l_source l) = l_source l /\ strip (l_owner l) = l_owner l
               /\ nonempty (l_source l) = true /\ nonempty (l_owner l) = true;
  wl_id : l_lease_id l = sha {| id_source := l_source l; id_owner := l_owner l;
            id_units := l_units l; id_granted_at := l_granted_at l;
            id_expires_at := l_expires_at l; id_quota_reset_at := l_quota_reset_at l |}
}.

(** An attempt is pending on an untouched open lease, or final on a fully used closed one. *)
Record wf_attempt (ls : list quota_lease) (a : quota_attempt) : Prop := {
  wa_lease : exists l, In l ls /\ l_lease_id l = a_lease_id a /\ l_source l = a_source a
    /\ l_owner l = a_owner a /\ l_units l = a_units a /\ l_granted_at l <= a_prepared_at a
    /\ (a_outcome a = PENDING -> l_used_units l = 0 /\ l_released_at l = None)
    /\ (a_outcome a <> PENDING -> l_used_units l = l_units l /\ l_released_at l <> None);
  wa_life : validate_lifecycle a = Ok a;
  wa_id : strip (a_attempt_id a) = a_attempt_id a /\ nonempty (a_attempt_id a) = true;
  wa_boot : strip (a_boot_id a) = a_boot_id a /\ nonempty (a_boot_id a) = true;
  wa_counters : 0 <= a_last_monotonic_ns a /\ 1 <= a_lifecycle_sequence a
                /\ 0 <= a_clock_rollback_count a
}.

Definition windows_disjoint (ws : list quota_window) : Prop :=
  forall w1 w2, In w1 ws -> In w2 ws -> w_source w1 = w_source w2 ->
    w_window_id w1 <> w_window_id w2 ->
    w_resets_at w1 <= w_starts_at w2 \/ w_resets_at w2 <= w_starts_at w1.

Definition window_key (w : quota_window) := (w_source w, w_window_id w).
Definition owner_key (l : quota_lease) := (l_source l, l_window_id l, l_owner l).

Record Inv (sha : LeaseIdentity -> string) (s : store) : Prop := {
  inv_window_keys : List.NoDup (map window_key (windows s));
  inv_windows : forall w, In w (windows s) -> wf_window w;
  inv_disjoint : windows_disjoint (windows s);
  inv_lease_keys : List.NoDup (map l_lease_id (leases s));
  inv_owner_keys : List.NoDup (map owner_key (leases s));
  inv_leases : forall l, In l (leases s) -> wf_lease sha (windows s) (usages s) l;
  inv_usage_keys : List.NoDup (map u_usage_id (usages s));
  inv_usages : forall u, In u (usages s) -> exists l, In l (leases s) /\ l_lease_id l = u_lease_id u;
  inv_attempt_keys : List.NoDup (map a_attempt_id (attempts s));
  inv_attempt_leases : List.NoDup (map a_lease_id (attempts s));
  inv_attempts : forall a, In a (attempts s) -> wf_attempt (leases s) a
}.

Lemma Inv_empty sha : Inv sha empty_store.
Proof. constructor; cbn; solve [apply List.NoDup_nil | done | by intros ? ? []]. Qed.

Lemma validate_lifecycle_ok a : validate_lifecycle a = Ok a <->
  (forall d, a_dispatched_at a = Some d -> a_prepared_at a <= d)
  /\ (a_outcome a = PENDING <-> a_committed_at a = None)
  /\ (forall c, a_committed_at a = Some c -> a_prepared_at a <= c
        /\ forall d, a_dispatched_at a = Some d -> d <= c).
Proof.
  unfold validate_lifecycle.
  destruct (a_dispatched_at a) as [d|]; [destruct (Z.ltb_spec d (a_prepared_at a))|];
    destruct (a_outcome a); destruct (a_committed_at a) as [c|];
    try (destruct (Z.ltb_spec c (a_prepared_at a))); try (destruct (Z.ltb_spec c d));
    (split; [first [discriminate | intros _] | intros (Hd & Ho & Hc); try reflexivity; exfalso]).
  all: try (pose proof (Hd _ eq_refl)); try (destruct (Hc _ eq_refl) as [? Hdc];
    try (pose proof (Hdc _ eq_refl))); try lia; try (destruct Ho as [Ho1 Ho2];
    first [discriminate (Ho1 eq_refl) | discriminate (Ho2 eq_refl)]).
  all: split_and!; try done; try (intros ? [= <-]; try split; try lia; try done; intros ? [= <-]; lia).
Qed.

(** *** Monotonicity of the row predicates *)

Lemma usage_of_app lid us u :
  usage_of lid (us ++ [u]) = usage_of lid us + (if eqs (u_lease_id u) lid then u_units u else 0).
Proof. unfold usage_of. rewrite sumZ_app, sumZ_cons. change (sumZ _ []) with 0. lia. Qed.

Lemma usage_of_absent lid us :
  (forall u, In u us -> u_lease_id u <> lid) -> usage_of lid us = 0.
Proof.
  intros H. unfold usage_of. apply sumZ_zero. intros u Hu.
  by rewrite (proj2 (eqs_false _ _) (H u Hu)).
Qed.

Lemma wf_lease_mono sha ws ws' us us' l :
  (forall w, In w ws -> In w ws') -> usage_of (l_lease_id l) us' = usage_of (l_lease_id l) us ->
  wf_lease sha ws us l -> wf_lease sha ws' us' l.
Proof.
  intros Hw Hu [(w & Hin & H) ? ? ? ? ? ? ?]. constructor; try done; [eauto|congruence].
Qed.

Lemma wf_attempt_mono ls ls' a :
  (forall l, In l ls -> l_lease_id l = a_lease_id a -> In l ls') ->
  wf_attempt ls a -> wf_attempt ls' a.
Proof. intros Hl [(l & Hin & Hid & H) ? ? ? ?]. constructor; try done. exists l. auto. Qed.

(** Rows after an update of the lease with identifier [lid]. *)
Lemma In_update_lease lid f ls l :
  In l (update (is_lease lid) f ls) <->
  exists l0, In l0 ls /\ ((l_lease_id l0 = lid /\ l = f l0) \/ (l_lease_id l0 <> lid /\ l = l0)).
Proof.
  rewrite In_update. split; intros (l0 & Hin & H); exists l0; split; try done.
  - unfold is_lease in H. destruct (eqs (l_lease_id l0) lid) eqn:E; str_hyps; auto.
  - unfold is_lease. destruct H as [[H ->]|[H ->]];
      [by rewrite (proj2 (eqs_true _ _) H) | by rewrite (proj2 (eqs_false _ _) H)].
Qed.

Lemma In_update_attempt aid f rows a :
  In a (update (is_attempt aid) f rows) <->
  exists a0, In a0 rows /\ ((a_attempt_id a0 = aid /\ a = f a0) \/ (a_attempt_id a0 <> aid /\ a = a0)).
Proof.
  rewrite In_update. split; intros (a0 & Hin & H); exists a0; split; try done.
  - unfold is_attempt in H. destruct (eqs (a_attempt_id a0) aid) eqn:E; str_hyps; auto.
  - unfold is_attempt. destruct H as [[H ->]|[H ->]];
      [by rewrite (proj2 (eqs_true _ _) H) | by rewrite (proj2 (eqs_false _ _) H)].
Qed.

(** The identifier columns an update of used units, release time or outcome leaves alone. *)
Definition lease_ids (l : quota_lease) := (l_lease_id l, l_source l, l_window_id l, l_owner l).
Definition attempt_ids (a : quota_attempt) := (a_attempt_id a, a_lease_id a, a_source a).

Section Preservation.
Context (sha : LeaseIdentity -> string) (boot : string) (grants : bool).

(** Replacing one lease row by a well-formed one with the same identifiers. *)
Lemma Inv_update_lease s l f us' att' :
  Inv sha s -> In l (leases s) -> (forall l0, lease_ids (f l0) = lease_ids l0) ->
  wf_lease sha (windows s) us' (f l) ->
  List.NoDup (map u_usage_id us') ->
  (forall u, In u us' -> In u (usages s) \/ u_lease_id u = l_lease_id l) ->
  (forall l0, In l0 (leases s) -> l_lease_id l0 <> l_lease_id l ->
     usage_of (l_lease_id l0) us' = usage_of (l_lease_id l0) (usages s)) ->
  List.NoDup (map a_attempt_id att') -> List.NoDup (map a_lease_id att') ->
  (forall a, In a att' -> wf_attempt (update (is_lease (l_lease_id l)) f (leases s)) a) ->
  Inv sha {| windows := windows s; leases := update (is_lease (l_lease_id l)) f (leases s);
             usages := us'; attempts := att'; transports := transports s; clocks := clocks s |}.
Proof.
  intros I Hin Hids Hwf Hukeys Hus Hother Hak Hal Hatt.
  assert (forall l0, l_lease_id (f l0) = l_lease_id l0) as Hid
    by (intros l0; specialize (Hids l0); unfold lease_ids in Hids; congruence).
  assert (forall l0, owner_key (f l0) = owner_key l0) as Hok
    by (intros l0; specialize (Hids l0); unfold lease_ids, owner_key in *; congruence).
  constructor; cbn; try done; try apply I.
  - rewrite update_map_key by done. apply I.
  - rewrite update_map_key by done. apply I.
  - intros l' (l0 & Hl0 & [[He ->]|[He ->]])%In_update_lease.
    + rewrite (NoDup_key_eq l_lease_id (leases s) l0 l); try done. apply I.
    + eapply wf_lease_mono; [..|by apply (inv_leases sha s I)]; auto.
  - intros u Hu.
    assert (exists l0, In l0 (leases s) /\ l_lease_id l0 = u_lease_id u) as (l0 & Hl0 & He).
    { destruct (Hus u Hu) as [H|H]; [by apply (inv_usages sha s I)|by exists l]. }
    destruct (decide (l_lease_id l0 = l_lease_id l)) as [E|E].
    + exists (f l0). rewrite Hid. split; [|done]. apply In_update_lease. eauto.
    + exists l0. split; [|done]. apply In_update_lease. eauto.
Qed.

(** An attempt on another lease does not see the update. *)
Lemma wf_attempt_other s l f a :
  a_lease_id a <> l_lease_id l -> wf_attempt (leases s) a ->
  wf_attempt (update (is_lease (l_lease_id l)) f (leases s)) a.
Proof.
  intros Hne. apply wf_attempt_mono. intros l0 Hl0 He.
  apply In_update_lease. exists l0. split; [done|]. right. by rewrite He.
Qed.

Lemma Inv_window s s' w :
  Inv sha s -> insert_window w s = Ok s' -> w_starts_at w < w_resets_at w ->
  (forall w0, In w0 (windows s) ->
     overlaps (w_source w) (w_starts_at w) (w_resets_at w) w0 = false) ->
  Inv sha s'.
Proof.
  intros I (-> & Ht & Hk)%insert_window_ok Hlt Hov.
  assert (forall w0, In w0 (windows s) -> w_source w0 = w_source w ->
    w_resets_at w0 <= w_starts_at w \/ w_resets_at w <= w_starts_at w0) as Hd.
  { intros w0 H0 Hs. specialize (Hov w0 H0). unfold overlaps in Hov.
    rewrite Hs, eqs_refl in Hov. cbn in Hov.
    apply andb_false_iff in Hov as [Hov|Hov]; bool_hyps; lia. }
  constructor; cbn; try apply I.
  - apply NoDup_key_app; [apply I|]. intros w0 H0. by apply Hk.
  - intros w0 [H0| ->]%In_snoc; [by apply (inv_windows sha s I)|by constructor].
  - intros w1 w2 [H1| ->]%In_snoc [H2| ->]%In_snoc Hs Hne; [by apply (inv_disjoint sha s I)|..].
    + by apply Hd.
    + destruct (Hd w2 H2 (eq_sym Hs)); auto.
    + done.
  - intros l Hl. eapply wf_lease_mono; [| |by apply (inv_leases sha s I)]; [|done].
    intros w0 H0. apply In_snoc. by left.
Qed.

Lemma fresh_lease_wf now w l s :
  Inv sha s -> In w (windows s) -> fresh_lease sha now w l -> 0 < l_units l <= int64_max ->
  (forall l0, In l0 (leases s) -> l_lease_id l0 <> l_lease_id l) ->
  wf_lease sha (windows s) (usages s) l.
Proof.
  intros I Hw [Hsrc Hwid Hused Hgr Hex Hre Hrel Hst Hid] Hu Hk.
  constructor; try done; try lia.
  - exists w. split_and!; auto.
  - rewrite Hused, usage_of_absent; [done|]. intros u Huin.
    destruct (inv_usages sha s I u Huin) as (l0 & Hl0 & <-). by apply Hk.
  - intros r Hr. congruence.
Qed.

Lemma Inv_grant now s s' w l :
  Inv sha s -> In w (windows s) -> fresh_lease sha now w l -> insert_lease l s = Ok s' ->
  Inv sha s'.
Proof.
  intros I Hw Hf (-> & Hu & Hk & Ho)%insert_lease_ok.
  constructor; cbn; try apply I.
  - apply NoDup_key_app; [apply I|done].
  - apply NoDup_key_app; [apply I|]. intros l0 H0. by apply Ho.
  - intros l0 [H0| ->]%In_snoc; [by apply (inv_leases sha s I)|]. by eapply fresh_lease_wf.
  - intros u Huin. destruct (inv_usages sha s I u Huin) as (l0 & Hl0 & He).
    exists l0. split; [|done]. apply In_snoc. by left.
  - intros a Ha. eapply wf_attempt_mono; [|by apply (inv_attempts sha s I)].
    intros l0 H0 _. apply In_snoc. by left.
Qed.

Lemma Inv_attempt now s s1 s' w l a :
  strip boot = boot -> nonempty boot = true ->
  Inv sha s -> In w (windows s) -> fresh_lease sha now w l -> insert_lease l s = Ok s1 ->
  fresh_attempt now l a -> a_boot_id a = boot -> insert_attempt a s1 = Ok s' -> Inv sha s'.
Proof.
  intros Hb1 Hb2 I Hw Hf Hl Ha Hb Hi. pose proof (Inv_grant now s s1 w l I Hw Hf Hl) as I1.
  apply insert_lease_ok in Hl as (-> & _). apply insert_attempt_ok in Hi as (-> & Hk & Hkl).
  destruct Ha as [Hal Has Hao Hau Hap Had Haout Hac Haid Hans Haseq Harb].
  destruct Hf as [Hsrc Hwid Hused Hgr Hex Hre Hrel Hst Hid].
  constructor; cbn in *; try apply I1.
  - apply NoDup_key_app; [apply I1|done].
  - apply NoDup_key_app; [apply I1|done].
  - intros a0 [H0| ->]%In_snoc; [by apply (inv_attempts _ _ I1)|]. constructor; try done.
    + exists l. split; [apply In_snoc; by right|]. split_and!; first [done | congruence | lia].
    + unfold validate_lifecycle. rewrite Haout, Hac.
      destruct Had as [->| ->]; [done|]. by rewrite Hap, Z.ltb_irrefl.
    + by rewrite Hb.
Qed.

Lemma Inv_aux s s' : Inv sha s -> same_ledger s s' -> Inv sha s'.
Proof.
  intros I (Hw & Hl & Hu & Ha). destruct s', I; cbn in *; subst. by constructor.
Qed.

(** Replacing one attempt row on an untouched lease table. *)
Lemma Inv_update_attempt s row f :
  Inv sha s -> In row (attempts s) -> (forall a, attempt_ids (f a) = attempt_ids a) ->
  wf_attempt (leases s) (f row) ->
  Inv sha (with_attempts s (update (is_attempt (a_attempt_id row)) f (attempts s))).
Proof.
  intros I Hin Hids Hwf.
  assert (forall a, a_attempt_id (f a) = a_attempt_id a /\ a_lease_id (f a) = a_lease_id a) as Hid
    by (intros a; specialize (Hids a); unfold attempt_ids in Hids; split; congruence).
  constructor; cbn; try apply I.
  - rewrite update_map_key by apply Hid. apply I.
  - rewrite update_map_key by apply Hid. apply I.
  - intros a (a0 & H0 & [[He ->]|[He ->]])%In_update_attempt; [|by apply (inv_attempts sha s I)].
    rewrite (NoDup_key_eq a_attempt_id (attempts s) a0 row); try done. apply I.
Qed.

Lemma Inv_dispatch now s row ns rb :
  Inv sha s -> In row (attempts s) -> a_outcome row = PENDING -> a_dispatched_at row = None ->
  0 <= ns -> 0 <= rb ->
  Inv sha (with_attempts s (update (is_attempt (a_attempt_id row))
    (set_dispatched (Z.max now (a_prepared_at row)) ns rb) (attempts s))).
Proof.
  intros I Hin Hp Hd Hns Hrb. apply Inv_update_attempt; try done.
  destruct (inv_attempts sha s I row Hin) as [Hl Hlife ? ? ?].
  constructor; try done; cbn; try lia.
  unfold validate_lifecycle in *. cbn. rewrite Hp in *.
  destruct (a_committed_at row); [by rewrite Hd in Hlife|].
  replace (Z.max now (a_prepared_at row) <? a_prepared_at row) with false; [done|symmetry; apply Z.ltb_ge; lia].
Qed.

Lemma Inv_release now s l :
  Inv sha s -> In l (leases s) -> l_released_at l = None -> l_granted_at l <= now ->
  (forall a, In a (attempts s) -> a_lease_id a = l_lease_id l -> a_outcome a <> PENDING) ->
  Inv sha (with_leases s (update (is_lease (l_lease_id l)) (set_released now) (leases s))).
Proof.
  intros I Hin Hr Hg Hpend. pose proof (inv_leases sha s I l Hin) as Hwf.
  apply (Inv_update_lease s l (set_released now) (usages s) (attempts s));
    [done|done|done| |by apply I|by left|done|by apply I|by apply I|].
  - destruct Hwf. constructor; try done. cbn. by intros r [= <-].
  - intros a Ha. pose proof (inv_attempts sha s I a Ha) as Hwa.
    destruct (decide (a_lease_id a = l_lease_id l)) as [E|E]; [|by apply wf_attempt_other].
    destruct Hwa as [(l0 & Hl0 & Hid & ? & ? & ? & ? & _ & Hfin) ? ? ? ?].
    assert (l0 = l) as -> by (apply (NoDup_key_eq l_lease_id (leases s)); [apply I|done|done|congruence]).
    destruct (Hfin (Hpend a Ha E)) as [_ Hx]. by rewrite Hr in Hx.
Qed.

Lemma Inv_consume now s s2 l uid u :
  Inv sha s -> In l (leases s) -> l_released_at l = None ->
  (forall a, In a (attempts s) -> a_lease_id a <> l_lease_id l) ->
  l_used_units l + u <= l_units l ->
  insert_usage {| u_usage_id := uid; u_lease_id := l_lease_id l; u_units := u; u_consumed_at := now |}
    (with_leases s (update (is_lease (l_lease_id l)) (set_used u) (leases s))) = Ok s2 ->
  Inv sha s2.
Proof.
  intros I Hin Hr Hna Hle (-> & Hu & Hk)%insert_usage_ok. cbn in Hu, Hk.
  pose proof (inv_leases sha s I l Hin) as Hwf.
  apply (Inv_update_lease s l (set_used u)); [done|done|done| | | | | | |].
  - destruct Hwf as [? ? ? Hled ? ? ? ?]. constructor; try done; cbn; [lia|].
    rewrite usage_of_app. cbn. rewrite eqs_refl. lia.
  - apply NoDup_key_app; [apply I|done].
  - intros u0 [H0| ->]%In_snoc; [by left|by right].
  - intros l0 H0 Hne. rewrite usage_of_app. cbn.
    rewrite (proj2 (eqs_false _ _) (not_eq_sym Hne)). lia.
  - apply I.
  - apply I.
  - intros a Ha. apply wf_attempt_other; [by apply Hna|by apply (inv_attempts sha s I)].
Qed.

Lemma Inv_complete now s s2 row l o uid ns rb :
  let at_ := Z.max now (coalesce_dispatched row) in
  Inv sha s -> In row (attempts s) -> a_outcome row = PENDING -> o <> PENDING ->
  In l (leases s) -> l_lease_id l = a_lease_id row -> 0 <= ns -> 0 <= rb ->
  insert_usage {| u_usage_id := uid; u_lease_id := l_lease_id l; u_units := a_units row;
                  u_consumed_at := at_ |}
    (with_leases s (update (is_lease (l_lease_id l)) (set_used (a_units row)) (leases s))) = Ok s2 ->
  Inv sha (with_attempts
      (with_leases s2 (update (is_lease (l_lease_id l)) (set_released at_) (leases s2)))
      (update (is_attempt (a_attempt_id row)) (set_outcome o at_ ns rb) (attempts s2))).
Proof.
  intros at_ I Hrow Hp Ho Hin Hid Hns Hrb (-> & Hu & Hk)%insert_usage_ok. cbn in *.
  pose proof (inv_leases sha s I l Hin) as Hwf.
  pose proof (inv_attempts sha s I row Hrow) as [(l0 & Hl0 & Hid0 & Hs0 & Ho0 & Hu0 & Hg0 & Hpd & _)
    Hlife Haid Habt Hacnt].
  assert (l0 = l) as -> by (apply (NoDup_key_eq l_lease_id (leases s)); [apply I|done|done|congruence]).
  destruct (Hpd Hp) as [Hused Hrel].
  assert (a_prepared_at row <= at_) as Hat.
  { subst at_. unfold coalesce_dispatched, validate_lifecycle in *.
    destruct (a_dispatched_at row); [|lia].
    destruct (Z.ltb_spec z (a_prepared_at row)); [done|lia]. }
  unfold with_attempts, with_leases, with_usages. cbn. rewrite update_update by done.
  apply (Inv_update_lease s l (fun l => set_released at_ (set_used (a_units row) l)));
    [done|done|done| | | | | | |].
  - destruct Hwf as [? ? ? Hled ? ? ? ?]. constructor; try done; cbn; [lia| |].
    + rewrite usage_of_app. cbn. rewrite eqs_refl. lia.
    + intros r [= <-]. lia.
  - apply NoDup_key_app; [apply I|done].
  - intros u0 [H0| ->]%In_snoc; [by left|by right].
  - intros l0 H0 Hne. rewrite usage_of_app. cbn.
    rewrite (proj2 (eqs_false _ _) (not_eq_sym Hne)). lia.
  - rewrite update_map_key by done. apply I.
  - rewrite update_map_key by done. apply I.
  - intros a (a0 & H0 & [[He ->]|[He ->]])%In_update_attempt.
    + assert (a0 = row) as -> by (apply (NoDup_key_eq a_attempt_id (attempts s)); [apply I|done..]).
      constructor; try done; cbn; try lia.
      * exists (set_released at_ (set_used (a_units row) l)). split; [apply In_update_lease; eauto|].
        cbn. split_and!; try done. intros _. split; [lia|done].
      * apply validate_lifecycle_ok. apply validate_lifecycle_ok in Hlife as (Hd & _ & _).
        cbn. split_and!; [done|done|]. intros c [= <-]. split; [done|].
        intros d Hdd. subst at_. unfold coalesce_dispatched. rewrite Hdd. lia.
    + apply wf_attempt_other; [|by apply (inv_attempts sha s I)].
      intros E. apply He. f_equal. apply (NoDup_key_eq a_lease_id (attempts s)); [apply I|done|done|].
      congruence.
Qed.

(** Every transition keeps the ledger well formed. *)
Lemma Inv_step now s s' : strip boot = boot -> nonempty boot = true ->
  Inv sha s -> step sha boot grants now s s' -> Inv sha s'.
Proof.
  intros Hb1 Hb2 I Hst. destruct Hst.
  - by eapply Inv_window.
  - by eapply Inv_grant.
  - by eapply Inv_attempt.
  - by eapply Inv_aux.
  - by apply Inv_dispatch.
  - by eapply Inv_complete.
  - by eapply Inv_consume.
  - by apply Inv_release.
Qed.

Lemma Inv_steps now s s' : strip boot = boot -> nonempty boot = true ->
  Inv sha s -> steps sha boot grants now s s' -> Inv sha s'.
Proof. intros Hb1 Hb2 I H. induction H; eauto using Inv_step. Qed.
End Preservation.

#[export] Hint Resolve Inv_empty : rq.

(** ** Load of a window *)

(** What the leases of window [w] hold against it at [now]: used units plus reservations. *)
Definition in_w (w : quota_window) (l : quota_lease) : bool :=
  in_window (w_source w) (w_window_id w) l.

Definition window_used (s : store) (w : quota_window) : Z :=
  sumZ (fun l => if in_w w l then l_used_units l else 0) (leases s).

Definition window_reserved (s : store) (now : Z) (w : quota_window) : Z :=
  sumZ (fun l => if in_w w l then lease_reserved s now l else 0) (leases s).

(** Reservations that no clock reading can lapse: those of pending attempts. *)
Definition lease_pinned (s : store) (l : quota_lease) : Z :=
  match l_released_at l with
  | None => if exists_row (pending_on (l_lease_id l)) (attempts s)
            then l_units l - l_used_units l else 0
  | Some _ => 0
  end.

Definition window_pinned (s : store) (w : quota_window) : Z :=
  sumZ (fun l => if in_w w l then lease_pinned s l else 0) (leases s).

Lemma sql_sum_snoc_ok zs : (forall z, In z zs -> 0 <= z) -> sumZ (fun z => z) zs <= int64_max ->
  sql_sum zs = Ok (sumZ (fun z => z) zs).
Proof.
  assert (forall zs acc, (forall z, In z zs -> 0 <= z) -> 0 <= acc -> acc + sumZ (fun z => z) zs <= int64_max ->
    fold_left (fun r z => a <~ r ;;
      if in_int64 (a + z) then Ok (a + z) else Err (Raise OperationalError "integer overflow")) zs (Ok acc)
    = Ok (acc + sumZ (fun z => z) zs)) as H.
  { clear zs. intros zs. induction zs as [|z zs IH]; intros acc Hz Hacc Hle; cbn [fold_left rbind].
    - change (sumZ (fun z => z) []) with 0. by rewrite Z.add_0_r.
    - rewrite sumZ_cons in *. cbn beta in *.
      pose proof (Hz z (or_introl eq_refl)).
      assert (0 <= sumZ (fun z => z) zs) by (apply sumZ_nonneg; intros; apply Hz; by right).
      replace (in_int64 (acc + z)) with true.
      + rewrite IH; [f_equal; lia|intros; apply Hz; by right|lia|lia].
      + symmetry. unfold in_int64. apply andb_true_iff. rewrite !Z.leb_le.
        unfold int64_max in *. lia. }
  intros Hz Hle. unfold sql_sum. rewrite H; [done|done|lia|lia].
Qed.

Lemma sql_sum_ok zs r : sql_sum zs = Ok r -> r = sumZ (fun z => z) zs.
Proof.
  unfold sql_sum.
  assert (forall zs acc, fold_left (fun r z => a <~ r ;;
      if in_int64 (a + z) then Ok (a + z) else Err (Raise OperationalError "integer overflow")) zs (Err acc)
    = Err acc) as He by (clear; induction zs; cbn; auto).
  assert (forall zs acc r, fold_left (fun r z => a <~ r ;;
      if in_int64 (a + z) then Ok (a + z) else Err (Raise OperationalError "integer overflow")) zs (Ok acc)
    = Ok r -> r = acc + sumZ (fun z => z) zs) as H; [|intros Hr; by apply (H zs 0)].
  clear zs r. induction zs as [|z zs IH]; intros acc r; cbn [fold_left rbind].
  - intros [= <-]. change (sumZ (fun z => z) []) with 0. lia.
  - destruct (in_int64 (acc + z)); [|by rewrite He].
    intros Hr. apply IH in Hr. rewrite sumZ_cons. lia.
Qed.

Lemma remaining_in_window_eq s w now rem : remaining_in_window s w now = Ok rem ->
  rem = w_total_units w - window_used s w - window_reserved s now w.
Proof.
  unfold remaining_in_window. intros H. ok_inv H.
  repeat match goal with H : sql_sum _ = Ok _ |- _ => apply sql_sum_ok in H end. subst.
  rewrite !sumZ_map. unfold select. rewrite !sumZ_filter. done.
Qed.

(** ** The quota bound *)

Definition lease_held (s : store) (now : Z) (l : quota_lease) : Z :=
  l_used_units l + lease_reserved s now l.

Definition window_load (s : store) (now : Z) (w : quota_window) : Z :=
  sumZ (fun l => if in_w w l then lease_held s now l else 0) (leases s).

Definition load_ok (now : Z) (s : store) : Prop :=
  forall w, In w (windows s) -> window_load s now w <= w_total_units w.

Lemma window_load_split s now w :
  window_load s now w = window_used s w + window_reserved s now w.
Proof.
  unfold window_load, window_used, window_reserved. rewrite <- sumZ_add.
  apply sumZ_ext. intros l _. unfold lease_held. destruct (in_w w l); lia.
Qed.

(** The load after a change of the rows, bounded lease by lease. *)
Lemma window_load_update s s' now w p f :
  leases s' = update p f (leases s) ->
  (forall l, in_w w (f l) = in_w w l) ->
  (forall l, In l (leases s) ->
     lease_held s' now (if p l then f l else l) <= lease_held s now l) ->
  window_load s' now w <= window_load s now w.
Proof.
  intros Hl Hw Hle. unfold window_load. rewrite Hl. unfold update. rewrite sumZ_map.
  apply sumZ_le. intros l Hin. specialize (Hle l Hin).
  destruct (p l); rewrite ?Hw; destruct (in_w w l); lia.
Qed.

Lemma pending_row s lid : exists_row (pending_on lid) (attempts s) = true <->
  exists a, In a (attempts s) /\ a_lease_id a = lid /\ a_outcome a = PENDING.
Proof.
  unfold exists_row. rewrite existsb_exists. unfold pending_on, attempt_on, is_pending.
  split; intros (a & Hin & H); exists a; split; try done.
  - apply andb_true_iff in H as [H1 H2]. by str_hyps; bool_hyps.
  - rewrite andb_true_iff, eqs_true, bool_decide_eq_true. done.
Qed.

(** Reservation of a lease depends on its own row and on whether an attempt is pending. *)
Lemma lease_reserved_ext s s' now l :
  exists_row (pending_on (l_lease_id l)) (attempts s')
    = exists_row (pending_on (l_lease_id l)) (attempts s) ->
  lease_reserved s' now l = lease_reserved s now l.
Proof. intros H. unfold lease_reserved. by rewrite H. Qed.

Lemma pending_ext s s' lid :
  (forall a, In a (attempts s') -> a_lease_id a = lid -> a_outcome a = PENDING ->
     exists a', In a' (attempts s) /\ a_lease_id a' = lid /\ a_outcome a' = PENDING) ->
  (forall a, In a (attempts s) -> a_lease_id a = lid -> a_outcome a = PENDING ->
     exists a', In a' (attempts s') /\ a_lease_id a' = lid /\ a_outcome a' = PENDING) ->
  exists_row (pending_on lid) (attempts s') = exists_row (pending_on lid) (attempts s).
Proof.
  intros H1 H2. apply eq_iff_eq_true. rewrite !pending_row. split; intros (a & ? & ? & ?); eauto.
Qed.

Lemma lease_reserved_mono s c now l : c <= now -> l_used_units l <= l_units l ->
  lease_reserved s now l <= lease_reserved s c l.
Proof.
  intros Hc Hu. unfold lease_reserved. destruct (l_released_at l); [lia|].
  destruct (Z.ltb_spec now (l_expires_at l)), (Z.ltb_spec c (l_expires_at l)),
    (exists_row _ _); cbn; lia.
Qed.

Lemma load_ok_later sha s c now : Inv sha s -> c <= now -> load_ok c s -> load_ok now s.
Proof.
  intros I Hc Hl w Hw. etransitivity; [|by apply Hl].
  unfold window_load. apply sumZ_le. intros l Hin. unfold lease_held.
  destruct (in_w w l); [|lia].
  pose proof (inv_leases sha s I l Hin) as [_ _ Hu _ _ _ _ _].
  pose proof (lease_reserved_mono s c now l Hc). lia.
Qed.

Section Bound.
Context (sha : LeaseIdentity -> string) (boot : string) (grants : bool).

(** A fresh lease adds its units to its window and nothing elsewhere. *)
Lemma load_ok_grant now s s' w l rem :
  In w (windows s) -> remaining_in_window s w now = Ok rem -> l_units l <= rem ->
  Inv sha s -> load_ok now s -> fresh_lease sha now w l ->
  windows s' = windows s -> leases s' = leases s ++ [l] ->
  (forall l0, In l0 (leases s) -> exists_row (pending_on (l_lease_id l0)) (attempts s')
     = exists_row (pending_on (l_lease_id l0)) (attempts s)) ->
  load_ok now s'.
Proof.
  intros Hw Hrem Hu I Hok Hf Hws Hls Hp w0 Hw0. rewrite Hws in Hw0.
  apply remaining_in_window_eq in Hrem. unfold window_load. rewrite Hls, sumZ_app, sumZ_cons.
  change (sumZ _ []) with 0.
  rewrite (sumZ_ext _ (fun l => if in_w w0 l then lease_held s now l else 0)); cycle 1.
  { intros l0 Hl0. unfold lease_held. by rewrite (lease_reserved_ext s s') by auto. }
  fold (window_load s now w0). specialize (Hok w0 Hw0).
  destruct (in_w w0 l) eqn:E; [|lia].
  assert (w0 = w) as ->.
  { apply (NoDup_key_eq window_key (windows s)); [apply I|done|done|].
    unfold in_w, in_window in E. str_hyps. destruct Hf. unfold window_key. congruence. }
  rewrite window_load_split in *. unfold lease_held, lease_reserved.
  rewrite (fl_released _ _ _ _ Hf), (fl_used _ _ _ _ Hf).
  assert ((now <? l_expires_at l) = true) as -> by (apply Z.ltb_lt; apply Hf). cbn [orb]. lia.
Qed.

(** Which row an update keyed by [l]'s identifier touches. *)
Lemma lease_key_cases s l l0 : Inv sha s -> In l (leases s) -> In l0 (leases s) ->
  (is_lease (l_lease_id l) l0 = true /\ l0 = l)
  \/ (is_lease (l_lease_id l) l0 = false /\ l_lease_id l0 <> l_lease_id l).
Proof.
  intros I Hl Hl0. unfold is_lease. destruct (eqs (l_lease_id l0) (l_lease_id l)) eqn:E; str_hyps.
  - left. split; [done|]. apply (NoDup_key_eq l_lease_id (leases s)); [apply I|done..].
  - by right.
Qed.

Lemma load_ok_release now s l :
  Inv sha s -> load_ok now s -> In l (leases s) -> l_released_at l = None ->
  load_ok now (with_leases s (update (is_lease (l_lease_id l)) (set_released now) (leases s))).
Proof.
  intros I Hok Hin Hr w Hw. etransitivity; [|by apply Hok].
  eapply window_load_update; [reflexivity|done|]. intros l0 Hl0. unfold lease_held.
  destruct (lease_key_cases s l l0 I Hin Hl0) as [[-> ->]|[-> _]]; [|by apply Z.eq_le_incl].
  pose proof (inv_leases sha s I l Hin) as [_ _ Hu _ _ _ _ _].
  unfold lease_reserved. rewrite Hr. cbn.
  destruct ((now <? l_expires_at l) || _); lia.
Qed.

Lemma load_ok_consume now s s2 l uid u :
  Inv sha s -> load_ok now s -> In l (leases s) -> l_released_at l = None ->
  now < l_expires_at l ->
  insert_usage {| u_usage_id := uid; u_lease_id := l_lease_id l; u_units := u; u_consumed_at := now |}
    (with_leases s (update (is_lease (l_lease_id l)) (set_used u) (leases s))) = Ok s2 ->
  load_ok now s2.
Proof.
  intros I Hok Hin Hr He (-> & _)%insert_usage_ok w Hw. etransitivity; [|by apply Hok].
  eapply window_load_update; [reflexivity|done|]. intros l0 Hl0. unfold lease_held.
  destruct (lease_key_cases s l l0 I Hin Hl0) as [[-> ->]|[-> _]]; [|by apply Z.eq_le_incl].
  unfold lease_reserved. cbn. rewrite Hr.
  assert ((now <? l_expires_at l) = true) as -> by (by apply Z.ltb_lt). cbn. lia.
Qed.

Lemma load_ok_complete now s s2 row l o uid ns rb :
  let at_ := Z.max now (coalesce_dispatched row) in
  Inv sha s -> load_ok now s -> In row (attempts s) -> a_outcome row = PENDING ->
  In l (leases s) -> l_lease_id l = a_lease_id row -> l_released_at l = None ->
  l_used_units l + a_units row <= l_units l ->
  insert_usage {| u_usage_id := uid; u_lease_id := l_lease_id l; u_units := a_units row;
                  u_consumed_at := at_ |}
    (with_leases s (update (is_lease (l_lease_id l)) (set_used (a_units row)) (leases s))) = Ok s2 ->
  load_ok now (with_attempts
      (with_leases s2 (update (is_lease (l_lease_id l)) (set_released at_) (leases s2)))
      (update (is_attempt (a_attempt_id row)) (set_outcome o at_ ns rb) (attempts s2))).
Proof.
  intros at_ I Hok Hrow Hp Hin Hid Hr Hle (-> & _)%insert_usage_ok w Hw.
  cbn in Hw. etransitivity; [|by apply Hok].
  eapply window_load_update; [cbn; rewrite update_update by done; reflexivity|done|].
  intros l0 Hl0. unfold lease_held.
  destruct (lease_key_cases s l l0 I Hin Hl0) as [[-> ->]|[-> Hne]].
  - unfold lease_reserved. cbn. rewrite Hr.
    rewrite (proj2 (pending_row s (l_lease_id l))) by eauto. rewrite orb_true_r. lia.
  - apply Z.eq_le_incl. f_equal. apply lease_reserved_ext, pending_ext; cbn.
    + intros a0 (a & Ha & [[Hi ->]|[_ ->]])%In_update_attempt Hl Hpa; [|eauto].
      exfalso. cbn in Hl. apply Hne. rewrite <- Hl, Hid.
      f_equal. apply (NoDup_key_eq a_attempt_id (attempts s)); [apply I|done|done|done].
    + intros a0 H0 Hl Hpa. exists a0. split; [|done]. apply In_update_attempt.
      exists a0. split; [done|]. right. split; [|done]. intros E. apply Hne. rewrite <- Hl, Hid.
      f_equal. apply (NoDup_key_eq a_attempt_id (attempts s)); [apply I|done|done|done].
Qed.

Lemma load_ok_step now s s' : Inv sha s -> load_ok now s -> step sha boot grants now s s' ->
  load_ok now s'.
Proof.
  intros I Hok Hst. destruct Hst as [w s' Hi Hlt Hov|w l rem s' Hgr Hw Hrem Hu Hf Hi
    |w l a rem s1 s' Hw Hrem Hu Hf Hl Ha Hb Hi|s' Heq Hcl|row ns rb Hin Hp Hd Hns Hrb
    |row l o ns rb s2 Hrow Hp Ho Hin Hid Hr Hle Hns Hrb Hi|l uid u s2 Hin Hr He Hna Hle Hi
    |l Hin Hr Hg Hpend].
  - apply insert_window_ok in Hi as (-> & Ht & Hk). intros w0 [H0| ->]%In_snoc; [by apply Hok|].
    unfold window_load. rewrite sumZ_zero; [lia|]. cbn. intros l Hl.
    destruct (in_w w l) eqn:E; [|done]. exfalso.
    destruct (inv_leases sha s I l Hl) as [(w1 & Hw1 & Hs1 & Hi1 & _) _ _ _ _ _ _ _].
    apply (Hk w1 Hw1). unfold in_w, in_window in E. str_hyps. congruence.
  - apply insert_lease_ok in Hi as (-> & _). by eapply load_ok_grant.
  - apply insert_lease_ok in Hl as (-> & _ & Hkl & _).
    apply insert_attempt_ok in Hi as (-> & _ & _).
    eapply load_ok_grant; try done. intros l0 Hl0. apply pending_ext; cbn.
    + intros a0 [H0| ->]%In_snoc Hid0 Hp0; [eauto|]. exfalso. apply (Hkl l0 Hl0).
      rewrite <- Hid0. apply Ha.
    + intros a0 H0 ? ?. exists a0. rewrite In_snoc. auto.
  - destruct Heq as (Hws & Hls & _ & Has). intros w Hw. rewrite Hws in Hw.
    etransitivity; [|by apply Hok]. unfold window_load. rewrite Hls. apply Z.eq_le_incl, sumZ_ext.
    intros l _. unfold lease_held. rewrite (lease_reserved_ext s s'); [done|by rewrite Has].
  - intros w Hw. etransitivity; [|by apply Hok]. unfold window_load. apply Z.eq_le_incl, sumZ_ext.
    intros l _. unfold lease_held. rewrite (lease_reserved_ext s); [done|]. apply pending_ext.
    + intros a0 (a & Ha & [[_ ->]|[_ ->]])%In_update_attempt ? ?; eauto.
    + intros a0 H0 Hl0 Hp0. destruct (decide (a_attempt_id a0 = a_attempt_id row)).
      * eexists. split; [apply In_update_attempt; eauto|done].
      * eexists. split; [apply In_update_attempt; eauto|done].
  - by eapply load_ok_complete.
  - by eapply load_ok_consume.
  - by eapply load_ok_release.
Qed.

Lemma load_ok_steps now s s' : strip boot = boot -> nonempty boot = true ->
  Inv sha s -> load_ok now s -> steps sha boot grants now s s' -> load_ok now s'.
Proof.
  intros Hb1 Hb2 I Hok H. induction H as [|s s1 s2 H12 _ IH]; [done|].
  apply IH; [by eapply Inv_step | by eapply load_ok_step].
Qed.
End Bound.
