(* ===== verification/SourceQuotaOps.v ===== *)
(** * Source quota ledger: the methods refine the transitions

    Each method of [SourceQuotaStore] makes transitions of [SourceQuotaInv.step] at the
    instant its clock argument names (for a transport dispatch, at the source's effective
    time).  Sequences of method calls then inherit the invariant and the quota bounds. *)

From Stdlib Require Import ZArith Lia Bool.
From stdpp Require Import base list strings sorting pretty.
From S2P Require Import Prelude Clock ResourceAdmission SourceQuota SourceQuotaInv.
Open Scope Z_scope.
Open Scope rq_scope.

Ltac norm_hyps := repeat match goal with
  | H : normalize_aware_utc _ = Ok _ |- _ =>
      let Heq := fresh "Heq" in apply normalize_aware_utc_ok in H as [Heq H];
      first [injection Heq as <- | injection Heq as -> | subst | idtac]
  end.

Lemma latest_window_In ws w : latest_window ws = Some w -> In w ws.
Proof.
  unfold latest_window.
  assert (forall ws b, fold_left (fun best w => match best with
      | Some b => if w_starts_at b <? w_starts_at w then Some w else best
      | None => Some w end) ws b = Some w -> b = Some w \/ In w ws) as H.
  { clear. induction ws as [|x ws IH]; intros b H; cbn in *; [by left|].
    apply IH in H as [H|H]; [|auto]. destruct b as [b|]; [destruct (_ <? _)|];
      first [by left | injection H as ->; auto]. }
  intros Hl. destruct (H ws None Hl) as [?|?]; [done|done].
Qed.

Lemma active_window_In s src now w : active_window s src now = Ok w ->
  In w (windows s) /\ w_source w = src /\ w_starts_at w <= now < w_resets_at w.
Proof.
  unfold active_window. destruct (latest_window _) as [w'|] eqn:E; [|done].
  intros [= ->]. apply latest_window_In in E. unfold select in E. apply filter_In in E as [Hin Ha].
  unfold is_active in Ha. str_hyps. bool_hyps. split_and!; [done|done|lia|lia].
Qed.

Section Refine.
Context (sha : LeaseIdentity -> string) (boot : string) (grants : bool).

Lemma new_lease_fresh src own u now expires w lease :
  strip src = src -> strip own = own -> w_source w = src -> now < expires <= w_resets_at w ->
  new_lease sha src own u now expires (w_resets_at w) = Ok lease ->
  fresh_lease sha now w (lease_row lease (w_window_id w))
  /\ source lease = src /\ owner lease = own /\ units lease = u.
Proof.
  unfold new_lease, mk_lease. cbn. intros Hs Ho Hw He H. rewrite Hs, Ho in H. ok_inv H. bool_hyps.
  split_and!; try done.
Qed.

Lemma declare_window_steps now src wid a b total s :
  steps sha boot grants now s (fst (declare_window src wid a b total s)).
Proof.
  unfold declare_window. txn_case H. unfold committed in H. ok_inv H; [constructor|].
  bool_hyps. apply steps_one. eapply step_window; [done|cbn; lia|].
  intros w0 Hw0. cbn. rewrite fetchone_None in *. eauto.
Qed.

Lemma acquire_steps src own u t expires s : grants = true ->
  steps sha boot grants t s (fst (acquire sha src own u (Aware t) expires s)).
Proof.
  intros Hgr. unfold acquire. txn_case H. unfold committed in H.
  ok_inv H; [constructor|]. norm_hyps.
  match goal with H : active_window _ _ _ = _ |- _ => apply active_window_In in H as (Hw & Hs & _) end.
  bool_hyps. edestruct new_lease_fresh as (Hf & _ & _ & Hu); [..|eassumption|].
  1-4: (apply strip_idem || done || lia).
  apply steps_one. eapply step_grant; eauto. cbn. lia.
Qed.

Lemma bind_transport_steps now aid src req api ord s :
  steps sha boot grants now s (fst (bind_transport_attempt aid src req api ord s)).
Proof.
  unfold bind_transport_attempt. txn_case H. unfold committed in H. ok_inv H; [constructor|].
  match goal with H : insert_transport _ _ = _ |- _ => apply insert_transport_ok in H as -> end.
  apply steps_one, step_aux; [done|by left].
Qed.

Lemma attempt_from_row_ok row a : attempt_from_row row = Ok a ->
  a_outcome a = a_outcome row /\ a_dispatched_at a = a_dispatched_at row
  /\ a_prepared_at a = a_prepared_at row /\ a_units a = a_units row
  /\ a_lease_id a = strip (a_lease_id row) /\ a_attempt_id a = strip (a_attempt_id row).
Proof.
  unfold attempt_from_row, validate_lifecycle. intros H. ok_inv H; done.
Qed.

Lemma begin_attempt_steps src own aid u t expires ns s :
  steps sha boot grants t s (fst (begin_attempt sha boot src own aid u (Aware t) expires ns s)).
Proof.
  unfold begin_attempt. txn_case H. unfold committed in H.
  ok_inv H; [constructor|]. norm_hyps.
  match goal with H : active_window _ _ _ = _ |- _ => apply active_window_In in H as (Hw & Hs & _) end.
  bool_hyps. edestruct new_lease_fresh as (Hf & Hsl & Hol & Hu); [..|eassumption|].
  1-4: (apply strip_idem || done || lia).
  apply steps_one. eapply step_attempt; try eassumption; [cbn; lia| |done].
  constructor; cbn; try done; try lia; [by left|]. split; [apply strip_idem|done].
Qed.

(** The effective time of a source: the clock reading, unless a later one was trusted. *)
Definition effective_time (src : string) (observed : Z) (s : store) : Z :=
  match fetchone (is_clock src) (clocks s) with
  | Some row => Z.max observed (c_trusted_at row)
  | None => match latest_attempt_at src s with
            | Some previous => Z.max observed previous
            | None => observed
            end
  end.

Lemma advance_source_clock_ok src kind observed s effective rollback s' :
  advance_source_clock src kind observed s = Ok (effective, rollback, s') ->
  effective = effective_time src observed s /\ same_ledger s s' /\ 0 <= rollback
  /\ (forall c, In c (clocks s') -> In c (clocks s) \/ c_trusted_at c <= effective).
Proof.
  unfold advance_source_clock, effective_time. intros H.
  destruct (fetchone _ _) as [row|].
  - ok_inv H; bool_hyps; (split_and!; [lia|done|lia|]).
    all: cbn; intros c (c0 & Hc0 & ->)%In_update; case_goal; cbn; [right; lia|by left].
  - destruct (latest_attempt_at src s) as [p|]; [destruct (Z.ltb_spec observed p)|]; ok_inv H;
      match goal with H : insert_clock _ _ = _ |- _ => apply insert_clock_ok in H as -> end;
      (split_and!; [lia|done|lia|]).
    all: cbn; intros c [Hc| ->]%In_snoc; cbn; [by left|right; lia].
Qed.

Lemma ensure_transport_window_ok now src total wid starts resets s w s' :
  starts < resets ->
  ensure_transport_window src total (wid, starts, resets) s = Ok (w, s') ->
  steps sha boot grants now s s' /\ In w (windows s') /\ w_source w = src /\ w_window_id w = wid
  /\ w_starts_at w = starts /\ w_resets_at w = resets.
Proof.
  intros Hlt H. unfold ensure_transport_window in H. ok_inv H.
  - bool_hyps. match goal with H : fetchone _ _ = Some _ |- _ => apply fetchone_Some in H as [Hin _] end.
    subst. split_and!; try done. constructor.
  - match goal with H : insert_window _ _ = _ |- _ => pose proof H as Hi; apply insert_window_ok in H as (-> & _) end.
    split_and!; try done; [|apply In_snoc; by right].
    apply steps_one. eapply step_window; [done|done|]. intros w0 Hw0. rewrite fetchone_None in *. eauto.
Qed.

Lemma quota_window_bounds_ok t kind wid starts resets :
  quota_window_bounds t kind = Ok (wid, starts, resets) -> starts <= t < resets.
Proof.
  unfold quota_window_bounds. intros H. ok_inv H.
  all: match goal with H : add_us _ _ = _ |- _ => apply add_us_ok in H as [-> _] end.
  all: unfold us_per_day, us_per_minute, us_per_second in *; divlia.
Qed.

Lemma begin_transport_steps src own aid req api ord u total kind t ns s :
  steps sha boot grants (effective_time (strip src) t s) s
    (fst (begin_transport_dispatch sha boot src own aid req api ord u total kind (Aware t) ns s)).
Proof.
  unfold begin_transport_dispatch. txn_case H. unfold committed in H.
  ok_inv H; [constructor| |]; norm_hyps.
  - match goal with H : insert_transport _ _ = _ |- _ => apply insert_transport_ok in H as -> end.
    apply steps_one, step_aux; [done|by left].
  - destruct x1 as [[wid starts] resets].
    match goal with H : advance_source_clock _ _ _ _ = _ |- _ =>
      apply advance_source_clock_ok in H as (-> & Hsame & Hrb & Hcl) end.
    match goal with H : quota_window_bounds _ _ = _ |- _ => apply quota_window_bounds_ok in H as Hb end.
    set (eff := effective_time _ _ _) in *.
    match goal with H : ensure_transport_window _ _ _ _ = _ |- _ =>
      apply (ensure_transport_window_ok eff) in H as (Hsteps & Hin & Hsrc & _ & _ & Hres); [|lia] end.
    bool_hyps. cbn [snd] in *. subst resets.
    edestruct new_lease_fresh as (Hf & Hsl & Hol & Hu); [..|eassumption|].
    1-4: (apply strip_idem || done || lia).
    eapply steps_next; [by apply step_aux|]. eapply steps_trans; [done|].
    eapply steps_next; [eapply step_attempt; try eassumption; [cbn; lia| |done]|].
    + constructor; cbn; try done; try lia; [by right|]. split; [apply strip_idem|done].
    + match goal with H : insert_transport _ _ = _ |- _ => apply insert_transport_ok in H as -> end.
      apply steps_one, step_aux; [done|by left].
Qed.

(** [hashlib.sha256(...).hexdigest()] is 64 lower-case hexadecimal digits. *)
Context (sha_hex : forall i, is_hex64 (sha i) = true).

(** Rows of a well-formed ledger pass their own validation unchanged. *)
Lemma attempt_row_valid s a : Inv sha s -> In a (attempts s) -> attempt_from_row a = Ok a.
Proof.
  intros I Ha. destruct (inv_attempts sha s I a Ha) as
    [(l & Hl & Hid & Hs & Ho & Hu & _) Hlife [Hai Han] [Hbi Hbn] (Hn & Hq & Hc)].
  destruct (inv_leases sha s I l Hl) as [_ Hlu _ _ _ _ (Hss & Hso & Hns & Hno) Hlid].
  rewrite Hs in *. rewrite Ho in *.
  assert (is_hex64 (a_lease_id a) = true) as Hh by (rewrite <- Hid, Hlid; apply sha_hex).
  unfold attempt_from_row. rewrite Hai, Hss, Hso, Hbi, (strip_hex64 _ Hh). cbn.
  rewrite Han, Hns, Hno, Hh, Hbn.
  replace (0 <? a_units a) with true by (symmetry; apply Z.ltb_lt; lia).
  replace (0 <=? a_last_monotonic_ns a) with true by (symmetry; apply Z.leb_le; lia).
  replace (1 <=? a_lifecycle_sequence a) with true by (symmetry; apply Z.leb_le; lia).
  replace (0 <=? a_clock_rollback_count a) with true by (symmetry; apply Z.leb_le; lia).
  cbn. by destruct a.
Qed.

Lemma lease_row_valid s l : Inv sha s -> In l (leases s) -> exists v,
  lease_from_row sha l = Ok v /\ lease_id v = l_lease_id l /\ source v = l_source l
  /\ owner v = l_owner l /\ units v = l_units l /\ granted_at v = l_granted_at l
  /\ expires_at v = l_expires_at l /\ quota_reset_at v = l_quota_reset_at l
  /\ released_at v = l_released_at l.
Proof.
  intros I Hl.
  destruct (inv_leases sha s I l Hl) as [_ Hlu _ _ Ht Hr (Hss & Hso & Hns & Hno) Hlid].
  assert (is_hex64 (l_lease_id l) = true) as Hh by (rewrite Hlid; apply sha_hex).
  unfold lease_from_row, mk_lease, between. cbn.
  rewrite Hss, Hso, (strip_hex64 _ Hh), Hns, Hno. cbn.
  assert ((1 <=? l_units l) && (l_units l <=? MAX_RESOURCE_COUNT) = true) as ->
    by (rewrite andb_true_iff, !Z.leb_le; unfold MAX_RESOURCE_COUNT, int64_max in *; lia).
  replace (l_expires_at l <=? l_granted_at l) with false by (symmetry; apply Z.leb_gt; lia).
  replace (l_quota_reset_at l <? l_expires_at l) with false by (symmetry; apply Z.ltb_ge; lia).
  assert (match l_released_at l with Some r => r <? l_granted_at l | None => false end = false) as ->.
  { destruct (l_released_at l) as [r|]; [|done]. apply Z.ltb_ge. by apply Hr. }
  unfold identity_payload. cbn. rewrite <- Hlid, bool_decide_eq_true_2, andb_false_r by done.
  eexists. split; [reflexivity|]. by cbn.
Qed.

Lemma fetch_attempt s aid row : fetchone (is_attempt aid) (attempts s) = Some row ->
  In row (attempts s) /\ a_attempt_id row = aid.
Proof.
  intros [Hin H]%fetchone_Some. unfold is_attempt in H. by str_hyps.
Qed.

Lemma fetch_lease s lid l : fetchone (is_lease lid) (leases s) = Some l ->
  In l (leases s) /\ l_lease_id l = lid.
Proof. intros [Hin H]%fetchone_Some. unfold is_lease in H. by str_hyps. Qed.

(** The row a lookup by attempt id found, already in its validated form. *)
Ltac row_valid I :=
  match goal with
  | Hf : fetchone (is_attempt _) _ = Some ?row, Hv : attempt_from_row ?row = Ok _ |- _ =>
      let Hin := fresh "Hin" in let Haid := fresh "Haid" in
      destruct (fetch_attempt _ _ _ Hf) as [Hin Haid];
      rewrite (attempt_row_valid _ _ I Hin) in Hv; injection Hv as <-; try subst
  end.

Lemma mark_dispatched_steps aid t ns s : Inv sha s ->
  steps sha boot grants t s (fst (mark_dispatched aid (Aware t) ns s)).
Proof.
  intros I. unfold mark_dispatched. txn_case H. ok_inv H; norm_hyps; [constructor|..].
  all: row_valid I; bool_hyps; unfold is_pending in *; bool_hyps.
  all: apply steps_one, step_dispatch; done || lia.
Qed.

Lemma complete_attempt_steps aid o t ns s : Inv sha s ->
  steps sha boot grants t s (fst (complete_attempt aid o (Aware t) ns s)).
Proof.
  intros I. unfold complete_attempt. txn_case H. unfold committed in H.
  ok_inv H; norm_hyps; [constructor|..].
  all: row_valid I; bool_hyps; unfold is_pending in *; bool_hyps.
  all: match goal with H : fetchone (is_lease _) _ = Some _ |- _ =>
    destruct (fetch_lease _ _ _ H) as [Hl Hlid] end.
  all: rewrite <- Hlid in *; apply steps_one; eapply step_complete; try done; try lia.
  all: destruct (l_released_at _) eqn:Er; [|done]; exfalso;
    match goal with H : ~ is_Some _ |- _ => apply H end; eauto.
Qed.

Lemma consume_steps lid uid u t s : steps sha boot grants t s (fst (consume lid uid u (Aware t) s)).
Proof.
  unfold consume. txn_case H. unfold committed in H. ok_inv H; norm_hyps; [constructor|].
  match goal with H : fetchone (is_lease _) _ = Some _ |- _ =>
    destruct (fetch_lease _ _ _ H) as [Hl <-] end.
  match goal with H : fetchone (attempt_on _) _ = None |- _ => rewrite fetchone_None in H; rename H into Hna end.
  bool_hyps. apply steps_one. eapply step_consume; try done.
  - destruct (l_released_at _) eqn:Er; [|done]. exfalso.
    match goal with H : ~ is_Some _ |- _ => apply H end. eauto.
  - intros a Ha He. specialize (Hna a Ha). unfold attempt_on in Hna. by rewrite He, eqs_refl in Hna.
Qed.

Lemma release_steps lid t s : steps sha boot grants t s (fst (release sha lid (Aware t) s)).
Proof.
  unfold release. txn_case H. ok_inv H; norm_hyps; [constructor|].
  match goal with H : fetchone (is_lease _) _ = Some _ |- _ =>
    destruct (fetch_lease _ _ _ H) as [Hl <-] end.
  match goal with H : fetchone (pending_on _) _ = None |- _ => rewrite fetchone_None in H; rename H into Hna end.
  bool_hyps. apply steps_one, step_release; try done.
  intros a Ha He Hp. specialize (Hna a Ha). unfold pending_on, attempt_on, is_pending in Hna.
  by rewrite He, Hp, eqs_refl in Hna.
Qed.

Lemma get_attempt_store aid s : fst (get_attempt aid s) = s.
Proof.
  unfold get_attempt. match goal with |- fst (txn ?s ?b) = _ =>
    destruct (txn_cases s b) as [->|(s' & r & H & ->)]; [done|] end.
  unfold committed in H. ok_inv H; done.
Qed.

Lemma recover_each_steps ids t ns_of s : strip boot = boot -> nonempty boot = true -> Inv sha s ->
  steps sha boot grants t s (fst (recover_each ids (Aware t) ns_of s)).
Proof.
  intros Hb1 Hb2. revert s. induction ids as [|aid ids IH]; intros s I; cbn; [constructor|].
  pose proof (get_attempt_store aid s) as Hg. destruct (get_attempt aid s) as [s0 [[a|]|e]].
  all: cbn in Hg; subst s0; cbn.
  2: by apply IH.
  2: constructor.
  destruct (is_pending a); cbn; [|by apply IH].
  pose proof (complete_attempt_steps aid UNKNOWN t (ns_of aid) s I) as Hc.
  unfold recover_attempt. destruct (complete_attempt _ _ _ _ s) as [s1 [a1|e]]; cbn in *; [|done].
  pose proof (Inv_steps _ _ _ _ _ _ Hb1 Hb2 I Hc) as I1. specialize (IH s1 I1).
  destruct (recover_each ids (Aware t) ns_of s1) as [s2 [l|e]]; cbn in *; by eapply steps_trans.
Qed.

Lemma recover_stale_steps src t age mx ns ns_of s :
  strip boot = boot -> nonempty boot = true -> Inv sha s ->
  steps sha boot grants t s (fst (recover_stale_attempts boot src (Aware t) age mx ns ns_of s)).
Proof.
  intros. unfold recover_stale_attempts. repeat (case_goal; [constructor|]).
  by apply recover_each_steps.
Qed.
End Refine.
