(* ===== verification/SourceQuotaThms.v ===== *)
(** * Source quota ledger: sequences of calls

    [op] names a call of a [SourceQuotaStore] method with its arguments and [run] the store
    after it.  The theorems are about every sequence of calls from an empty database: the
    ledger stays well formed, no window is over-reserved while the clock does not go back,
    crash-safe attempts never over-spend whatever the clock does, and calls are idempotent. *)

From Stdlib Require Import ZArith Lia Bool.
From stdpp Require Import base list strings sorting pretty.
From S2P Require Import Prelude Clock ResourceAdmission SourceQuota SourceQuotaInv SourceQuotaOps.
Open Scope Z_scope.
Open Scope rq_scope.

Inductive op :=
  | ODeclare (src wid : string) (starts_at resets_at : pydatetime) (total_units : Z)
  | OAcquire (src own : string) (u : Z) (now expires_at : pydatetime)
  | OBind (aid src req api : string) (ord : Z)
  | OTransport (src own aid req api : string) (ord u total : Z) (kind : string)
      (clock : pydatetime) (ns : Z)
  | OBegin (src own aid : string) (u : Z) (now expires_at : pydatetime) (ns : Z)
  | OMark (aid : string) (now : pydatetime) (ns : Z)
  | OComplete (aid : string) (o : SourceQuotaAttemptOutcome) (now : pydatetime) (ns : Z)
  | ORecover (src : string) (now : pydatetime) (min_age_us max_count ns : Z) (ns_of : string -> Z)
  | OConsume (lid uid : string) (u : Z) (now : pydatetime)
  | ORelease (lid : string) (now : pydatetime).

Section Runs.
Context (sha : LeaseIdentity -> string) (boot : string).

Definition run (o : op) (s : store) : store :=
  match o with
  | ODeclare src wid a b total => fst (declare_window src wid a b total s)
  | OAcquire src own u now e => fst (acquire sha src own u now e s)
  | OBind aid src req api ord => fst (bind_transport_attempt aid src req api ord s)
  | OTransport src own aid req api ord u total kind clock ns =>
      fst (begin_transport_dispatch sha boot src own aid req api ord u total kind clock ns s)
  | OBegin src own aid u now e ns => fst (begin_attempt sha boot src own aid u now e ns s)
  | OMark aid now ns => fst (mark_dispatched aid now ns s)
  | OComplete aid o now ns => fst (complete_attempt aid o now ns s)
  | ORecover src now age mx ns ns_of => fst (recover_stale_attempts boot src now age mx ns ns_of s)
  | OConsume lid uid u now => fst (consume lid uid u now s)
  | ORelease lid now => fst (release sha lid now s)
  end.

End Runs.

(** A call is made by a process, whose store instance carries that process's boot id; the
    processes share the database file. *)
Definition call : Type := string * op.

Definition runs (sha : LeaseIdentity -> string) (calls : list call) (s : store) : store :=
  fold_left (fun s c => run sha (fst c) (snd c) s) calls s.

(** The boot id a store instance keeps is a nonempty stripped string. *)
Definition boot_ok (boot : string) : Prop := strip boot = boot /\ nonempty boot = true.
Definition boots_ok (calls : list call) : Prop := Forall (fun c => boot_ok (fst c)) calls.

(** The clock reading a call is given. *)
Definition op_clock (o : op) : option pydatetime :=
  match o with
  | ODeclare _ _ _ _ _ | OBind _ _ _ _ _ => None
  | OAcquire _ _ _ now _ | OBegin _ _ _ _ now _ _ | OMark _ now _ | OComplete _ _ now _
  | ORecover _ now _ _ _ _ | OConsume _ _ _ now | ORelease _ now => Some now
  | OTransport _ _ _ _ _ _ _ _ _ clock _ => Some clock
  end.

Definition op_time (o : op) : option Z :=
  match op_clock o with Some (Aware t) => Some t | _ => None end.

Definition is_acquire (o : op) : bool := match o with OAcquire _ _ _ _ _ => true | _ => false end.

(** The clock readings of a sequence of calls never go back behind [c]. *)
Fixpoint clock_from (c : Z) (ops : list call) : Prop :=
  match ops with
  | [] => True
  | o :: ops => match op_time (snd o) with
                | Some t => c <= t /\ clock_from t ops
                | None => clock_from c ops
                end
  end.

(** ** One call *)

Section OneCall.
Context (sha : LeaseIdentity -> string) (boot : string).
Context (sha_hex : forall i, is_hex64 (sha i) = true).
Context (boot_strip : strip boot = boot) (boot_nonempty : nonempty boot = true).

Lemma recover_each_naive ids n ns_of s : fst (recover_each ids (Naive n) ns_of s) = s.
Proof.
  induction ids as [|aid ids IH]; cbn; [done|].
  pose proof (get_attempt_store aid s) as Hg. destruct (get_attempt aid s) as [s0 [[a|]|e]].
  all: cbn in Hg; subst s0; cbn; try done.
  destruct (is_pending a); cbn; [|done]. by unfold recover_attempt, complete_attempt.
Qed.

Lemma run_naive o n s : op_clock o = Some (Naive n) -> run sha boot o s = s.
Proof.
  destruct o; cbn; try discriminate; intros [= ->].
  - done.
  - unfold begin_transport_dispatch. repeat (case_goal; [done|]). done.
  - done.
  - done.
  - unfold complete_attempt. case_goal; done.
  - unfold recover_stale_attempts. repeat (case_goal; [done|]). apply recover_each_naive.
  - unfold consume. repeat (case_goal; [done|]). done.
  - done.
Qed.

(** The instant a call's transitions are made at. *)
Definition run_time (c : Z) (o : op) (s : store) : Z :=
  match o with
  | OTransport src _ _ _ _ _ _ _ _ (Aware t) _ => effective_time (strip src) t s
  | _ => default c (op_time o)
  end.

Lemma run_steps c o s : Inv sha s ->
  steps sha boot (is_acquire o) (run_time c o s) s (run sha boot o s).
Proof.
  intros I. destruct (op_clock o) as [[t|n]|] eqn:E.
  - destruct o; cbn in E; try discriminate; injection E as ->; cbn.
    + by apply acquire_steps.
    + apply begin_transport_steps.
    + apply begin_attempt_steps.
    + by apply mark_dispatched_steps.
    + by apply complete_attempt_steps.
    + by apply recover_stale_steps.
    + apply consume_steps.
    + apply release_steps.
  - rewrite (run_naive o n s E). constructor.
  - destruct o; cbn in E; try discriminate; cbn.
    + apply declare_window_steps.
    + apply bind_transport_steps.
Qed.

Lemma run_Inv o s : Inv sha s -> Inv sha (run sha boot o s).
Proof. intros I. by eapply Inv_steps; [..|apply (run_steps 0)]. Qed.

End OneCall.

Lemma runs_Inv sha ops s : (forall i, is_hex64 (sha i) = true) -> boots_ok ops ->
  Inv sha s -> Inv sha (runs sha ops s).
Proof.
  intros Hx Hb. revert s. induction Hb as [|[b o] ops [Hb1 Hb2] _ IH]; intros s I; cbn; [done|].
  by apply IH, run_Inv.
Qed.

(** ** Clocks that do not go back *)

(** No trusted clock and no attempt is ahead of [c]. *)
Record times_ok (c : Z) (s : store) : Prop := {
  to_clocks : forall r, In r (clocks s) -> c_trusted_at r <= c;
  to_attempts : forall a, In a (attempts s) -> coalesce_dispatched a <= c /\ a_prepared_at a <= c
}.

Lemma times_ok_later c c' s : c <= c' -> times_ok c s -> times_ok c' s.
Proof.
  intros Hc [H1 H2]. constructor; [intros r Hr; specialize (H1 r Hr); lia|].
  intros a Ha. destruct (H2 a Ha). lia.
Qed.

Lemma latest_attempt_at_In src s p : latest_attempt_at src s = Some p ->
  exists a, In a (attempts s) /\ coalesce_dispatched a = p.
Proof.
  unfold latest_attempt_at. set (rows := select _ _).
  assert (forall a, In a rows -> In a (attempts s)) as Hsub.
  { subst rows. unfold select. intros a [Ha _]%filter_In. done. }
  assert (forall l m p, fold_left (fun m a => match m with
        | None => Some (coalesce_dispatched a)
        | Some x => Some (Z.max x (coalesce_dispatched a)) end) l m = Some p ->
      m = Some p \/ exists a, In a l /\ coalesce_dispatched a = p) as H.
  { clear. induction l as [|a l IH]; intros m p H; cbn in *; [by left|].
    apply IH in H as [H|(b & Hb & ?)]; [|eauto].
    destruct m as [x|]; injection H as <-; [|right; exists a; auto].
    destruct (Z.max_spec x (coalesce_dispatched a)) as [[_ ->]|[_ ->]]; [right; exists a; auto|by left]. }
  intros Hp. apply H in Hp as [?|(a & Ha & ?)]; [done|eauto].
Qed.

Lemma effective_time_eq src t s : times_ok t s -> effective_time src t s = t.
Proof.
  intros [H1 H2]. unfold effective_time.
  destruct (fetchone _ _) as [r|] eqn:E.
  - apply fetchone_Some in E as [Hr _]. specialize (H1 r Hr). lia.
  - destruct (latest_attempt_at src s) as [p|] eqn:El; [|done].
    apply latest_attempt_at_In in El as (a & Ha & <-). destruct (H2 a Ha). lia.
Qed.

Section Bounds.
Context (sha : LeaseIdentity -> string) (boot : string).

Lemma times_ok_step g now s s' : times_ok now s -> step sha boot g now s s' -> times_ok now s'.
Proof.
  intros T Hst. destruct Hst as [w s' Hi _ _|w l rem s' _ _ _ _ _ Hi
    |w l a rem s1 s' _ _ _ _ Hl Ha _ Hi|s' Heq Hcl|row ns rb Hin _ _ _ _
    |row l o ns rb s2 Hrow _ _ _ _ _ _ _ _ Hi|l uid u s2 _ _ _ _ _ Hi|l _ _ _ _].
  - apply insert_window_ok in Hi as (-> & _). by destruct T.
  - apply insert_lease_ok in Hi as (-> & _). by destruct T.
  - apply insert_lease_ok in Hl as (-> & _). apply insert_attempt_ok in Hi as (-> & _).
    constructor; cbn; [apply T|]. intros a0 [H0| ->]%In_snoc; [by apply T|].
    unfold coalesce_dispatched. rewrite (fa_prepared _ _ _ Ha).
    destruct (fa_dispatched _ _ _ Ha) as [-> | ->]; lia.
  - destruct Heq as (_ & _ & _ & Has). constructor; [|rewrite Has; apply T].
    intros r Hr. destruct (Hcl r Hr); [by apply T|done].
  - constructor; cbn; [apply T|].
    intros a0 (a & Ha & [[_ ->]|[_ ->]])%In_update_attempt; [|apply (to_attempts _ _ T a Ha)].
    destruct (to_attempts _ _ T row Hin), (to_attempts _ _ T a Ha). cbn. lia.
  - apply insert_usage_ok in Hi as (-> & _). constructor; cbn; [apply T|].
    intros a0 (a & Ha & [[_ ->]|[_ ->]])%In_update_attempt; apply (to_attempts _ _ T a Ha).
  - apply insert_usage_ok in Hi as (-> & _). by destruct T.
  - by destruct T.
Qed.

Lemma times_ok_steps g now s s' : times_ok now s -> steps sha boot g now s s' -> times_ok now s'.
Proof. intros T H. induction H; eauto using times_ok_step. Qed.

(** ** Leases that an attempt stands behind *)
Definition backed (s : store) : Prop :=
  forall l, In l (leases s) -> exists a, In a (attempts s) /\ a_lease_id a = l_lease_id l.

Lemma backed_update_lease s s' lid f :
  backed s -> leases s' = update (is_lease lid) f (leases s) -> attempts s' = attempts s ->
  (forall l, l_lease_id (f l) = l_lease_id l) -> backed s'.
Proof.
  intros B Hl Ha Hf l H. rewrite Ha. rewrite Hl in H.
  apply In_update_lease in H as (l0 & H0 & [[_ ->]|[_ ->]]); [rewrite Hf|]; by apply B.
Qed.

Lemma backed_update_attempt s s' aid f :
  backed s -> leases s' = leases s -> attempts s' = update (is_attempt aid) f (attempts s) ->
  (forall a, a_lease_id (f a) = a_lease_id a) -> backed s'.
Proof.
  intros B Hl Ha Hf l H. rewrite Hl in H. destruct (B l H) as (a & Hin & Hid).
  rewrite Ha. exists (if is_attempt aid a then f a else a). split; [apply In_update; eauto|].
  case_goal; by rewrite ?Hf.
Qed.

Lemma backed_step now s s' : backed s -> step sha boot false now s s' -> backed s'.
Proof.
  intros B Hst. destruct Hst as [w s' Hi _ _|w l rem s' Hg _ _ _ _ Hi
    |w l a rem s1 s' _ _ _ _ Hl Ha _ Hi|s' Heq Hcl|row ns rb Hin _ _ _ _
    |row l o ns rb s2 Hrow _ _ _ _ _ _ _ _ Hi|l uid u s2 _ _ _ _ _ Hi|l _ _ _ _].
  - apply insert_window_ok in Hi as (-> & _). done.
  - done.
  - apply insert_lease_ok in Hl as (-> & _). apply insert_attempt_ok in Hi as (-> & _).
    intros l0 [H0| ->]%In_snoc; cbn; [destruct (B l0 H0) as (a0 & ? & ?); exists a0|exists a];
      rewrite In_snoc; [auto|]. split; [by right|apply Ha].
  - destruct Heq as (_ & Hls & _ & Has). intros l. rewrite Hls, Has. apply B.
  - by eapply backed_update_attempt.
  - apply insert_usage_ok in Hi as (-> & _). cbn. rewrite update_update by done.
    eapply (backed_update_attempt (with_leases s _)); [|reflexivity|reflexivity|done].
    by eapply backed_update_lease.
  - apply insert_usage_ok in Hi as (-> & _). by eapply backed_update_lease.
  - by eapply backed_update_lease.
Qed.

Lemma backed_steps now s s' : backed s -> steps sha boot false now s s' -> backed s'.
Proof. intros B H. induction H; eauto using backed_step. Qed.

(** What a backed lease holds does not depend on the time it is asked at. *)
Lemma backed_reserved s now now' l : Inv sha s -> backed s -> In l (leases s) ->
  lease_reserved s now l = lease_reserved s now' l.
Proof.
  intros I B Hl. unfold lease_reserved. destruct (l_released_at l) eqn:Er; [done|].
  destruct (B l Hl) as (a & Ha & Hid).
  destruct (inv_attempts sha s I a Ha) as [(l' & Hl' & Hid' & _ & _ & _ & _ & _ & Hfin) _ _ _ _].
  assert (l' = l) as -> by (apply (NoDup_key_eq l_lease_id (leases s)); [apply I|done|done|congruence]).
  destruct (decide (a_outcome a = PENDING)) as [Hp|Hp]; [|by destruct (Hfin Hp)].
  rewrite (proj2 (pending_row s (l_lease_id l))) by eauto. by rewrite !orb_true_r.
Qed.

Lemma backed_load s now now' : Inv sha s -> backed s -> load_ok now s -> load_ok now' s.
Proof.
  intros I B Hok w Hw. etransitivity; [|by apply Hok]. unfold window_load.
  apply Z.eq_le_incl, sumZ_ext. intros l Hl. unfold lease_held.
  by rewrite (backed_reserved s now' now l I B Hl).
Qed.
End Bounds.

(** ** Sequences of calls *)

(** The last clock reading of a sequence, [c] when it has none. *)
Fixpoint last_time (c : Z) (ops : list call) : Z :=
  match ops with [] => c | o :: ops => last_time (default c (op_time (snd o))) ops end.

Lemma load_ok_empty c : load_ok c empty_store.
Proof. by intros w []. Qed.

Lemma backed_empty : backed empty_store.
Proof. by intros l []. Qed.

Lemma times_ok_empty c : times_ok c empty_store.
Proof. constructor; by intros r []. Qed.

Section Sequences.
Context (sha : LeaseIdentity -> string) (sha_hex : forall i, is_hex64 (sha i) = true).

Lemma run_time_eq c o s : c <= default c (op_time o) -> times_ok c s ->
  run_time c o s = default c (op_time o).
Proof.
  intros Hc T. destruct o; try done. cbn in *. unfold op_time in *. cbn in *.
  destruct clock; cbn in *; [|done]. by apply effective_time_eq, (times_ok_later c).
Qed.

Lemma runs_load ops c s : boots_ok ops -> clock_from c ops -> Inv sha s -> times_ok c s ->
  load_ok c s -> load_ok (last_time c ops) (runs sha ops s).
Proof.
  intros Hb. revert c s. induction Hb as [|[b o] ops [Hb1 Hb2] _ IH]; intros c s Hc I T L; [done|].
  cbn in *.
  assert (c <= default c (op_time o) /\ clock_from (default c (op_time o)) ops) as [Hle Hc']
    by (destruct (op_time o); cbn; [done|split; [lia|done]]).
  set (t := default c (op_time o)) in *.
  pose proof (run_steps sha b sha_hex Hb1 Hb2 c o s I) as Hs.
  rewrite run_time_eq in Hs by done. fold t in Hs.
  apply IH; [done|by apply run_Inv|eapply times_ok_steps; [|done]; by apply (times_ok_later c)|].
  eapply load_ok_steps; [..|done]; try done. by apply (load_ok_later sha s c).
Qed.

Lemma runs_backed ops s now : boots_ok ops -> existsb (fun c => is_acquire (snd c)) ops = false ->
  Inv sha s -> backed s -> load_ok now s ->
  backed (runs sha ops s) /\ load_ok now (runs sha ops s).
Proof.
  intros Hb. revert s. induction Hb as [|[b o] ops [Hb1 Hb2] _ IH]; intros s Ho I B L; [done|].
  cbn in *. apply orb_false_iff in Ho as [Ho Hos].
  pose proof (run_steps sha b sha_hex Hb1 Hb2 now o s I) as Hs.
  rewrite Ho in Hs. pose proof (run_Inv sha b sha_hex Hb1 Hb2 o s I) as I'.
  pose proof (backed_steps _ _ _ _ _ B Hs) as B'.
  apply IH; [done..|]. eapply (backed_load sha _ (run_time now o s)); [done|done|].
  eapply load_ok_steps; [..|done]; try done. by eapply backed_load.
Qed.
End Sequences.

(** ** The quota contract *)

(** C31: from an empty database, whatever methods are called in whatever order and with
    whatever clock readings, the ledger stays well formed: windows of one source do not overlap,
    keys are unique, foreign keys resolve, the used units of a lease are the sum of its usage
    rows and never exceed the units granted, and every attempt is either pending on an untouched
    open lease or final on a released lease that was charged in full. *)
Theorem quota_ledger_invariant sha ops :
  (forall i, is_hex64 (sha i) = true) -> boots_ok ops ->
  Inv sha (runs sha ops empty_store).
Proof. intros Hx Hb. apply runs_Inv; auto with rq. Qed.

(** C1: while the clock readings passed to the store do not go back, the units used and the
    units still reserved in a window never exceed its total, at any time from the last reading on. *)
Theorem quota_never_over_reserved sha ops c now w :
  (forall i, is_hex64 (sha i) = true) -> boots_ok ops ->
  clock_from c ops -> last_time c ops <= now ->
  In w (windows (runs sha ops empty_store)) ->
  window_used (runs sha ops empty_store) w
  + window_reserved (runs sha ops empty_store) now w <= w_total_units w.
Proof.
  intros Hx Hb Hc Hn Hw. rewrite <- window_load_split.
  eapply load_ok_later; [apply runs_Inv; auto with rq|exact Hn| |done].
  apply runs_load; auto using load_ok_empty, times_ok_empty with rq.
Qed.

(** C2: when every unit is spent through crash-safe attempts ([begin_attempt],
    [begin_transport_dispatch], [complete_attempt], [recover_stale_attempts]), the bound holds
    for any clock readings, rollbacks included, and at any time it is asked for. *)
Theorem attempts_never_overspend sha ops now w :
  (forall i, is_hex64 (sha i) = true) -> boots_ok ops ->
  existsb (fun c => is_acquire (snd c)) ops = false ->
  In w (windows (runs sha ops empty_store)) ->
  window_used (runs sha ops empty_store) w
  + window_reserved (runs sha ops empty_store) now w <= w_total_units w.
Proof.
  intros Hx Hb Ho Hw. rewrite <- window_load_split.
  apply (runs_backed sha Hx ops empty_store now); auto using load_ok_empty, backed_empty with rq.
Qed.

(** *** A concrete run *)

Ltac solve_boots := repeat constructor.

(** A digest with the shape of SHA-256's, distinct on the leases of the examples. *)
Definition demo_sha (i : LeaseIdentity) : string :=
  digits 64 (id_units i + 1000 * id_granted_at i + 10 ^ 30 * Z.of_nat (String.length (id_owner i))).

Lemma demo_sha_hex i : is_hex64 (demo_sha i) = true.
Proof. apply digits_hex64. Qed.

Definition demo_ops : list call := map (pair "boot-1"%string)
  [ ODeclare "tushare" "w1" (Aware 0) (Aware 100) 10;
    OAcquire "tushare" "a" 6 (Aware 0) (Aware 5);
    OBegin "tushare" "bb" "try-1" 4 (Aware 1) (Aware 50) 7;
    OConsume (demo_sha {| id_source := "tushare"; id_owner := "a"; id_units := 6; id_granted_at := 0;
                          id_expires_at := 5; id_quota_reset_at := 100 |}) "use-1" 2 (Aware 2);
    OMark "try-1" (Aware 3) 8;
    OComplete "try-1" SUCCESS (Aware 4) 9 ].

Definition demo_window := {| w_source := "tushare"; w_window_id := "w1"; w_starts_at := 0;
  w_resets_at := 100; w_total_units := 10 |}.

Lemma quota_ledger_invariant_witness :
  length (usages (runs demo_sha demo_ops empty_store)) = 2%nat
  /\ Inv demo_sha (runs demo_sha demo_ops empty_store).
Proof.
  split; [vm_compute; reflexivity|].
  apply quota_ledger_invariant; [exact demo_sha_hex|solve_boots].
Defined.

Lemma quota_never_over_reserved_witness :
  window_used (runs demo_sha demo_ops empty_store) demo_window = 6
  /\ window_reserved (runs demo_sha demo_ops empty_store) 4 demo_window = 4
  /\ window_used (runs demo_sha demo_ops empty_store) demo_window
     + window_reserved (runs demo_sha demo_ops empty_store) 4 demo_window
     <= w_total_units demo_window.
Proof.
  split; [vm_compute; reflexivity|]. split; [vm_compute; reflexivity|].
  apply (quota_never_over_reserved demo_sha demo_ops 0 4 demo_window);
    [exact demo_sha_hex|solve_boots|cbn; lia|cbn; lia|].
  vm_compute. left. reflexivity.
Defined.

Definition rollback_ops : list call := map (pair "boot-1"%string)
  [ ODeclare "tushare" "w1" (Aware 0) (Aware 100) 10;
    OBegin "tushare" "a" "try-1" 6 (Aware 20) (Aware 30) 7;
    OMark "try-1" (Aware 10) 8;
    OBegin "tushare" "bb" "try-2" 4 (Aware 50) (Aware 60) 9;
    OComplete "try-1" FAILURE (Aware 5) 10;
    OComplete "try-2" SUCCESS (Aware 90) 11 ].

Lemma attempts_never_overspend_witness :
  window_used (runs demo_sha rollback_ops empty_store) demo_window = 10
  /\ window_used (runs demo_sha rollback_ops empty_store) demo_window
     + window_reserved (runs demo_sha rollback_ops empty_store) 0 demo_window
     <= w_total_units demo_window.
Proof.
  split; [vm_compute; reflexivity|].
  apply (attempts_never_overspend demo_sha rollback_ops 0 demo_window);
    [exact demo_sha_hex|solve_boots|reflexivity|].
  vm_compute. left. reflexivity.
Defined.

(** the hypothesis on the clock is needed for plain leases: [consume] trusts the caller's
    clock, so a lease that expired, whose units were granted again, can still be consumed
    after the clock goes back, and the window ends up spent twice over. *)
Example lease_rollback_overspends :
  let lid own granted expires := demo_sha {| id_source := "tushare"; id_owner := own; id_units := 10;
    id_granted_at := granted; id_expires_at := expires; id_quota_reset_at := 100 |} in
  let ops := map (pair "boot-1"%string) [ ODeclare "tushare" "w1" (Aware 0) (Aware 100) 10;
    OAcquire "tushare" "a" 10 (Aware 0) (Aware 5);
    OAcquire "tushare" "bb" 10 (Aware 6) (Aware 50);
    OConsume (lid "bb"%string 6 50) "use-1" 10 (Aware 6);
    OConsume (lid "a"%string 0 5) "use-2" 10 (Aware 4) ] in
  let s := runs demo_sha ops empty_store in
  In demo_window (windows s) /\ w_total_units demo_window = 10 /\ window_used s demo_window = 20.
Proof. vm_compute. split; [left; reflexivity|split; reflexivity]. Qed.

(** ** Reading the remaining units *)

Lemma latest_window_total ws w : In w ws -> exists w', latest_window ws = Some w'.
Proof.
  unfold latest_window. intros H.
  assert (forall l b, exists w', fold_left (fun best w => match best with
      | Some b => if w_starts_at b <? w_starts_at w then Some w else best
      | None => Some w end) l (Some b) = Some w') as Hs.
  { clear. induction l as [|x l IH]; intros b; cbn; [eauto|]. destruct (_ <? _); apply IH. }
  destruct ws as [|x ws]; [done|]. cbn. apply Hs.
Qed.

(** The windows of a source do not overlap, so the active one is unique. *)
Lemma active_window_unique sha s w now : Inv sha s -> In w (windows s) ->
  w_starts_at w <= now < w_resets_at w -> active_window s (w_source w) now = Ok w.
Proof.
  intros I Hw Ht.
  assert (In w (select (is_active (w_source w) now) (windows s))) as Hs.
  { unfold select. apply filter_In. split; [done|]. unfold is_active.
    rewrite eqs_refl. rewrite (proj2 (Z.leb_le _ _)), (proj2 (Z.ltb_lt _ _)) by lia. done. }
  destruct (latest_window_total _ _ Hs) as [w' Hl].
  assert (active_window s (w_source w) now = Ok w') as Ha by (unfold active_window; by rewrite Hl).
  rewrite Ha. f_equal. apply active_window_In in Ha as (Hw' & Hsrc & Ht').
  destruct (decide (w_window_id w' = w_window_id w)) as [E|E].
  - apply (NoDup_key_eq window_key (windows s)); [apply I|done|done|]. unfold window_key. congruence.
  - destruct (inv_disjoint sha s I w' w Hw' Hw Hsrc E); lia.
Qed.

Lemma no_active_window s src now :
  (forall w, In w (windows s) -> w_source w = src -> ~ w_starts_at w <= now < w_resets_at w) ->
  active_window s src now =
    Err (Raise SourceQuotaExhaustedError ("no active window for source " +:+ src)).
Proof.
  intros H. unfold active_window. destruct (latest_window _) as [w|] eqn:E; [|done]. exfalso.
  apply latest_window_In in E. unfold select in E. apply filter_In in E as [Hin Ha].
  unfold is_active in Ha. str_hyps. bool_hyps. by eapply H.
Qed.

Lemma lease_reserved_nonneg sha s now l : Inv sha s -> In l (leases s) -> 0 <= lease_reserved s now l.
Proof.
  intros I Hl. pose proof (wl_used _ _ _ _ (inv_leases sha s I l Hl)). unfold lease_reserved.
  destruct (l_released_at l); [lia|]. destruct (_ || _); lia.
Qed.

Lemma window_parts_nonneg sha s now w : Inv sha s ->
  0 <= window_used s w /\ 0 <= window_reserved s now w.
Proof.
  intros I. split; apply sumZ_nonneg; intros l Hl; destruct (in_w w l); try lia.
  - by apply (wl_used _ _ _ _ (inv_leases sha s I l Hl)).
  - by apply (lease_reserved_nonneg sha).
Qed.

(** In a ledger that is not over-reserved the 64-bit sums never overflow. *)
Lemma remaining_in_window_total sha s w now : Inv sha s -> load_ok now s -> In w (windows s) ->
  remaining_in_window s w now = Ok (w_total_units w - window_used s w - window_reserved s now w)
  /\ window_used s w + window_reserved s now w <= w_total_units w.
Proof.
  intros I L Hw. specialize (L w Hw). rewrite window_load_split in L.
  destruct (window_parts_nonneg sha s now w I) as [Hu Hr].
  pose proof (ww_total _ (inv_windows sha s I w Hw)) as Ht.
  split; [|done]. unfold remaining_in_window.
  assert (forall f, sumZ (fun z => z) (map f (select (in_window (w_source w) (w_window_id w)) (leases s)))
    = sumZ (fun l => if in_w w l then f l else 0) (leases s)) as Hsum.
  { intros f. unfold select. rewrite sumZ_map, sumZ_filter. done. }
  rewrite !sql_sum_snoc_ok; cbn [rbind]; rewrite ?Hsum; try done.
  2, 4: fold (window_used s w) (window_reserved s now w); lia.
  all: intros z (l & <- & Hl)%in_map_iff; unfold select in Hl; apply filter_In in Hl as [Hl _].
  - by apply (lease_reserved_nonneg sha).
  - by apply (wl_used _ _ _ _ (inv_leases sha s I l Hl)).
Qed.

(** A lease still holds its units: it is not released, and has not expired or an attempt on it is pending. *)
Definition holds (s : store) (now : Z) (l : quota_lease) : Prop :=
  l_released_at l = None
  /\ (now < l_expires_at l \/ Exists (fun a => a_lease_id a = l_lease_id l /\ a_outcome a = PENDING) (attempts s)).
#[export] Instance holds_dec s now l : Decision (holds s now l).
Proof. unfold holds. apply _. Defined.

(** What is left of a window: each of its leases takes all its units while it holds them, and what was used of
    them afterwards. *)
Definition units_left (s : store) (now : Z) (w : quota_window) : Z :=
  w_total_units w - sumZ (fun l =>
    if bool_decide (l_source l = w_source w /\ l_window_id l = w_window_id w)
    then (if bool_decide (holds s now l) then l_units l else l_used_units l) else 0) (leases s).

Lemma pending_exists s lid : exists_row (pending_on lid) (attempts s)
  = bool_decide (Exists (fun a => a_lease_id a = lid /\ a_outcome a = PENDING) (attempts s)).
Proof.
  apply eq_bool_prop_intro. rewrite bool_decide_spec. unfold exists_row, pending_on, attempt_on, is_pending, eqs.
  split; intros Hx.
  - apply Is_true_true, existsb_exists in Hx as (a & Ha & Hp). apply andb_true_iff in Hp as [H1 H2].
    apply List.Exists_exists. exists a. split; [done|]. split; by eapply bool_decide_eq_true_1.
  - apply Is_true_true, existsb_exists. apply List.Exists_exists in Hx as (a & Ha & H1 & H2). exists a. split; [done|].
    by rewrite H1, H2, !bool_decide_eq_true_2.
Qed.

Lemma units_left_eq s now w : units_left s now w = w_total_units w - window_used s w - window_reserved s now w.
Proof.
  unfold units_left, window_used, window_reserved. enough (forall f g ls,
    sumZ (fun l => if in_w w l then f l + g l else 0) ls
    = sumZ (fun l => if in_w w l then f l else 0) ls + sumZ (fun l => if in_w w l then g l else 0) ls) as Hs.
  - rewrite <- Z.sub_add_distr, <- Hs. f_equal. apply sumZ_ext. intros l _.
    assert (in_w w l = bool_decide (l_source l = w_source w /\ l_window_id l = w_window_id w)) as ->.
    { unfold in_w, in_window, eqs. by rewrite bool_decide_and. }
    case_bool_decide; [|done]. unfold lease_reserved. rewrite pending_exists.
    destruct (l_released_at l) eqn:Er; [rewrite (bool_decide_eq_false_2 (holds s now l)) by (intros [? _]; congruence); lia|].
    destruct (Z.ltb_spec now (l_expires_at l)); cbn [orb]; [rewrite (bool_decide_eq_true_2 (holds s now l)) by (split; auto); lia|].
    destruct (bool_decide (Exists _ _)) eqn:E; bool_hyps; [rewrite (bool_decide_eq_true_2 (holds s now l)) by (split; auto); lia|].
    rewrite (bool_decide_eq_false_2 (holds s now l)); [lia|]. intros [_ [?|?]]; [lia|done].
  - intros f g. induction ls as [|l ls IH]; [done|]. rewrite !sumZ_cons, IH. destruct (in_w w l); lia.
Qed.

(** C37: after any sequence of calls whose clock does not go back, [remaining] answers exactly:
    in the one window that contains [now] it returns the total less what its leases have used and less
    all the units of those that still hold them (not released, and not expired or with a pending
    attempt), a number that is never negative and whose computation does not overflow SQLite's
    64-bit sums; with no such window it raises [SourceQuotaExhaustedError].  It writes nothing. *)
Theorem remaining_is_exact sha ops c now src :
  (forall i, is_hex64 (sha i) = true) -> boots_ok ops ->
  clock_from c ops -> last_time c ops <= now -> in_range now = true ->
  let s := runs sha ops empty_store in
  (forall w, In w (windows s) -> w_source w = src -> w_starts_at w <= now < w_resets_at w ->
     remaining src (Aware now) s = (s, Ok (units_left s now w)) /\ 0 <= units_left s now w)
  /\ ((forall w, In w (windows s) -> w_source w = src -> ~ w_starts_at w <= now < w_resets_at w) ->
      remaining src (Aware now) s = (s,
        Err (Raise SourceQuotaExhaustedError ("no active window for source " +:+ src)))).
Proof.
  intros Hx Hb Hc Hn Hr s.
  assert (Inv sha s) as I by (apply runs_Inv; auto with rq).
  assert (load_ok now s) as L.
  { eapply load_ok_later; [done|exact Hn|].
    apply runs_load; auto using load_ok_empty, times_ok_empty with rq. }
  unfold remaining. rewrite (proj2 (normalize_aware_utc_ok _ _) (conj eq_refl Hr)). cbn [rbind].
  split.
  - intros w Hw <- Ht. rewrite units_left_eq, (active_window_unique sha s w now I Hw Ht). cbn [rbind].
    destruct (remaining_in_window_total sha s w now I L Hw) as [-> Hle]. split; [done|lia].
  - intros Hno. by rewrite no_active_window.
Qed.

Lemma remaining_is_exact_witness :
  let s := runs demo_sha demo_ops empty_store in
  remaining "tushare" (Aware 4) s = (s, Ok 0) /\ remaining "tushare" (Aware 5) s = (s, Ok 4).
Proof.
  split.
  - destruct (remaining_is_exact demo_sha demo_ops 0 4 "tushare") as [H _];
      [exact demo_sha_hex|solve_boots|cbn; lia|cbn; lia|reflexivity|].
    destruct (H demo_window) as [E _]; [vm_compute; left; reflexivity|reflexivity|cbn; lia|].
    exact E.
  - vm_compute. reflexivity.
Defined.

(** ** Completing attempts *)

Definition attempt_usage (aid : string) : string := "attempt:" +:+ aid.

(** The store after the pending attempt [row] on lease [l] is completed at [at_]. *)
Definition completed_store (s : store) (row : quota_attempt) (o : SourceQuotaAttemptOutcome)
    (at_ ns rb : Z) : store :=
  {| windows := windows s;
     leases := update (is_lease (a_lease_id row))
                 (fun l => set_released at_ (set_used (a_units row) l)) (leases s);
     usages := usages s ++ [{| u_usage_id := attempt_usage (a_attempt_id row);
                               u_lease_id := a_lease_id row; u_units := a_units row;
                               u_consumed_at := at_ |}];
     attempts := update (is_attempt (a_attempt_id row)) (set_outcome o at_ ns rb) (attempts s);
     transports := transports s; clocks := clocks s |}.

Lemma insert_usage_total u s :
  0 < u_units u <= int64_max -> (forall u0, In u0 (usages s) -> u_usage_id u0 <> u_usage_id u) ->
  (exists l, In l (leases s) /\ l_lease_id l = u_lease_id u) ->
  insert_usage u s = Ok (with_usages s (usages s ++ [u])).
Proof.
  intros Hu Hf (l & Hl & Hid). unfold insert_usage, sql_int, in_int64.
  rewrite (proj2 (Z.leb_le _ _)), (proj2 (Z.leb_le _ _)), (proj2 (Z.ltb_lt _ _)) by lia.
  cbn [andb negb]. rewrite (proj2 (exists_row_false _ _)).
  - assert (exists_row (is_lease (u_lease_id u)) (leases s) = true) as ->; [|done].
    apply existsb_exists. exists l. split; [done|]. by apply eqs_true.
  - intros u0 H0. by apply eqs_false, Hf.
Qed.

Section Completion.
Context (sha : LeaseIdentity -> string) (sha_hex : forall i, is_hex64 (sha i) = true).

Lemma complete_attempt_store s row o t ns :
  Inv sha s -> In row (attempts s) -> a_outcome row = PENDING -> o <> PENDING ->
  in_range t = true -> 0 <= ns <= int64_max ->
  (forall u, In u (usages s) -> u_usage_id u <> attempt_usage (a_attempt_id row)) ->
  let s' := completed_store s row o (Z.max t (coalesce_dispatched row)) ns
              (if t <? coalesce_dispatched row then 1 else 0) in
  complete_attempt (a_attempt_id row) o (Aware t) ns s = (s', reread_attempt (a_attempt_id row) s').
Proof.
  intros I Hin Hp Ho Ht Hns Hfresh s'. unfold complete_attempt.
  rewrite bool_decide_eq_false_2 by done.
  rewrite (proj2 (normalize_aware_utc_ok _ _) (conj eq_refl Ht)). cbn [rbind].
  rewrite (proj2 (Z.ltb_ge ns 0)) by lia.
  rewrite (fetchone_key a_attempt_id _ _ is_attempt) by (done || apply I).
  rewrite (attempt_row_valid sha sha_hex s row I Hin). cbn [rbind].
  unfold is_pending. rewrite bool_decide_eq_true_2 by done. cbn [negb].
  destruct (inv_attempts sha s I row Hin)
    as [(l & Hl & Hid & _ & _ & Hu & _ & Hpend & _) _ _ _ _].
  destruct (Hpend Hp) as [Hused Hrel]. rewrite <- Hid.
  rewrite (fetchone_key l_lease_id _ _ is_lease) by (done || apply I).
  rewrite Hrel, bool_decide_eq_false_2 by (intros [? ?]; done).
  rewrite (proj2 (Z.ltb_ge _ _)) by lia.
  pose proof (wl_units _ _ _ _ (inv_leases sha s I l Hl)) as Hlu.
  rewrite insert_usage_total; [|cbn; lia|by cbn|].
  - cbn [rbind]. unfold sql_int, in_int64.
    rewrite (proj2 (Z.leb_le _ _)), (proj2 (Z.leb_le _ _)) by (unfold int64_max in *; lia).
    cbn. rewrite update_update by done. rewrite Hid. done.
  - exists (set_used (a_units row) l). cbn. rewrite In_update_lease. split; [|done]. exists l. auto.
Qed.

Lemma complete_attempt_pending s row o t ns :
  Inv sha s -> In row (attempts s) -> a_outcome row = PENDING -> o <> PENDING ->
  in_range t = true -> 0 <= ns <= int64_max ->
  (forall u, In u (usages s) -> u_usage_id u <> attempt_usage (a_attempt_id row)) ->
  let at_ := Z.max t (coalesce_dispatched row) in
  let rb := if t <? coalesce_dispatched row then 1 else 0 in
  complete_attempt (a_attempt_id row) o (Aware t) ns s
    = (completed_store s row o at_ ns rb, Ok (set_outcome o at_ ns rb row))
  /\ Inv sha (completed_store s row o at_ ns rb).
Proof.
  intros I Hin Hp Ho Ht Hns Hfresh at_ rb.
  pose proof (complete_attempt_store s row o t ns I Hin Hp Ho Ht Hns Hfresh) as Hc.
  pose proof (complete_attempt_steps sha "boot" true sha_hex (a_attempt_id row) o t ns s I) as Hst.
  fold at_ rb in Hc. rewrite Hc in Hst |- *. cbn [fst] in Hst.
  assert (Inv sha (completed_store s row o at_ ns rb)) as I' by (by eapply Inv_steps; [..|done]).
  split; [|done]. f_equal. unfold reread_attempt. cbn.
  rewrite fetchone_update by (intros r; case_goal; done).
  rewrite (fetchone_key a_attempt_id _ _ is_attempt) by (done || apply I). cbn.
  unfold is_attempt. rewrite eqs_refl.
  apply (attempt_row_valid sha sha_hex _ _ I'). cbn. apply In_update_attempt. eauto.
Qed.
End Completion.

(** Without plain leases, only completions record usages. *)
Definition usages_final (s : store) : Prop := forall u, In u (usages s) ->
  exists a, In a (attempts s) /\ u_usage_id u = attempt_usage (a_attempt_id a)
            /\ a_outcome a <> PENDING.

Lemma attempt_usage_inj a b : attempt_usage a = attempt_usage b -> a = b.
Proof. unfold attempt_usage. apply (inj (String.append "attempt:")). Qed.

Section UsagesFinal.
Context (sha : LeaseIdentity -> string) (boot : string).

Lemma usages_final_step now s s' : Inv sha s -> backed s -> usages_final s ->
  step sha boot false now s s' -> usages_final s'.
Proof.
  intros I B U Hst. destruct Hst as [w s' Hi _ _|w l rem s' Hg _ _ _ _ Hi
    |w l a rem s1 s' _ _ _ _ Hl Ha _ Hi|s' Heq Hcl|row ns rb Hin _ _ _ _
    |row l o ns rb s2 Hrow Hp Ho _ _ _ _ _ _ Hi|l uid u s2 Hl _ _ Hna _ Hi|l _ _ _ _].
  - apply insert_window_ok in Hi as (-> & _). done.
  - done.
  - apply insert_lease_ok in Hl as (-> & _). apply insert_attempt_ok in Hi as (-> & _).
    intros u Hu. destruct (U u Hu) as (a0 & ? & ?). exists a0. cbn. rewrite In_snoc. auto.
  - destruct Heq as (_ & _ & Hus & Has). intros u. rewrite Hus, Has. apply U.
  - intros u Hu. destruct (U u Hu) as (a & Ha & Hid & Hf). cbn.
    exists (if is_attempt (a_attempt_id row) a
            then set_dispatched (now `max` a_prepared_at row) ns rb a else a).
    split; [apply In_update; eauto|]. by case_goal.
  - apply insert_usage_ok in Hi as (-> & _). intros u [Hu| ->]%In_snoc; cbn.
    + destruct (U u Hu) as (a & Ha & Hid & Hf). exists a. split; [|done].
      apply In_update_attempt. exists a. split; [done|]. right. split; [|done].
      intros E. apply Hf. rewrite <- Hp. f_equal.
      by apply (NoDup_key_eq a_attempt_id (attempts s)); [apply I|..].
    + eexists. split; [apply In_update_attempt; exists row; split; [done|]; by left|done].
  - destruct (B l Hl) as (a & Ha & Hid). by destruct (Hna a Ha).
  - done.
Qed.

Lemma usages_final_steps now s s' : strip boot = boot -> nonempty boot = true ->
  Inv sha s -> backed s -> usages_final s -> steps sha boot false now s s' -> usages_final s'.
Proof.
  intros Hb1 Hb2 I B U H. induction H as [|s s1 s2 H12 _ IH]; [done|]. apply IH.
  - by eapply Inv_step.
  - by eapply backed_step.
  - by eapply usages_final_step.
Qed.
End UsagesFinal.

(** What holds of every database that was only written through attempts. *)
Record attempt_only (sha : LeaseIdentity -> string) (s : store) : Prop := {
  ao_inv : Inv sha s;
  ao_backed : backed s;
  ao_usages : usages_final s
}.

Lemma runs_attempt_only sha ops s : (forall i, is_hex64 (sha i) = true) -> boots_ok ops ->
  existsb (fun c => is_acquire (snd c)) ops = false -> attempt_only sha s ->
  attempt_only sha (runs sha ops s).
Proof.
  intros Hx Hb. revert s. induction Hb as [|[b o] ops [Hb1 Hb2] _ IH]; intros s Ho A; [done|].
  cbn in *. apply orb_false_iff in Ho as [Ho Hos]. apply IH; [done|].
  pose proof (run_steps sha b Hx Hb1 Hb2 0 o s (ao_inv _ _ A)) as Hs. rewrite Ho in Hs.
  destruct A as [I B U]. constructor.
  - by apply run_Inv.
  - by eapply backed_steps.
  - by eapply usages_final_steps.
Qed.

Lemma attempt_only_empty sha : attempt_only sha empty_store.
Proof. constructor; auto using backed_empty with rq. by intros u []. Qed.

Lemma attempt_only_fresh sha s row : attempt_only sha s -> In row (attempts s) ->
  a_outcome row = PENDING ->
  forall u, In u (usages s) -> u_usage_id u <> attempt_usage (a_attempt_id row).
Proof.
  intros A Hin Hp u Hu He. destruct (ao_usages _ _ A u Hu) as (a & Ha & Hid & Hf).
  apply Hf. rewrite <- Hp. f_equal. apply (NoDup_key_eq a_attempt_id (attempts s)).
  - apply A.
  - done.
  - done.
  - apply attempt_usage_inj. congruence.
Qed.

Section Recovery.
Context (sha : LeaseIdentity -> string) (sha_hex : forall i, is_hex64 (sha i) = true).

(** A completed attempt answers every later completion without writing. *)
Lemma complete_attempt_final s row o t ns :
  Inv sha s -> In row (attempts s) -> a_outcome row <> PENDING -> o <> PENDING ->
  in_range t = true -> 0 <= ns ->
  complete_attempt (a_attempt_id row) o (Aware t) ns s
  = (s, if decide (a_outcome row = o) then Ok row
        else Err (Raise SourceQuotaConflictError "quota attempt completion conflicts")).
Proof.
  intros I Hin Hp Ho Ht Hns. unfold complete_attempt.
  rewrite bool_decide_eq_false_2 by done.
  rewrite (proj2 (normalize_aware_utc_ok _ _) (conj eq_refl Ht)). cbn [rbind].
  rewrite (proj2 (Z.ltb_ge ns 0)) by lia.
  rewrite (fetchone_key a_attempt_id _ _ is_attempt) by (done || apply I).
  rewrite (attempt_row_valid sha sha_hex s row I Hin). cbn [rbind].
  unfold is_pending. rewrite bool_decide_eq_false_2 by done. cbn [negb].
  destruct (decide (a_outcome row = o)).
  - by rewrite bool_decide_eq_true_2.
  - by rewrite bool_decide_eq_false_2.
Qed.

Lemma attempt_only_complete s row o at_ ns rb : attempt_only sha s -> In row (attempts s) ->
  a_outcome row = PENDING -> o <> PENDING ->
  Inv sha (completed_store s row o at_ ns rb) -> attempt_only sha (completed_store s row o at_ ns rb).
Proof.
  intros [I B U] Hin Hp Ho I'. constructor; [done| |].
  - eapply (backed_update_attempt (with_leases s _)); [|reflexivity|reflexivity|done].
    by eapply backed_update_lease.
  - intros u [Hu| ->]%In_snoc; cbn.
    + destruct (U u Hu) as (a & Ha & Hid & Hf). exists a. split; [|done].
      apply In_update_attempt. exists a. split; [done|]. right. split; [|done].
      intros E. apply Hf. rewrite <- Hp. f_equal.
      by apply (NoDup_key_eq a_attempt_id (attempts s)); [apply I|..].
    + eexists. split; [apply In_update_attempt; exists row; split; [done|]; by left|done].
Qed.

Lemma get_attempt_row s row : Inv sha s -> In row (attempts s) ->
  get_attempt (a_attempt_id row) s = (s, Ok (Some row)).
Proof.
  intros I Hin. destruct (wa_id _ _ (inv_attempts sha s I row Hin)) as [Hs Hn].
  unfold get_attempt. rewrite Hs, Hn. cbn [negb].
  rewrite (fetchone_key a_attempt_id _ _ is_attempt) by (done || apply I).
  by rewrite (attempt_row_valid sha sha_hex s row I Hin).
Qed.

(** Row [a'] is what recovering the identifiers [ids] makes of row [a]. *)
Definition recovered (ids : list string) (a a' : quota_attempt) : Prop :=
  a_attempt_id a' = a_attempt_id a /\ a_source a' = a_source a
  /\ (In (a_attempt_id a) ids -> a_outcome a' = UNKNOWN)
  /\ (~ In (a_attempt_id a) ids -> a' = a).

Lemma recover_each_all ids t ns_of s :
  in_range t = true -> (forall aid, 0 <= ns_of aid <= int64_max) -> attempt_only sha s ->
  List.NoDup ids ->
  (forall aid, In aid ids -> exists row, In row (attempts s) /\ a_attempt_id row = aid
                                        /\ a_outcome row = PENDING) ->
  exists s' out, recover_each ids (Aware t) ns_of s = (s', Ok out)
    /\ map a_attempt_id out = ids /\ Forall (fun a => a_outcome a = UNKNOWN) out
    /\ attempt_only sha s' /\ Forall2 (recovered ids) (attempts s) (attempts s').
Proof.
  intros Ht Hns. revert s. induction ids as [|aid ids IH]; intros s A Hnd Hrows.
  - exists s, []. split_and!; [done|done|constructor|done|].
    apply Forall_Forall2_diag, Forall_forall. intros a _. by split_and!.
  - inversion_clear Hnd as [|? ? Hnin Hnd'].
    destruct (Hrows aid (or_introl eq_refl)) as (row & Hin & <- & Hp).
    cbn [recover_each]. rewrite (get_attempt_row s row (ao_inv _ _ A) Hin).
    unfold is_pending. rewrite bool_decide_eq_true_2 by done. cbn [negb]. unfold recover_attempt.
    edestruct (complete_attempt_pending sha sha_hex s row UNKNOWN t (ns_of (a_attempt_id row)))
      as [-> I']; [apply A|done|done|done|done|done|by eapply attempt_only_fresh|].
    set (s1 := completed_store _ _ _ _ _ _) in *.
    assert (attempt_only sha s1) as A1 by (by apply attempt_only_complete).
    destruct (IH s1) as (s' & out & -> & Hids & Hout & A' & Hrec); [done|done| |].
    { intros aid Haid. destruct (Hrows aid (or_intror Haid)) as (a & Ha & <- & Hpa).
      exists a. split_and!; try done. cbn. apply In_update_attempt. exists a. split; [done|].
      right. split; [|done]. congruence. }
    exists s', (set_outcome UNKNOWN (t `max` coalesce_dispatched row) (ns_of (a_attempt_id row))
      (if t <? coalesce_dispatched row then 1 else 0) row :: out).
    split_and!; [done|cbn; by f_equal|by constructor|done|].
    cbn in Hrec. apply Forall2_update_l in Hrec. eapply Forall2_impl; [exact Hrec|].
    intros a a' (Hi & Hs & Hyes & Hno). cbn in *.
    destruct (is_attempt (a_attempt_id row) a) eqn:E; unfold is_attempt in E; str_hyps; cbn in *.
    + split_and!; [done|done| |intros []; by left].
      intros _. destruct (in_dec String.string_dec (a_attempt_id a) ids); [auto|].
      by rewrite Hno.
    + split_and!; [done|done|intros [?|?]; [congruence|auto]|]. intros Hnot. apply Hno.
      intros ?. apply Hnot. by right.
Qed.
End Recovery.

(** ** What completion and recovery promise *)

(** The pending attempts of a source in the order recovery visits them. *)
Definition stale_rows (src : string) (s : store) : list quota_attempt :=
  by_prepared (select (fun a => eqs (a_source a) src && is_pending a) (attempts s)).

Lemma stale_eligible_foreign boot now_ns min_ns mx rows found :
  (forall a, In a rows -> a_boot_id a <> boot) -> found < mx ->
  stale_eligible boot now_ns min_ns mx found rows
  = map a_attempt_id (take (Z.to_nat (mx - found)) rows).
Proof.
  revert found. induction rows as [|a rows IH]; intros found Hf Hlt; cbn; [by rewrite take_nil|].
  rewrite (proj2 (eqs_false _ _)) by (apply Hf; by left). cbn [negb].
  replace (Z.to_nat (mx - found)) with (S (Z.to_nat (mx - (found + 1)))) by lia. cbn. f_equal.
  destruct (Z.eqb_spec (found + 1) mx) as [->|Hne].
  - by rewrite Z.sub_diag.
  - apply IH; [|lia]. intros b Hb. apply Hf. by right.
Qed.

Lemma by_prepared_perm rows : Permutation (by_prepared rows) rows.
Proof. apply merge_sort_Permutation. Qed.

Lemma stale_rows_In src s a : In a (stale_rows src s) <->
  In a (attempts s) /\ a_source a = src /\ a_outcome a = PENDING.
Proof.
  unfold stale_rows.
  assert (forall l, In a (by_prepared l) <-> In a l) as ->.
  { intros l. split; apply Permutation_in; [|symmetry]; apply by_prepared_perm. }
  unfold select. rewrite filter_In, andb_true_iff, eqs_true.
  unfold is_pending. rewrite bool_decide_eq_true. done.
Qed.

Lemma stale_rows_NoDup sha src s : Inv sha s -> List.NoDup (map a_attempt_id (stale_rows src s)).
Proof.
  intros I. unfold stale_rows. eapply Permutation_NoDup.
  - symmetry. apply Permutation_map, by_prepared_perm.
  - pose proof (inv_attempt_keys sha s I) as Hnd. unfold select. induction (attempts s) as [|a l IH]; cbn in *; [done|].
    inversion_clear Hnd as [|? ? Hni Hnd']. destruct (_ && _); [|auto]. cbn. constructor; [|auto].
    intros (b & Hb & [Hin _]%filter_In)%in_map_iff. apply Hni. rewrite <- Hb. by apply in_map.
Qed.

Lemma In_take {A} n (l : list A) x : In x (take n l) -> In x l.
Proof. intros H. rewrite <- (take_drop n l). apply in_app_iff. by left. Qed.

Lemma recover_stale_all sha boot src t age mx ns ns_of s :
  (forall i, is_hex64 (sha i) = true) -> attempt_only sha s -> nonempty (strip src) = true ->
  0 <= age -> 1 <= mx -> 0 <= ns -> in_range t = true -> (forall aid, 0 <= ns_of aid <= int64_max) ->
  (forall a, In a (stale_rows (strip src) s) -> a_boot_id a <> boot) ->
  exists s' out,
    recover_stale_attempts boot src (Aware t) age mx ns ns_of s = (s', Ok out)
    /\ map a_attempt_id out = map a_attempt_id (take (Z.to_nat mx) (stale_rows (strip src) s))
    /\ Forall (fun a => a_outcome a = UNKNOWN) out
    /\ Forall2 (recovered (map a_attempt_id out)) (attempts s) (attempts s').
Proof.
  intros Hx A Hsrc Hage Hmx Hns Ht Hof Hboot. unfold recover_stale_attempts. rewrite Hsrc. cbn [negb].
  rewrite !(proj2 (Z.ltb_ge _ _)) by lia.
  fold (stale_rows (strip src) s). rewrite stale_eligible_foreign by (done || lia).
  rewrite Z.sub_0_r. set (ids := map a_attempt_id _).
  edestruct (recover_each_all sha Hx ids t ns_of s)
    as (s' & out & Hrun & Hids & Hout & _ & Hrec); [done|done|done| | |].
  - subst ids. rewrite <- firstn_map.
    pose proof (stale_rows_NoDup sha (strip src) s (ao_inv _ _ A)) as Hnd.
    rewrite <- (firstn_skipn (Z.to_nat mx)) in Hnd. by apply NoDup_app_remove_r in Hnd.
  - intros aid (a & <- & Ha)%in_map_iff. apply In_take, stale_rows_In in Ha as (? & ? & ?). eauto.
  - exists s', out. rewrite Hids. by split_and!.
Qed.

(** C38: a pending attempt can always be completed, and only once.  In any database written
    through attempts, completing a pending attempt with a final outcome succeeds: the attempt gets
    that outcome, exactly one usage row charges its lease in full and the lease is released.
    Completing it again with the same outcome returns the same record and writes nothing; with
    another outcome it raises [SourceQuotaConflictError] and writes nothing. *)
Theorem attempt_completes_once sha ops row o o' t t' ns ns' :
  (forall i, is_hex64 (sha i) = true) -> boots_ok ops ->
  existsb (fun c => is_acquire (snd c)) ops = false ->
  let s := runs sha ops empty_store in
  In row (attempts s) -> a_outcome row = PENDING -> o <> PENDING -> o' <> PENDING ->
  in_range t = true -> in_range t' = true -> 0 <= ns <= int64_max -> 0 <= ns' ->
  exists s' a', complete_attempt (a_attempt_id row) o (Aware t) ns s = (s', Ok a')
    /\ a_attempt_id a' = a_attempt_id row /\ a_outcome a' = o
    /\ (exists u, usages s' = usages s ++ [u] /\ u_lease_id u = a_lease_id row /\ u_units u = a_units row)
    /\ (forall l, In l (leases s') -> l_lease_id l = a_lease_id row ->
          l_used_units l = l_units l /\ is_Some (l_released_at l))
    /\ complete_attempt (a_attempt_id row) o' (Aware t') ns' s'
       = (s', if decide (o = o') then Ok a'
              else Err (Raise SourceQuotaConflictError "quota attempt completion conflicts")).
Proof.
  intros Hx Hb Ho s Hin Hp Hf Hf' Ht Ht' Hns Hns'.
  assert (attempt_only sha s) as A
    by (apply runs_attempt_only; auto using attempt_only_empty).
  destruct (complete_attempt_pending sha Hx s row o t ns) as [-> I'];
    [apply A|done..|by eapply attempt_only_fresh|].
  set (a' := set_outcome _ _ _ _ row) in *. set (s' := completed_store _ _ _ _ _ _) in *.
  assert (In a' (attempts s')) as Ha' by (cbn; apply In_update_attempt; eauto).
  exists s', a'. split_and!; try done.
  - eexists. split; [reflexivity|done].
  - intros l (l0 & Hl0 & [[Hid ->]|[Hid ->]])%In_update_lease He; [|done]. cbn in *.
    destruct (inv_attempts sha s (ao_inv _ _ A) row Hin)
      as [(l & Hl & Hidl & _ & _ & Hu & _ & Hpend & _) _ _ _ _].
    assert (l0 = l) as ->
      by (apply (NoDup_key_eq l_lease_id (leases s)); [apply A|done|done|congruence]).
    destruct (Hpend Hp) as [-> _]. split; [lia|eauto].
  - change (a_attempt_id row) with (a_attempt_id a'). by apply (complete_attempt_final sha).
Qed.

Lemma attempt_completes_once_witness :
  let s := runs demo_sha (firstn 4 rollback_ops) empty_store in
  exists row s' a', In row (attempts s) /\ a_attempt_id row = "try-2"%string
  /\ complete_attempt "try-2" SUCCESS (Aware 90) 11 s = (s', Ok a') /\ a_outcome a' = SUCCESS
  /\ complete_attempt "try-2" UNKNOWN (Aware 91) 12 s'
     = (s', Err (Raise SourceQuotaConflictError "quota attempt completion conflicts")).
Proof.
  intros s. destruct (nth_error (attempts s) 1) as [row|] eqn:E; [|vm_compute in E; discriminate].
  assert (a_attempt_id row = "try-2"%string /\ a_outcome row = PENDING) as [Hid Hp].
  { vm_compute in E. injection E as <-. split; reflexivity. }
  destruct (attempt_completes_once demo_sha (firstn 4 rollback_ops) row SUCCESS UNKNOWN 90 91 11 12)
    as (s' & a' & H1 & _ & H2 & _ & _ & H3);
    [exact demo_sha_hex|solve_boots|reflexivity|by eapply nth_error_In|exact Hp|discriminate|discriminate
    |reflexivity|reflexivity|unfold int64_max; lia|lia|].
  rewrite Hid in H1, H3. exists row, s', a'.
  split; [by eapply nth_error_In|]. by split_and!.
Defined.

(** C33: crash recovery of a database whose units were reserved through attempts only (no plain
    [acquire] was ever called, as its owner may consume under any usage id).  After a restart (the pending attempts of the source carry other boot
    ids), [recover_stale_attempts] returns: it completes as [UNKNOWN] the oldest [max_count]
    pending attempts of the source, in preparation order, leaves every other attempt alone, and
    when [max_count] is at least the number of pending attempts none of the source is left pending. *)
Theorem restart_recovers_pending sha ops boot src t age mx ns ns_of :
  (forall i, is_hex64 (sha i) = true) -> boots_ok ops ->
  existsb (fun c => is_acquire (snd c)) ops = false ->
  let s := runs sha ops empty_store in
  nonempty (strip src) = true -> 0 <= age -> 1 <= mx -> 0 <= ns -> in_range t = true ->
  (forall aid, 0 <= ns_of aid <= int64_max) ->
  (forall a, In a (stale_rows (strip src) s) -> a_boot_id a <> boot) ->
  exists s' out,
    recover_stale_attempts boot src (Aware t) age mx ns ns_of s = (s', Ok out)
    /\ map a_attempt_id out = map a_attempt_id (take (Z.to_nat mx) (stale_rows (strip src) s))
    /\ Forall (fun a => a_outcome a = UNKNOWN) out
    /\ Forall2 (recovered (map a_attempt_id out)) (attempts s) (attempts s')
    /\ (Z.of_nat (length (stale_rows (strip src) s)) <= mx -> stale_rows (strip src) s' = []).
Proof.
  intros Hx Hb Ho s Hsrc Hage Hmx Hns Ht Hof Hboot.
  assert (attempt_only sha s) as A by (apply runs_attempt_only; auto using attempt_only_empty).
  destruct (recover_stale_all sha boot src t age mx ns ns_of s)
    as (s' & out & Hrun & Hids & Hout & Hrec); [done..|].
  exists s', out. split_and!; try done. intros Hlen.
  rewrite take_ge in Hids by lia. rewrite Hids in Hrec.
  destruct (stale_rows (strip src) s') as [|a' l] eqn:E; [done|]. exfalso.
  assert (In a' (stale_rows (strip src) s')) as (Ha' & Hs' & Hp')%stale_rows_In by (rewrite E; by left).
  apply list_elem_of_In, list_elem_of_lookup in Ha' as [i Hi].
  destruct (Forall2_lookup_r _ _ _ _ _ Hrec Hi) as (a & Ha & Hida & Hsa & Hyes & Hno).
  apply list_elem_of_lookup_2, list_elem_of_In in Ha.
  destruct (in_dec String.string_dec (a_attempt_id a) (map a_attempt_id (stale_rows (strip src) s)))
    as [Hi'|Hi']; [rewrite Hyes in Hp' by done; discriminate|].
  apply Hi'. apply in_map, stale_rows_In. rewrite <- (Hno Hi') in *. done.
Qed.

Lemma restart_recovers_pending_witness :
  let s := runs demo_sha (firstn 4 rollback_ops) empty_store in
  length (stale_rows "tushare" s) = 2%nat
  /\ exists s' out, recover_stale_attempts "boot-2" "tushare" (Aware 60) 0 5 3 (fun _ => 3) s = (s', Ok out)
     /\ map a_attempt_id out = ["try-1"; "try-2"]%string /\ stale_rows "tushare" s' = [].
Proof.
  intros s. split; [vm_compute; reflexivity|].
  assert (stale_rows "tushare" s = stale_rows (strip "tushare") s) as Es by reflexivity.
  destruct (restart_recovers_pending demo_sha (firstn 4 rollback_ops) "boot-2" "tushare" 60 0 5 3 (fun _ => 3))
    as (s' & out & H1 & H2 & _ & _ & H3);
    [exact demo_sha_hex|solve_boots|reflexivity|reflexivity|lia|lia|lia|reflexivity
    |intros; unfold int64_max; lia| |].
  - intros a Ha. vm_compute in Ha. destruct Ha as [<-|[<-|[]]]; discriminate.
  - exists s', out. split; [exact H1|]. split; [rewrite H2; vm_compute; reflexivity|].
    rewrite Es || idtac. apply H3. vm_compute. discriminate.
Defined.

(** ** What acquiring a lease promises *)

Section Acquire.
Context (sha : LeaseIdentity -> string) (sha_hex : forall i, is_hex64 (sha i) = true).

(** The lease granted for [u] units of window [w] at [now]. *)
Definition granted_lease (w : quota_window) (own : string) (u now expires : Z) : SourceQuotaLease :=
  {| lease_id := sha {| id_source := w_source w; id_owner := own; id_units := u;
                        id_granted_at := now; id_expires_at := expires;
                        id_quota_reset_at := w_resets_at w |};
     source := w_source w; owner := own; units := u; granted_at := now; expires_at := expires;
     quota_reset_at := w_resets_at w; released_at := None |}.

Lemma new_lease_total w own u now expires :
  strip (w_source w) = w_source w -> strip own = own -> nonempty (w_source w) = true ->
  nonempty own = true -> 1 <= u <= int64_max -> now < expires <= w_resets_at w ->
  new_lease sha (w_source w) own u now expires (w_resets_at w)
  = Ok (granted_lease w own u now expires).
Proof.
  intros Hs Ho Hns Hno Hu He. unfold new_lease, mk_lease, between. cbn.
  rewrite Hs, Ho, Hns, Hno. cbn.
  rewrite (proj2 (Z.leb_le 1 u)), (proj2 (Z.leb_le u _)) by (unfold MAX_RESOURCE_COUNT, int64_max in *; lia).
  rewrite (proj2 (Z.leb_gt _ _)), (proj2 (Z.ltb_ge _ _)) by lia. done.
Qed.

Lemma insert_lease_total l s : 0 < l_units l <= int64_max -> l_used_units l = 0 ->
  (forall l0, In l0 (leases s) -> l_lease_id l0 <> l_lease_id l) ->
  fetchone (is_owner (l_source l) (l_window_id l) (l_owner l)) (leases s) = None ->
  (exists w, In w (windows s) /\ w_source w = l_source l /\ w_window_id w = l_window_id l) ->
  insert_lease l s = Ok (with_leases s (leases s ++ [l])).
Proof.
  intros Hu H0 Hid Hown (w & Hw & Hs & Hi). unfold insert_lease, sql_int, in_int64. rewrite H0.
  rewrite (proj2 (Z.leb_le _ (l_units l))), (proj2 (Z.leb_le (l_units l) _)), (proj2 (Z.ltb_lt _ _))
    by lia.
  change (negb (true && true && ((- 2 ^ 63 <=? 0) && (0 <=? int64_max)))) with false.
  change (negb (true && (0 <=? 0))) with false. cbn beta iota.
  rewrite (proj2 (exists_row_false (is_lease _) _)), (proj2 (exists_row_false (is_owner _ _ _) _)).
  - assert (exists_row (is_window (l_source l) (l_window_id l)) (windows s) = true) as ->; [|done].
    apply existsb_exists. exists w. split; [done|]. unfold is_window. by rewrite Hs, Hi, !eqs_refl.
  - by apply fetchone_None.
  - intros l0 Hl0. by apply eqs_false, Hid.
Qed.

Lemma acquire_new w own u now expires s :
  Inv sha s -> load_ok now s -> In w (windows s) -> w_starts_at w <= now < w_resets_at w ->
  strip (w_source w) = w_source w -> nonempty (w_source w) = true ->
  strip own = own -> nonempty own = true -> 1 <= u ->
  in_range now = true -> in_range expires = true -> now < expires <= w_resets_at w ->
  fetchone (is_owner (w_source w) (w_window_id w) own) (leases s) = None ->
  (forall l, In l (leases s) -> l_lease_id l <> lease_id (granted_lease w own u now expires)) ->
  let rem := w_total_units w - window_used s w - window_reserved s now w in
  acquire sha (w_source w) own u (Aware now) (Aware expires) s =
    if rem <? u then (s, exhausted u rem)
    else (with_leases s (leases s ++ [lease_row (granted_lease w own u now expires) (w_window_id w)]),
          Ok (granted_lease w own u now expires)).
Proof.
  intros I L Hw Ht Hs Hns Ho Hno Hu Hrn Hre He Hown Hfr rem. unfold acquire.
  rewrite Hs, Ho, Hns, Hno, (proj2 (Z.ltb_ge u 1)) by lia. cbn [negb andb].
  rewrite (proj2 (normalize_aware_utc_ok _ _) (conj eq_refl Hrn)).
  rewrite (proj2 (normalize_aware_utc_ok _ _) (conj eq_refl Hre)). cbn [rbind].
  rewrite (active_window_unique sha s w now I Hw Ht). cbn [rbind].
  rewrite (proj2 (Z.leb_gt _ _)), (proj2 (Z.ltb_ge _ expires)) by lia. cbn [orb].
  destruct (remaining_in_window_total sha s w now I L Hw) as [Hrem Hle].
  rewrite Hown, Hrem. cbn [rbind]. fold rem.
  destruct (Z.ltb_spec rem u) as [|Hge]; [done|].
  pose proof (ww_total _ (inv_windows sha s I w Hw)) as Htot.
  destruct (window_parts_nonneg sha s now w I).
  rewrite new_lease_total by (done || lia). cbn [rbind].
  rewrite insert_lease_total; [done|cbn; lia|done|done|done|]. cbn. eauto.
Qed.
End Acquire.

(** The row of a lease that was just granted. *)
Definition granted_row sha (w : quota_window) (own : string) (u now expires : Z) : quota_lease :=
  {| l_lease_id := lease_id (granted_lease sha w own u now expires); l_source := w_source w; l_window_id := w_window_id w;
     l_owner := own; l_units := u; l_used_units := 0; l_granted_at := now; l_expires_at := expires;
     l_quota_reset_at := w_resets_at w; l_released_at := None |}.

(** C36: [acquire] grants exactly what is left.  After calls whose clock does not go back, for an
    owner without a lease in the active window: asking for at most the remaining units
    stores a lease for them, returned with the expiry asked for and the window's reset time;
    asking for more raises [SourceQuotaExhaustedError] and writes nothing.  What is left is the total
    less what the leases of the window have used and less all the units of those that still hold them. *)
Theorem acquire_grants_what_is_left sha ops c now w own u expires :
  (forall i, is_hex64 (sha i) = true) -> boots_ok ops ->
  clock_from c ops -> last_time c ops <= now -> in_range now = true -> in_range expires = true ->
  let s := runs sha ops empty_store in
  In w (windows s) -> w_starts_at w <= now < w_resets_at w ->
  strip (w_source w) = w_source w -> nonempty (w_source w) = true ->
  strip own = own -> nonempty own = true -> 1 <= u -> now < expires <= w_resets_at w ->
  (forall l, In l (leases s) -> l_source l = w_source w -> l_window_id l = w_window_id w -> l_owner l <> own) ->
  (forall l, In l (leases s) -> l_lease_id l <> lease_id (granted_lease sha w own u now expires)) ->
  (units_left s now w < u -> acquire sha (w_source w) own u (Aware now) (Aware expires) s = (s, exhausted u (units_left s now w)))
  /\ (u <= units_left s now w -> acquire sha (w_source w) own u (Aware now) (Aware expires) s
       = (with_leases s (leases s ++ [granted_row sha w own u now expires]), Ok (granted_lease sha w own u now expires))).
Proof.
  intros Hx Hb Hc Hn Hrn Hre s Hw Ht Hs Hns Ho Hno Hu He Hown Hfr.
  assert (Inv sha s) as I by (apply runs_Inv; auto with rq).
  rewrite (acquire_new sha w own u now expires s); try done.
  - rewrite <- units_left_eq. destruct (Z.ltb_spec (units_left s now w) u); split; intros; done || lia.
  - eapply load_ok_later; [done|exact Hn|]. apply runs_load; auto using load_ok_empty, times_ok_empty with rq.
  - apply fetchone_None. intros l Hl. destruct (is_owner _ _ _ l) eqn:E; [|done]. unfold is_owner, in_window in E. bool_hyps. str_hyps.
    by destruct (Hown l Hl).
Qed.

Lemma acquire_grants_what_is_left_witness :
  let s := runs demo_sha demo_ops empty_store in
  acquire demo_sha "tushare" "ccc" 5 (Aware 6) (Aware 9) s = (s, exhausted 5 4)
  /\ snd (acquire demo_sha "tushare" "ccc" 4 (Aware 6) (Aware 9) s)
     = Ok (granted_lease demo_sha demo_window "ccc" 4 6 9).
Proof.
  intros s. split.
  - destruct (acquire_grants_what_is_left demo_sha demo_ops 0 6 demo_window "ccc" 5 9) as [Hno _];
      [exact demo_sha_hex|solve_boots|cbn; lia|cbn; lia|reflexivity|reflexivity
      |vm_compute; left; reflexivity|cbn; lia|reflexivity|reflexivity|reflexivity|reflexivity|lia|cbn; lia
      | | |].
    + intros l Hl _ _. vm_compute in Hl. destruct Hl as [<-|[<-|[]]]; vm_compute; discriminate.
    + intros l Hl. vm_compute in Hl. destruct Hl as [<-|[<-|[]]]; vm_compute; discriminate.
    + etransitivity; [apply Hno; vm_compute; reflexivity|]. vm_compute. reflexivity.
  - vm_compute. reflexivity.
Defined.
