(* ===== verification/DeliveryContracts.v ===== *)
(** * Routing and delivery contracts ([src/rquant/delivery_contracts.py])

    The immutable models the signal bus and the notification worker exchange.  Building a model
    strips its strings, checks its fields and runs its validator; a constructor here is a
    function to [res].  [canonical_sha256] of a delivery target is the parameter
    [delivery_sha256]. *)

From Stdlib Require Import ZArith Lia Bool.
From stdpp Require Import base list strings.
From S2P Require Import Prelude Clock.
Open Scope Z_scope.
Open Scope rq_scope.

Inductive DeliveryChannel := PUSHDEER | PUSHPLUS.
Inductive RouterDisposition := ACCEPTED | DUPLICATE | QUARANTINED.
Inductive OutboxStatus := PENDING | LEASED | RETRY | SUCCEEDED | EXPIRED | DEAD_LETTER.

#[export] Instance channel_eq_dec : EqDecision DeliveryChannel.
Proof. solve_decision. Defined.
#[export] Instance disposition_eq_dec : EqDecision RouterDisposition.
Proof. solve_decision. Defined.
#[export] Instance status_eq_dec : EqDecision OutboxStatus.
Proof. solve_decision. Defined.

Definition channel_value (c : DeliveryChannel) : string :=
  match c with PUSHDEER => "pushdeer" | PUSHPLUS => "pushplus" end.

(** [_TERMINAL_STATUSES]. *)
Definition is_terminal (s : OutboxStatus) : bool :=
  match s with SUCCEEDED | EXPIRED | DEAD_LETTER => true | _ => false end.

Definition status_is (a b : OutboxStatus) : bool := bool_decide (a = b).

Record DeliveryTarget := { recipient_id : string; channel : DeliveryChannel }.

#[export] Instance target_eq_dec : EqDecision DeliveryTarget.
Proof. solve_decision. Defined.

Definition validate_target (t : DeliveryTarget) : res DeliveryTarget :=
  let r := strip (recipient_id t) in
  raise_if negb (nonempty r) as ValueError saying "String should have at least 1 character" ;;
  Ok {| recipient_id := r; channel := channel t |}.

(** An optional string field with [min_length=1]. *)
Definition opt_strip (s : option string) : option string := strip <$> s.
Definition opt_nonempty (s : option string) : bool :=
  match s with Some s => nonempty s | None => true end.

Record RouterReceipt := {
  rr_signal_id : string; rr_disposition : RouterDisposition; rr_global_sequence : option Z;
  rr_reason : option string; rr_received_at : Z
}.

Definition mk_router_receipt (sid : string) (d : RouterDisposition) (seq : option Z)
    (reason : option string) (received_at : Z) : res RouterReceipt :=
  let r := {| rr_signal_id := strip sid; rr_disposition := d; rr_global_sequence := seq;
              rr_reason := opt_strip reason; rr_received_at := received_at |} in
  raise_if negb (is_hex64 (rr_signal_id r) && opt_nonempty (rr_reason r)
                 && match seq with Some z => 1 <=? z | None => true end)
    as ValueError saying "field out of range" ;;
  match d with
  | ACCEPTED | DUPLICATE =>
      raise_if bool_decide (seq = None)
        as ValueError saying "accepted and duplicate receipts require global_sequence" ;; Ok r
  | QUARANTINED =>
      raise_if negb (bool_decide (seq = None))
        as ValueError saying "quarantined receipts cannot have global_sequence" ;;
      raise_if bool_decide (rr_reason r = None)
        as ValueError saying "quarantined receipts require reason" ;; Ok r
  end.

Record OutboxRecord := {
  ob_outbox_id : string; ob_signal_id : string; ob_target : DeliveryTarget;
  ob_status : OutboxStatus; ob_expires_at : Z; ob_attempt_count : Z;
  ob_next_attempt_at : option Z; ob_lease_owner : option string; ob_lease_until : option Z;
  ob_last_error : option string; ob_created_at : Z; ob_updated_at : Z
}.

Record OutboxAttempt := {
  at_outbox_id : string; at_attempt_no : Z; at_started_at : Z; at_completed_at : Z;
  at_success : bool; at_provider_receipt : option string; at_error : option string
}.

Definition validate_attempt (a : OutboxAttempt) : res OutboxAttempt :=
  let a := {| at_outbox_id := strip (at_outbox_id a); at_attempt_no := at_attempt_no a;
              at_started_at := at_started_at a; at_completed_at := at_completed_at a;
              at_success := at_success a; at_provider_receipt := opt_strip (at_provider_receipt a);
              at_error := opt_strip (at_error a) |} in
  raise_if negb (is_hex64 (at_outbox_id a) && (1 <=? at_attempt_no a)
                 && opt_nonempty (at_provider_receipt a) && opt_nonempty (at_error a))
    as ValueError saying "field out of range" ;;
  raise_if at_completed_at a <? at_started_at a
    as ValueError saying "completed_at must be at or after started_at" ;;
  if at_success a then
    raise_if bool_decide (at_provider_receipt a = None) || negb (bool_decide (at_error a = None))
      as ValueError saying "successful attempts require provider_receipt and forbid error" ;; Ok a
  else
    raise_if bool_decide (at_error a = None) || negb (bool_decide (at_provider_receipt a = None))
      as ValueError saying "failed attempts require error and forbid provider_receipt" ;; Ok a.

Section Keys.
(** [canonical_sha256] of the delivery-target payload: signal, recipient and channel. *)
Context (delivery_sha256 : string -> string -> DeliveryChannel -> string).

Definition delivery_key (t : DeliveryTarget) (sid : string) : res string :=
  raise_if negb (is_hex64 sid)
    as ValueError saying "signal_id must be a lowercase SHA-256 digest" ;;
  Ok (delivery_sha256 sid (recipient_id t) (channel t)).

(** The time and lease rules of [OutboxRecord.validate_record]. *)
Definition record_times (r : OutboxRecord) : res unit :=
  raise_if ob_expires_at r <=? ob_created_at r
    as ValueError saying "expires_at must be after created_at" ;;
  raise_if ob_updated_at r <? ob_created_at r
    as ValueError saying "updated_at must be at or after created_at" ;;
  raise_if negb (is_terminal (ob_status r)) && (ob_expires_at r <=? ob_updated_at r)
    as ValueError saying "active outbox updated_at must be before expires_at" ;;
  match ob_next_attempt_at r with
  | Some n =>
      raise_if n <? ob_updated_at r
        as ValueError saying "next_attempt_at must be at or after updated_at" ;;
      raise_if ob_expires_at r <=? n
        as ValueError saying "next_attempt_at must be before expires_at" ;; Ok tt
  | None => Ok tt
  end.

Definition record_lease (r : OutboxRecord) : res unit :=
  let has_owner := bool_decide (is_Some (ob_lease_owner r)) in
  let has_until := bool_decide (is_Some (ob_lease_until r)) in
  raise_if negb (Bool.eqb has_owner has_until)
    as ValueError saying "lease_owner and lease_until must be provided together" ;;
  if status_is (ob_status r) LEASED then
    raise_if negb has_owner
      as ValueError saying "leased records require lease_owner and lease_until" ;;
    match ob_lease_until r with
    | Some u =>
        raise_if u <=? ob_updated_at r
          as ValueError saying "lease_until must be after updated_at" ;;
        raise_if ob_expires_at r <? u
          as ValueError saying "lease_until cannot be after expires_at" ;; Ok tt
    | None => Ok tt
    end
  else
    raise_if has_owner
      as ValueError saying "lease fields are only valid while status is leased" ;; Ok tt.

Definition record_status (r : OutboxRecord) : res unit :=
  let no_error := bool_decide (ob_last_error r = None) in
  raise_if is_terminal (ob_status r)
           && (bool_decide (is_Some (ob_next_attempt_at r))
               || bool_decide (is_Some (ob_lease_owner r)))
    as ValueError saying "terminal records cannot have a next attempt or lease" ;;
  raise_if (status_is (ob_status r) EXPIRED || status_is (ob_status r) DEAD_LETTER) && no_error
    as ValueError saying "expired and dead-letter records require last_error" ;;
  if status_is (ob_status r) RETRY then
    raise_if bool_decide (ob_next_attempt_at r = None)
      as ValueError saying "retry records require next_attempt_at" ;;
    raise_if no_error as ValueError saying "retry records require last_error" ;; Ok tt
  else Ok tt.

Definition validate_record (r : OutboxRecord) : res OutboxRecord :=
  target <~ validate_target (ob_target r) ;;
  let r := {| ob_outbox_id := strip (ob_outbox_id r); ob_signal_id := strip (ob_signal_id r);
              ob_target := target; ob_status := ob_status r; ob_expires_at := ob_expires_at r;
              ob_attempt_count := ob_attempt_count r; ob_next_attempt_at := ob_next_attempt_at r;
              ob_lease_owner := opt_strip (ob_lease_owner r); ob_lease_until := ob_lease_until r;
              ob_last_error := opt_strip (ob_last_error r); ob_created_at := ob_created_at r;
              ob_updated_at := ob_updated_at r |} in
  raise_if negb (is_hex64 (ob_outbox_id r) && is_hex64 (ob_signal_id r)
                 && (0 <=? ob_attempt_count r) && opt_nonempty (ob_lease_owner r)
                 && opt_nonempty (ob_last_error r))
    as ValueError saying "field out of range" ;;
  _ <~ record_times r ;;
  _ <~ record_lease r ;;
  _ <~ record_status r ;;
  expected <~ delivery_key (ob_target r) (ob_signal_id r) ;;
  raise_if negb (eqs (ob_outbox_id r) expected)
    as ValueError saying "outbox_id does not match signal and delivery target" ;;
  Ok r.
End Keys.
