(* ===== verification/SignalBus.v ===== *)
(** * Signal bus ([src/rquant/signal_bus.py])

    [SignalBusStore] is the SQLite database signals go through on their way to people: it
    numbers signal envelopes, records routing receipts per strategy source, and keeps a
    delivery outbox with leases, retries and recovery.  The tables are row lists, a method is a
    function on the [bus], and [BEGIN IMMEDIATE] makes it atomic ([txn]).  JSON text and SHA-256
    digests are the operations of the class [Codec]. *)

From Stdlib Require Import ZArith Lia Bool.
From stdpp Require Import base list strings gmap sorting pretty.
From S2P Require Import Prelude Clock DeliveryContracts.
Open Scope Z_scope.
Open Scope rq_scope.

(** ** Signals ([src/rquant/signal_contracts.py]) *)

(** The fields the bus reads; [s_content] is the rest of the identity payload. *)
Record SignalEnvelope := {
  s_signal_id : option string; s_event_time : Z; s_available_at : Z; s_expires_at : Z;
  s_content : string
}.

#[export] Instance envelope_eq_dec : EqDecision SignalEnvelope.
Proof. solve_decision. Defined.

Inductive SignalEnvelopeFamily :=
  | Legacy (s : SignalEnvelope)
  | Current (s : SignalEnvelope).

#[export] Instance family_eq_dec : EqDecision SignalEnvelopeFamily.
Proof. solve_decision. Defined.

Definition family_envelope (f : SignalEnvelopeFamily) : SignalEnvelope :=
  match f with Legacy s => s | Current s => s end.

Inductive RouteReceiptDisposition := RD_ROUTED | RD_NO_TARGET | RD_EXPIRED.
Inductive RouteDecisionKind := ROUTE | NO_TARGET.

#[export] Instance rdisposition_eq_dec : EqDecision RouteReceiptDisposition.
Proof. solve_decision. Defined.
#[export] Instance rkind_eq_dec : EqDecision RouteDecisionKind.
Proof. solve_decision. Defined.

(** A decoded JSON object of a signal: its [envelope_schema] key, if any, and its fields. *)
Record signal_json := { j_envelope_schema : option string; j_fields : SignalEnvelope }.

(** Python's [json] and [hashlib] as the bus uses them. *)
Class Codec := {
  signal_payload : SignalEnvelope -> string;
  strict_json_loads : string -> res signal_json;
  manifest_payload : list DeliveryTarget -> string;
  manifest_loads : string -> res (list DeliveryTarget);
  payload_hash : string -> string;
  signal_sha256 : bool -> Z -> Z -> Z -> string -> string;
  delivery_sha256 : string -> string -> DeliveryChannel -> string;
  decision_sha256 : string -> RouteDecisionKind -> list DeliveryTarget -> option string -> string;
  policy_sha256 : Z -> Z -> Z -> string
}.

(** What the bus relies on: digests are 64 hexadecimal digits, the delivery keys of distinct
    signals differ, and decoding canonical text gives back what was encoded. *)
Class CodecLaws `{Codec} : Prop := {
  payload_hash_hex : forall t, is_hex64 (payload_hash t) = true;
  signal_hex : forall c e a x t, is_hex64 (signal_sha256 c e a x t) = true;
  delivery_hex : forall s r c, is_hex64 s = true -> is_hex64 (delivery_sha256 s r c) = true;
  delivery_signal : forall s r c s' r' c', is_hex64 s = true -> is_hex64 s' = true ->
    delivery_sha256 s r c = delivery_sha256 s' r' c' -> s = s';
  payload_loads : forall s, strict_json_loads (signal_payload s)
                            = Ok {| j_envelope_schema := None; j_fields := s |};
  payload_strip : forall s, strip (signal_payload s) = signal_payload s
                            /\ nonempty (signal_payload s) = true;
  manifest_loads_payload : forall ts, manifest_loads (manifest_payload ts) = Ok ts
}.

Definition CURRENT_ENVELOPE_SCHEMA : string := "rquant.signal-envelope/v1".

(** [canonical_sha256(self._identity_payload())]: every field but the identifier. *)
Definition signal_identity `{Codec} (current : bool) (s : SignalEnvelope) : string :=
  signal_sha256 current (s_event_time s) (s_available_at s) (s_expires_at s) (s_content s).

(** [validate_signal]; [current] picks the identity payload of the family. *)
Definition validate_signal `{Codec} (current : bool) (s : SignalEnvelope) : res SignalEnvelope :=
  raise_if s_available_at s <? s_event_time s
    as ValueError saying "event_time must be at or before available_at" ;;
  raise_if s_expires_at s <=? s_available_at s
    as ValueError saying "available_at must be before expires_at" ;;
  let expected := signal_identity current s in
  match s_signal_id s with
  | None => Ok {| s_signal_id := Some expected; s_event_time := s_event_time s;
                  s_available_at := s_available_at s; s_expires_at := s_expires_at s;
                  s_content := s_content s |}
  | Some id =>
      raise_if negb (eqs id expected)
        as ValueError saying "signal_id does not match the deterministic signal identity" ;;
      Ok s
  end.

(** [parse_signal_envelope] on a decoded object, then on text. *)
Definition parse_decoded `{Codec} (decoded : signal_json) : res SignalEnvelopeFamily :=
  match j_envelope_schema decoded with
  | None => s <~ validate_signal false (j_fields decoded) ;; Ok (Legacy s)
  | Some v =>
      raise_if negb (eqs v CURRENT_ENVELOPE_SCHEMA)
        as ValueError saying "unknown signal envelope_schema" ;;
      s <~ validate_signal true (j_fields decoded) ;; Ok (Current s)
  end.

Definition parse_signal_envelope `{Codec} (payload : string) : res SignalEnvelopeFamily :=
  decoded <~ strict_json_loads payload ;; parse_decoded decoded.

Definition require_legacy_signal_write `{Codec} (signal : SignalEnvelopeFamily) (operation : string)
    : res SignalEnvelope :=
  match signal with
  | Current _ => Err (Raise LegacySignalWriteActivationError
      (operation +:+ " is legacy-only in this reader-only release; current-family writes are not activated"))
  | Legacy s => validate_signal false s
  end.

(** ** Rows *)

Record envelope_row := {
  e_global_sequence : Z; e_signal_id : string; e_payload_hash : string;
  e_payload_json : string; e_received_at : Z
}.

(** Also the [QuarantinedSignal] contract. *)
Record quarantine_row := {
  q_signal_id : string; q_payload_hash : string; q_payload_json : string;
  q_received_at : Z; q_reason : string
}.

Record outbox_row := {
  o_outbox_id : string; o_signal_id : string; o_global_sequence : Z;
  o_recipient_id : string; o_channel : DeliveryChannel; o_status : OutboxStatus;
  o_expires_at : Z; o_attempt_count : Z; o_next_attempt_at : option Z;
  o_lease_owner : option string; o_lease_started_at : option Z; o_lease_until : option Z;
  o_last_error : option string; o_created_at : Z; o_updated_at : Z
}.

(** Also the [UnknownDeliveryEvidence] contract. *)
Record unknown_row := {
  n_outbox_id : string; n_attempt_no : Z; n_worker_id : string; n_observed_at : Z;
  n_reason : string; n_provider_receipt : option string
}.

#[export] Instance unknown_eq_dec : EqDecision unknown_row.
Proof. solve_decision. Defined.

Record source_row := {
  so_source_id : string; so_generation_id : string; so_strategy_spec : string;
  so_routing_policy : string; so_first_sequence : Z; so_observed_high : Z;
  so_last_sequence : Z; so_last_signal_id : option string;
  so_registered_at : Z; so_updated_at : Z
}.

Record receipt_row := {
  rc_source_id : string; rc_source_sequence : Z; rc_signal_id : string;
  rc_decision_fingerprint : string; rc_disposition : RouteReceiptDisposition;
  rc_reason_code : option string; rc_manifest_hash : string; rc_manifest_json : string;
  rc_routed_at : Z
}.

Record rotation_row := {
  ro_source_id : string; ro_previous_generation_id : string;
  ro_previous_source_generation : string; ro_previous_strategy_spec : string;
  ro_archived_source_id : string; ro_routed_through : Z; ro_abandoned : Z;
  ro_rotated_at : Z; ro_pruned : bool
}.

(** Also the [SignalBusWatermarkRecovery] contract. *)
Record recovery_row := {
  rv_acknowledgement : string; rv_previous_watermark : option Z;
  rv_observed_max_sequence : Z; rv_recovered_watermark : Z; rv_recovered_at : Z
}.

(** The database: its tables, the three rows of [signal_bus_metadata], and the last
    [AUTOINCREMENT] number handed out to [signal_envelope]. *)
Record bus := {
  envelopes : list envelope_row;
  quarantine : list quarantine_row;
  outbox : list outbox_row;
  attempts : list OutboxAttempt;
  unknowns : list unknown_row;
  sources : list source_row;
  receipts : list receipt_row;
  rotations : list rotation_row;
  recoveries : list recovery_row;
  md_watermark : option Z;
  md_generation : option string;
  md_policy : option string;
  autoincrement : Z
}.

Definition empty_bus : bus :=
  {| envelopes := []; quarantine := []; outbox := []; attempts := []; unknowns := [];
     sources := []; receipts := []; rotations := []; recoveries := [];
     md_watermark := None; md_generation := None; md_policy := None; autoincrement := 0 |}.

Definition with_envelopes b x wm n := {| envelopes := x; quarantine := quarantine b;
  outbox := outbox b; attempts := attempts b; unknowns := unknowns b; sources := sources b;
  receipts := receipts b; rotations := rotations b; recoveries := recoveries b;
  md_watermark := wm; md_generation := md_generation b; md_policy := md_policy b;
  autoincrement := n |}.
Definition with_quarantine b x := {| envelopes := envelopes b; quarantine := x;
  outbox := outbox b; attempts := attempts b; unknowns := unknowns b; sources := sources b;
  receipts := receipts b; rotations := rotations b; recoveries := recoveries b;
  md_watermark := md_watermark b; md_generation := md_generation b; md_policy := md_policy b;
  autoincrement := autoincrement b |}.
Definition with_outbox b x := {| envelopes := envelopes b; quarantine := quarantine b;
  outbox := x; attempts := attempts b; unknowns := unknowns b; sources := sources b;
  receipts := receipts b; rotations := rotations b; recoveries := recoveries b;
  md_watermark := md_watermark b; md_generation := md_generation b; md_policy := md_policy b;
  autoincrement := autoincrement b |}.
Definition with_attempts b x := {| envelopes := envelopes b; quarantine := quarantine b;
  outbox := outbox b; attempts := x; unknowns := unknowns b; sources := sources b;
  receipts := receipts b; rotations := rotations b; recoveries := recoveries b;
  md_watermark := md_watermark b; md_generation := md_generation b; md_policy := md_policy b;
  autoincrement := autoincrement b |}.
Definition with_unknowns b x := {| envelopes := envelopes b; quarantine := quarantine b;
  outbox := outbox b; attempts := attempts b; unknowns := x; sources := sources b;
  receipts := receipts b; rotations := rotations b; recoveries := recoveries b;
  md_watermark := md_watermark b; md_generation := md_generation b; md_policy := md_policy b;
  autoincrement := autoincrement b |}.
Definition with_routes b s r t := {| envelopes := envelopes b; quarantine := quarantine b;
  outbox := outbox b; attempts := attempts b; unknowns := unknowns b; sources := s;
  receipts := r; rotations := t; recoveries := recoveries b;
  md_watermark := md_watermark b; md_generation := md_generation b; md_policy := md_policy b;
  autoincrement := autoincrement b |}.
Definition with_metadata b wm gen pol rec := {| envelopes := envelopes b; quarantine := quarantine b;
  outbox := outbox b; attempts := attempts b; unknowns := unknowns b; sources := sources b;
  receipts := receipts b; rotations := rotations b; recoveries := rec;
  md_watermark := wm; md_generation := gen; md_policy := pol; autoincrement := autoincrement b |}.

(** ** Selectors *)

Definition is_envelope (sid : string) (e : envelope_row) : bool := eqs (e_signal_id e) sid.
Definition has_sequence (n : Z) (e : envelope_row) : bool := e_global_sequence e =? n.
Definition is_outbox (oid : string) (o : outbox_row) : bool := eqs (o_outbox_id o) oid.
Definition for_signal (sid : string) (o : outbox_row) : bool := eqs (o_signal_id o) sid.
Definition claimable (o : outbox_row) : bool :=
  status_is (o_status o) PENDING || status_is (o_status o) RETRY.
Definition is_attempt_no (oid : string) (n : Z) (a : OutboxAttempt) : bool :=
  eqs (at_outbox_id a) oid && (at_attempt_no a =? n).
Definition is_unknown_no (oid : string) (n : Z) (u : unknown_row) : bool :=
  eqs (n_outbox_id u) oid && (n_attempt_no u =? n).
Definition is_source (id : string) (s : source_row) : bool := eqs (so_source_id s) id.
Definition of_source (id : string) (r : receipt_row) : bool := eqs (rc_source_id r) id.
Definition is_receipt (id : string) (n : Z) (r : receipt_row) : bool :=
  of_source id r && (rc_source_sequence r =? n).
Definition receipt_signal (sid : string) (r : receipt_row) : bool := eqs (rc_signal_id r) sid.

(** ** Inserts, with the constraints of the schema *)

Definition insert_outbox (o : outbox_row) (b : bus) : res bus :=
  if exists_row (is_outbox (o_outbox_id o)) (outbox b) then integrity "PRIMARY KEY(outbox_id)"
  else if exists_row (fun p => eqs (o_signal_id p) (o_signal_id o)
            && eqs (o_recipient_id p) (o_recipient_id o)
            && bool_decide (o_channel p = o_channel o)) (outbox b)
  then integrity "UNIQUE(signal_id, recipient_id, channel)"
  else if negb (exists_row (is_envelope (o_signal_id o)) (envelopes b)
                && exists_row (has_sequence (o_global_sequence o)) (envelopes b))
  then integrity "FOREIGN KEY"
  else Ok (with_outbox b (outbox b ++ [o])).

Definition insert_attempt (a : OutboxAttempt) (b : bus) : res bus :=
  if negb (sql_int (at_attempt_no a)) then too_large
  else if negb (1 <=? at_attempt_no a) then integrity "CHECK(attempt_no >= 1)"
  else if exists_row (is_attempt_no (at_outbox_id a) (at_attempt_no a)) (attempts b)
  then integrity "PRIMARY KEY(outbox_id, attempt_no)"
  else if negb (exists_row (is_outbox (at_outbox_id a)) (outbox b)) then integrity "FOREIGN KEY"
  else Ok (with_attempts b (attempts b ++ [a])).

Definition insert_unknown (u : unknown_row) (b : bus) : res bus :=
  if negb (sql_int (n_attempt_no u)) then too_large
  else if negb (1 <=? n_attempt_no u) then integrity "CHECK(attempt_no >= 1)"
  else if exists_row (is_unknown_no (n_outbox_id u) (n_attempt_no u)) (unknowns b)
  then integrity "PRIMARY KEY(outbox_id, attempt_no)"
  else if negb (exists_row (is_outbox (n_outbox_id u)) (outbox b)) then integrity "FOREIGN KEY"
  else Ok (with_unknowns b (unknowns b ++ [u])).

Definition insert_source (s : source_row) (b : bus) : res bus :=
  if negb (sql_int (so_first_sequence s) && sql_int (so_observed_high s)
           && sql_int (so_last_sequence s)) then too_large
  else if negb ((1 <=? so_first_sequence s) && (0 <=? so_observed_high s)
                && (0 <=? so_last_sequence s)) then integrity "CHECK"
  else if exists_row (is_source (so_source_id s)) (sources b) then integrity "PRIMARY KEY(source_id)"
  else Ok (with_routes b (sources b ++ [s]) (receipts b) (rotations b)).

Definition insert_receipt (r : receipt_row) (b : bus) : res bus :=
  if negb (sql_int (rc_source_sequence r)) then too_large
  else if negb (1 <=? rc_source_sequence r) then integrity "CHECK(source_sequence >= 1)"
  else if exists_row (is_receipt (rc_source_id r) (rc_source_sequence r)) (receipts b)
  then integrity "PRIMARY KEY(source_id, source_sequence)"
  else if exists_row (receipt_signal (rc_signal_id r)) (receipts b) then integrity "UNIQUE(signal_id)"
  else if negb (exists_row (is_source (rc_source_id r)) (sources b)
                && exists_row (is_envelope (rc_signal_id r)) (envelopes b))
  then integrity "FOREIGN KEY"
  else Ok (with_routes b (sources b) (receipts b ++ [r]) (rotations b)).

Definition insert_rotation (r : rotation_row) (b : bus) : res bus :=
  if negb (sql_int (ro_routed_through r) && sql_int (ro_abandoned r)) then too_large
  else if negb ((0 <=? ro_routed_through r) && (0 <=? ro_abandoned r)) then integrity "CHECK"
  else if exists_row (fun p => eqs (ro_source_id p) (ro_source_id r)
            && eqs (ro_previous_source_generation p) (ro_previous_source_generation r)) (rotations b)
  then integrity "PRIMARY KEY(source_id, previous_source_generation_id)"
  else Ok (with_routes b (sources b) (receipts b) (rotations b ++ [r])).

Definition is_nil {A} (l : list A) : bool := match l with [] => true | _ => false end.

(** A loop over rows whose body may raise. *)
Fixpoint rfold {A S} (f : A -> S -> res S) (l : list A) (s : S) : res S :=
  match l with
  | [] => Ok s
  | x :: l => s' <~ f x s ;; rfold f l s'
  end.

(** [repr] of a string without control characters. *)
Definition squote : Ascii.ascii := Ascii.ascii_of_nat 39.
Definition dquote : Ascii.ascii := Ascii.ascii_of_nat 34.
Definition backslash : Ascii.ascii := Ascii.ascii_of_nat 92.

Fixpoint escape (q : Ascii.ascii) (s : string) : string :=
  match s with
  | EmptyString => EmptyString
  | String c s =>
      if Ascii.eqb c q || Ascii.eqb c backslash then String backslash (String c (escape q s))
      else String c (escape q s)
  end.

Fixpoint has_char (q : Ascii.ascii) (s : string) : bool :=
  match s with EmptyString => false | String c s => Ascii.eqb c q || has_char q s end.

Definition py_repr (s : string) : string :=
  if has_char squote s && negb (has_char dquote s)
  then String dquote (escape dquote s +:+ String dquote EmptyString)
  else String squote (escape squote s +:+ String squote EmptyString).

(** ** The store's configuration *)

Record config := {
  retry_base_delay : Z; retry_max_delay : Z; max_attempts : Z;
  previous_generation_of_strategy_spec : gmap string string
}.

(** [timedelta.max], in microseconds. *)
Definition timedelta_max : Z := 1000000000 * us_per_day - 1.

Definition td_mul (d k : Z) : res Z :=
  if (- (999999999 * us_per_day) <=? d * k) && (d * k <=? timedelta_max) then Ok (d * k)
  else Err (Raise OverflowError "days out of range").

(** [_retry_delay]. *)
Definition retry_delay (cfg : config) (attempt_no : Z) : res Z :=
  delay <~ td_mul (retry_base_delay cfg) (Z.shiftl 1 (Z.max (attempt_no - 1) 0)) ;;
  Ok (Z.min delay (retry_max_delay cfg)).

(** ** Delivery targets *)

Definition target_compare (a b : DeliveryTarget) : comparison :=
  match String.compare (recipient_id a) (recipient_id b) with
  | Eq => String.compare (channel_value (channel a)) (channel_value (channel b))
  | c => c
  end.

(** Insertion into a list sorted by key, dropping an equal key: building the dictionary and
    reading it back in key order. *)
Fixpoint insert_target (t : DeliveryTarget) (l : list DeliveryTarget) : list DeliveryTarget :=
  match l with
  | [] => [t]
  | u :: l' => match target_compare t u with
               | Lt => t :: l
               | Eq => t :: l'
               | Gt => u :: insert_target t l'
               end
  end.

Definition canonical_delivery_targets (targets : list DeliveryTarget) : res (list DeliveryTarget) :=
  validated <~ rmap validate_target targets ;;
  Ok (fold_left (fun acc t => insert_target t acc) validated []).

(** ** Descriptors and requests *)

Record RouteSourceDescriptor := {
  d_source_id : string; d_generation_id : string; d_strategy_spec : string;
  d_first_sequence : Z; d_high_watermark : Z
}.

Definition validate_descriptor (d : RouteSourceDescriptor) : res RouteSourceDescriptor :=
  let d := {| d_source_id := strip (d_source_id d); d_generation_id := strip (d_generation_id d);
              d_strategy_spec := strip (d_strategy_spec d);
              d_first_sequence := d_first_sequence d; d_high_watermark := d_high_watermark d |} in
  raise_if negb (nonempty (d_source_id d) && is_hex64 (d_generation_id d)
                 && is_hex64 (d_strategy_spec d) && (1 <=? d_first_sequence d)
                 && (0 <=? d_high_watermark d))
    as ValueError saying "field out of range" ;;
  raise_if d_high_watermark d <? d_first_sequence d - 1
    as ValueError saying "high_watermark cannot precede the source start" ;;
  Ok d.

Record binding_request := {
  br_descriptor : RouteSourceDescriptor; br_routing_policy : string; br_observed_at : Z
}.

Definition mk_binding_request (d : RouteSourceDescriptor) (policy : string) (observed_at : pydatetime)
    : res binding_request :=
  d <~ validate_descriptor d ;;
  let policy := strip policy in
  raise_if negb (is_hex64 policy) as ValueError saying "field out of range" ;;
  observed <~ normalize_aware_utc observed_at ;;
  Ok {| br_descriptor := d; br_routing_policy := policy; br_observed_at := observed |}.

Record SignalRouteCursor := {
  cu_source_id : string; cu_generation_id : option string; cu_strategy_spec : option string;
  cu_routing_policy : option string; cu_first_sequence : Z; cu_observed_high : Z;
  cu_last_sequence : Z; cu_last_signal_id : option string; cu_updated_at : option Z
}.

Record SignalRouteReceipt := {
  sr_source_id : string; sr_source_sequence : Z; sr_signal_id : string;
  sr_decision_fingerprint : string; sr_disposition : RouteReceiptDisposition;
  sr_reason_code : option string; sr_manifest_hash : string; sr_targets : list DeliveryTarget;
  sr_target_count : Z; sr_routed_at : Z
}.

(** [SignalRouteReceipt.validate_targets], after the field checks. *)
Definition validate_receipt (r : SignalRouteReceipt) : res SignalRouteReceipt :=
  let r := {| sr_source_id := strip (sr_source_id r); sr_source_sequence := sr_source_sequence r;
              sr_signal_id := strip (sr_signal_id r);
              sr_decision_fingerprint := strip (sr_decision_fingerprint r);
              sr_disposition := sr_disposition r; sr_reason_code := opt_strip (sr_reason_code r);
              sr_manifest_hash := strip (sr_manifest_hash r); sr_targets := sr_targets r;
              sr_target_count := sr_target_count r; sr_routed_at := sr_routed_at r |} in
  raise_if negb (nonempty (sr_source_id r) && (1 <=? sr_source_sequence r)
                 && is_hex64 (sr_signal_id r) && is_hex64 (sr_decision_fingerprint r)
                 && opt_nonempty (sr_reason_code r) && is_hex64 (sr_manifest_hash r)
                 && (0 <=? sr_target_count r))
    as ValueError saying "field out of range" ;;
  raise_if negb (sr_target_count r =? Z.of_nat (length (sr_targets r)))
    as ValueError saying "target_count does not match targets" ;;
  let no_targets := bool_decide (sr_targets r = []) in
  let no_reason := bool_decide (sr_reason_code r = None) in
  if bool_decide (sr_disposition r = RD_NO_TARGET) then
    raise_if negb no_targets || no_reason
      as ValueError saying "no-target receipts require a reason and no targets" ;; Ok r
  else
    raise_if no_targets || negb no_reason
      as ValueError saying "routed receipts require targets and forbid a reason" ;; Ok r.

(** [_read_high_watermark_state]: the persisted watermark and the greatest stored sequence. *)
Definition max_sequence (b : bus) : Z :=
  fold_left (fun m e => Z.max m (e_global_sequence e)) (envelopes b) 0.

Definition read_high_watermark_state (b : bus) : option Z * Z := (md_watermark b, max_sequence b).

Definition watermark_text (b : bus) (wm : Z) : string :=
  "signal bus high watermark disagrees with the durable signal rows: metadata " +:+ pretty wm
  +:+ ", rows " +:+ pretty (max_sequence b).

Definition require_consistent_high_watermark (b : bus) : res Z :=
  let '(persisted, observed) := read_high_watermark_state b in
  match persisted with
  | None => Err (Raise SignalBusWatermarkError "signal bus high watermark is missing")
  | Some wm =>
      if negb (wm =? observed) then Err (Raise SignalBusWatermarkError (watermark_text b wm))
      else Ok wm
  end.

(** ** The methods *)

Section Methods.
Context `{Codec} (cfg : config).

(** [__init__] and [_initialize]; the statements commit one by one, so a failure keeps the
    rows already written.  [token] is the fresh [secrets.token_hex(32)]. *)
Definition initialize (token : string) (b : bus) : bus * res unit :=
  if retry_base_delay cfg <=? 0
  then (b, Err (Raise ValueError "retry_base_delay must be positive"))
  else if retry_max_delay cfg <? retry_base_delay cfg
  then (b, Err (Raise ValueError "retry_max_delay must be at least retry_base_delay"))
  else if max_attempts cfg <? 1
  then (b, Err (Raise ValueError "max_attempts must be positive"))
  else
    let policy := policy_sha256 (retry_base_delay cfg) (retry_max_delay cfg) (max_attempts cfg) in
    let stored_policy := default policy (md_policy b) in
    let b1 := with_metadata b (md_watermark b) (Some (default token (md_generation b)))
                (Some stored_policy) (recoveries b) in
    let '(persisted, observed_max) := read_high_watermark_state b1 in
    if bool_decide (persisted = None) && negb (observed_max =? 0)
    then (b1, Err (Raise SignalBusWatermarkError
           ("signal bus high watermark row is missing from a store that already holds signal rows through "
            +:+ pretty observed_max)))
    else
      let b2 := with_metadata b1 (Some (default 0 persisted)) (md_generation b1) (md_policy b1)
                  (recoveries b1) in
      if negb (eqs stored_policy policy)
      then (b2, Err (Raise ValueError "retry policy does not match the persisted signal bus policy"))
      else (b2, _ <~ require_consistent_high_watermark b2 ;; Ok tt).

(** [parse_stored_signal]: the size is the length of the stored text in either reading. *)
Definition parse_stored_signal (e : envelope_row) : res SignalEnvelopeFamily :=
  signal <~ parse_signal_envelope (e_payload_json e) ;;
  raise_if negb (eqs (e_payload_hash e) (payload_hash (e_payload_json e)))
    as SignalBusIntegrityError saying "stored signal payload hash does not match payload_json" ;;
  raise_if negb (bool_decide (s_signal_id (family_envelope signal) = Some (e_signal_id e)))
    as SignalBusIntegrityError saying "stored signal_id does not match signal payload" ;;
  Ok signal.

(** *** Ingest *)

Definition conflict_reason : string := "signal_id already exists with different canonical payload".

Definition add_quarantine (q : quarantine_row) (b : bus) : bus :=
  if exists_row (fun r => eqs (q_signal_id r) (q_signal_id q)
                          && eqs (q_payload_hash r) (q_payload_hash q)) (quarantine b)
  then b else with_quarantine b (quarantine b ++ [q]).

Definition ingest_in_transaction (signal : SignalEnvelope) (received_at : Z) (b : bus)
    : res (bus * RouterReceipt) :=
  signal <~ require_legacy_signal_write (Legacy signal) "SignalBusStore.ingest" ;;
  match s_signal_id signal with
  | None => Err (Raise ValueError "signal_id must be materialized before ingest")
  | Some sid =>
      let payload := signal_payload signal in
      let content_hash := payload_hash payload in
      match fetchone (is_envelope sid) (envelopes b) with
      | Some existing =>
          if eqs (e_payload_hash existing) content_hash && eqs (e_payload_json existing) payload then
            receipt <~ mk_router_receipt sid DUPLICATE (Some (e_global_sequence existing)) None received_at ;;
            Ok (b, receipt)
          else
            let b' := add_quarantine {| q_signal_id := sid; q_payload_hash := content_hash;
                        q_payload_json := payload; q_received_at := received_at;
                        q_reason := conflict_reason |} b in
            receipt <~ mk_router_receipt sid QUARANTINED None (Some conflict_reason) received_at ;;
            Ok (b', receipt)
      | None =>
          let sequence := autoincrement b + 1 in
          raise_if negb (sql_int sequence) as OperationalError saying "database or disk is full" ;;
          let row := {| e_global_sequence := sequence; e_signal_id := sid;
                        e_payload_hash := content_hash; e_payload_json := payload;
                        e_received_at := received_at |} in
          let wm := match md_watermark b with
                    | Some w => Some (if w <? sequence then sequence else w)
                    | None => None end in
          receipt <~ mk_router_receipt sid ACCEPTED (Some sequence) None received_at ;;
          Ok (with_envelopes b (envelopes b ++ [row]) wm sequence, receipt)
      end
  end.

Definition ingest (signal : SignalEnvelopeFamily) (received_at : pydatetime) (b : bus)
    : bus * res RouterReceipt :=
  txn b (
    signal <~ require_legacy_signal_write signal "SignalBusStore.ingest" ;;
    received <~ normalize_aware_utc received_at ;;
    bind (b', receipt) from ingest_in_transaction signal received b ;;
    committed b' receipt).

(** *** Reading signals back *)

Definition source_descriptor (b : bus) : res (string * Z) :=
  _ <~ require_consistent_high_watermark b ;;
  match md_generation b, md_watermark b with
  | Some g, Some w =>
      let g := strip g in
      raise_if negb (is_hex64 g && (0 <=? w)) as ValueError saying "field out of range" ;; Ok (g, w)
  | _, _ => Err (Raise RuntimeError "signal bus source metadata is incomplete")
  end.

Record SignalBusSignalRecord := {
  sg_global_sequence : Z; sg_signal_id : string; sg_payload_hash : string;
  sg_payload_json : string; sg_signal : SignalEnvelopeFamily; sg_received_at : Z
}.

(** [SignalBusSignalRecord.validate_identity], after the field checks. *)
Definition mk_signal_record (e : envelope_row) (signal : SignalEnvelopeFamily)
    : res SignalBusSignalRecord :=
  let sid := strip (e_signal_id e) in
  let hash := strip (e_payload_hash e) in
  let payload := strip (e_payload_json e) in
  raise_if negb ((1 <=? e_global_sequence e) && is_hex64 sid && is_hex64 hash && nonempty payload)
    as ValueError saying "field out of range" ;;
  raise_if negb (bool_decide (s_signal_id (family_envelope signal) = Some sid))
    as ValueError saying "signal_id does not match signal payload" ;;
  stored <~ parse_signal_envelope payload ;;
  raise_if negb (bool_decide (stored = signal))
    as ValueError saying "signal does not match payload_json" ;;
  raise_if negb (eqs hash (payload_hash payload))
    as ValueError saying "payload_hash does not match payload_json" ;;
  Ok {| sg_global_sequence := e_global_sequence e; sg_signal_id := sid; sg_payload_hash := hash;
        sg_payload_json := payload; sg_signal := signal; sg_received_at := e_received_at e |}.

(** [ORDER BY global_sequence]. *)
Definition sequence_le (a b : envelope_row) : Prop := e_global_sequence a <= e_global_sequence b.
#[export] Instance sequence_le_dec : RelDecision sequence_le.
Proof. intros a b. unfold sequence_le. apply _. Defined.

Definition envelope_page (b : bus) (after through limit : Z) : list envelope_row :=
  take (Z.to_nat limit) (merge_sort sequence_le
    (select (fun e => (after <? e_global_sequence e) && (e_global_sequence e <=? through))
            (envelopes b))).

Definition check_page (b : bus) (after through limit : Z) : res unit :=
  raise_if after <? 0 as ValueError saying "after_sequence must be a non-negative integer" ;;
  raise_if through <? after
    as ValueError saying "through_sequence must be an integer at least after_sequence" ;;
  raise_if limit <? 1 as ValueError saying "limit must be a positive integer" ;;
  Ok tt.

Definition check_watermark (b : bus) (after through limit : Z) : res unit :=
  match md_watermark b with
  | None => Err (Raise RuntimeError "signal bus high watermark is missing")
  | Some wm =>
      raise_if wm <? through as SignalBusSourceSequenceError
        saying "requested high watermark exceeds the signal bus high watermark" ;;
      if negb (sql_int after && sql_int through && sql_int limit) then too_large else Ok tt
  end.

(** The loop of [signals_after_global_sequence]: a gap raises, an invisible signal stops it. *)
Fixpoint visible_records (expected visible_at : Z) (rows : list envelope_row)
    : res (list SignalBusSignalRecord) :=
  match rows with
  | [] => Ok []
  | row :: rows =>
      if negb (e_global_sequence row =? expected) then
        Err (Raise SignalBusSourceSequenceError
          ("signal sequence gap: expected " +:+ pretty expected +:+ ", observed "
           +:+ pretty (e_global_sequence row)))
      else
        signal <~ parse_signal_envelope (e_payload_json row) ;;
        if (visible_at <? s_available_at (family_envelope signal)) || (visible_at <? e_received_at row)
        then Ok []
        else
          record <~ mk_signal_record row signal ;;
          rest <~ visible_records (expected + 1) visible_at rows ;;
          Ok (record :: rest)
  end.

Definition signals_after_global_sequence (after through : Z) (observed_at : pydatetime) (limit : Z)
    (b : bus) : res (list SignalBusSignalRecord) :=
  _ <~ check_page b after through limit ;;
  visible_at <~ normalize_aware_utc observed_at ;;
  _ <~ check_watermark b after through limit ;;
  let rows := envelope_page b after through limit in
  raise_if (after <? through) && is_nil rows as SignalBusSourceSequenceError
    saying "signal sequence is truncated before the requested high watermark" ;;
  visible_records (after + 1) visible_at rows.

(** [signal] and [signal_payload], by sequence number or by signal id. *)
Definition stored_signal (identifier : Z + string) (b : bus)
    : res (option (string * SignalEnvelopeFamily)) :=
  let p := match identifier with inl n => has_sequence n | inr sid => is_envelope sid end in
  match fetchone p (envelopes b) with
  | None => Ok None
  | Some row => signal <~ parse_stored_signal row ;; Ok (Some (e_payload_json row, signal))
  end.

Definition signal (identifier : Z + string) (b : bus) : res (option SignalEnvelopeFamily) :=
  stored <~ stored_signal identifier b ;; Ok (snd <$> stored).

(** [_preflight_stored_legacy_signal]. *)
Definition preflight_stored_legacy_signal (sid operation : string) (b : bus) : res unit :=
  match fetchone (is_envelope sid) (envelopes b) with
  | None => Ok tt
  | Some row =>
      signal <~ parse_stored_signal row ;;
      _ <~ require_legacy_signal_write signal operation ;; Ok tt
  end.

(** *** Routing to the outbox *)

Definition outbox_from_row (o : outbox_row) : res OutboxRecord :=
  validate_record delivery_sha256
    {| ob_outbox_id := o_outbox_id o; ob_signal_id := o_signal_id o;
       ob_target := {| recipient_id := o_recipient_id o; channel := o_channel o |};
       ob_status := o_status o; ob_expires_at := o_expires_at o;
       ob_attempt_count := o_attempt_count o; ob_next_attempt_at := o_next_attempt_at o;
       ob_lease_owner := o_lease_owner o; ob_lease_until := o_lease_until o;
       ob_last_error := o_last_error o; ob_created_at := o_created_at o;
       ob_updated_at := o_updated_at o |}.

(** The columns a state change of an outbox row sets. *)
Definition set_status (st : OutboxStatus) (count : Z) (next : option Z) (owner : option string)
    (started until : option Z) (err : option string) (at_ : Z) (o : outbox_row) : outbox_row :=
  {| o_outbox_id := o_outbox_id o; o_signal_id := o_signal_id o;
     o_global_sequence := o_global_sequence o; o_recipient_id := o_recipient_id o;
     o_channel := o_channel o; o_status := st; o_expires_at := o_expires_at o;
     o_attempt_count := count; o_next_attempt_at := next; o_lease_owner := owner;
     o_lease_started_at := started; o_lease_until := until; o_last_error := err;
     o_created_at := o_created_at o; o_updated_at := at_ |}.

(** [SET status = EXPIRED, next_attempt_at = NULL, last_error, updated_at]. *)
Definition expire (why : string) (at_ : Z) (o : outbox_row) : outbox_row :=
  set_status EXPIRED (o_attempt_count o) None (o_lease_owner o) (o_lease_started_at o)
    (o_lease_until o) (Some why) at_ o.

Definition route_target (sid : string) (seq : Z) (signal : SignalEnvelope) (routed_at : Z)
    (t : DeliveryTarget) (b : bus) : res bus :=
  let expired := s_expires_at signal <=? routed_at in
  oid <~ delivery_key delivery_sha256 t sid ;;
  match fetchone (is_outbox oid) (outbox b) with
  | Some existing =>
      if expired && claimable existing
      then Ok (with_outbox b (update (is_outbox oid)
                 (expire "signal expired before routing" routed_at) (outbox b)))
      else Ok b
  | None =>
      insert_outbox
        {| o_outbox_id := oid; o_signal_id := sid; o_global_sequence := seq;
           o_recipient_id := recipient_id t; o_channel := channel t;
           o_status := if expired then EXPIRED else PENDING; o_expires_at := s_expires_at signal;
           o_attempt_count := 0; o_next_attempt_at := None; o_lease_owner := None;
           o_lease_started_at := None; o_lease_until := None;
           o_last_error := if expired then Some "signal expired before routing"%string else None;
           o_created_at := if expired then s_available_at signal else routed_at;
           o_updated_at := routed_at |} b
  end.

(** [ORDER BY recipient_id, channel, outbox_id], then the rows of the target keys. *)
Definition outbox_key_le (a b : outbox_row) : Prop :=
  match target_compare {| recipient_id := o_recipient_id a; channel := o_channel a |}
                       {| recipient_id := o_recipient_id b; channel := o_channel b |} with
  | Lt => True
  | Gt => False
  | Eq => String.compare (o_outbox_id a) (o_outbox_id b) <> Gt
  end.
#[export] Instance outbox_key_le_dec : RelDecision outbox_key_le.
Proof. intros a b. unfold outbox_key_le. destruct (target_compare _ _); apply _. Defined.

Definition row_target (o : outbox_row) : DeliveryTarget :=
  {| recipient_id := o_recipient_id o; channel := o_channel o |}.

Definition select_outbox_rows (b : bus) (sid : string) (targets : list DeliveryTarget)
    : list outbox_row :=
  select (fun o => bool_decide (row_target o ∈ targets))
    (merge_sort outbox_key_le (select (for_signal sid) (outbox b))).

Definition route_in_transaction (sid : string) (targets : list DeliveryTarget) (routed_at : Z)
    (b : bus) : res (bus * list outbox_row) :=
  match fetchone (is_envelope sid) (envelopes b) with
  | None => Err (Raise KeyError ("signal " +:+ py_repr sid +:+ " does not exist"))
  | Some row =>
      parsed <~ parse_stored_signal row ;;
      match parsed with
      | Current _ => Err (Raise LegacySignalWriteActivationError
          "SignalBusStore.route is legacy-only in this reader-only release; current-family writes are not activated")
      | Legacy sig =>
          raise_if routed_at <? s_available_at sig
            as ValueError saying "signal cannot be routed before available_at" ;;
          b' <~ rfold (route_target sid (e_global_sequence row) sig routed_at) targets b ;;
          Ok (b', select_outbox_rows b' sid targets)
      end
  end.

Definition route (sid : string) (targets : list DeliveryTarget) (now : pydatetime) (b : bus)
    : bus * res (list OutboxRecord) :=
  txn b (
    routed_at <~ normalize_aware_utc now ;;
    unique_targets <~ canonical_delivery_targets targets ;;
    _ <~ preflight_stored_legacy_signal sid "SignalBusStore.route" b ;;
    if bool_decide (unique_targets = []) then committed b [] else
    _ <~ match fetchone (receipt_signal sid) (receipts b) with
         | Some frozen =>
             loaded <~ manifest_loads (rc_manifest_json frozen) ;;
             frozen_targets <~ canonical_delivery_targets loaded ;;
             raise_if negb (bool_decide (frozen_targets = unique_targets))
               as SignalRouteConflictError saying "targets conflict with the frozen target manifest" ;;
             Ok tt
         | None => Ok tt
         end ;;
    bind (b', rows) from route_in_transaction sid unique_targets routed_at b ;;
    out <~ rmap outbox_from_row rows ;;
    committed b' out).

(** *** Route sources *)

Definition new_source (d : RouteSourceDescriptor) (policy : string) (now : Z) : source_row :=
  {| so_source_id := d_source_id d; so_generation_id := d_generation_id d;
     so_strategy_spec := d_strategy_spec d; so_routing_policy := policy;
     so_first_sequence := d_first_sequence d; so_observed_high := d_high_watermark d;
     so_last_sequence := d_first_sequence d - 1; so_last_signal_id := None;
     so_registered_at := now; so_updated_at := now |}.

Definition ARCHIVED_GENERATIONS_KEPT : nat := 2.

Definition delete {R} (p : R -> bool) (t : list R) : list R := select (fun r => negb (p r)) t.

Definition prune_one (sid : string) (r : rotation_row) (b : bus) : bus :=
  let archived := ro_archived_source_id r in
  with_routes b (delete (is_source archived) (sources b)) (delete (of_source archived) (receipts b))
    (update (fun p => eqs (ro_source_id p) sid
                      && eqs (ro_previous_source_generation p) (ro_previous_source_generation r))
       (fun p => {| ro_source_id := ro_source_id p;
          ro_previous_generation_id := ro_previous_generation_id p;
          ro_previous_source_generation := ro_previous_source_generation p;
          ro_previous_strategy_spec := ro_previous_strategy_spec p;
          ro_archived_source_id := ro_archived_source_id p; ro_routed_through := ro_routed_through p;
          ro_abandoned := ro_abandoned p; ro_rotated_at := ro_rotated_at p; ro_pruned := true |})
       (rotations b)).

(** [_prune_rotated_sources]: [ORDER BY rowid DESC] is the reverse of insertion order. *)
Definition prune_rotated_sources (sid : string) (b : bus) : bus :=
  let rows := rev (select (fun r => eqs (ro_source_id r) sid && negb (ro_pruned r)) (rotations b)) in
  fold_left (fun b r => prune_one sid r b) (drop ARCHIVED_GENERATIONS_KEPT rows) b.

Definition move_receipts (old new : string) (rs : list receipt_row) : list receipt_row :=
  update (of_source old) (fun r => {| rc_source_id := new; rc_source_sequence := rc_source_sequence r;
    rc_signal_id := rc_signal_id r; rc_decision_fingerprint := rc_decision_fingerprint r;
    rc_disposition := rc_disposition r; rc_reason_code := rc_reason_code r;
    rc_manifest_hash := rc_manifest_hash r; rc_manifest_json := rc_manifest_json r;
    rc_routed_at := rc_routed_at r |}) rs.

(** [_rotate_previous_generation_source]: [None] leaves the row for the conflict checks. *)
Definition rotate_previous_generation_source (req : binding_request) (row : source_row) (b : bus)
    : res (option (bus * source_row)) :=
  let d := br_descriptor req in
  let now := br_observed_at req in
  if eqs (so_generation_id row) (d_generation_id d) then Ok None else
  match previous_generation_of_strategy_spec cfg !! so_strategy_spec row with
  | None => Ok None
  | Some previous_generation_id =>
      if bool_decide (is_Some (previous_generation_of_strategy_spec cfg !! d_strategy_spec d))
      then Ok None
      else if negb (eqs (so_routing_policy row) (br_routing_policy req))
              || negb (so_first_sequence row =? d_first_sequence d)
      then Ok None
      else
        let archived := d_source_id d +:+ "#rotated-" +:+ so_generation_id row in
        raise_if exists_row (is_source archived) (sources b) as SignalRouteConflictError
          saying ("source " +:+ py_repr (d_source_id d) +:+ " generation archive already exists") ;;
        let routed_through := so_last_sequence row in
        let abandoned := Z.max (so_observed_high row - routed_through) 0 in
        b1 <~ insert_source {| so_source_id := archived; so_generation_id := so_generation_id row;
                so_strategy_spec := so_strategy_spec row; so_routing_policy := so_routing_policy row;
                so_first_sequence := so_first_sequence row; so_observed_high := so_observed_high row;
                so_last_sequence := routed_through; so_last_signal_id := so_last_signal_id row;
                so_registered_at := so_registered_at row; so_updated_at := now |} b ;;
        let b2 := with_routes b1 (delete (is_source (d_source_id d)) (sources b1))
                    (move_receipts (d_source_id d) archived (receipts b1)) (rotations b1) in
        b3 <~ insert_rotation {| ro_source_id := d_source_id d;
                ro_previous_generation_id := previous_generation_id;
                ro_previous_source_generation := so_generation_id row;
                ro_previous_strategy_spec := so_strategy_spec row; ro_archived_source_id := archived;
                ro_routed_through := routed_through; ro_abandoned := abandoned;
                ro_rotated_at := now; ro_pruned := false |} b2 ;;
        b4 <~ insert_source (new_source d (br_routing_policy req) now) b3 ;;
        let b5 := prune_rotated_sources (d_source_id d) b4 in
        match fetchone (is_source (d_source_id d)) (sources b5) with
        | None => Err (Raise SignalRouteConflictError "rotated route source is unavailable")
        | Some rotated => Ok (Some (b5, rotated))
        end
  end.

Definition changed {A} (sid label : string) : res A :=
  Err (Raise SignalRouteConflictError ("source " +:+ py_repr sid +:+ " " +:+ label +:+ " changed")).

(** The bind of a source row that no rotation took: the immutable columns, then the watermark. *)
Definition rebind (req : binding_request) (row : source_row) (b : bus)
    : res (bus * source_row * bool) :=
  let d := br_descriptor req in
  let sid := d_source_id d in
  let hw := d_high_watermark d in
  if negb (eqs (so_generation_id row) (d_generation_id d)) then changed sid "generation"
  else if negb (eqs (so_strategy_spec row) (d_strategy_spec d)) then changed sid "strategy spec"
  else if negb (eqs (so_routing_policy row) (br_routing_policy req)) then changed sid "routing policy"
  else if negb (so_first_sequence row =? d_first_sequence d) then changed sid "first sequence"
  else if hw <? so_observed_high row then
    Err (Raise SignalRouteSequenceError ("source high watermark regressed from "
      +:+ pretty (so_observed_high row) +:+ " to " +:+ pretty hw))
  else if hw <? so_last_sequence row then
    Err (Raise SignalRouteSequenceError "source high watermark is behind the committed cursor")
  else if hw =? so_observed_high row then Ok (b, row, false)
  else if negb (sql_int hw) then too_large
  else
    let up r := {| so_source_id := so_source_id r; so_generation_id := so_generation_id r;
      so_strategy_spec := so_strategy_spec r; so_routing_policy := so_routing_policy r;
      so_first_sequence := so_first_sequence r; so_observed_high := hw;
      so_last_sequence := so_last_sequence r; so_last_signal_id := so_last_signal_id r;
      so_registered_at := so_registered_at r; so_updated_at := br_observed_at req |} in
    Ok (with_routes b (update (is_source sid) up (sources b)) (receipts b) (rotations b), up row, true).

Definition bind_route_source_in_transaction (req : binding_request) (b : bus)
    : res (bus * source_row * bool) :=
  let d := br_descriptor req in
  match fetchone (is_source (d_source_id d)) (sources b) with
  | None =>
      let row := new_source d (br_routing_policy req) (br_observed_at req) in
      b' <~ insert_source row b ;; Ok (b', row, true)
  | Some row =>
      rotated <~ rotate_previous_generation_source req row b ;;
      match rotated with
      | Some (b', rotated_row) => Ok (b', rotated_row, true)
      | None => rebind req row b
      end
  end.

Definition cursor_from_row (s : source_row) : SignalRouteCursor :=
  {| cu_source_id := so_source_id s; cu_generation_id := Some (so_generation_id s);
     cu_strategy_spec := Some (so_strategy_spec s); cu_routing_policy := Some (so_routing_policy s);
     cu_first_sequence := so_first_sequence s; cu_observed_high := so_observed_high s;
     cu_last_sequence := so_last_sequence s; cu_last_signal_id := so_last_signal_id s;
     cu_updated_at := Some (so_updated_at s) |}.

Definition bind_route_source_observed (d : RouteSourceDescriptor) (policy : string)
    (observed_at : pydatetime) (b : bus) : bus * res (SignalRouteCursor * bool) :=
  txn b (
    req <~ mk_binding_request d policy observed_at ;;
    bind (b', row, advanced) from bind_route_source_in_transaction req b ;;
    committed b' (cursor_from_row row, advanced)).

Definition bind_route_source (d : RouteSourceDescriptor) (policy : string) (observed_at : pydatetime)
    (b : bus) : bus * res SignalRouteCursor :=
  let '(b', r) := bind_route_source_observed d policy observed_at b in
  (b', x <~ r ;; Ok (fst x)).

Definition route_cursor (source_id : string) (b : bus) : res SignalRouteCursor :=
  let normalized := strip source_id in
  raise_if negb (nonempty normalized) as ValueError saying "source_id must not be empty" ;;
  match fetchone (is_source normalized) (sources b) with
  | None => Ok {| cu_source_id := normalized; cu_generation_id := None; cu_strategy_spec := None;
                  cu_routing_policy := None; cu_first_sequence := 1; cu_observed_high := 0;
                  cu_last_sequence := 0; cu_last_signal_id := None; cu_updated_at := None |}
  | Some row => Ok (cursor_from_row row)
  end.

(** *** Committing one source sequence *)

Definition route_receipt_from_row (r : receipt_row) : res SignalRouteReceipt :=
  raw <~ manifest_loads (rc_manifest_json r) ;;
  targets <~ rmap validate_target raw ;;
  raise_if negb (eqs (payload_hash (manifest_payload targets)) (rc_manifest_hash r))
    as ValueError saying "stored target manifest hash does not match its payload" ;;
  validate_receipt {| sr_source_id := rc_source_id r; sr_source_sequence := rc_source_sequence r;
    sr_signal_id := rc_signal_id r; sr_decision_fingerprint := rc_decision_fingerprint r;
    sr_disposition := rc_disposition r; sr_reason_code := rc_reason_code r;
    sr_manifest_hash := rc_manifest_hash r; sr_targets := targets;
    sr_target_count := Z.of_nat (length targets); sr_routed_at := rc_routed_at r |}.

Definition routing_decision_fingerprint (policy : string) (kind : RouteDecisionKind)
    (targets : list DeliveryTarget) (reason : option string) : res string :=
  canonical <~ canonical_delivery_targets targets ;;
  Ok (decision_sha256 policy kind canonical reason).

Record commit_request := {
  cr_descriptor : RouteSourceDescriptor; cr_routing_policy : string; cr_source_sequence : Z;
  cr_signal : SignalEnvelope; cr_kind : RouteDecisionKind; cr_fingerprint : string;
  cr_reason_code : option string; cr_targets : list DeliveryTarget; cr_routed_at : Z
}.

(** [_SourceRouteCommitRequest] and its [validate_decision]. *)
Definition mk_commit_request (d : RouteSourceDescriptor) (policy : string) (seq : Z)
    (signal : SignalEnvelope) (kind : RouteDecisionKind) (fingerprint : string)
    (reason : option string) (targets : list DeliveryTarget) (routed_at : pydatetime)
    : res commit_request :=
  d <~ validate_descriptor d ;;
  let policy := strip policy in
  let fingerprint := strip fingerprint in
  let reason := opt_strip reason in
  raise_if negb (is_hex64 policy && (1 <=? seq) && is_hex64 fingerprint && opt_nonempty reason)
    as ValueError saying "field out of range" ;;
  signal <~ validate_signal false signal ;;
  routed <~ normalize_aware_utc routed_at ;;
  let no_targets := bool_decide (targets = []) in
  let no_reason := bool_decide (reason = None) in
  raise_if bool_decide (kind = ROUTE) && (no_targets || negb no_reason)
    as ValueError saying "ROUTE requires targets and forbids reason_code" ;;
  raise_if bool_decide (kind = NO_TARGET) && (negb no_targets || no_reason)
    as ValueError saying "NO_TARGET requires reason_code and forbids targets" ;;
  expected <~ routing_decision_fingerprint policy kind targets reason ;;
  raise_if negb (eqs fingerprint expected)
    as ValueError saying "decision_fingerprint does not match routing decision" ;;
  Ok {| cr_descriptor := d; cr_routing_policy := policy; cr_source_sequence := seq;
        cr_signal := signal; cr_kind := kind; cr_fingerprint := fingerprint;
        cr_reason_code := reason; cr_targets := targets; cr_routed_at := routed |}.

(** The branch of a sequence that has its receipt already. *)
Definition commit_duplicate (req : commit_request) (sid manifest_hash : string)
    (existing : receipt_row) (b : bus) : res (bus * (SignalRouteReceipt * bool)) :=
  stored <~ route_receipt_from_row existing ;;
  raise_if negb (eqs (sr_signal_id stored) sid)
           || negb (eqs (sr_decision_fingerprint stored) (cr_fingerprint req))
           || negb (eqs (sr_manifest_hash stored) manifest_hash)
           || negb (bool_decide (sr_reason_code stored = cr_reason_code req))
    as SignalRouteConflictError
    saying "source sequence was already routed with a different decision" ;;
  bind (b', ingested) from ingest_in_transaction (cr_signal req) (cr_routed_at req) b ;;
  raise_if bool_decide (rr_disposition ingested = QUARANTINED) as SignalRouteConflictError
    saying "source sequence signal payload conflicts with the stored signal" ;;
  Ok (b', (stored, true)).

Definition set_cursor (seq : Z) (sid : string) (at_ : Z) (r : source_row) : source_row :=
  {| so_source_id := so_source_id r; so_generation_id := so_generation_id r;
     so_strategy_spec := so_strategy_spec r; so_routing_policy := so_routing_policy r;
     so_first_sequence := so_first_sequence r; so_observed_high := so_observed_high r;
     so_last_sequence := seq; so_last_signal_id := Some sid;
     so_registered_at := so_registered_at r; so_updated_at := at_ |}.

(** The guards of a new sequence, in order. *)
Definition commit_guards (req : commit_request) (sid : string) (source : source_row) (b : bus)
    : res unit :=
  raise_if exists_row (receipt_signal sid) (receipts b) as SignalRouteConflictError
    saying "signal identity is already owned by another source receipt" ;;
  let expected := so_last_sequence source + 1 in
  raise_if negb (cr_source_sequence req =? expected) as SignalRouteSequenceError
    saying ("expected runner sequence " +:+ pretty expected +:+ ", got "
            +:+ pretty (cr_source_sequence req)) ;;
  raise_if d_high_watermark (cr_descriptor req) <? cr_source_sequence req
    as SignalRouteSequenceError saying "source sequence exceeds the declared high watermark" ;;
  raise_if cr_routed_at req <? s_available_at (cr_signal req)
    as ValueError saying "future signal cannot be committed to the route ledger" ;;
  let existing_targets : list DeliveryTarget := map row_target (select (for_signal sid) (outbox b)) in
  let same := bool_decide (existing_targets ⊆ cr_targets req)
              && bool_decide (cr_targets req ⊆ existing_targets) in
  raise_if negb (bool_decide (existing_targets = [])) && negb same as SignalRouteConflictError
    saying "existing outbox targets conflict with the frozen target manifest" ;;
  raise_if bool_decide (cr_kind req = NO_TARGET) && negb (bool_decide (existing_targets = []))
    as SignalRouteConflictError saying "no-target decision conflicts with existing outbox targets" ;;
  Ok tt.

(** The branch of a new sequence: ingest, route, write the receipt, move the cursor. *)
Definition commit_new (req : commit_request) (sid manifest_json : string) (source : source_row)
    (b : bus) : res (bus * (SignalRouteReceipt * bool)) :=
  let source_id := d_source_id (cr_descriptor req) in
  _ <~ commit_guards req sid source b ;;
  bind (b1, ingested) from ingest_in_transaction (cr_signal req) (cr_routed_at req) b ;;
  raise_if bool_decide (rr_disposition ingested = QUARANTINED)
    as SignalRouteConflictError saying "signal payload was quarantined" ;;
  bind (b2, disposition) from match cr_kind req with
    | NO_TARGET => Ok (b1, RD_NO_TARGET)
    | ROUTE =>
        bind (b', _) from route_in_transaction sid (cr_targets req) (cr_routed_at req) b1 ;;
        Ok (b', if s_expires_at (cr_signal req) <=? cr_routed_at req then RD_EXPIRED else RD_ROUTED)
    end ;;
  let receipt := {| rc_source_id := source_id; rc_source_sequence := cr_source_sequence req;
    rc_signal_id := sid; rc_decision_fingerprint := cr_fingerprint req;
    rc_disposition := disposition; rc_reason_code := cr_reason_code req;
    rc_manifest_hash := payload_hash manifest_json; rc_manifest_json := manifest_json;
    rc_routed_at := cr_routed_at req |} in
  b3 <~ insert_receipt receipt b2 ;;
  let b4 := with_routes b3 (update (is_source source_id)
              (set_cursor (cr_source_sequence req) sid (cr_routed_at req)) (sources b3))
              (receipts b3) (rotations b3) in
  out <~ route_receipt_from_row receipt ;;
  Ok (b4, (out, false)).

Definition commit_source_route (d : RouteSourceDescriptor) (policy : string) (seq : Z)
    (signal : SignalEnvelopeFamily) (kind : RouteDecisionKind) (fingerprint : string)
    (reason : option string) (targets : list DeliveryTarget) (routed_at : pydatetime) (b : bus)
    : bus * res (SignalRouteReceipt * bool) :=
  txn b (
    signal <~ require_legacy_signal_write signal "SignalBusStore.commit_source_route" ;;
    canonical <~ canonical_delivery_targets targets ;;
    req <~ mk_commit_request d policy seq signal kind fingerprint reason canonical routed_at ;;
    let manifest_json := manifest_payload (cr_targets req) in
    match s_signal_id (cr_signal req) with
    | None => Err (Raise ValueError "signal_id must be materialized before routing")
    | Some sid =>
        bind (b1, source, _) from bind_route_source_in_transaction
          {| br_descriptor := cr_descriptor req; br_routing_policy := cr_routing_policy req;
             br_observed_at := cr_routed_at req |} b ;;
        if negb (sql_int (cr_source_sequence req)) then too_large else
        bind (b2, out) from
          match fetchone (is_receipt (d_source_id (cr_descriptor req)) (cr_source_sequence req))
                  (receipts b1) with
          | Some existing => commit_duplicate req sid (payload_hash manifest_json) existing b1
          | None => commit_new req sid manifest_json source b1
          end ;;
        committed b2 out
    end).

(** *** Claiming, completing and recovering deliveries *)

(** [ORDER BY COALESCE(next_attempt_at, created_at), global_sequence, created_at, outbox_id]. *)
Definition due_at (o : outbox_row) : Z := default (o_created_at o) (o_next_attempt_at o).

Definition claim_compare (a b : outbox_row) : comparison :=
  match due_at a ?= due_at b with
  | Eq => match o_global_sequence a ?= o_global_sequence b with
          | Eq => match o_created_at a ?= o_created_at b with
                  | Eq => String.compare (o_outbox_id a) (o_outbox_id b)
                  | c => c end
          | c => c end
  | c => c
  end.
Definition claim_le (a b : outbox_row) : Prop := claim_compare a b <> Gt.
#[export] Instance claim_le_dec : RelDecision claim_le.
Proof. intros a b. unfold claim_le. apply _. Defined.

Definition is_due (now : Z) (o : outbox_row) : bool :=
  claimable o && (now <? o_expires_at o)
  && match o_next_attempt_at o with Some n => n <=? now | None => true end.

(** [ORDER BY global_sequence, recipient_id, channel, outbox_id]. *)
Definition listing_le (a b : outbox_row) : Prop :=
  match o_global_sequence a ?= o_global_sequence b with
  | Lt => True | Gt => False | Eq => outbox_key_le a b end.
#[export] Instance listing_le_dec : RelDecision listing_le.
Proof. intros a b. unfold listing_le. destruct (_ ?= _); apply _. Defined.

Definition rows_for_outbox_ids (b : bus) (ids : list string) : list outbox_row :=
  merge_sort listing_le (select (fun o => bool_decide (o_outbox_id o ∈ ids)) (outbox b)).

Definition lease_row (worker : string) (now until : Z) (o : outbox_row) : outbox_row :=
  set_status LEASED (o_attempt_count o + 1) None (Some worker) (Some now) (Some until)
    (o_last_error o) now o.

(** One candidate: the lease ends with the signal at the latest. *)
Definition claim_one (worker : string) (now lease_for : Z) (row : outbox_row) (b : bus) : res bus :=
  until <~ add_us now lease_for ;;
  let lease_until := Z.min until (o_expires_at row) in
  Ok (with_outbox b (update (is_outbox (o_outbox_id row)) (lease_row worker now lease_until) (outbox b))).

(** The sweep [claim_due] starts with: due rows whose signal has expired. *)
Definition expire_due (now : Z) (b : bus) : bus :=
  with_outbox b (update (fun o => claimable o && (o_expires_at o <=? now))
    (expire "signal expired before delivery claim" now) (outbox b)).

Definition candidates (now limit : Z) (b : bus) : list outbox_row :=
  take (Z.to_nat limit) (merge_sort claim_le (select (is_due now) (outbox b))).

Definition claim_due (worker_id : string) (now : pydatetime) (lease_for limit : Z) (b : bus)
    : bus * res (list OutboxRecord) :=
  let worker := strip worker_id in
  txn b (
    claimed_at <~ normalize_aware_utc now ;;
    raise_if negb (nonempty worker) as ValueError saying "worker_id must not be empty" ;;
    raise_if lease_for <=? 0 as ValueError saying "lease_for must be positive" ;;
    raise_if limit <? 1 as ValueError saying "limit must be positive" ;;
    let b1 := expire_due claimed_at b in
    if negb (sql_int limit) then too_large else
    let rows := candidates claimed_at limit b1 in
    b2 <~ rfold (claim_one worker claimed_at lease_for) rows b1 ;;
    out <~ rmap outbox_from_row (rows_for_outbox_ids b2 (map o_outbox_id rows)) ;;
    committed b2 out).

(** The checks that a caller holds the lease; [_require_time] refuses a missing column. *)
Definition lease_holder (row : outbox_row) (worker_id : string) (attempt_no : Z) : res unit :=
  raise_if negb (status_is (o_status row) LEASED)
    as SignalBusLeaseError saying "outbox does not have an active lease" ;;
  raise_if negb (bool_decide (o_lease_owner row = Some worker_id))
    as SignalBusLeaseError saying "lease owner does not match worker" ;;
  raise_if negb (o_attempt_count row =? attempt_no)
    as SignalBusLeaseError saying "attempt number does not match active lease" ;;
  Ok tt.

Definition require_time (t : option Z) : res Z :=
  match t with
  | Some t => Ok t
  | None => Err (Raise ValueError "stored datetime is unexpectedly NULL")
  end.

Definition verify_lease (row : outbox_row) (worker_id : string) (attempt_no completed : Z) : res unit :=
  _ <~ lease_holder row worker_id attempt_no ;;
  started <~ require_time (o_lease_started_at row) ;;
  until <~ require_time (o_lease_until row) ;;
  raise_if completed <? started
    as SignalBusLeaseError saying "completion precedes lease start" ;;
  raise_if until <=? completed
    as SignalBusLeaseError saying "delivery lease has expired" ;;
  Ok tt.

Definition missing_outbox {A} (oid : string) : res A :=
  Err (Raise KeyError ("outbox " +:+ py_repr oid +:+ " does not exist")).

(** What [_complete] makes of a row after a failure: the next state and its error text. *)
Definition failure_state (row : outbox_row) (attempt_no completed : Z) (error : string)
    : res (OutboxStatus * option Z * string) :=
  delay <~ retry_delay cfg attempt_no ;;
  retry_at <~ add_us completed delay ;;
  if (o_expires_at row <=? completed) || (o_expires_at row <=? retry_at)
  then Ok (EXPIRED, None, "delivery window expired after failure: " +:+ error)
  else if max_attempts cfg <=? attempt_no then Ok (DEAD_LETTER, None, error)
  else Ok (RETRY, Some retry_at, error).

Definition unlease (st : OutboxStatus) (count : Z) (next : option Z) (err : option string)
    (at_ : Z) (o : outbox_row) : outbox_row :=
  set_status st count next None None None err at_ o.

(** [_complete]: [outcome] is the provider's receipt or the error. *)
Definition complete (oid worker_id : string) (attempt_no : Z) (completed_at : pydatetime)
    (outcome : string + string) (b : bus) : bus * res OutboxRecord :=
  txn b (
    completed <~ normalize_aware_utc completed_at ;;
    match fetchone (is_outbox oid) (outbox b) with
    | None => missing_outbox oid
    | Some row =>
        _ <~ verify_lease row worker_id attempt_no completed ;;
        started <~ require_time (o_lease_started_at row) ;;
        b1 <~ insert_attempt {| at_outbox_id := oid; at_attempt_no := attempt_no;
                at_started_at := started; at_completed_at := completed;
                at_success := match outcome with inl _ => true | inr _ => false end;
                at_provider_receipt := match outcome with inl r => Some r | inr _ => None end;
                at_error := match outcome with inl _ => None | inr e => Some e end |} b ;;
        bind (st, next, err) from match outcome with
          | inl _ => Ok (SUCCEEDED, None, None)
          | inr e => bind (st, next, text) from failure_state row attempt_no completed e ;;
                     Ok (st, next, Some text)
          end ;;
        let b2 := with_outbox b1 (update (is_outbox oid)
                    (fun o => unlease st (o_attempt_count o) next err completed o) (outbox b1)) in
        out <~ outbox_from_row (unlease st (o_attempt_count row) next err completed row) ;;
        committed b2 out
    end).

Definition complete_success (oid worker_id : string) (attempt_no : Z) (completed_at : pydatetime)
    (receipt : string) (b : bus) : bus * res OutboxRecord :=
  if negb (nonempty (strip receipt))
  then (b, Err (Raise ValueError "provider_receipt must not be empty"))
  else complete oid worker_id attempt_no completed_at (inl receipt) b.

Definition complete_failure (oid worker_id : string) (attempt_no : Z) (completed_at : pydatetime)
    (error : string) (b : bus) : bus * res OutboxRecord :=
  if negb (nonempty (strip error)) then (b, Err (Raise ValueError "error must not be empty"))
  else complete oid worker_id attempt_no completed_at (inr error) b.

Definition release_unattempted (oid worker_id : string) (attempt_no : Z) (released_at : pydatetime)
    (reason : string) (b : bus) : bus * res OutboxRecord :=
  let reason := strip reason in
  txn b (
    raise_if negb (nonempty reason) as ValueError saying "reason must not be empty" ;;
    released <~ normalize_aware_utc released_at ;;
    match fetchone (is_outbox oid) (outbox b) with
    | None => missing_outbox oid
    | Some row =>
        _ <~ lease_holder row worker_id attempt_no ;;
        started <~ require_time (o_lease_started_at row) ;;
        raise_if released <? started
          as SignalBusLeaseError saying "release precedes lease start" ;;
        let expired := o_expires_at row <=? released in
        let st := if expired then EXPIRED else RETRY in
        let next := if expired then None else Some released in
        let err := Some ("not attempted: " +:+ reason) in
        if o_attempt_count row - 1 <? 0 then integrity "CHECK(attempt_count >= 0)" else
        let b1 := with_outbox b (update (is_outbox oid)
                    (fun o => unlease st (o_attempt_count o - 1) next err released o) (outbox b)) in
        out <~ outbox_from_row (unlease st (o_attempt_count row - 1) next err released row) ;;
        committed b1 out
    end).

Definition unknown_text (reason : string) : string := "delivery outcome unknown: " +:+ reason.

(** [UnknownDeliveryEvidence]: the contract's field checks. *)
Definition validate_unknown (u : unknown_row) : res unknown_row :=
  let u := {| n_outbox_id := strip (n_outbox_id u); n_attempt_no := n_attempt_no u;
              n_worker_id := strip (n_worker_id u); n_observed_at := n_observed_at u;
              n_reason := strip (n_reason u);
              n_provider_receipt := opt_strip (n_provider_receipt u) |} in
  raise_if negb (is_hex64 (n_outbox_id u) && (1 <=? n_attempt_no u) && nonempty (n_worker_id u)
                 && nonempty (n_reason u) && opt_nonempty (n_provider_receipt u))
    as ValueError saying "field out of range" ;;
  Ok u.

Definition record_unknown_delivery (oid worker_id : string) (attempt_no : Z)
    (observed_at : pydatetime) (reason : string) (provider_receipt : option string) (b : bus)
    : bus * res unknown_row :=
  let reason := strip reason in
  let receipt := opt_strip provider_receipt in
  txn b (
    raise_if negb (nonempty reason) as ValueError saying "reason must not be empty" ;;
    raise_if negb (opt_nonempty receipt)
      as ValueError saying "provider_receipt must not be empty when present" ;;
    observed <~ normalize_aware_utc observed_at ;;
    evidence <~ validate_unknown {| n_outbox_id := oid; n_attempt_no := attempt_no;
      n_worker_id := worker_id; n_observed_at := observed; n_reason := reason;
      n_provider_receipt := receipt |} ;;
    match fetchone (is_outbox oid) (outbox b) with
    | None => missing_outbox oid
    | Some row =>
        _ <~ lease_holder row worker_id attempt_no ;;
        started <~ require_time (o_lease_started_at row) ;;
        raise_if observed <? started
          as SignalBusLeaseError saying "unknown outcome precedes lease start" ;;
        match fetchone (is_unknown_no oid attempt_no) (unknowns b) with
        | Some existing =>
            restored <~ validate_unknown existing ;;
            raise_if negb (bool_decide (restored = evidence))
              as SignalBusLeaseError saying "unknown delivery evidence is immutable" ;;
            committed b restored
        | None =>
            b1 <~ insert_unknown {| n_outbox_id := oid; n_attempt_no := attempt_no;
                    n_worker_id := worker_id; n_observed_at := observed; n_reason := reason;
                    n_provider_receipt := receipt |} b ;;
            let b2 := with_outbox b1 (update (is_outbox oid) (fun o =>
                        set_status (o_status o) (o_attempt_count o) (o_next_attempt_at o)
                          (o_lease_owner o) (o_lease_started_at o) (o_lease_until o)
                          (Some (unknown_text reason)) observed o) (outbox b1)) in
            committed b2 evidence
        end
    end).

(** [ORDER BY lease_until, global_sequence, outbox_id]. *)
Definition recover_le (a b : outbox_row) : Prop :=
  match default 0 (o_lease_until a) ?= default 0 (o_lease_until b) with
  | Lt => True | Gt => False
  | Eq => match o_global_sequence a ?= o_global_sequence b with
          | Lt => True | Gt => False
          | Eq => String.compare (o_outbox_id a) (o_outbox_id b) <> Gt end
  end.
#[export] Instance recover_le_dec : RelDecision recover_le.
Proof. intros a b. unfold recover_le. repeat case_match; apply _. Defined.

Definition lease_expired (now : Z) (o : outbox_row) : bool :=
  status_is (o_status o) LEASED
  && match o_lease_until o with Some u => u <=? now | None => false end.

Fixpoint starts_with (p s : string) : bool :=
  match p, s with
  | EmptyString, _ => true
  | String c p, String d s => Ascii.eqb c d && starts_with p s
  | _, EmptyString => false
  end.

Definition recovered_error (expired : bool) (last : option string) : string :=
  let text := if expired then "delivery outcome unknown after signal expiry"%string
              else "delivery outcome unknown after lease expiry"%string in
  match last with
  | Some e => if starts_with "delivery outcome unknown:" e then text +:+ ": " +:+ e else text
  | None => text
  end.

Definition recover_one (now : Z) (row : outbox_row) (b : bus) : bus :=
  let expired := o_expires_at row <=? now in
  with_outbox b (update (is_outbox (o_outbox_id row)) (fun o =>
    unlease (if expired then EXPIRED else DEAD_LETTER) (o_attempt_count o) None
      (Some (recovered_error expired (o_last_error row))) now o) (outbox b)).

Definition recover_expired_leases (now : pydatetime) (b : bus) : bus * res (list OutboxRecord) :=
  txn b (
    recovered_at <~ normalize_aware_utc now ;;
    let rows := merge_sort recover_le (select (lease_expired recovered_at) (outbox b)) in
    let b1 := fold_left (fun b row => recover_one recovered_at row b) rows b in
    out <~ rmap outbox_from_row (rows_for_outbox_ids b1 (map o_outbox_id rows)) ;;
    committed b1 out).

Definition outbox_record (oid : string) (b : bus) : res (option OutboxRecord) :=
  match fetchone (is_outbox oid) (outbox b) with
  | None => Ok None
  | Some row => r <~ outbox_from_row row ;; Ok (Some r)
  end.

Definition outbox_records (sid : option string) (st : option OutboxStatus) (b : bus)
    : res (list OutboxRecord) :=
  rmap outbox_from_row (merge_sort listing_le (select (fun o =>
    match sid with Some sid => for_signal sid o | None => true end
    && match st with Some st => status_is (o_status o) st | None => true end) (outbox b))).
(** *** Listings *)

(** [quarantines]: [ORDER BY quarantine_sequence] is insertion order. *)
Definition quarantines (sid : option string) (b : bus) : list quarantine_row :=
  select (fun q => match sid with Some sid => eqs (q_signal_id q) sid | None => true end) (quarantine b).

(** [ORDER BY source_id, source_sequence]. *)
Definition receipt_le (a b : receipt_row) : Prop :=
  match String.compare (rc_source_id a) (rc_source_id b) with
  | Lt => True | Gt => False | Eq => rc_source_sequence a <= rc_source_sequence b end.
#[export] Instance receipt_le_dec : RelDecision receipt_le.
Proof. intros a b. unfold receipt_le. destruct (String.compare _ _); apply _. Defined.

Definition route_receipts (source_id : option string) (b : bus) : res (list SignalRouteReceipt) :=
  match source_id with
  | None => rmap route_receipt_from_row (merge_sort receipt_le (receipts b))
  | Some id =>
      let normalized := strip id in
      raise_if negb (nonempty normalized) as ValueError saying "source_id must not be empty" ;;
      rmap route_receipt_from_row (merge_sort receipt_le (select (of_source normalized) (receipts b)))
  end.

(** [ORDER BY started_at, outbox_id, attempt_no]; for one outbox id only the number differs. *)
Definition attempt_le (a b : OutboxAttempt) : Prop :=
  match at_started_at a ?= at_started_at b with
  | Lt => True | Gt => False
  | Eq => match String.compare (at_outbox_id a) (at_outbox_id b) with
          | Lt => True | Gt => False | Eq => at_attempt_no a <= at_attempt_no b end
  end.
#[export] Instance attempt_le_dec : RelDecision attempt_le.
Proof. intros a b. unfold attempt_le. repeat case_match; apply _. Defined.

Definition attempt_no_le (a b : OutboxAttempt) : Prop := at_attempt_no a <= at_attempt_no b.
#[export] Instance attempt_no_le_dec : RelDecision attempt_no_le.
Proof. intros a b. unfold attempt_no_le. apply _. Defined.

Definition list_attempts (oid : option string) (b : bus) : res (list OutboxAttempt) :=
  rmap validate_attempt
    match oid with
    | None => merge_sort attempt_le (attempts b)
    | Some oid => merge_sort attempt_no_le (select (fun a => eqs (at_outbox_id a) oid) (attempts b))
    end.

(** [ORDER BY observed_at, outbox_id, attempt_no]; for one outbox id only the number differs. *)
Definition unknown_le (a b : unknown_row) : Prop :=
  match n_observed_at a ?= n_observed_at b with
  | Lt => True | Gt => False
  | Eq => match String.compare (n_outbox_id a) (n_outbox_id b) with
          | Lt => True | Gt => False | Eq => n_attempt_no a <= n_attempt_no b end
  end.
#[export] Instance unknown_le_dec : RelDecision unknown_le.
Proof. intros a b. unfold unknown_le. repeat case_match; apply _. Defined.

Definition unknown_no_le (a b : unknown_row) : Prop := n_attempt_no a <= n_attempt_no b.
#[export] Instance unknown_no_le_dec : RelDecision unknown_no_le.
Proof. intros a b. unfold unknown_no_le. apply _. Defined.

Definition unknown_deliveries (oid : option string) (b : bus) : res (list unknown_row) :=
  rmap validate_unknown
    match oid with
    | None => merge_sort unknown_le (unknowns b)
    | Some oid => merge_sort unknown_no_le (select (fun u => eqs (n_outbox_id u) oid) (unknowns b))
    end.

(** The join of [routed_signals_after_global_sequence], in sequence order. *)
Definition routed_le (a b : envelope_row * receipt_row) : Prop :=
  e_global_sequence (fst a) <= e_global_sequence (fst b).
#[export] Instance routed_le_dec : RelDecision routed_le.
Proof. intros a b. unfold routed_le. apply _. Defined.

Definition routed_page (b : bus) (after through limit : Z) : list (envelope_row * receipt_row) :=
  take (Z.to_nat limit) (merge_sort routed_le
    (flat_map (fun e =>
       if (after <? e_global_sequence e) && (e_global_sequence e <=? through)
       then map (pair e) (select (receipt_signal (e_signal_id e)) (receipts b)) else [])
     (envelopes b))).

Fixpoint routed_records (expected : Z) (rows : list (envelope_row * receipt_row))
    : res (list (SignalBusSignalRecord * SignalRouteReceipt)) :=
  match rows with
  | [] => Ok []
  | (row, receipt) :: rows =>
      if negb (e_global_sequence row =? expected) then
        Err (Raise SignalBusSourceSequenceError
          ("routed signal sequence gap: expected " +:+ pretty expected +:+ ", observed "
           +:+ pretty (e_global_sequence row)))
      else
        signal <~ parse_signal_envelope (e_payload_json row) ;;
        r <~ route_receipt_from_row receipt ;;
        record <~ mk_signal_record row signal ;;
        raise_if negb (eqs (sr_signal_id r) (sg_signal_id record))
          as ValueError saying "route receipt signal_id does not match signal payload" ;;
        rest <~ routed_records (expected + 1) rows ;;
        Ok ((record, r) :: rest)
  end.

Definition routed_signals_after_global_sequence (after through limit : Z) (b : bus)
    : res (list (SignalBusSignalRecord * SignalRouteReceipt)) :=
  _ <~ check_page b after through limit ;;
  _ <~ check_watermark b after through limit ;;
  let rows := routed_page b after through limit in
  raise_if (after <? through) && is_nil rows as SignalBusSourceSequenceError
    saying "routed signal sequence is missing below the requested high watermark" ;;
  routed_records (after + 1) rows.
End Methods.

(** [recover_signal_bus_high_watermark]. *)
Definition recover_signal_bus_high_watermark (acknowledgement : string) (now : pydatetime) (b : bus)
    : bus * res recovery_row :=
  let reason := strip acknowledgement in
  txn b (
    raise_if negb (nonempty reason)
      as ValueError saying "watermark recovery requires a nonempty acknowledgement" ;;
    recovered_at <~ normalize_aware_utc now ;;
    let '(persisted, observed) := read_high_watermark_state b in
    raise_if bool_decide (persisted = Some observed) as SignalBusWatermarkError
      saying ("signal bus high watermark is already consistent at " +:+ pretty observed) ;;
    raise_if match persisted with Some p => observed <? p | None => false end
      as SignalBusWatermarkError saying ("watermark recovery never lowers the high watermark: metadata "
        +:+ pretty (default 0 persisted) +:+ ", rows " +:+ pretty observed) ;;
    raise_if match persisted with Some p => negb (0 <=? p) || (observed <=? p) | None => false end
      as ValueError saying "recovery never lowers or repeats the high watermark" ;;
    let recovery := {| rv_acknowledgement := reason; rv_previous_watermark := persisted;
                       rv_observed_max_sequence := observed; rv_recovered_watermark := observed;
                       rv_recovered_at := recovered_at |} in
    committed (with_metadata b (Some observed) (md_generation b) (md_policy b)
                 (recoveries b ++ [recovery])) recovery).
