(* ===== verification/SignalBusInv.v ===== *)
(** * Signal bus: the delivery invariant

    [wf_row] relates an outbox row to the attempts recorded for it; every method keeps it for
    every row.  It carries the delivery guarantees: leases are bounded by the signal's
    expiry, attempts are numbered without gaps up to [max_attempts], and a success is
    recorded once and ends the row. *)

From Stdlib Require Import ZArith Lia Bool.
From stdpp Require Import base list strings gmap sorting pretty.
From S2P Require Import Prelude Clock DeliveryContracts SignalBus.
Open Scope Z_scope.
Open Scope rq_scope.

(** The attempts recorded for an outbox id, oldest first. *)
Definition history (oid : string) (b : bus) : list OutboxAttempt :=
  select (fun a => eqs (at_outbox_id a) oid) (attempts b).

(** A loop of single-row updates over distinct rows of the table is one update. *)
Lemma fold_update_keyed (G : outbox_row -> outbox_row -> outbox_row) (F : outbox_row -> outbox_row)
    rows t :
  List.NoDup (map o_outbox_id t) -> List.NoDup (map o_outbox_id rows) ->
  (forall r, In r rows -> In r t) -> (forall r, G r r = F r) ->
  (forall r o, o_outbox_id (G r o) = o_outbox_id o) ->
  fold_left (fun t r => update (is_outbox (o_outbox_id r)) (G r) t) rows t
  = update (fun o => bool_decide (o_outbox_id o ∈ map o_outbox_id rows)) F t.
Proof.
  revert t. induction rows as [|r rows IH]; intros t Ht Hr Hsub HG Hid.
  - cbn. symmetry. apply update_none. intros o _. apply bool_decide_eq_false. set_solver.
  - cbn [fold_left map]. cbn [map] in Hr. inversion_clear Hr as [|? ? Hni Hr'].
    rewrite IH; [| |done| |done|done].
    + unfold update. rewrite map_map. apply map_ext_in. intros o Ho.
      unfold is_outbox. destruct (eqs (o_outbox_id o) (o_outbox_id r)) eqn:E; str_hyps.
      * rewrite Hid. assert (o = r) as ->.
        { apply (NoDup_key_eq o_outbox_id t); [done|done|by apply Hsub; left|done]. }
        rewrite bool_decide_eq_false_2 by (rewrite list_elem_of_In; done).
        rewrite bool_decide_eq_true_2 by set_solver. apply HG.
      * rewrite (bool_decide_ext _ (o_outbox_id o ∈ o_outbox_id r :: map o_outbox_id rows)); [done|].
        set_solver.
    + rewrite update_map_key by auto. done.
    + intros r' Hr1. apply In_update. exists r'. split; [apply Hsub; by right|].
      unfold is_outbox. rewrite (proj2 (eqs_false _ _)); [done|]. intros E. apply Hni.
      rewrite <- E. by apply in_map.
Qed.

(** The fields of a row that depend on its status. *)
Definition status_ok (max : Z) (k : Z) (o : outbox_row) : Prop :=
  match o_status o with
  | PENDING =>
      o_attempt_count o = 0 /\ k = 0 /\ o_next_attempt_at o = None /\ o_lease_owner o = None
      /\ o_lease_started_at o = None /\ o_lease_until o = None /\ o_updated_at o < o_expires_at o
      /\ o_last_error o = None
  | RETRY =>
      o_attempt_count o = k /\ k < max /\ o_lease_owner o = None
      /\ o_lease_started_at o = None /\ o_lease_until o = None /\ o_updated_at o < o_expires_at o
      /\ (exists n, o_next_attempt_at o = Some n /\ o_updated_at o <= n < o_expires_at o)
      /\ (exists e, o_last_error o = Some e /\ nonempty (strip e) = true)
  | LEASED =>
      o_attempt_count o = k + 1 /\ k < max /\ o_next_attempt_at o = None
      /\ (exists w, o_lease_owner o = Some w /\ strip w = w /\ nonempty w = true)
      /\ (exists s u, o_lease_started_at o = Some s /\ o_lease_until o = Some u
            /\ o_created_at o <= s < u /\ u <= o_expires_at o /\ s <= o_updated_at o)
      /\ opt_nonempty (opt_strip (o_last_error o)) = true
  | SUCCEEDED =>
      o_attempt_count o = k /\ 1 <= k <= max /\ o_next_attempt_at o = None /\ o_lease_owner o = None
      /\ o_lease_started_at o = None /\ o_lease_until o = None /\ o_last_error o = None
  | EXPIRED | DEAD_LETTER =>
      k <= o_attempt_count o <= k + 1 /\ o_attempt_count o <= max /\ o_next_attempt_at o = None
      /\ o_lease_owner o = None /\ o_lease_started_at o = None /\ o_lease_until o = None
      /\ (exists e, o_last_error o = Some e /\ nonempty (strip e) = true)
  end.

(** The recorded attempts: numbered from one, and a success only at the end. *)
Record history_ok (o : outbox_row) (h : list OutboxAttempt) : Prop := {
  ho_numbers : forall i a, nth_error h i = Some a -> at_attempt_no a = Z.of_nat i + 1;
  ho_success : forall i a, nth_error h i = Some a -> at_success a = true ->
    S i = length h /\ o_status o = SUCCEEDED;
  ho_succeeded : o_status o = SUCCEEDED -> exists a, last h = Some a /\ at_success a = true
}.

Section Rows.
Context `{Codec} (max : Z) (max_pos : 1 <= max).

Record wf_row (h : list OutboxAttempt) (o : outbox_row) : Prop := {
  wr_times : o_created_at o < o_expires_at o /\ o_created_at o <= o_updated_at o;
  wr_ids : is_hex64 (o_signal_id o) = true /\ is_hex64 (o_outbox_id o) = true
           /\ strip (o_recipient_id o) = o_recipient_id o /\ nonempty (o_recipient_id o) = true
           /\ o_outbox_id o = delivery_sha256 (o_signal_id o) (o_recipient_id o) (o_channel o);
  wr_status : status_ok max (Z.of_nat (length h)) o;
  wr_history : history_ok o h
}.

(** Everything else about a row, when its status part changes. *)
Definition same_row (o o' : outbox_row) : Prop :=
  o_outbox_id o' = o_outbox_id o /\ o_signal_id o' = o_signal_id o
  /\ o_recipient_id o' = o_recipient_id o /\ o_channel o' = o_channel o
  /\ o_global_sequence o' = o_global_sequence o
  /\ o_expires_at o' = o_expires_at o /\ o_created_at o' = o_created_at o.

(** The envelope a row was routed from. *)
Definition linked (b : bus) (o : outbox_row) : Prop := exists e sig,
  In e (envelopes b) /\ e_signal_id e = o_signal_id o /\ e_global_sequence e = o_global_sequence o
  /\ parse_stored_signal e = Ok (Legacy sig) /\ s_expires_at sig = o_expires_at o.

Record Deliveries (b : bus) : Prop := {
  dv_signals : List.NoDup (map e_signal_id (envelopes b));
  dv_linked : forall o, In o (outbox b) -> linked b o;
  dv_keys : List.NoDup (map o_outbox_id (outbox b));
  dv_rows : forall o, In o (outbox b) -> wf_row (history (o_outbox_id o) b) o;
  dv_attempts : forall a, In a (attempts b) -> exists o, In o (outbox b)
                  /\ o_outbox_id o = at_outbox_id a
}.

Lemma wf_row_status h o o' : wf_row h o -> same_row o o' -> o_created_at o <= o_updated_at o' ->
  status_ok max (Z.of_nat (length h)) o' -> o_status o <> SUCCEEDED -> o_status o' <> SUCCEEDED ->
  wf_row h o'.
Proof.
  intros [[Ht1 Ht2] Hids _ [Hn Hs _]] (Hi & Hsg & Hr & Hc & _ & He & Hcr) Hu Hst Hns Hns'.
  constructor; [rewrite He, Hcr; lia|rewrite Hi, Hsg, Hr, Hc; done|done|].
  constructor; [done| |done]. intros i a Ha Hsu. by destruct (Hs i a Ha Hsu).
Qed.

Lemma linked_same b b' o o' : same_row o o' -> linked b o ->
  (forall e, In e (envelopes b) -> In e (envelopes b')) -> linked b' o'.
Proof.
  intros (_ & Hs & _ & _ & Hg & He & _) (e & sig & Hin & H1 & H2 & H3 & H4) Hsub.
  exists e, sig. rewrite Hs, Hg, He. auto.
Qed.

(** An update of rows that keeps their identity, on an unchanged history. *)
Lemma Deliveries_update b p f : Deliveries b ->
  (forall o, same_row o (f o)) ->
  (forall o, In o (outbox b) -> p o = true -> wf_row (history (o_outbox_id o) b) (f o)) ->
  Deliveries (with_outbox b (update p f (outbox b))).
Proof.
  intros [Hsg Hln Hk Hr Ha] Hf Hwf.
  assert (forall o, o_outbox_id (f o) = o_outbox_id o) as Hid by (intros o; apply Hf).
  constructor.
  - done.
  - cbn. intros o (o0 & H0 & ->)%In_update. destruct (p o0); [|by apply Hln].
    eapply linked_same; [apply Hf|by apply Hln|done].
  - cbn. by rewrite update_map_key.
  - cbn. intros o (o0 & H0 & ->)%In_update. change (history ?x (with_outbox b _)) with (history x b).
    destruct (p o0) eqn:E; [rewrite Hid; by apply Hwf|by apply Hr].
  - cbn. intros a (o & Ho & He)%Ha. exists (if p o then f o else o). split; [apply In_update; eauto|].
    destruct (p o); by rewrite ?Hid.
Qed.

Lemma outbox_key_eq b o o' : Deliveries b -> In o (outbox b) -> In o' (outbox b) ->
  o_outbox_id o' = o_outbox_id o -> o' = o.
Proof. intros D Ho Ho' He. by apply (NoDup_key_eq o_outbox_id (outbox b)); [apply D|..]. Qed.

(** The same, for the one row with a given identifier. *)
Lemma Deliveries_update_row b row f : Deliveries b -> In row (outbox b) ->
  (forall o, same_row o (f o)) ->
  wf_row (history (o_outbox_id row) b) (f row) ->
  Deliveries (with_outbox b (update (is_outbox (o_outbox_id row)) f (outbox b))).
Proof.
  intros D Hin Hid Hwf. apply Deliveries_update; [done|done|]. intros o Ho Hp.
  unfold is_outbox in Hp. str_hyps. by rewrite (outbox_key_eq b row o) by done.
Qed.

Lemma nonempty_strip c s : py_space c = false -> nonempty (strip (String c s)) = true.
Proof. intros Hc. unfold strip. cbn. rewrite Hc. cbn. destruct (rstrip s); by rewrite ?Hc. Qed.

(** *** Leasing *)

Lemma lease_row_wf h o worker now until : wf_row h o -> claimable o = true ->
  strip worker = worker -> nonempty worker = true -> o_created_at o <= now ->
  now < until <= o_expires_at o -> wf_row h (lease_row worker now until o).
Proof.
  intros W Hc Hw1 Hw2 Hcr Hu.
  assert (o_status o = PENDING \/ o_status o = RETRY) as Hst.
  { unfold claimable, status_is in Hc. apply orb_true_iff in Hc as [?|?]; bool_hyps; auto. }
  apply (wf_row_status h o); try done; [|destruct Hst; congruence].
  pose proof (wr_status _ _ W) as S. unfold status_ok in *. cbn. destruct Hst as [E|E]; rewrite E in S.
  - destruct S as (H1 & H2 & _ & _ & _ & _ & _ & H3). split_and!; try done; try lia.
    + eauto.
    + exists now, until. split_and!; try done; lia.
    + by rewrite H3.
  - destruct S as (H1 & H2 & _ & _ & _ & _ & _ & e & H3 & H4). split_and!; try done; try lia; eauto.
    + exists now, until. split_and!; try done; lia.
    + by rewrite H3.
Qed.

(** *** Ending a row or a lease without a provider answer *)

Lemma expire_wf h o why now : wf_row h o -> claimable o = true -> o_expires_at o <= now ->
  nonempty (strip why) = true -> wf_row h (expire why now o).
Proof.
  intros W Hc He Hw.
  assert (o_status o = PENDING \/ o_status o = RETRY) as Hst.
  { unfold claimable, status_is in Hc. apply orb_true_iff in Hc as [?|?]; bool_hyps; auto. }
  pose proof (wr_times _ _ W) as Ht.
  apply (wf_row_status h o); try done; [cbn; lia| |destruct Hst; congruence].
  pose proof (wr_status _ _ W) as S. unfold status_ok in *. cbn. destruct Hst as [E|E]; rewrite E in S.
  - destruct S as (? & ? & ? & ? & ? & ? & ? & ?). split_and!; try done; try lia. eauto.
  - destruct S as (? & ? & ? & ? & ? & ? & ? & ?). split_and!; try done; try lia. eauto.
Qed.

(** A leased row. *)
Lemma leased_inv h o : wf_row h o -> o_status o = LEASED ->
  exists w s u, o_lease_owner o = Some w /\ strip w = w /\ nonempty w = true
    /\ o_lease_started_at o = Some s /\ o_lease_until o = Some u
    /\ o_created_at o <= s < u /\ u <= o_expires_at o /\ s <= o_updated_at o
    /\ o_attempt_count o = Z.of_nat (length h) + 1 /\ Z.of_nat (length h) < max
    /\ o_next_attempt_at o = None /\ opt_nonempty (opt_strip (o_last_error o)) = true.
Proof.
  intros W E. pose proof (wr_status _ _ W) as S. unfold status_ok in S. rewrite E in S.
  destruct S as (? & ? & ? & (w & ? & ? & ?) & (s & u & ? & ? & ? & ? & ?) & ?).
  exists w, s, u. split_and!; done || lia.
Qed.

Lemma recover_wf h o now st err : wf_row h o -> lease_expired now o = true ->
  st = EXPIRED \/ st = DEAD_LETTER -> nonempty (strip err) = true ->
  wf_row h (unlease st (o_attempt_count o) None (Some err) now o).
Proof.
  intros W Hl Hst Herr. unfold lease_expired, status_is in Hl. apply andb_true_iff in Hl as [E Hu].
  bool_hyps. destruct (leased_inv h o W E) as (w & s & u & ? & ? & ? & ? & Hun & ? & ? & ? & ? & ? & ? & ?).
  rewrite Hun in Hu. bool_hyps.
  apply (wf_row_status h o); try done; [cbn; lia| |congruence|by destruct Hst as [-> | ->]].
  unfold status_ok. cbn. destruct Hst as [-> | ->]; split_and!; try done; try lia; eauto.
Qed.

Lemma release_wf h o released started reason : wf_row h o -> o_status o = LEASED ->
  o_lease_started_at o = Some started -> started <= released ->
  let expired := o_expires_at o <=? released in
  wf_row h (unlease (if expired then EXPIRED else RETRY) (o_attempt_count o - 1)
    (if expired then None else Some released) (Some ("not attempted: " +:+ reason)) released o).
Proof.
  intros W E Hs Hle expired.
  destruct (leased_inv h o W E) as (w & s & u & ? & ? & ? & Hs' & Hun & ? & ? & ? & ? & ? & ? & ?).
  rewrite Hs in Hs'. injection Hs' as <-.
  assert (nonempty (strip ("not attempted: " +:+ reason)) = true) by by apply nonempty_strip.
  apply (wf_row_status h o); try done; [cbn; lia| |congruence|by destruct expired].
  unfold status_ok. cbn. subst expired. destruct (Z.leb_spec (o_expires_at o) released); cbn;
    split_and!; try done; try lia; eauto.
  exists released. split; [done|lia].
Qed.

Lemma unknown_wf h o observed started reason : wf_row h o -> o_status o = LEASED ->
  o_lease_started_at o = Some started -> started <= observed ->
  wf_row h (set_status (o_status o) (o_attempt_count o) (o_next_attempt_at o) (o_lease_owner o)
    (o_lease_started_at o) (o_lease_until o) (Some (unknown_text reason)) observed o).
Proof.
  intros W E Hs Hle.
  destruct (leased_inv h o W E) as (w & s & u & ? & ? & ? & Hs' & Hun & ? & ? & ? & ? & ? & ? & ?).
  rewrite Hs in Hs'. injection Hs' as <-.
  apply (wf_row_status h o); try done; [cbn; lia| |cbn; congruence|cbn; congruence].
  unfold status_ok. cbn. rewrite E. split_and!; try done; try lia; eauto.
  - exists started, u. split_and!; try done; lia.
  - by apply nonempty_strip.
Qed.

(** *** Completing: the history grows by the attempt just made *)

Lemma nth_error_snoc {A} (l : list A) x i a : nth_error (l ++ [x]) i = Some a ->
  nth_error l i = Some a \/ i = length l /\ a = x.
Proof.
  intros Hn. destruct (Nat.lt_ge_cases i (length l)) as [Hlt|Hge].
  - left. by rewrite nth_error_app1 in Hn.
  - right. rewrite nth_error_app2 in Hn by done.
    destruct (i - length l)%nat as [|[|j]] eqn:Ej; cbn in Hn; try done.
    injection Hn as <-. split; [lia|done].
Qed.

Lemma complete_wf h o a st next err at_ : wf_row h o -> o_status o = LEASED ->
  at_attempt_no a = o_attempt_count o -> o_created_at o <= at_ ->
  (at_success a = true <-> st = SUCCEEDED) ->
  status_ok max (Z.of_nat (length h) + 1) (unlease st (o_attempt_count o) next err at_ o) ->
  wf_row (h ++ [a]) (unlease st (o_attempt_count o) next err at_ o).
Proof.
  intros W E Hno Hat Hsu Hst.
  destruct (leased_inv h o W E) as (_ & _ & _ & _ & _ & _ & _ & _ & _ & _ & _ & Hc & _).
  destruct W as [[Ht1 Ht2] Hids _ [Hn Hs _]].
  constructor; [cbn; lia|done|rewrite length_app; cbn [length]; by rewrite Nat2Z.inj_add|].
  constructor.
  - intros i x [Hx|[-> ->]]%nth_error_snoc; [by apply Hn|lia].
  - intros i x [Hx|[-> ->]]%nth_error_snoc Hsx.
    + destruct (Hs i x Hx Hsx). congruence.
    + split; [rewrite length_app; cbn; lia|]. by apply Hsu.
  - cbn. intros Hs'. exists a. split; [apply last_snoc|]. by apply Hsu.
Qed.
End Rows.

(** ** The methods keep the invariant *)

Section Methods.
Context `{Codec} (cfg : config) (max_pos : 1 <= max_attempts cfg).
Abbreviation wf_row := (wf_row (max_attempts cfg)).
Abbreviation Deliveries := (Deliveries (max_attempts cfg)).

Lemma Deliveries_ext b b' : envelopes b' = envelopes b -> outbox b' = outbox b ->
  attempts b' = attempts b -> Deliveries b -> Deliveries b'.
Proof.
  intros He Ho Ha [Hsg Hln Hk Hr Hat]. constructor; rewrite ?He, ?Ho, ?Ha; try done.
  - intros o Hin. unfold linked. rewrite He. by apply Hln.
  - intros o Hin. unfold history. rewrite Ha. by apply Hr.
Qed.

Lemma outbox_from_row_times o r : outbox_from_row o = Ok r -> o_created_at o <= o_updated_at o.
Proof.
  unfold outbox_from_row, validate_record. intros Hr. ok_inv Hr.
  match goal with H : record_times _ = Ok _ |- _ => rename H into Ht end.
  unfold record_times in Ht. cbn in Ht. ok_inv Ht; bool_hyps; done.
Qed.

Lemma NoDup_filter_key {R K} (key : R -> K) (p : R -> bool) t :
  List.NoDup (map key t) -> List.NoDup (map key (select p t)).
Proof.
  unfold select. induction t as [|x t IH]; cbn; [done|]. inversion_clear 1 as [|? ? Hni Hnd].
  destruct (p x); cbn; [|auto]. constructor; [|auto].
  intros (y & Hy & [Hin _]%filter_In)%in_map_iff. apply Hni. rewrite <- Hy. by apply in_map.
Qed.

Lemma candidates_spec now limit b r : In r (candidates now limit b) ->
  In r (outbox b) /\ is_due now r = true.
Proof.
  unfold candidates. intros Hr.
  assert (In r (merge_sort claim_le (select (is_due now) (outbox b)))) as Hs.
  { rewrite <- (take_drop (Z.to_nat limit)). apply in_app_iff. by left. }
  eapply Permutation_in in Hs; [|apply merge_sort_Permutation].
  unfold select in Hs. by apply filter_In in Hs.
Qed.

Lemma candidates_NoDup now limit b : List.NoDup (map o_outbox_id (outbox b)) ->
  List.NoDup (map o_outbox_id (candidates now limit b)).
Proof.
  intros Hnd. unfold candidates.
  assert (List.NoDup (map o_outbox_id (merge_sort claim_le (select (is_due now) (outbox b))))) as Hs.
  { eapply Permutation_NoDup; [symmetry; apply Permutation_map, merge_sort_Permutation|].
    by apply NoDup_filter_key. }
  rewrite <- (take_drop (Z.to_nat limit) (merge_sort _ _)), map_app in Hs.
  by apply NoDup_app_remove_r in Hs.
Qed.

Definition claimed_row (worker : string) (now lease_for : Z) (o : outbox_row) : outbox_row :=
  lease_row worker now (Z.min (now + lease_for) (o_expires_at o)) o.

(** The claim loop is one update of the candidates. *)
Lemma claim_loop worker now lease_for rows b b2 :
  List.NoDup (map o_outbox_id (outbox b)) -> List.NoDup (map o_outbox_id rows) ->
  (forall r, In r rows -> In r (outbox b)) ->
  rfold (claim_one worker now lease_for) rows b = Ok b2 ->
  b2 = with_outbox b (update (fun o => bool_decide (o_outbox_id o ∈ map o_outbox_id rows))
         (claimed_row worker now lease_for) (outbox b)).
Proof.
  intros Hk Hnd Hsub Hf.
  rewrite <- (fold_update_keyed
    (fun r o => lease_row worker now (Z.min (now + lease_for) (o_expires_at r)) o)
    (claimed_row worker now lease_for) rows (outbox b)) by done.
  clear Hk Hnd Hsub. revert b Hf. induction rows as [|r rows IH]; intros b Hf; cbn in *.
  - injection Hf as <-. by destruct b.
  - destruct (claim_one worker now lease_for r b) as [b'|] eqn:E; [|done]. cbn in Hf.
    apply IH in Hf as ->. unfold claim_one in E.
    apply rbind_ok in E as (u & [-> _]%add_us_ok & [= <-]). done.
Qed.

Lemma rows_for_ids_In b ids o : In o (outbox b) -> o_outbox_id o ∈ ids ->
  In o (rows_for_outbox_ids b ids).
Proof.
  intros Hin Hid. unfold rows_for_outbox_ids.
  eapply Permutation_in; [symmetry; apply merge_sort_Permutation|].
  unfold select. apply filter_In. split; [done|]. by apply bool_decide_eq_true.
Qed.

Lemma rmap_ok_In {A B} (f : A -> res B) l ys x : rmap f l = Ok ys -> In x l -> exists y, f x = Ok y.
Proof.
  revert ys. induction l as [|z l IH]; intros ys Hr Hx; [done|]. cbn in Hr. ok_inv Hr.
  destruct Hx as [->|Hx]; eauto.
Qed.

Lemma expire_due_Deliveries now b : Deliveries b -> Deliveries (expire_due now b).
Proof.
  intros D. apply Deliveries_update; [done|done|]. intros o Ho Hp. bool_hyps.
  apply expire_wf; try done. by apply D.
Qed.

Lemma claim_due_Deliveries worker now lease_for limit b : Deliveries b ->
  Deliveries (fst (claim_due worker now lease_for limit b)).
Proof.
  intros D. unfold claim_due. match goal with |- context [fst (txn ?s ?x)] =>
    destruct (txn_cases s x) as [->|(b' & r & Hb & ->)]; [done|] end.
  unfold committed in Hb. ok_inv Hb. bool_hyps.
  match goal with H : normalize_aware_utc _ = Ok ?t |- _ => set (t0 := t) in * end.
  pose proof (expire_due_Deliveries t0 b D) as D1. set (b1 := expire_due t0 b) in *.
  match goal with H : rfold _ _ _ = Ok _ |- _ => rename H into Hf end.
  match goal with H : rmap _ _ = Ok _ |- _ => rename H into Hval end.
  apply claim_loop in Hf as ->; [|apply D1|by apply candidates_NoDup, D1|intros ? ?%candidates_spec; tauto].
  set (rows := candidates t0 limit b1) in *.
  apply Deliveries_update; [done|done|]. intros o Ho Hp. bool_hyps.
  assert (o_created_at o <= t0) as Hcr.
  { eapply (rmap_ok_In _ _ _ (claimed_row (strip worker) t0 lease_for o)) in Hval as [y Hy];
      [by apply outbox_from_row_times in Hy|].
    apply (rows_for_ids_In _ _ (claimed_row (strip worker) t0 lease_for o)); [|done].
    cbn. apply In_update. exists o. split; [done|]. by rewrite bool_decide_eq_true_2. }
  assert (In o rows) as Hor.
  { apply list_elem_of_In, in_map_iff in Hp as (r & Hr & Hin).
    destruct (candidates_spec _ _ _ _ Hin) as [Hin' _].
    by rewrite (outbox_key_eq _ b1 r o) by done. }
  apply candidates_spec in Hor as [_ Hdue]. unfold is_due in Hdue. bool_hyps.
  apply lease_row_wf; try done; [by apply D1|apply strip_idem|lia].
Qed.

Lemma fetch_outbox b oid row : fetchone (is_outbox oid) (outbox b) = Some row ->
  In row (outbox b) /\ o_outbox_id row = oid.
Proof. intros [Hin Hp]%fetchone_Some. unfold is_outbox in Hp. by str_hyps. Qed.

Lemma lease_holder_ok row w n u : lease_holder row w n = Ok u ->
  o_status row = LEASED /\ o_lease_owner row = Some w /\ o_attempt_count row = n.
Proof.
  unfold lease_holder, status_is. intros Hl. ok_inv Hl. bool_hyps. done.
Qed.

Lemma require_time_ok t x : require_time t = Ok x -> t = Some x.
Proof. destruct t; cbn; [by intros [= ->]|done]. Qed.

(** Opening a method that raised before its commit, or looking into its body. *)
Ltac open_txn Hb :=
  match goal with |- context [fst (txn ?s ?x)] =>
    let b' := fresh "b'" in let r := fresh "r" in
    destruct (txn_cases s x) as [->|(b' & r & Hb & ->)]; [done|] end.

Ltac lease_facts := repeat match goal with
  | H : lease_holder _ _ _ = Ok _ |- _ => apply lease_holder_ok in H as (? & ? & ?)
  | H : require_time _ = Ok _ |- _ => apply require_time_ok in H
  | H : fetchone (is_outbox _) _ = Some _ |- _ => apply fetch_outbox in H as [? <-]
  end.

Lemma release_Deliveries oid w n at_ reason b : Deliveries b ->
  Deliveries (fst (release_unattempted oid w n at_ reason b)).
Proof.
  intros D. unfold release_unattempted. open_txn Hb. unfold committed in Hb. ok_inv Hb.
  all: lease_facts; bool_hyps; apply Deliveries_update_row; [done|done|done|].
  all: match goal with
         Ho : In ?o (outbox ?b0), Hs : o_lease_started_at ?o = Some ?s, D0 : SignalBusInv.Deliveries _ ?b0 |-
           context [unlease _ _ _ (Some (_ +:+ ?why)) ?t ?o] =>
         pose proof (release_wf _ _ o t s why (dv_rows _ b0 D0 o Ho)) as W; cbn zeta in W;
         destruct (Z.leb_spec (o_expires_at o) t); try lia; by apply W
       end.
Qed.

Lemma unknown_Deliveries oid w n at_ reason receipt b : Deliveries b ->
  Deliveries (fst (record_unknown_delivery oid w n at_ reason receipt b)).
Proof.
  intros D. unfold record_unknown_delivery. open_txn Hb. unfold committed in Hb. ok_inv Hb; [done|].
  lease_facts. bool_hyps.
  match goal with H : insert_unknown _ _ = Ok _ |- _ => unfold insert_unknown in H; ok_inv H end.
  change (outbox (with_unknowns b _)) with (outbox b).
  eapply (Deliveries_ext (with_outbox b _)); [reflexivity|reflexivity|reflexivity|].
  apply Deliveries_update_row; [done|done|done|]. eapply unknown_wf; try done. by apply D.
Qed.

(** The recovery loop is one update of the rows whose lease ran out. *)
Definition recovered_row (now : Z) (o : outbox_row) : outbox_row :=
  let expired := o_expires_at o <=? now in
  unlease (if expired then EXPIRED else DEAD_LETTER) (o_attempt_count o) None
    (Some (recovered_error expired (o_last_error o))) now o.

Lemma recover_loop now rows b :
  List.NoDup (map o_outbox_id (outbox b)) -> List.NoDup (map o_outbox_id rows) ->
  (forall r, In r rows -> In r (outbox b)) ->
  fold_left (fun b row => recover_one now row b) rows b
  = with_outbox b (update (fun o => bool_decide (o_outbox_id o ∈ map o_outbox_id rows))
      (recovered_row now) (outbox b)).
Proof.
  intros Hk Hnd Hsub.
  rewrite <- (fold_update_keyed (fun r o =>
    unlease (if o_expires_at r <=? now then EXPIRED else DEAD_LETTER) (o_attempt_count o) None
      (Some (recovered_error (o_expires_at r <=? now) (o_last_error r))) now o)
    (recovered_row now) rows (outbox b)) by done.
  clear Hk Hnd Hsub. revert b. induction rows as [|r rows IH]; intros b; cbn; [by destruct b|].
  by rewrite IH.
Qed.

Lemma recovered_error_nonempty e last : nonempty (strip (recovered_error e last)) = true.
Proof.
  unfold recovered_error. destruct last as [l|]; [destruct (starts_with _ l)|];
    destruct e; by apply nonempty_strip.
Qed.

Definition expired_rows (now : Z) (b : bus) : list outbox_row :=
  merge_sort recover_le (select (lease_expired now) (outbox b)).

Lemma expired_rows_In now b r : In r (expired_rows now b) <->
  In r (outbox b) /\ lease_expired now r = true.
Proof.
  unfold expired_rows. split.
  - intros Hs. eapply Permutation_in in Hs; [|apply merge_sort_Permutation].
    unfold select in Hs. by apply filter_In in Hs.
  - intros Hs. eapply Permutation_in; [symmetry; apply merge_sort_Permutation|].
    unfold select. by apply filter_In.
Qed.

Lemma expired_rows_NoDup now b : List.NoDup (map o_outbox_id (outbox b)) ->
  List.NoDup (map o_outbox_id (expired_rows now b)).
Proof.
  intros Hnd. eapply Permutation_NoDup; [symmetry; apply Permutation_map, merge_sort_Permutation|].
  by apply NoDup_filter_key.
Qed.

Lemma recover_Deliveries now b : Deliveries b -> Deliveries (fst (recover_expired_leases now b)).
Proof.
  intros D. unfold recover_expired_leases. open_txn Hb. unfold committed in Hb. ok_inv Hb.
  match goal with H : normalize_aware_utc _ = Ok ?t |- _ => set (t0 := t) in * end.
  fold (expired_rows t0 b) in *.
  rewrite recover_loop; [|apply D|by apply expired_rows_NoDup, D|intros ? ?%expired_rows_In; tauto].
  apply Deliveries_update; [done|done|]. intros o Ho Hp. bool_hyps.
  apply list_elem_of_In, in_map_iff in Hp as (r & Hr & [Hin Hexp]%expired_rows_In).
  assert (r = o) as -> by by apply (outbox_key_eq (max_attempts cfg) b).
  unfold recovered_row. apply recover_wf; try done.
  - by apply D.
  - destruct (_ <=? _); auto.
  - apply recovered_error_nonempty.
Qed.

(** *** Completion *)

Lemma history_snoc b a ob : history (at_outbox_id a)
    (with_outbox (with_attempts b (attempts b ++ [a])) ob)
  = history (at_outbox_id a) b ++ [a].
Proof.
  unfold history, select. cbn. rewrite List.filter_app. cbn. by rewrite eqs_refl.
Qed.

Lemma history_other b a ob oid : oid <> at_outbox_id a ->
  history oid (with_outbox (with_attempts b (attempts b ++ [a])) ob) = history oid b.
Proof.
  intros Hne. unfold history, select. cbn. rewrite List.filter_app. cbn.
  rewrite (proj2 (eqs_false _ _)) by done. by rewrite app_nil_r.
Qed.

Lemma Deliveries_complete b row a f : Deliveries b -> In row (outbox b) ->
  at_outbox_id a = o_outbox_id row -> (forall o, same_row o (f o)) ->
  wf_row (history (o_outbox_id row) b ++ [a]) (f row) ->
  Deliveries (with_outbox (with_attempts b (attempts b ++ [a]))
                (update (is_outbox (o_outbox_id row)) f (outbox b))).
Proof.
  intros D Hin Ha Hsame W.
  assert (forall o, o_outbox_id (f o) = o_outbox_id o) as Hf by (intros o; apply Hsame).
  constructor.
  - apply D.
  - cbn. intros o (o0 & H0 & ->)%In_update. case_goal; [|by apply D].
    eapply linked_same; [apply Hsame|by apply D|done].
  - cbn. rewrite update_map_key by done. apply D.
  - intros o (o0 & H0 & ->)%In_update. unfold is_outbox.
    destruct (eqs (o_outbox_id o0) (o_outbox_id row)) eqn:E; str_hyps.
    + assert (o0 = row) as -> by by apply (outbox_key_eq (max_attempts cfg) b).
      rewrite Hf, <- Ha, history_snoc, Ha. done.
    + rewrite history_other by congruence. by apply D.
  - cbn. intros a0 [H0| ->]%In_snoc.
    + destruct (dv_attempts _ _ D a0 H0) as (o & Ho & He).
      exists (if is_outbox (o_outbox_id row) o then f o else o).
      split; [apply In_update; eauto|]. case_goal; by rewrite ?Hf.
    + exists (f row). split; [|by rewrite Hf]. apply In_update. exists row. split; [done|].
      unfold is_outbox. by rewrite eqs_refl.
Qed.

Lemma failure_state_ok row n t e st next text h :
  wf_row h row -> o_status row = LEASED -> o_attempt_count row = n ->
  failure_state cfg row n t e = Ok (st, next, text) -> nonempty (strip e) = true ->
  0 <= retry_max_delay cfg -> 0 <= retry_base_delay cfg ->
  st <> SUCCEEDED
  /\ status_ok (max_attempts cfg) (Z.of_nat (length h) + 1) (unlease st n next (Some text) t row).
Proof.
  intros W E Hn Hf He Hmx Hbs.
  destruct (leased_inv _ h row W E) as (w & s & u & _ & _ & _ & _ & _ & _ & _ & _ & Hc & Hlt & _ & _).
  unfold failure_state in Hf. apply rbind_ok in Hf as (d & Hd & Hf).
  apply rbind_ok in Hf as (at_ & [-> _]%add_us_ok & Hf).
  assert (0 <= d) as Hd0.
  { unfold retry_delay, td_mul in Hd. apply rbind_ok in Hd as (x & Hx & [= <-]). ok_inv Hx.
    apply Z.min_glb; [|done].
    apply Z.mul_nonneg_nonneg; [done|]. apply Z.shiftl_nonneg. lia. }
  ok_inv Hf; bool_hyps; (split; [done|]); unfold status_ok; cbn; split_and!; try done; try lia; eauto.
  - eexists. split; [done|]. by apply nonempty_strip.
  - exists (t + d). split; [done|lia].
Qed.

Lemma bus_insert_attempt_ok a b b' : insert_attempt a b = Ok b' ->
  b' = with_attempts b (attempts b ++ [a]).
Proof. unfold insert_attempt. intros Hi. by ok_inv Hi. Qed.

Lemma complete_Deliveries oid w n at_ outcome b : Deliveries b ->
  0 <= retry_max_delay cfg -> 0 <= retry_base_delay cfg ->
  (forall e, outcome = inr e -> nonempty (strip e) = true) ->
  Deliveries (fst (complete cfg oid w n at_ outcome b)).
Proof.
  intros D Hmx Hbs Hout. unfold complete. open_txn Hb. unfold committed in Hb.
  apply rbind_ok in Hb as (t & _ & Hb).
  destruct (fetchone (is_outbox oid) (outbox b)) as [row|] eqn:Hrow; [|done].
  apply fetch_outbox in Hrow as [Hin <-].
  apply rbind_ok in Hb as (u & Hv & Hb). apply rbind_ok in Hb as (started & Hs & Hb).
  apply rbind_ok in Hb as (b1 & Hi & Hb). apply rbind_ok in Hb as ([[st next] err] & Hst & Hb).
  apply rbind_ok in Hb as (out & _ & [= <- _]).
  unfold verify_lease in Hv. apply rbind_ok in Hv as (u' & Hl & Hv). ok_inv Hv. lease_facts. bool_hyps.
  apply bus_insert_attempt_ok in Hi as ->. cbn [outbox with_attempts].
  pose proof (dv_rows _ b D row Hin) as W.
  destruct (leased_inv _ _ row W) as (w' & s9 & u9 & _ & _ & _ & Hs9 & _ & Hcs & _ & _ & Hc & Hlt & _); [done|].
  apply Deliveries_complete; [done|done|done|done|].
  assert (s9 = started) as -> by congruence.
  apply complete_wf; try done.
  - match goal with H : o_lease_started_at _ = Some ?x, H' : ?x <= _ |- _ => assert (x = started) by congruence end.
    lia.
  - destruct outcome; cbn; [injection Hst as <- _ _; done|].
    split; [done|]. intros ->. exfalso. apply rbind_ok in Hst as ([[st' n'] x'] & Hf & [= -> -> <-]).
    eapply failure_state_ok in Hf; try done; [by destruct Hf|by apply Hout].
  - destruct outcome as [rcp|e]; [injection Hst as <- <- <-; unfold status_ok; cbn; split_and!; done || lia|].
    apply rbind_ok in Hst as ([[st' n'] x'] & Hf & [= -> -> <-]).
    eapply failure_state_ok in Hf as [_ Hf]; try done; [by subst n|by apply Hout].
Qed.

(** *** Routing *)

Lemma validate_signal_ok c s s' : validate_signal c s = Ok s' ->
  s_available_at s' < s_expires_at s' /\ s_available_at s' = s_available_at s
  /\ s_expires_at s' = s_expires_at s /\ s_signal_id s' = Some (signal_identity c s)
  /\ s_event_time s' = s_event_time s /\ s_content s' = s_content s
  /\ (s_signal_id s <> None -> s' = s).
Proof.
  unfold validate_signal. intros Hv. ok_inv Hv; bool_hyps; str_hyps; cbn; split_and!; try done; try lia.
  congruence.
Qed.

Lemma parse_stored_legacy e s : parse_stored_signal e = Ok (Legacy s) ->
  s_available_at s < s_expires_at s /\ s_signal_id s = Some (e_signal_id e).
Proof.
  unfold parse_stored_signal. intros Hp. apply rbind_ok in Hp as (f & Hf & Hp). ok_inv Hp. bool_hyps.
  split; [|done]. unfold parse_signal_envelope in Hf.
  apply rbind_ok in Hf as (j & _ & Hf). unfold parse_decoded in Hf. ok_inv Hf.
  match goal with H : validate_signal _ _ = _ |- _ => apply validate_signal_ok in H as [? _]; done end.
Qed.

Definition target_ok (t : DeliveryTarget) : Prop :=
  strip (recipient_id t) = recipient_id t /\ nonempty (recipient_id t) = true.

Lemma validate_target_ok t t' : validate_target t = Ok t' -> target_ok t'.
Proof.
  unfold validate_target. intros Hv. ok_inv Hv. bool_hyps. split; [apply strip_idem|done].
Qed.

Lemma insert_target_In t x l : In x (insert_target t l) -> x = t \/ In x l.
Proof.
  induction l as [|u l IH]; cbn; [naive_solver|]. destruct (target_compare t u); cbn; naive_solver.
Qed.

Lemma canonical_targets_ok ts out : canonical_delivery_targets ts = Ok out ->
  forall t, In t out -> target_ok t.
Proof.
  unfold canonical_delivery_targets. intros Hc. apply rbind_ok in Hc as (v & Hv & [= <-]).
  assert (forall t, In t v -> target_ok t) as Hok.
  { apply rmap_ok_Forall2 in Hv. induction Hv as [|x y l l' Hxy _ IH]; cbn; [done|].
    intros t [<-|Ht]; [by apply validate_target_ok in Hxy|auto]. }
  assert (forall l acc, (forall t, In t l -> target_ok t) -> (forall t, In t acc -> target_ok t) ->
    forall t, In t (fold_left (fun acc t => insert_target t acc) l acc) -> target_ok t) as Hfold.
  { clear. induction l as [|x l IH]; intros acc Hl Ha t Ht; cbn in *; [auto|].
    apply (IH (insert_target x acc)) in Ht; [done|auto|]. intros u [->|Hu]%insert_target_In; auto. }
  intros t Ht. eapply Hfold in Ht; [done|done|]. by intros ? [].
Qed.

Lemma insert_outbox_ok o b b' : insert_outbox o b = Ok b' ->
  b' = with_outbox b (outbox b ++ [o])
  /\ (forall o', In o' (outbox b) -> o_outbox_id o' <> o_outbox_id o).
Proof.
  unfold insert_outbox. intros Hi. ok_inv Hi. split; [done|]. intros o' Ho' Heq.
  rewrite exists_row_false in E. specialize (E o' Ho'). unfold is_outbox in E.
  by rewrite Heq, eqs_refl in E.
Qed.

Lemma Deliveries_insert b o : Deliveries b ->
  (forall o', In o' (outbox b) -> o_outbox_id o' <> o_outbox_id o) -> linked b o -> wf_row [] o ->
  Deliveries (with_outbox b (outbox b ++ [o])).
Proof.
  intros D Hfresh L W.
  assert (history (o_outbox_id o) b = []) as Hh.
  { unfold history, select. destruct (List.filter _ _) as [|a l] eqn:E; [done|]. exfalso.
    assert (In a (a :: l)) as Ha by by left. rewrite <- E in Ha. apply filter_In in Ha as [Ha He].
    str_hyps. destruct (dv_attempts _ _ D a Ha) as (o' & Ho' & Hid). apply (Hfresh o' Ho'). congruence. }
  constructor; cbn.
  - apply D.
  - intros o' [Ho'| ->]%In_snoc; [by apply (dv_linked _ _ D)|done].
  - apply NoDup_key_app; [apply D|done].
  - change (history ?x (with_outbox b _)) with (history x b).
    intros o' [Ho'| ->]%In_snoc; [by apply D|by rewrite Hh].
  - intros a (o' & Ho' & Hid)%(dv_attempts _ _ D). exists o'. rewrite In_snoc. auto.
Qed.

Context `{!CodecLaws}.

Lemma route_target_Deliveries sid e sig at_ t b b' : Deliveries b -> target_ok t ->
  In e (envelopes b) -> e_signal_id e = sid -> parse_stored_signal e = Ok (Legacy sig) ->
  s_available_at sig <= at_ ->
  route_target sid (e_global_sequence e) sig at_ t b = Ok b' -> Deliveries b' /\ envelopes b' = envelopes b.
Proof.
  intros D [Ht1 Ht2] He Hsid Hp Hat Hr. destruct (parse_stored_legacy _ _ Hp) as [Hsig _].
  unfold route_target in Hr. apply rbind_ok in Hr as (oid & Hk & Hr).
  unfold delivery_key in Hk. ok_inv Hk. bool_hyps.
  destruct (fetchone _ _) as [o|] eqn:Ho.
  - apply fetch_outbox in Ho as [Hin Hid]. rewrite <- Hid in *.
    destruct (_ && _) eqn:Ec; [|by injection Hr as <-]. bool_hyps. injection Hr as <-. split; [|done].
    apply Deliveries_update_row; [done|done|done|]. pose proof (dv_rows _ b D o Hin) as W.
    apply expire_wf; try done.
    destruct (wr_ids _ _ _ W) as (Hsh & _ & _ & _ & Hkey).
    destruct (dv_linked _ _ D o Hin) as (e' & sig' & He' & Hs' & _ & Hp' & <-).
    assert (e' = e) as ->.
    { apply (NoDup_key_eq e_signal_id (envelopes b)); [apply D|done|done|].
      rewrite Hs'. rewrite Hkey in Hid. by eapply delivery_signal in Hid. }
    congruence.
  - apply insert_outbox_ok in Hr as [-> Hf]. split; [|done].
    apply Deliveries_insert; [done|done| |].
    + exists e, sig. by split_and!.
    + constructor; cbn.
      * destruct (_ <=? at_) eqn:Ee; bool_hyps; lia.
      * split_and!; try done. by apply delivery_hex.
      * unfold status_ok. cbn. destruct (_ <=? at_) eqn:Ee; bool_hyps; split_and!; try done; try lia. eauto.
      * constructor; cbn; [by intros [|i]|by intros [|i]|]. by destruct (_ <=? at_).
Qed.

Lemma route_targets_Deliveries sid e sig at_ ts b b' : Deliveries b ->
  (forall t, In t ts -> target_ok t) ->
  In e (envelopes b) -> e_signal_id e = sid -> parse_stored_signal e = Ok (Legacy sig) ->
  s_available_at sig <= at_ ->
  rfold (route_target sid (e_global_sequence e) sig at_) ts b = Ok b' ->
  Deliveries b' /\ envelopes b' = envelopes b.
Proof.
  intros D Hts He Hs Hp Hat. revert b D He. induction ts as [|t ts IH]; intros b D He Hr; cbn in Hr.
  - by injection Hr as <-.
  - apply rbind_ok in Hr as (b1 & H1 & Hr).
    eapply route_target_Deliveries in H1 as [D1 E1]; try done; [|apply Hts; by left].
    destruct (IH (fun t Ht => Hts t (or_intror Ht)) b1) as [D2 E2]; [done|by rewrite E1|done|].
    split; [done|congruence].
Qed.

Lemma route_in_transaction_Deliveries sid ts at_ b b' rows : Deliveries b ->
  (forall t, In t ts -> target_ok t) ->
  route_in_transaction sid ts at_ b = Ok (b', rows) -> Deliveries b' /\ envelopes b' = envelopes b.
Proof.
  intros D Hts Hr. unfold route_in_transaction in Hr.
  destruct (fetchone _ _) as [e|] eqn:He; [|done].
  apply fetchone_Some in He as [Hin He]. unfold is_envelope in He. str_hyps.
  apply rbind_ok in Hr as (f & Hp & Hr). destruct f as [sig|]; [|done].
  destruct (_ <? _) eqn:Hlt; [done|]. bool_hyps.
  apply rbind_ok in Hr as (b1 & Hf & [= <- _]). by eapply route_targets_Deliveries.
Qed.

Lemma route_Deliveries sid ts now b : Deliveries b -> Deliveries (fst (route sid ts now b)).
Proof.
  intros D. unfold route. open_txn Hb. unfold committed in Hb.
  apply rbind_ok in Hb as (t & _ & Hb). apply rbind_ok in Hb as (u & Hu & Hb).
  apply rbind_ok in Hb as (x & _ & Hb). destruct (bool_decide (u = [])); [by injection Hb as <- _|].
  apply rbind_ok in Hb as (x' & _ & Hb). apply rbind_ok in Hb as ([b1 rows] & Hr & Hb).
  apply rbind_ok in Hb as (out & _ & [= <- _]).
  eapply route_in_transaction_Deliveries in Hr; try done; [by destruct Hr|].
  by eapply canonical_targets_ok.
Qed.

(** *** Ingest, sources and receipts leave the outbox alone *)

Lemma ingest_Deliveries s at_ b b' r : Deliveries b ->
  ingest_in_transaction s at_ b = Ok (b', r) -> Deliveries b' /\ outbox b' = outbox b
    /\ attempts b' = attempts b.
Proof.
  intros D Hi. unfold ingest_in_transaction in Hi.
  apply rbind_ok in Hi as (s' & Hv & Hi). destruct (s_signal_id s') as [sid|]; [|done].
  destruct (fetchone _ _) as [e|] eqn:He.
  - destruct (_ && _).
    + apply rbind_ok in Hi as (? & _ & [= <- _]). done.
    + apply rbind_ok in Hi as (? & _ & [= <- _]). unfold add_quarantine.
      case_goal; [done|]. split_and!; [|done|done]. by apply (Deliveries_ext b).
  - destruct (negb _); [done|]. apply rbind_ok in Hi as (? & _ & [= <- _]).
    split_and!; [|done|done]. destruct D as [Hsg Hln Hk Hr Ha]. constructor; try done.
    + cbn. apply NoDup_key_app; [done|]. intros e' He' Heq. rewrite fetchone_None in He.
      specialize (He e' He'). unfold is_envelope in He. cbn in Heq. by rewrite Heq, eqs_refl in He.
    + intros o (e' & sig & Hin & Hrest)%Hln. exists e', sig. cbn. rewrite In_snoc. auto.
Qed.
End Methods.
