(* ===== verification/SignalBusRoutes.v ===== *)
(** * Signal bus: the route ledger

    [Routes] says that the receipts of every registered source are exactly the sequences from
    its first to its cursor, one each, and that no signal is owned by two receipts.  Binding,
    generation rotation with its pruning, and committing a sequence keep it. *)

From Stdlib Require Import ZArith Lia Bool.
From stdpp Require Import base list strings gmap sorting pretty.
From S2P Require Import Prelude Clock DeliveryContracts SignalBus SignalBusInv.
Open Scope Z_scope.
Open Scope rq_scope.

Definition receipt_key (r : receipt_row) : string * Z := (rc_source_id r, rc_source_sequence r).

Record Routes (ss : list source_row) (rs : list receipt_row) : Prop := {
  rt_sources : List.NoDup (map so_source_id ss);
  rt_keys : List.NoDup (map receipt_key rs);
  rt_signals : List.NoDup (map rc_signal_id rs);
  rt_parent : forall r, In r rs -> exists s, In s ss /\ so_source_id s = rc_source_id r
                /\ so_first_sequence s <= rc_source_sequence r <= so_last_sequence s;
  rt_complete : forall s n, In s ss -> so_first_sequence s <= n <= so_last_sequence s ->
                exists r, In r rs /\ receipt_key r = (so_source_id s, n);
  rt_bounds : forall s, In s ss -> 1 <= so_first_sequence s
                /\ so_first_sequence s - 1 <= so_last_sequence s <= so_observed_high s
}.

Lemma NoDup_map_in {A B} (f : A -> B) l : List.NoDup l ->
  (forall x y, In x l -> In y l -> f x = f y -> x = y) -> List.NoDup (map f l).
Proof.
  induction 1 as [|x l Hni Hnd IH]; intros Hf; cbn; constructor.
  - intros (y & Hy & Hin)%in_map_iff. apply Hni. rewrite (Hf x y); [done|by left|by right|done].
  - apply IH. intros y z Hy Hz. apply Hf; by right.
Qed.

Lemma Routes_empty : Routes [] [].
Proof. constructor; cbn; try done; apply List.NoDup_nil. Qed.

Lemma insert_source_ok s b b' : insert_source s b = Ok b' ->
  b' = with_routes b (sources b ++ [s]) (receipts b) (rotations b)
  /\ (forall s', In s' (sources b) -> so_source_id s' <> so_source_id s).
Proof.
  unfold insert_source. intros Hi. ok_inv Hi. split; [done|]. intros s' Hs' Heq.
  rewrite exists_row_false in E1. specialize (E1 s' Hs'). unfold is_source in E1.
  by rewrite Heq, eqs_refl in E1.
Qed.

Lemma Routes_insert ss rs s : Routes ss rs ->
  (forall s', In s' ss -> so_source_id s' <> so_source_id s) ->
  1 <= so_first_sequence s -> so_last_sequence s = so_first_sequence s - 1 ->
  so_last_sequence s <= so_observed_high s -> Routes (ss ++ [s]) rs.
Proof.
  intros R Hf H1 Hl Hh. constructor; try apply R.
  - apply NoDup_key_app; [apply R|done].
  - intros r (s' & Hs' & Hrest)%(rt_parent _ _ R). exists s'. rewrite In_snoc. auto.
  - intros s' n [Hs'| ->]%In_snoc Hn; [by apply (rt_complete _ _ R)|lia].
  - intros s' [Hs'| ->]%In_snoc; [by apply R|lia].
Qed.

(** Rows with the same identity and cursor; only the watermark and the times may differ. *)
Lemma Routes_update ss rs p f : Routes ss rs ->
  (forall s, so_source_id (f s) = so_source_id s /\ so_first_sequence (f s) = so_first_sequence s
             /\ so_last_sequence (f s) = so_last_sequence s) ->
  (forall s, In s ss -> p s = true -> so_observed_high s <= so_observed_high (f s)) ->
  Routes (update p f ss) rs.
Proof.
  intros R Hf Hh. constructor; try apply R.
  - rewrite update_map_key; [apply R|]. intros s. apply Hf.
  - intros r (s & Hs & Hid & Hn)%(rt_parent _ _ R). exists (if p s then f s else s).
    split; [apply In_update; eauto|]. destruct (p s); [|done].
    destruct (Hf s) as (-> & -> & ->). done.
  - intros s n (s0 & Hs0 & ->)%In_update Hn. destruct (p s0).
    + destruct (Hf s0) as (-> & Hfs & Hls). rewrite Hfs, Hls in Hn. by apply (rt_complete _ _ R).
    + by apply (rt_complete _ _ R).
  - intros s (s0 & Hs0 & ->)%In_update. pose proof (rt_bounds _ _ R s0 Hs0).
    destruct (p s0) eqn:E; [|done]. specialize (Hh s0 Hs0 E).
    destruct (Hf s0) as (_ & -> & ->). lia.
Qed.

(** A source and its receipts, renamed. *)
Lemma Routes_rename ss rs old new row : Routes ss rs -> In row ss -> so_source_id row = old ->
  (forall s, In s ss -> so_source_id s <> new) ->
  forall row', so_source_id row' = new -> so_first_sequence row' = so_first_sequence row ->
  so_last_sequence row' = so_last_sequence row -> so_observed_high row' = so_observed_high row ->
  Routes (delete (is_source old) (ss ++ [row'])) (move_receipts old new rs).
Proof.
  intros R Hrow <- Hnew row' Hid Hf Hl Hh.
  assert (so_source_id row <> new) as Hne by by apply Hnew.
  assert (forall s, In s (delete (is_source (so_source_id row)) (ss ++ [row'])) <->
    In s ss /\ so_source_id s <> so_source_id row \/ s = row') as Hin.
  { intros s. unfold delete, select. rewrite filter_In, In_snoc. unfold is_source.
    rewrite negb_true_iff, eqs_false. split; [tauto|]. intros [?| ->]; [tauto|].
    split; [by right|congruence]. }
  assert (forall r, In r (move_receipts (so_source_id row) new rs) -> exists r0, In r0 rs
    /\ rc_source_sequence r = rc_source_sequence r0 /\ rc_signal_id r = rc_signal_id r0
    /\ (rc_source_id r0 = so_source_id row /\ rc_source_id r = new
        \/ rc_source_id r0 <> so_source_id row /\ r = r0)) as Hmove.
  { intros r (r0 & H0 & ->)%In_update. exists r0. unfold of_source.
    destruct (eqs _ _) eqn:E; str_hyps; cbn; tauto. }
  constructor.
  - unfold delete. apply NoDup_filter_key, NoDup_key_app; [apply R|]. rewrite Hid. done.
  - unfold move_receipts, update. rewrite map_map.
    assert (forall r, In r rs -> rc_source_id r <> new) as Hnn.
    { intros r (s & Hs & He & _)%(rt_parent _ _ R). rewrite <- He. by apply Hnew. }
    apply NoDup_map_in; [eapply NoDup_map_inv; apply R|].
    intros r1 r2 H1 H2 Heq. apply (NoDup_key_eq receipt_key rs); [apply R|done|done|].
    unfold receipt_key, of_source in *.
    destruct (eqs (rc_source_id r1) _) eqn:E1, (eqs (rc_source_id r2) _) eqn:E2; str_hyps; cbn in Heq;
      pose proof (f_equal fst Heq) as He; pose proof (f_equal snd Heq) as Hq; cbn in He, Hq;
      first [congruence|by destruct (Hnn r2 H2)|by destruct (Hnn r1 H1)].
  - unfold move_receipts. rewrite update_map_key by done. apply R.
  - intros r (r0 & H0 & Hs & _ & Hc)%Hmove.
    destruct (rt_parent _ _ R r0 H0) as (s & Hs1 & Hs2 & Hs3). rewrite Hs.
    destruct Hc as [[Ho Hn]|[Ho ->]].
    + assert (s = row) as -> by (apply (NoDup_key_eq so_source_id ss); [apply R|done|done|congruence]).
      exists row'. rewrite Hin. split; [by right|]. split; [congruence|lia].
    + exists s. rewrite Hin. split; [left; split; [done|congruence]|done].
  - intros s n [[Hs Hs']| ->]%Hin Hn.
    + destruct (rt_complete _ _ R s n Hs Hn) as (r & Hr & Hk). exists r. split; [|done].
      apply In_update. exists r. split; [done|]. unfold of_source.
      rewrite (proj2 (eqs_false _ _)); [done|]. unfold receipt_key in Hk. congruence.
    + rewrite Hf, Hl in Hn. destruct (rt_complete _ _ R row n Hrow Hn) as (r & Hr & Hk).
      unfold receipt_key in Hk. injection Hk as Hk1 Hk2.
      eexists. split; [apply In_update; exists r; split; [done|reflexivity]|].
      unfold of_source. rewrite (proj2 (eqs_true _ _)) by done. unfold receipt_key. cbn. congruence.
  - intros s [[Hs _]| ->]%Hin; [by apply R|]. rewrite Hf, Hl, Hh. by apply R.
Qed.

(** A source removed together with its receipts. *)
Lemma Routes_delete ss rs id : Routes ss rs ->
  Routes (SignalBus.delete (is_source id) ss) (SignalBus.delete (of_source id) rs).
Proof.
  intros R.
  assert (forall s, In s (SignalBus.delete (is_source id) ss) <-> In s ss /\ so_source_id s <> id) as Hs.
  { intros s. unfold SignalBus.delete, select. rewrite filter_In. unfold is_source.
    by rewrite negb_true_iff, eqs_false. }
  assert (forall r, In r (SignalBus.delete (of_source id) rs) <-> In r rs /\ rc_source_id r <> id) as Hr.
  { intros r. unfold SignalBus.delete, select. rewrite filter_In. unfold of_source.
    by rewrite negb_true_iff, eqs_false. }
  constructor; try (apply NoDup_filter_key, R).
  - intros r [Hin Hne]%Hr. destruct (rt_parent _ _ R r Hin) as (s & Hin' & He & Hn).
    exists s. rewrite Hs. split; [split; [done|congruence]|done].
  - intros s n [Hin Hne]%Hs Hn. destruct (rt_complete _ _ R s n Hin Hn) as (r & Hin' & Hk).
    exists r. rewrite Hr. split; [split; [done|]|done]. unfold receipt_key in Hk. congruence.
  - intros s [Hin _]%Hs. by apply R.
Qed.

Section Ledger.
Context `{Codec} (cfg : config).

Definition RoutesOf (b : bus) : Prop := Routes (sources b) (receipts b).

(** Tables a change of the routes leaves alone. *)
Definition same_deliveries (b b' : bus) : Prop :=
  envelopes b' = envelopes b /\ outbox b' = outbox b /\ attempts b' = attempts b
  /\ md_watermark b' = md_watermark b /\ autoincrement b' = autoincrement b.

Lemma prune_Routes sid b : RoutesOf b -> RoutesOf (prune_rotated_sources sid b)
  /\ same_deliveries b (prune_rotated_sources sid b)
  /\ (forall s, In s (sources (prune_rotated_sources sid b)) -> In s (sources b)).
Proof.
  unfold prune_rotated_sources. generalize (drop ARCHIVED_GENERATIONS_KEPT
    (rev (select (fun r => eqs (ro_source_id r) sid && negb (ro_pruned r)) (rotations b)))).
  intros rows. revert b. induction rows as [|r rows IH]; intros b R; cbn; [done|].
  destruct (IH (prune_one sid r b)) as (R' & S' & Hsub); [by apply Routes_delete|]. split; [done|].
  unfold same_deliveries in *. destruct S' as (-> & -> & -> & -> & ->). split; [done|].
  intros s Hs. apply Hsub in Hs. cbn in Hs. unfold SignalBus.delete, select in Hs.
  by apply filter_In in Hs as [Hs _].
Qed.

Definition request_ok (req : binding_request) : Prop :=
  1 <= d_first_sequence (br_descriptor req)
  /\ d_first_sequence (br_descriptor req) - 1 <= d_high_watermark (br_descriptor req).

Lemma rotate_Routes req row b b' row' : request_ok req -> RoutesOf b ->
  In row (sources b) -> so_source_id row = d_source_id (br_descriptor req) ->
  rotate_previous_generation_source cfg req row b = Ok (Some (b', row')) ->
  RoutesOf b' /\ same_deliveries b b' /\ In row' (sources b')
  /\ row' = new_source (br_descriptor req) (br_routing_policy req) (br_observed_at req).
Proof.
  intros [Hq1 Hq2] R Hrow Hid Hrot. unfold rotate_previous_generation_source in Hrot.
  destruct (eqs _ _); [done|]. destruct (_ !! _) as [pg|]; [|done].
  destruct (bool_decide _); [done|]. destruct (_ || _) eqn:Eor; [done|]. bool_hyps.
  destruct (exists_row _ _) eqn:Eex; [done|].
  apply rbind_ok in Hrot as (b1 & Hi1 & Hrot). apply insert_source_ok in Hi1 as [-> Hf1].
  apply rbind_ok in Hrot as (b3 & Hi3 & Hrot). unfold insert_rotation in Hi3. ok_inv Hi3.
  apply rbind_ok in Hrot as (b4 & Hi4 & Hrot). apply insert_source_ok in Hi4 as [-> Hf4].
  match type of Hrot with context [prune_rotated_sources ?d ?x] =>
    assert (RoutesOf x) as R4; [|destruct (prune_Routes d x R4) as (R5 & S5 & Hsub)] end.
  { unfold RoutesOf. cbn. apply Routes_insert; cbn; try lia; [|done].
    by eapply Routes_rename. }
  destruct (fetchone _ _) as [rr|] eqn:Ef; [|done]. injection Hrot as <- ->.
  apply fetchone_Some in Ef as [Hin He]. unfold is_source in He. str_hyps.
  split_and!; try done.
  match type of R4 with RoutesOf ?x => apply (NoDup_key_eq so_source_id (sources x)) end;
    [apply R4|by apply Hsub|cbn; apply In_snoc; by right|done].
Qed.

Lemma bind_Routes req b b' row adv : request_ok req -> RoutesOf b ->
  bind_route_source_in_transaction cfg req b = Ok (b', row, adv) ->
  RoutesOf b' /\ same_deliveries b b' /\ In row (sources b')
  /\ so_source_id row = d_source_id (br_descriptor req)
  /\ so_observed_high row = d_high_watermark (br_descriptor req).
Proof.
  intros Hq R Hb. unfold bind_route_source_in_transaction in Hb.
  destruct (fetchone _ _) as [old|] eqn:Ef.
  - apply fetchone_Some in Ef as [Hin He]. unfold is_source in He. str_hyps.
    apply rbind_ok in Hb as (rot & Hrot & Hb). destruct rot as [[b1 r1]|].
    + injection Hb as <- <- _. eapply rotate_Routes in Hrot as (? & ? & ? & ->); done.
    + unfold rebind, changed in Hb. ok_inv Hb; bool_hyps; [by split_and!|]. split_and!; try done.
      * apply Routes_update; [done|done|]. intros s Hs Hp. unfold is_source in Hp. str_hyps. cbn.
        assert (s = old) as -> by (apply (NoDup_key_eq so_source_id (sources b)); [apply R|done|done|congruence]).
        done.
      * cbn. apply In_update. exists old. split; [done|]. unfold is_source.
        by rewrite (proj2 (eqs_true _ _)).
  - apply rbind_ok in Hb as (b1 & Hi & [= <- <- _]). apply insert_source_ok in Hi as [-> Hf].
    destruct Hq. split_and!; try done; cbn; [|apply In_snoc; by right].
    apply Routes_insert; cbn; try done; lia.
Qed.

(** *** Numbered envelopes *)

(** A stored envelope is the canonical text of a valid legacy signal. *)
Definition stored_ok (e : envelope_row) : Prop := exists s,
  e_payload_json e = signal_payload s /\ e_payload_hash e = payload_hash (signal_payload s)
  /\ validate_signal false s = Ok s /\ s_signal_id s = Some (e_signal_id e).

Record Numbered (b : bus) : Prop := {
  nb_sequence : forall i e, nth_error (envelopes b) i = Some e -> e_global_sequence e = Z.of_nat i + 1;
  nb_auto : autoincrement b = Z.of_nat (length (envelopes b));
  nb_watermark : md_watermark b = Some (Z.of_nat (length (envelopes b)));
  nb_stored : forall e, In e (envelopes b) -> stored_ok e
}.

Lemma Numbered_same b b' : same_deliveries b b' -> Numbered b -> Numbered b'.
Proof. intros (He & _ & _ & Hw & Ha) [H1 H2 H3 H4]. by constructor; rewrite ?He, ?Hw, ?Ha. Qed.

Lemma validate_signal_idem s s' : validate_signal false s = Ok s' -> validate_signal false s' = Ok s'.
Proof.
  intros Hv. pose proof Hv as Hv'. unfold validate_signal in Hv. ok_inv Hv; [done|].
  unfold validate_signal, signal_identity in *. cbn. by rewrite E, E0, eqs_refl.
Qed.

Lemma ingest_Numbered s at_ b b' r : Numbered b ->
  ingest_in_transaction s at_ b = Ok (b', r) ->
  Numbered b' /\ sources b' = sources b /\ receipts b' = receipts b
  /\ (forall e, In e (envelopes b) -> In e (envelopes b')).
Proof.
  intros N Hi. unfold ingest_in_transaction in Hi.
  apply rbind_ok in Hi as (s' & Hv & Hi). cbn in Hv.
  destruct (s_signal_id s') as [sid|] eqn:Hsid; [|done].
  destruct (fetchone _ _) as [e|] eqn:He.
  - destruct (_ && _); apply rbind_ok in Hi as (? & _ & [= <- _]); [done|]. unfold add_quarantine.
    case_goal; [done|]. split_and!; try done. by apply (Numbered_same b).
  - destruct (negb _); [done|]. apply rbind_ok in Hi as (? & _ & [= <- _]).
    destruct N as [H1 H2 H3 H4]. split_and!; try done; [|intros e Hin; apply In_snoc; by left].
    constructor; cbn.
    + intros i e [Hx|[-> ->]]%nth_error_snoc; [by apply H1|cbn; lia].
    + rewrite length_app. cbn. lia.
    + rewrite H3, length_app. cbn. rewrite (proj2 (Z.ltb_lt _ _)) by lia. f_equal. lia.
    + intros e [Hin| ->]%In_snoc; [by apply H4|]. exists s'. split_and!; try done.
      by eapply validate_signal_idem.
Qed.

(** *** Committing a sequence *)

Lemma insert_receipt_ok r b b' : insert_receipt r b = Ok b' ->
  b' = with_routes b (sources b) (receipts b ++ [r]) (rotations b)
  /\ (forall r', In r' (receipts b) -> rc_signal_id r' <> rc_signal_id r)
  /\ (forall r', In r' (receipts b) -> receipt_key r' <> receipt_key r).
Proof.
  unfold insert_receipt. intros Hi. ok_inv Hi. rewrite exists_row_false in E1, E2. split_and!; [done| |].
  - intros r' Hr' Heq. specialize (E2 r' Hr'). unfold receipt_signal in E2. by rewrite Heq, eqs_refl in E2.
  - intros r' Hr' Heq. specialize (E1 r' Hr'). unfold receipt_key in Heq. injection Heq as H1 H2.
    unfold is_receipt, of_source in E1. by rewrite H1, H2, eqs_refl, Z.eqb_refl in E1.
Qed.

(** The next sequence of a source, its receipt and its cursor. *)
Lemma Routes_commit ss rs row r sid at_ : Routes ss rs -> In row ss ->
  rc_source_id r = so_source_id row -> rc_source_sequence r = so_last_sequence row + 1 ->
  rc_source_sequence r <= so_observed_high row ->
  (forall r', In r' rs -> rc_signal_id r' <> rc_signal_id r) ->
  (forall r', In r' rs -> receipt_key r' <> receipt_key r) ->
  Routes (update (is_source (so_source_id row)) (set_cursor (rc_source_sequence r) sid at_) ss) (rs ++ [r]).
Proof.
  intros R Hrow Hid Hseq Hhw Hsg Hkey. pose proof (rt_bounds _ _ R row Hrow) as Hb.
  set (f := set_cursor _ sid at_).
  assert (forall s, In s (update (is_source (so_source_id row)) f ss) <->
    s = f row \/ In s ss /\ so_source_id s <> so_source_id row) as Hin.
  { intros s. rewrite In_update. unfold is_source. split.
    - intros (s0 & H0 & ->). destruct (eqs _ _) eqn:E; str_hyps; [|by right].
      left. f_equal. by apply (NoDup_key_eq so_source_id ss); [apply R|..].
    - intros [-> |[Hs Hne]]; [exists row|exists s]; (split; [done|]).
      + by rewrite eqs_refl.
      + by rewrite (proj2 (eqs_false _ _)). }
  constructor.
  - rewrite update_map_key by done. apply R.
  - apply NoDup_key_app; [apply R|done].
  - apply NoDup_key_app; [apply R|done].
  - intros r0 [H0| ->]%In_snoc.
    + destruct (rt_parent _ _ R r0 H0) as (s & Hs & He & Hn).
      destruct (decide (so_source_id s = so_source_id row)) as [Heq|Hne].
      * assert (s = row) as -> by (by apply (NoDup_key_eq so_source_id ss); [apply R|..]).
        exists (f row). rewrite Hin. split; [by left|]. cbn. split; [done|lia].
      * exists s. rewrite Hin. auto.
    + exists (f row). rewrite Hin. split; [by left|]. cbn. split; [done|lia].
  - intros s n [-> |[Hs Hne]]%Hin Hn; cbn in *.
    + destruct (decide (n = rc_source_sequence r)) as [-> |Hnr].
      * exists r. rewrite In_snoc. split; [by right|]. unfold receipt_key. congruence.
      * destruct (rt_complete _ _ R row n Hrow) as (r0 & H0 & Hk); [lia|].
        exists r0. rewrite In_snoc. auto.
    + destruct (rt_complete _ _ R s n Hs Hn) as (r0 & H0 & Hk). exists r0. rewrite In_snoc. auto.
  - intros s [-> |[Hs _]]%Hin; [cbn; lia|by apply R].
Qed.

Lemma route_target_frame sid seq sig at_ t b b' : route_target sid seq sig at_ t b = Ok b' ->
  exists ob, b' = with_outbox b ob.
Proof.
  unfold route_target. intros Hr. apply rbind_ok in Hr as (oid & _ & Hr).
  destruct (fetchone _ _) as [o|].
  - destruct (_ && _); injection Hr as <-; [eauto|]. exists (outbox b). by destruct b.
  - apply insert_outbox_ok in Hr as [-> _]. eauto.
Qed.

Lemma route_frame sid ts at_ b b' rows : route_in_transaction sid ts at_ b = Ok (b', rows) ->
  exists ob, b' = with_outbox b ob.
Proof.
  unfold route_in_transaction. intros Hr. destruct (fetchone _ _) as [e|]; [|done].
  apply rbind_ok in Hr as (f & _ & Hr). destruct f as [sig|]; [|done]. destruct (_ <? _); [done|].
  apply rbind_ok in Hr as (b1 & Hf & [= <- _]).
  revert b Hf. induction ts as [|t ts IH]; intros b Hf; cbn in Hf.
  - injection Hf as <-. exists (outbox b). by destruct b.
  - apply rbind_ok in Hf as (b2 & Ht & Hf). apply route_target_frame in Ht as [ob ->].
    apply IH in Hf as [ob' ->]. by exists ob'.
Qed.

(** Everything the bus promises about its tables. *)
Record BusInv (b : bus) : Prop := {
  bi_deliveries : Deliveries (max_attempts cfg) b;
  bi_routes : RoutesOf b;
  bi_numbered : Numbered b
}.

Context `{!CodecLaws} (max_pos : 1 <= max_attempts cfg).

Lemma ingest_BusInv s at_ b b' r : BusInv b -> ingest_in_transaction s at_ b = Ok (b', r) ->
  BusInv b' /\ sources b' = sources b /\ receipts b' = receipts b.
Proof.
  intros [D R N] Hi. pose proof (ingest_Deliveries cfg s at_ b b' r D Hi) as [D' _].
  destruct (ingest_Numbered s at_ b b' r N Hi) as (N' & Hs & Hr & _).
  split_and!; try done. constructor; try done. unfold RoutesOf. by rewrite Hs, Hr.
Qed.

Lemma route_BusInv sid ts at_ b b' rows : BusInv b -> (forall t, In t ts -> target_ok t) ->
  route_in_transaction sid ts at_ b = Ok (b', rows) ->
  BusInv b' /\ sources b' = sources b /\ receipts b' = receipts b.
Proof.
  intros [D R N] Hts Hr.
  destruct (route_in_transaction_Deliveries cfg max_pos sid ts at_ b b' rows D Hts Hr) as [D' _].
  apply route_frame in Hr as [ob ->]. split_and!; try done. constructor; try done. by destruct N.
Qed.

Lemma commit_new_BusInv req sid manifest row b b' out : BusInv b ->
  (forall t, In t (cr_targets req) -> target_ok t) ->
  In row (sources b) -> so_source_id row = d_source_id (cr_descriptor req) ->
  so_observed_high row = d_high_watermark (cr_descriptor req) ->
  commit_new req sid manifest row b = Ok (b', out) -> BusInv b'.
Proof.
  intros I Hts Hrow Hid Hhw Hc. unfold commit_new in Hc.
  apply rbind_ok in Hc as (u & Hg & Hc). apply rbind_ok in Hc as ([b1 ing] & Hi & Hc).
  destruct (bool_decide (rr_disposition _ = _)); [done|].
  apply rbind_ok in Hc as ([b2 disp] & Hd & Hc). apply rbind_ok in Hc as (b3 & Hr & Hc).
  apply rbind_ok in Hc as (o & _ & [= <- _]).
  destruct (ingest_BusInv _ _ _ _ _ I Hi) as (I1 & Hs1 & Hr1).
  assert (BusInv b2 /\ sources b2 = sources b /\ receipts b2 = receipts b) as (I2 & Hs2 & Hr2).
  { destruct (cr_kind req).
    - apply rbind_ok in Hd as ([bx rows] & Hd & [= <- _]).
      destruct (route_BusInv _ _ _ _ _ _ I1 Hts Hd) as (? & ? & ?). split_and!; congruence || done.
    - injection Hd as <- _. done. }
  unfold commit_guards in Hg. ok_inv Hg. bool_hyps.
  apply insert_receipt_ok in Hr as (-> & Hsg & Hkey).
  destruct I2 as [D2 R2 N2]. constructor.
  - by apply (Deliveries_ext _ b2).
  - unfold RoutesOf. cbn. rewrite <- Hid. match goal with |- context [receipts b2 ++ [?r]] =>
      apply (Routes_commit (sources b2) (receipts b2) row r sid (cr_routed_at req)) end; cbn; try done.
    all: first [lia | exact Hsg | exact Hkey | by rewrite Hs2 | by rewrite Hid].
  - by destruct N2.
Qed.

Lemma commit_duplicate_BusInv req sid hash existing b b' out : BusInv b ->
  commit_duplicate req sid hash existing b = Ok (b', out) -> BusInv b'.
Proof.
  intros I Hc. unfold commit_duplicate in Hc. apply rbind_ok in Hc as (st & _ & Hc).
  destruct (_ || _); [done|]. apply rbind_ok in Hc as ([b1 ing] & Hi & Hc).
  destruct (bool_decide _); [done|]. injection Hc as <- _. by eapply ingest_BusInv.
Qed.
End Ledger.
