(* ===== verification/SignalBusThms.v ===== *)
(** * Signal bus: sequences of calls

    [bop] names a call of a [SignalBusStore] method and [brun] the database after it.  The
    theorems are about every sequence of calls on a freshly initialised database. *)

From Stdlib Require Import ZArith Lia Bool.
From stdpp Require Import base list strings gmap sorting pretty.
From S2P Require Import Prelude Clock DeliveryContracts SignalBus SignalBusInv SignalBusRoutes.
Open Scope Z_scope.
Open Scope rq_scope.

Inductive bop :=
  | BIngest (signal : SignalEnvelopeFamily) (received_at : pydatetime)
  | BRoute (sid : string) (targets : list DeliveryTarget) (now : pydatetime)
  | BBind (d : RouteSourceDescriptor) (policy : string) (observed_at : pydatetime)
  | BCommit (d : RouteSourceDescriptor) (policy : string) (seq : Z) (signal : SignalEnvelopeFamily)
      (kind : RouteDecisionKind) (fingerprint : string) (reason : option string)
      (targets : list DeliveryTarget) (routed_at : pydatetime)
  | BClaim (worker : string) (now : pydatetime) (lease_for limit : Z)
  | BSuccess (oid worker : string) (attempt_no : Z) (at_ : pydatetime) (receipt : string)
  | BFailure (oid worker : string) (attempt_no : Z) (at_ : pydatetime) (error : string)
  | BRelease (oid worker : string) (attempt_no : Z) (at_ : pydatetime) (reason : string)
  | BUnknown (oid worker : string) (attempt_no : Z) (at_ : pydatetime) (reason : string)
      (receipt : option string)
  | BRecover (now : pydatetime)
  | BWatermark (acknowledgement : string) (now : pydatetime).

(** A process opens the database with its own map of previous generations; the retry policy is
    pinned by the database. *)
Definition with_previous (cfg : config) (m : gmap string string) : config :=
  {| retry_base_delay := retry_base_delay cfg; retry_max_delay := retry_max_delay cfg;
     max_attempts := max_attempts cfg; previous_generation_of_strategy_spec := m |}.

Definition bcall : Type := gmap string string * bop.

(** What [__init__] checks of a retry policy. *)
Definition config_ok (cfg : config) : Prop :=
  0 < retry_base_delay cfg <= retry_max_delay cfg /\ 1 <= max_attempts cfg.

Section Runs.
Context `{Codec} (cfg : config).

Definition brun (c : bcall) (b : bus) : bus :=
  let cfg := with_previous cfg (fst c) in
  match snd c with
  | BIngest s at_ => fst (ingest s at_ b)
  | BRoute sid ts now => fst (route sid ts now b)
  | BBind d p at_ => fst (bind_route_source cfg d p at_ b)
  | BCommit d p n s k f r ts at_ => fst (commit_source_route cfg d p n s k f r ts at_ b)
  | BClaim w now l n => fst (claim_due w now l n b)
  | BSuccess oid w n at_ r => fst (complete_success cfg oid w n at_ r b)
  | BFailure oid w n at_ e => fst (complete_failure cfg oid w n at_ e b)
  | BRelease oid w n at_ r => fst (release_unattempted oid w n at_ r b)
  | BUnknown oid w n at_ r p => fst (record_unknown_delivery oid w n at_ r p b)
  | BRecover now => fst (recover_expired_leases now b)
  | BWatermark a now => fst (recover_signal_bus_high_watermark a now b)
  end.

Definition bruns (cs : list bcall) (b : bus) : bus := fold_left (fun b c => brun c b) cs b.

(** The database a first [SignalBusStore(...)] creates. *)
Definition fresh_bus (token : string) : bus := fst (initialize cfg token empty_bus).
End Runs.

Ltac open_txn Hb :=
  match goal with |- context [fst (txn ?s ?x)] =>
    let b' := fresh "b'" in let r := fresh "r" in
    destruct (txn_cases s x) as [->|(b' & r & Hb & ->)]; [done|] end.

(** ** The invariant along a run *)

Section Invariant.
Context `{Codec} `{!CodecLaws} (cfg : config) (cfg_ok : config_ok cfg).

Lemma Numbered_max b : Numbered b -> max_sequence b = Z.of_nat (length (envelopes b)).
Proof.
  intros [Hs _ _ _]. unfold max_sequence. induction (envelopes b) as [|e l IH] using rev_ind; [done|].
  rewrite fold_left_app. cbn [fold_left]. rewrite IH.
  - rewrite (Hs (length l) e) by (rewrite nth_error_app2 by lia; by rewrite Nat.sub_diag).
    rewrite length_app. cbn. lia.
  - intros i x Hx. apply Hs. rewrite nth_error_app1; [done|]. apply nth_error_Some. congruence.
Qed.

Lemma fresh_BusInv token : BusInv cfg (fresh_bus cfg token) /\ snd (initialize cfg token empty_bus) = Ok tt.
Proof.
  destruct cfg_ok as [[H1 H2] H3]. unfold fresh_bus, initialize.
  rewrite (proj2 (Z.leb_gt _ _)), !(proj2 (Z.ltb_ge _ _)) by lia. cbn. rewrite eqs_refl. cbn.
  split; [|done]. constructor.
  - constructor; cbn; try done; apply List.NoDup_nil.
  - apply Routes_empty.
  - constructor; cbn; try done. by intros [|i].
Qed.

Lemma mk_binding_request_ok d p at_ req : mk_binding_request d p at_ = Ok req -> request_ok req.
Proof.
  unfold mk_binding_request, validate_descriptor. intros Hm.
  apply rbind_ok in Hm as (d' & Hd & Hm). ok_inv Hd. ok_inv Hm. bool_hyps. split; cbn in *; lia.
Qed.

Lemma commit_request_ok d p n s k f r ts at_ req : mk_commit_request d p n s k f r ts at_ = Ok req ->
  cr_targets req = ts /\ 1 <= d_first_sequence (cr_descriptor req)
  /\ d_first_sequence (cr_descriptor req) - 1 <= d_high_watermark (cr_descriptor req).
Proof.
  unfold mk_commit_request, validate_descriptor. intros Hm.
  apply rbind_ok in Hm as (d' & Hd & Hm). ok_inv Hd. ok_inv Hm. bool_hyps. cbn in *. split_and!; done || lia.
Qed.

(** *** What the delivery methods leave alone *)

Definition same_core (b b' : bus) : Prop :=
  envelopes b' = envelopes b /\ sources b' = sources b /\ receipts b' = receipts b
  /\ md_watermark b' = md_watermark b /\ autoincrement b' = autoincrement b.

Lemma BusInv_frame b b' : BusInv cfg b -> Deliveries (max_attempts cfg) b' -> same_core b b' ->
  BusInv cfg b'.
Proof.
  intros [D R [N1 N2 N3 N4]] D' (He & Hs & Hr & Hw & Ha). constructor; [done| |].
  - unfold RoutesOf. by rewrite Hs, Hr.
  - constructor; by rewrite ?He, ?Hw, ?Ha.
Qed.

Lemma claim_frame w now lf n b : same_core b (fst (claim_due w now lf n b)).
Proof.
  unfold claim_due. open_txn Hb. unfold committed in Hb. ok_inv Hb.
  match goal with Hf : rfold _ ?rows (expire_due ?t b) = Ok _ |- _ => revert Hf; generalize rows end.
  intros rows Hf. change (same_core b b') with (same_core (expire_due x b) b').
  revert Hf. generalize (expire_due x b). clear. induction rows as [|r rows IH]; intros b Hf; cbn in Hf.
  - by injection Hf as <-.
  - apply rbind_ok in Hf as (b1 & Hc & Hf). apply IH in Hf.
    unfold claim_one in Hc. apply rbind_ok in Hc as (u & _ & [= <-]). exact Hf.
Qed.

Lemma complete_frame cfg' oid w n at_ out b : same_core b (fst (complete cfg' oid w n at_ out b)).
Proof.
  unfold complete. open_txn Hb. unfold committed in Hb.
  apply rbind_ok in Hb as (t & _ & Hb). destruct (fetchone _ _); [|done].
  apply rbind_ok in Hb as (? & _ & Hb). apply rbind_ok in Hb as (? & _ & Hb).
  apply rbind_ok in Hb as (b1 & Hi & Hb). apply rbind_ok in Hb as ([[st nx] er] & _ & Hb).
  apply rbind_ok in Hb as (? & _ & [= <- _]). by apply bus_insert_attempt_ok in Hi as ->.
Qed.

Lemma release_frame oid w n at_ r b : same_core b (fst (release_unattempted oid w n at_ r b)).
Proof. unfold release_unattempted. open_txn Hb. unfold committed in Hb. ok_inv Hb; done. Qed.

Lemma unknown_frame oid w n at_ r p b : same_core b (fst (record_unknown_delivery oid w n at_ r p b)).
Proof.
  unfold record_unknown_delivery. open_txn Hb. unfold committed in Hb. ok_inv Hb; [done|].
  match goal with Hi : insert_unknown _ _ = Ok _ |- _ => unfold insert_unknown in Hi; ok_inv Hi end. done.
Qed.

Lemma recover_frame now b : same_core b (fst (recover_expired_leases now b)).
Proof.
  unfold recover_expired_leases. open_txn Hb. unfold committed in Hb. ok_inv Hb.
  match goal with |- context [fold_left _ ?rows b] => generalize rows end. clear.
  intros rows. revert b. induction rows as [|r rows IH]; intros b; [done|]. cbn.
  destruct (IH (recover_one x r b)) as (? & ? & ? & ? & ?). by split_and!.
Qed.

(** A consistent watermark is never recovered. *)
Lemma watermark_noop a now b : Numbered b -> fst (recover_signal_bus_high_watermark a now b) = b.
Proof.
  intros N. unfold recover_signal_bus_high_watermark. open_txn Hb. exfalso.
  destruct (negb _); [done|]. apply rbind_ok in Hb as (t & _ & Hb). cbn in Hb.
  rewrite (nb_watermark _ N), (Numbered_max _ N), bool_decide_eq_true_2 in Hb by done. done.
Qed.

Lemma commit_BusInv m d p n s k f r ts at_ b : BusInv cfg b ->
  BusInv cfg (fst (commit_source_route (with_previous cfg m) d p n s k f r ts at_ b)).
Proof.
  intros I. unfold commit_source_route. open_txn Hb. unfold committed in Hb.
  apply rbind_ok in Hb as (sg & _ & Hb). apply rbind_ok in Hb as (canon & Hcn & Hb).
  apply rbind_ok in Hb as (req & Hreq & Hb). apply commit_request_ok in Hreq as (Hts & Hq1 & Hq2).
  destruct (s_signal_id _) as [sid|]; [|done].
  apply rbind_ok in Hb as ([[b1 row] adv] & Hbind & Hb). destruct (negb _); [done|].
  apply rbind_ok in Hb as ([b2 out] & Hc & [= <- _]).
  destruct I as [D R N].
  eapply bind_Routes in Hbind as (R1 & S1 & Hin & Hid & Hhw); [|by split|done]. cbn in Hid, Hhw.
  assert (BusInv cfg b1) as I1.
  { constructor; [|done|by eapply Numbered_same]. destruct S1 as (? & ? & ? & _). by apply (Deliveries_ext cfg b). }
  destruct (fetchone _ _) as [ex|].
  - by eapply commit_duplicate_BusInv.
  - eapply commit_new_BusInv; try done; [by destruct cfg_ok|]. rewrite Hts.
    by eapply canonical_targets_ok.
Qed.

Lemma bind_BusInv m d p at_ b : BusInv cfg b ->
  BusInv cfg (fst (bind_route_source (with_previous cfg m) d p at_ b)).
Proof.
  intros [D R N]. unfold bind_route_source.
  assert (BusInv cfg (fst (bind_route_source_observed (with_previous cfg m) d p at_ b))) as I'.
  { unfold bind_route_source_observed. open_txn Hb. unfold committed in Hb.
    apply rbind_ok in Hb as (req & Hreq & Hb). apply mk_binding_request_ok in Hreq.
    apply rbind_ok in Hb as ([[b1 row] adv] & Hbind & [= <- _]).
    eapply bind_Routes in Hbind as (R1 & S1 & _); [|done|done].
    constructor; [|done|by eapply Numbered_same]. destruct S1 as (? & ? & ? & _).
    by apply (Deliveries_ext cfg b). }
  by destruct (bind_route_source_observed _ _ _ _ _).
Qed.

Lemma brun_BusInv c b : BusInv cfg b -> BusInv cfg (brun cfg c b).
Proof.
  intros I. pose proof I as [D R N]. destruct cfg_ok as [[Hb1 Hb2] Hmax].
  destruct c as [m o]. unfold brun. cbn [fst snd]. destruct o.
  - unfold ingest. open_txn Hb. unfold committed in Hb. apply rbind_ok in Hb as (sg & _ & Hb).
    apply rbind_ok in Hb as (t & _ & Hb). apply rbind_ok in Hb as ([b1 rc] & Hi & [= <- _]).
    by eapply ingest_BusInv.
  - unfold route. open_txn Hb. unfold committed in Hb.
    apply rbind_ok in Hb as (t & _ & Hb). apply rbind_ok in Hb as (u & Hu & Hb).
    apply rbind_ok in Hb as (x & _ & Hb). destruct (bool_decide (u = [])); [by injection Hb as <- _|].
    apply rbind_ok in Hb as (x' & _ & Hb). apply rbind_ok in Hb as ([b1 rows] & Hr & Hb).
    apply rbind_ok in Hb as (out & _ & [= <- _]).
    eapply route_BusInv in Hr as [? _]; try done. by eapply canonical_targets_ok.
  - by apply bind_BusInv.
  - by apply commit_BusInv.
  - eapply BusInv_frame; [done| |apply claim_frame]. by apply claim_due_Deliveries.
  - unfold complete_success. case_goal; [done|].
    eapply BusInv_frame; [done| |apply complete_frame].
    apply (complete_Deliveries (with_previous cfg m)); cbn; done || lia.
  - unfold complete_failure. case_goal; [done|]. bool_hyps.
    eapply BusInv_frame; [done| |apply complete_frame].
    apply (complete_Deliveries (with_previous cfg m)); cbn; try done; try lia. by intros e [= <-].
  - eapply BusInv_frame; [done| |apply release_frame]. by apply release_Deliveries.
  - eapply BusInv_frame; [done| |apply unknown_frame]. by apply unknown_Deliveries.
  - eapply BusInv_frame; [done| |apply recover_frame]. by apply recover_Deliveries.
  - by rewrite watermark_noop.
Qed.

Lemma bruns_BusInv cs b : BusInv cfg b -> BusInv cfg (bruns cfg cs b).
Proof. revert b. induction cs as [|c cs IH]; intros b I; [done|]. by apply IH, brun_BusInv. Qed.
End Invariant.

(** ** How one call changes one outbox row *)

Inductive row_change (c : bop) (o o' : outbox_row) : Prop :=
  | ch_same : o' = o -> row_change c o o'
  | ch_expire : claimable o = true -> o_status o' = EXPIRED ->
      o_attempt_count o' = o_attempt_count o -> row_change c o o'
  | ch_claim w now lf n : c = BClaim w now lf n -> claimable o = true -> o_status o' = LEASED ->
      o_lease_owner o' = Some (strip w) -> o_attempt_count o' = o_attempt_count o + 1 -> row_change c o o'
  | ch_success w n t r : c = BSuccess (o_outbox_id o) w n t r -> o_status o = LEASED ->
      o_lease_owner o = Some w -> o_attempt_count o = n -> o_status o' = SUCCEEDED ->
      o_attempt_count o' = o_attempt_count o -> row_change c o o'
  | ch_failure w n t e : c = BFailure (o_outbox_id o) w n t e -> o_status o = LEASED ->
      o_lease_owner o = Some w -> o_attempt_count o = n ->
      o_attempt_count o' = o_attempt_count o -> row_change c o o'
  | ch_release w n t r : c = BRelease (o_outbox_id o) w n t r -> o_status o = LEASED ->
      o_lease_owner o = Some w -> o_attempt_count o = n ->
      o_attempt_count o' = o_attempt_count o - 1 -> row_change c o o'
  | ch_unknown : o_status o = LEASED -> o_status o' = LEASED ->
      o_attempt_count o' = o_attempt_count o -> row_change c o o'
  | ch_recover now : c = BRecover now -> o_status o = LEASED -> is_terminal (o_status o') = true ->
      o_attempt_count o' = o_attempt_count o -> row_change c o o'.

Section Changes.
Context `{Codec} `{!CodecLaws} (cfg : config) (cfg_ok : config_ok cfg).

(** Every row of [b] has its successor in [b']. *)
Definition changes (c : bop) (b b' : bus) : Prop := forall o, In o (outbox b) ->
  exists o', In o' (outbox b') /\ o_outbox_id o' = o_outbox_id o /\ row_change c o o'.

Lemma changes_refl c b b' : outbox b' = outbox b -> changes c b b'.
Proof. intros He o Ho. exists o. rewrite He. split_and!; try done. by apply ch_same. Qed.

Lemma changes_update c b b' p f : outbox b' = update p f (outbox b) ->
  (forall o, o_outbox_id (f o) = o_outbox_id o) ->
  (forall o, In o (outbox b) -> p o = true -> row_change c o (f o)) -> changes c b b'.
Proof.
  intros He Hid Hf o Ho. exists (if p o then f o else o). rewrite He.
  split; [apply In_update; eauto|]. destruct (p o) eqn:E; [split; [done|by apply Hf]|].
  split; [done|by apply ch_same].
Qed.

(** Routing only expires rows that were waiting. *)
Definition expires_only (b b' : bus) : Prop := forall o, In o (outbox b) -> exists o',
  In o' (outbox b') /\ o_outbox_id o' = o_outbox_id o
  /\ (o' = o \/ claimable o = true /\ o_status o' = EXPIRED /\ o_attempt_count o' = o_attempt_count o).

Lemma expires_only_changes c b b' : expires_only b b' -> changes c b b'.
Proof.
  intros He o Ho. destruct (He o Ho) as (o' & Hin & Hid & Hc). exists o'. split_and!; try done.
  destruct Hc as [->|(Hc & Hs & Hn)]; eauto using row_change.
Qed.

Lemma expires_only_trans b1 b2 b3 : expires_only b1 b2 -> expires_only b2 b3 -> expires_only b1 b3.
Proof.
  intros H1 H2 o Ho. destruct (H1 o Ho) as (o1 & Hin1 & Hid1 & Hc1).
  destruct (H2 o1 Hin1) as (o2 & Hin2 & Hid2 & Hc2). exists o2. split_and!; [done|congruence|].
  destruct Hc1 as [->|(Hcl & Hst & Hn)]; [done|]. right. split; [done|].
  destruct Hc2 as [->|[Hcl2 _]]; [done|]. unfold claimable in Hcl2. by rewrite Hst in Hcl2.
Qed.

Definition keyed (b : bus) : Prop := List.NoDup (map o_outbox_id (outbox b)).

Lemma route_target_expires sid seq sig at_ t b b' : keyed b ->
  route_target sid seq sig at_ t b = Ok b' -> expires_only b b' /\ keyed b'.
Proof.
  intros K Hr. unfold route_target in Hr. apply rbind_ok in Hr as (oid & _ & Hr).
  destruct (fetchone (is_outbox oid) (outbox b)) as [old|] eqn:Ef.
  - apply fetch_outbox in Ef as [Hold Hoid].
    destruct (_ && claimable old) eqn:Ec; injection Hr as <-; [|split; [|done]; intros o Ho; exists o; auto].
    bool_hyps. split; [|unfold keyed; cbn; by rewrite update_map_key]. intros o Ho.
    exists (if is_outbox oid o then expire "signal expired before routing" at_ o else o).
    split; [apply In_update; eauto|]. destruct (is_outbox oid o) eqn:E; [|auto].
    unfold is_outbox in E. str_hyps.
    assert (o = old) as -> by (apply (NoDup_key_eq o_outbox_id (outbox b)); [done..|congruence]). auto.
  - apply insert_outbox_ok in Hr as [-> Hf]. split; [|by apply NoDup_key_app].
    intros o Ho. exists o. cbn. rewrite In_snoc. auto.
Qed.

Lemma route_expires sid ts at_ b b' rows : keyed b ->
  route_in_transaction sid ts at_ b = Ok (b', rows) -> expires_only b b'.
Proof.
  intros K Hr. unfold route_in_transaction in Hr. destruct (fetchone _ _) as [e|]; [|done].
  apply rbind_ok in Hr as (f & _ & Hr). destruct f as [sig|]; [|done]. destruct (_ <? _); [done|].
  apply rbind_ok in Hr as (b1 & Hf & [= <- _]).
  revert b K Hf. induction ts as [|t ts IH]; intros b K Hf; cbn in Hf.
  - injection Hf as <-. intros o Ho. exists o. auto.
  - apply rbind_ok in Hf as (b2 & Ht & Hf). apply route_target_expires in Ht as [H1 K2]; [|done].
    eapply expires_only_trans; [done|]. by apply IH.
Qed.

Lemma ingest_outbox s at_ b b' r : ingest_in_transaction s at_ b = Ok (b', r) -> outbox b' = outbox b.
Proof.
  unfold ingest_in_transaction. intros Hi. apply rbind_ok in Hi as (s' & _ & Hi).
  destruct (s_signal_id s') as [sid|]; [|done]. destruct (fetchone _ _) as [e|].
  - destruct (_ && _); apply rbind_ok in Hi as (? & _ & [= <- _]); [done|].
    unfold add_quarantine. by case_goal.
  - destruct (negb _); [done|]. by apply rbind_ok in Hi as (? & _ & [= <- _]).
Qed.

Lemma commit_expires m d p n s k f r ts at_ b : BusInv cfg b ->
  expires_only b (fst (commit_source_route (with_previous cfg m) d p n s k f r ts at_ b)).
Proof.
  intros [D R N]. assert (expires_only b b) as Hrefl by (intros o Ho; exists o; auto).
  unfold commit_source_route. open_txn Hb. unfold committed in Hb.
  apply rbind_ok in Hb as (sg & _ & Hb). apply rbind_ok in Hb as (canon & _ & Hb).
  apply rbind_ok in Hb as (req & Hreq & Hb). apply commit_request_ok in Hreq as (_ & Hq1 & Hq2).
  destruct (s_signal_id _) as [sid|]; [|done].
  apply rbind_ok in Hb as ([[b1 row] adv] & Hbind & Hb). destruct (negb _); [done|].
  apply rbind_ok in Hb as ([b2 out] & Hc & [= <- _]).
  eapply bind_Routes in Hbind as (_ & (_ & Ho1 & _) & _); [|by split|done].
  destruct (fetchone _ _) as [ex|].
  - unfold commit_duplicate in Hc. apply rbind_ok in Hc as (st & _ & Hc).
    destruct (_ || _); [done|]. apply rbind_ok in Hc as ([b3 ing] & Hi & Hc).
    destruct (bool_decide _); [done|]. injection Hc as <- _. apply ingest_outbox in Hi.
    intros o Ho. exists o. rewrite Hi, Ho1. auto.
  - unfold commit_new in Hc. apply rbind_ok in Hc as (u & _ & Hc).
    apply rbind_ok in Hc as ([b3 ing] & Hi & Hc). destruct (bool_decide _); [done|].
    apply rbind_ok in Hc as ([b4 disp] & Hd & Hc). apply rbind_ok in Hc as (b5 & Hr & Hc).
    apply rbind_ok in Hc as (o & _ & [= <- _]). apply insert_receipt_ok in Hr as (-> & _).
    apply ingest_outbox in Hi. rewrite Ho1 in Hi.
    assert (expires_only b b3) as H3 by (intros x Hx; exists x; rewrite Hi; auto).
    destruct (cr_kind req).
    + apply rbind_ok in Hd as ([bx rows] & Hd & [= <- _]). eapply expires_only_trans; [exact H3|].
      change (expires_only b3 bx). eapply route_expires; [|done]. unfold keyed. rewrite Hi. apply D.
    + injection Hd as <- _. exact H3.
Qed.

Lemma claim_changes w now lf n b : Deliveries (max_attempts cfg) b ->
  changes (BClaim w now lf n) b (fst (claim_due w now lf n b)).
Proof.
  intros D. assert (changes (BClaim w now lf n) b b) as Hrefl by by apply changes_refl.
  unfold claim_due. open_txn Hb. unfold committed in Hb. ok_inv Hb.
  match goal with Hf : rfold _ ?rows _ = Ok _ |- _ => rename Hf into Hloop; set (cands := rows) in * end.
  pose proof (expire_due_Deliveries cfg (proj2 cfg_ok) x b D) as D1.
  assert (forall r, In r cands -> In r (outbox (expire_due x b)) /\ is_due x r = true) as Hc
    by (intros r Hr; by apply candidates_spec in Hr).
  apply claim_loop in Hloop as ->; [|apply D1|by apply candidates_NoDup, D1|intros r Hr; by apply Hc].
  intros o Ho. set (o1 := if claimable o && (o_expires_at o <=? x)
    then expire "signal expired before delivery claim" x o else o).
  assert (In o1 (outbox (expire_due x b))) as Ho1 by (apply In_update; eauto).
  assert (o_outbox_id o1 = o_outbox_id o) as Hid1 by (subst o1; by case_goal).
  set (p := fun o => bool_decide (o_outbox_id o ∈ map o_outbox_id cands)).
  exists (if p o1 then claimed_row (strip w) x lf o1 else o1).
  split; [apply In_update; eauto|]. split; [destruct (p o1); by rewrite <- Hid1|].
  destruct (p o1) eqn:Ep.
  - subst p. cbn in Ep. bool_hyps. apply list_elem_of_In, in_map_iff in Ep as (r & Hr & Hin).
    destruct (Hc r Hin) as [Hin1 Hdue].
    assert (r = o1) as -> by by apply (outbox_key_eq (max_attempts cfg) (expire_due x b)).
    unfold is_due in Hdue. bool_hyps.
    assert (o1 = o) as Heq by (subst o1; destruct (_ && _); [by unfold claimable in *|done]).
    rewrite Heq in *. by eapply ch_claim.
  - subst o1. destruct (_ && _) eqn:E5; [|by apply ch_same]. bool_hyps. by apply ch_expire.
Qed.

Lemma complete_changes m oid w n t out b c : Deliveries (max_attempts cfg) b ->
  c = match out with inl r => BSuccess oid w n t r | inr e => BFailure oid w n t e end ->
  changes c b (fst (complete (with_previous cfg m) oid w n t out b)).
Proof.
  intros D Hc. assert (changes c b b) as Hrefl by by apply changes_refl.
  unfold complete. open_txn Hb. unfold committed in Hb.
  apply rbind_ok in Hb as (t0 & _ & Hb).
  destruct (fetchone (is_outbox oid) (outbox b)) as [row|] eqn:Hrow; [|done].
  apply fetch_outbox in Hrow as [Hin <-].
  apply rbind_ok in Hb as (u & Hv & Hb). apply rbind_ok in Hb as (started & _ & Hb).
  apply rbind_ok in Hb as (b1 & Hi & Hb). apply rbind_ok in Hb as ([[st next] err] & Hst & Hb).
  apply rbind_ok in Hb as (? & _ & [= <- _]). apply bus_insert_attempt_ok in Hi as ->.
  unfold verify_lease in Hv. apply rbind_ok in Hv as (u' & Hl & _). apply lease_holder_ok in Hl as (? & ? & ?).
  eapply changes_update; [reflexivity|done|]. intros o Ho Hp. unfold is_outbox in Hp. str_hyps.
  assert (o = row) as -> by by apply (outbox_key_eq (max_attempts cfg) b).
  destruct out; [injection Hst as <- _ _; by eapply ch_success|by eapply ch_failure].
Qed.

Lemma release_changes oid w n t r b : Deliveries (max_attempts cfg) b ->
  changes (BRelease oid w n t r) b (fst (release_unattempted oid w n t r b)).
Proof.
  intros D. assert (changes (BRelease oid w n t r) b b) as Hrefl by by apply changes_refl.
  unfold release_unattempted. open_txn Hb. unfold committed in Hb.
  destruct (negb _); [done|]. apply rbind_ok in Hb as (t0 & _ & Hb).
  destruct (fetchone (is_outbox oid) (outbox b)) as [row|] eqn:Hrow; [|done].
  apply fetch_outbox in Hrow as [Hin <-].
  apply rbind_ok in Hb as (u & Hl & Hb). apply lease_holder_ok in Hl as (? & ? & ?).
  apply rbind_ok in Hb as (started & _ & Hb). destruct (_ <? _); [done|]. destruct (_ <? _); [done|].
  apply rbind_ok in Hb as (? & _ & [= <- _]).
  eapply changes_update; [reflexivity|done|]. intros o Ho Hp. unfold is_outbox in Hp. str_hyps.
  assert (o = row) as -> by by apply (outbox_key_eq (max_attempts cfg) b).
  by eapply ch_release.
Qed.

Lemma unknown_changes oid w n t r p b : Deliveries (max_attempts cfg) b ->
  changes (BUnknown oid w n t r p) b (fst (record_unknown_delivery oid w n t r p b)).
Proof.
  intros D. assert (changes (BUnknown oid w n t r p) b b) as Hrefl by by apply changes_refl.
  unfold record_unknown_delivery. open_txn Hb. unfold committed in Hb. ok_inv Hb; [done|].
  match goal with Hf : fetchone (is_outbox _) _ = Some _ |- _ => apply fetch_outbox in Hf as [Hin <-] end.
  match goal with Hl : lease_holder _ _ _ = Ok _ |- _ => apply lease_holder_ok in Hl as (? & ? & ?) end.
  match goal with Hi : insert_unknown _ _ = Ok _ |- _ => unfold insert_unknown in Hi; ok_inv Hi end.
  eapply changes_update; [reflexivity|done|]. intros o' Ho Hp. unfold is_outbox in Hp. str_hyps.
  match type of Hin with In ?row _ =>
    assert (o' = row) as -> by by apply (outbox_key_eq (max_attempts cfg) b) end.
  by apply ch_unknown.
Qed.

Lemma recover_changes now b : Deliveries (max_attempts cfg) b ->
  changes (BRecover now) b (fst (recover_expired_leases now b)).
Proof.
  intros D. assert (changes (BRecover now) b b) as Hrefl by by apply changes_refl.
  unfold recover_expired_leases. open_txn Hb. unfold committed in Hb. ok_inv Hb.
  fold (expired_rows x b) in *.
  rewrite recover_loop; [|apply D|by apply expired_rows_NoDup, D|intros ? ?%expired_rows_In; tauto].
  eapply changes_update; [reflexivity|done|]. intros o Ho Hp. cbn in Hp. bool_hyps.
  apply list_elem_of_In, in_map_iff in Hp as (r & Hr & [Hin Hexp]%expired_rows_In).
  assert (r = o) as -> by by apply (outbox_key_eq (max_attempts cfg) b).
  unfold lease_expired, status_is in Hexp. bool_hyps. eapply ch_recover; [done|done| |done].
  cbn. by destruct (_ <=? _).
Qed.

Lemma brun_changes c b : BusInv cfg b -> changes (snd c) b (brun cfg c b).
Proof.
  intros I. pose proof I as [D R N]. destruct c as [m o]. unfold brun. cbn [fst snd].
  assert (changes o b b) as Hrefl by by apply changes_refl.
  destruct o.
  - unfold ingest. open_txn Hb. unfold committed in Hb. apply rbind_ok in Hb as (sg & _ & Hb).
    apply rbind_ok in Hb as (t & _ & Hb). apply rbind_ok in Hb as ([b1 rc] & Hi & [= <- _]).
    by apply changes_refl, (ingest_outbox _ _ _ _ _ Hi).
  - unfold route. open_txn Hb. unfold committed in Hb.
    apply rbind_ok in Hb as (t & _ & Hb). apply rbind_ok in Hb as (u & _ & Hb).
    apply rbind_ok in Hb as (x & _ & Hb). destruct (bool_decide (u = [])); [by injection Hb as <- _|].
    apply rbind_ok in Hb as (x' & _ & Hb). apply rbind_ok in Hb as ([b1 rows] & Hr & Hb).
    apply rbind_ok in Hb as (out & _ & [= <- _]).
    apply expires_only_changes. eapply route_expires; [|done]. apply D.
  - apply changes_refl. unfold bind_route_source.
    assert (outbox (fst (bind_route_source_observed (with_previous cfg m) d policy observed_at b)) = outbox b) as Ho.
    { unfold bind_route_source_observed. open_txn Hb. unfold committed in Hb.
      apply rbind_ok in Hb as (req & Hreq & Hb). apply mk_binding_request_ok in Hreq.
      apply rbind_ok in Hb as ([[b1 row] adv] & Hbind & [= <- _]).
      by eapply bind_Routes in Hbind as (_ & (_ & ? & _) & _). }
    by destruct (bind_route_source_observed _ _ _ _ _).
  - by apply expires_only_changes, commit_expires.
  - by apply claim_changes.
  - unfold complete_success. case_goal; [done|]. by apply complete_changes.
  - unfold complete_failure. case_goal; [done|]. by apply complete_changes.
  - by apply release_changes.
  - by apply unknown_changes.
  - by apply recover_changes.
  - rewrite watermark_noop by done. done.
Qed.
End Changes.

(** ** The contract of the bus *)

Lemma status_ok_bounds max k o : 1 <= max -> 0 <= k -> status_ok max k o ->
  k <= max
  /\ (forall u, o_lease_until o = Some u -> o_status o = LEASED /\ u <= o_expires_at o)
  /\ (forall n, o_next_attempt_at o = Some n -> o_status o = RETRY /\ n < o_expires_at o).
Proof.
  intros Hm Hk. unfold status_ok. destruct (o_status o).
  - intros (? & ? & Hn & _ & _ & Hu & _). rewrite Hn, Hu. split_and!; [lia|done|done].
  - intros (? & ? & Hn & _ & (s & u & _ & Hu & _ & ? & _) & _). rewrite Hn, Hu.
    split_and!; [lia|by intros ? [= <-]|done].
  - intros (? & ? & _ & _ & Hu & _ & (n & Hn & ?) & _). rewrite Hn, Hu.
    split_and!; [lia|done|]. intros ? [= <-]. split; [done|lia].
  - intros (? & ? & Hn & _ & _ & Hu & _). rewrite Hn, Hu. split_and!; [lia|done|done].
  - intros (? & ? & Hn & _ & _ & Hu & _). rewrite Hn, Hu. split_and!; [lia|done|done].
  - intros (? & ? & Hn & _ & _ & Hu & _). rewrite Hn, Hu. split_and!; [lia|done|done].
Qed.

(** C32: after any sequence of calls on a freshly initialised database the tables are consistent:
    envelopes are numbered without gaps and the high watermark is the last number, every stored
    payload is the canonical text of a valid signal, the receipts of each source are exactly the
    sequences up to its cursor, and every outbox row fits its status and its recorded attempts. *)
Theorem bus_invariant (K : Codec) (L : CodecLaws) cfg token cs : config_ok cfg ->
  BusInv cfg (bruns cfg cs (fresh_bus cfg token)).
Proof. intros Hc. apply bruns_BusInv; [done|]. by apply fresh_BusInv. Qed.

(** C30: the delivery record of a target.  In every reachable database the attempts recorded for an
    outbox row are numbered 1, 2, ... and are at most [max_attempts]; a success is the last of
    them and exists exactly when the row is [SUCCEEDED]; a lease never outlives the signal and a
    retry is never scheduled at or after its expiry. *)
Theorem delivery_record (K : Codec) (L : CodecLaws) cfg token cs o : config_ok cfg ->
  let b := bruns cfg cs (fresh_bus cfg token) in
  let h := history (o_outbox_id o) b in
  In o (outbox b) ->
  (forall i a, nth_error h i = Some a -> at_attempt_no a = Z.of_nat i + 1)
  /\ Z.of_nat (length h) <= max_attempts cfg
  /\ (forall i a, nth_error h i = Some a -> at_success a = true ->
        S i = length h /\ o_status o = SUCCEEDED)
  /\ (o_status o = SUCCEEDED -> exists a, last h = Some a /\ at_success a = true)
  /\ (forall u, o_lease_until o = Some u -> o_status o = LEASED /\ u <= o_expires_at o)
  /\ (forall n, o_next_attempt_at o = Some n -> o_status o = RETRY /\ n < o_expires_at o).
Proof.
  intros Hc b h Ho. assert (BusInv cfg b) as I.
  { apply bruns_BusInv; [done|]. by apply fresh_BusInv. }
  destruct (dv_rows _ _ (bi_deliveries _ _ I) o Ho) as [_ _ Hst [Hn Hs Hl]]. fold h in Hst, Hn, Hs, Hl.
  destruct (status_ok_bounds _ _ _ (proj2 Hc) (Nat2Z.is_nonneg _) Hst) as (? & ? & ?). by split_and!.
Qed.

(** C3: at most one delivery in flight.  One call changes an existing row only along the delivery
    state machine: a finished row never changes again, and a leased row becomes claimable again
    only when the holder of that very lease reports a confirmed failure or releases it
    unattempted; an unknown outcome, an expired lease or anyone else's call never does that. *)
Theorem lease_returns_only_by_holder (K : Codec) (L : CodecLaws) cfg token cs c o o' : config_ok cfg ->
  let b := bruns cfg cs (fresh_bus cfg token) in
  In o (outbox b) -> In o' (outbox (brun cfg c b)) -> o_outbox_id o' = o_outbox_id o ->
  (is_terminal (o_status o) = true -> o' = o)
  /\ (o_status o = LEASED -> claimable o' = true -> exists w t why,
       o_lease_owner o = Some w
       /\ (snd c = BFailure (o_outbox_id o) w (o_attempt_count o) t why
           \/ snd c = BRelease (o_outbox_id o) w (o_attempt_count o) t why)).
Proof.
  intros Hc b Ho Ho' Hid. assert (BusInv cfg b) as I.
  { apply bruns_BusInv; [done|]. by apply fresh_BusInv. }
  destruct (brun_changes cfg Hc c b I o Ho) as (o1 & Ho1 & Hid1 & Hch).
  pose proof (brun_BusInv cfg Hc c b I) as [D' _ _].
  assert (o' = o1) as -> by (apply (outbox_key_eq (max_attempts cfg) (brun cfg c b)); [done..|congruence]).
  split.
  - intros Ht. destruct Hch as [->|Hcl|? ? ? ? ? Hcl|? ? ? ? ? E|? ? ? ? ? E|? ? ? ? ? E|E|? ? E]; try done;
      try (by rewrite E in Ht); unfold claimable in Hcl; by destruct (o_status o).
  - intros Hl Hcl1. destruct Hch as [->|Hcl|? ? ? ? ? Hcl|? ? ? ? ? ? ? ? E|w n t e|w n t e|? E|? ? ? E].
    all: try (unfold claimable in *; by rewrite Hl in *).
    + unfold claimable in Hcl1. by rewrite E in Hcl1.
    + exists w, t, e. subst n. auto.
    + exists w, t, e. subst n. auto.
    + unfold claimable in Hcl1. by rewrite E in Hcl1.
    + unfold claimable in Hcl1. by destruct (o_status o1).
Qed.

(** The retry delay doubles with every attempt up to the configured maximum, never shorter than
    the base delay, as long as the doubled delay is a [timedelta]; past that Python's
    multiplication raises [OverflowError] before the maximum is applied. *)
Theorem retry_delay_spec cfg n : config_ok cfg -> 1 <= n ->
  let doubled := retry_base_delay cfg * 2 ^ (n - 1) in
  (doubled <= timedelta_max ->
     retry_delay cfg n = Ok (Z.min doubled (retry_max_delay cfg))
     /\ retry_base_delay cfg <= Z.min doubled (retry_max_delay cfg) <= retry_max_delay cfg)
  /\ (timedelta_max < doubled -> retry_delay cfg n = Err (Raise OverflowError "days out of range")).
Proof.
  intros [[Hb1 Hb2] Hm] Hn doubled. unfold retry_delay, td_mul.
  rewrite Z.max_l, Z.shiftl_mul_pow2, Z.mul_1_l by lia. fold doubled.
  assert (1 <= 2 ^ (n - 1)) as Hp by (change 1 with (2 ^ 0) at 1; apply Z.pow_le_mono_r; lia).
  assert (retry_base_delay cfg <= doubled) as Hd by (subst doubled; nia).
  rewrite (proj2 (Z.leb_le _ doubled)) by (unfold us_per_day, us_per_second; lia). cbn [andb].
  split; intros Ht.
  - rewrite (proj2 (Z.leb_le _ _)) by done. cbn. split; [done|lia].
  - by rewrite (proj2 (Z.leb_gt _ _)).
Qed.

(** ** A concrete codec, for the examples *)

Definition bit0 : Ascii.ascii := Ascii.ascii_of_nat 48.
Definition bit1 : Ascii.ascii := Ascii.ascii_of_nat 49.

Fixpoint pos_text (p : positive) : string :=
  match p with xH => "" | xO p => String bit0 (pos_text p) | xI p => String bit1 (pos_text p) end.

Fixpoint text_pos (s : string) : positive :=
  match s with
  | EmptyString => xH
  | String c s => if Ascii.eqb c bit0 then xO (text_pos s) else xI (text_pos s)
  end.

Lemma text_pos_text p : text_pos (pos_text p) = p.
Proof. induction p; cbn; by rewrite ?IHp. Qed.

Lemma pos_text_hex p : all_hex (String bit1 (pos_text p)) = true.
Proof. induction p; cbn in *; done. Qed.

Definition envelope_code (s : SignalEnvelope) : positive :=
  encode (s_signal_id s, s_event_time s, s_available_at s, s_expires_at s, s_content s).

Definition envelope_of (p : positive) : res signal_json :=
  match decode p with
  | Some (i, e, a, x, t) => Ok {| j_envelope_schema := None; j_fields :=
      {| s_signal_id := i; s_event_time := e; s_available_at := a; s_expires_at := x; s_content := t |} |}
  | None => Err (Raise ValueError "Expecting value")
  end.

Definition target_code (t : DeliveryTarget) : string * bool :=
  (recipient_id t, match channel t with PUSHDEER => true | PUSHPLUS => false end).

Definition target_of (p : string * bool) : DeliveryTarget :=
  {| recipient_id := fst p; channel := if snd p then PUSHDEER else PUSHPLUS |}.

Definition unquote (t : string) : string := match t with EmptyString => EmptyString | String _ t => t end.

Definition demo_codec : Codec := {|
  signal_payload s := String bit1 (pos_text (envelope_code s));
  strict_json_loads t := envelope_of (text_pos (unquote t));
  manifest_payload ts := pos_text (encode (map target_code ts));
  manifest_loads t := match decode (text_pos t) with
                      | Some l => Ok (map target_of l)
                      | None => Err (Raise ValueError "Expecting value") end;
  payload_hash t := digits 64 (Z.of_nat (String.length t));
  signal_sha256 c e a x t := digits 64 (e + 1000 * a + 1000000 * x + 10 ^ 40 * Z.of_nat (String.length t));
  delivery_sha256 s _ _ := s;
  decision_sha256 _ _ ts _ := digits 64 (Z.of_nat (length ts));
  policy_sha256 _ _ _ := "policy"
|}.

#[export] Instance demo_laws : @CodecLaws demo_codec.
Proof.
  constructor.
  - intros t. apply digits_hex64.
  - intros. apply digits_hex64.
  - done.
  - done.
  - intros s. cbn. rewrite text_pos_text. unfold envelope_of, envelope_code.
    rewrite decode_encode. by destruct s.
  - intros s. split; [|done]. apply strip_hex, pos_text_hex.
  - intros ts. cbn. rewrite text_pos_text, decode_encode, map_map. f_equal.
    induction ts as [|[r []] ts IH]; cbn; [done|by rewrite IH..].
Qed.

Definition demo_cfg : config := {| retry_base_delay := 5 * us_per_second;
  retry_max_delay := 300 * us_per_second; max_attempts := 3;
  previous_generation_of_strategy_spec := ∅ |}.

Definition demo_signal : SignalEnvelope := {| s_signal_id := None; s_event_time := 1;
  s_available_at := 2; s_expires_at := 100 * us_per_second; s_content := "buy" |}.

Definition demo_sid : string := Eval vm_compute in
  @signal_sha256 demo_codec false 1 2 (100 * us_per_second) "buy".

Definition hexes (n : Z) : string := digits 64 n.

Definition demo_target : DeliveryTarget := {| recipient_id := "alice"; channel := PUSHPLUS |}.

Definition sec (n : Z) : pydatetime := Aware (n * us_per_second).

Definition demo_commit : bop :=
  BCommit {| d_source_id := "strategy-a"; d_generation_id := hexes 1; d_strategy_spec := hexes 2;
             d_first_sequence := 1; d_high_watermark := 1 |}
    (hexes 3) 1 (Legacy demo_signal) ROUTE (hexes 1) None [demo_target] (sec 3).

(** Routed, claimed, failed once, claimed again, then an unknown outcome and recovery. *)
Definition demo_calls : list bcall := map (pair ∅)
  [ demo_commit;
    BClaim "w1" (sec 4) (10 * us_per_second) 5;
    BFailure demo_sid "w1" 1 (sec 5) "HTTP 500";
    BClaim "w2" (sec 12) (10 * us_per_second) 5;
    BUnknown demo_sid "w2" 2 (sec 13) "timeout" None;
    BRecover (sec 30) ].

Lemma demo_cfg_ok : config_ok demo_cfg.
Proof. split; cbn; unfold us_per_second; lia. Qed.

Lemma bus_invariant_witness :
  length (attempts (@bruns demo_codec demo_cfg demo_calls (@fresh_bus demo_codec demo_cfg "t"))) = 1%nat
  /\ @BusInv demo_codec demo_cfg
       (@bruns demo_codec demo_cfg demo_calls (@fresh_bus demo_codec demo_cfg "t")).
Proof.
  split; [vm_compute; reflexivity|].
  apply (bus_invariant demo_codec demo_laws demo_cfg "t" demo_calls demo_cfg_ok).
Defined.

(** The database after the first [n] calls. *)
Abbreviation demo_bus n :=
  (@bruns demo_codec demo_cfg (firstn n demo_calls) (@fresh_bus demo_codec demo_cfg "t")).

Lemma delivery_record_witness : exists o, In o (outbox (demo_bus 6)) /\ o_status o = DEAD_LETTER
  /\ Z.of_nat (length (history (o_outbox_id o) (demo_bus 6))) <= 3.
Proof.
  destruct (nth_error (outbox (demo_bus 6)) 0) as [o|] eqn:E; [|vm_compute in E; discriminate].
  pose proof (nth_error_In _ _ E) as Hin. exists o. split; [exact Hin|]. split.
  - vm_compute in E. injection E as <-. reflexivity.
  - destruct (delivery_record demo_codec demo_laws demo_cfg "t" (firstn 6 demo_calls) o demo_cfg_ok Hin)
      as (_ & H & _). exact H.
Defined.

(** The first lease comes back through its holder's failure report. *)
Abbreviation demo_failure := (BFailure demo_sid "w1" 1 (sec 5) "HTTP 500").

Abbreviation demo_failed := (@brun demo_codec demo_cfg (∅, demo_failure) (demo_bus 2)).

Lemma lease_returns_only_by_holder_witness : exists o o',
  In o (outbox (demo_bus 2)) /\ o_status o = LEASED
  /\ In o' (outbox demo_failed) /\ claimable o' = true /\ o_lease_owner o = Some "w1"%string.
Proof.
  destruct (nth_error (outbox (demo_bus 2)) 0) as [o|] eqn:E; [|vm_compute in E; discriminate].
  destruct (nth_error (outbox demo_failed) 0) as [o'|] eqn:E'; [|vm_compute in E'; discriminate].
  pose proof (nth_error_In _ _ E) as Hin. pose proof (nth_error_In _ _ E') as Hin'.
  assert (o_status o = LEASED /\ o_outbox_id o = demo_sid) as [Hl Hi]
    by (vm_compute in E; injection E as <-; split; reflexivity).
  assert (claimable o' = true /\ o_outbox_id o' = demo_sid) as [Hc Hi']
    by (vm_compute in E'; injection E' as <-; split; reflexivity).
  destruct (lease_returns_only_by_holder demo_codec demo_laws demo_cfg "t" (firstn 2 demo_calls)
    (∅, demo_failure) o o' demo_cfg_ok Hin Hin' (eq_trans Hi' (eq_sym Hi))) as [_ H].
  destruct (H Hl Hc) as (w & t & why & Hw & [Hf|Hf]); [|discriminate Hf].
  injection Hf as _ <- _ _ _. exact (ex_intro _ o (ex_intro _ o' (conj Hin (conj Hl (conj Hin' (conj Hc Hw)))))).
Defined.

Lemma retry_delay_spec_witness :
  retry_delay demo_cfg 3 = Ok (20 * us_per_second)
  /\ retry_delay demo_cfg 60 = Err (Raise OverflowError "days out of range").
Proof.
  split.
  - destruct (retry_delay_spec demo_cfg 3 demo_cfg_ok ltac:(lia)) as [H _].
    destruct H as [H _]; [vm_compute; discriminate|]. exact H.
  - destruct (retry_delay_spec demo_cfg 60 demo_cfg_ok ltac:(lia)) as [_ H].
    apply H. vm_compute. reflexivity.
Defined.

(** an unknown outcome reported after the lease ran out (the worker's path when a provider call
    outlasts its lease) is stored, and until the lease is recovered the row then fails its own
    contract: reading the outbox raises [ValueError] although every call before succeeded. *)
Example late_unknown_breaks_reads :
  let b := @brun demo_codec demo_cfg (∅, BUnknown demo_sid "w1" 1 (sec 15) "slow provider" None)
             (demo_bus 2) in
  is_ok (snd (record_unknown_delivery demo_sid "w1" 1 (sec 15) "slow provider" None
                (demo_bus 2))) = true
  /\ is_ok (@outbox_records demo_codec None None (demo_bus 2)) = true
  /\ @outbox_records demo_codec None None b
     = Err (Raise ValueError "lease_until must be after updated_at")
  /\ is_ok (@outbox_records demo_codec None None (@brun demo_codec demo_cfg (∅, BRecover (sec 16)) b)) = true.
Proof. vm_compute. repeat split; reflexivity. Qed.
