(* ===== verification/SignalBusPages.v ===== *)
(** * Signal bus: reading the numbered sequence

    [signals_after_global_sequence] hands the stored signals to the consumers in pages.  On every
    reachable database a page is exactly the requested slice of the append-only sequence. *)

From Stdlib Require Import ZArith Lia Bool.
From stdpp Require Import base list strings gmap sorting pretty.
From S2P Require Import Prelude Sequences Clock DeliveryContracts SignalBus SignalBusInv SignalBusRoutes SignalBusThms.
Open Scope Z_scope.
Open Scope rq_scope.

Abbreviation numbered_from := (numbered_by e_global_sequence).

Section Records.
Context `{Codec} `{!CodecLaws}.

Lemma stored_parses e : stored_ok e -> exists s, parse_signal_envelope (e_payload_json e) = Ok (Legacy s)
  /\ s_signal_id s = Some (e_signal_id e).
Proof.
  intros (s & Hp & _ & Hv & Hid). exists s. split; [|done].
  unfold parse_signal_envelope. rewrite Hp, payload_loads. cbn. by rewrite Hv.
Qed.

Definition record_of (e : envelope_row) (signal : SignalEnvelopeFamily) : SignalBusSignalRecord :=
  {| sg_global_sequence := e_global_sequence e; sg_signal_id := e_signal_id e;
     sg_payload_hash := e_payload_hash e; sg_payload_json := e_payload_json e;
     sg_signal := signal; sg_received_at := e_received_at e |}.

Lemma signal_id_hex s sid : validate_signal false s = Ok s -> s_signal_id s = Some sid ->
  is_hex64 sid = true.
Proof.
  intros Hv Hid. unfold validate_signal in Hv. rewrite Hid in Hv. ok_inv Hv.
  bool_hyps. str_hyps. subst. apply signal_hex.
Qed.

Lemma stored_record e s : stored_ok e -> 1 <= e_global_sequence e ->
  parse_signal_envelope (e_payload_json e) = Ok s -> mk_signal_record e s = Ok (record_of e s).
Proof.
  intros (s0 & Hp & Hh & Hv & Hid) H1 Hs. pose proof (signal_id_hex _ _ Hv Hid) as Hx.
  assert (s = Legacy s0) as ->.
  { unfold parse_signal_envelope in Hs. rewrite Hp, payload_loads in Hs. cbn in Hs.
    rewrite Hv in Hs. cbn in Hs. congruence. }
  unfold mk_signal_record, record_of. destruct (payload_strip s0) as [Hst Hne].
  pose proof (payload_hash_hex (signal_payload s0)) as Hph.
  rewrite (strip_hex64 _ Hx), Hh, Hp, (strip_hex64 _ Hph), Hst, Hx, Hph, Hne.
  rewrite (proj2 (Z.leb_le _ _)) by done. cbn. rewrite Hid, bool_decide_eq_true_2 by done. cbn.
  rewrite Hp in Hs. rewrite Hs. cbn. rewrite bool_decide_eq_true_2 by done. cbn.
  by rewrite eqs_refl.
Qed.

(** What a reader at [t] may see of a stored signal. *)
Definition visible (t : Z) (r : SignalBusSignalRecord) : Prop :=
  s_available_at (family_envelope (sg_signal r)) <= t /\ sg_received_at r <= t.

Definition record_for (r : SignalBusSignalRecord) (e : envelope_row) : Prop :=
  r = record_of e (sg_signal r) /\ parse_signal_envelope (e_payload_json e) = Ok (sg_signal r).

Lemma visible_records_spec rows k t : numbered_from k rows -> 0 <= k ->
  (forall e, In e rows -> stored_ok e) ->
  exists shown, visible_records (k + 1) t rows = Ok shown
    /\ Forall2 record_for shown (take (length shown) rows)
    /\ Forall (visible t) shown
    /\ (forall e r, nth_error rows (length shown) = Some e -> record_for r e -> ~ visible t r).
Proof.
  revert k. induction rows as [|e rows IH]; intros k Hn Hk Hst.
  { exists []. cbn. split_and!; [done|constructor|constructor|done]. }
  pose proof (numbered_head _ _ _ Hn) as He.
  destruct (stored_parses e (Hst e (or_introl eq_refl))) as (s & Hs & _).
  cbn [visible_records]. rewrite He, Z.eqb_refl, Hs. cbn [negb rbind].
  destruct (_ || _) eqn:Evis.
  - exists []. cbn. split_and!; [done|constructor|constructor|]. intros ? r [= <-] [Hr0 Hr] [Hv1 Hv2].
    assert (sg_signal r = Legacy s) as Hsg by congruence. rewrite Hsg in Hv1. cbn in Hv1, Evis.
    assert (sg_received_at r = e_received_at e) as Hre.
    { by rewrite Hr0. }
    bool_hyps. lia.
  - assert (mk_signal_record e (Legacy s) = Ok (record_of e (Legacy s))) as Hr
      by (apply stored_record; [by apply Hst; left|lia|done]).
    rewrite Hr. cbn [rbind].
    destruct (IH (k + 1) (numbered_tail _ _ _ Hn)) as (shown & -> & H2 & Hv & Hnext);
      [lia|by intros; apply Hst; right|].
    exists (record_of e (Legacy s) :: shown). cbn [rbind length take nth_error]. split_and!; try done.
    + constructor; [|done]. by split.
    + constructor; [|done]. bool_hyps. split; cbn in *; lia.
Qed.
End Records.

Lemma page_slice `{Codec} b after through limit : Numbered b -> 0 <= after <= through ->
  envelope_page b after through limit
  = take (Z.to_nat limit) (take (Z.to_nat (through - after)) (drop (Z.to_nat after) (envelopes b))).
Proof.
  intros N Ha. unfold envelope_page. f_equal.
  assert (numbered_from 0 (envelopes b)) as Hn.
  { intros i e Hi. rewrite (nb_sequence _ N i e Hi). lia. }
  pose proof (select_slice (envelopes b) 0 (Z.to_nat after) (Z.to_nat through) Hn ltac:(lia)) as Hs.
  replace (0 + Z.of_nat (Z.to_nat after)) with after in Hs by lia.
  replace (0 + Z.of_nat (Z.to_nat through)) with through in Hs by lia.
  replace (Z.to_nat through - Z.to_nat after)%nat with (Z.to_nat (through - after)) in Hs by lia.
  unfold in_page in Hs. rewrite Hs. eapply (numbered_sorted sequence_le); [done|]. eapply numbered_take, numbered_drop, Hn.
Qed.

(** C34: reading in pages never skips, repeats or invents a signal.  On every reachable database a
    valid request up to the high watermark succeeds and returns the records of consecutive
    envelopes, starting right after [after_sequence], cut at [through_sequence] and [limit]; every
    record is visible at the reading time and the page stops early only at the first signal that
    is not. *)
Theorem pages_are_exact (K : Codec) (L : CodecLaws) cfg token cs after through t limit : config_ok cfg ->
  let b := bruns cfg cs (fresh_bus cfg token) in
  let page := take (Z.to_nat limit)
                (take (Z.to_nat (through - after)) (drop (Z.to_nat after) (envelopes b))) in
  0 <= after <= through -> through <= Z.of_nat (length (envelopes b)) -> 1 <= limit ->
  sql_int through = true -> sql_int limit = true -> in_range t = true ->
  exists shown, signals_after_global_sequence after through (Aware t) limit b = Ok shown
    /\ Forall2 record_for shown (take (length shown) page)
    /\ Forall (visible t) shown
    /\ (forall e r, nth_error page (length shown) = Some e -> record_for r e -> ~ visible t r).
Proof.
  intros Hc b page Ha Ht Hl Hst Hsl Hr. assert (Numbered b) as N.
  { eapply bi_numbered, bruns_BusInv; [done|]. by apply fresh_BusInv. }
  unfold signals_after_global_sequence, check_page, check_watermark.
  rewrite !(proj2 (Z.ltb_ge _ _)) by lia. unfold normalize_aware_utc. rewrite Hr. cbn [rbind].
  rewrite (nb_watermark _ N), (proj2 (Z.ltb_ge _ _)) by lia. cbn [rbind].
  assert (sql_int after = true) as ->.
  { unfold sql_int, in_int64 in *. bool_hyps. apply andb_true_iff. rewrite !Z.leb_le. split; lia. }
  rewrite Hst, Hsl. cbn [andb negb rbind]. rewrite page_slice by done. fold page.
  assert ((after <? through) && is_nil page = false) as ->.
  { destruct (after <? through) eqn:E; [|done]. bool_hyps. cbn [andb]. unfold page.
    destruct (take (Z.to_nat (through - after)) _) eqn:Ed.
    - apply (f_equal length) in Ed. rewrite length_take, length_drop in Ed. cbn in Ed. lia.
    - destruct (Z.to_nat limit) eqn:El; [lia|done]. }
  apply visible_records_spec; [|lia|].
  - unfold page. apply numbered_take, numbered_take.
    replace after with (0 + Z.of_nat (Z.to_nat after)) at 1 by lia. apply numbered_drop.
    intros i e Hi. rewrite (nb_sequence _ N i e Hi). lia.
  - intros e He. apply (nb_stored _ N). unfold page in He.
    apply In_nth_error in He as [i Hi]. do 2 apply nth_error_take in Hi.
    eapply nth_error_In, nth_error_drop, Hi.
Qed.

(** Two signals; at second 5 the second one has not been received yet. *)
Definition page_calls : list bcall := map (pair ∅)
  [ BIngest (Legacy demo_signal) (sec 3);
    BIngest (Legacy {| s_signal_id := None; s_event_time := 1; s_available_at := 2;
                       s_expires_at := 100 * us_per_second; s_content := "sell" |}) (sec 9) ].

Abbreviation page_bus := (@bruns demo_codec demo_cfg page_calls (@fresh_bus demo_codec demo_cfg "t")).

Lemma pages_are_exact_witness :
  (exists shown, @signals_after_global_sequence demo_codec 0 2 (sec 5) 10 page_bus = Ok shown
     /\ map sg_global_sequence shown = [1])
  /\ (exists shown, @signals_after_global_sequence demo_codec 0 2 (sec 9) 10 page_bus = Ok shown
     /\ map sg_global_sequence shown = [1; 2]).
Proof.
  split.
  - destruct (pages_are_exact demo_codec demo_laws demo_cfg "t" page_calls 0 2 (5 * us_per_second) 10
      demo_cfg_ok) as (shown & Hs & _);
      [lia|vm_compute; discriminate|lia|reflexivity|reflexivity|reflexivity|].
    exists shown. split; [exact Hs|]. vm_compute in Hs. injection Hs as <-. reflexivity.
  - destruct (pages_are_exact demo_codec demo_laws demo_cfg "t" page_calls 0 2 (9 * us_per_second) 10
      demo_cfg_ok) as (shown & Hs & _);
      [lia|vm_compute; discriminate|lia|reflexivity|reflexivity|reflexivity|].
    exists shown. split; [exact Hs|]. vm_compute in Hs. injection Hs as <-. reflexivity.
Defined.
