(* ===== verification/NotificationWorker.v ===== *)
(** * Notification worker ([src/rquant/notification_worker.py])

    [run_notification_batch] claims due deliveries from the signal bus, calls the provider of each
    channel and writes the outcome back.  The function is translated as a program over its
    effects: store calls, clock readings and provider calls.  [interp] runs it on a bus of its own;
    [NotificationSystem.v] runs any number of them against one bus.

    Providers and the rendering of exceptions are code outside the repository's core: a provider
    call answers with anything, and [ExnText] gives an exception's class name and text. *)

From Stdlib Require Import ZArith Lia Bool.
From stdpp Require Import base list strings gmap.
From S2P Require Import Prelude Clock DeliveryContracts SignalBus.
Open Scope Z_scope.
Open Scope rq_scope.

(** [type(error).__name__] and [str(error)]. *)
Class ExnText := { exn_name : exn -> string; exn_str : exn -> string }.

Inductive NotificationItemOutcome := N_SUCCEEDED | N_FAILED | N_UNKNOWN | N_NOT_ATTEMPTED.

#[export] Instance outcome_eq_dec : EqDecision NotificationItemOutcome.
Proof. solve_decision. Defined.

Record NotificationDelivery := {
  nd_signal : SignalEnvelopeFamily; nd_record : OutboxRecord; nd_deadline : Z
}.

Record NotificationItemResult := {
  ni_outbox_id : string; ni_signal_id : string; ni_channel : DeliveryChannel; ni_attempt_no : Z;
  ni_outcome : NotificationItemOutcome; ni_observed_at : Z;
  ni_provider_receipt : option string; ni_error : option string
}.

(** [lease_seconds] is kept in microseconds. *)
Record NotificationRunSummary := {
  ns_worker_id : string; ns_started_at : Z; ns_finished_at : Z; ns_lease_us : Z;
  ns_requested_limit : Z; ns_claimed_count : Z; ns_succeeded_count : Z; ns_failed_count : Z;
  ns_unknown_count : Z; ns_not_attempted_count : Z; ns_items : list NotificationItemResult
}.

(** ** Contracts *)

Section Contracts.
Context `{Codec}.

(** Validating an instance again ([revalidate_instances="always"]). *)
Definition revalidate_signal (f : SignalEnvelopeFamily) : res SignalEnvelopeFamily :=
  match f with
  | Legacy s => s <~ validate_signal false s ;; Ok (Legacy s)
  | Current s => s <~ validate_signal true s ;; Ok (Current s)
  end.

Definition mk_delivery (signal : SignalEnvelopeFamily) (record : OutboxRecord) (deadline : Z)
    : res NotificationDelivery :=
  signal <~ revalidate_signal signal ;;
  record <~ validate_record delivery_sha256 record ;;
  raise_if negb (status_is (ob_status record) LEASED)
    as ValueError saying "notification delivery requires a leased outbox record" ;;
  raise_if negb (bool_decide (Some (ob_signal_id record) = s_signal_id (family_envelope signal)))
    as ValueError saying "signal does not match the leased outbox record" ;;
  raise_if negb (bool_decide (ob_lease_until record = Some deadline))
    as ValueError saying "deadline must match the active lease deadline" ;;
  Ok {| nd_signal := signal; nd_record := record; nd_deadline := deadline |}.
End Contracts.

Definition mk_item (i : NotificationItemResult) : res NotificationItemResult :=
  let i := {| ni_outbox_id := strip (ni_outbox_id i); ni_signal_id := strip (ni_signal_id i);
              ni_channel := ni_channel i; ni_attempt_no := ni_attempt_no i;
              ni_outcome := ni_outcome i; ni_observed_at := ni_observed_at i;
              ni_provider_receipt := opt_strip (ni_provider_receipt i);
              ni_error := opt_strip (ni_error i) |} in
  raise_if negb (is_hex64 (ni_outbox_id i) && is_hex64 (ni_signal_id i) && (1 <=? ni_attempt_no i)
                 && opt_nonempty (ni_provider_receipt i) && opt_nonempty (ni_error i))
    as ValueError saying "field out of range" ;;
  match ni_outcome i with
  | N_SUCCEEDED =>
      raise_if bool_decide (ni_provider_receipt i = None) || negb (bool_decide (ni_error i = None))
        as ValueError saying "successful notification requires only a provider receipt" ;; Ok i
  | _ =>
      raise_if bool_decide (ni_error i = None) || negb (bool_decide (ni_provider_receipt i = None))
        as ValueError saying "non-success notification requires only an error" ;; Ok i
  end.

(** [sum(item.outcome is outcome for item in items)]. *)
Definition outcome_count (o : NotificationItemOutcome) (items : list NotificationItemResult) : Z :=
  Z.of_nat (length (select (fun i => bool_decide (ni_outcome i = o)) items)).

Definition outcome_value (o : NotificationItemOutcome) : string :=
  match o with
  | N_SUCCEEDED => "succeeded" | N_FAILED => "failed" | N_UNKNOWN => "unknown"
  | N_NOT_ATTEMPTED => "not_attempted"
  end.

Definition check_count (o : NotificationItemOutcome) (count : Z) (items : list NotificationItemResult)
    : res unit :=
  raise_if negb (count =? outcome_count o items)
    as ValueError saying (outcome_value o +:+ "_count does not match items") ;; Ok tt.

Definition mk_summary (s : NotificationRunSummary) : res NotificationRunSummary :=
  let worker := strip (ns_worker_id s) in
  items <~ rmap mk_item (ns_items s) ;;
  raise_if negb (nonempty worker && (0 <? ns_lease_us s) && (1 <=? ns_requested_limit s)
                 && (0 <=? ns_claimed_count s) && (0 <=? ns_succeeded_count s)
                 && (0 <=? ns_failed_count s) && (0 <=? ns_unknown_count s)
                 && (0 <=? ns_not_attempted_count s))
    as ValueError saying "field out of range" ;;
  raise_if ns_finished_at s <? ns_started_at s
    as ValueError saying "finished_at must be at or after started_at" ;;
  raise_if negb (ns_claimed_count s =? Z.of_nat (length items))
    as ValueError saying "claimed_count must equal item count" ;;
  _ <~ check_count N_SUCCEEDED (ns_succeeded_count s) items ;;
  _ <~ check_count N_FAILED (ns_failed_count s) items ;;
  _ <~ check_count N_UNKNOWN (ns_unknown_count s) items ;;
  _ <~ check_count N_NOT_ATTEMPTED (ns_not_attempted_count s) items ;;
  Ok {| ns_worker_id := worker; ns_started_at := ns_started_at s;
        ns_finished_at := ns_finished_at s; ns_lease_us := ns_lease_us s;
        ns_requested_limit := ns_requested_limit s; ns_claimed_count := ns_claimed_count s;
        ns_succeeded_count := ns_succeeded_count s; ns_failed_count := ns_failed_count s;
        ns_unknown_count := ns_unknown_count s; ns_not_attempted_count := ns_not_attempted_count s;
        ns_items := items |}.

(** ** Effects and programs *)

Inductive eff : Type -> Type :=
  | ClaimDue (worker : string) (now : pydatetime) (lease_for limit : Z) : eff (res (list OutboxRecord))
  | Signal (signal_id : string) : eff (res (option SignalEnvelopeFamily))
  | CompleteSuccess (oid worker : string) (attempt_no : Z) (at_ : Z) (receipt : string) : eff (res OutboxRecord)
  | CompleteFailure (oid worker : string) (attempt_no : Z) (at_ : Z) (error : string) : eff (res OutboxRecord)
  | ReleaseUnattempted (oid worker : string) (attempt_no : Z) (at_ : Z) (reason : string) : eff (res OutboxRecord)
  | RecordUnknown (oid worker : string) (attempt_no : Z) (at_ : Z) (reason : string)
      (receipt : option string) : eff (res unknown_row)
  | CurrentTime : eff pydatetime
  | Deliver (d : NotificationDelivery) : eff (res (option string)).

(** A finite program: it returns, raises, or performs an effect and goes on with the answer. *)
Inductive prog (A : Type) : Type :=
  | Ret (a : A)
  | Raises (e : exn)
  | Vis {T : Type} (e : eff T) (k : T -> prog A).
Arguments Ret {A} a.
Arguments Raises {A} e.
Arguments Vis {A T} e k.

Fixpoint pbind {A B} (p : prog A) (f : A -> prog B) : prog B :=
  match p with
  | Ret a => f a
  | Raises e => Raises e
  | Vis e k => Vis e (fun t => pbind (k t) f)
  end.

Notation "x <- p ;; q" := (pbind p (fun x => q))
  (at level 100, p at next level, right associativity) : rq_scope.
Notation "'bind' x 'after' p ;; q" := (pbind p (fun y => match y with x => q end))
  (at level 100, x pattern, p at next level, right associativity) : rq_scope.

Definition perform {T} (e : eff T) : prog T := Vis e Ret.
Definition lift {A} (r : res A) : prog A := match r with Ok a => Ret a | Err e => Raises e end.

(** ** The worker *)

Section Worker.
Context `{Codec} `{ExnText}.

Definition error_text (e : exn) : string :=
  let message := strip (exn_str e) in
  exn_name e +:+ ": " +:+ (if nonempty message then message else "no detail").

Definition result (record : OutboxRecord) (outcome : NotificationItemOutcome) (observed_at : Z)
    (provider_receipt error : option string) : prog NotificationItemResult :=
  lift (mk_item {| ni_outbox_id := ob_outbox_id record; ni_signal_id := ob_signal_id record;
    ni_channel := channel (ob_target record); ni_attempt_no := ob_attempt_count record;
    ni_outcome := outcome; ni_observed_at := observed_at;
    ni_provider_receipt := provider_receipt; ni_error := error |}).

Definition complete_known_failure (record : OutboxRecord) (worker_id : string) (completed_at : Z)
    (error : string) : prog NotificationItemResult :=
  written <- perform (CompleteFailure (ob_outbox_id record) worker_id (ob_attempt_count record)
                        completed_at error) ;;
  match written with
  | Err write_error => result record N_UNKNOWN completed_at None
      (Some ("failure write-back unknown: " +:+ error_text write_error))
  | Ok _ => result record N_FAILED completed_at None (Some error)
  end.

Definition record_unknown (record : OutboxRecord) (worker_id : string) (observed_at : Z)
    (error : string) (provider_receipt : option string) : prog NotificationItemResult :=
  written <- perform (RecordUnknown (ob_outbox_id record) worker_id (ob_attempt_count record)
                        observed_at error provider_receipt) ;;
  let error := match written with
               | Err write_error => error +:+ "; unknown evidence write failed: " +:+ error_text write_error
               | Ok _ => error
               end in
  result record N_UNKNOWN observed_at None (Some error).

Definition release_not_attempted (record : OutboxRecord) (worker_id : string) (observed_at : Z)
    (reason : string) : prog NotificationItemResult :=
  written <- perform (ReleaseUnattempted (ob_outbox_id record) worker_id (ob_attempt_count record)
                        observed_at reason) ;;
  match written with
  | Err write_error => record_unknown record worker_id observed_at
      ("unattempted release failed: " +:+ error_text write_error) None
  | Ok _ => result record N_NOT_ATTEMPTED observed_at None (Some reason)
  end.

(** [_utc(current_time())]. *)
Definition current_utc : prog Z := now <- perform CurrentTime ;; lift (normalize_aware_utc now).

(** The [try] block that builds the delivery. *)
Definition prepare_delivery (record : OutboxRecord) (until : Z) (stored : res (option SignalEnvelopeFamily))
    : res NotificationDelivery :=
  signal <~ stored ;;
  match signal with
  | None => Err (Raise RuntimeError "leased signal is missing")
  | Some signal => mk_delivery signal record until
  end.

(** From the provider's answer to the item; the clock has been read. *)
Definition settle (record : OutboxRecord) (worker_id : string) (answer : res (option string))
    (completed_at : Z) : prog NotificationItemResult :=
  match answer with
  | Err error =>
      if bool_decide (exn_cls error = ConfirmedDeliveryFailureError)
      then complete_known_failure record worker_id completed_at (error_text error)
      else record_unknown record worker_id completed_at (error_text error) None
  | Ok receipt =>
      let receipt := default EmptyString receipt in
      if negb (nonempty (strip receipt)) then
        record_unknown record worker_id completed_at
          "provider returned an empty or invalid receipt after delivery" None
      else
        written <- perform (CompleteSuccess (ob_outbox_id record) worker_id (ob_attempt_count record)
                              completed_at receipt) ;;
        match written with
        | Err error => record_unknown record worker_id completed_at
            ("success write-back unknown: " +:+ error_text error) (Some receipt)
        | Ok _ => result record N_SUCCEEDED completed_at (Some receipt) None
        end
  end.

(** One turn of the loop: the item and the new [cursor_time]. *)
Definition deliver_one (configured : DeliveryChannel -> bool) (worker_id : string) (cursor_time : Z)
    (record : OutboxRecord) : prog (NotificationItemResult * Z) :=
  reading <- current_utc ;;
  let cursor_time := Z.max cursor_time reading in
  match ob_lease_until record with
  | None => Raises (Raise AssertionError EmptyString)
  | Some until =>
      if (until <=? cursor_time) || (ob_expires_at record <=? cursor_time) then
        item <- release_not_attempted record worker_id cursor_time
                  "batch lease elapsed before provider call" ;;
        Ret (item, cursor_time)
      else
        stored <- perform (Signal (ob_signal_id record)) ;;
        match prepare_delivery record until stored with
        | Err error =>
            item <- release_not_attempted record worker_id cursor_time
                      ("delivery preparation failed: " +:+ error_text error) ;;
            Ret (item, cursor_time)
        | Ok delivery =>
            if negb (configured (channel (ob_target record))) then
              completed_at <- current_utc ;;
              item <- complete_known_failure record worker_id completed_at
                        ("no provider configured for " +:+ channel_value (channel (ob_target record))) ;;
              Ret (item, completed_at)
            else
              answer <- perform (Deliver delivery) ;;
              completed_at <- current_utc ;;
              item <- settle record worker_id answer completed_at ;;
              Ret (item, completed_at)
        end
  end.

Fixpoint deliver_each (configured : DeliveryChannel -> bool) (worker_id : string) (cursor_time : Z)
    (claimed : list OutboxRecord) : prog (list NotificationItemResult) :=
  match claimed with
  | [] => Ret []
  | record :: claimed =>
      bind (item, cursor_time) after deliver_one configured worker_id cursor_time record ;;
      items <- deliver_each configured worker_id cursor_time claimed ;;
      Ret (item :: items)
  end.

Definition run_notification_batch (configured : DeliveryChannel -> bool) (worker_id : string)
    (now : pydatetime) (lease_for limit : Z) : prog NotificationRunSummary :=
  started_at <- lift (normalize_aware_utc now) ;;
  claimed <- (answer <- perform (ClaimDue worker_id (Aware started_at) lease_for limit) ;; lift answer) ;;
  items <- deliver_each configured worker_id started_at claimed ;;
  finished_at <- current_utc ;;
  lift (mk_summary {| ns_worker_id := worker_id; ns_started_at := started_at;
    ns_finished_at := finished_at; ns_lease_us := lease_for; ns_requested_limit := limit;
    ns_claimed_count := Z.of_nat (length claimed);
    ns_succeeded_count := outcome_count N_SUCCEEDED items;
    ns_failed_count := outcome_count N_FAILED items;
    ns_unknown_count := outcome_count N_UNKNOWN items;
    ns_not_attempted_count := outcome_count N_NOT_ATTEMPTED items;
    ns_items := items |}).

(** ** Running a batch alone on a bus *)

Record world := {
  w_bus : bus; w_ticks : nat; w_calls : list (NotificationDelivery * res (option string))
}.

Section Interp.
(** The n-th clock reading and the n-th provider answer. *)
Context (cfg : config) (clock : nat -> pydatetime) (provider : nat -> NotificationDelivery -> res (option string)).

Definition on_bus {A} (w : world) (x : bus * res A) : res A * world :=
  (snd x, {| w_bus := fst x; w_ticks := w_ticks w; w_calls := w_calls w |}).

Definition handle {T} (e : eff T) : world -> T * world :=
  match e in eff T return world -> T * world with
  | ClaimDue worker now lease_for limit => fun w => on_bus w (claim_due worker now lease_for limit (w_bus w))
  | Signal sid => fun w => (signal (inr sid) (w_bus w), w)
  | CompleteSuccess oid worker n at_ receipt => fun w =>
      on_bus w (complete_success cfg oid worker n (Aware at_) receipt (w_bus w))
  | CompleteFailure oid worker n at_ error => fun w =>
      on_bus w (complete_failure cfg oid worker n (Aware at_) error (w_bus w))
  | ReleaseUnattempted oid worker n at_ reason => fun w =>
      on_bus w (release_unattempted oid worker n (Aware at_) reason (w_bus w))
  | RecordUnknown oid worker n at_ reason receipt => fun w =>
      on_bus w (record_unknown_delivery oid worker n (Aware at_) reason receipt (w_bus w))
  | CurrentTime => fun w =>
      (clock (w_ticks w), {| w_bus := w_bus w; w_ticks := S (w_ticks w); w_calls := w_calls w |})
  | Deliver d => fun w =>
      let answer := provider (length (w_calls w)) d in
      (answer, {| w_bus := w_bus w; w_ticks := w_ticks w; w_calls := w_calls w ++ [(d, answer)] |})
  end.

Fixpoint interp {A} (p : prog A) (w : world) : res A * world :=
  match p with
  | Ret a => (Ok a, w)
  | Raises e => (Err e, w)
  | Vis e k => let '(t, w') := handle e w in interp (k t) w'
  end.
End Interp.
End Worker.
