(* ===== verification/NotificationSystem.v ===== *)
(** * Notification workers on a shared bus

    Any number of [run_notification_batch] programs take turns on one signal bus, together with the
    rest of the runtime.  Every effect is one step; a store call may also fail, before or after
    its transaction commits, clocks and providers answer anything, and a worker that is never
    scheduled again has crashed.  The theorems bound the provider calls of this system. *)

From Stdlib Require Import ZArith Lia Bool.
From stdpp Require Import base list strings gmap sorting.
From S2P Require Import Prelude Clock DeliveryContracts SignalBus SignalBusInv SignalBusRoutes SignalBusThms.
From S2P Require Import NotificationWorker.
Open Scope Z_scope.
Open Scope rq_scope.

(** ** Steps *)

(** The transaction's own answer, or an error raised before or after it committed. *)
Definition store_answer {A} (b : bus) (x : bus * res A) (t : res A) (b' : bus) : Prop :=
  (t = snd x /\ b' = fst x) \/ ((exists e, t = Err e) /\ (b' = b \/ b' = fst x)).

Section Steps.
Context `{Codec} `{ExnText} (cfg : config).

Definition answer {T} (e : eff T) (b : bus) : T -> bus -> Prop :=
  match e in eff T return T -> bus -> Prop with
  | ClaimDue worker now lease_for limit => store_answer b (claim_due worker now lease_for limit b)
  | Signal sid => fun t b' => b' = b /\ (t = signal (inr sid) b \/ exists e, t = Err e)
  | CompleteSuccess oid worker n at_ receipt =>
      store_answer b (complete_success cfg oid worker n (Aware at_) receipt b)
  | CompleteFailure oid worker n at_ error =>
      store_answer b (complete_failure cfg oid worker n (Aware at_) error b)
  | ReleaseUnattempted oid worker n at_ reason =>
      store_answer b (release_unattempted oid worker n (Aware at_) reason b)
  | RecordUnknown oid worker n at_ reason receipt =>
      store_answer b (record_unknown_delivery oid worker n (Aware at_) reason receipt b)
  | CurrentTime => fun _ b' => b' = b
  | Deliver d => fun _ b' => b' = b
  end.

(** Provider calls, by outbox row, with their answers. *)
Definition call_log : Type := list (string * res (option string)).

Definition logged {T} (e : eff T) : T -> call_log :=
  match e in eff T return T -> call_log with
  | Deliver d => fun r => [(ob_outbox_id (nd_record d), r)]
  | _ => fun _ => []
  end.

Record system := {
  y_bus : bus; y_workers : list (prog NotificationRunSummary); y_log : call_log
}.

(** The rest of the runtime never reports failures or releases leases: only workers do. *)
Definition returns (c : bop) (oid : string) : bool :=
  match c with
  | BFailure oid' _ _ _ _ | BRelease oid' _ _ _ _ => eqs oid' oid
  | _ => false
  end.

Inductive sys_step : system -> system -> Prop :=
  | sys_start y configured worker now lease_for limit :
      sys_step y {| y_bus := y_bus y; y_log := y_log y;
        y_workers := y_workers y ++ [run_notification_batch configured worker now lease_for limit] |}
  | sys_effect y i T (e : eff T) k t b' : y_workers y !! i = Some (Vis e k) ->
      answer e (y_bus y) t b' ->
      sys_step y {| y_bus := b'; y_workers := <[i := k t]> (y_workers y); y_log := y_log y ++ logged e t |}
  | sys_other y c : (forall oid, returns (snd c) oid = false) ->
      sys_step y {| y_bus := brun cfg c (y_bus y); y_workers := y_workers y; y_log := y_log y |}.

Definition sys_init (token : string) : system :=
  {| y_bus := fresh_bus cfg token; y_workers := []; y_log := [] |}.

Inductive reachable (token : string) : system -> Prop :=
  | reach_init : reachable token (sys_init token)
  | reach_step y y' : reachable token y -> sys_step y y' -> reachable token y'.
End Steps.

(** The provider proved that it did not accept the delivery. *)
Definition confirmed (r : res (option string)) : bool :=
  match r with Err e => bool_decide (exn_cls e = ConfirmedDeliveryFailureError) | Ok _ => false end.

(** ** What a worker may still do

    The deliveries a program holds: [false] is claimed, [true] is attempted with a confirmed
    failure.  A delivery that was released, failed or attempted otherwise is not held any more. *)

Abbreviation held := (gmap string bool).

Definition drop_held (oid : string) (own : held) : held := base.delete oid own.

Definition allowed {T} (e : eff T) (own : held) : Prop :=
  match e with
  | CompleteFailure oid _ _ _ _ => is_Some (own !! oid)
  | ReleaseUnattempted oid _ _ _ _ => own !! oid = Some false
  | Deliver d => own !! ob_outbox_id (nd_record d) = Some false
  | _ => True
  end.

Definition claim_held (rs : list OutboxRecord) : held :=
  list_to_map (map (fun r => (ob_outbox_id r, false)) rs).

Definition after {T} (e : eff T) (own : held) : T -> held :=
  match e in eff T return T -> held with
  | ClaimDue _ _ _ _ => fun t => match t with Ok rs => claim_held rs ∪ own | Err _ => own end
  | CompleteFailure oid _ _ _ _ | ReleaseUnattempted oid _ _ _ _ => fun _ => drop_held oid own
  | Deliver d => fun t => let oid := ob_outbox_id (nd_record d) in
      if confirmed t then <[oid := true]> own else drop_held oid own
  | _ => fun _ => own
  end.

(** What is known of the answer to a claim. *)
Definition plausible {T} (e : eff T) : T -> Prop :=
  match e in eff T return T -> Prop with
  | ClaimDue _ _ _ _ => fun t => forall rs, t = Ok rs ->
      NoDup (map ob_outbox_id rs) /\ Forall (fun r => is_hex64 (ob_outbox_id r) = true) rs
  | _ => fun _ => True
  end.

Fixpoint safe {A} (Q : A -> held -> Prop) (own : held) (p : prog A) : Prop :=
  match p with
  | Ret a => Q a own
  | Raises _ => True
  | Vis e k => allowed e own /\ forall t, plausible e t -> safe Q (after e own t) (k t)
  end.

Lemma safe_bind {A B} (p : prog A) (f : A -> prog B) Q own :
  safe (fun a own => safe Q own (f a)) own p -> safe Q own (pbind p f).
Proof.
  revert own. induction p as [a|e|T e k IH]; intros own Hp; cbn in *; [done|done|].
  destruct Hp as [Ha Hp]. split; [done|]. intros t Ht. by apply IH, Hp.
Qed.

Lemma safe_mono {A} (p : prog A) (Q Q' : A -> held -> Prop) own :
  (forall a own, Q a own -> Q' a own) -> safe Q own p -> safe Q' own p.
Proof.
  intros HQ. revert own. induction p as [a|e|T e k IH]; intros own Hp; cbn in *; [by apply HQ|done|].
  destruct Hp as [Ha Hp]. split; [done|]. intros t Ht. by apply IH, Hp.
Qed.

Lemma safe_lift {A} (r : res A) (Q : A -> held -> Prop) own :
  (forall a, r = Ok a -> Q a own) -> safe Q own (lift r).
Proof. destruct r as [a|e]; cbn; auto. Qed.

Section Discipline.
Context `{Codec} `{ExnText}.

(** Nothing but [oid] has changed hands. *)
Definition only (oid : string) (own : held) {A} (_ : A) (own' : held) : Prop :=
  forall id, id <> oid -> own' !! id = own !! id.

Lemma only_same oid own {A} (a : A) : only oid own a own.
Proof. by intros id _. Qed.

Lemma only_delete oid own {A} (a : A) : only oid own a (drop_held oid own).
Proof. intros id Hid. unfold drop_held. by rewrite lookup_delete_ne. Qed.

Lemma only_deleted oid own d {A} (a : A) : only oid own a (drop_held oid (<[oid := d]> own)).
Proof. intros id Hid. unfold drop_held. by rewrite lookup_delete_ne, lookup_insert_ne. Qed.

Lemma safe_result r o t p err own (Q : NotificationItemResult -> held -> Prop) :
  (forall i, Q i own) -> safe Q own (result r o t p err).
Proof. intros HQ. apply safe_lift. auto. Qed.

Lemma safe_unknown r w t err p own (Q : NotificationItemResult -> held -> Prop) :
  (forall i, Q i own) -> safe Q own (record_unknown r w t err p).
Proof. intros HQ. apply safe_bind. cbn. split; [done|]. intros x _. by apply safe_result. Qed.

Lemma safe_failure r w t err own (Q : NotificationItemResult -> held -> Prop) :
  is_Some (own !! ob_outbox_id r) -> (forall i, Q i (drop_held (ob_outbox_id r) own)) ->
  safe Q own (complete_known_failure r w t err).
Proof.
  intros Ho HQ. apply safe_bind. cbn. split; [done|]. intros [x|e] _; by apply safe_result.
Qed.

Lemma safe_release r w t why own (Q : NotificationItemResult -> held -> Prop) :
  own !! ob_outbox_id r = Some false -> (forall i, Q i (drop_held (ob_outbox_id r) own)) ->
  safe Q own (release_not_attempted r w t why).
Proof.
  intros Ho HQ. apply safe_bind. cbn. split; [done|].
  intros [x|e] _; [by apply safe_result|by apply safe_unknown].
Qed.

Lemma safe_clock own (Q : Z -> held -> Prop) : (forall t, Q t own) -> safe Q own current_utc.
Proof. intros HQ. apply safe_bind. cbn. split; [done|]. intros t _. apply safe_lift. auto. Qed.

Lemma mk_delivery_id s r u d : is_hex64 (ob_outbox_id r) = true -> mk_delivery s r u = Ok d ->
  ob_outbox_id (nd_record d) = ob_outbox_id r.
Proof.
  intros Hx Hd. unfold mk_delivery in Hd. apply rbind_ok in Hd as (s' & _ & Hd).
  apply rbind_ok in Hd as (r' & Hr & Hd). ok_inv Hd. cbn. unfold validate_record in Hr.
  ok_inv Hr. cbn. by apply strip_hex64.
Qed.

Lemma safe_settle r w ans t own (Q : NotificationItemResult -> held -> Prop) :
  (confirmed ans = true -> is_Some (own !! ob_outbox_id r) /\ forall i, Q i (drop_held (ob_outbox_id r) own)) ->
  (confirmed ans = false -> forall i, Q i own) ->
  safe Q own (settle r w ans t).
Proof.
  intros H1 H2. unfold settle. destruct ans as [rc|e]; cbn in H1, H2.
  - case_goal; [by apply safe_unknown; auto|]. apply safe_bind. cbn. split; [done|].
    intros [x|e] _; [by apply safe_result; auto|by apply safe_unknown; auto].
  - case_goal; [destruct H1 as [? ?]; [done|]; by apply safe_failure|by apply safe_unknown; auto].
Qed.

Lemma safe_deliver_one conf w t r own : is_hex64 (ob_outbox_id r) = true ->
  own !! ob_outbox_id r = Some false -> safe (only (ob_outbox_id r) own) own (deliver_one conf w t r).
Proof.
  intros Hx Ho. unfold deliver_one. apply safe_bind, safe_clock. intros u.
  destruct (ob_lease_until r) as [until|]; [|done].
  case_goal; [apply safe_bind, safe_release; [done|]; intros; apply only_delete|].
  apply safe_bind. cbn [safe perform]. split; [done|]. intros stored _. cbn [after].
  destruct (prepare_delivery r until stored) as [d|e] eqn:Ed;
    [|apply safe_bind, safe_release; [done|]; intros; apply only_delete].
  case_goal.
  - apply safe_bind, safe_clock. intros c. apply safe_bind, safe_failure; [done|].
    intros; apply only_delete.
  - unfold prepare_delivery in Ed. apply rbind_ok in Ed as ([s|] & _ & Ed); [|done].
    apply mk_delivery_id in Ed; [|done].
    apply safe_bind. cbn [safe perform allowed]. rewrite Ed. split; [done|]. intros ans _.
    apply safe_bind, safe_clock. intros c. apply safe_bind. cbn [after]. rewrite Ed.
    apply safe_settle; intros ->.
    + rewrite lookup_insert. split; [by case_decide|]. intros; apply only_deleted.
    + intros; apply only_delete.
Qed.

Lemma safe_deliver_each conf w t rs own (Q : list NotificationItemResult -> held -> Prop) :
  NoDup (map ob_outbox_id rs) -> Forall (fun r => is_hex64 (ob_outbox_id r) = true) rs ->
  (forall r, r ∈ rs -> own !! ob_outbox_id r = Some false) -> (forall l own, Q l own) ->
  safe Q own (deliver_each conf w t rs).
Proof.
  revert t own Q. induction rs as [|r rs IH]; intros t own Q Hnd Hx Ho HQ; cbn [deliver_each]; [cbn; auto|].
  inversion Hnd as [|? ? Hni Hnd']; subst. inversion Hx as [|? ? Hr Hx']; subst.
  apply safe_bind. eapply safe_mono; [|apply safe_deliver_one; [done|apply Ho; by left]].
  intros [item u] own' Hown. apply safe_bind. apply IH; try done; [|by intros; apply HQ].
  intros r' Hr'. rewrite Hown; [apply Ho; by right|].
  intros E. apply Hni. rewrite <- E. by apply list_elem_of_fmap_2.
Qed.

Lemma claim_held_lookup rs own r : r ∈ rs -> (claim_held rs ∪ own) !! ob_outbox_id r = Some false.
Proof.
  intros Hr. apply lookup_union_Some_l. unfold claim_held. induction rs as [|x rs IH]; [by inversion Hr|].
  cbn. destruct (decide (ob_outbox_id x = ob_outbox_id r)) as [->|Hne].
  - by rewrite lookup_insert_eq.
  - rewrite lookup_insert_ne by done. apply IH. inversion Hr; by subst.
Qed.

Lemma safe_batch conf w now lf n own :
  safe (fun _ _ => True) own (run_notification_batch conf w now lf n).
Proof.
  unfold run_notification_batch. apply safe_bind, safe_lift. intros s _.
  apply safe_bind, safe_bind. cbn [safe perform]. split; [done|]. intros t Ht. apply safe_lift.
  intros rs ->. destruct (Ht rs eq_refl) as [Hnd Hx]. apply safe_bind.
  apply safe_deliver_each; [done|done|intros; by apply claim_held_lookup|].
  intros l own'. apply safe_bind, safe_clock. intros u. by apply safe_lift.
Qed.
End Discipline.

(** ** What the bus does to rows *)

Section Rows.
Context `{Codec} `{!CodecLaws} (cfg : config) (cfg_ok : config_ok cfg).

Lemma outbox_from_row_ok o r : is_hex64 (o_outbox_id o) = true -> outbox_from_row o = Ok r ->
  ob_outbox_id r = o_outbox_id o.
Proof.
  intros Hx Hr. unfold outbox_from_row, validate_record in Hr. ok_inv Hr. cbn. by apply strip_hex64.
Qed.

Lemma records_of_rows rows rs : (forall o, In o rows -> is_hex64 (o_outbox_id o) = true) ->
  rmap outbox_from_row rows = Ok rs ->
  map ob_outbox_id rs = map o_outbox_id rows
  /\ (forall r, r ∈ rs -> exists o, In o rows /\ outbox_from_row o = Ok r /\ ob_outbox_id r = o_outbox_id o).
Proof.
  intros Hx Hr. apply rmap_ok_Forall2 in Hr. induction Hr as [|o r rows rs Ho Hr IH].
  - split; [done|]. intros r Hr. by inversion Hr.
  - destruct IH as [IH1 IH2]; [intros; apply Hx; by right|].
    assert (ob_outbox_id r = o_outbox_id o) as Hid by (apply outbox_from_row_ok; [apply Hx; by left|done]).
    split; [cbn; congruence|]. intros x Hxx. inversion Hxx as [|? ? ? Hin]; subst.
    + exists o. by split; [left|].
    + destruct (IH2 x Hin) as (o' & ? & ? & ?). exists o'. by split; [right|].
Qed.

(** A successful claim: distinct rows, all of them waiting before and leased after. *)
Lemma claim_answer w now lf n b b' rs : Deliveries (max_attempts cfg) b ->
  claim_due w now lf n b = (b', Ok rs) ->
  NoDup (map ob_outbox_id rs) /\ Forall (fun r => is_hex64 (ob_outbox_id r) = true) rs
  /\ forall r, r ∈ rs -> exists o o', In o (outbox b) /\ In o' (outbox b')
       /\ o_outbox_id o = ob_outbox_id r /\ o_outbox_id o' = ob_outbox_id r
       /\ claimable o = true /\ o_status o' = LEASED /\ o_attempt_count o' = o_attempt_count o + 1
       /\ outbox_from_row o' = Ok r /\ o_lease_owner o' = Some (strip w).
Proof.
  intros D Hc. pose proof (claim_due_Deliveries cfg (proj2 cfg_ok) w now lf n b D) as D'.
  rewrite Hc in D'. cbn in D'. unfold claim_due, txn in Hc. destruct (rbind _ _) as [[b2 out]|e] eqn:Hb; [|done].
  injection Hc as -> ->. unfold committed in Hb.
  apply rbind_ok in Hb as (t & _ & Hb). destruct (negb _); [done|]. destruct (_ <=? _); [done|].
  destruct (_ <? _); [done|]. destruct (negb _); [done|].
  apply rbind_ok in Hb as (b2 & Hloop & Hb). apply rbind_ok in Hb as (out & Hout & [= -> <-]).
  set (cands := candidates t n (expire_due t b)) in *.
  pose proof (expire_due_Deliveries cfg (proj2 cfg_ok) t b D) as D1.
  apply claim_loop in Hloop as Hb'; [|apply D1|by apply candidates_NoDup, D1|intros r Hr; by apply candidates_spec in Hr as [? _]].
  assert (forall o, In o (rows_for_outbox_ids b' (map o_outbox_id cands)) ->
            In o (outbox b') /\ o_outbox_id o ∈ map o_outbox_id cands) as Hrows.
  { intros o Ho. unfold rows_for_outbox_ids in Ho.
    eapply Permutation_in in Ho; [|apply merge_sort_Permutation]. unfold select in Ho.
    apply filter_In in Ho as [Ho Hp]. by bool_hyps. }
  apply records_of_rows in Hout as [Hids Hrs]; [|intros o [Ho _]%Hrows; by apply (dv_rows _ _ D')].
  split; [|split].
  - rewrite Hids. apply NoDup_ListNoDup. eapply Permutation_NoDup.
    + symmetry. apply Permutation_map, merge_sort_Permutation.
    + apply NoDup_filter_key, D'.
  - apply Forall_forall. intros r Hr. destruct (Hrs r Hr) as (o & [Ho _]%Hrows & _ & ->).
    by apply (dv_rows _ _ D').
  - intros r Hr. destruct (Hrs r Hr) as (o' & [Ho' Hin]%Hrows & Hok & Hid).
    pose proof Ho' as Ho'2. rewrite Hb' in Ho'2. cbn in Ho'2. apply In_update in Ho'2 as (o1 & Ho1 & He).
    assert (o_outbox_id o1 = o_outbox_id o') as Hid1 by (rewrite He; by case_goal).
    rewrite Hid1, bool_decide_eq_true_2 in He by done.
    apply list_elem_of_In, in_map_iff in Hin as (c & Hcid & Hcin). apply candidates_spec in Hcin as [Hcin Hdue].
    assert (c = o1) as -> by (apply (outbox_key_eq (max_attempts cfg) (expire_due t b)); [done..|congruence]).
    unfold is_due in Hdue. bool_hyps. apply In_update in Ho1 as (o & Ho & He1).
    assert (o1 = o) as -> by (destruct (_ && _); [subst o1; by unfold claimable in *|done]).
    exists o, o'. rewrite He in *. split_and!; try done; try congruence.
Qed.

Definition released (c : bop) (oid : string) : bool :=
  match c with BRelease oid' _ _ _ _ => eqs oid' oid | _ => false end.

(** One call keeps every row; a row that is out of the queue stays out and its attempts are not
    given back unless the call returns that very row. *)
Lemma row_kept c b o : BusInv cfg b -> In o (outbox b) -> exists o', In o' (outbox (brun cfg c b))
  /\ o_outbox_id o' = o_outbox_id o
  /\ (claimable o = false -> returns (snd c) (o_outbox_id o) = false -> claimable o' = false)
  /\ (released (snd c) (o_outbox_id o) = false -> o_attempt_count o <= o_attempt_count o')
  /\ o_attempt_count o - 1 <= o_attempt_count o'.
Proof.
  intros I Ho. destruct (brun_changes cfg cfg_ok c b I o Ho) as (o' & Ho' & Hid & Hch).
  destruct c as [m op]. cbn [snd] in *. exists o'. split_and!; try done.
  all: destruct Hch as [->|Hc Hs Hn|w now lf n -> Hc Hs Hw Hn|w n t r -> Hs Hw Hcn Hs' Hn|w n t e -> Hs Hw Hcn Hn
                       |w n t r -> Hs Hw Hcn Hn|Hs Hs' Hn|now -> Hs Hs' Hn]; cbn; rewrite ?eqs_refl; try done; try lia.
  all: intros; unfold claimable in *.
  all: try (by rewrite Hs in *); try (by rewrite Hs' in *). by destruct (o_status o').
Qed.

Lemma attempts_bounded b o : BusInv cfg b -> In o (outbox b) -> o_attempt_count o <= max_attempts cfg.
Proof.
  intros I Ho. destruct (dv_rows _ _ (bi_deliveries _ _ I) o Ho) as [_ _ Hst _].
  unfold status_ok in Hst. destruct cfg_ok as [_ ?]. destruct (o_status o); lia.
Qed.

Lemma with_previous_id : with_previous cfg (previous_generation_of_strategy_spec cfg) = cfg.
Proof. by destruct cfg. Qed.

Definition eff_call {T} (e : eff T) : option bop :=
  match e with
  | ClaimDue w now lf n => Some (BClaim w now lf n)
  | CompleteSuccess oid w n t r => Some (BSuccess oid w n (Aware t) r)
  | CompleteFailure oid w n t e => Some (BFailure oid w n (Aware t) e)
  | ReleaseUnattempted oid w n t r => Some (BRelease oid w n (Aware t) r)
  | RecordUnknown oid w n t r p => Some (BUnknown oid w n (Aware t) r p)
  | _ => None
  end.

(** An effect leaves the bus alone or is one call on it. *)
Lemma answer_bus {T} (e : eff T) b t b' : answer cfg e b t b' -> b' = b \/ exists c m,
  eff_call e = Some c /\ b' = brun cfg (m, c) b.
Proof.
  intros Ha.
  assert (forall A (x : bus * res A) t, store_answer b x t b' -> b' = b \/ b' = fst x) as Hstore.
  { intros A x r [[_ ->]|[_ [->| ->]]]; auto. }
  destruct e; cbn in Ha; try (left; tauto).
  all: apply Hstore in Ha as [Ha|Ha]; [by left|right].
  all: eexists _, (previous_generation_of_strategy_spec cfg); split; [reflexivity|].
  all: unfold brun; cbn [fst snd]; by rewrite ?with_previous_id.
Qed.
End Rows.

(** ** The invariant of the system *)

Definition calls (log : call_log) (oid : string) : Z :=
  Z.of_nat (length (select (fun e => eqs (fst e) oid) log)).

Lemma calls_nonneg log oid : 0 <= calls log oid.
Proof. unfold calls. lia. Qed.

Lemma calls_snoc log oid r id : calls (log ++ [(oid, r)]) id = calls log id + (if eqs oid id then 1 else 0).
Proof.
  unfold calls, select. rewrite List.filter_app, length_app. cbn. destruct (eqs oid id); cbn; lia.
Qed.

Lemma calls_zero log oid : (forall r : res (option string), (oid, r) ∉ log) -> calls log oid = 0.
Proof.
  intros Hno. unfold calls, select. induction log as [|[id r] log IH]; cbn; [done|].
  destruct (eqs id oid) eqn:E.
  - apply eqs_true in E as ->. destruct (Hno r). by left.
  - apply IH. intros r' Hr'. apply (Hno r'). by right.
Qed.

Lemma calls_pos log oid : 0 < calls log oid -> exists r : res (option string), (oid, r) ∈ log.
Proof.
  unfold calls, select. induction log as [|[id r] log IH]; cbn; [lia|].
  destruct (eqs id oid) eqn:E; intros Hc.
  - apply eqs_true in E as ->. exists r. by left.
  - destruct (IH Hc) as [r' Hr']. exists r'. by right.
Qed.

(** The deliveries held by the workers, and what the log says about the rest. *)
Record Ghost (b : bus) (G : list held) (log : call_log) : Prop := {
  gh_owned : forall (i : nat) (g : held) (id : string) (d : bool), G !! i = Some g -> g !! id = Some d -> exists o, In o (outbox b)
    /\ o_outbox_id o = id /\ claimable o = false
    /\ calls log id + (if d then 0 else 1) <= o_attempt_count o;
  gh_apart : forall (i j : nat) (g g' : held) (id : string), G !! i = Some g -> G !! j = Some g' ->
    is_Some (g !! id) -> is_Some (g' !! id) -> i = j;
  gh_logged : forall (id : string) (r : res (option string)), (id, r) ∈ log -> exists o, In o (outbox b) /\ o_outbox_id o = id
    /\ (confirmed r = false -> claimable o = false /\ forall (i : nat) (g : held), G !! i = Some g -> g !! id = None);
  gh_calls : forall o, In o (outbox b) -> calls log (o_outbox_id o) <= o_attempt_count o;
  gh_once : forall (i j : nat) (id : string) (r r' : res (option string)), (i < j)%nat -> log !! i = Some (id, r) -> log !! j = Some (id, r') ->
    confirmed r = true
}.

Section Ghosts.
Context `{Codec} `{!CodecLaws} `{ExnText} (cfg : config) (cfg_ok : config_ok cfg).

(** Holding less is fine. *)
Lemma Ghost_less b G log i g g' : Ghost b G log -> G !! i = Some g -> g' ⊆ g ->
  Ghost b (<[i := g']> G) log.
Proof.
  intros [Ow Ap Lg Cl On] Hi Hsub.
  assert (forall (j : nat) (h : held) (id : string) (d : bool), <[i := g']> G !! j = Some h -> h !! id = Some d ->
            exists h', G !! j = Some h' /\ h' !! id = Some d) as Hback.
  { intros j h id d Hj Hd. apply list_lookup_insert_Some in Hj as [(-> & -> & _)|[_ Hj]]; [|eauto].
    exists g. split; [done|]. by eapply lookup_weaken. }
  constructor; try done.
  - intros j h id d Hj Hd. destruct (Hback j h id d Hj Hd) as (h' & ? & ?). eauto.
  - intros j k h h' id Hj Hk [d Hd] [d' Hd']. destruct (Hback _ _ _ _ Hj Hd) as (? & ? & ?).
    destruct (Hback _ _ _ _ Hk Hd') as (? & ? & ?). eauto.
  - intros id r Hin. destruct (Lg id r Hin) as (o & ? & ? & Hr). exists o. split_and!; try done.
    intros Hc. destruct (Hr Hc) as [? Hno]. split; [done|]. intros j h Hj.
    destruct (h !! id) as [d|] eqn:Ed; [|done]. destruct (Hback _ _ _ _ Hj Ed) as (h' & Hj' & Hd').
    by rewrite (Hno _ _ Hj') in Hd'.
Qed.

(** A call on the bus that hands back nobody's delivery. *)
Lemma Ghost_bus b G log c : BusInv cfg b -> Ghost b G log ->
  (forall id, returns (snd c) id = true ->
     (forall (i : nat) (g : held), G !! i = Some g -> g !! id = None) /\ (forall r, (id, r) ∈ log -> confirmed r = true)) ->
  (forall o, In o (outbox b) -> released (snd c) (o_outbox_id o) = true ->
     calls log (o_outbox_id o) + 1 <= o_attempt_count o) ->
  Ghost (brun cfg c b) G log.
Proof.
  intros I [Ow Ap Lg Cl On] Hret Hrel. pose proof (brun_BusInv cfg cfg_ok c b I) as I'.
  assert (forall o, In o (outbox b) -> exists o', In o' (outbox (brun cfg c b))
            /\ o_outbox_id o' = o_outbox_id o
            /\ (claimable o = false -> returns (snd c) (o_outbox_id o) = false -> claimable o' = false)
            /\ (released (snd c) (o_outbox_id o) = false -> o_attempt_count o <= o_attempt_count o')
            /\ o_attempt_count o - 1 <= o_attempt_count o') as Hkept
    by (intros o Ho; by apply row_kept).
  constructor; try done.
  - intros i g id d Hg Hd. destruct (Ow i g id d Hg Hd) as (o & Ho & Hid & Hc & Hn).
    destruct (Hkept o Ho) as (o' & Ho' & Hid' & Hc' & Hn' & _). exists o'. rewrite Hid in *.
    assert (returns (snd c) id = false) as Hr.
    { destruct (returns (snd c) id) eqn:E; [|done]. destruct (Hret id E) as [Hno _].
      by rewrite (Hno i g Hg) in Hd. }
    assert (released (snd c) id = false) as Hrl by by destruct (snd c).
    split_and!; auto. specialize (Hn' Hrl). lia.
  - intros id r Hin. destruct (Lg id r Hin) as (o & Ho & Hid & Hr).
    destruct (Hkept o Ho) as (o' & Ho' & Hid' & Hc' & _). exists o'. rewrite Hid in *.
    split_and!; try done. intros Hcf. destruct (Hr Hcf) as [Hcl Hno]. split; [|done]. apply Hc'; [done|].
    destruct (returns (snd c) id) eqn:E; [|done]. destruct (Hret id E) as [_ Hconf].
    by rewrite (Hconf r Hin) in Hcf.
  - intros o' Ho'. destruct (decide (calls log (o_outbox_id o') = 0)) as [->|Hnz].
    + destruct (dv_rows _ _ (bi_deliveries _ _ I') o' Ho') as [_ _ Hst _].
      unfold status_ok in Hst. destruct (o_status o'); lia.
    + pose proof (calls_nonneg log (o_outbox_id o')).
      destruct (calls_pos log (o_outbox_id o')) as [r Hr]; [lia|].
      destruct (Lg _ r Hr) as (o & Ho & Hid & _). destruct (Hkept o Ho) as (o2 & Ho2 & Hid2 & _ & Hn & Hn1).
      assert (o2 = o') as -> by (apply (outbox_key_eq (max_attempts cfg) (brun cfg c b)); [apply I'|done..|congruence]).
      rewrite <- Hid. pose proof (Cl o Ho).
      destruct (released (snd c) (o_outbox_id o)) eqn:E; [specialize (Hrel o Ho E)|specialize (Hn eq_refl)]; lia.
Qed.

Lemma claim_held_inv rs (g : held) id d : (claim_held rs ∪ g) !! id = Some d ->
  (d = false /\ exists r, r ∈ rs /\ ob_outbox_id r = id) \/ g !! id = Some d.
Proof.
  intros Hl. apply lookup_union_Some_raw in Hl as [Hl|[_ Hl]]; [left|by right].
  unfold claim_held in Hl. apply elem_of_list_to_map_2 in Hl.
  apply list_elem_of_In, in_map_iff in Hl as (r & [= <- <-] & Hin). split; [done|].
  exists r. by rewrite list_elem_of_In.
Qed.

Lemma Ghost_claim b G log i g w now lf n b' rs : BusInv cfg b -> Ghost b G log ->
  G !! i = Some g -> claim_due w now lf n b = (b', Ok rs) ->
  Ghost b' (<[i := claim_held rs ∪ g]> G) log.
Proof.
  intros I Gh Hg Hc. assert (b' = brun cfg (∅, BClaim w now lf n) b) as Hb' by (unfold brun; cbn; by rewrite Hc).
  assert (Ghost b' G log) as Gh' by (rewrite Hb'; apply Ghost_bus; done).
  destruct (claim_answer cfg cfg_ok w now lf n b b' rs (bi_deliveries _ _ I) Hc) as (_ & _ & Hrs).
  assert (forall r j h, r ∈ rs -> G !! j = Some h -> h !! ob_outbox_id r = None) as Hfree.
  { intros r j h Hr Hj. destruct (Hrs r Hr) as (o & _ & Ho & _ & Hid & _ & Hcl & _).
    destruct (h !! ob_outbox_id r) as [d|] eqn:Ed; [|done].
    destruct (gh_owned _ _ _ Gh j h _ d Hj Ed) as (o2 & Ho2 & Hid2 & Hcl2 & _).
    assert (o2 = o) as -> by (apply (outbox_key_eq (max_attempts cfg) b); [apply I|done..|congruence]).
    by rewrite Hcl in Hcl2. }
  assert (forall j h id d, <[i := claim_held rs ∪ g]> G !! j = Some h -> h !! id = Some d ->
            (j = i /\ d = false /\ exists r, r ∈ rs /\ ob_outbox_id r = id)
            \/ exists h', G !! j = Some h' /\ h' !! id = Some d) as Hback.
  { intros j h id d Hj Hd. apply list_lookup_insert_Some in Hj as [(-> & <- & _)|[_ Hj]]; [|eauto].
    apply claim_held_inv in Hd as [[-> Hr]|Hd]; [by left|eauto]. }
  destruct Gh' as [Ow Ap Lg Cl On]. constructor; try done.
  - intros j h id d Hj Hd. destruct (Hback j h id d Hj Hd) as [(-> & -> & r & Hr & <-)|(h' & ? & ?)]; [|eauto].
    destruct (Hrs r Hr) as (o & o' & Ho & Ho' & Hid & Hid' & Hcl & Hst & Hn & _). exists o'.
    split_and!; try done; [unfold claimable; by rewrite Hst|].
    pose proof (gh_calls _ _ _ Gh o Ho) as Hcalls. rewrite Hid in Hcalls. lia.
  - intros j k h h' id Hj Hk [d Hd] [d' Hd'].
    destruct (Hback _ _ _ _ Hj Hd) as [(-> & _ & r & Hr & <-)|(h1 & Hj1 & Hd1)],
             (Hback _ _ _ _ Hk Hd') as [(-> & _ & r' & Hr' & He)|(h2 & Hk2 & Hd2)]; try done.
    + by rewrite (Hfree r k h2 Hr Hk2) in Hd2.
    + rewrite <- He in Hd1. by rewrite (Hfree r' j h1 Hr' Hj1) in Hd1.
    + by eapply Ap.
  - intros id r Hin. destruct (Lg id r Hin) as (o & ? & ? & Hr). exists o. split_and!; try done.
    intros Hcf. destruct (Hr Hcf) as [? Hno]. split; [done|]. intros j h Hj.
    destruct (h !! id) as [d|] eqn:Ed; [|done].
    destruct (Hback j h id d Hj Ed) as [(-> & -> & r' & Hr' & <-)|(h' & Hj' & Hd')].
    + destruct (gh_logged _ _ _ Gh _ r Hin) as (o1 & Ho1 & Hid1 & Hcl1). destruct (Hcl1 Hcf) as [Hcl _].
      destruct (Hrs r' Hr') as (o2 & _ & Ho2 & _ & Hid2 & _ & Hcl2 & _).
      assert (o2 = o1) as -> by (apply (outbox_key_eq (max_attempts cfg) b); [apply I|done..|congruence]).
      by rewrite Hcl in Hcl2.
    + by rewrite (Hno _ _ Hj') in Hd'.
Qed.

Lemma Ghost_deliver b G log i g oid r : BusInv cfg b -> Ghost b G log ->
  G !! i = Some g -> g !! oid = Some false ->
  Ghost b (<[i := if confirmed r then <[oid := true]> g else drop_held oid g]> G) (log ++ [(oid, r)]).
Proof.
  intros I [Ow Ap Lg Cl On] Hg Hoid. set (g' := if confirmed r then _ else _).
  assert (forall id, id <> oid -> g' !! id = g !! id) as Hother.
  { intros id Hne. unfold g', drop_held. destruct (confirmed r); [by rewrite lookup_insert_ne|by rewrite lookup_delete_ne]. }
  assert (g' !! oid = if confirmed r then Some true else None) as Hself.
  { unfold g', drop_held. destruct (confirmed r); [by rewrite lookup_insert_eq|by rewrite lookup_delete_eq]. }
  assert (forall j h id d, <[i := g']> G !! j = Some h -> h !! id = Some d ->
            (id = oid /\ j = i /\ d = true /\ confirmed r = true)
            \/ id <> oid /\ exists h', G !! j = Some h' /\ h' !! id = Some d) as Hback.
  { intros j h id d Hj Hd. apply list_lookup_insert_Some in Hj as [(-> & <- & _)|[Hne Hj]].
    - destruct (decide (id = oid)) as [->|Hne]; [left|right; split; [done|]; exists g; by rewrite <- Hother].
      rewrite Hself in Hd. destruct (confirmed r); [by injection Hd as <-|done].
    - right. split; [|eauto]. intros ->. apply Hne. symmetry. eapply Ap; eauto. }
  destruct (Ow i g oid false Hg Hoid) as (o0 & Ho0 & Hid0 & Hcl0 & Hn0). cbn in Hn0.
  constructor.
  - intros j h id d Hj Hd. destruct (Hback j h id d Hj Hd) as [(-> & -> & -> & _)|(Hne & h' & Hj' & Hd')].
    + exists o0. rewrite calls_snoc, eqs_refl. split_and!; try done. lia.
    + destruct (Ow j h' id d Hj' Hd') as (o & Ho & Hid & Hcl & Hn). exists o.
      rewrite calls_snoc. replace (eqs oid id) with false by (symmetry; apply eqs_false; congruence).
      split_and!; try done. lia.
  - intros j k h h' id Hj Hk [d Hd] [d' Hd'].
    destruct (Hback _ _ _ _ Hj Hd) as [(-> & -> & _)|(Hne & h1 & Hj1 & Hd1)],
             (Hback _ _ _ _ Hk Hd') as [(E & -> & _)|(Hne' & h2 & Hk2 & Hd2)]; try done.
    eapply Ap; eauto.
  - intros id x [Hin|Hin%list_elem_of_singleton]%elem_of_app.
    + destruct (Lg id x Hin) as (o & Ho & Hid & Hx). exists o. split_and!; try done. intros Hcf.
      destruct (Hx Hcf) as [Hcl Hno]. split; [done|]. intros j h Hj. destruct (h !! id) as [d|] eqn:Ed; [|done].
      destruct (Hback j h id d Hj Ed) as [(-> & -> & _)|(_ & h' & Hj' & Hd')].
      * by rewrite (Hno i g Hg) in Hoid.
      * by rewrite (Hno j h' Hj') in Hd'.
    + injection Hin as -> ->. exists o0. split_and!; try done. intros Hcf. split; [done|].
      intros j h Hj. destruct (h !! oid) as [d|] eqn:Ed; [|done].
      destruct (Hback j h oid d Hj Ed) as [(_ & _ & _ & Hc)|(? & _)]; [by rewrite Hc in Hcf|done].
  - intros o Ho. rewrite calls_snoc. destruct (eqs oid (o_outbox_id o)) eqn:E; [|specialize (Cl o Ho); lia].
    apply eqs_true in E.
    assert (o = o0) as -> by (apply (outbox_key_eq (max_attempts cfg) b); [apply I|done..|congruence]).
    rewrite Hid0. lia.
  - intros j k id x x' Hlt Hj Hk. apply lookup_app_Some in Hk as [Hk|[Hlen Hk]].
    + apply (On j k id x x' Hlt); [|done]. apply lookup_app_Some in Hj as [Hj|[Hlen _]]; [done|].
      apply lookup_lt_Some in Hk. lia.
    + apply list_lookup_singleton_Some in Hk as [Hk [= -> ->]].
      apply lookup_app_Some in Hj as [Hj|[Hl _]]; [|lia]. apply list_elem_of_lookup_2 in Hj.
      destruct (Lg id x Hj) as (o & _ & _ & Hx). destruct (confirmed x); [done|].
      destruct (Hx eq_refl) as [_ Hno]. by rewrite (Hno i g Hg) in Hoid.
Qed.
End Ghosts.

(** ** Reachable systems *)

Section Reach.
Context `{Codec} `{!CodecLaws} `{ExnText} (cfg : config) (cfg_ok : config_ok cfg).

Definition SysInv (y : system) : Prop := BusInv cfg (y_bus y) /\ exists G,
  Forall2 (safe (fun _ _ => True)) G (y_workers y) /\ Ghost (y_bus y) G (y_log y).

Lemma answer_plausible {T} (e : eff T) b t b' : BusInv cfg b -> answer cfg e b t b' -> plausible e t.
Proof.
  intros I Ha. destruct e; try done. cbn in *. intros rs ->.
  destruct Ha as [[Ht ->]|[[e He] _]]; [|done].
  destruct (claim_due _ _ _ _ b) as [b1 r1] eqn:Hc. cbn in Ht. subst r1.
  by destruct (claim_answer cfg cfg_ok _ _ _ _ _ _ _ (bi_deliveries _ _ I) Hc) as (? & ? & _).
Qed.

Lemma answer_BusInv {T} (e : eff T) b t b' : BusInv cfg b -> answer cfg e b t b' -> BusInv cfg b'.
Proof.
  intros I Ha. destruct (answer_bus cfg cfg_ok e b t b' Ha) as [->|(c & m & _ & ->)]; [done|]. by apply brun_BusInv.
Qed.

(** Handing a delivery back: first the worker lets go of it, then the row may become free. *)
Lemma Ghost_return b G log i g oid d c m : BusInv cfg b -> Ghost b G log -> G !! i = Some g ->
  g !! oid = Some d -> (forall id, returns c id = true -> id = oid) ->
  (forall id, released c id = true -> d = false) ->
  Ghost (brun cfg (m, c) b) (<[i := drop_held oid g]> G) log.
Proof.
  intros I Gh Hg Hd Hret Hrel. apply Ghost_bus; [done|done| | |]; cbn [snd].
  - eapply Ghost_less; [done|done|]. apply delete_subseteq.
  - intros id Hid. apply Hret in Hid as ->. split.
    + intros j h Hj. apply list_lookup_insert_Some in Hj as [(-> & <- & _)|[Hne Hj]].
      * apply lookup_delete_eq.
      * destruct (h !! oid) as [d'|] eqn:E; [|done]. destruct Hne.
        eapply (gh_apart _ _ _ Gh); [done|done|by exists d|by exists d'].
    + intros r Hr. destruct (confirmed r) eqn:E; [done|].
      destruct (gh_logged _ _ _ Gh oid r Hr) as (o & _ & _ & Hx). destruct (Hx E) as [_ Hno].
      by rewrite (Hno i g Hg) in Hd.
  - intros o Ho Hr. assert (returns c (o_outbox_id o) = true) as Hr' by by destruct c.
    apply Hret in Hr' as Hid. rewrite (Hrel _ Hr) in Hd.
    destruct (gh_owned _ _ _ Gh i g oid false Hg Hd) as (o' & Ho' & Hid' & _ & Hn).
    assert (o' = o) as -> by (apply (outbox_key_eq (max_attempts cfg) b); [apply I|done..|congruence]).
    rewrite Hid. cbn in Hn. lia.
Qed.

(** One effect of one worker keeps the invariant. *)
Lemma Ghost_effect {T} (e : eff T) b G log i g t b' : BusInv cfg b -> Ghost b G log ->
  G !! i = Some g -> allowed e g -> answer cfg e b t b' ->
  Ghost b' (<[i := after e g t]> G) (log ++ logged e t).
Proof.
  intros I Gh Hg Hal Ha. assert (<[i := g]> G = G) as Hsame by by apply list_insert_id.
  assert (forall c m, (forall id, returns c id = false) -> Ghost (brun cfg (m, c) b) G log) as Hquiet.
  { intros c m Hr. apply Ghost_bus; [done|done|done| |]; cbn [snd].
    - intros id Hid. by rewrite Hr in Hid.
    - intros o _ Hid. assert (returns c (o_outbox_id o) = true) as Hid' by by destruct c.
      by rewrite Hr in Hid'. }
  destruct (answer_bus cfg cfg_ok e b t b' Ha) as [Hb|(c & m & Hc & Hb)]; destruct e; cbn in Hal, Ha |- *;
    try (cbn in Hc; discriminate Hc); try (cbn in Hc; injection Hc as <-);
    rewrite ?app_nil_r, ?Hsame; try (rewrite Hb; done || (by apply Hquiet)).
  - destruct t as [rs|err]; [|by rewrite Hsame, Hb].
    destruct Ha as [[Ht Hb']|[[? ?] _]]; [|done]. eapply (Ghost_claim cfg cfg_ok); [done..|].
    rewrite (surjective_pairing (claim_due _ _ _ _ _)). by rewrite <- Ht, <- Hb'.
  - rewrite Hb. eapply Ghost_less; [done|done|]. apply delete_subseteq.
  - rewrite Hb. eapply Ghost_less; [done|done|]. apply delete_subseteq.
  - rewrite Hb. by apply (Ghost_deliver cfg).
  - destruct t as [rs|err].
    + destruct Ha as [[Ht Hb']|[[? ?] _]]; [|done]. eapply (Ghost_claim cfg cfg_ok); [done..|].
      rewrite (surjective_pairing (claim_due _ _ _ _ _)). by rewrite <- Ht, <- Hb'.
    + rewrite Hsame, Hb. by apply Hquiet.
  - destruct Hal as [d Hd]. rewrite Hb. eapply Ghost_return; [done..| |done].
    intros id Hid. cbn in Hid. by apply eqs_true in Hid.
  - rewrite Hb. eapply Ghost_return; [done..| |done].
    intros id Hid. cbn in Hid. by apply eqs_true in Hid.
Qed.

Lemma sys_step_inv y y' : SysInv y -> sys_step cfg y y' -> SysInv y'.
Proof.
  intros [I (G & Hs & Gh)] Hst. destruct Hst as [y conf w now lf n|y i T e k t b' Hi Ha|y c Hc]; cbn.
  - split; [done|]. exists (G ++ [∅]). split; [apply Forall2_app; [done|]; constructor; [|constructor]|].
    { apply safe_batch. }
    assert (forall (j : nat) (h : held) (id : string) (d : bool),
              (G ++ [∅]) !! j = Some h -> h !! id = Some d -> G !! j = Some h) as Hback.
    { intros j h id d Hj Hd. apply lookup_app_Some in Hj as [Hj|[_ Hj]]; [done|].
      apply list_lookup_singleton_Some in Hj as [_ <-]. by rewrite lookup_empty in Hd. }
    destruct Gh as [Ow Ap Lg Cl On]. constructor; try done.
    + intros j h id d Hj Hd. eauto.
    + intros j k h h' id Hj Hk [d Hd] [d' Hd']. eapply Ap; eauto.
    + intros id r Hin. destruct (Lg id r Hin) as (o & ? & ? & Hr). exists o. split_and!; try done.
      intros Hcf. destruct (Hr Hcf) as [? Hno]. split; [done|]. intros j h Hj.
      destruct (h !! id) as [d|] eqn:Ed; [|done]. by rewrite (Hno _ _ (Hback _ _ _ _ Hj Ed)) in Ed.
  - split; [by apply (answer_BusInv e (y_bus y) t b')|].
    destruct (Forall2_lookup_r _ _ _ _ _ Hs Hi) as (g & Hg & Hal & Hk).
    exists (<[i := after e g t]> G). split; [|by apply (Ghost_effect e (y_bus y))].
    apply Forall2_insert; [done|]. apply Hk. by apply (answer_plausible e (y_bus y) t b').
  - split; [by apply brun_BusInv|]. exists G. split; [done|]. apply Ghost_bus; [done|done|done| |].
    + intros id Hid. by rewrite Hc in Hid.
    + intros o _ Hid. assert (returns (snd c) (o_outbox_id o) = true) as Hid' by by destruct (snd c).
      by rewrite Hc in Hid'.
Qed.

Lemma reachable_inv token y : reachable cfg token y -> SysInv y.
Proof.
  induction 1 as [|y y' _ IH Hst]; [|by eapply sys_step_inv].
  split; [by apply fresh_BusInv|]. exists []. split; [constructor|].
  destruct (fresh_BusInv cfg cfg_ok token) as [I _].
  constructor; cbn; try done.
  - intros id r Hin. by inversion Hin.
  - intros o Ho. destruct (dv_rows _ _ (bi_deliveries _ _ I) o Ho) as [_ _ Hst _].
    unfold status_ok in Hst. replace (calls [] (o_outbox_id o)) with 0 by done. destruct (o_status o); lia.
Qed.
End Reach.

(** C4: at most one delivery may have been accepted.  Whatever workers, clocks, providers, store
    faults and crashes do, the provider is called a second time for an outbox row only after every
    earlier call for it ended in a confirmed failure: after a receipt, an unknown outcome or any
    other error the row is never attempted again. *)
Theorem at_most_one_acceptance (K : Codec) (L : CodecLaws) (X : ExnText) cfg token y (i j : nat) oid r r' :
  config_ok cfg -> reachable cfg token y -> (i < j)%nat ->
  y_log y !! i = Some (oid, r) -> y_log y !! j = Some (oid, r') ->
  exists e, r = Err e /\ exn_cls e = ConfirmedDeliveryFailureError.
Proof.
  intros Hc Hr Hlt Hi Hj. destruct (reachable_inv cfg Hc token y Hr) as [_ (G & _ & Gh)].
  pose proof (gh_once _ _ _ Gh i j oid r r' Hlt Hi Hj) as Hconf.
  destruct r as [x|e]; [done|]. cbn in Hconf. exists e. by bool_hyps.
Qed.

(** C5: the providers are called at most [max_attempts] times for one outbox row, over all workers
    and all time, even when writing the outcomes back fails. *)
Theorem provider_calls_bounded (K : Codec) (L : CodecLaws) (X : ExnText) cfg token y oid :
  config_ok cfg -> reachable cfg token y -> calls (y_log y) oid <= max_attempts cfg.
Proof.
  intros Hc Hr. destruct (reachable_inv cfg Hc token y Hr) as [I (G & _ & Gh)].
  destruct (decide (calls (y_log y) oid <= 0)) as [Hz|Hz]; [destruct Hc; lia|].
  destruct (calls_pos (y_log y) oid) as [r Hin]; [lia|].
  destruct (gh_logged _ _ _ Gh oid r Hin) as (o & Ho & <- & _).
  pose proof (gh_calls _ _ _ Gh o Ho). pose proof (attempts_bounded cfg Hc (y_bus y) o I Ho). lia.
Qed.
