(* ===== verification/NotificationBatch.v ===== *)
(** * One notification batch, from claim to summary

    [run_notification_batch] run alone on a bus ([interp]): it always returns a summary, the summary
    accounts for every claimed delivery, and its items mean what they say in the database and in
    the log of provider calls.  The run is also an execution of the shared system. *)

From Stdlib Require Import ZArith Lia Bool.
From stdpp Require Import base list strings gmap.
From S2P Require Import Prelude Clock DeliveryContracts SignalBus SignalBusInv SignalBusRoutes SignalBusThms.
From S2P Require Import NotificationWorker NotificationSystem.
Open Scope Z_scope.
Open Scope rq_scope.

(** ** Text that survives [strip] *)

Lemma rstrip_keeps s1 c s2 : py_space c = false -> nonempty (rstrip (s1 +:+ String c s2)) = true.
Proof.
  intros Hc. induction s1 as [|x s1 IH].
  - change (nonempty (rstrip (String c s2)) = true). cbn. destruct (rstrip s2); by rewrite ?Hc.
  - rewrite append_cons. cbn. by destruct (rstrip (s1 +:+ String c s2)).
Qed.

Lemma strip_keeps s1 c s2 : py_space c = false -> nonempty (strip (s1 +:+ String c s2)) = true.
Proof.
  intros Hc. unfold strip. induction s1 as [|x s1 IH].
  - change (nonempty (rstrip (lstrip (String c s2))) = true). cbn [lstrip]. rewrite Hc.
    apply (rstrip_keeps EmptyString c s2 Hc).
  - rewrite append_cons. cbn [lstrip]. destruct (py_space x) eqn:Ex; [exact IH|].
    rewrite <- append_cons. by apply rstrip_keeps.
Qed.

Lemma app_nonempty s1 s2 : nonempty (strip s1) = true -> nonempty (strip (s1 +:+ s2)) = true.
Proof.
  intros Hs. assert (exists a c b, s1 = a +:+ String c b /\ py_space c = false) as (a & c & b & -> & Hc).
  { clear s2. unfold strip in Hs. induction s1 as [|x s IH]; cbn in Hs; [done|].
    destruct (py_space x) eqn:Ex.
    - destruct (IH Hs) as (a & c & b & -> & Hc). by exists (String x a), c, b.
    - by exists EmptyString, x, s. }
  rewrite append_assoc, append_cons. by apply strip_keeps.
Qed.

(** ** Items *)

Section Items.
Context `{Codec} `{ExnText}.

Lemma error_text_nonempty e : nonempty (strip (error_text e)) = true.
Proof. unfold error_text. by apply strip_keeps. Qed.

Lemma opt_strip_idem s : opt_strip (opt_strip s) = opt_strip s.
Proof. destruct s; cbn; [|done]. by rewrite strip_idem. Qed.

Lemma mk_item_idem i i' : mk_item i = Ok i' -> mk_item i' = Ok i'.
Proof.
  intros Hi. assert (forall j, ni_outbox_id j = strip (ni_outbox_id j) -> ni_signal_id j = strip (ni_signal_id j) ->
    ni_provider_receipt j = opt_strip (ni_provider_receipt j) -> ni_error j = opt_strip (ni_error j) ->
    mk_item i = Ok j -> mk_item j = Ok j) as Hfix.
  { intros j H1 H2 H3 H4 Hj. unfold mk_item in Hj |- *. destruct j; cbn in *.
    rewrite <- H1, <- H2, <- H3, <- H4. ok_inv Hj; cbn in *.
    all: rewrite <- ?H1, <- ?H2, <- ?H3, <- ?H4.
    all: repeat match goal with E : _ = false |- _ => rewrite ?E; clear E | E : _ = N_UNKNOWN |- _ => rewrite ?E end.
    all: done. }
  apply Hfix; try done; unfold mk_item in Hi; ok_inv Hi; cbn; by rewrite ?strip_idem, ?opt_strip_idem.
Qed.

Definition record_fits (r : OutboxRecord) : Prop :=
  is_hex64 (ob_outbox_id r) = true /\ is_hex64 (ob_signal_id r) = true /\ 1 <= ob_attempt_count r.

Lemma result_ok r o t p err : record_fits r ->
  (o = N_SUCCEEDED -> err = None /\ exists s, p = Some s /\ nonempty (strip s) = true) ->
  (o <> N_SUCCEEDED -> p = None /\ exists s, err = Some s /\ nonempty (strip s) = true) ->
  exists i, mk_item {| ni_outbox_id := ob_outbox_id r; ni_signal_id := ob_signal_id r;
              ni_channel := channel (ob_target r); ni_attempt_no := ob_attempt_count r;
              ni_outcome := o; ni_observed_at := t; ni_provider_receipt := p; ni_error := err |} = Ok i
    /\ ni_outbox_id i = ob_outbox_id r /\ ni_attempt_no i = ob_attempt_count r /\ ni_outcome i = o
    /\ ni_provider_receipt i = opt_strip p.
Proof.
  intros (Hx & Hs & Hn) H1 H2. unfold mk_item. cbn [ni_outbox_id ni_signal_id ni_attempt_no ni_outcome
    ni_provider_receipt ni_error ni_channel ni_observed_at].
  rewrite (strip_hex64 _ Hx), (strip_hex64 _ Hs), Hx, Hs, (proj2 (Z.leb_le _ _)) by lia.
  destruct (decide (o = N_SUCCEEDED)) as [->|Ho].
  - destruct H1 as (-> & s & -> & Hne); [done|]. cbn. rewrite Hne. cbn. eexists. by split_and!.
  - destruct H2 as (-> & s & -> & Hne); [done|]. cbn. rewrite Hne. cbn.
    destruct o; [done|..]; cbn; eexists; by split_and!.
Qed.
End Items.

(** ** The interpreter *)

Section Run.
Context `{Codec} `{!CodecLaws} `{ExnText} (cfg : config) (cfg_ok : config_ok cfg).
Context (clock : nat -> pydatetime) (provider : nat -> NotificationDelivery -> res (option string)).

Abbreviation run := (interp cfg clock provider).

Lemma interp_bind {A B} (p : prog A) (f : A -> prog B) w :
  run (pbind p f) w = match run p w with
                      | (Ok a, w') => run (f a) w'
                      | (Err e, w') => (Err e, w')
                      end.
Proof.
  revert w. induction p as [a|e|T e k IH]; intros w; cbn; [done|done|].
  destruct (handle cfg clock provider e w) as [t w']. apply IH.
Qed.

(** Every clock reading is a timezone-aware instant. *)
Definition clock_aware : Prop := forall n, exists t, clock n = Aware t /\ in_range t = true.

Definition reading (n : nat) : Z := match clock n with Aware t => t | _ => 0 end.

Lemma run_clock w : clock_aware -> run current_utc w =
  (Ok (reading (w_ticks w)), {| w_bus := w_bus w; w_ticks := S (w_ticks w); w_calls := w_calls w |}).
Proof.
  intros Hc. unfold current_utc, reading. cbn. destruct (Hc (w_ticks w)) as (t & -> & Hr).
  unfold normalize_aware_utc. by rewrite Hr.
Qed.

(** The provider calls and recorded attempts of one delivery. *)
Definition attempted (r : OutboxRecord) (success : bool) (receipt : option string) (b : bus) : Prop :=
  exists a, In a (attempts b) /\ at_outbox_id a = ob_outbox_id r /\ at_attempt_no a = ob_attempt_count r
    /\ at_success a = success /\ at_provider_receipt a = receipt.

(** No attempt of this delivery under its number is recorded. *)
Definition unattempted (r : OutboxRecord) (b : bus) : Prop :=
  forall a, In a (attempts b) -> at_outbox_id a = ob_outbox_id r -> at_attempt_no a <> ob_attempt_count r.

Definition accounted (r : OutboxRecord) (item : NotificationItemResult)
    (made : list (NotificationDelivery * res (option string))) (b : bus) : Prop :=
  ni_outbox_id item = ob_outbox_id r /\ ni_attempt_no item = ob_attempt_count r
  /\ (made = [] \/ exists d a, made = [(d, a)] /\ ob_outbox_id (nd_record d) = ob_outbox_id r)
  /\ match ni_outcome item with
     | N_SUCCEEDED => exists d receipt, made = [(d, Ok (Some receipt))]
         /\ ni_provider_receipt item = Some (strip receipt) /\ attempted r true (Some receipt) b
     | N_FAILED => (made = [] \/ exists d e, made = [(d, Err e)]
         /\ exn_cls e = ConfirmedDeliveryFailureError) /\ attempted r false None b
     | N_NOT_ATTEMPTED => made = [] /\ unattempted r b
     | N_UNKNOWN => unattempted r b
     end.

(** Attempts are only added, and only of this delivery. *)
Definition grows (r : OutboxRecord) (b b' : bus) : Prop :=
  (forall a, In a (attempts b) -> In a (attempts b'))
  /\ (forall a, In a (attempts b') -> In a (attempts b) \/ at_outbox_id a = ob_outbox_id r).

Lemma grows_same r b b' : attempts b' = attempts b -> grows r b b'.
Proof. intros E. unfold grows. rewrite E. auto. Qed.

Lemma grows_trans r b b2 b3 : grows r b b2 -> grows r b2 b3 -> grows r b b3.
Proof. intros [A1 A2] [B1 B2]. split; [auto|]. intros a Ha. destruct (B2 a Ha); auto. Qed.

Lemma unattempted_same r b b' : attempts b' = attempts b -> unattempted r b -> unattempted r b'.
Proof. unfold unattempted. by intros ->. Qed.

(** A step of the loop, or part of one: it returns an item and has made the calls [made]. *)
Definition settles (r : OutboxRecord) (before : list (NotificationDelivery * res (option string)))
    (w : world) (x : res NotificationItemResult * world) : Prop :=
  exists item w', x = (Ok item, w') /\ mk_item item = Ok item /\ w_calls w' = w_calls w
    /\ grows r (w_bus w) (w_bus w')
    /\ accounted r item before (w_bus w').

Lemma settles_result r o t p err before w : record_fits r ->
  (o = N_SUCCEEDED -> err = None /\ exists s, p = Some s /\ nonempty (strip s) = true) ->
  (o <> N_SUCCEEDED -> p = None /\ exists s, err = Some s /\ nonempty (strip s) = true) ->
  (forall i, ni_outbox_id i = ob_outbox_id r -> ni_attempt_no i = ob_attempt_count r -> ni_outcome i = o ->
     ni_provider_receipt i = opt_strip p -> accounted r i before (w_bus w)) ->
  settles r before w (run (result r o t p err) w).
Proof.
  intros Hf Hsu Hne Hacc. destruct (result_ok r o t p err Hf Hsu Hne) as (i & Hi & Hid & Hn & Ho & Hp).
  unfold result. rewrite Hi. exists i, w. split_and!; try done; [by eapply mk_item_idem|by apply grows_same|by apply Hacc].
Qed.

Lemma settles_weaken r before w w' x : w_calls w' = w_calls w ->
  grows r (w_bus w) (w_bus w') -> settles r before w' x -> settles r before w x.
Proof.
  intros Hc Ha (i & w2 & -> & Hi & Hc2 & Ha2 & Hacc). exists i, w2. split_and!; try done; [congruence|by eapply grows_trans].
Qed.

Definition before_ok (r : OutboxRecord) (before : list (NotificationDelivery * res (option string))) : Prop :=
  before = [] \/ exists d a, before = [(d, a)] /\ ob_outbox_id (nd_record d) = ob_outbox_id r.

Lemma unknown_attempts oid w n t why p b :
  attempts (fst (record_unknown_delivery oid w n t why p b)) = attempts b.
Proof.
  unfold record_unknown_delivery. open_txn Hb. unfold committed in Hb. ok_inv Hb; [done|].
  match goal with Hi : insert_unknown _ _ = Ok _ |- _ => unfold insert_unknown in Hi; ok_inv Hi end. done.
Qed.

Lemma release_attempts oid w n t why b : attempts (fst (release_unattempted oid w n t why b)) = attempts b.
Proof. unfold release_unattempted. open_txn Hb. unfold committed in Hb. by ok_inv Hb. Qed.

Lemma settles_unknown r wk t err p before w : record_fits r -> unattempted r (w_bus w) -> before_ok r before ->
  nonempty (strip err) = true -> settles r before w (run (record_unknown r wk t err p) w).
Proof.
  intros Hf Hun Hb Hne. unfold record_unknown. rewrite interp_bind. cbn [perform interp handle on_bus].
  set (x := record_unknown_delivery _ _ _ _ _ _ _). eapply settles_weaken; [| |apply settles_result].
  - done.
  - apply grows_same, unknown_attempts.
  - done.
  - done.
  - intros _. split; [done|]. eexists. split; [done|]. destruct (snd x); [done|]. by apply app_nonempty.
  - intros i Hid Hn Ho _. unfold accounted. rewrite Ho. split_and!; try done. by eapply unattempted_same; [apply unknown_attempts|].
Qed.

Lemma complete_attempts oid wk n t out b :
  let x := complete cfg oid wk n t out b in
  (forall r, ob_outbox_id r = oid -> grows r b (fst x)) /\ (is_ok (snd x) = false -> attempts (fst x) = attempts b)
  /\ (is_ok (snd x) = true -> exists a, In a (attempts (fst x)) /\ at_outbox_id a = oid /\ at_attempt_no a = n
        /\ at_success a = match out with inl _ => true | inr _ => false end
        /\ at_provider_receipt a = match out with inl s => Some s | inr _ => None end).
Proof.
  unfold complete, txn. destruct (rbind _ _) as [[b' r']|e] eqn:Hb; cbn [fst snd]; [|by split_and!; try done; intros; apply grows_same].
  unfold committed in Hb. apply rbind_ok in Hb as (t0 & _ & Hb).
  destruct (fetchone _ _) as [row|]; [|done].
  apply rbind_ok in Hb as (u & _ & Hb). apply rbind_ok in Hb as (started & _ & Hb).
  apply rbind_ok in Hb as (b1 & Hi & Hb). apply rbind_ok in Hb as ([[st next] err] & _ & Hb).
  apply rbind_ok in Hb as (o & _ & [= <- <-]). apply bus_insert_attempt_ok in Hi as ->. cbn.
  split; [intros r Hr; split; intros a Ha; cbn in *; rewrite In_snoc in *; [by left|destruct Ha as [Ha| ->]; auto]|].
  split; [done|]. intros _. eexists. rewrite In_snoc. split; [by right|]. done.
Qed.

Lemma settles_failure r wk t err before w : record_fits r -> unattempted r (w_bus w) -> nonempty (strip err) = true ->
  (before = [] \/ exists d e, before = [(d, Err e)] /\ exn_cls e = ConfirmedDeliveryFailureError
                 /\ ob_outbox_id (nd_record d) = ob_outbox_id r) ->
  settles r before w (run (complete_known_failure r wk t err) w).
Proof.
  intros Hf Hun Hne Hb. assert (before_ok r before) as Hbk.
  { destruct Hb as [->|(d & e & -> & _ & Hd)]; [by left|right; eauto]. }
  unfold complete_known_failure. rewrite interp_bind. cbn [perform interp handle on_bus].
  unfold complete_failure. rewrite Hne. cbn [negb].
  set (x := complete _ _ _ _ _ _ _).
  destruct (complete_attempts (ob_outbox_id r) wk (ob_attempt_count r) (Aware t) (inr err) (w_bus w)) as (Hkeep & Hsame & Hnew).
  fold x in Hkeep, Hsame, Hnew. specialize (Hkeep r eq_refl). eapply settles_weaken; [| |destruct (snd x) eqn:Ex; apply settles_result]; try done.
  - intros _. eauto.
  - intros i Hid Hn Ho _. unfold accounted. rewrite Ho. split_and!; try done.
    + destruct Hb as [->|(d & e & -> & ? & _)]; eauto.
    + destruct Hnew as (at0 & Ha); [done|]. by exists at0.
  - intros _. split; [done|]. eexists. split; [done|]. by apply app_nonempty.
  - intros i Hid Hn Ho _. unfold accounted. rewrite Ho. split_and!; try done. by eapply unattempted_same; [apply Hsame|].
Qed.

Lemma settles_release r wk t why w : record_fits r -> unattempted r (w_bus w) -> nonempty (strip why) = true ->
  settles r [] w (run (release_not_attempted r wk t why) w).
Proof.
  intros Hf Hun Hne. unfold release_not_attempted. rewrite interp_bind. cbn [perform interp handle on_bus].
  set (x := release_unattempted _ _ _ _ _ _). assert (attempts (fst x) = attempts (w_bus w)) as Hsame by apply release_attempts.
  eapply settles_weaken; [| |destruct (snd x); [apply settles_result|apply settles_unknown]]; try done.
  - by apply grows_same.
  - intros _. eauto.
  - intros i Hid Hn Ho _. unfold accounted. rewrite Ho. split_and!; auto. by eapply unattempted_same.
  - by eapply unattempted_same.
  - by left.
  - by apply app_nonempty.
Qed.

Lemma settles_settle r wk ans t d w : record_fits r -> unattempted r (w_bus w) -> ob_outbox_id (nd_record d) = ob_outbox_id r ->
  settles r [(d, ans)] w (run (settle r wk ans t) w).
Proof.
  intros Hf Hun Hd. assert (before_ok r [(d, ans)]) as Hbk by (right; eauto).
  unfold settle. destruct ans as [rc|e].
  - case_goal; [by apply settles_unknown|]. bool_hyps. destruct rc as [rc|]; [|discriminate]. cbv [default from_option id] in *.
    rewrite interp_bind. cbn [perform interp handle on_bus]. unfold complete_success.
    match goal with E : nonempty _ = true |- _ => rename E into Hne; rewrite Hne end. cbn [negb].
    set (x := complete _ _ _ _ _ _ _).
    destruct (complete_attempts (ob_outbox_id r) wk (ob_attempt_count r) (Aware t) (inl rc) (w_bus w)) as (Hkeep & Hsame & Hnew).
    fold x in Hkeep, Hsame, Hnew. specialize (Hkeep r eq_refl).
    eapply settles_weaken; [| |destruct (snd x) eqn:Ex; [apply settles_result|apply settles_unknown]]; try done.
    + intros _. eauto.
    + intros i Hid Hn Ho Hp. unfold accounted. rewrite Ho. split_and!; try done. exists d, rc.
      split_and!; try done. destruct Hnew as (at0 & Ha); [done|]. by exists at0.
    + by eapply unattempted_same; [apply Hsame|].
    + by apply app_nonempty.
  - case_goal; [|apply settles_unknown; [done|done|done|apply error_text_nonempty]].
    apply settles_failure; [done|done|apply error_text_nonempty|]. bool_hyps. right. eauto.
Qed.

(** One turn of the loop. *)
Definition turn_ok (r : OutboxRecord) (w : world) (x : res (NotificationItemResult * Z) * world) : Prop :=
  exists item cur w' made, x = (Ok (item, cur), w') /\ mk_item item = Ok item
    /\ w_calls w' = w_calls w ++ made
    /\ grows r (w_bus w) (w_bus w')
    /\ accounted r item made (w_bus w').

Lemma settles_turn r made w w0 p cur : w_calls w = w_calls w0 ++ made ->
  attempts (w_bus w) = attempts (w_bus w0) ->
  settles r made w (run p w) -> turn_ok r w0 (run (item <- p ;; Ret (item, cur)) w).
Proof.
  intros Hc Ha (item & w' & Hp & Hi & Hc' & Ha' & Hacc). rewrite interp_bind, Hp. cbn.
  exists item, cur, w', made. split_and!; try done; [congruence|]. eapply grows_trans; [by apply grows_same|done].
Qed.

Lemma deliver_one_turn conf wk cur r w : clock_aware -> record_fits r -> unattempted r (w_bus w) -> is_Some (ob_lease_until r) ->
  turn_ok r w (run (deliver_one conf wk cur r) w).
Proof.
  intros Hclk Hf Hun [until Hu]. unfold deliver_one. rewrite interp_bind, run_clock by done.
  cbv zeta. rewrite Hu. case_goal.
  { eapply settles_turn with (made := []); [by rewrite app_nil_r|done|]. by apply settles_release. }
  rewrite interp_bind. cbn [perform interp handle].
  destruct (prepare_delivery _ _ _) as [d|e] eqn:Ed.
  2:{ eapply settles_turn with (made := []); [by rewrite app_nil_r|done|]. apply settles_release; [done|done|].
      by apply app_nonempty. }
  case_goal.
  - rewrite interp_bind, run_clock by done.
    eapply settles_turn with (made := []); [by rewrite app_nil_r|done|]. apply settles_failure; [done|done| |by left].
    by apply app_nonempty.
  - unfold prepare_delivery in Ed. apply rbind_ok in Ed as ([s|] & _ & Ed); [|done].
    apply mk_delivery_id in Ed; [|apply Hf].
    rewrite interp_bind. cbn [perform interp handle]. rewrite interp_bind, run_clock by done.
    eapply settles_turn; [reflexivity|done|]. by apply settles_settle.
Qed.

(** Later turns add only attempts of other deliveries. *)
Definition leaves (r : OutboxRecord) (b b' : bus) : Prop :=
  (forall a, In a (attempts b) -> In a (attempts b'))
  /\ (forall a, In a (attempts b') -> In a (attempts b) \/ at_outbox_id a <> ob_outbox_id r).

Lemma leaves_unattempted r b b' : leaves r b b' -> unattempted r b -> unattempted r b'.
Proof. intros [_ Hl] Hun a Ha Hid. destruct (Hl a Ha); [by apply Hun|done]. Qed.

Lemma accounted_later r item made b b' : accounted r item made b -> leaves r b b' -> accounted r item made b'.
Proof.
  intros (Hid & Hn & Hm & Ho) Hlv. pose proof Hlv as [Hsub _]. split_and!; try done.
  assert (forall s p, attempted r s p b -> attempted r s p b') as Hatt
    by (intros s p (a & Ha & Hrest); exists a; auto).
  destruct (ni_outcome item); try done.
  - destruct Ho as (d & rc & ? & ? & ?). exists d, rc. auto.
  - destruct Ho as [? ?]. auto.
  - by eapply leaves_unattempted.
  - destruct Ho as [? ?]. split; [done|]. by eapply leaves_unattempted.
Qed.

(** Items with the provider calls made for them. *)
Abbreviation entry := (NotificationItemResult * list (NotificationDelivery * res (option string)))%type.

Definition ledger (claimed : list OutboxRecord) (entries : list entry) (b : bus) : Prop :=
  Forall2 (fun r x => accounted r (fst x) (snd x) b) claimed entries.

Lemma deliver_each_ok conf wk cur claimed w : clock_aware ->
  Forall (fun r => record_fits r /\ is_Some (ob_lease_until r)) claimed ->
  Forall (fun r => unattempted r (w_bus w)) claimed -> NoDup (map ob_outbox_id claimed) ->
  exists entries w', run (deliver_each conf wk cur claimed) w = (Ok (map fst entries), w')
    /\ Forall (fun i => mk_item i = Ok i) (map fst entries)
    /\ w_calls w' = w_calls w ++ concat (map snd entries)
    /\ (forall r, ob_outbox_id r ∉ map ob_outbox_id claimed -> leaves r (w_bus w) (w_bus w'))
    /\ ledger claimed entries (w_bus w').
Proof.
  intros Hclk. revert cur w. induction claimed as [|r claimed IH]; intros cur w Hf Hun Hnd.
  - exists [], w. cbn. rewrite app_nil_r. split_and!; [done|constructor|done|intros r _; split; auto|constructor].
  - inversion Hf as [|? ? [Hr Hu] Hf']; subst. inversion Hun as [|? ? Hur Hun']; subst. cbn [map] in Hnd. apply NoDup_cons in Hnd as [Hni Hnd].
    cbn [deliver_each].
    destruct (deliver_one_turn conf wk cur r w Hclk Hr Hur Hu) as (item & cur' & w1 & made & Hrun & Hi & Hc & [Ha Hb] & Hacc).
    assert (forall x, ob_outbox_id x <> ob_outbox_id r -> leaves x (w_bus w) (w_bus w1)) as Hlv.
    { intros x Hx. split; [done|]. intros a K. destruct (Hb a K); [by left|right; congruence]. }
    rewrite interp_bind, Hrun. destruct (IH cur' w1 Hf') as (es & w2 & Hrun2 & His & Hc2 & Hl2 & Hl); [|done|].
    { rewrite Forall_forall in Hun' |- *. intros x Hx. eapply leaves_unattempted; [|by apply Hun']. apply Hlv.
      intros E. apply Hni. rewrite <- E. by apply list_elem_of_fmap_2. }
    rewrite interp_bind, Hrun2. exists ((item, made) :: es), w2. cbn. split_and!; try done.
    + by constructor.
    + by rewrite Hc2, Hc, <- app_assoc.
    + intros x Hx. rewrite not_elem_of_cons in Hx. destruct Hx as [Hx1 Hx2].
      destruct (Hlv x Hx1) as [L1 L2], (Hl2 x Hx2) as [M1 M2]. split; [auto|]. intros a K. destruct (M2 a K); auto.
    + constructor; [eapply accounted_later; [exact Hacc|by apply Hl2]|done].
Qed.

(** What a claim returns can be delivered. *)
Lemma outbox_from_row_fields o r : is_hex64 (o_outbox_id o) = true -> is_hex64 (o_signal_id o) = true ->
  outbox_from_row o = Ok r -> ob_outbox_id r = o_outbox_id o /\ ob_signal_id r = o_signal_id o
    /\ ob_attempt_count r = o_attempt_count o /\ ob_lease_until r = o_lease_until o.
Proof.
  intros Hx Hs Hr. unfold outbox_from_row, validate_record in Hr. ok_inv Hr. cbn.
  by rewrite (strip_hex64 _ Hx), (strip_hex64 _ Hs).
Qed.

Lemma claimed_fit wk now lf n b b' rs : BusInv cfg b -> claim_due wk now lf n b = (b', Ok rs) ->
  Forall (fun r => record_fits r /\ is_Some (ob_lease_until r)) rs.
Proof.
  intros I Hc. assert (Deliveries (max_attempts cfg) b') as D'.
  { pose proof (claim_due_Deliveries cfg (proj2 cfg_ok) wk now lf n b (bi_deliveries _ _ I)) as D'. by rewrite Hc in D'. }
  destruct (claim_answer cfg cfg_ok _ _ _ _ _ _ _ (bi_deliveries _ _ I) Hc) as (_ & _ & Hrs).
  apply Forall_forall. intros r Hr. destruct (Hrs r Hr) as (o & o' & Ho & Ho' & _ & _ & _ & Hst & Hn & Hok & _).
  destruct (dv_rows _ _ D' o' Ho') as [_ (Hs & Hx & _) Hstat _].
  destruct (outbox_from_row_fields o' r Hx Hs Hok) as (Hf1 & Hf2 & Hf3 & Hf4).
  unfold status_ok in Hstat. rewrite Hst in Hstat.
  destruct Hstat as (Hk & _ & _ & _ & (s & u & _ & Hu & _) & _).
  unfold record_fits. rewrite Hf1, Hf2, Hf3, Hf4, Hu. split; [split_and!; done || lia|done].
Qed.

(** A claim takes a new attempt number. *)
Lemma claimed_unattempted wk now lf n b b' rs : BusInv cfg b -> claim_due wk now lf n b = (b', Ok rs) ->
  Forall (fun r => unattempted r b') rs /\ NoDup (map ob_outbox_id rs).
Proof.
  intros I Hc. assert (Deliveries (max_attempts cfg) b') as D'.
  { pose proof (claim_due_Deliveries cfg (proj2 cfg_ok) wk now lf n b (bi_deliveries _ _ I)) as D'. by rewrite Hc in D'. }
  destruct (claim_answer cfg cfg_ok _ _ _ _ _ _ _ (bi_deliveries _ _ I) Hc) as (Hnd & _ & Hrs). split; [|done].
  apply Forall_forall. intros r Hr a Ha Hid. destruct (Hrs r Hr) as (o & o' & Ho & Ho' & _ & Hoid & _ & Hst & Hn & Hok & _).
  destruct (dv_rows _ _ D' o' Ho') as [_ (Hs & Hx & _) Hstat Hhist].
  destruct (outbox_from_row_fields o' r Hx Hs Hok) as (Hf1 & _ & Hf3 & _). rewrite Hf3.
  unfold status_ok in Hstat. rewrite Hst in Hstat. destruct Hstat as (Hk & _).
  assert (In a (history (o_outbox_id o') b')) as Hin by (apply filter_In; split; [done|]; apply eqs_true; congruence).
  apply In_nth_error in Hin as [i Hi]. rewrite (ho_numbers _ _ Hhist i a Hi). assert (i < length (history (o_outbox_id o') b'))%nat by (apply nth_error_Some; congruence). lia.
Qed.

Lemma count_partition (items : list NotificationItemResult) :
  outcome_count N_SUCCEEDED items + outcome_count N_FAILED items
  + outcome_count N_UNKNOWN items + outcome_count N_NOT_ATTEMPTED items = Z.of_nat (length items).
Proof.
  unfold outcome_count, select. induction items as [|i items IH]; [done|]. cbn [List.filter].
  destruct (ni_outcome i); cbn [length];
    repeat (rewrite bool_decide_eq_true_2 by done) || rewrite bool_decide_eq_false_2 by done; cbn [length]; lia.
Qed.

Lemma rmap_fix {A} (f : A -> res A) l : Forall (fun i => f i = Ok i) l -> rmap f l = Ok l.
Proof. induction 1 as [|i l Hi _ IH]; cbn; [done|]. by rewrite Hi, IH. Qed.

Lemma outcome_count_nonneg o items : 0 <= outcome_count o items.
Proof. unfold outcome_count. lia. Qed.

Lemma batch_summary s : nonempty (strip (ns_worker_id s)) = true -> 0 < ns_lease_us s ->
  1 <= ns_requested_limit s -> ns_started_at s <= ns_finished_at s ->
  Forall (fun i => mk_item i = Ok i) (ns_items s) -> ns_claimed_count s = Z.of_nat (length (ns_items s)) ->
  ns_succeeded_count s = outcome_count N_SUCCEEDED (ns_items s) ->
  ns_failed_count s = outcome_count N_FAILED (ns_items s) ->
  ns_unknown_count s = outcome_count N_UNKNOWN (ns_items s) ->
  ns_not_attempted_count s = outcome_count N_NOT_ATTEMPTED (ns_items s) ->
  exists s', mk_summary s = Ok s' /\ ns_items s' = ns_items s /\ ns_claimed_count s' = ns_claimed_count s
    /\ ns_succeeded_count s' + ns_failed_count s' + ns_unknown_count s' + ns_not_attempted_count s'
       = ns_claimed_count s'.
Proof.
  intros Hw Hl Hn Ht Hi Hc H1s H2s H3s H4s. unfold mk_summary, check_count. rewrite (rmap_fix _ _ Hi). cbn [rbind].
  rewrite Hw, Hc, H1s, H2s, H3s, H4s, !Z.eqb_refl.
  pose proof (outcome_count_nonneg N_SUCCEEDED (ns_items s)). pose proof (outcome_count_nonneg N_FAILED (ns_items s)).
  pose proof (outcome_count_nonneg N_UNKNOWN (ns_items s)). pose proof (outcome_count_nonneg N_NOT_ATTEMPTED (ns_items s)).
  rewrite !(proj2 (Z.leb_le _ _)), (proj2 (Z.ltb_lt _ _)), (proj2 (Z.ltb_ge _ _)) by lia. cbn.
  eexists. split; [done|]. cbn. split_and!; try done. apply count_partition.
Qed.

Lemma claim_args wk now lf n b b' rs : claim_due wk now lf n b = (b', Ok rs) ->
  nonempty (strip wk) = true /\ 0 < lf /\ 1 <= n.
Proof.
  unfold claim_due, txn. destruct (rbind _ _) as [[b1 r1]|e] eqn:Hb; [|done]. intros _.
  apply rbind_ok in Hb as (t & _ & Hb). destruct (negb (nonempty _)) eqn:E1; [done|].
  destruct (lf <=? 0) eqn:E2; [done|]. destruct (n <? 1) eqn:E3; [done|]. bool_hyps. split_and!; done || lia.
Qed.

(** *** A run alone is an execution of the system *)

Definition log_of (made : list (NotificationDelivery * res (option string))) : call_log :=
  map (fun x => (ob_outbox_id (nd_record (fst x)), snd x)) made.

Lemma handle_answer {T} (e : eff T) w : let '(t, w') := handle cfg clock provider e w in
  answer cfg e (w_bus w) t (w_bus w') /\ log_of (w_calls w') = log_of (w_calls w) ++ logged e t.
Proof.
  destruct e; cbn; rewrite ?app_nil_r; split; try done; try (by left); [by split; [|left]|].
  unfold log_of. by rewrite map_app.
Qed.

Lemma interp_reachable token (p : prog NotificationRunSummary) w y i pre :
  reachable cfg token y -> y_workers y !! i = Some p -> w_bus w = y_bus y ->
  y_log y = pre ++ log_of (w_calls w) ->
  let '(_, w') := run p w in exists y', reachable cfg token y' /\ y_bus y' = w_bus w'
    /\ y_log y' = pre ++ log_of (w_calls w').
Proof.
  revert w y. induction p as [a|e|T e k IH]; intros w y Hy Hi Hb Hlog; cbn; [by exists y|by exists y|].
  pose proof (handle_answer e w) as Ha. destruct (handle cfg clock provider e w) as [t w1].
  destruct Ha as [Ha Hl]. rewrite Hb in Ha.
  apply (IH t w1 {| y_bus := w_bus w1; y_workers := <[i := k t]> (y_workers y); y_log := y_log y ++ logged e t |}).
  - eapply reach_step; [done|]. by eapply sys_effect.
  - cbn. apply list_lookup_insert_eq. by eapply lookup_lt_Some.
  - done.
  - cbn. by rewrite Hlog, Hl, <- app_assoc.
Qed.
End Run.

(** C28: a batch run alone accounts for every delivery it claimed.  On every reachable bus, with
    clock readings that are timezone-aware and not before the claim, [run_notification_batch]
    returns a summary: one item per claimed record, in order, the four counts adding up; the
    provider was called at most once per record, only for that record, and not at all for an item
    reported as not attempted; a success carries the provider's receipt and is recorded as a
    successful attempt, a failure is confirmed by the provider (or there is no provider) and is
    recorded as a failed attempt; for an item reported as unknown or as not attempted no attempt of
    that number is on the bus at the end. *)
Theorem batch_accounts_for_claims (K : Codec) (L : CodecLaws) (X : ExnText) cfg token cs clock provider
    conf wk now lf n b1 rs :
  config_ok cfg -> clock_aware clock -> in_range now = true -> (forall k, now <= reading clock k) ->
  let b := bruns cfg cs (fresh_bus cfg token) in
  claim_due wk (Aware now) lf n b = (b1, Ok rs) ->
  exists s entries w', interp cfg clock provider (run_notification_batch conf wk (Aware now) lf n)
      {| w_bus := b; w_ticks := 0; w_calls := [] |} = (Ok s, w')
    /\ ns_items s = map fst entries /\ ledger rs entries (w_bus w')
    /\ w_calls w' = concat (map snd entries)
    /\ ns_claimed_count s = Z.of_nat (length rs)
    /\ ns_succeeded_count s + ns_failed_count s + ns_unknown_count s + ns_not_attempted_count s
       = ns_claimed_count s.
Proof.
  intros Hc Hclk Hnow Hmono b Hcl. destruct (claim_args _ _ _ _ _ _ _ Hcl) as (Hwk & Hlf & Hn).
  assert (BusInv cfg b) as I by (apply bruns_BusInv; [done|by apply fresh_BusInv]).
  unfold run_notification_batch. rewrite interp_bind. unfold normalize_aware_utc. rewrite Hnow.
  cbn [lift interp]. rewrite !interp_bind. cbn [perform interp handle on_bus]. cbn [w_bus].
  rewrite Hcl. cbn [fst snd lift interp]. rewrite interp_bind. set (w1 := {| w_bus := b1 |}).
  destruct (claimed_unattempted cfg Hc wk (Aware now) lf n b b1 rs I Hcl) as [Hun Hnd].
  destruct (deliver_each_ok cfg clock provider conf wk now rs w1 Hclk
              (claimed_fit cfg Hc wk (Aware now) lf n b b1 rs I Hcl) Hun Hnd) as (es & w2 & -> & Hi & Hcalls & _ & Hl).
  rewrite interp_bind, run_clock by done.
  assert (length rs = length (map fst es)) as Hlen by (rewrite length_map; by eapply Forall2_length).
  match goal with |- context [mk_summary ?s] => destruct (batch_summary s) as (s' & Hs & Hit & Hcc & Hsum) end;
    cbn [ns_worker_id ns_lease_us ns_requested_limit ns_started_at ns_finished_at ns_items ns_claimed_count
         ns_succeeded_count ns_failed_count ns_unknown_count ns_not_attempted_count] in *;
    try done; [by rewrite Hlen|].
  rewrite Hs. cbn. exists s', es. eexists. split; [done|]. cbn. by split_and!.
Qed.

(** The executable batch refines the shared system: from every reachable system, running a batch
    alone on its bus leads to a reachable system with the bus it leaves and exactly its provider
    calls added to the log.  The bounds on provider calls therefore hold of the code as run. *)
Lemma batch_is_an_execution (K : Codec) (L : CodecLaws) (X : ExnText) cfg token y clock provider
    conf wk now lf n : reachable cfg token y ->
  let '(_, w') := interp cfg clock provider (run_notification_batch conf wk now lf n)
                    {| w_bus := y_bus y; w_ticks := 0; w_calls := [] |} in
  exists y', reachable cfg token y' /\ y_bus y' = w_bus w' /\ y_log y' = y_log y ++ log_of (w_calls w').
Proof.
  intros Hy.
  apply (interp_reachable cfg clock provider token (run_notification_batch conf wk now lf n)
    {| w_bus := y_bus y; w_ticks := 0; w_calls := [] |}
    {| y_bus := y_bus y; y_log := y_log y;
       y_workers := y_workers y ++ [run_notification_batch conf wk now lf n] |} (length (y_workers y)) (y_log y)).
  - eapply reach_step; [done|]. apply sys_start.
  - cbn. by rewrite lookup_app_r, Nat.sub_diag by lia.
  - done.
  - cbn. by rewrite app_nil_r.
Qed.

(** ** An example: the provider refuses once, then accepts *)

#[local] Existing Instance demo_codec.
#[local] Instance demo_text : ExnText := {| exn_name := fun _ => "Error"%string; exn_str := exn_msg |}.

Definition demo_provider (n : nat) (_ : NotificationDelivery) : res (option string) :=
  match n with
  | O => Err (Raise ConfirmedDeliveryFailureError "HTTP 429")
  | _ => Ok (Some "receipt-7"%string)
  end.

(** Every reading of a batch's clock is the same instant. *)
Definition demo_clock (s : Z) (_ : nat) : pydatetime := sec s.

(** A batch by worker [w] at second [s] whose first provider call is number [k]. *)
Definition demo_batch (w : string) : Z -> prog NotificationRunSummary := fun s =>
  @run_notification_batch demo_codec demo_text (fun _ => true) w (sec s) (10 * us_per_second) 5.

Abbreviation demo_run w s k b :=
  (@interp demo_codec demo_cfg (demo_clock s) (fun n => demo_provider (k + n)) NotificationRunSummary
     (demo_batch w s) {| w_bus := b; w_ticks := 0; w_calls := [] |}).

Lemma demo_clock_aware s : in_range (s * us_per_second) = true -> clock_aware (demo_clock s).
Proof. intros Hs n. exists (s * us_per_second). split; [reflexivity|exact Hs]. Qed.

Lemma batch_accounts_for_claims_witness :
  exists s, fst (demo_run "w1" 4 0 (demo_bus 1)) = Ok s /\ ns_claimed_count s = 1 /\ ns_failed_count s = 1.
Proof.
  destruct (@claim_due demo_codec "w1" (sec 4) (10 * us_per_second) 5 (demo_bus 1)) as [b1 [rs|e]] eqn:Hc;
    [|vm_compute in Hc; discriminate].
  destruct (batch_accounts_for_claims demo_codec demo_laws demo_text demo_cfg "t" (firstn 1 demo_calls)
    (demo_clock 4) (fun n => demo_provider (0 + n)) (fun _ => true) "w1" (4 * us_per_second)
    (10 * us_per_second) 5 b1 rs demo_cfg_ok (demo_clock_aware 4 eq_refl) eq_refl (fun k => Z.le_refl _) Hc)
    as (s & es & w' & Hrun & _ & _ & _ & Hn & _).
  exists s. split; [exact (f_equal fst Hrun)|]. split.
  - rewrite Hn. vm_compute in Hc. injection Hc as _ <-. reflexivity.
  - apply (f_equal fst) in Hrun. vm_compute in Hrun. injection Hrun as <-. reflexivity.
Defined.

(** The system after one committed signal and two batches. *)
Abbreviation demo_bus1 := (@brun demo_codec demo_cfg (∅, demo_commit) (@fresh_bus demo_codec demo_cfg "t")).

Lemma demo_batch_reachable w s k y : @reachable demo_codec demo_text demo_cfg "t" y -> exists y',
  @reachable demo_codec demo_text demo_cfg "t" y' /\ y_bus y' = w_bus (snd (demo_run w s k (y_bus y)))
  /\ y_log y' = y_log y ++ log_of (w_calls (snd (demo_run w s k (y_bus y)))).
Proof.
  intros Hy.
  pose proof (interp_reachable demo_cfg (demo_clock s) (fun n => demo_provider (k + n)) "t" (demo_batch w s)
    {| w_bus := y_bus y; w_ticks := 0; w_calls := [] |}
    {| y_bus := y_bus y; y_log := y_log y; y_workers := y_workers y ++ [demo_batch w s] |}
    (length (y_workers y)) (y_log y)) as Hr.
  destruct (demo_run w s k (y_bus y)) as [r w']. apply Hr; cbn.
  - eapply reach_step; [exact Hy|]. apply sys_start.
  - rewrite lookup_app_r, Nat.sub_diag by lia. reflexivity.
  - reflexivity.
  - by rewrite app_nil_r.
Qed.

Lemma demo_system : exists y, @reachable demo_codec demo_text demo_cfg "t" y
  /\ y_log y = [(demo_sid, Err (Raise ConfirmedDeliveryFailureError "HTTP 429"));
                (demo_sid, Ok (Some "receipt-7"%string))].
Proof.
  assert (@reachable demo_codec demo_text demo_cfg "t" {| y_bus := demo_bus1; y_workers := []; y_log := [] |}) as H1.
  { eapply reach_step; [apply reach_init|].
    apply (sys_other demo_cfg (sys_init demo_cfg "t") (∅, demo_commit)). intros oid. reflexivity. }
  destruct (demo_batch_reachable "w1" 4 0 _ H1) as (y1 & Hy1 & Hb1 & Hl1).
  destruct (demo_batch_reachable "w2" 12 1 _ Hy1) as (y2 & Hy2 & Hb2 & Hl2).
  exists y2. split; [exact Hy2|]. rewrite Hl2, Hl1, Hb1. cbn [y_log y_bus app].
  vm_compute. reflexivity.
Qed.

Lemma at_most_one_acceptance_witness : exists y,
  @reachable demo_codec demo_text demo_cfg "t" y /\ y_log y !! 1%nat = Some (demo_sid, Ok (Some "receipt-7"%string))
  /\ exists r e, y_log y !! 0%nat = Some (demo_sid, r) /\ r = Err e /\ exn_cls e = ConfirmedDeliveryFailureError.
Proof.
  destruct demo_system as (y & Hy & Hl).
  assert (y_log y !! 0%nat = Some (demo_sid, Err (Raise ConfirmedDeliveryFailureError "HTTP 429"))) as H0
    by (rewrite Hl; reflexivity).
  assert (y_log y !! 1%nat = Some (demo_sid, Ok (Some "receipt-7"%string))) as H1 by (rewrite Hl; reflexivity).
  destruct (at_most_one_acceptance demo_codec demo_laws demo_text demo_cfg "t" y 0 1 demo_sid _ _ demo_cfg_ok Hy
    (Nat.lt_0_1) H0 H1) as (e & He & Hcls).
  exists y. split; [exact Hy|]. split; [exact H1|]. exact (ex_intro _ _ (ex_intro _ e (conj H0 (conj He Hcls)))).
Defined.

Lemma provider_calls_bounded_witness : exists y,
  @reachable demo_codec demo_text demo_cfg "t" y /\ calls (y_log y) demo_sid = 2
  /\ calls (y_log y) demo_sid <= max_attempts demo_cfg.
Proof.
  destruct demo_system as (y & Hy & Hl). exists y. split; [exact Hy|].
  split; [rewrite Hl; vm_compute; reflexivity|].
  apply (provider_calls_bounded demo_codec demo_laws demo_text demo_cfg "t" y demo_sid demo_cfg_ok Hy).
Defined.

