(* ===== verification/Decimal.v ===== *)
(** * Decimal arithmetic

    Python's [decimal.Decimal] under the default context: 28 significant digits, results of [+]
    and [*] and of the division by 10000 rounded half-even, [quantize] with [ROUND_HALF_UP].  Only
    finite numbers occur in the modelled code; the sign of zero is not kept, since the code never
    distinguishes it, and exponents stay far inside the context's range. *)

From Stdlib Require Import ZArith Lia Bool QArith Qround Qpower Qabs Qminmax Lqa.
From stdpp Require Import base strings.
From S2P Require Import Prelude.
Open Scope Z_scope.
Open Scope rq_scope.

(** The number [mant * 10 ^ expo]. *)
Record dec := Dec { mant : Z; expo : Z }.

Definition prec : Z := 28.

Definition value (d : dec) : Q := (inject_Z (mant d) * Qpower 10 (expo d))%Q.

(** [len(str(n))] of a nonnegative integer. *)
Fixpoint count_digits (fuel : nat) (n : Z) : Z :=
  match fuel with
  | O => 1
  | S fuel => if n <? 10 then 1 else 1 + count_digits fuel (n / 10)
  end.

Definition ndigits (n : Z) : Z := count_digits (Z.to_nat (Z.log2 n)) n.

(** [|m| / 10^k] rounded to an integer, with the sign put back. *)
Definition half_even (m k : Z) : Z :=
  let q := Z.abs m / 10 ^ k in
  let r := Z.abs m mod 10 ^ k in
  Z.sgn m * (if 2 * r <? 10 ^ k then q
             else if 10 ^ k <? 2 * r then q + 1
             else if Z.even q then q else q + 1).

Definition half_up (m k : Z) : Z :=
  let q := Z.abs m / 10 ^ k in
  let r := Z.abs m mod 10 ^ k in
  Z.sgn m * (if 2 * r <? 10 ^ k then q else q + 1).

(** The context's rounding of an exact result. *)
Definition fix_prec (d : dec) : dec :=
  if Z.abs (mant d) <? 10 ^ prec then d
  else
    let k := ndigits (Z.abs (mant d)) - prec in
    let m := half_even (mant d) k in
    if Z.abs m <? 10 ^ prec then Dec m (expo d + k) else Dec (m / 10) (expo d + k + 1).

Definition of_Z (n : Z) : dec := Dec n 0.
Definition dzero : dec := Dec 0 0.
Definition done_ : dec := Dec 1 0.

Definition dmul (a b : dec) : dec := fix_prec (Dec (mant a * mant b) (expo a + expo b)).

(** The two mantissas at the smaller exponent. *)
Definition align (a b : dec) : Z * Z * Z :=
  let e := Z.min (expo a) (expo b) in
  (mant a * 10 ^ (expo a - e), mant b * 10 ^ (expo b - e), e).

Definition dadd (a b : dec) : dec :=
  let '(x, y, e) := align a b in fix_prec (Dec (x + y) e).
Definition dneg (a : dec) : dec := Dec (- mant a) (expo a).
Definition dsub (a b : dec) : dec := dadd a (dneg b).
Definition dabs (a : dec) : dec := fix_prec (Dec (Z.abs (mant a)) (expo a)).

(** [a / Decimal("10000")].  Python also drops trailing zeros of the coefficient until the exponent
    is that of [a]; the number is the same, and nothing in the code depends on its exponent. *)
Definition div_10000 (a : dec) : dec := fix_prec (Dec (mant a) (expo a - 4)).

(** [while exp < ideal and coeff % 10 == 0: coeff //= 10; exp += 1], [fuel] being [ideal - exp]. *)
Fixpoint drop_zeros (fuel : nat) (c e : Z) : Z * Z :=
  match fuel with
  | O => (c, e)
  | S fuel => if c mod 10 =? 0 then drop_zeros fuel (c / 10) (e + 1) else (c, e)
  end.

(** [a / n] for a positive integer [n]: one digit more than the precision, made sticky when the
    quotient is inexact, then rounded; an exact quotient has the exponent of [a] where it can. *)
Definition ddiv (a : dec) (n : Z) : dec :=
  let m := Z.abs (mant a) in
  let shift := ndigits n - ndigits m + prec + 1 in
  if m =? 0 then Dec 0 (expo a)
  else
    let num := if 0 <=? shift then m * 10 ^ shift else m in
    let den := if 0 <=? shift then n else n * 10 ^ (- shift) in
    let coeff := num / den in
    if num mod den =? 0 then
      let '(c, e) := drop_zeros (Z.to_nat shift) coeff (expo a - shift) in
      fix_prec (Dec (Z.sgn (mant a) * c) e)
    else
      let coeff := if coeff mod 5 =? 0 then coeff + 1 else coeff in
      fix_prec (Dec (Z.sgn (mant a) * coeff) (expo a - shift)).

Definition dcompare (a b : dec) : comparison := let '(x, y, _) := align a b in x ?= y.
Definition dleb (a b : dec) : bool := match dcompare a b with Gt => false | _ => true end.
Definition dltb (a b : dec) : bool := match dcompare a b with Lt => true | _ => false end.
Definition deqb (a b : dec) : bool := match dcompare a b with Eq => true | _ => false end.
(** [max(a, b)] keeps [a] unless [b] is greater. *)
Definition dmax (a b : dec) : dec := if dltb a b then b else a.

(** [a.quantize(q, rounding=ROUND_HALF_UP)]: only the exponent of [q] matters. *)
Definition quantize (a q : dec) : res dec :=
  let s := expo a - expo q in
  let m := if 0 <=? s then mant a * 10 ^ s else half_up (mant a) (- s) in
  if 10 ^ prec <=? Z.abs m
  then Err (Raise InvalidOperation "quantize result has too many digits for current context")
  else Ok (Dec m (expo q)).

(** ** Values *)

Definition pow10 (e : Z) : Q := Qpower 10 e.

Lemma pow10_pos e : (0 < pow10 e)%Q.
Proof. by apply Qpower_0_lt. Qed.

Lemma pow10_neq e : ~ (pow10 e == 0)%Q.
Proof. pose proof (pow10_pos e) as H. intros E. rewrite E in H. by apply Qlt_irrefl in H. Qed.

Lemma pow10_add e f : (pow10 (e + f) == pow10 e * pow10 f)%Q.
Proof. by apply Qpower_plus. Qed.

Lemma pow10_Z k : 0 <= k -> (inject_Z (10 ^ k) == pow10 k)%Q.
Proof. intros Hk. by rewrite Zpower_Qpower. Qed.

Lemma value_shift m k e : 0 <= k -> (value (Dec (m * 10 ^ k) e) == value (Dec m (e + k)))%Q.
Proof.
  intros Hk. unfold value. cbn [mant expo dneg of_Z]. rewrite inject_Z_mult, pow10_Z by done.
  fold (pow10 e) (pow10 (e + k)). rewrite pow10_add. ring.
Qed.

Lemma align_values a b : let '(x, y, e) := align a b in
  (value a == inject_Z x * pow10 e)%Q /\ (value b == inject_Z y * pow10 e)%Q.
Proof.
  unfold align. set (e := Z.min _ _). split.
  - pose proof (value_shift (mant a) (expo a - e) e ltac:(lia)) as H. replace (e + (expo a - e)) with (expo a) in H by lia.
    symmetry. by destruct a.
  - pose proof (value_shift (mant b) (expo b - e) e ltac:(lia)) as H. replace (e + (expo b - e)) with (expo b) in H by lia.
    symmetry. by destruct b.
Qed.

(** *** Comparison is comparison of values *)

Lemma inject_scaled x y e : (inject_Z x * pow10 e <= inject_Z y * pow10 e)%Q <-> x <= y.
Proof.
  rewrite Qmult_le_r by apply pow10_pos. rewrite <- Zle_Qle. done.
Qed.

Lemma dleb_le a b : dleb a b = true <-> (value a <= value b)%Q.
Proof.
  unfold dleb, dcompare. pose proof (align_values a b) as H. destruct (align a b) as [[x y] e].
  destruct H as [-> ->]. rewrite inject_scaled. unfold Z.le. by destruct (x ?= y).
Qed.

Lemma dltb_lt a b : dltb a b = true <-> (value a < value b)%Q.
Proof.
  unfold dltb, dcompare. pose proof (align_values a b) as H. destruct (align a b) as [[x y] e].
  destruct H as [-> ->]. rewrite Qmult_lt_r by apply pow10_pos. rewrite <- Zlt_Qlt. unfold Z.lt.
  by destruct (x ?= y).
Qed.

Lemma dltb_ge a b : dltb a b = false <-> (value b <= value a)%Q.
Proof.
  rewrite <- not_true_iff_false, dltb_lt. split; [apply Qnot_lt_le|apply Qle_not_lt].
Qed.

Lemma value_of_Z n : (value (of_Z n) == inject_Z n)%Q.
Proof. unfold value. cbn [mant expo dneg of_Z]. ring. Qed.

Lemma dmax_value a b : (value (dmax a b) == Qmax (value a) (value b))%Q.
Proof.
  unfold dmax. destruct (dltb a b) eqn:E.
  - apply dltb_lt in E. by rewrite Q.max_r by by apply Qlt_le_weak.
  - apply dltb_ge in E. by rewrite Q.max_l.
Qed.

(** *** Arithmetic is exact while the mantissa fits the precision *)

Lemma fix_fits d : Z.abs (mant d) < 10 ^ prec -> fix_prec d = d.
Proof. intros H. unfold fix_prec. by rewrite (proj2 (Z.ltb_lt _ _)). Qed.

Lemma dmul_exact a b : Z.abs (mant a * mant b) < 10 ^ prec ->
  dmul a b = Dec (mant a * mant b) (expo a + expo b) /\ (value (dmul a b) == value a * value b)%Q.
Proof.
  intros H. unfold dmul. rewrite fix_fits by done. split; [done|]. unfold value. cbn [mant expo dneg of_Z].
  rewrite inject_Z_mult. fold (pow10 (expo a + expo b)) (pow10 (expo a)) (pow10 (expo b)). rewrite pow10_add. ring.
Qed.

Lemma dadd_exact a b : let '(x, y, e) := align a b in Z.abs (x + y) < 10 ^ prec ->
  dadd a b = Dec (x + y) e /\ (value (dadd a b) == value a + value b)%Q.
Proof.
  unfold dadd. pose proof (align_values a b) as Hv. destruct (align a b) as [[x y] e]. intros H.
  rewrite fix_fits by done. split; [done|]. destruct Hv as [-> ->]. unfold value. cbn [mant expo dneg of_Z].
  rewrite inject_Z_plus. fold (pow10 e). ring.
Qed.

Lemma dabs_exact a : Z.abs (mant a) < 10 ^ prec -> (value (dabs a) == Qabs (value a))%Q.
Proof.
  intros H. unfold dabs. rewrite fix_fits by (cbn; lia). unfold value. cbn [mant expo dneg of_Z].
  rewrite Qabs_Qmult. rewrite (Qabs_pos (10 ^ expo a)) by (apply Qlt_le_weak, (pow10_pos (expo a))).
  by destruct (mant a).
Qed.

Lemma dneg_value a : (value (dneg a) == - value a)%Q.
Proof. unfold value. cbn [mant expo dneg of_Z]. rewrite inject_Z_opp. ring. Qed.

Lemma div_exact a : Z.abs (mant a) < 10 ^ prec ->
  div_10000 a = Dec (mant a) (expo a - 4) /\ (value (div_10000 a) == value a / 10000)%Q.
Proof.
  intros H. unfold div_10000. rewrite fix_fits by done. split; [done|]. unfold value. cbn [mant expo dneg of_Z].
  fold (pow10 (expo a - 4)) (pow10 (expo a)). replace (expo a - 4) with (expo a + -4) by lia. rewrite pow10_add.
  change (pow10 (-4)) with (1 # 10000). field.
Qed.

(** *** Rounding half up *)

(** The multiple of [10 ^ e] nearest to a nonnegative [x]; a tie goes up. *)
Definition nearest (e : Z) (x : Q) : Q := (inject_Z (Qfloor (x / pow10 e + (1 # 2))) * pow10 e)%Q.

#[local] Instance default_Qeq : SetoidTactics.DefaultRelation Qeq := {}.

#[export] Instance nearest_proper e : Proper (Qeq ==> Qeq) (nearest e).
Proof. intros x y Hxy. unfold nearest. by rewrite Hxy. Qed.

Lemma nearest_error e x : (x - (1 # 2) * pow10 e < nearest e x)%Q /\ (nearest e x <= x + (1 # 2) * pow10 e)%Q.
Proof.
  unfold nearest. pose proof (pow10_pos e) as Hp. set (y := (x / pow10 e + (1 # 2))%Q).
  assert (x == (y - (1 # 2)) * pow10 e)%Q as Hx by (unfold y; field; apply pow10_neq).
  pose proof (Qfloor_le y) as H1. pose proof (Qlt_floor y) as H2. rewrite inject_Z_plus in H2.
  rewrite Hx. set (f := inject_Z (Qfloor y)) in *.
  split.
  - setoid_replace ((y - (1 # 2)) * pow10 e - (1 # 2) * pow10 e)%Q with ((y - 1) * pow10 e)%Q by ring.
    apply Qmult_lt_r; [done|]. change (inject_Z 1) with 1%Q in H2. lra.
  - setoid_replace ((y - (1 # 2)) * pow10 e + (1 # 2) * pow10 e)%Q with (y * pow10 e)%Q by ring.
    by apply Qmult_le_r.
Qed.

Lemma nearest_mono e x y : (x <= y)%Q -> (nearest e x <= nearest e y)%Q.
Proof.
  intros H. unfold nearest. apply Qmult_le_r; [apply pow10_pos|]. rewrite <- Zle_Qle.
  apply Qfloor_resp_le. apply Qplus_le_l. apply Qmult_le_r; [apply Qinv_lt_0_compat, pow10_pos|done].
Qed.

Lemma floor_half n : Qfloor (inject_Z n + (1 # 2)) = n.
Proof.
  pose proof (Qfloor_le (inject_Z n + (1 # 2))) as H1. pose proof (Qlt_floor (inject_Z n + (1 # 2))) as H2.
  rewrite inject_Z_plus in H2. change (inject_Z 1) with 1%Q in H2.
  assert (inject_Z (Qfloor (inject_Z n + (1 # 2))) < inject_Z n + 1)%Q as H3 by lra.
  assert (inject_Z n < inject_Z (Qfloor (inject_Z n + (1 # 2))) + 1)%Q as H4 by lra.
  change 1%Q with (inject_Z 1) in H3, H4. rewrite <- inject_Z_plus, <- Zlt_Qlt in H3, H4. lia.
Qed.

(** A number already on the grid is not moved. *)
Lemma nearest_grid e n : (nearest e (inject_Z n * pow10 e) == inject_Z n * pow10 e)%Q.
Proof.
  unfold nearest.
  setoid_replace (inject_Z n * pow10 e / pow10 e + (1 # 2))%Q with (inject_Z n + (1 # 2))%Q
    by (field; apply pow10_neq).
  by rewrite floor_half.
Qed.

Lemma nearest_zero e : (nearest e 0 == 0)%Q.
Proof.
  setoid_replace 0%Q with (inject_Z 0 * pow10 e)%Q at 1 by (change (inject_Z 0) with 0%Q; ring).
  rewrite nearest_grid. change (inject_Z 0) with 0%Q. ring.
Qed.

Lemma nearest_nonneg e x : (0 <= x)%Q -> (0 <= nearest e x)%Q.
Proof. intros H. rewrite <- (nearest_zero e). by apply nearest_mono. Qed.

Lemma half_up_floor m k : 0 <= m -> 0 <= k -> half_up m k = (2 * m + 10 ^ k) / (2 * 10 ^ k).
Proof.
  intros Hm Hk. unfold half_up. assert (0 < 10 ^ k) as Hp by lia.
  destruct (decide (m = 0)) as [->|Hnz].
  - transitivity 0; [done|]. symmetry. apply Z.div_small. lia.
  - rewrite Z.sgn_pos, Z.abs_eq, Z.mul_1_l by lia.
    pose proof (Z.div_mod m (10 ^ k) ltac:(lia)) as Hdm. pose proof (Z.mod_pos_bound m (10 ^ k) Hp) as Hr.
    set (q := m / 10 ^ k) in *. set (r := m mod 10 ^ k) in *.
    destruct (2 * r <? 10 ^ k) eqn:E; bool_hyps.
    + apply (Z.div_unique_pos _ _ q (2 * r + 10 ^ k)); [lia|]. rewrite Hdm. ring.
    + apply (Z.div_unique_pos _ _ (q + 1) (2 * r - 10 ^ k)); [lia|]. rewrite Hdm. ring.
Qed.

(** The integer [quantize] computes. *)
Definition quantum_count (a q : dec) : Z := Qfloor (value a / pow10 (expo q) + (1 # 2)).

Lemma quantize_count a q : 0 <= mant a ->
  (let s := expo a - expo q in if 0 <=? s then mant a * 10 ^ s else half_up (mant a) (- s))
  = quantum_count a q.
Proof.
  intros Hm. cbv zeta. unfold quantum_count, value. fold (pow10 (expo a)).
  assert (pow10 (expo a) == pow10 (expo a - expo q) * pow10 (expo q))%Q as Hp.
  { rewrite <- pow10_add. by replace (expo a - expo q + expo q) with (expo a) by lia. }
  destruct (0 <=? expo a - expo q) eqn:E; bool_hyps.
  - assert (inject_Z (mant a) * pow10 (expo a) / pow10 (expo q) == inject_Z (mant a * 10 ^ (expo a - expo q)))%Q as ->.
    { rewrite Hp, inject_Z_mult, pow10_Z by done. field. apply pow10_neq. }
    by rewrite floor_half.
  - set (k := - (expo a - expo q)) in *. assert (0 < 10 ^ k) by (apply Z.pow_pos_nonneg; lia).
    rewrite half_up_floor, Zdiv_Qdiv by lia. apply Qfloor_comp.
    rewrite Hp. replace (expo a - expo q) with (- k) by lia.
    rewrite inject_Z_plus, !inject_Z_mult, pow10_Z by lia. unfold pow10 at 3. rewrite Qpower_opp. fold (pow10 k).
    change (inject_Z 2) with 2%Q. field. split; apply pow10_neq.
Qed.

(** [quantize] is rounding to the nearest multiple of the quantum's power of ten. *)
Lemma quantize_spec a q : 0 <= mant a ->
  (value a < inject_Z (10 ^ prec - 1) * pow10 (expo q))%Q ->
  exists r, quantize a q = Ok r /\ expo r = expo q /\ 0 <= mant r
    /\ (value r == nearest (expo q) (value a))%Q /\ mant r = quantum_count a q.
Proof.
  intros Hm Hlt. unfold quantize. rewrite quantize_count by done.
  assert (0 <= quantum_count a q) as Hnn.
  { apply Qfloor_resp_le with (x := 0%Q). apply Qle_trans with (value a / pow10 (expo q) + 0)%Q.
    - rewrite Qplus_0_r. apply Qle_shift_div_l; [apply pow10_pos|]. rewrite Qmult_0_l. unfold value.
      apply Qmult_le_0_compat; [change 0%Q with (inject_Z 0); by rewrite <- Zle_Qle|apply Qlt_le_weak, (pow10_pos (expo a))].
    - apply Qplus_le_r. done. }
  assert (quantum_count a q < 10 ^ prec) as Hbound.
  { rewrite Zlt_Qlt. pose proof (Qfloor_le (value a / pow10 (expo q) + (1 # 2))) as Hf. unfold quantum_count.
    eapply Qle_lt_trans; [exact Hf|].
    assert (value a / pow10 (expo q) < inject_Z (10 ^ prec - 1))%Q as Hv.
    { apply Qlt_shift_div_r; [apply pow10_pos|done]. }
    assert (inject_Z (10 ^ prec - 1) == inject_Z (10 ^ prec) - 1)%Q as Hi by reflexivity.
    rewrite Hi in Hv. lra. }
  rewrite (proj2 (Z.leb_gt _ _)) by lia. eexists. split; [done|]. cbn [mant expo]. split_and!; try done.
Qed.
