(* ===== verification/OrderCosts.v ===== *)
(** * Order execution costs ([src/rquant/order_execution_costs.py])

    The price an order is executed at and its fees: the plain calculator used by backtests
    ([calculate_order_execution_costs]) and the versioned one that research and paper trading share
    ([calculate_execution_costs]), with the contracts of [research_run_spec.py] it validates. *)

From Stdlib Require Import ZArith Lia Bool QArith Qpower Qabs Qminmax Lqa.
From stdpp Require Import base list strings.
From S2P Require Import Prelude Clock Decimal.
Open Scope Z_scope.
Open Scope rq_scope.

Inductive OrderSide := buy | sell.
Inductive FeeNotionalBasis := basis_reference | basis_executed.

#[export] Instance side_eq_dec : EqDecision OrderSide.
Proof. solve_decision. Defined.

Definition BPS_SCALE : dec := Dec 10000 0.
Definition DEFAULT_PRICE_TICK : dec := Dec 1 (-4).
Definition DEFAULT_MONEY_QUANTUM : dec := Dec 1 (-2).

Record OrderExecutionCosts := {
  oc_side : OrderSide; oc_quantity : Z; oc_reference_price : dec; oc_executed_price : dec;
  oc_reference_notional : dec; oc_executed_notional : dec; oc_commission : dec;
  oc_transfer_fee : dec; oc_stamp_duty : dec; oc_slippage_amount : dec; oc_fee_amount : dec;
  oc_total_cost : dec
}.

(** The checks for infinities and NaN hold of every [dec]. *)
Definition require_nonnegative (value : dec) (field_name : string) : res dec :=
  raise_if dltb value dzero as ValueError saying (field_name +:+ " must be finite and non-negative") ;;
  Ok value.

Definition quantize_to (value : dec) (quantum : option dec) : res dec :=
  match quantum with
  | None => Ok value
  | Some quantum =>
      raise_if dleb quantum dzero as ValueError saying "rounding quantum must be finite and positive" ;;
      quantize value quantum
  end.

(** [Decimal("1") + direction * slippage_bps / BPS_SCALE]. *)
Definition slippage_factor (side : OrderSide) (slippage_bps : dec) : dec :=
  let direction := match side with buy => Dec 1 0 | sell => Dec (-1) 0 end in
  dadd done_ (div_10000 (dmul direction slippage_bps)).

Definition calculate_slipped_price (reference_price : dec) (side : OrderSide) (slippage_bps : dec)
    (price_tick : option dec) : res dec :=
  raise_if dleb reference_price dzero as ValueError saying "reference_price must be finite and positive" ;;
  _ <~ require_nonnegative slippage_bps "slippage_bps" ;;
  raise_if dleb BPS_SCALE slippage_bps as ValueError saying "slippage_bps must be below 10000" ;;
  let executed := dmul reference_price (slippage_factor side slippage_bps) in
  raise_if dleb executed dzero as ValueError saying "slippage-adjusted execution price must be positive" ;;
  quantize_to executed price_tick.

Definition calculate_order_execution_costs (side : OrderSide) (reference_price : dec) (quantity : Z)
    (commission_rate minimum_commission transfer_fee_rate sell_stamp_duty_rate slippage_bps : dec)
    (fee_notional_basis : FeeNotionalBasis) (price_tick money_quantum : option dec)
    : res OrderExecutionCosts :=
  raise_if quantity <=? 0 as ValueError saying "quantity must be a positive integer" ;;
  _ <~ require_nonnegative commission_rate "commission_rate" ;;
  _ <~ require_nonnegative minimum_commission "minimum_commission" ;;
  _ <~ require_nonnegative transfer_fee_rate "transfer_fee_rate" ;;
  _ <~ require_nonnegative sell_stamp_duty_rate "sell_stamp_duty_rate" ;;
  raise_if dleb done_ commission_rate || dleb done_ transfer_fee_rate || dleb done_ sell_stamp_duty_rate
    as ValueError saying "order fee rates must be below one" ;;
  executed_price <~ calculate_slipped_price reference_price side slippage_bps price_tick ;;
  let reference_notional := dmul reference_price (of_Z quantity) in
  let executed_notional := dmul executed_price (of_Z quantity) in
  let fee_notional := match fee_notional_basis with
                      | basis_reference => reference_notional
                      | basis_executed => executed_notional
                      end in
  commission <~ quantize_to (dmax (dmul fee_notional commission_rate) minimum_commission) money_quantum ;;
  transfer_fee <~ quantize_to (dmul fee_notional transfer_fee_rate) money_quantum ;;
  stamp_duty <~ quantize_to (match side with
                             | sell => dmul fee_notional sell_stamp_duty_rate
                             | buy => dzero
                             end) money_quantum ;;
  slippage_amount <~ quantize_to (dabs (dsub executed_notional reference_notional)) money_quantum ;;
  let fee_amount := dadd (dadd commission transfer_fee) stamp_duty in
  Ok {| oc_side := side; oc_quantity := quantity; oc_reference_price := reference_price;
        oc_executed_price := executed_price; oc_reference_notional := reference_notional;
        oc_executed_notional := executed_notional; oc_commission := commission;
        oc_transfer_fee := transfer_fee; oc_stamp_duty := stamp_duty;
        oc_slippage_amount := slippage_amount; oc_fee_amount := fee_amount;
        oc_total_cost := dadd fee_amount slippage_amount |}.

(** ** The versioned cost contract ([src/rquant/research_run_spec.py]) *)

Inductive ExecutionCostApplicability := AP_BUY | AP_SELL | AP_BOTH.

(** Strings are already stripped, and scope values upper-cased. *)
Abbreviation scope := (string * string * string * string)%type.

Record InstrumentSelector := { is_selector_id : string; is_scope_key : scope }.

(** [ic_classification_provenance]: the reference record and generation identifiers. *)
Record InstrumentContext := {
  ic_ts_code : string; ic_scope_key : scope; ic_classification_provenance : option (string * string)
}.

Record ExecutionCostFeeRule := {
  fr_rule_id : string; fr_selector_id : string; fr_rate_bps : dec; fr_minimum_amount : dec;
  fr_applies_to : ExecutionCostApplicability
}.

(** [owner], [price_rounding] and [rounding] are literals with one value. *)
Record ExecutionCostSlippage := { sl_buy_bps : dec; sl_sell_bps : dec; sl_price_tick : dec }.
Record ExecutionCostMoney := { mo_quantum : dec }.

Record ExecutionCostOrderInput := { oi_side : OrderSide; oi_reference_price : dec; oi_quantity : Z }.

(** [cs_legacy_fields_set]: some legacy field is in [model_fields_set]; [cs_fee_notional_basis] and
    [cs_assessment_unit]: the literal is given, rather than [None]. *)
Record ExecutionCostSpec := {
  cs_schema_version : Z;
  cs_commission_bps : option dec; cs_stamp_duty_bps : option dec; cs_transfer_fee_bps : option dec;
  cs_slippage_bps : option dec; cs_minimum_commission : option dec;
  cs_legacy_fields_set : bool;
  cs_cost_engine_version : option string;
  cs_instrument_selectors : list InstrumentSelector;
  cs_commission_rules : list ExecutionCostFeeRule;
  cs_transfer_fee_rules : list ExecutionCostFeeRule;
  cs_stamp_duty_rules : list ExecutionCostFeeRule;
  cs_fee_notional_basis : bool; cs_assessment_unit : bool;
  cs_slippage : option ExecutionCostSlippage; cs_money : option ExecutionCostMoney;
  cs_cost_spec_id : option string;
  cs_research_notional_per_trade : option dec
}.

(** The fields [_v3_identity_payload] lists; the two literals are constant in a valid contract. *)
Abbreviation cost_identity := (option string * list InstrumentSelector * list ExecutionCostFeeRule
  * list ExecutionCostFeeRule * list ExecutionCostFeeRule * option ExecutionCostSlippage
  * option ExecutionCostMoney)%type.

(** The selector and the commission, transfer-fee and stamp-duty rules of a fill. *)
Abbreviation rule_ids := (string * string * string * string)%type.

(** SHA-256 of canonical JSON: of a cost contract, and of the context of one calculation. *)
Class CostDigest := {
  cost_sha256 : cost_identity -> string;
  cost_context_sha256 : string -> string -> OrderSide -> InstrumentContext -> rule_ids ->
                        ExecutionCostSlippage -> ExecutionCostMoney -> string
}.

(** Digests are 64 hexadecimal digits. *)
Class CostDigestLaws `{CostDigest} : Prop := {
  cost_sha256_hex : forall i, is_hex64 (cost_sha256 i) = true;
  cost_context_hex : forall i v s c r sl mo, is_hex64 (cost_context_sha256 i v s c r sl mo) = true
}.

Definition applies_to_side (rule : ExecutionCostFeeRule) (side : OrderSide) : bool :=
  match fr_applies_to rule, side with
  | AP_BOTH, _ | AP_BUY, buy | AP_SELL, sell => true
  | _, _ => false
  end.

(** [_decimal_components], as [_parse_decimal] uses it: at most 128 digits, and an exponent of
    magnitude at most 384 before and after trailing zeros are removed. *)
Fixpoint trailing_zeros (fuel : nat) (n : Z) : Z :=
  match fuel with
  | O => 0
  | S fuel => if n mod 10 =? 0 then 1 + trailing_zeros fuel (n / 10) else 0
  end.

Definition MAX_DECIMAL_COEFFICIENT_DIGITS : Z := 128.
Definition MAX_DECIMAL_ABS_EXPONENT : Z := 384.

Definition decimal_ok (d : dec) : bool :=
  let n := Z.abs (mant d) in
  (ndigits n <=? MAX_DECIMAL_COEFFICIENT_DIGITS) && (Z.abs (expo d) <=? MAX_DECIMAL_ABS_EXPONENT)
  && ((mant d =? 0)
      || (Z.abs (expo d + trailing_zeros (Z.to_nat (Z.log2 n)) n) <=? MAX_DECIMAL_ABS_EXPONENT)).

(** [Field(ge=0, lt=10_000)] and [Field(ge=0)]. *)
Definition bps_ok (d : dec) : bool := decimal_ok d && dleb dzero d && dltb d BPS_SCALE.

Definition rule_fields_ok (r : ExecutionCostFeeRule) : bool :=
  nonempty (fr_rule_id r) && nonempty (fr_selector_id r) && bps_ok (fr_rate_bps r)
  && decimal_ok (fr_minimum_amount r) && dleb dzero (fr_minimum_amount r).

(** [_validate_v3_rule_set]; [seen] are the rule ids met so far. *)
Fixpoint fresh_rule_ids (rules : list ExecutionCostFeeRule) (seen : list string) : res (list string) :=
  match rules with
  | [] => Ok seen
  | r :: rules =>
      raise_if bool_decide (fr_rule_id r ∈ seen)
        as ValueError saying "v3 execution cost rule_id values must be globally unique" ;;
      fresh_rule_ids rules (fr_rule_id r :: seen)
  end.

Definition validate_v3_rule_set (rules : list ExecutionCostFeeRule) (selectors : list InstrumentSelector)
    (component : string) (seen : list string) : res (list string) :=
  let selector_ids := map is_selector_id selectors in
  let rule_selector_ids := map fr_selector_id rules in
  raise_if negb (Nat.eqb (length rules) (length selectors))
    as ValueError saying ("v3 " +:+ component +:+ " rules must contain one rule per selector") ;;
  raise_if negb (bool_decide (rule_selector_ids ⊆ selector_ids)
                 && bool_decide (selector_ids ⊆ rule_selector_ids)
                 && bool_decide (NoDup rule_selector_ids))
    as ValueError saying ("v3 " +:+ component +:+ " rules must map one-to-one to selectors") ;;
  fresh_rule_ids rules seen.

Definition opt_all {A} (p : A -> bool) (o : option A) : bool :=
  match o with None => true | Some x => p x end.

(** [Field(default=None, ge=0, le=10_000)]. *)
Definition legacy_bps_ok (d : dec) : bool := decimal_ok d && dleb dzero d && dleb d BPS_SCALE.

Definition slippage_ok (s : ExecutionCostSlippage) : bool :=
  bps_ok (sl_buy_bps s) && bps_ok (sl_sell_bps s) && decimal_ok (sl_price_tick s) && dltb dzero (sl_price_tick s).

Definition positive_ok (d : dec) : bool := decimal_ok d && dltb dzero d.

Definition scope_ok (s : scope) : bool :=
  let '(a, b, c, d) := s in nonempty a && nonempty b && nonempty c && nonempty d.

(** The field constraints of a contract. *)
Definition spec_fields_ok (spec : ExecutionCostSpec) : bool :=
  bool_decide (cs_schema_version spec ∈ [1; 2; 3])
  && opt_all legacy_bps_ok (cs_commission_bps spec) && opt_all legacy_bps_ok (cs_stamp_duty_bps spec)
  && opt_all legacy_bps_ok (cs_transfer_fee_bps spec) && opt_all legacy_bps_ok (cs_slippage_bps spec)
  && opt_all (fun d => decimal_ok d && dleb dzero d) (cs_minimum_commission spec)
  && opt_all nonempty (cs_cost_engine_version spec)
  && forallb (fun s => nonempty (is_selector_id s) && scope_ok (is_scope_key s)) (cs_instrument_selectors spec)
  && forallb rule_fields_ok
       (cs_commission_rules spec ++ cs_transfer_fee_rules spec ++ cs_stamp_duty_rules spec)
  && opt_all slippage_ok (cs_slippage spec) && opt_all (fun m => positive_ok (mo_quantum m)) (cs_money spec)
  && opt_all is_hex64 (cs_cost_spec_id spec) && opt_all positive_ok (cs_research_notional_per_trade spec).

Definition has_v3_fields (spec : ExecutionCostSpec) : bool :=
  bool_decide (is_Some (cs_cost_engine_version spec)) || cs_fee_notional_basis spec || cs_assessment_unit spec
  || bool_decide (is_Some (cs_slippage spec)) || bool_decide (is_Some (cs_money spec))
  || bool_decide (is_Some (cs_cost_spec_id spec))
  || negb (bool_decide (cs_instrument_selectors spec = [])) || negb (bool_decide (cs_commission_rules spec = []))
  || negb (bool_decide (cs_transfer_fee_rules spec = [])) || negb (bool_decide (cs_stamp_duty_rules spec = [])).

(** The branch of schema versions 1 and 2. *)
Definition validate_legacy_contract (spec : ExecutionCostSpec) : res ExecutionCostSpec :=
  match cs_commission_bps spec, cs_stamp_duty_bps spec, cs_transfer_fee_bps spec, cs_slippage_bps spec,
        cs_minimum_commission spec with
  | Some commission, Some stamp, Some transfer, Some slippage, Some minimum =>
      raise_if has_v3_fields spec as ValueError saying "v1/v2 execution costs cannot carry v3 alignment fields" ;;
      let buy_total := dadd (dadd commission transfer) slippage in
      let sell_total := dadd buy_total stamp in
      raise_if dleb BPS_SCALE buy_total
        as ValueError saying "buy-side execution costs must total less than 10000 bps" ;;
      raise_if dleb BPS_SCALE sell_total
        as ValueError saying "sell-side execution costs must total less than 10000 bps" ;;
      raise_if (cs_schema_version spec =? 1)
               && (negb (deqb minimum dzero) || bool_decide (is_Some (cs_research_notional_per_trade spec)))
        as ValueError saying "v1 execution costs cannot carry notional fee fields" ;;
      raise_if dltb dzero minimum && negb (bool_decide (is_Some (cs_research_notional_per_trade spec)))
        as ValueError saying "minimum commission requires research notional per trade" ;;
      Ok spec
  | _, _, _, _, _ => Err (Raise ValueError "v1/v2 execution costs require all legacy fee fields")
  end.

Definition with_cost_spec_id (spec : ExecutionCostSpec) (id : string) : ExecutionCostSpec := {|
  cs_schema_version := cs_schema_version spec; cs_commission_bps := cs_commission_bps spec;
  cs_stamp_duty_bps := cs_stamp_duty_bps spec; cs_transfer_fee_bps := cs_transfer_fee_bps spec;
  cs_slippage_bps := cs_slippage_bps spec; cs_minimum_commission := cs_minimum_commission spec;
  cs_legacy_fields_set := cs_legacy_fields_set spec; cs_cost_engine_version := cs_cost_engine_version spec;
  cs_instrument_selectors := cs_instrument_selectors spec; cs_commission_rules := cs_commission_rules spec;
  cs_transfer_fee_rules := cs_transfer_fee_rules spec; cs_stamp_duty_rules := cs_stamp_duty_rules spec;
  cs_fee_notional_basis := cs_fee_notional_basis spec; cs_assessment_unit := cs_assessment_unit spec;
  cs_slippage := cs_slippage spec; cs_money := cs_money spec; cs_cost_spec_id := Some id;
  cs_research_notional_per_trade := cs_research_notional_per_trade spec |}.

Definition v3_identity_payload (spec : ExecutionCostSpec) : cost_identity :=
  (cs_cost_engine_version spec, cs_instrument_selectors spec, cs_commission_rules spec,
   cs_transfer_fee_rules spec, cs_stamp_duty_rules spec, cs_slippage spec, cs_money spec).

(** [ExecutionCostSpec.model_validate]: the field constraints, then [validate_versioned_contract],
    which fills in a missing [cost_spec_id]. *)
Definition validate_versioned_contract `{CostDigest} (spec : ExecutionCostSpec) : res ExecutionCostSpec :=
  let selectors := cs_instrument_selectors spec in
  raise_if negb (spec_fields_ok spec) as ValueError saying "field out of range" ;;
  if bool_decide (cs_schema_version spec ∈ [1; 2]) then validate_legacy_contract spec
  else
  raise_if cs_legacy_fields_set spec
    as ValueError saying "v3 execution costs cannot carry legacy scalar fee fields" ;;
  raise_if negb (bool_decide (is_Some (cs_cost_engine_version spec)) && cs_fee_notional_basis spec
                 && cs_assessment_unit spec && bool_decide (is_Some (cs_slippage spec))
                 && bool_decide (is_Some (cs_money spec)))
    as ValueError saying "v3 execution costs require complete shared cost configuration" ;;
  raise_if bool_decide (selectors = [])
    as ValueError saying "v3 execution costs require at least one instrument selector" ;;
  raise_if negb (bool_decide (NoDup (map is_selector_id selectors)))
    as ValueError saying "v3 instrument selector_id values must be unique" ;;
  raise_if negb (bool_decide (NoDup (map is_scope_key selectors)))
    as ValueError saying "v3 instrument selectors must be non-overlapping" ;;
  seen <~ validate_v3_rule_set (cs_commission_rules spec) selectors "commission" [] ;;
  seen <~ validate_v3_rule_set (cs_transfer_fee_rules spec) selectors "transfer fee" seen ;;
  _ <~ validate_v3_rule_set (cs_stamp_duty_rules spec) selectors "stamp duty" seen ;;
  let expected_cost_spec_id := cost_sha256 (v3_identity_payload spec) in
  match cs_cost_spec_id spec with
  | None => Ok (with_cost_spec_id spec expected_cost_spec_id)
  | Some id =>
      raise_if negb (eqs id expected_cost_spec_id)
        as ValueError saying "cost_spec_id does not match canonical v3 execution cost JSON" ;;
      Ok spec
  end.

Definition validate_order_input (o : ExecutionCostOrderInput) : res ExecutionCostOrderInput :=
  raise_if negb (positive_ok (oi_reference_price o) && (0 <? oi_quantity o))
    as ValueError saying "field out of range" ;;
  Ok o.

Definition validate_context (c : InstrumentContext) : res InstrumentContext :=
  raise_if negb (nonempty (ic_ts_code c) && scope_ok (ic_scope_key c)
                 && opt_all (fun p => is_hex64 (fst p) && is_hex64 (snd p)) (ic_classification_provenance c))
    as ValueError saying "instrument context values must be non-empty strings" ;;
  Ok c.

Record ExecutionCostCalculation := {
  ec_cost_spec_id : string; ec_cost_engine_version : string; ec_order_input : ExecutionCostOrderInput;
  ec_instrument_context : InstrumentContext;
  ec_executed_price : dec; ec_reference_notional : dec; ec_executed_notional : dec;
  ec_commission : dec; ec_transfer_fee : dec; ec_stamp_duty : dec; ec_slippage_amount : dec;
  ec_total_fees : dec; ec_selected_rule_ids : rule_ids; ec_cost_context_fingerprint : string
}.

(** The field constraints and [validate_component_sum]. *)
Definition mk_calculation (c : ExecutionCostCalculation) : res ExecutionCostCalculation :=
  let '(s, r1, r2, r3) := ec_selected_rule_ids c in
  raise_if negb (is_hex64 (ec_cost_spec_id c) && nonempty (ec_cost_engine_version c)
                 && dltb dzero (ec_executed_price c) && dltb dzero (ec_reference_notional c)
                 && dltb dzero (ec_executed_notional c) && dleb dzero (ec_commission c)
                 && dleb dzero (ec_transfer_fee c) && dleb dzero (ec_stamp_duty c)
                 && dleb dzero (ec_slippage_amount c) && dleb dzero (ec_total_fees c)
                 && is_hex64 (ec_cost_context_fingerprint c))
    as ValueError saying "field out of range" ;;
  raise_if negb (deqb (ec_total_fees c) (dadd (dadd (ec_commission c) (ec_transfer_fee c)) (ec_stamp_duty c)))
    as ValueError saying "execution total_fees must equal the rounded fee components" ;;
  raise_if negb (nonempty s && nonempty r1 && nonempty r2 && nonempty r3)
    as ValueError saying "execution cost calculation requires complete selected rule evidence" ;;
  Ok c.

Definition v3_fee_amount (rule : ExecutionCostFeeRule) (side : OrderSide) (executed_notional money_quantum : dec)
    : res dec :=
  if negb (applies_to_side rule side) then quantize_to dzero (Some money_quantum)
  else
    let raw_amount := div_10000 (dmul executed_notional (fr_rate_bps rule)) in
    quantize_to (dmax raw_amount (fr_minimum_amount rule)) (Some money_quantum).

Definition rule_for (rules : list ExecutionCostFeeRule) (selector : InstrumentSelector) (component : string)
    : res ExecutionCostFeeRule :=
  match select (fun r => eqs (fr_selector_id r) (is_selector_id selector)) rules with
  | [rule] => Ok rule
  | _ => Err (Raise ValueError ("v3 execution costs have ambiguous " +:+ component +:+ " rule selection"))
  end.

(** The fill's price, fees and evidence, once the contract's parts are unpacked. *)
Definition resolve_costs `{CostDigest} (spec : ExecutionCostSpec) (cost_spec_id cost_engine_version : string)
    (slippage : ExecutionCostSlippage) (money : ExecutionCostMoney) (order : ExecutionCostOrderInput)
    (context : InstrumentContext) (selector : InstrumentSelector) : res ExecutionCostCalculation :=
  commission_rule <~ rule_for (cs_commission_rules spec) selector "commission" ;;
  transfer_rule <~ rule_for (cs_transfer_fee_rules spec) selector "transfer fee" ;;
  stamp_rule <~ rule_for (cs_stamp_duty_rules spec) selector "stamp duty" ;;
  let slippage_bps := match oi_side order with buy => sl_buy_bps slippage | sell => sl_sell_bps slippage end in
  executed_price <~ quantize_to (dmul (oi_reference_price order) (slippage_factor (oi_side order) slippage_bps))
                      (Some (sl_price_tick slippage)) ;;
  raise_if dleb executed_price dzero
    as ValueError saying "slippage-adjusted execution price must be positive" ;;
  let reference_notional := dmul (oi_reference_price order) (of_Z (oi_quantity order)) in
  let executed_notional := dmul executed_price (of_Z (oi_quantity order)) in
  commission <~ v3_fee_amount commission_rule (oi_side order) executed_notional (mo_quantum money) ;;
  transfer_fee <~ v3_fee_amount transfer_rule (oi_side order) executed_notional (mo_quantum money) ;;
  stamp_duty <~ v3_fee_amount stamp_rule (oi_side order) executed_notional (mo_quantum money) ;;
  let selected_rule_ids := (is_selector_id selector, fr_rule_id commission_rule,
                            fr_rule_id transfer_rule, fr_rule_id stamp_rule) in
  slippage_amount <~ quantize_to (dabs (dsub executed_notional reference_notional)) (Some (mo_quantum money)) ;;
  mk_calculation {| ec_cost_spec_id := cost_spec_id; ec_cost_engine_version := cost_engine_version;
    ec_order_input := order; ec_instrument_context := context;
    ec_executed_price := executed_price; ec_reference_notional := reference_notional;
    ec_executed_notional := executed_notional; ec_commission := commission;
    ec_transfer_fee := transfer_fee; ec_stamp_duty := stamp_duty; ec_slippage_amount := slippage_amount;
    ec_total_fees := dadd (dadd commission transfer_fee) stamp_duty;
    ec_selected_rule_ids := selected_rule_ids;
    ec_cost_context_fingerprint := cost_context_sha256 cost_spec_id cost_engine_version (oi_side order)
                                     context selected_rule_ids slippage money |}.

Definition calculate_execution_costs `{CostDigest} (spec : ExecutionCostSpec) (order_input : ExecutionCostOrderInput)
    (instrument_context : InstrumentContext) : res ExecutionCostCalculation :=
  validated_spec <~ validate_versioned_contract spec ;;
  raise_if negb (cs_schema_version validated_spec =? 3)
    as ValueError saying "only v3 execution costs are eligible for shared alignment" ;;
  order <~ validate_order_input order_input ;;
  context <~ validate_context instrument_context ;;
  match cs_cost_spec_id validated_spec, cs_cost_engine_version validated_spec, cs_slippage validated_spec,
        cs_money validated_spec with
  | Some cost_spec_id, Some cost_engine_version, Some slippage, Some money =>
      match select (fun s => bool_decide (is_scope_key s = ic_scope_key context))
              (cs_instrument_selectors validated_spec) with
      | [] => Err (Raise ValueError "v3 execution costs have no matching instrument selector")
      | [selector] =>
          resolve_costs validated_spec cost_spec_id cost_engine_version slippage money order context selector
      | _ => Err (Raise ValueError "v3 execution costs have ambiguous instrument selectors")
      end
  | _, _, _, _ => Err (Raise AssertionError "")
  end.

(** ** Exact results

    For orders of ordinary size every intermediate result fits the 28 digits, so the calculators
    compute the rational formulas below, rounded once per amount. *)

Lemma value_nonneg d : 0 <= mant d -> (0 <= value d)%Q.
Proof.
  intros H. unfold value. apply Qmult_le_0_compat; [|apply Qlt_le_weak, (pow10_pos (expo d))].
  change 0%Q with (inject_Z 0). by rewrite <- Zle_Qle.
Qed.

Lemma value_pos d : (0 < value d)%Q <-> 0 < mant d.
Proof.
  unfold value. fold (pow10 (expo d)). rewrite <- (Qmult_0_l (pow10 (expo d))) at 1.
  rewrite Qmult_lt_r by apply pow10_pos. change 0%Q with (inject_Z 0). by rewrite <- Zlt_Qlt.
Qed.

Lemma mant_nonneg d : (0 <= value d)%Q -> 0 <= mant d.
Proof.
  intros H. destruct (Z.lt_ge_cases (mant d) 0) as [Hn|]; [|done]. exfalso.
  unfold value in H. fold (pow10 (expo d)) in H. pose proof (pow10_pos (expo d)).
  assert (inject_Z (mant d) < 0)%Q by (change 0%Q with (inject_Z 0); by rewrite <- Zlt_Qlt). nra.
Qed.

(** A mantissa from a bound on the value, and back. *)
Lemma mant_bound d k B : 0 <= k -> - k <= expo d -> (value d < inject_Z B)%Q -> mant d < B * 10 ^ k \/ mant d < 0.
Proof.
  intros Hk He Hv. destruct (Z.lt_ge_cases (mant d) 0) as [|Hm]; [by right|left].
  rewrite Zlt_Qlt, inject_Z_mult, pow10_Z by done. unfold value in Hv. fold (pow10 (expo d)) in Hv.
  assert (pow10 (-k) <= pow10 (expo d))%Q as Hp by by apply Qpower_le_compat_l.
  assert (pow10 (-k) * pow10 k == 1)%Q as Hi by (rewrite <- pow10_add; by replace (-k + k) with 0 by lia).
  pose proof (pow10_pos k). pose proof (pow10_pos (-k)).
  assert (0 <= inject_Z (mant d))%Q by (change 0%Q with (inject_Z 0); by rewrite <- Zle_Qle).
  assert (inject_Z (mant d) * pow10 (-k) < inject_Z B)%Q by nra.
  setoid_replace (inject_Z (mant d)) with (inject_Z (mant d) * pow10 (-k) * pow10 k)%Q
    using relation Qeq by (rewrite <- Qmult_assoc, Hi; ring).
  by apply Qmult_lt_r.
Qed.

Lemma value_bound d M : 0 <= mant d < M -> expo d <= 0 -> (value d < inject_Z M)%Q.
Proof.
  intros [H0 HM] He. unfold value. fold (pow10 (expo d)).
  assert (pow10 (expo d) <= 1)%Q as Hp by (change 1%Q with (pow10 0); by apply Qpower_le_compat_l).
  assert (0 <= inject_Z (mant d))%Q by (change 0%Q with (inject_Z 0); by rewrite <- Zle_Qle).
  assert (inject_Z (mant d) < inject_Z M)%Q by by rewrite <- Zlt_Qlt.
  pose proof (pow10_pos (expo d)). nra.
Qed.

(** A nonnegative decimal below [B] with at most [k] decimals. *)
Record within (k B : Z) (d : dec) : Prop := {
  wi_sign : 0 <= mant d; wi_expo : - k <= expo d <= 0; wi_value : (value d < inject_Z B)%Q
}.

Lemma within_mant k B d : 0 <= k -> within k B d -> 0 <= mant d < B * 10 ^ k.
Proof.
  intros Hk [Hs He Hv]. destruct (mant_bound d k B Hk) as [H|H]; [lia|done| |]; lia.
Qed.

Lemma mul_within k j A B a b : 0 <= k -> 0 <= j -> within k A a -> within j B b ->
  (A * 10 ^ k) * (B * 10 ^ j) <= 10 ^ prec ->
  within (k + j) (A * B) (dmul a b) /\ (value (dmul a b) == value a * value b)%Q.
Proof.
  intros Hk Hj Wa Wb Hp. pose proof (within_mant _ _ _ Hk Wa) as Ma. pose proof (within_mant _ _ _ Hj Wb) as Mb.
  assert (0 <= mant a * mant b < 10 ^ prec) as Hm by (split; [nia|]; eapply Z.lt_le_trans; [|exact Hp]; nia).
  destruct (dmul_exact a b) as [E V]; [lia|]. split; [|exact V]. destruct Wa as [Sa Ea Va], Wb as [Sb Eb Vb].
  constructor; [rewrite E; cbn; lia|rewrite E; cbn; lia|]. rewrite V, inject_Z_mult.
  pose proof (value_nonneg a Sa). pose proof (value_nonneg b Sb). nra.
Qed.

Lemma add_within k A B a b : 0 <= k -> within k A a -> within k B b -> (A + B) * 10 ^ k <= 10 ^ prec ->
  within k (A + B) (dadd a b) /\ (value (dadd a b) == value a + value b)%Q.
Proof.
  intros Hk Wa Wb Hp. destruct Wa as [Sa Ea Va], Wb as [Sb Eb Vb].
  pose proof (align_values a b) as Hv. pose proof (dadd_exact a b) as Hd.
  assert (let '(x, y, e) := align a b in 0 <= x /\ 0 <= y /\ - k <= e <= 0) as Hxy by (unfold align; nia).
  destruct (align a b) as [[x y] e]. destruct Hv as [Hva Hvb]. destruct Hxy as (Hx & Hy & He).
  assert (x + y < 10 ^ prec) as Hlt.
  { destruct (mant_bound (Dec (x + y) e) k (A + B)) as [H|H]; cbn [mant expo] in *; try lia.
    unfold value. cbn [mant expo]. fold (pow10 e). rewrite !inject_Z_plus. lra. }
  destruct Hd as [E V]; [lia|]. split; [|exact V].
  constructor; [rewrite E; cbn; lia|rewrite E; cbn; lia|]. rewrite V, inject_Z_plus. lra.
Qed.

(** The absolute difference. *)
Lemma sub_within k A a b : 0 <= k -> within k A a -> within k A b -> A * 10 ^ k <= 10 ^ prec ->
  within k A (dabs (dsub a b)) /\ (value (dabs (dsub a b)) == Qabs (value a - value b))%Q.
Proof.
  intros Hk Wa Wb Hp. destruct Wa as [Sa Ea Va], Wb as [Sb Eb Vb].
  pose proof (align_values a (dneg b)) as Hv. pose proof (dadd_exact a (dneg b)) as Hd. unfold dsub.
  assert (let '(x, y, e) := align a (dneg b) in 0 <= x /\ y <= 0 /\ - k <= e <= 0) as Hxy by (unfold align; cbn; nia).
  destruct (align a (dneg b)) as [[x y] e]. destruct Hv as [Hva Hvb]. destruct Hxy as (Hx & Hy & He).
  assert (x < A * 10 ^ k /\ - y < A * 10 ^ k) as [Hxb Hyb].
  { split.
    - destruct (mant_bound (Dec x e) k A) as [H|H]; cbn [mant expo] in *; try lia.
      unfold value. cbn [mant expo]. fold (pow10 e). lra.
    - destruct (mant_bound (Dec (- y) e) k A) as [H|H]; cbn [mant expo] in *; try lia.
      unfold value. cbn [mant expo]. fold (pow10 e). rewrite dneg_value in Hvb. rewrite inject_Z_opp. lra. }
  destruct Hd as [E V]; [lia|]. assert (Z.abs (mant (dadd a (dneg b))) < 10 ^ prec) as Hm by (rewrite E; cbn; lia).
  pose proof (dabs_exact _ Hm) as Va'. assert (value (dadd a (dneg b)) == value a - value b)%Q as Vs
    by (rewrite V, dneg_value; ring).
  rewrite Vs in Va'. split; [|exact Va'].
  assert (dabs (dadd a (dneg b)) = Dec (Z.abs (x + y)) e) as Ed.
  { unfold dabs. rewrite E. cbn [mant expo]. apply fix_fits. cbn. lia. }
  constructor; [rewrite Ed; cbn; lia|rewrite Ed; cbn; lia|]. rewrite Va'.
  pose proof (value_nonneg a Sa). pose proof (value_nonneg b Sb). apply Qabs_case; lra.
Qed.

(** Rounding to a positive quantum. *)
Lemma quantize_within k B d q : 0 <= k -> within k B d \/ (0 <= mant d /\ (value d < inject_Z B)%Q) ->
  0 < mant q -> - 6 <= expo q <= 0 -> 0 < B < 10 ^ 21 ->
  exists r, quantize_to d (Some q) = Ok r /\ (value r == nearest (expo q) (value d))%Q
    /\ within 6 (B + 1) r.
Proof.
  intros Hk Wd Hq He HB. assert (0 <= mant d /\ (value d < inject_Z B)%Q) as [Hs Hv] by (destruct Wd as [[]|]; done).
  unfold quantize_to. assert (dleb q dzero = false) as ->.
  { apply not_true_iff_false. rewrite dleb_le. apply Qlt_not_le.
    change (value dzero) with (0 * 1)%Q. rewrite Qmult_0_l. by apply value_pos. }
  assert (inject_Z B <= inject_Z (10 ^ prec - 1) * pow10 (expo q))%Q as Hlim.
  { assert (pow10 (-6) <= pow10 (expo q))%Q as Hp by (apply Qpower_le_compat_l; [lia|done]).
    assert (inject_Z B <= inject_Z (10 ^ 21))%Q by (rewrite <- Zle_Qle; lia).
    assert (inject_Z (10 ^ 21) <= inject_Z (10 ^ prec - 1) * pow10 (-6))%Q by (vm_compute; discriminate).
    assert (0 <= inject_Z (10 ^ prec - 1))%Q by (vm_compute; discriminate).
    eapply Qle_trans; [eassumption|]. eapply Qle_trans; [eassumption|].
    rewrite !(Qmult_comm (inject_Z (10 ^ prec - 1))). by apply Qmult_le_compat_r. }
  destruct (quantize_spec d q Hs) as (r & -> & Er & Hr & Hv' & _); [eapply Qlt_le_trans; [exact Hv|exact Hlim]|].
  exists r. split; [done|]. split; [done|]. constructor; [done|lia|]. rewrite Hv', inject_Z_plus.
  destruct (nearest_error (expo q) (value d)) as [_ Hn]. eapply Qle_lt_trans; [exact Hn|].
  assert (pow10 (expo q) <= 1)%Q by (change 1%Q with (pow10 0); apply Qpower_le_compat_l; [lia|done]).
  change (inject_Z 1) with 1%Q. lra.
Qed.

Lemma within_weaken k k' B B' d : k <= k' -> B <= B' -> within k B d -> within k' B' d.
Proof.
  intros Hk HB [Hs He Hv]. constructor; [done|lia|]. eapply Qlt_le_trans; [exact Hv|]. by rewrite <- Zle_Qle.
Qed.

Lemma within_nonneg k B d : within k B d -> dltb d dzero = false.
Proof.
  intros [Hs _ _]. apply dltb_ge. change (value dzero) with (0 * 1)%Q. rewrite Qmult_0_l. by apply value_nonneg.
Qed.

Lemma of_Z_within q B : 0 <= q < B -> within 0 B (of_Z q).
Proof. intros H. constructor; cbn; [lia|lia|]. rewrite value_of_Z, <- Zlt_Qlt. lia. Qed.

(** The rational price the slippage asks for. *)
Definition slipped (side : OrderSide) (p bps : Q) : Q :=
  match side with
  | buy => (p * (1 + bps / 10000))%Q
  | sell => (p * (1 - bps / 10000))%Q
  end.

Lemma factor_within side bps : within 4 10000 bps ->
  within 8 2 (slippage_factor side bps) /\ (0 < value (slippage_factor side bps))%Q
  /\ forall p, (p * value (slippage_factor side bps) == slipped side p (value bps))%Q.
Proof.
  intros W. pose proof (within_mant 4 10000 bps ltac:(lia) W) as Hm. destruct W as [Hs He Hv].
  change (10000 * 10 ^ 4) with 100000000 in Hm. unfold slippage_factor.
  set (direction := match side with buy => _ | sell => _ end).
  assert (Z.abs (mant direction * mant bps) = mant bps) as Hab by (unfold direction; destruct side; cbn [mant]; lia).
  destruct (dmul_exact direction bps) as [E1 V1]; [rewrite Hab; unfold prec; lia|].
  destruct (div_exact (dmul direction bps)) as [E2 V2]; [rewrite E1; cbn [mant]; rewrite Hab; unfold prec; lia|].
  rewrite V1 in V2. set (d := div_10000 (dmul direction bps)) in *.
  assert (expo d = expo bps - 4 /\ Z.abs (mant d) = mant bps) as [Hed Hmd].
  { rewrite E2, E1. cbn [mant expo]. split; [|done]. unfold direction. destruct side; cbn [expo]; lia. }
  assert (mant bps < 10 ^ (4 - expo bps)) as Hlt.
  { rewrite Zlt_Qlt, pow10_Z by lia. unfold value in Hv. fold (pow10 (expo bps)) in Hv.
    replace (4 - expo bps) with (4 + - expo bps) by lia. rewrite pow10_add. change (pow10 4) with (inject_Z 10000).
    assert (pow10 (expo bps) * pow10 (- expo bps) == 1)%Q as Hi
      by (rewrite <- pow10_add; by replace (expo bps + - expo bps) with 0 by lia).
    pose proof (pow10_pos (- expo bps)).
    setoid_replace (inject_Z (mant bps)) with (inject_Z (mant bps) * pow10 (expo bps) * pow10 (- expo bps))%Q
      using relation Qeq by (rewrite <- Qmult_assoc, Hi; ring).
    by apply Qmult_lt_r. }
  assert (10 ^ (4 - expo bps) <= 10 ^ 8) as Hpow by (apply Z.pow_le_mono_r; lia).
  change (10 ^ 8) with 100000000 in Hpow.
  pose proof (dadd_exact done_ d) as Hadd. unfold align in Hadd. cbn [mant expo done_] in Hadd. rewrite Hed in Hadd.
  replace (Z.min 0 (expo bps - 4)) with (expo bps - 4) in Hadd by lia.
  replace (0 - (expo bps - 4)) with (4 - expo bps) in Hadd by lia.
  replace (expo bps - 4 - (expo bps - 4)) with 0 in Hadd by lia. rewrite Z.pow_0_r, Z.mul_1_l, Z.mul_1_r in Hadd.
  destruct Hadd as [E3 V3]; [unfold prec; lia|].
  assert (value (dadd done_ d) == match side with buy => 1 + value bps / 10000 | sell => 1 - value bps / 10000 end)%Q as V.
  { rewrite V3, V2. change (value done_) with (1 * 1)%Q. unfold direction.
    destruct side; [change (value (Dec 1 0)) with (1 * 1)%Q|change (value (Dec (-1) 0)) with (-1 * 1)%Q]; field. }
  pose proof (value_nonneg bps Hs). change (inject_Z 10000) with 10000%Q in Hv.
  assert (value bps == (value bps / 10000) * 10000)%Q as Hb by field. set (b := (value bps / 10000)%Q) in *.
  split_and!.
  - constructor; [rewrite E3; cbn [mant]; lia|rewrite E3; cbn [expo]; lia|].
    rewrite V. change (inject_Z 2) with 2%Q. destruct side; lra.
  - rewrite V. destruct side; lra.
  - intros p. rewrite V. unfold slipped. fold b. by destruct side.
Qed.

(** The hypotheses on a price: positive, at most four decimals, below a million. *)
Definition price_ok (p : dec) : Prop := within 4 1000000 p /\ 0 < mant p.
Definition quantum_ok (q : dec) : Prop := 0 < mant q /\ - 6 <= expo q <= 0.

Lemma executed_within side p bps tick : price_ok p -> within 4 10000 bps -> quantum_ok tick ->
  let executed := dmul p (slippage_factor side bps) in
  0 < mant executed
  /\ exists r, quantize_to executed (Some tick) = Ok r /\ within 6 2000001 r
       /\ (value r == nearest (expo tick) (slipped side (value p) (value bps)))%Q.
Proof.
  intros [Wp Hp] Wb [Hq He]. destruct (factor_within side bps Wb) as (Wf & Hf & Vf). cbv zeta.
  destruct (mul_within 4 8 1000000 2 p (slippage_factor side bps)) as [We Ve]; [lia|lia|done|done|vm_compute; discriminate|].
  set (executed := dmul p (slippage_factor side bps)) in *. change (1000000 * 2) with 2000000 in We.
  split.
  - apply value_pos. rewrite Ve. apply value_pos in Hp. nra.
  - destruct (quantize_within (4 + 8) 2000000 executed tick) as (r & Hr & Vr & Wr); try done; [by left|].
    exists r. split_and!; try done. by rewrite Vr, Ve, Vf.
Qed.

Lemma slipped_price_ok side p bps tick : price_ok p -> within 4 10000 bps -> quantum_ok tick ->
  exists r, calculate_slipped_price p side bps (Some tick) = Ok r /\ within 6 2000001 r
    /\ (value r == nearest (expo tick) (slipped side (value p) (value bps)))%Q.
Proof.
  intros Hp Wb Ht. destruct (executed_within side p bps tick Hp Wb Ht) as (He & r & Hr & Wr & Vr).
  exists r. split_and!; try done. unfold calculate_slipped_price, require_nonnegative.
  assert (forall d, 0 < mant d -> dleb d dzero = false) as Hpos.
  { intros d Hd. apply not_true_iff_false. rewrite dleb_le. apply Qlt_not_le.
    change (value dzero) with (0 * 1)%Q. rewrite Qmult_0_l. by apply value_pos. }
  rewrite (Hpos p), (within_nonneg _ _ _ Wb), (Hpos _ He) by apply Hp. cbn [rbind].
  assert (dleb BPS_SCALE bps = false) as ->; [|done].
  apply not_true_iff_false. rewrite dleb_le. apply Qlt_not_le.
  change (value BPS_SCALE) with (inject_Z 10000 * 1)%Q. rewrite Qmult_1_r. apply Wb.
Qed.

(** A bound on every notional amount of such orders. *)
Definition N : Z := 200000100000000.

Definition quantity_ok (q : Z) : Prop := 0 < q < 100000000.

Lemma notional_within B k p q : within k B p -> quantity_ok q -> 0 <= k <= 6 -> 0 <= B <= 2000001 ->
  within 6 N (dmul p (of_Z q)) /\ (value (dmul p (of_Z q)) == value p * inject_Z q)%Q.
Proof.
  intros W Hq Hk HB.
  destruct (mul_within k 0 B 100000000 p (of_Z q)) as [Wn Vn]; [lia|lia|done|apply of_Z_within; unfold quantity_ok in Hq; lia| |].
  - rewrite Z.pow_0_r, Z.mul_1_r. assert (10 ^ k <= 10 ^ 6) by (apply Z.pow_le_mono_r; lia).
    change (10 ^ 6) with 1000000 in *. change (10 ^ prec) with 10000000000000000000000000000.
    assert (0 < 10 ^ k) by (apply Z.pow_pos_nonneg; lia). nia.
  - split; [|by rewrite Vn, value_of_Z]. eapply within_weaken; [| |exact Wn]; unfold N; lia.
Qed.

Lemma raw_fee_within n rate : within 6 N n -> within 7 1 rate ->
  0 <= mant (dmul n rate) /\ (value (dmul n rate) < inject_Z N)%Q /\ (value (dmul n rate) == value n * value rate)%Q.
Proof.
  intros Wn Wr. destruct (mul_within 6 7 N 1 n rate) as [W V]; [lia|lia|done|done|vm_compute; discriminate|].
  destruct W as [Hs _ Hv]. rewrite Z.mul_1_r in Hv. done.
Qed.

Lemma max_bound a b B : 0 <= mant a /\ (value a < inject_Z B)%Q -> 0 <= mant b /\ (value b < inject_Z B)%Q ->
  0 <= mant (dmax a b) /\ (value (dmax a b) < inject_Z B)%Q.
Proof. intros Ha Hb. unfold dmax. by destruct (dltb a b). Qed.

Lemma fees_sum a b c B : within 6 B a -> within 6 B b -> within 6 B c -> 0 < B < 10 ^ 20 ->
  within 6 (B + B + B) (dadd (dadd a b) c) /\ (value (dadd (dadd a b) c) == value a + value b + value c)%Q.
Proof.
  intros Wa Wb Wc HB. change (10 ^ 20) with 100000000000000000000 in HB.
  destruct (add_within 6 B B a b) as [W1 V1]; [lia|done|done|change (10 ^ prec) with 10000000000000000000000000000; lia|].
  destruct (add_within 6 (B + B) B (dadd a b) c) as [W2 V2]; [lia|done|done|change (10 ^ prec) with 10000000000000000000000000000; lia|].
  split; [done|]. by rewrite V2, V1.
Qed.

Definition rate_ok (r : dec) : Prop := within 7 1 r.

Lemma rate_below_one r : rate_ok r -> dleb done_ r = false.
Proof.
  intros W. apply not_true_iff_false. rewrite dleb_le. apply Qlt_not_le.
  change (value done_) with (inject_Z 1 * 1)%Q. rewrite Qmult_1_r. apply W.
Qed.

(** C35: for orders of ordinary size (a price below a million with at most four decimals, fewer
    than 10^8 shares, rates with at most seven decimals) the decimal calculator computes the
    rational formulas: the slipped price rounded half up to the tick, and the commission with its
    minimum, the transfer fee, the stamp duty on sells only and the slippage each rounded half up
    to the money quantum; the total is their exact sum.  In particular it raises no exception and
    28 digits lose nothing. *)
Theorem order_costs_exact side p q cr mc tr sr bps basis tick quantum :
  price_ok p -> quantity_ok q -> rate_ok cr -> within 6 10000000000 mc -> rate_ok tr -> rate_ok sr ->
  within 4 10000 bps -> quantum_ok tick -> quantum_ok quantum ->
  let executed := nearest (expo tick) (slipped side (value p) (value bps)) in
  let notional := match basis with
                  | basis_reference => value p * inject_Z q
                  | basis_executed => executed * inject_Z q
                  end%Q in
  let money := nearest (expo quantum) in
  exists c, calculate_order_execution_costs side p q cr mc tr sr bps basis (Some tick) (Some quantum) = Ok c
    /\ (value (oc_executed_price c) == executed)%Q
    /\ (value (oc_commission c) == money (Qmax (notional * value cr) (value mc)))%Q
    /\ (value (oc_transfer_fee c) == money (notional * value tr)%Q)%Q
    /\ (value (oc_stamp_duty c) == match side with buy => 0 | sell => money (notional * value sr)%Q end)%Q
    /\ (value (oc_slippage_amount c) == money (Qabs (executed * inject_Z q - value p * inject_Z q)))%Q
    /\ (value (oc_total_cost c) == value (oc_commission c) + value (oc_transfer_fee c)
          + value (oc_stamp_duty c) + value (oc_slippage_amount c))%Q.
Proof.
  intros Hp Hq Hcr Wmc Htr Hsr Wb Ht Hm executed notional money.
  unfold calculate_order_execution_costs, require_nonnegative.
  rewrite (proj2 (Z.leb_gt _ _)) by (unfold quantity_ok in Hq; lia).
  rewrite (within_nonneg _ _ _ Hcr), (within_nonneg _ _ _ Wmc), (within_nonneg _ _ _ Htr), (within_nonneg _ _ _ Hsr).
  rewrite !rate_below_one by done. cbn [rbind orb].
  destruct (slipped_price_ok side p bps tick Hp Wb Ht) as (ep & -> & Wep & Vep). cbn [rbind].
  destruct (notional_within 2000001 6 ep q Wep Hq) as [Wen Ven]; [lia|lia|].
  destruct (notional_within 1000000 4 p q (proj1 Hp) Hq) as [Wrn Vrn]; [lia|lia|].
  set (fn := match basis with basis_reference => _ | basis_executed => _ end).
  assert (within 6 N fn /\ (value fn == notional)%Q) as [Wfn Vfn].
  { unfold fn, notional. destruct basis; [done|]. split; [done|]. by rewrite Ven, Vep. }
  destruct (raw_fee_within fn cr Wfn Hcr) as (Sc & Bc & Vc).
  destruct (raw_fee_within fn tr Wfn Htr) as (St & Bt & Vt).
  destruct (raw_fee_within fn sr Wfn Hsr) as (Ss & Bs & Vs).
  assert (0 <= mant mc /\ (value mc < inject_Z N)%Q) as Bmc.
  { split; [apply Wmc|]. eapply Qlt_le_trans; [apply Wmc|]. vm_compute. discriminate. }
  destruct Hm as [Hm1 Hm2]. assert (0 < N < 10 ^ 21) as HN by (vm_compute; done).
  destruct (quantize_within 6 N (dmax (dmul fn cr) mc) quantum) as (c1 & -> & V1 & W1); try done; [right; by apply max_bound|].
  destruct (quantize_within 6 N (dmul fn tr) quantum) as (c2 & -> & V2 & W2); try done; [by right|].
  set (sd := match side with buy => _ | sell => _ end).
  assert (0 <= mant sd /\ (value sd < inject_Z N)%Q) as Bsd.
  { unfold sd. destruct side; [|done]. split; [done|]. vm_compute. done. }
  destruct (quantize_within 6 N sd quantum) as (c3 & -> & V3 & W3); try done; [by right|].
  assert (N * 10 ^ 6 <= 10 ^ prec) as HN6 by (vm_compute; discriminate).
  destruct (sub_within 6 N (dmul ep (of_Z q)) (dmul p (of_Z q)) ltac:(lia) Wen Wrn HN6) as [Wsl Vsl].
  destruct (quantize_within 6 N (dabs (dsub (dmul ep (of_Z q)) (dmul p (of_Z q)))) quantum) as (c4 & -> & V4 & W4); try done; [by left|].
  cbn [rbind]. eexists. split; [reflexivity|].
  cbn [oc_executed_price oc_commission oc_transfer_fee oc_stamp_duty oc_slippage_amount oc_total_cost].
  split_and!.
  - exact Vep.
  - rewrite V1, dmax_value, Vc, Vfn. reflexivity.
  - rewrite V2, Vt, Vfn. reflexivity.
  - rewrite V3. unfold sd. destruct side; [change (value dzero) with (0 * 1)%Q; by rewrite Qmult_0_l, nearest_zero|].
    rewrite Vs, Vfn. reflexivity.
  - rewrite V4, Vsl, Ven, Vrn, Vep. reflexivity.
  - destruct (fees_sum c1 c2 c3 (N + 1) W1 W2 W3) as [Wf Vf]; [vm_compute; done|].
    destruct (add_within 6 (N + 1 + (N + 1) + (N + 1)) (N + 1) (dadd (dadd c1 c2) c3) c4) as [_ ->];
      [lia|done|done|vm_compute; discriminate|]. by rewrite Vf.
Qed.

(** ** The versioned calculator *)

Lemma select_key {A} (key : A -> string) (l : list A) x : NoDup (map key l) -> In x l ->
  select (fun y => eqs (key y) (key x)) l = [x].
Proof.
  unfold select. induction l as [|y l IH]; intros Hnd Hin; [done|]. inversion Hnd as [|? ? Hni Hnd']; subst.
  cbn [List.filter]. destruct Hin as [->|Hin].
  - rewrite eqs_refl. f_equal. destruct (List.filter _ l) as [|z r] eqn:E; [done|]. exfalso.
    assert (In z (z :: r)) as Hz by by left. rewrite <- E in Hz. apply filter_In in Hz as [Hz Hk].
    str_hyps. apply Hni. rewrite <- Hk. by apply list_elem_of_In, in_map.
  - assert (key y <> key x) as Hne.
    { intros He. apply Hni. rewrite He. by apply list_elem_of_In, in_map. }
    rewrite (proj2 (eqs_false _ _)) by done. by apply IH.
Qed.

Lemma rule_set_selects rules selectors comp seen seen' sel :
  validate_v3_rule_set rules selectors comp seen = Ok seen' -> In sel selectors ->
  exists r, rule_for rules sel comp = Ok r /\ In r rules /\ fr_selector_id r = is_selector_id sel.
Proof.
  intros Hv Hin. unfold validate_v3_rule_set in Hv.
  destruct (negb (Nat.eqb _ _)); [done|]. destruct (negb _) eqn:E; [done|]. bool_hyps.
  assert (is_selector_id sel ∈ map fr_selector_id rules) as Hr.
  { match goal with H : map is_selector_id _ ⊆ _ |- _ => apply H end. by apply list_elem_of_In, in_map. }
  apply list_elem_of_In, in_map_iff in Hr as (r & Hid & Hr). exists r. split; [|done].
  unfold rule_for. rewrite <- Hid. by rewrite select_key.
Qed.

Lemma selector_selected (selectors : list InstrumentSelector) sel :
  NoDup (map is_scope_key selectors) -> In sel selectors ->
  select (fun s => bool_decide (is_scope_key s = is_scope_key sel)) selectors = [sel].
Proof.
  unfold select. induction selectors as [|y l IH]; intros Hnd Hin; [done|]. inversion Hnd as [|? ? Hni Hnd']; subst.
  cbn [List.filter]. destruct Hin as [->|Hin].
  - rewrite bool_decide_eq_true_2 by done. f_equal. destruct (List.filter _ l) as [|z r] eqn:E; [done|]. exfalso.
    assert (In z (z :: r)) as Hz by by left. rewrite <- E in Hz. apply filter_In in Hz as [Hz Hk].
    bool_hyps. apply Hni. rewrite <- Hk. by apply list_elem_of_In, in_map.
  - rewrite bool_decide_eq_false_2; [by apply IH|]. intros He. apply Hni. rewrite He. by apply list_elem_of_In, in_map.
Qed.

(** Rates in basis points with at most three decimals. *)
Definition rule_ok (r : ExecutionCostFeeRule) : Prop :=
  within 3 10000 (fr_rate_bps r) /\ within 6 10000000000 (fr_minimum_amount r).

(** The rational fee of one rule. *)
Definition charged (r : ExecutionCostFeeRule) (side : OrderSide) : bool :=
  match fr_applies_to r with AP_BOTH => true | AP_BUY => bool_decide (side = buy) | AP_SELL => bool_decide (side = sell) end.

Definition fee (r : ExecutionCostFeeRule) (side : OrderSide) (notional : Q) (quantum : dec) : Q :=
  if charged r side
  then nearest (expo quantum) (Qmax (notional * value (fr_rate_bps r) / 10000) (value (fr_minimum_amount r)))
  else 0%Q.

Lemma charged_side r side : applies_to_side r side = charged r side.
Proof. unfold applies_to_side, charged. by destruct (fr_applies_to r), side. Qed.

(** The one rule of a list that names the selector. *)
Definition chosen (rules : list ExecutionCostFeeRule) (sel : InstrumentSelector) (r : ExecutionCostFeeRule) : Prop :=
  In r rules /\ fr_selector_id r = is_selector_id sel
  /\ forall r', In r' rules -> fr_selector_id r' = is_selector_id sel -> r' = r.

Lemma rule_for_chosen rules sel comp r : rule_for rules sel comp = Ok r -> chosen rules sel r.
Proof.
  unfold rule_for. destruct (select _ rules) as [|x [|y l]] eqn:E; try done. intros [= ->].
  assert (forall r', In r' rules /\ fr_selector_id r' = is_selector_id sel <-> r' = r) as Hin.
  { intros r'. rewrite <- eqs_true, <- (filter_In (fun r => eqs (fr_selector_id r) (is_selector_id sel))).
    change (List.filter _ rules) with (select (fun r => eqs (fr_selector_id r) (is_selector_id sel)) rules). rewrite E. cbn. naive_solver. }
  destruct (proj2 (Hin r) eq_refl) as [H1 H2]. split_and!; try done. intros r' K1 K2. by apply Hin.
Qed.

Lemma v3_fee_exact r side n quantum : rule_ok r -> within 6 N n -> quantum_ok quantum ->
  exists f, v3_fee_amount r side n quantum = Ok f /\ within 6 (N + 1) f
    /\ (value f == fee r side (value n) quantum)%Q /\ 0 <= mant f.
Proof.
  intros [Wr Wm] Wn [Hq1 Hq2]. assert (0 < N < 10 ^ 21) as HN by (vm_compute; done).
  unfold v3_fee_amount, fee. rewrite charged_side. destruct (charged r side); cbn [negb].
  - destruct (mul_within 6 3 N 10000 n (fr_rate_bps r)) as [Wx Vx]; [lia|lia|done|done|vm_compute; discriminate|].
    pose proof (within_mant (6 + 3) _ _ ltac:(lia) Wx) as Mx.
    set (x := dmul n (fr_rate_bps r)) in *. destruct (div_exact x) as [E V].
    { assert (N * 10000 * 10 ^ (6 + 3) <= 10 ^ prec) by (vm_compute; discriminate). lia. }
    assert (0 <= mant (div_10000 x) /\ (value (div_10000 x) < inject_Z N)%Q) as Bx.
    { split; [rewrite E; cbn [mant]; lia|]. rewrite V. destruct Wx as [_ _ Hv]. rewrite inject_Z_mult in Hv.
      change (inject_Z 10000) with 10000%Q in Hv. apply Qlt_shift_div_r; [done|exact Hv]. }
    assert (0 <= mant (fr_minimum_amount r) /\ (value (fr_minimum_amount r) < inject_Z N)%Q) as Bm.
    { split; [apply Wm|]. eapply Qlt_le_trans; [apply Wm|]. vm_compute. discriminate. }
    destruct (quantize_within 6 N (dmax (div_10000 x) (fr_minimum_amount r)) quantum) as (f & -> & Vf & Wf); try done;
      [right; by apply max_bound|].
    exists f. split_and!; try done; [|apply Wf]. rewrite Vf, dmax_value, V, Vx. reflexivity.
  - destruct (quantize_within 0 N dzero quantum) as (f & -> & Vf & Wf); try done; [right; split; [done|vm_compute; done]|].
    exists f. split_and!; try done; [|apply Wf]. rewrite Vf. change (value dzero) with (0 * 1)%Q.
    by rewrite Qmult_0_l, nearest_zero.
Qed.

(** A contract whose slippage is in basis points with at most four decimals and whose quanta have at
    most six. *)
Definition spec_small (spec : ExecutionCostSpec) (sl : ExecutionCostSlippage) (mo : ExecutionCostMoney) : Prop :=
  cs_slippage spec = Some sl /\ cs_money spec = Some mo
  /\ within 4 10000 (sl_buy_bps sl) /\ within 4 10000 (sl_sell_bps sl)
  /\ quantum_ok (sl_price_tick sl) /\ quantum_ok (mo_quantum mo)
  /\ (forall r, In r (cs_commission_rules spec ++ cs_transfer_fee_rules spec ++ cs_stamp_duty_rules spec) -> rule_ok r).

Lemma positive_checks d : 0 < mant d -> dltb dzero d = true /\ dleb d dzero = false.
Proof.
  intros Hd. apply value_pos in Hd. assert (value dzero == 0)%Q as Hz by reflexivity. split.
  - apply dltb_lt. by rewrite Hz.
  - apply not_true_iff_false. rewrite dleb_le, Hz. by apply Qlt_not_le.
Qed.

Lemma nonneg_check d : 0 <= mant d -> dleb dzero d = true.
Proof. intros Hd. apply dleb_le. change (value dzero) with (0 * 1)%Q. rewrite Qmult_0_l. by apply value_nonneg. Qed.

Lemma deqb_refl d : deqb d d = true.
Proof. unfold deqb, dcompare, align. by rewrite Z.compare_refl. Qed.

Lemma notional_positive d q : 0 < mant d -> quantity_ok q ->
  (value (dmul d (of_Z q)) == value d * inject_Z q)%Q -> 0 < mant (dmul d (of_Z q)) /\ (0 < inject_Z q)%Q.
Proof.
  intros Hd Hq V. assert (0 < inject_Z q)%Q by (change 0%Q with (inject_Z 0); rewrite <- Zlt_Qlt; unfold quantity_ok in Hq; lia).
  split; [|done]. apply value_pos. rewrite V. apply value_pos in Hd. nra.
Qed.

(** What validation guarantees of a version-3 contract. *)
Record validated `{CostDigest} (spec spec' : ExecutionCostSpec) : Prop := {
  val_version : cs_schema_version spec' = cs_schema_version spec;
  val_scopes : NoDup (map is_scope_key (cs_instrument_selectors spec'));
  val_id : cs_cost_spec_id spec' = Some (cost_sha256 (v3_identity_payload spec'));
  val_engine : exists v, cs_cost_engine_version spec' = Some v /\ nonempty v = true;
  val_selector_ids : forall s, In s (cs_instrument_selectors spec') -> nonempty (is_selector_id s) = true;
  val_rule_ids : forall r, In r (cs_commission_rules spec' ++ cs_transfer_fee_rules spec' ++ cs_stamp_duty_rules spec') ->
    nonempty (fr_rule_id r) = true;
  val_rules : forall sel, In sel (cs_instrument_selectors spec') -> exists r1 r2 r3,
    rule_for (cs_commission_rules spec') sel "commission" = Ok r1 /\ In r1 (cs_commission_rules spec')
    /\ rule_for (cs_transfer_fee_rules spec') sel "transfer fee" = Ok r2 /\ In r2 (cs_transfer_fee_rules spec')
    /\ rule_for (cs_stamp_duty_rules spec') sel "stamp duty" = Ok r3 /\ In r3 (cs_stamp_duty_rules spec')
}.

Lemma validate_versioned_valid `{CostDigest} spec spec' : cs_schema_version spec = 3 ->
  validate_versioned_contract spec = Ok spec' -> validated spec spec'.
Proof.
  intros H3 Hv. unfold validate_versioned_contract in Hv. cbv zeta in Hv. rewrite H3 in Hv.
  rewrite (bool_decide_eq_false_2 (3 ∈ [1; 2])) in Hv by (rewrite !elem_of_cons, elem_of_nil; lia).
  destruct (negb (spec_fields_ok spec)) eqn:Ef; [done|]. destruct (cs_legacy_fields_set spec); [done|].
  destruct (negb (_ && _)) eqn:Er; [done|].
  destruct (bool_decide (_ = [])); [done|]. destruct (negb (bool_decide (NoDup (map is_selector_id _)))); [done|].
  destruct (negb (bool_decide (NoDup (map is_scope_key _)))) eqn:Es; [done|].
  apply rbind_ok in Hv as (s1 & Hr1 & Hv). apply rbind_ok in Hv as (s2 & Hr2 & Hv). apply rbind_ok in Hv as (s3 & Hr3 & Hv).
  unfold spec_fields_ok in Ef. bool_hyps.
  assert (validated spec (with_cost_spec_id spec (cost_sha256 (v3_identity_payload spec)))) as V.
  { constructor; try done.
    - match goal with H : is_Some (cs_cost_engine_version spec) |- _ => destruct H as [v Hev] end. exists v. split; [done|].
      match goal with H : opt_all nonempty _ = true |- _ => by rewrite Hev in H end.
    - intros s Hs. match goal with H : forallb (fun s => nonempty _ && _) _ = true |- _ => rewrite forallb_forall in H; apply H in Hs end.
      by bool_hyps.
    - intros r Hr. match goal with H : forallb rule_fields_ok _ = true |- _ => rewrite forallb_forall in H; apply H in Hr end.
      unfold rule_fields_ok in Hr. by bool_hyps.
    - intros sel Hin. destruct (rule_set_selects _ _ _ _ _ _ Hr1 Hin) as (r1 & ? & ? & _).
      destruct (rule_set_selects _ _ _ _ _ _ Hr2 Hin) as (r2 & ? & ? & _).
      destruct (rule_set_selects _ _ _ _ _ _ Hr3 Hin) as (r3 & ? & ? & _). by exists r1, r2, r3. }
  destruct (cs_cost_spec_id spec) as [id|] eqn:Eid; [|by simplify_eq].
  destruct (negb (eqs id _)) eqn:Ei; [done|]. str_hyps. bool_hyps. str_hyps. simplify_eq/=.
  destruct V. by constructor.
Qed.

(** What the calculator computes for a selector of a validated contract. *)
Lemma resolve_costs_exact `{CostDigestLaws} spec spec' id v sl mo o ctx sel :
  validated spec spec' -> is_hex64 id = true -> nonempty v = true -> spec_small spec' sl mo ->
  In sel (cs_instrument_selectors spec') -> price_ok (oi_reference_price o) -> quantity_ok (oi_quantity o) ->
  let bps := match oi_side o with buy => sl_buy_bps sl | sell => sl_sell_bps sl end in
  let executed := nearest (expo (sl_price_tick sl)) (slipped (oi_side o) (value (oi_reference_price o)) (value bps)) in
  let fee_of r := fee r (oi_side o) (executed * inject_Z (oi_quantity o)) (mo_quantum mo) in
  (0 < executed)%Q ->
  exists c r1 r2 r3, resolve_costs spec' id v sl mo o ctx sel = Ok c
    /\ ec_cost_spec_id c = id
    /\ chosen (cs_commission_rules spec') sel r1 /\ chosen (cs_transfer_fee_rules spec') sel r2
    /\ chosen (cs_stamp_duty_rules spec') sel r3
    /\ ec_selected_rule_ids c = (is_selector_id sel, fr_rule_id r1, fr_rule_id r2, fr_rule_id r3)
    /\ (value (ec_executed_price c) == executed)%Q
    /\ (value (ec_commission c) == fee_of r1)%Q /\ (value (ec_transfer_fee c) == fee_of r2)%Q
    /\ (value (ec_stamp_duty c) == fee_of r3)%Q
    /\ (value (ec_total_fees c) == fee_of r1 + fee_of r2 + fee_of r3)%Q.
Proof.
  intros Hv Hid Hvn (_ & _ & Wb1 & Wb2 & Ht & Hm & Hrules) Hin Hp Hq bps executed fee_of Hpos.
  destruct o as [side p q]. cbn [oi_side oi_reference_price oi_quantity] in *.
  destruct (val_rules _ _ Hv sel Hin) as (r1 & r2 & r3 & Hf1 & Hr1 & Hf2 & Hr2 & Hf3 & Hr3).
  assert (In r1 (cs_commission_rules spec' ++ cs_transfer_fee_rules spec' ++ cs_stamp_duty_rules spec')
    /\ In r2 (cs_commission_rules spec' ++ cs_transfer_fee_rules spec' ++ cs_stamp_duty_rules spec')
    /\ In r3 (cs_commission_rules spec' ++ cs_transfer_fee_rules spec' ++ cs_stamp_duty_rules spec')) as (I1 & I2 & I3)
    by (rewrite !in_app_iff; tauto).
  unfold resolve_costs. cbn [oi_side oi_reference_price oi_quantity]. rewrite Hf1, Hf2, Hf3. cbn [rbind]. fold bps.
  assert (within 4 10000 bps) as Wb by (unfold bps; by destruct side).
  destruct (executed_within side p bps (sl_price_tick sl) Hp Wb Ht) as (_ & ep & -> & Wep & Vep). cbn [rbind].
  assert (0 < mant ep) as Hep by (apply value_pos; by rewrite Vep).
  destruct (positive_checks ep Hep) as [Hep1 Hep2]. rewrite Hep2.
  destruct (notional_within 2000001 6 ep q Wep Hq) as [Wen Ven]; [lia|lia|].
  destruct (notional_within 1000000 4 p q (proj1 Hp) Hq) as [Wrn Vrn]; [lia|lia|].
  assert (forall r, rule_ok r -> exists f, v3_fee_amount r side (dmul ep (of_Z q)) (mo_quantum mo) = Ok f
            /\ within 6 (N + 1) f /\ (value f == fee_of r)%Q) as Hfee.
  { intros r Hr. destruct (v3_fee_exact r side (dmul ep (of_Z q)) (mo_quantum mo) Hr Wen Hm)
      as (f & Hf & Wf & Vf & _). exists f. split_and!; try done. rewrite Vf. unfold fee_of, fee.
    destruct (charged r side); [|done]. by rewrite Ven, Vep. }
  destruct (Hfee r1 (Hrules r1 I1)) as (c1 & -> & W1 & V1). destruct (Hfee r2 (Hrules r2 I2)) as (c2 & -> & W2 & V2).
  destruct (Hfee r3 (Hrules r3 I3)) as (c3 & -> & W3 & V3). cbn [rbind].
  assert (N * 10 ^ 6 <= 10 ^ prec) as HN6 by (vm_compute; discriminate).
  destruct (sub_within 6 N (dmul ep (of_Z q)) (dmul p (of_Z q)) ltac:(lia) Wen Wrn HN6) as [Wsl Vsl].
  destruct Hm as [Hm1 Hm2].
  destruct (quantize_within 6 N (dabs (dsub (dmul ep (of_Z q)) (dmul p (of_Z q)))) (mo_quantum mo))
    as (c4 & -> & V4 & W4); [lia|by left|done|done|vm_compute; done|].
  destruct (fees_sum c1 c2 c3 (N + 1) W1 W2 W3) as [Wf Vf]; [vm_compute; done|].
  destruct (notional_positive ep q Hep Hq Ven) as [Hen _]. destruct (notional_positive p q (proj2 Hp) Hq Vrn) as [Hrn _].
  unfold mk_calculation. cbn [rbind ec_cost_spec_id ec_cost_engine_version ec_cost_context_fingerprint
    ec_selected_rule_ids ec_executed_price ec_reference_notional ec_executed_notional
    ec_commission ec_transfer_fee ec_stamp_duty ec_slippage_amount ec_total_fees].
  rewrite Hid, Hvn, cost_context_hex, Hep1, (proj1 (positive_checks _ Hrn)), (proj1 (positive_checks _ Hen)), deqb_refl,
    (val_selector_ids _ _ Hv sel Hin), !(val_rule_ids _ _ Hv) by done.
  rewrite !nonneg_check by (apply W1 || apply W2 || apply W3 || apply W4 || apply Wf). cbn [andb negb].
  eexists _, r1, r2, r3. split; [reflexivity|]. cbn [ec_cost_spec_id ec_selected_rule_ids ec_executed_price ec_commission
    ec_transfer_fee ec_stamp_duty ec_total_fees].
  split_and!; try done; [by eapply rule_for_chosen..|]. by rewrite Vf, V1, V2, V3.
Qed.

(** C39: the shared calculator on a valid version-3 cost contract.  For an instrument that some
    selector covers and orders of ordinary size whose rounded price is positive it always succeeds:
    the one commission, transfer-fee and stamp-duty rule of that selector is used (never an ambiguity), each
    fee is the rational fee of that rule on the executed notional, zero when the rule does not apply
    to the side, the total is the exact sum of the three, and the receipt names the contract by the
    digest of its canonical content. *)
Theorem shared_costs_exact `{CostDigestLaws} spec spec' sl mo o ctx sel :
  cs_schema_version spec = 3 -> validate_versioned_contract spec = Ok spec' -> spec_small spec' sl mo ->
  In sel (cs_instrument_selectors spec') -> ic_scope_key ctx = is_scope_key sel -> validate_context ctx = Ok ctx ->
  price_ok (oi_reference_price o) -> decimal_ok (oi_reference_price o) = true -> quantity_ok (oi_quantity o) ->
  let bps := match oi_side o with buy => sl_buy_bps sl | sell => sl_sell_bps sl end in
  let executed := nearest (expo (sl_price_tick sl)) (slipped (oi_side o) (value (oi_reference_price o)) (value bps)) in
  let fee_of r := fee r (oi_side o) (executed * inject_Z (oi_quantity o)) (mo_quantum mo) in
  (0 < executed)%Q ->
  exists c r1 r2 r3, calculate_execution_costs spec o ctx = Ok c
    /\ ec_cost_spec_id c = cost_sha256 (v3_identity_payload spec')
    /\ chosen (cs_commission_rules spec') sel r1 /\ chosen (cs_transfer_fee_rules spec') sel r2
    /\ chosen (cs_stamp_duty_rules spec') sel r3
    /\ ec_selected_rule_ids c = (is_selector_id sel, fr_rule_id r1, fr_rule_id r2, fr_rule_id r3)
    /\ (value (ec_executed_price c) == executed)%Q
    /\ (value (ec_commission c) == fee_of r1)%Q /\ (value (ec_transfer_fee c) == fee_of r2)%Q
    /\ (value (ec_stamp_duty c) == fee_of r3)%Q
    /\ (value (ec_total_fees c) == fee_of r1 + fee_of r2 + fee_of r3)%Q.
Proof.
  intros H3 Hv Hsmall Hin Hctx Hc Hp Hdp Hq bps executed fee_of Hpos.
  pose proof (validate_versioned_valid _ _ H3 Hv) as V. destruct (val_engine _ _ V) as (v & Hev & Hvn).
  unfold calculate_execution_costs, validate_order_input, positive_ok. rewrite Hv. cbn [rbind].
  rewrite (val_version _ _ V), H3. cbn [Z.eqb Pos.eqb negb].
  rewrite Hdp, (proj1 (positive_checks _ (proj2 Hp))), (proj2 (Z.ltb_lt _ _)) by (unfold quantity_ok in Hq; lia).
  cbn [andb negb rbind]. rewrite Hc. cbn [rbind]. destruct (Hsmall) as (Hsl & Hmo & _).
  rewrite (val_id _ _ V), Hev, Hsl, Hmo, Hctx, (selector_selected _ sel (val_scopes _ _ V) Hin).
  by apply (resolve_costs_exact spec); [|apply cost_sha256_hex|..].
Qed.

(** Slippage never favours the trader.  For a reference price on the tick grid a buy executes at
    or above it and a sell at or below it, and the executed price is within half a tick of the
    slipped one. *)
Theorem slippage_never_favours side p bps tick n :
  price_ok p -> within 4 10000 bps -> quantum_ok tick -> (value p == inject_Z n * pow10 (expo tick))%Q ->
  exists r, calculate_slipped_price p side bps (Some tick) = Ok r
    /\ match side with buy => value p <= value r | sell => value r <= value p end%Q
    /\ (Qabs (value r - slipped side (value p) (value bps)) <= (1 # 2) * pow10 (expo tick))%Q.
Proof.
  intros Hp Wb Ht Hgrid. destruct (slipped_price_ok side p bps tick Hp Wb Ht) as (r & Hr & _ & Vr).
  exists r. split; [done|].
  assert (0 <= value p)%Q as Hvp by (apply Qlt_le_weak, value_pos, Hp).
  assert (0 <= value bps / 10000)%Q as Hb.
  { apply Qle_shift_div_l; [done|]. rewrite Qmult_0_l. apply value_nonneg, Wb. }
  assert (value p == nearest (expo tick) (value p))%Q as Hfix by (rewrite Hgrid; by rewrite nearest_grid).
  split.
  - set (b := (value bps / 10000)%Q) in *.
    destruct side; rewrite Vr; unfold slipped; fold b.
    + rewrite Hfix at 1. apply nearest_mono. nra.
    + rewrite Hfix at 2. apply nearest_mono. nra.
  - destruct (nearest_error (expo tick) (slipped side (value p) (value bps))) as [H1 H2].
    rewrite Vr. apply Qabs_Qle_condition. split; lra.
Qed.

(** ** Examples: 1000 shares at 12.34 *)

Lemma within_check k B d : 0 <= mant d -> - k <= expo d <= 0 -> Qcompare (value d) (inject_Z B) = Lt -> within k B d.
Proof. intros H1 H2 H3. constructor; [done|done|]. by rewrite Qlt_alt. Qed.

Ltac within_tac := apply within_check; [cbn; lia|cbn; lia|vm_compute; reflexivity].

Definition demo_price : dec := Dec 1234 (-2).

Lemma demo_price_ok : price_ok demo_price.
Proof. split; [within_tac|cbn; lia]. Qed.

Lemma tick_ok : quantum_ok DEFAULT_PRICE_TICK.
Proof. split; cbn; lia. Qed.

Lemma money_ok : quantum_ok DEFAULT_MONEY_QUANTUM.
Proof. split; cbn; lia. Qed.

(** Commission 2.5 bps with a minimum of 5, transfer fee 0.1 bps, stamp duty 5 bps, slippage 2 bps. *)
Lemma order_costs_exact_witness : exists c,
  calculate_order_execution_costs sell demo_price 1000 (Dec 25 (-5)) (Dec 5 0) (Dec 1 (-5)) (Dec 5 (-4))
    (Dec 2 0) basis_executed (Some DEFAULT_PRICE_TICK) (Some DEFAULT_MONEY_QUANTUM) = Ok c
  /\ (value (oc_total_cost c) == value (oc_commission c) + value (oc_transfer_fee c)
        + value (oc_stamp_duty c) + value (oc_slippage_amount c))%Q
  /\ oc_executed_price c = Dec 123375 (-4) /\ oc_commission c = Dec 500 (-2) /\ oc_stamp_duty c = Dec 617 (-2).
Proof.
  destruct (order_costs_exact sell demo_price 1000 (Dec 25 (-5)) (Dec 5 0) (Dec 1 (-5)) (Dec 5 (-4)) (Dec 2 0)
    basis_executed DEFAULT_PRICE_TICK DEFAULT_MONEY_QUANTUM) as (c & Hc & _ & _ & _ & _ & _ & Hsum);
    [exact demo_price_ok|split; lia|within_tac|within_tac|within_tac|within_tac|within_tac|exact tick_ok|exact money_ok|].
  exists c. split; [exact Hc|]. split; [exact Hsum|]. vm_compute in Hc. injection Hc as <-. repeat split.
Defined.

Definition demo_selector : InstrumentSelector :=
  {| is_selector_id := "sse-a"; is_scope_key := ("CN", "SSE", "STOCK", "A")%string |}.

Definition demo_rule (id : string) (rate minimum : dec) (side : ExecutionCostApplicability) : ExecutionCostFeeRule :=
  {| fr_rule_id := id; fr_selector_id := "sse-a"; fr_rate_bps := rate; fr_minimum_amount := minimum; fr_applies_to := side |}.

(** A digest of the right shape. *)
#[local] Instance demo_digest : CostDigest := {|
  cost_sha256 := fun i => let '(_, selectors, _, _, _, _, _) := i in digits 64 (Z.of_nat (length selectors));
  cost_context_sha256 := fun _ _ _ _ _ _ _ => digits 64 7 |}.

#[local] Instance demo_digest_laws : CostDigestLaws.
Proof. constructor; [intros [[[[[[? ?] ?] ?] ?] ?] ?]; apply digits_hex64|intros; apply digits_hex64]. Qed.

Definition demo_slippage : ExecutionCostSlippage :=
  {| sl_buy_bps := Dec 2 0; sl_sell_bps := Dec 2 0; sl_price_tick := Dec 1 (-2) |}.

Definition demo_money : ExecutionCostMoney := {| mo_quantum := Dec 1 (-2) |}.

Definition demo_spec : ExecutionCostSpec := {|
  cs_schema_version := 3; cs_commission_bps := None; cs_stamp_duty_bps := None; cs_transfer_fee_bps := None;
  cs_slippage_bps := None; cs_minimum_commission := Some dzero; cs_legacy_fields_set := false;
  cs_cost_engine_version := Some "1"; cs_instrument_selectors := [demo_selector];
  cs_commission_rules := [demo_rule "c" (Dec 25 (-1)) (Dec 5 0) AP_BOTH];
  cs_transfer_fee_rules := [demo_rule "t" (Dec 1 (-1)) (Dec 0 0) AP_BOTH];
  cs_stamp_duty_rules := [demo_rule "s" (Dec 5 0) (Dec 0 0) AP_SELL];
  cs_fee_notional_basis := true; cs_assessment_unit := true; cs_slippage := Some demo_slippage;
  cs_money := Some demo_money; cs_cost_spec_id := None; cs_research_notional_per_trade := None |}.

Definition demo_order : ExecutionCostOrderInput :=
  {| oi_side := buy; oi_reference_price := demo_price; oi_quantity := 1000 |}.

Definition demo_context : InstrumentContext :=
  {| ic_ts_code := "600000.SH"; ic_scope_key := is_scope_key demo_selector; ic_classification_provenance := None |}.

Lemma shared_costs_exact_witness : exists c,
  calculate_execution_costs demo_spec demo_order demo_context = Ok c
  /\ ec_executed_price c = Dec 1234 (-2) /\ ec_stamp_duty c = Dec 0 (-2) /\ ec_total_fees c = Dec 512 (-2).
Proof.
  destruct (shared_costs_exact demo_spec (with_cost_spec_id demo_spec (digits 64 1)) demo_slippage demo_money
    demo_order demo_context demo_selector) as (c & r1 & r2 & r3 & Hc & _);
    [reflexivity|vm_compute; reflexivity| |by left|reflexivity|vm_compute; reflexivity|exact demo_price_ok
    |vm_compute; reflexivity|split; cbn; lia|vm_compute; reflexivity|].
  - split_and!; [reflexivity|reflexivity|within_tac|within_tac|split; cbn; lia|split; cbn; lia|].
    intros r [<-|[<-|[<-|[]]]]; split; within_tac.
  - exists c. split; [exact Hc|]. vm_compute in Hc. injection Hc as <-. repeat split.
Defined.

Lemma slippage_never_favours_witness : exists r,
  calculate_slipped_price demo_price buy (Dec 2 0) (Some DEFAULT_PRICE_TICK) = Ok r
  /\ (value demo_price <= value r)%Q /\ r = Dec 123425 (-4).
Proof.
  destruct (slippage_never_favours buy demo_price (Dec 2 0) DEFAULT_PRICE_TICK 123400) as (r & Hr & Hle & _);
    [exact demo_price_ok|within_tac|exact tick_ok|vm_compute; reflexivity|].
  exists r. split; [exact Hr|]. split; [exact Hle|]. vm_compute in Hr. injection Hr as <-. reflexivity.
Defined.

(** The positivity test of [calculate_slipped_price] precedes the rounding, so a sell can be priced at
    zero; and [quantize] looks only at the exponent of the tick, so a tick of 0.05 rounds to 0.01. *)
Example slipped_price_zero :
  calculate_slipped_price (Dec 1 (-4)) sell (Dec 9999 0) (Some DEFAULT_PRICE_TICK) = Ok (Dec 0 (-4)).
Proof. vm_compute. reflexivity. Qed.

Example tick_exponent_only :
  calculate_slipped_price (Dec 1237 (-2)) buy (Dec 0 0) (Some (Dec 5 (-2))) = Ok (Dec 1237 (-2)).
Proof. vm_compute. reflexivity. Qed.
