(* ===== verification/DecimalEq.v ===== *)
(** * Decimals as numbers

    Two decimals are equivalent when they denote the same number ([Decimal("1.0") == Decimal("1.00")]).
    Rounding to the context's precision depends on the number only, so the arithmetic operations
    respect the equivalence and can be rewritten under. *)

From Stdlib Require Import ZArith Lia Bool QArith Qpower Lqa Setoid Morphisms.
From stdpp Require Import base strings.
From S2P Require Import Prelude Decimal.
Open Scope Z_scope.
Open Scope rq_scope.

Definition deq (a b : dec) : Prop := (value a == value b)%Q.

#[export] Instance deq_equivalence : Equivalence deq.
Proof.
  split; unfold deq; red; intros.
  - reflexivity.
  - by symmetry.
  - etransitivity; eassumption.
Qed.

Lemma deqb_deq a b : deqb a b = true <-> deq a b.
Proof.
  unfold deqb, dcompare, deq. pose proof (align_values a b) as H. destruct (align a b) as [[x y] e].
  destruct H as [-> ->]. split; intros E.
  - assert (x = y) as -> by (apply Z.compare_eq; by destruct (x ?= y)). reflexivity.
  - assert (x = y) as ->; [|by rewrite Z.compare_refl].
    apply Z.le_antisymm; apply (inject_scaled _ _ e); rewrite E; apply Qle_refl.
Qed.

Lemma count_digits_spec fuel n : 0 < n < 10 ^ (Z.of_nat fuel + 1) ->
  0 < count_digits fuel n /\ 10 ^ (count_digits fuel n - 1) <= n < 10 ^ count_digits fuel n.
Proof.
  revert n. induction fuel as [|fuel IH]; intros n Hn; cbn [count_digits].
  - change (10 ^ (Z.of_nat 0 + 1)) with 10 in Hn. change (10 ^ (1 - 1)) with 1. change (10 ^ 1) with 10. lia.
  - destruct (Z.ltb_spec n 10) as [Hlt|Hge]; [change (10 ^ (1 - 1)) with 1; change (10 ^ 1) with 10; lia|].
    assert (0 < n / 10 < 10 ^ (Z.of_nat fuel + 1)) as Hd.
    { split; [divlia|]. apply Z.div_lt_upper_bound; [lia|]. rewrite <- Z.pow_succ_r by lia.
      replace (Z.succ (Z.of_nat fuel + 1)) with (Z.of_nat (S fuel) + 1) by lia. lia. }
    destruct (IH _ Hd) as (Hc & Hlo & Hhi). set (c := count_digits fuel (n / 10)) in *. split; [lia|].
    assert (10 ^ (1 + c - 1) = 10 * 10 ^ (c - 1)) as ->.
    { rewrite <- Z.pow_succ_r by lia. f_equal. lia. }
    replace (10 ^ (1 + c)) with (10 * 10 ^ c) by (rewrite <- Z.pow_succ_r by lia; f_equal; lia).
    divlia.
Qed.

Lemma ndigits_spec n : 0 < n -> 0 < ndigits n /\ 10 ^ (ndigits n - 1) <= n < 10 ^ ndigits n.
Proof.
  intros Hn. apply count_digits_spec. split; [done|]. pose proof (Z.log2_nonneg n).
  rewrite Z2Nat.id by done. pose proof (Z.log2_spec n Hn) as [_ H2].
  eapply Z.lt_le_trans; [exact H2|]. rewrite <- Z.add_1_r. apply Z.pow_le_mono_l. lia.
Qed.

Lemma ndigits_unique n k : 0 < k -> 10 ^ (k - 1) <= n < 10 ^ k -> ndigits n = k.
Proof.
  intros Hk [Hlo Hhi]. assert (0 < 10 ^ (k - 1)) by (apply Z.pow_pos_nonneg; lia).
  destruct (ndigits_spec n) as (Hc & Hl & Hh); [lia|].
  apply Z.le_antisymm; apply Z.nlt_ge; intros Hlt.
  - assert (10 ^ k <= 10 ^ (ndigits n - 1)) by (apply Z.pow_le_mono_r; lia). lia.
  - assert (10 ^ ndigits n <= 10 ^ (k - 1)) by (apply Z.pow_le_mono_r; lia). lia.
Qed.

Lemma ndigits_scale n k : 0 < n -> 0 <= k -> ndigits (n * 10 ^ k) = ndigits n + k.
Proof.
  intros Hn Hk. destruct (ndigits_spec n Hn) as (Hc & Hl & Hh). apply ndigits_unique; [lia|].
  assert (0 < 10 ^ k) by (apply Z.pow_pos_nonneg; lia).
  replace (ndigits n + k - 1) with (ndigits n - 1 + k) by lia. rewrite !Z.pow_add_r by lia. nia.
Qed.

(** Digits that are all zero can be dropped before or after rounding. *)
Lemma half_even_scale m j k : 0 <= j -> 0 <= k -> half_even (m * 10 ^ k) (j + k) = half_even m j.
Proof.
  intros Hj Hk. unfold half_even. assert (0 < 10 ^ k) by (apply Z.pow_pos_nonneg; lia).
  assert (0 < 10 ^ j) by (apply Z.pow_pos_nonneg; lia).
  rewrite Z.sgn_mul, (Z.sgn_pos (10 ^ k)), Z.mul_1_r by done. rewrite Z.abs_mul, (Z.abs_eq (10 ^ k)) by lia.
  rewrite Z.pow_add_r by done. rewrite Z.div_mul_cancel_r by lia.
  rewrite Z.mul_mod_distr_r by lia.
  assert (forall x y, (x * 10 ^ k <? y * 10 ^ k) = (x <? y)) as Hs.
  { intros x y. destruct (Z.ltb_spec x y), (Z.ltb_spec (x * 10 ^ k) (y * 10 ^ k)); nia. }
  rewrite !Z.mul_assoc, !Hs. done.
Qed.

Lemma half_even_zeros m k : 0 <= k -> half_even (m * 10 ^ k) k = m.
Proof.
  intros Hk. pose proof (half_even_scale m 0 k ltac:(lia) Hk) as H. rewrite Z.add_0_l in H. rewrite H.
  unfold half_even. change (10 ^ 0) with 1. rewrite Z.div_1_r, Z.mod_1_r. change (2 * 0 <? 1) with true.
  cbn match. lia.
Qed.

Lemma fix_prec_scale m e k : 0 <= k -> deq (fix_prec (Dec (m * 10 ^ k) e)) (fix_prec (Dec m (e + k))).
Proof.
  intros Hk. assert (0 < 10 ^ k) as Hp by (apply Z.pow_pos_nonneg; lia).
  destruct (Z.eq_dec m 0) as [->|Hm]; [rewrite Z.mul_0_l, !fix_fits by done; unfold deq, value; cbn [mant expo]; change (inject_Z 0) with 0%Q; ring|].
  unfold fix_prec. cbn [mant expo]. rewrite Z.abs_mul, (Z.abs_eq (10 ^ k)) by lia.
  destruct (ndigits_spec (Z.abs m) ltac:(lia)) as (Hc & Hl & Hh).
  destruct (Z.ltb_spec (Z.abs m) (10 ^ prec)) as [Hs|Hs]; destruct (Z.ltb_spec (Z.abs m * 10 ^ k) (10 ^ prec)) as [Hb|Hb].
  - by apply value_shift.
  - assert (ndigits (Z.abs m) <= prec) as Hd.
    { apply Z.nlt_ge. intros Hlt. assert (10 ^ prec <= 10 ^ (ndigits (Z.abs m) - 1)) by (apply Z.pow_le_mono_r; lia). lia. }
    rewrite ndigits_scale by lia. set (j := ndigits (Z.abs m) + k - prec).
    assert (0 <= j) as Hj.
    { unfold j. apply Z.nlt_ge. intros Hlt.
      assert (Z.abs m * 10 ^ k < 10 ^ prec); [|lia].
      apply Z.lt_le_trans with (10 ^ (ndigits (Z.abs m) + k)); [rewrite Z.pow_add_r by lia; nia|].
      apply Z.pow_le_mono_r; lia. }
    replace (m * 10 ^ k) with (m * 10 ^ (k - j) * 10 ^ j) by
      (rewrite <- Z.mul_assoc, <- Z.pow_add_r by (unfold j; lia); f_equal; f_equal; lia).
    rewrite half_even_zeros by done.
    assert (Z.abs (m * 10 ^ (k - j)) < 10 ^ prec) as Hlt.
    { rewrite Z.abs_mul, (Z.abs_eq (10 ^ (k - j))) by (apply Z.pow_nonneg; lia).
      assert (0 < 10 ^ (k - j)) by (apply Z.pow_pos_nonneg; unfold j; lia).
      apply Z.lt_le_trans with (10 ^ (ndigits (Z.abs m) + (k - j))); [rewrite Z.pow_add_r by (unfold j; lia); nia|].
      apply Z.pow_le_mono_r; unfold j; lia. }
    rewrite (proj2 (Z.ltb_lt _ _) Hlt). unfold deq. rewrite value_shift by (unfold j; lia).
    replace (e + j + (k - j)) with (e + k) by lia. reflexivity.
  - exfalso. nia.
  - rewrite ndigits_scale by lia. replace (ndigits (Z.abs m) + k - prec) with (ndigits (Z.abs m) - prec + k) by lia.
    rewrite half_even_scale by
      (try done; apply Z.le_0_sub, Z.nlt_ge; intros Hlt;
       assert (10 ^ ndigits (Z.abs m) <= 10 ^ prec) by (apply Z.pow_le_mono_r; lia); lia).
    replace (e + (ndigits (Z.abs m) - prec + k)) with (e + k + (ndigits (Z.abs m) - prec)) by lia.
    reflexivity.
Qed.

#[export] Instance fix_prec_proper : Proper (deq ==> deq) fix_prec.
Proof.
  assert (forall a b, expo b <= expo a -> deq a b -> deq (fix_prec a) (fix_prec b)) as H.
  { intros [m e] [n f] Hle He. cbn in Hle. unfold deq in He.
    assert (n = m * 10 ^ (e - f)) as ->.
    { pose proof (value_shift m (e - f) f ltac:(lia)) as Hv. replace (f + (e - f)) with e in Hv by lia.
      rewrite <- Hv in He. unfold value in He. cbn [mant expo] in He.
      apply Z.le_antisymm; apply (inject_scaled _ _ f); unfold pow10; rewrite He; apply Qle_refl. }
    pose proof (fix_prec_scale m f (e - f) ltac:(lia)) as Hs. replace (f + (e - f)) with e in Hs by lia. by symmetry. }
  intros a b Hab. destruct (Z.le_ge_cases (expo b) (expo a)); [by apply H|].
  symmetry. apply H; [done|by symmetry].
Qed.

#[export] Instance dadd_proper : Proper (deq ==> deq ==> deq) dadd.
Proof.
  intros a a' Ha c c' Hc. unfold dadd. pose proof (align_values a c) as V. pose proof (align_values a' c') as V'.
  destruct (align a c) as [[x y] e]. destruct (align a' c') as [[x' y'] e']. destruct V as [Vx Vy], V' as [Vx' Vy'].
  apply fix_prec_proper. unfold deq in *. unfold value at 1 2. cbn [mant expo]. fold (pow10 e) (pow10 e').
  rewrite !inject_Z_plus, !Qmult_plus_distr_l, <- Vx, <- Vy, <- Vx', <- Vy', Ha, Hc. reflexivity.
Qed.

#[export] Instance dneg_proper : Proper (deq ==> deq) dneg.
Proof. intros a b H. unfold deq in *. by rewrite !dneg_value, H. Qed.

#[export] Instance dsub_proper : Proper (deq ==> deq ==> deq) dsub.
Proof. intros a a' Ha c c' Hc. unfold dsub. by rewrite Ha, Hc. Qed.

#[export] Instance dmul_proper : Proper (deq ==> deq ==> deq) dmul.
Proof.
  intros a a' Ha c c' Hc. unfold dmul. apply fix_prec_proper. unfold deq in *.
  unfold value at 1 2. cbn [mant expo]. fold (pow10 (expo a + expo c)) (pow10 (expo a' + expo c')).
  rewrite !inject_Z_mult, !pow10_add. unfold value in Ha, Hc. fold (pow10 (expo a)) (pow10 (expo a')) in Ha.
  fold (pow10 (expo c)) (pow10 (expo c')) in Hc.
  transitivity ((inject_Z (mant a) * pow10 (expo a)) * (inject_Z (mant c) * pow10 (expo c)))%Q; [ring|].
  rewrite Ha, Hc. ring.
Qed.

#[export] Instance deqb_proper : Proper (deq ==> deq ==> eq) deqb.
Proof.
  intros a a' Ha c c' Hc. apply eq_iff_eq_true. rewrite !deqb_deq. by rewrite Ha, Hc.
Qed.

#[export] Instance dleb_proper : Proper (deq ==> deq ==> eq) dleb.
Proof. intros a a' Ha c c' Hc. apply eq_iff_eq_true. rewrite !dleb_le. unfold deq in *. by rewrite Ha, Hc. Qed.

#[export] Instance dltb_proper : Proper (deq ==> deq ==> eq) dltb.
Proof. intros a a' Ha c c' Hc. apply eq_iff_eq_true. rewrite !dltb_lt. unfold deq in *. by rewrite Ha, Hc. Qed.
