(* ===== verification/PaperContracts.v ===== *)
(** * Contracts of the paper-trading ledger ([src/rquant/paper_contracts.py])

    Orders, fills, receipts, sell authorities, holdings and account snapshots, each with its
    validator as a function to [res].  Optional identifiers are filled in by the validators with
    digests of the content; the digests are the class [PaperDigest].  Instants are microseconds and
    texts are already stripped. *)

From Stdlib Require Import ZArith Lia Bool.
From stdpp Require Import base list strings.
From S2P Require Import Prelude Clock Decimal OrderCosts.
Open Scope Z_scope.
Open Scope rq_scope.

Abbreviation PaperSide := OrderSide.

Inductive PaperOrderType := MARKET | LIMIT.

Inductive PaperOrderStatus :=
  | PO_PENDING | PO_ACCEPTED | PO_PARTIALLY_FILLED | PO_FILLED | PO_REJECTED | PO_CANCELLED | PO_EXPIRED.

Inductive PaperRejectReason :=
  | T_PLUS_ONE | SUSPENDED | LIMIT_LOCKED | INSUFFICIENT_CASH | INSUFFICIENT_POSITION | INVALID_LOT
  | RR_EXPIRED | RISK_REJECTED.

Inductive PaperCostProvenanceState := KNOWN_V3 | LEGACY_UNKNOWN.

Inductive sell_action := REDUCE | S_INTENT.

#[export] Instance dec_eq_dec : EqDecision dec.
Proof. solve_decision. Defined.
#[export] Instance order_type_eq_dec : EqDecision PaperOrderType.
Proof. solve_decision. Defined.
#[export] Instance order_status_eq_dec : EqDecision PaperOrderStatus.
Proof. solve_decision. Defined.
#[export] Instance reject_reason_eq_dec : EqDecision PaperRejectReason.
Proof. solve_decision. Defined.
#[export] Instance provenance_eq_dec : EqDecision PaperCostProvenanceState.
Proof. solve_decision. Defined.
#[export] Instance sell_action_eq_dec : EqDecision sell_action.
Proof. solve_decision. Defined.

(** [PositiveLot] and [NonNegativeLot]: whole lots of 100 shares. *)
Definition positive_lot (q : Z) : bool := (0 <? q) && (q mod 100 =? 0).
Definition nonneg_lot (q : Z) : bool := (0 <=? q) && (q mod 100 =? 0).

(** [PositiveDecimal] and [NonNegativeDecimal]. *)
Definition dpos (d : dec) : bool := dltb dzero d.
Definition dnonneg (d : dec) : bool := dleb dzero d.

Definition is_commit (s : string) : bool := (String.length s =? 40)%nat && all_hex s.

(** [to_integral_value(rounding=ROUND_FLOOR)] followed by [int]. *)
Definition dfloor (d : dec) : Z :=
  if 0 <=? expo d then mant d * 10 ^ expo d else mant d / 10 ^ (- expo d).

(** ** Sell authorities *)

Record PaperSellQuantityAuthority := {
  sa_snapshot_id : option string; sa_exit_signal_id : string; sa_entry_signal_id : string;
  sa_account_id : string; sa_ts_code : string; sa_action : sell_action; sa_decision_cutoff : Z;
  sa_remaining_quantity : Z; sa_available_quantity : Z; sa_tranche_fraction : dec;
  sa_requested_quantity : Z; sa_source_lot_fingerprint : string
}.

#[export] Instance authority_eq_dec : EqDecision PaperSellQuantityAuthority.
Proof. solve_decision. Defined.

Definition with_snapshot_id (a : PaperSellQuantityAuthority) (id : option string) : PaperSellQuantityAuthority := {|
  sa_snapshot_id := id; sa_exit_signal_id := sa_exit_signal_id a; sa_entry_signal_id := sa_entry_signal_id a;
  sa_account_id := sa_account_id a; sa_ts_code := sa_ts_code a; sa_action := sa_action a;
  sa_decision_cutoff := sa_decision_cutoff a; sa_remaining_quantity := sa_remaining_quantity a;
  sa_available_quantity := sa_available_quantity a; sa_tranche_fraction := sa_tranche_fraction a;
  sa_requested_quantity := sa_requested_quantity a; sa_source_lot_fingerprint := sa_source_lot_fingerprint a |}.

(** ** Orders, fills and receipts *)

Record PaperOrderIntent := {
  in_intent_id : option string; in_signal_id : string; in_entry_signal_id : option string;
  in_sell_quantity_authority : option PaperSellQuantityAuthority; in_account_id : string;
  in_ts_code : string; in_side : PaperSide; in_order_type : PaperOrderType; in_quantity : Z;
  in_limit_price : option dec; in_event_time : Z; in_available_at : Z; in_expires_at : Z;
  in_earliest_execution_at : Z; in_price_snapshot_id : string; in_producer_commit : string
}.

#[export] Instance intent_eq_dec : EqDecision PaperOrderIntent.
Proof. solve_decision. Defined.

Record PaperOrder := {
  or_order_id : option string; or_intent_id : string; or_account_id : string; or_ts_code : string;
  or_side : PaperSide; or_order_type : PaperOrderType; or_quantity : Z; or_filled_quantity : Z;
  or_average_fill_price : option dec; or_status : PaperOrderStatus;
  or_reject_reason : option PaperRejectReason; or_created_at : Z; or_updated_at : Z
}.

Record PaperFill := {
  fi_fill_id : option string; fi_execution_id : string; fi_order_id : string; fi_sequence : Z;
  fi_quantity : Z; fi_price : dec; fi_commission : dec; fi_transfer_fee : option dec; fi_tax : dec;
  fi_total_fees : option dec; fi_cost_spec_id : option string;
  fi_cost_spec_schema_version : option Z; fi_cost_context_fingerprint : option string;
  fi_cost_provenance_state : PaperCostProvenanceState; fi_executed_at : Z; fi_price_snapshot_id : string
}.

Record PaperExecutionReceipt := {
  er_execution_id : string; er_request_fingerprint : string; er_intent_id : string; er_order : PaperOrder;
  er_fill : option PaperFill; er_cost_spec_id : option string; er_cost_spec_schema_version : option Z;
  er_cost_context_fingerprint : option string; er_cost_provenance_state : PaperCostProvenanceState;
  er_cost_calculation : option ExecutionCostCalculation; er_persisted_at : Z
}.

(** ** Holdings and accounts *)

Record PaperHolding := {
  ho_code : string; ho_quantity : Z; ho_available_quantity : Z; ho_frozen_quantity : Z;
  ho_average_cost : dec; ho_market_price : dec
}.

Record PaperAccountSnapshot := {
  ac_snapshot_id : option string; ac_account_id : string; ac_as_of_time : Z; ac_cash : dec;
  ac_available_cash : dec; ac_frozen_cash : dec; ac_holdings : list PaperHolding;
  ac_realized_pnl : dec; ac_unrealized_pnl : dec; ac_nav : dec
}.

(** [canonical_sha256] of the contracts' contents; an identifier inside the content is absent. *)
Class PaperDigest := {
  authority_sha256 : PaperSellQuantityAuthority -> string;
  intent_sha256 : PaperOrderIntent -> string;
  order_sha256 : string -> string -> string;
  fill_sha256 : string -> string -> string;
  snapshot_sha256 : PaperAccountSnapshot -> string
}.

(** Digests are 64 hexadecimal digits. *)
Class PaperDigestLaws `{PaperDigest} : Prop := {
  authority_hex : forall a, is_hex64 (authority_sha256 a) = true;
  intent_hex : forall i, is_hex64 (intent_sha256 i) = true;
  order_hex : forall a i, is_hex64 (order_sha256 a i) = true;
  fill_hex : forall o e, is_hex64 (fill_sha256 o e) = true;
  snapshot_hex : forall s, is_hex64 (snapshot_sha256 s) = true
}.

(** [if self.x_id is None: set expected; elif self.x_id != expected: raise]. *)
Definition settle_id (id : option string) (expected : string) (message : string) : res string :=
  match id with
  | None => Ok expected
  | Some id => raise_if negb (eqs id expected) as ValueError saying message ;; Ok expected
  end.

Section Validators.
Context `{PaperDigest}.

Definition validate_quantity_semantics (a : PaperSellQuantityAuthority) : res PaperSellQuantityAuthority :=
  raise_if negb (opt_all is_hex64 (sa_snapshot_id a) && is_hex64 (sa_exit_signal_id a)
                 && is_hex64 (sa_entry_signal_id a) && nonempty (sa_account_id a) && nonempty (sa_ts_code a)
                 && positive_lot (sa_remaining_quantity a) && nonneg_lot (sa_available_quantity a)
                 && dpos (sa_tranche_fraction a) && dleb (sa_tranche_fraction a) done_
                 && positive_lot (sa_requested_quantity a) && is_hex64 (sa_source_lot_fingerprint a))
    as ValueError saying "field out of range" ;;
  raise_if sa_remaining_quantity a <? sa_available_quantity a
    as ValueError saying "available_quantity cannot exceed remaining_quantity" ;;
  expected <~
    (match sa_action a with
     | S_INTENT =>
         raise_if negb (deqb (sa_tranche_fraction a) done_)
           as ValueError saying "S_INTENT tranche_fraction must equal one" ;;
         Ok (sa_remaining_quantity a)
     | REDUCE =>
         raise_if dleb done_ (sa_tranche_fraction a)
           as ValueError saying "REDUCE tranche_fraction must be below one" ;;
         let shares := dfloor (dmul (of_Z (sa_remaining_quantity a)) (sa_tranche_fraction a)) in
         let expected := shares / 100 * 100 in
         raise_if (expected <=? 0) || (sa_remaining_quantity a <=? expected)
           as ValueError saying "REDUCE has no legal partial 100-share lot" ;;
         Ok expected
     end) ;;
  raise_if negb (sa_requested_quantity a =? expected)
    as ValueError saying "requested_quantity does not match tranche semantics" ;;
  id <~ settle_id (sa_snapshot_id a) (authority_sha256 (with_snapshot_id a None))
          "sell quantity snapshot_id does not match authority content" ;;
  Ok (with_snapshot_id a (Some id)).

Definition with_intent (i : PaperOrderIntent) (id : option string)
    (authority : option PaperSellQuantityAuthority) : PaperOrderIntent := {|
  in_intent_id := id; in_signal_id := in_signal_id i; in_entry_signal_id := in_entry_signal_id i;
  in_sell_quantity_authority := authority; in_account_id := in_account_id i; in_ts_code := in_ts_code i;
  in_side := in_side i; in_order_type := in_order_type i; in_quantity := in_quantity i;
  in_limit_price := in_limit_price i; in_event_time := in_event_time i; in_available_at := in_available_at i;
  in_expires_at := in_expires_at i; in_earliest_execution_at := in_earliest_execution_at i;
  in_price_snapshot_id := in_price_snapshot_id i; in_producer_commit := in_producer_commit i |}.

Definition opt_rmap {A B} (f : A -> res B) (o : option A) : res (option B) :=
  match o with None => Ok None | Some x => y <~ f x ;; Ok (Some y) end.

Definition authority_matches (i : PaperOrderIntent) (a : PaperSellQuantityAuthority) : bool :=
  eqs (sa_exit_signal_id a) (in_signal_id i) && bool_decide (Some (sa_entry_signal_id a) = in_entry_signal_id i)
  && eqs (sa_account_id a) (in_account_id i) && eqs (sa_ts_code a) (in_ts_code i)
  && (sa_requested_quantity a =? in_quantity i).

Definition validate_intent (i : PaperOrderIntent) : res PaperOrderIntent :=
  raise_if negb (opt_all is_hex64 (in_intent_id i) && is_hex64 (in_signal_id i)
                 && opt_all is_hex64 (in_entry_signal_id i) && nonempty (in_account_id i) && nonempty (in_ts_code i)
                 && positive_lot (in_quantity i) && opt_all dpos (in_limit_price i)
                 && is_hex64 (in_price_snapshot_id i) && is_commit (in_producer_commit i))
    as ValueError saying "field out of range" ;;
  authority <~ opt_rmap validate_quantity_semantics (in_sell_quantity_authority i) ;;
  raise_if bool_decide (in_side i = buy) && bool_decide (is_Some (in_entry_signal_id i))
    as ValueError saying "BUY intent entry_signal_id must be absent" ;;
  raise_if bool_decide (in_side i = buy) && bool_decide (is_Some authority)
    as ValueError saying "BUY intent sell_quantity_authority must be absent" ;;
  raise_if bool_decide (in_side i = sell) && negb (bool_decide (is_Some (in_entry_signal_id i)))
    as ValueError saying "SELL intent entry_signal_id is required" ;;
  raise_if bool_decide (in_side i = sell) && negb (bool_decide (is_Some authority))
    as ValueError saying "SELL intent sell_quantity_authority is required" ;;
  raise_if negb (opt_all (authority_matches i) authority)
    as ValueError saying "SELL intent does not match sell quantity authority" ;;
  raise_if bool_decide (in_order_type i = LIMIT) && negb (bool_decide (is_Some (in_limit_price i)))
    as ValueError saying "limit_price is required for LIMIT orders" ;;
  raise_if bool_decide (in_order_type i = MARKET) && bool_decide (is_Some (in_limit_price i))
    as ValueError saying "limit_price is only valid for LIMIT orders" ;;
  raise_if in_available_at i <? in_event_time i
    as ValueError saying "event_time must be before or equal to available_at" ;;
  raise_if in_expires_at i <=? in_available_at i
    as ValueError saying "expires_at must be later than available_at" ;;
  raise_if in_earliest_execution_at i <? in_available_at i
    as ValueError saying "earliest_execution_at must be after or equal to available_at" ;;
  raise_if in_expires_at i <=? in_earliest_execution_at i
    as ValueError saying "earliest_execution_at must be earlier than expires_at" ;;
  id <~ settle_id (in_intent_id i) (intent_sha256 (with_intent i None authority))
          "intent_id does not match canonical intent content" ;;
  Ok (with_intent i (Some id) authority).

Definition with_order_id (o : PaperOrder) (id : string) : PaperOrder := {|
  or_order_id := Some id; or_intent_id := or_intent_id o; or_account_id := or_account_id o;
  or_ts_code := or_ts_code o; or_side := or_side o; or_order_type := or_order_type o;
  or_quantity := or_quantity o; or_filled_quantity := or_filled_quantity o;
  or_average_fill_price := or_average_fill_price o; or_status := or_status o;
  or_reject_reason := or_reject_reason o; or_created_at := or_created_at o; or_updated_at := or_updated_at o |}.

Definition validate_order (o : PaperOrder) : res PaperOrder :=
  let q := or_quantity o in
  let f := or_filled_quantity o in
  raise_if negb (opt_all is_hex64 (or_order_id o) && is_hex64 (or_intent_id o) && nonempty (or_account_id o)
                 && nonempty (or_ts_code o) && positive_lot q && nonneg_lot f
                 && opt_all dpos (or_average_fill_price o))
    as ValueError saying "field out of range" ;;
  raise_if q <? f as ValueError saying "filled_quantity cannot exceed quantity" ;;
  raise_if or_updated_at o <? or_created_at o
    as ValueError saying "updated_at cannot be earlier than created_at" ;;
  raise_if negb (Bool.eqb (0 <? f) (bool_decide (is_Some (or_average_fill_price o))))
    as ValueError saying "average_fill_price must be present iff fills exist" ;;
  _ <~ (match or_status o with
        | PO_PENDING | PO_ACCEPTED =>
            raise_if negb (f =? 0) as ValueError saying "order cannot have fills" ;; Ok tt
        | PO_PARTIALLY_FILLED =>
            raise_if negb ((0 <? f) && (f <? q))
              as ValueError saying "PARTIALLY_FILLED requires filled_quantity between zero and quantity" ;; Ok tt
        | PO_FILLED =>
            raise_if negb (f =? q) as ValueError saying "FILLED requires filled_quantity equal to quantity" ;; Ok tt
        | PO_REJECTED =>
            raise_if negb (f =? 0) as ValueError saying "REJECTED order cannot have fills" ;;
            raise_if negb (bool_decide (is_Some (or_reject_reason o)))
              as ValueError saying "reject_reason is required for REJECTED orders" ;; Ok tt
        | PO_CANCELLED | PO_EXPIRED =>
            raise_if q <=? f as ValueError saying "closed order requires unfilled quantity to remain" ;; Ok tt
        end) ;;
  raise_if negb (bool_decide (or_status o = PO_REJECTED)) && bool_decide (is_Some (or_reject_reason o))
    as ValueError saying "reject_reason is only valid for REJECTED orders" ;;
  id <~ settle_id (or_order_id o) (order_sha256 (or_account_id o) (or_intent_id o))
          "order_id does not match intent_id and account_id" ;;
  Ok (with_order_id o id).

Definition with_fill_id (f : PaperFill) (id : string) : PaperFill := {|
  fi_fill_id := Some id; fi_execution_id := fi_execution_id f; fi_order_id := fi_order_id f;
  fi_sequence := fi_sequence f; fi_quantity := fi_quantity f; fi_price := fi_price f;
  fi_commission := fi_commission f; fi_transfer_fee := fi_transfer_fee f; fi_tax := fi_tax f;
  fi_total_fees := fi_total_fees f; fi_cost_spec_id := fi_cost_spec_id f;
  fi_cost_spec_schema_version := fi_cost_spec_schema_version f;
  fi_cost_context_fingerprint := fi_cost_context_fingerprint f;
  fi_cost_provenance_state := fi_cost_provenance_state f; fi_executed_at := fi_executed_at f;
  fi_price_snapshot_id := fi_price_snapshot_id f |}.

(** [validate_cost_provenance]. *)
Definition validate_cost_provenance (f : PaperFill) : res PaperFill :=
  match fi_cost_provenance_state f with
  | LEGACY_UNKNOWN =>
      raise_if bool_decide (is_Some (fi_transfer_fee f)) || bool_decide (is_Some (fi_total_fees f))
               || bool_decide (is_Some (fi_cost_spec_id f)) || bool_decide (is_Some (fi_cost_spec_schema_version f))
               || bool_decide (is_Some (fi_cost_context_fingerprint f))
        as ValueError saying "legacy paper fill must not invent v3 cost provenance" ;;
      Ok f
  | KNOWN_V3 =>
      match fi_transfer_fee f, fi_total_fees f, fi_cost_spec_id f, fi_cost_spec_schema_version f,
            fi_cost_context_fingerprint f with
      | Some transfer_fee, Some total_fees, Some _, Some _, Some _ =>
          raise_if negb (deqb total_fees (dadd (dadd (fi_commission f) transfer_fee) (fi_tax f)))
            as ValueError saying "paper fill total_fees must equal its fee components" ;;
          Ok f
      | _, _, _, _, _ => Err (Raise ValueError "known v3 paper fill requires complete cost provenance")
      end
  end.

Definition validate_fill (f : PaperFill) : res PaperFill :=
  raise_if negb (opt_all is_hex64 (fi_fill_id f) && is_hex64 (fi_execution_id f) && is_hex64 (fi_order_id f)
                 && (1 <=? fi_sequence f) && positive_lot (fi_quantity f) && dpos (fi_price f)
                 && dnonneg (fi_commission f) && opt_all dnonneg (fi_transfer_fee f) && dnonneg (fi_tax f)
                 && opt_all dnonneg (fi_total_fees f) && opt_all is_hex64 (fi_cost_spec_id f)
                 && opt_all (Z.eqb 3) (fi_cost_spec_schema_version f)
                 && opt_all is_hex64 (fi_cost_context_fingerprint f) && is_hex64 (fi_price_snapshot_id f))
    as ValueError saying "field out of range" ;;
  id <~ settle_id (fi_fill_id f) (fill_sha256 (fi_order_id f) (fi_execution_id f))
          "fill_id does not match order_id and execution_id" ;;
  validate_cost_provenance (with_fill_id f id).

(** [PaperFill.notional]. *)
Definition fill_notional (f : PaperFill) : dec := dmul (fi_price f) (of_Z (fi_quantity f)).

Definition opt_deqb (a b : option dec) : bool :=
  match a, b with Some a, Some b => deqb a b | None, None => true | _, _ => false end.

(** The fill agrees with the receipt's cost evidence. *)
Definition receipt_matches_fill (r : PaperExecutionReceipt) (f : PaperFill) (c : ExecutionCostCalculation) : bool :=
  bool_decide (fi_cost_provenance_state f = KNOWN_V3)
  && bool_decide (fi_cost_spec_id f = er_cost_spec_id r)
  && bool_decide (fi_cost_spec_schema_version f = er_cost_spec_schema_version r)
  && bool_decide (fi_cost_context_fingerprint f = er_cost_context_fingerprint r)
  && deqb (fi_price f) (ec_executed_price c) && deqb (fi_commission f) (ec_commission c)
  && opt_deqb (fi_transfer_fee f) (Some (ec_transfer_fee c)) && deqb (fi_tax f) (ec_stamp_duty c)
  && opt_deqb (fi_total_fees f) (Some (ec_total_fees c)).

(** The nested contracts are validated first. *)
Definition validate_execution (r : PaperExecutionReceipt) : res PaperExecutionReceipt :=
  raise_if negb (is_hex64 (er_execution_id r) && is_hex64 (er_request_fingerprint r) && is_hex64 (er_intent_id r)
                 && opt_all is_hex64 (er_cost_spec_id r) && opt_all (Z.eqb 3) (er_cost_spec_schema_version r)
                 && opt_all is_hex64 (er_cost_context_fingerprint r))
    as ValueError saying "field out of range" ;;
  order <~ validate_order (er_order r) ;;
  fill <~ opt_rmap validate_fill (er_fill r) ;;
  calculation <~ opt_rmap mk_calculation (er_cost_calculation r) ;;
  let r := {| er_execution_id := er_execution_id r; er_request_fingerprint := er_request_fingerprint r;
              er_intent_id := er_intent_id r; er_order := order; er_fill := fill;
              er_cost_spec_id := er_cost_spec_id r; er_cost_spec_schema_version := er_cost_spec_schema_version r;
              er_cost_context_fingerprint := er_cost_context_fingerprint r;
              er_cost_provenance_state := er_cost_provenance_state r; er_cost_calculation := calculation;
              er_persisted_at := er_persisted_at r |} in
  raise_if negb (eqs (or_intent_id order) (er_intent_id r))
    as ValueError saying "execution receipt does not bind its intent and order" ;;
  raise_if negb (opt_all (fun f => eqs (fi_execution_id f) (er_execution_id r)
                                   && bool_decide (Some (fi_order_id f) = or_order_id order)) fill)
    as ValueError saying "execution receipt does not bind its order and fill" ;;
  match er_cost_provenance_state r with
  | LEGACY_UNKNOWN =>
      raise_if bool_decide (is_Some (er_cost_spec_id r)) || bool_decide (is_Some (er_cost_spec_schema_version r))
               || bool_decide (is_Some (er_cost_context_fingerprint r)) || bool_decide (is_Some calculation)
        as ValueError saying "legacy execution receipt must not invent v3 cost provenance" ;;
      Ok r
  | KNOWN_V3 =>
      raise_if negb (bool_decide (is_Some (er_cost_spec_id r)) && bool_decide (is_Some (er_cost_spec_schema_version r))
                     && bool_decide (is_Some (er_cost_context_fingerprint r)))
        as ValueError saying "known v3 execution receipt requires complete cost provenance" ;;
      _ <~ (match fill, calculation with
            | None, _ => Ok tt
            | Some _, None => Err (Raise ValueError "known v3 fill receipt requires resolved cost calculation")
            | Some f, Some c =>
                raise_if negb (receipt_matches_fill r f c)
                  as ValueError saying "known v3 execution receipt does not match its fill" ;; Ok tt
            end) ;;
      raise_if negb (opt_all (fun c => bool_decide (Some (ec_cost_spec_id c) = er_cost_spec_id r)
                                       && bool_decide (er_cost_spec_schema_version r = Some 3)
                                       && bool_decide (Some (ec_cost_context_fingerprint c)
                                                       = er_cost_context_fingerprint r)) calculation)
        as ValueError saying "known v3 execution receipt does not match cost calculation" ;;
      Ok r
  end.

Definition reconcile_quantities (h : PaperHolding) : res PaperHolding :=
  raise_if negb (nonempty (ho_code h) && nonneg_lot (ho_quantity h) && nonneg_lot (ho_available_quantity h)
                 && nonneg_lot (ho_frozen_quantity h) && dnonneg (ho_average_cost h) && dnonneg (ho_market_price h))
    as ValueError saying "field out of range" ;;
  raise_if negb (ho_quantity h =? ho_available_quantity h + ho_frozen_quantity h)
    as ValueError saying "quantity must equal available_quantity plus frozen_quantity" ;;
  raise_if (0 <? ho_quantity h) && dleb (ho_average_cost h) dzero
    as ValueError saying "average_cost must be positive for a non-empty holding" ;;
  raise_if (0 <? ho_quantity h) && dleb (ho_market_price h) dzero
    as ValueError saying "market_price must be positive for a non-empty holding" ;;
  Ok h.

(** [sum(..., Decimal("0"))]. *)
Definition dsum {A} (f : A -> dec) (l : list A) : dec := fold_left (fun acc x => dadd acc (f x)) l dzero.

Definition holding_gain (h : PaperHolding) : dec :=
  dmul (dsub (ho_market_price h) (ho_average_cost h)) (of_Z (ho_quantity h)).
Definition holding_value (h : PaperHolding) : dec := dmul (ho_market_price h) (of_Z (ho_quantity h)).

(** [sorted(holdings, key=lambda item: item.code)], a stable insertion sort. *)
Fixpoint insert_holding (h : PaperHolding) (l : list PaperHolding) : list PaperHolding :=
  match l with
  | [] => [h]
  | h' :: l' => if bool_decide (String.le (ho_code h) (ho_code h')) then h :: l else h' :: insert_holding h l'
  end.
Definition sorted_holdings (l : list PaperHolding) : list PaperHolding := fold_right insert_holding [] l.

Definition with_snapshot (s : PaperAccountSnapshot) (id : option string) (holdings : list PaperHolding)
    : PaperAccountSnapshot := {|
  ac_snapshot_id := id; ac_account_id := ac_account_id s; ac_as_of_time := ac_as_of_time s;
  ac_cash := ac_cash s; ac_available_cash := ac_available_cash s; ac_frozen_cash := ac_frozen_cash s;
  ac_holdings := holdings; ac_realized_pnl := ac_realized_pnl s; ac_unrealized_pnl := ac_unrealized_pnl s;
  ac_nav := ac_nav s |}.

Definition reconcile_account (s : PaperAccountSnapshot) : res PaperAccountSnapshot :=
  raise_if negb (opt_all is_hex64 (ac_snapshot_id s) && nonempty (ac_account_id s) && dnonneg (ac_cash s)
                 && dnonneg (ac_available_cash s) && dnonneg (ac_frozen_cash s) && dnonneg (ac_nav s))
    as ValueError saying "field out of range" ;;
  holdings <~ rmap reconcile_quantities (ac_holdings s) ;;
  raise_if negb (deqb (ac_cash s) (dadd (ac_available_cash s) (ac_frozen_cash s)))
    as ValueError saying "cash must equal available_cash plus frozen_cash" ;;
  raise_if negb (bool_decide (NoDup (map ho_code holdings)))
    as ValueError saying "holdings must contain unique code values" ;;
  let holdings := sorted_holdings holdings in
  raise_if negb (deqb (ac_unrealized_pnl s) (dsum holding_gain holdings))
    as ValueError saying "unrealized_pnl must reconcile to holding market values and costs" ;;
  raise_if negb (deqb (ac_nav s) (dadd (ac_cash s) (dsum holding_value holdings)))
    as ValueError saying "nav must equal cash plus holdings market value" ;;
  id <~ settle_id (ac_snapshot_id s) (snapshot_sha256 (with_snapshot s None holdings))
          "snapshot_id does not match reconciled account content" ;;
  Ok (with_snapshot s (Some id) holdings).
End Validators.
