(* ===== verification/PaperBroker.v ===== *)
(** * The paper-trading ledger ([src/rquant/paper_broker.py])

    [PaperBrokerStore] keeps one SQLite file of accounts, intents, orders, fills, lots, lot
    consumptions and execution receipts, every change of which is attested by a chain of digests.
    The tables of schema version 5 are the fields of [ledger]; every method is one definition on it,
    and every INSERT checks the constraints and triggers of its table.  A text column that holds a
    decimal holds the decimal it denotes, a timestamp its instant, a date its day number, and a JSON
    column the value it encodes.  Migration from older schemas is not modelled. *)

From Stdlib Require Import ZArith Lia Bool.
From stdpp Require Import base list strings.
From S2P Require Import Prelude Clock Decimal OrderCosts PaperContracts.
Open Scope Z_scope.
Open Scope rq_scope.

#[export] Instance context_eq_dec : EqDecision InstrumentContext.
Proof. solve_decision. Defined.
#[export] Instance order_input_eq_dec : EqDecision ExecutionCostOrderInput.
Proof. solve_decision. Defined.
#[export] Instance calculation_eq_dec : EqDecision ExecutionCostCalculation.
Proof. solve_decision. Defined.

#[export] Instance paper_fill_eq_dec : EqDecision PaperFill.
Proof. solve_decision. Defined.
#[export] Instance applicability_eq_dec : EqDecision ExecutionCostApplicability.
Proof. solve_decision. Defined.
#[export] Instance selector_eq_dec : EqDecision InstrumentSelector.
Proof. solve_decision. Defined.
#[export] Instance fee_rule_eq_dec : EqDecision ExecutionCostFeeRule.
Proof. solve_decision. Defined.
#[export] Instance slippage_eq_dec : EqDecision ExecutionCostSlippage.
Proof. solve_decision. Defined.
#[export] Instance cost_money_eq_dec : EqDecision ExecutionCostMoney.
Proof. solve_decision. Defined.

(** ** Settings and requests *)

Record BrokerCostPolicy := { cp_execution_cost_spec : ExecutionCostSpec; cp_cost_spec_id : option string }.

Definition validate_cost_policy `{CostDigest} (p : BrokerCostPolicy) : res BrokerCostPolicy :=
  raise_if negb (opt_all is_hex64 (cp_cost_spec_id p)) as ValueError saying "field out of range" ;;
  spec <~ validate_versioned_contract (cp_execution_cost_spec p) ;;
  match (cs_schema_version spec =? 3), cs_cost_spec_id spec with
  | true, Some id =>
      match cp_cost_spec_id p with
      | None => Ok {| cp_execution_cost_spec := spec; cp_cost_spec_id := Some id |}
      | Some pid =>
          raise_if negb (eqs pid id)
            as ValueError saying "paper broker cost_spec_id must match execution_cost_spec" ;;
          Ok {| cp_execution_cost_spec := spec; cp_cost_spec_id := Some id |}
      end
  | _, _ => Err (Raise ValueError "paper broker requires an alignment-eligible v3 execution_cost_spec")
  end.

Record BrokerExecutionContext := {
  bx_executable_price : dec; bx_instrument_context : InstrumentContext; bx_executable_quantity : option Z;
  bx_acquisition_available_date : option Z; bx_suspended : bool; bx_limit_locked : bool; bx_risk_rejected : bool
}.

#[export] Instance quote_eq_dec : EqDecision BrokerExecutionContext.
Proof. solve_decision. Defined.

Definition validate_quote (q : BrokerExecutionContext) : res BrokerExecutionContext :=
  raise_if negb (dpos (bx_executable_price q) && opt_all nonneg_lot (bx_executable_quantity q))
    as ValueError saying "field out of range" ;;
  _ <~ validate_context (bx_instrument_context q) ;;
  Ok q.

(** The evidence of one execution request, as [_execution_request_evidence] stores it. *)
Inductive request_kind :=
  | INITIAL (intent_id : string) (decision_time : Z)
  | INCREMENTAL (order_id : string) (executed_at quantity : Z) (price_snapshot_id : string).

Record exec_request := {
  rq_kind : request_kind; rq_execution_id : string; rq_persisted_at : Z; rq_trade_date : Z;
  rq_quote : BrokerExecutionContext; rq_cost_evidence : ExecutionCostCalculation
}.

(** ** Tables *)

Record account_row := {
  ba_account_id : string; ba_initial_cash : dec; ba_cash : dec; ba_realized_pnl : dec;
  ba_cost_policy_fingerprint : string; ba_cost_spec_id : option string;
  ba_cost_spec_schema_version : option Z; ba_cost_provenance_state : PaperCostProvenanceState
}.

(** [cs_row_canonical_json]: the content of the canonical JSON of a cost contract. *)
Record cost_spec_row := {
  csr_cost_spec_id : string; csr_schema_version : Z; csr_cost_engine_version : string;
  csr_canonical_json : cost_identity; csr_persisted_at : Z
}.

Record intent_row := {
  pi_intent_id : string; pi_account_id : string; pi_signal_id : string; pi_entry_signal_id : option string;
  pi_ts_code : string; pi_side : PaperSide; pi_initial_execution_id : string;
  pi_initial_execution_request_fingerprint : string; pi_payload_json : PaperOrderIntent; pi_persisted_at : Z
}.

(** [po_order] holds the columns that [_order_from_row] reads, [pf_fill] those of [_fill_from_row]. *)
Record order_row := { po_order_id : string; po_entry_signal_id : option string; po_order : PaperOrder }.
Record fill_row := { pf_fill_id : string; pf_fill : PaperFill; pf_persisted_at : Z }.

Record lot_row := {
  lo_lot_id : string; lo_account_id : string; lo_ts_code : string; lo_entry_signal_id : string;
  lo_acquisition_trade_date : Z; lo_available_date : Z; lo_original_quantity : Z;
  lo_remaining_quantity : Z; lo_unit_cost : dec; lo_persisted_at : Z; lo_buy_executed_at : Z;
  lo_buy_persisted_at : Z; lo_buy_fill_sequence : Z
}.

Record consumption_row := {
  co_fill_id : string; co_lot_id : string; co_quantity : Z; co_unit_cost : dec; co_persisted_at : Z
}.

Record receipt_row := {
  re_execution_id : string; re_account_id : string; re_intent_id : string; re_order_id : string;
  re_request_fingerprint : string; re_request_json : exec_request; re_receipt_json : PaperExecutionReceipt;
  re_transfer_fee : option dec; re_total_fees : option dec; re_cost_spec_id : option string;
  re_cost_spec_schema_version : option Z; re_cost_context_fingerprint : option string;
  re_cost_provenance_state : PaperCostProvenanceState; re_persisted_at : Z
}.

Record authority_row := {
  au_account_id : string; au_revision : Z; au_state_fingerprint : string; au_producer_commit : string;
  au_snapshot_json : PaperAccountSnapshot
}.

(** [unknown]: the counts of the [_LEDGER_UNKNOWN_COLUMNS]. *)
Record schema_row := { sc_schema_version : Z; sc_internal_migration_version : Z; sc_unknown : list Z }.

(** The [_LEDGER_ATTESTATION_COUNT_COLUMNS]. *)
Record counts := {
  n_accounts : Z; n_intents : Z; n_orders : Z; n_fills : Z; n_lots : Z; n_consumptions : Z;
  n_receipts : Z; n_authorities : Z
}.

#[export] Instance counts_eq_dec : EqDecision counts.
Proof. solve_decision. Defined.

(** The columns of an attestation that its payload repeats, and the row. *)
Record attestation := {
  at_revision : Z; at_ledger_generation : string; at_migration_version : Z; at_schema_version : Z;
  at_schema_fingerprint : string; at_previous_attestation_fingerprint : option string;
  at_migration_attestation_fingerprint : string; at_event_kind : string; at_event_fingerprint : string;
  at_counts : counts; at_persisted_at : Z
}.

#[export] Instance attestation_eq_dec : EqDecision attestation.
Proof. solve_decision. Defined.

Record attestation_row := {
  ar_columns : attestation; ar_payload_json : attestation; ar_attestation_fingerprint : string
}.

Record head_marker := {
  hm_revision : Z; hm_ledger_generation : string; hm_migration_version : Z; hm_schema_version : Z;
  hm_schema_fingerprint : string; hm_attestation_fingerprint : string;
  hm_previous_head_marker_fingerprint : option string; hm_migration_attestation_fingerprint : string;
  hm_counts : counts; hm_persisted_at : Z
}.

#[export] Instance head_marker_eq_dec : EqDecision head_marker.
Proof. solve_decision. Defined.

Record head_marker_row := {
  hr_columns : head_marker; hr_payload_json : head_marker; hr_head_marker_fingerprint : string
}.

(** [tamper_markers]: the ids of the [paper_ledger_tamper_marker] rows. *)
Record ledger := {
  accounts : list account_row; cost_specs : list cost_spec_row; intents : list intent_row;
  orders : list order_row; fills : list fill_row; lots : list lot_row;
  consumptions : list consumption_row; receipts : list receipt_row; authorities : list authority_row;
  schema_meta : option schema_row; attestations : list attestation_row;
  head_markers : list head_marker_row; tamper_markers : list Z
}.

(** An attested event; the one of an account's authority is its state fingerprint itself. *)
Inductive ledger_event :=
  | account_bootstrap (account_id : string) (initial_cash : dec) (cost_spec_id : string)
  | intent_execution (intent : PaperOrderIntent) (receipt : PaperExecutionReceipt)
  | incremental_execution (receipt : PaperExecutionReceipt)
  | order_close (order_id : string) (status : PaperOrderStatus) (decided_at persisted_at : Z).

(** The evidence of one lot: its identifier, quantity, times and visible consumptions. *)
Abbreviation lot_evidence := (string * Z * Z * Z * list (string * Z * Z))%type.

(** [canonical_sha256] and [sha256] of the broker's values. *)
Class BrokerDigest := {
  initial_execution_sha256 : string -> Z -> Z -> string -> string;
  request_sha256 : exec_request -> string;
  lots_sha256 : string -> string -> string -> Z -> list lot_evidence -> string;
  attestation_sha256 : attestation -> string;
  head_marker_sha256 : head_marker -> string;
  event_sha256 : ledger_event -> string;
  account_state_sha256 : PaperAccountSnapshot -> string
}.

Class BrokerDigestLaws `{BrokerDigest} : Prop := {
  initial_execution_hex : forall i d p s, is_hex64 (initial_execution_sha256 i d p s) = true;
  request_hex : forall r, is_hex64 (request_sha256 r) = true;
  lots_hex : forall a e t d l, is_hex64 (lots_sha256 a e t d l) = true
}.

(** Facts about the schema itself, which no method changes: the archive of version 4 validates
    ([_validate_v4_archive]), the fingerprint of [sqlite_master] ([_schema_fingerprint]) and the
    digest of the stored migration report ([validate_migration_attestation]).  [shanghai_date] is the
    calendar day of an instant in the time zone Asia/Shanghai. *)
Class LedgerEnv := {
  v4_archive_ok : bool;
  schema_fingerprint : option string;
  migration_digest : res string;
  shanghai_date : Z -> Z
}.

(** [_money], and [Decimal] of its text: a positive exponent is written out. *)
Definition money (d : dec) : dec := if 0 <? expo d then Dec (mant d * 10 ^ expo d) 0 else d.

(** ** The attestation chain *)

Definition LEDGER_MIGRATION_VERSION : Z := 4.

(** [ORDER BY revision DESC LIMIT 1]. *)
Definition latest_by {R} (revision : R -> Z) (t : list R) : option R :=
  fold_left (fun best r => match best with
                           | Some b => if revision b <? revision r then Some r else Some b
                           | None => Some r
                           end) t None.

Definition counts_list (c : counts) : list Z :=
  [n_accounts c; n_intents c; n_orders c; n_fills c; n_lots c; n_consumptions c; n_receipts c; n_authorities c].

Definition add_counts (a b : counts) : counts := {|
  n_accounts := n_accounts a + n_accounts b; n_intents := n_intents a + n_intents b;
  n_orders := n_orders a + n_orders b; n_fills := n_fills a + n_fills b; n_lots := n_lots a + n_lots b;
  n_consumptions := n_consumptions a + n_consumptions b; n_receipts := n_receipts a + n_receipts b;
  n_authorities := n_authorities a + n_authorities b |}.

Definition no_counts : counts := {|
  n_accounts := 0; n_intents := 0; n_orders := 0; n_fills := 0; n_lots := 0; n_consumptions := 0;
  n_receipts := 0; n_authorities := 0 |}.

Definition unreconciled {A} (message : string) : res A := Err (Raise PaperBrokerReconciliationError message).

Definition with_attestations (db : ledger) (ats : list attestation_row) (hms : list head_marker_row) : ledger := {|
  accounts := accounts db; cost_specs := cost_specs db; intents := intents db; orders := orders db;
  fills := fills db; lots := lots db; consumptions := consumptions db; receipts := receipts db;
  authorities := authorities db; schema_meta := schema_meta db; attestations := ats; head_markers := hms;
  tamper_markers := tamper_markers db |}.

Section Attestation.
Context `{BrokerDigest}.

Definition validate_attestation_row (r : attestation_row) : res attestation :=
  raise_if negb (bool_decide (ar_payload_json r = ar_columns r)
                 && eqs (ar_attestation_fingerprint r) (attestation_sha256 (ar_columns r)))
    as PaperBrokerReconciliationError saying "paper ledger attestation content binding is invalid" ;;
  Ok (ar_columns r).

Definition validate_head_marker_row (r : head_marker_row) : res head_marker :=
  raise_if negb (bool_decide (hr_payload_json r = hr_columns r)
                 && eqs (hr_head_marker_fingerprint r) (head_marker_sha256 (hr_columns r)))
    as PaperBrokerReconciliationError saying "paper ledger canonical head content binding is invalid" ;;
  Ok (hr_columns r).

(** The [compared_fields] of a marker and its attestation. *)
Definition marker_matches (m : head_marker) (a : attestation) : bool :=
  eqs (hm_ledger_generation m) (at_ledger_generation a) && (hm_migration_version m =? at_migration_version a)
  && (hm_schema_version m =? at_schema_version a) && eqs (hm_schema_fingerprint m) (at_schema_fingerprint a)
  && eqs (hm_migration_attestation_fingerprint m) (at_migration_attestation_fingerprint a)
  && bool_decide (hm_counts m = at_counts a) && (hm_persisted_at m =? at_persisted_at a).

Definition validate_canonical_head (db : ledger) (migration latest : attestation_row) : res unit :=
  raise_if negb (bool_decide (tamper_markers db = []))
    as PaperBrokerReconciliationError saying "paper ledger attestation deletion tamper marker is present" ;;
  match fetchone (fun m => hm_revision (hr_columns m) =? 1) (head_markers db),
        latest_by (fun m => hm_revision (hr_columns m)) (head_markers db) with
  | Some migration_marker, Some latest_marker =>
      mm <~ validate_head_marker_row migration_marker ;;
      lm <~ validate_head_marker_row latest_marker ;;
      raise_if negb ((hm_revision mm =? 1) && negb (bool_decide (is_Some (hm_previous_head_marker_fingerprint mm)))
                     && eqs (hm_attestation_fingerprint mm) (ar_attestation_fingerprint migration)
                     && (hm_revision lm =? at_revision (ar_columns latest))
                     && eqs (hm_attestation_fingerprint lm) (ar_attestation_fingerprint latest))
        as PaperBrokerReconciliationError saying "paper ledger canonical head conflicts with attestation head" ;;
      raise_if negb (marker_matches mm (ar_columns migration) && marker_matches lm (ar_columns latest))
        as PaperBrokerReconciliationError saying "paper ledger canonical head content conflicts with attestation" ;;
      if 1 <? hm_revision lm then
        match fetchone (fun m => hm_revision (hr_columns m) =? hm_revision lm - 1) (head_markers db) with
        | Some previous =>
            raise_if negb (bool_decide (Some (hr_head_marker_fingerprint previous)
                                        = hm_previous_head_marker_fingerprint lm))
              as PaperBrokerReconciliationError saying "paper ledger canonical head chain is detached" ;;
            Ok tt
        | None => unreconciled "paper ledger canonical head chain is detached"
        end
      else Ok tt
  | _, _ => unreconciled "paper ledger canonical head marker is missing"
  end.

Definition attestation_head (db : ledger) : res (attestation_row * attestation_row) :=
  match fetchone (fun a => at_revision (ar_columns a) =? 1) (attestations db),
        latest_by (fun a => at_revision (ar_columns a)) (attestations db) with
  | Some migration, Some latest =>
      mp <~ validate_attestation_row migration ;;
      lp <~ validate_attestation_row latest ;;
      raise_if negb (eqs (at_event_kind mp) "migration_audit"
                     && negb (bool_decide (is_Some (at_previous_attestation_fingerprint mp)))
                     && eqs (at_ledger_generation lp) (at_ledger_generation mp)
                     && eqs (at_migration_attestation_fingerprint lp) (at_migration_attestation_fingerprint mp))
        as PaperBrokerReconciliationError saying "paper ledger migration attestation conflicts with trust head" ;;
      _ <~ (if 1 <? at_revision lp then
              match fetchone (fun a => at_revision (ar_columns a) =? at_revision lp - 1) (attestations db) with
              | Some previous =>
                  raise_if negb (bool_decide (Some (ar_attestation_fingerprint previous)
                                              = at_previous_attestation_fingerprint lp))
                    as PaperBrokerReconciliationError
                    saying "paper ledger attestation head was rolled back or detached" ;;
                  Ok tt
              | None => unreconciled "paper ledger attestation head was rolled back or detached"
              end
            else Ok tt) ;;
      raise_if negb (forallb (fun '(l, m) => m <=? l) (combine (counts_list (at_counts lp)) (counts_list (at_counts mp))))
        as PaperBrokerReconciliationError
        saying "paper ledger attestation count rolled back below migration baseline" ;;
      _ <~ validate_canonical_head db migration latest ;;
      Ok (migration, latest)
  | _, _ => unreconciled "paper ledger attestation is missing"
  end.

(** The INSERTs of [_insert_attestation] with the constraints of the two tables. *)
Definition insert_attestation (db : ledger) (payload : attestation) : res ledger :=
  let fingerprint := attestation_sha256 payload in
  raise_if negb (1 <=? at_revision payload) || negb (forallb (Z.leb 0) (counts_list (at_counts payload)))
           || exists_row (fun a => (at_revision (ar_columns a) =? at_revision payload)
                                   || eqs (ar_attestation_fingerprint a) fingerprint) (attestations db)
    as IntegrityError saying "paper_ledger_attestation" ;;
  raise_if negb (in_int64 (at_revision payload)) as OverflowError saying "revision" ;;
  previous_marker <~
    (if 1 <? at_revision payload then
       match fetchone (fun m => hm_revision (hr_columns m) =? at_revision payload - 1) (head_markers db) with
       | Some m => Ok (Some (hr_head_marker_fingerprint m))
       | None => unreconciled "paper ledger canonical head predecessor is missing"
       end
     else Ok None) ;;
  let marker := {| hm_revision := at_revision payload; hm_ledger_generation := at_ledger_generation payload;
                   hm_migration_version := at_migration_version payload;
                   hm_schema_version := at_schema_version payload;
                   hm_schema_fingerprint := at_schema_fingerprint payload;
                   hm_attestation_fingerprint := fingerprint;
                   hm_previous_head_marker_fingerprint := previous_marker;
                   hm_migration_attestation_fingerprint := at_migration_attestation_fingerprint payload;
                   hm_counts := at_counts payload; hm_persisted_at := at_persisted_at payload |} in
  let marker_fingerprint := head_marker_sha256 marker in
  raise_if exists_row (fun m => (hm_revision (hr_columns m) =? hm_revision marker)
                                || eqs (hm_attestation_fingerprint (hr_columns m)) fingerprint
                                || eqs (hr_head_marker_fingerprint m) marker_fingerprint) (head_markers db)
    as IntegrityError saying "paper_ledger_head_marker" ;;
  Ok (with_attestations db
        (attestations db ++ [{| ar_columns := payload; ar_payload_json := payload;
                                ar_attestation_fingerprint := fingerprint |}])
        (head_markers db ++ [{| hr_columns := marker; hr_payload_json := marker;
                                hr_head_marker_fingerprint := marker_fingerprint |}])).

(** [now] is the clock reading [datetime.now(UTC)]; no caller passes a negative count. *)
Definition append_ledger_attestation (db : ledger) (event_kind event_fingerprint : string) (deltas : counts)
    (now : Z) : res ledger :=
  bind (migration, latest) from attestation_head db ;;
  raise_if negb (forallb (Z.leb 0) (counts_list deltas))
    as ValueError saying "ledger attestation count deltas are invalid" ;;
  insert_attestation db {|
    at_revision := at_revision (ar_columns latest) + 1;
    at_ledger_generation := at_ledger_generation (ar_columns latest);
    at_migration_version := LEDGER_MIGRATION_VERSION; at_schema_version := 5;
    at_schema_fingerprint := at_schema_fingerprint (ar_columns latest);
    at_previous_attestation_fingerprint := Some (ar_attestation_fingerprint latest);
    at_migration_attestation_fingerprint := at_migration_attestation_fingerprint (ar_columns migration);
    at_event_kind := event_kind; at_event_fingerprint := event_fingerprint;
    at_counts := add_counts (at_counts (ar_columns latest)) deltas; at_persisted_at := now |}.

(** ** Trust *)

Record PaperLedgerTrustStatus := {
  ts_trusted : bool; ts_schema_version : option Z; ts_reason : string; ts_unknown_evidence : list Z
}.

Definition quarantined (version : option Z) (reason : string) (unknown : list Z) : PaperLedgerTrustStatus :=
  {| ts_trusted := false; ts_schema_version := version; ts_reason := reason; ts_unknown_evidence := unknown |}.

Context `{LedgerEnv}.

(** The tables and the columns of version 5 exist. *)
Definition ledger_trust_status (db : ledger) : PaperLedgerTrustStatus :=
  match schema_meta db with
  | None => quarantined None "schema_metadata_missing" []
  | Some row =>
      let v := sc_schema_version row in
      let unknown := List.filter (Z.ltb 0) (sc_unknown row) in
      if negb (v =? 5) then quarantined (Some v) "unsupported_schema_version" unknown
      else if negb (sc_internal_migration_version row =? LEDGER_MIGRATION_VERSION)
      then quarantined (Some v) "unsupported_internal_migration_version" unknown
      else if negb v4_archive_ok then quarantined (Some v) "migration_archive_digest_mismatch" []
      else match schema_fingerprint with
           | None => quarantined (Some v) "attested_schema_incomplete" []
           | Some fingerprint =>
               match attestation_head db with
               | Err _ => quarantined (Some v) "migration_attestation_conflict" []
               | Ok (migration, latest) =>
                   match migration_digest with
                   | Err _ => quarantined (Some v) "migration_archive_digest_mismatch" unknown
                   | Ok digest =>
                       let m := ar_columns migration in
                       let l := ar_columns latest in
                       if negb ((at_migration_version m =? LEDGER_MIGRATION_VERSION)
                                && (at_migration_version l =? LEDGER_MIGRATION_VERSION)
                                && (at_schema_version m =? v) && (at_schema_version l =? v)
                                && eqs (at_schema_fingerprint m) fingerprint
                                && eqs (at_schema_fingerprint l) fingerprint
                                && eqs (at_migration_attestation_fingerprint m) digest
                                && eqs (at_migration_attestation_fingerprint l) digest)
                       then quarantined (Some v) "migration_attestation_schema_conflict" []
                       else if negb (bool_decide (unknown = []))
                       then quarantined (Some v) "unknown_legacy_execution_evidence" unknown
                       else {| ts_trusted := true; ts_schema_version := Some v;
                               ts_reason := "verified_schema_v5"; ts_unknown_evidence := [] |}
                   end
               end
           end
  end.

Definition require_schema_integrity (db : ledger) : res unit :=
  let status := ledger_trust_status db in
  if ts_trusted status then Ok tt
  else if bool_decide (ts_schema_version status = Some 5)
          && eqs (ts_reason status) "unknown_legacy_execution_evidence" then Ok tt
  else Err (Raise PaperLedgerQuarantinedError
              ("paper ledger is quarantined/untrusted: " +:+ ts_reason status)).

(** The settings of one [PaperBrokerStore], after [__init__]'s checks. *)
Record broker := { bk_account_id : string; bk_initial_cash : dec; bk_cost_policy : BrokerCostPolicy }.

Definition mk_broker `{CostDigest} (account_id : string) (initial_cash : dec) (policy : BrokerCostPolicy) : res broker :=
  policy <~ validate_cost_policy policy ;;
  raise_if negb (nonempty (strip account_id)) as ValueError saying "account_id must not be empty" ;;
  raise_if dleb initial_cash dzero as ValueError saying "initial_cash must be finite and positive" ;;
  Ok {| bk_account_id := strip account_id; bk_initial_cash := initial_cash; bk_cost_policy := policy |}.

Definition bk_spec (b : broker) : ExecutionCostSpec := cp_execution_cost_spec (bk_cost_policy b).

Definition fetch_account (b : broker) (db : ledger) : option account_row :=
  fetchone (fun a => eqs (ba_account_id a) (bk_account_id b)) (accounts db).

Definition require_active_cost_spec_authority (b : broker) (db : ledger) : res unit :=
  match cs_cost_spec_id (bk_spec b), cs_cost_engine_version (bk_spec b) with
  | Some id, Some version =>
      match fetchone (fun r => eqs (csr_cost_spec_id r) id) (cost_specs db) with
      | Some row =>
          raise_if negb ((csr_schema_version row =? 3) && eqs (csr_cost_engine_version row) version
                         && bool_decide (csr_canonical_json row = v3_identity_payload (bk_spec b)))
            as PaperLedgerQuarantinedError
            saying "paper broker account is quarantined and audit-only because its v3 cost authority does not match the active execution cost spec" ;;
          Ok tt
      | None => Err (Raise PaperLedgerQuarantinedError
            "paper broker account is quarantined and audit-only because its v3 cost authority does not match the active execution cost spec")
      end
  | _, _ => Err (Raise AssertionError "")
  end.

Definition require_execution_ready (b : broker) (db : ledger) : res unit :=
  _ <~ require_schema_integrity db ;;
  match fetch_account b db with
  | None => unreconciled "paper broker account is missing"
  | Some row =>
      raise_if negb (bool_decide (ba_cost_provenance_state row = KNOWN_V3)
                     && bool_decide (ba_cost_spec_schema_version row = Some 3)
                     && bool_decide (ba_cost_spec_id row = cp_cost_spec_id (bk_cost_policy b)))
        as PaperLedgerQuarantinedError
        saying "paper broker account is quarantined and audit-only because its cost provenance is not bound to the active v3 execution cost spec" ;;
      require_active_cost_spec_authority b db
  end.
End Attestation.

(** ** Rows and their constraints *)

Definition with_intents (db : ledger) (x : list intent_row) : ledger := {|
  accounts := accounts db; cost_specs := cost_specs db; intents := x; orders := orders db;
  fills := fills db; lots := lots db; consumptions := consumptions db; receipts := receipts db;
  authorities := authorities db; schema_meta := schema_meta db; attestations := attestations db;
  head_markers := head_markers db; tamper_markers := tamper_markers db |}.
Definition with_orders (db : ledger) (x : list order_row) : ledger := {|
  accounts := accounts db; cost_specs := cost_specs db; intents := intents db; orders := x;
  fills := fills db; lots := lots db; consumptions := consumptions db; receipts := receipts db;
  authorities := authorities db; schema_meta := schema_meta db; attestations := attestations db;
  head_markers := head_markers db; tamper_markers := tamper_markers db |}.
Definition with_fills (db : ledger) (x : list fill_row) : ledger := {|
  accounts := accounts db; cost_specs := cost_specs db; intents := intents db; orders := orders db;
  fills := x; lots := lots db; consumptions := consumptions db; receipts := receipts db;
  authorities := authorities db; schema_meta := schema_meta db; attestations := attestations db;
  head_markers := head_markers db; tamper_markers := tamper_markers db |}.
Definition with_lots (db : ledger) (x : list lot_row) (y : list consumption_row) : ledger := {|
  accounts := accounts db; cost_specs := cost_specs db; intents := intents db; orders := orders db;
  fills := fills db; lots := x; consumptions := y; receipts := receipts db;
  authorities := authorities db; schema_meta := schema_meta db; attestations := attestations db;
  head_markers := head_markers db; tamper_markers := tamper_markers db |}.
Definition with_receipts (db : ledger) (x : list receipt_row) : ledger := {|
  accounts := accounts db; cost_specs := cost_specs db; intents := intents db; orders := orders db;
  fills := fills db; lots := lots db; consumptions := consumptions db; receipts := x;
  authorities := authorities db; schema_meta := schema_meta db; attestations := attestations db;
  head_markers := head_markers db; tamper_markers := tamper_markers db |}.
Definition with_accounts (db : ledger) (x : list account_row) (y : list cost_spec_row) : ledger := {|
  accounts := x; cost_specs := y; intents := intents db; orders := orders db;
  fills := fills db; lots := lots db; consumptions := consumptions db; receipts := receipts db;
  authorities := authorities db; schema_meta := schema_meta db; attestations := attestations db;
  head_markers := head_markers db; tamper_markers := tamper_markers db |}.
Definition with_authorities (db : ledger) (x : list authority_row) : ledger := {|
  accounts := accounts db; cost_specs := cost_specs db; intents := intents db; orders := orders db;
  fills := fills db; lots := lots db; consumptions := consumptions db; receipts := receipts db;
  authorities := x; schema_meta := schema_meta db; attestations := attestations db;
  head_markers := head_markers db; tamper_markers := tamper_markers db |}.

Definition has_account (db : ledger) (id : string) : bool :=
  exists_row (fun a => eqs (ba_account_id a) id) (accounts db).
Definition has_intent (db : ledger) (id : string) : bool :=
  exists_row (fun i => eqs (pi_intent_id i) id) (intents db).
Definition has_order (db : ledger) (id : string) : bool :=
  exists_row (fun o => eqs (po_order_id o) id) (orders db).
Definition has_fill (db : ledger) (id : string) : bool :=
  exists_row (fun f => eqs (pf_fill_id f) id) (fills db).
Definition has_lot (db : ledger) (id : string) : bool :=
  exists_row (fun l => eqs (lo_lot_id l) id) (lots db).

Definition lot_check (q : Z) : bool := (0 <? q) && (q mod 100 =? 0).

(** Keys, the unique indexes on the initial execution and on (account, signal), and the account. *)
Definition insert_intent (db : ledger) (r : intent_row) : res ledger :=
  raise_if has_intent db (pi_intent_id r)
           || exists_row (fun i => eqs (pi_initial_execution_id i) (pi_initial_execution_id r)) (intents db)
           || exists_row (fun i => eqs (pi_account_id i) (pi_account_id r)
                                   && eqs (pi_signal_id i) (pi_signal_id r)) (intents db)
           || negb (has_account db (pi_account_id r))
    as IntegrityError saying "paper_intent" ;;
  Ok (with_intents db (intents db ++ [r])).

Definition insert_order_row (db : ledger) (r : order_row) : res ledger :=
  raise_if negb (in_int64 (or_quantity (po_order r)) && in_int64 (or_filled_quantity (po_order r)))
    as OverflowError saying "Python int too large to convert to SQLite INTEGER" ;;
  raise_if has_order db (po_order_id r)
           || exists_row (fun o => eqs (or_intent_id (po_order o)) (or_intent_id (po_order r))) (orders db)
           || negb (has_intent db (or_intent_id (po_order r)))
           || negb (has_account db (or_account_id (po_order r)))
           || negb (lot_check (or_quantity (po_order r))) || (or_filled_quantity (po_order r) <? 0)
    as IntegrityError saying "paper_order" ;;
  Ok (with_orders db (orders db ++ [r])).

(** Trigger [paper_fill_known_v3_required], keys, the order and the checks. *)
Definition insert_fill_row (db : ledger) (r : fill_row) : res ledger :=
  let f := pf_fill r in
  raise_if negb (in_int64 (fi_sequence f) && in_int64 (fi_quantity f))
    as OverflowError saying "Python int too large to convert to SQLite INTEGER" ;;
  raise_if negb (bool_decide (fi_cost_provenance_state f = KNOWN_V3) && bool_decide (is_Some (fi_transfer_fee f))
                 && bool_decide (is_Some (fi_total_fees f))
                 && opt_all (fun id => exists_row (fun s => eqs (csr_cost_spec_id s) id) (cost_specs db)) (fi_cost_spec_id f)
                 && bool_decide (is_Some (fi_cost_spec_id f))
                 && bool_decide (fi_cost_spec_schema_version f = Some 3)
                 && bool_decide (is_Some (fi_cost_context_fingerprint f)))
    as IntegrityError saying "new paper fill requires KNOWN_V3 cost evidence" ;;
  raise_if has_fill db (pf_fill_id r)
           || exists_row (fun g => eqs (fi_execution_id (pf_fill g)) (fi_execution_id f)
                                   || (eqs (fi_order_id (pf_fill g)) (fi_order_id f)
                                       && (fi_sequence (pf_fill g) =? fi_sequence f))) (fills db)
           || negb (has_order db (fi_order_id f)) || negb (1 <=? fi_sequence f) || negb (lot_check (fi_quantity f))
    as IntegrityError saying "paper_fill" ;;
  Ok (with_fills db (fills db ++ [r])).

Definition insert_lot (db : ledger) (r : lot_row) : res ledger :=
  raise_if has_lot db (lo_lot_id r) || negb (has_fill db (lo_lot_id r)) || negb (has_account db (lo_account_id r))
           || negb (lot_check (lo_original_quantity r)) || negb (nonneg_lot (lo_remaining_quantity r))
           || negb (1 <=? lo_buy_fill_sequence r)
    as IntegrityError saying "paper_lot" ;;
  Ok (with_lots db (lots db ++ [r]) (consumptions db)).

Definition sub_remaining (consumed : Z) (r : lot_row) : lot_row := {|
  lo_lot_id := lo_lot_id r; lo_account_id := lo_account_id r; lo_ts_code := lo_ts_code r;
  lo_entry_signal_id := lo_entry_signal_id r; lo_acquisition_trade_date := lo_acquisition_trade_date r;
  lo_available_date := lo_available_date r; lo_original_quantity := lo_original_quantity r;
  lo_remaining_quantity := lo_remaining_quantity r - consumed; lo_unit_cost := lo_unit_cost r;
  lo_persisted_at := lo_persisted_at r; lo_buy_executed_at := lo_buy_executed_at r;
  lo_buy_persisted_at := lo_buy_persisted_at r; lo_buy_fill_sequence := lo_buy_fill_sequence r |}.

(** [UPDATE paper_lot SET remaining_quantity = remaining_quantity - ? WHERE lot_id = ?], with the check
    on the column, and the INSERT of the consumption. *)
Definition consume_lot (db : ledger) (lot_id fill_id : string) (consumed : Z) (unit_cost : dec) (persisted_at : Z)
    : res ledger :=
  let lots' := update (fun r => eqs (lo_lot_id r) lot_id) (sub_remaining consumed) (lots db) in
  raise_if negb (forallb (fun r => negb (eqs (lo_lot_id r) lot_id) || nonneg_lot (lo_remaining_quantity r)) lots')
    as IntegrityError saying "paper_lot" ;;
  raise_if exists_row (fun c => eqs (co_fill_id c) fill_id && eqs (co_lot_id c) lot_id) (consumptions db)
           || negb (has_fill db fill_id) || negb (has_lot db lot_id) || negb (lot_check consumed)
    as IntegrityError saying "paper_lot_consumption" ;;
  Ok (with_lots db lots'
        (consumptions db ++ [{| co_fill_id := fill_id; co_lot_id := lot_id; co_quantity := consumed;
                                co_unit_cost := money unit_cost; co_persisted_at := persisted_at |}])).

Definition insert_receipt_row (db : ledger) (r : receipt_row) : res ledger :=
  raise_if negb (bool_decide (re_cost_provenance_state r = KNOWN_V3) && bool_decide (is_Some (re_transfer_fee r))
                 && bool_decide (is_Some (re_total_fees r)) && bool_decide (is_Some (re_cost_spec_id r))
                 && bool_decide (re_cost_spec_schema_version r = Some 3)
                 && bool_decide (is_Some (re_cost_context_fingerprint r))
                 && opt_all (fun id => exists_row (fun s => eqs (csr_cost_spec_id s) id) (cost_specs db)) (re_cost_spec_id r))
    as IntegrityError saying "new paper execution receipt requires KNOWN_V3 cost evidence" ;;
  raise_if exists_row (fun x => eqs (re_execution_id x) (re_execution_id r)) (receipts db)
           || negb (has_account db (re_account_id r)) || negb (has_intent db (re_intent_id r))
           || negb (has_order db (re_order_id r))
    as IntegrityError saying "paper_execution_receipt" ;;
  Ok (with_receipts db (receipts db ++ [r])).

(** ** Reads used by the methods *)

(** [COALESCE(SUM(...), 0)], which fails when it leaves 64 bits. *)
Definition sql_sum {R} (f : R -> Z) (t : list R) : res Z :=
  let s := sumZ f t in
  if in_int64 s then Ok s else Err (Raise OperationalError "integer overflow").

(** Insertion sort by a total preorder, stable: [ORDER BY]. *)
Fixpoint insert_by {R} (leb : R -> R -> bool) (x : R) (t : list R) : list R :=
  match t with
  | [] => [x]
  | y :: t' => if leb x y then x :: t else y :: insert_by leb x t'
  end.
Definition order_by {R} (leb : R -> R -> bool) (t : list R) : list R := fold_right (insert_by leb) [] t.

(** Lexicographic comparison of integer columns, then of a text column. *)
Fixpoint lex_leb (a b : list Z) (x y : string) : bool :=
  match a, b with
  | i :: a, j :: b => (i <? j) || ((i =? j) && lex_leb a b x y)
  | _, _ => bool_decide (String.le x y)
  end.

Section Reads.
Context `{PaperDigest} `{BrokerDigest} (b : broker).

Definition account_values (db : ledger) : res (dec * dec) :=
  match fetch_account b db with
  | None => unreconciled "broker account is missing"
  | Some row => Ok (ba_cash row, ba_realized_pnl row)
  end.

(** The subquery that a lot comes from a BUY fill of its own entry signal. *)
Definition lot_has_entry (db : ledger) (l : lot_row) : bool :=
  existsb (fun f => eqs (pf_fill_id f) (lo_lot_id l)
    && existsb (fun o => eqs (po_order_id o) (fi_order_id (pf_fill f)) && bool_decide (or_side (po_order o) = buy)
         && existsb (fun i => eqs (pi_intent_id i) (or_intent_id (po_order o))
              && eqs (pi_signal_id i) (lo_entry_signal_id l) && eqs (pi_account_id i) (lo_account_id l)
              && eqs (pi_ts_code i) (lo_ts_code l) && bool_decide (pi_side i = buy)) (intents db)) (orders db)) (fills db).

Definition entry_lots (db : ledger) (ts_code entry_signal_id : string) : list lot_row :=
  select (fun l => eqs (lo_account_id l) (bk_account_id b) && eqs (lo_ts_code l) ts_code
                   && eqs (lo_entry_signal_id l) entry_signal_id && lot_has_entry db l) (lots db).

Definition position_quantities (db : ledger) (ts_code entry_signal_id : string) (trade_date : Z) : res (Z * Z) :=
  let rows := entry_lots db ts_code entry_signal_id in
  total <~ sql_sum lo_remaining_quantity rows ;;
  available <~ sql_sum (fun l => if lo_available_date l <=? trade_date then lo_remaining_quantity l else 0) rows ;;
  Ok (total, available).

Definition order_from_row (r : order_row) : res PaperOrder := validate_order (po_order r).
Definition fill_from_row (r : fill_row) : res PaperFill := validate_fill (pf_fill r).

Definition fetch_order (db : ledger) (order_id : string) : option order_row :=
  fetchone (fun o => eqs (or_account_id (po_order o)) (bk_account_id b) && eqs (po_order_id o) order_id) (orders db).

Definition fetch_intent (db : ledger) (intent_id : string) : option intent_row :=
  fetchone (fun i => eqs (pi_intent_id i) intent_id) (intents db).

(** The public [order] and [order_for_intent]. *)
Definition order (db : ledger) (order_id : string) : res (option PaperOrder) :=
  opt_rmap order_from_row (fetch_order db order_id).
Definition order_for_intent (db : ledger) (intent_id : string) : res (option PaperOrder) :=
  opt_rmap order_from_row
    (fetchone (fun o => eqs (or_account_id (po_order o)) (bk_account_id b)
                        && eqs (or_intent_id (po_order o)) intent_id) (orders db)).

Definition order_fills (db : ledger) (order_id : string) : list fill_row :=
  order_by (fun f g => lex_leb [fi_sequence (pf_fill f)] [fi_sequence (pf_fill g)] (pf_fill_id f) (pf_fill_id g))
    (select (fun f => eqs (fi_order_id (pf_fill f)) order_id) (fills db)).

Definition seqZ (n : nat) : list Z := map (fun i => Z.of_nat i) (seq 1 n).

(** The loop of [_incremental_fill_timeline] over the fills in order. *)
Fixpoint fill_timeline (updated_at : Z) (rows : list fill_row) (previous : option (Z * Z)) : res (option (Z * Z)) :=
  match rows with
  | [] => Ok previous
  | r :: rows =>
      let executed_at := fi_executed_at (pf_fill r) in
      let persisted_at := pf_persisted_at r in
      raise_if persisted_at <? executed_at
        as PaperBrokerReconciliationError saying "order fill availability precedes execution" ;;
      raise_if opt_all (fun p => executed_at <? fst p) previous && bool_decide (is_Some previous)
        as PaperBrokerReconciliationError saying "order fill execution sequence is nonmonotonic" ;;
      raise_if opt_all (fun p => persisted_at <? snd p) previous && bool_decide (is_Some previous)
        as PaperBrokerReconciliationError saying "order fill availability sequence is nonmonotonic" ;;
      raise_if (updated_at <? executed_at) || (updated_at <? persisted_at)
        as PaperBrokerReconciliationError saying "order updated_at precedes a fill timestamp" ;;
      fill_timeline updated_at rows (Some (executed_at, persisted_at))
  end.

(** The next sequence number and the latest execution and persistence times. *)
Definition incremental_fill_timeline (db : ledger) (o : PaperOrder) (order_id : string) : res (Z * option (Z * Z)) :=
  let rows := order_fills db order_id in
  raise_if negb (bool_decide (map (fun r => fi_sequence (pf_fill r)) rows = seqZ (length rows)))
    as PaperBrokerReconciliationError saying "order has a non-contiguous fill sequence" ;;
  raise_if negb (sumZ (fun r => fi_quantity (pf_fill r)) rows =? or_filled_quantity o)
    as PaperBrokerReconciliationError saying "order fill quantity does not match the ledger" ;;
  previous <~ fill_timeline (or_updated_at o) rows None ;;
  Ok (Z.of_nat (length rows) + 1, previous).

(** The identity and cost columns of a stored receipt against its JSON; then the request. *)
Definition receipt_columns_match (r : receipt_row) (receipt : PaperExecutionReceipt) (execution_id : string) : bool :=
  eqs (request_sha256 (re_request_json r)) (re_request_fingerprint r)
  && eqs (er_execution_id receipt) execution_id && eqs (er_request_fingerprint receipt) (re_request_fingerprint r)
  && eqs (er_intent_id receipt) (re_intent_id r) && bool_decide (or_order_id (er_order receipt) = Some (re_order_id r))
  && eqs (or_account_id (er_order receipt)) (bk_account_id b) && (er_persisted_at receipt =? re_persisted_at r).

Definition receipt_costs_match (r : receipt_row) (receipt : PaperExecutionReceipt) : bool :=
  match er_cost_provenance_state receipt with
  | KNOWN_V3 =>
      match er_cost_calculation receipt with
      | None => false
      | Some c =>
          bool_decide (er_cost_spec_id receipt = re_cost_spec_id r)
          && bool_decide (er_cost_spec_schema_version receipt = re_cost_spec_schema_version r)
          && bool_decide (er_cost_context_fingerprint receipt = re_cost_context_fingerprint r)
          && bool_decide (re_cost_provenance_state r = KNOWN_V3)
          && bool_decide (Some (money (ec_transfer_fee c)) = re_transfer_fee r)
          && bool_decide (Some (money (ec_total_fees c)) = re_total_fees r)
          && bool_decide (rq_cost_evidence (re_request_json r) = c)
      end
  | LEGACY_UNKNOWN =>
      negb (bool_decide (is_Some (re_transfer_fee r)) || bool_decide (is_Some (re_total_fees r))
            || bool_decide (is_Some (re_cost_spec_id r)) || bool_decide (is_Some (re_cost_spec_schema_version r))
            || bool_decide (is_Some (re_cost_context_fingerprint r)))
      && bool_decide (re_cost_provenance_state r = LEGACY_UNKNOWN)
  end.

Definition receipt_costs_message (state : PaperCostProvenanceState) : string :=
  match state with
  | KNOWN_V3 => "persisted execution receipt v3 cost evidence does not reconcile"
  | LEGACY_UNKNOWN => "legacy execution receipt must retain unknown cost provenance"
  end.

Definition receipt_identity_matches (r : receipt_row) (receipt : PaperExecutionReceipt) : bool :=
  eqs (rq_execution_id (re_request_json r)) (er_execution_id receipt)
  && (rq_persisted_at (re_request_json r) =? er_persisted_at receipt).

Definition check_request_kind (r : receipt_row) (receipt : PaperExecutionReceipt) : res unit :=
  match rq_kind (re_request_json r) with
  | INITIAL intent_id decision_time =>
      raise_if negb (eqs intent_id (er_intent_id receipt) && (decision_time =? or_created_at (er_order receipt))
                     && opt_all (fun f => fi_executed_at f =? or_created_at (er_order receipt)) (er_fill receipt))
        as PaperBrokerReconciliationError saying "initial execution request does not match immutable receipt" ;;
      Ok tt
  | INCREMENTAL order_id executed_at quantity price_snapshot_id =>
      raise_if negb (match er_fill receipt with
                     | None => false
                     | Some f => bool_decide (or_order_id (er_order receipt) = Some order_id)
                                 && (executed_at =? fi_executed_at f) && (quantity =? fi_quantity f)
                                 && eqs price_snapshot_id (fi_price_snapshot_id f)
                     end)
        as PaperBrokerReconciliationError saying "incremental execution request does not match immutable receipt" ;;
      Ok tt
  end.

Definition receipt_from_row (r : receipt_row) (execution_id : string) : res PaperExecutionReceipt :=
  match validate_execution (re_receipt_json r) with
  | Err _ => unreconciled "persisted execution receipt evidence is invalid"
  | Ok receipt =>
      raise_if negb (receipt_columns_match r receipt execution_id)
        as PaperBrokerReconciliationError
        saying "persisted execution receipt columns do not match immutable evidence" ;;
      raise_if negb (receipt_costs_match r receipt)
        as PaperBrokerReconciliationError
        saying (receipt_costs_message (er_cost_provenance_state receipt)) ;;
      raise_if negb (receipt_identity_matches r receipt)
        as PaperBrokerReconciliationError saying "execution request identity does not match immutable receipt" ;;
      _ <~ check_request_kind r receipt ;;
      Ok receipt
  end.

Definition execution_receipt (db : ledger) (execution_id : string) : res (option PaperExecutionReceipt) :=
  match fetchone (fun r => eqs (re_account_id r) (bk_account_id b) && eqs (re_execution_id r) execution_id)
          (receipts db) with
  | None => Ok None
  | Some r => receipt <~ receipt_from_row r execution_id ;; Ok (Some receipt)
  end.

(** ** The position of one entry at a point in time *)

(** [except (TypeError, ValueError)] around a contract's validation. *)
Definition reconciled {A} (r : res A) (message : string) : res A :=
  match r with Ok a => Ok a | Err _ => unreconciled message end.

Definition entry_rows (db : ledger) (ts_code entry_signal_id : string) : list (intent_row * order_row) :=
  flat_map (fun i => map (pair i) (select (fun o => eqs (or_intent_id (po_order o)) (pi_intent_id i)) (orders db)))
    (select (fun i => eqs (pi_account_id i) (bk_account_id b) && eqs (pi_ts_code i) ts_code
                      && eqs (pi_signal_id i) entry_signal_id && bool_decide (pi_side i = buy)) (intents db)).

Definition entry_binds (i : intent_row) (o : order_row) (intent : PaperOrderIntent) (ts_code entry_signal_id : string) : bool :=
  bool_decide (in_side intent = buy) && eqs (in_signal_id intent) entry_signal_id
  && eqs (in_account_id intent) (bk_account_id b) && eqs (in_ts_code intent) ts_code
  && eqs (pi_signal_id i) (in_signal_id intent) && negb (bool_decide (is_Some (pi_entry_signal_id i)))
  && eqs (pi_ts_code i) (in_ts_code intent) && bool_decide (pi_side i = buy)
  && bool_decide (or_side (po_order o) = buy) && eqs (or_account_id (po_order o)) (bk_account_id b)
  && eqs (or_ts_code (po_order o)) ts_code && negb (bool_decide (is_Some (po_entry_signal_id o))).

(** The fills persisted by the cutoff, with the time each was. *)
Fixpoint visible_fills (rows : list fill_row) (cutoff : Z) : res (list (PaperFill * Z)) :=
  match rows with
  | [] => Ok []
  | r :: rows =>
      raise_if pf_persisted_at r <? fi_executed_at (pf_fill r)
        as PaperBrokerReconciliationError saying "BUY fill persisted_at cannot precede execution" ;;
      if cutoff <? pf_persisted_at r then visible_fills rows cutoff
      else
        fill <~ reconciled (fill_from_row r) "entry BUY fill is invalid" ;;
        rest <~ visible_fills rows cutoff ;;
        Ok ((fill, pf_persisted_at r) :: rest)
  end.

Record consumption_view := {
  cv_consumption : consumption_row; cv_sell_fill : fill_row; cv_sell_order : order_row; cv_sell_intent : intent_row
}.

(** The join of consumptions, fills, orders and intents for one lot. *)
Definition lot_consumptions (db : ledger) (lot_id : string) (cutoff : Z) : list consumption_view :=
  order_by (fun x y => lex_leb [fi_executed_at (pf_fill (cv_sell_fill x))] [fi_executed_at (pf_fill (cv_sell_fill y))]
                               (co_fill_id (cv_consumption x)) (co_fill_id (cv_consumption y)))
    (flat_map (fun c => flat_map (fun f => flat_map (fun o => map (fun i =>
         {| cv_consumption := c; cv_sell_fill := f; cv_sell_order := o; cv_sell_intent := i |})
         (select (fun i => eqs (pi_intent_id i) (or_intent_id (po_order o))) (intents db)))
         (select (fun o => eqs (po_order_id o) (fi_order_id (pf_fill f))) (orders db)))
         (select (fun f => eqs (pf_fill_id f) (co_fill_id c) && (fi_executed_at (pf_fill f) <=? cutoff)) (fills db)))
       (select (fun c => eqs (co_lot_id c) lot_id) (consumptions db))).

Fixpoint visible_consumptions (rows : list consumption_view) (ts_code entry_signal_id : string) (cutoff : Z)
    : res (list (string * Z * Z)) :=
  match rows with
  | [] => Ok []
  | v :: rows =>
      let persisted := co_persisted_at (cv_consumption v) in
      raise_if negb (persisted =? pf_persisted_at (cv_sell_fill v))
               || (persisted <? fi_executed_at (pf_fill (cv_sell_fill v)))
        as PaperBrokerReconciliationError saying "SELL fill and consumption availability do not reconcile" ;;
      if cutoff <? persisted then visible_consumptions rows ts_code entry_signal_id cutoff
      else
        intent <~ reconciled (validate_intent (pi_payload_json (cv_sell_intent v))) "SELL intent provenance is invalid" ;;
        raise_if negb (eqs (or_account_id (po_order (cv_sell_order v))) (bk_account_id b)
                       && eqs (or_ts_code (po_order (cv_sell_order v))) ts_code
                       && bool_decide (or_side (po_order (cv_sell_order v)) = sell)
                       && bool_decide (po_entry_signal_id (cv_sell_order v) = Some entry_signal_id)
                       && bool_decide (in_entry_signal_id intent = Some entry_signal_id))
          as PaperBrokerReconciliationError saying "SELL consumption does not bind the entry BUY" ;;
        rest <~ visible_consumptions rows ts_code entry_signal_id cutoff ;;
        Ok ((co_fill_id (cv_consumption v), co_quantity (cv_consumption v), persisted) :: rest)
  end.

Definition lot_binds (lot : lot_row) (fill : PaperFill) (fill_persisted cutoff : Z) (ts_code entry_signal_id : string) : bool :=
  (lo_persisted_at lot =? fill_persisted) && (lo_buy_executed_at lot =? fi_executed_at fill)
  && (lo_buy_persisted_at lot =? fill_persisted) && (lo_buy_fill_sequence lot =? fi_sequence fill)
  && (lo_persisted_at lot <=? cutoff) && eqs (lo_entry_signal_id lot) entry_signal_id
  && eqs (lo_account_id lot) (bk_account_id b) && eqs (lo_ts_code lot) ts_code
  && (lo_original_quantity lot =? fi_quantity fill).

(** The loop over the visible fills: remaining and available shares and the evidence. *)
Fixpoint entry_position (db : ledger) (ts_code entry_signal_id : string) (cutoff trade_date : Z)
    (fills : list (PaperFill * Z)) : res (Z * Z * list lot_evidence) :=
  match fills with
  | [] => Ok (0, 0, [])
  | (fill, fill_persisted) :: fills =>
      let fill_id := default "" (fi_fill_id fill) in
      match fetchone (fun l => eqs (lo_lot_id l) fill_id) (lots db) with
      | None => unreconciled "entry BUY fill lacks exact lot provenance"
      | Some lot =>
          raise_if negb (lot_binds lot fill fill_persisted cutoff ts_code entry_signal_id)
            as PaperBrokerReconciliationError saying "entry BUY fill and lot provenance do not reconcile" ;;
          consumed <~ visible_consumptions (lot_consumptions db fill_id cutoff) ts_code entry_signal_id cutoff ;;
          let lot_remaining := fi_quantity fill - sumZ (fun c => snd (fst c)) consumed in
          raise_if lot_remaining <? 0
            as PaperBrokerReconciliationError saying "SELL consumption exceeds entry BUY fill quantity" ;;
          bind (remaining, available, evidence) from
            entry_position db ts_code entry_signal_id cutoff trade_date fills ;;
          Ok (lot_remaining + remaining,
              (if lo_available_date lot <=? trade_date then lot_remaining else 0) + available,
              (fill_id, fi_quantity fill, fill_persisted, lo_available_date lot, consumed) :: evidence)
      end
  end.

Definition entry_position_at (db : ledger) (entry_signal_id ts_code : string) (cutoff trade_date : Z)
    : res (Z * Z * string) :=
  match entry_rows db ts_code entry_signal_id with
  | [(i, o)] =>
      intent <~ reconciled (validate_intent (pi_payload_json i)) "entry BUY intent is invalid" ;;
      raise_if cutoff <? pi_persisted_at i
        as PaperBrokerReconciliationError saying "entry BUY intent is not visible at decision cutoff" ;;
      raise_if negb (entry_binds i o intent ts_code entry_signal_id)
        as PaperBrokerReconciliationError
        saying "entry_signal_id does not bind the requested account/code BUY" ;;
      visible <~ visible_fills
                   (List.filter (fun f => fi_executed_at (pf_fill f) <=? cutoff) (order_fills db (po_order_id o))) cutoff ;;
      raise_if bool_decide (visible = [])
        as PaperBrokerReconciliationError saying "entry_signal_id has no visible authoritative BUY fill" ;;
      raise_if negb (bool_decide (map (fun v => fi_sequence (fst v)) visible = seqZ (length visible)))
        as PaperBrokerReconciliationError saying "entry BUY fill sequence is incomplete" ;;
      bind (remaining, available, evidence) from
        entry_position db ts_code entry_signal_id cutoff trade_date visible ;;
      Ok (remaining, available, lots_sha256 (bk_account_id b) entry_signal_id ts_code cutoff evidence)
  | _ => unreconciled "entry_signal_id must resolve to one authoritative BUY order"
  end.
End Reads.


(** ** Costs, orders and fills of an execution *)

Definition require_matching_instrument_context (ts_code : string) (context : InstrumentContext) : res unit :=
  raise_if negb (eqs (ic_ts_code context) (upper (strip ts_code)))
    as ValueError saying "execution instrument_context ts_code does not match intent ts_code" ;;
  raise_if negb (bool_decide (is_Some (ic_classification_provenance context)))
    as ValueError saying "execution instrument_context requires trusted listing classification" ;;
  let '(market, _, instrument_class, security_class) := ic_scope_key context in
  raise_if negb (eqs market "CN" && eqs instrument_class "EQUITY" && eqs security_class "A_SHARE")
    as ValueError saying "execution instrument_context must be an attested CN A_SHARE" ;;
  Ok tt.

Section Broker.
Context `{CostDigest} `{PaperDigest} `{BrokerDigest} `{LedgerEnv} (b : broker).

Definition execution_costs (side : PaperSide) (executable_price : dec) (quantity : Z) (context : InstrumentContext)
    : res ExecutionCostCalculation :=
  calculate_execution_costs (bk_spec b)
    {| oi_side := side; oi_reference_price := executable_price; oi_quantity := quantity |} context.

Definition new_order (intent : PaperOrderIntent) (decision_time : Z) (status : PaperOrderStatus)
    (reject_reason : option PaperRejectReason) (filled_quantity : Z) (fill_price : option dec) : res PaperOrder :=
  validate_order {| or_order_id := None; or_intent_id := default "" (in_intent_id intent);
    or_account_id := bk_account_id b; or_ts_code := in_ts_code intent; or_side := in_side intent;
    or_order_type := in_order_type intent; or_quantity := in_quantity intent;
    or_filled_quantity := filled_quantity; or_average_fill_price := fill_price;
    or_status := if bool_decide (is_Some reject_reason) then PO_REJECTED else status;
    or_reject_reason := reject_reason; or_created_at := decision_time; or_updated_at := decision_time |}.

Definition paper_fill (order_id execution_id : string) (sequence quantity : Z) (c : ExecutionCostCalculation)
    (executed_at : Z) (price_snapshot_id : string) : res PaperFill :=
  validate_fill {| fi_fill_id := None; fi_execution_id := execution_id; fi_order_id := order_id;
    fi_sequence := sequence; fi_quantity := quantity; fi_price := ec_executed_price c;
    fi_commission := ec_commission c; fi_transfer_fee := Some (ec_transfer_fee c); fi_tax := ec_stamp_duty c;
    fi_total_fees := Some (ec_total_fees c); fi_cost_spec_id := Some (ec_cost_spec_id c);
    fi_cost_spec_schema_version := Some 3;
    fi_cost_context_fingerprint := Some (ec_cost_context_fingerprint c);
    fi_cost_provenance_state := KNOWN_V3; fi_executed_at := executed_at; fi_price_snapshot_id := price_snapshot_id |}.

Definition execution_receipt_with_cost (execution_id request_fingerprint intent_id : string) (o : PaperOrder)
    (fill : option PaperFill) (c : ExecutionCostCalculation) (persisted_at : Z) : res PaperExecutionReceipt :=
  validate_execution {| er_execution_id := execution_id; er_request_fingerprint := request_fingerprint;
    er_intent_id := intent_id; er_order := o; er_fill := fill; er_cost_spec_id := Some (ec_cost_spec_id c);
    er_cost_spec_schema_version := Some 3; er_cost_context_fingerprint := Some (ec_cost_context_fingerprint c);
    er_cost_provenance_state := KNOWN_V3; er_cost_calculation := Some c; er_persisted_at := persisted_at |}.

Definition insert_execution_receipt (db : ledger) (request : exec_request) (receipt : PaperExecutionReceipt) : res ledger :=
  raise_if negb (eqs (request_sha256 request) (er_request_fingerprint receipt))
    as PaperBrokerReconciliationError saying "execution request evidence does not match its fingerprint" ;;
  match er_cost_provenance_state receipt, er_cost_calculation receipt with
  | KNOWN_V3, Some c =>
      raise_if negb (bool_decide (is_Some (er_cost_spec_id receipt))
                     && bool_decide (is_Some (er_cost_spec_schema_version receipt))
                     && bool_decide (is_Some (er_cost_context_fingerprint receipt)))
        as PaperBrokerReconciliationError
        saying "new paper execution receipt requires complete KNOWN_V3 cost evidence" ;;
      insert_receipt_row db {|
        re_execution_id := er_execution_id receipt; re_account_id := bk_account_id b;
        re_intent_id := er_intent_id receipt; re_order_id := default "" (or_order_id (er_order receipt));
        re_request_fingerprint := er_request_fingerprint receipt; re_request_json := request;
        re_receipt_json := receipt; re_transfer_fee := Some (money (ec_transfer_fee c));
        re_total_fees := Some (money (ec_total_fees c)); re_cost_spec_id := er_cost_spec_id receipt;
        re_cost_spec_schema_version := er_cost_spec_schema_version receipt;
        re_cost_context_fingerprint := er_cost_context_fingerprint receipt;
        re_cost_provenance_state := er_cost_provenance_state receipt; re_persisted_at := er_persisted_at receipt |}
  | _, _ => unreconciled "new paper execution receipt requires complete KNOWN_V3 cost evidence"
  end.

Definition insert_order (db : ledger) (o : PaperOrder) (intent : PaperOrderIntent) : res ledger :=
  insert_order_row db {| po_order_id := default "" (or_order_id o); po_entry_signal_id := in_entry_signal_id intent;
    po_order := {| or_order_id := or_order_id o; or_intent_id := or_intent_id o; or_account_id := or_account_id o;
      or_ts_code := or_ts_code o; or_side := or_side o; or_order_type := or_order_type o;
      or_quantity := or_quantity o; or_filled_quantity := or_filled_quantity o;
      or_average_fill_price := money <$> or_average_fill_price o; or_status := or_status o;
      or_reject_reason := or_reject_reason o; or_created_at := or_created_at o; or_updated_at := or_updated_at o |} |}.

(** ** Applying a fill *)

Definition set_account (db : ledger) (cash : dec) (realized : option dec) : ledger :=
  with_accounts db
    (update (fun a => eqs (ba_account_id a) (bk_account_id b))
       (fun a => {| ba_account_id := ba_account_id a; ba_initial_cash := ba_initial_cash a; ba_cash := cash;
                    ba_realized_pnl := default (ba_realized_pnl a) realized;
                    ba_cost_policy_fingerprint := ba_cost_policy_fingerprint a;
                    ba_cost_spec_id := ba_cost_spec_id a;
                    ba_cost_spec_schema_version := ba_cost_spec_schema_version a;
                    ba_cost_provenance_state := ba_cost_provenance_state a |}) (accounts db))
    (cost_specs db).

(** The order in which lots are sold. *)
Definition fifo_leb (x y : lot_row) : bool :=
  lex_leb [lo_available_date x; lo_acquisition_trade_date x; lo_buy_executed_at x; lo_buy_persisted_at x; lo_buy_fill_sequence x]
          [lo_available_date y; lo_acquisition_trade_date y; lo_buy_executed_at y; lo_buy_persisted_at y; lo_buy_fill_sequence y]
          (lo_lot_id x) (lo_lot_id y).

Definition sellable_lots (db : ledger) (ts_code entry_signal_id : string) (trade_date : Z) : list lot_row :=
  order_by fifo_leb
    (List.filter (fun l => (0 <? lo_remaining_quantity l) && (lo_available_date l <=? trade_date))
       (entry_lots b db ts_code entry_signal_id)).

(** The loop over the lots: what is left to sell, its cost basis and the number of consumptions. *)
Fixpoint consume_lots (db : ledger) (lots : list lot_row) (fill_id : string) (persisted_at remaining : Z)
    (cost_basis : dec) (count : Z) : res (ledger * Z * dec * Z) :=
  match lots with
  | [] => Ok (db, remaining, cost_basis, count)
  | lot :: lots =>
      if remaining =? 0 then Ok (db, remaining, cost_basis, count)
      else
        let consumed := Z.min remaining (lo_remaining_quantity lot) in
        db <~ consume_lot db (lo_lot_id lot) fill_id consumed (lo_unit_cost lot) persisted_at ;;
        consume_lots db lots fill_id persisted_at (remaining - consumed)
          (dadd cost_basis (dmul (lo_unit_cost lot) (of_Z consumed))) (count + 1)
  end.

Definition stored_fill (f : PaperFill) : PaperFill := {|
  fi_fill_id := fi_fill_id f; fi_execution_id := fi_execution_id f; fi_order_id := fi_order_id f;
  fi_sequence := fi_sequence f; fi_quantity := fi_quantity f; fi_price := money (fi_price f);
  fi_commission := money (fi_commission f); fi_transfer_fee := money <$> fi_transfer_fee f;
  fi_tax := money (fi_tax f); fi_total_fees := money <$> fi_total_fees f; fi_cost_spec_id := fi_cost_spec_id f;
  fi_cost_spec_schema_version := fi_cost_spec_schema_version f;
  fi_cost_context_fingerprint := fi_cost_context_fingerprint f;
  fi_cost_provenance_state := fi_cost_provenance_state f; fi_executed_at := fi_executed_at f;
  fi_price_snapshot_id := fi_price_snapshot_id f |}.

(** The numbers of lots and of consumptions added. *)
Definition apply_fill (db : ledger) (intent : PaperOrderIntent) (fill : PaperFill) (trade_date : Z)
    (available_date : option Z) (persisted_at : Z) : res (ledger * Z * Z) :=
  let fill_id := default "" (fi_fill_id fill) in
  db <~ insert_fill_row db {| pf_fill_id := fill_id; pf_fill := stored_fill fill; pf_persisted_at := persisted_at |} ;;
  bind (cash, realized) from account_values b db ;;
  match in_side intent, available_date, fi_total_fees fill with
  | buy, Some available_date, Some total_fees =>
      let total_cost := dadd (fill_notional fill) total_fees in
      let db := set_account db (money (dsub cash total_cost)) None in
      db <~ insert_lot db {| lo_lot_id := fill_id; lo_account_id := bk_account_id b; lo_ts_code := in_ts_code intent;
              lo_entry_signal_id := in_signal_id intent; lo_acquisition_trade_date := trade_date;
              lo_available_date := available_date; lo_original_quantity := fi_quantity fill;
              lo_remaining_quantity := fi_quantity fill;
              lo_unit_cost := money (ddiv total_cost (fi_quantity fill)); lo_persisted_at := persisted_at;
              lo_buy_executed_at := fi_executed_at fill; lo_buy_persisted_at := persisted_at;
              lo_buy_fill_sequence := fi_sequence fill |} ;;
      Ok (db, 1, 0)
  | buy, _, _ => Err (Raise AssertionError "")
  | sell, _, total_fees =>
      let lots := match in_entry_signal_id intent with
                  | Some entry => sellable_lots db (in_ts_code intent) entry trade_date
                  | None => []
                  end in
      bind (db, remaining, cost_basis, count) from consume_lots db lots fill_id persisted_at (fi_quantity fill) dzero 0 ;;
      raise_if negb (remaining =? 0)
        as PaperBrokerReconciliationError saying "available lot allocation became incomplete" ;;
      match total_fees with
      | None => Err (Raise AssertionError "")
      | Some total_fees =>
          let net_proceeds := dsub (fill_notional fill) total_fees in
          Ok (set_account db (money (dadd cash net_proceeds))
                (Some (money (dsub (dadd realized net_proceeds) cost_basis))), 0, count)
      end
  end.

(** ** Submitting an intent *)

Definition misses_limit (intent : PaperOrderIntent) (fill_price : dec) : bool :=
  match in_order_type intent, in_limit_price intent with
  | LIMIT, Some limit => match in_side intent with buy => dltb limit fill_price | sell => dltb fill_price limit end
  | _, _ => false
  end.

(** The first obstacle the quote or the time puts in the way. *)
Definition quote_rejects (intent : PaperOrderIntent) (decision_time : Z) (quote : BrokerExecutionContext)
    : option PaperRejectReason :=
  if bx_suspended quote then Some SUSPENDED
  else if bx_limit_locked quote then Some LIMIT_LOCKED
  else if bx_risk_rejected quote then Some RISK_REJECTED
  else if in_expires_at intent <=? decision_time then Some RR_EXPIRED
  else None.

(** The checks of a BUY's availability date, shared by both executions. *)
Definition check_acquisition (quote : BrokerExecutionContext) (trade_date : Z) : res unit :=
  match bx_acquisition_available_date quote with
  | None => Err (Raise ValueError "BUY execution requires acquisition_available_date")
  | Some d => raise_if d <=? trade_date
                as ValueError saying "BUY available date must be after acquisition trade date" ;; Ok tt
  end.

(** Why the account cannot execute now, if it cannot. *)
Definition account_rejects (db : ledger) (intent : PaperOrderIntent) (trade_date execution_quantity : Z)
    (quote : BrokerExecutionContext) (costs : ExecutionCostCalculation) : res (option PaperRejectReason) :=
  match in_side intent with
  | buy =>
      _ <~ check_acquisition quote trade_date ;;
      bind (cash, _) from account_values b db ;;
      Ok (if dltb cash (dadd (ec_executed_notional costs) (ec_total_fees costs)) then Some INSUFFICIENT_CASH else None)
  | sell =>
      match in_entry_signal_id intent with
      | None => unreconciled "SELL intent is missing entry_signal_id provenance"
      | Some entry =>
          bind (total, available) from position_quantities b db (in_ts_code intent) entry trade_date ;;
          Ok (if total <? in_quantity intent then Some INSUFFICIENT_POSITION
              else if available <? execution_quantity then Some T_PLUS_ONE else None)
      end
  end.

Definition evaluate_intent (db : ledger) (intent : PaperOrderIntent) (execution_id : string)
    (decision_time trade_date : Z) (quote : BrokerExecutionContext) (costs : ExecutionCostCalculation)
    : res (PaperOrder * option PaperFill) :=
  let accepted := o <~ new_order intent decision_time PO_ACCEPTED None 0 None ;; Ok (o, None) in
  let rejected reason := o <~ new_order intent decision_time PO_ACCEPTED (Some reason) 0 None ;; Ok (o, None) in
  match quote_rejects intent decision_time quote with
  | Some reason => rejected reason
  | None =>
      if decision_time <? in_earliest_execution_at intent then accepted
      else if misses_limit intent (ec_executed_price costs) then accepted
      else
        let execution_quantity := default (in_quantity intent) (bx_executable_quantity quote) in
        raise_if in_quantity intent <? execution_quantity
          as ValueError saying "executable_quantity cannot exceed intent quantity" ;;
        if execution_quantity =? 0 then accepted
        else
        raise_if negb (oi_quantity (ec_order_input costs) =? execution_quantity)
          as PaperBrokerReconciliationError
          saying "initial execution cost evidence quantity does not match the resolved fill" ;;
        obstacle <~ account_rejects db intent trade_date execution_quantity quote costs ;;
        match obstacle with
        | Some reason => rejected reason
        | None =>
            let status := if execution_quantity =? in_quantity intent then PO_FILLED else PO_PARTIALLY_FILLED in
            filled <~ new_order intent decision_time status None execution_quantity (Some (ec_executed_price costs)) ;;
            fill <~ paper_fill (default "" (or_order_id filled)) execution_id 1 execution_quantity costs
                      decision_time (in_price_snapshot_id intent) ;;
            Ok (filled, Some fill)
        end
  end.

Definition validate_sell_quantity_authority (db : ledger) (intent : PaperOrderIntent) (decision_time trade_date : Z)
    : res unit :=
  match in_sell_quantity_authority intent, in_entry_signal_id intent with
  | Some authority, Some entry =>
      raise_if negb (sa_decision_cutoff authority =? decision_time)
        as PaperBrokerReconciliationError
        saying "SELL quantity authority cutoff must equal broker decision time" ;;
      bind (remaining, available, source) from entry_position_at b db entry (in_ts_code intent) decision_time trade_date ;;
      expected <~ validate_quantity_semantics {|
        sa_snapshot_id := None; sa_exit_signal_id := in_signal_id intent; sa_entry_signal_id := entry;
        sa_account_id := bk_account_id b; sa_ts_code := in_ts_code intent; sa_action := sa_action authority;
        sa_decision_cutoff := decision_time; sa_remaining_quantity := remaining;
        sa_available_quantity := available; sa_tranche_fraction := sa_tranche_fraction authority;
        sa_requested_quantity := in_quantity intent; sa_source_lot_fingerprint := source |} ;;
      raise_if negb (bool_decide (expected = authority))
        as PaperBrokerReconciliationError saying "SELL quantity authority changed before intent submission" ;;
      Ok tt
  | _, _ => unreconciled "SELL intent lacks quantity or entry provenance"
  end.

Definition with_updated_at (o : PaperOrder) (t : Z) : PaperOrder := {|
  or_order_id := or_order_id o; or_intent_id := or_intent_id o; or_account_id := or_account_id o;
  or_ts_code := or_ts_code o; or_side := or_side o; or_order_type := or_order_type o;
  or_quantity := or_quantity o; or_filled_quantity := or_filled_quantity o;
  or_average_fill_price := or_average_fill_price o; or_status := or_status o;
  or_reject_reason := or_reject_reason o; or_created_at := or_created_at o; or_updated_at := t |}.

(** The new intent: its row, the order, the fill, the receipt and the attestation. *)
Definition record_intent (db : ledger) (intent : PaperOrderIntent) (execution_id : string)
    (decision_time persisted_at trade_date : Z) (quote : BrokerExecutionContext)
    (costs : ExecutionCostCalculation) (request : exec_request) (now : Z) : res (ledger * PaperOrder) :=
  let intent_id := default "" (in_intent_id intent) in
  db <~ insert_intent db {| pi_intent_id := intent_id; pi_account_id := bk_account_id b;
          pi_signal_id := in_signal_id intent; pi_entry_signal_id := in_entry_signal_id intent;
          pi_ts_code := in_ts_code intent; pi_side := in_side intent; pi_initial_execution_id := execution_id;
          pi_initial_execution_request_fingerprint := request_sha256 request; pi_payload_json := intent;
          pi_persisted_at := persisted_at |} ;;
  bind (o, fill) from evaluate_intent db intent execution_id decision_time trade_date quote costs ;;
  let o := match fill with
           | Some _ => if or_updated_at o <? persisted_at then with_updated_at o persisted_at else o
           | None => o
           end in
  db <~ insert_order db o intent ;;
  bind (db, lot_delta, consumption_delta) from
    (match fill with
     | Some fill => apply_fill db intent fill trade_date (bx_acquisition_available_date quote) persisted_at
     | None => Ok (db, 0, 0)
     end) ;;
  receipt <~ execution_receipt_with_cost execution_id (request_sha256 request) intent_id o fill costs persisted_at ;;
  db <~ insert_execution_receipt db request receipt ;;
  db <~ append_ledger_attestation db "intent_execution" (event_sha256 (intent_execution intent receipt))
          {| n_accounts := 0; n_intents := 1; n_orders := 1;
             n_fills := if bool_decide (is_Some fill) then 1 else 0; n_lots := lot_delta;
             n_consumptions := consumption_delta; n_receipts := 1; n_authorities := 0 |} now ;;
  Ok (db, o).

(** A resubmission of a stored intent. *)
Definition resubmit_intent (db : ledger) (row : intent_row) (intent : PaperOrderIntent) (execution_id : string)
    (request : exec_request) : res PaperOrder :=
  raise_if negb (bool_decide (pi_payload_json row = intent))
    as DuplicateIntentConflictError saying "intent_id already has different content" ;;
  raise_if negb (eqs (pi_initial_execution_id row) execution_id)
    as DuplicateExecutionConflictError saying "intent is already bound to a different initial execution_id" ;;
  raise_if negb (eqs (pi_initial_execution_request_fingerprint row) (request_sha256 request))
    as DuplicateExecutionConflictError saying "initial execution_id is already bound to different immutable content" ;;
  receipt <~ execution_receipt b db execution_id ;;
  match receipt with
  | None => unreconciled "persisted initial execution is missing its immutable receipt"
  | Some receipt => Ok (er_order receipt)
  end.

(** [intent] and [quote] are validated contracts; [now] is the clock reading of the attestation. *)
Definition submit_intent (db : ledger) (intent : PaperOrderIntent) (execution_id : option string)
    (decision_time : Z) (persisted_at : option Z) (trade_date : Z) (quote : BrokerExecutionContext) (now : Z)
    : ledger * res PaperOrder :=
  let persisted_at := default decision_time persisted_at in
  let intent_id := default "" (in_intent_id intent) in
  txn db
    (raise_if negb (eqs (in_account_id intent) (bk_account_id b))
       as ValueError saying "intent account_id does not match broker account" ;;
     raise_if decision_time <? in_available_at intent
       as ValueError saying "decision_time cannot precede intent available_at" ;;
     raise_if (persisted_at <? decision_time) || (persisted_at <? in_available_at intent)
       as ValueError saying "persisted_at cannot precede decision or intent availability" ;;
     raise_if negb (trade_date =? shanghai_date decision_time)
       as ValueError saying "trade_date must match decision_time in Asia/Shanghai" ;;
     raise_if negb (opt_all is_hex64 execution_id)
       as ValueError saying "execution_id must be a lowercase SHA-256 digest" ;;
     let execution_id := default (initial_execution_sha256 intent_id decision_time persisted_at
                                    (in_price_snapshot_id intent)) execution_id in
     let calculation_quantity := match bx_executable_quantity quote with
                                 | None => in_quantity intent
                                 | Some q => if q =? 0 then in_quantity intent else q
                                 end in
     _ <~ require_matching_instrument_context (in_ts_code intent) (bx_instrument_context quote) ;;
     costs <~ execution_costs (in_side intent) (bx_executable_price quote) calculation_quantity
                (bx_instrument_context quote) ;;
     let request := {| rq_kind := INITIAL intent_id decision_time; rq_execution_id := execution_id;
                       rq_persisted_at := persisted_at; rq_trade_date := trade_date; rq_quote := quote;
                       rq_cost_evidence := costs |} in
     _ <~ require_execution_ready b db ;;
     match fetch_intent db intent_id with
     | Some row => o <~ resubmit_intent db row intent execution_id request ;; committed db o
     | None =>
         existing <~ execution_receipt b db execution_id ;;
         match existing with
         | Some _ => Err (Raise DuplicateExecutionConflictError
                            "initial execution_id is already bound to a different intent")
         | None =>
             _ <~ (match in_side intent with
                   | sell => validate_sell_quantity_authority db intent decision_time trade_date
                   | buy => Ok tt
                   end) ;;
             bind (db, o) from record_intent db intent execution_id decision_time persisted_at trade_date
                                 quote costs request now ;;
             committed db o
         end
     end).

(** ** Later executions and closing *)

Definition open_status (s : PaperOrderStatus) : bool :=
  match s with PO_ACCEPTED | PO_PARTIALLY_FILLED => true | _ => false end.

(** The checks of [apply_execution] between loading the order and building the fill. *)
Definition check_execution (db : ledger) (o : PaperOrder) (intent : PaperOrderIntent) (previous : option (Z * Z))
    (execution_time persistence_time trade_date quantity : Z) (quote : BrokerExecutionContext)
    (costs : ExecutionCostCalculation) : res unit :=
  raise_if execution_time <? or_created_at o
    as ValueError saying "executed_at cannot precede order creation" ;;
  raise_if bool_decide (is_Some previous) && opt_all (fun p => execution_time <? fst p) previous
    as ValueError saying "executed_at cannot precede the previous fill execution" ;;
  raise_if bool_decide (is_Some previous) && opt_all (fun p => persistence_time <? snd p) previous
    as ValueError saying "persisted_at cannot precede previous fill availability" ;;
  raise_if in_expires_at intent <=? execution_time as ValueError saying "order expired before execution" ;;
  raise_if or_quantity o - or_filled_quantity o <? quantity
    as ValueError saying "execution quantity exceeds unfilled order remainder" ;;
  raise_if bx_suspended quote || bx_limit_locked quote || bx_risk_rejected quote
    as ValueError saying "execution quote is not executable" ;;
  raise_if misses_limit intent (ec_executed_price costs)
    as ValueError saying "execution quote misses immutable limit price" ;;
  match in_side intent with
  | buy =>
      _ <~ check_acquisition quote trade_date ;;
      bind (cash, _) from account_values b db ;;
      raise_if dltb cash (dadd (ec_executed_notional costs) (ec_total_fees costs))
        as ValueError saying "insufficient cash for incremental execution" ;;
      Ok tt
  | sell =>
      match in_entry_signal_id intent with
      | None => unreconciled "SELL order lacks entry_signal_id provenance"
      | Some entry =>
          bind (total, available) from position_quantities b db (in_ts_code intent) entry trade_date ;;
          raise_if (total <? quantity) || (available <? quantity)
            as ValueError saying "insufficient authoritative position for incremental SELL" ;;
          Ok tt
      end
  end.

Definition execution_price_tick : res dec :=
  match cs_slippage (bk_spec b) with Some s => Ok (sl_price_tick s) | None => Err (Raise AssertionError "") end.

Definition row_notional (r : fill_row) : dec := dmul (fi_price (pf_fill r)) (of_Z (fi_quantity (pf_fill r))).

(** [UPDATE paper_order SET ... WHERE order_id = ?]. *)
Definition set_order (db : ledger) (order_id : string) (f : PaperOrder -> PaperOrder) : ledger :=
  with_orders db (update (fun r => eqs (po_order_id r) order_id)
    (fun r => {| po_order_id := po_order_id r; po_entry_signal_id := po_entry_signal_id r; po_order := f (po_order r) |})
    (orders db)).

Definition with_fill_state (filled : Z) (average : option dec) (status : PaperOrderStatus) (updated_at : Z)
    (o : PaperOrder) : PaperOrder := {|
  or_order_id := or_order_id o; or_intent_id := or_intent_id o; or_account_id := or_account_id o;
  or_ts_code := or_ts_code o; or_side := or_side o; or_order_type := or_order_type o;
  or_quantity := or_quantity o; or_filled_quantity := filled; or_average_fill_price := average;
  or_status := status; or_reject_reason := None; or_created_at := or_created_at o; or_updated_at := updated_at |}.

(** The transaction of [apply_execution] once the order is known to be open. *)
Definition record_execution (db : ledger) (order_id : string) (o : PaperOrder) (intent : PaperOrderIntent)
    (execution_id : string) (execution_time persistence_time trade_date quantity : Z)
    (quote : BrokerExecutionContext) (price_snapshot_id : string) (costs : ExecutionCostCalculation)
    (request : exec_request) (now : Z) : res ledger :=
  bind (sequence, previous) from incremental_fill_timeline db o order_id ;;
  _ <~ check_execution db o intent previous execution_time persistence_time trade_date quantity quote costs ;;
  fill <~ paper_fill order_id execution_id sequence quantity costs execution_time price_snapshot_id ;;
  bind (db, lot_delta, consumption_delta) from
    apply_fill db intent fill trade_date (bx_acquisition_available_date quote) persistence_time ;;
  let new_filled := or_filled_quantity o + quantity in
  let notional := dmul (ec_executed_price costs) (of_Z quantity) in
  let previous_notional :=
    dsub (dsum row_notional (select (fun f => eqs (fi_order_id (pf_fill f)) order_id) (fills db))) notional in
  tick <~ execution_price_tick ;;
  average_price <~ quantize (ddiv (dadd previous_notional notional) new_filled) tick ;;
  let status := if new_filled =? or_quantity o then PO_FILLED else PO_PARTIALLY_FILLED in
  let updated_at := Z.max (or_updated_at o) persistence_time in
  let db := set_order db order_id (with_fill_state new_filled (Some (money average_price)) status updated_at) in
  receipt <~ execution_receipt_with_cost execution_id (request_sha256 request) (default "" (in_intent_id intent))
               (with_fill_state new_filled (Some average_price) status updated_at o) (Some fill) costs persistence_time ;;
  db <~ insert_execution_receipt db request receipt ;;
  append_ledger_attestation db "incremental_execution" (event_sha256 (incremental_execution receipt))
    {| n_accounts := 0; n_intents := 0; n_orders := 0; n_fills := 1; n_lots := lot_delta;
       n_consumptions := consumption_delta; n_receipts := 1; n_authorities := 0 |} now.

(** The intent of an order, through the join of the preflight query. *)
Definition intent_of_order (db : ledger) (order_id : string) : option intent_row :=
  o ← fetch_order b db order_id; fetch_intent db (or_intent_id (po_order o)).

Definition apply_execution (db : ledger) (order_id execution_id : string) (executed_at trade_date quantity : Z)
    (quote : BrokerExecutionContext) (price_snapshot_id : string) (persisted_at : option Z) (now : Z)
    : ledger * res PaperExecutionReceipt :=
  let persistence_time := default executed_at persisted_at in
  txn db
    (raise_if negb (is_hex64 execution_id)
       as ValueError saying "execution_id must be a lowercase SHA-256 digest" ;;
     raise_if persistence_time <? executed_at as ValueError saying "persisted_at cannot precede execution" ;;
     raise_if negb (trade_date =? shanghai_date executed_at)
       as ValueError saying "trade_date must match executed_at in Asia/Shanghai" ;;
     raise_if (quantity <=? 0) || negb (quantity mod 100 =? 0)
       as ValueError saying "execution quantity must be a positive 100-share lot" ;;
     raise_if negb (opt_all (Z.eqb quantity) (bx_executable_quantity quote))
       as ValueError saying "quote executable_quantity does not match execution quantity" ;;
     raise_if negb (is_hex64 price_snapshot_id)
       as ValueError saying "price_snapshot_id must be a lowercase SHA-256 digest" ;;
     match intent_of_order db order_id with
     | None => Err (Raise KeyError ("unknown paper order: " +:+ order_id))
     | Some preflight =>
         preflight_intent <~ validate_intent (pi_payload_json preflight) ;;
         _ <~ require_matching_instrument_context (in_ts_code preflight_intent) (bx_instrument_context quote) ;;
         costs <~ execution_costs (in_side preflight_intent) (bx_executable_price quote) quantity
                    (bx_instrument_context quote) ;;
         let request := {| rq_kind := INCREMENTAL order_id executed_at quantity price_snapshot_id;
                           rq_execution_id := execution_id; rq_persisted_at := persistence_time;
                           rq_trade_date := trade_date; rq_quote := quote; rq_cost_evidence := costs |} in
         _ <~ require_execution_ready b db ;;
         existing <~ execution_receipt b db execution_id ;;
         match existing with
         | Some receipt =>
             raise_if negb (bool_decide (or_order_id (er_order receipt) = Some order_id)
                            && eqs (er_request_fingerprint receipt) (request_sha256 request))
               as DuplicateExecutionConflictError
               saying "execution_id is already bound to different immutable content" ;;
             committed db receipt
         | None =>
             raise_if exists_row (fun f => eqs (fi_execution_id (pf_fill f)) execution_id) (fills db)
               as PaperBrokerReconciliationError saying "execution fill is missing its immutable receipt" ;;
             match fetch_order b db order_id with
             | None => Err (Raise KeyError ("unknown paper order: " +:+ order_id))
             | Some row =>
                 o <~ order_from_row row ;;
                 match fetch_intent db (or_intent_id o) with
                 | None => unreconciled "paper order is missing its intent"
                 | Some intent_row =>
                     intent <~ validate_intent (pi_payload_json intent_row) ;;
                     raise_if negb (bool_decide (in_side intent = in_side preflight_intent))
                       as PaperBrokerReconciliationError
                       saying "paper order changed while preparing v3 cost evidence" ;;
                     raise_if negb (open_status (or_status o))
                       as ValueError saying "order is not open for execution" ;;
                     db <~ record_execution db order_id o intent execution_id executed_at persistence_time
                             trade_date quantity quote price_snapshot_id costs request now ;;
                     Ok (db, receipt <~ execution_receipt b db execution_id ;;
                             match receipt with
                             | Some receipt => Ok receipt
                             | None => Err (Raise AssertionError "")
                             end)
                 end
             end
         end
     end).

Definition with_status (status : PaperOrderStatus) (updated_at : Z) (o : PaperOrder) : PaperOrder := {|
  or_order_id := or_order_id o; or_intent_id := or_intent_id o; or_account_id := or_account_id o;
  or_ts_code := or_ts_code o; or_side := or_side o; or_order_type := or_order_type o;
  or_quantity := or_quantity o; or_filled_quantity := or_filled_quantity o;
  or_average_fill_price := or_average_fill_price o; or_status := status;
  or_reject_reason := or_reject_reason o; or_created_at := or_created_at o; or_updated_at := updated_at |}.

Definition close_open_order (db : ledger) (order_id : string) (status : PaperOrderStatus) (decided_at : Z)
    (persisted_at : option Z) (now : Z) : ledger * res PaperOrder :=
  let persistence_time := default decided_at persisted_at in
  txn db
    (raise_if negb (bool_decide (status = PO_CANCELLED) || bool_decide (status = PO_EXPIRED))
       as ValueError saying "close status must be CANCELLED or EXPIRED" ;;
     raise_if persistence_time <? decided_at as ValueError saying "persisted_at cannot precede close decision" ;;
     _ <~ require_execution_ready b db ;;
     match fetch_order b db order_id with
     | None => Err (Raise KeyError ("unknown paper order: " +:+ order_id))
     | Some row =>
         o <~ order_from_row row ;;
         raise_if negb (open_status (or_status o)) as ValueError saying "order is not open for close" ;;
         bind (_, previous) from incremental_fill_timeline db o order_id ;;
         raise_if bool_decide (is_Some previous) && opt_all (fun p => decided_at <? fst p) previous
           as ValueError saying "close decision cannot precede the latest fill execution" ;;
         raise_if bool_decide (is_Some previous) && opt_all (fun p => persistence_time <? snd p) previous
           as ValueError saying "close persistence cannot precede latest fill availability" ;;
         match fetch_intent db (or_intent_id o) with
         | None => unreconciled "paper order is missing its intent"
         | Some intent_row =>
             intent <~ validate_intent (pi_payload_json intent_row) ;;
             raise_if bool_decide (status = PO_EXPIRED) && (decided_at <? in_expires_at intent)
               as ValueError saying "order cannot expire before intent expires_at" ;;
             let db := set_order db order_id (with_status status (Z.max (or_updated_at o) persistence_time)) in
             db <~ append_ledger_attestation db "order_close"
                     (event_sha256 (order_close order_id status decided_at persistence_time)) no_counts now ;;
             Ok (db, result <~ order b db order_id ;;
                     match result with Some o => Ok o | None => Err (Raise AssertionError "") end)
         end
     end).
End Broker.

(** ** Opening an account *)

Section Account.
Context `{CostDigest} `{PaperDigest} `{BrokerDigest} `{LedgerEnv} (b : broker).

Definition ensure_paper_cost_spec_authority (db : ledger) (now : Z) : res ledger :=
  match cs_cost_spec_id (bk_spec b), cs_cost_engine_version (bk_spec b) with
  | Some id, Some version =>
      let canonical_json := v3_identity_payload (bk_spec b) in
      match fetchone (fun r => eqs (csr_cost_spec_id r) id) (cost_specs db) with
      | None =>
          raise_if exists_row (fun r => (csr_schema_version r =? 3) && eqs (csr_cost_engine_version r) version
                                        && bool_decide (csr_canonical_json r = canonical_json)) (cost_specs db)
            as IntegrityError saying "paper_cost_spec" ;;
          Ok (with_accounts db (accounts db)
                (cost_specs db ++ [{| csr_cost_spec_id := id; csr_schema_version := 3;
                                      csr_cost_engine_version := version; csr_canonical_json := canonical_json;
                                      csr_persisted_at := now |}]))
      | Some row =>
          raise_if negb ((csr_schema_version row =? 3) && eqs (csr_cost_engine_version row) version
                         && bool_decide (csr_canonical_json row = canonical_json))
            as PaperBrokerReconciliationError
            saying "paper cost spec authority conflicts with the active v3 execution cost spec" ;;
          Ok db
      end
  | _, _ => Err (Raise AssertionError "")
  end.

(** Keys and the trigger [broker_account_known_v3_required]. *)
Definition insert_account (db : ledger) (r : account_row) : res ledger :=
  raise_if negb (bool_decide (ba_cost_provenance_state r = KNOWN_V3)
                 && bool_decide (ba_cost_spec_schema_version r = Some 3)
                 && bool_decide (ba_cost_spec_id r = Some (ba_cost_policy_fingerprint r))
                 && opt_all (fun id => exists_row (fun s => eqs (csr_cost_spec_id s) id) (cost_specs db)) (ba_cost_spec_id r))
    as IntegrityError saying "new paper broker account requires known v3 cost binding" ;;
  raise_if has_account db (ba_account_id r) as IntegrityError saying "broker_account" ;;
  Ok (with_accounts db (accounts db ++ [r]) (cost_specs db)).

Definition initialize_account (db : ledger) (now : Z) : ledger * res unit :=
  match fetch_account b db with
  | Some row =>
      (db,
       raise_if negb (deqb (ba_initial_cash row) (bk_initial_cash b))
         as ValueError saying "existing account initial_cash does not match" ;;
       match ba_cost_provenance_state row with
       | LEGACY_UNKNOWN => Ok tt
       | KNOWN_V3 =>
           raise_if negb (bool_decide (ba_cost_spec_schema_version row = Some 3)
                          && bool_decide (ba_cost_spec_id row = cp_cost_spec_id (bk_cost_policy b))
                          && bool_decide (Some (ba_cost_policy_fingerprint row) = cp_cost_spec_id (bk_cost_policy b)))
             as ValueError saying "existing account v3 cost binding does not match" ;;
           Ok tt
       end)
  | None =>
      txn db
        (_ <~ require_schema_integrity db ;;
         db <~ ensure_paper_cost_spec_authority db now ;;
         match cp_cost_spec_id (bk_cost_policy b) with
         | None => Err (Raise AssertionError "")
         | Some id =>
             db <~ insert_account db {| ba_account_id := bk_account_id b; ba_initial_cash := money (bk_initial_cash b);
                     ba_cash := money (bk_initial_cash b); ba_realized_pnl := Dec 0 0;
                     ba_cost_policy_fingerprint := id; ba_cost_spec_id := Some id;
                     ba_cost_spec_schema_version := Some 3; ba_cost_provenance_state := KNOWN_V3 |} ;;
             db <~ append_ledger_attestation db "account_bootstrap"
                     (event_sha256 (account_bootstrap (bk_account_id b) (bk_initial_cash b) id))
                     {| n_accounts := 1; n_intents := 0; n_orders := 0; n_fills := 0; n_lots := 0;
                        n_consumptions := 0; n_receipts := 0; n_authorities := 0 |} now ;;
             committed db tt
         end)
  end.

(** ** Queries *)

(** [int(Decimal)] truncates; the product is not negative. *)
Definition sell_quantity_authority (db : ledger) (exit_signal_id entry_signal_id ts_code : string)
    (action : sell_action) (tranche_fraction : dec) (decision_cutoff trade_date : Z) : res PaperSellQuantityAuthority :=
  _ <~ require_execution_ready b db ;;
  raise_if negb (trade_date =? shanghai_date decision_cutoff)
    as ValueError saying "trade_date must match decision_cutoff in Asia/Shanghai" ;;
  bind (remaining, available, source) from entry_position_at b db entry_signal_id ts_code decision_cutoff trade_date ;;
  raise_if remaining <=? 0 as NoExecutableSellQuantityError saying "entry position is already closed" ;;
  requested <~
    (match action with
     | S_INTENT => Ok remaining
     | REDUCE =>
         let requested := dfloor (dmul (of_Z remaining) tranche_fraction) / 100 * 100 in
         raise_if (requested <=? 0) || (remaining <=? requested)
           as NoExecutableSellQuantityError saying "REDUCE has no legal partial 100-share lot" ;;
         Ok requested
     end) ;;
  validate_quantity_semantics {|
    sa_snapshot_id := None; sa_exit_signal_id := exit_signal_id; sa_entry_signal_id := entry_signal_id;
    sa_account_id := bk_account_id b; sa_ts_code := ts_code; sa_action := action;
    sa_decision_cutoff := decision_cutoff; sa_remaining_quantity := remaining; sa_available_quantity := available;
    sa_tranche_fraction := tranche_fraction; sa_requested_quantity := requested; sa_source_lot_fingerprint := source |}.

(** [GROUP BY ts_code ORDER BY ts_code]: the distinct codes in order. *)
Fixpoint insert_code (c : string) (l : list string) : list string :=
  match l with
  | [] => [c]
  | d :: l' => if eqs c d then l else if bool_decide (String.le c d) then c :: l else d :: insert_code c l'
  end.
Definition group_codes (l : list string) : list string := fold_right insert_code [] l.

Definition holding_of (db : ledger) (market_prices : string -> option dec) (trade_date : Z) (code : string)
    : res PaperHolding :=
  let rows := select (fun l => eqs (lo_account_id l) (bk_account_id b) && (0 <? lo_remaining_quantity l)
                               && eqs (lo_ts_code l) code) (lots db) in
  match market_prices code with
  | None => Err (Raise ValueError ("missing market price for " +:+ code))
  | Some market_price =>
      quantity <~ sql_sum lo_remaining_quantity rows ;;
      available <~ sql_sum (fun l => if lo_available_date l <=? trade_date then lo_remaining_quantity l else 0) rows ;;
      let cost := dsum (fun l => dmul (lo_unit_cost l) (of_Z (lo_remaining_quantity l))) rows in
      reconcile_quantities {| ho_code := code; ho_quantity := quantity; ho_available_quantity := available;
        ho_frozen_quantity := quantity - available; ho_average_cost := ddiv cost quantity;
        ho_market_price := market_price |}
  end.

Definition account_snapshot (db : ledger) (as_of : Z) (market_prices : string -> option dec) : res PaperAccountSnapshot :=
  _ <~ require_execution_ready b db ;;
  raise_if existsb (fun o => eqs (or_account_id (po_order o)) (bk_account_id b)
                             && (as_of <? or_updated_at (po_order o))) (orders db)
    as ValueError saying "as_of cannot precede the latest ledger event" ;;
  bind (cash, realized) from account_values b db ;;
  holdings <~ rmap (holding_of db market_prices (shanghai_date as_of))
                (group_codes (map lo_ts_code
                   (select (fun l => eqs (lo_account_id l) (bk_account_id b) && (0 <? lo_remaining_quantity l)) (lots db)))) ;;
  reconcile_account {| ac_snapshot_id := None; ac_account_id := bk_account_id b; ac_as_of_time := as_of;
    ac_cash := cash; ac_available_cash := cash; ac_frozen_cash := dzero; ac_holdings := holdings;
    ac_realized_pnl := realized; ac_unrealized_pnl := dsum holding_gain holdings;
    ac_nav := dadd cash (dsum holding_value holdings) |}.

(** ** The account's authority *)

(** What [account_authority_snapshot] returns: a row of the table [paper_account_authority]. *)
Definition validate_account_authority (a : authority_row) : res authority_row :=
  raise_if negb ((1 <=? au_revision a) && is_hex64 (au_state_fingerprint a) && is_commit (strip (au_producer_commit a)))
    as ValueError saying "field out of range" ;;
  snapshot <~ reconcile_account (au_snapshot_json a) ;;
  raise_if negb (eqs (au_state_fingerprint a) (account_state_sha256 snapshot))
    as ValueError saying "paper account state_fingerprint does not match snapshot" ;;
  Ok {| au_account_id := au_account_id a; au_revision := au_revision a;
        au_state_fingerprint := au_state_fingerprint a; au_producer_commit := strip (au_producer_commit a);
        au_snapshot_json := snapshot |}.

(** [INSERT ... ON CONFLICT(account_id) DO UPDATE] with the constraints of the table. *)
Definition upsert_authority (db : ledger) (r : authority_row) : res ledger :=
  raise_if negb (in_int64 (au_revision r)) as OverflowError saying "revision" ;;
  raise_if negb (1 <=? au_revision r) || negb (has_account db (au_account_id r))
    as IntegrityError saying "paper_account_authority" ;;
  let same a := eqs (au_account_id a) (au_account_id r) in
  Ok (with_authorities db
        (if exists_row same (authorities db) then update same (fun _ => r) (authorities db)
         else authorities db ++ [r])).

Definition account_authority_snapshot (db : ledger) (as_of : Z) (market_prices : string -> option dec)
    (producer_commit : string) (now : Z) : ledger * res authority_row :=
  txn db
    (_ <~ require_execution_ready b db ;;
     candidate <~ account_snapshot db as_of market_prices ;;
     let state_fingerprint := account_state_sha256 candidate in
     _ <~ require_execution_ready b db ;;
     let row := fetchone (fun a => eqs (au_account_id a) (bk_account_id b)) (authorities db) in
     let record revision :=
       state <~ validate_account_authority {|
         au_account_id := bk_account_id b; au_revision := revision; au_state_fingerprint := state_fingerprint;
         au_producer_commit := producer_commit; au_snapshot_json := candidate |} ;;
       db <~ upsert_authority db state ;;
       db <~ append_ledger_attestation db "account_authority" (au_state_fingerprint state)
               {| n_accounts := 0; n_intents := 0; n_orders := 0; n_fills := 0; n_lots := 0; n_consumptions := 0;
                  n_receipts := 0; n_authorities := if bool_decide (row = None) then 1 else 0 |} now ;;
       committed db state in
     match row with
     | Some a =>
         persisted <~ validate_account_authority a ;;
         if eqs (au_state_fingerprint persisted) state_fingerprint && eqs (au_producer_commit persisted) producer_commit
         then committed db persisted
         else record (au_revision persisted + 1)
     | None => record 1
     end).
End Account.
