(* ===== verification/PaperReconcile.v ===== *)
(** * Reconciliation of the paper ledger ([PaperBrokerStore.reconcile])

    The audit that recomputes an account from its fills: receipts, orders, fill sequences and times,
    costs, lots, cash and realised profit.  Discrepancies are collected as texts, as in the source,
    and raise together at the end. *)

From Stdlib Require Import ZArith Lia Bool.
From stdpp Require Import base list strings.
From S2P Require Import Prelude Clock Decimal OrderCosts PaperContracts PaperBroker.
Open Scope Z_scope.
Open Scope rq_scope.

Record PaperBrokerReconciliation := {
  rc_is_consistent : bool; rc_account_id : string; rc_order_count : Z; rc_fill_count : Z;
  rc_open_lot_quantity : Z; rc_cash : dec; rc_realized_pnl : dec
}.

(** [if condition: errors.append(message)]. *)
Definition err_if (c : bool) (message : string) : list string := if c then [message] else [].

(** Contracts compare their decimals as numbers. *)
Definition fill_eqb (f g : PaperFill) : bool :=
  bool_decide (fi_fill_id f = fi_fill_id g) && eqs (fi_execution_id f) (fi_execution_id g)
  && eqs (fi_order_id f) (fi_order_id g) && (fi_sequence f =? fi_sequence g) && (fi_quantity f =? fi_quantity g)
  && deqb (fi_price f) (fi_price g) && deqb (fi_commission f) (fi_commission g)
  && opt_deqb (fi_transfer_fee f) (fi_transfer_fee g) && deqb (fi_tax f) (fi_tax g)
  && opt_deqb (fi_total_fees f) (fi_total_fees g) && bool_decide (fi_cost_spec_id f = fi_cost_spec_id g)
  && bool_decide (fi_cost_spec_schema_version f = fi_cost_spec_schema_version g)
  && bool_decide (fi_cost_context_fingerprint f = fi_cost_context_fingerprint g)
  && bool_decide (fi_cost_provenance_state f = fi_cost_provenance_state g)
  && (fi_executed_at f =? fi_executed_at g) && eqs (fi_price_snapshot_id f) (fi_price_snapshot_id g).

Definition calculation_eqb (c d : ExecutionCostCalculation) : bool :=
  eqs (ec_cost_spec_id c) (ec_cost_spec_id d) && eqs (ec_cost_engine_version c) (ec_cost_engine_version d)
  && bool_decide (oi_side (ec_order_input c) = oi_side (ec_order_input d))
  && deqb (oi_reference_price (ec_order_input c)) (oi_reference_price (ec_order_input d))
  && (oi_quantity (ec_order_input c) =? oi_quantity (ec_order_input d))
  && bool_decide (ec_instrument_context c = ec_instrument_context d)
  && deqb (ec_executed_price c) (ec_executed_price d) && deqb (ec_reference_notional c) (ec_reference_notional d)
  && deqb (ec_executed_notional c) (ec_executed_notional d) && deqb (ec_commission c) (ec_commission d)
  && deqb (ec_transfer_fee c) (ec_transfer_fee d) && deqb (ec_stamp_duty c) (ec_stamp_duty d)
  && deqb (ec_slippage_amount c) (ec_slippage_amount d) && deqb (ec_total_fees c) (ec_total_fees d)
  && bool_decide (ec_selected_rule_ids c = ec_selected_rule_ids d)
  && eqs (ec_cost_context_fingerprint c) (ec_cost_context_fingerprint d).

Abbreviation receipt_map := (list (string * PaperExecutionReceipt)).

Definition get_receipt (m : receipt_map) (id : string) : option PaperExecutionReceipt :=
  snd <$> fetchone (fun e => eqs (fst e) id) m.

Section Reconcile.
Context `{CostDigest} `{PaperDigest} `{BrokerDigest} `{LedgerEnv} (b : broker).

(** ** The joins *)

Definition order_views (db : ledger) : list (order_row * intent_row) :=
  order_by (fun x y => bool_decide (String.le (po_order_id (fst x)) (po_order_id (fst y))))
    (flat_map (fun o => map (pair o) (select (fun i => eqs (pi_intent_id i) (or_intent_id (po_order o))) (intents db)))
       (select (fun o => eqs (or_account_id (po_order o)) (bk_account_id b)) (orders db))).

Record fill_view := { fv_fill : fill_row; fv_order : order_row; fv_intent : intent_row }.

Definition fill_views (db : ledger) : list fill_view :=
  order_by (fun x y => bool_decide (String.le (pf_fill_id (fv_fill x)) (pf_fill_id (fv_fill y))))
    (flat_map (fun f => flat_map (fun o => map (fun i => {| fv_fill := f; fv_order := o; fv_intent := i |})
         (select (fun i => eqs (pi_intent_id i) (or_intent_id (po_order o))) (intents db)))
       (select (fun o => eqs (po_order_id o) (fi_order_id (pf_fill f))
                         && eqs (or_account_id (po_order o)) (bk_account_id b)) (orders db))) (fills db)).

(** ** Receipts *)

(** [for receipt_id in sorted(actual_receipt_ids)], with the errors met. *)
Fixpoint load_receipts (db : ledger) (ids : list string) : receipt_map * list string :=
  match ids with
  | [] => ([], [])
  | id :: ids =>
      let '(m, errors) := load_receipts db ids in
      match execution_receipt b db id with
      | Ok (Some r) => ((id, r) :: m, errors)
      | Ok None => (m, errors)
      | Err e => (m, exn_msg e :: errors)
      end
  end.

(** ** One order *)

(** The loop over the fills of an order in sequence. *)
Fixpoint timeline_errors (updated_at : Z) (rows : list fill_row) (previous : option (Z * Z)) : list string :=
  match rows with
  | [] => []
  | r :: rows =>
      let executed_at := fi_executed_at (pf_fill r) in
      let persisted_at := pf_persisted_at r in
      err_if (persisted_at <? executed_at) "fill availability precedes execution"
      ++ err_if (bool_decide (is_Some previous) && opt_all (fun p => executed_at <? fst p) previous)
           "fill execution sequence is nonmonotonic"
      ++ err_if (bool_decide (is_Some previous) && opt_all (fun p => persisted_at <? snd p) previous)
           "fill availability sequence is nonmonotonic"
      ++ err_if (updated_at <? executed_at) "updated_at precedes fill execution"
      ++ err_if (updated_at <? persisted_at) "updated_at precedes fill availability"
      ++ timeline_errors updated_at rows (Some (executed_at, persisted_at))
  end.

Definition intent_mismatch (i : intent_row) (o : PaperOrder) (intent : PaperOrderIntent) : bool :=
  negb (bool_decide (in_intent_id intent = Some (or_intent_id o)) && eqs (in_account_id intent) (or_account_id o)
        && eqs (in_ts_code intent) (or_ts_code o) && bool_decide (in_side intent = or_side o)
        && bool_decide (in_order_type intent = or_order_type o) && (in_quantity intent =? or_quantity o)
        && eqs (pi_signal_id i) (in_signal_id intent)
        && bool_decide (pi_entry_signal_id i = in_entry_signal_id intent)
        && eqs (pi_ts_code i) (in_ts_code intent) && bool_decide (pi_side i = in_side intent)).

Definition initial_receipt_errors (m : receipt_map) (i : intent_row) (o : PaperOrder) (intent : PaperOrderIntent)
    : list string :=
  match get_receipt m (pi_initial_execution_id i) with
  | None => ["initial execution receipt is missing"]
  | Some r =>
      err_if (negb (bool_decide (Some (er_intent_id r) = in_intent_id intent)
                    && bool_decide (or_order_id (er_order r) = or_order_id o)
                    && eqs (er_request_fingerprint r) (pi_initial_execution_request_fingerprint i)))
        "initial execution receipt mismatch"
  end.

(** [_reconcile_sell_entry_provenance]. *)
Definition sell_entry_errors (db : ledger) (intent : PaperOrderIntent) : list string :=
  match in_entry_signal_id intent, in_sell_quantity_authority intent with
  | Some entry, Some a =>
      if negb (authority_matches intent a) then ["SELL authority provenance mismatch"]
      else match entry_rows b db (in_ts_code intent) entry with
           | [(bi, bo)] =>
               match validate_intent (pi_payload_json bi) with
               | Err _ => ["entry BUY intent is invalid"]
               | Ok e =>
                   err_if (negb (bool_decide (in_side e = buy) && eqs (in_signal_id e) entry
                                 && eqs (in_account_id e) (in_account_id intent)
                                 && eqs (in_ts_code e) (in_ts_code intent)
                                 && eqs (or_account_id (po_order bo)) (in_account_id intent)
                                 && eqs (or_ts_code (po_order bo)) (in_ts_code intent)
                                 && bool_decide (or_side (po_order bo) = buy)
                                 && negb (bool_decide (is_Some (po_entry_signal_id bo)))
                                 && existsb (fun f => eqs (fi_order_id (pf_fill f)) (po_order_id bo)) (fills db)))
                     "entry_signal_id provenance mismatch"
               end
           | _ => ["entry_signal_id does not resolve to one BUY entry"]
           end
  | _, _ => ["SELL authority provenance mismatch"]
  end.

Definition status_error (o : PaperOrder) (fill_quantity : Z) : bool :=
  match or_status o with
  | PO_PENDING | PO_ACCEPTED | PO_REJECTED => negb (fill_quantity =? 0)
  | PO_PARTIALLY_FILLED => negb ((0 <? fill_quantity) && (fill_quantity <? or_quantity o))
  | PO_FILLED => negb (fill_quantity =? or_quantity o)
  | PO_CANCELLED | PO_EXPIRED => negb ((0 <=? fill_quantity) && (fill_quantity <? or_quantity o))
  end.

Definition expected_entry (intent : PaperOrderIntent) : option string :=
  match in_side intent with buy => None | sell => in_entry_signal_id intent end.

(** The weighted price of an order's fills. *)
Definition average_errors (o : PaperOrder) (rows : list fill_row) (fill_quantity : Z) : res (list string) :=
  match rows with
  | [] => Ok (err_if (bool_decide (is_Some (or_average_fill_price o))) "has average price without fills")
  | _ =>
      tick <~ execution_price_tick b ;;
      weighted <~ quantize (ddiv (dsum row_notional rows) fill_quantity) tick ;;
      Ok (err_if (negb (opt_deqb (or_average_fill_price o) (Some weighted))) "average fill price mismatch")
  end.

Definition order_errors (db : ledger) (m : receipt_map) (views : list fill_view) (row : order_row * intent_row)
    : res (list string) :=
  let '(r, i) := row in
  o <~ order_from_row r ;;
  let rows := order_by (fun f g => lex_leb [fi_sequence (pf_fill f)] [fi_sequence (pf_fill g)] (pf_fill_id f) (pf_fill_id g))
                (map fv_fill (List.filter (fun v => bool_decide (Some (fi_order_id (pf_fill (fv_fill v))) = or_order_id o)) views)) in
  match validate_intent (pi_payload_json i) with
  | Err _ => Ok ["intent payload is invalid"]
  | Ok intent =>
      let fill_quantity := sumZ (fun f => fi_quantity (pf_fill f)) rows in
      average <~ average_errors o rows fill_quantity ;;
      Ok (err_if (intent_mismatch i o intent) "intent/order mismatch"
          ++ initial_receipt_errors m i o intent
          ++ err_if (negb (bool_decide (po_entry_signal_id r = expected_entry intent))) "entry_signal_id provenance mismatch"
          ++ (match in_side intent with sell => sell_entry_errors db intent | buy => [] end)
          ++ err_if (negb (fill_quantity =? or_filled_quantity o)) "fill quantity mismatch"
          ++ err_if (negb (bool_decide (map (fun f => fi_sequence (pf_fill f)) rows = seqZ (length rows)))) "fill sequence mismatch"
          ++ timeline_errors (or_updated_at o) rows None
          ++ average
          ++ err_if (status_error o fill_quantity) "status does not match its fills")
  end.

(** ** One fill *)

(** The stored calculation against a recomputation; a [ValueError] there is a discrepancy. *)
Definition cost_errors (side : PaperSide) (parsed : PaperFill) (calculation : option ExecutionCostCalculation)
    : res (list string) :=
  match fi_cost_provenance_state parsed, calculation with
  | KNOWN_V3, Some c =>
      if negb (bool_decide (oi_side (ec_order_input c) = side)
               && (oi_quantity (ec_order_input c) =? fi_quantity parsed)
               && bool_decide (Some (ec_cost_spec_id c) = fi_cost_spec_id parsed)
               && bool_decide (fi_cost_spec_schema_version parsed = Some 3)
               && bool_decide (Some (ec_cost_context_fingerprint c) = fi_cost_context_fingerprint parsed))
      then Ok ["v3 cost provenance mismatch"]
      else match calculate_execution_costs (bk_spec b) (ec_order_input c) (ec_instrument_context c) with
           | Err (Raise ValueError _) | Err (Raise TypeError _) => Ok ["v3 cost context is invalid"]
           | Err e => Err e
           | Ok recomputed =>
               Ok (err_if (negb (calculation_eqb recomputed c && deqb (fi_price parsed) (ec_executed_price c)
                                 && deqb (fi_commission parsed) (ec_commission c)
                                 && opt_deqb (fi_transfer_fee parsed) (Some (ec_transfer_fee c))
                                 && deqb (fi_tax parsed) (ec_stamp_duty c)
                                 && opt_deqb (fi_total_fees parsed) (Some (ec_total_fees c))))
                     "v3 cost calculation mismatch")
           end
  | _, _ => Ok ["v3 cost provenance mismatch"]
  end.

(** A BUY fill and its lot. *)
Definition lot_errors (db : ledger) (parsed : PaperFill) (intent : PaperOrderIntent) (persisted_at : Z) : list string :=
  match fetchone (fun l => bool_decide (Some (lo_lot_id l) = fi_fill_id parsed)) (lots db) with
  | None => ["buy fill lot mismatch"]
  | Some l =>
      (if negb (lo_original_quantity l =? fi_quantity parsed) then ["buy fill lot mismatch"]
       else err_if (negb (eqs (lo_entry_signal_id l) (in_signal_id intent) && eqs (lo_account_id l) (in_account_id intent)
                          && eqs (lo_ts_code l) (in_ts_code intent)))
              "buy fill lot entry_signal_id provenance mismatch")
      ++ err_if (negb (lo_persisted_at l =? persisted_at)) "buy fill lot availability mismatch"
      ++ err_if (negb ((lo_buy_executed_at l =? fi_executed_at parsed) && (lo_buy_persisted_at l =? persisted_at)
                       && (lo_buy_fill_sequence l =? fi_sequence parsed)))
           "buy fill lot timeline mismatch"
  end.

(** The consumptions of a SELL fill, joined with their lots. *)
Definition allocations (db : ledger) (fill_id : option string) : list (consumption_row * lot_row) :=
  flat_map (fun c => map (pair c) (select (fun l => eqs (lo_lot_id l) (co_lot_id c)) (lots db)))
    (select (fun c => bool_decide (Some (co_fill_id c) = fill_id)) (consumptions db)).

Definition allocation_errors (allocated : list (consumption_row * lot_row)) (quantity : Z) (intent : PaperOrderIntent)
    (persisted_at : Z) : list string :=
  err_if (negb (sumZ (fun a => co_quantity (fst a)) allocated =? quantity)) "sell fill allocation mismatch"
  ++ flat_map (fun a =>
       err_if (negb (co_persisted_at (fst a) =? persisted_at)) "sell fill consumption availability mismatch"
       ++ err_if (negb (bool_decide (Some (lo_entry_signal_id (snd a)) = in_entry_signal_id intent)
                        && eqs (lo_account_id (snd a)) (in_account_id intent)
                        && eqs (lo_ts_code (snd a)) (in_ts_code intent)))
            "sell fill lot entry_signal_id provenance mismatch") allocated.

Definition cost_basis (allocated : list (consumption_row * lot_row)) : dec :=
  dsum (fun a => dmul (co_unit_cost (fst a)) (of_Z (co_quantity (fst a)))) allocated.

(** The body of the loop over the fills: the new expected cash and realised profit, and the errors. *)
Definition fill_pass (db : ledger) (m : receipt_map) (v : fill_view) (cash realized : dec)
    : res (dec * dec * list string) :=
  match fill_from_row (fv_fill v) with
  | Err _ => Ok (cash, realized, ["v3 cost evidence is invalid"])
  | Ok parsed =>
      let receipt := get_receipt m (fi_execution_id parsed) in
      let e1 := err_if (negb match receipt with
                             | Some r => match er_fill r with Some f => fill_eqb f parsed | None => false end
                             | None => false
                             end) "immutable execution receipt mismatch" in
      match validate_intent (pi_payload_json (fv_intent v)) with
      | Err _ => Ok (cash, realized, e1 ++ ["intent payload is invalid"])
      | Ok intent =>
          let side := or_side (po_order (fv_order v)) in
          e2 <~ cost_errors side parsed (r ← receipt; er_cost_calculation r) ;;
          let persisted_at := pf_persisted_at (fv_fill v) in
          let e3 := err_if (persisted_at <? fi_executed_at parsed) "availability precedes execution"
                    ++ err_if (persisted_at <? pi_persisted_at (fv_intent v)) "availability precedes its intent"
                    ++ err_if (negb (bool_decide (po_entry_signal_id (fv_order v) = expected_entry intent)))
                         "entry_signal_id provenance mismatch" in
          match fi_total_fees parsed with
          | None => Err (Raise AssertionError "")
          | Some total_fees =>
              match side with
              | buy =>
                  Ok (dsub cash (dadd (fill_notional parsed) total_fees), realized,
                      e1 ++ e2 ++ e3 ++ lot_errors db parsed intent persisted_at)
              | sell =>
                  let allocated := allocations db (fi_fill_id parsed) in
                  Ok (dadd cash (dsub (fill_notional parsed) total_fees),
                      dadd realized (dsub (dsub (fill_notional parsed) total_fees) (cost_basis allocated)),
                      e1 ++ e2 ++ e3 ++ allocation_errors allocated (fi_quantity parsed) intent persisted_at)
              end
          end
      end
  end.

Fixpoint fill_passes (db : ledger) (m : receipt_map) (views : list fill_view) (cash realized : dec)
    : res (dec * dec * list string) :=
  match views with
  | [] => Ok (cash, realized, [])
  | v :: views =>
      bind (cash, realized, errors) from fill_pass db m v cash realized ;;
      bind (cash, realized, rest) from fill_passes db m views cash realized ;;
      Ok (cash, realized, errors ++ rest)
  end.

Definition lot_quantity_errors (db : ledger) (l : lot_row) : res (list string) :=
  consumed <~ sql_sum co_quantity (select (fun c => eqs (co_lot_id c) (lo_lot_id l)) (consumptions db)) ;;
  Ok (err_if (negb (lo_remaining_quantity l + consumed =? lo_original_quantity l)) "quantity mismatch").

(** ** The audit *)

Definition receipt_identity_errors (views : list (order_row * intent_row)) (fills : list fill_view)
    (actual : list string) : list string :=
  let expected := map (fun v => pi_initial_execution_id (snd v)) views
                  ++ map (fun v => fi_execution_id (pf_fill (fv_fill v))) fills in
  err_if (negb (bool_decide (expected ⊆ actual) && bool_decide (actual ⊆ expected)))
    "paper execution receipt identity set mismatch".

Definition require_account_authority (db : ledger) (account : account_row) : res unit :=
  match cs_cost_spec_id (bk_spec b), cs_cost_engine_version (bk_spec b) with
  | Some id, Some version =>
      raise_if negb (bool_decide (ba_cost_provenance_state account = KNOWN_V3)
                     && bool_decide (ba_cost_spec_schema_version account = Some 3)
                     && bool_decide (ba_cost_spec_id account = Some id)
                     && match fetchone (fun r => eqs (csr_cost_spec_id r) id) (cost_specs db) with
                        | None => false
                        | Some row => (csr_schema_version row =? 3) && eqs (csr_cost_engine_version row) version
                                      && bool_decide (csr_canonical_json row = v3_identity_payload (bk_spec b))
                        end)
        as PaperBrokerReconciliationError saying "paper account v3 cost authority does not reconcile" ;;
      Ok tt
  | _, _ => Err (Raise AssertionError "")
  end.

(** ["; ".join(errors)]. *)
Definition joined (errors : list string) : string :=
  match errors with [] => "" | e :: es => fold_left (fun acc e => acc +:+ "; " +:+ e) es e end.

Definition reconcile (db : ledger) : res PaperBrokerReconciliation :=
  _ <~ require_execution_ready b db ;;
  match fetch_account b db with
  | None => unreconciled "broker account is missing"
  | Some account =>
      _ <~ require_account_authority db account ;;
      raise_if negb (opt_all (fun s => sc_schema_version s =? 5) (schema_meta db) && bool_decide (is_Some (schema_meta db)))
        as PaperBrokerReconciliationError saying "paper ledger requires explicit schema v5 migration" ;;
      let order_rows := order_views db in
      let fill_rows := fill_views db in
      let actual := map re_execution_id (select (fun r => eqs (re_account_id r) (bk_account_id b)) (receipts db)) in
      let '(m, e2) := load_receipts db (group_codes actual) in
      e3 <~ rmap (order_errors db m fill_rows) order_rows ;;
      bind (expected_cash, expected_realized, e4) from
        fill_passes db m fill_rows (ba_initial_cash account) dzero ;;
      let account_lots := select (fun l => eqs (lo_account_id l) (bk_account_id b)) (lots db) in
      e5 <~ rmap (lot_quantity_errors db) account_lots ;;
      let errors := receipt_identity_errors order_rows fill_rows actual ++ e2 ++ concat e3 ++ e4 ++ concat e5
                    ++ err_if (negb (deqb (ba_cash account) expected_cash)) "cash does not reconcile from fills"
                    ++ err_if (negb (deqb (ba_realized_pnl account) expected_realized))
                         "realized_pnl does not reconcile from fills and lots" in
      raise_if negb (bool_decide (errors = []))
        as PaperBrokerReconciliationError saying (joined errors) ;;
      raise_if negb (dnonneg (ba_cash account)) as ValueError saying "field out of range" ;;
      Ok {| rc_is_consistent := true; rc_account_id := bk_account_id b;
            rc_order_count := Z.of_nat (length order_rows); rc_fill_count := Z.of_nat (length fill_rows);
            rc_open_lot_quantity := sumZ lo_remaining_quantity account_lots;
            rc_cash := ba_cash account; rc_realized_pnl := ba_realized_pnl account |}
  end.
End Reconcile.
