(* ===== verification/PaperInv.v ===== *)
(** * The paper ledger: validated contracts and single mutations

    Validators are idempotent and keep their fields; each INSERT and UPDATE of the ledger changes one
    table.  These facts are what the invariants of the ledger are proved from. *)

From Stdlib Require Import ZArith Lia Bool QArith Permutation Sorting.Sorted.
From stdpp Require Import base list strings.
From S2P Require Import Prelude Clock Decimal DecimalEq OrderCosts PaperContracts PaperBroker.
Open Scope Z_scope.
Open Scope rq_scope.

(** Boolean hypotheses kept as booleans, and used to evaluate the goal's guards. *)
Ltac and_hyps := repeat match goal with
  | H : _ && _ = true |- _ => apply andb_true_iff in H as [? ?]
  | H : _ || _ = false |- _ => apply orb_false_iff in H as [? ?]
  | H : negb _ = false |- _ => apply negb_false_iff in H
  | H : negb _ = true |- _ => apply negb_true_iff in H
  end.

Ltac use_guards := repeat match goal with
  | H : ?x = true |- context [?x] => rewrite H
  | H : ?x = false |- context [?x] => rewrite H
  end.

(** ** Decimals in text columns *)

Lemma money_deq d : deq (money d) d.
Proof.
  unfold money, deq. destruct (Z.ltb_spec 0 (expo d)); [|reflexivity].
  rewrite value_shift by lia. by destruct d.
Qed.

Lemma money_idem d : money (money d) = money d.
Proof. unfold money. destruct (Z.ltb_spec 0 (expo d)); [done|]. by rewrite (proj2 (Z.ltb_ge _ _)). Qed.

#[export] Instance dpos_proper : Proper (deq ==> eq) dpos.
Proof. intros a a' H. unfold dpos. by rewrite H. Qed.
#[export] Instance dnonneg_proper : Proper (deq ==> eq) dnonneg.
Proof. intros a a' H. unfold dnonneg. by rewrite H. Qed.

Lemma opt_all_money (p : dec -> bool) `{!Proper (deq ==> eq) p} o : opt_all p (money <$> o) = opt_all p o.
Proof. destruct o as [d|]; cbn; [|done]. by rewrite (money_deq d). Qed.

(** ** Validators *)

Lemma settle_id_ok id x m y : settle_id id x m = Ok y -> y = x.
Proof. unfold settle_id. destruct id as [id|]; [destruct (negb _); [done|]|]; congruence. Qed.

Lemma settle_id_some x m : settle_id (Some x) x m = Ok x.
Proof. unfold settle_id. by rewrite eqs_refl. Qed.

Section Contracts.
Context `{PaperDigestLaws}.

Lemma validate_quantity_idem a a' : validate_quantity_semantics a = Ok a' ->
  a' = with_snapshot_id a (Some (authority_sha256 (with_snapshot_id a None)))
  /\ validate_quantity_semantics a' = Ok a'.
Proof.
  intros Hv. assert (a' = with_snapshot_id a (Some (authority_sha256 (with_snapshot_id a None)))) as Ha.
  { unfold validate_quantity_semantics in Hv. ok_inv Hv;
      match goal with Hs : settle_id _ _ _ = Ok _ |- _ => apply settle_id_ok in Hs; subst end; done. }
  split; [done|]. subst a'. unfold validate_quantity_semantics in *.
  destruct (negb (_ && _)) eqn:Eg; [done|]. and_hyps. cbn [sa_snapshot_id with_snapshot_id sa_exit_signal_id
    sa_entry_signal_id sa_account_id sa_ts_code sa_action sa_remaining_quantity sa_available_quantity
    sa_tranche_fraction sa_requested_quantity sa_source_lot_fingerprint opt_all] in *.
  rewrite authority_hex. use_guards. cbn [andb negb].
  destruct (sa_remaining_quantity a <? sa_available_quantity a); [done|].
  apply rbind_ok in Hv as (x & -> & Hv). cbn [rbind]. destruct (negb (sa_requested_quantity a =? x)); [done|].
  rewrite settle_id_some. done.
Qed.

Lemma validate_intent_form i i' : validate_intent i = Ok i' ->
  exists au, opt_rmap validate_quantity_semantics (in_sell_quantity_authority i) = Ok au
    /\ i' = with_intent i (Some (intent_sha256 (with_intent i None au))) au.
Proof.
  intros Hv. unfold validate_intent in Hv. destruct (negb _); [done|]. apply rbind_ok in Hv as (au & Hau & Hv).
  exists au. split; [done|]. ok_inv Hv.
  match goal with Hs : settle_id _ _ _ = Ok _ |- _ => apply settle_id_ok in Hs; subst end. done.
Qed.

Lemma validate_intent_idem i i' : validate_intent i = Ok i' -> validate_intent i' = Ok i'.
Proof.
  intros Hv. destruct (validate_intent_form i i' Hv) as (au & Hau & ->). unfold validate_intent in *.
  destruct (negb (_ && _)) eqn:Eg; [done|]. and_hyps. rewrite Hau in Hv. cbn [rbind] in Hv.
  assert (opt_rmap validate_quantity_semantics au = Ok au) as Hau'.
  { destruct (in_sell_quantity_authority i) as [x|]; cbn in Hau; [|by simplify_eq].
    apply rbind_ok in Hau as (y & Hy & ?). simplify_eq. cbn. by rewrite (proj2 (validate_quantity_idem _ _ Hy)). }
  cbn [in_intent_id with_intent in_signal_id in_entry_signal_id in_sell_quantity_authority in_account_id in_ts_code
    in_side in_order_type in_quantity in_limit_price in_event_time in_available_at in_expires_at
    in_earliest_execution_at in_price_snapshot_id in_producer_commit opt_all] in *.
  rewrite intent_hex. use_guards. cbn [andb negb]. rewrite Hau'. cbn [rbind].
  assert (forall a, authority_matches (with_intent i (Some (intent_sha256 (with_intent i None au))) au) a
                    = authority_matches i a) as Hm by done.
  replace (opt_all (authority_matches (with_intent i (Some (intent_sha256 (with_intent i None au))) au)) au)
    with (opt_all (authority_matches i) au) by done.
  repeat match goal with |- context [if ?x then Err _ else _] => destruct x; [done|] end.
  by rewrite settle_id_some.
Qed.

Lemma validate_order_form o o' : validate_order o = Ok o' ->
  o' = with_order_id o (order_sha256 (or_account_id o) (or_intent_id o)).
Proof.
  intros Hv. unfold validate_order in Hv. ok_inv Hv;
    match goal with Hs : settle_id _ _ _ = Ok _ |- _ => apply settle_id_ok in Hs; subst end; done.
Qed.

(** Everything [validate_order] checks, for an order whose identifier is set. *)
Definition order_checks (o : PaperOrder) : Prop :=
  positive_lot (or_quantity o) = true /\ nonneg_lot (or_filled_quantity o) = true
  /\ or_filled_quantity o <= or_quantity o /\ or_created_at o <= or_updated_at o
  /\ is_hex64 (or_intent_id o) = true /\ nonempty (or_account_id o) = true /\ nonempty (or_ts_code o) = true
  /\ opt_all dpos (or_average_fill_price o) = true
  /\ (0 < or_filled_quantity o <-> is_Some (or_average_fill_price o))
  /\ match or_status o with
     | PO_PENDING | PO_ACCEPTED | PO_REJECTED => or_filled_quantity o = 0
     | PO_PARTIALLY_FILLED => 0 < or_filled_quantity o < or_quantity o
     | PO_FILLED => or_filled_quantity o = or_quantity o
     | PO_CANCELLED | PO_EXPIRED => or_filled_quantity o < or_quantity o
     end
  /\ (is_Some (or_reject_reason o) <-> or_status o = PO_REJECTED)
  /\ or_order_id o = Some (order_sha256 (or_account_id o) (or_intent_id o)).

Lemma order_checks_sound o : validate_order o = Ok o -> order_checks o.
Proof.
  intros Hv. pose proof (validate_order_form o o Hv) as Hf. unfold validate_order in Hv.
  destruct (negb (_ && _)) eqn:Eg; [done|].
  destruct (_ <? or_filled_quantity o) eqn:E1; [done|]. destruct (or_updated_at o <? _) eqn:E2; [done|].
  destruct (negb (Bool.eqb _ _)) eqn:E3; [done|]. apply rbind_ok in Hv as (u & Hst & Hv).
  destruct (negb _ && _) eqn:E4; [done|]. clear Hv. and_hyps. apply eqb_prop in E3. bool_hyps.
  assert (0 < or_filled_quantity o <-> is_Some (or_average_fill_price o)) as Havg.
  { rewrite <- Z.ltb_lt, E3. apply bool_decide_eq_true. }
  assert (match or_status o with
     | PO_PENDING | PO_ACCEPTED | PO_REJECTED => or_filled_quantity o = 0
     | PO_PARTIALLY_FILLED => 0 < or_filled_quantity o < or_quantity o
     | PO_FILLED => or_filled_quantity o = or_quantity o
     | PO_CANCELLED | PO_EXPIRED => or_filled_quantity o < or_quantity o end
     /\ (or_status o = PO_REJECTED -> is_Some (or_reject_reason o))) as [Hs Hr].
  { destruct (or_status o); ok_inv Hst; bool_hyps; split; try done; try lia. }
  unfold order_checks. split_and!; try done; [|by rewrite Hf].
  split; [|done]. intros Hsome. destruct (decide (or_status o = PO_REJECTED)) as [|Hne]; [done|].
  rewrite (bool_decide_eq_false_2 _ Hne), (bool_decide_eq_true_2 _ Hsome) in E4. done.
Qed.

Lemma order_checks_complete o : order_checks o -> validate_order o = Ok o.
Proof.
  intros (Hq & Hf & Hle & Ht & Hi & Ha & Hc & Hp & Havg & Hs & Hr & Hid). unfold validate_order.
  rewrite Hid at 1. cbn [opt_all]. rewrite order_hex, Hi, Ha, Hc, Hq, Hf, Hp. cbn [andb negb].
  rewrite (proj2 (Z.ltb_ge _ _) Hle), (proj2 (Z.ltb_ge _ _) Ht).
  assert ((0 <? or_filled_quantity o) = bool_decide (is_Some (or_average_fill_price o))) as ->.
  { apply eq_iff_eq_true. by rewrite Z.ltb_lt, bool_decide_eq_true. }
  rewrite eqb_reflx. cbn [negb].
  assert (negb (bool_decide (or_status o = PO_REJECTED)) && bool_decide (is_Some (or_reject_reason o)) = false) as ->.
  { destruct (decide (is_Some (or_reject_reason o))) as [Hn|Hn].
    - by rewrite (bool_decide_eq_true_2 _ (proj1 Hr Hn)).
    - by rewrite (bool_decide_eq_false_2 _ Hn), andb_false_r. }
  rewrite Hid, settle_id_some.
  assert (with_order_id o (order_sha256 (or_account_id o) (or_intent_id o)) = o) as Hw
    by (destruct o; cbn in *; by rewrite Hid).
  destruct (or_status o) eqn:Es; cbn [rbind];
    rewrite ?Hs, ?Z.eqb_refl; cbn [negb rbind]; rewrite ?Hw; try done.
  - rewrite (bool_decide_eq_true_2 _ (proj1 Havg (proj1 Hs))), (proj2 (Z.ltb_lt _ _)) by lia. done.
  - by rewrite (bool_decide_eq_true_2 _ (proj2 Hr eq_refl)).
  - by rewrite (proj2 (Z.leb_gt _ _)) by lia.
  - by rewrite (proj2 (Z.leb_gt _ _)) by lia.
Qed.

Lemma validate_order_idem o o' : validate_order o = Ok o' -> validate_order o' = Ok o'.
Proof.
  intros Hv. pose proof (validate_order_form o o' Hv) as ->. unfold validate_order in *.
  destruct (negb (_ && _)) eqn:Eg; [done|]. and_hyps.
  cbn [or_order_id with_order_id or_intent_id or_account_id or_ts_code or_quantity or_filled_quantity
    or_average_fill_price or_status or_reject_reason or_created_at or_updated_at opt_all] in *.
  rewrite order_hex. use_guards. cbn [andb negb].
  repeat match goal with |- context [if ?x then Err _ else rbind _ _] => destruct x; [done|] end.
  apply rbind_ok in Hv as (u & -> & Hv). cbn [rbind]. by rewrite settle_id_some.
Qed.

Lemma validate_order_checks o o' : validate_order o = Ok o' -> order_checks o'.
Proof. intros Hv. by apply order_checks_sound, validate_order_idem with o. Qed.

(** The columns of an order as stored. *)
Definition stored_order (o : PaperOrder) : PaperOrder := {|
  or_order_id := or_order_id o; or_intent_id := or_intent_id o; or_account_id := or_account_id o;
  or_ts_code := or_ts_code o; or_side := or_side o; or_order_type := or_order_type o;
  or_quantity := or_quantity o; or_filled_quantity := or_filled_quantity o;
  or_average_fill_price := money <$> or_average_fill_price o; or_status := or_status o;
  or_reject_reason := or_reject_reason o; or_created_at := or_created_at o; or_updated_at := or_updated_at o |}.

Lemma stored_order_checks o : order_checks o -> order_checks (stored_order o).
Proof.
  unfold order_checks, stored_order. cbn. intros (? & ? & ? & ? & ? & ? & ? & Hp & Ha & ?).
  rewrite opt_all_money by apply _. rewrite fmap_is_Some. done.
Qed.

(** ** Fills *)

Lemma validate_fill_form f f' : validate_fill f = Ok f' -> f' = with_fill_id f (fill_sha256 (fi_order_id f) (fi_execution_id f)).
Proof.
  intros Hv. unfold validate_fill in Hv. destruct (negb _); [done|]. apply rbind_ok in Hv as (id & Hid & Hv).
  apply settle_id_ok in Hid. subst id. unfold validate_cost_provenance in Hv. ok_inv Hv; done.
Qed.

Lemma validate_fill_idem f f' : validate_fill f = Ok f' -> validate_fill f' = Ok f'.
Proof.
  intros Hv. pose proof (validate_fill_form f f' Hv) as ->. unfold validate_fill in *.
  destruct (negb (_ && _)) eqn:Eg; [done|]. and_hyps. apply rbind_ok in Hv as (id & Hid & Hv).
  apply settle_id_ok in Hid. subst id.
  cbn [fi_fill_id with_fill_id fi_execution_id fi_order_id fi_sequence fi_quantity fi_price fi_commission
    fi_transfer_fee fi_tax fi_total_fees fi_cost_spec_id fi_cost_spec_schema_version fi_cost_context_fingerprint
    fi_price_snapshot_id opt_all] in *.
  rewrite fill_hex. use_guards. cbn [andb negb]. rewrite settle_id_some. cbn [rbind]. done.
Qed.

Lemma opt_map_money_some (o : option dec) : bool_decide (is_Some (money <$> o)) = bool_decide (is_Some o).
Proof. by destruct o. Qed.

Lemma stored_fill_valid f : validate_fill f = Ok f -> validate_fill (stored_fill f) = Ok (stored_fill f).
Proof.
  intros Hv. pose proof (validate_fill_form f f Hv) as Hf. unfold validate_fill in *.
  destruct (negb (_ && _)) eqn:Eg; [done|]. and_hyps. apply rbind_ok in Hv as (id & Hid & Hv).
  apply settle_id_ok in Hid. subst id. rewrite <- Hf in Hv.
  assert (fi_fill_id f = Some (fill_sha256 (fi_order_id f) (fi_execution_id f))) as Hid by by rewrite Hf at 1.
  cbn [stored_fill fi_fill_id fi_execution_id fi_order_id fi_sequence fi_quantity fi_price fi_commission
    fi_transfer_fee fi_tax fi_total_fees fi_cost_spec_id fi_cost_spec_schema_version fi_cost_context_fingerprint
    fi_price_snapshot_id].
  rewrite !opt_all_money by apply _. rewrite !money_deq. use_guards. cbn [andb negb].
  rewrite Hid, settle_id_some. cbn [rbind].
  assert (with_fill_id (stored_fill f) (fill_sha256 (fi_order_id f) (fi_execution_id f)) = stored_fill f) as ->
    by (unfold with_fill_id, stored_fill; cbn; by rewrite Hid).
  unfold validate_cost_provenance in *. cbn [stored_fill fi_cost_provenance_state fi_transfer_fee fi_total_fees
    fi_cost_spec_id fi_cost_spec_schema_version fi_cost_context_fingerprint fi_commission fi_tax].
  rewrite !opt_map_money_some. destruct (fi_cost_provenance_state f).
  - destruct (fi_transfer_fee f); cbn [fmap option_fmap option_map]; [|done].
    destruct (fi_total_fees f); cbn [fmap option_fmap option_map]; [|done].
    destruct (fi_cost_spec_id f), (fi_cost_spec_schema_version f), (fi_cost_context_fingerprint f); try done.
    rewrite !money_deq. by destruct (negb _).
  - by destruct (_ || _).
Qed.
End Contracts.

(** ** Parallel tables *)

Lemma Forall2_in_l {A B} (P : A -> B -> Prop) l k x : Forall2 P l k -> In x l -> exists y, In y k /\ P x y.
Proof.
  induction 1 as [|a c l k Hp _ IH]; intros Hx; [done|]. destruct Hx as [<-|Hx]; [exists c; split; [by left|done]|].
  destruct (IH Hx) as (y & Hy & Hxy). exists y. split; [by right|done].
Qed.

Lemma Forall2_in_r {A B} (P : A -> B -> Prop) l k y : Forall2 P l k -> In y k -> exists x, In x l /\ P x y.
Proof.
  induction 1 as [|a c l k Hp _ IH]; intros Hy; [done|]. destruct Hy as [<-|Hy]; [exists a; split; [by left|done]|].
  destruct (IH Hy) as (x & Hx & Hxy). exists x. split; [by right|done].
Qed.

(** ** INSERTs *)

Lemma exists_row_not {R} (p : R -> bool) t r : exists_row p t = false -> In r t -> p r = false.
Proof. rewrite exists_row_false. auto. Qed.

Lemma has_true {R} (key : R -> string) (t : list R) id :
  exists_row (fun r => eqs (key r) id) t = true -> exists r, In r t /\ key r = id.
Proof. unfold exists_row. rewrite existsb_exists. intros (r & Hr & E). str_hyps. eauto. Qed.

Lemma has_false {R} (key : R -> string) (t : list R) id :
  exists_row (fun r => eqs (key r) id) t = false -> forall r, In r t -> key r <> id.
Proof. intros H r Hr. apply (exists_row_not _ _ _ H) in Hr. by apply eqs_false. Qed.

Lemma insert_intent_ok db r db' : insert_intent db r = Ok db' ->
  db' = with_intents db (intents db ++ [r])
  /\ (forall i, In i (intents db) -> pi_intent_id i <> pi_intent_id r)
  /\ (forall i, In i (intents db) -> pi_initial_execution_id i <> pi_initial_execution_id r)
  /\ (forall i, In i (intents db) -> pi_account_id i = pi_account_id r -> pi_signal_id i <> pi_signal_id r).
Proof.
  unfold insert_intent. destruct (_ || _) eqn:E; [done|]. intros [= <-]. and_hyps. split_and!; try done.
  - by apply has_false.
  - intros i Hi. pose proof (has_false pi_initial_execution_id _ _ ltac:(eassumption) i Hi). done.
  - intros i Hi Ha Hs.
    match goal with H : exists_row (fun i => eqs (pi_account_id i) _ && _) _ = false |- _ =>
      pose proof (exists_row_not _ _ i H Hi) as Hx; cbn beta in Hx; by rewrite Ha, Hs, !eqs_refl in Hx end.
Qed.

Lemma insert_order_row_ok db r db' : insert_order_row db r = Ok db' ->
  db' = with_orders db (orders db ++ [r]) /\ (forall o, In o (orders db) -> po_order_id o <> po_order_id r).
Proof.
  unfold insert_order_row. destruct (negb (_ && _)); [done|]. destruct (_ || _) eqn:E; [done|]. intros [= <-].
  and_hyps. split; [done|]. by apply has_false.
Qed.

Lemma insert_fill_row_ok db r db' : insert_fill_row db r = Ok db' ->
  db' = with_fills db (fills db ++ [r])
  /\ (forall f, In f (fills db) -> pf_fill_id f <> pf_fill_id r)
  /\ (forall f, In f (fills db) -> fi_execution_id (pf_fill f) <> fi_execution_id (pf_fill r)).
Proof.
  unfold insert_fill_row. destruct (negb (_ && _)); [done|]. destruct (negb (_ && _)); [done|].
  destruct (_ || _) eqn:E; [done|]. intros [= <-]. and_hyps. split_and!; [done|by apply has_false|].
  intros f Hf He. match goal with H : exists_row (fun g => eqs _ _ || _) _ = false |- _ =>
    pose proof (exists_row_not _ _ f H Hf) as Hx; cbn beta in Hx; by rewrite He, eqs_refl in Hx end.
Qed.

Lemma insert_lot_ok db r db' : insert_lot db r = Ok db' ->
  db' = with_lots db (lots db ++ [r]) (consumptions db) /\ (forall l, In l (lots db) -> lo_lot_id l <> lo_lot_id r).
Proof.
  unfold insert_lot. destruct (_ || _) eqn:E; [done|]. intros [= <-]. and_hyps. split; [done|]. by apply has_false.
Qed.

Lemma consume_lot_ok db lot fill q cost per db' : consume_lot db lot fill q cost per = Ok db' ->
  db' = with_lots db (update (fun r => eqs (lo_lot_id r) lot) (sub_remaining q) (lots db))
          (consumptions db ++ [{| co_fill_id := fill; co_lot_id := lot; co_quantity := q;
                                  co_unit_cost := money cost; co_persisted_at := per |}])
  /\ lot_check q = true
  /\ (forall c, In c (consumptions db) -> (co_fill_id c, co_lot_id c) <> (fill, lot))
  /\ (forall r, In r (lots db) -> lo_lot_id r = lot -> nonneg_lot (lo_remaining_quantity r - q) = true).
Proof.
  unfold consume_lot. destruct (negb (forallb _ _)) eqn:E1; [done|]. destruct (_ || _) eqn:E; [done|]. intros [= <-].
  and_hyps. split_and!; try done.
  - intros c Hc [= Hf Hl]. match goal with H : exists_row _ (consumptions db) = false |- _ =>
      pose proof (exists_row_not _ _ c H Hc) as Hx; cbn beta in Hx; by rewrite Hf, Hl, !eqs_refl in Hx end.
  - intros r Hr Hl. rewrite forallb_forall in E1.
    specialize (E1 (sub_remaining q r)). cbn in E1. rewrite Hl, eqs_refl in E1. apply E1.
    apply In_update. exists r. by rewrite Hl, eqs_refl.
Qed.

Lemma insert_receipt_row_ok db r db' : insert_receipt_row db r = Ok db' ->
  db' = with_receipts db (receipts db ++ [r])
  /\ (forall x, In x (receipts db) -> re_execution_id x <> re_execution_id r).
Proof.
  unfold insert_receipt_row. destruct (negb _); [done|]. destruct (_ || _) eqn:E; [done|]. intros [= <-]. and_hyps.
  split; [done|]. by apply has_false.
Qed.

(** ** Selling from lots *)

Definition cons_row (fill_id : string) (per : Z) (x : lot_row * Z) : consumption_row := {|
  co_fill_id := fill_id; co_lot_id := lo_lot_id (fst x); co_quantity := snd x;
  co_unit_cost := money (lo_unit_cost (fst x)); co_persisted_at := per |}.

Definition take_one (t : list lot_row) (x : lot_row * Z) : list lot_row :=
  update (fun r => eqs (lo_lot_id r) (lo_lot_id (fst x))) (sub_remaining (snd x)) t.

Definition take_cost (acc : dec) (x : lot_row * Z) : dec := dadd acc (dmul (lo_unit_cost (fst x)) (of_Z (snd x))).

(** The loop over the lots [ls] sold the shares [taken]: from each lot, in order, what is there, until
    enough is sold. *)
Inductive takes : list lot_row -> Z -> list (lot_row * Z) -> Z -> Prop :=
  | takes_nil n : takes [] n [] n
  | takes_done l ls : takes (l :: ls) 0 [] 0
  | takes_more l ls n taken rest : n <> 0 ->
      takes ls (n - Z.min n (lo_remaining_quantity l)) taken rest ->
      takes (l :: ls) n ((l, Z.min n (lo_remaining_quantity l)) :: taken) rest.

Lemma consume_lots_spec ls : forall db fid per n cb k db' n' cb' k',
  consume_lots db ls fid per n cb k = Ok (db', n', cb', k') ->
  exists taken, takes ls n taken n'
    /\ db' = with_lots db (fold_left take_one taken (lots db)) (consumptions db ++ map (cons_row fid per) taken)
    /\ cb' = fold_left take_cost taken cb /\ k' = k + Z.of_nat (length taken)
    /\ Forall (fun x => lot_check (snd x) = true) taken
    /\ ((forall l, In l (lots db) -> nonneg_lot (lo_remaining_quantity l) = true) ->
         forall l, In l (lots db') -> nonneg_lot (lo_remaining_quantity l) = true).
Proof.
  induction ls as [|l ls IH]; intros db fid per n cb k db' n' cb' k' H; cbn in H.
  - simplify_eq. exists []. split_and!; try done; [constructor|destruct db'; cbn; by rewrite app_nil_r|cbn; lia].
  - destruct (Z.eqb_spec n 0) as [->|Hn].
    + simplify_eq. exists []. split_and!; try done; [constructor|destruct db'; cbn; by rewrite app_nil_r|cbn; lia].
    + apply rbind_ok in H as (db1 & H1 & H). apply consume_lot_ok in H1 as (-> & Hq & _ & Hnn).
      apply IH in H as (taken & Ht & -> & -> & -> & Hall & Hrest).
      exists ((l, Z.min n (lo_remaining_quantity l)) :: taken). split_and!; try done.
      * by constructor.
      * unfold with_lots. cbn. by rewrite <- app_assoc.
      * cbn [length]. lia.
      * by constructor.
      * intros Hl. apply Hrest. intros r Hr. cbn in Hr. apply In_update in Hr as (r0 & Hr0 & ->).
        destruct (eqs _ _) eqn:E; [|by apply Hl]. str_hyps. by apply Hnn.
Qed.

Lemma takes_total ls n taken rest : takes ls n taken rest -> n = sumZ snd taken + rest.
Proof. induction 1; rewrite ?sumZ_cons; cbn [snd]; [done|done|lia]. Qed.

Lemma takes_incl ls n taken rest : takes ls n taken rest -> forall x, In x taken -> In (fst x) ls.
Proof. induction 1; intros x Hx; [done|done|]. destruct Hx as [<-|Hx]; [by left|right; auto]. Qed.

(** ** ORDER BY *)

Section Sorting.
Context {R : Type} (leb : R -> R -> bool).

Lemma insert_by_perm x t : Permutation (insert_by leb x t) (x :: t).
Proof.
  induction t as [|y t IH]; cbn [insert_by]; [done|]. destruct (leb x y); [done|].
  rewrite IH. constructor.
Qed.

Lemma order_by_perm t : Permutation (order_by leb t) t.
Proof.
  induction t as [|x t IH]; [done|]. change (order_by leb (x :: t)) with (insert_by leb x (order_by leb t)).
  by rewrite insert_by_perm, IH.
Qed.

Lemma order_by_in x t : In x (order_by leb t) <-> In x t.
Proof. split; apply Permutation_in; [|symmetry]; apply order_by_perm. Qed.

(** A list in order stays as it is. *)
Lemma order_by_sorted t : StronglySorted (fun x y => leb x y = true) t -> order_by leb t = t.
Proof.
  induction 1 as [|x t Hs IH Hx]; [done|].
  change (order_by leb (x :: t)) with (insert_by leb x (order_by leb t)). rewrite IH.
  destruct t as [|y t]; [done|]. cbn. inversion Hx as [|? ? Hxy]; subst. by rewrite Hxy.
Qed.
End Sorting.
