(* ===== verification/PaperLedger.v ===== *)
(** * The paper ledger: invariant

    Intents are validated and unique by identifier and signal; every intent has one order; the fills
    of an order are numbered, ordered in time and add up to its filled quantity; every bought fill is
    a lot, every sold fill is allocated to lots of its own entry, and what is left of a lot is what
    was bought less what was sold of it. *)

From Stdlib Require Import ZArith Lia Bool Sorting.Sorted.
From stdpp Require Import base list strings.
From S2P Require Import Prelude Clock Decimal DecimalEq OrderCosts PaperContracts PaperBroker PaperInv.
Open Scope Z_scope.
Open Scope rq_scope.

(** ** Lots and consumptions *)

Definition consumed_of (lot_id : string) (cs : list consumption_row) : Z :=
  sumZ co_quantity (select (fun c => eqs (co_lot_id c) lot_id) cs).

Definition allocated_to (fill_id : string) (cs : list consumption_row) : Z :=
  sumZ co_quantity (select (fun c => eqs (co_fill_id c) fill_id) cs).

(** The columns of a lot that never change. *)
Definition same_lot (l l' : lot_row) : Prop :=
  lo_lot_id l' = lo_lot_id l /\ lo_account_id l' = lo_account_id l /\ lo_ts_code l' = lo_ts_code l
  /\ lo_entry_signal_id l' = lo_entry_signal_id l
  /\ lo_acquisition_trade_date l' = lo_acquisition_trade_date l /\ lo_available_date l' = lo_available_date l
  /\ lo_original_quantity l' = lo_original_quantity l /\ lo_unit_cost l' = lo_unit_cost l
  /\ lo_persisted_at l' = lo_persisted_at l /\ lo_buy_executed_at l' = lo_buy_executed_at l
  /\ lo_buy_persisted_at l' = lo_buy_persisted_at l /\ lo_buy_fill_sequence l' = lo_buy_fill_sequence l.

Lemma same_lot_refl l : same_lot l l.
Proof. done. Qed.

Lemma select_app {R} (p : R -> bool) t u : select p (t ++ u) = select p t ++ select p u.
Proof. apply List.filter_app. Qed.

Lemma update_ext {R} (p : R -> bool) f g t : (forall r, In r t -> p r = true -> f r = g r) -> update p f t = update p g t.
Proof. intros He. apply map_ext_in. intros r Hr. destruct (p r) eqn:E; [by apply He|done]. Qed.

Lemma consumed_snoc id cs c : consumed_of id (cs ++ [c]) = consumed_of id cs + (if eqs (co_lot_id c) id then co_quantity c else 0).
Proof.
  unfold consumed_of. rewrite select_app, sumZ_app. f_equal. unfold select. cbn [List.filter].
  destruct (eqs _ _); [rewrite sumZ_cons; change (sumZ co_quantity []) with 0; lia|done].
Qed.

Definition conserved (t : list lot_row) (cs : list consumption_row) : Prop :=
  forall l, In l t -> lo_remaining_quantity l = lo_original_quantity l - consumed_of (lo_lot_id l) cs.

Lemma conserved_step t cs fid per x : conserved t cs -> conserved (take_one t x) (cs ++ [cons_row fid per x]).
Proof.
  intros Hc l' Hl. apply In_update in Hl as (l & Hl & ->). specialize (Hc l Hl).
  rewrite consumed_snoc. cbn [cons_row co_lot_id co_quantity].
  destruct (eqs (lo_lot_id l) (lo_lot_id (fst x))) eqn:E.
  - str_hyps. cbn. rewrite <- E, eqs_refl. lia.
  - rewrite (proj2 (eqs_false _ _)); [lia|]. apply eqs_false in E. congruence.
Qed.

Lemma conserved_fold taken : forall t cs fid per, conserved t cs ->
  conserved (fold_left take_one taken t) (cs ++ map (cons_row fid per) taken).
Proof.
  induction taken as [|x taken IH]; intros t cs fid per Hc; cbn; [by rewrite app_nil_r|].
  rewrite cons_middle, app_assoc. apply IH. by apply conserved_step.
Qed.

Lemma fold_take_in taken : forall t l', In l' (fold_left take_one taken t) -> exists l, In l t /\ same_lot l l'.
Proof.
  induction taken as [|x taken IH]; intros t l' Hl; cbn in Hl; [by exists l'; split; [|apply same_lot_refl]|].
  apply IH in Hl as (l1 & Hl1 & Hs). apply In_update in Hl1 as (l & Hl & ->). exists l. split; [done|].
  by destruct (eqs _ _).
Qed.

Lemma fold_take_keeps taken : forall t l, In l t -> exists l', In l' (fold_left take_one taken t) /\ same_lot l l'.
Proof.
  induction taken as [|x taken IH]; intros t l Hl; cbn; [by exists l; split; [|apply same_lot_refl]|].
  assert (In (if eqs (lo_lot_id l) (lo_lot_id (fst x)) then sub_remaining (snd x) l else l) (take_one t x)) as H1
    by (apply In_update; by exists l).
  apply IH in H1 as (l' & Hl' & Hs). exists l'. split; [done|]. by destruct (eqs _ _).
Qed.

Lemma fold_take_ids taken : forall t, map lo_lot_id (fold_left take_one taken t) = map lo_lot_id t.
Proof.
  induction taken as [|x taken IH]; intros t; cbn; [done|]. rewrite IH. unfold take_one. by apply update_map_key.
Qed.

Lemma allocated_app id cs cs' : allocated_to id (cs ++ cs') = allocated_to id cs + allocated_to id cs'.
Proof. unfold allocated_to. by rewrite select_app, sumZ_app. Qed.

Lemma allocated_taken fid per taken id : allocated_to id (map (cons_row fid per) taken) = if eqs fid id then sumZ snd taken else 0.
Proof.
  unfold allocated_to, select. induction taken as [|x taken IH]; cbn; [by destruct (eqs _ _)|].
  destruct (eqs fid id) eqn:E; [|done]. cbn. rewrite !sumZ_cons. cbn [co_quantity cons_row]. by rewrite IH.
Qed.

Lemma allocated_none id cs : (forall c, In c cs -> co_fill_id c <> id) -> allocated_to id cs = 0.
Proof.
  intros Hn. unfold allocated_to. rewrite sumZ_filter. apply sumZ_zero. intros c Hc.
  by rewrite (proj2 (eqs_false _ _) (Hn c Hc)).
Qed.

(** ** The parts of the invariant *)

Section Invariant.
Context `{PaperDigestLaws} `{LedgerEnv} (b : broker).
Implicit Types (db : ledger).

Definition payload (i : intent_row) : PaperOrderIntent := pi_payload_json i.
Definition oid (i : intent_row) : string := order_sha256 (bk_account_id b) (pi_intent_id i).

Definition intent_ok (i : intent_row) : Prop :=
  validate_intent (payload i) = Ok (payload i) /\ in_intent_id (payload i) = Some (pi_intent_id i)
  /\ pi_account_id i = bk_account_id b /\ in_account_id (payload i) = bk_account_id b
  /\ pi_signal_id i = in_signal_id (payload i) /\ pi_entry_signal_id i = in_entry_signal_id (payload i)
  /\ pi_ts_code i = in_ts_code (payload i) /\ pi_side i = in_side (payload i).

Definition order_matches (i : intent_row) (r : order_row) : Prop :=
  po_order_id r = oid i /\ order_checks (po_order r) /\ or_intent_id (po_order r) = pi_intent_id i
  /\ or_account_id (po_order r) = bk_account_id b /\ or_ts_code (po_order r) = in_ts_code (payload i)
  /\ or_side (po_order r) = in_side (payload i) /\ or_order_type (po_order r) = in_order_type (payload i)
  /\ or_quantity (po_order r) = in_quantity (payload i) /\ po_entry_signal_id r = in_entry_signal_id (payload i).

Record orders_ok db : Prop := {
  oo_intent_ids : NoDup (map pi_intent_id (intents db));
  oo_signals : NoDup (map pi_signal_id (intents db));
  oo_intents : forall i, In i (intents db) -> intent_ok i;
  oo_order_ids : NoDup (map po_order_id (orders db));
  oo_orders : Forall2 order_matches (intents db) (orders db)
}.

Definition fills_of db (order_id : string) : list fill_row :=
  select (fun f => eqs (fi_order_id (pf_fill f)) order_id) (fills db).

Definition fill_ok (i : intent_row) (f : fill_row) : Prop :=
  validate_fill (pf_fill f) = Ok (pf_fill f) /\ fi_fill_id (pf_fill f) = Some (pf_fill_id f)
  /\ fi_order_id (pf_fill f) = oid i /\ misses_limit (payload i) (fi_price (pf_fill f)) = false
  /\ fi_executed_at (pf_fill f) < in_expires_at (payload i)
  /\ is_Some (fi_total_fees (pf_fill f)) /\ fi_cost_provenance_state (pf_fill f) = KNOWN_V3.

(** The fills of an order: numbered from one, adding up, ordered in time within the order's life. *)
Definition order_fills_ok db (r : order_row) : Prop :=
  let fs := fills_of db (po_order_id r) in
  map (fun f => fi_sequence (pf_fill f)) fs = seqZ (length fs)
  /\ sumZ (fun f => fi_quantity (pf_fill f)) fs = or_filled_quantity (po_order r)
  /\ is_ok (fill_timeline (or_updated_at (po_order r)) fs None) = true
  /\ (forall f, In f fs -> or_created_at (po_order r) <= fi_executed_at (pf_fill f)).

Record fills_ok db : Prop := {
  fo_ids : NoDup (map pf_fill_id (fills db));
  fo_executions : NoDup (map (fun f => fi_execution_id (pf_fill f)) (fills db));
  fo_fills : forall f, In f (fills db) -> exists i, In i (intents db) /\ fill_ok i f;
  fo_orders : forall r, In r (orders db) -> order_fills_ok db r
}.

(** The lot of a bought fill. *)
Definition lot_matches (i : intent_row) (f : fill_row) (l : lot_row) : Prop :=
  lo_lot_id l = pf_fill_id f /\ lo_account_id l = bk_account_id b /\ lo_ts_code l = in_ts_code (payload i)
  /\ lo_entry_signal_id l = in_signal_id (payload i)
  /\ lo_acquisition_trade_date l = shanghai_date (fi_executed_at (pf_fill f))
  /\ lo_acquisition_trade_date l < lo_available_date l
  /\ lo_original_quantity l = fi_quantity (pf_fill f)
  /\ lo_persisted_at l = pf_persisted_at f /\ lo_buy_executed_at l = fi_executed_at (pf_fill f)
  /\ lo_buy_persisted_at l = pf_persisted_at f /\ lo_buy_fill_sequence l = fi_sequence (pf_fill f).

(** A consumption: shares of an entry's lot, available on the day, sold by a fill of that entry. *)
Definition consumption_ok (i : intent_row) (f : fill_row) (l : lot_row) (c : consumption_row) : Prop :=
  pf_fill_id f = co_fill_id c /\ fi_order_id (pf_fill f) = oid i /\ lo_lot_id l = co_lot_id c
  /\ in_side (payload i) = sell /\ in_entry_signal_id (payload i) = Some (lo_entry_signal_id l)
  /\ lo_ts_code l = in_ts_code (payload i)
  /\ lo_available_date l <= shanghai_date (fi_executed_at (pf_fill f))
  /\ lot_check (co_quantity c) = true /\ co_unit_cost c = money (lo_unit_cost l)
  /\ co_persisted_at c = pf_persisted_at f.

Record lots_ok db : Prop := {
  lo_ids : NoDup (map lo_lot_id (lots db));
  lo_conserved : conserved (lots db) (consumptions db);
  lo_nonneg : forall l, In l (lots db) -> nonneg_lot (lo_remaining_quantity l) = true;
  lo_lots : forall l, In l (lots db) -> exists i f, In i (intents db) /\ In f (fills db)
    /\ fi_order_id (pf_fill f) = oid i /\ in_side (payload i) = buy /\ lot_matches i f l;
  lo_bought : forall i f, In i (intents db) -> In f (fills db) -> fi_order_id (pf_fill f) = oid i ->
    in_side (payload i) = buy -> exists l, In l (lots db) /\ lo_lot_id l = pf_fill_id f;
  lo_consumptions : forall c, In c (consumptions db) -> exists i f l, In i (intents db) /\ In f (fills db)
    /\ In l (lots db) /\ consumption_ok i f l c;
  lo_sold : forall i f, In i (intents db) -> In f (fills db) -> fi_order_id (pf_fill f) = oid i ->
    in_side (payload i) = sell -> allocated_to (pf_fill_id f) (consumptions db) = fi_quantity (pf_fill f)
}.

(** ** What a fill does *)

Definition new_fill_row (f : PaperFill) (per : Z) : fill_row :=
  {| pf_fill_id := default "" (fi_fill_id f); pf_fill := stored_fill f; pf_persisted_at := per |}.

Definition new_lot (intent : PaperOrderIntent) (f : PaperFill) (td d per : Z) (fees : dec) : lot_row := {|
  lo_lot_id := default "" (fi_fill_id f); lo_account_id := bk_account_id b; lo_ts_code := in_ts_code intent;
  lo_entry_signal_id := in_signal_id intent; lo_acquisition_trade_date := td; lo_available_date := d;
  lo_original_quantity := fi_quantity f; lo_remaining_quantity := fi_quantity f;
  lo_unit_cost := money (ddiv (dadd (fill_notional f) fees) (fi_quantity f)); lo_persisted_at := per;
  lo_buy_executed_at := fi_executed_at f; lo_buy_persisted_at := per; lo_buy_fill_sequence := fi_sequence f |}.

(** The account's cash and realised profit before and after. *)
Inductive fill_effect db (intent : PaperOrderIntent) (f : PaperFill) (td per : Z)
    : option Z -> ledger -> Z -> Z -> Prop :=
  | bought a d fees cash : in_side intent = buy -> fi_total_fees f = Some fees ->
      fetch_account b db = Some a -> cash = money (dsub (ba_cash a) (dadd (fill_notional f) fees)) ->
      (forall l, In l (lots db) -> lo_lot_id l <> default "" (fi_fill_id f)) ->
      fill_effect db intent f td per (Some d)
        (set_account b (with_lots (with_fills db (fills db ++ [new_fill_row f per]))
                          (lots db ++ [new_lot intent f td d per fees]) (consumptions db)) cash None) 1 0
  | sold a av fees taken entry cash realized : in_side intent = sell -> fi_total_fees f = Some fees ->
      in_entry_signal_id intent = Some entry ->
      takes (sellable_lots b (with_fills db (fills db ++ [new_fill_row f per])) (in_ts_code intent) entry td)
        (fi_quantity f) taken 0 ->
      Forall (fun x => lot_check (snd x) = true) taken ->
      ((forall l, In l (lots db) -> nonneg_lot (lo_remaining_quantity l) = true) ->
       forall l, In l (fold_left take_one taken (lots db)) -> nonneg_lot (lo_remaining_quantity l) = true) ->
      fetch_account b db = Some a ->
      cash = money (dadd (ba_cash a) (dsub (fill_notional f) fees)) ->
      realized = money (dsub (dadd (ba_realized_pnl a) (dsub (fill_notional f) fees)) (fold_left take_cost taken dzero)) ->
      fill_effect db intent f td per av
        (set_account b (with_lots (with_fills db (fills db ++ [new_fill_row f per]))
                          (fold_left take_one taken (lots db))
                          (consumptions db ++ map (cons_row (default "" (fi_fill_id f)) per) taken)) cash (Some realized))
        0 (Z.of_nat (length taken)).

Lemma apply_fill_effect db intent f td av per db' ld cd :
  (in_side intent = sell -> is_Some (in_entry_signal_id intent)) ->
  apply_fill b db intent f td av per = Ok (db', ld, cd) ->
  fill_effect db intent f td per av db' ld cd
  /\ (forall g, In g (fills db) -> pf_fill_id g <> default "" (fi_fill_id f))
  /\ (forall g, In g (fills db) -> fi_execution_id (pf_fill g) <> fi_execution_id f).
Proof.
  intros Hse Ha. unfold apply_fill in Ha. apply rbind_ok in Ha as (db1 & Hi & Ha).
  apply insert_fill_row_ok in Hi as (-> & Hf1 & Hf2). split; [|done].
  unfold account_values in Ha.
  change (fetch_account b (with_fills db _)) with (fetch_account b db) in Ha.
  destruct (fetch_account b db) as [a|] eqn:Ea; [|done]. cbn [rbind] in Ha.
  destruct (in_side intent) eqn:Es.
  - destruct av as [d|]; [|done]. destruct (fi_total_fees f) as [fees|] eqn:Ef; [|done].
    apply rbind_ok in Ha as (db2 & Hl & [= <- <- <-]). apply insert_lot_ok in Hl as (-> & Hfresh).
    apply (bought db intent f td per a d fees (money (dsub (ba_cash a) (dadd (fill_notional f) fees)))); auto.
  - destruct (Hse eq_refl) as [entry Hentry]. rewrite Hentry in Ha.
    apply rbind_ok in Ha as ([[[db2 n'] cb'] k'] & Hc & Ha).
    apply consume_lots_spec in Hc as (taken & Ht & -> & -> & -> & Hall & Hnn).
    destruct (negb (n' =? 0)) eqn:En; [done|]. bool_hyps. subst n'.
    destruct (fi_total_fees f) as [fees|] eqn:Ef; [|done]. injection Ha as <- <- <-.
    eapply (sold db intent f td per a av fees taken entry); eauto.
Qed.

(** ** A fill keeps the lots in order *)

Lemma sellable_in db ts entry td l : In l (sellable_lots b db ts entry td) ->
  In l (lots db) /\ lo_ts_code l = ts /\ lo_entry_signal_id l = entry /\ lo_available_date l <= td
  /\ 0 < lo_remaining_quantity l.
Proof.
  unfold sellable_lots. intros Hl.
  rewrite order_by_in in Hl. apply filter_In in Hl as [Hl Hg]. bool_hyps. unfold entry_lots, select in Hl. apply filter_In in Hl as [Hl He].
  str_hyps. done.
Qed.

Lemma stored_fill_id f per : pf_fill_id (new_fill_row f per) = default "" (fi_fill_id f).
Proof. done. Qed.

(** Intents with the same order identifier are the same: each has its own order. *)
Lemma oid_inj db i j : orders_ok db -> In i (intents db) -> In j (intents db) -> oid i = oid j -> i = j.
Proof.
  intros Ho Hi Hj He. pose proof (oo_order_ids _ Ho) as Hnd. pose proof (oo_orders _ Ho) as Hf2.
  assert (NoDup (map oid (intents db))) as Hn.
  { assert (map po_order_id (orders db) = map oid (intents db)) as <-; [|done]. clear -Hf2.
    induction Hf2 as [|x r xs rs Hm _ IH]; cbn; [done|]. by rewrite IH, (proj1 Hm). }
  apply NoDup_ListNoDup in Hn. by apply (NoDup_key_eq oid (intents db)).
Qed.

Lemma validated_fill_facts f : validate_fill f = Ok f ->
  fi_fill_id f = Some (default "" (fi_fill_id f)) /\ positive_lot (fi_quantity f) = true
  /\ dpos (fi_price f) = true /\ is_hex64 (fi_execution_id f) = true /\ 1 <= fi_sequence f.
Proof.
  intros Hv. pose proof (validate_fill_form f f Hv) as Hf. unfold validate_fill in Hv.
  destruct (negb (_ && _)) eqn:Eg; [done|]. and_hyps. bool_hyps. split_and!; try done.
  by rewrite Hf.
Qed.

Lemma lots_ok_intents db x : lots_ok db -> (forall f, In f (fills db) -> fi_order_id (pf_fill f) <> oid x) ->
  lots_ok (with_intents db (intents db ++ [x])).
Proof.
  intros [K1 K2 K3 K4 K5 K6 K7] Hx. constructor; cbn; try done.
  - intros l Hl. destruct (K4 l Hl) as (i & f & Hi & Hr). exists i, f. split; [apply in_app_iff; by left|done].
  - intros i f Hi Hf He Hs. apply In_snoc in Hi as [Hi| ->]; [by apply (K5 i)|]. by destruct (Hx f Hf).
  - intros c Hc. destruct (K6 c Hc) as (i & f & l & Hi & Hr). exists i, f, l. split; [apply in_app_iff; by left|done].
  - intros i f Hi Hf He Hs. apply In_snoc in Hi as [Hi| ->]; [by apply (K7 i)|]. by destruct (Hx f Hf).
Qed.

Lemma new_row_matches i f td d per fees : validate_fill f = Ok f -> td = shanghai_date (fi_executed_at f) -> td < d ->
  lot_matches i (new_fill_row f per) (new_lot (payload i) f td d per fees).
Proof. intros Hv -> Hd. unfold lot_matches. cbn. split_and!; done. Qed.

Section KeepLots.
Variables (db : ledger) (i : intent_row) (f : PaperFill) (td per : Z).
Hypothesis (Hinj : forall i j, In i (intents db) -> In j (intents db) -> oid i = oid j -> i = j).
Hypothesis (Hlots : lots_ok db) (Hin : In i (intents db)) (Hoid : fi_order_id f = oid i).
Hypothesis (Hv : validate_fill f = Ok f) (Htd : td = shanghai_date (fi_executed_at f)).
Hypothesis (Hfresh : forall g, In g (fills db) -> pf_fill_id g <> default "" (fi_fill_id f)).

Lemma consumption_not_new c : In c (consumptions db) -> co_fill_id c <> default "" (fi_fill_id f).
Proof.
  intros Hc. destruct (lo_consumptions _ Hlots c Hc) as (j & g & l & _ & Hg & _ & Hok).
  rewrite <- (proj1 Hok). by apply Hfresh.
Qed.

Lemma bought_keeps_lots d fees cash : in_side (payload i) = buy -> td < d ->
  (forall l, In l (lots db) -> lo_lot_id l <> default "" (fi_fill_id f)) ->
  lots_ok (set_account b (with_lots (with_fills db (fills db ++ [new_fill_row f per]))
                            (lots db ++ [new_lot (payload i) f td d per fees]) (consumptions db)) cash None).
Proof.
  intros Hs Hd Hl. destruct (validated_fill_facts f Hv) as (_ & Hq & _). destruct Hlots as [K1 K2 K3 K4 K5 K6 K7].
  assert (consumed_of (default "" (fi_fill_id f)) (consumptions db) = 0) as Hnone.
  { unfold consumed_of. rewrite sumZ_filter. apply sumZ_zero. intros c Hc.
    destruct (K6 c Hc) as (j & g & l & _ & _ & Hl' & Hok). rewrite (proj2 (eqs_false _ _)); [done|].
    destruct Hok as (_ & _ & <- & _). by apply Hl. }
  constructor; cbn.
  - rewrite map_app. apply NoDup_app. split_and!; [done| |by apply NoDup_singleton].
    intros x Hx Hy. apply list_elem_of_singleton in Hy as ->. apply list_elem_of_In, in_map_iff in Hx as (l & Hid & Hl').
    by apply (Hl l).
  - intros l Hl'. apply In_snoc in Hl' as [Hl'| ->]; [by apply K2|]. cbn. rewrite Hnone. lia.
  - intros l Hl'. apply In_snoc in Hl' as [Hl'| ->]; [by apply K3|]. cbn. unfold positive_lot, nonneg_lot in *.
    bool_hyps. apply andb_true_iff. split; [apply Z.leb_le; lia|by apply Z.eqb_eq].
  - intros l Hl'. apply In_snoc in Hl' as [Hl'| ->].
    + destruct (K4 l Hl') as (j & g & Hj & Hg & Hr). exists j, g. split; [done|]. split; [apply in_app_iff; by left|done].
    + exists i, (new_fill_row f per). split; [done|]. split; [apply in_app_iff; right; by left|].
      split; [done|]. split; [done|by apply new_row_matches].
  - intros j g Hj Hg He Hsj. apply In_snoc in Hg as [Hg| ->].
    + destruct (K5 j g Hj Hg He Hsj) as (l & Hl' & Hid). exists l. split; [apply in_app_iff; by left|done].
    + exists (new_lot (payload i) f td d per fees). split; [apply in_app_iff; right; by left|done].
  - intros c Hc. destruct (K6 c Hc) as (j & g & l & Hj & Hg & Hl' & Hok). exists j, g, l.
    split_and!; try done; apply in_app_iff; by left.
  - intros j g Hj Hg He Hsj. apply In_snoc in Hg as [Hg| ->]; [by apply (K7 j)|]. cbn in He. exfalso.
    rewrite Hoid in He. rewrite (Hinj i j) in Hs by done. congruence.
Qed.

Lemma sold_keeps_lots entry taken cash realized : in_side (payload i) = sell ->
  in_entry_signal_id (payload i) = Some entry ->
  takes (sellable_lots b (with_fills db (fills db ++ [new_fill_row f per])) (in_ts_code (payload i)) entry td)
    (fi_quantity f) taken 0 ->
  Forall (fun x => lot_check (snd x) = true) taken ->
  ((forall l, In l (lots db) -> nonneg_lot (lo_remaining_quantity l) = true) ->
   forall l, In l (fold_left take_one taken (lots db)) -> nonneg_lot (lo_remaining_quantity l) = true) ->
  lots_ok (set_account b (with_lots (with_fills db (fills db ++ [new_fill_row f per]))
                            (fold_left take_one taken (lots db))
                            (consumptions db ++ map (cons_row (default "" (fi_fill_id f)) per) taken)) cash (Some realized)).
Proof.
  intros Hs Hentry Ht Hall Hnn. pose proof consumption_not_new as Hcn. destruct Hlots as [K1 K2 K3 K4 K5 K6 K7].
  pose proof (takes_total _ _ _ _ Ht) as Htot. rewrite Z.add_0_r in Htot.
  constructor; cbn.
  - by rewrite fold_take_ids.
  - by apply conserved_fold.
  - by apply Hnn.
  - intros l Hl. apply fold_take_in in Hl as (l0 & Hl0 & Hsame). destruct (K4 l0 Hl0) as (j & g & Hj & Hg & Ho & Hsd & Hm).
    exists j, g. split_and!; try done; [apply in_app_iff; by left|]. unfold lot_matches, same_lot in *.
    destruct Hsame as (-> & -> & -> & -> & -> & -> & -> & _ & -> & -> & -> & ->). done.
  - intros j g Hj Hg He Hsj. apply In_snoc in Hg as [Hg| ->].
    + destruct (K5 j g Hj Hg He Hsj) as (l & Hl & Hid). destruct (fold_take_keeps taken _ _ Hl) as (l' & Hl' & Hsame).
      exists l'. split; [done|]. by rewrite (proj1 Hsame).
    + cbn in He. exfalso. rewrite Hoid in He. rewrite (Hinj i j) in Hs by done. congruence.
  - intros c Hc. apply in_app_iff in Hc as [Hc|Hc].
    + destruct (K6 c Hc) as (j & g & l & Hj & Hg & Hl & Hok). destruct (fold_take_keeps taken _ _ Hl) as (l' & Hl' & Hsame).
      exists j, g, l'. split_and!; try done; [apply in_app_iff; by left|]. unfold consumption_ok, same_lot in *.
      destruct Hsame as (-> & _ & -> & -> & _ & -> & _ & -> & _). done.
    + apply in_map_iff in Hc as (x & <- & Hx). pose proof (takes_incl _ _ _ _ Ht x Hx) as Hsell.
      apply sellable_in in Hsell as (Hl & Hts & Hen & Hav & _). cbn in Hl.
      destruct (fold_take_keeps taken _ _ Hl) as (l' & Hl' & Hsame).
      exists i, (new_fill_row f per), l'. split_and!; try done; [apply in_app_iff; right; by left|].
      rewrite Forall_forall in Hall. specialize (Hall x). rewrite list_elem_of_In in Hall. specialize (Hall Hx).
      unfold consumption_ok, same_lot in *. destruct Hsame as (-> & _ & -> & -> & _ & -> & _ & -> & _). cbn.
      rewrite Hen, <- Htd. split_and!; try done.
  - intros j g Hj Hg He Hsj. rewrite allocated_app, allocated_taken. apply In_snoc in Hg as [Hg| ->].
    + rewrite (K7 j g Hj Hg He Hsj). rewrite (proj2 (eqs_false _ _)); [lia|]. intros E. by apply (Hfresh g).
    + cbn. rewrite eqs_refl, allocated_none by done. lia.
Qed.

Lemma fill_keeps_lots av db' ld cd :
  (forall d, av = Some d -> in_side (payload i) = buy -> td < d) ->
  fill_effect db (payload i) f td per av db' ld cd -> lots_ok db'.
Proof.
  intros Hd He. revert Hd. destruct He; intros Hd; [apply bought_keeps_lots; auto|eapply sold_keeps_lots; eauto].
Qed.
End KeepLots.

(** ** Orders and their fills *)

Lemma seqZ_snoc n : seqZ (S n) = seqZ n ++ [Z.of_nat (S n)].
Proof. unfold seqZ. rewrite seq_S, map_app. done. Qed.

Lemma fill_timeline_app u l : forall k p, fill_timeline u (l ++ k) p = (q <~ fill_timeline u l p ;; fill_timeline u k q).
Proof.
  induction l as [|r l IH]; intros k p; [done|]. cbn [app fill_timeline].
  repeat match goal with |- context [if ?x then Err _ else _] => destruct x; [done|] end. apply IH.
Qed.

Lemma fill_timeline_later u u' l : forall p q, u <= u' -> fill_timeline u l p = Ok q -> fill_timeline u' l p = Ok q.
Proof.
  induction l as [|r l IH]; intros p q Hu Ht; [done|]. cbn [fill_timeline] in *.
  repeat match type of Ht with context [if ?x then Err _ else _] => destruct x eqn:?; [done|] end.
  and_hyps. bool_hyps. rewrite (proj2 (Z.ltb_ge u' _)), (proj2 (Z.ltb_ge u' _)) by lia. by apply IH.
Qed.

Lemma fill_timeline_last u l : forall p q, fill_timeline u l p = Ok q ->
  q = match last l with Some r => Some (fi_executed_at (pf_fill r), pf_persisted_at r) | None => p end.
Proof.
  induction l as [|r l IH]; intros p q Ht; [cbn in Ht; by injection Ht as <-|]. cbn [fill_timeline] in Ht.
  repeat match type of Ht with context [if ?x then Err _ else _] => destruct x; [done|] end.
  apply IH in Ht. destruct l as [|x l]; [done|]. change (last (r :: x :: l)) with (last (x :: l)).
  destruct (last (x :: l)) eqn:E; [done|]. by apply last_None in E.
Qed.

(** Rows numbered from one are in order. *)
Lemma fills_numbered_sorted (l : list fill_row) k :
  map (fun f => fi_sequence (pf_fill f)) l = map (fun i => Z.of_nat i) (seq k (length l)) ->
  StronglySorted (fun x y => lex_leb [fi_sequence (pf_fill x)] [fi_sequence (pf_fill y)] (pf_fill_id x) (pf_fill_id y) = true) l.
Proof.
  revert k. induction l as [|r l IH]; intros k Hs; [constructor|]. cbn in Hs. injection Hs as Hr Hs.
  constructor; [by apply (IH (S k))|]. apply List.Forall_forall. intros y Hy. cbn.
  assert (In (fi_sequence (pf_fill y)) (map (fun f => fi_sequence (pf_fill f)) l)) as Hy'
    by (apply in_map_iff; by exists y).
  rewrite Hs in Hy'. apply in_map_iff in Hy' as (j & Hj & Hjs). apply in_seq in Hjs.
  rewrite (proj2 (Z.ltb_lt _ _)); [done|lia].
Qed.

Lemma order_fills_numbered db id : map (fun f => fi_sequence (pf_fill f)) (fills_of db id) = seqZ (length (fills_of db id)) ->
  order_fills db id = fills_of db id.
Proof. intros Hs. unfold order_fills. apply order_by_sorted. by apply (fills_numbered_sorted _ 1). Qed.

Lemma timeline_of_order db r : order_fills_ok db r -> exists prev,
  fill_timeline (or_updated_at (po_order r)) (fills_of db (po_order_id r)) None = Ok prev
  /\ incremental_fill_timeline db (po_order r) (po_order_id r) = Ok (Z.of_nat (length (fills_of db (po_order_id r))) + 1, prev).
Proof.
  intros (Hs & Hq & Ht & _). destruct (fill_timeline _ _ _) as [prev|] eqn:E; [|done]. exists prev. split; [done|].
  unfold incremental_fill_timeline. rewrite order_fills_numbered by done. rewrite Hs, bool_decide_eq_true_2 by done.
  rewrite Hq, Z.eqb_refl. cbn [negb]. by rewrite E.
Qed.

Lemma fills_of_snoc db f id : fills_of (with_fills db (fills db ++ [f])) id
  = fills_of db id ++ (if eqs (fi_order_id (pf_fill f)) id then [f] else []).
Proof. unfold fills_of. cbn. by rewrite select_app. Qed.

Lemma order_of_intent db i : orders_ok db -> In i (intents db) -> exists r, In r (orders db) /\ order_matches i r.
Proof.
  intros Ho Hi. exact (Forall2_in_l _ _ _ _ (oo_orders _ Ho) Hi).
Qed.

Lemma intent_of_order_row db r : orders_ok db -> In r (orders db) -> exists i, In i (intents db) /\ order_matches i r.
Proof. intros Ho Hr. exact (Forall2_in_r _ _ _ _ (oo_orders _ Ho) Hr). Qed.

(** The intents with orders and fills, without the lots. *)

Definition core db : Prop := orders_ok db /\ fills_ok db /\ lots_ok db.

Lemma fill_order_known db f : orders_ok db -> fills_ok db -> In f (fills db) ->
  exists r, In r (orders db) /\ po_order_id r = fi_order_id (pf_fill f).
Proof.
  intros Ho Hf Hin. destruct (fo_fills _ Hf f Hin) as (i & Hi & Hok). destruct (order_of_intent _ _ Ho Hi) as (r & Hr & Hm).
  exists r. split; [done|]. destruct Hm as (-> & _). by destruct Hok as (_ & _ & -> & _).
Qed.

(** A new intent and its order. *)
Lemma add_order_ok db x r : orders_ok db -> intent_ok x -> order_matches x r ->
  (forall i, In i (intents db) -> pi_intent_id i <> pi_intent_id x) ->
  (forall i, In i (intents db) -> pi_signal_id i <> pi_signal_id x) ->
  (forall o, In o (orders db) -> po_order_id o <> po_order_id r) ->
  orders_ok (with_orders (with_intents db (intents db ++ [x])) (orders db ++ [r])).
Proof.
  intros [K1 K2 K3 K4 K5] Hx Hr F1 F2 F3.
  assert (forall (A : Type) (g : A -> string) t y, NoDup (map g t) -> (forall z, In z t -> g z <> g y) -> NoDup (map g (t ++ [y]))) as Hnd.
  { intros A g t y Hn Hf. apply NoDup_ListNoDup. apply NoDup_key_app; [by apply NoDup_ListNoDup|done]. }
  constructor; cbn; auto.
  - intros i Hi. apply In_snoc in Hi as [Hi| ->]; auto.
  - apply Forall2_app; auto.
Qed.

(** An order created at [t] with the columns of its intent. *)
Definition order_columns (intent : PaperOrderIntent) (t : Z) (o : PaperOrder) : Prop :=
  order_checks o /\ or_intent_id o = default "" (in_intent_id intent) /\ or_account_id o = bk_account_id b
  /\ or_ts_code o = in_ts_code intent /\ or_side o = in_side intent /\ or_order_type o = in_order_type intent
  /\ or_quantity o = in_quantity intent /\ or_created_at o = t
  /\ or_order_id o = Some (order_sha256 (bk_account_id b) (default "" (in_intent_id intent))).

Lemma new_order_spec intent t st rr q p o : new_order b intent t st rr q p = Ok o ->
  order_columns intent t o /\ or_updated_at o = t /\ or_filled_quantity o = q /\ or_average_fill_price o = p.
Proof.
  intros Hn. pose proof (validate_order_checks _ _ Hn). apply validate_order_form in Hn. by subst o.
Qed.

Lemma paper_fill_spec oid' e s q c t snap f : paper_fill oid' e s q c t snap = Ok f ->
  validate_fill f = Ok f /\ fi_order_id f = oid' /\ fi_execution_id f = e /\ fi_sequence f = s /\ fi_quantity f = q
  /\ fi_price f = ec_executed_price c /\ fi_commission f = ec_commission c
  /\ fi_transfer_fee f = Some (ec_transfer_fee c) /\ fi_tax f = ec_stamp_duty c
  /\ fi_total_fees f = Some (ec_total_fees c) /\ fi_executed_at f = t /\ fi_price_snapshot_id f = snap
  /\ fi_cost_provenance_state f = KNOWN_V3 /\ fi_fill_id f = Some (fill_sha256 oid' e)
  /\ fi_cost_spec_id f = Some (ec_cost_spec_id c) /\ fi_cost_spec_schema_version f = Some 3
  /\ fi_cost_context_fingerprint f = Some (ec_cost_context_fingerprint c).
Proof.
  intros Hf. split; [by apply (validate_fill_idem _ _ Hf)|]. apply validate_fill_form in Hf. by subst f.
Qed.

(** What [evaluate_intent] decides. *)
Definition fill_of_order (db : ledger) (intent : PaperOrderIntent) (e : string) (t td : Z) (quote : BrokerExecutionContext)
    (c : ExecutionCostCalculation) (o : PaperOrder) (f : PaperFill) : Prop :=
  paper_fill (default "" (or_order_id o)) e 1 (or_filled_quantity o) c t (in_price_snapshot_id intent) = Ok f
  /\ misses_limit intent (ec_executed_price c) = false /\ in_earliest_execution_at intent <= t < in_expires_at intent
  /\ oi_quantity (ec_order_input c) = or_filled_quantity o
  /\ account_rejects b db intent td (or_filled_quantity o) quote c = Ok None
  /\ (in_side intent = buy -> exists d, bx_acquisition_available_date quote = Some d /\ td < d).

Lemma evaluate_intent_spec db intent e t td quote c o fill :
  evaluate_intent b db intent e t td quote c = Ok (o, fill) ->
  order_columns intent t o /\ or_updated_at o = t
  /\ match fill with
     | None => or_filled_quantity o = 0
     | Some f => fill_of_order db intent e t td quote c o f /\ or_average_fill_price o = Some (fi_price f)
     end.
Proof.
  intros He. unfold evaluate_intent in He. cbv zeta in He.
  assert (forall rr, (o' <~ new_order b intent t PO_ACCEPTED rr 0 None ;; Ok (o', None)) = Ok (o, fill) ->
    order_columns intent t o /\ or_updated_at o = t /\ match fill with None => or_filled_quantity o = 0
      | Some f => fill_of_order db intent e t td quote c o f /\ or_average_fill_price o = Some (fi_price f) end) as Hsimple.
  { intros rr Hn. apply rbind_ok in Hn as (o' & Hn & [= -> <-]). by apply new_order_spec in Hn as (? & ? & ? & _). }
  destruct (quote_rejects intent t quote) as [rr|] eqn:Eq; [by apply (Hsimple (Some rr))|].
  destruct (t <? in_earliest_execution_at intent) eqn:Et; [by apply (Hsimple None)|].
  destruct (misses_limit intent (ec_executed_price c)) eqn:El; [by apply (Hsimple None)|].
  destruct (in_quantity intent <? _) eqn:Eqt; [done|].
  destruct (default (in_quantity intent) (bx_executable_quantity quote) =? 0) eqn:Ez; [by apply (Hsimple None)|].
  destruct (negb _) eqn:Ec; [done|]. apply rbind_ok in He as (ob & Hob & He).
  destruct ob as [rr|]; [by apply (Hsimple (Some rr))|].
  apply rbind_ok in He as (o' & Hn & He). apply rbind_ok in He as (f & Hf & [= -> <-]).
  apply new_order_spec in Hn as (Hc & Hu & Hfq & Hav). bool_hyps.
  assert (t < in_expires_at intent) as Hexp.
  { unfold quote_rejects in Eq.
    destruct (bx_suspended quote), (bx_limit_locked quote), (bx_risk_rejected quote); try done.
    destruct (Z.leb_spec (in_expires_at intent) t); done. }
  split; [done|]. split; [done|]. split; [|by destruct (paper_fill_spec _ _ _ _ _ _ _ _ Hf) as (_ & _ & _ & _ & _ & -> & _)].
  unfold fill_of_order. rewrite Hfq. split_and!; try done.
  intros Hs. unfold account_rejects in Hob. rewrite Hs in Hob. apply rbind_ok in Hob as (u & Ha & _).
  unfold check_acquisition in Ha. destruct (bx_acquisition_available_date quote) as [d|]; [|done]. exists d. split; [done|].
  destruct (d <=? td) eqn:Ed; [done|]. by apply Z.leb_gt in Ed.
Qed.

(** ** Frames *)

Definition same_tables db db' : Prop :=
  intents db' = intents db /\ orders db' = orders db /\ fills db' = fills db /\ lots db' = lots db
  /\ consumptions db' = consumptions db.

Lemma orders_frame db db' : intents db' = intents db -> orders db' = orders db -> orders_ok db -> orders_ok db'.
Proof. intros Hi Ho [K1 K2 K3 K4 K5]. constructor; rewrite ?Hi, ?Ho; done. Qed.

Lemma core_frame_lots db db' : intents db' = intents db -> fills db' = fills db -> lots db' = lots db ->
  consumptions db' = consumptions db -> lots_ok db -> lots_ok db'.
Proof. intros Hi Hf Hl Hc [L1 L2 L3 L4 L5 L6 L7]. constructor; rewrite ?Hi, ?Hf, ?Hl, ?Hc; done. Qed.

Lemma core_frame db db' : same_tables db db' -> core db -> core db'.
Proof.
  intros (Hi & Ho & Hf & Hl & Hc) (Ko & [F1 F2 F3 F4] & Kl). split_and!.
  - by apply (orders_frame db).
  - constructor; unfold order_fills_ok, fills_of in *; rewrite ?Hi, ?Ho, ?Hf; done.
  - by apply (core_frame_lots db).
Qed.

Lemma fill_effect_tables db intent f td per av db' ld cd : fill_effect db intent f td per av db' ld cd ->
  fills db' = fills db ++ [new_fill_row f per] /\ intents db' = intents db /\ orders db' = orders db
  /\ receipts db' = receipts db /\ cost_specs db' = cost_specs db /\ authorities db' = authorities db
  /\ schema_meta db' = schema_meta db /\ attestations db' = attestations db /\ head_markers db' = head_markers db
  /\ tamper_markers db' = tamper_markers db.
Proof. by destruct 1. Qed.

Lemma order_fills_other db db' row r : fills db' = fills db ++ [row] -> fi_order_id (pf_fill row) <> po_order_id r ->
  order_fills_ok db r -> order_fills_ok db' r.
Proof.
  intros Hf Hne. unfold order_fills_ok, fills_of. rewrite Hf, select_app.
  replace (select _ [row]) with (@nil fill_row) by (unfold select; cbn; by rewrite (proj2 (eqs_false _ _) Hne)).
  by rewrite app_nil_r.
Qed.

Lemma fill_row_ok i f per : fi_order_id f = oid i -> validate_fill f = Ok f ->
  misses_limit (payload i) (fi_price f) = false -> fi_executed_at f < in_expires_at (payload i) ->
  is_Some (fi_total_fees f) -> fi_cost_provenance_state f = KNOWN_V3 -> fill_ok i (new_fill_row f per).
Proof.
  intros Ho Hv Hm He Hs Hk. destruct (validated_fill_facts f Hv) as (Hid & _). unfold fill_ok. cbn.
  split_and!; try done.
  - by apply stored_fill_valid.
  - unfold misses_limit in *. destruct (in_order_type _); [done|]. destruct (in_limit_price _) as [p|]; [|done].
    destruct (in_side _); by rewrite (money_deq (fi_price f)).
  - by apply fmap_is_Some.
Qed.

(** The first fill of a new order. *)
Lemma initial_fill_ok db x r f per db' :
  orders_ok db -> fills_ok db -> (forall o, In o (orders db) -> po_order_id o <> po_order_id r) ->
  order_matches x r -> fill_ok x (new_fill_row f per) -> fi_sequence f = 1 ->
  or_filled_quantity (po_order r) = fi_quantity f -> or_created_at (po_order r) = fi_executed_at f ->
  fi_executed_at f <= per <= or_updated_at (po_order r) ->
  (forall g, In g (fills db) -> pf_fill_id g <> default "" (fi_fill_id f)) ->
  (forall g, In g (fills db) -> fi_execution_id (pf_fill g) <> fi_execution_id f) ->
  intents db' = intents db ++ [x] -> orders db' = orders db ++ [r] -> fills db' = fills db ++ [new_fill_row f per] ->
  fills_ok db'.
Proof.
  intros Ho Hf Hfr Hm Hok Hseq Hq Hcr Hper G1 G2 Ei Eo Ef. pose proof Hf as Hf'. destruct Hf as [F1 F2 F3 F4].
  assert (fi_order_id f = po_order_id r) as Hid by (destruct Hm as (-> & _); by destruct Hok as (_ & _ & <- & _)).
  constructor; rewrite ?Ef, ?Ei, ?Eo.
  - apply NoDup_ListNoDup, NoDup_key_app; [by apply NoDup_ListNoDup|done].
  - apply NoDup_ListNoDup, NoDup_key_app; [by apply NoDup_ListNoDup|done].
  - intros g Hg. apply In_snoc in Hg as [Hg| ->].
    + destruct (F3 g Hg) as (i & Hi & Hgi). exists i. split; [apply in_app_iff; by left|done].
    + exists x. split; [apply in_app_iff; right; by left|done].
  - intros o Hin. apply In_snoc in Hin as [Hin| ->].
    + eapply order_fills_other; [exact Ef|cbn; rewrite Hid; intros E; by apply (Hfr o)|by apply F4].
    + assert (fills_of db' (po_order_id r) = [new_fill_row f per]) as Hfs.
      { unfold fills_of. rewrite Ef, select_app. replace (select _ (fills db)) with (@nil fill_row).
        - unfold select. cbn. by rewrite Hid, eqs_refl.
        - symmetry. unfold select. rewrite <- (List.filter_false (fills db)) at 1. 1: apply List.filter_ext_in. intros g Hg.
          destruct (fill_order_known db g Ho Hf' Hg) as (o & Hin & <-). by apply eqs_false, Hfr. }
      unfold order_fills_ok. rewrite Hfs. cbn [map length pf_fill new_fill_row stored_fill fi_sequence fi_quantity fi_executed_at].
      split_and!.
      * by rewrite Hseq.
      * rewrite sumZ_cons. cbn. rewrite Hq. apply Z.add_0_r.
      * cbn. rewrite (proj2 (Z.ltb_ge per _)), (proj2 (Z.ltb_ge (or_updated_at _) _)), (proj2 (Z.ltb_ge (or_updated_at _) _)) by lia. done.
      * intros g [<-|[]]. cbn. lia.
Qed.

(** A new order without a fill. *)
Lemma unfilled_order_ok db x r db' :
  orders_ok db -> fills_ok db -> (forall o, In o (orders db) -> po_order_id o <> po_order_id r) ->
  or_filled_quantity (po_order r) = 0 ->
  intents db' = intents db ++ [x] -> orders db' = orders db ++ [r] -> fills db' = fills db -> fills_ok db'.
Proof.
  intros Ho Hf Hfr Hq Ei Eo Ef. pose proof Hf as Hf'. destruct Hf as [F1 F2 F3 F4].
  constructor; rewrite ?Ef, ?Ei, ?Eo; try done.
  - intros g Hg. destruct (F3 g Hg) as (i & Hi & Hgi). exists i. split; [apply in_app_iff; by left|done].
  - intros o Hin. apply In_snoc in Hin as [Hin| ->].
    + unfold order_fills_ok, fills_of. rewrite Ef. by apply F4.
    + assert (fills_of db' (po_order_id r) = []) as Hfs.
      { unfold fills_of, select. rewrite Ef, <- (List.filter_false (fills db)) at 1. 1: apply List.filter_ext_in. intros g Hg.
        destruct (fill_order_known db g Ho Hf' Hg) as (o & Hin & <-). by apply eqs_false, Hfr. }
      unfold order_fills_ok. rewrite Hfs. done.
Qed.
End Invariant.
