(* ===== verification/PaperSteps.v ===== *)
(** * The paper ledger: operations keep the invariant

    What [submit_intent], [apply_execution], [close_open_order] and [account_authority_snapshot] do to
    the tables ([intent_recorded], [execution_recorded]), that the counts each attests are the rows it
    wrote ([counted]), and that every one of them is a [ledger_step], which keeps the invariant of
    [PaperLedger.v]. *)

From Stdlib Require Import ZArith Lia Bool Sorting.Sorted.
From stdpp Require Import base list strings.
From S2P Require Import Prelude Clock Decimal DecimalEq OrderCosts PaperContracts PaperBroker PaperInv PaperLedger.
Open Scope Z_scope.
Open Scope rq_scope.

Section Operations.
Context `{CostDigest} `{PaperDigestLaws} `{BrokerDigest} `{LedgerEnv} (b : broker).
Implicit Types (db : ledger).

(** The row of a new receipt. *)
Definition new_receipt_row (request : exec_request) (receipt : PaperExecutionReceipt) (c : ExecutionCostCalculation)
    : receipt_row := {|
  re_execution_id := er_execution_id receipt; re_account_id := bk_account_id b;
  re_intent_id := er_intent_id receipt; re_order_id := default "" (or_order_id (er_order receipt));
  re_request_fingerprint := er_request_fingerprint receipt; re_request_json := request;
  re_receipt_json := receipt; re_transfer_fee := Some (money (ec_transfer_fee c));
  re_total_fees := Some (money (ec_total_fees c)); re_cost_spec_id := er_cost_spec_id receipt;
  re_cost_spec_schema_version := er_cost_spec_schema_version receipt;
  re_cost_context_fingerprint := er_cost_context_fingerprint receipt;
  re_cost_provenance_state := er_cost_provenance_state receipt; re_persisted_at := er_persisted_at receipt |}.

Lemma insert_execution_receipt_ok db request receipt db' : insert_execution_receipt b db request receipt = Ok db' ->
  exists c, er_cost_calculation receipt = Some c /\ er_cost_provenance_state receipt = KNOWN_V3
    /\ request_sha256 request = er_request_fingerprint receipt
    /\ db' = with_receipts db (receipts db ++ [new_receipt_row request receipt c])
    /\ (forall x, In x (receipts db) -> re_execution_id x <> er_execution_id receipt).
Proof.
  unfold insert_execution_receipt. destruct (negb (eqs _ _)) eqn:E; [done|]. bool_hyps. str_hyps.
  destruct (er_cost_provenance_state receipt) eqn:Ep; [|done]. destruct (er_cost_calculation receipt) as [c|]; [|done].
  destruct (negb _); [done|]. intros Hi. apply insert_receipt_row_ok in Hi as (-> & Hfr). exists c. split_and!; try done.
  unfold new_receipt_row. by rewrite Ep.
Qed.

(** [db'] is [db] with one more attestation. *)
Definition attested db db' : Prop :=
  (exists ats hms, db' = with_attestations db ats hms)
  /\ exists kind fp deltas now, append_ledger_attestation db kind fp deltas now = Ok db'.

Lemma append_attestation_ok db kind fp deltas now db' : append_ledger_attestation db kind fp deltas now = Ok db' ->
  attested db db'.
Proof.
  intros Hap. split; [|by eauto]. unfold append_ledger_attestation in Hap. apply rbind_ok in Hap as ([m l] & _ & Ha).
  destruct (negb _); [done|]. unfold insert_attestation in Ha. ok_inv Ha; eauto.
Qed.

Lemma attested_tables db db' : attested db db' -> same_tables db db'.
Proof. by intros ((ats & hms & ->) & _). Qed.

(** ** Rows and attested counts *)

Definition rows {R} (t : list R) : Z := Z.of_nat (length t).

(** How many rows each table holds, in the order of the attested counts. *)
Definition table_counts db : counts := {|
  n_accounts := rows (accounts db); n_intents := rows (intents db); n_orders := rows (orders db);
  n_fills := rows (fills db); n_lots := rows (lots db); n_consumptions := rows (consumptions db);
  n_receipts := rows (receipts db); n_authorities := rows (authorities db) |}.

(** The chain of attestations is left alone. *)
Definition chain_frame db db2 : Prop :=
  schema_meta db2 = schema_meta db /\ attestations db2 = attestations db /\ head_markers db2 = head_markers db
  /\ tamper_markers db2 = tamper_markers db.

(** One attestation was appended, and the counts it adds are the rows that were written. *)
Definition counted db db' : Prop :=
  exists db2 kind fp deltas now, chain_frame db db2 /\ append_ledger_attestation db2 kind fp deltas now = Ok db'
    /\ table_counts db2 = add_counts (table_counts db) deltas.

Lemma rows_snoc {R} (t : list R) x : rows (t ++ [x]) = rows t + 1.
Proof. unfold rows. rewrite length_app. cbn. lia. Qed.

Lemma rows_update {R} p f (t : list R) : rows (update p f t) = rows t.
Proof. unfold rows, update. by rewrite length_map. Qed.

Lemma rows_takes taken t : rows (fold_left take_one taken t) = rows t.
Proof. revert t. induction taken as [|x taken IH]; intros t; [done|]. cbn. rewrite IH. apply rows_update. Qed.

Lemma fill_effect_counts db intent f td per av db1 ld cd : fill_effect b db intent f td per av db1 ld cd ->
  chain_frame db db1 /\ table_counts db1 = add_counts (table_counts db)
    {| n_accounts := 0; n_intents := 0; n_orders := 0; n_fills := 1; n_lots := ld; n_consumptions := cd;
       n_receipts := 0; n_authorities := 0 |}.
Proof.
  intros He. destruct He; (split; [done|]); unfold table_counts, add_counts, set_account; cbn;
    rewrite ?rows_takes, ?rows_update, ?rows_snoc; f_equal; unfold rows; rewrite ?length_app, ?length_map; lia.
Qed.

Lemma validated_intent_facts i : validate_intent i = Ok i ->
  in_intent_id i = Some (default "" (in_intent_id i))
  /\ (in_side i = sell -> is_Some (in_entry_signal_id i) /\ is_Some (in_sell_quantity_authority i))
  /\ (in_side i = buy -> in_entry_signal_id i = None) /\ positive_lot (in_quantity i) = true.
Proof.
  intros Hv. destruct (validate_intent_form i i Hv) as (au & Hau & Hi). unfold validate_intent in Hv.
  destruct (negb (_ && _)) eqn:Eg; [done|]. and_hyps. rewrite Hau in Hv. cbn [rbind] in Hv.
  assert (au = in_sell_quantity_authority i) as -> by by rewrite Hi.
  repeat match type of Hv with context [if ?x then Err _ else _] => destruct x eqn:?; [done|] end.
  split_and!; try done; [by rewrite Hi| |].
  - intros Hs. rewrite Hs in *. split.
    + destruct (in_entry_signal_id i); [done|]. by rewrite ?bool_decide_eq_true_2 in * by done.
    + destruct (in_sell_quantity_authority i); [done|]. by rewrite ?bool_decide_eq_true_2 in * by done.
  - intros Hs. rewrite Hs in *. destruct (in_entry_signal_id i) as [e|]; [|done].
    repeat match goal with H : bool_decide (buy = buy) && _ = false |- _ => rewrite bool_decide_eq_true_2 in H by done; cbn in H end.
    done.
Qed.

(** ** A new intent *)

Definition new_intent_row (intent : PaperOrderIntent) (execution_id : string) (per : Z) (request : exec_request) : intent_row := {|
  pi_intent_id := default "" (in_intent_id intent); pi_account_id := bk_account_id b;
  pi_signal_id := in_signal_id intent; pi_entry_signal_id := in_entry_signal_id intent;
  pi_ts_code := in_ts_code intent; pi_side := in_side intent; pi_initial_execution_id := execution_id;
  pi_initial_execution_request_fingerprint := request_sha256 request; pi_payload_json := intent;
  pi_persisted_at := per |}.

Definition new_order_row (intent : PaperOrderIntent) (o : PaperOrder) : order_row := {|
  po_order_id := default "" (or_order_id o); po_entry_signal_id := in_entry_signal_id intent; po_order := stored_order o |}.

Definition with_order db (x : intent_row) (r : order_row) : ledger :=
  with_orders (with_intents db (intents db ++ [x])) (orders db ++ [r]).

(** The ledger after a new intent: its row and order, its fill if it has one, then receipt and attestation. *)
Record intent_recorded db (intent : PaperOrderIntent) (e : string) (t per td : Z) (request : exec_request)
    (o : PaperOrder) (fill : option PaperFill) (db1 db' : ledger) : Prop := {
  ir_intent_fresh : forall i, In i (intents db) -> pi_intent_id i <> default "" (in_intent_id intent);
  ir_signal_fresh : forall i, In i (intents db) -> pi_account_id i = bk_account_id b -> pi_signal_id i <> in_signal_id intent;
  ir_order_fresh : forall r, In r (orders db) -> po_order_id r <> default "" (or_order_id o);
  ir_columns : order_columns b intent t o;
  ir_fill : let dbo := with_order db (new_intent_row intent e per request) (new_order_row intent o) in
    match fill with
    | None => db1 = dbo /\ or_filled_quantity o = 0
    | Some f => exists av ld cd, fill_effect b dbo intent f td per av db1 ld cd
        /\ (forall d, av = Some d -> in_side intent = buy -> td < d)
        /\ (forall g, In g (fills db) -> pf_fill_id g <> default "" (fi_fill_id f))
        /\ (forall g, In g (fills db) -> fi_execution_id (pf_fill g) <> fi_execution_id f)
        /\ (exists c snap, paper_fill (default "" (or_order_id o)) e 1 (or_filled_quantity o) c t snap = Ok f)
        /\ misses_limit intent (fi_price f) = false /\ in_earliest_execution_at intent <= t < in_expires_at intent
        /\ t <= or_updated_at o /\ (t <= per -> or_updated_at o = per)
    end;
  ir_rest : exists rc, attested (with_receipts db1 (receipts db1 ++ [rc])) db';
  ir_counted : counted db db'
}.

Lemma updated_columns intent t o u : order_columns b intent t o -> or_updated_at o = t -> t <= u ->
  order_columns b intent t (with_updated_at o u).
Proof.
  unfold order_columns, order_checks, with_updated_at. cbn.
  intros ((? & ? & ? & ? & ?) & ?) Hu Htu. split_and!; try tauto; lia.
Qed.

Lemma new_rows_counted db x r db1 rc fills1 ld cd :
  table_counts db1 = add_counts (table_counts (with_order db x r))
    {| n_accounts := 0; n_intents := 0; n_orders := 0; n_fills := fills1; n_lots := ld; n_consumptions := cd;
       n_receipts := 0; n_authorities := 0 |} ->
  table_counts (with_receipts db1 (receipts db1 ++ [rc])) = add_counts (table_counts db)
    {| n_accounts := 0; n_intents := 1; n_orders := 1; n_fills := fills1; n_lots := ld; n_consumptions := cd;
       n_receipts := 1; n_authorities := 0 |}.
Proof.
  unfold table_counts, add_counts. cbn. rewrite !rows_snoc. intros [= -> -> -> -> -> -> -> ->]. f_equal; lia.
Qed.

Lemma record_intent_spec db intent e t per td quote costs request now db' o :
  (in_side intent = sell -> is_Some (in_entry_signal_id intent)) ->
  record_intent b db intent e t per td quote costs request now = Ok (db', o) ->
  exists fill db1, intent_recorded db intent e t per td request o fill db1 db'.
Proof.
  intros Hse Hr. unfold record_intent in Hr. cbv zeta in Hr. apply rbind_ok in Hr as (dbi & Hi & Hr).
  apply insert_intent_ok in Hi as (-> & Fi & _ & Fs). apply rbind_ok in Hr as ([o0 fill] & He & Hr).
  apply evaluate_intent_spec in He as (Hc & Hu & Hfill). apply rbind_ok in Hr as (dbo & Ho & Hr).
  unfold insert_order in Ho. apply insert_order_row_ok in Ho as (-> & Fo).
  apply rbind_ok in Hr as ([[db1 ld] cd] & Hf & Hr). apply rbind_ok in Hr as (rc & _ & Hr).
  apply rbind_ok in Hr as (db2 & Hrec & Hr). apply rbind_ok in Hr as (db3 & Hatt & [= <- <-]).
  apply insert_execution_receipt_ok in Hrec as (c & _ & _ & _ & -> & _). pose proof Hatt as Hcnt. apply append_attestation_ok in Hatt.
  exists fill, db1. destruct fill as [f|].
  - destruct Hfill as ((Hpf & Hml & Hwin & _ & _ & Hav) & _).
    assert (fi_price f = ec_executed_price costs) as Hpr by by apply paper_fill_spec in Hpf as (_ & _ & _ & _ & _ & ? & _).
    apply apply_fill_effect in Hf as (Heff & G1 & G2); [|done].
    assert (order_columns b intent t (if or_updated_at o0 <? per then with_updated_at o0 per else o0)) as Hc'.
    { destruct (or_updated_at o0 <? per) eqn:E; [|done]. apply updated_columns; [done|done|]. apply Z.ltb_lt in E. lia. }
    pose proof (fill_effect_counts _ _ _ _ _ _ _ _ _ Heff) as (Hch & Hn).
    split; [done|done|exact Fo|done| |by eauto|].
    2: { eexists _, _, _, _, _. split; [|split; [exact Hcnt|]]; [exact Hch|]. by eapply new_rows_counted. }
    cbv zeta. exists (bx_acquisition_available_date quote), ld, cd. split; [exact Heff|]. split.
    { intros d Hd Hs. destruct (Hav Hs) as (d' & Hd' & Hlt). congruence. }
    split; [done|]. split; [done|]. split; [exists costs, (in_price_snapshot_id intent); by destruct (or_updated_at o0 <? per)|].
    rewrite Hpr. split; [done|]. split; [done|]. destruct (or_updated_at o0 <? per) eqn:E; cbn; bool_hyps; lia.
  - injection Hf as <- <- <-. split; [done|done|exact Fo|done|done|by eauto|].
    eexists _, _, _, _, _. split; [|split; [exact Hcnt|]]; [done|]. eapply new_rows_counted with (fills1 := 0) (x := new_intent_row intent e per request) (r := new_order_row intent o0).
    unfold table_counts, add_counts. cbn. rewrite !rows_snoc. f_equal; lia.
Qed.

Lemma new_intent_ok intent e per request : validate_intent intent = Ok intent -> in_account_id intent = bk_account_id b ->
  intent_ok b (new_intent_row intent e per request).
Proof. intros Hv Ha. unfold intent_ok. cbn. split_and!; try done. by apply validated_intent_facts. Qed.

Lemma new_order_matches intent e per request t o : order_columns b intent t o ->
  order_matches b (new_intent_row intent e per request) (new_order_row intent o).
Proof.
  intros (Hc & K1 & K2 & K3 & K4 & K5 & K6 & _ & Hid). unfold order_matches, oid. cbn. rewrite Hid. split_and!; try done.
  by apply stored_order_checks.
Qed.

Lemma intent_recorded_core db intent e t per td request o fill db1 db' :
  core b db -> validate_intent intent = Ok intent -> in_account_id intent = bk_account_id b ->
  td = shanghai_date t -> t <= per ->
  intent_recorded db intent e t per td request o fill db1 db' -> core b db'.
Proof.
  intros (Ho & Hf & Hl) Hv Ha Htd Hper [Fi Fs Fo Hc Hfill (rc & Hatt) _].
  eapply core_frame; [by apply attested_tables|]. eapply core_frame with (db := db1); [done|].
  set (x := new_intent_row intent e per request) in *. set (r := new_order_row intent o) in *.
  assert (intent_ok b x) as Hx by by apply new_intent_ok.
  assert (order_matches b x r) as Hm by by apply (new_order_matches _ _ _ _ t).
  assert (orders_ok b (with_order db x r)) as Ho'.
  { apply add_order_ok; try done. intros i Hi. apply Fs; [done|]. by destruct (oo_intents _ _ Ho i Hi) as (_ & _ & ? & _). }
  assert (forall g, In g (fills db) -> fi_order_id (pf_fill g) <> oid b x) as Hnew.
  { intros g Hg. destruct (fill_order_known _ _ _ Ho Hf Hg) as (r0 & Hr0 & <-). destruct Hm as (<- & _). by apply Fo. }
  assert (lots_ok b (with_order db x r)) as Hl'.
  { eapply (core_frame_lots b (with_intents db (intents db ++ [x]))); [done..|]. by apply lots_ok_intents. }
  destruct fill as [f|]; cbv zeta in Hfill.
  - destruct Hfill as (av & ld & cd & Heff & Hav & G1 & G2 & (c & snap & Hpf) & Hml & Hwin & Hup1 & Hup).
    apply paper_fill_spec in Hpf as (Hvf & Hfo & _ & Hseq & Hq & _ & _ & _ & _ & Hfees & Hex & _ & Hst & _ & _).
    pose proof (fill_effect_tables _ _ _ _ _ _ _ _ _ _ Heff) as (Ef & Ei & Eo & _).
    assert (fi_order_id f = oid b x) as Hoid by by rewrite Hfo; destruct Hm as (<- & _).
    assert (fill_ok b x (new_fill_row f per)) as Hfok by (apply fill_row_ok; [done|done|done|rewrite Hex; apply Hwin|by rewrite Hfees|done]).
    split; [|split].
    + eapply orders_frame; [exact Ei|exact Eo|done].
    + eapply (initial_fill_ok b db x r f per); try done; cbn; try lia.
      destruct Hc as (_ & _ & _ & _ & _ & _ & _ & Hcr & _). lia.
    + eapply (fill_keeps_lots b (with_order db x r) x f td per); try done; [|apply in_app_iff; right; by left|by rewrite Htd, Hex].
      intros i j. by apply oid_inj.
  - destruct Hfill as (-> & Hq). split; [done|]. split; [|done]. by apply (unfilled_order_ok b db x r).
Qed.

(** ** Updating an order *)

Lemma order_unique db r r' : orders_ok b db -> In r (orders db) -> In r' (orders db) -> po_order_id r = po_order_id r' -> r = r'.
Proof.
  intros Ho Hr Hr' He. pose proof (oo_order_ids _ _ Ho) as Hn. apply NoDup_ListNoDup in Hn.
  by apply (NoDup_key_eq po_order_id (orders db)).
Qed.

(** The columns that an update of an order keeps. *)
Definition order_kept (o o' : PaperOrder) : Prop :=
  or_order_id o' = or_order_id o /\ or_intent_id o' = or_intent_id o /\ or_account_id o' = or_account_id o
  /\ or_ts_code o' = or_ts_code o /\ or_side o' = or_side o /\ or_order_type o' = or_order_type o
  /\ or_quantity o' = or_quantity o /\ or_created_at o' = or_created_at o.

Definition updated_row (g : PaperOrder -> PaperOrder) (r : order_row) : order_row :=
  {| po_order_id := po_order_id r; po_entry_signal_id := po_entry_signal_id r; po_order := g (po_order r) |}.

Lemma order_matches_kept i r g : order_kept (po_order r) (g (po_order r)) -> order_checks (g (po_order r)) ->
  order_matches b i r -> order_matches b i (updated_row g r).
Proof.
  intros (K1 & K2 & K3 & K4 & K5 & K6 & K7 & K8) Hc Hm. unfold order_matches, updated_row in *. cbn.
  rewrite K2, K3, K4, K5, K6, K7. tauto.
Qed.

Lemma in_set_order db id g r' : In r' (orders (set_order db id g)) ->
  exists r, In r (orders db) /\ ((po_order_id r = id /\ r' = updated_row g r) \/ (po_order_id r <> id /\ r' = r)).
Proof.
  intros Hr. cbn in Hr. apply In_update in Hr as (r & Hr & ->). exists r. split; [done|].
  destruct (eqs _ _) eqn:E; [left; str_hyps; done|right; by apply eqs_false in E].
Qed.

Lemma set_order_orders db row g : orders_ok b db -> In row (orders db) ->
  order_kept (po_order row) (g (po_order row)) -> order_checks (g (po_order row)) ->
  orders_ok b (set_order db (po_order_id row) g).
Proof.
  intros Ho Hrow Hk Hc. pose proof (order_unique db row) as Hu. pose proof Ho as Ho'. destruct Ho as [K1 K2 K3 K4 K5].
  constructor; cbn; try done.
  - rewrite update_map_key; [done|by intros r].
  - assert (forall r, In r (orders db) -> po_order_id r = po_order_id row -> r = row) as Hone by (intros r Hr He; symmetry; by apply Hu).
    clear -K5 Hone Hk Hc. revert Hone. induction K5 as [|i r is' rs Hm _ IH]; intros Hone; [constructor|]. cbn.
    constructor; [|apply IH; intros r' Hr'; apply Hone; by right].
    destruct (eqs (po_order_id r) (po_order_id row)) eqn:E; [|done]. str_hyps.
    assert (r = row) as -> by (apply Hone; [by left|done]). by apply order_matches_kept.
Qed.

(** ** A later execution *)

Record execution_recorded db (row : order_row) (i : intent_row) (e : string) (t per td : Z)
    (f : PaperFill) (o' : PaperOrder) (db1 db' : ledger) : Prop := {
  xr_effect : exists av ld cd, fill_effect b db (payload i) f td per av db1 ld cd
    /\ (forall d, av = Some d -> in_side (payload i) = buy -> td < d);
  xr_fill_fresh : forall g, In g (fills db) -> pf_fill_id g <> default "" (fi_fill_id f);
  xr_execution_fresh : forall g, In g (fills db) -> fi_execution_id (pf_fill g) <> fi_execution_id f;
  xr_fill : exists c snap, paper_fill (po_order_id row) e (Z.of_nat (length (fills_of db (po_order_id row))) + 1)
                             (fi_quantity f) c t snap = Ok f;
  xr_limit : misses_limit (payload i) (fi_price f) = false;
  xr_window : or_created_at (po_order row) <= t < in_expires_at (payload i);
  xr_order : order_checks o' /\ order_kept (po_order row) o'
    /\ or_filled_quantity o' = or_filled_quantity (po_order row) + fi_quantity f
    /\ or_updated_at o' = Z.max (or_updated_at (po_order row)) per;
  xr_timeline : exists prev, fill_timeline (or_updated_at (po_order row)) (fills_of db (po_order_id row)) None = Ok prev
    /\ (forall p, prev = Some p -> fst p <= t /\ snd p <= per);
  xr_rest : exists rc, attested (with_receipts (set_order db1 (po_order_id row) (fun _ => stored_order o'))
                                 (receipts db1 ++ [rc])) db';
  xr_counted : counted db db'
}.

Lemma validate_execution_order x r : validate_execution x = Ok r -> validate_order (er_order x) = Ok (er_order r).
Proof.
  unfold validate_execution. destruct (negb _); [done|]. intros Hv. apply rbind_ok in Hv as (o & Ho & Hv).
  apply rbind_ok in Hv as (f & _ & Hv). apply rbind_ok in Hv as (c & _ & Hv). cbv zeta in Hv.
  ok_inv Hv; done.
Qed.

Lemma check_execution_ok db o intent prev t per td q quote c :
  check_execution b db o intent prev t per td q quote c = Ok tt ->
  or_created_at o <= t < in_expires_at intent /\ q <= or_quantity o - or_filled_quantity o
  /\ (forall p, prev = Some p -> fst p <= t /\ snd p <= per)
  /\ misses_limit intent (ec_executed_price c) = false
  /\ (in_side intent = buy -> exists d, bx_acquisition_available_date quote = Some d /\ td < d).
Proof.
  unfold check_execution. intros Hc.
  repeat match type of Hc with context [if ?x then Err _ else _] => lazymatch x with (dltb _ _) => fail | _ => destruct x eqn:?; [done|] end end.
  bool_hyps. split_and!; try done; try lia.
  - intros p ->. cbn in *. rewrite ?bool_decide_eq_true_2 in * by eauto. cbn in *. bool_hyps. lia.
  - intros Hs. rewrite Hs in Hc. apply rbind_ok in Hc as (u & Ha & _).
    unfold check_acquisition in Ha. destruct (bx_acquisition_available_date quote) as [d|]; [|done]. exists d. split; [done|].
    destruct (d <=? td) eqn:Ed; [done|]. by apply Z.leb_gt in Ed.
Qed.

Lemma with_fill_state_kept n p st u o : order_kept o (with_fill_state n p st u o).
Proof. done. Qed.

(** The validated order of a receipt is the order itself when its identifier is set. *)
Lemma receipt_order_checks x r o : validate_execution x = Ok r -> er_order x = o ->
  or_order_id o = Some (order_sha256 (or_account_id o) (or_intent_id o)) -> order_checks o.
Proof.
  intros Hv He Hid. apply validate_execution_order in Hv. rewrite He in Hv. pose proof (validate_order_form _ _ Hv) as Hf.
  assert (er_order r = o) as Hr by (rewrite Hf; destruct o; cbn in *; by rewrite Hid). rewrite Hr in Hv.
  by apply order_checks_sound.
Qed.

Lemma record_execution_spec db row i e t per td q quote snap c request now db' :
  core b db -> In row (orders db) -> order_matches b i row -> In i (intents db) ->
  record_execution b db (po_order_id row) (po_order row) (payload i) e t per td q quote snap c request now = Ok db' ->
  exists f o' db1, execution_recorded db row i e t per td f o' db1 db'.
Proof.
  intros (Ho & Hf & Hl) Hrow Hm Hi Hr. unfold record_execution in Hr.
  destruct (timeline_of_order db row (fo_orders _ _ Hf row Hrow)) as (prev & Ht & Hinc). rewrite Hinc in Hr. cbn [rbind] in Hr.
  apply rbind_ok in Hr as ([] & Hck & Hr). apply check_execution_ok in Hck as (Hwin & Hq & Hprev & Hml & Hav).
  apply rbind_ok in Hr as (f & Hpf & Hr). apply rbind_ok in Hr as ([[db1 ld] cd] & Ha & Hr). cbv zeta in Hr.
  pose proof (validated_intent_facts _ (proj1 (oo_intents _ _ Ho i Hi))) as (_ & Hse & _).
  apply apply_fill_effect in Ha as (Heff & G1 & G2); [|intros Hs; by apply Hse].
  apply rbind_ok in Hr as (tick & _ & Hr). apply rbind_ok in Hr as (avg & _ & Hr). apply rbind_ok in Hr as (rc & Hrc & Hr).
  apply rbind_ok in Hr as (db2 & Hins & Hr). apply insert_execution_receipt_ok in Hins as (c' & _ & _ & _ & -> & _).
  pose proof Hr as Hcnt. apply append_attestation_ok in Hr.
  pose proof (paper_fill_spec _ _ _ _ _ _ _ _ Hpf) as (_ & _ & _ & _ & Hfq & Hpr & _).
  set (st := if _ =? _ then PO_FILLED else PO_PARTIALLY_FILLED) in *.
  set (u := Z.max (or_updated_at (po_order row)) per) in *. set (n := or_filled_quantity (po_order row) + q) in *.
  destruct Hm as (Hid & Hchk & Hrest).
  assert (order_checks (with_fill_state n (Some avg) st u (po_order row))) as Hck'.
  { eapply receipt_order_checks; [exact Hrc|done|]. cbn. apply Hchk. }
  exists f, (with_fill_state n (Some avg) st u (po_order row)), db1. split; try done.
  - exists (bx_acquisition_available_date quote), ld, cd. split; [done|]. intros d Hd Hs. destruct (Hav Hs) as (d' & Hd' & Hlt). congruence.
  - exists c, snap. by rewrite Hfq.
  - by rewrite Hpr.
  - split; [done|]. split; [done|]. by rewrite Hfq.
  - by exists prev.
  - exists (new_receipt_row request rc c'). enough (set_order db1 (po_order_id row)
      (fun _ => stored_order (with_fill_state n (Some avg) st u (po_order row)))
      = set_order db1 (po_order_id row) (with_fill_state n (Some (money avg)) st u)) as -> by exact Hr.
    unfold set_order. f_equal. pose proof (fill_effect_tables _ _ _ _ _ _ _ _ _ _ Heff) as (_ & _ & Eo & _). rewrite Eo.
    apply update_ext. intros r Hin He. str_hyps. by rewrite (order_unique db r row Ho Hin Hrow He).
  - destruct (fill_effect_counts _ _ _ _ _ _ _ _ _ Heff) as (Hch & Hn).
    eexists _, _, _, _, _. split; [|split; [exact Hcnt|]]; [exact Hch|]. unfold table_counts, add_counts in *. cbn.
    rewrite rows_update, rows_snoc. injection Hn as -> -> -> -> -> -> -> ->. cbn. f_equal; lia.
Qed.

Lemma set_order_fills db db' row g f per :
  orders_ok b db -> fills_ok b db -> In row (orders db) -> (exists i, In i (intents db) /\ fill_ok b i (new_fill_row f per)) ->
  order_kept (po_order row) (g (po_order row)) -> fi_order_id f = po_order_id row ->
  fi_sequence f = Z.of_nat (length (fills_of db (po_order_id row))) + 1 ->
  or_filled_quantity (g (po_order row)) = or_filled_quantity (po_order row) + fi_quantity f ->
  (exists prev, fill_timeline (or_updated_at (po_order row)) (fills_of db (po_order_id row)) None = Ok prev
    /\ (forall p, prev = Some p -> fst p <= fi_executed_at f /\ snd p <= per)) ->
  or_updated_at (po_order row) <= or_updated_at (g (po_order row)) -> fi_executed_at f <= per <= or_updated_at (g (po_order row)) ->
  or_created_at (po_order row) <= fi_executed_at f ->
  (forall g, In g (fills db) -> pf_fill_id g <> default "" (fi_fill_id f)) ->
  (forall g, In g (fills db) -> fi_execution_id (pf_fill g) <> fi_execution_id f) ->
  intents db' = intents db -> orders db' = orders (set_order db (po_order_id row) g) ->
  fills db' = fills db ++ [new_fill_row f per] -> fills_ok b db'.
Proof.
  intros Ho Hf Hrow Hok Hk Hid Hseq Hq (prev & Ht & Hp) Hu Hper Hcr G1 G2 Ei Eo Ef. destruct Hf as [F1 F2 F3 F4].
  constructor; rewrite ?Ef, ?Ei, ?Eo.
  - apply NoDup_ListNoDup, NoDup_key_app; [by apply NoDup_ListNoDup|done].
  - apply NoDup_ListNoDup, NoDup_key_app; [by apply NoDup_ListNoDup|done].
  - intros h Hh. apply In_snoc in Hh as [Hh| ->]; [by apply F3|done].
  - intros r' Hr'. apply in_set_order in Hr' as (r & Hr & [(He & ->)|(He & ->)]);
      [|eapply order_fills_other; [exact Ef|cbn; by rewrite Hid; intros E; apply He|by apply F4]].
    rewrite (order_unique db r row Ho Hr Hrow He). destruct (F4 row Hrow) as (S1 & S2 & _ & S4).
    assert (fills_of db' (po_order_id row) = fills_of db (po_order_id row) ++ [new_fill_row f per]) as Hfs.
    { unfold fills_of. rewrite Ef, select_app. f_equal. unfold select. cbn. by rewrite Hid, eqs_refl. }
    unfold order_fills_ok. cbn [po_order_id updated_row po_order]. rewrite Hfs. destruct Hk as (_ & _ & _ & _ & _ & _ & _ & Hcr').
    split_and!.
    + rewrite map_app, length_app, S1, Nat.add_1_r, seqZ_snoc. cbn. rewrite Hseq. do 2 f_equal. lia.
    + rewrite sumZ_app, S2, sumZ_cons, Hq. cbn. change (sumZ _ []) with 0. lia.
    + rewrite fill_timeline_app, (fill_timeline_later _ _ _ _ _ Hu Ht). cbn [rbind fill_timeline new_fill_row pf_fill stored_fill fi_executed_at pf_persisted_at].
      rewrite (proj2 (Z.ltb_ge per _)), (proj2 (Z.ltb_ge (or_updated_at _) _)), (proj2 (Z.ltb_ge (or_updated_at _) _)) by lia.
      destruct prev as [p|]; [|done]. destruct (Hp p eq_refl). cbn. by rewrite (proj2 (Z.ltb_ge _ (fst p))), (proj2 (Z.ltb_ge _ (snd p))) by lia.
    + rewrite Hcr'. intros h Hh. apply In_snoc in Hh as [Hh| ->]; [by apply S4|done].
Qed.

Lemma execution_recorded_core db row i e t per td f o' db1 db' :
  core b db -> In row (orders db) -> In i (intents db) -> order_matches b i row -> td = shanghai_date t -> t <= per ->
  execution_recorded db row i e t per td f o' db1 db' -> core b db'.
Proof.
  intros (Ho & Hf & Hl) Hrow Hi Hm Htd Hper
    [(av & ld & cd & Heff & Hav) G1 G2 (c & snap & Hpf) Hml Hwin (Hchk & Hk & Hq & Hu) Ht (rc & Hatt) _].
  apply paper_fill_spec in Hpf as (Hvf & Hfo & _ & Hseq & _ & _ & _ & _ & _ & Hfees & Hex & _ & Hst & _ & _).
  pose proof (fill_effect_tables _ _ _ _ _ _ _ _ _ _ Heff) as (Ef & Ei & Eo & _).
  eapply core_frame; [by apply attested_tables|].
  eapply core_frame with (db := set_order db1 (po_order_id row) (fun _ => stored_order o')); [done|].
  assert (fi_order_id f = oid b i) as Hoid by by rewrite Hfo; destruct Hm as (<- & _).
  assert (order_kept (po_order row) (stored_order o')) as Hks by exact Hk.
  split; [|split].
  - apply orders_frame with (db := set_order db (po_order_id row) (fun _ => stored_order o'));
      [exact Ei|cbn; by rewrite Eo|]. apply set_order_orders; try done. by apply stored_order_checks.
  - apply (set_order_fills db _ row (fun _ => stored_order o') f per); try done; cbn; try lia.
    + exists i. split; [done|]. apply fill_row_ok; [done|done|done|rewrite Hex; apply Hwin|by rewrite Hfees|done].
    + rewrite Hex. exact Ht.
    + by rewrite Eo.
  - apply core_frame_lots with (db := db1); try done.
    apply (fill_keeps_lots b db i f td per) with (av := av) (ld := ld) (cd := cd); try done; [|by rewrite Htd, Hex].
    intros x y. by apply oid_inj.
Qed.

(** ** Closing an order *)

Lemma closed_checks st u o : order_checks o -> open_status (or_status o) = true -> st = PO_CANCELLED \/ st = PO_EXPIRED ->
  order_checks (with_status st (Z.max (or_updated_at o) u) o).
Proof.
  unfold order_checks, with_status. cbn.
  intros (P1 & P2 & P3 & P4 & P5 & P6 & P7 & P8 & P9 & P10 & P11 & P12) Hop Hst. unfold positive_lot in P1. bool_hyps.
  split_and!; try done; try lia.
  - unfold positive_lot. apply andb_true_iff. split; [by apply Z.ltb_lt|by apply Z.eqb_eq].
  - destruct (or_status o), Hst as [-> | ->]; try done; lia.
  - rewrite P11. destruct (or_status o), Hst as [-> | ->]; try done.
Qed.

Lemma set_status_core db row st u : core b db -> In row (orders db) -> open_status (or_status (po_order row)) = true ->
  st = PO_CANCELLED \/ st = PO_EXPIRED ->
  core b (set_order db (po_order_id row) (with_status st (Z.max (or_updated_at (po_order row)) u))).
Proof.
  intros (Ho & Hf & Hl) Hrow Hop Hst. split; [|split].
  - apply set_order_orders; try done. apply closed_checks; try done.
    destruct (intent_of_order_row _ _ _ Ho Hrow) as (i & _ & Hm). apply Hm.
  - destruct Hf as [F1 F2 F3 F4]. constructor; try done. intros r' Hr'.
    apply in_set_order in Hr' as (r & Hr & [(He & ->)|(He & ->)]); [|by apply F4].
    rewrite (order_unique db r row Ho Hr Hrow He). destruct (F4 row Hrow) as (S1 & S2 & S3 & S4).
    split; [done|]. split; [done|]. split; [|done]. cbn. cbv zeta in S3. unfold fills_of in *. cbn.
    destruct (fill_timeline _ _ _) as [p|] eqn:E in S3; [|done].
    apply (fill_timeline_later _ (Z.max (or_updated_at (po_order row)) u)) in E; [by rewrite E|lia].
  - by apply core_frame_lots with (db := db).
Qed.

(** ** Reading back what the ledger holds *)

Lemma fetch_order_ok db id row : fetch_order b db id = Some row -> In row (orders db) /\ po_order_id row = id.
Proof. intros Hf. apply find_some in Hf as [Hin Hg]. bool_hyps. str_hyps. done. Qed.

Lemma stored_order_read db row : orders_ok b db -> In row (orders db) -> order_from_row row = Ok (po_order row).
Proof.
  intros Ho Hr. destruct (intent_of_order_row _ _ _ Ho Hr) as (i & _ & Hm). apply order_checks_complete. apply Hm.
Qed.

Lemma fetch_intent_unique db i : orders_ok b db -> In i (intents db) -> fetch_intent db (pi_intent_id i) = Some i.
Proof.
  intros Ho Hi. pose proof (oo_intent_ids _ _ Ho) as Hn. apply NoDup_ListNoDup in Hn. unfold fetch_intent.
  by apply (fetchone_key pi_intent_id _ i (fun id r => eqs (pi_intent_id r) id)).
Qed.

Lemma intent_of_stored_order db row : orders_ok b db -> In row (orders db) ->
  exists i, In i (intents db) /\ order_matches b i row /\ fetch_intent db (or_intent_id (po_order row)) = Some i
    /\ validate_intent (payload i) = Ok (payload i).
Proof.
  intros Ho Hr. destruct (intent_of_order_row _ _ _ Ho Hr) as (i & Hi & Hm). exists i. split; [done|]. split; [done|].
  split; [|by apply (oo_intents _ _ Ho i Hi)]. destruct Hm as (_ & _ & -> & _). by apply fetch_intent_unique.
Qed.

(** ** Every public operation is a step *)

Inductive ledger_step db : ledger -> Prop :=
  | step_none : ledger_step db db
  | step_intent intent e t per td request o fill db1 db' :
      validate_intent intent = Ok intent -> in_account_id intent = bk_account_id b -> td = shanghai_date t -> t <= per ->
      in_available_at intent <= t -> intent_recorded db intent e t per td request o fill db1 db' -> ledger_step db db'
  | step_execution row i e t per td f o' db1 db' :
      In row (orders db) -> In i (intents db) -> order_matches b i row -> open_status (or_status (po_order row)) = true ->
      td = shanghai_date t -> t <= per ->
      execution_recorded db row i e t per td f o' db1 db' -> ledger_step db db'
  | step_close row st u db' :
      In row (orders db) -> open_status (or_status (po_order row)) = true -> st = PO_CANCELLED \/ st = PO_EXPIRED ->
      attested (set_order db (po_order_id row) (with_status st (Z.max (or_updated_at (po_order row)) u))) db' ->
      counted db db' -> ledger_step db db'
  | step_authority aus db' : attested (with_authorities db aus) db' -> counted db db' -> ledger_step db db'.

Lemma step_core db db' : core b db -> ledger_step db db' -> core b db'.
Proof.
  intros Hc Hs. destruct Hs; [done|by eapply intent_recorded_core|by eapply execution_recorded_core| |].
  - eapply core_frame; [by apply attested_tables|by apply set_status_core].
  - eapply core_frame; [by apply attested_tables|]. by eapply core_frame with (db := db).
Qed.

Lemma submit_intent_step db intent e t per td quote now : validate_intent intent = Ok intent ->
  ledger_step db (fst (submit_intent b db intent e t per td quote now)).
Proof.
  intros Hv. unfold submit_intent. cbv zeta.
  repeat match goal with |- context [txn _ (if ?x then Err _ else _)] => destruct x eqn:?; [apply step_none|] end.
  and_hyps. bool_hyps. str_hyps.
  match goal with |- ledger_step _ (fst (txn _ ?body)) => destruct (txn_cases db body) as [->|(db' & r & Hb & ->)]; [apply step_none|] end.
  apply rbind_ok in Hb as (u & _ & Hb). apply rbind_ok in Hb as (costs & _ & Hb). apply rbind_ok in Hb as (u' & _ & Hb).
  destruct (fetch_intent _ _) as [row|].
  - apply rbind_ok in Hb as (o & _ & [= <- <-]). apply step_none.
  - apply rbind_ok in Hb as (ex & _ & Hb). destruct ex; [done|]. apply rbind_ok in Hb as (u'' & _ & Hb).
    apply rbind_ok in Hb as ([db1 o] & Hrec & [= <- <-]).
    apply record_intent_spec in Hrec as (fill & db2 & Hrec).
    + eapply step_intent; try exact Hrec; try done; lia.
    + intros Hs. by apply (validated_intent_facts _ Hv).
Qed.

Lemma apply_execution_step db id e t td q quote snap per now : core b db ->
  ledger_step db (fst (apply_execution b db id e t td q quote snap per now)).
Proof.
  intros Hc. unfold apply_execution. cbv zeta.
  repeat match goal with |- context [txn _ (if ?x then Err _ else _)] => destruct x eqn:?; [apply step_none|] end.
  and_hyps. bool_hyps.
  destruct (intent_of_order _ _ _) as [pre|]; [|apply step_none].
  match goal with |- ledger_step _ (fst (txn _ ?body)) => destruct (txn_cases db body) as [->|(db' & r & Hb & ->)]; [apply step_none|] end.
  apply rbind_ok in Hb as (pi & _ & Hb). apply rbind_ok in Hb as (u & _ & Hb). apply rbind_ok in Hb as (costs & _ & Hb).
  apply rbind_ok in Hb as (u' & _ & Hb). apply rbind_ok in Hb as (ex & _ & Hb). destruct ex as [rc|].
  { destruct (negb _); [done|]. injection Hb as <- <-. apply step_none. }
  destruct (exists_row _ _); [done|]. destruct (fetch_order b db id) as [row|] eqn:Er; [|done].
  apply fetch_order_ok in Er as (Hrow & <-). destruct Hc as (Ho & Hf & Hl).
  rewrite (stored_order_read db row Ho Hrow) in Hb. cbn [rbind] in Hb.
  destruct (intent_of_stored_order db row Ho Hrow) as (i & Hi & Hm & Hfi & Hvi). rewrite Hfi in Hb.
  change (pi_payload_json i) with (payload i) in Hb. rewrite Hvi in Hb. cbn [rbind] in Hb.
  destruct (negb _); [done|]. destruct (negb (open_status _)) eqn:Eo; [done|].
  apply rbind_ok in Hb as (db1 & Hrec & [= <- <-]).
  apply record_execution_spec with (i := i) in Hrec as (f & o' & db2 & Hrec); try done.
  bool_hyps. eapply step_execution; try exact Hrec; try done; lia.
Qed.

Lemma close_open_order_step db id st t per now : core b db ->
  ledger_step db (fst (close_open_order b db id st t per now)).
Proof.
  intros Hc. unfold close_open_order. cbv zeta.
  repeat match goal with |- context [txn _ (if ?x then Err _ else _)] => destruct x eqn:?; [apply step_none|] end.
  match goal with |- ledger_step _ (fst (txn _ ?body)) => destruct (txn_cases db body) as [->|(db' & r & Hb & ->)]; [apply step_none|] end.
  apply rbind_ok in Hb as (u & _ & Hb). destruct (fetch_order b db id) as [row|] eqn:Er; [|done].
  apply fetch_order_ok in Er as (Hrow & <-). destruct Hc as (Ho & Hf & Hl).
  rewrite (stored_order_read db row Ho Hrow) in Hb. cbn [rbind] in Hb. destruct (negb (open_status _)) eqn:Eo; [done|].
  apply rbind_ok in Hb as ([n prev] & _ & Hb). destruct (_ && _); [done|]. destruct (_ && _); [done|].
  destruct (intent_of_stored_order db row Ho Hrow) as (i & Hi & Hm & Hfi & Hvi). rewrite Hfi in Hb.
  change (pi_payload_json i) with (payload i) in Hb. rewrite Hvi in Hb. cbn [rbind] in Hb. destruct (_ && _); [done|].
  apply rbind_ok in Hb as (db1 & Ha & [= <- <-]). pose proof Ha as Hcnt. apply append_attestation_ok in Ha.
  bool_hyps. eapply step_close; [done|done| |exact Ha|]; [by destruct st; auto|].
  eexists _, _, _, _, _. split; [|split; [exact Hcnt|]]; [by split_and!|].
  unfold table_counts, add_counts, no_counts. cbn. rewrite rows_update. f_equal; lia.
Qed.

Lemma upsert_authority_ok db r db' : upsert_authority db r = Ok db' -> exists aus, db' = with_authorities db aus
  /\ rows aus = rows (authorities db)
       + (if bool_decide (fetchone (fun a => eqs (au_account_id a) (au_account_id r)) (authorities db) = None) then 1 else 0).
Proof.
  unfold upsert_authority. destruct (negb _); [done|]. destruct (_ || _); [done|]. cbv zeta. intros [= <-]. eexists. split; [done|].
  destruct (exists_row _ _) eqn:E.
  - rewrite rows_update, bool_decide_eq_false_2; [lia|]. intros Hn. rewrite fetchone_None in Hn.
    apply existsb_exists in E as (x & Hx & Hg). by rewrite Hn in Hg.
  - rewrite rows_snoc, bool_decide_eq_true_2; [done|]. apply fetchone_None. intros x Hx.
    destruct (eqs _ _) eqn:Ex; [|done]. enough (exists_row (fun a => eqs (au_account_id a) (au_account_id r)) (authorities db) = true) by congruence.
    apply existsb_exists. eauto.
Qed.

Lemma validate_account_authority_id a a' : validate_account_authority a = Ok a' -> au_account_id a' = au_account_id a.
Proof.
  unfold validate_account_authority. destruct (negb _); [done|]. intros Hv. apply rbind_ok in Hv as (s & _ & Hv).
  destruct (negb _); [done|]. by injection Hv as <-.
Qed.

Lemma account_authority_step db as_of prices commit now :
  ledger_step db (fst (account_authority_snapshot b db as_of prices commit now)).
Proof.
  unfold account_authority_snapshot. cbv zeta.
  match goal with |- ledger_step _ (fst (txn _ ?body)) => destruct (txn_cases db body) as [->|(db' & r & Hb & ->)]; [apply step_none|] end.
  apply rbind_ok in Hb as (u & _ & Hb). apply rbind_ok in Hb as (snap & _ & Hb). apply rbind_ok in Hb as (u' & _ & Hb).
  set (row := fetchone _ (authorities db)) in Hb.
  assert (forall rev, (state <~ validate_account_authority {|
         au_account_id := bk_account_id b; au_revision := rev; au_state_fingerprint := account_state_sha256 snap;
         au_producer_commit := commit; au_snapshot_json := snap |} ;;
       db2 <~ upsert_authority db state ;;
       db3 <~ append_ledger_attestation db2 "account_authority" (au_state_fingerprint state)
               {| n_accounts := 0; n_intents := 0; n_orders := 0; n_fills := 0; n_lots := 0; n_consumptions := 0;
                  n_receipts := 0; n_authorities := if bool_decide (row = None) then 1 else 0 |} now ;;
       committed db3 state) = Ok (db', r) -> ledger_step db db') as Hrec.
  { clear Hb. intros rev Hb. apply rbind_ok in Hb as (st & Hv & Hb). apply validate_account_authority_id in Hv. cbn in Hv.
    apply rbind_ok in Hb as (db2 & Hup & Hb). apply upsert_authority_ok in Hup as (aus & -> & Hn). rewrite Hv in Hn.
    apply rbind_ok in Hb as (db3 & Ha & [= <- <-]). eapply step_authority; [by eapply append_attestation_ok|].
    eexists _, _, _, _, _. split; [|split; [exact Ha|]]; [done|].
    unfold table_counts, add_counts. cbn. rewrite Hn. fold row. f_equal; lia. }
  destruct row as [a|]; [|by apply (Hrec 1)]. apply rbind_ok in Hb as (p & _ & Hb).
  destruct (_ && _); [|by eapply Hrec]. injection Hb as <- <-. apply step_none.
Qed.
End Operations.
