(* ===== verification/PaperTrust.v ===== *)
(** * The paper ledger: attestation and replay

    A successful append extends the chain of attestations and head markers, so that an operation on a
    trusted ledger leaves it trusted; receipts read back as they were written and stay where they are,
    so that a repeated request is answered from them. *)

From Stdlib Require Import ZArith Lia Bool.
From stdpp Require Import base list strings.
From S2P Require Import Prelude Clock Decimal DecimalEq OrderCosts PaperContracts PaperBroker PaperInv PaperLedger PaperSteps.
Open Scope Z_scope.
Open Scope rq_scope.

(** ** The latest row *)

Lemma fetchone_prefix {R} (p : R -> bool) t u r : fetchone p t = Some r -> fetchone p (t ++ u) = Some r.
Proof. unfold fetchone. induction t as [|x t IH]; [done|]. cbn. by destruct (p x). Qed.

Section Latest.
Context {R : Type} (revision : R -> Z).

Lemma latest_snoc t x : latest_by revision (t ++ [x]) =
  match latest_by revision t with Some r => if revision r <? revision x then Some x else Some r | None => Some x end.
Proof. unfold latest_by. by rewrite fold_left_app. Qed.

Lemma latest_spec t l : latest_by revision t = Some l ->
  (forall r, In r t -> revision r <= revision l) /\ fetchone (fun r => revision r =? revision l) t = Some l.
Proof.
  revert l. induction t as [|x t IH] using rev_ind; intros l Hl; [done|]. rewrite latest_snoc in Hl.
  destruct (latest_by revision t) as [r|] eqn:E.
  - destruct (IH r eq_refl) as [Hmax Hf]. destruct (revision r <? revision x) eqn:Ex; injection Hl as <-; bool_hyps.
    + split; [intros y Hy; apply In_snoc in Hy as [Hy| ->]; [specialize (Hmax y Hy); lia|lia]|].
      rewrite fetchone_app; [by rewrite Z.eqb_refl|]. apply fetchone_None. intros y Hy. apply Z.eqb_neq. specialize (Hmax y Hy). lia.
    + split; [intros y Hy; apply In_snoc in Hy as [Hy| ->]; [by apply Hmax|lia]|]. by apply fetchone_prefix.
  - injection Hl as <-. destruct t as [|y t].
    + split; [intros r [<-|[]]; lia|]. unfold fetchone. cbn. by rewrite Z.eqb_refl.
    + exfalso. clear -E. unfold latest_by in E. cbn in E. revert E. generalize y. induction t as [|z t IH]; intros w E; [done|].
      cbn in E. destruct (revision w <? revision z); by eapply IH.
Qed.

Lemma latest_new t l x : latest_by revision t = Some l -> revision l < revision x -> latest_by revision (t ++ [x]) = Some x.
Proof. intros Hl Hx. rewrite latest_snoc, Hl. by rewrite (proj2 (Z.ltb_lt _ _) Hx). Qed.
End Latest.

Section Trust.
Context `{CostDigest} `{PaperDigestLaws} `{BrokerDigest} `{LedgerEnv} (b : broker).
Implicit Types (db : ledger).

(** ** Appending to the chain *)

Lemma valid_attestation r p : validate_attestation_row r = Ok p ->
  ar_columns r = p /\ ar_payload_json r = p /\ ar_attestation_fingerprint r = attestation_sha256 p.
Proof.
  unfold validate_attestation_row. destruct (negb _) eqn:E; [done|]. intros [= <-]. and_hyps. bool_hyps. str_hyps.
  done.
Qed.

Lemma valid_marker r p : validate_head_marker_row r = Ok p ->
  hr_columns r = p /\ hr_payload_json r = p /\ hr_head_marker_fingerprint r = head_marker_sha256 p.
Proof.
  unfold validate_head_marker_row. destruct (negb _) eqn:E; [done|]. intros [= <-]. and_hyps. bool_hyps. str_hyps.
  done.
Qed.

(** The rows of a valid head. *)
Record head_ok db (migration latest : attestation_row) (mm lm : head_marker_row) : Prop := {
  ho_migration : fetchone (fun a => at_revision (ar_columns a) =? 1) (attestations db) = Some migration;
  ho_latest : latest_by (fun a => at_revision (ar_columns a)) (attestations db) = Some latest;
  ho_migration_valid : validate_attestation_row migration = Ok (ar_columns migration);
  ho_kind : at_event_kind (ar_columns migration) = "migration_audit"
    /\ at_previous_attestation_fingerprint (ar_columns migration) = None;
  ho_same : at_ledger_generation (ar_columns latest) = at_ledger_generation (ar_columns migration)
    /\ at_migration_attestation_fingerprint (ar_columns latest) = at_migration_attestation_fingerprint (ar_columns migration);
  ho_counts : forallb (fun '(l, m) => m <=? l)
    (combine (counts_list (at_counts (ar_columns latest))) (counts_list (at_counts (ar_columns migration)))) = true;
  ho_tamper : tamper_markers db = [];
  ho_mm : fetchone (fun m => hm_revision (hr_columns m) =? 1) (head_markers db) = Some mm;
  ho_lm : latest_by (fun m => hm_revision (hr_columns m)) (head_markers db) = Some lm;
  ho_mm_valid : validate_head_marker_row mm = Ok (hr_columns mm);
  ho_mm_binds : hm_revision (hr_columns mm) = 1 /\ hm_previous_head_marker_fingerprint (hr_columns mm) = None
    /\ hm_attestation_fingerprint (hr_columns mm) = ar_attestation_fingerprint migration
    /\ marker_matches (hr_columns mm) (ar_columns migration) = true;
  ho_lm_revision : hm_revision (hr_columns lm) = at_revision (ar_columns latest)
}.

Lemma attestation_head_ok db migration latest : attestation_head db = Ok (migration, latest) ->
  exists mm lm, head_ok db migration latest mm lm.
Proof.
  unfold attestation_head. intros Hh. destruct (fetchone _ _) as [m|] eqn:Em in Hh; [|done].
  destruct (latest_by _ _) as [l|] eqn:El in Hh; [|done]. apply rbind_ok in Hh as (mp & Hm & Hh). pose proof Hm as Hm'.
  apply valid_attestation in Hm' as (<- & _ & _). apply rbind_ok in Hh as (lp & Hl & Hh). pose proof Hl as Hl'.
  apply valid_attestation in Hl' as (<- & _ & _). destruct (negb (_ && _)) eqn:E1 in Hh; [done|].
  apply rbind_ok in Hh as (u & _ & Hh). destruct (negb (forallb _ _)) eqn:E2 in Hh; [done|].
  apply rbind_ok in Hh as (u' & Hc & [= -> ->]). unfold validate_canonical_head in Hc.
  destruct (negb (bool_decide _)) eqn:E3 in Hc; [done|]. destruct (fetchone _ _) as [mm|] eqn:Emm in Hc; [|done].
  destruct (latest_by _ _) as [lm|] eqn:Elm in Hc; [|done]. apply rbind_ok in Hc as (mmp & Hmm & Hc).
  pose proof Hmm as Hmm'. apply valid_marker in Hmm' as (<- & _ & _). apply rbind_ok in Hc as (lmp & Hlm & Hc).
  apply valid_marker in Hlm as (<- & _ & _). destruct (negb (_ && _)) eqn:E4 in Hc; [done|]. destruct (negb (_ && _)) eqn:E5 in Hc; [done|].
  clear Hc. and_hyps. bool_hyps. str_hyps. repeat match goal with Hb : ~ is_Some _ |- _ => apply eq_None_not_Some in Hb end.
  exists mm, lm. by split.
Qed.

Lemma counts_grow c d m : forallb (Z.leb 0) (counts_list d) = true ->
  forallb (fun '(l, m) => m <=? l) (combine (counts_list c) (counts_list m)) = true ->
  forallb (fun '(l, m) => m <=? l) (combine (counts_list (add_counts c d)) (counts_list m)) = true.
Proof.
  unfold counts_list, add_counts. cbn. intros. bool_hyps. repeat (apply andb_true_iff; split); try apply Z.leb_le; try done; lia.
Qed.

(** The new head after an append, and the tables it leaves alone. *)
Lemma append_head db kind fp deltas now db' : append_ledger_attestation db kind fp deltas now = Ok db' ->
  exists migration latest latest', attestation_head db = Ok (migration, latest)
    /\ attestation_head db' = Ok (migration, latest')
    /\ at_migration_version (ar_columns latest') = LEDGER_MIGRATION_VERSION
    /\ at_schema_version (ar_columns latest') = 5
    /\ at_schema_fingerprint (ar_columns latest') = at_schema_fingerprint (ar_columns latest)
    /\ at_migration_attestation_fingerprint (ar_columns latest') = at_migration_attestation_fingerprint (ar_columns migration)
    /\ at_counts (ar_columns latest') = add_counts (at_counts (ar_columns latest)) deltas.
Proof.
  unfold append_ledger_attestation. intros Ha. apply rbind_ok in Ha as ([m l] & Hh & Ha).
  destruct (attestation_head_ok _ _ _ Hh) as (mm & lm & [Km Kl Kv Kk Ks Kc Kt Kmm Klm Kmv Kb Kr]).
  destruct (negb (forallb _ _)) eqn:Ed; [done|]. apply negb_false_iff in Ed.
  destruct (latest_spec _ _ _ Kl) as [Lmax Lf]. destruct (latest_spec _ _ _ Klm) as [Hmax Hf].
  apply fetchone_Some in Km as Km'. destruct Km' as [Min M1]. specialize (Lmax m Min). bool_hyps.
  unfold insert_attestation in Ha. cbv zeta in Ha. cbn [at_revision at_counts] in Ha.
  destruct (_ || _) eqn:E1 in Ha; [done|]. destruct (negb (in_int64 _)); [done|].
  apply rbind_ok in Ha as (prev & Hp & Ha). destruct (exists_row _ _) eqn:E3 in Ha; [done|]. injection Ha as <-.
  assert ((1 <? at_revision (ar_columns l) + 1) = true) as Hlt by (apply Z.ltb_lt; lia). rewrite Hlt in Hp.
  replace (at_revision (ar_columns l) + 1 - 1) with (at_revision (ar_columns l)) in Hp by lia.
  rewrite <- Kr, Hf in Hp. injection Hp as <-.
  match goal with |- context [attestations db ++ [?x]] => exists m, l, x end. split; [done|]. split; [|done].
  unfold attestation_head. cbn [attestations with_attestations].
  rewrite (fetchone_prefix _ _ _ _ Km), (latest_new _ _ _ _ Kl) by (cbn; lia). rewrite Kv. cbn [rbind].
  unfold validate_attestation_row. cbn [ar_columns ar_payload_json ar_attestation_fingerprint].
  rewrite bool_decide_eq_true_2, eqs_refl by done. cbn [negb andb rbind].
  destruct Kk as [-> ->]. destruct Ks as [-> _]. rewrite !eqs_refl, bool_decide_eq_false_2 by (intros [? ?]; done). cbn [negb andb].
  cbn [at_revision]. rewrite Hlt. replace (at_revision (ar_columns l) + 1 - 1) with (at_revision (ar_columns l)) by lia.
  rewrite (fetchone_prefix _ _ _ _ Lf), bool_decide_eq_true_2 by done. cbn [negb rbind at_counts].
  rewrite (counts_grow _ _ _ Ed Kc). cbn [negb].
  unfold validate_canonical_head. cbn [tamper_markers head_markers with_attestations]. rewrite Kt, bool_decide_eq_true_2 by done. cbn [negb].
  rewrite (fetchone_prefix _ _ _ _ Kmm), (latest_new _ _ _ _ Klm) by (cbn; lia). rewrite Kmv. cbn [rbind].
  unfold validate_head_marker_row. cbn [hr_columns hr_payload_json hr_head_marker_fingerprint].
  rewrite bool_decide_eq_true_2, eqs_refl by done. cbn [negb andb rbind].
  destruct Kb as (-> & -> & -> & ->). rewrite bool_decide_eq_false_2 by (intros [? ?]; done).
  cbn [hm_revision hm_attestation_fingerprint at_revision ar_columns ar_attestation_fingerprint]. rewrite !eqs_refl, !Z.eqb_refl. cbn [negb andb].
  unfold marker_matches. cbn. rewrite !eqs_refl, !Z.eqb_refl, bool_decide_eq_true_2 by done. cbn [negb andb].
  rewrite Hlt. replace (at_revision (ar_columns l) + 1 - 1) with (hm_revision (hr_columns lm)) by lia.
  rewrite (fetchone_prefix _ _ _ _ Hf), bool_decide_eq_true_2 by done. done.
Qed.

(** ** Trust is kept *)

Lemma head_frame db db2 : chain_frame db db2 -> attestation_head db2 = attestation_head db.
Proof. intros (_ & Ha & Hh & Ht). unfold attestation_head, validate_canonical_head. by rewrite Ha, Hh, Ht. Qed.

Lemma attested_meta db db' : attested db db' -> schema_meta db' = schema_meta db /\ accounts db' = accounts db
  /\ cost_specs db' = cost_specs db /\ receipts db' = receipts db.
Proof. by intros ((ats & hms & ->) & _). Qed.

(** One more attestation leaves the verdict as it is, when the ledger passed. *)
Lemma integrity_attested db db2 db' : chain_frame db db2 -> attested db2 db' ->
  require_schema_integrity db = Ok tt -> require_schema_integrity db' = Ok tt.
Proof.
  intros Hfr Hatt Hok. destruct (attested_meta _ _ Hatt) as (Hmeta & _). destruct Hatt as (_ & k & fp & ds & now & Ha).
  apply append_head in Ha as (m & l & l' & Hh & Hh' & Hv & Hs & Hfp & Hm & _). rewrite (head_frame _ _ Hfr) in Hh.
  destruct Hfr as (Hme & _). rewrite Hme in Hmeta.
  unfold require_schema_integrity, ledger_trust_status in *. rewrite Hmeta.
  destruct (schema_meta db) as [row|]; [|done]. destruct (negb (sc_schema_version row =? 5)) eqn:E5; [done|].
  destruct (negb (sc_internal_migration_version row =? _)); [done|]. destruct (negb v4_archive_ok); [done|].
  destruct schema_fingerprint as [sf|]; [|done]. rewrite Hh in Hok. rewrite Hh'. destruct migration_digest as [dg|]; [|done].
  apply negb_false_iff, Z.eqb_eq in E5. rewrite E5 in *. cbv zeta in *. rewrite Hv, Hs, Hfp, Hm, !Z.eqb_refl in *.
  destruct (negb _) eqn:Eg in Hok; [done|]. apply negb_false_iff in Eg. rewrite !andb_true_iff in Eg.
  destruct Eg as (((((((-> & _) & ->) & _) & ->) & ->) & ->) & _). done.
Qed.

(** The columns that bind an account to its costs. *)
Definition bound_alike (a a' : account_row) : Prop :=
  ba_account_id a' = ba_account_id a /\ ba_initial_cash a' = ba_initial_cash a
  /\ ba_cost_provenance_state a' = ba_cost_provenance_state a
  /\ ba_cost_spec_schema_version a' = ba_cost_spec_schema_version a /\ ba_cost_spec_id a' = ba_cost_spec_id a.

Definition account_frame db db2 : Prop :=
  cost_specs db2 = cost_specs db /\ forall a, fetch_account b db = Some a -> exists a', fetch_account b db2 = Some a' /\ bound_alike a a'.

Lemma account_frame_same db db2 : cost_specs db2 = cost_specs db -> accounts db2 = accounts db -> account_frame db db2.
Proof. intros Hc Ha. split; [done|]. intros a Hf. exists a. unfold fetch_account. by rewrite Ha. Qed.

Lemma account_frame_trans db db2 db3 : account_frame db db2 -> account_frame db2 db3 -> account_frame db db3.
Proof.
  intros (C1 & F1) (C2 & F2). split; [congruence|]. intros a Ha. destruct (F1 a Ha) as (a2 & Ha2 & B2). destruct (F2 a2 Ha2) as (a3 & Ha3 & B3).
  exists a3. split; [done|]. unfold bound_alike in *. destruct B2 as (? & ? & ? & ? & ?), B3 as (? & ? & ? & ? & ?). split_and!; congruence.
Qed.

Lemma set_account_frame db cash realized : account_frame db (set_account b db cash realized).
Proof.
  split; [done|]. intros a Ha. unfold fetch_account, set_account in *. cbn [accounts with_accounts].
  rewrite fetchone_update by (intros r; destruct (eqs (ba_account_id r) (bk_account_id b)) eqn:E; exact E). rewrite Ha. cbn.
  apply fetchone_Some in Ha as [_ ->]. eexists. split; [done|]. done.
Qed.

Lemma ready_attested db db2 db' : chain_frame db db2 -> account_frame db db2 -> attested db2 db' ->
  require_execution_ready b db = Ok tt -> require_execution_ready b db' = Ok tt.
Proof.
  intros Hch (Hcs & Hac) Hatt. unfold require_execution_ready. intros Hr. apply rbind_ok in Hr as (u & Hi & Hr). destruct u.
  rewrite (integrity_attested _ _ _ Hch Hatt Hi). cbn [rbind]. destruct (attested_meta _ _ Hatt) as (_ & Ea & Ec & _).
  destruct (fetch_account b db) as [a|] eqn:E; [|done]. destruct (Hac a eq_refl) as (a' & Ha' & (_ & _ & B1 & B2 & B3)).
  unfold fetch_account in Ha' |- *. rewrite Ea, Ha', B1, B2, B3. destruct (negb _); [done|].
  unfold require_active_cost_spec_authority in *. by rewrite Ec, Hcs.
Qed.

Lemma fill_effect_account db intent f td per av db1 ld cd : fill_effect b db intent f td per av db1 ld cd -> account_frame db db1.
Proof. intros He. destruct He; eapply account_frame_trans; try apply set_account_frame; by apply account_frame_same. Qed.

Lemma fill_effect_chain db intent f td per av db1 ld cd : fill_effect b db intent f td per av db1 ld cd -> chain_frame db db1.
Proof. by destruct 1. Qed.

Lemma step_ready db db' : ledger_step b db db' -> require_execution_ready b db = Ok tt -> require_execution_ready b db' = Ok tt.
Proof.
  intros Hs. destruct Hs as [|intent e t per td request o fill db1 db' _ _ _ _ _ Hrec|row i e t per td f o' db1 db' _ _ _ _ _ _ Hrec|row st u db' _ _ _ Hatt _|aus db' Hatt _].
  - done.
  - destruct (ir_rest _ _ _ _ _ _ _ _ _ _ _ _ Hrec) as (rc & Hatt). pose proof (ir_fill _ _ _ _ _ _ _ _ _ _ _ _ Hrec) as Hf. cbv zeta in Hf.
    eapply ready_attested; [| |exact Hatt].
    + destruct fill; [|by destruct Hf as (-> & _)]. destruct Hf as (av & ld & cd & Heff & _). apply (fill_effect_chain _ _ _ _ _ _ _ _ _ Heff).
    + destruct fill; [|by destruct Hf as (-> & _); apply account_frame_same].
      destruct Hf as (av & ld & cd & Heff & _). apply (fill_effect_account _ _ _ _ _ _ _ _ _ Heff).
  - destruct (xr_rest _ _ _ _ _ _ _ _ _ _ _ _ Hrec) as (rc & Hatt). destruct (xr_effect _ _ _ _ _ _ _ _ _ _ _ _ Hrec) as (av & ld & cd & Heff & _).
    eapply ready_attested; [| |exact Hatt]; [apply (fill_effect_chain _ _ _ _ _ _ _ _ _ Heff)|apply (fill_effect_account _ _ _ _ _ _ _ _ _ Heff)].
  - eapply ready_attested; [| |exact Hatt]; [done|by apply account_frame_same].
  - eapply ready_attested; [| |exact Hatt]; [done|by apply account_frame_same].
Qed.

(** ** The attested counts follow the tables *)

(** The head of the later ledger has the counts of the earlier one and the rows written since. *)
Definition counts_follow db db' : Prop :=
  exists m l l', attestation_head db = Ok (m, l) /\ attestation_head db' = Ok (m, l')
    /\ add_counts (at_counts (ar_columns l')) (table_counts db) = add_counts (at_counts (ar_columns l)) (table_counts db').

Lemma counts_follow_trans db db2 db3 : counts_follow db db2 -> counts_follow db2 db3 -> counts_follow db db3.
Proof.
  intros (m & l & l2 & A1 & A2 & E1) (m' & l2' & l3 & A2' & A3 & E2). rewrite A2 in A2'. injection A2' as <- <-.
  exists m, l, l3. split; [done|]. split; [done|]. unfold add_counts, table_counts in *. cbn in *. injection E1 as ????????. injection E2 as ????????. f_equal; lia.
Qed.

Lemma attested_counts db db' : attested db db' -> table_counts db' = table_counts db.
Proof. by intros ((ats & hms & ->) & _). Qed.

Lemma counted_follow db db' : counted db db' -> counts_follow db db'.
Proof.
  intros (db2 & k & fp & ds & now & Hch & Ha & Hn). pose proof (attested_counts _ _ (append_attestation_ok _ _ _ _ _ _ Ha)) as Hn'.
  apply append_head in Ha as (m & l & l' & Hh & Hh' & _ & _ & _ & _ & Hc). rewrite (head_frame _ _ Hch) in Hh.
  exists m, l, l'. split; [done|]. split; [done|]. rewrite Hn', Hn, Hc. unfold add_counts. cbn. f_equal; lia.
Qed.

Lemma step_counts db0 db db' : ledger_step b db db' -> counts_follow db0 db -> counts_follow db0 db'.
Proof.
  intros Hs Hf. destruct Hs as [| ? ? ? ? ? ? ? ? ? ? _ _ _ _ _ Hrec| ? ? ? ? ? ? ? ? ? ? _ _ _ _ _ _ Hrec|? ? ? ? _ _ _ _ Hcnt|? ? _ Hcnt]; [done|..];
    (eapply counts_follow_trans; [exact Hf|]); apply counted_follow; [apply (ir_counted _ _ _ _ _ _ _ _ _ _ _ _ Hrec)|apply (xr_counted _ _ _ _ _ _ _ _ _ _ _ _ Hrec)|done|done].
Qed.

(** ** Nothing is taken back *)

(** Intents, fills, consumptions and receipts are only ever added. *)
Definition extends db db' : Prop :=
  (exists x, intents db' = intents db ++ x) /\ (exists x, fills db' = fills db ++ x)
  /\ (exists x, consumptions db' = consumptions db ++ x) /\ (exists x, receipts db' = receipts db ++ x).

Lemma extends_refl db : extends db db.
Proof. split_and!; exists []; by rewrite app_nil_r. Qed.

Lemma extends_trans db db2 db3 : extends db db2 -> extends db2 db3 -> extends db db3.
Proof.
  intros ((x1 & A1) & (x2 & A2) & (x3 & A3) & x4 & A4) ((y1 & B1) & (y2 & B2) & (y3 & B3) & y4 & B4).
  split_and!; eexists; rewrite ?B1, ?B2, ?B3, ?B4, ?A1, ?A2, ?A3, ?A4; by rewrite <- app_assoc.
Qed.

Lemma fill_effect_extends db intent f td per av db1 ld cd : fill_effect b db intent f td per av db1 ld cd -> extends db db1.
Proof.
  intros He. destruct He; split_and!; cbn; try (exists []; by rewrite app_nil_r); by eexists.
Qed.

Lemma attested_extends db db' rc : attested (with_receipts db (receipts db ++ [rc])) db' -> extends db db'.
Proof. intros ((ats & hms & ->) & _). split_and!; cbn; try (exists []; by rewrite app_nil_r); by eexists. Qed.

Lemma step_extends db db' : ledger_step b db db' -> extends db db'.
Proof.
  intros Hs. destruct Hs as [|intent e t per td request o fill db1 db' _ _ _ _ _ Hrec|row i e t per td f o' db1 db' _ _ _ _ _ _ Hrec|row st u db' _ _ _ Hatt _|aus db' Hatt _].
  - apply extends_refl.
  - destruct (ir_rest _ _ _ _ _ _ _ _ _ _ _ _ Hrec) as (rc & Hatt). pose proof (ir_fill _ _ _ _ _ _ _ _ _ _ _ _ Hrec) as Hf. cbv zeta in Hf.
    eapply extends_trans; [|by eapply attested_extends]. set (dbo := with_order _ _ _) in Hf.
    assert (extends db dbo) as He by (split_and!; cbn; try (exists []; by rewrite app_nil_r); by eexists).
    destruct fill; [|by destruct Hf as (-> & _)]. destruct Hf as (av & ld & cd & Heff & _).
    eapply extends_trans; [exact He|]. by eapply fill_effect_extends.
  - destruct (xr_rest _ _ _ _ _ _ _ _ _ _ _ _ Hrec) as (rc & Hatt). destruct (xr_effect _ _ _ _ _ _ _ _ _ _ _ _ Hrec) as (av & ld & cd & Heff & _).
    eapply extends_trans; [by eapply fill_effect_extends|].
    exact (attested_extends (set_order db1 (po_order_id row) (fun _ => stored_order o')) db' rc Hatt).
  - destruct Hatt as ((ats & hms & ->) & _). split_and!; exists []; by rewrite app_nil_r.
  - destruct Hatt as ((ats & hms & ->) & _). split_and!; exists []; by rewrite app_nil_r.
Qed.

(** ** Orders advance *)

(** An order is accepted or partially filled until it is filled or closed; nothing else moves. *)
Definition status_moves (s s' : PaperOrderStatus) : Prop :=
  s' = s \/ ((s = PO_ACCEPTED \/ s = PO_PARTIALLY_FILLED)
             /\ (s' = PO_PARTIALLY_FILLED \/ s' = PO_FILLED \/ s' = PO_CANCELLED \/ s' = PO_EXPIRED)).

Definition final_status (s : PaperOrderStatus) : Prop :=
  s = PO_FILLED \/ s = PO_REJECTED \/ s = PO_CANCELLED \/ s = PO_EXPIRED.

Definition order_advances (o o' : PaperOrder) : Prop :=
  order_kept o o' /\ status_moves (or_status o) (or_status o') /\ or_filled_quantity o <= or_filled_quantity o'
  /\ or_updated_at o <= or_updated_at o' /\ (final_status (or_status o) -> o' = o).

(** The code's check is that the order is in one of the two statuses that move. *)
Lemma open_status_moves s : open_status s = true -> (s = PO_ACCEPTED \/ s = PO_PARTIALLY_FILLED) /\ ~ final_status s.
Proof. destruct s; try done; intros _; (split; [auto|]); by intros [?|[?|[?|?]]]. Qed.

Lemma order_advances_refl o : order_advances o o.
Proof. split_and!; try done. by left. Qed.

Lemma order_advances_trans o o2 o3 : order_advances o o2 -> order_advances o2 o3 -> order_advances o o3.
Proof.
  intros (K1 & S1 & Q1 & U1 & F1) (K2 & S2 & Q2 & U2 & F2). split_and!; try lia.
  - unfold order_kept in *. destruct K1 as (? & ? & ? & ? & ? & ? & ? & ?), K2 as (? & ? & ? & ? & ? & ? & ? & ?). split_and!; congruence.
  - unfold status_moves in *. destruct S1 as [E|(O1 & S1)]; [by rewrite E in S2|]. right. split; [done|]. destruct S2 as [->|(O2 & S2)]; auto.
  - intros Hc. rewrite (F1 Hc) in *. by apply F2.
Qed.

Lemma executed_advances o o' q : order_checks o' -> order_kept o o' -> open_status (or_status o) = true -> 0 < q ->
  nonneg_lot (or_filled_quantity o) = true ->
  or_filled_quantity o' = or_filled_quantity o + q -> or_updated_at o <= or_updated_at o' -> order_advances o o'.
Proof.
  intros Hc Hk Ho Hq Hn Hf Hu. apply open_status_moves in Ho as [Hmv Hfin]. split_and!; try done; try lia.
  unfold nonneg_lot in Hn. bool_hyps. right. split; [done|]. unfold order_checks in Hc. destruct Hc as (_ & _ & _ & _ & _ & _ & _ & _ & _ & Hst & _).
  destruct (or_status o'); auto; lia.
Qed.

Lemma updated_row_in db id g row : In row (orders db) -> po_order_id row = id -> In (updated_row g row) (orders (set_order db id g)).
Proof. intros Hr <-. cbn. apply In_update. exists row. by rewrite eqs_refl. Qed.

Lemma other_row_in db id g row : In row (orders db) -> po_order_id row <> id -> In row (orders (set_order db id g)).
Proof. intros Hr Hne. cbn. apply In_update. exists row. by rewrite (proj2 (eqs_false _ _) Hne). Qed.

Definition row_advances db' (row : order_row) : Prop :=
  exists row', In row' (orders db') /\ po_order_id row' = po_order_id row /\ order_advances (po_order row) (po_order row').

Lemma set_order_advances db row g : orders_ok b db -> In row (orders db) -> order_advances (po_order row) (g (po_order row)) ->
  forall r, In r (orders db) -> row_advances (set_order db (po_order_id row) g) r.
Proof.
  intros Ho Hrow Hadv r Hr. destruct (decide (po_order_id r = po_order_id row)) as [E|E].
  - rewrite (order_unique b db r row Ho Hr Hrow E). exists (updated_row g row). split; [by apply updated_row_in|done].
  - exists r. split; [by apply other_row_in|]. split; [done|apply order_advances_refl].
Qed.

Lemma row_advances_frame db db' row : orders db' = orders db -> row_advances db row -> row_advances db' row.
Proof. unfold row_advances. by intros ->. Qed.

Lemma attested_orders db db' : attested db db' -> orders db' = orders db.
Proof. by intros ((ats & hms & ->) & _). Qed.

Lemma step_orders db db' row : core b db -> ledger_step b db db' -> In row (orders db) -> row_advances db' row.
Proof.
  intros (Ho & Hf & Hl) Hs Hrow. destruct Hs as [|intent e t per td request o fill db1 db' _ _ _ _ _ Hrec|r i e t per td f o' db1 db' Hr Hi Hm Hop _ _ Hrec|r st u db' Hr Hop Hst Hatt _|aus db' Hatt _].
  - exists row. split; [done|]. split; [done|apply order_advances_refl].
  - destruct (ir_rest _ _ _ _ _ _ _ _ _ _ _ _ Hrec) as (rc & Hatt). pose proof (ir_fill _ _ _ _ _ _ _ _ _ _ _ _ Hrec) as Hfl. cbv zeta in Hfl.
    exists row. split; [|split; [done|apply order_advances_refl]]. rewrite (attested_orders _ _ Hatt). cbn.
    destruct fill; [destruct Hfl as (av & ld & cd & Heff & _); apply fill_effect_tables in Heff as (_ & _ & -> & _)|destruct Hfl as (-> & _)];
      cbn; apply in_app_iff; by left.
  - destruct (xr_rest _ _ _ _ _ _ _ _ _ _ _ _ Hrec) as (rc & Hatt). destruct (xr_effect _ _ _ _ _ _ _ _ _ _ _ _ Hrec) as (av & ld & cd & Heff & _).
    apply fill_effect_tables in Heff as (_ & _ & Eo & _). destruct (xr_order _ _ _ _ _ _ _ _ _ _ _ _ Hrec) as (Hc & Hk & Hq & Hu).
    destruct (xr_fill _ _ _ _ _ _ _ _ _ _ _ _ Hrec) as (c & snap & Hpf). apply paper_fill_spec in Hpf as (Hvf & _).
    apply validated_fill_facts in Hvf as (_ & Hpos & _). unfold positive_lot in Hpos. bool_hyps. destruct Hm as (_ & Hck & _).
    apply row_advances_frame with (db := set_order db (po_order_id r) (fun _ => stored_order o')).
    + rewrite (attested_orders _ _ Hatt). cbn. by rewrite Eo.
    + apply set_order_advances; try done. apply executed_advances with (q := fi_quantity f); try done; [by apply stored_order_checks|apply Hck|cbn; lia].
  - apply row_advances_frame with (db := set_order db (po_order_id r) (with_status st (Z.max (or_updated_at (po_order r)) u)));
      [by apply attested_orders|]. apply open_status_moves in Hop as [Hmv Hfin]. apply set_order_advances; try done. split_and!; try done; cbn; try lia.
    right. split; [done|]. destruct Hst as [-> | ->]; auto.
  - exists row. rewrite (attested_orders _ _ Hatt). split; [done|]. split; [done|apply order_advances_refl].
Qed.

(** ** Receipts read back *)

Lemma mk_calculation_id c c' : mk_calculation c = Ok c' -> c' = c.
Proof.
  unfold mk_calculation. destruct (ec_selected_rule_ids c) as [[[s r1] r2] r3].
  destruct (negb _); [done|]. destruct (negb _); [done|]. destruct (negb _); [done|]. congruence.
Qed.

(** A receipt of validated parts is what its validation returns. *)
Lemma validate_execution_id r r' : validate_execution r = Ok r' -> order_checks (er_order r) ->
  (forall f, er_fill r = Some f -> validate_fill f = Ok f) -> r' = r.
Proof.
  intros Hv Ho Hf. pose proof (validate_execution_order _ _ Hv) as Ho'. rewrite (order_checks_complete _ Ho) in Ho'.
  unfold validate_execution in Hv. destruct (negb _); [done|]. rewrite (order_checks_complete _ Ho) in Hv. cbn [rbind] in Hv.
  apply rbind_ok in Hv as (f' & Hf' & Hv). apply rbind_ok in Hv as (c' & Hc' & Hv).
  assert (f' = er_fill r) as ->.
  { destruct (er_fill r) as [f|]; cbn in Hf'; [|by injection Hf' as <-]. rewrite (Hf f eq_refl) in Hf'. by injection Hf' as <-. }
  assert (c' = er_cost_calculation r) as ->.
  { destruct (er_cost_calculation r) as [c|]; cbn in Hc'; [|by injection Hc' as <-]. apply rbind_ok in Hc' as (c2 & Hc & [= <-]).
    by rewrite (mk_calculation_id _ _ Hc). }
  cbv zeta in Hv. destruct r. cbn in *. ok_inv Hv; done.
Qed.

(** The requests a receipt answers. *)
Definition request_answers (request : exec_request) (receipt : PaperExecutionReceipt) (c : ExecutionCostCalculation) : Prop :=
  rq_execution_id request = er_execution_id receipt /\ rq_persisted_at request = er_persisted_at receipt
  /\ rq_cost_evidence request = c
  /\ match rq_kind request with
     | INITIAL id t => id = er_intent_id receipt /\ t = or_created_at (er_order receipt)
         /\ forall f, er_fill receipt = Some f -> fi_executed_at f = or_created_at (er_order receipt)
     | INCREMENTAL id t q snap => exists f, er_fill receipt = Some f /\ or_order_id (er_order receipt) = Some id
         /\ t = fi_executed_at f /\ q = fi_quantity f /\ snap = fi_price_snapshot_id f
     end.

Lemma new_receipt_reads request receipt c : validate_execution receipt = Ok receipt ->
  request_sha256 request = er_request_fingerprint receipt -> er_cost_provenance_state receipt = KNOWN_V3 ->
  er_cost_calculation receipt = Some c -> is_Some (or_order_id (er_order receipt)) ->
  or_account_id (er_order receipt) = bk_account_id b -> request_answers request receipt c ->
  receipt_from_row b (new_receipt_row b request receipt c) (er_execution_id receipt) = Ok receipt.
Proof.
  intros Hv Hrq Hst Hc [id Hid] Hac (R1 & R2 & R3 & Hk). unfold receipt_from_row. cbn [re_receipt_json new_receipt_row]. rewrite Hv.
  assert (receipt_columns_match b (new_receipt_row b request receipt c) receipt (er_execution_id receipt) = true) as ->.
  { unfold receipt_columns_match. cbn. rewrite Hrq, Hid, Hac, !eqs_refl, Z.eqb_refl. by rewrite bool_decide_eq_true_2. }
  assert (receipt_costs_match (new_receipt_row b request receipt c) receipt = true) as ->.
  { unfold receipt_costs_match. rewrite Hst, Hc. cbn. rewrite R3, Hst. by rewrite !bool_decide_eq_true_2 by done. }
  assert (receipt_identity_matches (new_receipt_row b request receipt c) receipt = true) as ->.
  { unfold receipt_identity_matches. cbn. by rewrite R1, R2, eqs_refl, Z.eqb_refl. }
  cbn [negb]. enough (check_request_kind (new_receipt_row b request receipt c) receipt = Ok tt) as -> by done.
  unfold check_request_kind. cbn [re_request_json new_receipt_row]. destruct (rq_kind request) as [iid t|oid' t q snap].
  - destruct Hk as (-> & -> & Hf). rewrite eqs_refl, Z.eqb_refl. destruct (er_fill receipt) as [f|]; [|done].
    cbn. by rewrite (Hf f eq_refl), Z.eqb_refl.
  - destruct Hk as (f & -> & -> & -> & -> & ->). by rewrite !Z.eqb_refl, eqs_refl, bool_decide_eq_true_2 by done.
Qed.

Lemma new_receipt_found db request receipt c : (forall x, In x (receipts db) -> re_execution_id x <> er_execution_id receipt) ->
  fetchone (fun r => eqs (re_account_id r) (bk_account_id b) && eqs (re_execution_id r) (er_execution_id receipt))
    (receipts db ++ [new_receipt_row b request receipt c]) = Some (new_receipt_row b request receipt c).
Proof.
  intros Hfr. rewrite fetchone_app; [by cbn; rewrite !eqs_refl|]. apply fetchone_None. intros x Hx.
  by rewrite (proj2 (eqs_false _ _) (Hfr x Hx)), andb_false_r.
Qed.

(** A receipt that was read once is read again after any additions. *)
Lemma receipt_kept db db' e r : extends db db' -> execution_receipt b db e = Ok (Some r) -> execution_receipt b db' e = Ok (Some r).
Proof.
  intros (_ & _ & _ & x & Hx). unfold execution_receipt. destruct (fetchone _ (receipts db)) as [row|] eqn:E; [|done].
  by rewrite Hx, (fetchone_prefix _ _ _ _ E).
Qed.

Lemma intent_kept db db' id i : extends db db' -> fetch_intent db id = Some i -> fetch_intent db' id = Some i.
Proof. intros ((x & Hx) & _) Hi. unfold fetch_intent in *. rewrite Hx. by apply fetchone_prefix. Qed.

Lemma receipt_form x r : validate_execution x = Ok r -> er_execution_id r = er_execution_id x
  /\ er_request_fingerprint r = er_request_fingerprint x /\ er_intent_id r = er_intent_id x /\ er_persisted_at r = er_persisted_at x.
Proof.
  unfold validate_execution. destruct (negb _); [done|]. intros Hv. apply rbind_ok in Hv as (o & _ & Hv).
  apply rbind_ok in Hv as (f & _ & Hv). apply rbind_ok in Hv as (c & _ & Hv). cbv zeta in Hv. ok_inv Hv; done.
Qed.

(** What a new receipt says. *)
Lemma receipt_with_cost_spec e fp iid o fill c per r : execution_receipt_with_cost e fp iid o fill c per = Ok r ->
  order_checks o -> (forall f, fill = Some f -> validate_fill f = Ok f) ->
  validate_execution r = Ok r /\ er_execution_id r = e /\ er_request_fingerprint r = fp /\ er_intent_id r = iid
  /\ er_order r = o /\ er_fill r = fill /\ er_cost_calculation r = Some c /\ er_persisted_at r = per
  /\ er_cost_provenance_state r = KNOWN_V3.
Proof.
  unfold execution_receipt_with_cost. intros Hv Ho Hf. pose proof (validate_execution_id _ _ Hv Ho Hf) as Hr. rewrite <- Hr in Hv.
  rewrite Hr. cbn. rewrite Hr in Hv. split_and!; done.
Qed.

Lemma with_updated_checks o u : order_checks o -> or_updated_at o <= u -> order_checks (with_updated_at o u).
Proof. unfold order_checks, with_updated_at. cbn. intros (? & ? & ? & ? & Hr) Hu. split_and!; try tauto; lia. Qed.

Lemma record_intent_receipt db intent e t per td quote costs request now db' o :
  (in_side intent = sell -> is_Some (in_entry_signal_id intent)) ->
  rq_kind request = INITIAL (default "" (in_intent_id intent)) t -> rq_execution_id request = e -> rq_persisted_at request = per ->
  rq_cost_evidence request = costs ->
  record_intent b db intent e t per td quote costs request now = Ok (db', o) ->
  fetch_intent db' (default "" (in_intent_id intent)) = Some (new_intent_row b intent e per request)
  /\ exists receipt, execution_receipt b db' e = Ok (Some receipt) /\ er_order receipt = o.
Proof.
  intros Hse R1 R2 R3 R4 Hr. unfold record_intent in Hr. cbv zeta in Hr. apply rbind_ok in Hr as (dbi & Hi & Hr).
  apply insert_intent_ok in Hi as (-> & Fi & _ & _). apply rbind_ok in Hr as ([o0 fill] & He & Hr).
  apply evaluate_intent_spec in He as (Hc & Hu & Hfill). apply rbind_ok in Hr as (dbo & Ho & Hr).
  unfold insert_order in Ho. apply insert_order_row_ok in Ho as (-> & _).
  apply rbind_ok in Hr as ([[db1 ld] cd] & Hf & Hr). apply rbind_ok in Hr as (rc & Hrc & Hr).
  apply rbind_ok in Hr as (db2 & Hrec & Hr). apply rbind_ok in Hr as (db3 & Hatt & [= <- <-]).
  apply append_attestation_ok in Hatt as ((ats & hms & ->) & _).
  set (o := match fill with Some _ => _ | None => o0 end) in *.
  assert (order_checks o) as Hok.
  { subst o. destruct fill; [|apply Hc]. destruct (or_updated_at o0 <? per) eqn:E; [|apply Hc]. bool_hyps.
    apply with_updated_checks; [apply Hc|lia]. }
  assert (or_account_id o = bk_account_id b /\ or_created_at o = t /\ is_Some (or_order_id o)) as (Oa & Oc & Oi).
  { destruct Hc as (_ & _ & ? & _ & _ & _ & _ & ? & Hid). subst o. destruct fill; [|by rewrite Hid].
    destruct (or_updated_at o0 <? per); cbn; by rewrite Hid. }
  assert (forall f, fill = Some f -> validate_fill f = Ok f /\ fi_executed_at f = t) as Hvf.
  { intros f ->. destruct Hfill as ((Hpf & _) & _). by apply paper_fill_spec in Hpf as (? & _ & _ & _ & _ & _ & _ & _ & _ & _ & ? & _). }
  apply receipt_with_cost_spec in Hrc as (V & E1 & E2 & E3 & E4 & E5 & E6 & E7 & E8); [|done|intros f Hfl; by apply Hvf].
  apply insert_execution_receipt_ok in Hrec as (c & Hcc & _ & Hfp & -> & Hfr).
  assert (c = costs) as -> by congruence.
  assert (intents db1 = intents db ++ [new_intent_row b intent e per request]) as Ei.
  { destruct fill as [f|]; [|by injection Hf as <- <- <-]. apply apply_fill_effect in Hf as (Heff & _); [|done].
    by apply fill_effect_tables in Heff as (_ & -> & _). }
  split.
  - unfold fetch_intent. cbn. rewrite Ei, fetchone_app; [by cbn; rewrite eqs_refl|]. apply fetchone_None. intros i Hi.
    apply eqs_false. by apply Fi.
  - exists rc. split; [|done]. unfold execution_receipt. cbn. rewrite <- E1, new_receipt_found by (by rewrite E1 in Hfr |- *).
    rewrite new_receipt_reads; try done; rewrite ?E4; try done.
    unfold request_answers. rewrite R1, E1, E3, E4, E5, E7, Oc. split_and!; try done. intros f Hfl. by apply Hvf.
Qed.

Lemma record_execution_receipt db row i e t per td q quote snap c request now db' :
  order_matches b i row -> validate_intent (payload i) = Ok (payload i) ->
  rq_kind request = INCREMENTAL (po_order_id row) t q snap -> rq_execution_id request = e -> rq_persisted_at request = per ->
  rq_cost_evidence request = c ->
  record_execution b db (po_order_id row) (po_order row) (payload i) e t per td q quote snap c request now = Ok db' ->
  exists receipt, execution_receipt b db' e = Ok (Some receipt) /\ or_order_id (er_order receipt) = Some (po_order_id row)
    /\ er_request_fingerprint receipt = request_sha256 request.
Proof.
  intros (Hid & Hchk & Hiid & Hacc & _) Hvi R1 R2 R3 R4 Hr. unfold record_execution in Hr.
  apply rbind_ok in Hr as ([s prev] & _ & Hr). apply rbind_ok in Hr as (u & _ & Hr).
  apply rbind_ok in Hr as (f & Hpf & Hr). apply rbind_ok in Hr as ([[db1 ld] cd] & _ & Hr). cbv zeta in Hr.
  apply rbind_ok in Hr as (tick & _ & Hr). apply rbind_ok in Hr as (avg & _ & Hr). apply rbind_ok in Hr as (rc & Hrc & Hr).
  apply rbind_ok in Hr as (db2 & Hins & Hr). apply append_attestation_ok in Hr as ((ats & hms & ->) & _).
  assert (or_order_id (po_order row) = Some (po_order_id row)) as Hoid.
  { rewrite Hid. unfold oid. destruct Hchk as (_ & _ & _ & _ & _ & _ & _ & _ & _ & _ & _ & ->). by rewrite Hacc, Hiid. }
  set (o' := with_fill_state _ (Some avg) _ _ (po_order row)) in *.
  assert (order_checks o') as Hck by (eapply receipt_order_checks; [exact Hrc|done|apply Hchk]).
  apply paper_fill_spec in Hpf as (Vf & _ & _ & _ & Fq & _ & _ & _ & _ & _ & Fe & Fs & _).
  apply receipt_with_cost_spec in Hrc as (V & E1 & E2 & E3 & E4 & E5 & E6 & E7 & E8); [|done|by intros g [= <-]].
  apply insert_execution_receipt_ok in Hins as (c' & Hcc & _ & Hfp & -> & Hfr). assert (c' = c) as -> by congruence.
  exists rc. rewrite E4. split; [|done]. unfold execution_receipt. cbn. rewrite <- E1.
  change (receipts (set_order db1 (po_order_id row) _)) with (receipts db1). rewrite new_receipt_found by exact Hfr.
  rewrite new_receipt_reads; try done; rewrite ?E4; try done; try (cbn; by rewrite Hoid).
  unfold request_answers. rewrite R1, E1, E4, E5, E7. split_and!; try done. exists f. split_and!; try done; cbn; by rewrite ?Hoid.
Qed.
End Trust.
