(* ===== verification/PaperDemo.v ===== *)
(** * A concrete paper broker

    Digests that are functions of the content, an empty trusted ledger, one cost contract and one
    account, used by the witnesses of [PaperThms.v]. *)

From Stdlib Require Import ZArith Lia Bool.
From stdpp Require Import base list strings.
From S2P Require Import Prelude Clock Decimal OrderCosts PaperContracts PaperBroker.
Open Scope Z_scope.
Open Scope rq_scope.

Fixpoint hash_text (s : string) (acc : Z) : Z :=
  match s with
  | EmptyString => acc
  | String c s => hash_text s ((acc * 257 + Z.of_nat (Ascii.nat_of_ascii c)) mod 1000000007)
  end.

Definition hash_int (n acc : Z) : Z := (acc * 1000003 + n) mod 1000000007.

(** A digest of 64 characters from a number. *)
Fixpoint pad (k : nat) (s : string) : string :=
  match k with O => s | S k => String (digit 0) (pad k s) end.
Definition hex (n : Z) : string := pad 54 (digits 10 n).

Lemma pad_hex k s : String.length (pad k s) = (k + String.length s)%nat /\ (all_hex s = true -> all_hex (pad k s) = true).
Proof. induction k as [|k [IHl IHh]]; [done|]. cbn [pad String.length all_hex]. rewrite IHl. split; [done|]. intros Hs. by rewrite (IHh Hs). Qed.

Lemma hex_hex64 n : is_hex64 (hex n) = true.
Proof.
  destruct (digits_hex 10 n) as [Hl Hh]. destruct (pad_hex 54 (digits 10 n)) as [Pl Ph]. unfold is_hex64, hex. rewrite Pl, Hl.
  by rewrite (Ph Hh).
Qed.

#[export] Instance demo_paper_digest : PaperDigest := {|
  authority_sha256 := fun a => hex (hash_text (sa_source_lot_fingerprint a)
                        (hash_int (sa_requested_quantity a) (hash_text (sa_exit_signal_id a) 1)));
  intent_sha256 := fun i => hex (hash_text (in_signal_id i) (hash_int (in_quantity i) (hash_int (in_available_at i) 2)));
  order_sha256 := fun a i => hex (hash_text i (hash_text a 3));
  fill_sha256 := fun o e => hex (hash_text e (hash_text o 4));
  snapshot_sha256 := fun s => hex (hash_int (mant (ac_cash s)) 5) |}.

#[export] Instance demo_paper_laws : PaperDigestLaws.
Proof. split; intros; apply hex_hex64. Qed.

#[export] Instance demo_broker_digest : BrokerDigest := {|
  initial_execution_sha256 := fun i d p s => hex (hash_text i (hash_int d (hash_int p 6)));
  request_sha256 := fun r => hex (hash_text (rq_execution_id r) (hash_int (rq_persisted_at r)
                        (hash_int (mant (bx_executable_price (rq_quote r))) 7)));
  lots_sha256 := fun a e t d l => hex (hash_text e (hash_int d (hash_int (Z.of_nat (length l)) 8)));
  attestation_sha256 := fun a => hex (hash_int (at_revision a) 9);
  head_marker_sha256 := fun m => hex (hash_int (hm_revision m) 10);
  event_sha256 := fun _ => hex 11;
  account_state_sha256 := fun s => hex (hash_int (mant (ac_cash s)) 12) |}.

Definition day : Z := 86400000000.

#[export] Instance demo_env : LedgerEnv := {|
  v4_archive_ok := true; schema_fingerprint := Some "schema"; migration_digest := Ok "migration";
  shanghai_date := fun t => (t + 28800000000) / day |}.

#[export] Instance demo_cost_digest : CostDigest := {|
  cost_sha256 := fun i => let '(_, selectors, _, _, _, _, _) := i in hex (Z.of_nat (length selectors));
  cost_context_sha256 := fun _ _ _ _ _ _ _ => hex 7 |}.

(** ** The empty ledger *)

Definition genesis_attestation : attestation := {|
  at_revision := 1; at_ledger_generation := "gen"; at_migration_version := 4; at_schema_version := 5;
  at_schema_fingerprint := "schema"; at_previous_attestation_fingerprint := None;
  at_migration_attestation_fingerprint := "migration"; at_event_kind := "migration_audit";
  at_event_fingerprint := "e"; at_counts := no_counts; at_persisted_at := 0 |}.

Definition genesis_marker : head_marker := {|
  hm_revision := 1; hm_ledger_generation := "gen"; hm_migration_version := 4; hm_schema_version := 5;
  hm_schema_fingerprint := "schema"; hm_attestation_fingerprint := attestation_sha256 genesis_attestation;
  hm_previous_head_marker_fingerprint := None; hm_migration_attestation_fingerprint := "migration";
  hm_counts := no_counts; hm_persisted_at := 0 |}.

Definition genesis : ledger := {|
  accounts := []; cost_specs := []; intents := []; orders := []; fills := []; lots := []; consumptions := [];
  receipts := []; authorities := [];
  schema_meta := Some {| sc_schema_version := 5; sc_internal_migration_version := 4;
                         sc_unknown := [0; 0; 0; 0; 0; 0; 0; 0; 0; 0] |};
  attestations := [{| ar_columns := genesis_attestation; ar_payload_json := genesis_attestation;
                      ar_attestation_fingerprint := attestation_sha256 genesis_attestation |}];
  head_markers := [{| hr_columns := genesis_marker; hr_payload_json := genesis_marker;
                      hr_head_marker_fingerprint := head_marker_sha256 genesis_marker |}];
  tamper_markers := [] |}.

(** ** The broker *)

Definition demo_selector : InstrumentSelector :=
  {| is_selector_id := "sse-a"; is_scope_key := ("CN", "SSE", "EQUITY", "A_SHARE")%string |}.

Definition demo_rule (id : string) (rate minimum : dec) (side : ExecutionCostApplicability) : ExecutionCostFeeRule :=
  {| fr_rule_id := id; fr_selector_id := "sse-a"; fr_rate_bps := rate; fr_minimum_amount := minimum; fr_applies_to := side |}.

Definition demo_spec : ExecutionCostSpec := {|
  cs_schema_version := 3; cs_commission_bps := None; cs_stamp_duty_bps := None; cs_transfer_fee_bps := None;
  cs_slippage_bps := None; cs_minimum_commission := Some dzero; cs_legacy_fields_set := false;
  cs_cost_engine_version := Some "1"; cs_instrument_selectors := [demo_selector];
  cs_commission_rules := [demo_rule "c" (Dec 25 (-1)) (Dec 5 0) AP_BOTH];
  cs_transfer_fee_rules := [demo_rule "t" (Dec 1 (-1)) (Dec 0 0) AP_BOTH];
  cs_stamp_duty_rules := [demo_rule "s" (Dec 5 0) (Dec 0 0) AP_SELL];
  cs_fee_notional_basis := true; cs_assessment_unit := true;
  cs_slippage := Some {| sl_buy_bps := Dec 2 0; sl_sell_bps := Dec 2 0; sl_price_tick := Dec 1 (-2) |};
  cs_money := Some {| mo_quantum := Dec 1 (-2) |}; cs_cost_spec_id := None; cs_research_notional_per_trade := None |}.

Definition get {A} (d : A) (r : res A) : A := match r with Ok a => a | Err _ => d end.

(** A broker with this much cash, as its constructor makes it. *)
Definition demo_broker (cash : dec) : broker :=
  let policy := {| cp_execution_cost_spec := demo_spec; cp_cost_spec_id := None |} in
  get {| bk_account_id := ""; bk_initial_cash := dzero; bk_cost_policy := policy |} (mk_broker "acct" cash policy).

Definition bk : broker := demo_broker (Dec 1000000 0).

Definition demo_context : InstrumentContext := {| ic_ts_code := "600000.SH"; ic_scope_key := is_scope_key demo_selector;
  ic_classification_provenance := Some (hex 1, hex 2) |}.

Definition demo_quote (p : dec) (q : option Z) (available : Z) : BrokerExecutionContext := {|
  bx_executable_price := p; bx_instrument_context := demo_context; bx_executable_quantity := q;
  bx_acquisition_available_date := Some available; bx_suspended := false; bx_limit_locked := false;
  bx_risk_rejected := false |}.

(** ** Intents *)

Definition T1 : Z := 1000 * day + 3600000000.
Definition T2 : Z := T1 + 2 * day.

(** A LIMIT order when it has a limit, a MARKET order otherwise. *)
Definition type_of (limit : option dec) : PaperOrderType := match limit with Some _ => LIMIT | None => MARKET end.

Definition buy_within (limit : option dec) (signal quantity t : Z) : PaperOrderIntent :=
  let raw := {|
    in_intent_id := None; in_signal_id := hex signal; in_entry_signal_id := None;
    in_sell_quantity_authority := None; in_account_id := "acct"; in_ts_code := "600000.SH"; in_side := buy;
    in_order_type := type_of limit; in_quantity := quantity; in_limit_price := limit; in_event_time := t;
    in_available_at := t; in_expires_at := t + 100 * day; in_earliest_execution_at := t;
    in_price_snapshot_id := hex 99; in_producer_commit := digits 40 5 |} in
  get raw (validate_intent raw).

Definition buy_intent : Z -> Z -> Z -> PaperOrderIntent := buy_within None.

(** Selling the whole of an entry, with the authority the broker gives for it. *)
Definition sell_within (limit : option dec) (b : broker) (db : ledger) (exit entry t : Z) : PaperOrderIntent :=
  let authority := match sell_quantity_authority b db (hex exit) (hex entry) "600000.SH" S_INTENT (Dec 1 0)
                           t (shanghai_date t) with Ok a => Some a | Err _ => None end in
  let raw := {|
    in_intent_id := None; in_signal_id := hex exit; in_entry_signal_id := Some (hex entry);
    in_sell_quantity_authority := authority; in_account_id := "acct"; in_ts_code := "600000.SH"; in_side := sell;
    in_order_type := type_of limit; in_quantity := default 0 (sa_requested_quantity <$> authority); in_limit_price := limit;
    in_event_time := t; in_available_at := t; in_expires_at := t + 100 * day; in_earliest_execution_at := t;
    in_price_snapshot_id := hex 99; in_producer_commit := digits 40 5 |} in
  get raw (validate_intent raw).

Definition sell_intent : broker -> ledger -> Z -> Z -> Z -> PaperOrderIntent := sell_within None.

(** The order of an intent. *)
Definition order_of (i : PaperOrderIntent) : string := order_sha256 "acct" (default "" (in_intent_id i)).
