(* ===== verification/PaperThms.v ===== *)
(** * The paper ledger: theorems

    One account opened on an empty ledger and any sequence of calls of the broker's four writing
    methods, in any order and whatever each of them answers.  Contracts are validated before a call,
    as their constructors do.  The witnesses run a concrete broker with concrete digests. *)

From Stdlib Require Import QArith ZArith Lia Bool.
From stdpp Require Import base list strings.
From S2P Require Import Prelude Clock Decimal DecimalEq OrderCosts PaperContracts PaperBroker PaperReconcile PaperInv PaperLedger PaperSteps PaperTrust PaperDemo.
Open Scope Z_scope.
Open Scope rq_scope.

Lemma sumZ_pos_in {R} (g : R -> Z) t x : (forall r, In r t -> 0 <= g r) -> In x t -> 0 < g x -> 0 < sumZ g t.
Proof.
  intros Hn Hx Hp. apply in_split in Hx as (l & k & ->). rewrite sumZ_app, sumZ_cons.
  assert (0 <= sumZ g l) by (apply sumZ_nonneg; intros r Hr; apply Hn, in_app_iff; by left).
  assert (0 <= sumZ g k) by (apply sumZ_nonneg; intros r Hr; apply Hn, in_app_iff; right; by right). lia.
Qed.

(** ** Calls *)

(** [now] is the clock reading of the attestation. *)
Inductive paper_call :=
  | Submit (intent : PaperOrderIntent) (execution_id : option string) (decision_time : Z) (persisted_at : option Z)
      (trade_date : Z) (quote : BrokerExecutionContext) (now : Z)
  | Execute (order_id execution_id : string) (executed_at trade_date quantity : Z) (quote : BrokerExecutionContext)
      (price_snapshot_id : string) (persisted_at : option Z) (now : Z)
  | Close (order_id : string) (status : PaperOrderStatus) (decided_at : Z) (persisted_at : option Z) (now : Z)
  | Authorize (as_of : Z) (market_prices : string -> option dec) (producer_commit : string) (now : Z).

Section Calls.
Context `{CostDigest} `{PaperDigest} `{BrokerDigest} `{LedgerEnv} (b : broker).

Definition run_call (db : ledger) (c : paper_call) : ledger :=
  match c with
  | Submit intent e t per td quote now =>
      match validate_intent intent, validate_quote quote with
      | Ok intent, Ok quote => fst (submit_intent b db intent e t per td quote now)
      | _, _ => db
      end
  | Execute id e t td q quote snap per now =>
      match validate_quote quote with
      | Ok quote => fst (apply_execution b db id e t td q quote snap per now)
      | Err _ => db
      end
  | Close id st t per now => fst (close_open_order b db id st t per now)
  | Authorize t prices commit now => fst (account_authority_snapshot b db t prices commit now)
  end.

Definition run_calls (db : ledger) (cs : list paper_call) : ledger := fold_left run_call cs db.

Definition empty_ledger (db : ledger) : Prop :=
  intents db = [] /\ orders db = [] /\ fills db = [] /\ lots db = [] /\ consumptions db = [].

(** The ledger after the broker's constructor opened its account on an empty one, then any calls. *)
Definition run (db : ledger) (now : Z) (cs : list paper_call) : ledger := run_calls (fst (initialize_account b db now)) cs.
End Calls.

Section Runs.
Context `{CostDigest} `{PaperDigestLaws} `{BrokerDigest} `{LedgerEnv} (b : broker).
Implicit Types (db : ledger).

Lemma run_call_step db c : core b db -> ledger_step b db (run_call b db c).
Proof.
  intros Hc. destruct c as [intent e t per td quote now|id e t td q quote snap per now|id st t per now|t prices commit now]; cbn [run_call].
  - destruct (validate_intent intent) as [i|] eqn:Ei; [|apply step_none]. destruct (validate_quote quote); [|apply step_none].
    apply submit_intent_step. by apply validate_intent_idem with intent.
  - destruct (validate_quote quote); [|apply step_none]. by apply apply_execution_step.
  - by apply close_open_order_step.
  - apply account_authority_step.
Qed.

(** What holds of every step of a run holds of the run. *)
Lemma run_calls_ind (P : ledger -> Prop) db cs : core b db -> P db ->
  (forall db db', core b db -> ledger_step b db db' -> P db -> P db') ->
  core b (run_calls b db cs) /\ P (run_calls b db cs).
Proof.
  intros Hc Hp Hstep. revert db Hc Hp. induction cs as [|c cs IH]; intros db Hc Hp; [done|]. cbn.
  pose proof (run_call_step db c Hc) as Hs. apply IH; [by eapply step_core|by eapply Hstep].
Qed.

Lemma run_calls_core db cs : core b db -> core b (run_calls b db cs).
Proof. intros Hc. by apply (run_calls_ind (fun _ => True)). Qed.

Lemma empty_core db : empty_ledger db -> core b db.
Proof.
  intros (Hi & Ho & Hf & Hl & Hc). split_and!; constructor; rewrite ?Hi, ?Ho, ?Hf, ?Hl, ?Hc; cbn; unfold conserved; rewrite ?Hl; cbn; try done; by constructor.
Qed.

Lemma ensure_spec_tables db now db' : ensure_paper_cost_spec_authority b db now = Ok db' ->
  exists specs, db' = with_accounts db (accounts db) specs.
Proof.
  unfold ensure_paper_cost_spec_authority. destruct (cs_cost_spec_id (bk_spec b)) as [id|]; [|done].
  destruct (cs_cost_engine_version (bk_spec b)) as [v|]; [|done]. destruct (fetchone _ _).
  - destruct (negb _); [done|]. intros [= <-]. exists (cost_specs db). by destruct db.
  - destruct (exists_row _ _); [done|]. intros [= <-]. by eexists.
Qed.

Lemma insert_account_ok db r db' : insert_account db r = Ok db' ->
  db' = with_accounts db (accounts db ++ [r]) (cost_specs db) /\ (forall a, In a (accounts db) -> ba_account_id a <> ba_account_id r).
Proof.
  unfold insert_account. destruct (negb _); [done|]. destruct (has_account _ _) eqn:E; [done|]. intros [= <-]. split; [done|]. by apply has_false.
Qed.

(** What opening an account does. *)
Lemma initialize_account_cases db now : fst (initialize_account b db now) = db
  \/ exists specs acc db', attested (with_accounts db (accounts db ++ [acc]) specs) db'
       /\ fst (initialize_account b db now) = db'.
Proof.
  unfold initialize_account. destruct (fetch_account b db) as [row|]; [by left|].
  match goal with |- fst (txn _ ?body) = _ \/ _ => destruct (txn_cases db body) as [->|(db' & r & Hb & ->)]; [by left|] end.
  apply rbind_ok in Hb as (u & _ & Hb). apply rbind_ok in Hb as (db1 & He & Hb). apply ensure_spec_tables in He as (specs & ->).
  destruct (cp_cost_spec_id _) as [id|]; [|done]. apply rbind_ok in Hb as (db2 & Hi & Hb). apply insert_account_ok in Hi as (-> & _).
  apply rbind_ok in Hb as (db3 & Ha & [= <- <-]). apply append_attestation_ok in Ha. right. by eexists _, _, _.
Qed.

Lemma opened_core db now : empty_ledger db -> core b (fst (initialize_account b db now)).
Proof.
  intros He. destruct (initialize_account_cases db now) as [->|(specs & acc & db' & Hatt & ->)]; [by apply empty_core|].
  eapply core_frame; [by apply attested_tables|]. by apply empty_core.
Qed.

Lemma ensure_spec_authority db now db' : ensure_paper_cost_spec_authority b db now = Ok db' ->
  require_active_cost_spec_authority b db' = Ok tt.
Proof.
  unfold ensure_paper_cost_spec_authority, require_active_cost_spec_authority. destruct (cs_cost_spec_id (bk_spec b)) as [id|]; [|done].
  destruct (cs_cost_engine_version (bk_spec b)) as [v|]; [|done]. destruct (fetchone _ _) as [row|] eqn:E.
  - destruct (negb _) eqn:En; [done|]. intros [= <-]. by rewrite E, En.
  - destruct (exists_row _ _); [done|]. intros [= <-]. cbn [cost_specs with_accounts]. rewrite fetchone_app by done. cbn.
    by rewrite eqs_refl, eqs_refl, bool_decide_eq_true_2 by done.
Qed.

(** A newly opened account is ready. *)
Lemma opened_ready db now db' : fetch_account b db = None -> initialize_account b db now = (db', Ok tt) ->
  require_execution_ready b db' = Ok tt.
Proof.
  intros Hn. unfold initialize_account. rewrite Hn. intros Hi.
  match type of Hi with txn db ?body = _ => destruct body as [[db2 r]|] eqn:Hb; [|done] end. injection Hi as <- ->.
  apply rbind_ok in Hb as ([] & Hint & Hb). apply rbind_ok in Hb as (db1 & He & Hb).
  pose proof (ensure_spec_tables _ _ _ He) as (specs & ->). apply ensure_spec_authority in He.
  destruct (cp_cost_spec_id (bk_cost_policy b)) as [id|] eqn:Eid; [|done]. apply rbind_ok in Hb as (db3 & Ha & Hb).
  apply insert_account_ok in Ha as (-> & Hfr). apply rbind_ok in Hb as (db4 & Hat & [= <-]). apply append_attestation_ok in Hat.
  unfold require_execution_ready. assert (require_schema_integrity db4 = Ok tt) as -> by (eapply integrity_attested; [|exact Hat|exact Hint]; done).
  cbn [rbind].
  destruct (attested_meta _ _ Hat) as (_ & Ea & Ec & _). unfold fetch_account. rewrite Ea. cbn [accounts with_accounts].
  rewrite fetchone_app by done. cbn. rewrite eqs_refl, Eid, !bool_decide_eq_true_2 by done. cbn.
  unfold require_active_cost_spec_authority in *. rewrite Ec. exact He.
Qed.

Lemma opened_counts db now db' : fetch_account b db = None -> initialize_account b db now = (db', Ok tt) -> counts_follow db db'.
Proof.
  intros Hn. unfold initialize_account. rewrite Hn. intros Hi.
  match type of Hi with txn db ?body = _ => destruct body as [[db2 r]|] eqn:Hb; [|done] end. injection Hi as <- ->.
  apply rbind_ok in Hb as (u & _ & Hb). apply rbind_ok in Hb as (db1 & He & Hb). apply ensure_spec_tables in He as (specs & ->).
  destruct (cp_cost_spec_id _) as [id|]; [|done]. apply rbind_ok in Hb as (db3 & Ha & Hb). apply insert_account_ok in Ha as (-> & _).
  apply rbind_ok in Hb as (db4 & Hat & [= <-]). apply counted_follow. eexists _, _, _, _, _. split; [|split; [exact Hat|]]; [done|].
  unfold table_counts, add_counts. cbn. rewrite rows_snoc. f_equal; lia.
Qed.

Lemma run_calls_ready db cs : core b db -> require_execution_ready b db = Ok tt -> require_execution_ready b (run_calls b db cs) = Ok tt.
Proof. intros Hc Hr. apply (run_calls_ind (fun d => require_execution_ready b d = Ok tt)); try done. intros d d' _ Hs. by apply step_ready. Qed.

Lemma run_calls_extends db cs : core b db -> extends db (run_calls b db cs).
Proof.
  intros Hc. apply (run_calls_ind (extends db)); [done|apply extends_refl|]. intros d d' _ Hs He.
  eapply extends_trans; [exact He|by eapply step_extends].
Qed.

Lemma run_calls_advance db cs row : core b db -> In row (orders db) -> row_advances (run_calls b db cs) row.
Proof.
  intros Hc Hr. apply (run_calls_ind (fun d => row_advances d row)); [done| |].
  - exists row. split; [done|]. split; [done|apply order_advances_refl].
  - intros d d' Hd Hs (r & Hin & Hid & Hadv). destruct (step_orders b d d' r Hd Hs Hin) as (r' & Hin' & Hid' & Hadv').
    exists r'. split; [done|]. split; [congruence|by eapply order_advances_trans].
Qed.

(** ** The ledger invariant *)

(** C6: After any calls on a newly opened ledger: intents are validated and unique by identifier and
    by signal, each has exactly one valid order with its columns; the fills of an order are numbered
    from one, ordered in time and add up to its filled quantity; every bought fill is one lot; what
    remains of a lot is what was bought less what was sold of it and is never negative. *)
Theorem paper_ledger_invariant db now cs : empty_ledger db -> core b (run b db now cs).
Proof. intros He. by apply run_calls_core, opened_core. Qed.

(** C9: A broker whose account was opened on a trusted ledger never quarantines itself.  Whatever is
    submitted, executed, closed or authorised, and whichever calls fail, the chain of attestations and
    head markers still verifies, the account stays executable, and the counts of the latest attestation
    are those before the account was opened plus exactly the rows written to each table since. *)
Theorem paper_ledger_stays_trusted db now db' cs : empty_ledger db -> fetch_account b db = None ->
  initialize_account b db now = (db', Ok tt) ->
  require_execution_ready b (run_calls b db' cs) = Ok tt /\ counts_follow db (run_calls b db' cs).
Proof.
  intros He Hn Hi. assert (core b db') as Hc by (pose proof (opened_core db now He) as Hc; by rewrite Hi in Hc).
  split; [apply run_calls_ready; [done|by eapply opened_ready]|].
  apply (run_calls_ind (counts_follow db)); [done|by eapply opened_counts|]. intros d d' _ Hs. by apply step_counts with (1 := Hs).
Qed.

(** A consumption of a ledger: the sale, its fill and the lot it took from. *)
Definition sold_from db (c : consumption_row) : Prop :=
  exists i f l, In i (intents db) /\ In f (fills db) /\ In l (lots db)
    /\ co_fill_id c = pf_fill_id f /\ co_lot_id c = lo_lot_id l /\ fi_order_id (pf_fill f) = oid b i
    /\ in_side (payload i) = sell /\ in_entry_signal_id (payload i) = Some (lo_entry_signal_id l)
    /\ lo_ts_code l = in_ts_code (payload i)
    /\ lo_acquisition_trade_date l < lo_available_date l <= shanghai_date (fi_executed_at (pf_fill f))
    /\ allocated_to (pf_fill_id f) (consumptions db) = fi_quantity (pf_fill f)
    /\ 0 < co_quantity c /\ 0 <= lo_remaining_quantity l
    /\ consumed_of (lo_lot_id l) (consumptions db) + lo_remaining_quantity l = lo_original_quantity l.

(** C10: Shares are sold only from lots of the entry signal and code the intent names, on a day on
    which the lot is available, which is after the day it was bought (T+1); the lots taken add up to
    the fill, and no lot gives more than was bought. *)
Theorem sales_respect_t_plus_one db now cs c : empty_ledger db -> In c (consumptions (run b db now cs)) ->
  sold_from (run b db now cs) c.
Proof.
  intros He Hc. assert (core b (run b db now cs)) as (_ & _ & [K1 K2 K3 K4 K5 K6 K7]) by by apply run_calls_core, opened_core.
  destruct (K6 c Hc) as (i & f & l & Hi & Hf & Hl & (C1 & C2 & C3 & C4 & C5 & C6 & C7 & C8 & _)).
  destruct (K4 l Hl) as (j & g & _ & _ & _ & _ & (_ & _ & _ & _ & _ & Hav & _)).
  pose proof (K3 l Hl) as Hn. pose proof (K2 l Hl) as Hcons. unfold nonneg_lot, lot_check in *. bool_hyps.
  exists i, f, l. split_and!; try done; try lia. by apply (K7 i).
Qed.

(** A LIMIT order has a limit; a purchase costs at most that much a share, a sale brings at least that. *)
Definition within_limit (i : PaperOrderIntent) (price : dec) : Prop :=
  in_order_type i = LIMIT -> exists limit, in_limit_price i = Some limit
    /\ match in_side i with buy => (value price <= value limit)%Q | sell => (value limit <= value price)%Q end.

Lemma limit_of_intent i : validate_intent i = Ok i -> in_order_type i = LIMIT -> is_Some (in_limit_price i).
Proof.
  unfold validate_intent. destruct (negb (_ && _)); [done|]. intros Hv Hl. apply rbind_ok in Hv as (au & _ & Hv).
  repeat match type of Hv with context [if ?x then Err _ else _] => destruct x eqn:?; [done|] end.
  rewrite Hl in *. destruct (in_limit_price i); [done|]. by rewrite ?bool_decide_eq_true_2 in * by done.
Qed.

Lemma kept_limit i p : validate_intent i = Ok i -> misses_limit i p = false -> within_limit i p.
Proof.
  intros Hv Hm Hl. destruct (limit_of_intent i Hv Hl) as [limit El]. exists limit. split; [done|].
  unfold misses_limit in Hm. rewrite Hl, El in Hm. destruct (in_side i); by apply dltb_ge.
Qed.

(** A fill of a ledger within the order it executes. *)
Definition fill_in_order db (f : fill_row) : Prop :=
  exists i r, In i (intents db) /\ In r (orders db) /\ order_matches b i r
    /\ fi_order_id (pf_fill f) = po_order_id r /\ within_limit (payload i) (fi_price (pf_fill f))
    /\ or_created_at (po_order r) <= fi_executed_at (pf_fill f) < in_expires_at (payload i)
    /\ sumZ (fun g => fi_quantity (pf_fill g)) (fills_of db (po_order_id r)) = or_filled_quantity (po_order r)
    /\ 0 < or_filled_quantity (po_order r) <= in_quantity (payload i).

(** C11: Every fill stays within the order it executes: it belongs to one stored intent, its price
    respects the limit (of a LIMIT order, a purchase is at most at the limit, a sale at least), it happens before the intent expires and not before the order was created;
    the fills of an order add up to its filled quantity, which never exceeds what was ordered. *)
Theorem fills_respect_orders db now cs f : empty_ledger db -> In f (fills (run b db now cs)) ->
  fill_in_order (run b db now cs) f.
Proof.
  intros He Hf. assert (core b (run b db now cs)) as (Ho & Hfl & _) by by apply run_calls_core, opened_core.
  destruct (fo_fills _ _ Hfl f Hf) as (i & Hi & Hv & Hid & Hoid & Hlim & Hexp & _). destruct (order_of_intent _ _ _ Ho Hi) as (r & Hr & Hm).
  destruct (fo_orders _ _ Hfl r Hr) as (_ & Hsum & _ & Hcr). pose proof Hm as (Hrid & Hck & _ & _ & _ & _ & _ & Hq & _).
  assert (In f (fills_of (run b db now cs) (po_order_id r))) as Hin.
  { apply filter_In. split; [done|]. rewrite Hrid, Hoid. apply eqs_refl. }
  exists i, r. split_and!; try done; try congruence; [apply kept_limit; [apply (oo_intents _ _ Ho i Hi)|done]|by apply Hcr| |by rewrite <- Hq; apply Hck].
  rewrite <- Hsum. apply sumZ_pos_in with (x := f); [|done|].
  - intros g Hg. apply filter_In in Hg as [Hg _]. destruct (fo_fills _ _ Hfl g Hg) as (j & _ & Hvg & _).
    apply validated_fill_facts in Hvg as (_ & Hpos & _). unfold positive_lot in Hpos. bool_hyps. lia.
  - apply validated_fill_facts in Hv as (_ & Hpos & _). unfold positive_lot in Hpos. by bool_hyps.
Qed.

(** C12: An order only moves forward: its identity, side, code and quantity never change, its filled
    quantity and update time never decrease, its status follows the life cycle, and once it is
    filled, rejected, cancelled or expired the row never changes again.  Intents, fills, consumptions
    and receipts are only ever added. *)
Theorem orders_only_advance db now cs cs' r : empty_ledger db -> In r (orders (run b db now cs)) ->
  extends (run b db now cs) (run_calls b (run b db now cs) cs')
  /\ row_advances (run_calls b (run b db now cs) cs') r.
Proof.
  intros He Hr. assert (core b (run b db now cs)) as Hc by by apply run_calls_core, opened_core.
  split; [by apply run_calls_extends|by apply run_calls_advance].
Qed.

(** ** Repeated requests *)

(** A stored answer to a submission. *)
Definition answered db (intent : PaperOrderIntent) (e : string) (request : exec_request) (o : PaperOrder) : Prop :=
  (exists row, fetch_intent db (default "" (in_intent_id intent)) = Some row /\ pi_payload_json row = intent
     /\ pi_initial_execution_id row = e /\ pi_initial_execution_request_fingerprint row = request_sha256 request)
  /\ exists receipt, execution_receipt b db e = Ok (Some receipt) /\ er_order receipt = o.

Lemma answered_kept db db' intent e request o : extends db db' -> answered db intent e request o -> answered db' intent e request o.
Proof.
  intros He ((row & Hf & Hr) & receipt & Hx & Ho). split.
  - exists row. split; [by eapply intent_kept|done].
  - exists receipt. split; [by eapply receipt_kept|done].
Qed.

Lemma resubmit_ok db row intent e request o : fetch_intent db (default "" (in_intent_id intent)) = Some row ->
  resubmit_intent b db row intent e request = Ok o -> answered db intent e request o.
Proof.
  intros Hf. unfold resubmit_intent. destruct (negb _) eqn:E1; [done|]. destruct (negb (eqs (pi_initial_execution_id row) e)) eqn:E2; [done|].
  destruct (negb (eqs (pi_initial_execution_request_fingerprint row) _)) eqn:E3; [done|]. bool_hyps. str_hyps.
  intros Hr. apply rbind_ok in Hr as (rc & Hx & Hr). destruct rc as [rc|]; [|done]. injection Hr as <-.
  split; [by exists row|by exists rc].
Qed.

Lemma answered_resubmit db row intent e request o : fetch_intent db (default "" (in_intent_id intent)) = Some row ->
  answered db intent e request o -> resubmit_intent b db row intent e request = Ok o.
Proof.
  intros Hf ((row' & Hf' & E1 & E2 & E3) & rc & Hx & <-). rewrite Hf in Hf'. injection Hf' as <-. unfold resubmit_intent.
  by rewrite E1, E2, E3, bool_decide_eq_true_2, !eqs_refl, Hx by done.
Qed.

(** C7: Submission is idempotent: once a submission has returned an order, the same submission returns
    the same order and changes nothing, however the ledger went on in between. *)
Theorem submit_intent_replay db0 now0 cs0 raw intent e t per td quote now db o cs now' :
  empty_ledger db0 -> validate_intent raw = Ok intent ->
  submit_intent b (run b db0 now0 cs0) intent e t per td quote now = (db, Ok o) ->
  submit_intent b (run_calls b db cs) intent e t per td quote now' = (run_calls b db cs, Ok o).
Proof.
  intros He Hv Hs. apply validate_intent_idem in Hv.
  assert (core b (run b db0 now0 cs0)) as Hc by by apply run_calls_core, opened_core.
  set (d0 := run b db0 now0 cs0) in *. pose proof (submit_intent_step b d0 intent e t per td quote now Hv) as Hstep.
  assert (core b db) as Hc1 by (rewrite Hs in Hstep; by eapply step_core).
  pose proof (run_calls_extends db cs Hc1) as Hext. rewrite Hs in Hstep. cbn [fst] in Hstep.
  unfold submit_intent in Hs |- *. cbv zeta in Hs |- *.
  repeat match type of Hs with context [txn _ (if ?x then Err _ else _)] => destruct x eqn:?; [done|] end.
  set (e' := default _ e) in *. 
  destruct (require_matching_instrument_context _ _) as [?|]; [|done]. cbn [rbind] in Hs |- *.
  destruct (execution_costs _ _ _ _) as [costs|]; [|done]. cbn [rbind] in Hs |- *.
  destruct (require_execution_ready b d0) as [[]|] eqn:Er; [|done]. cbn [rbind] in Hs.
  rewrite (run_calls_ready db cs Hc1 (step_ready b _ _ Hstep Er)). cbn [rbind].
  set (request := {| rq_kind := _ |}) in *.
  assert (answered db intent e' request o) as Hans.
  { destruct (fetch_intent d0 _) as [row|] eqn:Ef.
    - destruct (resubmit_intent b d0 row intent e' request) as [o1|] eqn:Ers; [|done]. injection Hs as <- <-. by eapply resubmit_ok.
    - destruct (execution_receipt b d0 e') as [[ex|]|]; [done| |done]. cbn [rbind] in Hs.
      match type of Hs with txn _ (rbind ?g _) = _ => destruct g as [u|] eqn:Eg; [|done] end. cbn [rbind] in Hs.
      match type of Hs with txn _ (rbind ?g _) = _ => destruct g as [[db1 o1]|] eqn:Erec; [|done] end. injection Hs as -> ->.
      apply record_intent_receipt in Erec as (Hfi & Hrc); try done; [|intros Hse; by apply (validated_intent_facts _ Hv)].
      split; [|done]. eexists. split; [exact Hfi|]. done. }
  apply (answered_kept _ _ _ _ _ _ Hext) in Hans. pose proof Hans as ((row & Hf & _) & _). rewrite Hf.
  by rewrite (answered_resubmit _ _ _ _ _ _ Hf Hans).
Qed.

(** An order found once is found later, with the same intent. *)
Lemma intent_of_order_kept db db' id i : core b db -> core b db' -> extends db db' ->
  (forall r, In r (orders db) -> row_advances db' r) ->
  intent_of_order b db id = Some i -> intent_of_order b db' id = Some i.
Proof.
  intros Hc (Ho' & _) Hext Hadv. unfold intent_of_order. destruct (fetch_order b db id) as [row|] eqn:Er; [|done]. cbn. intros Hi.
  pose proof Er as Er'. apply fetchone_Some in Er' as [Hrow Hg]. bool_hyps. str_hyps.
  destruct (Hadv row Hrow) as (r' & Hr' & Hid' & ((_ & Kint & Kacc & _) & _)).
  assert (fetch_order b db' id = Some r') as Hf'.
  { unfold fetch_order. destruct (fetchone _ (orders db')) as [r2|] eqn:E2.
    - apply fetchone_Some in E2 as [Hin2 Hg2]. bool_hyps. str_hyps. f_equal. apply (order_unique b db'); congruence.
    - rewrite fetchone_None in E2. specialize (E2 r' Hr'). cbn in E2. rewrite Kacc in E2. 
      match goal with Ha : or_account_id (po_order row) = _, Hb : po_order_id row = _ |- _ => rewrite Ha, Hid', Hb, !eqs_refl in E2 end. done. }
  rewrite Hf'. cbn. rewrite Kint. by eapply intent_kept.
Qed.

(** C8: Later executions are idempotent too: once an execution has returned a receipt, the same request
    returns the same receipt and changes nothing, however the ledger went on in between. *)
Theorem apply_execution_replay db0 now0 cs0 id e t td q quote snap per now db r cs now' :
  empty_ledger db0 ->
  apply_execution b (run b db0 now0 cs0) id e t td q quote snap per now = (db, Ok r) ->
  apply_execution b (run_calls b db cs) id e t td q quote snap per now' = (run_calls b db cs, Ok r).
Proof.
  intros He Hs. assert (core b (run b db0 now0 cs0)) as Hc by by apply run_calls_core, opened_core.
  set (d0 := run b db0 now0 cs0) in *. pose proof (apply_execution_step b d0 id e t td q quote snap per now Hc) as Hstep.
  rewrite Hs in Hstep. cbn [fst] in Hstep. assert (core b db) as Hc1 by by eapply step_core.
  pose proof (run_calls_extends db cs Hc1) as Hext.
  assert (forall i, intent_of_order b d0 id = Some i -> intent_of_order b (run_calls b db cs) id = Some i) as Hio.
  { intros i. apply intent_of_order_kept; [done|by apply run_calls_core|eapply extends_trans; [by eapply step_extends|done]|].
    intros r1 Hr1. destruct (step_orders b _ _ r1 Hc Hstep Hr1) as (r2 & Hr2 & Hid2 & A2).
    destruct (run_calls_advance db cs r2 Hc1 Hr2) as (r3 & Hr3 & Hid3 & A3). exists r3.
    split; [done|]. split; [congruence|by eapply order_advances_trans]. }
  unfold apply_execution in Hs |- *. cbv zeta in Hs |- *.
  repeat match type of Hs with context [txn _ (if ?x then Err _ else _)] => destruct x eqn:?; [done|] end.
  destruct (intent_of_order b d0 id) as [i|] eqn:Ei; [|done]. rewrite (Hio i eq_refl).
  destruct (validate_intent (pi_payload_json i)) as [pi|] eqn:Ep; [|done]. cbn [rbind] in Hs |- *.
  destruct (require_matching_instrument_context _ _) as [?|]; [|done]. cbn [rbind] in Hs |- *.
  destruct (execution_costs _ _ _ _) as [costs|]; [|done]. cbn [rbind] in Hs |- *.
  destruct (require_execution_ready b d0) as [[]|] eqn:Er; [|done]. cbn [rbind] in Hs.
  rewrite (run_calls_ready db cs Hc1 (step_ready b _ _ Hstep Er)). cbn [rbind].
  set (request := {| rq_kind := _ |}) in *.
  assert (execution_receipt b db e = Ok (Some r) /\ or_order_id (er_order r) = Some id /\ er_request_fingerprint r = request_sha256 request) as (Hx & Hid & Hfp).
  { destruct (execution_receipt b d0 e) as [[ex|]|] eqn:Ex; [| |done]; cbn [rbind] in Hs.
    - destruct (negb _) eqn:En in Hs; [done|]. injection Hs as <- <-. bool_hyps. str_hyps. done.
    - destruct (exists_row _ _); [done|]. destruct (fetch_order b d0 id) as [row|] eqn:Ero; [|done].
      apply fetch_order_ok in Ero as (Hrow & <-). rewrite (stored_order_read b d0 row (proj1 Hc) Hrow) in Hs. cbn [rbind] in Hs.
      destruct (intent_of_stored_order b d0 row (proj1 Hc) Hrow) as (j & Hj & Hm & Hfj & Hvj). rewrite Hfj in Hs.
      change (pi_payload_json j) with (payload j) in Hs. rewrite Hvj in Hs. cbn [rbind] in Hs.
      destruct (negb _) in Hs; [done|]. destruct (negb (open_status _)); [done|].
      match type of Hs with txn _ (rbind ?g _) = _ => destruct g as [db1|] eqn:Erec; [|done] end. cbn [rbind txn] in Hs. injection Hs as -> Hr.
      apply (record_execution_receipt b d0 row j) in Erec as (rc & Hx & Ho & Hf); try done. rewrite Hx in Hr |- *. injection Hr as ->. done. }
  rewrite (receipt_kept b _ _ _ _ Hext Hx). cbn [rbind]. by rewrite Hid, Hfp, eqs_refl, bool_decide_eq_true_2 by done.
Qed.
End Runs.

(** ** Witnesses *)

(** Buy 300 shares of which 200 execute at once and 100 later, let an order lapse, sell all 300. *)
Definition demo_buy : PaperOrderIntent := buy_intent 1 300 T1.
Definition demo_open : list paper_call := [
  Submit demo_buy None T1 None (shanghai_date T1) (demo_quote (Dec 1234 (-2)) (Some 200) (shanghai_date T1 + 1)) 5;
  Execute (order_of demo_buy) (hex 77) (T1 + 1) (shanghai_date T1) 100
    (demo_quote (Dec 1240 (-2)) None (shanghai_date T1 + 1)) (hex 98) None 6;
  Submit (buy_intent 2 500 T1) None T1 None (shanghai_date T1) (demo_quote (Dec 1234 (-2)) (Some 0) (shanghai_date T1 + 1)) 7;
  Close (order_of (buy_intent 2 500 T1)) PO_CANCELLED (T1 + 5) None 8 ].
Definition demo_sell : PaperOrderIntent := sell_intent bk (run bk genesis 1 demo_open) 3 1 T2.
Definition demo_calls : list paper_call := demo_open ++ [
  Submit demo_sell None T2 None (shanghai_date T2) (demo_quote (Dec 1300 (-2)) None 0) 9 ].

Lemma genesis_empty : empty_ledger genesis.
Proof. done. Qed.

Lemma demo_tables : (length (intents (run bk genesis 1 demo_calls)), length (fills (run bk genesis 1 demo_calls)),
    length (lots (run bk genesis 1 demo_calls)), length (consumptions (run bk genesis 1 demo_calls))) = (3, 3, 2, 2)%nat.
Proof. vm_compute. reflexivity. Qed.

Lemma paper_ledger_invariant_witness : empty_ledger genesis /\ core bk (run bk genesis 1 demo_calls).
Proof. split; [exact genesis_empty|]. apply (paper_ledger_invariant bk genesis 1 demo_calls). exact genesis_empty. Defined.

(** The account is also authorised twice, at different prices and cash: a new row, then a new revision. *)
Definition demo_authorized : list paper_call :=
  take 2 demo_calls ++ [Authorize (T1 + 9) (fun _ => Some (Dec 1250 (-2))) (digits 40 5) 10] ++ drop 2 demo_calls
  ++ [Authorize (T2 + 9) (fun _ => Some (Dec 1310 (-2))) (digits 40 5) 11].

Lemma demo_revisions : map au_revision (authorities (run bk genesis 1 demo_authorized)) = [2].
Proof. vm_compute. reflexivity. Qed.

Lemma paper_ledger_stays_trusted_witness : snd (initialize_account bk genesis 1) = Ok tt
  /\ require_execution_ready bk (run_calls bk (fst (initialize_account bk genesis 1)) demo_authorized) = Ok tt
  /\ counts_follow genesis (run_calls bk (fst (initialize_account bk genesis 1)) demo_authorized).
Proof.
  split; [vm_compute; reflexivity|].
  apply (paper_ledger_stays_trusted bk genesis 1 (fst (initialize_account bk genesis 1)) demo_authorized);
    [exact genesis_empty|vm_compute; reflexivity|vm_compute; reflexivity].
Defined.

#[local] Abbreviation demo_end := (run bk genesis 1 demo_calls).

Definition first_of {R} (t : list R) (default : R) : R := match t with r :: _ => r | [] => default end.

Lemma in_first {R} (t : list R) d : t <> [] -> In (first_of t d) t.
Proof. destruct t; [done|by left]. Qed.

Lemma in_drop {R} (t : list R) n x : In x (drop n t) -> In x t.
Proof. revert t. induction n as [|n IH]; intros [|y t]; try done. intros Hx. right. by apply IH. Qed.

Definition no_consumption : consumption_row :=
  {| co_fill_id := ""; co_lot_id := ""; co_quantity := 0; co_unit_cost := dzero; co_persisted_at := 0 |}.
Definition demo_consumption : consumption_row := first_of (consumptions demo_end) no_consumption.

Lemma sales_respect_t_plus_one_witness : In demo_consumption (consumptions demo_end) /\ sold_from bk demo_end demo_consumption.
Proof.
  assert (In demo_consumption (consumptions demo_end)) as Hin by (apply in_first; vm_compute; discriminate).
  exact (conj Hin (sales_respect_t_plus_one bk genesis 1 demo_calls demo_consumption genesis_empty Hin)).
Defined.

Definition no_fill : fill_row := {| pf_fill_id := ""; pf_persisted_at := 0; pf_fill := {|
  fi_fill_id := None; fi_execution_id := ""; fi_order_id := ""; fi_sequence := 0; fi_quantity := 0; fi_price := dzero;
  fi_commission := dzero; fi_transfer_fee := None; fi_tax := dzero; fi_total_fees := None; fi_cost_spec_id := None;
  fi_cost_spec_schema_version := None; fi_cost_context_fingerprint := None; fi_cost_provenance_state := KNOWN_V3;
  fi_executed_at := 0; fi_price_snapshot_id := "" |} |}.

(** LIMIT orders: a purchase within its limit, one whose limit the price misses, and a sale. *)
Definition limit_buys : list paper_call := [
  Submit (buy_within (Some (Dec 1250 (-2))) 1 300 T1) None T1 None (shanghai_date T1)
    (demo_quote (Dec 1234 (-2)) None (shanghai_date T1 + 1)) 5;
  Submit (buy_within (Some (Dec 1200 (-2))) 2 300 T1) None T1 None (shanghai_date T1)
    (demo_quote (Dec 1234 (-2)) None (shanghai_date T1 + 1)) 6 ].
Definition limit_calls : list paper_call := limit_buys ++ [
  Submit (sell_within (Some (Dec 1290 (-2))) bk (run bk genesis 1 limit_buys) 3 1 T2) None T2 None (shanghai_date T2)
    (demo_quote (Dec 1300 (-2)) None 0) 9 ].
#[local] Abbreviation limit_end := (run bk genesis 1 limit_calls).
Definition limit_bought : fill_row := first_of (fills limit_end) no_fill.
Definition limit_sold : fill_row := first_of (drop 1 (fills limit_end)) no_fill.

Lemma fills_respect_orders_witness :
  map (fun i => (in_order_type (payload i), in_side (payload i))) (intents limit_end) = [(LIMIT, buy); (LIMIT, buy); (LIMIT, sell)]
  /\ (length (fills limit_end) = 2)%nat /\ fill_in_order bk limit_end limit_bought /\ fill_in_order bk limit_end limit_sold.
Proof.
  assert (In limit_bought (fills limit_end)) as Hb by (apply in_first; vm_compute; discriminate).
  assert (In limit_sold (fills limit_end)) as Hs.
  { apply in_drop with (n := 1%nat). apply in_first. vm_compute. discriminate. }
  split; [vm_compute; reflexivity|]. split; [vm_compute; reflexivity|].
  exact (conj (fills_respect_orders bk genesis 1 limit_calls limit_bought genesis_empty Hb)
              (fills_respect_orders bk genesis 1 limit_calls limit_sold genesis_empty Hs)).
Defined.

Definition no_order : order_row := {| po_order_id := ""; po_entry_signal_id := None; po_order := {|
  or_order_id := None; or_intent_id := ""; or_account_id := ""; or_ts_code := ""; or_side := buy; or_order_type := MARKET;
  or_quantity := 0; or_filled_quantity := 0; or_average_fill_price := None; or_status := PO_PENDING;
  or_reject_reason := None; or_created_at := 0; or_updated_at := 0 |} |}.
(** The order after its first execution, and the calls that follow it. *)
#[local] Abbreviation demo_first := (run bk genesis 1 (take 1 demo_calls)).
Definition demo_order : order_row := first_of (orders demo_first) no_order.

Lemma orders_only_advance_witness : In demo_order (orders demo_first) /\ or_status (po_order demo_order) = PO_PARTIALLY_FILLED
  /\ extends demo_first (run_calls bk demo_first (drop 1 demo_calls))
  /\ row_advances (run_calls bk demo_first (drop 1 demo_calls)) demo_order.
Proof.
  assert (In demo_order (orders demo_first)) as Hin by (apply in_first; vm_compute; discriminate).
  assert (or_status (po_order demo_order) = PO_PARTIALLY_FILLED) as Hst by (vm_compute; reflexivity).
  exact (conj Hin (conj Hst (orders_only_advance bk genesis 1 (take 1 demo_calls) (drop 1 demo_calls) demo_order genesis_empty Hin))).
Defined.

Definition demo_first_quote : BrokerExecutionContext := demo_quote (Dec 1234 (-2)) (Some 200) (shanghai_date T1 + 1).
#[local] Abbreviation demo_opened := (run bk genesis 1 []).
#[local] Abbreviation demo_submit db now := (submit_intent bk db demo_buy None T1 None (shanghai_date T1) demo_first_quote now).

Lemma pair_of_snd {A B} (p : A * B) y : snd p = y -> p = (fst p, y).
Proof. by destruct p as [u v]; intros <-. Qed.

Lemma submit_intent_replay_witness : exists o, snd (demo_submit demo_opened 5) = Ok o
  /\ demo_submit (run_calls bk (fst (demo_submit demo_opened 5)) (drop 1 demo_calls)) 50
     = (run_calls bk (fst (demo_submit demo_opened 5)) (drop 1 demo_calls), Ok o).
Proof.
  assert (is_ok (snd (demo_submit demo_opened 5)) = true) as Hok by (vm_compute; reflexivity).
  assert (validate_intent demo_buy = Ok demo_buy) as Hv by (vm_compute; reflexivity).
  destruct (snd (demo_submit demo_opened 5)) as [o|] eqn:E; [|discriminate Hok]. exists o. split; [reflexivity|].
  exact (submit_intent_replay bk genesis 1 [] demo_buy demo_buy None T1 None (shanghai_date T1) demo_first_quote 5
           (fst (demo_submit demo_opened 5)) o (drop 1 demo_calls) 50 genesis_empty Hv (pair_of_snd _ _ E)).
Defined.

#[local] Abbreviation demo_execute db now := (apply_execution bk db (order_of demo_buy) (hex 77) (T1 + 1) (shanghai_date T1) 100
    (demo_quote (Dec 1240 (-2)) None (shanghai_date T1 + 1)) (hex 98) None now).

Lemma apply_execution_replay_witness : exists r, snd (demo_execute demo_first 6) = Ok r
  /\ demo_execute (run_calls bk (fst (demo_execute demo_first 6)) (drop 2 demo_calls)) 60
     = (run_calls bk (fst (demo_execute demo_first 6)) (drop 2 demo_calls), Ok r).
Proof.
  assert (is_ok (snd (demo_execute demo_first 6)) = true) as Hok by (vm_compute; reflexivity).
  destruct (snd (demo_execute demo_first 6)) as [r|] eqn:E; [|discriminate Hok]. exists r. split; [reflexivity|].
  exact (apply_execution_replay bk genesis 1 (take 1 demo_calls) (order_of demo_buy) (hex 77) (T1 + 1) (shanghai_date T1) 100
           (demo_quote (Dec 1240 (-2)) None (shanghai_date T1 + 1)) (hex 98) None 6
           (fst (demo_execute demo_first 6)) r (drop 2 demo_calls) 60 genesis_empty (pair_of_snd _ _ E)).
Defined.

(** ** Behaviour the source does not intend *)

(** An intent persisted ten seconds after its decision, executed one second after the decision. *)
Definition late_calls : list paper_call := [
  Submit demo_buy None T1 (Some (T1 + 10)) (shanghai_date T1) (demo_quote (Dec 1234 (-2)) (Some 0) (shanghai_date T1 + 1)) 5;
  Execute (order_of demo_buy) (hex 77) (T1 + 1) (shanghai_date T1) 300
    (demo_quote (Dec 1240 (-2)) None (shanghai_date T1 + 1)) (hex 98) None 6 ].

(** [apply_execution] does not compare its persistence time with the intent's, so it accepts an
    execution that [reconcile] then reports as corruption. *)
Example accepted_execution_fails_reconcile :
  (length (fills (run bk genesis 1 late_calls)) = 1)%nat
  /\ reconcile bk (run bk genesis 1 late_calls)
     = Err (Raise PaperBrokerReconciliationError "availability precedes its intent").
Proof. vm_compute. split; reflexivity. Qed.

(** One cent left after buying 100 shares, then selling them at one cent each. *)
Definition poor : broker := demo_broker (Dec 10001 (-2)).
Definition poor_buy : list paper_call := [
  Submit (buy_intent 1 100 T1) None T1 None (shanghai_date T1) (demo_quote (Dec 95 (-2)) None (shanghai_date T1 + 1)) 5 ].
Definition poor_calls : list paper_call := poor_buy ++ [
  Submit (sell_intent poor (run poor genesis 1 poor_buy) 3 1 T2) None T2 None (shanghai_date T2)
    (demo_quote (Dec 1 (-2)) None 0) 6 ].

(** A SELL whose fees exceed its proceeds is filled without a check of the cash, which becomes
    negative; from then on the account cannot be read. *)
Example sell_fees_overdraw :
  ba_cash <$> fetch_account poor (run poor genesis 1 poor_calls) = Some (Dec (-399) (-2))
  /\ account_snapshot poor (run poor genesis 1 poor_calls) T2 (fun _ => Some (Dec 1 0))
     = Err (Raise ValueError "field out of range").
Proof. vm_compute. split; reflexivity. Qed.
