(* ===== verification/PortfolioWeights.v ===== *)
(** * Target portfolios ([src/rquant/portfolio/weights.py])

    [allocate_target_weights] turns ranked candidates into target amounts: a water-filling allocation
    in exact fractions under a cap per stock and per industry, rounded to cents by largest remainder,
    with stocks below a minimum dropped one at a time.  [Fraction] is [Q], kept reduced; a dictionary
    over the indexes of one call is a function on them and a set of indexes a list in increasing
    order (no result depends on the order).  Each [while] loop has a bound, and running out of it is
    the error [OutOfFuel]. *)

From Stdlib Require Import ZArith QArith Qround Qminmax Lqa Lia Bool.
From stdpp Require Import base list strings.
From S2P Require Import Prelude Decimal DecimalEq.
Open Scope Z_scope.
Open Scope rq_scope.

(** ** Contracts *)

Record PortfolioCandidate := { pc_ts_code : string; pc_rank_score : dec; pc_industry_l1 : option string }.

Definition normalize_industry (value : option string) : option string :=
  match value with
  | None => None
  | Some v => if nonempty (strip v) then Some (strip v) else None
  end.

(** The field constraints and validators of a candidate. *)
Definition mk_candidate (c : PortfolioCandidate) : res PortfolioCandidate :=
  let code := upper (strip (pc_ts_code c)) in
  raise_if negb (nonempty code) as ValueError saying "股票代码不能为空" ;;
  raise_if dltb (pc_rank_score c) dzero as ValueError saying "field out of range" ;;
  Ok {| pc_ts_code := code; pc_rank_score := pc_rank_score c; pc_industry_l1 := normalize_industry (pc_industry_l1 c) |}.

Inductive weight_method := equal | rank_score.

Record PortfolioWeightRule := {
  wr_method : weight_method; wr_max_positions : Z; wr_max_stock_weight : dec;
  wr_max_industry_weight : option dec; wr_cash_reserve : dec; wr_min_target_amount : dec
}.

Definition opt_ok {A} (p : A -> bool) (o : option A) : bool := match o with None => true | Some a => p a end.

(** [(Fraction(value) * 100).denominator == 1]. *)
Definition whole_cents (d : dec) : bool := Pos.eqb (Qden (Qred (value d * 100))) 1.



Definition mk_rule (r : PortfolioWeightRule) : res PortfolioWeightRule :=
  raise_if negb ((0 <? wr_max_positions r) && dltb dzero (wr_max_stock_weight r) && dleb (wr_max_stock_weight r) done_
                 && opt_ok (fun w => dltb dzero w && dleb w done_) (wr_max_industry_weight r)
                 && dleb dzero (wr_cash_reserve r) && dleb (wr_cash_reserve r) done_ && dleb dzero (wr_min_target_amount r))
    as ValueError saying "field out of range" ;;
  raise_if negb (whole_cents (wr_min_target_amount r)) as ValueError saying "最小目标金额须精确到分" ;;
  Ok r.

Inductive position_status := selected | excluded.
Inductive exclusion_reason := rank_limit | below_minimum | zero_weight.

#[export] Instance exclusion_reason_eq_dec : EqDecision exclusion_reason.
Proof. solve_decision. Defined.

Record TargetPosition := {
  tp_ts_code : string; tp_industry_l1 : option string; tp_rank_score : dec; tp_target_weight : dec;
  tp_target_amount : dec; tp_status : position_status; tp_exclusion_reason : option exclusion_reason
}.

Record PortfolioTarget := {
  pt_positions : list TargetPosition; pt_invested_weight : dec; pt_invested_amount : dec;
  pt_cash_weight : dec; pt_cash_amount : dec
}.

Definition impossible {A} (message : string) : res A := Err (Raise PortfolioAllocationError message).

(** ** Numbers *)

(** [int(Fraction)] of a nonnegative fraction. *)
Definition int (q : Q) : Z := Qfloor q.

Definition validate_capital (capital : dec) : res Z :=
  raise_if dltb capital dzero as PortfolioAllocationError saying "资金必须是有限的非负金额，精确到分" ;;
  raise_if negb (whole_cents capital) as PortfolioAllocationError saying "资金必须精确到分" ;;
  Ok (int (value capital * 100)).

(** The context has three digits more than the amount, so nothing is rounded. *)
Definition money_from_cents (cents : Z) : dec := Dec cents (-2).

(** A context of [p] digits. *)
Definition fix_at (p : Z) (d : dec) : dec :=
  if Z.abs (mant d) <? 10 ^ p then d
  else
    let k := ndigits (Z.abs (mant d)) - p in
    let m := half_even (mant d) k in
    if Z.abs m <? 10 ^ p then Dec m (expo d + k) else Dec (m / 10) (expo d + k + 1).

Definition add_at (p : Z) (a b : dec) : dec := let '(x, y, e) := align a b in fix_at p (Dec (x + y) e).

(** [Decimal(c) / Decimal(n)] of a nonnegative and a positive integer. *)
Definition div_at (p : Z) (c n : Z) : dec :=
  let shift := ndigits n - ndigits c + p + 1 in
  if c =? 0 then Dec 0 0
  else
    let num := if 0 <=? shift then c * 10 ^ shift else c in
    let den := if 0 <=? shift then n else n * 10 ^ (- shift) in
    let coeff := num / den in
    if num mod den =? 0 then let '(m, e) := drop_zeros (Z.to_nat shift) coeff (- shift) in fix_at p (Dec m e)
    else fix_at p (Dec (if coeff mod 5 =? 0 then coeff + 1 else coeff) (- shift)).

(** [d.quantize(Decimal(1).scaleb(-places), rounding=ROUND_DOWN)] of a nonnegative number. *)
Definition quantize_down (places : Z) (d : dec) : dec :=
  let s := expo d + places in
  Dec (if 0 <=? s then mant d * 10 ^ s else mant d / 10 ^ (- s)) (- places).

(** [len(str(n))] is 1 for zero. *)
Definition places_for (total_cents : Z) : Z := Z.max 18 (ndigits total_cents + 6).

Definition weight_from_cents (cents total_cents : Z) : dec :=
  if (cents =? 0) || (total_cents =? 0) then dzero
  else
    let places := places_for total_cents in
    quantize_down places (div_at (places + ndigits total_cents + 10) cents total_cents).

(** ** Continuous allocation *)

(** Sums and minima of fractions. *)
Definition qsum {A} (f : A -> Q) (l : list A) : Q := fold_right (fun x acc => Qred (f x + acc)) 0%Q l.
Definition qmin (a b : Q) : Q := if Qle_bool a b then a else b.
Definition qlt (a b : Q) : bool := negb (Qle_bool b a).

(** [{... for ... in ...}] without repetitions. *)
Fixpoint distinct {A} `{EqDecision A} (l : list A) : list A :=
  match l with [] => [] | x :: l => if decide (x ∈ l) then distinct l else x :: distinct l end.

Definition no_candidate : PortfolioCandidate := {| pc_ts_code := ""; pc_rank_score := dzero; pc_industry_l1 := None |}.

Section Allocation.
Variables (ranked : list PortfolioCandidate) (rule : PortfolioWeightRule).

Definition candidate (i : nat) : PortfolioCandidate := nth i ranked no_candidate.
Definition group (i : nat) : option string := pc_industry_l1 (candidate i).
Definition in_group (g : option string) (i : nat) : bool := bool_decide (group i = g).
Definition score (i : nat) : Q := match wr_method rule with equal => 1%Q | rank_score => value (pc_rank_score (candidate i)) end.
Definition stock_cap : Q := value (wr_max_stock_weight rule).
Definition industry_cap : option Q := value <$> wr_max_industry_weight rule.

(** The shares of one industry, among all the indexes of the call. *)
Definition group_used (indexes : list nat) (allocated : nat -> Q) (g : option string) : Q :=
  qsum allocated (List.filter (in_group g) indexes).

Definition group_room (indexes active : list nat) (allocated : nat -> Q) (cap : Q) (g : option string) : Q :=
  Qred ((cap - group_used indexes allocated g) / qsum score (List.filter (in_group g) active)).

(** The largest step that no cap forbids. *)
Definition step_size (indexes active : list nat) (allocated : nat -> Q) (remaining : Q) : Q :=
  let alpha := Qred (remaining / qsum score active) in
  let alpha := fold_left (fun alpha i => qmin alpha (Qred ((stock_cap - allocated i) / score i))) active alpha in
  match industry_cap with
  | None => alpha
  | Some cap => fold_left (fun alpha g => qmin alpha (group_room indexes active allocated cap g))
                  (distinct (map group active)) alpha
  end.

Definition raise_shares (active : list nat) (allocated : nat -> Q) (alpha : Q) : nat -> Q :=
  fun i => if bool_decide (i ∈ active) then Qred (allocated i + alpha * score i) else allocated i.

Definition still_active (indexes active : list nat) (allocated : nat -> Q) : list nat :=
  let active := List.filter (fun i => qlt (allocated i) stock_cap) active in
  match industry_cap with
  | None => active
  | Some cap => List.filter (fun i => qlt (group_used indexes allocated (group i)) cap) active
  end.

Fixpoint fill_loop (fuel : nat) (indexes active : list nat) (allocated : nat -> Q) (remaining : Q) : res (nat -> Q) :=
  if negb (qlt 0 remaining) then Ok allocated
  else
    match fuel with
    | O => Err (Raise OutOfFuel "")
    | S fuel =>
        match active with
        | [] => impossible "候选可分配上限不足以达到投资目标"
        | _ =>
            let alpha := step_size indexes active allocated remaining in
            raise_if Qle_bool alpha 0 as PortfolioAllocationError saying "单票或行业上限不足以达到投资目标" ;;
            let allocated := raise_shares active allocated alpha in
            let remaining := Qred (remaining - alpha * qsum score active) in
            if Qeq_bool remaining 0 then Ok allocated
            else fill_loop fuel indexes (still_active indexes active allocated) allocated remaining
        end
    end.

Definition industry_key (i : nat) : string := default "" (group i).

Definition industry_room (active : list nat) (cap : Q) : Q :=
  qsum (fun key => qmin (Qred (inject_Z (Z.of_nat (length (List.filter (fun i => eqs (industry_key i) key) active))) * stock_cap)) cap)
    (distinct (map industry_key active)).

Definition continuous_allocation (indexes : list nat) (target : Q) : res (nat -> Q) :=
  let active := List.filter (fun i => qlt 0 (score i)) indexes in
  raise_if bool_decide (active = []) as PortfolioAllocationError saying "排名分全为零，无法达到投资目标" ;;
  raise_if qlt (inject_Z (Z.of_nat (length active)) * stock_cap) target
    as PortfolioAllocationError saying "单票上限不足以达到投资目标" ;;
  raise_if match industry_cap with None => false | Some cap => qlt (industry_room active cap) target end
    as PortfolioAllocationError saying "行业上限不足以达到投资目标" ;;
  fill_loop (S (length active)) indexes active (fun _ => 0%Q) target.

(** ** Rounding to cents *)

(** [sorted(raw, key=lambda index: (-(raw[index] - amounts[index]), index))] *)
Definition remainder_first (raw : nat -> Q) (amounts : nat -> Z) (i j : nat) : bool :=
  let ri := (raw i - inject_Z (amounts i))%Q in
  let rj := (raw j - inject_Z (amounts j))%Q in
  qlt rj ri || (Qeq_bool ri rj && (i <=? j)%nat).

Fixpoint insert_sorted {A} (before : A -> A -> bool) (x : A) (l : list A) : list A :=
  match l with [] => [x] | y :: l' => if before x y then x :: l else y :: insert_sorted before x l' end.
Definition sort_by {A} (before : A -> A -> bool) (l : list A) : list A := fold_right (insert_sorted before) [] l.

Definition zsum (f : nat -> Z) (l : list nat) : Z := sumZ f l.

(** One more cent fits the stock's and the industry's limit. *)
Definition cent_fits (indexes : list nat) (total_cents : Z) (amounts : nat -> Z) (i : nat) : bool :=
  Qle_bool (inject_Z (amounts i + 1)) (stock_cap * inject_Z total_cents)
  && match industry_cap with
     | None => true
     | Some cap => Qle_bool (inject_Z (zsum amounts (List.filter (in_group (group i)) indexes) + 1)) (cap * inject_Z total_cents)
     end.

Definition add_cent (amounts : nat -> Z) (i : nat) : nat -> Z := fun j => if (j =? i)%nat then amounts j + 1 else amounts j.

Fixpoint cent_loop (fuel : nat) (indexes : list nat) (raw : nat -> Q) (total_cents : Z) (amounts : nat -> Z) (remaining : Z)
    : res (nat -> Z) :=
  if remaining =? 0 then Ok amounts
  else
    match fuel with
    | O => Err (Raise OutOfFuel "")
    | S fuel =>
        match List.find (cent_fits indexes total_cents amounts) (sort_by (remainder_first raw amounts) indexes) with
        | None => impossible "金额精确到分后，单票或行业上限无法达到投资目标"
        | Some i => cent_loop fuel indexes raw total_cents (add_cent amounts i) (remaining - 1)
        end
    end.

Definition round_to_cents (indexes : list nat) (weights : nat -> Q) (total_cents target_cents : Z) : res (nat -> Z) :=
  let raw i := Qred (weights i * inject_Z total_cents) in
  let amounts i := int (raw i) in
  let remaining := target_cents - zsum amounts indexes in
  cent_loop (Z.to_nat remaining) indexes raw total_cents amounts remaining.
End Allocation.

(** ** The whole target *)

Definition any_below (n : nat) (reasons : nat -> option exclusion_reason) : bool :=
  existsb (fun i => bool_decide (reasons i = Some below_minimum)) (seq 0 n).

Definition set_reason (reasons : nat -> option exclusion_reason) (i : nat) (r : exclusion_reason) : nat -> option exclusion_reason :=
  fun j => if (j =? i)%nat then Some r else reasons j.

(** [min(below, key=lambda index: (amounts[index], -index))] *)
Definition drops_before (amounts : nat -> Z) (i j : nat) : bool :=
  (amounts i <? amounts j) || ((amounts i =? amounts j) && (j <=? i)%nat).

Definition first_to_drop (amounts : nat -> Z) (below : list nat) : option nat :=
  match below with
  | [] => None
  | i :: l => Some (fold_left (fun best j => if drops_before amounts j best then j else best) l i)
  end.

Record allocation := { al_eligible : list nat; al_reasons : nat -> option exclusion_reason; al_amounts : nat -> Z }.

Section Target.
Variables (ranked : list PortfolioCandidate) (rule : PortfolioWeightRule).

Definition allocate_once (eligible : list nat) (target : Q) (total_cents target_cents : Z) : res (nat -> Z) :=
  weights <~ continuous_allocation ranked rule eligible target ;;
  round_to_cents ranked rule eligible weights total_cents target_cents.

Fixpoint drop_loop (fuel : nat) (target : Q) (total_cents target_cents minimum_cents : Z) (eligible : list nat)
    (reasons : nat -> option exclusion_reason) : res allocation :=
  match eligible with
  | [] => if any_below (length ranked) reasons then impossible "最小目标金额剔除后，没有可投资的候选"
          else impossible "排名分全为零，无法达到投资目标"
  | _ =>
      match fuel with
      | O => Err (Raise OutOfFuel "")
      | S fuel =>
          match allocate_once eligible target total_cents target_cents with
          | Err (Raise PortfolioAllocationError exc) =>
              if any_below (length ranked) reasons then impossible ("最小目标金额剔除后，" +:+ exc) else impossible exc
          | Err e => Err e
          | Ok amounts =>
              match first_to_drop amounts (List.filter (fun i => amounts i <? minimum_cents) eligible) with
              | None => Ok {| al_eligible := eligible; al_reasons := reasons; al_amounts := amounts |}
              | Some i => drop_loop fuel target total_cents target_cents minimum_cents
                            (List.filter (fun j => negb (j =? i)%nat) eligible) (set_reason reasons i below_minimum)
              end
          end
      end
  end.

Definition mark_zero (a : allocation) : nat -> option exclusion_reason :=
  fun i => if bool_decide (i ∈ al_eligible a) && (al_amounts a i =? 0) then Some zero_weight else al_reasons a i.

Definition top_count : nat := Nat.min (length ranked) (Z.to_nat (wr_max_positions rule)).

Definition rank_limited : nat -> option exclusion_reason :=
  fun i => if (top_count <=? i)%nat then Some rank_limit else None.

Definition zero_scored (i : nat) : bool :=
  match wr_method rule with equal => false | rank_score => deqb (pc_rank_score (candidate ranked i)) dzero end.

Definition target_share : Q := Qred (1 - value (wr_cash_reserve rule)).

(** The amounts in cents and the reasons, by index. *)
Definition target_amounts (total_cents : Z) : res ((nat -> Z) * (nat -> option exclusion_reason)) :=
  if (total_cents =? 0) || Qeq_bool target_share 0 then
    Ok (fun _ => 0, fun i => if (i <? top_count)%nat then Some zero_weight else rank_limited i)
  else
    raise_if (top_count =? 0)%nat as PortfolioAllocationError saying "没有候选股票，无法达到投资目标" ;;
    raise_if bool_decide (is_Some (wr_max_industry_weight rule))
             && existsb (fun i => negb (nonempty (industry_key ranked i))) (seq 0 top_count)
      as PortfolioAllocationError saying "启用行业上限时，入选候选缺少申万一级行业" ;;
    let eligible := List.filter (fun i => negb (zero_scored i)) (seq 0 top_count) in
    let reasons i := if (i <? top_count)%nat && zero_scored i then Some zero_weight else rank_limited i in
    let target_cents := int (target_share * inject_Z total_cents) in
    raise_if target_cents =? 0 as PortfolioAllocationError saying "金额精确到分后，投资目标不足一分" ;;
    let minimum_cents := int (value (wr_min_target_amount rule) * 100) in
    a <~ drop_loop (length eligible) target_share total_cents target_cents minimum_cents eligible reasons ;;
    Ok (fun i => if bool_decide (i ∈ al_eligible a) then al_amounts a i else 0, mark_zero a).

Definition target_position (total_cents : Z) (amounts : nat -> Z) (reasons : nat -> option exclusion_reason) (i : nat)
    : TargetPosition :=
  let item := candidate ranked i in
  {| tp_ts_code := pc_ts_code item; tp_industry_l1 := pc_industry_l1 item; tp_rank_score := pc_rank_score item;
     tp_target_weight := weight_from_cents (amounts i) total_cents; tp_target_amount := money_from_cents (amounts i);
     tp_status := match reasons i with Some _ => excluded | None => selected end; tp_exclusion_reason := reasons i |}.

Definition portfolio_target (total_cents : Z) (amounts : nat -> Z) (reasons : nat -> option exclusion_reason) : PortfolioTarget :=
  let positions := map (target_position total_cents amounts reasons) (seq 0 (length ranked)) in
  let p := places_for total_cents + ndigits (Z.of_nat (length positions)) + 10 in
  let invested_weight := fold_left (fun acc item => add_at p acc (tp_target_weight item)) positions dzero in
  let invested_cents := zsum amounts (seq 0 (length ranked)) in
  {| pt_positions := positions; pt_invested_weight := invested_weight;
     pt_invested_amount := money_from_cents invested_cents;
     pt_cash_weight := add_at p done_ (dneg invested_weight);
     pt_cash_amount := money_from_cents (total_cents - invested_cents) |}.
End Target.

(** Sorted by code, then stably by falling score. *)
Definition ranking (candidates : list PortfolioCandidate) : list PortfolioCandidate :=
  sort_by (fun x y => dleb (pc_rank_score y) (pc_rank_score x))
    (sort_by (fun x y => String.leb (pc_ts_code x) (pc_ts_code y)) candidates).

(** [rule] and [candidates] are validated contracts. *)
Definition allocate_target_weights (candidates : list PortfolioCandidate) (rule : PortfolioWeightRule) (capital : dec)
    : res PortfolioTarget :=
  total_cents <~ validate_capital capital ;;
  let ranked := ranking candidates in
  raise_if negb (bool_decide (NoDup (map pc_ts_code ranked))) as PortfolioAllocationError saying "候选股票代码重复" ;;
  bind (amounts, reasons) from target_amounts ranked rule total_cents ;;
  Ok (portfolio_target ranked total_cents amounts reasons).
