(* ===== verification/PortfolioNumbers.v ===== *)
(** * Target portfolios: the reported decimals

    [_weight_from_cents] divides in a context wide enough that the quotient, rounded down to its
    places, is the exact fraction rounded down; sums of such weights are exact. *)

From Stdlib Require Import ZArith QArith Lia Bool.
From stdpp Require Import base list strings.
From S2P Require Import Prelude Decimal DecimalEq PortfolioWeights.
Open Scope Z_scope.

Lemma pow10Z_pos k : 0 <= k -> 0 < 10 ^ k.
Proof. intros. by apply Z.pow_pos_nonneg. Qed.
#[local] Hint Resolve pow10Z_pos : core.

Lemma pow10Z_mono j k : j <= k -> 10 ^ j <= 10 ^ k.
Proof. intros. apply Z.pow_le_mono_r; lia. Qed.

Lemma half_even_near m k : 0 <= m -> 0 <= k -> 0 <= half_even m k /\ 2 * Z.abs (half_even m k * 10 ^ k - m) <= 10 ^ k.
Proof.
  intros Hm Hk. pose proof (pow10Z_pos k Hk) as Hp. destruct (Z.eq_dec m 0) as [->|Hne]; [unfold half_even; cbn [Z.sgn Z.mul]; lia|].
  unfold half_even. rewrite Z.abs_eq, Z.sgn_pos, Z.mul_1_l by lia. pose proof (Z.div_mod m (10 ^ k) ltac:(lia)) as E.
  pose proof (Z.mod_pos_bound m (10 ^ k) Hp) as Hr. pose proof (Z.div_pos m (10 ^ k) Hm Hp).
  destruct (Z.ltb_spec (2 * (m mod 10 ^ k)) (10 ^ k)); [split; [lia|nia]|].
  destruct (Z.ltb_spec (10 ^ k) (2 * (m mod 10 ^ k))); [split; [lia|nia]|]. destruct (Z.even _); split; try lia; nia.
Qed.

(** Rounding to [p] digits keeps a number that fits, and moves another by at most a unit of its last digit. *)
Lemma fix_at_near p d D : 0 <= p -> 0 <= mant d < 10 ^ D -> 10 ^ p <= mant d -> exists k, 0 <= k <= D - p + 1
  /\ expo (fix_at p d) = expo d + k /\ Z.abs (mant (fix_at p d) * 10 ^ k - mant d) <= 10 ^ k.
Proof.
  intros Hp [Hm HD] Hs. unfold fix_at. rewrite Z.abs_eq by done. rewrite (proj2 (Z.ltb_ge _ _) Hs).
  pose proof (pow10Z_pos p Hp). destruct (ndigits_spec (mant d)) as (Hc & Hl & Hh); [lia|].
  assert (p < ndigits (mant d)) as Hpd.
  { apply Z.nle_gt. intros L. pose proof (pow10Z_mono _ _ L). lia. }
  assert (ndigits (mant d) <= D) as HdD.
  { apply Z.nlt_ge. intros L. pose proof (pow10Z_mono D (ndigits (mant d) - 1) ltac:(lia)). lia. }
  set (k := ndigits (mant d) - p) in *. destruct (half_even_near (mant d) k Hm ltac:(lia)) as [Hh0 Hn].
  destruct (_ <? _); cbn [mant expo].
  - exists k. split_and!; try done; lia.
  - exists (k + 1). split_and!; try lia. rewrite Z.pow_add_r by lia. change (10 ^ 1) with 10. pose proof (pow10Z_pos k ltac:(lia)).
    pose proof (Z.div_mod (half_even (mant d) k) 10 ltac:(lia)). pose proof (Z.mod_pos_bound (half_even (mant d) k) 10 ltac:(lia)). nia.
Qed.

Lemma fix_at_fits p d : Z.abs (mant d) < 10 ^ p -> fix_at p d = d.
Proof. intros H. unfold fix_at. by rewrite (proj2 (Z.ltb_lt _ _) H). Qed.

(** Dropping trailing zeros keeps the number. *)
Lemma drop_zeros_value fuel c e : let '(m, f) := drop_zeros fuel c e in e <= f <= e + Z.of_nat fuel /\ m * 10 ^ (f - e) = c.
Proof.
  revert c e. induction fuel as [|fuel IH]; intros c e; cbn [drop_zeros]; [rewrite Z.sub_diag; lia|].
  destruct (Z.eqb_spec (c mod 10) 0) as [E|E]; [|rewrite Z.sub_diag; lia]. specialize (IH (c / 10) (e + 1)).
  destruct (drop_zeros fuel (c / 10) (e + 1)) as [m f]. destruct IH as [Hf Hv]. split; [lia|].
  replace (f - e) with (1 + (f - (e + 1))) by lia. rewrite Z.pow_add_r by lia. pose proof (Z.div_mod c 10 ltac:(lia)). lia.
Qed.

(** At least the zeros that are known to be there are dropped. *)
Lemma drop_zeros_strips fuel w s e : 0 < w -> 0 <= s <= Z.of_nat fuel -> 0 <= fst (drop_zeros fuel (w * 10 ^ s) e) <= w.
Proof.
  revert w s e. induction fuel as [|fuel IH]; intros w s e Hw Hs; cbn [drop_zeros].
  - assert (s = 0) as -> by lia. cbn [fst]. lia.
  - destruct (Z.eq_dec s 0) as [->|Hne].
    + rewrite Z.pow_0_r, Z.mul_1_r. destruct (Z.eqb_spec (w mod 10) 0) as [E|E]; [|cbn; lia].
      pose proof (Z.div_mod w 10 ltac:(lia)). specialize (IH (w / 10) 0 (e + 1) ltac:(lia) ltac:(lia)).
      rewrite Z.pow_0_r, Z.mul_1_r in IH. lia.
    + replace s with (s - 1 + 1) by lia. rewrite Z.pow_add_r by lia. change (10 ^ 1) with 10. rewrite Z.mul_assoc, Z.mod_mul, Z.div_mul by lia.
      cbn [Z.eqb]. apply IH; lia.
Qed.

Lemma ndigits_pos n : 0 < ndigits n.
Proof. unfold ndigits. generalize (Z.to_nat (Z.log2 n)). intros fuel. revert n. induction fuel as [|fuel IH]; intros n; cbn [count_digits]; [lia|]. destruct (n <? 10); [lia|]. specialize (IH (n / 10)). lia. Qed.

(** ** Weights *)

(** The number of units of [10 ^ - shift] in a decimal. *)
Lemma quantize_down_units places shift r : 0 <= places <= shift -> - shift <= expo r ->
  quantize_down places r = Dec (mant r * 10 ^ (expo r + shift) / 10 ^ (shift - places)) (- places).
Proof.
  intros Hp He. unfold quantize_down. f_equal. pose proof (pow10Z_pos (shift - places) ltac:(lia)). destruct (Z.leb_spec 0 (expo r + places)) as [L|L].
  - replace (expo r + shift) with (expo r + places + (shift - places)) by lia. rewrite (Z.pow_add_r 10 (expo r + places) (shift - places)) by lia. by rewrite Z.mul_assoc, Z.div_mul by lia.
  - replace (shift - places) with (- (expo r + places) + (expo r + shift)) by lia. rewrite (Z.pow_add_r 10 (- (expo r + places))) by lia.
    pose proof (pow10Z_pos (expo r + shift) ltac:(lia)). pose proof (pow10Z_pos (- (expo r + places)) ltac:(lia)).
    by rewrite Z.div_mul_cancel_r by lia.
Qed.

Section Weight.
Variables (c n places p : Z).
Hypothesis (Hc : 0 < c) (Hnpos : 0 < n) (Hplaces : 0 <= places) (Hp : places + ndigits c + 3 <= p).

#[local] Abbreviation shift := (ndigits n - ndigits c + p + 1).
#[local] Abbreviation whole := (c * 10 ^ places / n).

Lemma digits_positive : 0 < ndigits c /\ 0 < ndigits n.
Proof. split; apply ndigits_pos. Qed.

(** The quotient before rounding has at most two digits more than the context. *)
Lemma coeff_bound : 0 <= c * 10 ^ shift / n < 10 ^ (p + 2).
Proof.
  pose proof digits_positive. destruct (ndigits_spec c Hc) as (K1 & K2 & K3). destruct (ndigits_spec n ltac:(lia)) as (K4 & K5 & K6).
  split; [apply Z.div_pos; [pose proof (pow10Z_pos shift ltac:(lia)); nia|lia]|]. apply Z.div_lt_upper_bound; [lia|].
  apply Z.lt_le_trans with (10 ^ ndigits c * 10 ^ shift); [pose proof (pow10Z_pos shift ltac:(lia)); nia|].
  rewrite <- Z.pow_add_r by lia. replace (ndigits c + shift) with ((ndigits n - 1) + (p + 2)) by lia. rewrite Z.pow_add_r by lia.
  pose proof (pow10Z_pos (p + 2) ltac:(lia)). nia.
Qed.

(** Rounding a quotient that is within one unit of the exact one. *)
Lemma fix_units m e : - shift <= e -> 0 <= m -> m * 10 ^ (e + shift) < 10 ^ (p + 2) ->
  Z.abs (m * 10 ^ (e + shift) * n - c * 10 ^ shift) <= n -> - shift <= expo (fix_at p (Dec m e))
  /\ Z.abs (mant (fix_at p (Dec m e)) * 10 ^ (expo (fix_at p (Dec m e)) + shift) * n - c * 10 ^ shift) <= 1001 * n.
Proof.
  pose proof digits_positive. intros He Hm Hb Hn. destruct (Z.lt_ge_cases m (10 ^ p)) as [L|L].
  { rewrite fix_at_fits by (cbn [mant]; lia). cbn [mant expo]. lia. }
  set (j := e + shift) in *. pose proof (pow10Z_pos j ltac:(lia)) as Hj. pose proof (pow10Z_pos p ltac:(lia)).
  assert (j <= 2) as Hj2.
  { apply Z.nlt_ge. intros Lj. pose proof (pow10Z_mono 2 j ltac:(lia)). rewrite (Z.pow_add_r 10 p 2) in Hb by lia. change (10 ^ 2) with 100 in *. nia. }
  assert (m < 10 ^ (p + 2 - j)).
  { replace (p + 2) with (p + 2 - j + j) in Hb by lia. rewrite Z.pow_add_r in Hb by lia. nia. }
  destruct (fix_at_near p (Dec m e) (p + 2 - j)) as (k & Hk & Ek & Hr); cbn [mant expo] in *; [lia|lia|done|].
  rewrite Ek. split; [lia|]. set (r := mant (fix_at p (Dec m e))) in *. replace (e + k + shift) with (k + j) by lia.
  rewrite Z.pow_add_r by lia. assert (10 ^ k * 10 ^ j <= 1000) as Hkj.
  { rewrite <- Z.pow_add_r by lia. change 1000 with (10 ^ 3). apply pow10Z_mono. lia. }
  assert (Z.abs (r * 10 ^ k * 10 ^ j - m * 10 ^ j) <= 1000) by (pose proof (pow10Z_pos k ltac:(lia)); nia). nia.
Qed.

(** The units of [10 ^ - shift] in the rounded quotient are within [1001] of the exact one. *)
Lemma div_at_near : - shift <= expo (div_at p c n)
  /\ Z.abs (mant (div_at p c n) * 10 ^ (expo (div_at p c n) + shift) * n - c * 10 ^ shift) <= 1001 * n.
Proof.
  pose proof digits_positive as Hd. pose proof coeff_bound as Hb. unfold div_at.
  rewrite (proj2 (Z.eqb_neq c 0)), (proj2 (Z.leb_le 0 shift)) by lia.
  pose proof (Z.div_mod (c * 10 ^ shift) n ltac:(lia)) as Em. pose proof (Z.mod_pos_bound (c * 10 ^ shift) n ltac:(lia)) as Hm.
  destruct (Z.eqb_spec (c * 10 ^ shift mod n) 0) as [E0|E0].
  - pose proof (drop_zeros_value (Z.to_nat shift) (c * 10 ^ shift / n) (- shift)) as Hz. destruct (drop_zeros _ _ _) as [m e].
    destruct Hz as [He Ev]. replace (e - - shift) with (e + shift) in Ev by lia. pose proof (pow10Z_pos (e + shift) ltac:(lia)).
    apply fix_units; [lia|nia|rewrite Ev; lia|]. rewrite Ev. lia.
  - assert (c * 10 ^ shift / n + 1 < 10 ^ (p + 2) \/ c * 10 ^ shift / n mod 5 <> 0) as Hs.
    { destruct (Z.eq_dec (c * 10 ^ shift / n mod 5) 0) as [K|K]; [left|by right]. pose proof (Z.div_mod (c * 10 ^ shift / n) 5 ltac:(lia)).
      assert (10 ^ (p + 2) = 10 * 10 ^ (p + 1)) as Ep by (rewrite <- Z.pow_succ_r by lia; f_equal; lia). rewrite Ep in *. lia. }
    destruct (Z.eqb_spec (c * 10 ^ shift / n mod 5) 0) as [E5|E5]; apply fix_units; rewrite ?Z.add_opp_diag_l, ?Z.pow_0_r; nia.
Qed.

(** A quotient with no more than [places] decimals is exact. *)
Lemma div_at_exact : c * 10 ^ places mod n = 0 ->
  mant (div_at p c n) * 10 ^ (expo (div_at p c n) + shift) = whole * 10 ^ (shift - places).
Proof.
  intros E0. pose proof digits_positive as Hd. pose proof (Z.div_mod (c * 10 ^ places) n ltac:(lia)) as Em.
  assert (Ec : c * 10 ^ shift = whole * 10 ^ (shift - places) * n).
  { replace shift with (places + (shift - places)) at 1 by lia. rewrite Z.pow_add_r by lia. nia. }
  pose proof (pow10Z_pos places ltac:(lia)). destruct (ndigits_spec c Hc) as (_ & _ & Hcd).
  assert (0 < whole < 10 ^ ndigits c * 10 ^ places) by nia. rewrite <- Z.pow_add_r in * by lia.
  unfold div_at. rewrite (proj2 (Z.eqb_neq c 0)), (proj2 (Z.leb_le 0 shift)) by lia.
  rewrite Ec, Z.mod_mul, Z.div_mul by lia. cbn [Z.eqb].
  pose proof (drop_zeros_strips (Z.to_nat shift) whole (shift - places) (- shift) ltac:(lia) ltac:(lia)) as Hs.
  pose proof (drop_zeros_value (Z.to_nat shift) (whole * 10 ^ (shift - places)) (- shift)) as Hz. destruct (drop_zeros _ _ _) as [m e].
  destruct Hz as [_ Ev]. cbn [fst] in Hs. rewrite fix_at_fits; cbn [mant expo].
  - by replace (e + shift) with (e - - shift) by lia.
  - pose proof (pow10Z_mono (ndigits c + places) p ltac:(lia)). lia.
Qed.

(** The reported weight is the exact fraction, rounded down. *)
Lemma quotient_rounds_down : quantize_down places (div_at p c n) = Dec whole (- places).
Proof.
  pose proof digits_positive as Hd. destruct div_at_near as [He Hn]. rewrite (quantize_down_units places shift) by lia. f_equal.
  destruct (ndigits_spec n ltac:(lia)) as (K4 & K5 & K6). set (t := 10 ^ (shift - places)).
  assert (Ht : 1001 * n < t).
  { unfold t. apply Z.lt_le_trans with (10 ^ 4 * 10 ^ ndigits n); [change (10 ^ 4) with 10000; lia|]. rewrite <- Z.pow_add_r by lia. apply pow10Z_mono. lia. }
  assert (Es : c * 10 ^ shift = c * 10 ^ places * t).
  { unfold t. rewrite <- Z.mul_assoc, <- Z.pow_add_r by lia. f_equal. f_equal. lia. }
  pose proof (Z.div_mod (c * 10 ^ places) n ltac:(lia)) as Em. pose proof (Z.mod_pos_bound (c * 10 ^ places) n ltac:(lia)) as Hm.
  pose proof div_at_exact as Hx. set (u := mant (div_at p c n) * 10 ^ (expo (div_at p c n) + shift)) in *. rewrite Es in Hn.
  set (w := whole) in *. set (rem := c * 10 ^ places mod n) in *.
  destruct (Z.eq_dec rem 0) as [E0|E0]; [rewrite (Hx E0); fold t; by rewrite Z.div_mul by lia|].
  symmetry. apply (Z.div_unique_pos _ _ _ (u - t * w)); [|lia]. rewrite Em in Hn. nia.
Qed.
End Weight.

(** Rounded to the nearest instead, the quotient is within a unit of the last place. *)
Section Nearest.
Variables (c n places p : Z).
Hypothesis (Hc : 0 < c) (Hnpos : 0 < n) (Hplaces : 0 <= places) (Hp : places + ndigits c + 3 <= p).

#[local] Abbreviation shift := (ndigits n - ndigits c + p + 1).
#[local] Abbreviation r := (div_at p c n).

Lemma unit_wide : 10000 * n < 10 ^ (shift - places).
Proof.
  pose proof (ndigits_pos c). destruct (ndigits_spec n ltac:(lia)) as (K4 & K5 & K6).
  apply Z.lt_le_trans with (10 ^ 4 * 10 ^ ndigits n); [change (10 ^ 4) with 10000; lia|]. rewrite <- Z.pow_add_r by lia. apply pow10Z_mono. lia.
Qed.

Lemma div_at_positive : 0 < mant r.
Proof.
  pose proof (ndigits_pos c). pose proof (ndigits_pos n). destruct (div_at_near c n places p Hc Hnpos Hplaces Hp) as [He Hr].
  pose proof unit_wide. pose proof (pow10Z_mono (shift - places) shift ltac:(lia)).
  pose proof (pow10Z_pos (expo r + shift) ltac:(lia)). assert (0 < mant r * 10 ^ (expo r + shift)) by nia. nia.
Qed.

(** The mantissa at [places] decimals, rounded half to even. *)
Lemma nearest_quotient :
  Z.abs ((if 0 <=? expo r + places then mant r * 10 ^ (expo r + places) else half_even (mant r) (- (expo r + places))) * n - c * 10 ^ places) <= n.
Proof.
  pose proof (ndigits_pos c). pose proof (ndigits_pos n). destruct (div_at_near c n places p Hc Hnpos Hplaces Hp) as [He Hr].
  pose proof unit_wide as Hw. pose proof div_at_positive as Hm. set (t := 10 ^ (shift - places)) in *.
  assert (Es : c * 10 ^ shift = c * 10 ^ places * t).
  { unfold t. rewrite <- Z.mul_assoc, <- Z.pow_add_r by lia. f_equal. f_equal. lia. }
  rewrite Es in Hr. match goal with |- context [if ?b then ?x else ?y] => set (m := if b then x else y) end. assert (Hmt : 2 * Z.abs (m * t - mant r * 10 ^ (expo r + shift)) <= t).
  { unfold m, t. destruct (Z.leb_spec 0 (expo r + places)) as [L|L].
    - replace (expo r + shift) with (expo r + places + (shift - places)) by lia. rewrite (Z.pow_add_r 10 (expo r + places)) by lia.
      pose proof (pow10Z_pos (shift - places) ltac:(lia)). nia.
    - destruct (half_even_near (mant r) (- (expo r + places))) as [_ Hh]; [lia|lia|].
      replace (shift - places) with (- (expo r + places) + (expo r + shift)) by lia. rewrite (Z.pow_add_r 10 (- (expo r + places))) by lia.
      pose proof (pow10Z_pos (expo r + shift) ltac:(lia)). nia. }
  clearbody m. assert (2 * Z.abs (m * n - c * 10 ^ places) * t <= t * n + 2002 * n); [|nia]. nia.
Qed.
End Nearest.

(** The places are enough for every total. *)
Lemma places_for_nonneg t : 18 <= places_for t.
Proof. unfold places_for. lia. Qed.

Lemma weight_from_cents_exact c t : 0 <= c <= t ->
  weight_from_cents c t = if c =? 0 then dzero else Dec (c * 10 ^ places_for t / t) (- places_for t).
Proof.
  intros H. unfold weight_from_cents. destruct (Z.eqb_spec c 0) as [E|E]; [done|]. rewrite (proj2 (Z.eqb_neq t 0)) by lia. cbn [orb].
  pose proof (places_for_nonneg t). assert (ndigits c <= ndigits t); [|apply quotient_rounds_down; lia].
  destruct (ndigits_spec c) as (K1 & K2 & K3); [lia|]. destruct (ndigits_spec t) as (K4 & K5 & K6); [lia|].
  apply Z.nlt_ge. intros L. pose proof (pow10Z_mono (ndigits t) (ndigits c - 1) ltac:(lia)). lia.
Qed.

(** ** Exact sums *)

(** The units of [10 ^ - P] in a decimal whose exponent is at least [- P]. *)
Definition units (P : Z) (d : dec) : Z := mant d * 10 ^ (expo d + P).

Lemma units_value P d : 0 <= P -> - P <= expo d -> (value d == inject_Z (units P d) * Qpower 10 (- P))%Q.
Proof.
  intros HP Hd. unfold units. pose proof (value_shift (mant d) (expo d + P) (- P) ltac:(lia)) as H.
  replace (- P + (expo d + P)) with (expo d) in H by lia. destruct d as [m e]. cbn [mant expo] in *. rewrite <- H. done.
Qed.

Lemma add_at_units p P a b : - P <= expo a -> - P <= expo b -> Z.abs (units P a + units P b) < 10 ^ p ->
  - P <= expo (add_at p a b) /\ units P (add_at p a b) = units P a + units P b.
Proof.
  intros Ha Hb. unfold add_at, align, units. set (e := Z.min (expo a) (expo b)). assert (- P <= e <= expo a /\ e <= expo b) by lia.
  replace (expo a + P) with (expo a - e + (e + P)) by lia. replace (expo b + P) with (expo b - e + (e + P)) by lia.
  rewrite !(Z.pow_add_r 10 _ (e + P)) by lia. pose proof (pow10Z_pos (e + P) ltac:(lia)). intros Hs.
  rewrite fix_at_fits; cbn [mant expo]; [split; [lia|ring]|]. nia.
Qed.

Lemma weight_units c t : 0 <= c <= t ->
  - places_for t <= expo (weight_from_cents c t) /\ units (places_for t) (weight_from_cents c t) = c * 10 ^ places_for t / t.
Proof.
  intros H. pose proof (places_for_nonneg t). rewrite weight_from_cents_exact by done. unfold units.
  destruct (Z.eqb_spec c 0) as [->|E]; cbn [dzero mant expo]; [by rewrite Zdiv_0_l; lia|].
  rewrite Z.add_opp_diag_l, Z.pow_0_r. lia.
Qed.

(** Adding up decimals that fit the context. *)
Lemma fold_units_signed {A} p P (f : A -> dec) l acc : (forall x, In x l -> - P <= expo (f x)) -> - P <= expo acc ->
  Z.abs (units P acc) + sumZ (fun x => Z.abs (units P (f x))) l < 10 ^ p ->
  - P <= expo (fold_left (fun acc x => add_at p acc (f x)) l acc)
  /\ units P (fold_left (fun acc x => add_at p acc (f x)) l acc) = units P acc + sumZ (fun x => units P (f x)) l.
Proof.
  revert acc. induction l as [|x l IH]; intros acc Hl Ha Hs; [cbn [fold_left]; unfold sumZ; cbn [fold_right]; lia|].
  rewrite sumZ_cons in *. pose proof (Hl x (or_introl eq_refl)) as Hx.
  assert (0 <= sumZ (fun x => Z.abs (units P (f x))) l) by (apply sumZ_nonneg; intros y Hy; lia).
  destruct (add_at_units p P acc (f x)) as [K1 K2]; [done|done|lia|]. cbn [fold_left].
  destruct (IH (add_at p acc (f x))) as [K3 K4]; [intros y Hy; apply Hl; by right|done|lia|]. split; [done|lia].
Qed.

Lemma fold_units {A} p P (f : A -> dec) l acc : (forall x, In x l -> - P <= expo (f x) /\ 0 <= units P (f x)) ->
  - P <= expo acc -> 0 <= units P acc -> units P acc + sumZ (fun x => units P (f x)) l < 10 ^ p ->
  - P <= expo (fold_left (fun acc x => add_at p acc (f x)) l acc)
  /\ units P (fold_left (fun acc x => add_at p acc (f x)) l acc) = units P acc + sumZ (fun x => units P (f x)) l.
Proof.
  intros Hl Ha H0 Hs. apply fold_units_signed; [intros x Hx; by apply Hl|done|].
  rewrite Z.abs_eq by done. rewrite (sumZ_ext _ (fun x => units P (f x))); [done|]. intros x Hx. by apply Z.abs_eq, Hl.
Qed.
