(* ===== verification/PortfolioFill.v ===== *)
(** * Target portfolios: water filling

    Sums and minima of fractions, the invariant of the filling loop ([filling]), that each turn
    finishes or retires a stock, and that the loop gets stuck only when the checks before it fail. *)

From Stdlib Require Import ZArith QArith Qround Qpower Lqa Lia Bool.
From stdpp Require Import base list strings.
From S2P Require Import Prelude Decimal DecimalEq PortfolioWeights.
Open Scope Z_scope.
Open Scope rq_scope.

(** ** Fractions *)

Lemma qlt_true a b : qlt a b = true <-> (a < b)%Q.
Proof.
  unfold qlt. rewrite negb_true_iff. split; intros H.
  - apply Qnot_le_lt. intros Hle. apply Qle_bool_iff in Hle. congruence.
  - apply not_true_is_false. rewrite Qle_bool_iff. by apply Qlt_not_le.
Qed.

Lemma qlt_false a b : qlt a b = false <-> (b <= a)%Q.
Proof. unfold qlt. by rewrite negb_false_iff, Qle_bool_iff. Qed.

Lemma qle_false a b : Qle_bool a b = false <-> (b < a)%Q.
Proof. rewrite <- qlt_true. unfold qlt. by rewrite negb_true_iff. Qed.

Lemma qmin_l a b : (qmin a b <= a)%Q.
Proof. unfold qmin. destruct (Qle_bool a b) eqn:E; [lra|]. apply qle_false in E. lra. Qed.

Lemma qmin_r a b : (qmin a b <= b)%Q.
Proof. unfold qmin. destruct (Qle_bool a b) eqn:E; [by apply Qle_bool_iff|lra]. Qed.

Lemma qmin_cases a b : qmin a b = a \/ qmin a b = b.
Proof. unfold qmin. destruct (Qle_bool a b); auto. Qed.

Arguments qsum : simpl never.

Section Sums.
Context {A : Type}.
Implicit Types (f g : A -> Q) (l : list A).

Lemma qsum_nil f : (qsum f [] == 0)%Q.
Proof. done. Qed.

Lemma qsum_cons f x l : (qsum f (x :: l) == f x + qsum f l)%Q.
Proof. unfold qsum. cbn [fold_right]. by rewrite Qred_correct. Qed.

Lemma qsum_app f l k : (qsum f (l ++ k) == qsum f l + qsum f k)%Q.
Proof. induction l as [|x l IH]; [cbn [app]; rewrite ?qsum_nil; lra|]. cbn [app]. rewrite !qsum_cons, IH. lra. Qed.

Lemma qsum_ext f g l : (forall x, In x l -> (f x == g x)%Q) -> (qsum f l == qsum g l)%Q.
Proof.
  induction l as [|x l IH]; intros H; [done|]. rewrite !qsum_cons, (H x (or_introl eq_refl)), IH; [done|]. intros y Hy. apply H. by right.
Qed.

Lemma qsum_le f g l : (forall x, In x l -> (f x <= g x)%Q) -> (qsum f l <= qsum g l)%Q.
Proof.
  induction l as [|x l IH]; intros H; [cbn [app]; rewrite ?qsum_nil; lra|]. rewrite !qsum_cons. pose proof (H x (or_introl eq_refl)).
  assert (qsum f l <= qsum g l)%Q by (apply IH; intros y Hy; apply H; by right). lra.
Qed.

Lemma qsum_zero l : (qsum (fun _ => 0) l == 0)%Q.
Proof. induction l as [|x l IH]; [done|]. rewrite qsum_cons, IH. lra. Qed.

Lemma qsum_nonneg f l : (forall x, In x l -> (0 <= f x)%Q) -> (0 <= qsum f l)%Q.
Proof. intros H. rewrite <- (qsum_zero l). by apply qsum_le. Qed.

Lemma qsum_pos f l : l <> [] -> (forall x, In x l -> (0 < f x)%Q) -> (0 < qsum f l)%Q.
Proof.
  destruct l as [|x l]; [done|]. intros _ H. rewrite qsum_cons. pose proof (H x (or_introl eq_refl)).
  assert (0 <= qsum f l)%Q; [|lra]. apply qsum_nonneg. intros y Hy. apply Qlt_le_weak, H. by right.
Qed.

Lemma qsum_plus f g l : (qsum (fun x => f x + g x) l == qsum f l + qsum g l)%Q.
Proof. induction l as [|x l IH]; [cbn [app]; rewrite ?qsum_nil; lra|]. rewrite !qsum_cons, IH. lra. Qed.

Lemma qsum_minus f g l : (qsum (fun x => f x - g x) l == qsum f l - qsum g l)%Q.
Proof. induction l as [|x l IH]; [cbn [app]; rewrite ?qsum_nil; lra|]. rewrite !qsum_cons, IH. lra. Qed.

Lemma qsum_scale a f l : (qsum (fun x => a * f x) l == a * qsum f l)%Q.
Proof. induction l as [|x l IH]; [cbn [app]; rewrite ?qsum_nil; lra|]. rewrite !qsum_cons, IH. lra. Qed.

Lemma qsum_const a l : (qsum (fun _ => a) l == inject_Z (Z.of_nat (length l)) * a)%Q.
Proof.
  induction l as [|x l IH]; [rewrite qsum_nil; change (inject_Z (Z.of_nat (length (@nil A)))) with 0%Q; lra|]. rewrite qsum_cons, IH. cbn [length]. rewrite Nat2Z.inj_succ, <- Z.add_1_l, inject_Z_plus.
  change (inject_Z 1) with 1%Q. ring.
Qed.

(** A sum over a filtered list. *)
Lemma qsum_filter f (p : A -> bool) l : (qsum f (List.filter p l) == qsum (fun x => if p x then f x else 0) l)%Q.
Proof. induction l as [|x l IH]; [done|]. cbn [List.filter]. rewrite qsum_cons. destruct (p x); [rewrite qsum_cons|]; rewrite IH; lra. Qed.

Lemma qsum_filter_le f (p : A -> bool) l : (forall x, In x l -> (0 <= f x)%Q) -> (qsum f (List.filter p l) <= qsum f l)%Q.
Proof. intros H. rewrite qsum_filter. apply qsum_le. intros x Hx. specialize (H x Hx). destruct (p x); lra. Qed.

Lemma qsum_le_in f l x : (forall y, In y l -> (0 <= f y)%Q) -> In x l -> (f x <= qsum f l)%Q.
Proof.
  intros H Hx. apply in_split in Hx as (l1 & l2 & ->). rewrite qsum_app, qsum_cons.
  assert (0 <= qsum f l1)%Q by (apply qsum_nonneg; intros y Hy; apply H, in_app_iff; by left).
  assert (0 <= qsum f l2)%Q by (apply qsum_nonneg; intros y Hy; apply H, in_app_iff; right; by right). lra.
Qed.
End Sums.

Lemma qsum_map {A B} (f : B -> Q) (g : A -> B) l : (qsum f (map g l) == qsum (fun x => f (g x)) l)%Q.
Proof. induction l as [|x l IH]; [done|]. cbn [map]. by rewrite !qsum_cons, IH. Qed.

Lemma in_insert_sorted {A} (before : A -> A -> bool) x y l : In y (insert_sorted before x l) <-> y = x \/ In y l.
Proof. induction l as [|z l IH]; cbn; [naive_solver|]. destruct (before x z); cbn; [naive_solver|]. rewrite IH. naive_solver. Qed.

Lemma in_sort_by {A} (before : A -> A -> bool) x l : In x (sort_by before l) <-> In x l.
Proof. induction l as [|z l IH]; cbn; [done|]. rewrite in_insert_sorted. unfold sort_by in IH. rewrite IH. naive_solver. Qed.

(** A minimum over a list is a bound of every item, and is one of them. *)
Section Minimum.
Context {A : Type} (f : A -> Q).
#[local] Abbreviation least := (fold_left (fun alpha x => qmin alpha (f x))).

Lemma least_start l a : (least l a <= a)%Q.
Proof.
  revert a. induction l as [|x l IH]; intros a; cbn [fold_left]; [lra|]. pose proof (IH (qmin a (f x))). pose proof (qmin_l a (f x)). lra.
Qed.

Lemma least_in l a x : In x l -> (least l a <= f x)%Q.
Proof.
  revert a. induction l as [|y l IH]; intros a Hx; [destruct Hx|]. cbn [fold_left]. destruct Hx as [<-|Hx]; [|by apply IH].
  pose proof (least_start l (qmin a (f y))). pose proof (qmin_r a (f y)). lra.
Qed.

Lemma least_attained l a : least l a = a \/ exists x, In x l /\ least l a = f x.
Proof.
  revert a. induction l as [|y l IH]; intros a; cbn [fold_left]; [by left|].
  destruct (IH (qmin a (f y))) as [E|(x & Hx & E)]; rewrite E; [|right; exists x; split; [by right|done]].
  destruct (qmin_cases a (f y)) as [->| ->]; [by left|right; exists y; split; [by left|done]].
Qed.
End Minimum.

Lemma in_distinct {A} `{EqDecision A} (l : list A) x : In x (distinct l) <-> In x l.
Proof.
  induction l as [|y l IH]; [done|]. cbn [distinct]. destruct (decide (y ∈ l)) as [K|K]; cbn [In]; rewrite IH; [|done].
  rewrite list_elem_of_In in K. split; [auto|]. by intros [<-|]; auto.
Qed.

Lemma nodup_distinct {A} `{EqDecision A} (l : list A) : NoDup (distinct l).
Proof.
  induction l as [|y l IH]; cbn [distinct]; [constructor|]. destruct (decide (y ∈ l)) as [K|K]; [done|]. constructor; [|done].
  rewrite list_elem_of_In, in_distinct, <- list_elem_of_In. done.
Qed.

Lemma filter_filter {A} (p q : A -> bool) l : List.filter p (List.filter q l) = List.filter (fun x => q x && p x) l.
Proof. induction l as [|x l IH]; [done|]. cbn [List.filter]. destruct (q x); cbn [List.filter andb]; [destruct (p x)|]; by rewrite IH. Qed.

Lemma filter_shrinks {A} (p : A -> bool) l x : In x l -> p x = false -> (length (List.filter p l) < length l)%nat.
Proof.
  induction l as [|y l IH]; intros Hx E; [destruct Hx|]. cbn [List.filter length]. destruct Hx as [->|Hx].
  - rewrite E. pose proof (filter_length_le p l). lia.
  - specialize (IH Hx E). destruct (p y); cbn [length]; lia.
Qed.

Lemma qdiv_pos a b : (0 < a)%Q -> (0 < b)%Q -> (0 < Qred (a / b))%Q.
Proof. intros Ha Hb. rewrite Qred_correct. apply Qlt_shift_div_l; [done|]. lra. Qed.

Lemma qdiv_le x a b : (0 < b)%Q -> (x <= Qred (a / b))%Q -> (x * b <= a)%Q.
Proof.
  intros Hb. rewrite Qred_correct. intros H. apply (Qmult_le_r _ _ b) in H; [|done].
  rewrite <- (Qmult_div_r a b), (Qmult_comm b); [done|lra].
Qed.

Lemma qdiv_eq a b : (0 < b)%Q -> (Qred (a / b) * b == a)%Q.
Proof. intros Hb. rewrite Qred_correct, Qmult_comm. apply Qmult_div_r. lra. Qed.

(** ** Water filling *)

Section Filling.
Variables (ranked : list PortfolioCandidate) (rule : PortfolioWeightRule) (indexes : list nat).

#[local] Abbreviation grp := (group ranked).
#[local] Abbreviation sc := (score ranked rule).
#[local] Abbreviation cap := (stock_cap rule).
#[local] Abbreviation used := (group_used ranked indexes).

(** A stock that takes no more: its own limit is reached or its industry's is. *)
Definition full (a : nat -> Q) (i : nat) : Prop :=
  (cap <= a i)%Q \/ exists c, industry_cap rule = Some c /\ (c <= used a (grp i))%Q.

(** The invariant of the loop. *)
Record filling (target : Q) (active : list nat) (a : nat -> Q) (remaining : Q) : Prop := {
  fi_active : exists q, active = List.filter q indexes;
  fi_score : forall i, In i active -> (0 < sc i)%Q;
  fi_share : forall i, In i indexes -> (0 <= a i <= cap)%Q;
  fi_room : forall i, In i active -> ~ full a i;
  fi_group : forall c g, industry_cap rule = Some c -> (used a g <= c)%Q;
  fi_sum : (qsum a indexes + remaining == target)%Q;
  fi_left : (0 <= remaining)%Q;
  fi_stuck : forall i, In i indexes -> (0 < sc i)%Q -> ~ In i active -> full a i;
  fi_zero : forall i, In i indexes -> (sc i <= 0)%Q -> (a i == 0)%Q
}.

Lemma active_in (q : nat -> bool) (active : list nat) i : active = List.filter q indexes -> In i active -> In i indexes.
Proof. intros -> K. by apply filter_In in K as [K _]. Qed.

(** Raising the active shares raises a sum by the step times the active scores in it. *)
Lemma raise_sum (p q : nat -> bool) active a alpha :
  active = List.filter q indexes ->
  (qsum (raise_shares ranked rule active a alpha) (List.filter p indexes)
   == qsum a (List.filter p indexes) + alpha * qsum sc (List.filter p active))%Q.
Proof.
  intros E. rewrite E, filter_filter, <- qsum_scale, !qsum_filter, <- qsum_plus. apply qsum_ext. intros i Hi. cbn beta.
  unfold raise_shares. destruct (p i); rewrite ?andb_true_r, ?andb_false_r; [|lra].
  destruct (q i) eqn:Eq.
  - rewrite bool_decide_true; [by rewrite Qred_correct|]. by rewrite list_elem_of_In, filter_In.
  - rewrite bool_decide_false; [lra|]. rewrite list_elem_of_In, filter_In. intros [_ K]. congruence.
Qed.

Lemma filter_all {A} (l : list A) : List.filter (fun _ => true) l = l.
Proof. induction l as [|x l IH]; [done|]. cbn. by rewrite IH. Qed.

Lemma raise_total (q : nat -> bool) active a alpha :
  active = List.filter q indexes ->
  (qsum (raise_shares ranked rule active a alpha) indexes == qsum a indexes + alpha * qsum sc active)%Q.
Proof. intros E. pose proof (raise_sum (fun _ => true) q active a alpha E) as H. by rewrite !filter_all in H. Qed.

Lemma raise_used (q : nat -> bool) active a alpha g :
  active = List.filter q indexes ->
  (used (raise_shares ranked rule active a alpha) g
   == used a g + alpha * qsum sc (List.filter (in_group ranked g) active))%Q.
Proof. intros E. by apply (raise_sum (in_group ranked g) q). Qed.

Lemma raised active a alpha i : In i active -> (raise_shares ranked rule active a alpha i == a i + alpha * sc i)%Q.
Proof. intros K. unfold raise_shares. rewrite bool_decide_true; [by rewrite Qred_correct|by rewrite list_elem_of_In]. Qed.

Lemma not_raised active a alpha i : ~ In i active -> raise_shares ranked rule active a alpha i = a i.
Proof. intros K. unfold raise_shares. by rewrite bool_decide_false by by rewrite list_elem_of_In. Qed.

(** *** The size of a step *)

Section Step.
Variables (target remaining : Q) (active : list nat) (a : nat -> Q).
Hypothesis (inv : filling target active a remaining) (nonempty_active : active <> []) (some_left : (0 < remaining)%Q).

#[local] Abbreviation alpha := (step_size ranked rule indexes active a remaining).

Lemma active_score : (0 < qsum sc active)%Q.
Proof. apply qsum_pos; [done|]. apply (fi_score _ _ _ _ inv). Qed.

Lemma group_score i : In i active -> (0 < qsum sc (List.filter (in_group ranked (grp i)) active))%Q.
Proof.
  intros Hi. apply qsum_pos.
  - intros E. apply (in_nil (a := i)). rewrite <- E, filter_In. split; [done|]. unfold in_group. by apply bool_decide_true.
  - intros j Hj. apply filter_In in Hj as [Hj _]. by apply (fi_score _ _ _ _ inv).
Qed.

Definition own_step : Q :=
  fold_left (fun alpha i => qmin alpha (Qred ((cap - a i) / sc i))) active (Qred (remaining / qsum sc active)).

Lemma step_size_unfold : alpha = match industry_cap rule with
  | None => own_step
  | Some c => fold_left (fun alpha g => qmin alpha (group_room ranked rule indexes active a c g)) (distinct (map grp active)) own_step
  end.
Proof. done. Qed.

Lemma step_le_own : (alpha <= own_step)%Q.
Proof. rewrite step_size_unfold. destruct (industry_cap rule); [apply least_start|lra]. Qed.

Lemma step_left : (alpha * qsum sc active <= remaining)%Q.
Proof. apply qdiv_le; [apply active_score|]. eapply Qle_trans; [apply step_le_own|]. apply least_start. Qed.

Lemma step_stock i : In i active -> (a i + alpha * sc i <= cap)%Q.
Proof.
  intros Hi. assert (alpha * sc i <= cap - a i)%Q; [|lra]. apply qdiv_le; [by apply (fi_score _ _ _ _ inv)|].
  eapply Qle_trans; [apply step_le_own|]. by apply (least_in (fun i => Qred ((cap - a i) / sc i))).
Qed.

Lemma step_group c i : industry_cap rule = Some c -> In i active ->
  (used a (grp i) + alpha * qsum sc (List.filter (in_group ranked (grp i)) active) <= c)%Q.
Proof.
  intros Ec Hi. assert (alpha * qsum sc (List.filter (in_group ranked (grp i)) active) <= c - used a (grp i))%Q; [|lra].
  apply qdiv_le; [by apply group_score|]. rewrite step_size_unfold, Ec.
  apply (least_in (group_room ranked rule indexes active a c)). by apply in_distinct, in_map.
Qed.

(** The step is the whole remainder, or fills some active stock or its industry. *)
Lemma step_attained :
  (alpha * qsum sc active == remaining)%Q \/ exists i, In i active /\
    ((a i + alpha * sc i == cap)%Q
     \/ exists c, industry_cap rule = Some c /\
          (used a (grp i) + alpha * qsum sc (List.filter (in_group ranked (grp i)) active) == c)%Q).
Proof.
  assert (Hown : alpha = own_step -> (alpha * qsum sc active == remaining)%Q \/ exists i, In i active /\ (a i + alpha * sc i == cap)%Q).
  { intros ->. destruct (least_attained (fun i => Qred ((cap - a i) / sc i)) active (Qred (remaining / qsum sc active))) as [E|(i & Hi & E)].
    - left. unfold own_step. rewrite E. apply qdiv_eq, active_score.
    - right. exists i. split; [done|]. unfold own_step. rewrite E, qdiv_eq; [lra|]. by apply (fi_score _ _ _ _ inv). }
  pose proof step_size_unfold as U. destruct (industry_cap rule) as [c|] eqn:Ec.
  - destruct (least_attained (group_room ranked rule indexes active a c) (distinct (map grp active)) own_step) as [E|(g & Hg & E)].
    + rewrite E in U. destruct (Hown U) as [K|(i & Hi & K)]; [by left|]. right. exists i. by eauto.
    + right. apply in_distinct, in_map_iff in Hg as (i & <- & Hi). exists i. split; [done|]. right. exists c. split; [done|].
      rewrite U, E. unfold group_room. rewrite qdiv_eq; [lra|]. by apply group_score.
  - destruct (Hown U) as [K|(i & Hi & K)]; [by left|]. right. exists i. by eauto.
Qed.

Lemma step_positive : (0 < alpha)%Q.
Proof.
  assert (H : (0 < own_step)%Q).
  { unfold own_step. destruct (least_attained (fun i => Qred ((cap - a i) / sc i)) active (Qred (remaining / qsum sc active))) as [E|(i & Hi & E)];
      rewrite E; apply qdiv_pos; [done|apply active_score| |by apply (fi_score _ _ _ _ inv)].
    pose proof (fi_room _ _ _ _ inv i Hi) as K. apply Qnot_le_lt. intros L. apply K. left. lra. }
  rewrite step_size_unfold. destruct (industry_cap rule) as [c|] eqn:Ec; [|done].
  destruct (least_attained (group_room ranked rule indexes active a c) (distinct (map grp active)) own_step) as [E|(g & Hg & E)];
    rewrite E; [done|]. apply in_distinct, in_map_iff in Hg as (i & <- & Hi). apply qdiv_pos; [|by apply group_score].
  pose proof (fi_room _ _ _ _ inv i Hi) as K. apply Qnot_le_lt. intros L. apply K. right. exists c. split; [done|lra].
Qed.
End Step.

(** *** One step keeps the invariant and retires a stock *)

Definition takes_more (a : nat -> Q) (i : nat) : bool :=
  qlt (a i) cap && match industry_cap rule with None => true | Some c => qlt (used a (grp i)) c end.

Lemma takes_more_spec a i : takes_more a i = true <-> ~ full a i.
Proof.
  unfold takes_more, full. destruct (industry_cap rule) as [c|]; rewrite ?andb_true_iff, ?qlt_true.
  - split; [intros [K1 K2] [K|(c' & Ec & K)]; [lra|]; injection Ec as <-; lra|].
    intros K. split; apply Qnot_le_lt; intros L; apply K; [by left|right; by exists c].
  - split; [intros [K1 _] [K|(c' & Ec & _)]; [lra|done]|]. intros K. split; [|done]. apply Qnot_le_lt. intros L. apply K. by left.
Qed.

Lemma takes_more_full a i : takes_more a i = false <-> full a i.
Proof.
  split; intros K.
  - unfold takes_more, full in *. destruct (industry_cap rule) as [c|]; [apply andb_false_iff in K as [K|K]|rewrite andb_true_r in K];
      apply qlt_false in K; [by left|right; by exists c|by left].
  - apply not_true_is_false. rewrite takes_more_spec. auto.
Qed.

Lemma still_active_filter active a : still_active ranked rule indexes active a = List.filter (takes_more a) active.
Proof.
  unfold still_active, takes_more. destruct (industry_cap rule); [by rewrite filter_filter|]. apply filter_ext. intros i. by rewrite andb_true_r.
Qed.

Section OneStep.
Variables (target remaining : Q) (active : list nat) (a : nat -> Q).
Hypothesis (inv : filling target active a remaining) (nonempty_active : active <> []) (some_left : (0 < remaining)%Q).

#[local] Abbreviation alpha := (step_size ranked rule indexes active a remaining).
#[local] Abbreviation a' := (raise_shares ranked rule active a alpha).

Lemma raise_grows i : (a i <= a' i)%Q.
Proof.
  destruct (in_dec Nat.eq_dec i active) as [K|K]; [|rewrite not_raised by done; lra]. rewrite raised by done.
  assert (0 <= alpha * sc i)%Q; [|lra]. apply Qmult_le_0_compat; apply Qlt_le_weak; [by eapply step_positive|by eapply fi_score].
Qed.

Lemma used_grows g : (used a g <= used a' g)%Q.
Proof. apply qsum_le. intros i _. apply raise_grows. Qed.

Lemma full_stays i : full a i -> full a' i.
Proof.
  intros [K|(c & Ec & K)]; [left; pose proof (raise_grows i); lra|]. right. exists c. split; [done|]. pose proof (used_grows (grp i)). lra.
Qed.

Lemma empty_group g : ~ In g (map grp active) -> List.filter (in_group ranked g) active = [].
Proof.
  intros K. destruct (List.filter (in_group ranked g) active) as [|i l] eqn:E; [done|]. destruct K.
  assert (Hi : In i (List.filter (in_group ranked g) active)) by (rewrite E; by left). apply filter_In in Hi as [Hi Hg].
  apply bool_decide_eq_true in Hg. rewrite <- Hg. by apply in_map.
Qed.

Lemma filling_step : filling target (still_active ranked rule indexes active a') a' (Qred (remaining - alpha * qsum sc active)).
Proof.
  destruct (fi_active _ _ _ _ inv) as [q Eq]. rewrite still_active_filter. constructor.
  - exists (fun i => q i && takes_more a' i). by rewrite <- filter_filter, <- Eq.
  - intros i Hi. apply filter_In in Hi as [Hi _]. by eapply fi_score.
  - intros i Hi. pose proof (fi_share _ _ _ _ inv i Hi). pose proof (raise_grows i). split; [lra|].
    destruct (in_dec Nat.eq_dec i active) as [K|K]; [|rewrite not_raised by done; lra]. rewrite raised by done. by eapply step_stock.
  - intros i Hi. apply filter_In in Hi as [_ Hi]. by apply takes_more_spec.
  - intros c g Ec. rewrite (raise_used q) by done. destruct (in_dec (fun x y => decide (x = y)) g (map grp active)) as [K|K].
    + apply in_map_iff in K as (i & <- & Hi). by eapply step_group.
    + rewrite empty_group, qsum_nil by done. pose proof (fi_group _ _ _ _ inv c g Ec). lra.
  - rewrite (raise_total q), Qred_correct by done. rewrite <- (fi_sum _ _ _ _ inv). lra.
  - rewrite Qred_correct. pose proof (step_left _ _ _ _ inv nonempty_active). lra.
  - intros i Hi Hs Hn. destruct (in_dec Nat.eq_dec i active) as [K|K]; [|by apply full_stays, (fi_stuck _ _ _ _ inv)].
    destruct (takes_more a' i) eqn:E; [destruct Hn; by apply filter_In|by apply takes_more_full].
  - intros i Hi Hs. rewrite not_raised; [by eapply fi_zero|]. intros K. pose proof (fi_score _ _ _ _ inv i K). lra.
Qed.

Lemma step_retires : ~ (remaining - alpha * qsum sc active == 0)%Q ->
  (length (still_active ranked rule indexes active a') < length active)%nat.
Proof.
  intros Hr. destruct (fi_active _ _ _ _ inv) as [q Eq]. destruct (step_attained _ _ _ _ inv nonempty_active) as [K|(i & Hi & K)]; [destruct Hr; lra|].
  rewrite still_active_filter. apply (filter_shrinks _ _ i Hi). apply takes_more_full.
  destruct K as [K|(c & Ec & K)]; [left; rewrite raised by done; lra|]. right. exists c. split; [done|]. rewrite (raise_used q) by done. lra.
Qed.
End OneStep.

(** *** The loop *)

(** With a turn for each active stock and one more, the loop fills the target, or every stock that may take a share is full. *)
Lemma fill_loop_spec fuel target active a remaining :
  filling target active a remaining -> (length active < fuel)%nat ->
  (exists b active', fill_loop ranked rule fuel indexes active a remaining = Ok b /\ filling target active' b 0)
  \/ (exists b rest, filling target [] b rest /\ (0 < rest)%Q
        /\ fill_loop ranked rule fuel indexes active a remaining = impossible "候选可分配上限不足以达到投资目标").
Proof.
  revert active a remaining. induction fuel as [|fuel IH]; intros active a remaining inv Hf; [lia|]. cbn [fill_loop].
  destruct (qlt 0 remaining) eqn:El; cbn [negb].
  2: { left. apply qlt_false in El. exists a, active. split; [done|]. destruct inv. constructor; auto; [|lra]. rewrite <- fi_sum0. lra. }
  apply qlt_true in El. destruct active as [|i0 l] eqn:Ea; [right; exists a, remaining; done|]. rewrite <- Ea in *.
  assert (Hne : active <> []) by (by rewrite Ea).
  destruct (Qle_bool _ 0) eqn:Ep; [apply Qle_bool_iff in Ep; pose proof (step_positive _ _ _ _ inv Hne El); lra|].
  pose proof (filling_step _ _ _ _ inv Hne El) as inv'.
  destruct (Qeq_bool (Qred (remaining - step_size ranked rule indexes active a remaining * qsum sc active)) 0) eqn:E0.
  - left. apply Qeq_bool_iff in E0. eexists _, _. split; [done|]. destruct inv'. econstructor; eauto; [|lra]. rewrite <- fi_sum0, E0. done.
  - apply IH; [done|]. apply Qeq_bool_neq in E0. rewrite Qred_correct in E0. pose proof (step_retires _ _ _ _ inv Hne E0). lia.
Qed.

(** *** The checks before the loop *)

#[local] Abbreviation scored := (List.filter (fun i => qlt 0 (sc i)) indexes).

(** What the checks establish. *)
Definition admits (target : Q) : Prop :=
  scored <> [] /\ (target <= inject_Z (Z.of_nat (length scored)) * cap)%Q
  /\ forall c, industry_cap rule = Some c -> (target <= industry_room ranked rule scored c)%Q.

Lemma keyed_sums_eq {K} `{EqDecision K} (key : nat -> K) (a : nat -> Q) (keys : list K) (l : list nat) : NoDup keys ->
  (qsum (fun k => qsum a (List.filter (fun i => bool_decide (key i = k)) l)) keys
   == qsum a (List.filter (fun i => bool_decide (key i ∈ keys)) l))%Q.
Proof.
  intros Hn. induction Hn as [|k keys Hk Hn IH].
  - rewrite qsum_nil, qsum_filter. symmetry. apply qsum_zero.
  - rewrite qsum_cons, IH, !qsum_filter, <- qsum_plus. apply qsum_ext. intros i _. cbn beta.
    destruct (decide (key i = k)) as [<-|Hne].
    + rewrite (bool_decide_true (key i = key i)), (bool_decide_false (key i ∈ keys)), bool_decide_true by (done || by left). lra.
    + rewrite (bool_decide_false (key i = k)) by done.
      assert (bool_decide (key i ∈ k :: keys) = bool_decide (key i ∈ keys)) as ->; [apply bool_decide_ext; rewrite elem_of_cons; tauto|]. lra.
Qed.

Lemma keyed_sums {K} `{EqDecision K} (key : nat -> K) (a : nat -> Q) (keys : list K) (l : list nat) :
  NoDup keys -> (forall i, In i l -> (0 <= a i)%Q) ->
  (qsum (fun k => qsum a (List.filter (fun i => bool_decide (key i = k)) l)) keys <= qsum a l)%Q.
Proof. intros Hn Ha. rewrite (keyed_sums_eq key a keys l Hn). by apply qsum_filter_le. Qed.

Lemma key_of_group i j : grp i = grp j -> industry_key ranked i = industry_key ranked j.
Proof. unfold industry_key. by intros ->. Qed.

(** The industry of a full stock holds as much as the check counted for it. *)
Lemma full_key (a : nat -> Q) c i : industry_cap rule = Some c ->
  (forall j, In j indexes -> (0 <= a j)%Q) -> (forall j, In j scored -> full a j) -> In i scored ->
  (qmin (Qred (inject_Z (Z.of_nat (length (List.filter (fun j => eqs (industry_key ranked j) (industry_key ranked i)) scored))) * cap)) c
   <= qsum a (List.filter (fun j => bool_decide (industry_key ranked j = industry_key ranked i)) indexes))%Q.
Proof.
  intros Ec Ha Hfull Hi. set (mine := fun j => bool_decide (industry_key ranked j = industry_key ranked i)).
  destruct (existsb (fun j => mine j && Qle_bool c (used a (grp j))) scored) eqn:Ex.
  - apply existsb_exists in Ex as (j & Hj & K). apply andb_true_iff in K as [Kj K]. apply Qle_bool_iff in K.
    apply bool_decide_eq_true in Kj. eapply Qle_trans; [apply qmin_r|]. eapply Qle_trans; [exact K|].
    unfold group_used. rewrite !qsum_filter. apply qsum_le. intros k Hk. specialize (Ha k Hk). unfold in_group.
    destruct (bool_decide (grp k = grp j)) eqn:Eg; [|destruct (mine k); lra]. apply bool_decide_eq_true, key_of_group in Eg.
    unfold mine. rewrite bool_decide_true by congruence. lra.
  - eapply Qle_trans; [apply qmin_l|]. rewrite Qred_correct, <- qsum_const, filter_filter, !qsum_filter. apply qsum_le. intros j Hj.
    specialize (Ha j Hj). destruct (qlt 0 (sc j)) eqn:Es; cbn [andb]; [|destruct (mine j); lra].
    assert (eqs (industry_key ranked j) (industry_key ranked i) = mine j) as -> by done. destruct (mine j) eqn:Em; [|lra].
    assert (Hs : In j scored) by (by apply filter_In). destruct (Hfull j Hs) as [K|(c' & Ec' & K)]; [done|].
    assert (c' = c) as -> by congruence. exfalso. apply Bool.not_true_iff_false in Ex. apply Ex, existsb_exists.
    exists j. split; [done|]. rewrite Em. by apply Qle_bool_iff.
Qed.

(** No stock that may take more is left only when the whole target is placed. *)
Lemma stuck_is_done target b rest : filling target [] b rest -> admits target -> (rest <= 0)%Q.
Proof.
  intros inv (_ & Hcap & Hind). assert (Hfull : forall j, In j scored -> full b j).
  { intros j Hj. apply filter_In in Hj as [Hj Hs]. apply qlt_true in Hs. eapply fi_stuck; eauto. }
  assert (Hpos : forall j, In j indexes -> (0 <= b j)%Q) by (intros j Hj; by apply (fi_share _ _ _ _ inv)).
  pose proof (fi_sum _ _ _ _ inv) as Hsum. assert (target <= qsum b indexes)%Q; [|lra].
  destruct (industry_cap rule) as [c|] eqn:Ec.
  - eapply Qle_trans; [by apply Hind|]. unfold industry_room.
    eapply Qle_trans; [|apply (keyed_sums (industry_key ranked) b (distinct (map (industry_key ranked) scored))); [apply nodup_distinct|done]].
    apply qsum_le. intros k Hk. apply in_distinct, in_map_iff in Hk as (i & <- & Hi). by apply full_key.
  - eapply Qle_trans; [exact Hcap|]. rewrite <- qsum_const. eapply Qle_trans; [|apply (qsum_filter_le b (fun i => qlt 0 (sc i))); done].
    apply qsum_le. intros i Hi. destruct (Hfull i Hi) as [K|(c & Ec' & _)]; [done|congruence].
Qed.

(** ** What the limits allow

    A way to share out the target: nobody over the stock limit, nothing for a score of zero, no industry
    over its limit, the whole target placed. *)
Definition share_out (target : Q) (x : nat -> Q) : Prop :=
  (forall i, In i indexes -> (0 <= x i <= value (wr_max_stock_weight rule))%Q)
  /\ (forall i, In i indexes -> (sc i <= 0)%Q -> (x i == 0)%Q)
  /\ (forall w g, wr_max_industry_weight rule = Some w ->
        (qsum x (List.filter (fun i => bool_decide (pc_industry_l1 (candidate ranked i) = g)) indexes) <= value w)%Q)
  /\ (qsum x indexes == target)%Q.

(** Under an industry limit every stock names its industry. *)
Definition industries_named : Prop := is_Some (wr_max_industry_weight rule) ->
  forall i, In i indexes -> exists g, g <> "" /\ pc_industry_l1 (candidate ranked i) = Some g.

(** Keys that occur nowhere in a list add nothing, keys that cover it add up to the whole. *)
Lemma keyed_sums_whole {K} `{EqDecision K} (key : nat -> K) (a : nat -> Q) (l : list nat) :
  (qsum (fun k => qsum a (List.filter (fun i => bool_decide (key i = k)) l)) (distinct (map key l)) == qsum a l)%Q.
Proof.
  assert (Hc : forall i, In i l -> key i ∈ distinct (map key l)) by (intros i Hi; apply list_elem_of_In, in_distinct; by apply in_map).
  pose proof (nodup_distinct (map key l)) as Hn. revert Hc Hn. generalize (distinct (map key l)) as keys. intros keys Hc Hn.
  rewrite (keyed_sums_eq key a keys l Hn), qsum_filter. apply qsum_ext. intros i Hi. by rewrite bool_decide_true by auto.
Qed.

Lemma share_out_scored target x : share_out target x -> (target == qsum x scored)%Q.
Proof.
  intros (_ & Hz & _ & <-). rewrite qsum_filter. apply qsum_ext. intros i Hi.
  destruct (qlt 0 (sc i)) eqn:E; [done|]. apply qlt_false in E. by apply Hz.
Qed.

(** A way to share out the target passes the checks. *)
Lemma share_out_admits target x : industries_named -> scored <> [] -> share_out target x -> admits target.
Proof.
  intros Hnm Hne Hx. pose proof (share_out_scored _ _ Hx) as Et. destruct Hx as (Hcap & Hz & Hind & _).
  assert (Hin : forall i, In i scored -> In i indexes) by (intros i Hi; by apply filter_In in Hi as [? _]).
  assert (Hsub : forall l, (forall i, In i l -> In i scored) -> (qsum x l <= inject_Z (Z.of_nat (length l)) * cap)%Q).
  { intros l Hl. rewrite <- qsum_const. apply qsum_le. intros i Hi. by apply Hcap, Hin, Hl. }
  split_and!; [done|rewrite Et; by apply Hsub|]. unfold industry_cap. intros c Ec.
  destruct (wr_max_industry_weight rule) as [w|] eqn:Ew; [|done]. injection Ec as <-. unfold industry_room.
  rewrite Et, <- (keyed_sums_whole (industry_key ranked) x scored). apply qsum_le. intros k Hk.
  apply in_distinct, in_map_iff in Hk as (i & <- & Hi).
  destruct (qmin_cases (Qred (inject_Z (Z.of_nat (length (List.filter (fun j => eqs (industry_key ranked j) (industry_key ranked i)) scored))) * cap)) (value w)) as [-> | ->].
  - rewrite Qred_correct. apply Hsub. intros j Hj. by apply filter_In in Hj as [? _].
  - eapply Qle_trans; [|by apply (Hind w (grp i))]. rewrite filter_filter, !qsum_filter. apply qsum_le. intros j Hj.
    destruct (qlt 0 (sc j)) eqn:Es; cbn [andb]; [|destruct (bool_decide _); [apply Hcap, Hj|lra]].
    destruct (Hnm (ex_intro _ w Ew) i (Hin i Hi)) as (g & _ & Eg). destruct (Hnm (ex_intro _ w Ew) j Hj) as (h & _ & Eh).
    unfold industry_key, group. rewrite Eg, Eh. cbn [from_option id].
    assert (bool_decide (Some h = Some g) = bool_decide (h = g)) as -> by (apply bool_decide_ext; split; congruence).
    destruct (decide (h = g)); [rewrite !bool_decide_true by done|rewrite !bool_decide_false by done]; lra.
Qed.

(** What [continuous_allocation] returns. *)
Definition placed (target : Q) (b : nat -> Q) : Prop :=
  (forall i, In i indexes -> (0 <= b i <= cap)%Q)
  /\ (forall c g, industry_cap rule = Some c -> (used b g <= c)%Q)
  /\ (qsum b indexes == target)%Q.

Lemma share_out_placed target b : share_out target b -> placed target b.
Proof.
  intros (Hc & _ & Hi & Hs). split_and!; [done| |done]. unfold industry_cap. intros c g Ec.
  destruct (wr_max_industry_weight rule) as [w|]; [|done]. injection Ec as <-. by apply Hi.
Qed.
End Filling.

(** ** Validated rules *)

Definition valid_rule (rule : PortfolioWeightRule) : Prop := mk_rule rule = Ok rule.

Lemma valid_rule_facts rule : valid_rule rule ->
  (0 < wr_max_positions rule)%Z /\ (0 < stock_cap rule <= 1)%Q
  /\ (forall c, industry_cap rule = Some c -> (0 < c <= 1)%Q)
  /\ (0 <= value (wr_cash_reserve rule) <= 1)%Q /\ (0 <= value (wr_min_target_amount rule))%Q
  /\ whole_cents (wr_min_target_amount rule) = true.
Proof.
  unfold valid_rule, mk_rule. destruct (_ && _) eqn:E in |- *; [|done]. cbn [negb]. destruct (whole_cents _) eqn:Ew; [|done]. intros _.
  repeat (apply andb_true_iff in E as [E ?K]). rewrite dltb_lt in *. rewrite dleb_le in *. apply Z.ltb_lt in E.
  assert (Z0 : (value dzero == 0)%Q) by done. assert (Z1 : (value done_ == 1)%Q) by done. rewrite ?Z0, ?Z1 in *.
  unfold stock_cap. split_and!; try done. unfold industry_cap. intros c Ec. destruct (wr_max_industry_weight rule) as [w|]; [|done].
  injection Ec as <-. cbn [opt_ok] in K2. apply andb_true_iff in K2 as [K5 K6]. rewrite dltb_lt in K5. rewrite dleb_le in K6. rewrite Z0 in K5. rewrite Z1 in K6. done.
Qed.

(** ** Continuous allocation *)

Section Continuous.
Variables (ranked : list PortfolioCandidate) (rule : PortfolioWeightRule) (indexes : list nat) (target : Q).
Hypothesis (valid : valid_rule rule) (target_nonneg : (0 <= target)%Q).

#[local] Abbreviation scored := (List.filter (fun i => qlt 0 (score ranked rule i)) indexes).

Lemma filling_start : filling ranked rule indexes target scored (fun _ => 0%Q) target.
Proof.
  destruct (valid_rule_facts _ valid) as (_ & [Hc _] & Hi & _).
  assert (Hu : forall g, (group_used ranked indexes (fun _ => 0) g == 0)%Q) by (intros g; apply qsum_zero). constructor.
  - by exists (fun i => qlt 0 (score ranked rule i)).
  - intros i K. apply filter_In in K as [_ K]. by apply qlt_true.
  - intros i _. lra.
  - intros i _ [K|(c & Ec & K)]; [lra|]. specialize (Hi c Ec). rewrite Hu in K. lra.
  - intros c g Ec. specialize (Hi c Ec). rewrite Hu. lra.
  - rewrite qsum_zero. lra.
  - done.
  - intros i K Hs Hn. destruct Hn. apply filter_In. split; [done|]. by apply qlt_true.
  - done.
Qed.

(** The allocation succeeds when the limits admit the target. *)
Lemma continuous_allocation_admits : admits ranked rule indexes target ->
  exists b, continuous_allocation ranked rule indexes target = Ok b /\ share_out ranked rule indexes target b.
Proof.
  intros Ha. unfold continuous_allocation. destruct (Ha) as (Hne & Hcap & Hind). rewrite bool_decide_false by done.
  rewrite (proj2 (qlt_false _ _) Hcap).
  assert (match industry_cap rule with None => false | Some c => qlt (industry_room ranked rule scored c) target end = false) as ->.
  { destruct (industry_cap rule) as [c|]; [|done]. by apply qlt_false, Hind. }
  destruct (fill_loop_spec ranked rule indexes (S (length scored)) target scored (fun _ => 0%Q) target filling_start) as
    [(b & act & E & inv)|(b & rest & inv & Hr & _)]; [lia| |pose proof (stuck_is_done _ _ _ _ _ _ inv Ha); lra].
  exists b. split; [done|]. destruct inv. split_and!; auto; [|rewrite <- fi_sum0; lra].
  intros w g Ew. apply fi_group0. unfold industry_cap. by rewrite Ew.
Qed.

(** It fails in its checks when they do not. *)
Lemma continuous_allocation_refuses : ~ admits ranked rule indexes target ->
  exists message, continuous_allocation ranked rule indexes target = impossible message.
Proof.
  intros Ha. unfold continuous_allocation. destruct (bool_decide (scored = [])) eqn:E1; [by eexists|]. apply bool_decide_eq_false in E1.
  destruct (qlt (_ * _) target) eqn:E2; [by eexists|]. apply qlt_false in E2.
  destruct (match industry_cap rule with None => false | Some c => qlt (industry_room ranked rule scored c) target end) eqn:E3; [by eexists|].
  destruct Ha. split_and!; [done|done|]. intros c Ec. rewrite Ec in E3. by apply qlt_false.
Qed.

Lemma admits_dec : {admits ranked rule indexes target} + {~ admits ranked rule indexes target}.
Proof.
  unfold admits. destruct (decide (scored = [])) as [E|E]; [right; by intros [K _]|].
  destruct (Qlt_le_dec (inject_Z (Z.of_nat (length scored)) * stock_cap rule) target) as [L|L]; [right; intros (_ & K & _); lra|].
  destruct (industry_cap rule) as [c|]; [|left; by split_and!].
  destruct (Qlt_le_dec (industry_room ranked rule scored c) target) as [M|M].
  - right. intros (_ & _ & K). specialize (K c eq_refl). lra.
  - left. split_and!; [done|done|]. by intros ? [= <-].
Qed.

Lemma continuous_allocation_cases :
  (exists b, continuous_allocation ranked rule indexes target = Ok b /\ placed ranked rule indexes target b)
  \/ (exists message, continuous_allocation ranked rule indexes target = impossible message).
Proof.
  destruct admits_dec as [K|K]; [left|right; by apply continuous_allocation_refuses].
  destruct (continuous_allocation_admits K) as (b & E & Hb). exists b. split; [done|by apply share_out_placed].
Qed.
End Continuous.
