(* ===== verification/PortfolioThms.v ===== *)
(** * Target portfolios: cents, dropped stocks and the returned portfolio

    The invariants of the cent loop and of the drop loop, what the returned portfolio satisfies, and
    the theorems about [allocate_target_weights]. *)

From Stdlib Require Import ZArith QArith Qround Qpower Lqa Lia Bool.
From stdpp Require Import base list strings.
From S2P Require Import Prelude Decimal DecimalEq PortfolioWeights PortfolioNumbers PortfolioFill.
Open Scope Z_scope.
Open Scope rq_scope.

(** ** Rounding to cents *)

Lemma zsum_add_cent amounts i l : NoDup l ->
  zsum (add_cent amounts i) l = zsum amounts l + (if in_dec Nat.eq_dec i l then 1 else 0).
Proof.
  unfold zsum. induction 1 as [|x l Hx Hn IH]; [done|]. rewrite !sumZ_cons, IH. unfold add_cent at 1.
  rewrite list_elem_of_In in Hx. destruct (Nat.eqb_spec x i) as [->|Hne].
  - destruct (in_dec Nat.eq_dec i l), (in_dec Nat.eq_dec i (i :: l)) as [|K]; try done; [lia|]. destruct K. by left.
  - destruct (in_dec Nat.eq_dec i l) as [K|K], (in_dec Nat.eq_dec i (x :: l)) as [K'|K']; try lia; [destruct K'; by right|].
    destruct K' as [|K']; [done|done].
Qed.

Lemma qsum_inject (f : nat -> Z) l : (qsum (fun i => inject_Z (f i)) l == inject_Z (zsum f l))%Q.
Proof. induction l as [|x l IH]; [done|]. unfold zsum in *. rewrite qsum_cons, IH, sumZ_cons, inject_Z_plus. done. Qed.

Lemma int_nonneg q : (0 <= q)%Q -> 0 <= int q.
Proof. intros H. unfold int. rewrite <- (Qfloor_Z 0). by apply Qfloor_resp_le. Qed.

Lemma filter_once (p : nat -> bool) l : NoDup l -> NoDup (List.filter p l).
Proof.
  induction 1 as [|x l Hx Hn IH]; cbn [List.filter]; [constructor|]. destruct (p x); [|done].
  constructor; [|done]. rewrite list_elem_of_In, filter_In, <- list_elem_of_In. tauto.
Qed.

Section Cents.
Variables (ranked : list PortfolioCandidate) (rule : PortfolioWeightRule) (indexes : list nat) (total target_cents : Z).
Hypothesis (indexes_once : NoDup indexes).

(** The invariant of the cent loop. *)
Record within (amounts : nat -> Z) (remaining : Z) : Prop := {
  wi_nonneg : forall i, In i indexes -> 0 <= amounts i;
  wi_stock : forall i, In i indexes -> (inject_Z (amounts i) <= stock_cap rule * inject_Z total)%Q;
  wi_group : forall c g, industry_cap rule = Some c ->
    (inject_Z (zsum amounts (List.filter (in_group ranked g) indexes)) <= c * inject_Z total)%Q;
  wi_sum : zsum amounts indexes + remaining = target_cents
}.

Lemma within_add_cent amounts remaining i :
  within amounts remaining -> In i indexes -> cent_fits ranked rule indexes total amounts i = true ->
  within (add_cent amounts i) (remaining - 1).
Proof.
  intros inv Hi Hf. apply andb_true_iff in Hf as [Hs Hg]. apply Qle_bool_iff in Hs. constructor.
  - intros j Hj. pose proof (wi_nonneg _ _ inv j Hj). unfold add_cent. destruct (j =? i)%nat; lia.
  - intros j Hj. unfold add_cent. destruct (Nat.eqb_spec j i) as [->|_]; [done|]. by apply (wi_stock _ _ inv).
  - intros c g Ec. rewrite zsum_add_cent by by apply filter_once. rewrite Ec in Hg. apply Qle_bool_iff in Hg.
    destruct (in_dec _ _ _) as [K|K]; [|rewrite Z.add_0_r; by apply (wi_group _ _ inv)].
    apply filter_In in K as [_ K]. apply bool_decide_eq_true in K. by rewrite <- K.
  - rewrite zsum_add_cent by done. pose proof (wi_sum _ _ inv). destruct (in_dec _ _ _); [lia|done].
Qed.

(** With a turn for each remaining cent, the loop places them all or finds no room for one. *)
Lemma cent_loop_spec fuel raw amounts remaining : 0 <= remaining -> (Z.to_nat remaining <= fuel)%nat -> within amounts remaining ->
  (exists b, cent_loop ranked rule fuel indexes raw total amounts remaining = Ok b /\ within b 0)
  \/ (exists message, cent_loop ranked rule fuel indexes raw total amounts remaining = impossible message).
Proof.
  revert amounts remaining. induction fuel as [|fuel IH]; intros amounts remaining Hr Hf inv; cbn [cent_loop];
    (destruct (Z.eqb_spec remaining 0) as [->|Hne]; [left; by exists amounts|]); [lia|].
  destruct (List.find _ _) as [i|] eqn:Ei; [|right; by eexists]. apply find_some in Ei as [Hi Hfit]. apply in_sort_by in Hi.
  apply IH; [lia|lia|]. by apply within_add_cent.
Qed.

Section Round.
Variables (target : Q) (weights : nat -> Q).
Hypothesis (Hplaced : placed ranked rule indexes target weights) (Htotal : 0 <= total)
  (Htarget : target_cents = int (target * inject_Z total)).

#[local] Abbreviation floors := (fun i => int (Qred (weights i * inject_Z total))).

Lemma total_nonneg : (0 <= inject_Z total)%Q.
Proof. change 0%Q with (inject_Z 0). by rewrite <- Zle_Qle. Qed.

Lemma floor_le i : (inject_Z (floors i) <= weights i * inject_Z total)%Q.
Proof. unfold int. eapply Qle_trans; [apply Qfloor_le|]. rewrite Qred_correct. lra. Qed.

Lemma floors_sum l : (inject_Z (zsum floors l) <= qsum weights l * inject_Z total)%Q.
Proof.
  rewrite <- qsum_inject, Qmult_comm, <- qsum_scale. apply qsum_le. intros i _. cbn beta.
  rewrite (Qmult_comm (inject_Z total)). apply floor_le.
Qed.

Lemma within_start : within floors (target_cents - zsum floors indexes).
Proof.
  destruct Hplaced as (Hshare & Hgroup & Hsum). pose proof total_nonneg as Ht. constructor.
  - intros i Hi. apply int_nonneg. rewrite Qred_correct. apply Qmult_le_0_compat; [|done]. by apply Hshare.
  - intros i Hi. eapply Qle_trans; [apply floor_le|]. apply Qmult_le_compat_r; [|done]. by apply Hshare.
  - intros c g Ec. eapply Qle_trans; [apply floors_sum|]. apply Qmult_le_compat_r; [|done]. by apply Hgroup.
  - lia.
Qed.

Lemma floors_leave : 0 <= target_cents - zsum floors indexes.
Proof.
  destruct Hplaced as (_ & _ & Hsum). assert (zsum floors indexes <= target_cents); [|lia]. rewrite Htarget. unfold int at 2.
  rewrite <- (Qfloor_Z (zsum floors indexes)). apply Qfloor_resp_le. rewrite <- Hsum. apply floors_sum.
Qed.

Lemma round_to_cents_cases :
  (exists b, round_to_cents ranked rule indexes weights total target_cents = Ok b /\ within b 0)
  \/ (exists message, round_to_cents ranked rule indexes weights total target_cents = impossible message).
Proof. apply cent_loop_spec; [apply floors_leave|done|apply within_start]. Qed.
End Round.
End Cents.

(** ** Dropping stocks below the minimum *)

Section Drop.
Variables (ranked : list PortfolioCandidate) (rule : PortfolioWeightRule) (target : Q) (total target_cents minimum : Z).
Hypothesis (valid : valid_rule rule) (target_nonneg : (0 <= target)%Q) (Htotal : 0 <= total)
  (Htarget : target_cents = int (target * inject_Z total)).

Lemma allocate_once_cases eligible : NoDup eligible ->
  (exists b, allocate_once ranked rule eligible target total target_cents = Ok b /\ within ranked rule eligible total target_cents b 0)
  \/ (exists message, allocate_once ranked rule eligible target total target_cents = impossible message).
Proof.
  intros Hn. unfold allocate_once.
  destruct (continuous_allocation_cases ranked rule eligible target) as [(w & -> & Hw)|(m & ->)]; [done|done| |right; by exists m].
  cbn [rbind]. by apply (round_to_cents_cases ranked rule eligible total target_cents Hn target).
Qed.

Lemma first_to_drop_in amounts l i : first_to_drop amounts l = Some i -> In i l.
Proof.
  destruct l as [|x l]; [done|]. cbn [first_to_drop]. intros [= <-]. revert x. induction l as [|y l IH]; intros x; cbn [fold_left]; [by left|].
  destruct (drops_before amounts y x); [right; apply IH|]. destruct (IH x) as [K|K]; [by left|right; by right].
Qed.

Lemma first_to_drop_none amounts l : first_to_drop amounts l = None -> l = [].
Proof. by destruct l. Qed.

(** What the loop returns. *)
Definition settled (eligible : list nat) (reasons : nat -> option exclusion_reason) (a : allocation) : Prop :=
  NoDup (al_eligible a) /\ (forall i, In i (al_eligible a) -> In i eligible)
  /\ within ranked rule (al_eligible a) total target_cents (al_amounts a) 0
  /\ (forall i, In i (al_eligible a) -> minimum <= al_amounts a i)
  /\ (forall i, al_reasons a i = if in_dec Nat.eq_dec i (al_eligible a) then reasons i
                                 else if in_dec Nat.eq_dec i eligible then Some below_minimum else reasons i).

Lemma drop_loop_cases fuel eligible reasons : NoDup eligible -> (length eligible <= fuel)%nat ->
  (exists a, drop_loop ranked rule fuel target total target_cents minimum eligible reasons = Ok a /\ settled eligible reasons a)
  \/ (exists message, drop_loop ranked rule fuel target total target_cents minimum eligible reasons = impossible message).
Proof.
  revert eligible reasons. induction fuel as [|fuel IH]; intros eligible reasons Hn Hf.
  { destruct eligible; [|cbn in Hf; lia]. right. cbn [drop_loop]. destruct (any_below _ _); by eexists. }
  destruct eligible as [|x0 l0] eqn:E0; [right; cbn [drop_loop]; destruct (any_below _ _); by eexists|]. cbn [drop_loop]. rewrite <- E0 in *.
  destruct (allocate_once_cases eligible Hn) as [(b & -> & Hb)|(m & ->)]; [|right; unfold impossible; destruct (any_below _ _); by eexists].
  destruct (first_to_drop b _) as [i|] eqn:Ed.
  - apply first_to_drop_in, filter_In in Ed as [Hi _].
    assert (Hlt : (length (List.filter (fun j => negb (j =? i)%nat) eligible) < length eligible)%nat).
    { apply (filter_shrinks _ _ i Hi). by rewrite Nat.eqb_refl. }
    destruct (IH (List.filter (fun j => negb (j =? i)%nat) eligible) (set_reason reasons i below_minimum)) as [(a & -> & Ha)|(m & ->)];
      [by apply filter_once|lia| |right; by exists m].
    left. exists a. split; [done|]. destruct Ha as (Ha1 & Ha2 & Ha3 & Ha4 & Ha5). split_and!; try done.
    + intros j Hj. by apply Ha2, filter_In in Hj as [Hj _].
    + intros j. rewrite Ha5. unfold set_reason. destruct (in_dec _ j (al_eligible a)) as [K|K].
      { destruct (Nat.eqb_spec j i) as [->|_]; [|done]. apply Ha2, filter_In in K as [_ K]. by rewrite Nat.eqb_refl in K. }
      destruct (in_dec _ j (List.filter _ _)) as [K1|K1], (in_dec _ j eligible) as [K2|K2]; try done.
      * destruct K2. by apply filter_In in K1 as [K1 _].
      * destruct (Nat.eqb_spec j i) as [->|Hne]; [done|]. destruct K1. apply filter_In. split; [done|]. apply negb_true_iff. by apply Nat.eqb_neq.
      * destruct (Nat.eqb_spec j i) as [->|Hne]; [by destruct K2|done].
  - left. apply first_to_drop_none in Ed. eexists. split; [done|]. split_and!; cbn [al_eligible al_amounts al_reasons]; try done.
    + intros i Hi. apply Z.nlt_ge. intros L. apply (in_nil (a := i)). rewrite <- Ed. apply filter_In. split; [done|]. by apply Z.ltb_lt.
    + intros i. by destruct (in_dec _ i eligible).
Qed.
End Drop.

(** ** The whole target *)

Lemma sumZ_permutation {A} (f : A -> Z) l k : l ≡ₚ k -> sumZ f l = sumZ f k.
Proof. induction 1; rewrite ?sumZ_cons; try lia; done. Qed.

(** A sum that only counts some indexes is the sum over them. *)
Lemma zsum_restrict (f : nat -> Z) el l (p : nat -> bool) : NoDup el -> NoDup l -> (forall i, In i el -> In i l) ->
  zsum (fun i => if bool_decide (i ∈ el) then f i else 0) (List.filter p l) = zsum f (List.filter p el).
Proof.
  intros Hn Hl Hin. unfold zsum. rewrite <- (sumZ_filter f (fun i => bool_decide (i ∈ el))). apply sumZ_permutation.
  apply NoDup_Permutation; [by apply filter_once, filter_once|by apply filter_once|].
  intros i. rewrite !list_elem_of_In, !filter_In, bool_decide_eq_true, list_elem_of_In. split; [tauto|]. intros [K1 K2]. auto.
Qed.

Lemma whole_cents_value d : whole_cents d = true -> (inject_Z (int (value d * 100)) == value d * 100)%Q.
Proof.
  unfold whole_cents, int. rewrite Pos.eqb_eq. intros E. pose proof (Qred_correct (value d * 100)) as R. destruct (Qred (value d * 100)) as [n p].
  cbn in E. subst p. change (n # 1) with (inject_Z n) in R. by rewrite <- (Qfloor_comp _ _ R), Qfloor_Z.
Qed.

Lemma validate_capital_ok capital total : validate_capital capital = Ok total ->
  0 <= total /\ (inject_Z total == value capital * 100)%Q.
Proof.
  unfold validate_capital. destruct (dltb _ _) eqn:E1; [done|]. destruct (whole_cents capital) eqn:E2; [|done]. cbn [negb]. intros E. assert (total = int (value capital * 100)) as -> by congruence. clear E.
  apply dltb_ge in E1. apply whole_cents_value in E2. split; [|done]. apply int_nonneg.
  assert (Z0 : (value dzero == 0)%Q) by done. rewrite Z0 in E1. lra.
Qed.

Section Chosen.
Variables (ranked : list PortfolioCandidate) (rule : PortfolioWeightRule) (total : Z).
Hypothesis (valid : valid_rule rule) (Htotal : 0 <= total).

#[local] Abbreviation all := (seq 0 (length ranked)).

(** What the amounts in cents and the reasons satisfy. *)
Record chosen (amounts : nat -> Z) (reasons : nat -> option exclusion_reason) : Prop := {
  ch_nonneg : forall i, 0 <= amounts i;
  ch_stock : forall i, (inject_Z (amounts i) <= stock_cap rule * inject_Z total)%Q;
  ch_group : forall c g, industry_cap rule = Some c ->
    (inject_Z (zsum amounts (List.filter (in_group ranked g) all)) <= c * inject_Z total)%Q;
  ch_sum : zsum amounts all = int (target_share rule * inject_Z total);
  ch_reason : forall i, reasons i = None <-> 0 < amounts i;
  ch_minimum : forall i, reasons i = None -> int (value (wr_min_target_amount rule) * 100) <= amounts i;
  ch_top : forall i, reasons i = None -> (i < top_count ranked rule)%nat
}.

Lemma target_share_nonneg : (0 <= target_share rule)%Q.
Proof. destruct (valid_rule_facts _ valid) as (_ & _ & _ & Hr & _). unfold target_share. rewrite Qred_correct. lra. Qed.

Lemma limit_nonneg c : (0 < c)%Q -> (0 <= c * inject_Z total)%Q.
Proof. intros Hc. apply Qmult_le_0_compat; [lra|]. change 0%Q with (inject_Z 0). by rewrite <- Zle_Qle. Qed.

Lemma nothing_chosen : total = 0 \/ (target_share rule == 0)%Q ->
  chosen (fun _ => 0) (fun i => if (i <? top_count ranked rule)%nat then Some zero_weight else rank_limited ranked rule i).
Proof.
  intros Hz. destruct (valid_rule_facts _ valid) as (_ & [Hc _] & Hi & _).
  assert (Hzero : forall l, zsum (fun _ => 0) l = 0) by (intros l; unfold zsum; by apply sumZ_zero).
  assert (Hno : forall i, (if (i <? top_count ranked rule)%nat then Some zero_weight else rank_limited ranked rule i) <> None).
  { intros i. unfold rank_limited. destruct (Nat.ltb_spec i (top_count ranked rule)); [done|]. by rewrite (proj2 (Nat.leb_le _ _)) by lia. }
  constructor; rewrite ?Hzero.
  - done.
  - intros _. by apply limit_nonneg.
  - intros c g Ec. rewrite Hzero. apply limit_nonneg, Hi, Ec.
  - unfold int. destruct Hz as [->|Hz]; [|by rewrite Hz, Qmult_0_l]. by rewrite Qmult_0_r.
  - intros i. specialize (Hno i). split; [done|lia].
  - intros i Ei. by destruct (Hno i).
  - intros i Ei. by destruct (Hno i).
Qed.

Lemma in_seq0 i n : In i (seq 0 n) <-> (i < n)%nat.
Proof. rewrite in_seq. lia. Qed.

Lemma nodup_seq0 n : NoDup (seq 0 n).
Proof. apply NoDup_ListNoDup, seq_NoDup. Qed.

#[local] Abbreviation eligible := (List.filter (fun i => negb (zero_scored ranked rule i)) (seq 0 (top_count ranked rule))).
#[local] Abbreviation reasons0 := (fun i => if (i <? top_count ranked rule)%nat && zero_scored ranked rule i then Some zero_weight else rank_limited ranked rule i).

Lemma settled_chosen a :
  settled ranked rule total (int (target_share rule * inject_Z total)) (int (value (wr_min_target_amount rule) * 100)) eligible reasons0 a ->
  chosen (fun i => if bool_decide (i ∈ al_eligible a) then al_amounts a i else 0) (mark_zero a).
Proof.
  intros (Hn & Hsub & [w1 w2 w3 w4] & Hmin & Hre). destruct (valid_rule_facts _ valid) as (_ & [Hc _] & Hi & _).
  assert (Htop : forall i, In i (al_eligible a) -> (i < top_count ranked rule)%nat /\ zero_scored ranked rule i = false).
  { intros i K. apply Hsub, filter_In in K as [K1 K2]. rewrite in_seq0 in K1. split; [done|]. by apply negb_true_iff. }
  assert (Hall : forall i, In i (al_eligible a) -> In i all).
  { intros i K. apply Htop in K as [K _]. rewrite in_seq0. unfold top_count in K. lia. }
  assert (Hreason : forall i, mark_zero a i = None <-> In i (al_eligible a) /\ al_amounts a i <> 0).
  { intros i. unfold mark_zero. rewrite Hre. destruct (in_dec _ i (al_eligible a)) as [K|K].
    - rewrite bool_decide_true by by rewrite list_elem_of_In. destruct (Htop i K) as [K1 ->]. rewrite andb_false_r. unfold rank_limited.
      rewrite (proj2 (Nat.leb_gt _ _)) by lia. cbn [andb]. destruct (Z.eqb_spec (al_amounts a i) 0); naive_solver.
    - rewrite bool_decide_false by by rewrite list_elem_of_In. cbn [andb]. split; [|by intros [? _]].
      destruct (in_dec _ i eligible) as [K1|K1]; [done|]. intros K2. exfalso. apply K1, filter_In. rewrite in_seq0. unfold rank_limited in K2.
      destruct (Nat.ltb_spec i (top_count ranked rule)) as [L|L]; [|rewrite (proj2 (Nat.leb_le _ _)) in K2 by lia; done].
      split; [done|]. by destruct (zero_scored ranked rule i). }
  constructor.
  - intros i. case_bool_decide as K; [|lia]. rewrite list_elem_of_In in K. auto.
  - intros i. case_bool_decide as K; [rewrite list_elem_of_In in K; auto|]. by apply limit_nonneg.
  - intros c g Ec. rewrite zsum_restrict; [by apply w3|done|apply nodup_seq0|done].
  - rewrite <- w4, Z.add_0_r. pose proof (zsum_restrict (al_amounts a) (al_eligible a) all (fun _ => true) Hn (nodup_seq0 _) Hall) as E.
    by rewrite !filter_all in E.
  - intros i. rewrite Hreason. case_bool_decide as K; rewrite list_elem_of_In in K; [|split; [by intros []|lia]].
    pose proof (w1 i K). split; [intros []; lia|]. intros. split; [done|lia].
  - intros i Ei. apply Hreason in Ei as [K _]. rewrite bool_decide_true by by rewrite list_elem_of_In. auto.
  - intros i Ei. apply Hreason in Ei as [K _]. by apply Htop.
Qed.

Lemma target_amounts_cases :
  (exists amounts reasons, target_amounts ranked rule total = Ok (amounts, reasons) /\ chosen amounts reasons)
  \/ (exists message, target_amounts ranked rule total = impossible message).
Proof.
  unfold target_amounts. destruct ((total =? 0) || Qeq_bool (target_share rule) 0) eqn:Ez.
  { left. eexists _, _. split; [done|]. apply nothing_chosen. apply orb_true_iff in Ez as [E|E]; [left; by apply Z.eqb_eq|right; by apply Qeq_bool_iff]. }
  destruct (top_count ranked rule =? 0)%nat; [right; by eexists|]. destruct (bool_decide _ && _); [right; by eexists|].
  destruct (int _ =? 0); [right; by eexists|].
  destruct (drop_loop_cases ranked rule (target_share rule) total _ (int (value (wr_min_target_amount rule) * 100)) valid target_share_nonneg
    Htotal eq_refl (length eligible) eligible reasons0) as [(a & -> & Ha)|(m & ->)]; [apply filter_once, nodup_seq0|done| |right; by eexists].
  left. cbn [rbind]. eexists _, _. split; [done|]. by apply settled_chosen.
Qed.
End Chosen.

(** ** The returned portfolio *)

Section Returned.
Variables (candidates : list PortfolioCandidate) (rule : PortfolioWeightRule) (capital : dec).
Hypothesis (valid : valid_rule rule).

#[local] Abbreviation ranked := (ranking candidates).

Lemma allocate_cases :
  (exists total amounts reasons, 0 <= total /\ (inject_Z total == value capital * 100)%Q /\ chosen ranked rule total amounts reasons
     /\ allocate_target_weights candidates rule capital = Ok (portfolio_target ranked total amounts reasons))
  \/ exists message, allocate_target_weights candidates rule capital = impossible message.
Proof.
  unfold allocate_target_weights. destruct (validate_capital capital) as [total|e] eqn:Ev; cbn [rbind].
  - apply validate_capital_ok in Ev as [Ht Hv]. destruct (negb _); [right; by eexists|].
    destruct (target_amounts_cases ranked rule total valid Ht) as [(am & re & -> & Hc)|(m & ->)]; cbn [rbind]; [|right; by eexists].
    left. by exists total, am, re.
  - right. unfold validate_capital in Ev. destruct (dltb _ _); [injection Ev as <-; by eexists|].
    destruct (negb _); [injection Ev as <-; by eexists|done].
Qed.
End Returned.

Lemma value_cents c : (value (money_from_cents c) == inject_Z c * (1 # 100))%Q.
Proof. done. Qed.

Lemma filter_map_swap {A B} (p : B -> bool) (g : A -> B) l : List.filter p (map g l) = map g (List.filter (fun x => p (g x)) l).
Proof. induction l as [|x l IH]; [done|]. cbn [map List.filter]. destruct (p (g x)); cbn [map]; by rewrite IH. Qed.

(** The target amount of a position, and the positions of an industry. *)
Definition amount (p : TargetPosition) : Q := value (tp_target_amount p).
Definition weight (p : TargetPosition) : Q := value (tp_target_weight p).
Definition of_industry (g : option string) (t : PortfolioTarget) : list TargetPosition :=
  List.filter (fun p => bool_decide (tp_industry_l1 p = g)) (pt_positions t).
Definition is_selected (p : TargetPosition) : bool := match tp_status p with selected => true | excluded => false end.

Section Positions.
Variables (ranked : list PortfolioCandidate) (rule : PortfolioWeightRule) (total : Z) (capital : dec)
  (amounts : nat -> Z) (reasons : nat -> option exclusion_reason).
Hypothesis (valid : valid_rule rule) (Htotal : 0 <= total) (Hcapital : (inject_Z total == value capital * 100)%Q)
  (Hch : chosen ranked rule total amounts reasons).

#[local] Abbreviation t := (portfolio_target ranked total amounts reasons).
#[local] Abbreviation position := (target_position ranked total amounts reasons).

Lemma positions_eq : pt_positions t = map position (seq 0 (length ranked)).
Proof. done. Qed.

Lemma in_positions p : In p (pt_positions t) -> exists i, p = position i.
Proof. rewrite positions_eq, in_map_iff. intros (i & <- & _). by exists i. Qed.

Lemma industry_positions g : of_industry g t = map position (List.filter (in_group ranked g) (seq 0 (length ranked))).
Proof. unfold of_industry. by rewrite positions_eq, filter_map_swap. Qed.

Lemma sum_amounts (l : list nat) : (qsum amount (map position l) == inject_Z (zsum amounts l) * (1 # 100))%Q.
Proof.
  rewrite qsum_map, <- qsum_inject, Qmult_comm, <- qsum_scale. apply qsum_ext. intros i _. unfold amount. cbn [tp_target_amount target_position].
  rewrite value_cents. ring.
Qed.

Lemma position_amount i : (0 <= amount (position i) <= stock_cap rule * value capital)%Q.
Proof.
  unfold amount. cbn [tp_target_amount target_position]. rewrite value_cents. pose proof (ch_nonneg _ _ _ _ _ Hch i) as K.
  rewrite Zle_Qle in K. pose proof (ch_stock _ _ _ _ _ Hch i) as K2. rewrite Hcapital in K2. change (inject_Z 0) with 0%Q in K. split; [lra|]. nra.
Qed.

Lemma industry_amount w g : wr_max_industry_weight rule = Some w -> (qsum amount (of_industry g t) <= value w * value capital)%Q.
Proof.
  intros Ew. rewrite industry_positions, sum_amounts. pose proof (ch_group _ _ _ _ _ Hch (value w) g) as K. rewrite Hcapital in K.
  unfold industry_cap in K. rewrite Ew in K. specialize (K eq_refl). nra.
Qed.

Lemma invested_total : (qsum amount (pt_positions t) == value (pt_invested_amount t))%Q.
Proof. rewrite positions_eq, sum_amounts. done. Qed.

Lemma invested_exact : pt_invested_amount t = money_from_cents (int ((1 - value (wr_cash_reserve rule)) * (value capital * 100))).
Proof.
  cbn [pt_invested_amount portfolio_target]. rewrite (ch_sum _ _ _ _ _ Hch). f_equal. unfold int, target_share.
  apply Qfloor_comp. by rewrite Qred_correct, Hcapital.
Qed.

Lemma cash_complements : (value (pt_invested_amount t) + value (pt_cash_amount t) == value capital)%Q.
Proof.
  cbn [pt_invested_amount pt_cash_amount portfolio_target]. rewrite !value_cents. unfold Z.sub. rewrite inject_Z_plus, inject_Z_opp, Hcapital. lra.
Qed.

Lemma selected_iff i : is_selected (position i) = true <-> (0 < amount (position i))%Q.
Proof.
  unfold is_selected, amount. cbn [tp_status tp_target_amount target_position]. rewrite value_cents. pose proof (ch_reason _ _ _ _ _ Hch i) as K.
  rewrite Zlt_Qlt in K. change (inject_Z 0) with 0%Q in K. destruct (reasons i) as [r|]; split; intros L; try done.
  - assert (Some r = None) by (apply K; lra). done.
  - assert (0 < inject_Z (amounts i))%Q by (by apply K). lra.
Qed.

Lemma selected_minimum i : is_selected (position i) = true -> (value (wr_min_target_amount rule) <= amount (position i))%Q.
Proof.
  unfold is_selected, amount. cbn [tp_status tp_target_amount target_position]. rewrite value_cents. intros L.
  assert (reasons i = None) as Hn by (by destruct (reasons i)). pose proof (ch_minimum _ _ _ _ _ Hch i Hn) as K. rewrite Zle_Qle in K.
  destruct (valid_rule_facts _ valid) as (_ & _ & _ & _ & _ & Hw). rewrite (whole_cents_value _ Hw) in K. lra.
Qed.

Lemma selected_count : Z.of_nat (length (List.filter is_selected (pt_positions t))) <= wr_max_positions rule.
Proof.
  rewrite positions_eq, filter_map_swap, length_map. set (l := List.filter _ _).
  assert (length l <= length (seq 0 (top_count ranked rule)))%nat as Hl.
  { apply NoDup_incl_length; [apply NoDup_ListNoDup, filter_once, nodup_seq0|]. intros i Hi. apply filter_In in Hi as [_ Hi]. apply in_seq0.
    unfold is_selected in Hi. cbn [tp_status target_position] in Hi. apply (ch_top _ _ _ _ _ Hch). by destruct (reasons i). }
  rewrite length_seq in Hl. unfold top_count in Hl. destruct (valid_rule_facts _ valid) as [Hp _]. lia.
Qed.

(** *** Reported weights *)

#[local] Abbreviation P := (places_for total).

Lemma amounts_le_total i : 0 <= amounts i <= total.
Proof.
  pose proof (ch_nonneg _ _ _ _ _ Hch i). pose proof (ch_stock _ _ _ _ _ Hch i) as K. split; [done|]. rewrite Zle_Qle.
  destruct (valid_rule_facts _ valid) as (_ & Hc & _). assert (0 <= inject_Z total)%Q by (change 0%Q with (inject_Z 0); by rewrite <- Zle_Qle). nra.
Qed.

Lemma position_units i : - P <= expo (tp_target_weight (position i)) /\ units P (tp_target_weight (position i)) = amounts i * 10 ^ P / total.
Proof. cbn [tp_target_weight target_position]. apply weight_units, amounts_le_total. Qed.

#[local] Abbreviation u := (fun i => amounts i * 10 ^ P / total).
#[local] Abbreviation unit_size := (Qpower 10 (- P)).

Lemma unit_size_pos : (0 < unit_size)%Q.
Proof. apply (pow10_pos (- P)). Qed.

Lemma unit_size_inverse : (inject_Z (10 ^ P) * unit_size == 1)%Q.
Proof.
  pose proof (places_for_nonneg total). rewrite pow10_Z by lia. fold (pow10 (- P)). rewrite <- pow10_add, Z.add_opp_diag_r. done.
Qed.

Lemma weight_value i : (weight (position i) == inject_Z (u i) * unit_size)%Q.
Proof.
  destruct (position_units i) as [He Eu]. pose proof (places_for_nonneg total). unfold weight. rewrite (units_value P) by (lia || done). by rewrite Eu.
Qed.

Lemma units_nonneg i : 0 <= u i.
Proof.
  pose proof (amounts_le_total i). pose proof (places_for_nonneg total). assert (0 < 10 ^ P) by (apply pow10Z_pos; lia).
  destruct (Z.eq_dec total 0) as [->|Hne]; [by rewrite Z.div_0_r|]. apply Z.div_pos; [nia|lia].
Qed.

(** A weight is the share of the amount, rounded down to its places. *)
Lemma weight_rounds_down i : (0 <= weight (position i))%Q /\ (weight (position i) * value capital <= amount (position i))%Q
  /\ ((0 < value capital)%Q -> (amount (position i) < (weight (position i) + unit_size) * value capital)%Q).
Proof.
  pose proof unit_size_pos as Hp. pose proof unit_size_inverse as Hi. pose proof (units_nonneg i) as Hu. pose proof Hu as Hq.
  rewrite Zle_Qle in Hq. change (inject_Z 0) with 0%Q in Hq. rewrite weight_value. split; [nra|].
  unfold amount. cbn [tp_target_amount target_position]. rewrite value_cents.
  destruct (Z.eq_dec total 0) as [E0|Hne].
  { rewrite E0 in Hcapital. change (inject_Z 0) with 0%Q in Hcapital. pose proof (amounts_le_total i). assert (amounts i = 0) as -> by lia.
    change (inject_Z 0) with 0%Q. assert (value capital == 0)%Q as -> by lra. split; [lra|]. intros K. lra. }
  pose proof (Z.mul_div_le (amounts i * 10 ^ P) total ltac:(lia)) as K1. pose proof (Z.mul_succ_div_gt (amounts i * 10 ^ P) total ltac:(lia)) as K2.
  rewrite Zle_Qle in K1. rewrite Zlt_Qlt in K2. rewrite !inject_Z_mult, Hcapital in K1. rewrite <- Z.add_1_r, !inject_Z_mult, inject_Z_plus, Hcapital in K2.
  change (inject_Z 1) with 1%Q in K2. set (U := inject_Z (u i)) in *. set (A := inject_Z (amounts i)) in *. set (T := inject_Z (10 ^ P)) in *.
  apply (Qmult_le_compat_r _ _ unit_size) in K1; [|lra]. apply (Qmult_lt_compat_r _ _ unit_size) in K2; [|done].
  assert (E : (A * T * unit_size == A)%Q) by (rewrite <- Qmult_assoc, Hi; ring). rewrite E in K1, K2. split; [lra|]. intros _. lra.
Qed.

Lemma sum_weights (l : list nat) : (qsum weight (map position l) * value capital <= qsum amount (map position l))%Q.
Proof.
  rewrite !qsum_map, Qmult_comm, <- qsum_scale. apply qsum_le. intros i _. rewrite Qmult_comm. apply weight_rounds_down.
Qed.

(** A limit on amounts is a limit on weights. *)
Lemma weight_limit (l : list nat) c : (0 <= c)%Q -> (qsum amount (map position l) <= c * value capital)%Q -> (qsum weight (map position l) <= c)%Q.
Proof.
  intros Hc K. pose proof (sum_weights l) as Hs. destruct (Z.eq_dec total 0) as [E0|Hne].
  - assert (qsum weight (map position l) == 0)%Q as ->; [|done]. rewrite qsum_map, <- (qsum_zero l). apply qsum_ext. intros i _.
    rewrite weight_value, E0, Z.div_0_r. change (inject_Z 0) with 0%Q. lra.
  - assert (0 < value capital)%Q as Hp.
    { assert (0 < inject_Z total)%Q by (change 0%Q with (inject_Z 0); rewrite <- Zlt_Qlt; lia). lra. }
    apply (Qmult_le_r _ _ _ Hp). lra.
Qed.

Lemma position_weight i : (weight (position i) <= stock_cap rule)%Q.
Proof.
  destruct (valid_rule_facts _ valid) as (_ & Hc & _). pose proof (weight_limit [i] (stock_cap rule)) as K. cbn [map] in K.
  rewrite !qsum_cons, !qsum_nil, !Qplus_0_r in K. apply K; [lra|]. apply position_amount.
Qed.

Lemma total_units : zsum u (seq 0 (length ranked)) <= 10 ^ P.
Proof.
  pose proof unit_size_pos as Hp. pose proof unit_size_inverse as Hi. rewrite Zle_Qle. apply (Qmult_le_r _ _ _ Hp). rewrite Hi, <- qsum_inject.
  eapply Qle_trans; [|apply (weight_limit (seq 0 (length ranked)) 1); [lra|]].
  - rewrite qsum_map, Qmult_comm, <- qsum_scale. apply qsum_le. intros i _. cbn beta. rewrite weight_value. lra.
  - rewrite sum_amounts, (ch_sum _ _ _ _ _ Hch). destruct (valid_rule_facts _ valid) as (_ & _ & _ & Hr & _).
    pose proof (Qfloor_le (target_share rule * inject_Z total)) as Hf. fold (int (target_share rule * inject_Z total)) in Hf.
    assert (target_share rule <= 1)%Q by (unfold target_share; rewrite Qred_correct; lra). set (F := inject_Z (int _)) in *.
    assert (0 <= inject_Z total)%Q by (change 0%Q with (inject_Z 0); by rewrite <- Zle_Qle).
    assert (F <= inject_Z total)%Q by nra. rewrite Hcapital in *. lra.
Qed.

Lemma reported_total : (value (pt_invested_weight t) == qsum weight (pt_positions t))%Q
  /\ (value (pt_invested_weight t) + value (pt_cash_weight t) == 1)%Q /\ (0 <= value (pt_cash_weight t))%Q.
Proof.
  pose proof (places_for_nonneg total) as HP. pose proof total_units as Hu. pose proof unit_size_pos as Hpos. pose proof unit_size_inverse as Hinv.
  set (p := P + ndigits (Z.of_nat (length (pt_positions t))) + 10).
  assert (Hp : 10 ^ P < 10 ^ p).
  { apply Z.pow_lt_mono_r; [lia|unfold p|]; pose proof (ndigits_pos (Z.of_nat (length (pt_positions t)))); lia. }
  assert (Hall : forall x, In x (pt_positions t) -> - P <= expo (tp_target_weight x) /\ 0 <= units P (tp_target_weight x)).
  { intros x Hx. rewrite positions_eq in Hx. apply in_map_iff in Hx as (i & <- & _). destruct (position_units i) as [K1 K2]. rewrite K2. split; [done|apply units_nonneg]. }
  assert (Hsum : sumZ (fun x => units P (tp_target_weight x)) (pt_positions t) = zsum u (seq 0 (length ranked))).
  { rewrite positions_eq, sumZ_map. apply sumZ_ext. intros i _. apply position_units. }
  assert (0 <= zsum u (seq 0 (length ranked))) by (apply sumZ_nonneg; intros i _; apply units_nonneg).
  destruct (fold_units p P tp_target_weight (pt_positions t) dzero Hall) as [K1 K2]; [cbn [dzero expo]; lia|done|change (units P dzero) with 0; lia|].
  change (units P dzero) with 0 in K2. rewrite Hsum, Z.add_0_l in K2. change (fold_left _ _ _) with (pt_invested_weight t) in K1, K2.
  destruct (add_at_units p P done_ (dneg (pt_invested_weight t))) as [K3 K4]; [cbn [done_ expo]; lia|done| |].
  { unfold units in *. cbn [dneg mant expo done_]. rewrite Z.mul_opp_l, K2, Z.add_0_l. lia. }
  change (add_at p done_ _) with (pt_cash_weight t) in K3, K4.
  assert (E4 : units P (pt_cash_weight t) = 10 ^ P - zsum u (seq 0 (length ranked))).
  { rewrite K4. unfold units in *. cbn [dneg mant expo done_]. rewrite Z.mul_opp_l, K2, Z.add_0_l. lia. }
  rewrite (units_value P (pt_invested_weight t)), (units_value P (pt_cash_weight t)), K2, E4 by (lia || done).
  rewrite positions_eq, qsum_map. split_and!.
  - rewrite <- qsum_inject, Qmult_comm, <- qsum_scale. apply qsum_ext. intros i _. rewrite weight_value. ring.
  - unfold Z.sub. rewrite inject_Z_plus, inject_Z_opp. lra.
  - apply Qmult_le_0_compat; [|lra]. change 0%Q with (inject_Z 0). rewrite <- Zle_Qle. lia.
Qed.
End Positions.

Lemma scored_exists ranked rule indexes :
  List.filter (fun i => qlt 0 (score ranked rule i)) indexes <> [] <-> exists i, In i indexes /\ (0 < score ranked rule i)%Q.
Proof.
  split.
  - intros Hne. destruct (List.filter _ indexes) as [|i l] eqn:E; [done|]. exists i.
    assert (In i (List.filter (fun i => qlt 0 (score ranked rule i)) indexes)) as Hi by (rewrite E; by left).
    apply filter_In in Hi as [Hi Hs]. split; [done|by apply qlt_true].
  - intros (i & Hi & Hs) E. apply (in_nil (a := i)). rewrite <- E. apply filter_In. split; [done|by apply qlt_true].
Qed.

(** ** Theorems *)

(** C13: for every rule that its contract accepts, all the loops of the allocation end: it returns a portfolio or
    raises [PortfolioAllocationError], whatever the candidates and the capital are. *)
Theorem allocation_returns candidates rule capital : valid_rule rule ->
  (exists t, allocate_target_weights candidates rule capital = Ok t)
  \/ (exists message, allocate_target_weights candidates rule capital = Err (Raise PortfolioAllocationError message)).
Proof.
  intros valid. destruct (allocate_cases candidates rule capital valid) as [(total & am & re & _ & _ & _ & E)|(m & E)]; [left|right]; by eexists.
Qed.

(** C15: the water filling succeeds exactly when the target can be shared out at all: some candidate has a
    positive score, and there are shares, none negative or over the stock limit and none for a score of zero,
    that keep every industry within its limit and add up to the target.  The shares it returns are such; when
    there are none it raises [PortfolioAllocationError].  Under an industry limit the candidates name their
    industries, as the caller has checked. *)
Theorem filling_succeeds_iff_feasible ranked rule indexes target :
  valid_rule rule -> (0 <= target)%Q -> industries_named ranked rule indexes ->
  (is_ok (continuous_allocation ranked rule indexes target) = true
    <-> (exists i, In i indexes /\ (0 < score ranked rule i)%Q) /\ exists x, share_out ranked rule indexes target x)
  /\ match continuous_allocation ranked rule indexes target with
     | Ok b => share_out ranked rule indexes target b
     | Err e => exists message, e = Raise PortfolioAllocationError message
     end.
Proof.
  intros valid Ht Hnm. destruct (admits_dec ranked rule indexes target) as [K|K].
  - destruct (continuous_allocation_admits ranked rule indexes target valid Ht K) as (b & -> & Hb). split; [|done]. split; [|done].
    intros _. split; [|by exists b]. by apply scored_exists, K.
  - destruct (continuous_allocation_refuses ranked rule indexes target K) as (m & ->). split; [|by exists m]. split; [done|].
    intros (Hs & x & Hx). destruct K. apply (share_out_admits _ _ _ _ x Hnm); [|done]. by apply scored_exists.
Qed.

(** The limits of a rule, in money. *)
Definition within_limits (rule : PortfolioWeightRule) (capital : dec) (t : PortfolioTarget) : Prop :=
  (forall p, In p (pt_positions t) -> (0 <= amount p <= value (wr_max_stock_weight rule) * value capital)%Q)
  /\ (forall w g, wr_max_industry_weight rule = Some w -> (qsum amount (of_industry g t) <= value w * value capital)%Q)
  /\ (forall p, In p (pt_positions t) -> is_selected p = true <-> (0 < amount p)%Q)
  /\ (forall p, In p (pt_positions t) -> is_selected p = true -> (value (wr_min_target_amount rule) <= amount p)%Q)
  /\ Z.of_nat (length (List.filter is_selected (pt_positions t))) <= wr_max_positions rule.

(** The target is placed to the cent and the rest is cash. *)
Definition fully_placed (rule : PortfolioWeightRule) (capital : dec) (t : PortfolioTarget) : Prop :=
  (qsum amount (pt_positions t) == value (pt_invested_amount t))%Q
  /\ pt_invested_amount t = money_from_cents (int ((1 - value (wr_cash_reserve rule)) * (value capital * 100)))
  /\ (value (pt_invested_amount t) + value (pt_cash_amount t) == value capital)%Q.

(** C14: a returned portfolio keeps every limit of the rule in money - per stock, per industry, the minimum
    holding and the number of positions, a stock being selected exactly when it holds something - and invests
    exactly the capital outside the reserve, rounded down to a cent, the rest being cash. *)
Theorem portfolio_within_limits candidates rule capital t : valid_rule rule ->
  allocate_target_weights candidates rule capital = Ok t -> within_limits rule capital t /\ fully_placed rule capital t.
Proof.
  intros valid Et. destruct (allocate_cases candidates rule capital valid) as [(total & am & re & Ht & Hv & Hc & E)|(m & E)]; [|rewrite E in Et; done].
  assert (t = portfolio_target (ranking candidates) total am re) as -> by congruence.
  split; split_and!.
  - intros p Hp. apply in_positions in Hp as [i ->]. by eapply position_amount.
  - intros w g Ew. by eapply industry_amount.
  - intros p Hp. apply in_positions in Hp as [i ->]. by eapply selected_iff.
  - intros p Hp. apply in_positions in Hp as [i ->]. by eapply selected_minimum.
  - by eapply selected_count.
  - apply invested_total.
  - by eapply invested_exact.
  - by eapply cash_complements.
Qed.

(** The reported weights against the amounts and the limits. *)
Definition weights_reported (rule : PortfolioWeightRule) (capital : dec) (t : PortfolioTarget) : Prop :=
  (forall p, In p (pt_positions t) -> (0 <= weight p <= value (wr_max_stock_weight rule))%Q
     /\ (weight p * value capital <= amount p)%Q
     /\ ((0 < value capital)%Q -> (amount p < (weight p + (1 # 10 ^ 18)) * value capital)%Q))
  /\ (forall w g, wr_max_industry_weight rule = Some w -> (qsum weight (of_industry g t) <= value w)%Q)
  /\ (value (pt_invested_weight t) == qsum weight (pt_positions t))%Q
  /\ (value (pt_invested_weight t) + value (pt_cash_weight t) == 1)%Q /\ (0 <= value (pt_cash_weight t))%Q.

Lemma unit_size_small total : (Qpower 10 (- places_for total) <= 1 # 10 ^ 18)%Q.
Proof.
  pose proof (places_for_nonneg total) as H. change (1 # 10 ^ 18)%Q with (Qpower 10 (-18)). apply Qpower_le_compat_l; [lia|done].
Qed.

(** C16: the weights reported beside the amounts are the shares of the capital rounded down, short by less than
    1e-18; they keep the limits per stock and per industry, and the invested and the cash weight, computed in
    decimal contexts of bounded precision, add up to one exactly. *)
Theorem reported_weights_exact candidates rule capital t : valid_rule rule ->
  allocate_target_weights candidates rule capital = Ok t -> weights_reported rule capital t.
Proof.
  intros valid Et. destruct (allocate_cases candidates rule capital valid) as [(total & am & re & Ht & Hv & Hc & E)|(m & E)]; [|rewrite E in Et; done].
  assert (t = portfolio_target (ranking candidates) total am re) as -> by congruence. destruct (valid_rule_facts _ valid) as (_ & Hcap & Hind & _).
  split; [|split; [|by eapply reported_total]].
  - intros p Hp. apply in_positions in Hp as [i ->]. pose proof (unit_size_small total) as Hs.
    edestruct (weight_rounds_down (ranking candidates) rule total capital am re) with (i := i) as (K1 & K2 & K3); [done..|].
    split_and!; try done; [by eapply position_weight|]. intros Hp. specialize (K3 Hp). nra.
  - intros w g Ew. rewrite industry_positions. eapply weight_limit; try done.
    + unfold industry_cap in Hind. rewrite Ew in Hind. specialize (Hind (value w) eq_refl). lra.
    + rewrite <- industry_positions. by eapply industry_amount.
Qed.

(** ** An example

    Three ranked candidates, two of them in one industry, and a candidate left out by the rank limit. *)

Definition demo_candidates : list PortfolioCandidate := [
  {| pc_ts_code := "000001.SZ"; pc_rank_score := Dec 15 (-1); pc_industry_l1 := Some "bank" |};
  {| pc_ts_code := "600000.SH"; pc_rank_score := Dec 3 0; pc_industry_l1 := Some "bank" |};
  {| pc_ts_code := "600519.SH"; pc_rank_score := Dec 1 0; pc_industry_l1 := Some "food" |};
  {| pc_ts_code := "300750.SZ"; pc_rank_score := Dec 2 (-1); pc_industry_l1 := Some "power" |} ].

Definition demo_rule : PortfolioWeightRule :=
  {| wr_method := rank_score; wr_max_positions := 3; wr_max_stock_weight := Dec 5 (-1); wr_max_industry_weight := Some (Dec 6 (-1));
     wr_cash_reserve := Dec 1 (-1); wr_min_target_amount := Dec 100 0 |}.

Definition demo_capital : dec := Dec 100001 (-2).

Definition no_target : PortfolioTarget :=
  {| pt_positions := []; pt_invested_weight := dzero; pt_invested_amount := dzero; pt_cash_weight := dzero; pt_cash_amount := dzero |}.

Definition demo_target : PortfolioTarget :=
  match allocate_target_weights demo_candidates demo_rule demo_capital with Ok t => t | Err _ => no_target end.

(** The bank shares stop at the industry limit and the rest goes to the third stock, to the cent. *)
Example demo_target_amounts : map (fun p => (tp_ts_code p, tp_target_amount p)) (pt_positions demo_target)
  = [("600000.SH", Dec 40000 (-2)); ("000001.SZ", Dec 20000 (-2)); ("600519.SH", Dec 30000 (-2)); ("300750.SZ", Dec 0 (-2))].
Proof. vm_compute. reflexivity. Qed.

Lemma demo_rule_valid : valid_rule demo_rule.
Proof. vm_compute. reflexivity. Qed.

Lemma demo_allocated : allocate_target_weights demo_candidates demo_rule demo_capital = Ok demo_target.
Proof. vm_compute. reflexivity. Qed.

Lemma allocation_returns_witness : valid_rule demo_rule /\
  ((exists t, allocate_target_weights demo_candidates demo_rule demo_capital = Ok t)
   \/ (exists message, allocate_target_weights demo_candidates demo_rule demo_capital = Err (Raise PortfolioAllocationError message))).
Proof. exact (conj demo_rule_valid (allocation_returns demo_candidates demo_rule demo_capital demo_rule_valid)). Defined.

Lemma demo_share_nonneg : (0 <= 9 # 10)%Q.
Proof. lra. Qed.

(** Four tenths and two tenths for the two banks, three tenths for the third stock. *)
Definition demo_shares (i : nat) : Q := nth i [4 # 10; 2 # 10; 3 # 10]%Q 0%Q.
#[local] Abbreviation demo_ranked := (ranking demo_candidates).

Lemma demo_named : industries_named demo_ranked demo_rule [0%nat; 1%nat; 2%nat].
Proof. intros _ i [<-|[<-|[<-|[]]]]; eexists; (split; [|vm_compute; reflexivity]); done. Qed.

Lemma demo_shares_ok : share_out demo_ranked demo_rule [0%nat; 1%nat; 2%nat] (9 # 10) demo_shares.
Proof.
  split_and!.
  - intros i [<-|[<-|[<-|[]]]]; vm_compute; split; discriminate.
  - intros i [<-|[<-|[<-|[]]]] K; vm_compute in K; by destruct K.
  - intros w g [= <-]. destruct (decide (g = Some "bank")) as [->|Hb]; [vm_compute; discriminate|].
    destruct (decide (g = Some "food")) as [->|Hf]; [vm_compute; discriminate|]. cbn [List.filter].
    rewrite !bool_decide_false by (vm_compute; intros E; by rewrite <- E in *). vm_compute. discriminate.
  - vm_compute. reflexivity.
Qed.

Lemma filling_succeeds_iff_feasible_witness :
  industries_named demo_ranked demo_rule [0%nat; 1%nat; 2%nat]
  /\ is_ok (continuous_allocation demo_ranked demo_rule [0%nat; 1%nat; 2%nat] (9 # 10)) = true.
Proof.
  split; [exact demo_named|].
  pose proof (filling_succeeds_iff_feasible demo_ranked demo_rule [0%nat; 1%nat; 2%nat] (9 # 10) demo_rule_valid demo_share_nonneg demo_named) as [Hiff _].
  apply Hiff.
  split; [exists 0%nat; split; [by left|vm_compute; reflexivity]|exists demo_shares; exact demo_shares_ok].
Defined.

Lemma portfolio_within_limits_witness : length (pt_positions demo_target) = 4%nat /\
  within_limits demo_rule demo_capital demo_target /\ fully_placed demo_rule demo_capital demo_target.
Proof.
  split; [vm_compute; reflexivity|].
  exact (portfolio_within_limits demo_candidates demo_rule demo_capital demo_target demo_rule_valid demo_allocated).
Defined.

Lemma reported_weights_exact_witness : length (pt_positions demo_target) = 4%nat /\ weights_reported demo_rule demo_capital demo_target.
Proof.
  split; [vm_compute; reflexivity|].
  exact (reported_weights_exact demo_candidates demo_rule demo_capital demo_target demo_rule_valid demo_allocated).
Defined.
