(* ===== verification/PortfolioDrawdown.v ===== *)
(** * Drawdown limits ([src/rquant/portfolio/drawdown.py])

    [evaluate_drawdown] continues a series of net asset values: the running peak, and a restriction
    that starts at one drawdown and ends at a lower one.  The theorems say that the state it builds
    always satisfies the contract of its own class, and that a series of observations ends in the
    state its whole history defines. *)

From Stdlib Require Import ZArith QArith Qminmax Lqa Lia Bool.
From stdpp Require Import base list strings.
From S2P Require Import Prelude Clock Decimal DecimalEq PortfolioWeights PortfolioNumbers.
Open Scope Z_scope.
Open Scope rq_scope.

(** ** Contracts *)

(** [_require_aware_time], then [astimezone(UTC)]. *)
Definition require_aware_time (value : pydatetime) : res unit :=
  match value with Naive _ => Err (Raise ValueError "观测时间必须带时区") | Aware _ => Ok tt end.

Definition utc_instant (value : pydatetime) : res Z :=
  match value with
  | Naive _ => Err (Raise ValueError "观测时间必须带时区")
  | Aware t => if in_range t then Ok t else Err (Raise OverflowError "date value out of range")
  end.

Inductive drawdown_action := block_new_positions | cap_total_risk_weight.

#[export] Instance drawdown_action_eq_dec : EqDecision drawdown_action.
Proof. solve_decision. Defined.

Record DrawdownRule := {
  dr_trigger_drawdown : dec; dr_release_drawdown : dec; dr_action : drawdown_action; dr_total_risk_weight_cap : option dec
}.

Definition mk_drawdown_rule (r : DrawdownRule) : res DrawdownRule :=
  raise_if negb (dltb dzero (dr_trigger_drawdown r) && dltb (dr_trigger_drawdown r) done_
                 && dleb dzero (dr_release_drawdown r) && dltb (dr_release_drawdown r) done_
                 && opt_ok (fun w => dleb dzero w && dltb w done_) (dr_total_risk_weight_cap r))
    as ValueError saying "field out of range" ;;
  raise_if dleb (dr_trigger_drawdown r) (dr_release_drawdown r) as ValueError saying "恢复回撤必须低于触发回撤" ;;
  raise_if bool_decide (dr_action r = cap_total_risk_weight) && bool_decide (dr_total_risk_weight_cap r = None)
    as ValueError saying "降仓动作需要总风险仓位上限" ;;
  raise_if bool_decide (dr_action r = block_new_positions) && bool_decide (is_Some (dr_total_risk_weight_cap r))
    as ValueError saying "停止开新仓动作不接受总风险仓位上限" ;;
  Ok r.

(** Field by field; [Decimal] compares numbers. *)
Definition rule_eqb (a b : DrawdownRule) : bool :=
  deqb (dr_trigger_drawdown a) (dr_trigger_drawdown b) && deqb (dr_release_drawdown a) (dr_release_drawdown b)
  && bool_decide (dr_action a = dr_action b)
  && match dr_total_risk_weight_cap a, dr_total_risk_weight_cap b with
     | None, None => true | Some x, Some y => deqb x y | _, _ => false end.

Record DrawdownState := {
  ds_rule : DrawdownRule; ds_peak_nav : dec; ds_peak_at : pydatetime; ds_last_nav : dec; ds_last_at : pydatetime; ds_active : bool
}.

(** [(Fraction(peak) - Fraction(last)) / Fraction(peak)] *)
Definition exact_drawdown (peak last : dec) : Q := Qred ((value peak - value last) / value peak).

Definition mk_state (s : DrawdownState) : res DrawdownState :=
  raise_if negb (dltb dzero (ds_peak_nav s) && dltb dzero (ds_last_nav s)) as ValueError saying "field out of range" ;;
  bind _ from require_aware_time (ds_peak_at s) ;;
  bind _ from require_aware_time (ds_last_at s) ;;
  raise_if dltb (ds_peak_nav s) (ds_last_nav s) as ValueError saying "峰值净值不能低于末次净值" ;;
  peak_instant <~ utc_instant (ds_peak_at s) ;;
  last_instant <~ utc_instant (ds_last_at s) ;;
  raise_if last_instant <? peak_instant as ValueError saying "峰值时间不能晚于末次观测时间" ;;
  raise_if (peak_instant =? last_instant) && negb (deqb (ds_peak_nav s) (ds_last_nav s))
    as ValueError saying "峰值与末次观测同刻时净值必须一致" ;;
  let drawdown := exact_drawdown (ds_peak_nav s) (ds_last_nav s) in
  raise_if ds_active s && Qle_bool drawdown (value (dr_release_drawdown (ds_rule s)))
    as ValueError saying "回撤状态已达到恢复边界，不能仍标记为限制中" ;;
  raise_if negb (ds_active s) && Qle_bool (value (dr_trigger_drawdown (ds_rule s))) drawdown
    as ValueError saying "回撤状态已达到触发边界，不能标记为未限制" ;;
  Ok s.

Record DrawdownDecision := {
  dd_state : DrawdownState; dd_drawdown : dec; dd_allow_new_positions : bool; dd_max_total_risk_weight : option dec
}.

(** ** Evaluation *)

(** [exact] is reduced, not negative and less than one. *)
Definition display_drawdown (exact : Q) : dec :=
  if Qeq_bool exact 0 then dzero
  else
    let p := Z.max 40 (ndigits (Qnum exact) + ndigits (QDen exact) + 20) in
    quantize_down 18 (div_at p (Qnum exact) (QDen exact)).

Definition check_previous (observed_at : pydatetime) (rule : DrawdownRule) (previous : option DrawdownState) : res unit :=
  match previous with
  | None => Ok tt
  | Some previous =>
      raise_if negb (rule_eqb (ds_rule previous) rule) as DrawdownInputError saying "回撤规则变化须从历史重算或开启新序列" ;;
      now <~ utc_instant observed_at ;;
      last <~ utc_instant (ds_last_at previous) ;;
      raise_if now <=? last as DrawdownInputError saying "观测时间必须严格晚于前次观测" ;;
      Ok tt
  end.

Definition peak_of (nav : dec) (observed_at : pydatetime) (previous : option DrawdownState) : dec * pydatetime :=
  match previous with
  | None => (nav, observed_at)
  | Some previous => if dltb (ds_peak_nav previous) nav then (nav, observed_at) else (ds_peak_nav previous, ds_peak_at previous)
  end.

Definition is_active (rule : DrawdownRule) (previous : option DrawdownState) (drawdown : Q) : bool :=
  match previous with
  | Some {| ds_active := true |} => qlt (value (dr_release_drawdown rule)) drawdown
  | _ => Qle_bool (value (dr_trigger_drawdown rule)) drawdown
  end.

Definition evaluate_drawdown (nav : dec) (observed_at : pydatetime) (rule : DrawdownRule) (previous : option DrawdownState)
    : res DrawdownDecision :=
  raise_if dleb nav dzero as DrawdownInputError saying "净值必须是有限正数" ;;
  bind _ from (match require_aware_time observed_at with Err (Raise ValueError m) => Err (Raise DrawdownInputError m) | r => r end) ;;
  bind _ from check_previous observed_at rule previous ;;
  let '(peak_nav, peak_at) := peak_of nav observed_at previous in
  let drawdown := exact_drawdown peak_nav nav in
  let active := is_active rule previous drawdown in
  state <~ mk_state {| ds_rule := rule; ds_peak_nav := peak_nav; ds_peak_at := peak_at; ds_last_nav := nav; ds_last_at := observed_at;
                       ds_active := active |} ;;
  Ok {| dd_state := state; dd_drawdown := display_drawdown drawdown;
        dd_allow_new_positions := negb (active && bool_decide (dr_action rule = block_new_positions));
        dd_max_total_risk_weight := if active && bool_decide (dr_action rule = cap_total_risk_weight)
                                    then dr_total_risk_weight_cap rule else None |}.

(** ** The contracts as facts *)

Definition valid_drawdown_rule (r : DrawdownRule) : Prop := mk_drawdown_rule r = Ok r.
Definition valid_drawdown_state (s : DrawdownState) : Prop := valid_drawdown_rule (ds_rule s) /\ mk_state s = Ok s.

Lemma dzero_value : value dzero == 0.
Proof. done. Qed.

Lemma drawdown_rule_facts r : valid_drawdown_rule r ->
  (0 < value (dr_trigger_drawdown r))%Q /\ (0 <= value (dr_release_drawdown r) < value (dr_trigger_drawdown r))%Q.
Proof.
  unfold valid_drawdown_rule, mk_drawdown_rule. destruct (_ && _) eqn:E in |- *; [|done]. cbn [negb].
  destruct (dleb _ _) eqn:El in |- *; [done|]. intros _. repeat (apply andb_true_iff in E as [E ?K]). rewrite dltb_lt in *. rewrite dleb_le in K1.
  rewrite dzero_value in *. apply not_true_iff_false in El. rewrite dleb_le in El. split; [done|]. split; [done|]. by apply Qnot_le_lt.
Qed.

(** What a state satisfies, given the instants of its two times. *)
Record state_facts (s : DrawdownState) (peak last : Z) : Prop := {
  sf_peak_at : ds_peak_at s = Aware peak; sf_last_at : ds_last_at s = Aware last;
  sf_peak_range : in_range peak = true; sf_last_range : in_range last = true;
  sf_positive : (0 < value (ds_last_nav s) <= value (ds_peak_nav s))%Q;
  sf_order : peak <= last;
  sf_same : peak = last -> (value (ds_peak_nav s) == value (ds_last_nav s))%Q;
  sf_active : ds_active s = true -> (value (dr_release_drawdown (ds_rule s)) < exact_drawdown (ds_peak_nav s) (ds_last_nav s))%Q;
  sf_inactive : ds_active s = false -> (exact_drawdown (ds_peak_nav s) (ds_last_nav s) < value (dr_trigger_drawdown (ds_rule s)))%Q
}.

Lemma qle_bool_false a b : Qle_bool a b = false <-> (b < a)%Q.
Proof. rewrite <- not_true_iff_false, Qle_bool_iff. split; [apply Qnot_le_lt|apply Qlt_not_le]. Qed.

Lemma mk_state_ok s peak last : state_facts s peak last -> mk_state s = Ok s.
Proof.
  intros [Ep El Rp Rl [H1 H2] Ho Hs Ha Hi]. unfold mk_state. rewrite Ep, El. cbn [require_aware_time rbind utc_instant]. rewrite Rp, Rl. cbn [rbind].
  rewrite (proj2 (dltb_lt dzero (ds_peak_nav s))), (proj2 (dltb_lt dzero (ds_last_nav s))) by (rewrite dzero_value; lra). cbn [andb negb].
  rewrite (proj2 (dltb_ge _ _)) by done. rewrite (proj2 (Z.ltb_ge _ _)) by lia.
  destruct (Z.eqb_spec peak last) as [E|E]; cbn [andb]; [rewrite (proj2 (deqb_deq _ _)) by (unfold deq; auto); cbn [negb]|];
    (destruct (ds_active s); cbn [andb negb]; [by rewrite (proj2 (qle_bool_false _ _)) by auto|by rewrite (proj2 (qle_bool_false _ _)) by auto]).
Qed.

Lemma mk_state_facts s : mk_state s = Ok s -> exists peak last, state_facts s peak last.
Proof.
  unfold mk_state. destruct (_ && _) eqn:E1 in |- *; [|done]. apply andb_true_iff in E1 as [P1 P2]. rewrite dltb_lt, dzero_value in P1, P2. cbn [negb].
  destruct (ds_peak_at s) as [peak|] eqn:Ep; [|done]. destruct (ds_last_at s) as [last|] eqn:El; [|done]. cbn [require_aware_time rbind utc_instant].
  destruct (dltb _ _) eqn:E2 in |- *; [done|]. apply dltb_ge in E2. destruct (in_range peak) eqn:Rp; [|done]. cbn [rbind].
  destruct (in_range last) eqn:Rl; [|done]. cbn [rbind]. destruct (Z.ltb_spec last peak) as [|Ho]; [done|].
  destruct ((peak =? last) && _) eqn:E3; [done|]. destruct (ds_active s && _) eqn:E4; [done|]. destruct (negb (ds_active s) && _) eqn:E5; [done|].
  intros _. exists peak, last. constructor; try done.
  - intros ->. rewrite Z.eqb_refl in E3. cbn [andb] in E3. apply negb_false_iff, deqb_deq in E3. exact E3.
  - intros Ea. rewrite Ea in E4. by apply qle_bool_false.
  - intros Ea. rewrite Ea in E5. by apply qle_bool_false.
Qed.

Lemma drawdown_bounds peak last : (0 < value last <= value peak)%Q -> (0 <= exact_drawdown peak last < 1)%Q.
Proof.
  intros [H1 H2]. unfold exact_drawdown. rewrite Qred_correct. split; [apply Qle_shift_div_l; lra|apply Qlt_shift_div_r; lra].
Qed.

Lemma drawdown_itself peak last : (value peak == value last)%Q -> (0 < value peak)%Q -> (exact_drawdown peak last == 0)%Q.
Proof. intros H1 H2. unfold exact_drawdown. rewrite Qred_correct, H1. field. rewrite H1 in H2. lra. Qed.

(** The displayed drawdown is the exact one rounded down to eighteen places. *)
Lemma display_rounds_down q : Qred q = q -> (0 <= q < 1)%Q ->
  (value (display_drawdown q) <= q)%Q /\ (q < value (display_drawdown q) + (1 # 10 ^ 18))%Q.
Proof.
  intros Hred [H0 H1]. unfold display_drawdown. destruct (Qeq_bool q 0) eqn:E0.
  { apply Qeq_bool_iff in E0. rewrite dzero_value, E0. split; [lra|done]. }
  apply Qeq_bool_neq in E0. destruct q as [c n]. cbn [Qnum Qden] in *.
  assert (0 < c < Z.pos n) as Hc.
  { unfold Qle, Qlt, Qeq in *. cbn in *. lia. }
  rewrite quotient_rounds_down; [|lia|lia|lia|pose proof (ndigits_pos (Z.pos n)); lia].
  pose proof (Z.div_mod (c * 10 ^ 18) (Z.pos n) ltac:(lia)) as Em. pose proof (Z.mod_pos_bound (c * 10 ^ 18) (Z.pos n) ltac:(lia)) as Hm.
  set (w := c * 10 ^ 18 / Z.pos n) in *. assert (value (Dec w (-18)) == (w # 10 ^ 18))%Q as ->.
  { unfold value. cbn [mant expo]. change (Qpower 10 (-18)) with (1 # 10 ^ 18)%Q. unfold Qeq, Qmult, inject_Z. cbn [Qnum Qden]. by rewrite Z.mul_1_r, Pos.mul_1_l. }
  rewrite Qinv_plus_distr. unfold Qle, Qlt. cbn [Qnum Qden]. change (Z.pos (10 ^ 18)) with (10 ^ 18). split; lia.
Qed.

(** ** One evaluation *)

(** A previous state that the observation at [t] may continue. *)
Definition continues (rule : DrawdownRule) (t : Z) (previous : option DrawdownState) : Prop :=
  match previous with
  | None => True
  | Some s => valid_drawdown_state s /\ rule_eqb (ds_rule s) rule = true /\ exists l, ds_last_at s = Aware l /\ l < t
  end.

Section Evaluate.
Variables (nav : dec) (t : Z) (rule : DrawdownRule) (previous : option DrawdownState).
Hypothesis (valid : valid_drawdown_rule rule) (nav_positive : (0 < value nav)%Q) (t_range : in_range t = true)
  (Hprev : continues rule t previous).

#[local] Abbreviation peak := (fst (peak_of nav (Aware t) previous)).
#[local] Abbreviation peak_at := (snd (peak_of nav (Aware t) previous)).

Definition next_state : DrawdownState :=
  {| ds_rule := rule; ds_peak_nav := peak; ds_peak_at := peak_at; ds_last_nav := nav; ds_last_at := Aware t;
     ds_active := is_active rule previous (exact_drawdown peak nav) |}.

(** The decision an evaluation returns for a state. *)
Definition decides (d : DrawdownDecision) : Prop :=
  let s := dd_state d in
  let exact := exact_drawdown (ds_peak_nav s) (ds_last_nav s) in
  (value (dd_drawdown d) <= exact)%Q /\ (exact < value (dd_drawdown d) + (1 # 10 ^ 18))%Q
  /\ dd_allow_new_positions d = negb (ds_active s && bool_decide (dr_action rule = block_new_positions))
  /\ dd_max_total_risk_weight d = (if ds_active s && bool_decide (dr_action rule = cap_total_risk_weight)
                                   then dr_total_risk_weight_cap rule else None).

Lemma peak_spec : exists p, peak_at = Aware p /\ in_range p = true /\ p <= t /\ (value nav <= value peak)%Q
  /\ (p = t -> (value peak == value nav)%Q).
Proof.
  unfold peak_of. destruct previous as [s|]; [|exists t; cbn [fst snd]; split_and!; try done; try lia; try apply Qle_refl].
  destruct Hprev as ([_ Hs] & _ & l & El & Hl). apply mk_state_facts in Hs as (p & l' & F). destruct F. assert (l' = l) as -> by congruence.
  destruct (dltb (ds_peak_nav s) nav) eqn:E; cbn [fst snd].
  - exists t. split_and!; try done; try lia; try apply Qle_refl.
  - apply dltb_ge in E. exists p. split_and!; try done; try lia.
Qed.

Lemma next_active : let dd := exact_drawdown peak nav in
  (is_active rule previous dd = true -> (value (dr_release_drawdown rule) < dd)%Q)
  /\ (is_active rule previous dd = false -> (dd < value (dr_trigger_drawdown rule))%Q).
Proof.
  intros dd. destruct (drawdown_rule_facts _ valid) as (_ & _ & Hlt). unfold is_active, qlt.
  destruct previous as [[? ? ? ? ? [|]]|]; rewrite ?negb_true_iff, ?negb_false_iff, ?qle_bool_false, ?Qle_bool_iff; split; intros; lra.
Qed.

Lemma next_state_facts : exists p, state_facts next_state p t.
Proof.
  destruct peak_spec as (p & Ep & Rp & Hp & Hle & Hs). destruct next_active as [Ha Hi]. exists p. by constructor.
Qed.

Lemma check_previous_ok : check_previous (Aware t) rule previous = Ok tt.
Proof.
  unfold check_previous. destruct previous as [s|]; [|done]. destruct Hprev as ([_ Hs] & -> & l & El & Hl). cbn [negb utc_instant].
  apply mk_state_facts in Hs as (p & l' & F). assert (l' = l) as -> by (pose proof (sf_last_at _ _ _ F); congruence).
  rewrite t_range, El. cbn [rbind utc_instant]. rewrite (sf_last_range _ _ _ F). cbn [rbind]. by rewrite (proj2 (Z.leb_gt _ _)) by lia.
Qed.

Lemma evaluate_ok : exists d, evaluate_drawdown nav (Aware t) rule previous = Ok d /\ dd_state d = next_state /\ decides d.
Proof.
  destruct next_state_facts as [p F]. pose proof (mk_state_ok _ _ _ F) as Hok. unfold evaluate_drawdown.
  assert (dleb nav dzero = false) as ->.
  { apply not_true_iff_false. rewrite dleb_le, dzero_value. lra. }
  cbn [require_aware_time rbind]. rewrite check_previous_ok. cbn [rbind]. unfold next_state in Hok.
  destruct (peak_of nav (Aware t) previous) as [pn pa] eqn:Ep. cbn [fst snd] in Hok. rewrite Hok. cbn [rbind]. eexists. split; [done|].
  split; [unfold next_state; by rewrite Ep|]. pose proof (sf_positive _ _ _ F) as Hpos. unfold next_state in Hpos. rewrite Ep in Hpos. cbn in Hpos.
  destruct (display_rounds_down (exact_drawdown pn nav)) as [K1 K2]; [unfold exact_drawdown; apply Qred_complete, Qred_correct|by apply drawdown_bounds|].
  split_and!; try done.
Qed.
End Evaluate.

(** C19: on a valid rule, a positive net asset value and a time after the last one of a valid previous state of the
    same rule, an evaluation always succeeds: the state it builds satisfies the contract of its class, which would
    raise otherwise, so every state can be evaluated again; the drawdown it shows is the exact one rounded down to
    eighteen places; the restriction is the rule's action exactly while the state is active. *)
Theorem evaluate_drawdown_valid nav t rule previous :
  valid_drawdown_rule rule -> (0 < value nav)%Q -> in_range t = true -> continues rule t previous ->
  exists d, evaluate_drawdown nav (Aware t) rule previous = Ok d /\ valid_drawdown_state (dd_state d) /\ decides rule d
    /\ ds_last_nav (dd_state d) = nav /\ ds_last_at (dd_state d) = Aware t.
Proof.
  intros valid Hnav Ht Hp. destruct (evaluate_ok nav t rule previous valid Hnav Ht Hp) as (d & E & Es & Hd). exists d. rewrite Es.
  destruct (next_state_facts nav t rule previous valid Hnav Ht Hp) as [p F]. split_and!; try done. split; [done|]. by eapply mk_state_ok.
Qed.

(** ** A series of observations *)

(** The caller keeps the state each evaluation returns for the next one. *)
Definition evaluate_series (rule : DrawdownRule) (observations : list (dec * Z)) : res (option DrawdownState) :=
  fold_left (fun acc o => previous <~ acc ;; d <~ evaluate_drawdown (fst o) (Aware (snd o)) rule previous ;; Ok (Some (dd_state d)))
    observations (Ok None).

(** The highest value up to the [k]-th, and the drawdown from it. *)
Definition top (navs : list dec) (k : nat) : Q := fold_right (fun d acc => Qmax (value d) acc) 0%Q (firstn (S k) navs).
Definition fall (navs : list dec) (k : nat) : Q := ((top navs k - value (nth k navs dzero)) / top navs k)%Q.

(** Some fall reached the trigger, and no fall since then went back to the release level. *)
Definition restricted (rule : DrawdownRule) (navs : list dec) : Prop :=
  exists i, (i < length navs)%nat /\ (value (dr_trigger_drawdown rule) <= fall navs i)%Q
    /\ forall j, (i <= j < length navs)%nat -> (value (dr_release_drawdown rule) < fall navs j)%Q.

(** Positive values at increasing times. *)
Definition observable (observations : list (dec * Z)) : Prop :=
  (forall o, In o observations -> (0 < value (fst o))%Q /\ in_range (snd o) = true)
  /\ forall i j, (i < j < length observations)%nat -> snd (nth i observations (dzero, 0)) < snd (nth j observations (dzero, 0)).

(** What the state says of the history. *)
Definition summarises (rule : DrawdownRule) (observations : list (dec * Z)) (s : DrawdownState) : Prop :=
  let navs := map fst observations in
  (value (ds_peak_nav s) == top navs (length navs))%Q
  /\ (exists i t, nth_error observations i = Some (ds_peak_nav s, t) /\ ds_peak_at s = Aware t
        /\ forall j d t', (j < i)%nat -> nth_error observations j = Some (d, t') -> (value d < value (ds_peak_nav s))%Q)
  /\ (ds_active s = true <-> restricted rule navs).

Lemma firstn_long {A} k (l : list A) : (length l <= k)%nat -> firstn k l = l.
Proof. apply firstn_all2. Qed.

Lemma top_le navs d k : (0 <= top navs k)%Q /\ (In d (firstn (S k) navs) -> (value d <= top navs k)%Q).
Proof.
  unfold top. induction (firstn (S k) navs) as [|x l [IH1 IH2]]; [split; [apply Qle_refl|done]|]. cbn [fold_right].
  pose proof (Q.le_max_l (value x) (fold_right (fun d acc => Qmax (value d) acc) 0%Q l)).
  pose proof (Q.le_max_r (value x) (fold_right (fun d acc => Qmax (value d) acc) 0%Q l)). split; [lra|].
  intros [->|K]; [done|]. specialize (IH2 K). lra.
Qed.

Lemma top_snoc navs d : (0 <= value d)%Q -> (top (navs ++ [d]) (length navs) == Qmax (top navs (length navs)) (value d))%Q.
Proof.
  intros Hd. unfold top. rewrite !firstn_long by (rewrite ?length_app; cbn; lia). induction navs as [|x l IH]; cbn [app fold_right].
  - apply Q.max_comm.
  - rewrite IH. apply Q.max_assoc.
Qed.

Lemma fall_app navs d k : (k < length navs)%nat -> fall (navs ++ [d]) k = fall navs k.
Proof.
  intros H. unfold fall, top. rewrite firstn_app, app_nth1 by lia. replace (S k - length navs)%nat with 0%nat by lia. by rewrite firstn_O, app_nil_r.
Qed.

(** The restriction after one more observation. *)
Lemma restricted_snoc rule navs d : valid_drawdown_rule rule ->
  let f := fall (navs ++ [d]) (length navs) in
  restricted rule (navs ++ [d]) <-> (restricted rule navs /\ (value (dr_release_drawdown rule) < f)%Q) \/ (value (dr_trigger_drawdown rule) <= f)%Q.
Proof.
  intros valid f. destruct (drawdown_rule_facts _ valid) as (_ & _ & Hlt). unfold restricted. rewrite length_app. cbn [length]. split.
  - intros (i & Hi & Ht & Hall). destruct (Nat.eq_dec i (length navs)) as [->|Hne]; [by right|]. left. split; [|apply Hall; lia].
    rewrite fall_app in Ht by lia. exists i. split_and!; [lia|done|]. intros j Hj. rewrite <- (fall_app navs d) by lia. apply Hall. lia.
  - intros [[(i & Hi & Ht & Hall) Hr]|Ht].
    + exists i. rewrite fall_app by lia. split_and!; [lia|done|]. intros j Hj. destruct (Nat.eq_dec j (length navs)) as [->|Hne]; [done|].
      rewrite fall_app by lia. apply Hall. lia.
    + exists (length navs). split_and!; [lia|done|]. intros j Hj. assert (j = length navs) as -> by lia. fold f. lra.
Qed.

Lemma rule_eqb_refl rule : rule_eqb rule rule = true.
Proof.
  assert (R : forall d, deqb d d = true) by (intros d; apply deqb_deq; reflexivity). unfold rule_eqb. rewrite !R, bool_decide_true by done.
  destruct (dr_total_risk_weight_cap rule); [by rewrite R|done].
Qed.

Lemma top_whole navs k : (length navs <= S k)%nat -> top navs k = fold_right (fun d acc => Qmax (value d) acc) 0%Q navs.
Proof. intros H. unfold top. by rewrite firstn_long. Qed.

Lemma observable_app obs o : observable (obs ++ [o]) -> observable obs.
Proof.
  intros [H1 H2]. split; [intros x Hx; apply H1, in_app_iff; by left|]. intros i j Hij. specialize (H2 i j). rewrite length_app in H2.
  rewrite !app_nth1 in H2 by lia. apply H2. lia.
Qed.

Section SeriesStep.
Variables (rule : DrawdownRule) (obs : list (dec * Z)) (nav : dec) (t : Z) (previous : option DrawdownState).
Hypothesis (valid : valid_drawdown_rule rule) (nav_positive : (0 < value nav)%Q).
(** The state before: of an empty history, or of [obs]. *)
Hypothesis (Hprev : match previous with None => obs = [] | Some s => summarises rule obs s end).

#[local] Abbreviation s' := (next_state nav t rule previous).
#[local] Abbreviation navs := (map fst obs).

Lemma next_peak : (value (ds_peak_nav s') == top (navs ++ [nav]) (length navs))%Q.
Proof.
  rewrite top_snoc by lra. cbn [next_state ds_peak_nav]. unfold peak_of. destruct previous as [s|].
  - destruct Hprev as (Hp & _ & _). rewrite <- Hp. destruct (dltb _ nav) eqn:E; cbn [fst].
    + apply dltb_lt in E. rewrite Q.max_r by lra. reflexivity.
    + apply dltb_ge in E. by rewrite Q.max_l.
  - rewrite Hprev. cbn [fst map length top firstn fold_right]. by rewrite Q.max_r by lra.
Qed.

Lemma next_fall : (exact_drawdown (ds_peak_nav s') nav == fall (navs ++ [nav]) (length navs))%Q.
Proof. unfold exact_drawdown, fall. by rewrite Qred_correct, next_peak, nth_middle. Qed.

Lemma next_peak_first : exists i u, nth_error (obs ++ [(nav, t)]) i = Some (ds_peak_nav s', u) /\ ds_peak_at s' = Aware u
  /\ forall j d u', (j < i)%nat -> nth_error (obs ++ [(nav, t)]) j = Some (d, u') -> (value d < value (ds_peak_nav s'))%Q.
Proof.
  cbn [next_state ds_peak_nav ds_peak_at]. unfold peak_of. destruct previous as [s|].
  2: { rewrite Hprev. exists 0%nat, t. cbn. split_and!; try done. lia. }
  destruct Hprev as (Hp & (i & u & Hi & Hu & Hfirst) & _). destruct (dltb _ nav) eqn:E; cbn [fst snd].
  - apply dltb_lt in E. exists (length obs), t. rewrite nth_error_app2, Nat.sub_diag by lia. split_and!; try done. intros j d u' Hj.
    rewrite nth_error_app1 by lia. intros Hd. eapply Qle_lt_trans; [|exact E]. rewrite Hp. eapply top_le.
    rewrite firstn_long by lia. apply nth_error_In in Hd. by apply (in_map fst) in Hd.
  - exists i, u. assert (i < length obs)%nat by (apply nth_error_Some; congruence). rewrite nth_error_app1 by lia. split_and!; try done.
    intros j d u' Hj. rewrite nth_error_app1 by lia. by apply Hfirst.
Qed.

Lemma next_restricted : ds_active s' = true <-> restricted rule (navs ++ [nav]).
Proof.
  rewrite restricted_snoc by done. pose proof next_fall as Hf. cbn [next_state ds_peak_nav] in Hf. rewrite <- Hf. clear Hf.
  destruct (drawdown_rule_facts _ valid) as (_ & _ & Hlt). cbn [next_state ds_active]. unfold is_active.
  set (dd := exact_drawdown _ nav). destruct previous as [[r pn pa ln la a]|].
  - destruct Hprev as (_ & _ & Ha). cbn [ds_active] in Ha. destruct a.
    + unfold qlt. rewrite negb_true_iff, qle_bool_false. split; [|intros [[_ K]|K]; lra]. intros K. left. split; [by apply Ha|done].
    + rewrite Qle_bool_iff. split; [by right|]. intros [[K _]|K]; [by apply Ha in K|done].
  - rewrite Qle_bool_iff. split; [by right|]. intros [[(i & Hi & _) _]|K]; [|done]. rewrite Hprev in Hi. cbn in Hi. lia.
Qed.

Lemma summarises_next : summarises rule (obs ++ [(nav, t)]) s'.
Proof.
  unfold summarises. rewrite map_app. cbn [map fst]. split_and!; [|apply next_peak_first|apply next_restricted].
  rewrite next_peak, !top_whole; [reflexivity|..]; rewrite length_app; cbn; lia.
Qed.
End SeriesStep.

Lemma evaluate_series_snoc rule obs o : evaluate_series rule (obs ++ [o]) =
  (previous <~ evaluate_series rule obs ;; d <~ evaluate_drawdown (fst o) (Aware (snd o)) rule previous ;; Ok (Some (dd_state d))).
Proof. unfold evaluate_series. by rewrite fold_left_app. Qed.

Lemma series_state rule obs : valid_drawdown_rule rule -> observable obs ->
  exists p, evaluate_series rule obs = Ok p /\
    match p with
    | None => obs = []
    | Some s => valid_drawdown_state s /\ ds_rule s = rule /\ obs <> []
                /\ ds_last_at s = Aware (snd (nth (length obs - 1) obs (dzero, 0))) /\ summarises rule obs s
    end.
Proof.
  intros valid. induction obs as [|[nav t] obs IH] using rev_ind; intros Hobs; [by exists None|].
  destruct (IH (observable_app _ _ Hobs)) as (p & Ep & Hp). destruct Hobs as [H1 H2].
  destruct (H1 (nav, t)) as [Hnav Ht]; [apply in_app_iff; right; by left|]. cbn [fst snd] in Hnav, Ht.
  assert (Hc : continues rule t p).
  { destruct p as [s|]; [|done]. destruct Hp as (Hv & Er & Hne & El & _). split; [done|]. split; [rewrite Er; apply rule_eqb_refl|].
    eexists. split; [exact El|]. assert (0 < length obs)%nat by (destruct obs; [done|cbn; lia]).
    specialize (H2 (length obs - 1)%nat (length obs)). rewrite length_app, app_nth1, nth_middle in H2 by lia. apply H2. cbn. lia. }
  destruct (evaluate_ok nav t rule p valid Hnav Ht Hc) as (d & Ed & Es & _). exists (Some (next_state nav t rule p)).
  rewrite evaluate_series_snoc, Ep. cbn [rbind fst snd]. rewrite Ed. cbn [rbind]. rewrite Es. split; [done|].
  destruct (next_state_facts nav t rule p valid Hnav Ht Hc) as [q F]. split_and!.
  - split; [done|by eapply mk_state_ok].
  - done.
  - by destruct obs.
  - rewrite length_app. cbn [length]. replace (length obs + 1 - 1)%nat with (length obs) by lia. by rewrite nth_middle.
  - apply summarises_next; [done|done|]. destruct p; [by destruct Hp as (_ & _ & _ & _ & Hs)|done].
Qed.

(** C18: feeding a series of positive values at increasing times to the evaluator, one by one, always succeeds, and
    the final state is the one the whole history defines: the peak is the highest value at the first time it was
    reached, and the restriction is on exactly when some fall reached the trigger and none since then went back to
    the release level. *)
Theorem drawdown_series_refines rule obs : valid_drawdown_rule rule -> observable obs -> obs <> [] ->
  exists s, evaluate_series rule obs = Ok (Some s) /\ valid_drawdown_state s /\ summarises rule obs s.
Proof.
  intros valid Hobs Hne. destruct (series_state rule obs valid Hobs) as ([s|] & E & H); [|done]. exists s.
  destruct H as (Hv & _ & _ & _ & Hs). done.
Qed.

(** ** Witnesses *)

Definition demo_drawdown_rule : DrawdownRule :=
  {| dr_trigger_drawdown := Dec 2 (-1); dr_release_drawdown := Dec 5 (-2); dr_action := cap_total_risk_weight;
     dr_total_risk_weight_cap := Some (Dec 3 (-1)) |}.

Lemma demo_drawdown_rule_valid : valid_drawdown_rule demo_drawdown_rule.
Proof. vm_compute. reflexivity. Qed.

Definition demo_state : DrawdownState :=
  {| ds_rule := demo_drawdown_rule; ds_peak_nav := Dec 15 (-1); ds_peak_at := Aware 10; ds_last_nav := Dec 12 (-1); ds_last_at := Aware 20;
     ds_active := true |}.

Lemma evaluate_drawdown_valid_witness : exists d, evaluate_drawdown (Dec 14 (-1)) (Aware 30) demo_drawdown_rule (Some demo_state) = Ok d
  /\ valid_drawdown_state (dd_state d) /\ decides demo_drawdown_rule d /\ ds_last_nav (dd_state d) = Dec 14 (-1)
  /\ ds_last_at (dd_state d) = Aware 30.
Proof.
  apply (evaluate_drawdown_valid (Dec 14 (-1)) 30 demo_drawdown_rule (Some demo_state)).
  - exact demo_drawdown_rule_valid.
  - reflexivity.
  - reflexivity.
  - split; [split; [exact demo_drawdown_rule_valid|vm_compute; reflexivity]|]. split; [vm_compute; reflexivity|]. exists 20. split; [reflexivity|lia].
Defined.

Definition demo_series : list (dec * Z) := [(Dec 1 0, 5); (Dec 15 (-1), 10); (Dec 12 (-1), 20); (Dec 14 (-1), 30)].

Lemma demo_observable : observable demo_series.
Proof.
  split.
  - intros o Ho. repeat (destruct Ho as [<-|Ho]; [split; reflexivity|]). destruct Ho.
  - intros i j [Hij Hj]. cbn in Hj. destruct i as [|[|[|[|i]]]], j as [|[|[|[|j]]]]; try lia; cbn; lia.
Qed.

Lemma drawdown_series_refines_witness : exists s, evaluate_series demo_drawdown_rule demo_series = Ok (Some s) /\ valid_drawdown_state s
  /\ summarises demo_drawdown_rule demo_series s.
Proof. apply (drawdown_series_refines demo_drawdown_rule demo_series demo_drawdown_rule_valid demo_observable). discriminate. Defined.
