(* ===== verification/PortfolioExposure.v ===== *)
(** * Industry exposure and attribution ([src/rquant/portfolio/exposure.py])

    [calculate_industry_exposure] lists the deviations of a portfolio from its benchmark by industry,
    and [attribute_brinson_fachler] splits the active return over the same rows.  The contributions are
    exact fractions shown as decimals; the function checks that the exact ones add up and that the shown
    ones do to within a tolerance.  The theorems say when it succeeds and that these checks never fail. *)

From Stdlib Require Import ZArith QArith Qround Qabs Lqa Lia Bool.
From stdpp Require Import base list strings.
From S2P Require Import Prelude Decimal DecimalEq PortfolioWeights PortfolioNumbers PortfolioFill.
Open Scope Z_scope.
Open Scope rq_scope.

(** ** Contracts *)

Record IndustryWeight := { iw_industry_l1 : option string; iw_portfolio_weight : dec; iw_benchmark_weight : dec }.

Definition unit_interval (d : dec) : bool := dleb dzero d && dleb d done_.

Definition mk_industry_weight (w : IndustryWeight) : res IndustryWeight :=
  raise_if negb (unit_interval (iw_portfolio_weight w) && unit_interval (iw_benchmark_weight w)) as ValueError saying "field out of range" ;;
  Ok {| iw_industry_l1 := normalize_industry (iw_industry_l1 w); iw_portfolio_weight := iw_portfolio_weight w;
        iw_benchmark_weight := iw_benchmark_weight w |}.

Record ExposureInput := { ei_industries : list IndustryWeight; ei_portfolio_cash_weight : dec; ei_benchmark_cash_weight : dec }.

(** The items are validated models already. *)
Definition mk_exposure_input (spec : ExposureInput) : res ExposureInput :=
  raise_if negb (unit_interval (ei_portfolio_cash_weight spec) && unit_interval (ei_benchmark_cash_weight spec))
    as ValueError saying "field out of range" ;;
  raise_if negb (bool_decide (NoDup (map iw_industry_l1 (ei_industries spec)))) as ValueError saying "重复申万一级行业" ;;
  raise_if existsb (fun w => deqb (iw_portfolio_weight w) dzero && deqb (iw_benchmark_weight w) dzero) (ei_industries spec)
    as ValueError saying "零权重行业不应进入暴露输入" ;;
  let portfolio_total := (value (ei_portfolio_cash_weight spec) + qsum (fun w => value (iw_portfolio_weight w)) (ei_industries spec))%Q in
  let benchmark_total := (value (ei_benchmark_cash_weight spec) + qsum (fun w => value (iw_benchmark_weight w)) (ei_industries spec))%Q in
  raise_if negb (Qeq_bool portfolio_total 1) || negb (Qeq_bool benchmark_total 1)
    as ValueError saying "组合与基准的行业加现金权重须各自精确合计为 1" ;;
  Ok spec.

Inductive exposure_kind := industry | unknown | cash.

#[export] Instance exposure_kind_eq_dec : EqDecision exposure_kind.
Proof. solve_decision. Defined.

Record ExposureSlice := {
  es_kind : exposure_kind; es_industry_l1 : option string; es_portfolio_weight : dec; es_benchmark_weight : dec; es_deviation : dec
}.

Record IndustryReturn := { ir_industry_l1 : string; ir_portfolio_return : option dec; ir_benchmark_return : dec }.

Definition mk_industry_return (r : IndustryReturn) : res IndustryReturn :=
  raise_if negb (nonempty (strip (ir_industry_l1 r))) as ValueError saying "申万一级行业不能为空" ;;
  Ok {| ir_industry_l1 := strip (ir_industry_l1 r); ir_portfolio_return := ir_portfolio_return r; ir_benchmark_return := ir_benchmark_return r |}.

Record AttributionSlice := {
  as_kind : exposure_kind; as_industry_l1 : option string; as_portfolio_weight : dec; as_benchmark_weight : dec; as_deviation : dec;
  as_portfolio_return : option dec; as_benchmark_return : dec; as_allocation : dec; as_selection_and_interaction : dec; as_total : dec
}.

Record AttributionResult := {
  ar_rows : list AttributionSlice; ar_portfolio_return : dec; ar_benchmark_return : dec; ar_active_return : dec;
  ar_attributed_return : dec; ar_residual : dec
}.

(** ** Decimals of fractions *)

(** [Decimal(value.numerator) / Decimal(value.denominator)] in a context of [p] digits. *)
Definition quotient_at (p : Z) (q : Q) : dec :=
  let d := div_at p (Z.abs (Qnum q)) (QDen q) in Dec (Z.sgn (Qnum q) * mant d) (expo d).

Definition exact_decimal (q : Q) : dec :=
  if Qeq_bool q 0 then dzero
  else quotient_at (ndigits (Z.abs (Qnum q)) + ndigits (QDen q) + 10) q.

(** [d.quantize(Decimal("1e-18"), rounding=ROUND_HALF_EVEN)]; [rounded_fits] says that the context holds the result. *)
Definition quantize_even (places : Z) (d : dec) : dec :=
  let s := expo d + places in
  Dec (if 0 <=? s then mant d * 10 ^ s else half_even (mant d) (- s)) (- places).

Definition rounded_decimal (q : Q) : dec :=
  if Qeq_bool q 0 then dzero
  else quantize_even 18 (quotient_at (ndigits (Z.abs (Qnum q)) + ndigits (QDen q) + 30) q).

(** ** Exposure *)

(** [key=lambda item: (item.industry_l1 is None, item.industry_l1 or "")] *)
Definition industry_before (a b : IndustryWeight) : bool :=
  match iw_industry_l1 a, iw_industry_l1 b with
  | Some x, Some y => String.leb x y
  | Some _, None | None, None => true
  | None, Some _ => false
  end.

Definition ordered_industries (spec : ExposureInput) : list IndustryWeight := sort_by industry_before (ei_industries spec).

Definition industry_slice (w : IndustryWeight) : ExposureSlice :=
  {| es_kind := match iw_industry_l1 w with None => unknown | Some _ => industry end; es_industry_l1 := iw_industry_l1 w;
     es_portfolio_weight := iw_portfolio_weight w; es_benchmark_weight := iw_benchmark_weight w;
     es_deviation := exact_decimal (Qred (value (iw_portfolio_weight w) - value (iw_benchmark_weight w))) |}.

Definition cash_slice (spec : ExposureInput) : ExposureSlice :=
  {| es_kind := cash; es_industry_l1 := None;
     es_portfolio_weight := ei_portfolio_cash_weight spec; es_benchmark_weight := ei_benchmark_cash_weight spec;
     es_deviation := exact_decimal (Qred (value (ei_portfolio_cash_weight spec) - value (ei_benchmark_cash_weight spec))) |}.

Definition calculate_industry_exposure (spec : ExposureInput) : list ExposureSlice :=
  map industry_slice (ordered_industries spec) ++ [cash_slice spec].

(** ** Attribution *)

Definition attribution_error {A} (message : string) : res A := Err (Raise PortfolioAttributionError message).

Fixpoint index_returns (returns : list IndustryReturn) (by_industry : list IndustryReturn) : res (list IndustryReturn) :=
  match returns with
  | [] => Ok by_industry
  | item :: returns =>
      if existsb (fun r => eqs (ir_industry_l1 r) (ir_industry_l1 item)) by_industry
      then attribution_error ("重复行业收益：" +:+ ir_industry_l1 item)
      else index_returns returns (by_industry ++ [item])
  end.

Definition no_return : IndustryReturn := {| ir_industry_l1 := ""; ir_portfolio_return := None; ir_benchmark_return := dzero |}.

(** [by_industry[industry]], asked only for an industry that is there. *)
Definition return_of (by_industry : list IndustryReturn) (name : string) : IndustryReturn :=
  default no_return (List.find (fun r => eqs (ir_industry_l1 r) name) by_industry).

Definition has_return (by_industry : list IndustryReturn) (name : string) : bool :=
  existsb (fun r => eqs (ir_industry_l1 r) name) by_industry.

Definition row_name (row : ExposureSlice) : string := default "" (es_industry_l1 row).

(** The first of the names in order, or an error for it. *)
Definition sorted_names (l : list string) : list string := sort_by String.leb l.

Definition industry_rows (rows : list ExposureSlice) : list ExposureSlice :=
  List.filter (fun row => bool_decide (es_kind row = industry)) rows.

Section Attribute.
Variables (spec : ExposureInput) (by_industry : list IndustryReturn) (rows : list ExposureSlice).

Definition record_of (row : ExposureSlice) : IndustryReturn := return_of by_industry (row_name row).
Definition portfolio_return_of (row : ExposureSlice) : Q := match ir_portfolio_return (record_of row) with None => 0%Q | Some r => value r end.

Definition benchmark_total : Q :=
  qsum (fun row => value (es_benchmark_weight row) * value (ir_benchmark_return (record_of row)))%Q rows.
Definition portfolio_total : Q :=
  qsum (fun row => value (es_portfolio_weight row) * portfolio_return_of row)%Q
    (List.filter (fun row => dltb dzero (es_portfolio_weight row)) rows).

Definition allocation_of (row : ExposureSlice) : Q :=
  Qred ((value (es_portfolio_weight row) - value (es_benchmark_weight row)) * (value (ir_benchmark_return (record_of row)) - benchmark_total)).
Definition selection_of (row : ExposureSlice) : Q :=
  match ir_portfolio_return (record_of row) with
  | None => 0%Q
  | Some r => Qred (value (es_portfolio_weight row) * (value r - value (ir_benchmark_return (record_of row))))
  end.
Definition contribution_of (row : ExposureSlice) : Q := Qred (allocation_of row + selection_of row).

Definition attribution_slice (row : ExposureSlice) : AttributionSlice :=
  {| as_kind := industry; as_industry_l1 := es_industry_l1 row; as_portfolio_weight := es_portfolio_weight row;
     as_benchmark_weight := es_benchmark_weight row; as_deviation := es_deviation row;
     as_portfolio_return := ir_portfolio_return (record_of row); as_benchmark_return := ir_benchmark_return (record_of row);
     as_allocation := rounded_decimal (allocation_of row); as_selection_and_interaction := rounded_decimal (selection_of row);
     as_total := rounded_decimal (contribution_of row) |}.

Definition cash_allocation (row : ExposureSlice) : Q :=
  Qred ((value (es_portfolio_weight row) - value (es_benchmark_weight row)) * - benchmark_total).

Definition cash_attribution (row : ExposureSlice) : AttributionSlice :=
  {| as_kind := cash; as_industry_l1 := None; as_portfolio_weight := es_portfolio_weight row; as_benchmark_weight := es_benchmark_weight row;
     as_deviation := es_deviation row; as_portfolio_return := Some dzero; as_benchmark_return := dzero;
     as_allocation := rounded_decimal (cash_allocation row); as_selection_and_interaction := dzero;
     as_total := rounded_decimal (cash_allocation row) |}.
End Attribute.

Definition reconciliation_tolerance : dec := Dec 1 (-12).

Definition attribute_rows (by_industry : list IndustryReturn) (rows : list ExposureSlice) (cash_row : ExposureSlice) : res AttributionResult :=
  let benchmark := benchmark_total by_industry rows in
  let portfolio := portfolio_total by_industry rows in
  let result_rows := map (attribution_slice by_industry rows) rows ++ [cash_attribution by_industry rows cash_row] in
  let exact_active := Qred (portfolio - benchmark) in
  raise_if negb (Qeq_bool (qsum (contribution_of by_industry rows) rows + cash_allocation by_industry rows cash_row) exact_active)
    as PortfolioAttributionError saying "行业与现金贡献未能对账" ;;
  let active := rounded_decimal exact_active in
  let digits := fold_right Z.max 0 (map (fun row => ndigits (Z.abs (mant (as_total row)))) result_rows) in
  let p := Z.max 50 (digits + Z.of_nat (length result_rows) + 20) in
  let attributed := fold_left (fun acc row => add_at p acc (as_total row)) result_rows dzero in
  let residual := add_at p active (dneg attributed) in
  raise_if dltb reconciliation_tolerance (dabs residual) as PortfolioAttributionError saying "展示精度下归因残差超过容差" ;;
  Ok {| ar_rows := result_rows; ar_portfolio_return := rounded_decimal portfolio; ar_benchmark_return := rounded_decimal benchmark;
        ar_active_return := active; ar_attributed_return := attributed; ar_residual := residual |}.

Definition attribute_brinson_fachler (spec : ExposureInput) (returns : list IndustryReturn) : res AttributionResult :=
  let exposure := calculate_industry_exposure spec in
  raise_if existsb (fun row => bool_decide (es_kind row = unknown)) exposure as PortfolioAttributionError saying "未知行业无法做申万一级归因" ;;
  by_industry <~ index_returns returns [] ;;
  let expected := map row_name (industry_rows exposure) in
  match List.find (fun name => negb (has_return by_industry name)) (sorted_names expected) with
  | Some name => attribution_error ("缺少基准行业收益：" +:+ name)
  | None =>
      match sorted_names (List.filter (fun name => negb (bool_decide (name ∈ expected))) (map ir_industry_l1 by_industry)) with
      | name :: _ => attribution_error ("行业收益未匹配暴露：" +:+ name)
      | [] =>
          match List.find (fun row => dltb dzero (es_portfolio_weight row)
                                      && bool_decide (ir_portfolio_return (record_of by_industry row) = None)) (industry_rows exposure) with
          | Some row => attribution_error ("缺少组合行业收益：" +:+ row_name row)
          | None => attribute_rows by_industry (industry_rows exposure) (cash_slice spec)
          end
      end
  end.

(** ** Rounded decimals are near the fraction *)

Lemma half_even_opp m k : half_even (- m) k = - half_even m k.
Proof. unfold half_even. rewrite Z.abs_opp, Z.sgn_opp. lia. Qed.

Lemma half_even_sgn s m k : s = 1 \/ s = -1 -> half_even (s * m) k = s * half_even m k.
Proof. intros [->| ->]; [by rewrite !Z.mul_1_l|]. replace (-1 * m) with (- m) by lia. rewrite half_even_opp. lia. Qed.

Lemma rounded_exponent q : - 18 <= expo (rounded_decimal q) <= 0.
Proof. unfold rounded_decimal. destruct (Qeq_bool q 0); cbn; lia. Qed.

(** The units of [1e-18] in the shown decimal are within one of those in the fraction. *)
Lemma rounded_units q : (Qabs (inject_Z (units 18 (rounded_decimal q)) - q * inject_Z (10 ^ 18)) <= 1)%Q.
Proof.
  unfold rounded_decimal. destruct (Qeq_bool q 0) eqn:E0.
  { apply Qeq_bool_iff in E0. rewrite E0. done. }
  apply Qeq_bool_neq in E0. destruct q as [c n]. cbn [Qnum Qden]. assert (c <> 0) as Hc by (unfold Qeq in E0; cbn in E0; lia).
  set (p := ndigits (Z.abs c) + ndigits (Z.pos n) + 30). pose proof (ndigits_pos (Z.pos n)).
  pose proof (nearest_quotient (Z.abs c) (Z.pos n) 18 p ltac:(lia) ltac:(lia) ltac:(lia) ltac:(unfold p; lia)) as Hn.
  assert (Hs : Z.sgn c = 1 \/ Z.sgn c = -1) by lia. unfold quantize_even, quotient_at, units. cbn [mant expo Qnum Qden].
  rewrite half_even_sgn, Z.add_opp_diag_l, Z.pow_0_r, Z.mul_1_r by done. set (d := div_at p (Z.abs c) (Z.pos n)) in *.
  rewrite <- Z.mul_assoc. match type of Hn with context [if ?b then ?x else ?y] => set (m := if b then x else y) in *; assert (Em :
    (if b then Z.sgn c * x else Z.sgn c * y) = Z.sgn c * m) by (unfold m; by destruct b) end.
  rewrite Em. clearbody m. clear Em. apply Qabs_Qle_condition. unfold Qle, Qminus, Qplus, Qopp, Qmult, inject_Z. cbn [Qnum Qden].
  rewrite !Pos.mul_1_l, !Pos.mul_1_r, !Z.mul_1_r, !Z.mul_1_l. change (Z.pos (10 ^ 18)) with (10 ^ 18) in *. destruct Hs as [Hs|Hs]; rewrite Hs; nia.
Qed.

(** The context of the quantization is wide enough for its result. *)
Lemma rounded_fits q : Z.abs (mant (rounded_decimal q)) < 10 ^ (ndigits (Z.abs (Qnum q)) + ndigits (QDen q) + 30).
Proof.
  pose proof (rounded_units q) as H. assert (Hm : Z.abs (mant (rounded_decimal q)) <= Z.abs (units 18 (rounded_decimal q))).
  { unfold units. pose proof (rounded_exponent q). pose proof (pow10Z_pos (expo (rounded_decimal q) + 18) ltac:(lia)). nia. }
  set (u := units 18 (rounded_decimal q)) in *. pose proof (ndigits_pos (QDen q)). pose proof (ndigits_pos (Z.abs (Qnum q))).
  assert (Hu : Z.abs u <= Z.abs (Qnum q) * 10 ^ 18 + 1).
  { destruct q as [c n]. cbn [Qnum Qden] in *. apply Qabs_Qle_condition in H as [K1 K2]. unfold Qle, Qminus, Qplus, Qopp, Qmult, inject_Z in *.
    cbn [Qnum Qden] in *. rewrite !Pos.mul_1_l, !Pos.mul_1_r, !Z.mul_1_r in *. change (Z.pos (10 ^ 18)) with (10 ^ 18) in *. nia. }
  assert (Hd : Z.abs (Qnum q) < 10 ^ ndigits (Z.abs (Qnum q))).
  { destruct (Z.eq_dec (Z.abs (Qnum q)) 0) as [->|Hne]; [done|]. apply ndigits_spec. lia. }
  rewrite <- Z.add_assoc, (Z.pow_add_r 10 (ndigits (Z.abs (Qnum q)))) by lia.
  pose proof (pow10Z_mono 31 (ndigits (QDen q) + 30) ltac:(lia)). change (10 ^ 31) with 10000000000000000000000000000000 in *.
  change (10 ^ 18) with 1000000000000000000 in *. nia.
Qed.

(** ** Sums in any order *)

Lemma insert_sorted_permutation {A} (before : A -> A -> bool) x l : insert_sorted before x l ≡ₚ x :: l.
Proof. induction l as [|y l IH]; [done|]. cbn. destruct (before x y); [done|]. rewrite IH. apply Permutation_swap. Qed.

Lemma sort_by_permutation {A} (before : A -> A -> bool) l : sort_by before l ≡ₚ l.
Proof. induction l as [|x l IH]; [done|]. cbn. unfold sort_by in IH. by rewrite insert_sorted_permutation, IH. Qed.

Lemma qsum_permutation {A} (f : A -> Q) l k : l ≡ₚ k -> (qsum f l == qsum f k)%Q.
Proof. induction 1; rewrite ?qsum_cons; [done|by rewrite IHPermutation|lra|by rewrite IHPermutation1]. Qed.

(** ** The exact contributions add up *)

Section Exact.
Variables (by_industry : list IndustryReturn) (rows : list ExposureSlice) (cash_row : ExposureSlice).
Hypothesis (weights_nonneg : forall row, In row rows -> (0 <= value (es_portfolio_weight row))%Q).
Hypothesis (returns_given : forall row, In row rows -> (0 < value (es_portfolio_weight row))%Q -> ir_portfolio_return (record_of by_industry row) <> None).
Hypothesis (same_total : (value (es_portfolio_weight cash_row) + qsum (fun row => value (es_portfolio_weight row)) rows
  == value (es_benchmark_weight cash_row) + qsum (fun row => value (es_benchmark_weight row)) rows)%Q).

Lemma contribution_exact row : In row rows ->
  (contribution_of by_industry rows row
   == (if dltb dzero (es_portfolio_weight row) then value (es_portfolio_weight row) * portfolio_return_of by_industry row else 0)
      + -(1) * (value (es_benchmark_weight row) * value (ir_benchmark_return (record_of by_industry row)))
      + - benchmark_total by_industry rows * (value (es_portfolio_weight row) - value (es_benchmark_weight row)))%Q.
Proof.
  intros Hr. specialize (weights_nonneg row Hr). specialize (returns_given row Hr). unfold contribution_of, allocation_of, selection_of, portfolio_return_of.
  rewrite !Qred_correct. set (B := benchmark_total _ _). destruct (dltb dzero _) eqn:E.
  - apply dltb_lt in E. assert (Z0 : (value dzero == 0)%Q) by done. rewrite Z0 in E.
    destruct (ir_portfolio_return _); [rewrite Qred_correct; ring|by destruct (returns_given E)].
  - apply dltb_ge in E. assert (Z0 : (value dzero == 0)%Q) by done. rewrite Z0 in E. assert (W0 : (value (es_portfolio_weight row) == 0)%Q) by lra.
    destruct (ir_portfolio_return _); rewrite ?Qred_correct, W0; ring.
Qed.

Lemma contributions_add_up :
  (qsum (contribution_of by_industry rows) rows + cash_allocation by_industry rows cash_row
   == portfolio_total by_industry rows - benchmark_total by_industry rows)%Q.
Proof.
  rewrite (qsum_ext _ _ rows contribution_exact), !qsum_plus, !qsum_scale. unfold portfolio_total, cash_allocation. rewrite Qred_correct, qsum_filter.
  fold (benchmark_total by_industry rows). set (B := benchmark_total _ _). set (P := qsum (fun row => if dltb _ _ then _ else _) rows).
  rewrite qsum_minus. set (WP := qsum (fun row => value (es_portfolio_weight row)) rows) in *. set (WB := qsum (fun row => value (es_benchmark_weight row)) rows) in *.
  assert (Ec : (value (es_portfolio_weight cash_row) - value (es_benchmark_weight cash_row) == - (WP - WB))%Q) by lra.
  rewrite Ec. ring.
Qed.
End Exact.

(** ** The shown contributions add up to within the tolerance *)

Lemma rounded_units_mant q : units 18 (rounded_decimal q) = mant (rounded_decimal q).
Proof. unfold rounded_decimal, units. destruct (Qeq_bool q 0); [done|]. cbn [quantize_even mant expo]. by rewrite Z.add_opp_diag_l, Z.mul_1_r. Qed.

Lemma units18_value d : - 18 <= expo d -> (value d == inject_Z (units 18 d) * (1 # 10 ^ 18))%Q.
Proof. intros H. rewrite (units_value 18) by lia. reflexivity. Qed.

Lemma rounded_value q : (value (rounded_decimal q) == inject_Z (units 18 (rounded_decimal q)) * (1 # 10 ^ 18))%Q.
Proof. apply units18_value, rounded_exponent. Qed.

Lemma rounded_near q : (Qabs (value (rounded_decimal q) - q) <= 1 # 10 ^ 18)%Q.
Proof.
  pose proof (rounded_units q) as H. rewrite rounded_value. apply Qabs_Qle_condition in H as [K1 K2]. apply Qabs_Qle_condition.
  change (inject_Z (10 ^ 18)) with (10 ^ 18 # 1)%Q in *. set (u := inject_Z _) in *.
  assert (E : (q == q * (10 ^ 18 # 1) * (1 # 10 ^ 18))%Q) by (rewrite <- Qmult_assoc; change ((10 ^ 18 # 1) * (1 # 10 ^ 18))%Q with (10 ^ 18 # 10 ^ 18)%Q;
    assert (10 ^ 18 # 10 ^ 18 == 1)%Q as -> by done; ring).
  set (x := (q * (10 ^ 18 # 1))%Q) in *. rewrite E. assert (He : (0 < 1 # 10 ^ 18)%Q) by done. set (e := (1 # 10 ^ 18)%Q) in *. split; nra.
Qed.

Lemma rounded_sum (qs : list Q) :
  (Qabs (inject_Z (sumZ (fun q => units 18 (rounded_decimal q)) qs) - qsum (fun q => q) qs * inject_Z (10 ^ 18)) <= inject_Z (Z.of_nat (length qs)))%Q.
Proof.
  induction qs as [|q qs IH]; [done|]. rewrite sumZ_cons, qsum_cons, inject_Z_plus. cbn [length]. rewrite Nat2Z.inj_succ, <- Z.add_1_l, inject_Z_plus.
  pose proof (rounded_units q) as H. apply Qabs_Qle_condition in H as [K1 K2]. apply Qabs_Qle_condition in IH as [K3 K4]. apply Qabs_Qle_condition.
  change (inject_Z 1) with 1%Q. split; lra.
Qed.

Lemma max_digits (l : list Z) x : In x l -> x <= fold_right Z.max 0 l.
Proof. induction l as [|y l IH]; [done|]. cbn [fold_right]. intros [->|K]; [lia|]. specialize (IH K). lia. Qed.

Lemma digits_bound m : Z.abs m < 10 ^ ndigits (Z.abs m).
Proof. destruct (Z.eq_dec (Z.abs m) 0) as [->|Hne]; [done|]. apply ndigits_spec. lia. Qed.

Lemma sumZ_bounded {A} (f : A -> Z) l b : (forall x, In x l -> f x <= b) -> sumZ f l <= Z.of_nat (length l) * b.
Proof.
  induction l as [|x l IH]; intros H; [done|]. rewrite sumZ_cons. cbn [length]. pose proof (H x (or_introl eq_refl)).
  assert (sumZ f l <= Z.of_nat (length l) * b) by (apply IH; intros y Hy; apply H; by right). lia.
Qed.

Lemma abs_scaled m q b : 0 < q -> Z.abs (m * q) <= b -> Z.abs m <= b.
Proof. intros. nia. Qed.

Lemma length_below_pow (n : nat) : Z.of_nat n < 10 ^ Z.of_nat n.
Proof. apply Z.pow_gt_lin_r; lia. Qed.

(** What a returned attribution satisfies. *)
Record reconciles (exact_active : Q) (r : AttributionResult) : Prop := {
  re_sum : (value (ar_attributed_return r) == qsum (fun row => value (as_total row)) (ar_rows r))%Q;
  re_residual : (value (ar_residual r) == value (ar_active_return r) - value (ar_attributed_return r))%Q;
  re_small : (Qabs (value (ar_residual r)) <= inject_Z (Z.of_nat (length (ar_rows r)) + 1) * (1 # 10 ^ 18))%Q;
  re_active : (Qabs (value (ar_active_return r) - exact_active) <= 1 # 10 ^ 18)%Q
}.

Section Shown.
(** Slices whose totals show the fractions [qs], which add up to [active]. *)
Variables (slices : list AttributionSlice) (qs : list Q) (active : Q).
Hypothesis (Hshow : map as_total slices = map rounded_decimal qs) (Hsum : (qsum (fun q => q) qs == active)%Q)
  (Hmany : Z.of_nat (length slices) < 10 ^ 6).

#[local] Abbreviation p := (Z.max 50 (fold_right Z.max 0 (map (fun row => ndigits (Z.abs (mant (as_total row)))) slices) + Z.of_nat (length slices) + 20)).
#[local] Abbreviation attributed := (fold_left (fun acc row => add_at p acc (as_total row)) slices dzero).
#[local] Abbreviation residual := (add_at p (rounded_decimal active) (dneg attributed)).

Lemma slice_total row : In row slices -> exists q, as_total row = rounded_decimal q.
Proof. intros H. apply (in_map as_total) in H. rewrite Hshow in H. apply in_map_iff in H as (q & <- & _). by exists q. Qed.

Lemma slices_sum : sumZ (fun row => units 18 (as_total row)) slices = sumZ (fun q => units 18 (rounded_decimal q)) qs.
Proof. rewrite <- (sumZ_map as_total (units 18)), Hshow. apply sumZ_map. Qed.

Lemma same_length : length qs = length slices.
Proof. rewrite <- (length_map rounded_decimal qs), <- Hshow. apply length_map. Qed.

Lemma totals_fit : sumZ (fun row => Z.abs (units 18 (as_total row))) slices < 10 ^ p.
Proof.
  set (D := fold_right Z.max 0 (map (fun row => ndigits (Z.abs (mant (as_total row)))) slices)).
  assert (Hrow : forall row, In row slices -> Z.abs (units 18 (as_total row)) <= 10 ^ D).
  { intros row Hr. destruct (slice_total row Hr) as [q Eq]. rewrite Eq, rounded_units_mant, <- Eq.
    pose proof (max_digits (map (fun row => ndigits (Z.abs (mant (as_total row)))) slices) _ (in_map (fun row => ndigits (Z.abs (mant (as_total row)))) _ _ Hr)) as Hd.
    cbn beta in Hd. fold D in Hd. pose proof (digits_bound (mant (as_total row))). pose proof (pow10Z_mono _ _ Hd). lia. }
  assert (0 <= D) as HD by (unfold D; clear; induction slices; cbn; lia).
  assert (Hle : sumZ (fun row => Z.abs (units 18 (as_total row))) slices <= Z.of_nat (length slices) * 10 ^ D).
  { by apply sumZ_bounded. }
  eapply Z.le_lt_trans; [exact Hle|]. apply Z.lt_le_trans with (10 ^ (Z.of_nat (length slices) + D)); [|apply pow10Z_mono; unfold D; lia].
  rewrite Z.pow_add_r by lia. pose proof (length_below_pow (length slices)). pose proof (pow10Z_pos D HD). nia.
Qed.

Lemma attributed_units : - 18 <= expo attributed /\ units 18 attributed = sumZ (fun row => units 18 (as_total row)) slices.
Proof.
  destruct (fold_units_signed p 18 as_total slices dzero) as [K1 K2].
  - intros row Hr. destruct (slice_total row Hr) as [q ->]. apply rounded_exponent.
  - done.
  - change (units 18 dzero) with 0. pose proof totals_fit. lia.
  - split; [done|]. rewrite K2. change (units 18 dzero) with 0. lia.
Qed.

Lemma units_near : Z.abs (units 18 (rounded_decimal active) - units 18 attributed) <= Z.of_nat (length slices) + 1.
Proof.
  destruct attributed_units as [_ ->]. rewrite slices_sum. pose proof (rounded_units active) as Ha. pose proof (rounded_sum qs) as Hq.
  rewrite same_length, Hsum in Hq. apply Qabs_Qle_condition in Ha as [K1 K2]. apply Qabs_Qle_condition in Hq as [K3 K4].
  set (uA := units 18 (rounded_decimal active)) in *. set (uT := sumZ _ qs) in *.
  assert (inject_Z uA <= inject_Z (uT + Z.of_nat (length slices) + 1))%Q as L1 by (rewrite !inject_Z_plus; change (inject_Z 1) with 1%Q; lra).
  assert (inject_Z uT <= inject_Z (uA + Z.of_nat (length slices) + 1))%Q as L2 by (rewrite !inject_Z_plus; change (inject_Z 1) with 1%Q; lra).
  rewrite <- Zle_Qle in L1, L2. lia.
Qed.

Lemma residual_units : - 18 <= expo residual /\ units 18 residual = units 18 (rounded_decimal active) - units 18 attributed.
Proof.
  destruct attributed_units as [Ha _]. pose proof units_near as Hn. pose proof (rounded_exponent active) as He.
  assert (En : units 18 (dneg attributed) = - units 18 attributed) by (unfold units; cbn [dneg mant expo]; lia).
  destruct (add_at_units p 18 (rounded_decimal active) (dneg attributed)) as [K1 K2]; [lia|done| |].
  - rewrite En. pose proof (pow10Z_mono 50 p ltac:(lia)). change (10 ^ 6) with 1000000 in Hmany.
    assert (1000001 < 10 ^ 50) by (vm_compute; done). replace (units 18 (rounded_decimal active) + - units 18 attributed)
      with (units 18 (rounded_decimal active) - units 18 attributed) by lia. lia.
  - split; [done|]. rewrite K2, En. lia.
Qed.

Lemma residual_small : (Qabs (value residual) <= inject_Z (Z.of_nat (length slices) + 1) * (1 # 10 ^ 18))%Q.
Proof.
  destruct residual_units as [He Eu]. pose proof units_near as Hn. rewrite units18_value by done. rewrite Eu. rewrite Qabs_Qmult. change (Qabs (1 # 10 ^ 18)) with (1 # 10 ^ 18)%Q.
  apply Qmult_le_compat_r; [|done]. change (Qabs (inject_Z (units 18 (rounded_decimal active) - units 18 attributed)))
    with (inject_Z (Z.abs (units 18 (rounded_decimal active) - units 18 attributed))). by rewrite <- Zle_Qle.
Qed.

(** The second check of the source never raises. *)
Lemma tolerance_met : dltb reconciliation_tolerance (dabs residual) = false.
Proof.
  destruct residual_units as [He Eu]. pose proof units_near as Hn. change (10 ^ 6) with 1000000 in Hmany.
  assert (Hm : Z.abs (mant residual) <= 1000000).
  { rewrite <- Eu in Hn. unfold units in Hn. apply Z.le_trans with (Z.of_nat (length slices) + 1); [|lia]. apply (abs_scaled _ (10 ^ (expo residual + 18))); [apply pow10Z_pos; lia|done]. }
  apply dltb_ge. unfold dabs. rewrite fix_fits by (cbn [mant]; change prec with 28; rewrite Z.abs_idemp; eapply Z.le_lt_trans; [exact Hm|done]).
  assert (value (Dec (Z.abs (mant residual)) (expo residual)) == Qabs (value residual))%Q as ->.
  { unfold value. cbn [mant expo]. rewrite Qabs_Qmult. change (Qabs (inject_Z (mant residual))) with (inject_Z (Z.abs (mant residual))).
    rewrite (Qabs_pos (Qpower 10 (expo residual))); [done|]. apply Qlt_le_weak, (pow10_pos (expo residual)). }
  eapply Qle_trans; [apply residual_small|]. change (value reconciliation_tolerance) with (1 # 10 ^ 12)%Q.
  apply Qle_trans with (inject_Z 1000000 * (1 # 10 ^ 18))%Q; [|vm_compute; discriminate]. apply Qmult_le_compat_r; [|done]. rewrite <- Zle_Qle. lia.
Qed.

Lemma shown_reconciles portfolio benchmark : reconciles active
  {| ar_rows := slices; ar_portfolio_return := portfolio; ar_benchmark_return := benchmark; ar_active_return := rounded_decimal active;
     ar_attributed_return := attributed; ar_residual := residual |}.
Proof.
  destruct attributed_units as [Ha Ea]. destruct residual_units as [He Eu]. constructor; cbn [ar_rows ar_attributed_return ar_residual ar_active_return].
  - rewrite units18_value, Ea by done.
    assert (Hall : forall row, In row slices -> (value (as_total row) == inject_Z (units 18 (as_total row)) * (1 # 10 ^ 18))%Q).
    { intros row Hr. destruct (slice_total row Hr) as [q ->]. apply rounded_value. }
    clear -Hall. induction slices as [|x l IH]; [done|]. assert (E : (inject_Z (sumZ (fun row => units 18 (as_total row)) l) * (1 # 10 ^ 18)
      == qsum (fun row => value (as_total row)) l)%Q) by (apply IH; intros; apply Hall; by right).
    rewrite sumZ_cons, qsum_cons, inject_Z_plus, Qmult_plus_distr_l, E, (Hall x) by (by left). reflexivity.
  - rewrite (units18_value residual), (units18_value attributed), (rounded_value active), Eu by done. unfold Z.sub. rewrite inject_Z_plus, inject_Z_opp. ring.
  - apply residual_small.
  - apply rounded_near.
Qed.
End Shown.

(** ** When an attribution succeeds *)

Definition valid_exposure (spec : ExposureInput) : Prop :=
  mk_exposure_input spec = Ok spec /\ forall w, In w (ei_industries spec) -> mk_industry_weight w = Ok w.

(** The returns cover the industries: every one is known and has one return, there is no other return, and the
    portfolio's own return is given where it holds something. *)
Definition covered (spec : ExposureInput) (returns : list IndustryReturn) : Prop :=
  (forall w, In w (ei_industries spec) -> iw_industry_l1 w <> None)
  /\ NoDup (map ir_industry_l1 returns)
  /\ (forall name, In name (map ir_industry_l1 returns) <-> In (Some name) (map iw_industry_l1 (ei_industries spec)))
  /\ (forall w name, In w (ei_industries spec) -> iw_industry_l1 w = Some name -> (0 < value (iw_portfolio_weight w))%Q ->
        ir_portfolio_return (return_of returns name) <> None).

(** The exact active return, from the inputs. *)
Definition active_return (spec : ExposureInput) (returns : list IndustryReturn) : Q :=
  qsum (fun w => let r := return_of returns (default "" (iw_industry_l1 w)) in
    (value (iw_portfolio_weight w) * (match ir_portfolio_return r with None => 0 | Some x => value x end)
     - value (iw_benchmark_weight w) * value (ir_benchmark_return r))%Q) (ei_industries spec).

Lemma index_returns_cases returns seen : NoDup (map ir_industry_l1 seen) ->
  (index_returns returns seen = Ok (seen ++ returns) /\ NoDup (map ir_industry_l1 (seen ++ returns)))
  \/ (exists m, index_returns returns seen = attribution_error m) /\ ~ NoDup (map ir_industry_l1 (seen ++ returns)).
Proof.
  revert seen. induction returns as [|x l IH]; intros seen Hs; cbn [index_returns]; [left; by rewrite app_nil_r|].
  destruct (existsb _ seen) eqn:E.
  - right. split; [by eexists|]. apply existsb_exists in E as (y & Hy & Ey). apply bool_decide_eq_true in Ey. rewrite map_app. cbn [map].
    intros Hn. apply NoDup_app in Hn as (_ & Hd & _). apply (Hd (ir_industry_l1 y)); [by apply list_elem_of_In, in_map|]. rewrite Ey. by left.
  - assert (Hs' : NoDup (map ir_industry_l1 (seen ++ [x]))).
    { rewrite map_app. apply NoDup_app. split_and!; [done| |apply NoDup_singleton]. intros n Hn Hx. cbn in Hx. apply list_elem_of_singleton in Hx as ->.
      apply list_elem_of_In, in_map_iff in Hn as (y & Ey & Hy). apply not_true_iff_false in E. apply E, existsb_exists. exists y. split; [done|].
      by apply bool_decide_eq_true. }
    specialize (IH (seen ++ [x]) Hs'). by rewrite <- !app_assoc in IH.
Qed.

Section Coverage.
Variables (spec : ExposureInput) (returns : list IndustryReturn).
Hypothesis (valid : valid_exposure spec) (few : Z.of_nat (length (ei_industries spec)) + 1 < 10 ^ 6).

#[local] Abbreviation exposure := (calculate_industry_exposure spec).
#[local] Abbreviation rows := (map industry_slice (ordered_industries spec)).

Lemma in_ordered w : In w (ordered_industries spec) <-> In w (ei_industries spec).
Proof. unfold ordered_industries. rewrite <- !list_elem_of_In. by rewrite sort_by_permutation. Qed.

Lemma weights_facts w : In w (ei_industries spec) -> (0 <= value (iw_portfolio_weight w))%Q.
Proof.
  intros Hw. destruct valid as [_ Hv]. specialize (Hv w Hw). unfold mk_industry_weight in Hv. destruct (_ && _) eqn:E in Hv; [|done].
  apply andb_true_iff in E as [E _]. apply andb_true_iff in E as [E _]. rewrite dleb_le in E. exact E.
Qed.

Lemma totals_equal : (value (ei_portfolio_cash_weight spec) + qsum (fun w => value (iw_portfolio_weight w)) (ei_industries spec)
  == value (ei_benchmark_cash_weight spec) + qsum (fun w => value (iw_benchmark_weight w)) (ei_industries spec))%Q.
Proof.
  destruct valid as [Hv _]. unfold mk_exposure_input in Hv. destruct (negb (_ && _)); [done|]. destruct (negb (bool_decide _)); [done|].
  destruct (existsb _ _); [done|]. destruct (_ || _) eqn:E in Hv; [done|]. apply orb_false_iff in E as [E1 E2].
  apply negb_false_iff, Qeq_bool_iff in E1, E2. by rewrite E1, E2.
Qed.

Lemma unknown_rows : existsb (fun row => bool_decide (es_kind row = unknown)) exposure = false
  <-> forall w, In w (ei_industries spec) -> iw_industry_l1 w <> None.
Proof.
  rewrite <- not_true_iff_false, existsb_exists. split.
  - intros H w Hw E. apply H. exists (industry_slice w). split; [apply in_app_iff; left; by apply in_map, in_ordered|].
    apply bool_decide_eq_true. cbn. by rewrite E.
  - intros H (row & Hr & Hk). apply bool_decide_eq_true in Hk. apply in_app_iff in Hr as [Hr|[<-|[]]]; [|done].
    apply in_map_iff in Hr as (w & <- & Hw). apply in_ordered in Hw. cbn in Hk. specialize (H w Hw). by destruct (iw_industry_l1 w).
Qed.

(** With every industry known, the rows are the industries. *)
Hypothesis (known : forall w, In w (ei_industries spec) -> iw_industry_l1 w <> None).

Lemma industry_rows_all : industry_rows exposure = rows.
Proof.
  unfold calculate_industry_exposure, industry_rows. rewrite List.filter_app. cbn. rewrite app_nil_r.
  assert (H : forall w, In w (ordered_industries spec) -> iw_industry_l1 w <> None) by (intros w Hw; by apply known, in_ordered).
  induction (ordered_industries spec) as [|w l IH]; [done|]. cbn. specialize (IH (fun y Hy => H y (or_intror Hy))).
  pose proof (H w (or_introl eq_refl)). destruct (iw_industry_l1 w); [|done]. cbn. by rewrite IH.
Qed.

Lemma row_names name : In name (map row_name rows) <-> In (Some name) (map iw_industry_l1 (ei_industries spec)).
Proof.
  rewrite map_map, !in_map_iff. split; intros (w & E & Hw); exists w.
  - apply in_ordered in Hw. split; [|done]. specialize (known w Hw). cbn in E. unfold row_name in E. cbn in E. destruct (iw_industry_l1 w); [|done].
    cbn in E. by rewrite E.
  - split; [|by apply in_ordered]. unfold row_name. cbn. by rewrite E.
Qed.

Lemma record_of_slice w : record_of returns (industry_slice w) = return_of returns (default "" (iw_industry_l1 w)).
Proof. done. Qed.

Lemma has_return_iff name : has_return returns name = true <-> In name (map ir_industry_l1 returns).
Proof.
  unfold has_return. rewrite existsb_exists, in_map_iff. split; intros (r & K1 & K2); exists r; [apply bool_decide_eq_true in K2|split; [done|apply bool_decide_eq_true]]; done.
Qed.

Lemma returns_given_iff : (forall w name, In w (ei_industries spec) -> iw_industry_l1 w = Some name -> (0 < value (iw_portfolio_weight w))%Q ->
    ir_portfolio_return (return_of returns name) <> None)
  <-> List.find (fun row => dltb dzero (es_portfolio_weight row) && bool_decide (ir_portfolio_return (record_of returns row) = None)) rows = None.
Proof.
  split.
  - intros H. destruct (List.find _ _) as [row|] eqn:E; [|done]. apply find_some in E as [Hr E]. apply in_map_iff in Hr as (w & <- & Hw).
    apply in_ordered in Hw. apply andb_true_iff in E as [E1 E2]. apply dltb_lt in E1. apply bool_decide_eq_true in E2. specialize (known w Hw).
    destruct (iw_industry_l1 w) as [name|] eqn:En; [|done]. destruct (H w name Hw En E1). rewrite record_of_slice, En in E2. exact E2.
  - intros H w name Hw En Hp E. assert (Hr : In (industry_slice w) rows) by (by apply in_map, in_ordered).
    pose proof (find_none _ _ H _ Hr) as K. cbn beta in K. rewrite record_of_slice, En in K. cbn [default] in K.
    rewrite (proj2 (dltb_lt _ _)) in K by exact Hp. cbn [andb] in K. apply bool_decide_eq_false in K. done.
Qed.

(** The branch that computes the rows. *)
Lemma attribute_rows_ok : (forall w name, In w (ei_industries spec) -> iw_industry_l1 w = Some name -> (0 < value (iw_portfolio_weight w))%Q ->
    ir_portfolio_return (return_of returns name) <> None) ->
  exists r, attribute_rows returns rows (cash_slice spec) = Ok r /\ reconciles (active_return spec returns) r
    /\ length (ar_rows r) = S (length (ei_industries spec)).
Proof.
  intros Hgiven. assert (Hn : forall row, In row rows -> (0 <= value (es_portfolio_weight row))%Q).
  { intros row Hr. apply in_map_iff in Hr as (w & <- & Hw). by apply weights_facts, in_ordered. }
  assert (Hg : forall row, In row rows -> (0 < value (es_portfolio_weight row))%Q -> ir_portfolio_return (record_of returns row) <> None).
  { intros row Hr Hp. apply in_map_iff in Hr as (w & <- & Hw). apply in_ordered in Hw. specialize (known w Hw). rewrite record_of_slice.
    destruct (iw_industry_l1 w) as [name|] eqn:En; [|done]. by apply (Hgiven w name). }
  assert (Hperm : ordered_industries spec ≡ₚ ei_industries spec) by apply sort_by_permutation.
  assert (Hsame : (value (es_portfolio_weight (cash_slice spec)) + qsum (fun row => value (es_portfolio_weight row)) rows
    == value (es_benchmark_weight (cash_slice spec)) + qsum (fun row => value (es_benchmark_weight row)) rows)%Q).
  { rewrite !qsum_map, !(qsum_permutation _ _ _ Hperm). apply totals_equal. }
  pose proof (contributions_add_up returns rows (cash_slice spec) Hn Hg Hsame) as Hadd.
  assert (Hactive : (portfolio_total returns rows - benchmark_total returns rows == active_return spec returns)%Q).
  { unfold portfolio_total, benchmark_total, active_return. rewrite qsum_filter, !qsum_map, !(qsum_permutation _ _ _ Hperm).
    set (f := fun w => if dltb _ _ then _ else _). set (g := fun w => (_ * _)%Q).
    rewrite <- qsum_minus. apply qsum_ext. intros w Hw. unfold f, g, portfolio_return_of. rewrite record_of_slice. cbn [es_portfolio_weight es_benchmark_weight industry_slice].
    destruct (dltb dzero (iw_portfolio_weight w)) eqn:Ed; [reflexivity|]. apply dltb_ge in Ed. assert (Z0 : (value dzero == 0)%Q) by done. rewrite Z0 in Ed.
    pose proof (weights_facts w Hw). assert (W0 : (value (iw_portfolio_weight w) == 0)%Q) by lra. rewrite W0. ring. }
  unfold attribute_rows. rewrite (proj2 (Qeq_bool_iff _ _)) by (by rewrite Qred_correct, Hadd). cbn [negb].
  set (slices := map _ rows ++ _). set (qs := map (contribution_of returns rows) rows ++ [cash_allocation returns rows (cash_slice spec)]).
  assert (Hshow : map as_total slices = map rounded_decimal qs) by (unfold slices, qs; by rewrite !map_app, !map_map).
  assert (Hsum : (qsum (fun q => q) qs == Qred (portfolio_total returns rows - benchmark_total returns rows))%Q).
  { unfold qs. rewrite qsum_app, qsum_map, qsum_cons, qsum_nil, Qred_correct, <- Hadd, Qplus_0_r. reflexivity. }
  assert (Hlen : length slices = S (length (ei_industries spec))).
  { unfold slices. rewrite length_app, !length_map, (Permutation_length Hperm). cbn. lia. }
  rewrite (tolerance_met slices qs _ Hshow Hsum) by (rewrite Hlen; lia). eexists. split; [done|]. split; [|done].
  pose proof (shown_reconciles slices qs _ Hshow Hsum ltac:(rewrite Hlen; lia) (rounded_decimal (portfolio_total returns rows))
    (rounded_decimal (benchmark_total returns rows))) as [K1 K2 K3 K4]. constructor; try done.
  assert (E : (Qred (portfolio_total returns rows - benchmark_total returns rows) == active_return spec returns)%Q) by (by rewrite Qred_correct).
  by rewrite <- E.
Qed.
End Coverage.

(** C17: for a validated exposure of fewer than a million industries, an attribution succeeds exactly when the returns
    cover the industries, and raises [PortfolioAttributionError] otherwise: its own two reconciliation checks never
    fail.  A result has one row per industry and one for cash; the attributed return is the exact sum of the rows, the
    residual is the exact difference to the active return, at most 1e-18 per row, and the active return is the exact
    one to within 1e-18. *)
Theorem attribution_reconciles spec returns : valid_exposure spec -> Z.of_nat (length (ei_industries spec)) + 1 < 10 ^ 6 ->
  (covered spec returns -> exists r, attribute_brinson_fachler spec returns = Ok r /\ reconciles (active_return spec returns) r
     /\ length (ar_rows r) = S (length (ei_industries spec)))
  /\ (~ covered spec returns -> exists m, attribute_brinson_fachler spec returns = Err (Raise PortfolioAttributionError m)).
Proof.
  intros valid few. unfold attribute_brinson_fachler. destruct (existsb _ (calculate_industry_exposure spec)) eqn:Eu.
  { apply not_false_iff_true in Eu. rewrite unknown_rows in Eu. split; [intros (K & _); by destruct Eu|by eexists]. }
  rewrite unknown_rows in Eu. rewrite (industry_rows_all spec Eu).
  destruct (index_returns_cases returns [] ltac:(constructor)) as [[-> Hnd]|[[m ->] Hnd]]; cbn [rbind app] in *.
  2: { split; [intros (_ & K & _); by destruct Hnd|by eexists]. }
  assert (Hnames : forall name, In name (map row_name (map industry_slice (ordered_industries spec))) <-> In (Some name) (map iw_industry_l1 (ei_industries spec)))
    by (by apply row_names).
  destruct (List.find _ (sorted_names _)) as [name|] eqn:Ef.
  { apply find_some in Ef as [Hin Hno]. apply in_sort_by in Hin. apply Hnames in Hin. apply negb_true_iff, not_true_iff_false in Hno.
    rewrite has_return_iff in Hno. split; [|by eexists]. intros (_ & _ & K & _). destruct Hno. by apply K. }
  assert (Hall : forall name, In (Some name) (map iw_industry_l1 (ei_industries spec)) -> In name (map ir_industry_l1 returns)).
  { intros name Hin. apply Hnames in Hin. apply has_return_iff. pose proof (find_none _ _ Ef name) as K. apply negb_false_iff. apply K.
    unfold sorted_names. by apply in_sort_by. }
  destruct (sorted_names (List.filter _ _)) as [|name l] eqn:En.
  2: { assert (Hin : In name (name :: l)) by (by left). rewrite <- En in Hin. unfold sorted_names in Hin. apply in_sort_by, filter_In in Hin as [Hin Hno].
    apply negb_true_iff, bool_decide_eq_false in Hno. rewrite list_elem_of_In, Hnames in Hno. split; [|by eexists]. intros (_ & _ & K & _). destruct Hno. by apply K. }
  assert (Hback : forall name, In name (map ir_industry_l1 returns) -> In (Some name) (map iw_industry_l1 (ei_industries spec))).
  { intros name Hin. apply Hnames. rewrite <- list_elem_of_In. destruct (decide (name ∈ map row_name (map industry_slice (ordered_industries spec)))) as [K|K]; [done|].
    exfalso. apply (in_nil (a := name)). rewrite <- En. unfold sorted_names. apply in_sort_by, filter_In. split; [done|]. by rewrite bool_decide_false. }
  destruct (List.find _ (map industry_slice _)) as [row|] eqn:Eg.
  { split; [|by eexists]. intros (_ & _ & _ & K). apply (returns_given_iff spec returns Eu) in K. congruence. }
  rewrite <- (returns_given_iff spec returns Eu) in Eg. split; [intros _; by apply attribute_rows_ok|]. intros K. destruct K. split_and!; try done. split; auto.
Qed.

(** ** An example *)

Definition demo_exposure : ExposureInput :=
  {| ei_industries := [ {| iw_industry_l1 := Some "food"; iw_portfolio_weight := Dec 5 (-1); iw_benchmark_weight := Dec 3 (-1) |};
                        {| iw_industry_l1 := Some "bank"; iw_portfolio_weight := Dec 0 0; iw_benchmark_weight := Dec 7 (-1) |} ];
     ei_portfolio_cash_weight := Dec 5 (-1); ei_benchmark_cash_weight := Dec 0 0 |}.

Definition demo_returns : list IndustryReturn :=
  [ {| ir_industry_l1 := "bank"; ir_portfolio_return := None; ir_benchmark_return := Dec 2 (-2) |};
    {| ir_industry_l1 := "food"; ir_portfolio_return := Some (Dec 7 (-2)); ir_benchmark_return := Dec (-1) (-2) |} ].

Lemma demo_exposure_valid : valid_exposure demo_exposure.
Proof. split; [vm_compute; reflexivity|]. intros w Hw. repeat (destruct Hw as [<-|Hw]; [vm_compute; reflexivity|]). destruct Hw. Qed.

Lemma demo_covered : covered demo_exposure demo_returns.
Proof.
  split_and!.
  - intros w Hw. repeat (destruct Hw as [<-|Hw]; [discriminate|]). destruct Hw.
  - apply (bool_decide_unpack _). vm_compute. exact I.
  - intros name. cbn. naive_solver.
  - intros w name Hw. destruct Hw as [<-|[<-|[]]]; cbn [iw_industry_l1 iw_portfolio_weight]; intros [= <-] Hp; [discriminate|].
    vm_compute in Hp. discriminate.
Qed.

Lemma demo_few : Z.of_nat (length (ei_industries demo_exposure)) + 1 < 10 ^ 6.
Proof. vm_compute. reflexivity. Qed.

Lemma attribution_reconciles_witness : exists r, attribute_brinson_fachler demo_exposure demo_returns = Ok r
  /\ reconciles (active_return demo_exposure demo_returns) r /\ length (ar_rows r) = S (length (ei_industries demo_exposure)).
Proof. exact (proj1 (attribution_reconciles demo_exposure demo_returns demo_exposure_valid demo_few) demo_covered). Defined.

(** [_exact_decimal] is not always exact: a weight of [2 ** -40], which has forty decimals, is shown rounded to
    twenty-four digits, since the context counts the digits of the numerator and the denominator. *)
Lemma exact_decimal_rounds : ~ (value (exact_decimal (1 # 2 ^ 40)) == 1 # 2 ^ 40)%Q.
Proof. vm_compute. discriminate. Qed.
