(* ===== verification/L2Payload.v ===== *)
(** * Market request payloads ([src/rquant/l2/_request.py], the codec)

    Bytes are integers from 0 to 255 in lists.  A payload is base64 text over another order of the
    alphabet; decoding accepts exactly what encoding produces. *)

From Stdlib Require Import ZArith Lia Bool.
From stdpp Require Import base list strings.
From S2P Require Import Prelude.
Open Scope Z_scope.
Open Scope rq_scope.

(** ** Bytes *)

Definition byte_ok (b : Z) : bool := (0 <=? b) && (b <=? 255).
Definition bytes_ok (l : list Z) : bool := forallb byte_ok l.

(** The codes of an ASCII literal. *)
Fixpoint codes (s : string) : list Z :=
  match s with EmptyString => [] | String c s => Z.of_nat (Ascii.nat_of_ascii c) :: codes s end.

Fixpoint index_of (b : Z) (l : list Z) : option Z :=
  match l with [] => None | x :: l => if b =? x then Some 0 else Z.succ <$> index_of b l end.

Definition at_index (l : list Z) (i : Z) : Z := nth (Z.to_nat i) l 0.

(** [bytes.maketrans(source, target)] applied to one byte. *)
Definition translate (source target : list Z) (b : Z) : Z :=
  match index_of b source with Some i => at_index target i | None => b end.

(** ** Base64 of the standard library *)

Definition STANDARD64 : list Z := codes "ABCDEFGHIJKLMNOPQRSTUVWXYZabcdefghijklmnopqrstuvwxyz0123456789+/".
Definition IPHONE64_ALPHABET : list Z := codes "aCcMeTKhxnwzmoPbsG4EvU8gyd02B3q6fIVWXYZjApRrDtuHkiLlN1O9F5S7JQ+/".
Definition pad : Z := 61.

Definition digit64 (i : Z) : Z := at_index STANDARD64 i.

(** [base64.b64encode]: three bytes at a time. *)
Fixpoint b64encode (l : list Z) : list Z :=
  match l with
  | a :: b :: c :: l =>
      let n := (a * 256 + b) * 256 + c in
      digit64 (n / 262144) :: digit64 (n / 4096 mod 64) :: digit64 (n / 64 mod 64) :: digit64 (n mod 64) :: b64encode l
  | [a; b] => let n := (a * 256 + b) * 4 in [digit64 (n / 4096); digit64 (n / 64 mod 64); digit64 (n mod 64); pad]
  | [a] => let n := a * 16 in [digit64 (n / 64); digit64 (n mod 64); pad; pad]
  | [] => []
  end.

Definition value64 (b : Z) : option Z := index_of b STANDARD64.

(** [base64.b64decode(_, validate=True)]: four characters at a time, padding only at the end; the unused bits of
    the last character are not looked at.  [None] is [binascii.Error]. *)
Fixpoint b64decode (l : list Z) : option (list Z) :=
  match l with
  | [] => Some []
  | p :: q :: r :: s :: l =>
      p ← value64 p; q ← value64 q;
      if s =? pad then
        match l with
        | _ :: _ => None
        | [] => if r =? pad then Some [(p * 64 + q) / 16]
                else r ← value64 r; let n := ((p * 64 + q) * 64 + r) / 4 in Some [n / 256; n mod 256]
        end
      else
        r ← value64 r; s ← value64 s; rest ← b64decode l;
        let n := ((p * 64 + q) * 64 + r) * 64 + s in Some (n / 65536 :: n / 256 mod 256 :: n mod 256 :: rest)
  | _ => None
  end.

(** ** Payloads *)

Definition encode_payload (plaintext : list Z) : list Z := map (translate STANDARD64 IPHONE64_ALPHABET) (b64encode plaintext).

Definition decode_payload (encoded : list Z) (expected_length : option Z) : res (list Z) :=
  raise_if match expected_length with Some n => n <? 0 | None => false end as ValueError saying "expected_length must be a nonnegative integer" ;;
  match b64decode (map (translate IPHONE64_ALPHABET STANDARD64) encoded) with
  | None => Err (Raise ValueError "invalid iPhone Base64 payload")
  | Some plaintext =>
      raise_if negb (bool_decide (encode_payload plaintext = encoded))
        as ValueError saying "noncanonical iPhone Base64 padding or pad bits" ;;
      raise_if match expected_length with Some n => negb (Z.of_nat (length plaintext) =? n) | None => false end
        as ValueError saying "decoded payload length does not match header" ;;
      Ok plaintext
  end.

(** ** Decoding undoes encoding *)

Lemma byte_ok_iff b : byte_ok b = true <-> 0 <= b <= 255.
Proof. unfold byte_ok. rewrite andb_true_iff, !Z.leb_le. done. Qed.

Lemma bytes_ok_cons b l : bytes_ok (b :: l) = true <-> 0 <= b <= 255 /\ bytes_ok l = true.
Proof. cbn. by rewrite andb_true_iff, byte_ok_iff. Qed.

(** The digits are checked one by one. *)
Definition digits_checked : bool :=
  forallb (fun i => let d := digit64 (Z.of_nat i) in
    bool_decide (value64 d = Some (Z.of_nat i)) && negb (d =? pad)
    && (translate IPHONE64_ALPHABET STANDARD64 (translate STANDARD64 IPHONE64_ALPHABET d) =? d)) (seq 0 64).

Lemma digits_all i : 0 <= i < 64 -> value64 (digit64 i) = Some i /\ digit64 i <> pad
  /\ translate IPHONE64_ALPHABET STANDARD64 (translate STANDARD64 IPHONE64_ALPHABET (digit64 i)) = digit64 i.
Proof.
  intros Hi. assert (H : digits_checked = true) by (vm_compute; done). unfold digits_checked in H. rewrite forallb_forall in H.
  specialize (H (Z.to_nat i)). rewrite Z2Nat.id in H by lia. rewrite in_seq in H. specialize (H ltac:(lia)). cbn zeta in H.
  apply andb_true_iff in H as [H K3]. apply andb_true_iff in H as [K1 K2]. apply bool_decide_eq_true in K1. apply negb_true_iff, Z.eqb_neq in K2.
  by apply Z.eqb_eq in K3.
Qed.

Lemma value64_digit i : 0 <= i < 64 -> value64 (digit64 i) = Some i.
Proof. apply digits_all. Qed.

Lemma digit64_not_pad i : 0 <= i < 64 -> (digit64 i =? pad) = false.
Proof. intros H. by apply Z.eqb_neq, digits_all. Qed.

Lemma untranslate i : 0 <= i < 64 -> translate IPHONE64_ALPHABET STANDARD64 (translate STANDARD64 IPHONE64_ALPHABET (digit64 i)) = digit64 i.
Proof. apply digits_all. Qed.

Lemma untranslate_pad : translate IPHONE64_ALPHABET STANDARD64 (translate STANDARD64 IPHONE64_ALPHABET pad) = pad.
Proof. reflexivity. Qed.

Lemma index_of_bounds b l i : index_of b l = Some i -> 0 <= i < Z.of_nat (length l).
Proof.
  revert i. induction l as [|x l IH]; intros i; [done|]. cbn [index_of length]. destruct (b =? x); [intros [= <-]; lia|].
  destruct (index_of b l) as [j|]; [|done]. cbn. intros [= <-]. specialize (IH j eq_refl). lia.
Qed.

Lemma value64_range b i : value64 b = Some i -> 0 <= i < 64.
Proof. intros H. by apply index_of_bounds in H. Qed.

Arguments digit64 : simpl never.
Arguments value64 : simpl never.
Arguments translate : simpl never.
#[local] Opaque digit64 value64 translate.

(** Induction three bytes at a time. *)
Lemma triple_ind (P : list Z -> Prop) :
  P [] -> (forall a, P [a]) -> (forall a b, P [a; b]) -> (forall a b c l, P l -> P (a :: b :: c :: l)) -> forall l, P l.
Proof. intros H0 H1 H2 H3. fix go 1. intros [|a [|b [|c l]]]; [apply H0|apply H1|apply H2|apply H3, go]. Qed.

Lemma b64_roundtrip l : bytes_ok l = true ->
  b64decode (b64encode l) = Some l /\ map (translate IPHONE64_ALPHABET STANDARD64) (encode_payload l) = b64encode l.
Proof.
  unfold encode_payload. induction l as [|a|a b|a b c l IH] using triple_ind; rewrite ?bytes_ok_cons; intros H; [done|..];
    cbn [b64encode map b64decode]; rewrite ?untranslate_pad, !untranslate by divlia; rewrite !value64_digit by divlia; cbn [mbind option_bind].
  - split; [|done]. cbn. f_equal. f_equal. divlia.
  - rewrite Z.eqb_refl, digit64_not_pad by divlia. cbn. split; [|done]. repeat f_equal; divlia.
  - rewrite digit64_not_pad by divlia. destruct H as (Ha & Hb & Hc & H). destruct (IH H) as [-> ->]. cbn. split; [|done]. repeat f_equal; divlia.
Qed.


(** Induction four characters at a time. *)
Lemma quad_ind (P : list Z -> Prop) :
  P [] -> (forall a, P [a]) -> (forall a b, P [a; b]) -> (forall a b c, P [a; b; c]) -> (forall a b c d l, P l -> P (a :: b :: c :: d :: l)) -> forall l, P l.
Proof. intros H0 H1 H2 H3 H4. fix go 1. intros [|a [|b [|c [|d l]]]]; [apply H0|apply H1|apply H2|apply H3|apply H4, go]. Qed.

Lemma b64decode_bytes l p : b64decode l = Some p -> bytes_ok p = true.
Proof.
  revert p. induction l as [| | | |a b c d l IH] using quad_ind; intros p; cbn [b64decode]; try done; [by intros [= <-]|].
  destruct (value64 a) as [x|] eqn:Ea; [|done]. destruct (value64 b) as [y|] eqn:Eb; [|done]. apply value64_range in Ea, Eb. cbn [mbind option_bind].
  destruct (d =? pad).
  - destruct l; [|done]. destruct (c =? pad).
    + intros [= <-]. apply bytes_ok_cons. split; [divlia|done].
    + destruct (value64 c) as [z|] eqn:Ec; [|done]. apply value64_range in Ec. cbn. intros [= <-]. rewrite !bytes_ok_cons. split; [divlia|]. split; [divlia|done].
  - destruct (value64 c) as [z|] eqn:Ec; [|done]. apply value64_range in Ec. cbn [mbind option_bind]. destruct (value64 d) as [w|] eqn:Ed; [|done].
    apply value64_range in Ed. cbn [mbind option_bind]. destruct (b64decode l) as [rest|]; [|done]. cbn [mbind option_bind]. intros [= <-].
    rewrite !bytes_ok_cons. split; [divlia|]. split; [divlia|]. split; [divlia|]. by apply IH.
Qed.

(** The length the header may announce. *)
Definition length_agrees (plaintext : list Z) (expected_length : option Z) : Prop :=
  match expected_length with None => True | Some n => Z.of_nat (length plaintext) = n end.

Lemma decode_payload_encoded plaintext expected : bytes_ok plaintext = true -> length_agrees plaintext expected ->
  decode_payload (encode_payload plaintext) expected = Ok plaintext.
Proof.
  intros Hb Hl. unfold decode_payload. destruct (b64_roundtrip plaintext Hb) as [Hd ->]. rewrite Hd, bool_decide_true by done. cbn [negb].
  destruct expected as [n|]; [|done]. cbn in Hl. rewrite (proj2 (Z.ltb_ge _ _)), (proj2 (Z.eqb_eq _ _)) by lia. done.
Qed.

Lemma decode_payload_sound encoded expected plaintext : decode_payload encoded expected = Ok plaintext ->
  bytes_ok plaintext = true /\ length_agrees plaintext expected /\ encoded = encode_payload plaintext.
Proof.
  unfold decode_payload. destruct (match expected with Some n => n <? 0 | None => false end); [done|].
  destruct (b64decode _) as [p|] eqn:Ed; [|done]. destruct (bool_decide (encode_payload p = encoded)) eqn:Ec; [|done]. cbn [negb].
  apply bool_decide_eq_true in Ec. destruct (match expected with Some n => negb (Z.of_nat (length p) =? n) | None => false end) eqn:El; [done|].
  intros [= <-]. split; [by eapply b64decode_bytes|]. split; [|done]. destruct expected as [n|]; [|done]. by apply negb_false_iff, Z.eqb_eq in El.
Qed.

(** C21: decoding accepts exactly the encodings: a payload decodes to a text if and only if it is the encoding of that
    text, which is made of bytes and has the announced length.  So decoding undoes encoding, no two payloads decode to
    the same text, and every other input (whitespace, foreign characters, bad padding, pad bits) is refused. *)
Theorem payload_roundtrip encoded expected plaintext : decode_payload encoded expected = Ok plaintext
  <-> bytes_ok plaintext = true /\ length_agrees plaintext expected /\ encoded = encode_payload plaintext.
Proof. split; [apply decode_payload_sound|]. intros (Hb & Hl & ->). by apply decode_payload_encoded. Qed.

(** What else a decoding can do is raise [ValueError]. *)
Lemma decode_payload_error encoded expected e : decode_payload encoded expected = Err e -> exn_cls e = ValueError.
Proof.
  unfold decode_payload. destruct (match expected with Some n => n <? 0 | None => false end); [by intros [= <-]|].
  destruct (b64decode _); [|by intros [= <-]]. destruct (negb _); [by intros [= <-]|].
  destruct (match expected with Some n => negb _ | None => false end); [by intros [= <-]|done].
Qed.

Example payload_example : encode_payload (codes "[frame]") = codes "8OdLy81Ygs==".
Proof. vm_compute. reflexivity. Qed.
