(* ===== verification/L2Request.v ===== *)
(** * Market requests ([src/rquant/l2/_request.py], [l2/symbols.py] and the builders of [l2/_codec.py])

    A request is a small INI text, base64-encoded behind a binary header.  Text is the list of its
    character codes; a dictionary is an association list in insertion order. *)

From Stdlib Require Import ZArith Lia Bool.
From stdpp Require Import base list strings.
From S2P Require Import Prelude L2Payload.
Open Scope Z_scope.
Open Scope rq_scope.

Definition text : Type := list Z.
Definition eqt (a b : text) : bool := bool_decide (a = b).
Definition mem (x : text) (l : list text) : bool := existsb (eqt x) l.
Definition value_error {A} (message : string) : res A := Err (Raise ValueError message).

Definition CR : Z := 13.
Definition LF : Z := 10.
Definition crlf : text := [CR; LF].

(** ** Decimal text *)

Definition is_digit (c : Z) : bool := (48 <=? c) && (c <=? 57).

Fixpoint to_digits (fuel : nat) (n : Z) (acc : text) : text :=
  match fuel with
  | O => acc
  | S fuel => let acc := 48 + n mod 10 :: acc in if n <? 10 then acc else to_digits fuel (n / 10) acc
  end.

Definition dec_text (n : Z) : text := to_digits (S (Z.to_nat (Z.log2 n))) n [].
Definition of_digits (l : text) : Z := fold_left (fun a d => a * 10 + (d - 48)) l 0.

(** [int] and [str] refuse more than 4300 digits. *)
Definition max_str_digits : Z := 4300.
Definition int_text (n : Z) : res text :=
  let digits := dec_text (Z.abs n) in
  raise_if max_str_digits <? Z.of_nat (length digits) as ValueError saying "Exceeds the limit (4300 digits) for integer string conversion" ;;
  Ok (if n <? 0 then 45 :: digits else digits).

(** [re.fullmatch(r"0|[1-9][0-9]*", value)] *)
Definition canonical_decimal (value : text) : bool :=
  match value with
  | [] => false
  | d :: l => ((d =? 48) && bool_decide (l = [])) || ((49 <=? d) && (d <=? 57) && forallb is_digit l)
  end.

Definition decimal (value : text) (label : string) (positive : bool) : res Z :=
  raise_if negb (canonical_decimal value) as ValueError saying (label +:+ " must be a canonical unsigned decimal") ;;
  raise_if max_str_digits <? Z.of_nat (length value) as ValueError saying "Exceeds the limit (4300 digits) for integer string conversion" ;;
  let number := of_digits value in
  raise_if positive && (number =? 0) as ValueError saying (label +:+ " must be positive") ;;
  Ok number.

(** ** Symbols *)

Definition six_digits (code : text) : bool := (length code =? 6)%nat && forallb is_digit code.

Definition market_for_code (code : text) : res Z :=
  raise_if negb (six_digits code) as ValueError saying "symbol must contain six ASCII digits" ;;
  let c := hd 0 code in
  if c =? 54 then Ok 17
  else if (c =? 48) || (c =? 51) then Ok 33
  else value_error "unsupported stock routing syntax".

Definition MAX_SYMBOLS : nat := 100.

(** A dictionary keeps the first position of a key. *)
Fixpoint collect_symbols (symbols seen : list text) : res (list text) :=
  match symbols with
  | [] => Ok seen
  | code :: symbols => bind _ from market_for_code code ;; collect_symbols symbols (if mem code seen then seen else seen ++ [code])
  end.

Definition normalize_symbols (symbols : list text) : res (list text) :=
  raise_if (MAX_SYMBOLS <? length symbols)%nat as ValueError saying "symbol list must contain at most100 entries" ;;
  collect_symbols symbols [].

(** ** INI envelopes *)

Definition dict : Type := list (text * text).
Definition keys {A} (d : list (text * A)) : list text := map fst d.
Definition get {A} (d : list (text * A)) (k : text) : option A := snd <$> List.find (fun kv => eqt (fst kv) k) d.

Definition field_is (d : dict) (k v : text) : bool := match get d k with Some x => eqt x v | None => false end.
Definition field (d : dict) (k : text) : text := default [] (get d k).

(** [set(d) == set(names)] *)
Definition same_keys {A} (d : list (text * A)) (names : list text) : bool :=
  forallb (fun k => mem k names) (keys d) && forallb (fun k => mem k (keys d)) names.

Definition FRAME_KEYS : list text := map codes ["id"; "pageList"; "reqPage"; "reqPageCount"].
Definition ORDER_KEYS : list text := map codes ["id"; "marketcode"; "rowcount"; "stockcode"; "reqtype"; "endtime"; "orderid"].
Definition DETAIL_KEYS : list text := map codes ["id"; "nopush"; "isVolumeFloat"; "stockcode"; "rowcount"; "marketcode"; "endtime"; "unixtime"].
Definition TRADE_KEYS : list text := map codes ["id"; "ispush"; "isVolumeFloat"; "rowcount"; "stockcode"; "bishu"; "marketcode"; "currentpage"; "endtime"].

(** The field is present: its keys were compared before. *)
Definition decimal_field (d : dict) (k : string) : res Z := decimal (field d (codes k)) k false.

Definition validate_order_parameters (parameters : dict) : res unit :=
  raise_if negb (same_keys parameters ORDER_KEYS) || negb (field_is parameters (codes "id") (codes "4027"))
    as ValueError saying "unsupported order query fields or command" ;;
  raise_if negb (six_digits (field parameters (codes "stockcode"))) as ValueError saying "stockcode must contain six ASCII digits" ;;
  market <~ market_for_code (field parameters (codes "stockcode")) ;;
  raise_if negb (eqt (field parameters (codes "marketcode")) (dec_text market)) as ValueError saying "stock and market mismatch" ;;
  raise_if negb (mem (field parameters (codes "reqtype")) [codes "buy"; codes "sell"]) as ValueError saying "reqtype must be buy or sell" ;;
  rowcount <~ decimal_field parameters "rowcount" ;;
  raise_if negb ((1 <=? rowcount) && (rowcount <=? 20)) as ValueError saying "rowcount must be in 1..20" ;;
  endtime <~ decimal_field parameters "endtime" ;;
  orderid <~ decimal_field parameters "orderid" ;;
  raise_if negb (Bool.eqb (endtime =? 0) (orderid =? 0)) as ValueError saying "endtime and orderid must both be zero or both be positive" ;;
  Ok tt.

(** [text.split("\r\n")] *)
Fixpoint split_crlf (l : text) : list text :=
  match l with
  | [] => [[]]
  | a :: l' =>
      match l' with
      | b :: rest => if (a =? CR) && (b =? LF) then [] :: split_crlf rest
                     else match split_crlf l' with [] => [[a]] | p :: ps => (a :: p) :: ps end
      | [] => [[a]]
      end
  end.

(** [value.split(separator)] on one character. *)
Fixpoint split_on (separator : Z) (l : text) : list text :=
  match l with
  | [] => [[]]
  | a :: l => if a =? separator then [] :: split_on separator l
              else match split_on separator l with [] => [[a]] | p :: ps => (a :: p) :: ps end
  end.

(** [line.split("=", 1)] of a line that has one. *)
Fixpoint split_first (separator : Z) (l : text) : text * text :=
  match l with
  | [] => ([], [])
  | a :: l => if a =? separator then ([], l) else let '(k, v) := split_first separator l in (a :: k, v)
  end.

Definition is_letter (c : Z) : bool := ((65 <=? c) && (c <=? 90)) || ((97 <=? c) && (c <=? 122)).
Definition printable (c : Z) : bool := (32 <=? c) && (c <=? 126).

(** A letter, then letters and digits. *)
Definition key_syntax (k : text) : bool :=
  match k with [] => false | c :: k => is_letter c && forallb (fun c => is_letter c || is_digit c) k end.

(** A section line is [frame] or a positive decimal between brackets. *)
Definition positive_digits (l : text) : bool :=
  match l with [] => false | d :: l => (49 <=? d) && (d <=? 57) && forallb is_digit l end.

Definition section_name (line : text) : option text :=
  match line with
  | 91 :: rest =>
      match rev rest with
      | 93 :: name => let name := rev name in if eqt name (codes "frame") || positive_digits name then Some name else None
      | _ => None
      end
  | _ => None
  end.

(** [current] is the section added last: a new one is added whenever it is set. *)
Definition read_line (sections : list (text * dict)) (line : text) : res (list (text * dict)) :=
  match section_name line with
  | Some name =>
      raise_if mem name (keys sections) as ValueError saying "duplicate request section" ;;
      Ok (sections ++ [(name, [])])
  | None =>
      match rev sections with
      | (name, current) :: earlier =>
          if existsb (Z.eqb 61) line then
            let '(key, value) := split_first 61 line in
            raise_if negb (key_syntax key) || bool_decide (value = []) || mem key (keys current)
              as ValueError saying "invalid or duplicate request parameter" ;;
            Ok (rev earlier ++ [(name, current ++ [(key, value)])])
          else value_error "invalid request INI line"
      | [] => value_error "invalid request INI line"
      end
  end.

Fixpoint read_lines (sections : list (text * dict)) (lines : list text) : res (list (text * dict)) :=
  match lines with [] => Ok sections | line :: lines => sections <~ read_line sections line ;; read_lines sections lines end.

Fixpoint check_pages (pages : list text) : res unit :=
  match pages with [] => Ok tt | page :: pages => bind _ from decimal page "pageList entry" true ;; check_pages pages end.

Record route := { rt_page_id : text; rt_frame : dict; rt_parameters : dict }.

Definition parse_ini_route (plaintext : list Z) (frame_id : Z) : res route :=
  raise_if negb (forallb (fun b => b <? 128) plaintext) as ValueError saying "market request must be ASCII" ;;
  let pieces := split_crlf plaintext in
  raise_if negb ((2 <=? length pieces)%nat && bool_decide (List.last pieces [0] = [])) || negb (forallb (forallb printable) pieces)
    as ValueError saying "market request must use printable ASCII and CRLF" ;;
  sections <~ read_lines [] (removelast pieces) ;;
  let frame := default [] (get sections (codes "frame")) in
  raise_if negb (same_keys frame FRAME_KEYS) || negb (field_is frame (codes "id") (dec_text frame_id))
           || negb (field_is frame (codes "reqPageCount") (codes "1"))
    as ValueError saying "unsupported frame command or requested page count" ;;
  let page_id := field frame (codes "reqPage") in
  bind _ from decimal page_id "reqPage" true ;;
  let page_list := split_on 44 (field frame (codes "pageList")) in
  bind _ from check_pages page_list ;;
  raise_if negb (bool_decide (NoDup page_list)) || negb (mem page_id page_list)
    as ValueError saying "pageList must contain the unique requested page" ;;
  raise_if negb (same_keys sections [codes "frame"; page_id]) as ValueError saying "requested page must have exactly one matching section" ;;
  Ok {| rt_page_id := page_id; rt_frame := frame; rt_parameters := default [] (get sections page_id) |}.

Inductive request_kind := order_query | detail | vendor4013.

#[export] Instance request_kind_eq_dec : EqDecision request_kind.
Proof. solve_decision. Defined.

Definition parse_market_ini (plaintext : list Z) : res (request_kind * route) :=
  market <~ parse_ini_route plaintext 2267 ;;
  let parameters := rt_parameters market in
  if field_is parameters (codes "id") (codes "4027") then
    bind _ from validate_order_parameters parameters ;; Ok (order_query, market)
  else if field_is parameters (codes "id") (codes "1235") then
    raise_if negb (same_keys parameters DETAIL_KEYS) as ValueError saying "unsupported detail query fields" ;;
    raise_if negb (six_digits (field parameters (codes "stockcode"))) as ValueError saying "stockcode must contain six ASCII digits" ;;
    raise_if negb (mem (field parameters (codes "marketcode")) [codes "17"; codes "33"]) as ValueError saying "unsupported detail market" ;;
    raise_if negb (forallb (fun kv => field_is parameters (codes (fst kv)) (codes (snd kv)))
                     [("rowcount", "30"); ("nopush", "0"); ("isVolumeFloat", "1"); ("unixtime", "1")]%string)
      as ValueError saying "unobserved detail query options" ;;
    bind _ from decimal_field parameters "endtime" ;;
    Ok (detail, market)
  else value_error "unsupported market request command".

(** ** Request bodies *)

(** [int.from_bytes(_, "little")] and the [n]-byte text of a number. *)
Definition le (l : list Z) : Z := fold_right (fun b acc => b + 256 * acc) 0 l.
Fixpoint le_bytes (n : nat) (v : Z) : list Z := match n with O => [] | S n => v mod 256 :: le_bytes n (v / 256) end.

Definition slice (l : list Z) (start n : nat) : list Z := firstn n (skipn start l).
Definition unpack (l : list Z) (start n : nat) : Z := le (slice l start n).
Definition pack (l : list Z) (start n : nat) (v : Z) : list Z := firstn start l ++ le_bytes n v ++ skipn (start + n) l.

Record request_body := {
  rb_header_length : Z; rb_request_id : Z; rb_flags : Z; rb_header : list Z; rb_header_extension : list Z;
  rb_encoded_payload : list Z; rb_plaintext : list Z
}.

Definition read_request_body (body : list Z) (frame_id : Z) : res request_body :=
  raise_if (length body <? 24)%nat as ValueError saying "request header is truncated" ;;
  let header_length := unpack body 0 2 in
  let request_id := unpack body 2 4 in
  let flags := unpack body 6 4 in
  let encoded_length := unpack body 12 4 in
  let actual_frame_id := unpack body 16 4 in
  let plaintext_length := unpack body 20 4 in
  raise_if negb ((24 <=? header_length) && (header_length <=? Z.of_nat (length body))) as ValueError saying "invalid request header length" ;;
  raise_if negb (flags =? 16842752) || negb (actual_frame_id =? frame_id)
    as ValueError saying "unsupported request header flags or frame command" ;;
  let h := Z.to_nat header_length in
  let encoded_payload := skipn h body in
  raise_if negb (Z.of_nat (length encoded_payload) =? encoded_length) as ValueError saying "encoded payload length does not match header" ;;
  plaintext <~ decode_payload encoded_payload (Some plaintext_length) ;;
  Ok {| rb_header_length := header_length; rb_request_id := request_id; rb_flags := flags; rb_header := firstn h body;
        rb_header_extension := slice body 24 (h - 24); rb_encoded_payload := encoded_payload; rb_plaintext := plaintext |}.

Definition parse_request_body (body : list Z) : res (request_kind * route * request_body) :=
  parsed <~ read_request_body body 2267 ;;
  market <~ parse_market_ini (rb_plaintext parsed) ;;
  Ok (market, parsed).

Definition validate_trade_parameters (parameters : dict) : res unit :=
  raise_if negb (same_keys parameters TRADE_KEYS) as ValueError saying "unsupported trade query fields" ;;
  raise_if negb (forallb (fun kv => field_is parameters (codes (fst kv)) (codes (snd kv)))
                   [("id", "4013"); ("ispush", "1"); ("isVolumeFloat", "1"); ("rowcount", "500"); ("bishu", "2500"); ("endtime", "0")]%string)
    as ValueError saying "unobserved initial4013 query options" ;;
  market <~ market_for_code (field parameters (codes "stockcode")) ;;
  raise_if negb (eqt (dec_text market) (field parameters (codes "marketcode"))) as ValueError saying "stock and market mismatch" ;;
  currentpage <~ decimal_field parameters "currentpage" ;;
  raise_if negb ((1 <=? currentpage) && (currentpage <=? 3)) as ValueError saying "experimental currentpage must be in1..3" ;;
  Ok tt.

(** The pages are decimals already, of at most 4300 digits. *)
Definition parse_trade_market_ini (plaintext : list Z) : res (request_kind * route) :=
  market <~ parse_ini_route plaintext 2357 ;;
  raise_if existsb (fun page => 65535 <? of_digits page) (split_on 44 (field (rt_frame market) (codes "pageList")))
    as ValueError saying "trade page ID must fit uint16" ;;
  bind _ from validate_trade_parameters (rt_parameters market) ;;
  Ok (vendor4013, market).

Definition MAX_BYTES : Z := 1048576.

Definition parse_trade_request_body (body : list Z) : res (request_kind * route * request_body) :=
  raise_if MAX_BYTES <? Z.of_nat (length body) as ValueError saying "invalid trade template size" ;;
  parsed <~ read_request_body body 2357 ;;
  raise_if negb (rb_header_length parsed =? 77) as ValueError saying "trade template must use observed77-byte header" ;;
  market <~ parse_trade_market_ini (rb_plaintext parsed) ;;
  Ok (market, parsed).

(** ** Queries *)

(** [("\r\n".join(lines) + "\r\n").encode("ascii")] *)
Definition join_lines (lines : list text) : list Z := concat (map (fun line => line ++ crlf) lines).

Definition param_line (kv : text * text) : text := fst kv ++ 61 :: snd kv.

Definition query_lines (frame_id : string) (page : text) (parameters : dict) : list text :=
  [codes "[frame]"; codes "id=" ++ codes frame_id; codes "pageList=" ++ page; codes "reqPage=" ++ page; codes "reqPageCount=1";
   91 :: page ++ [93]] ++ map param_line parameters.

Definition build_order_query (code : text) (market : Z) (side : text) (rowcount endtime orderid page_id : Z) : res (list Z) :=
  raise_if negb (six_digits code) as ValueError saying "code must contain six ASCII digits" ;;
  raise_if negb ((market =? 17) || (market =? 33)) as ValueError saying "market must be integer 17 or 33" ;;
  raise_if negb (mem side [codes "buy"; codes "sell"]) as ValueError saying "side must be buy or sell" ;;
  raise_if rowcount <? 0 as ValueError saying "rowcount must be a nonnegative integer" ;;
  raise_if endtime <? 0 as ValueError saying "endtime must be a nonnegative integer" ;;
  raise_if orderid <? 0 as ValueError saying "orderid must be a nonnegative integer" ;;
  raise_if page_id <? 0 as ValueError saying "page_id must be a nonnegative integer" ;;
  raise_if page_id =? 0 as ValueError saying "page_id must be positive" ;;
  rowcount_text <~ int_text rowcount ;;
  endtime_text <~ int_text endtime ;;
  orderid_text <~ int_text orderid ;;
  let parameters := [(codes "id", codes "4027"); (codes "marketcode", dec_text market); (codes "rowcount", rowcount_text);
                     (codes "stockcode", code); (codes "reqtype", side); (codes "endtime", endtime_text); (codes "orderid", orderid_text)] in
  bind _ from validate_order_parameters parameters ;;
  page <~ int_text page_id ;;
  Ok (join_lines (query_lines "2267" page parameters)).

Definition build_trade_query (code : text) (market page_id currentpage : Z) : res (list Z) :=
  raise_if negb ((1 <=? page_id) && (page_id <=? 65535)) as ValueError saying "trade page ID must fit uint16" ;;
  market_text <~ int_text market ;;
  currentpage_text <~ int_text currentpage ;;
  let parameters := [(codes "id", codes "4013"); (codes "ispush", codes "1"); (codes "isVolumeFloat", codes "1"); (codes "rowcount", codes "500");
                     (codes "stockcode", code); (codes "bishu", codes "2500"); (codes "marketcode", market_text);
                     (codes "currentpage", currentpage_text); (codes "endtime", codes "0")] in
  bind _ from validate_trade_parameters parameters ;;
  Ok (join_lines (query_lines "2357" (dec_text page_id) parameters)).

(** ** Frames ([l2/_codec.py]) *)

Definition hex_digit (d : Z) : Z := if d <? 10 then 48 + d else 87 + d.
Fixpoint hex_text (n : nat) (v : Z) : list Z := match n with O => [] | S n => hex_text n (v / 16) ++ [hex_digit (v mod 16)] end.

Definition MARKER : list Z := [253; 253; 253; 253].

(** A body of at most [MAX_BYTES] has eight hexadecimal digits at most. *)
Definition wrap_frame (body : list Z) : res (list Z) :=
  let n := Z.of_nat (length body) in
  raise_if negb ((0 <? n) && (n <=? MAX_BYTES)) as ValueError saying "outgoing body exceeds the bounded experiment" ;;
  Ok (MARKER ++ hex_text 8 n ++ [0] ++ body).

Definition request_id_ok (request_id : Z) : bool := (1 <=? request_id) && (request_id <=? 4294967295).

(** The header with a new identity and lengths, before the payload. *)
Definition request_frame (header query : list Z) (request_id : Z) : res (list Z) :=
  let encoded := encode_payload query in
  let header := pack header 2 4 request_id in
  let header := pack header 12 4 (Z.of_nat (length encoded)) in
  let header := pack header 20 4 (Z.of_nat (length query)) in
  wrap_frame (header ++ encoded).

Definition build_experimental_order_frame (template_body query : list Z) (request_id : Z) : res (list Z) :=
  raise_if negb (request_id_ok request_id) as ValueError saying "request_id must be a positive uint32" ;;
  raise_if MAX_BYTES <? Z.of_nat (length template_body) as ValueError saying "invalid or oversized market template" ;;
  raise_if MAX_BYTES <? Z.of_nat (length query) as ValueError saying "invalid or oversized order query" ;;
  bind (kind, _, template) from parse_request_body template_body ;;
  bind (market_kind, _) from parse_market_ini query ;;
  raise_if negb (bool_decide (kind = order_query)) || negb (bool_decide (market_kind = order_query))
    as ValueError saying "only confirmed order 4027 queries are allowed" ;;
  raise_if negb (rb_header_length template =? 77) as ValueError saying "only the observed 77-byte market header is allowed" ;;
  request_frame (rb_header template) query request_id.

Definition build_trade_frame (template_body query : list Z) (request_id : Z) : res (list Z) :=
  raise_if negb (request_id_ok request_id) as ValueError saying "invalid request ID" ;;
  raise_if MAX_BYTES <? Z.of_nat (length query) as ValueError saying "invalid trade query size" ;;
  bind (_, template) from parse_trade_request_body template_body ;;
  bind _ from parse_trade_market_ini query ;;
  request_frame (rb_header template) query request_id.

(** [source.replace(old, new, 1)] *)
Fixpoint replace_once (old new source : list Z) : list Z :=
  if eqt (firstn (length old) source) old then new ++ skipn (length old) source
  else match source with [] => [] | a :: source => a :: replace_once old new source end.

Definition dict_update (d : dict) (k v : text) : dict := map (fun kv => if eqt (fst kv) k then (k, v) else kv) d.

(** Equality of dictionaries does not depend on the order of their keys. *)
Definition dict_eqb (a b : dict) : bool :=
  same_keys a (keys b) && forallb (fun kv => field_is b (fst kv) (snd kv)) a.

Definition build_common_order_frame (template_body query : list Z) (request_id : Z) : res (list Z) :=
  legacy <~ build_experimental_order_frame template_body query request_id ;;
  bind (_, market, source) from parse_request_body (skipn 13 legacy) ;;
  let parameters := rt_parameters market in
  expected <~ market_for_code (field parameters (codes "stockcode")) ;;
  raise_if negb (eqt (dec_text expected) (field parameters (codes "marketcode")))
           || existsb (fun page => 65535 <? of_digits page) (split_on 44 (field (rt_frame market) (codes "pageList")))
    as ValueError saying "common order is outside validated symbol/page scope" ;;
  let plain := replace_once (join_lines [codes "[frame]"; codes "id=2267"]) (join_lines [codes "[frame]"; codes "id=2357"]) (rb_plaintext source) in
  let encoded := encode_payload plain in
  let header := pack (pack (pack (rb_header source) 12 4 (Z.of_nat (length encoded))) 16 4 2357) 20 4 (Z.of_nat (length plain)) in
  decoded <~ decode_payload encoded (Some (unpack header 20 4)) ;;
  new_route <~ parse_ini_route decoded 2357 ;;
  bind _ from validate_order_parameters (rt_parameters new_route) ;;
  raise_if negb (dict_eqb (rt_parameters new_route) parameters) || negb (eqt (rt_page_id new_route) (rt_page_id market))
           || negb (dict_eqb (rt_frame new_route) (dict_update (rt_frame market) (codes "id") (codes "2357")))
           || negb (eqt (firstn 12 header) (firstn 12 (rb_header source))) || negb (eqt (skipn 24 header) (skipn 24 (rb_header source)))
    as ValueError saying "common order changed unapproved fields" ;;
  wrap_frame (header ++ encoded).

Definition validate_bootstrap (body : list Z) : res unit :=
  raise_if negb ((77 <? Z.of_nat (length body)) && (Z.of_nat (length body) <=? MAX_BYTES)) as ValueError saying "invalid or oversized bootstrap body" ;;
  raise_if negb ((unpack body 0 2 =? 77) && (unpack body 2 4 =? 0) && (unpack body 6 4 =? 458752) && (unpack body 16 4 =? 0) && (unpack body 20 4 =? 0))
    as ValueError saying "bootstrap is outside the observed header profile" ;;
  raise_if negb (unpack body 12 4 =? Z.of_nat (length body) - 77) as ValueError saying "bootstrap encoded length does not match its body" ;;
  Ok tt.
