(* ===== verification/L2RequestThms.v ===== *)
(** * Market requests: what is built parses back

    Decimal texts, lines and binary fields are read back as they were written, so every built query
    and every built frame is accepted by the parsers with the same content. *)

From Stdlib Require Import ZArith Lia Bool.
From stdpp Require Import base list strings.
From S2P Require Import Prelude L2Payload L2Request.
Open Scope Z_scope.
Open Scope rq_scope.

(** ** Decimal text *)

Lemma of_digits_snoc l d : of_digits (l ++ [d]) = of_digits l * 10 + (d - 48).
Proof. unfold of_digits. by rewrite fold_left_app. Qed.

(** The digits of a number: its value, and no leading zero. *)
Definition digits_of (n : Z) (l : text) : Prop :=
  l <> [] /\ forallb is_digit l = true /\ of_digits l = n /\ (n = 0 -> l = [48]) /\ (0 < n -> hd 0 l <> 48).

Lemma digit_char n : is_digit (48 + n mod 10) = true.
Proof. unfold is_digit. apply andb_true_iff. rewrite !Z.leb_le. divlia. Qed.

Lemma to_digits_app fuel n acc : to_digits fuel n acc = to_digits fuel n [] ++ acc.
Proof.
  revert n acc. induction fuel as [|fuel IH]; intros n acc; cbn [to_digits]; [done|]. destruct (n <? 10); [done|].
  by rewrite IH, (IH _ [_]), <- app_assoc.
Qed.

Lemma to_digits_spec fuel n : 0 <= n < 10 ^ Z.of_nat fuel -> (0 < fuel)%nat -> digits_of n (to_digits fuel n []).
Proof.
  revert n. induction fuel as [|fuel IH]; intros n Hn Hf; [lia|]. cbn [to_digits]. destruct (Z.ltb_spec n 10) as [L|L].
  - rewrite Z.mod_small by lia. unfold digits_of. cbn. unfold of_digits. cbn. split_and!; try done; try lia.
    + unfold is_digit. rewrite andb_true_r, andb_true_iff, !Z.leb_le. lia.
    + intros ->. done.
  - rewrite to_digits_app. rewrite Nat2Z.inj_succ, Z.pow_succ_r in Hn by lia.
    destruct fuel as [|fuel']; [cbn in Hn; lia|]. destruct (IH (n / 10)) as (H1 & H2 & H3 & H4 & H5); [divlia|lia|].
    unfold digits_of. rewrite forallb_app, H2, of_digits_snoc, H3. split_and!.
    + by destruct (to_digits _ _ _).
    + cbn [forallb]. by rewrite digit_char.
    + divlia.
    + lia.
    + intros _. destruct (to_digits (S fuel') (n / 10) []) as [|d l]; [done|]. cbn [app hd]. apply H5. divlia.
Qed.

Lemma dec_text_digits n : 0 <= n -> digits_of n (dec_text n).
Proof.
  intros Hn. apply to_digits_spec; [|lia]. split; [done|]. pose proof (Z.log2_nonneg n). rewrite Nat2Z.inj_succ, Z2Nat.id by done.
  destruct (Z.eq_dec n 0) as [->|Hne]; [done|]. pose proof (Z.log2_spec n ltac:(lia)) as [_ H2].
  eapply Z.lt_le_trans; [exact H2|]. apply Z.pow_le_mono_l. lia.
Qed.

Lemma digits_canonical n l : 0 <= n -> digits_of n l -> canonical_decimal l = true.
Proof.
  intros Hn (H1 & H2 & H3 & H4 & H5). destruct (Z.eq_dec n 0) as [E|E]; [by rewrite H4|]. destruct l as [|d l]; [done|]. cbn in *.
  apply andb_true_iff in H2 as [Hd Hl]. rewrite Hl. unfold is_digit in Hd. apply andb_true_iff in Hd as [K1 K2]. apply Z.leb_le in K1.
  assert (d <> 48) by (apply H5; lia). rewrite (proj2 (Z.leb_le 49 d)), K2 by lia. cbn. apply orb_true_r.
Qed.

Lemma digits_leading n l : 0 < n -> digits_of n l -> positive_digits l = true.
Proof.
  intros Hn Hd. pose proof (digits_canonical n l ltac:(lia) Hd) as Hc. destruct Hd as (H1 & H2 & H3 & H4 & H5). destruct l as [|d l]; [done|].
  cbn in *. apply orb_true_iff in Hc as [Hc|Hc]; [|done]. apply andb_true_iff in Hc as [Hc _]. apply Z.eqb_eq in Hc. by destruct (H5 Hn).
Qed.

Lemma int_text_ok n t : 0 <= n -> int_text n = Ok t -> t = dec_text n /\ Z.of_nat (length t) <= max_str_digits.
Proof.
  intros Hn. unfold int_text. rewrite Z.abs_eq by done. destruct (Z.ltb_spec max_str_digits (Z.of_nat (length (dec_text n)))) as [|L]; [done|].
  rewrite (proj2 (Z.ltb_ge n 0)) by lia. by intros [= <-].
Qed.

Lemma decimal_ok n t label positive : 0 <= n -> digits_of n t -> Z.of_nat (length t) <= max_str_digits -> (positive = true -> 0 < n) ->
  decimal t label positive = Ok n.
Proof.
  intros Hn Hd Hl Hp. unfold decimal. rewrite (digits_canonical n t) by done. cbn [negb]. rewrite (proj2 (Z.ltb_ge _ _)) by done.
  destruct Hd as (_ & _ & -> & _). destruct positive; cbn [andb]; [|done]. specialize (Hp eq_refl). by rewrite (proj2 (Z.eqb_neq n 0)) by lia.
Qed.

(** ** Lines *)

Definition line_ok (l : text) : bool := forallb printable l.

Lemma printable_not_cr c : printable c = true -> (c =? CR) = false.
Proof. unfold printable, CR. rewrite andb_true_iff, !Z.leb_le. intros. apply Z.eqb_neq. lia. Qed.

Lemma split_crlf_nonempty l : split_crlf l <> [].
Proof. destruct l as [|a [|b l]]; cbn; [done|done|]. destruct ((a =? CR) && (b =? LF)); [done|]. by destruct (match l with [] => _ | _ => _ end). Qed.

Lemma split_crlf_cons a l : (a =? CR) = false ->
  split_crlf (a :: l) = match split_crlf l with [] => [[a]] | p :: ps => (a :: p) :: ps end.
Proof. intros H. destruct l as [|b l]; cbn [split_crlf]; [done|]. rewrite H. done. Qed.

Lemma split_crlf_line line rest : line_ok line = true -> split_crlf (line ++ crlf ++ rest) = line :: split_crlf rest.
Proof.
  induction line as [|c line IH]; intros H; [done|]. cbn in H. apply andb_true_iff in H as [Hc H]. cbn [app].
  rewrite split_crlf_cons by (by apply printable_not_cr). by rewrite IH.
Qed.

Lemma split_join lines : forallb line_ok lines = true -> split_crlf (join_lines lines) = lines ++ [[]].
Proof.
  induction lines as [|line lines IH]; intros H; [done|]. cbn in H. apply andb_true_iff in H as [Hl H]. unfold join_lines in *. cbn [map concat].
  rewrite <- app_assoc, split_crlf_line by done. by rewrite IH.
Qed.

Lemma join_ascii lines : forallb line_ok lines = true -> forallb (fun b => b <? 128) (join_lines lines) = true.
Proof.
  unfold join_lines. induction lines as [|line lines IH]; intros H; [done|]. cbn in H. apply andb_true_iff in H as [Hl H]. cbn [map concat].
  rewrite !forallb_app, IH by done. cbn. rewrite !andb_true_r. unfold line_ok in Hl. rewrite forallb_forall in Hl. apply forallb_forall. intros c Hc.
  specialize (Hl c Hc). unfold printable in Hl. apply andb_true_iff in Hl as [_ Hl]. rewrite Z.leb_le in Hl. apply Z.ltb_lt. lia.
Qed.

(** ** Sections and parameters *)

Definition key_ok (k : text) : Prop := key_syntax k = true.

Lemma key_no_equals k : key_ok k -> forallb (fun c => negb (c =? 61)) k = true /\ hd 0 k <> 91 /\ k <> [].
Proof.
  unfold key_ok. destruct k as [|c k]; [done|]. cbn [key_syntax hd]. rewrite andb_true_iff. intros [Hc Hk].
  assert (Hl : forall c, is_letter c || is_digit c = true -> c <> 61).
  { intros x. unfold is_letter, is_digit. rewrite !orb_true_iff, !andb_true_iff, !Z.leb_le. lia. }
  split_and!; [|unfold is_letter in Hc; rewrite orb_true_iff, !andb_true_iff, !Z.leb_le in Hc; lia|done].
  cbn [forallb]. apply andb_true_iff. split; [apply negb_true_iff, Z.eqb_neq, Hl; by rewrite Hc|]. rewrite forallb_forall in Hk |- *. intros x Hx.
  apply negb_true_iff, Z.eqb_neq, Hl, Hk, Hx.
Qed.

Lemma split_first_param k v : forallb (fun c => negb (c =? 61)) k = true -> split_first 61 (k ++ 61 :: v) = (k, v).
Proof.
  induction k as [|c k IH]; intros H; [done|]. cbn in H. apply andb_true_iff in H as [Hc H]. cbn [app split_first].
  apply negb_true_iff in Hc. rewrite Hc. by rewrite IH.
Qed.

Lemma section_name_not k v : hd 0 k <> 91 -> k <> [] -> section_name (k ++ 61 :: v) = None.
Proof.
  destruct k as [|c k]; [done|]. cbn [hd app]. intros Hc _. unfold section_name.
  destruct (Z.eqb_spec c 91); [done|]. destruct c as [|p|p]; try done. repeat (destruct p as [p|p|]; try done).
Qed.

Lemma read_param before name current k v : key_ok k -> v <> [] -> mem k (keys current) = false ->
  read_line (before ++ [(name, current)]) (k ++ 61 :: v) = Ok (before ++ [(name, current ++ [(k, v)])]).
Proof.
  intros Hk Hv Hm. destruct (key_no_equals k Hk) as (K1 & K2 & K3). unfold read_line. rewrite section_name_not by done.
  rewrite rev_app_distr. cbn [rev app]. rewrite existsb_app. cbn [existsb]. rewrite Z.eqb_refl, orb_true_r. rewrite split_first_param by done.
  rewrite Hk, Hm, bool_decide_false by done. cbn [negb orb]. by rewrite rev_involutive.
Qed.

Lemma read_params before name current ps :
  (forall kv, In kv ps -> key_ok (fst kv) /\ snd kv <> []) -> NoDup (keys (current ++ ps)) ->
  forall lines, read_lines (before ++ [(name, current)]) (map param_line ps ++ lines) = read_lines (before ++ [(name, current ++ ps)]) lines.
Proof.
  revert current. induction ps as [|[k v] ps IH]; intros current Hps Hn lines; [by rewrite app_nil_r|].
  cbn [map app read_lines]. destruct (Hps (k, v) (or_introl eq_refl)) as [Hk Hv]. cbn [fst snd] in Hk, Hv. unfold param_line at 1. cbn [fst snd].
  assert (Hm : mem k (keys current) = false).
  { unfold keys in Hn. rewrite map_app in Hn. apply NoDup_app in Hn as (_ & Hn & _). apply not_true_iff_false. unfold mem. rewrite existsb_exists.
    intros (x & Hx & Ex). apply bool_decide_eq_true in Ex as ->. apply (Hn x); [by apply list_elem_of_In|by left]. }
  rewrite read_param by done. cbn [rbind]. rewrite IH; [by rewrite <- app_assoc|intros kv Hkv; apply Hps; by right|]. by rewrite <- app_assoc.
Qed.

Lemma section_name_of name : eqt name (codes "frame") || positive_digits name = true -> section_name (91 :: name ++ [93]) = Some name.
Proof. intros H. unfold section_name. rewrite rev_app_distr. cbn [rev app]. rewrite rev_involutive, H. done. Qed.

Lemma read_section sections name : eqt name (codes "frame") || positive_digits name = true -> mem name (keys sections) = false ->
  read_line sections (91 :: name ++ [93]) = Ok (sections ++ [(name, [])]).
Proof. intros Hn Hm. unfold read_line. by rewrite section_name_of, Hm by done. Qed.

(** ** Queries *)

Section Query.
Variables (frame_id : string) (frame_number : Z) (page : text) (page_id : Z) (parameters : dict).
Hypothesis (Hframe : codes frame_id = dec_text frame_number) (Hframe_text : line_ok (codes frame_id) = true /\ codes frame_id <> []).
Hypothesis (Hpage : digits_of page_id page) (Hpositive : 0 < page_id) (Hlength : Z.of_nat (length page) <= max_str_digits).
Hypothesis (Hparams : forall kv, In kv parameters -> key_ok (fst kv) /\ snd kv <> [] /\ line_ok (snd kv) = true) (Honce : NoDup (keys parameters)).

Definition query_frame : dict :=
  [(codes "id", codes frame_id); (codes "pageList", page); (codes "reqPage", page); (codes "reqPageCount", codes "1")].

Lemma query_lines_eq : query_lines frame_id page parameters =
  (91 :: codes "frame" ++ [93]) :: map param_line query_frame ++ (91 :: page ++ [93]) :: map param_line parameters.
Proof. done. Qed.

Lemma digit_printable l : forallb is_digit l = true -> line_ok l = true.
Proof.
  unfold line_ok. rewrite !forallb_forall. intros H x Hx. specialize (H x Hx). unfold is_digit, printable in *.
  rewrite andb_true_iff, !Z.leb_le in *. lia.
Qed.

Lemma key_printable k : key_ok k -> line_ok k = true.
Proof.
  unfold key_ok, line_ok. destruct k as [|c k]; [done|]. cbn [key_syntax]. rewrite andb_true_iff. intros [Hc Hk]. apply forallb_forall.
  rewrite forallb_forall in Hk. intros x [<-|Hx]; [|specialize (Hk x Hx)]; unfold printable, is_letter, is_digit in *;
    rewrite ?orb_true_iff, ?andb_true_iff, ?Z.leb_le in *; lia.
Qed.

Lemma page_digits : forallb is_digit page = true /\ page <> [].
Proof. by destruct Hpage as (? & ? & _). Qed.

Lemma query_lines_ok : forallb line_ok (query_lines frame_id page parameters) = true.
Proof.
  destruct page_digits as [Hd _]. apply digit_printable in Hd. destruct Hframe_text as [Hf _]. unfold line_ok in *.
  rewrite query_lines_eq. cbn [forallb map query_frame app]. unfold param_line. cbn [fst snd].
  rewrite forallb_app. cbn [forallb]. unfold line_ok. rewrite !forallb_app. cbn [forallb]. rewrite !Hd, Hf.
  apply forallb_forall. intros line Hl. apply in_map_iff in Hl as (kv & <- & Hkv). destruct (Hparams kv Hkv) as (Hk & _ & Hv).
  unfold param_line. unfold line_ok. rewrite forallb_app. cbn [forallb]. apply key_printable in Hk. unfold line_ok in *. by rewrite Hk, Hv.
Qed.

Lemma mem_false x l : ~ In x l -> mem x l = false.
Proof. intros H. apply not_true_iff_false. unfold mem. rewrite existsb_exists. intros (y & Hy & Ey). apply bool_decide_eq_true in Ey as ->. done. Qed.

Lemma page_not_frame : page <> codes "frame".
Proof. intros E. destruct page_digits as [Hd _]. rewrite E in Hd. done. Qed.

Lemma query_sections : read_lines [] (query_lines frame_id page parameters) = Ok [(codes "frame", query_frame); (page, parameters)].
Proof.
  rewrite query_lines_eq. cbn [read_lines]. rewrite read_section by done. cbn [rbind app].
  change [(codes "frame", [])] with ([] ++ [(codes "frame", @nil (text * text))]).
  rewrite read_params.
  - cbn [app read_lines]. rewrite read_section; [|apply orb_true_iff; right; by eapply digits_leading|apply mem_false; cbn; intros [E|[]]; by apply page_not_frame].
    cbn [rbind app]. change [(codes "frame", query_frame); (page, [])] with ([(codes "frame", query_frame)] ++ [(page, @nil (text * text))]).
    rewrite <- (app_nil_r (map param_line parameters)). rewrite read_params; [done| |done]. intros kv Hkv. destruct (Hparams kv Hkv) as (? & ? & _). done.
  - destruct page_digits as [_ Hne]. destruct Hframe_text as [_ Hfne]. intros kv Hkv. repeat (destruct Hkv as [<-|Hkv]; [split; done|]). destruct Hkv.
  - apply (bool_decide_unpack _). vm_compute. exact I.
Qed.

Lemma get_here {A} (k : text) (v : A) d : get ((k, v) :: d) k = Some v.
Proof. unfold get. cbn [List.find fst]. unfold eqt. by rewrite bool_decide_true. Qed.

Lemma get_there {A} (k k' : text) (v : A) d : k' <> k -> get ((k', v) :: d) k = get d k.
Proof. intros H. unfold get. cbn [List.find fst]. unfold eqt. by rewrite bool_decide_false. Qed.

Lemma split_on_none c l : forallb (fun x => negb (x =? c)) l = true -> split_on c l = [l].
Proof.
  induction l as [|x l IH]; intros H; [done|]. cbn in H. apply andb_true_iff in H as [Hx H]. cbn [split_on]. apply negb_true_iff in Hx.
  by rewrite Hx, IH.
Qed.

Lemma digits_no_comma l : forallb is_digit l = true -> forallb (fun x => negb (x =? 44)) l = true.
Proof.
  rewrite !forallb_forall. intros H x Hx. specialize (H x Hx). unfold is_digit in H. rewrite andb_true_iff, !Z.leb_le in H.
  apply negb_true_iff, Z.eqb_neq. lia.
Qed.

Lemma eqt_refl x : eqt x x = true.
Proof. by apply bool_decide_true. Qed.

Lemma mem_true x l : In x l -> mem x l = true.
Proof. intros H. unfold mem. apply existsb_exists. exists x. split; [done|apply eqt_refl]. Qed.

Lemma query_fields : field_is query_frame (codes "id") (dec_text frame_number) = true
  /\ field_is query_frame (codes "reqPageCount") (codes "1") = true
  /\ field query_frame (codes "reqPage") = page /\ field query_frame (codes "pageList") = page /\ same_keys query_frame FRAME_KEYS = true.
Proof.
  unfold field_is, field, query_frame. split_and!.
  - rewrite get_here, Hframe. apply eqt_refl.
  - rewrite !get_there, get_here by done. done.
  - rewrite !get_there, get_here by done. done.
  - rewrite get_there, get_here by done. done.
  - vm_compute. reflexivity.
Qed.

(** A rendered query is read as the sections it was made of. *)
Lemma query_route : parse_ini_route (join_lines (query_lines frame_id page parameters)) frame_number
  = Ok {| rt_page_id := page; rt_frame := query_frame; rt_parameters := parameters |}.
Proof.
  pose proof query_lines_ok as Hok. destruct page_digits as [Hd Hne]. destruct query_fields as (F1 & F2 & F3 & F4 & F5).
  unfold parse_ini_route. rewrite join_ascii, split_join by done. cbn [negb]. rewrite last_last, bool_decide_true, forallb_app by done.
  match goal with |- context [negb (?b && forallb _ [[]])] => assert (Hb : b = true) by exact Hok; rewrite Hb end. cbn [forallb andb]. rewrite length_app.
  match goal with |- context [(2 <=? ?n)%nat] => assert (Hn : (2 <=? n)%nat = true) by (apply Nat.leb_le; rewrite query_lines_eq; cbn; lia); rewrite Hn end.
  cbn [andb negb orb]. rewrite removelast_last, query_sections. cbn [rbind]. rewrite get_here. cbn [from_option id].
  rewrite F1, F2, F3, F4, F5. cbn [negb orb]. rewrite (decimal_ok page_id) by (done || lia). cbn [rbind].
  rewrite split_on_none by by apply digits_no_comma. cbn [check_pages]. rewrite (decimal_ok page_id) by (done || lia). cbn [rbind].
  rewrite bool_decide_true by apply NoDup_singleton. rewrite mem_true by by left. cbn [negb orb].
  assert (same_keys [(codes "frame", query_frame); (page, parameters)] [codes "frame"; page] = true) as ->.
  { unfold same_keys. cbn [keys map fst forallb]. by rewrite !mem_true by (cbn; auto). }
  cbn [negb]. rewrite get_there, get_here; [done|]. intros E. by apply page_not_frame.
Qed.
End Query.

Lemma line_ok_codes_six code : six_digits code = true -> line_ok code = true /\ code <> [].
Proof.
  unfold six_digits. rewrite andb_true_iff, Nat.eqb_eq. intros [Hl Hd]. split; [by apply digit_printable|]. by destruct code.
Qed.

(** C40: every order query the builder returns is accepted by the parser, which reads back the page, the frame and
    exactly the parameters it was built from. *)
Theorem order_query_roundtrip code market side rowcount endtime orderid page_id query :
  build_order_query code market side rowcount endtime orderid page_id = Ok query ->
  parse_market_ini query = Ok (order_query,
    {| rt_page_id := dec_text page_id; rt_frame := query_frame "2267" (dec_text page_id);
       rt_parameters := [(codes "id", codes "4027"); (codes "marketcode", dec_text market); (codes "rowcount", dec_text rowcount);
                         (codes "stockcode", code); (codes "reqtype", side); (codes "endtime", dec_text endtime);
                         (codes "orderid", dec_text orderid)] |}).
Proof.
  unfold build_order_query. destruct (six_digits code) eqn:Ec; [|done]. cbn [negb]. destruct ((market =? 17) || (market =? 33)) eqn:Em; [|done]. cbn [negb].
  destruct (mem side _) eqn:Es; [|done]. cbn [negb]. destruct (Z.ltb_spec rowcount 0) as [|Hr]; [done|]. destruct (Z.ltb_spec endtime 0) as [|He]; [done|].
  destruct (Z.ltb_spec orderid 0) as [|Ho]; [done|]. destruct (Z.ltb_spec page_id 0) as [|Hp0]; [done|]. destruct (Z.eqb_spec page_id 0) as [|Hp]; [done|].
  destruct (int_text rowcount) as [rt|] eqn:Er; [|done]. cbn [rbind]. destruct (int_text endtime) as [et|] eqn:Ee; [|done]. cbn [rbind].
  destruct (int_text orderid) as [ot|] eqn:Eo; [|done]. cbn [rbind]. apply int_text_ok in Er as [-> Lr], Ee as [-> Le], Eo as [-> Lo]; try done.
  set (ps := [(codes "id", _); _; _; _; _; _; _]). destruct (validate_order_parameters ps) as [[]|] eqn:Ev; [|done]. cbn [rbind].
  destruct (int_text page_id) as [page|] eqn:Ep; [|done]. cbn [rbind]. apply int_text_ok in Ep as [-> Lp]; [|done].
  assert (E : forall a b : list Z, Ok a = Ok b -> a = b) by congruence. intros K. apply E in K as <-. clear E.
  assert (Hm : 0 <= market) by (apply orb_true_iff in Em as [Em|Em]; apply Z.eqb_eq in Em; lia).
  assert (Hside : line_ok side = true /\ side <> []).
  { unfold mem in Es. apply existsb_exists in Es as (x & Hx & Ex). apply bool_decide_eq_true in Ex as ->.
    destruct Hx as [<-|[<-|[]]]; split; vm_compute; done. }
  assert (Hdec : forall n, 0 <= n -> line_ok (dec_text n) = true /\ dec_text n <> []).
  { intros n Hn. destruct (dec_text_digits n Hn) as (K1 & K2 & _). split; [by apply digit_printable|done]. }
  assert (Hroute : parse_ini_route (join_lines (query_lines "2267" (dec_text page_id) ps)) 2267
    = Ok {| rt_page_id := dec_text page_id; rt_frame := query_frame "2267" (dec_text page_id); rt_parameters := ps |}).
  { apply (query_route "2267" 2267 (dec_text page_id) page_id ps).
    - reflexivity.
    - split; [reflexivity|done].
    - apply dec_text_digits. lia.
    - lia.
    - done.
    - destruct (line_ok_codes_six code Ec). destruct Hside. pose proof (Hdec market Hm) as []. pose proof (Hdec rowcount Hr) as [].
      pose proof (Hdec endtime He) as []. pose proof (Hdec orderid Ho) as []. intros kv Hkv.
      repeat (destruct Hkv as [<-|Hkv]; [split_and!; reflexivity || done|]). destruct Hkv.
    - apply (bool_decide_unpack _). vm_compute. exact I. }
  unfold parse_market_ini. rewrite Hroute. cbn [rbind rt_parameters].
  assert (field_is ps (codes "id") (codes "4027") = true) as -> by (vm_compute; reflexivity). by rewrite Ev.
Qed.

(** ** Binary fields *)

Lemma le_bytes_length n v : length (le_bytes n v) = n.
Proof. revert v. induction n as [|n IH]; intros v; [done|]. cbn. by rewrite IH. Qed.

Lemma le_le_bytes n v : 0 <= v < 256 ^ Z.of_nat n -> le (le_bytes n v) = v.
Proof.
  revert v. induction n as [|n IH]; intros v Hv; [cbn in *; lia|]. cbn [le_bytes le fold_right]. rewrite Nat2Z.inj_succ, Z.pow_succ_r in Hv by lia.
  fold (le (le_bytes n (v / 256))). rewrite IH by divlia. divlia.
Qed.

Lemma slice_nth l s n i : nth_error (slice l s n) i = if (i <? n)%nat then nth_error l (s + i) else None.
Proof.
  unfold slice. destruct (Nat.ltb_spec i n) as [L|L].
  - rewrite nth_error_firstn, nth_error_skipn. by rewrite (proj2 (Nat.ltb_lt _ _) L).
  - rewrite nth_error_firstn. by rewrite (proj2 (Nat.ltb_ge _ _) L).
Qed.

Lemma pack_nth l s n v i : (s + n <= length l)%nat ->
  nth_error (pack l s n v) i = if (s <=? i)%nat && (i <? s + n)%nat then nth_error (le_bytes n v) (i - s) else nth_error l i.
Proof.
  intros Hl. unfold pack. assert (Hs : length (firstn s l) = s) by (rewrite length_firstn; lia). pose proof (le_bytes_length n v) as Hn.
  destruct (Nat.leb_spec s i) as [L1|L1]; cbn [andb].
  - rewrite nth_error_app2, Hs by lia. destruct (Nat.ltb_spec i (s + n)) as [L2|L2].
    + by rewrite nth_error_app1 by lia.
    + rewrite nth_error_app2, Hn, nth_error_skipn by lia. f_equal. lia.
  - rewrite nth_error_app1, nth_error_firstn by lia. by rewrite (proj2 (Nat.ltb_lt _ _) L1).
Qed.

Lemma pack_length l s n v : (s + n <= length l)%nat -> length (pack l s n v) = length l.
Proof. intros H. unfold pack. rewrite !length_app, length_firstn, length_skipn, le_bytes_length. lia. Qed.

(** A field inside a header of known length. *)
Ltac fits := first [lia | rewrite pack_length; [fits | fits]].

Lemma unpack_pack l s n v : (s + n <= length l)%nat -> 0 <= v < 256 ^ Z.of_nat n -> unpack (pack l s n v) s n = v.
Proof.
  intros Hl Hv. unfold unpack. assert (slice (pack l s n v) s n = le_bytes n v) as ->; [|by apply le_le_bytes]. apply nth_error_ext. intros i.
  rewrite slice_nth, pack_nth by done. destruct (Nat.ltb_spec i n) as [L|L].
  - rewrite (proj2 (Nat.leb_le _ _)), (proj2 (Nat.ltb_lt _ _)) by lia. cbn [andb]. f_equal. lia.
  - symmetry. apply nth_error_None. rewrite le_bytes_length. lia.
Qed.

Lemma slice_pack_other l s n v s' n' : (s + n <= length l)%nat -> (s' + n' <= s \/ s + n <= s')%nat -> slice (pack l s n v) s' n' = slice l s' n'.
Proof.
  intros Hl Ho. apply nth_error_ext. intros i. rewrite !slice_nth. destruct (Nat.ltb_spec i n') as [L|L]; [|done]. rewrite pack_nth by done.
  destruct (Nat.leb_spec s (s' + i)) as [L1|L1], (Nat.ltb_spec (s' + i) (s + n)) as [L2|L2]; cbn [andb]; (done || lia).
Qed.

Lemma slice_app l k s n : (s + n <= length l)%nat -> slice (l ++ k) s n = slice l s n.
Proof.
  intros H. apply nth_error_ext. intros i. rewrite !slice_nth. destruct (Nat.ltb_spec i n) as [L|L]; [|done]. by rewrite nth_error_app1 by lia.
Qed.

Lemma slice_firstn l s n h : (s + n <= h)%nat -> slice (firstn h l) s n = slice l s n.
Proof.
  intros H. apply nth_error_ext. intros i. rewrite !slice_nth. destruct (Nat.ltb_spec i n) as [L|L]; [|done].
  rewrite nth_error_firstn. by rewrite (proj2 (Nat.ltb_lt _ _)) by lia.
Qed.

(** ** Frames *)

(** What a parsed body says of its bytes. *)
Record body_facts (body : list Z) (frame_id : Z) (r : request_body) : Prop := {
  bf_long : (24 <= length body)%nat;
  bf_header_length : rb_header_length r = unpack body 0 2;
  bf_request_id : rb_request_id r = unpack body 2 4;
  bf_header_bounds : 24 <= rb_header_length r <= Z.of_nat (length body);
  bf_flags : unpack body 6 4 = 16842752 /\ rb_flags r = 16842752;
  bf_frame : unpack body 16 4 = frame_id;
  bf_header : rb_header r = firstn (Z.to_nat (rb_header_length r)) body
}.

Lemma read_request_body_facts body frame_id r : read_request_body body frame_id = Ok r -> body_facts body frame_id r.
Proof.
  unfold read_request_body. destruct (Nat.ltb_spec (length body) 24) as [|Hl]; [done|]. destruct (_ && _) eqn:E1; [|done]. cbn [negb].
  destruct (negb (_ =? 16842752) || _) eqn:E2; [done|]. destruct (negb (_ =? unpack body 12 4)); [done|].
  destruct (decode_payload _ _) as [p|]; [|done]. cbn [rbind]. intros K. assert (Er : r = {| rb_header_length := unpack body 0 2; rb_request_id := unpack body 2 4;
    rb_flags := unpack body 6 4; rb_header := firstn (Z.to_nat (unpack body 0 2)) body; rb_header_extension := slice body 24 (Z.to_nat (unpack body 0 2) - 24);
    rb_encoded_payload := skipn (Z.to_nat (unpack body 0 2)) body; rb_plaintext := p |}) by congruence. clear K. subst r.
  apply andb_true_iff in E1 as [E1 E1']. apply Z.leb_le in E1, E1'. apply orb_false_iff in E2 as [E2 E3].
  apply negb_false_iff, Z.eqb_eq in E2, E3. by constructor.
Qed.

(** The bytes outside the identity and the two lengths. *)
Definition same_header (a b : list Z) : Prop :=
  length a = length b /\ slice a 0 2 = slice b 0 2 /\ slice a 6 6 = slice b 6 6 /\ slice a 16 4 = slice b 16 4 /\ slice a 24 53 = slice b 24 53.

Section Frame.
Variables (template_body query : list Z) (template : request_body) (request_id frame_id : Z).
Hypothesis (Htemplate : body_facts template_body frame_id template) (H77 : rb_header_length template = 77)
  (Hquery : bytes_ok query = true) (Hid : request_id_ok request_id = true).

#[local] Abbreviation header := (rb_header template).
#[local] Abbreviation encoded := (encode_payload query).
#[local] Abbreviation header' :=
  (pack (pack (pack header 2 4 request_id) 12 4 (Z.of_nat (length encoded))) 20 4 (Z.of_nat (length query))).
#[local] Abbreviation body := (header' ++ encoded).

Lemma header_length : length header = 77%nat.
Proof. rewrite (bf_header _ _ _ Htemplate), H77, length_firstn. pose proof (bf_header_bounds _ _ _ Htemplate). lia. Qed.

Lemma new_header_length : length header' = 77%nat.
Proof. pose proof header_length. by rewrite !pack_length by fits. Qed.

(** A part of the new header that none of the three fields overlaps. *)
Lemma header_part s n : (s + n <= 2 \/ 6 <= s /\ s + n <= 12 \/ 16 <= s /\ s + n <= 20 \/ 24 <= s)%nat -> (s + n <= 77)%nat ->
  slice body s n = slice template_body s n.
Proof.
  intros Ho Hn. pose proof header_length. rewrite slice_app by (rewrite new_header_length; lia).
  rewrite !slice_pack_other by fits.
  rewrite (bf_header _ _ _ Htemplate), H77, slice_firstn by lia. done.
Qed.

Lemma frame_fields : Z.of_nat (length body) <= MAX_BYTES -> Z.of_nat (length query) <= MAX_BYTES ->
  unpack body 0 2 = 77 /\ unpack body 2 4 = request_id /\ unpack body 6 4 = 16842752 /\ unpack body 12 4 = Z.of_nat (length encoded)
  /\ unpack body 16 4 = frame_id /\ unpack body 20 4 = Z.of_nat (length query).
Proof.
  intros Hb Hq. pose proof header_length as Hh. pose proof new_header_length as Hh'. rewrite length_app, Hh' in Hb. unfold MAX_BYTES in *.
  unfold request_id_ok in Hid. apply andb_true_iff in Hid as [K1 K2]. apply Z.leb_le in K1, K2. unfold unpack.
  rewrite (header_part 0 2), (header_part 6 4), (header_part 16 4) by lia. fold (unpack template_body 0 2) (unpack template_body 6 4) (unpack template_body 16 4).
  rewrite <- (bf_header_length _ _ _ Htemplate), H77, (proj1 (bf_flags _ _ _ Htemplate)), (bf_frame _ _ _ Htemplate).
  rewrite !slice_app by lia. split_and!; try done.
  - rewrite !slice_pack_other by fits. apply unpack_pack; [fits|]. change (256 ^ Z.of_nat 4) with 4294967296. lia.
  - rewrite slice_pack_other by fits. apply unpack_pack; [fits|].
    change (256 ^ Z.of_nat 4) with 4294967296. lia.
  - apply unpack_pack; [fits|]. change (256 ^ Z.of_nat 4) with 4294967296. lia.
Qed.

(** The body behind the new header is read back. *)
Lemma frame_read : Z.of_nat (length body) <= MAX_BYTES -> Z.of_nat (length query) <= MAX_BYTES ->
  exists r, read_request_body body frame_id = Ok r /\ rb_request_id r = request_id /\ rb_plaintext r = query /\ rb_header r = header'
    /\ rb_header_length r = 77.
Proof.
  intros Hb Hq. destruct (frame_fields Hb Hq) as (F1 & F2 & F3 & F4 & F5 & F6). pose proof new_header_length as Hh'.
  unfold read_request_body. rewrite (proj2 (Nat.ltb_ge _ _)) by (rewrite length_app; lia). rewrite F1, F2, F3, F4, F5, F6, !Z.eqb_refl.
  rewrite (proj2 (Z.leb_le 77 _)) by (rewrite length_app; lia). cbn [negb orb andb Z.leb]. change (Z.to_nat 77) with 77%nat.
  change (24 <=? 77) with true. cbn [andb negb].
  rewrite skipn_app, skipn_all2, Hh', Nat.sub_diag by lia. rewrite skipn_O. cbn [app]. rewrite ?Z.eqb_refl. cbn [negb].
  rewrite decode_payload_encoded by done. cbn [rbind]. eexists. split; [done|]. cbn [rb_request_id rb_plaintext rb_header rb_header_length].
  split_and!; try done. rewrite firstn_app, Hh', Nat.sub_diag, firstn_O, app_nil_r. apply firstn_all2. lia.
Qed.

Lemma frame_same_header : same_header header' header.
Proof.
  pose proof header_length. unfold same_header. rewrite new_header_length, !slice_pack_other by fits. split_and!; try done.
Qed.
End Frame.

(** A number read from lower-case hexadecimal digits, the most significant first. *)
Definition hex_value (c : Z) : option Z :=
  if (48 <=? c) && (c <=? 57) then Some (c - 48) else if (97 <=? c) && (c <=? 102) then Some (c - 87) else None.
Definition read_hex : list Z -> Z -> option Z :=
  fix go digits acc := match digits with [] => Some acc | c :: digits => d ← hex_value c; go digits (16 * acc + d) end.

(** A frame: four bytes 0xfd, the length of the body in eight hexadecimal digits, a zero byte, the body. *)
Definition is_frame (frame body : list Z) : Prop :=
  exists digits, frame = [253; 253; 253; 253] ++ digits ++ [0] ++ body /\ length digits = 8%nat
    /\ read_hex digits 0 = Some (Z.of_nat (length body)).

Lemma hex_text_length n v : length (hex_text n v) = n.
Proof. revert v. induction n as [|n IH]; intros v; [done|]. cbn. rewrite length_app, IH. cbn. lia. Qed.

Lemma hex_value_digit d : 0 <= d < 16 -> hex_value (hex_digit d) = Some d.
Proof.
  intros Hd. unfold hex_value, hex_digit. destruct (Z.ltb_spec d 10).
  - rewrite (proj2 (Z.leb_le 48 _)), (proj2 (Z.leb_le _ 57)) by lia. cbn [andb]. f_equal. lia.
  - rewrite (proj2 (Z.leb_gt (87 + d) 57)), andb_false_r, (proj2 (Z.leb_le 97 _)), (proj2 (Z.leb_le _ 102)) by lia. cbn [andb]. f_equal. lia.
Qed.

Lemma read_hex_app x y acc : read_hex (x ++ y) acc = (read_hex x acc ≫= read_hex y).
Proof. revert acc. induction x as [|c x IH]; intros acc; [done|]. cbn. destruct (hex_value c); [apply IH|done]. Qed.

(** As many digits as are written are read back. *)
Lemma read_hex_text n v acc : 0 <= v < 16 ^ Z.of_nat n -> read_hex (hex_text n v) acc = Some (16 ^ Z.of_nat n * acc + v).
Proof.
  revert v. induction n as [|n IH]; intros v Hv; [cbn in *; f_equal; lia|]. rewrite Nat2Z.inj_succ, Z.pow_succ_r in * by lia.
  cbn [hex_text]. pose proof (Z.div_mod v 16 ltac:(lia)). pose proof (Z.mod_pos_bound v 16 ltac:(lia)).
  rewrite read_hex_app, IH by (split; [apply Z.div_pos; lia|apply Z.div_lt_upper_bound; lia]).
  cbn. rewrite hex_value_digit by done. cbn. f_equal. lia.
Qed.

Lemma wrap_frame_ok b f : wrap_frame b = Ok f -> is_frame f b /\ 0 < Z.of_nat (length b) <= MAX_BYTES.
Proof.
  unfold wrap_frame. destruct (_ && _) eqn:E; [|done]. cbn [negb]. apply andb_true_iff in E as [E1 E2]. apply Z.ltb_lt in E1. apply Z.leb_le in E2.
  intros K. assert (f = MARKER ++ hex_text 8 (Z.of_nat (length b)) ++ [0] ++ b) as -> by congruence. split; [|done].
  eexists. split; [done|]. split; [apply hex_text_length|]. rewrite read_hex_text; [f_equal; lia|]. unfold MAX_BYTES in E2. cbn. lia.
Qed.

(** C20: every order frame the builder returns is the marker, the length of its body in eight hexadecimal digits, a
    zero byte and a body that the parser accepts: it reads back the new request id, the query byte for byte with the
    same page and parameters, and a header that differs from the template's only in the identity and the two
    lengths. *)
Theorem order_frame_roundtrip template_body query request_id frame : bytes_ok query = true ->
  build_experimental_order_frame template_body query request_id = Ok frame ->
  exists body template r market, is_frame frame body
    /\ parse_request_body template_body = Ok (order_query, fst template, snd template) /\ parse_market_ini query = Ok (order_query, market)
    /\ parse_request_body body = Ok (order_query, market, r)
    /\ rb_request_id r = request_id /\ rb_plaintext r = query /\ same_header (rb_header r) (rb_header (snd template)).
Proof.
  intros Hq. unfold build_experimental_order_frame. destruct (request_id_ok request_id) eqn:Hid; [|done]. cbn [negb].
  destruct (Z.ltb_spec MAX_BYTES (Z.of_nat (length template_body))) as [|Ht]; [done|].
  destruct (Z.ltb_spec MAX_BYTES (Z.of_nat (length query))) as [|Hl]; [done|].
  destruct (parse_request_body template_body) as [[[kind trt] tpl]|] eqn:Ep; [|done]. cbn [rbind].
  destruct (parse_market_ini query) as [[mkind market]|] eqn:Em; [|done]. cbn [rbind].
  destruct (_ || _) eqn:Ek; [done|]. apply orb_false_iff in Ek as [Ek1 Ek2]. apply negb_false_iff, bool_decide_eq_true in Ek1, Ek2. subst kind mkind.
  destruct (Z.eqb_spec (rb_header_length tpl) 77) as [H77|]; [|done]. cbn [negb].
  intros Hw. assert (Hf : body_facts template_body 2267 tpl).
  { unfold parse_request_body in Ep. destruct (read_request_body template_body 2267) as [p|] eqn:Er; [|done]. cbn [rbind] in Ep.
    destruct (parse_market_ini (rb_plaintext p)) as [m|]; [|done]. cbn [rbind] in Ep. assert (tpl = p) as -> by congruence. by apply read_request_body_facts. }
  apply wrap_frame_ok in Hw as (Hbody & Hb).
  destruct (frame_read template_body query tpl request_id 2267 Hf H77 Hq Hid ltac:(lia) Hl) as (r & Er & R1 & R2 & R3 & R4).
  eexists _, (trt, tpl), r, market. split; [exact Hbody|]. split; [done|]. split; [done|]. split_and!; try done.
  - unfold parse_request_body. rewrite Er. cbn [rbind]. rewrite R2, Em. done.
  - rewrite R3. by eapply frame_same_header.
Qed.

(** ** Witnesses *)

Definition demo_query : list Z :=
  match build_order_query (codes "600000") 17 (codes "buy") 20 0 0 1269 with Ok q => q | Err _ => [] end.

Lemma order_query_roundtrip_witness :
  build_order_query (codes "600000") 17 (codes "buy") 20 0 0 1269 = Ok demo_query
  /\ parse_market_ini demo_query = Ok (order_query,
    {| rt_page_id := dec_text 1269; rt_frame := query_frame "2267" (dec_text 1269);
       rt_parameters := [(codes "id", codes "4027"); (codes "marketcode", dec_text 17); (codes "rowcount", dec_text 20);
                         (codes "stockcode", codes "600000"); (codes "reqtype", codes "buy"); (codes "endtime", dec_text 0);
                         (codes "orderid", dec_text 0)] |}).
Proof.
  assert (E : build_order_query (codes "600000") 17 (codes "buy") 20 0 0 1269 = Ok demo_query) by (vm_compute; reflexivity).
  exact (conj E (order_query_roundtrip (codes "600000") 17 (codes "buy") 20 0 0 1269 demo_query E)).
Defined.

(** A captured template: its header announces itself, its flags, its frame and the lengths of its payload. *)
Definition demo_template : list Z :=
  let encoded := encode_payload demo_query in
  le_bytes 2 77 ++ le_bytes 4 5 ++ le_bytes 4 16842752 ++ [1; 0] ++ le_bytes 4 (Z.of_nat (length encoded)) ++ le_bytes 4 2267
  ++ le_bytes 4 (Z.of_nat (length demo_query)) ++ repeat 7 53 ++ encoded.

Definition demo_frame : list Z := match build_experimental_order_frame demo_template demo_query 41 with Ok f => f | Err _ => [] end.

Definition frame_reads_back (template_body query frame : list Z) (request_id : Z) : Prop :=
  exists body template r market, is_frame frame body
    /\ parse_request_body template_body = Ok (order_query, fst template, snd template) /\ parse_market_ini query = Ok (order_query, market)
    /\ parse_request_body body = Ok (order_query, market, r)
    /\ rb_request_id r = request_id /\ rb_plaintext r = query /\ same_header (rb_header r) (rb_header (snd template)).

Lemma order_frame_roundtrip_witness : length demo_frame = 306%nat /\ frame_reads_back demo_template demo_query demo_frame 41.
Proof.
  split; [vm_compute; reflexivity|].
  assert (Eq : bytes_ok demo_query = true) by (vm_compute; reflexivity).
  assert (E : build_experimental_order_frame demo_template demo_query 41 = Ok demo_frame) by (vm_compute; reflexivity).
  exact (order_frame_roundtrip demo_template demo_query 41 demo_frame Eq E).
Defined.
