(* ===== verification/L2Snappy.v ===== *)
(** * Raw Snappy blocks ([snappy_decompress] of [src/rquant/l2/_codec.py])

    The decoder is a loop over the instructions of a block; here it runs on the bytes that are left,
    with one turn per byte.  The format is a relation between instruction lists and bytes, and the
    theorem says that the decoder returns exactly what the format defines, within its limit. *)

From Stdlib Require Import ZArith Lia Bool.
From stdpp Require Import base list strings.
From S2P Require Import Prelude L2Payload L2Request L2RequestThms.
Open Scope Z_scope.
Open Scope rq_scope.

(** ** The decoder *)

(** [for shift in range(0, 35, 7)]: the declared length and the bytes after it. *)
Fixpoint read_length (shifts : list Z) (rest : list Z) (declared : Z) : res (Z * list Z) :=
  match shifts with
  | [] => value_error "overflowing Snappy length"
  | shift :: shifts =>
      match rest with
      | [] => value_error "truncated Snappy length"
      | byte :: rest =>
          raise_if (shift =? 28) && negb (Z.land byte 240 =? 0) as ValueError saying "overflowing Snappy length" ;;
          let declared := Z.lor declared (Z.shiftl (Z.land byte 127) shift) in
          if byte <? 128 then Ok (declared, rest) else read_length shifts rest declared
      end
  end.

(** [for _ in range(length): output.append(output[-offset])] *)
Fixpoint copy_bytes (n : nat) (offset : Z) (output : list Z) : list Z :=
  match n with
  | O => output
  | S n => copy_bytes n offset (output ++ [nth (length output - Z.to_nat offset) output 0])
  end.

(** One instruction: the bytes and the output after it. *)
Definition snappy_step (declared tag : Z) (rest output : list Z) : res (list Z * list Z) :=
  let left := declared - Z.of_nat (length output) in
  let kind := Z.land tag 3 in
  if kind =? 0 then
    let size := Z.shiftr tag 2 in
    bind (length_, rest) from
      (if size <? 60 then Ok (size + 1, rest)
       else
         let count := Z.to_nat (size - 59) in
         raise_if (length rest <? count)%nat as ValueError saying "truncated Snappy literal length" ;;
         Ok (le (firstn count rest) + 1, skipn count rest)) ;;
    raise_if (Z.of_nat (length rest) <? length_) || (left <? length_) as ValueError saying "invalid Snappy literal length" ;;
    Ok (skipn (Z.to_nat length_) rest, output ++ firstn (Z.to_nat length_) rest)
  else
    let count := if kind =? 1 then 1%nat else if kind =? 2 then 2%nat else 4%nat in
    raise_if (length rest <? count)%nat as ValueError saying "truncated Snappy copy" ;;
    let offset := if kind =? 1 then Z.shiftl (Z.shiftr tag 5) 8 + hd 0 rest else le (firstn count rest) in
    let length_ := if kind =? 1 then Z.land (Z.shiftr tag 2) 7 + 4 else Z.shiftr tag 2 + 1 in
    raise_if (offset =? 0) || (Z.of_nat (length output) <? offset) || (left <? length_) as ValueError saying "invalid Snappy copy bounds" ;;
    Ok (skipn count rest, copy_bytes (Z.to_nat length_) offset output).

Fixpoint snappy_loop (fuel : nat) (declared : Z) (rest output : list Z) : res (list Z) :=
  match rest with
  | [] => Ok output
  | tag :: rest =>
      match fuel with
      | O => Err (Raise OutOfFuel "")
      | S fuel => bind (rest, output) from snappy_step declared tag rest output ;; snappy_loop fuel declared rest output
      end
  end.

Definition snappy_decompress (source : list Z) (max_output_bytes : Z) : res (list Z) :=
  raise_if MAX_BYTES <? Z.of_nat (length source) as ValueError saying "invalid Snappy input" ;;
  raise_if negb ((0 <=? max_output_bytes) && (max_output_bytes <=? MAX_BYTES)) as ValueError saying "invalid Snappy output limit" ;;
  bind (declared, rest) from read_length [0; 7; 14; 21; 28] source 0 ;;
  raise_if max_output_bytes <? declared as ValueError saying "Snappy output exceeds limit" ;;
  output <~ snappy_loop (length rest) declared rest [] ;;
  raise_if negb (Z.of_nat (length output) =? declared) as ValueError saying "Snappy output underfills declared length" ;;
  Ok output.

(** [_response_payload]: the association of a response with its request, then its payload. *)
Definition response_payload (body : list Z) (request_id page_id command : Z) (allowed_flags : list Z) : res (list Z) :=
  let size := Z.of_nat (length body) in
  raise_if negb ((26 <=? size) && (size <=? MAX_BYTES)) as ValueError saying "invalid market response size" ;;
  let header := unpack body 0 2 in
  let actual_id := unpack body 2 4 in
  let flags := unpack body 6 4 in
  let actual_page := unpack body 10 2 in
  let payload_size := unpack body 12 4 in
  let actual_command := unpack body 16 4 in
  let profile := ((header =? 32) && negb (actual_id =? 4294967295))
                 || ((header =? 26) && (actual_id =? 4294967295) && (flags =? 4352)) in
  raise_if negb profile || negb ((actual_id =? request_id) && (actual_page =? page_id) && (actual_command =? command))
           || negb (existsb (Z.eqb flags) allowed_flags)
    as ValueError saying "market response association or format mismatch" ;;
  raise_if negb (payload_size =? size - header) as ValueError saying "invalid market response length" ;;
  snappy_decompress (skipn (Z.to_nat header) body) MAX_BYTES.

(** ** The format *)

(** A length in groups of seven bits, least significant first; the top bit says that another byte follows. *)
Fixpoint varint_value (l : list Z) : Z := match l with [] => 0 | b :: l => b mod 128 + 128 * varint_value l end.

Definition varint (n : Z) (l : list Z) : Prop :=
  varint_value l = n /\ (1 <= length l <= 5)%nat /\ (forall b, In b (removelast l) -> 128 <= b) /\ List.last l 0 < 128
  /\ (length l = 5%nat -> List.last l 0 < 16).

Inductive element := Literal (data : list Z) | Copy (offset count : Z).

(** The ways to write an element. *)
Inductive writes : element -> list Z -> Prop :=
  | short_literal data : 1 <= Z.of_nat (length data) <= 60 -> writes (Literal data) (4 * (Z.of_nat (length data) - 1) :: data)
  | long_literal (n : nat) data : (1 <= n <= 4)%nat -> 1 <= Z.of_nat (length data) <= 256 ^ Z.of_nat n ->
      writes (Literal data) (4 * (59 + Z.of_nat n) :: le_bytes n (Z.of_nat (length data) - 1) ++ data)
  | short_copy offset count : 0 <= offset < 2048 -> 4 <= count <= 11 ->
      writes (Copy offset count) [1 + 4 * (count - 4) + 32 * (offset / 256); offset mod 256]
  | copy_2 offset count : 0 <= offset < 65536 -> 1 <= count <= 64 -> writes (Copy offset count) (2 + 4 * (count - 1) :: le_bytes 2 offset)
  | copy_4 offset count : 0 <= offset < 4294967296 -> 1 <= count <= 64 -> writes (Copy offset count) (3 + 4 * (count - 1) :: le_bytes 4 offset).

(** The last [offset] bytes of the output, repeated until [count] bytes are there. *)
Definition repeated (count offset : nat) (output : list Z) : list Z :=
  map (fun i => nth (length output - offset + i mod offset) output 0) (seq 0 count).

(** What an element does to the output; a copy longer than its offset repeats what it has just written. *)
Definition apply_element (output : list Z) (e : element) : option (list Z) :=
  match e with
  | Literal data => Some (output ++ data)
  | Copy offset count => if (1 <=? offset) && (offset <=? Z.of_nat (length output)) then Some (output ++ repeated (Z.to_nat count) (Z.to_nat offset) output) else None
  end.

(** A run of written elements from one output to another. *)
Inductive block : list Z -> list Z -> list Z -> Prop :=
  | block_end output : block [] output output
  | block_next e bytes rest output output' final : writes e bytes -> apply_element output e = Some output' -> block rest output' final ->
      block (bytes ++ rest) output final.

(** ** Bits of a byte *)

Lemma land_mask x k : 0 <= k -> Z.land x (Z.ones k) = x mod 2 ^ k.
Proof. intros. by apply Z.land_ones. Qed.

Lemma tag_kind x : Z.land x 3 = x mod 4.
Proof. exact (land_mask x 2 ltac:(lia)). Qed.

Lemma tag_size x : Z.shiftr x 2 = x / 4.
Proof. by rewrite Z.shiftr_div_pow2 by lia. Qed.

Lemma tag_high x : Z.shiftl (Z.shiftr x 5) 8 = x / 32 * 256.
Proof. by rewrite Z.shiftl_mul_pow2, Z.shiftr_div_pow2 by lia. Qed.

Lemma tag_count x : Z.land x 7 = x mod 8.
Proof. exact (land_mask x 3 ltac:(lia)). Qed.

Lemma low_bits x : Z.land x 127 = x mod 128.
Proof. exact (land_mask x 7 ltac:(lia)). Qed.

Lemma high_bits x : 0 <= x <= 255 -> (Z.land x 240 =? 0) = (x <? 16).
Proof.
  intros H. assert (K : forallb (fun n => Bool.eqb (Z.land (Z.of_nat n) 240 =? 0) (Z.of_nat n <? 16)) (seq 0 256) = true) by (vm_compute; done).
  rewrite forallb_forall in K. specialize (K (Z.to_nat x)). rewrite Z2Nat.id, in_seq in K by lia. apply Bool.eqb_prop, K. lia.
Qed.

Lemma disjoint_bits a b k : 0 <= k -> 0 <= a < 2 ^ k -> Z.land a (Z.shiftl b k) = 0.
Proof.
  intros Hk Ha. apply Z.bits_inj'. intros i Hi. rewrite Z.land_spec, Z.bits_0. destruct (Z.lt_ge_cases i k) as [L|L].
  - rewrite Z.shiftl_spec_low by done. apply andb_false_r.
  - destruct (Z.eq_dec a 0) as [->|Hne]; [by rewrite Z.bits_0|]. rewrite (Z.bits_above_log2 a i); [done|lia|].
    apply Z.log2_lt_pow2; [lia|]. pose proof (Z.pow_le_mono_r 2 k i ltac:(lia) L). lia.
Qed.

Lemma lor_shift a b k : 0 <= k -> 0 <= a < 2 ^ k -> Z.lor a (Z.shiftl b k) = a + b * 2 ^ k.
Proof.
  intros Hk Ha. pose proof (disjoint_bits a b k Hk Ha) as Hd. rewrite <- Z.lxor_lor, <- Z.add_nocarry_lxor by done.
  by rewrite Z.shiftl_mul_pow2.
Qed.

(** ** The declared length *)

Fixpoint shifts (j : nat) : list Z := match j with O => [] | S j => 28 - 7 * Z.of_nat j :: shifts j end.

(** A length of at most [j] groups, the last of five being short. *)
Definition groups (j : nat) (l : list Z) : Prop :=
  (1 <= length l <= j)%nat /\ (forall b, In b (removelast l) -> 128 <= b) /\ List.last l 0 < 128 /\ (length l = j -> List.last l 0 < 16).

Lemma groups_cons j b l : l <> [] -> groups (S j) (b :: l) <-> 128 <= b /\ groups j l.
Proof.
  intros Hl. unfold groups. destruct l as [|c l]; [done|]. change (removelast (b :: c :: l)) with (b :: removelast (c :: l)).
  change (List.last (b :: c :: l) 0) with (List.last (c :: l) 0). cbn [length]. split.
  - intros (K1 & K2 & K3 & K4). split; [apply K2; by left|]. split_and!; try done; try lia; try (intros x Hx; apply K2; by right); intros; apply K4; lia.
  - intros (Hb & K1 & K2 & K3 & K4). split_and!; try done; try lia; try (intros x [<-|Hx]; auto); intros; apply K4; lia.
Qed.

Lemma read_length_spec j rest acc n rest' : (j <= 5)%nat -> bytes_ok rest = true -> 0 <= acc < 128 ^ (5 - Z.of_nat j) ->
  read_length (shifts j) rest acc = Ok (n, rest') <->
  exists l, rest = l ++ rest' /\ groups j l /\ n = acc + 128 ^ (5 - Z.of_nat j) * varint_value l.
Proof.
  revert rest acc. induction j as [|j IH]; intros rest acc Hj Hb Ha; cbn [shifts read_length].
  { split; [done|]. intros (l & _ & (K & _) & _). lia. }
  destruct rest as [|b rest].
  { split; [done|]. intros (l & E & (K & _) & _). destruct l; [cbn in K; lia|done]. }
  apply bytes_ok_cons in Hb as [Hb Hrest]. rewrite high_bits by done.
  assert (E7 : 128 ^ (5 - Z.of_nat (S j)) = 2 ^ (28 - 7 * Z.of_nat j)).
  { change 128 with (2 ^ 7). rewrite <- Z.pow_mul_r by lia. f_equal. lia. }
  assert (E8 : 128 ^ (5 - Z.of_nat j) = 128 * 128 ^ (5 - Z.of_nat (S j))).
  { rewrite <- Z.pow_succ_r by lia. f_equal. lia. }
  rewrite E7 in Ha. rewrite low_bits, lor_shift by lia. rewrite <- E7 in *. set (m := 128 ^ (5 - Z.of_nat (S j))) in *.
  assert (Hfirst : forall x, (28 - 7 * Z.of_nat j =? 28) && negb (b <? 16) = x -> x = true -> j = 0%nat /\ 16 <= b).
  { intros x <- K. apply andb_true_iff in K as [K1 K2]. apply Z.eqb_eq in K1. apply negb_true_iff, Z.ltb_ge in K2. lia. }
  destruct ((28 - 7 * Z.of_nat j =? 28) && negb (b <? 16)) eqn:E1.
  { destruct (Hfirst true eq_refl eq_refl) as [-> H16]. split; [done|]. intros (l & E & (K1 & K2 & K3 & K4) & _). destruct l as [|c [|d l]]; cbn in K1; try lia.
    injection E as <- _. cbn in K4. specialize (K4 eq_refl). lia. }
  assert (Hsmall : j = 0%nat -> b < 16).
  { intros ->. cbn in E1. apply negb_false_iff, Z.ltb_lt in E1. done. }
  destruct (Z.ltb_spec b 128) as [L|L].
  - split.
    + intros [= <- <-]. exists [b]. split; [done|]. split; [|cbn; lia]. unfold groups. cbn. split_and!; try lia; try done; intros; apply Hsmall; lia.
    + intros (l & E & Hg & ->). destruct l as [|c l]; [destruct Hg as [K _]; cbn in K; lia|]. injection E as <- E.
      destruct (decide (l = [])) as [->|Hne]; [|apply groups_cons in Hg as [K _]; [lia|done]]. cbn in E. subst rest. cbn [varint_value]. f_equal. f_equal. lia.
  - assert (0 <= acc + b mod 128 * m < 128 ^ (5 - Z.of_nat j)) by (pose proof (Z.mod_pos_bound b 128 ltac:(lia)); rewrite E8; nia).
    rewrite IH by (done || lia).
    split.
    + intros (l & -> & Hg & ->). exists (b :: l). split; [done|]. assert (l <> []) by (destruct Hg as [K _]; destruct l; [cbn in K; lia|done]).
      split; [by apply groups_cons|].
      cbn [varint_value]. rewrite E8. lia.
    + intros (l & E & Hg & ->). destruct l as [|c l]; [destruct Hg as [K _]; cbn in K; lia|]. injection E as <- ->.
      destruct (decide (l = [])) as [->|Hne]; [destruct Hg as (_ & _ & K & _); cbn in K; lia|]. apply groups_cons in Hg as [_ Hg]; [|done].
      exists l. split; [done|]. split; [done|]. cbn [varint_value]. rewrite E8. lia.
Qed.

Lemma read_declared source n rest : bytes_ok source = true ->
  read_length [0; 7; 14; 21; 28] source 0 = Ok (n, rest) <-> exists l, source = l ++ rest /\ varint n l.
Proof.
  intros Hb. change [0; 7; 14; 21; 28] with (shifts 5). rewrite read_length_spec by (done || (cbn; lia)). change (128 ^ (5 - Z.of_nat 5)) with 1.
  split; intros (l & E & K); exists l; (split; [done|]); unfold varint, groups in *; [destruct K as [(K1 & K2 & K3 & K4) ->]|destruct K as (<- & K1 & K2 & K3 & K4)];
    split_and!; try done; lia.
Qed.

(** ** One instruction *)

Lemma bytes_ok_app l k : bytes_ok (l ++ k) = true <-> bytes_ok l = true /\ bytes_ok k = true.
Proof. unfold bytes_ok. by rewrite forallb_app, andb_true_iff. Qed.

Lemma bytes_ok_split n l : bytes_ok l = true -> bytes_ok (firstn n l) = true /\ bytes_ok (skipn n l) = true.
Proof. intros H. apply bytes_ok_app. by rewrite firstn_skipn. Qed.

Lemma le_bounds l : bytes_ok l = true -> 0 <= le l < 256 ^ Z.of_nat (length l).
Proof.
  induction l as [|b l IH]; intros H; [cbn; lia|]. apply bytes_ok_cons in H as [Hb H]. specialize (IH H). cbn [le fold_right length]. fold (le l).
  rewrite Nat2Z.inj_succ, Z.pow_succ_r by lia. lia.
Qed.

Lemma le_bytes_le l : bytes_ok l = true -> le_bytes (length l) (le l) = l.
Proof.
  induction l as [|b l IH]; intros H; [done|]. apply bytes_ok_cons in H as [Hb H]. cbn [le fold_right length le_bytes]. fold (le l).
  assert ((b + 256 * le l) mod 256 = b) as -> by divlia. assert ((b + 256 * le l) / 256 = le l) as -> by divlia. by rewrite IH.
Qed.

Lemma copy_bytes_length n offset out : length (copy_bytes n offset out) = (length out + n)%nat.
Proof. revert out. induction n as [|n IH]; intros out; cbn [copy_bytes]; [lia|]. rewrite IH, length_app. cbn. lia. Qed.

Lemma copy_bytes_snoc n offset out :
  copy_bytes (S n) offset out = copy_bytes n offset out ++ [nth (length out + n - Z.to_nat offset) (copy_bytes n offset out) 0].
Proof.
  revert out. induction n as [|n IH]; intros out; [cbn; by rewrite Nat.add_0_r|].
  change (copy_bytes (S (S n)) offset out) with (copy_bytes (S n) offset (out ++ [nth (length out - Z.to_nat offset) out 0])).
  rewrite IH, length_app. cbn [length]. change (copy_bytes (S n) offset out) with (copy_bytes n offset (out ++ [nth (length out - Z.to_nat offset) out 0])).
  do 3 f_equal. lia.
Qed.

Lemma repeated_length n o out : length (repeated n o out) = n.
Proof. unfold repeated. by rewrite length_map, length_seq. Qed.

(** Copying byte by byte repeats the end of the output. *)
Lemma copy_bytes_repeats n offset out : 1 <= offset <= Z.of_nat (length out) ->
  copy_bytes n offset out = out ++ repeated n (Z.to_nat offset) out.
Proof.
  intros Ho. set (o := Z.to_nat offset). assert (Hpos : (0 < o <= length out)%nat) by lia. induction n as [|n IH]; [by rewrite app_nil_r|].
  rewrite copy_bytes_snoc, IH, <- app_assoc. f_equal. unfold repeated at 3. rewrite seq_S, map_app. cbn [map]. fold (repeated n o out). do 2 f_equal. fold o.
  destruct (Nat.lt_ge_cases n o) as [Hn|Hn].
  - rewrite app_nth1, Nat.mod_small by lia. f_equal. lia.
  - rewrite app_nth2 by lia. replace (length out + n - o - length out)%nat with (n - o)%nat by lia. unfold repeated.
    rewrite (nth_indep _ 0 (nth (length out - o + 0 mod o) out 0)) by (rewrite length_map, length_seq; lia).
    rewrite (map_nth (fun i => nth (length out - o + i mod o) out 0)), seq_nth by lia. cbn [Nat.add]. do 2 f_equal.
    replace n with (n - o + 1 * o)%nat at 2 by lia. by rewrite Nat.Div0.mod_add.
Qed.

Lemma apply_grows out e out' : apply_element out e = Some out' -> (length out <= length out')%nat.
Proof.
  destruct e as [data|offset count]; cbn; [intros [= <-]; rewrite length_app; lia|]. destruct (_ && _); [|done]. intros [= <-]. rewrite length_app. lia.
Qed.

Lemma block_grows rest out final : block rest out final -> (length out <= length final)%nat.
Proof. induction 1 as [|e bytes rest out out' final Hw Ha Hb IH]; [lia|]. apply apply_grows in Ha. lia. Qed.

Lemma literal_sound tag rest out declared size rest0 : 0 <= declared ->
  (Z.of_nat (length rest0) <? size) || (declared - Z.of_nat (length out) <? size) = false -> 1 <= size ->
  (forall data, Z.of_nat (length data) = size -> firstn (Z.to_nat size) rest0 = data -> exists bytes, tag :: rest = bytes ++ skipn (Z.to_nat size) rest0 /\ writes (Literal data) bytes) ->
  exists e bytes, tag :: rest = bytes ++ skipn (Z.to_nat size) rest0 /\ writes e bytes
    /\ apply_element out e = Some (out ++ firstn (Z.to_nat size) rest0) /\ Z.of_nat (length (out ++ firstn (Z.to_nat size) rest0)) <= declared.
Proof.
  intros Hd Hc Hs Hw. apply orb_false_iff in Hc as [Hc1 Hc2]. apply Z.ltb_ge in Hc1, Hc2.
  assert (Hl : Z.of_nat (length (firstn (Z.to_nat size) rest0)) = size) by (rewrite length_firstn; lia).
  destruct (Hw _ Hl eq_refl) as (bytes & E & Hb). exists (Literal (firstn (Z.to_nat size) rest0)), bytes. split_and!; try done. rewrite length_app. lia.
Qed.

Lemma copy_sound tag rest out declared offset len after rest' out' :
  (offset =? 0) || (Z.of_nat (length out) <? offset) || (declared - Z.of_nat (length out) <? len) = false ->
  Ok (after, copy_bytes (Z.to_nat len) offset out) = Ok (rest', out') -> 0 <= offset -> 0 <= len ->
  (exists bytes, tag :: rest = bytes ++ after /\ writes (Copy offset len) bytes) ->
  exists e bytes, tag :: rest = bytes ++ rest' /\ writes e bytes /\ apply_element out e = Some out' /\ Z.of_nat (length out') <= declared.
Proof.
  intros Ec E Ho Hl (bytes & Eb & Hw). assert (rest' = after /\ out' = copy_bytes (Z.to_nat len) offset out) as [-> ->] by (split; congruence).
  apply orb_false_iff in Ec as [Ec Ec3]. apply orb_false_iff in Ec as [Ec1 Ec2]. apply Z.eqb_neq in Ec1. apply Z.ltb_ge in Ec2, Ec3.
  exists (Copy offset len), bytes. split_and!; try done.
  - cbn. rewrite (proj2 (Z.leb_le 1 offset)), (proj2 (Z.leb_le offset _)) by lia. by rewrite copy_bytes_repeats by lia.
  - rewrite copy_bytes_length. lia.
Qed.

(** A field of [n] bytes is the text of its number. *)
Lemma field_bytes n rest : bytes_ok rest = true -> (n <= length rest)%nat ->
  0 <= le (firstn n rest) < 256 ^ Z.of_nat n /\ le_bytes n (le (firstn n rest)) = firstn n rest.
Proof.
  intros Hb Hn. destruct (bytes_ok_split n rest Hb) as [Hb1 _]. pose proof (le_bounds _ Hb1) as Hle. pose proof (le_bytes_le _ Hb1) as En.
  by rewrite length_firstn, Nat.min_l in Hle, En by lia.
Qed.

Lemma snappy_step_sound declared tag rest out rest' out' : 0 <= declared -> 0 <= tag <= 255 -> bytes_ok rest = true ->
  snappy_step declared tag rest out = Ok (rest', out') ->
  exists e bytes, tag :: rest = bytes ++ rest' /\ writes e bytes /\ apply_element out e = Some out' /\ Z.of_nat (length out') <= declared.
Proof.
  intros Hd Ht Hb. unfold snappy_step. rewrite tag_kind, tag_size, tag_high, tag_count. destruct (Z.eqb_spec (tag mod 4) 0) as [K0|K0].
  - destruct (Z.ltb_spec (tag / 4) 60) as [L|L].
    + cbn [rbind]. destruct (_ || _) eqn:Ec; [done|]. intros E. assert (rest' = skipn (Z.to_nat (tag / 4 + 1)) rest /\ out' = out ++ firstn (Z.to_nat (tag / 4 + 1)) rest)
        as [-> ->] by (split; congruence). eapply literal_sound; [done|exact Ec|divlia|]. intros data Hl Hf. exists (4 * (Z.of_nat (length data) - 1) :: data).
      split; [|constructor; divlia]. cbn [app]. rewrite <- Hf at 2. rewrite firstn_skipn. f_equal. rewrite Hl. divlia.
    + destruct (Nat.ltb_spec (length rest) (Z.to_nat (tag / 4 - 59))) as [|Hr]; [done|]. cbn [rbind]. set (n := Z.to_nat (tag / 4 - 59)) in *.
      assert (Hn : (1 <= n <= 4)%nat) by (unfold n; divlia). destruct (field_bytes n rest Hb Hr) as [Hle En].
      destruct (_ || _) eqn:Ec; [done|]. intros E. assert (rest' = skipn (Z.to_nat (le (firstn n rest) + 1)) (skipn n rest)
        /\ out' = out ++ firstn (Z.to_nat (le (firstn n rest) + 1)) (skipn n rest)) as [-> ->] by (split; congruence).
      eapply literal_sound; [done|exact Ec|lia|]. intros data Hl Hf. exists (4 * (59 + Z.of_nat n) :: le_bytes n (Z.of_nat (length data) - 1) ++ data).
      split; [|constructor; [done|lia]]. replace (Z.of_nat (length data) - 1) with (le (firstn n rest)) by lia.
      rewrite En. cbn [app]. rewrite <- app_assoc, <- Hf, firstn_skipn, firstn_skipn. f_equal. unfold n. divlia.
  - assert (Hk : tag mod 4 = 1 \/ tag mod 4 = 2 \/ tag mod 4 = 3) by divlia.
    destruct Hk as [Hk|[Hk|Hk]]; rewrite Hk; cbn [Z.eqb Pos.eqb].
    + destruct rest as [|b rest]; [done|]. apply bytes_ok_cons in Hb as [Hbyte _]. cbn [length Nat.ltb Nat.leb hd skipn].
      destruct (_ || _) eqn:Ec; [done|]. intros E. apply (copy_sound _ _ _ _ _ _ _ _ _ Ec E); [divlia|divlia|]. exists [tag; b]. split; [done|].
      assert (Et : [tag; b] = [1 + 4 * ((tag / 4) mod 8 + 4 - 4) + 32 * ((tag / 32 * 256 + b) / 256); (tag / 32 * 256 + b) mod 256]).
      { f_equal; [divlia|]. f_equal. divlia. }
      rewrite Et. constructor; divlia.
    + destruct (Nat.ltb_spec (length rest) 2) as [|Hr]; [done|]. destruct (field_bytes 2 rest Hb Hr) as [Hle En].
      change (256 ^ Z.of_nat 2) with 65536 in Hle. destruct (_ || _) eqn:Ec; [done|]. intros E. apply (copy_sound _ _ _ _ _ _ _ _ _ Ec E); [lia|divlia|].
      exists (2 + 4 * (tag / 4 + 1 - 1) :: le_bytes 2 (le (firstn 2 rest))). split; [|constructor; divlia]. rewrite En. cbn [app].
      rewrite firstn_skipn. f_equal. divlia.
    + destruct (Nat.ltb_spec (length rest) 4) as [|Hr]; [done|]. destruct (field_bytes 4 rest Hb Hr) as [Hle En].
      change (256 ^ Z.of_nat 4) with 4294967296 in Hle. destruct (_ || _) eqn:Ec; [done|]. intros E. apply (copy_sound _ _ _ _ _ _ _ _ _ Ec E); [lia|divlia|].
      exists (3 + 4 * (tag / 4 + 1 - 1) :: le_bytes 4 (le (firstn 4 rest))). split; [|constructor; divlia]. rewrite En. cbn [app].
      rewrite firstn_skipn. f_equal. divlia.
Qed.

Lemma firstn_exact {A} (l k : list A) n : length l = n -> firstn n (l ++ k) = l.
Proof. intros <-. rewrite firstn_app, Nat.sub_diag, firstn_O, app_nil_r. apply firstn_all. Qed.

Lemma skipn_exact {A} (l k : list A) n : length l = n -> skipn n (l ++ k) = k.
Proof. intros <-. rewrite skipn_app, Nat.sub_diag, skipn_all2 by lia. done. Qed.

Lemma copy_checks out offset count declared out' : apply_element out (Copy offset count) = Some out' -> Z.of_nat (length out') <= declared -> 1 <= count ->
  (offset =? 0) || (Z.of_nat (length out) <? offset) || (declared - Z.of_nat (length out) <? count) = false
  /\ copy_bytes (Z.to_nat count) offset out = out'.
Proof.
  cbn. destruct (_ && _) eqn:E; [|done]. apply andb_true_iff in E as [E1 E2]. apply Z.leb_le in E1, E2. intros [= <-]. rewrite length_app, repeated_length. intros Hd Hc.
  split; [|by rewrite copy_bytes_repeats by lia]. rewrite !orb_false_iff, Z.eqb_neq, !Z.ltb_ge. lia.
Qed.

Lemma snappy_step_complete declared e bytes rest out out' : writes e bytes -> apply_element out e = Some out' -> Z.of_nat (length out') <= declared ->
  exists tag r, bytes = tag :: r /\ snappy_step declared tag (r ++ rest) out = Ok (rest, out').
Proof.
  intros Hw Ha Hd. destruct Hw as [data Hl|n data Hn Hl|offset count Ho Hc|offset count Ho Hc|offset count Ho Hc]; eexists _, _; (split; [done|]);
    unfold snappy_step; rewrite tag_kind, tag_size, tag_high, tag_count.
  - assert ((4 * (Z.of_nat (length data) - 1)) mod 4 = 0) as -> by divlia. assert (4 * (Z.of_nat (length data) - 1) / 4 = Z.of_nat (length data) - 1) as -> by divlia.
    rewrite Z.eqb_refl, (proj2 (Z.ltb_lt _ 60)) by lia. cbn [rbind]. replace (Z.of_nat (length data) - 1 + 1) with (Z.of_nat (length data)) by lia.
    cbn in Ha. injection Ha as <-. rewrite length_app in Hd. rewrite !(proj2 (Z.ltb_ge _ _)) by (rewrite ?length_app; lia). cbn [orb].
    by rewrite Nat2Z.id, firstn_exact, skipn_exact by done.
  - assert ((4 * (59 + Z.of_nat n)) mod 4 = 0) as -> by divlia. assert (4 * (59 + Z.of_nat n) / 4 = 59 + Z.of_nat n) as -> by divlia.
    rewrite Z.eqb_refl, (proj2 (Z.ltb_ge _ 60)) by lia. replace (Z.to_nat (59 + Z.of_nat n - 59)) with n by lia. rewrite <- app_assoc.
    rewrite (proj2 (Nat.ltb_ge _ _)) by (rewrite length_app, le_bytes_length; lia). rewrite firstn_exact, skipn_exact by apply le_bytes_length.
    rewrite le_le_bytes by lia. cbn [rbind]. replace (Z.of_nat (length data) - 1 + 1) with (Z.of_nat (length data)) by lia.
    cbn in Ha. injection Ha as <-. rewrite length_app in Hd. rewrite !(proj2 (Z.ltb_ge _ _)) by (rewrite ?length_app; lia). cbn [orb].
    by rewrite Nat2Z.id, firstn_exact, skipn_exact by done.
  - set (tag := 1 + 4 * (count - 4) + 32 * (offset / 256)). assert (tag mod 4 = 1) as -> by (unfold tag; divlia). cbn [Z.eqb Pos.eqb app length Nat.ltb Nat.leb hd skipn].
    assert (tag / 32 * 256 + offset mod 256 = offset) as -> by (unfold tag; divlia). assert ((tag / 4) mod 8 + 4 = count) as -> by (unfold tag; divlia).
    destruct (copy_checks _ _ _ _ _ Ha Hd ltac:(lia)) as [-> ->]. done.
  - assert ((2 + 4 * (count - 1)) mod 4 = 2) as -> by divlia. assert ((2 + 4 * (count - 1)) / 4 + 1 = count) as -> by divlia. cbn [Z.eqb Pos.eqb].
    rewrite (proj2 (Nat.ltb_ge _ _)) by (rewrite length_app, le_bytes_length; lia). rewrite firstn_exact, skipn_exact by apply le_bytes_length.
    rewrite le_le_bytes by (change (256 ^ Z.of_nat 2) with 65536; lia). destruct (copy_checks _ _ _ _ _ Ha Hd ltac:(lia)) as [-> ->]. done.
  - assert ((3 + 4 * (count - 1)) mod 4 = 3) as -> by divlia. assert ((3 + 4 * (count - 1)) / 4 + 1 = count) as -> by divlia. cbn [Z.eqb Pos.eqb].
    rewrite (proj2 (Nat.ltb_ge _ _)) by (rewrite length_app, le_bytes_length; lia). rewrite firstn_exact, skipn_exact by apply le_bytes_length.
    rewrite le_le_bytes by (change (256 ^ Z.of_nat 4) with 4294967296; lia). destruct (copy_checks _ _ _ _ _ Ha Hd ltac:(lia)) as [-> ->]. done.
Qed.

Lemma writes_nonempty e bytes : writes e bytes -> bytes <> [].
Proof. by destruct 1. Qed.

Lemma snappy_step_error declared tag rest out e : snappy_step declared tag rest out = Err e -> exn_cls e = ValueError.
Proof.
  unfold snappy_step. destruct (Z.land tag 3 =? 0).
  - destruct (Z.shiftr tag 2 <? 60); [cbn [rbind]|destruct (_ <? _)%nat; [by intros [= <-]|cbn [rbind]]]; (destruct (_ || _); [by intros [= <-]|done]).
  - destruct (_ <? _)%nat; [by intros [= <-]|]. destruct (_ || _); [by intros [= <-]|done].
Qed.

(** ** The loop *)

Lemma snappy_loop_sound fuel declared rest out : (length rest <= fuel)%nat -> 0 <= declared -> bytes_ok rest = true ->
  match snappy_loop fuel declared rest out with
  | Ok final => block rest out final
  | Err e => exn_cls e = ValueError
  end.
Proof.
  revert rest out. induction fuel as [|fuel IH]; intros rest out Hf Hd Hb; (destruct rest as [|tag rest]; [cbn; constructor|]); [cbn in Hf; lia|].
  cbn [snappy_loop]. apply bytes_ok_cons in Hb as [Ht Hb]. destruct (snappy_step declared tag rest out) as [[rest' out']|e] eqn:Es; cbn [rbind]; [|by eapply snappy_step_error].
  destruct (snappy_step_sound _ _ _ _ _ _ Hd Ht Hb Es) as (e & bytes & Eb & Hw & Ha & _).
  assert (Hb' : bytes_ok (bytes ++ rest') = true) by (rewrite <- Eb; by apply bytes_ok_cons). apply bytes_ok_app in Hb' as [_ Hb'].
  assert (Hlen : (length rest' <= fuel)%nat).
  { apply (f_equal length) in Eb. rewrite length_app in Eb. cbn in Eb, Hf. apply writes_nonempty in Hw. destruct bytes; [done|]. cbn in Eb. lia. }
  specialize (IH rest' out' Hlen Hd Hb'). destruct (snappy_loop fuel declared rest' out') as [final|]; [|done]. rewrite Eb. by econstructor.
Qed.

Lemma snappy_loop_complete fuel declared rest out final : (length rest <= fuel)%nat -> block rest out final -> Z.of_nat (length final) <= declared ->
  snappy_loop fuel declared rest out = Ok final.
Proof.
  intros Hf Hblock. revert fuel Hf. induction Hblock as [out|e bytes rest out out' final Hw Ha Hblock IH]; intros fuel Hf Hd; [by destruct fuel|].
  pose proof (block_grows _ _ _ Hblock). destruct (snappy_step_complete declared e bytes rest out out' Hw Ha ltac:(lia)) as (tag & r & -> & Es).
  rewrite length_app in Hf. cbn [length app] in *. destruct fuel as [|fuel]; [lia|]. cbn [snappy_loop]. rewrite Es. cbn [rbind]. apply IH; lia.
Qed.

(** The format of a whole input: a declared length and a block that produces exactly that many bytes. *)
Definition snappy_input (source output : list Z) : Prop :=
  exists l rest, source = l ++ rest /\ varint (Z.of_nat (length output)) l /\ block rest [] output.

(** C22: on every input of bytes within the size limits the decoder terminates, returns a text exactly when the Snappy
    format defines the input to mean that text and it fits the limit, and otherwise raises [ValueError]: no input makes
    it write past the declared length, read outside the input or the output, or run on. *)
Theorem snappy_decompress_refines source limit : bytes_ok source = true -> Z.of_nat (length source) <= MAX_BYTES -> 0 <= limit <= MAX_BYTES ->
  (forall output, snappy_decompress source limit = Ok output <-> snappy_input source output /\ Z.of_nat (length output) <= limit)
  /\ (forall e, snappy_decompress source limit = Err e -> exn_cls e = ValueError).
Proof.
  intros Hb Hs Hl. unfold snappy_decompress. rewrite (proj2 (Z.ltb_ge _ _)) by done. rewrite !(proj2 (Z.leb_le _ _)) by lia. cbn [andb negb].
  destruct (read_length [0; 7; 14; 21; 28] source 0) as [[n rest]|e] eqn:Er.
  - cbn [rbind]. pose proof (proj1 (read_declared source n rest Hb) Er) as (l & El & Hv).
    assert (Hbr : bytes_ok rest = true) by (rewrite El in Hb; by apply bytes_ok_app in Hb as [_ Hb]).
    assert (Hn : 0 <= n) by (destruct Hv as [<- _]; clear; induction l as [|b l IH]; cbn; [lia|]; pose proof (Z.mod_pos_bound b 128 ltac:(lia)); lia).
    assert (Hinput : forall output, snappy_input source output <-> Z.of_nat (length output) = n /\ block rest [] output).
    { intros output. split.
      - intros (l' & rest' & E' & Hv' & Hblock). assert (Er' : read_length [0; 7; 14; 21; 28] source 0 = Ok (Z.of_nat (length output), rest'))
          by (apply read_declared; [done|]; by exists l').
        rewrite Er in Er'. injection Er' as -> ->. done.
      - intros [<- Hblock]. by exists l, rest. }
    pose proof (snappy_loop_sound (length rest) n rest [] ltac:(lia) Hn Hbr) as Hloop.
    destruct (Z.ltb_spec limit n) as [L|L].
    { split; [|by intros e [= <-]]. intros output. split; [done|]. rewrite Hinput. intros [[<- _] K]. lia. }
    split.
    + intros output. rewrite Hinput. split.
      * destruct (snappy_loop (length rest) n rest []) as [final|]; [|done]. cbn [rbind]. destruct (Z.eqb_spec (Z.of_nat (length final)) n) as [E|]; [|done].
        intros [= <-]. split; [done|lia].
      * intros [[E Hblock] _]. rewrite (snappy_loop_complete _ n rest [] output) by (done || lia). cbn [rbind]. by rewrite E, Z.eqb_refl.
    + intros e. destruct (snappy_loop (length rest) n rest []) as [final|]; cbn [rbind]; [|by intros [= <-]]. destruct (negb _); [by intros [= <-]|done].
  - cbn [rbind]. split.
    + intros output. split; [done|]. intros [(l & rest & E' & Hv & _) _].
      assert (Er' : read_length [0; 7; 14; 21; 28] source 0 = Ok (Z.of_nat (length output), rest)) by (apply read_declared; [done|]; by exists l). congruence.
    + intros e' [= <-]. revert Er. generalize 0 at 2. generalize [0; 7; 14; 21; 28]. clear. intros shifts. revert source.
      induction shifts as [|s shifts IH]; intros source acc; cbn [read_length]; [by intros [= <-]|]. destruct source as [|b source]; [by intros [= <-]|].
      destruct (_ && _); [by intros [= <-]|]. destruct (b <? 128); [done|]. apply IH.
Qed.

(** ** A witness: a literal, then an overlapping copy *)

Definition demo_block : list Z := [9; 8; 97; 98; 99; 9; 3].

Lemma snappy_decompress_refines_witness : snappy_decompress demo_block 64 = Ok (codes "abcabcabc")
  /\ (snappy_decompress demo_block 64 = Ok (codes "abcabcabc") <-> snappy_input demo_block (codes "abcabcabc") /\ Z.of_nat (length (codes "abcabcabc")) <= 64).
Proof.
  split; [vm_compute; reflexivity|]. apply (proj1 (snappy_decompress_refines demo_block 64 ltac:(reflexivity) ltac:(vm_compute; discriminate) ltac:(split; vm_compute; discriminate))).
Defined.
