(* ===== verification/L2Table.v ===== *)
(** * Run-length coded tables ([_decode_rle] and [decode_packed32] of [src/rquant/l2/_table.py])

    The decoder reads control bits, most significant first, from a byte that is replaced as soon as
    its last bit is taken, and literals and repeat lengths from the bytes in between.  The theorems say
    that it always ends, never writes more than it was told to expect and consumes the whole input. *)

From Stdlib Require Import ZArith Lia Bool.
From stdpp Require Import base list strings.
From S2P Require Import Prelude L2Payload L2Request L2RequestThms L2Snappy.
Open Scope Z_scope.
Open Scope rq_scope.

(** ** Packed numbers *)

(** [(-1)^s * m * 10^e] as text: [format(number, "f")] of a nonnegative mantissa. *)
Definition format_f (negative : bool) (mantissa exponent : Z) : text :=
  let digits := dec_text mantissa in
  let body :=
    if 0 <=? exponent then digits ++ (if mantissa =? 0 then [] else repeat 48 (Z.to_nat exponent))
    else
      let places := Z.to_nat (- exponent) in
      let padded := repeat 48 (S places - length digits) ++ digits in
      firstn (length padded - places) padded ++ 46 :: skipn (length padded - places) padded in
  if negative && negb (mantissa =? 0) then 45 :: body else body.

Definition decode_packed32 (raw : list Z) : res (option text) :=
  raise_if negb (length raw =? 4)%nat as ValueError saying "packed32 requires exactly four bytes" ;;
  let value := le raw in
  if (value =? 4294967295) || (value =? 2147483648) then Ok None
  else
    let exponent := Z.land (Z.shiftr value 28) 7 in
    let exponent := if Z.testbit value 31 then - exponent else exponent in
    Ok (Some (format_f (Z.testbit value 27) (Z.land value 134217727) exponent)).

(** ** The run-length decoder *)

Record reader := { rd_rest : list Z; rd_control : Z; rd_remaining : Z }.

Definition take_byte (r : reader) : res (Z * reader) :=
  match rd_rest r with
  | [] => value_error "truncated RLE input"
  | b :: rest => Ok (b, {| rd_rest := rest; rd_control := rd_control r; rd_remaining := rd_remaining r |})
  end.

Definition take_bit (r : reader) : res (Z * reader) :=
  let value := Z.land (Z.shiftr (rd_control r) 7) 1 in
  let control := Z.land (Z.shiftl (rd_control r) 1) 255 in
  let remaining := rd_remaining r - 1 in
  if remaining =? 0 then
    bind (control, r) from take_byte r ;;
    Ok (value, {| rd_rest := rd_rest r; rd_control := control; rd_remaining := 8 |})
  else Ok (value, {| rd_rest := rd_rest r; rd_control := control; rd_remaining := remaining |}).

(** The repeat lengths past twelve: bytes, or two-byte numbers, until one is not the largest. *)
Fixpoint long_repeat (fuel : nat) (written expected count : Z) (r : reader) : res (Z * reader) :=
  match fuel with
  | O => Err (Raise OutOfFuel "")
  | S fuel =>
      bind (extra, r) from take_byte r ;;
      bind (extra, r) from (if 127 <? extra then bind (low, r) from take_byte r ;; Ok (Z.shiftl (extra - 128) 8 + low, r) else Ok (extra, r)) ;;
      let count := count + extra in
      raise_if expected <? written + count as ValueError saying "RLE repeat exceeds declared decoded size" ;;
      if extra =? 32767 then long_repeat fuel written expected count r else Ok (count, r)
  end.

(** The control tree of a repeat length; [written] is the size of the output. *)
Definition repeat_count (written expected : Z) (r : reader) : res (Z * reader) :=
  bind (b, r) from take_bit r ;;
  if b =? 0 then Ok (1, r) else
  bind (b, r) from take_bit r ;;
  if b =? 0 then bind (b, r) from take_bit r ;; Ok (2 + b, r) else
  bind (b, r) from take_bit r ;;
  if b =? 0 then Ok (4, r) else
  bind (b, r) from take_bit r ;;
  if b =? 0 then bind (b, r) from take_bit r ;; bind (c, r) from take_bit r ;; Ok (5 + 2 * b + c, r) else
  bind (b, r) from take_bit r ;;
  if b =? 0 then bind (b, r) from take_bit r ;; Ok (9 + b, r) else
  bind (b, r) from take_bit r ;;
  if b =? 0 then Ok (11, r) else long_repeat (S (length (rd_rest r))) written expected 12 r.

(** One turn of the loop, with the last byte written. *)
Definition rle_step (expected : Z) (r : reader) (last : Z) (output : list Z) : res (reader * Z * list Z) :=
  bind (b, r) from take_bit r ;;
  if b =? 0 then
    bind (x, r) from take_byte r ;;
    bind (y, r) from take_byte r ;;
    raise_if expected <? Z.of_nat (length output) + 2 as ValueError saying "RLE literal exceeds declared decoded size" ;;
    Ok (r, y, output ++ [x; y])
  else
    bind (b, r) from take_bit r ;;
    bind (last, r, output) from (if b =? 0 then bind (x, r) from take_byte r ;; Ok (x, r, output ++ [x]) else Ok (last, r, output)) ;;
    bind (count, r) from repeat_count (Z.of_nat (length output)) expected r ;;
    raise_if expected <? Z.of_nat (length output) + count as ValueError saying "RLE repeat exceeds declared decoded size" ;;
    Ok (r, last, output ++ repeat last (Z.to_nat count)).

Fixpoint rle_loop (fuel : nat) (expected : Z) (r : reader) (last : Z) (output : list Z) : res (reader * list Z) :=
  if Z.of_nat (length output) <? expected then
    match fuel with
    | O => Err (Raise OutOfFuel "")
    | S fuel => bind (r, last, output) from rle_step expected r last output ;; rle_loop fuel expected r last output
    end
  else Ok (r, output).

Definition decode_rle (source : list Z) (expected : Z) : res (list Z) :=
  if expected =? 0 then
    raise_if negb (bool_decide (source = [])) as ValueError saying "nonempty compressed data for an empty table" ;; Ok []
  else
    match source with
    | control :: last :: rest =>
        bind (r, output) from rle_loop (Z.to_nat expected) expected {| rd_rest := rest; rd_control := control; rd_remaining := 8 |} last [last] ;;
        raise_if negb (Z.of_nat (length output) =? expected) || negb (bool_decide (rd_rest r = []))
          as ValueError saying "RLE size mismatch or trailing input" ;;
        Ok output
    | _ => value_error "truncated RLE initial control/literal"
    end.

(** ** What every read keeps

    A read ends in [ValueError] or leaves a shorter rest of bytes. *)

Definition reads {A} (r : reader) (P : A -> reader -> Prop) (m : res (A * reader)) : Prop :=
  match m with
  | Ok (a, r') => P a r' /\ (length (rd_rest r') <= length (rd_rest r))%nat /\ bytes_ok (rd_rest r') = true
  | Err e => exn_cls e = ValueError
  end.

Lemma reads_bind {A B} r (P : A -> reader -> Prop) (Q : B -> reader -> Prop) m (k : A * reader -> res (B * reader)) :
  reads r P m -> (forall a r', P a r' -> (length (rd_rest r') <= length (rd_rest r))%nat -> bytes_ok (rd_rest r') = true -> reads r Q (k (a, r'))) ->
  reads r Q (rbind m k).
Proof. destruct m as [[a r']|e]; cbn; [|done]. intros (H1 & H2 & H3) H. by apply H. Qed.

Lemma reads_later {A} r r' (P : A -> reader -> Prop) m : (length (rd_rest r') <= length (rd_rest r))%nat -> reads r' P m -> reads r P m.
Proof. intros H. destruct m as [[a r'']|e]; cbn; [|done]. intros (H1 & H2 & H3). split_and!; [done|lia|done]. Qed.

Lemma reads_ok {A} r r' (P : A -> reader -> Prop) a : P a r' -> (length (rd_rest r') <= length (rd_rest r))%nat -> bytes_ok (rd_rest r') = true ->
  reads r P (Ok (a, r')).
Proof. done. Qed.

Lemma take_byte_reads r : bytes_ok (rd_rest r) = true ->
  reads r (fun b r' => 0 <= b <= 255 /\ (length (rd_rest r') < length (rd_rest r))%nat) (take_byte r).
Proof.
  unfold take_byte. destruct (rd_rest r) as [|b rest] eqn:E; [done|]. rewrite bytes_ok_cons. intros [Hb Hr]. unfold reads. rewrite E. cbn. split_and!; try done; lia.
Qed.

Lemma take_bit_reads r : bytes_ok (rd_rest r) = true -> reads r (fun b _ => 0 <= b <= 1) (take_bit r).
Proof.
  intros Hb. unfold take_bit. assert (H1 : 0 <= Z.land (Z.shiftr (rd_control r) 7) 1 <= 1).
  { assert (Z.land (Z.shiftr (rd_control r) 7) 1 = Z.shiftr (rd_control r) 7 mod 2) as -> by exact (land_mask _ 1 ltac:(lia)).
    pose proof (Z.mod_pos_bound (Z.shiftr (rd_control r) 7) 2 ltac:(lia)). lia. }
  destruct (rd_remaining r - 1 =? 0); [|done]. eapply reads_bind; [by apply take_byte_reads|]. intros c r' [_ _] Hl Hb'. by apply reads_ok.
Qed.

(** Take the next bit from the reader [r]. *)
Ltac bit_from r b r' := eapply reads_bind; [apply (reads_later _ r); [done|by apply take_bit_reads]|]; intros b r' ? ? ?; cbn beta iota in *.

Lemma shifted_nonneg x y : 127 < x <= 255 -> 0 <= y <= 255 -> 0 <= Z.shiftl (x - 128) 8 + y.
Proof. intros. rewrite Z.shiftl_mul_pow2 by lia. lia. Qed.

Lemma long_repeat_reads fuel written expected count r : bytes_ok (rd_rest r) = true -> (length (rd_rest r) < fuel)%nat -> 1 <= count ->
  reads r (fun n _ => 1 <= n) (long_repeat fuel written expected count r).
Proof.
  revert count r. induction fuel as [|fuel IH]; intros count r Hb Hf Hc; [lia|]. cbn [long_repeat].
  eapply reads_bind; [by apply take_byte_reads|]. intros x r1 [Hx Hlt] Hl1 Hb1. cbn beta iota.
  apply (reads_bind r (fun n r2 => 0 <= n /\ (length (rd_rest r2) < length (rd_rest r))%nat)).
  - destruct (Z.ltb_spec 127 x) as [L|L]; [|split_and!; try done; lia].
    eapply reads_bind; [apply (reads_later r r1); [done|by apply take_byte_reads]|]. intros y r2 [Hy Hlt2] Hl2 Hb2. split_and!; try done; try lia. apply shifted_nonneg; lia.
  - intros n r2 [Hn Hlt2] Hl2 Hb2. cbn beta iota. destruct (expected <? written + (count + n)); [done|].
    destruct (n =? 32767); [|split_and!; try done; lia]. apply (reads_later r r2); [done|]. apply IH; [done|lia|lia].
Qed.

Lemma repeat_count_reads written expected r : bytes_ok (rd_rest r) = true -> reads r (fun n _ => 1 <= n) (repeat_count written expected r).
Proof.
  intros Hb. unfold repeat_count.
  bit_from r b1 r1. destruct (b1 =? 0); [split_and!; done|]. bit_from r1 b2 r2. destruct (b2 =? 0).
  { bit_from r2 b3 r3. split_and!; try done; lia. }
  bit_from r2 b3 r3. destruct (b3 =? 0); [split_and!; done|]. bit_from r3 b4 r4. destruct (b4 =? 0).
  { bit_from r4 b5 r5. bit_from r5 b6 r6. split_and!; try done; lia. }
  bit_from r4 b5 r5. destruct (b5 =? 0).
  { bit_from r5 b6 r6. split_and!; try done; lia. }
  bit_from r5 b6 r6. destruct (b6 =? 0); [split_and!; done|]. apply (reads_later r r6); [done|]. apply long_repeat_reads; [done|lia|lia].
Qed.

(** ** The loop *)

(** A turn writes something, and no more than is expected. *)
Definition turn_ok (expected : Z) (output : list Z) (m : res (reader * Z * list Z)) : Prop :=
  match m with
  | Ok (r, last, output') => (length output < length output')%nat /\ Z.of_nat (length output') <= expected
      /\ 0 <= last <= 255 /\ bytes_ok output' = true /\ bytes_ok (rd_rest r) = true
  | Err e => exn_cls e = ValueError
  end.

Lemma bytes_ok_repeat b n : 0 <= b <= 255 -> bytes_ok (repeat b n) = true.
Proof. intros Hb. induction n as [|n IH]; [done|]. cbn [repeat]. by apply bytes_ok_cons. Qed.

Lemma repeat_turn expected r last output output0 : (length output0 <= length output)%nat -> Z.of_nat (length output) <= expected ->
  0 <= last <= 255 -> bytes_ok output = true -> bytes_ok (rd_rest r) = true ->
  turn_ok expected output0 (bind (count, r) from repeat_count (Z.of_nat (length output)) expected r ;;
    raise_if expected <? Z.of_nat (length output) + count as ValueError saying "RLE repeat exceeds declared decoded size" ;;
    Ok (r, last, output ++ repeat last (Z.to_nat count))).
Proof.
  intros Hlen Hle Hlast Hout Hb. pose proof (repeat_count_reads (Z.of_nat (length output)) expected r Hb) as Hc.
  destruct (repeat_count _ _ _) as [[n r']|e]; [|done]. destruct Hc as (Hn & _ & Hb'). cbn [rbind].
  destruct (Z.ltb_spec expected (Z.of_nat (length output) + n)) as [|Hfit]; [done|]. unfold turn_ok. rewrite length_app, repeat_length.
  split_and!; try done; try lia. apply bytes_ok_app. split; [done|by apply bytes_ok_repeat].
Qed.

Lemma rle_step_turn expected r last output : Z.of_nat (length output) < expected -> 0 <= last <= 255 -> bytes_ok output = true ->
  bytes_ok (rd_rest r) = true -> turn_ok expected output (rle_step expected r last output).
Proof.
  intros Hlt Hlast Hout Hb. unfold rle_step. pose proof (take_bit_reads r Hb) as H1. destruct (take_bit r) as [[b1 r1]|e]; [|done].
  destruct H1 as (_ & _ & Hb1). cbn [rbind]. destruct (b1 =? 0).
  - pose proof (take_byte_reads r1 Hb1) as H2. destruct (take_byte r1) as [[x r2]|e]; [|done]. destruct H2 as ([Hx _] & _ & Hb2). cbn [rbind].
    pose proof (take_byte_reads r2 Hb2) as H3. destruct (take_byte r2) as [[y r3]|e]; [|done]. destruct H3 as ([Hy _] & _ & Hb3). cbn [rbind].
    destruct (Z.ltb_spec expected (Z.of_nat (length output) + 2)) as [|Hfit]; [done|]. unfold turn_ok. rewrite length_app. cbn [length].
    split_and!; try done; try lia. apply bytes_ok_app. split; [done|]. by rewrite !bytes_ok_cons.
  - pose proof (take_bit_reads r1 Hb1) as H2. destruct (take_bit r1) as [[b2 r2]|e]; [|done]. destruct H2 as (_ & _ & Hb2). cbn [rbind]. destruct (b2 =? 0).
    + pose proof (take_byte_reads r2 Hb2) as H3. destruct (take_byte r2) as [[x r3]|e]; [|done]. destruct H3 as ([Hx _] & _ & Hb3). cbn [rbind].
      apply repeat_turn; try done; rewrite ?length_app; cbn [length]; try lia. apply bytes_ok_app. split; [done|]. by rewrite bytes_ok_cons.
    + cbn [rbind]. apply repeat_turn; try done; lia.
Qed.

Lemma rle_loop_ends fuel expected r last output : expected - Z.of_nat (length output) <= Z.of_nat fuel -> Z.of_nat (length output) <= expected ->
  0 <= last <= 255 -> bytes_ok output = true -> bytes_ok (rd_rest r) = true ->
  match rle_loop fuel expected r last output with
  | Ok (r', output') => Z.of_nat (length output') = expected /\ bytes_ok output' = true
  | Err e => exn_cls e = ValueError
  end.
Proof.
  revert r last output. induction fuel as [|fuel IH]; intros r last output Hf Hle Hlast Hout Hb; cbn [rle_loop];
    destruct (Z.ltb_spec (Z.of_nat (length output)) expected) as [L|L]; [lia|split; [lia|done]| |split; [lia|done]].
  pose proof (rle_step_turn expected r last output L Hlast Hout Hb) as Ht. destruct (rle_step expected r last output) as [[[r' last'] output']|e]; [|done].
  destruct Ht as (H1 & H2 & H3 & H4 & H5). cbn [rbind]. apply IH; try done; lia.
Qed.

(** C24: on every input of bytes and every expected size the run-length decoder ends; it returns exactly the expected
    number of bytes after consuming the whole input, or raises [ValueError].  Each turn writes at least one byte and the
    output never grows past the expected size, so a hostile input cannot make it run on or allocate more. *)
Theorem decode_rle_total source expected : bytes_ok source = true -> 0 <= expected ->
  match decode_rle source expected with
  | Ok output => Z.of_nat (length output) = expected /\ bytes_ok output = true
  | Err e => exn_cls e = ValueError
  end.
Proof.
  intros Hb He. unfold decode_rle. destruct (Z.eqb_spec expected 0) as [->|Hne]; [by destruct (negb _)|].
  destruct source as [|control [|last rest]]; [done|done|]. rewrite !bytes_ok_cons in Hb. destruct Hb as (_ & Hlast & Hrest).
  pose proof (rle_loop_ends (Z.to_nat expected) expected {| rd_rest := rest; rd_control := control; rd_remaining := 8 |} last [last]) as Hloop.
  cbn [length rd_rest] in Hloop. specialize (Hloop ltac:(lia) ltac:(lia) Hlast). rewrite bytes_ok_cons in Hloop. specialize (Hloop ltac:(done) Hrest).
  destruct (rle_loop _ _ _ _ _) as [[r output]|e]; [|done]. cbn [rbind]. destruct (negb _ || _); done.
Qed.

(** A control byte, a first byte, and a run of three more of it. *)
Lemma decode_rle_total_witness : decode_rle [232; 65] 4 = Ok [65; 65; 65; 65]
  /\ match decode_rle [232; 65] 4 with Ok output => Z.of_nat (length output) = 4 /\ bytes_ok output = true | Err e => exn_cls e = ValueError end.
Proof. split; [vm_compute; reflexivity|]. apply (decode_rle_total [232; 65] 4); [reflexivity|lia]. Defined.

Example packed32_examples : decode_packed32 [57; 48; 0; 160] = Ok (Some (codes "123.45")) /\ decode_packed32 [57; 48; 0; 40] = Ok (Some (codes "-1234500"))
  /\ decode_packed32 [255; 255; 255; 255] = Ok None.
Proof. vm_compute. done. Qed.
