(* ===== verification/L2Response.v ===== *)
(** * Market tables ([l2/_table.py] and the response decoders of [l2/_codec.py])

    A response is a Snappy block that holds a table: a header, column descriptions, texts in UTF-16
    and rows of bytes, stored row by row or, run-length coded, column by column.  The theorem says that
    parsing loses nothing: the row bytes are the cells of the parsed rows put together again.  The
    SHA-256 digest is a parameter. *)

From Stdlib Require Import ZArith Lia Bool.
From stdpp Require Import base list strings.
From S2P Require Import Prelude L2Payload L2Request L2RequestThms L2Snappy L2Table.
Open Scope Z_scope.
Open Scope rq_scope.

(** ** Text in UTF-16 *)

(** [raw.decode("utf-16le")] to code points; [None] is [UnicodeDecodeError]. *)
Fixpoint utf16_decode (raw : list Z) : option (list Z) :=
  match raw with
  | [] => Some []
  | [_] => None
  | lo :: hi :: raw =>
      let unit := lo + 256 * hi in
      if (55296 <=? unit) && (unit <=? 56319) then
        match raw with
        | lo' :: hi' :: raw =>
            let unit' := lo' + 256 * hi' in
            if (56320 <=? unit') && (unit' <=? 57343) then cons (65536 + (unit - 55296) * 1024 + (unit' - 56320)) <$> utf16_decode raw else None
        | _ => None
        end
      else if (56320 <=? unit) && (unit <=? 57343) then None
      else cons unit <$> utf16_decode raw
  end.

(** [value.rstrip("\0")] *)
Fixpoint rstrip_zeros (l : list Z) : list Z :=
  match l with [] => [] | c :: l => match rstrip_zeros l with [] => if c =? 0 then [] else [c] | k => c :: k end end.

(** ** Column descriptions *)

Definition signed32 (v : Z) : Z := if v <? 2147483648 then v else v - 4294967296.
Definition be (l : list Z) : Z := fold_left (fun a b => a * 256 + b) l 0.

(** [flags_hex] is kept as the number it shows. *)
Record description := { de_field_id : Z; de_flags : Z; de_width : Z; de_extra : Z; de_name : list Z }.

Record metadata := {
  md_sha256 : text; md_decoded_bytes : Z; md_table_version : text; md_row_count : Z; md_row_width : Z; md_col_count : Z;
  md_extended_header_length : Z; md_data_bytes_after_header : Z; md_columns : list description; md_title : list Z
}.

(** A length in characters, then the characters. *)
Definition read_text (data : list Z) (ext cursor : Z) : res (list Z * Z) :=
  raise_if ext <? cursor + 2 as ValueError saying "truncated table text length" ;;
  let length_ := unpack data (Z.to_nat cursor) 2 * 2 in
  let cursor := cursor + 2 in
  raise_if ext <? cursor + length_ as ValueError saying "table text crosses header" ;;
  match utf16_decode (slice data (Z.to_nat cursor) (Z.to_nat length_)) with
  | None => value_error "invalid table UTF16"
  | Some value => Ok (value, cursor + length_)
  end.

Definition describe (data : list Z) (index : nat) : description :=
  let at_ := (24 + 4 * index)%nat in
  let flags := unpack data at_ 2 in
  {| de_field_id := Z.land flags 36863; de_flags := flags; de_width := unpack data (at_ + 2) 1; de_extra := unpack data (at_ + 3) 1; de_name := [] |}.

Fixpoint name_columns (data : list Z) (ext cursor : Z) (columns : list description) : res (list description) :=
  match columns with
  | [] => Ok []
  | c :: columns =>
      bind (name, cursor) from read_text data ext cursor ;;
      rest <~ name_columns data ext cursor columns ;;
      Ok ({| de_field_id := de_field_id c; de_flags := de_flags c; de_width := de_width c; de_extra := de_extra c; de_name := name |} :: rest)
  end.

Inductive cell_encoding := utf16le | packed32le | unsignedle | rawhex.
Inductive cell_value := CText (points : list Z) | CPacked (number : option text) | CUnsigned (n : Z) | CHex (raw : list Z).

#[export] Instance cell_encoding_eq_dec : EqDecision cell_encoding.
Proof. solve_decision. Defined.

Record column := { co_field_id : Z; co_flags : Z; co_width : Z; co_extra : Z; co_encoding : cell_encoding }.
Record cell := { ce_field_id : Z; ce_value : cell_value; ce_raw : list Z; ce_style : Z }.

Record table := {
  tb_title : list Z; tb_version : text; tb_source_sha256 : text; tb_row_data_sha256 : text; tb_row_count : Z; tb_row_width : Z; tb_col_count : Z;
  tb_extended_header_length : Z; tb_unknown_10 : Z; tb_unknown_14 : Z; tb_columns : list column; tb_rows : list (list cell)
}.

Definition encoding_of (data_type : Z) : cell_encoding :=
  if data_type =? 0 then utf16le else if data_type =? 4096 then packed32le else if data_type =? 8192 then unsignedle else rawhex.

(** One column against its description. *)
Definition check_column (data : list Z) (index : nat) (d : description) : res column :=
  let at_ := (24 + 4 * index)%nat in
  let flags := unpack data at_ 2 in
  let width := unpack data (at_ + 2) 1 in
  let extra := unpack data (at_ + 3) 1 in
  let field_id := Z.land flags 36863 in
  let data_type := Z.land flags 28672 in
  raise_if width =? 0 as ValueError saying "invalid column metadata or width" ;;
  raise_if negb (de_field_id d =? field_id) as ValueError saying "metadata field_id mismatch" ;;
  raise_if negb (de_width d =? width) as ValueError saying "metadata width mismatch" ;;
  raise_if negb (de_extra d =? extra) as ValueError saying "metadata extra mismatch" ;;
  raise_if negb (de_flags d =? flags) as ValueError saying "column flags mismatch" ;;
  raise_if ((data_type =? 0) && negb (width mod 2 =? 0)) || ((data_type =? 4096) && negb (width =? 4))
    as ValueError saying "invalid column width for its data type" ;;
  Ok {| co_field_id := field_id; co_flags := flags; co_width := width; co_extra := extra; co_encoding := encoding_of data_type |}.

Fixpoint check_columns (data : list Z) (index : nat) (ds : list description) : res (list column) :=
  match ds with [] => Ok [] | d :: ds => c <~ check_column data index d ;; cs <~ check_columns data (S index) ds ;; Ok (c :: cs) end.

(** ** Rows *)

Definition read_value (encoding : cell_encoding) (raw : list Z) : res cell_value :=
  match encoding with
  | utf16le => match utf16_decode raw with None => value_error "utf-16-le codec cannot decode" | Some points => Ok (CText (rstrip_zeros points)) end
  | packed32le => n <~ decode_packed32 raw ;; Ok (CPacked n)
  | unsignedle => Ok (CUnsigned (le raw))
  | rawhex => Ok (CHex raw)
  end.

(** A row from its bytes: the cell, then its style byte. *)
Fixpoint read_cells (columns : list column) (row : list Z) : res (list cell) :=
  match columns with
  | [] => Ok []
  | c :: columns =>
      let width := Z.to_nat (co_width c) in
      let raw := firstn width row in
      value <~ read_value (co_encoding c) raw ;;
      rest <~ read_cells columns (skipn (S width) row) ;;
      Ok ({| ce_field_id := co_field_id c; ce_value := value; ce_raw := raw; ce_style := nth width row 0 |} :: rest)
  end.

Definition row_bytes (row_data : list Z) (stride row : nat) : list Z := slice row_data (row * stride) stride.

Definition read_rows (columns : list column) (row_data : list Z) (stride rows : nat) : res (list (list cell)) :=
  rmap (fun row => read_cells columns (row_bytes row_data stride row)) (seq 0 rows).

(** [bytes(decoded[column * rows + row] for row in range(rows) for column in range(stride))] *)
Definition by_rows (decoded : list Z) (rows stride : nat) : list Z :=
  concat (map (fun row => map (fun column => nth (column * rows + row) decoded 0) (seq 0 stride)) (seq 0 rows)).

Definition TB1 : text := codes "tb1.0".
Definition TB3 : text := codes "tb3.0".

Section Parse.
Context (sha256 : list Z -> text).

Definition table_metadata (data : list Z) (version : text) (max_rows : Z) : res metadata :=
  raise_if (length data <? 24)%nat || negb (eqt (firstn 6 data) (version ++ [0])) as ValueError saying "unsupported market table version" ;;
  let size := Z.of_nat (length data) in
  let rows := signed32 (unpack data 6 4) in
  let ext := unpack data 18 2 in
  let stride := unpack data 20 2 in
  let count := unpack data 22 2 in
  raise_if negb ((0 <=? rows) && (rows <=? max_rows)) || negb ((1 <=? count) && (count <=? 32)) || (stride =? 0)
           || (MAX_BYTES <? rows * stride) || negb ((24 + count * 4 <=? ext) && (ext <=? size))
    as ValueError saying "market table dimensions exceed bounds" ;;
  let columns := map (describe data) (seq 0 (Z.to_nat count)) in
  bind (title, cursor) from read_text data ext (24 + count * 4) ;;
  columns <~ name_columns data ext cursor columns ;;
  Ok {| md_sha256 := sha256 data; md_decoded_bytes := size; md_table_version := version; md_row_count := rows; md_row_width := stride;
        md_col_count := count; md_extended_header_length := ext; md_data_bytes_after_header := size - ext; md_columns := columns; md_title := title |}.

(** The bytes of the rows, in row order. *)
Definition table_row_data (data : list Z) (version : text) (ext rows stride : Z) : res (list Z) :=
  let expected := rows * stride in
  row_data <~
    (if eqt version TB1 then Ok (skipn (Z.to_nat ext) data)
     else
       let after := Z.of_nat (length data) - ext in
       raise_if after <? 8 as ValueError saying "truncated tb3 compression header" ;;
       let compressed_size := unpack data (Z.to_nat ext) 4 in
       let decoded_size := be (slice data (Z.to_nat ext + 4) 4) in
       raise_if negb (compressed_size =? after - 4) || negb (decoded_size =? expected) as ValueError saying "tb3 compressed/decoded size mismatch" ;;
       decoded <~ decode_rle (skipn (Z.to_nat ext + 8) data) expected ;;
       Ok (by_rows decoded (Z.to_nat rows) (Z.to_nat stride))) ;;
  raise_if negb (Z.of_nat (length row_data) =? expected) as ValueError saying "row_count times row_width does not match decoded row bytes" ;;
  Ok row_data.

Definition parse_table (data : list Z) (md : metadata) : res table :=
  raise_if negb (eqt (md_sha256 md) (sha256 data)) as ValueError saying "table sha256 mismatch" ;;
  let size := Z.of_nat (length data) in
  raise_if negb (md_decoded_bytes md =? size) as ValueError saying "metadata decoded_bytes mismatch" ;;
  raise_if (length data <? 24)%nat as ValueError saying "truncated table header" ;;
  let version := rstrip_zeros (firstn 6 data) in
  raise_if negb (mem version [TB1; TB3]) || negb (eqt version (md_table_version md)) as ValueError saying "unsupported or mismatched table version" ;;
  let rows := signed32 (unpack data 6 4) in
  let ext := unpack data 18 2 in
  let stride := unpack data 20 2 in
  let count := unpack data 22 2 in
  raise_if (rows <? 0) || (count =? 0) || (stride =? 0) || (ext <? 24 + count * 4) || (size <? ext)
    as ValueError saying "invalid table dimensions or extended header" ;;
  raise_if negb (md_row_count md =? rows) as ValueError saying "metadata row_count mismatch" ;;
  raise_if negb (md_row_width md =? stride) as ValueError saying "metadata row_width mismatch" ;;
  raise_if negb (md_col_count md =? count) as ValueError saying "metadata col_count mismatch" ;;
  raise_if negb (md_extended_header_length md =? ext) as ValueError saying "metadata extended_header_length mismatch" ;;
  raise_if negb (md_data_bytes_after_header md =? size - ext) as ValueError saying "metadata data_bytes_after_header mismatch" ;;
  raise_if negb (Z.of_nat (length (md_columns md)) =? count) as ValueError saying "column metadata count mismatch" ;;
  columns <~ check_columns data 0 (md_columns md) ;;
  raise_if negb (sumZ (fun c => co_width c + 1) columns =? stride) as ValueError saying "column widths plus style bytes do not equal row_width" ;;
  raise_if negb (bool_decide (NoDup (map co_field_id columns))) as ValueError saying "duplicate field IDs cannot be represented losslessly" ;;
  row_data <~ table_row_data data version ext rows stride ;;
  values <~ read_rows columns row_data (Z.to_nat stride) (Z.to_nat rows) ;;
  Ok {| tb_title := md_title md; tb_version := version; tb_source_sha256 := sha256 data; tb_row_data_sha256 := sha256 row_data; tb_row_count := rows;
        tb_row_width := stride; tb_col_count := count; tb_extended_header_length := ext; tb_unknown_10 := signed32 (unpack data 10 4);
        tb_unknown_14 := signed32 (unpack data 14 4); tb_columns := columns; tb_rows := values |}.

(** ** Responses *)

(** The status and coverage of every response are the constants "partial" and "unknown_day_coverage". *)
Record response := {
  rs_table : table; rs_raw_table : list Z; rs_response_body : list Z; rs_response_sha256 : text; rs_source_fd_ordinal : Z; rs_request_id : Z; rs_page_id : Z
}.

Definition response_result (body data : list Z) (md : metadata) (request_id page_id source_fd_ordinal : Z) : res response :=
  match parse_table data md with
  | Err _ => value_error "invalid market table layout"
  | Ok parsed => Ok {| rs_table := parsed; rs_raw_table := data; rs_response_body := body; rs_response_sha256 := sha256 body;
                       rs_source_fd_ordinal := source_fd_ordinal; rs_request_id := request_id; rs_page_id := page_id |}
  end.

(** The rows a pushed table may have, and the columns of a long one: flags, width and extra byte. *)
Definition order_row_limit (request_id max_rows : Z) : Z := if request_id =? 4294967295 then MAX_BYTES / 30 else max_rows.
Definition ORDER_COLUMNS : list (Z * Z * Z) := [(8193, 4, 220); (4106, 4, 220); (4109, 4, 220); (8204, 4, 220); (8248, 4, 220); (42337, 4, 220)].
Definition ORDER_TITLE : text := [45; 36880; 31508; 22996; 25176].

Definition decode_order_response (body : list Z) (request_id page_id : Z) (code : text) (source_fd_ordinal max_rows : Z) : res response :=
  raise_if negb ((1 <=? max_rows) && (max_rows <=? 20)) as ValueError saying "invalid order row limit" ;;
  let command := if (20 <=? length body)%nat then unpack body 16 4 else 0 in
  raise_if negb ((command =? 2267) || (command =? 2357)) as ValueError saying "unsupported order frame command" ;;
  data <~ response_payload body request_id page_id command [4352] ;;
  md <~ table_metadata data TB1 (order_row_limit request_id max_rows) ;;
  raise_if negb (eqt (md_title md) (code ++ ORDER_TITLE)) || negb ((md_col_count md =? 6) && (md_row_width md =? 30))
    as ValueError saying "unsupported order table schema" ;;
  raise_if (500 <? md_row_count md) && negb (bool_decide (map (fun c => (de_flags c, de_width c, de_extra c)) (md_columns md) = ORDER_COLUMNS))
    as ValueError saying "unsupported expanded order table schema" ;;
  response_result body data md request_id page_id source_fd_ordinal.

Definition TRADE_COLUMNS : list (Z * Z) := [(8193, 4); (56, 30); (4106, 4); (4109, 4); (4170, 4); (4171, 4); (42512, 4); (4114, 4)].

(** [tr_pushed] chooses between "registered_page_association_only" and "request_association_only". *)
Record trade_response := { tr_result : response; tr_code : text; tr_market : Z; tr_pushed : bool }.

Definition trade_row_limit (request_id : Z) : Z := if request_id =? 4294967295 then MAX_BYTES / 66 else 500.

Definition decode_trade_response (body : list Z) (request_id page_id : Z) (code : text) (market source_fd_ordinal : Z) : res trade_response :=
  bind _ from build_trade_query code market page_id 1 ;;
  raise_if negb ((1 <=? request_id) && (request_id <=? 4294967295)) || (source_fd_ordinal <? 1)
    as ValueError saying "invalid trade response identity" ;;
  data <~ response_payload body request_id page_id 2357 [4368; 4352; 4400] ;;
  let version := if (request_id =? 4294967295) && eqt (firstn 6 data) (TB1 ++ [0]) then TB1 else TB3 in
  md <~ table_metadata data version (trade_row_limit request_id) ;;
  raise_if negb (eqt (md_title md) []) || negb (md_row_width md =? 66)
           || negb (bool_decide (map (fun c => (de_flags c, de_width c)) (md_columns md) = TRADE_COLUMNS))
           || existsb (fun c => negb (de_extra c =? 165)) (md_columns md)
    as ValueError saying "unsupported trade table schema" ;;
  result <~ response_result body data md request_id page_id source_fd_ordinal ;;
  Ok {| tr_result := result; tr_code := code; tr_market := market; tr_pushed := request_id =? 4294967295 |}.
End Parse.

(** ** The output of the decompressor is bytes *)

Lemma bytes_ok_nth l n : bytes_ok l = true -> 0 <= nth n l 0 <= 255.
Proof.
  revert n. induction l as [|b l IH]; intros n Hl; [destruct n; cbn; lia|]. apply bytes_ok_cons in Hl as [Hb Hl].
  destruct n; cbn; [done|by apply IH].
Qed.

Lemma copy_bytes_ok n offset output : bytes_ok output = true -> bytes_ok (copy_bytes n offset output) = true.
Proof.
  revert output. induction n as [|n IH]; intros output Ho; [done|]. cbn [copy_bytes]. apply IH, bytes_ok_app. split; [done|].
  apply bytes_ok_cons. split; [|done]. by apply bytes_ok_nth.
Qed.

Lemma snappy_step_bytes declared tag rest output rest' output' : bytes_ok rest = true -> bytes_ok output = true ->
  snappy_step declared tag rest output = Ok (rest', output') -> bytes_ok rest' = true /\ bytes_ok output' = true.
Proof.
  intros Hr Ho H. unfold snappy_step in H. destruct (Z.land tag 3 =? 0).
  - apply rbind_ok in H as ([n k] & Hk & H). assert (bytes_ok k = true).
    { destruct (_ <? 60); [by injection Hk as _ <-|]. ok_inv Hk. by apply bytes_ok_split. }
    destruct (_ || _); [done|]. injection H as <- <-. split; [by apply bytes_ok_split|]. apply bytes_ok_app. split; [done|]. by apply bytes_ok_split.
  - destruct (_ <? _)%nat; [done|]. destruct (_ || _); [done|]. injection H as <- <-. split; [by apply bytes_ok_split|]. by apply copy_bytes_ok.
Qed.

Lemma snappy_loop_bytes fuel declared rest output final : bytes_ok rest = true -> bytes_ok output = true ->
  snappy_loop fuel declared rest output = Ok final -> bytes_ok final = true.
Proof.
  revert rest output. induction fuel as [|fuel IH]; intros [|tag rest] output Hr Ho H; cbn [snappy_loop] in H; try (by injection H as <-); [done|].
  apply bytes_ok_cons in Hr as [_ Hr]. apply rbind_ok in H as ([rest' output'] & Hs & H).
  apply snappy_step_bytes in Hs as [Hr' Ho']; [|done..]. exact (IH _ _ Hr' Ho' H).
Qed.

Lemma read_length_bytes shifts rest acc n rest' : bytes_ok rest = true -> read_length shifts rest acc = Ok (n, rest') -> bytes_ok rest' = true.
Proof.
  revert rest acc. induction shifts as [|s shifts IH]; intros [|b rest] acc Hr H; cbn [read_length] in H; try done.
  apply bytes_ok_cons in Hr as [_ Hr]. destruct (_ && _); [done|]. destruct (b <? 128); [by injection H as <- <-|]. by eapply IH.
Qed.

Lemma snappy_decompress_bytes source limit output : bytes_ok source = true -> snappy_decompress source limit = Ok output -> bytes_ok output = true.
Proof.
  intros Hs H. unfold snappy_decompress in H. destruct (_ <? _); [done|]. destruct (negb _); [done|]. apply rbind_ok in H as ([n rest] & Hr & H).
  destruct (_ <? _); [done|]. apply rbind_ok in H as (final & Hf & H). destruct (negb _); [done|]. injection H as <-.
  eapply snappy_loop_bytes; [by eapply read_length_bytes| |exact Hf]. done.
Qed.

Lemma unpack_nonneg l s n : bytes_ok l = true -> 0 <= unpack l s n.
Proof. intros Hl. unfold unpack, slice. apply le_bounds, bytes_ok_split. by apply bytes_ok_split. Qed.

(** ** Rows put together again *)

Definition cell_bytes (c : cell) : list Z := ce_raw c ++ [ce_style c].
Definition cells_bytes (cells : list cell) : list Z := concat (map cell_bytes cells).

(** A cell of a column: its number, its bytes at the column's width, and the value they stand for. *)
Definition cell_of (co : column) (c : cell) : Prop :=
  ce_field_id c = co_field_id co /\ Z.of_nat (length (ce_raw c)) = co_width co /\ read_value (co_encoding co) (ce_raw c) = Ok (ce_value c).

Lemma cut_byte (w : nat) (row : list Z) : (w < length row)%nat -> firstn w row ++ [nth w row 0] ++ skipn (S w) row = row.
Proof. revert row. induction w as [|w IH]; intros [|b row] Hl; cbn in *; try lia; [done|]. f_equal. apply IH. lia. Qed.

Lemma read_cells_lossless columns row cells : Forall (fun c => 0 <= co_width c) columns ->
  Z.of_nat (length row) = sumZ (fun c => co_width c + 1) columns -> read_cells columns row = Ok cells ->
  cells_bytes cells = row /\ Forall2 cell_of columns cells.
Proof.
  revert row cells. induction columns as [|co columns IH]; intros row cells Hw Hlen H.
  - injection H as <-. unfold sumZ in Hlen. destruct row; [done|]. cbn in Hlen. lia.
  - cbn [read_cells] in H. apply rbind_ok in H as (value & Hv & H). apply rbind_ok in H as (rest & Hrest & H). injection H as <-.
    apply Forall_cons in Hw as [Hco Hw]. rewrite sumZ_cons in Hlen.
    assert (0 <= sumZ (fun c => co_width c + 1) columns)
      by (apply sumZ_nonneg; intros c Hc; rewrite List.Forall_forall in Hw; specialize (Hw c Hc); lia).
    set (w := Z.to_nat (co_width co)) in *. assert (Hwl : (w < length row)%nat) by lia.
    apply IH in Hrest as [Hb Hf]; [|done|rewrite length_skipn; lia]. split.
    + unfold cells_bytes in *. cbn [map concat]. rewrite Hb. unfold cell_bytes. cbn [ce_raw ce_style]. rewrite <- app_assoc.
      by apply cut_byte.
    + constructor; [|done]. repeat split; [|done]. cbn [ce_raw]. rewrite length_firstn. lia.
Qed.

Lemma firstn_add (a b : nat) (l : list Z) : firstn (a + b) l = firstn a l ++ firstn b (skipn a l).
Proof. revert l. induction a as [|a IH]; intros [|x l]; cbn; try done; [by destruct b|]. by rewrite IH. Qed.

Lemma concat_rows l stride k n : concat (map (row_bytes l stride) (seq k n)) = firstn (n * stride) (skipn (k * stride) l).
Proof.
  revert k. induction n as [|n IH]; intros k; [by rewrite Nat.mul_0_l|]. cbn [seq map concat]. rewrite IH. unfold row_bytes, slice.
  replace (S k * stride)%nat with (stride + k * stride)%nat by lia. rewrite <- List.skipn_skipn.
  replace (S n * stride)%nat with (stride + n * stride)%nat by lia. by rewrite firstn_add.
Qed.

Lemma rows_cover l stride n : length l = (n * stride)%nat -> concat (map (row_bytes l stride) (seq 0 n)) = l.
Proof. intros Hl. rewrite concat_rows. cbn [Nat.mul skipn]. rewrite <- Hl. apply firstn_all. Qed.

Lemma row_bytes_length l stride n r : length l = (n * stride)%nat -> (r < n)%nat -> length (row_bytes l stride r) = stride.
Proof. intros Hl Hr. unfold row_bytes, slice. rewrite length_firstn, length_skipn, Hl. nia. Qed.

(** A table that holds its row bytes: every row has a cell for each column, and the cells put together are the bytes. *)
Definition holds (t : table) (row_data : list Z) : Prop :=
  Z.of_nat (length (tb_rows t)) = tb_row_count t /\ Forall (Forall2 cell_of (tb_columns t)) (tb_rows t)
  /\ concat (map cells_bytes (tb_rows t)) = row_data.

Lemma read_rows_lossless columns row_data stride rows values : Forall (fun c => 0 <= co_width c) columns ->
  sumZ (fun c => co_width c + 1) columns = Z.of_nat stride -> length row_data = (rows * stride)%nat ->
  read_rows columns row_data stride rows = Ok values ->
  length values = rows /\ Forall (Forall2 cell_of columns) values /\ concat (map cells_bytes values) = row_data.
Proof.
  intros Hw Hs Hl H. unfold read_rows in H. apply rmap_ok_Forall2 in H. pose proof (Forall2_length _ _ _ H) as Hn. rewrite length_seq in Hn.
  split; [done|]. assert (E := rows_cover row_data stride rows Hl). rewrite <- E at 1. clear E.
  assert (Hi : forall r, In r (seq 0 rows) -> (r < rows)%nat) by (intros r Hr; apply in_seq in Hr; lia). revert Hi. clear Hn.
  induction H as [|r v idx values Hv _ IH]; intros Hi; [done|]. cbn [map concat].
  destruct (IH ltac:(intros; apply Hi; by right)) as [Hf ->].
  apply read_cells_lossless in Hv as [-> Hc]; [split; [by constructor|done]|done|].
  rewrite (row_bytes_length _ _ rows) by (done || (apply Hi; by left)). done.
Qed.

Lemma check_columns_spec data index ds cs : bytes_ok data = true -> check_columns data index ds = Ok cs ->
  Forall (fun c => 0 <= co_width c) cs /\ map co_flags cs = map de_flags ds /\ map co_width cs = map de_width ds /\ map co_field_id cs = map de_field_id ds.
Proof.
  intros Hd. revert index cs. induction ds as [|d ds IH]; intros index cs H; cbn [check_columns] in H; [by injection H as <-|].
  apply rbind_ok in H as (c & Hc & H). apply rbind_ok in H as (rest & Hr & H). injection H as <-. apply IH in Hr as (Hf & H1 & H2 & H3).
  unfold check_column in Hc. ok_inv Hc. bool_hyps. cbn [map co_flags co_width co_field_id]. rewrite H1, H2, H3.
  split; [constructor; [by apply unpack_nonneg|done]|]. repeat split; f_equal; symmetry; assumption.
Qed.

(** ** What a decoded response holds *)

(** Where the row bytes of a table come from: the bytes after the header as they are, or the run-length coded columns
    of bytes, turned. *)
Definition stored (raw : list Z) (t : table) (row_data : list Z) : Prop :=
  let ext := Z.to_nat (tb_extended_header_length t) in
  let rows := Z.to_nat (tb_row_count t) in
  let stride := Z.to_nat (tb_row_width t) in
  length row_data = (rows * stride)%nat /\
  (tb_version t = TB1 /\ row_data = skipn ext raw
   \/ tb_version t = TB3 /\ exists decoded, decode_rle (skipn (ext + 8) raw) (tb_row_count t * tb_row_width t) = Ok decoded
      /\ forall row column, (row < rows)%nat -> (column < stride)%nat -> nth (row * stride + column) row_data 0 = nth (column * rows + row) decoded 0).

Lemma nth_concat_const (f : nat -> list Z) stride k n r c : (forall i, length (f i) = stride) -> (c < stride)%nat -> (r < n)%nat ->
  nth (r * stride + c) (concat (map f (seq k n))) 0 = nth c (f (k + r)%nat) 0.
Proof.
  intros Hf Hc. revert k r. induction n as [|n IH]; intros k r Hr; [lia|]. cbn [seq map concat]. destruct r as [|r].
  - rewrite app_nth1 by (rewrite Hf; lia). by rewrite Nat.add_0_r.
  - rewrite app_nth2 by (rewrite Hf; lia). rewrite Hf. replace (S r * stride + c - stride)%nat with (r * stride + c)%nat by lia.
    rewrite IH by lia. by rewrite Nat.add_succ_comm.
Qed.

Lemma by_rows_nth decoded rows stride r c : (r < rows)%nat -> (c < stride)%nat ->
  nth (r * stride + c) (by_rows decoded rows stride) 0 = nth (c * rows + r) decoded 0.
Proof.
  intros Hr Hc. unfold by_rows. rewrite nth_concat_const; [|by intros; rewrite length_map, length_seq|done|done].
  rewrite (nth_indep _ 0 (nth (0 * rows + (0 + r)) decoded 0)) by (by rewrite length_map, length_seq).
  change (nth (0 * rows + (0 + r)) decoded 0) with ((fun column => nth (column * rows + (0 + r)) decoded 0) 0%nat).
  rewrite map_nth, seq_nth by done. done.
Qed.

Lemma table_row_data_spec data version ext rows stride row_data : 0 <= rows -> 0 <= stride -> mem version [TB1; TB3] = true ->
  table_row_data data version ext rows stride = Ok row_data ->
  length row_data = (Z.to_nat rows * Z.to_nat stride)%nat /\
  (version = TB1 /\ row_data = skipn (Z.to_nat ext) data
   \/ version = TB3 /\ exists decoded, decode_rle (skipn (Z.to_nat ext + 8) data) (rows * stride) = Ok decoded
      /\ forall row column, (row < Z.to_nat rows)%nat -> (column < Z.to_nat stride)%nat ->
         nth (row * Z.to_nat stride + column) row_data 0 = nth (column * Z.to_nat rows + row) decoded 0).
Proof.
  intros Hr Hs Hv H. unfold table_row_data in H. apply rbind_ok in H as (found & Hf & H). destruct (Z.eqb_spec (Z.of_nat (length found)) (rows * stride)) as [E|]; [|done].
  injection H as <-. split; [nia|]. destruct (eqt version TB1) eqn:Ev.
  - left. injection Hf as <-. by apply bool_decide_eq_true in Ev.
  - right. unfold mem in Hv. cbn [existsb] in Hv. rewrite Ev in Hv. cbn [orb] in Hv. rewrite orb_false_r in Hv. apply bool_decide_eq_true in Hv. split; [done|].
    destruct (_ <? 8); [done|]. destruct (_ || _); [done|]. apply rbind_ok in Hf as (decoded & Hd & Hf). injection Hf as <-.
    exists decoded. split; [done|]. intros. by apply by_rows_nth.
Qed.

Section Decoded.
Context (sha256 : list Z -> text).

Lemma parse_table_lossless data md t : bytes_ok data = true -> parse_table sha256 data md = Ok t ->
  (exists row_data, stored data t row_data /\ holds t row_data /\ tb_row_data_sha256 t = sha256 row_data) /\ NoDup (map co_field_id (tb_columns t))
  /\ tb_title t = md_title md /\ tb_version t = md_table_version md /\ tb_row_count t = md_row_count md /\ tb_row_width t = md_row_width md
  /\ tb_col_count t = md_col_count md /\ map co_flags (tb_columns t) = map de_flags (md_columns md) /\ map co_width (tb_columns t) = map de_width (md_columns md)
  /\ Z.of_nat (length (tb_columns t)) = tb_col_count t.
Proof.
  intros Hd H. unfold parse_table in H. cbv zeta in H. repeat pass_guard H. apply rbind_ok in H as (columns & Hc & H). repeat pass_guard H.
  apply rbind_ok in H as (row_data & Hrow & H). apply rbind_ok in H as (values & Hv & H). injection H as <-.
  apply check_columns_spec in Hc as (Hw & Hflags & Hwidth & _); [|done]. bool_hyps. 
  assert (Hstride := unpack_nonneg data 20 2 Hd).
  apply table_row_data_spec in Hrow as [Hl Hrow]; [|done..].
  apply read_rows_lossless in Hv as (Hn & Hf & Hb); [|done|by rewrite Z2Nat.id|done].
  split; [|cbn [tb_columns tb_title tb_version tb_row_count tb_row_width tb_col_count]; apply bool_decide_eq_true in H5; repeat split; try congruence;
          apply (f_equal length) in Hflags; rewrite !length_map in Hflags; lia].
  exists row_data. repeat split; cbn; [exact Hl|exact Hrow|lia|done|done].
Qed.

(** The association of a response with its request. *)
Definition answers (body : list Z) (request_id page_id command : Z) (flags : list Z) : Prop :=
  unpack body 2 4 = request_id /\ unpack body 10 2 = page_id /\ unpack body 16 4 = command /\ In (unpack body 6 4) flags
  /\ unpack body 12 4 = Z.of_nat (length body) - unpack body 0 2.

Lemma response_payload_spec body request_id page_id command flags data : bytes_ok body = true ->
  response_payload body request_id page_id command flags = Ok data ->
  answers body request_id page_id command flags /\ snappy_decompress (skipn (Z.to_nat (unpack body 0 2)) body) MAX_BYTES = Ok data /\ bytes_ok data = true.
Proof.
  intros Hb H. unfold response_payload in H. cbv zeta in H. repeat pass_guard H.
  split; [|split; [done|eapply snappy_decompress_bytes; [|exact H]; by apply bytes_ok_split]].
  apply orb_false_iff in E0 as [E0 Ef]. apply orb_false_iff in E0 as [_ E0]. bool_hyps. apply existsb_exists in Ef as (f & Hf & Ef). apply Z.eqb_eq in Ef as <-.
  done.
Qed.

Lemma table_metadata_spec data version max_rows md : table_metadata sha256 data version max_rows = Ok md ->
  md_table_version md = version /\ 0 <= md_row_count md <= max_rows.
Proof.
  intros H. unfold table_metadata in H. cbv zeta in H. repeat pass_guard H. apply rbind_ok in H as ([title cursor] & _ & H). apply rbind_ok in H as (columns & _ & H).
  injection H as <-. bool_hyps. done.
Qed.

Lemma response_result_spec body data md request_id page_id fd r : bytes_ok data = true ->
  response_result sha256 body data md request_id page_id fd = Ok r ->
  parse_table sha256 data md = Ok (rs_table r) /\ rs_raw_table r = data /\ rs_response_body r = body /\ rs_request_id r = request_id /\ rs_page_id r = page_id.
Proof. intros Hd H. unfold response_result in H. destruct (parse_table _ _ _); [|done]. injection H as <-. done. Qed.

Lemma combine_maps {A B C} (f : A -> B) (g : A -> C) l : combine (map f l) (map g l) = map (fun x => (f x, g x)) l.
Proof. induction l as [|x l IH]; cbn; [done|]. by rewrite IH. Qed.

(** An order response is accepted only when its identifier, page and command are those of the request, its body is as
    long as it says and its table is the order table of the code, within the row limit; and the decoded rows then hold
    every byte of the table after its header: put together, the bytes and the style of the cells are exactly those bytes,
    each row has a cell for each of the six columns and each cell the value its bytes stand for. *)
Theorem order_response_lossless body request_id page_id code fd max_rows r : bytes_ok body = true ->
  decode_order_response sha256 body request_id page_id code fd max_rows = Ok r ->
  (exists command, In command [2267; 2357] /\ answers body request_id page_id command [4352])
  /\ snappy_decompress (skipn (Z.to_nat (unpack body 0 2)) body) MAX_BYTES = Ok (rs_raw_table r) /\ rs_response_body r = body
  /\ tb_title (rs_table r) = code ++ ORDER_TITLE /\ tb_row_width (rs_table r) = 30 /\ length (tb_columns (rs_table r)) = 6%nat
  /\ 0 <= tb_row_count (rs_table r) <= order_row_limit request_id max_rows
  /\ holds (rs_table r) (skipn (Z.to_nat (tb_extended_header_length (rs_table r))) (rs_raw_table r)).
Proof.
  intros Hb H. unfold decode_order_response in H. cbv zeta in H. pass_guard H. pass_guard H. apply rbind_ok in H as (data & Hp & H).
  apply rbind_ok in H as (md & Hm & H). repeat pass_guard H. apply response_payload_spec in Hp as (Ha & Hsnappy & Hd); [|done].
  apply response_result_spec in H as (Ht & -> & -> & _ & _); [|done]. apply table_metadata_spec in Hm as [Hversion Hrows].
  apply parse_table_lossless in Ht as ((row_data & (_ & Hstored) & Hholds & _) & _ & -> & Hv & -> & -> & Hcount & _ & _ & Hlen); [|done].
  bool_hyps. split.
  { eexists. split; [|exact Ha]. apply orb_true_iff in E0 as [K|K]; apply Z.eqb_eq in K; rewrite K; cbn; auto. }
  unfold eqt in *. bool_hyps. destruct Hstored as [[_ ->]|[Hv' _]]; [|by rewrite Hv, Hversion in Hv'].
  split_and!; try done; lia.
Qed.

(** C23: a trade response is accepted only for a valid code, market and page, when it answers the request and its table has
    no title and the eight trade columns, within the row limit; a table stored column by column under the run-length code
    is turned back, so that byte [row, column] of the row bytes is byte [column, row] of the decoded ones; and the decoded
    rows hold all of the row bytes, cell by cell. *)
Theorem trade_response_lossless body request_id page_id code market fd r : bytes_ok body = true ->
  decode_trade_response sha256 body request_id page_id code market fd = Ok r ->
  let result := tr_result r in
  answers body request_id page_id 2357 [4368; 4352; 4400]
  /\ snappy_decompress (skipn (Z.to_nat (unpack body 0 2)) body) MAX_BYTES = Ok (rs_raw_table result)
  /\ tr_code r = code /\ tr_market r = market /\ (tb_version (rs_table result) = TB1 -> tr_pushed r = true)
  /\ tb_title (rs_table result) = [] /\ tb_row_width (rs_table result) = 66
  /\ combine (map co_flags (tb_columns (rs_table result))) (map co_width (tb_columns (rs_table result))) = TRADE_COLUMNS
  /\ 0 <= tb_row_count (rs_table result) <= trade_row_limit request_id
  /\ exists row_data, stored (rs_raw_table result) (rs_table result) row_data /\ holds (rs_table result) row_data.
Proof.
  intros Hb H. unfold decode_trade_response in H. cbv zeta in H. apply rbind_ok in H as (query & _ & H). pass_guard H. apply rbind_ok in H as (data & Hp & H).
  apply rbind_ok in H as (md & Hm & H). pass_guard H. apply rbind_ok in H as (result & Hr & H). injection H as <-. cbn [tr_result tr_code tr_market tr_pushed].
  apply response_payload_spec in Hp as (Ha & Hsnappy & Hd); [|done]. apply response_result_spec in Hr as (Ht & -> & _); [|done].
  apply table_metadata_spec in Hm as [Hversion Hrows].
  apply parse_table_lossless in Ht as ((row_data & Hstored & Hholds & _) & _ & -> & -> & -> & -> & _ & -> & -> & _); [|done].
  unfold eqt in *. bool_hyps. split_and!; try done; try lia; [|by rewrite combine_maps|by exists row_data].
  intros K. rewrite Hversion in K. destruct (request_id =? 4294967295); [done|]. discriminate K.
Qed.
End Decoded.

(** ** Witnesses: an order table with one row and a trade table with two *)

(** A Snappy block with one literal of 61 to 256 bytes behind a request header. *)
Definition demo_body (request_id flags page_id command : Z) (data : list Z) : list Z :=
  let n := Z.of_nat (length data) in
  let block := (if n <? 128 then [n] else [n mod 128 + 128; n / 128]) ++ [240; n - 1] ++ data in
  le_bytes 2 32 ++ le_bytes 4 request_id ++ le_bytes 4 flags ++ le_bytes 2 page_id ++ le_bytes 4 (Z.of_nat (length block)) ++ le_bytes 4 command
  ++ repeat 0 12 ++ block.

Definition demo_header (version : text) (rows stride : Z) (columns : list (Z * Z * Z)) (title : text) : list Z :=
  let count := Z.of_nat (length columns) in
  let texts := le_bytes 2 (Z.of_nat (length title)) ++ concat (map (le_bytes 2) title) ++ repeat 0 (2 * length columns) in
  version ++ [0] ++ le_bytes 4 rows ++ repeat 0 8 ++ le_bytes 2 (24 + 4 * count + Z.of_nat (length texts)) ++ le_bytes 2 stride ++ le_bytes 2 count
  ++ concat (map (fun c => le_bytes 2 (fst (fst c)) ++ [snd (fst c); snd c]) columns) ++ texts.

Definition demo_sha : list Z -> text := fun l => dec_text (le l).
Definition demo_code : text := codes "600000".

Definition demo_order_body : list Z :=
  demo_body 77 4352 5 2267 (demo_header TB1 1 30 ORDER_COLUMNS (demo_code ++ ORDER_TITLE) ++ map Z.of_nat (seq 1 30)).

Definition demo_trade_body : list Z :=
  demo_body 77 4368 5 2357 (demo_header TB3 2 66 (map (fun c => (c, 165)) TRADE_COLUMNS) [] ++ le_bytes 4 10 ++ [0; 0; 0; 132] ++ [127; 1; 2; 0; 128; 117]).

Lemma order_response_lossless_witness : exists r, decode_order_response demo_sha demo_order_body 77 5 demo_code 1 20 = Ok r
  /\ length (tb_columns (rs_table r)) = 6%nat /\ concat (map cells_bytes (tb_rows (rs_table r))) = map Z.of_nat (seq 1 30).
Proof.
  eexists. split; [vm_compute; reflexivity|].
  pose proof (order_response_lossless demo_sha demo_order_body 77 5 demo_code 1 20 _ ltac:(vm_compute; reflexivity) ltac:(vm_compute; reflexivity))
    as (_ & _ & _ & _ & _ & Hcolumns & _ & _ & _ & Hbytes).
  split; [exact Hcolumns|exact Hbytes].
Defined.

(** The first column of the two rows is 1 and 2: the decoded bytes are stored column by column. *)
Lemma trade_response_lossless_witness : exists r, decode_trade_response demo_sha demo_trade_body 77 5 demo_code 17 1 = Ok r
  /\ map (fun row => ce_value <$> head row) (tb_rows (rs_table (tr_result r))) = [Some (CUnsigned 1); Some (CUnsigned 2)]
  /\ exists row_data, stored (rs_raw_table (tr_result r)) (rs_table (tr_result r)) row_data /\ holds (rs_table (tr_result r)) row_data.
Proof.
  eexists. split; [vm_compute; reflexivity|]. split; [reflexivity|].
  apply (trade_response_lossless demo_sha demo_trade_body 77 5 demo_code 17 1 _ ltac:(vm_compute; reflexivity) ltac:(vm_compute; reflexivity)).
Defined.
