(* ===== verification/SignalRouter.v ===== *)
(** * Signal router ([signal_router_runtime.py] and [runtime_routing_policy.py])

    [route_runner_signals] moves a bounded prefix of a strategy's signals to the signal bus: it reads
    the cursor, reads a batch after it, binds the source, and commits one sequence after the other
    until a signal is not yet available.  The source of the batch and the resolver of the targets are
    arguments, as in the code; [FrozenRoutingPolicyResolver] is one such resolver.  Other processes
    may use the bus while the batch is read: [elsewhere] is what they do to it. *)

From Stdlib Require Import ZArith Lia Bool.
From stdpp Require Import base list strings gmap sorting pretty.
From S2P Require Import Prelude Clock DeliveryContracts SignalBus SignalBusInv SignalBusRoutes SignalBusThms.
Open Scope Z_scope.
Open Scope rq_scope.

(** ** Routing decisions *)

Record RoutingDecision := {
  rd_policy : string; rd_action : RouteDecisionKind; rd_targets : list DeliveryTarget; rd_reason_code : option string
}.

(** [RoutingDecision.model_validate]: the fields, [canonicalize_targets] and [validate_action]. *)
Definition validate_decision (r : RoutingDecision) : res RoutingDecision :=
  let policy := strip (rd_policy r) in
  let reason := opt_strip (rd_reason_code r) in
  raise_if negb (is_hex64 policy && opt_nonempty reason) as ValueError saying "field out of range" ;;
  targets <~ canonical_delivery_targets (rd_targets r) ;;
  let no_targets := bool_decide (targets = []) in
  let no_reason := bool_decide (reason = None) in
  raise_if bool_decide (rd_action r = ROUTE) && (no_targets || negb no_reason)
    as ValueError saying "ROUTE requires targets and forbids reason_code" ;;
  raise_if bool_decide (rd_action r = NO_TARGET) && (negb no_targets || no_reason)
    as ValueError saying "NO_TARGET requires reason_code and forbids targets" ;;
  Ok {| rd_policy := policy; rd_action := rd_action r; rd_targets := targets; rd_reason_code := reason |}.

Definition decision_route (policy : string) (targets : list DeliveryTarget) : res RoutingDecision :=
  validate_decision {| rd_policy := policy; rd_action := ROUTE; rd_targets := targets; rd_reason_code := None |}.

Definition decision_no_target (policy reason : string) : res RoutingDecision :=
  validate_decision {| rd_policy := policy; rd_action := NO_TARGET; rd_targets := []; rd_reason_code := Some reason |}.

Definition decision_fingerprint `{Codec} (r : RoutingDecision) : res string :=
  routing_decision_fingerprint (rd_policy r) (rd_action r) (rd_targets r) (rd_reason_code r).

(** ** Batches of a source *)

Record RunnerSignalRecord := { rn_sequence : Z; rn_signal : SignalEnvelopeFamily }.

Record RunnerSignalBatch := {
  rb_descriptor : RouteSourceDescriptor; rb_after_sequence : Z; rb_limit : Z; rb_records : list RunnerSignalRecord
}.

Definition revalidate_signal `{Codec} (f : SignalEnvelopeFamily) : res SignalEnvelopeFamily :=
  match f with
  | Legacy s => s <~ validate_signal false s ;; Ok (Legacy s)
  | Current s => s <~ validate_signal true s ;; Ok (Current s)
  end.

Definition validate_record `{Codec} (r : RunnerSignalRecord) : res RunnerSignalRecord :=
  raise_if rn_sequence r <? 1 as ValueError saying "field out of range" ;;
  signal <~ revalidate_signal (rn_signal r) ;;
  Ok {| rn_sequence := rn_sequence r; rn_signal := signal |}.

Definition validate_batch `{Codec} (batch : RunnerSignalBatch) : res RunnerSignalBatch :=
  d <~ validate_descriptor (rb_descriptor batch) ;;
  raise_if (rb_after_sequence batch <? 0) || (rb_limit batch <? 0) as ValueError saying "field out of range" ;;
  records <~ rmap validate_record (rb_records batch) ;;
  raise_if rb_limit batch <? Z.of_nat (length records) as ValueError saying "runner signal batch exceeds its requested limit" ;;
  Ok {| rb_descriptor := d; rb_after_sequence := rb_after_sequence batch; rb_limit := rb_limit batch; rb_records := records |}.

(** ** The cursor facade *)

(** [cs_bus] is the resolved path of the bus it is bound to. *)
Record SignalRouteCursorStore := { cs_policy : string; cs_bus : option string }.

Definition mk_cursor_store (policy : string) (busy_timeout_ms : Z) : res SignalRouteCursorStore :=
  raise_if negb (is_hex64 (strip policy)) || (busy_timeout_ms <? 1) as ValueError saying "field out of range" ;;
  Ok {| cs_policy := strip policy; cs_bus := None |}.

Definition cursors_bind (path : string) (cs : SignalRouteCursorStore) : res SignalRouteCursorStore :=
  match cs_bus cs with
  | Some bound => raise_if negb (eqs bound path) as SignalRouteConflictError
                    saying "cursor facade cannot be rebound to another signal bus generation" ;;
                  Ok cs
  | None => Ok {| cs_policy := cs_policy cs; cs_bus := Some path |}
  end.

Definition facade_cursor (cs : SignalRouteCursorStore) (source_id : string) (b : bus) : res SignalRouteCursor :=
  match cs_bus cs with
  | None => route_cursor source_id empty_bus
  | Some _ => route_cursor source_id b
  end.

(** ** A routing run *)

Record counts := { n_routed : Z; n_target : Z; n_duplicate : Z; n_no_target : Z; n_expired : Z; n_deferred : Z }.
Definition no_counts : counts := {| n_routed := 0; n_target := 0; n_duplicate := 0; n_no_target := 0; n_expired := 0; n_deferred := 0 |}.

Record SignalRouteSummary := {
  su_source_id : string; su_generation_id : string; su_high_watermark : Z; su_started_after : Z; su_last_sequence : Z;
  su_counts : counts; su_routed_at : Z
}.

(** What one commit adds to the counts. *)
Definition count_commit (receipt : SignalRouteReceipt) (duplicate : bool) (c : counts) : counts :=
  if duplicate then
    {| n_routed := n_routed c; n_target := n_target c; n_duplicate := n_duplicate c + 1; n_no_target := n_no_target c;
       n_expired := n_expired c; n_deferred := n_deferred c |}
  else
    let t := n_target c + sr_target_count receipt in
    match sr_disposition receipt with
    | RD_ROUTED => {| n_routed := n_routed c + 1; n_target := t; n_duplicate := n_duplicate c; n_no_target := n_no_target c;
                      n_expired := n_expired c; n_deferred := n_deferred c |}
    | RD_NO_TARGET => {| n_routed := n_routed c; n_target := t; n_duplicate := n_duplicate c; n_no_target := n_no_target c + 1;
                         n_expired := n_expired c; n_deferred := n_deferred c |}
    | RD_EXPIRED => {| n_routed := n_routed c; n_target := t; n_duplicate := n_duplicate c; n_no_target := n_no_target c;
                       n_expired := n_expired c + 1; n_deferred := n_deferred c |}
    end.

Definition defer (c : counts) : counts :=
  {| n_routed := n_routed c; n_target := n_target c; n_duplicate := n_duplicate c; n_no_target := n_no_target c;
     n_expired := n_expired c; n_deferred := 1 |}.

(** The sequences of a batch follow the cursor one by one. *)
Fixpoint check_sequences (expected : Z) (records : list RunnerSignalRecord) : res unit :=
  match records with
  | [] => Ok tt
  | r :: records =>
      raise_if negb (rn_sequence r =? expected) as SignalRouteSequenceError
        saying ("expected runner sequence " +:+ pretty expected +:+ ", got " +:+ pretty (rn_sequence r)) ;;
      check_sequences (expected + 1) records
  end.

Definition last_sequence_of (records : list RunnerSignalRecord) : option Z := rn_sequence <$> last records.

(** The batch reaches as far as its descriptor says. *)
Definition check_tail (started_after limit high_watermark : Z) (records : list RunnerSignalRecord) : res unit :=
  match last_sequence_of records with
  | Some final =>
      raise_if high_watermark <? final as SignalRouteSequenceError saying "source returned records above its declared high watermark" ;;
      raise_if (Z.of_nat (length records) <? limit) && (final <? high_watermark) as SignalRouteSequenceError
        saying "source tail is missing below the declared high watermark" ;;
      Ok tt
  | None =>
      raise_if started_after <? high_watermark as SignalRouteSequenceError
        saying "source tail is missing below the declared high watermark" ;;
      Ok tt
  end.

(** Run a pure check, then go on with a call that changes the bus. *)
Definition guarded {S A B} (s : S) (r : res A) (k : A -> S * res B) : S * res B :=
  match r with Ok a => k a | Err e => (s, Err e) end.

Section Router.
Context `{Codec} (cfg : config).
Context (target_resolver : SignalEnvelopeFamily -> res RoutingDecision).

(** The decision for one signal, under the policy the router was given. *)
Definition resolve (policy : string) (signal : SignalEnvelopeFamily) : res RoutingDecision :=
  found <~ target_resolver signal ;;
  decision <~ validate_decision found ;;
  raise_if negb (eqs (rd_policy decision) policy) as SignalRouteConflictError
    saying "routing decision does not belong to the frozen routing policy" ;;
  Ok decision.

Fixpoint route_records (d : RouteSourceDescriptor) (policy source_id : string) (routed_at : Z) (records : list RunnerSignalRecord)
    (c : counts) (cursor : SignalRouteCursor) (b : bus) : bus * res (counts * SignalRouteCursor) :=
  match records with
  | [] => (b, Ok (c, cursor))
  | r :: records =>
      if routed_at <? s_available_at (family_envelope (rn_signal r)) then (b, Ok (defer c, cursor))
      else
        guarded b (resolve policy (rn_signal r)) (fun decision =>
        guarded b (decision_fingerprint decision) (fun fingerprint =>
        let '(b', committed_) := commit_source_route cfg d policy (rn_sequence r) (rn_signal r) (rd_action decision) fingerprint
                                   (rd_reason_code decision) (rd_targets decision) (Aware routed_at) b in
        guarded b' committed_ (fun '(receipt, duplicate) =>
        guarded b' (route_cursor source_id b') (fun cursor =>
        route_records d policy source_id routed_at records (count_commit receipt duplicate c) cursor b'))))
  end.

(** Read a batch after the cursor and check that it answers the request. *)
Definition read_checked (source_id : string) (read_batch : Z -> Z -> res RunnerSignalBatch) (after limit : Z) : res RunnerSignalBatch :=
  found <~ read_batch after limit ;;
  batch <~ validate_batch found ;;
  raise_if negb (rb_after_sequence batch =? after) || negb (rb_limit batch =? limit) as SignalRouteConflictError
    saying "source batch request does not match the router cursor and limit" ;;
  raise_if negb (eqs (d_source_id (rb_descriptor batch)) source_id) as SignalRouteConflictError
    saying "requested source_id does not match the frozen source descriptor" ;;
  bind _ from rmap (fun r => require_legacy_signal_write (rn_signal r) "route_runner_signals") (rb_records batch) ;;
  Ok batch.

(** The cursor must not have moved while the batch was read. *)
Definition confirm_cursor (source_id : string) (after : Z) (b : bus) : res unit :=
  confirmed <~ route_cursor source_id b ;;
  raise_if negb (cu_last_sequence confirmed =? after) as SignalRouteConflictError saying "router cursor changed during source batch read" ;;
  Ok tt.

(** Bind the source, check the batch and commit its records. *)
Definition route_batch (source_id policy : string) (after limit routed_at : Z) (batch : RunnerSignalBatch) (b : bus) : bus * res SignalRouteSummary :=
  let d := rb_descriptor batch in
  let records := rb_records batch in
  let '(b, bound) := bind_route_source cfg d policy (Aware routed_at) b in
  guarded b bound (fun cursor =>
  guarded b (bind _ from check_sequences (after + 1) records ;; check_tail after limit (d_high_watermark d) records) (fun _ =>
  let '(b, routing) := route_records d policy source_id routed_at records no_counts cursor b in
  guarded b routing (fun '(c, cursor) =>
  (b, Ok {| su_source_id := source_id; su_generation_id := d_generation_id d; su_high_watermark := d_high_watermark d;
            su_started_after := after; su_last_sequence := cu_last_sequence cursor; su_counts := c; su_routed_at := routed_at |})))).

(** [read_batch] is the source's; [elsewhere] is what other processes do to the bus while it reads. *)
Definition route_runner_signals (source_id : string) (read_batch : Z -> Z -> res RunnerSignalBatch) (path : string)
    (routed_at : pydatetime) (limit : Z) (elsewhere : bus -> bus) (st : bus * SignalRouteCursorStore)
    : bus * SignalRouteCursorStore * res SignalRouteSummary :=
  let '(b, cursors) := st in
  let source_id := strip source_id in
  guarded st (raise_if negb (nonempty source_id) || (limit <? 1) as ValueError saying "field out of range" ;; normalize_aware_utc routed_at) (fun routed =>
  guarded st (route_cursor source_id b) (fun observed =>
  let after := cu_last_sequence observed in
  let b := elsewhere b in
  guarded (b, cursors) (read_checked source_id read_batch after limit) (fun batch =>
  guarded (b, cursors) (cursors_bind path cursors) (fun cursors =>
  guarded (b, cursors) (confirm_cursor source_id after b) (fun _ =>
  let '(b, summary) := route_batch source_id (cs_policy cursors) after limit routed batch b in
  (b, cursors, summary)))))).
End Router.
