(* ===== verification/SignalRouterThms.v ===== *)
(** * Signal router: theorems

    A routing run commits a prefix of its batch: one receipt per record, in order, each with the
    signal and the decision of its record, whether the run returns or raises on the way; and the
    summary of a run that returns counts exactly these receipts. *)

From Stdlib Require Import ZArith Lia Bool.
From stdpp Require Import base list strings gmap sorting pretty.
From S2P Require Import Prelude Clock DeliveryContracts SignalBus SignalBusInv SignalBusRoutes SignalBusThms SignalRouter.
Open Scope Z_scope.
Open Scope rq_scope.

(** ** Binding a source *)

(** The row of a source agrees with its descriptor. *)
Definition bound_to (d : RouteSourceDescriptor) (policy : string) (row : source_row) : Prop :=
  so_source_id row = d_source_id d /\ so_generation_id row = d_generation_id d /\ so_strategy_spec row = d_strategy_spec d
  /\ so_routing_policy row = policy /\ so_first_sequence row = d_first_sequence d /\ so_observed_high row = d_high_watermark d.

Section Binding.
Context (cfg : config).

Lemma bind_row req b b' row adv : request_ok req -> RoutesOf b ->
  bind_route_source_in_transaction cfg req b = Ok (b', row, adv) ->
  bound_to (br_descriptor req) (br_routing_policy req) row
  /\ ((exists old, fetchone (is_source (d_source_id (br_descriptor req))) (sources b) = Some old /\ so_last_sequence row = so_last_sequence old)
      \/ so_last_sequence row = so_first_sequence row - 1).
Proof.
  intros Hq R Hb. unfold bind_route_source_in_transaction in Hb. destruct (fetchone _ _) as [old|] eqn:Ef.
  - pose proof Ef as Hold. apply fetchone_Some in Hold as [Hin He]. unfold is_source in He. str_hyps.
    apply rbind_ok in Hb as (rot & Hrot & Hb). destruct rot as [[b1 r1]|].
    + injection Hb as <- <- _. eapply rotate_Routes in Hrot as (_ & _ & _ & ->); [|done..]. split; [done|by right].
    + unfold rebind, changed in Hb. ok_inv Hb; bool_hyps; str_hyps; (split; [by split_and!|left; eexists; split; reflexivity]).
  - apply rbind_ok in Hb as (b1 & Hi & [= <- <- _]). split; [done|by right].
Qed.

(** Binding a row that agrees already changes nothing. *)
Lemma bind_again d policy at_ b row : RoutesOf b -> In row (sources b) -> bound_to d policy row -> so_last_sequence row <= d_high_watermark d ->
  bind_route_source_in_transaction cfg {| br_descriptor := d; br_routing_policy := policy; br_observed_at := at_ |} b = Ok (b, row, false).
Proof.
  intros R Hin (Hid & Hg & Hs & Hp & Hf & Hh) Hl. unfold bind_route_source_in_transaction. cbn [br_descriptor]. rewrite <- Hid.
  rewrite (fetchone_key so_source_id (sources b) row is_source); [|done|apply R|done].
  unfold rotate_previous_generation_source. cbn [br_descriptor]. rewrite Hg, eqs_refl. cbn [rbind].
  unfold rebind. cbn [br_descriptor br_routing_policy]. rewrite Hg, Hs, Hp, Hf, Hh, !eqs_refl, !Z.eqb_refl, Z.ltb_irrefl. cbn [negb].
  by rewrite (proj2 (Z.ltb_ge _ _)).
Qed.
End Binding.

Lemma cursor_last sid b c : strip sid = sid -> route_cursor sid b = Ok c ->
  cu_last_sequence c = match fetchone (is_source sid) (sources b) with Some row => so_last_sequence row | None => 0 end.
Proof. unfold route_cursor. intros ->. destruct (negb _); [done|]. destruct (fetchone _ _); by intros [= <-]. Qed.

(** ** Committing one record *)

Section Commits.
Context `{Codec} `{!CodecLaws} (cfg : config) (cfg_ok : config_ok cfg).

Lemma with_own_previous : with_previous cfg (previous_generation_of_strategy_spec cfg) = cfg.
Proof. by destruct cfg. Qed.

(** How the receipt of a decision on a signal reads. *)
Definition disposition_of (kind : RouteDecisionKind) (expires_at routed_at : Z) : RouteReceiptDisposition :=
  match kind with NO_TARGET => RD_NO_TARGET | ROUTE => if expires_at <=? routed_at then RD_EXPIRED else RD_ROUTED end.

Record receipt_of (source_id : string) (routed_at : Z) (r : RunnerSignalRecord) (decision : RoutingDecision) (rc : receipt_row) : Prop := {
  ro_source : rc_source_id rc = source_id;
  ro_sequence : rc_source_sequence rc = rn_sequence r;
  ro_signal : s_signal_id (family_envelope (rn_signal r)) = Some (rc_signal_id rc);
  ro_decision : exists f, decision_fingerprint decision = Ok f /\ rc_decision_fingerprint rc = strip f;
  ro_disposition : rc_disposition rc = disposition_of (rd_action decision) (s_expires_at (family_envelope (rn_signal r))) routed_at;
  ro_reason : rc_reason_code rc = opt_strip (rd_reason_code decision);
  ro_targets : exists targets, canonical_delivery_targets (rd_targets decision) = Ok targets /\ rc_manifest_json rc = manifest_payload targets;
  ro_time : rc_routed_at rc = routed_at
}.

(** A record the batch validation has passed. *)
Definition record_ok (r : RunnerSignalRecord) : Prop := exists s, rn_signal r = Legacy s /\ validate_signal false s = Ok s.

(** The source is bound, and its receipts lie before the next sequence. *)
Record ready (d : RouteSourceDescriptor) (policy : string) (next : Z) (row : source_row) (b : bus) : Prop := {
  rdy_inv : BusInv cfg b;
  rdy_row : In row (sources b);
  rdy_bound : bound_to d policy row;
  rdy_next : forall rc, In rc (receipts b) -> rc_source_id rc = d_source_id d -> rc_source_sequence rc < next
}.

Lemma commit_request_fields d p n s k f r ts at_ req : mk_commit_request d p n s k f r ts at_ = Ok req ->
  validate_descriptor d = Ok (cr_descriptor req) /\ cr_routing_policy req = strip p /\ cr_source_sequence req = n
  /\ validate_signal false s = Ok (cr_signal req) /\ cr_kind req = k /\ cr_fingerprint req = strip f
  /\ cr_reason_code req = opt_strip r /\ cr_targets req = ts /\ normalize_aware_utc at_ = Ok (cr_routed_at req).
Proof.
  unfold mk_commit_request. intros Hm. apply rbind_ok in Hm as (d' & Hd & Hm). destruct (negb _); [done|].
  apply rbind_ok in Hm as (sg & Hs & Hm). apply rbind_ok in Hm as (t & Ht & Hm). destruct (_ && _); [done|]. destruct (_ && _); [done|].
  apply rbind_ok in Hm as (x & _ & Hm). destruct (negb _); [done|]. injection Hm as <-. by split_and!.
Qed.

(** A new sequence: the guards, the receipt and the cursor. *)
Lemma commit_new_effect req sid manifest row b b' receipt dup : BusInv cfg b -> In row (sources b) ->
  so_source_id row = d_source_id (cr_descriptor req) -> (forall t, In t (cr_targets req) -> target_ok t) ->
  commit_new req sid manifest row b = Ok (b', (receipt, dup)) ->
  dup = false /\ cr_source_sequence req = so_last_sequence row + 1
  /\ sources b' = update (is_source (so_source_id row)) (set_cursor (cr_source_sequence req) sid (cr_routed_at req)) (sources b)
  /\ exists rc, receipts b' = receipts b ++ [rc] /\ route_receipt_from_row rc = Ok receipt
     /\ rc_source_id rc = d_source_id (cr_descriptor req) /\ rc_source_sequence rc = cr_source_sequence req /\ rc_signal_id rc = sid
     /\ rc_decision_fingerprint rc = cr_fingerprint req
     /\ rc_disposition rc = disposition_of (cr_kind req) (s_expires_at (cr_signal req)) (cr_routed_at req)
     /\ rc_reason_code rc = cr_reason_code req /\ rc_manifest_json rc = manifest /\ rc_routed_at rc = cr_routed_at req.
Proof.
  intros I Hrow Hid Hts Hc. unfold commit_new in Hc. cbv zeta in Hc.
  apply rbind_ok in Hc as (u & Hg & Hc). apply rbind_ok in Hc as ([b1 ing] & Hi & Hc).
  destruct (bool_decide (rr_disposition _ = _)); [done|].
  apply rbind_ok in Hc as ([b2 disp] & Hd & Hc). apply rbind_ok in Hc as (b3 & Hr & Hc). apply rbind_ok in Hc as (o & Ho & Hc).
  injection Hc as <- <- <-. destruct (ingest_BusInv cfg _ _ _ _ _ I Hi) as (I1 & Hs1 & Hr1).
  assert (Hn : cr_source_sequence req = so_last_sequence row + 1).
  { unfold commit_guards in Hg. destruct (exists_row _ _); [done|]. cbv zeta in Hg. destruct (Z.eqb_spec (cr_source_sequence req) (so_last_sequence row + 1)); [done|done]. }
  assert (sources b2 = sources b /\ receipts b2 = receipts b /\ disp = disposition_of (cr_kind req) (s_expires_at (cr_signal req)) (cr_routed_at req)) as (Hs2 & Hr2 & Hdisp).
  { destruct (cr_kind req).
    - apply rbind_ok in Hd as ([bx rows] & Hd & Hx). injection Hx as <- <-.
      destruct (route_BusInv cfg (proj2 cfg_ok) _ _ _ _ _ _ I1 Hts Hd) as (_ & ? & ?). split_and!; congruence || done.
    - by injection Hd as <- <-. }
  apply insert_receipt_ok in Hr as (-> & _ & _). split_and!; [done|done|by cbn; rewrite Hs2, Hid|].
  eexists. split; [cbn; by rewrite Hr2|]. split; [exact Ho|]. by split_and!.
Qed.

Lemma commit_keeps d p n s k f r ts at_ b b' out : BusInv cfg b -> commit_source_route cfg d p n s k f r ts at_ b = (b', out) -> BusInv cfg b'.
Proof.
  intros I Hc. pose proof (commit_BusInv cfg cfg_ok (previous_generation_of_strategy_spec cfg) d p n s k f r ts at_ b I) as K.
  rewrite with_own_previous, Hc in K. exact K.
Qed.

(** Another receipt and the moved cursor leave the source ready for the sequence after it. *)
Lemma ready_next d policy n row b b' sid at_ rc : ready d policy n row b -> BusInv cfg b' -> rc_source_sequence rc = n ->
  sources b' = update (is_source (so_source_id row)) (set_cursor n sid at_) (sources b) -> receipts b' = receipts b ++ [rc] ->
  ready d policy (n + 1) (set_cursor n sid at_ row) b'.
Proof.
  intros [I Hin Hb Hn] I' Hrc Hs Hr. constructor; [done| |done|].
  - rewrite Hs. apply In_update. exists row. split; [done|]. unfold is_source. by rewrite eqs_refl.
  - intros x Hx Hid. rewrite Hr in Hx. apply In_snoc in Hx as [Hx| ->]; [specialize (Hn x Hx Hid)|]; lia.
Qed.

Lemma commit_effect d d' p n s k f r ts t b b' receipt dup row : ready d' (strip p) n row b -> validate_descriptor d = Ok d' ->
  validate_signal false s = Ok s ->
  commit_source_route cfg d p n (Legacy s) k f r ts (Aware t) b = (b', Ok (receipt, dup)) ->
  dup = false /\ n = so_last_sequence row + 1
  /\ exists rc sid, ready d' (strip p) (n + 1) (set_cursor n sid t row) b' /\ receipts b' = receipts b ++ [rc] /\ route_receipt_from_row rc = Ok receipt
     /\ rc_source_id rc = d_source_id d' /\ rc_source_sequence rc = n /\ s_signal_id s = Some (rc_signal_id rc) /\ rc_decision_fingerprint rc = strip f
     /\ rc_disposition rc = disposition_of k (s_expires_at s) t /\ rc_reason_code rc = opt_strip r /\ rc_routed_at rc = t
     /\ exists targets, canonical_delivery_targets ts = Ok targets /\ rc_manifest_json rc = manifest_payload targets.
Proof.
  intros Rdy Hd Hs Hc. pose proof (commit_keeps _ _ _ _ _ _ _ _ _ _ _ _ (rdy_inv _ _ _ _ _ Rdy) Hc) as I'.
  pose proof Rdy as [I Hin Hb Hnext]. unfold commit_source_route, txn, committed in Hc. cbn [require_legacy_signal_write] in Hc.
  rewrite Hs in Hc. cbn [rbind] in Hc.
  match type of Hc with match ?body with _ => _ end = _ => destruct body as [[bx out]|e] eqn:Hbody; [|by injection Hc as _ ?] end.
  injection Hc as -> ->. apply rbind_ok in Hbody as (targets & Hts & Hbody). apply rbind_ok in Hbody as (req & Hreq & Hbody).
  apply commit_request_fields in Hreq as (Hd' & Hp & Hn & Hsg & Hk & Hf & Hr & Htg & Ht). rewrite Hd in Hd'. injection Hd' as Hd'.
  rewrite Hs in Hsg. injection Hsg as Hsg. cbn [normalize_aware_utc] in Ht. destruct (in_range t); [|done]. injection Ht as Ht.
  cbv zeta in Hbody. rewrite <- Hd', <- Hsg in *. destruct (s_signal_id s) as [sid|] eqn:Esid; [|done].
  pose proof Hb as (Hid & _ & _ & _ & _ & Hhigh). pose proof (rt_bounds _ _ (bi_routes _ _ I) row Hin) as Hbounds.
  rewrite Hp, (bind_again cfg d' (strip p) _ b row) in Hbody; [|apply I|done|done|lia]. cbn [rbind] in Hbody.
  destruct (negb _); [done|]. rewrite Hn in Hbody.
  destruct (fetchone _ _) as [existing|] eqn:Ef.
  { exfalso. apply fetchone_Some in Ef as [Hex He]. unfold is_receipt, of_source in He. apply andb_true_iff in He as [He1 He2]. bool_hyps. str_hyps.
    specialize (Hnext existing Hex He1). lia. }
  apply rbind_ok in Hbody as ([b2 [receipt' dup']] & Hnew & Hbody). injection Hbody as -> -> ->.
  apply commit_new_effect in Hnew as (-> & Hlast & Hsrc & rc & Hrec & Hrow & H1 & H2 & H3 & H4 & H5 & H6 & H7 & H8); [|done|done|congruence|].
  2:{ rewrite Htg. by eapply canonical_targets_ok. }
  rewrite ?Hn, ?Hk, ?Hf, ?Hr, ?Ht, ?Htg in *. split; [done|]. split; [done|]. exists rc, sid.
  split; [by eapply ready_next|]. rewrite H3. split_and!; try congruence || done. by exists targets.
Qed.

(** ** Committing the records of a batch *)

(** The number of targets a stored receipt names. *)
Definition targets_of (rc : receipt_row) : Z := match manifest_loads (rc_manifest_json rc) with Ok l => Z.of_nat (length l) | Err _ => 0 end.
Definition number (k : RouteReceiptDisposition) (rcs : list receipt_row) : Z := sumZ (fun rc => if bool_decide (rc_disposition rc = k) then 1 else 0) rcs.

(** The counts of a run and the receipts it wrote. *)
Definition counted (c c' : counts) (rcs : list receipt_row) : Prop :=
  n_routed c' = n_routed c + number RD_ROUTED rcs /\ n_no_target c' = n_no_target c + number RD_NO_TARGET rcs
  /\ n_expired c' = n_expired c + number RD_EXPIRED rcs /\ n_target c' = n_target c + sumZ targets_of rcs /\ n_duplicate c' = n_duplicate c.

Lemma receipt_counts rc receipt : route_receipt_from_row rc = Ok receipt ->
  sr_disposition receipt = rc_disposition rc /\ sr_target_count receipt = targets_of rc.
Proof.
  unfold route_receipt_from_row, targets_of. intros Hr. apply rbind_ok in Hr as (raw & -> & Hr). apply rbind_ok in Hr as (targets & Ht & Hr).
  destruct (negb _); [done|]. apply rmap_ok_Forall2, Forall2_length in Ht. unfold validate_receipt in Hr. cbv zeta in Hr.
  destruct (negb _); [done|]. destruct (negb _); [done|]. cbn [sr_disposition] in Hr.
  destruct (bool_decide _); (destruct (_ || _); [done|]); injection Hr as <-; cbn; by rewrite Ht.
Qed.

Lemma counted_step c c' rc rcs receipt : route_receipt_from_row rc = Ok receipt -> counted (count_commit receipt false c) c' rcs -> counted c c' (rc :: rcs).
Proof.
  intros [Hd Ht]%receipt_counts (H1 & H2 & H3 & H4 & H5). unfold counted, number in *. rewrite !sumZ_cons. unfold count_commit in *. rewrite Hd, Ht in *.
  destruct (rc_disposition rc); cbn [n_routed n_target n_duplicate n_no_target n_expired] in *; repeat case_bool_decide; try done; lia.
Qed.

Lemma counted_none c : counted c c [].
Proof. unfold counted, number, sumZ. cbn. lia. Qed.

Context (target_resolver : SignalEnvelopeFamily -> res RoutingDecision).

Lemma commit_error d p n s k f r ts at_ b b' e : commit_source_route cfg d p n s k f r ts at_ b = (b', Err e) -> b' = b.
Proof.
  unfold commit_source_route, txn, committed. intros Hc. match type of Hc with match ?body with _ => _ end = _ => destruct body as [[bx out]|e'] eqn:Hbody end.
  2: by injection Hc as <- _. injection Hc as -> ->. exfalso. apply rbind_ok in Hbody as (? & _ & Hbody). apply rbind_ok in Hbody as (? & _ & Hbody).
  apply rbind_ok in Hbody as (? & _ & Hbody). destruct (s_signal_id _); [|done]. apply rbind_ok in Hbody as ([[? ?] ?] & _ & Hbody).
  destruct (negb _); [done|]. by apply rbind_ok in Hbody as ([? ?] & _ & Hbody).
Qed.

Lemma descriptor_facts d d' : validate_descriptor d = Ok d' ->
  strip (d_source_id d') = d_source_id d' /\ nonempty (d_source_id d') = true /\ 1 <= d_first_sequence d'
  /\ d_first_sequence d' - 1 <= d_high_watermark d'.
Proof. unfold validate_descriptor. intros Hd. ok_inv Hd. bool_hyps. cbn in *. split_and!; [apply strip_idem|done|lia|lia]. Qed.

Lemma ready_cursor d policy q row b : ready d policy q row b -> strip (d_source_id d) = d_source_id d -> nonempty (d_source_id d) = true ->
  route_cursor (d_source_id d) b = Ok (cursor_from_row row).
Proof.
  intros [I Hin (Hid & _) _] Hs Hne. unfold route_cursor. rewrite Hs, Hne. cbn [negb]. rewrite <- Hid.
  by rewrite (fetchone_key so_source_id (sources b) row is_source); [|done|apply I|done].
Qed.

(** What the receipt of a record says. *)
Definition routed_as (source_id policy : string) (routed_at : Z) (r : RunnerSignalRecord) (rc : receipt_row) : Prop :=
  exists decision, resolve target_resolver policy (rn_signal r) = Ok decision /\ receipt_of source_id routed_at r decision rc.

(** How a run over records ended: it raised, ran through, or stopped at a signal of the future. *)
Definition ended (c : counts) (routed_at : Z) (records : list RunnerSignalRecord) (n : nat) (new : list receipt_row) (last : Z)
    (out : res (counts * SignalRouteCursor)) : Prop :=
  match out with
  | Err _ => True
  | Ok (c', cursor) => counted c c' new /\ cu_last_sequence cursor = last
      /\ (n = length records /\ n_deferred c' = n_deferred c
          \/ n_deferred c' = 1 /\ exists r, nth_error records n = Some r /\ routed_at < s_available_at (family_envelope (rn_signal r)))
  end.

Lemma route_records_spec d d' policy t records : validate_descriptor d = Ok d' -> strip policy = policy ->
  Forall record_ok records -> forall q row c cursor b b' out, ready d' policy q row b -> check_sequences q records = Ok tt ->
  cu_last_sequence cursor = so_last_sequence row ->
  route_records cfg target_resolver d policy (d_source_id d') t records c cursor b = (b', out) ->
  exists n new row', (n <= length records)%nat /\ ready d' policy (q + Z.of_nat n) row' b' /\ receipts b' = receipts b ++ new
    /\ Forall2 (routed_as (d_source_id d') policy t) (firstn n records) new
    /\ so_last_sequence row' = so_last_sequence row + Z.of_nat n /\ ((0 < n)%nat -> q = so_last_sequence row + 1)
    /\ ended c t records n new (so_last_sequence row') out.
Proof.
  intros Hd Hp Hok. destruct (descriptor_facts _ _ Hd) as (Hsid & Hne & _). induction Hok as [|r records (s & Hr & Hs) Hok IH]; intros q row c cursor b b' out Rdy Hseq Hcur Hrun.
  - injection Hrun as <- <-. exists 0%nat, [], row. rewrite Z.add_0_r, app_nil_r. split_and!; try done; [lia|lia|]. split; [apply counted_none|auto].
  - assert (Hstop : forall out', b' = b -> out = out' -> ended c t (r :: records) 0 [] (so_last_sequence row) out' ->
      exists n new row', (n <= length (r :: records))%nat /\ ready d' policy (q + Z.of_nat n) row' b' /\ receipts b' = receipts b ++ new
        /\ Forall2 (routed_as (d_source_id d') policy t) (firstn n (r :: records)) new
        /\ so_last_sequence row' = so_last_sequence row + Z.of_nat n /\ ((0 < n)%nat -> q = so_last_sequence row + 1)
        /\ ended c t (r :: records) n new (so_last_sequence row') out).
    { intros out' -> -> He. exists 0%nat, [], row. rewrite Z.add_0_r, app_nil_r. split_and!; try done; lia. }
    cbn [check_sequences] in Hseq. destruct (Z.eqb_spec (rn_sequence r) q) as [Hq|]; [|done]. cbn [negb] in Hseq.
    cbn [route_records] in Hrun. destruct (Z.ltb_spec t (s_available_at (family_envelope (rn_signal r)))) as [Hfut|_].
    { injection Hrun as <- <-. apply (Hstop _ eq_refl eq_refl). split; [exact (counted_none c)|]. split; [done|]. right. split; [done|]. by exists r. }
    unfold guarded in Hrun. destruct (resolve _ _ _) as [decision|e] eqn:Hres; [|injection Hrun as <- <-; by apply (Hstop (Err e))].
    destruct (decision_fingerprint decision) as [f|e] eqn:Hf; [|injection Hrun as <- <-; by apply (Hstop (Err e))].
    destruct (commit_source_route _ _ _ _ _ _ _ _ _ _ _) as [b1 [[receipt dup]|e]] eqn:Hc.
    2:{ injection Hrun as <- <-. apply commit_error in Hc as ->. by apply (Hstop (Err e)). }
    rewrite Hr in Hc. rewrite <- Hp in Rdy. eapply commit_effect in Hc as (-> & Hlast & rc & sid & Rdy1 & Hrec & Hrow & H1 & H2 & H3 & H4 & H5 & H6 & H7 & Ht);
      [|by rewrite Hq|done|done].
    assert (Hrc : routed_as (d_source_id d') policy t r rc).
    { exists decision. split; [done|]. constructor; rewrite ?Hr; try done. by exists f. }
    rewrite Hp, Hq in *. rewrite (ready_cursor _ _ _ _ _ Rdy1 Hsid Hne) in Hrun.
    destruct (IH _ _ _ (cursor_from_row (set_cursor q sid t row)) _ _ _ Rdy1 Hseq eq_refl Hrun)
      as (n & new & row' & Hn & Rdy' & Hrec' & Hnew & Hlast' & Hfirst & Hend).
    exists (S n), (rc :: new), row'. split_and!; cbn [length firstn]; [lia| | | | | |].
    + by replace (q + Z.of_nat (S n)) with (q + 1 + Z.of_nat n) by lia.
    + by rewrite Hrec', Hrec, <- app_assoc.
    + by constructor.
    + cbn in Hlast'. lia.
    + done.
    + unfold ended in *. destruct out as [[c' cursor']|]; [|done]. destruct Hend as (Hcount & Hcl & Hd'). split; [by eapply counted_step|]. split; [done|].
      destruct Hd' as [[-> Hd']|Hd']; [left|by right]. split; [done|]. rewrite Hd'. unfold count_commit. by destruct (sr_disposition receipt).
Qed.

(** ** A routing run *)

Definition cursor_of (source_id : string) (b : bus) : Z :=
  match fetchone (is_source source_id) (sources b) with Some row => so_last_sequence row | None => 0 end.

Lemma bind_keeps d p at_ b b' out : BusInv cfg b -> bind_route_source cfg d p at_ b = (b', out) -> BusInv cfg b'.
Proof.
  intros I Hb. pose proof (bind_BusInv cfg (previous_generation_of_strategy_spec cfg) d p at_ b I) as K.
  rewrite with_own_previous, Hb in K. exact K.
Qed.

(** A bound source is ready for the sequence after its old cursor. *)
Lemma bind_ready d d' p t b b' cursor : BusInv cfg b -> validate_descriptor d = Ok d' -> strip p = p ->
  bind_route_source cfg d p (Aware t) b = (b', Ok cursor) ->
  exists row, ready d' p (cursor_of (d_source_id d') b + 1) row b' /\ cu_last_sequence cursor = so_last_sequence row.
Proof.
  intros I Hd Hp Hb. pose proof (bind_keeps _ _ _ _ _ _ I Hb) as I'. unfold bind_route_source, bind_route_source_observed, txn, committed in Hb.
  match type of Hb with context [match ?body with _ => _ end] => destruct body as [[bx out]|e] eqn:Hbody end; [|by injection Hb as _ ?].
  apply rbind_ok in Hbody as (req & Hreq & Hbody). apply rbind_ok in Hbody as ([[b1 row] adv] & Hbind & Hbody). injection Hbody as <- <-.
  cbn [rbind fst] in Hb. injection Hb as <- <-. pose proof (mk_binding_request_ok _ _ _ _ Hreq) as Hok.
  unfold mk_binding_request in Hreq. rewrite Hd in Hreq. cbn [rbind] in Hreq. destruct (negb _); [done|].
  apply rbind_ok in Hreq as (t' & _ & Hreq). injection Hreq as <-. rewrite Hp in *.
  pose proof (bind_Routes _ _ _ _ _ _ Hok (bi_routes _ _ I) Hbind) as (R' & _ & Hin & Hid & _).
  apply bind_row in Hbind as [Hbound Hlast]; [|done|apply I]. cbn [br_descriptor br_routing_policy] in *. exists row. split; [|done].
  constructor; [done..|]. intros rc Hrc Hrs. destruct (rt_parent _ _ R' rc Hrc) as (s & Hs & He & Hn).
  assert (s = row) as -> by (apply (NoDup_key_eq so_source_id (sources b1)); [apply R'|done|done|congruence]).
  unfold cursor_of. destruct Hlast as [(old & -> & Hl)|Hl]; lia.
Qed.

(** The source of a batch is new to the bus or of the generation the bus knows. *)
Definition continues (d : RouteSourceDescriptor) (b : bus) : Prop :=
  forall row, fetchone (is_source (d_source_id d)) (sources b) = Some row -> so_generation_id row = d_generation_id d.

Lemma bind_receipts d d' p at_ b : validate_descriptor d = Ok d' -> continues d' b -> receipts (fst (bind_route_source cfg d p at_ b)) = receipts b.
Proof.
  intros Hd Hc. unfold bind_route_source, bind_route_source_observed, txn, committed.
  match goal with |- context [match ?body with _ => _ end] => destruct body as [[bx out]|e] eqn:Hbody end; [|done]. cbn [fst].
  apply rbind_ok in Hbody as (req & Hreq & Hbody). apply rbind_ok in Hbody as ([[b1 row] adv] & Hbind & Hbody). injection Hbody as <- _.
  unfold mk_binding_request in Hreq. rewrite Hd in Hreq. cbn [rbind] in Hreq. destruct (negb _); [done|].
  apply rbind_ok in Hreq as (t' & _ & Hreq). injection Hreq as <-. unfold bind_route_source_in_transaction in Hbind. cbn [br_descriptor] in Hbind.
  destruct (fetchone _ _) as [old|] eqn:Ef.
  - unfold rotate_previous_generation_source in Hbind. cbn [br_descriptor] in Hbind. rewrite (Hc old Ef), eqs_refl in Hbind. cbn [rbind] in Hbind.
    unfold rebind, changed in Hbind. ok_inv Hbind; done.
  - apply rbind_ok in Hbind as (b2 & Hi & Hx). injection Hx as <- _ _. by apply insert_source_ok in Hi as [-> _].
Qed.

Lemma validate_batch_spec found batch : validate_batch found = Ok batch ->
  validate_descriptor (rb_descriptor batch) = Ok (rb_descriptor batch) /\ Forall (fun r => exists r0, validate_record r0 = Ok r) (rb_records batch)
  /\ Z.of_nat (length (rb_records batch)) <= rb_limit batch.
Proof.
  unfold validate_batch. intros Hb. apply rbind_ok in Hb as (d & Hd & Hb). destruct (_ || _); [done|]. apply rbind_ok in Hb as (rs & Hr & Hb).
  destruct (Z.ltb_spec (rb_limit found) (Z.of_nat (length rs))); [done|]. injection Hb as <-. cbn. split_and!; [| |done].
  - unfold validate_descriptor in Hd |- *. cbv zeta in Hd. destruct (negb _) eqn:E1; [done|]. destruct (_ <? _) eqn:E2; [done|]. injection Hd as <-.
    cbn in *. by rewrite !strip_idem, E1, E2.
  - apply rmap_ok_Forall2 in Hr. clear -Hr. induction Hr as [|x y l l' Hxy _ IH]; [constructor|]. constructor; [by exists x|exact IH].
Qed.

Lemma read_checked_spec source_id read_batch after limit batch : read_checked source_id read_batch after limit = Ok batch ->
  validate_descriptor (rb_descriptor batch) = Ok (rb_descriptor batch) /\ d_source_id (rb_descriptor batch) = source_id
  /\ Forall record_ok (rb_records batch) /\ Z.of_nat (length (rb_records batch)) <= limit.
Proof.
  unfold read_checked. intros Hr. apply rbind_ok in Hr as (found & _ & Hr). apply rbind_ok in Hr as (batch' & Hb & Hr).
  pass_guard Hr. pass_guard Hr. apply rbind_ok in Hr as (u & Hw & Hr). injection Hr as <-. bool_hyps. str_hyps.
  apply validate_batch_spec in Hb as (Hd & Hrs & Hn). split_and!; try done; [|lia].
  apply rmap_ok_Forall2 in Hw. revert Hrs Hw. generalize (rb_records batch'). clear. intros rs Hrs. revert u.
  induction Hrs as [|r rs (r0 & Hr0) _ IH]; intros u Hw; [constructor|]. apply Forall2_cons_inv_l in Hw as (w & u' & Hw & Hu & ->).
  constructor; [|by eapply IH]. unfold validate_record in Hr0. destruct (_ <? 1); [done|]. apply rbind_ok in Hr0 as (f & Hf & Hr0). injection Hr0 as <-.
  unfold record_ok. cbn [rn_signal] in *. destruct (rn_signal r0) as [s|s]; cbn [revalidate_signal] in Hf; apply rbind_ok in Hf as (s' & Hs & Hf); injection Hf as <-; [|done].
  exists s'. split; [done|]. by eapply validate_signal_idem.
Qed.

Lemma validated_cursor source_id b c : strip source_id = source_id -> route_cursor source_id b = Ok c -> cu_last_sequence c = cursor_of source_id b.
Proof. intros Hs Hc. by rewrite (cursor_last _ _ _ Hs Hc). Qed.

(** What a finished run reports: where it started and ended, and how many receipts of each kind it wrote; it ended at the
    end of the batch or at the first signal that is not available yet. *)
Definition reports (source_id : string) (started t : Z) (records : list RunnerSignalRecord) (n : nat) (new : list receipt_row) (b : bus)
    (s : SignalRouteSummary) : Prop :=
  su_started_after s = started /\ su_last_sequence s = cursor_of source_id b /\ ((0 < n)%nat -> su_last_sequence s = started + Z.of_nat n)
  /\ counted no_counts (su_counts s) new
  /\ (n = length records /\ n_deferred (su_counts s) = 0
      \/ n_deferred (su_counts s) = 1 /\ exists r, nth_error records n = Some r /\ t < s_available_at (family_envelope (rn_signal r))).

Lemma route_batch_spec policy after limit t batch b b' out : BusInv cfg b -> strip policy = policy ->
  validate_descriptor (rb_descriptor batch) = Ok (rb_descriptor batch) -> Forall record_ok (rb_records batch) ->
  cursor_of (d_source_id (rb_descriptor batch)) b = after ->
  route_batch cfg target_resolver (d_source_id (rb_descriptor batch)) policy after limit t batch b = (b', out) ->
  BusInv cfg b' /\ exists n new, (n <= length (rb_records batch))%nat
    /\ receipts b' = receipts (fst (bind_route_source cfg (rb_descriptor batch) policy (Aware t) b)) ++ new
    /\ Forall2 (routed_as (d_source_id (rb_descriptor batch)) policy t) (firstn n (rb_records batch)) new
    /\ match out with Err _ => True | Ok s => reports (d_source_id (rb_descriptor batch)) after t (rb_records batch) n new b' s end.
Proof.
  intros I Hp Hd Hok Hafter Hrun. unfold route_batch in Hrun. cbv zeta in Hrun.
  destruct (bind_route_source _ _ _ _ b) as [b1 bound] eqn:Hbind. cbn [fst]. pose proof (bind_keeps _ _ _ _ _ _ I Hbind) as I1.
  assert (Hstop : forall e, b' = b1 -> out = Err e -> BusInv cfg b' /\ exists n new, (n <= length (rb_records batch))%nat /\ receipts b' = receipts b1 ++ new
    /\ Forall2 (routed_as (d_source_id (rb_descriptor batch)) policy t) (firstn n (rb_records batch)) new
    /\ match out with Err _ => True | Ok s => reports (d_source_id (rb_descriptor batch)) after t (rb_records batch) n new b' s end).
  { intros e -> ->. split; [done|]. exists 0%nat, []. rewrite app_nil_r. split_and!; done || lia. }
  unfold guarded in Hrun. destruct bound as [cursor|e]; [|injection Hrun as <- <-; by eapply Hstop].
  destruct (bind_ready _ _ _ _ _ _ _ I Hd Hp Hbind) as (row & Rdy & Hcur). rewrite Hafter in Rdy.
  destruct (rbind (check_sequences _ _) _) as [u|e] eqn:Hchk; [|injection Hrun as <- <-; by eapply Hstop].
  apply rbind_ok in Hchk as ([] & Hseq & _). destruct (route_records _ _ _ _ _ _ _ _ _ _) as [b2 routing] eqn:Hroute.
  eapply route_records_spec in Hroute as (n & new & row' & Hn & Rdy' & Hrec & Hnew & Hlast & Hfirst & Hend); [|done..].
  assert (b' = b2 /\ match routing, out with Ok (c, cu), Ok s => su_started_after s = after /\ su_last_sequence s = cu_last_sequence cu /\ su_counts s = c
    | Err _, Err _ => True | _, _ => False end) as [-> Hout] by (destruct routing as [[c cu]|]; by injection Hrun as <- <-).
  split; [apply Rdy'|]. exists n, new. split_and!; try done. destruct out as [s|]; [|done]. destruct routing as [[c cu]|]; [|done].
  destruct Hout as (Hs & Hl & <-). destruct Hend as (Hc & Hcu & Hdef). pose proof (descriptor_facts _ _ Hd) as (Hsid & Hne & _).
  pose proof (ready_cursor _ _ _ _ _ Rdy' Hsid Hne) as Hcur'. apply validated_cursor in Hcur'; [|done]. cbn [cursor_from_row cu_last_sequence] in Hcur'.
  unfold reports. split_and!; try done; [congruence|]. intros Hpos. specialize (Hfirst Hpos). lia.
Qed.

Lemma cursors_bind_policy path cs cs' : cursors_bind path cs = Ok cs' -> cs_policy cs' = cs_policy cs.
Proof. unfold cursors_bind. destruct (cs_bus cs); [destruct (negb _); [done|]|]; by intros [= <-]. Qed.

Lemma confirm_cursor_spec source_id after b : strip source_id = source_id -> confirm_cursor source_id after b = Ok tt -> cursor_of source_id b = after.
Proof.
  unfold confirm_cursor. intros Hs Hc. apply rbind_ok in Hc as (c & Hc & Hn). destruct (Z.eqb_spec (cu_last_sequence c) after) as [E|]; [|done].
  by rewrite <- (validated_cursor _ _ _ Hs Hc).
Qed.

(** C25: whatever source and resolver it is given and whatever others do to the bus while it reads, a routing run either
    stops before it writes anything, or binds the source and commits a prefix of its batch: one receipt per record, in
    order, with the record's sequence and signal and the decision the resolver takes for it.  This holds when the run raises
    on the way, so the next run continues where it stopped; a source whose generation has not changed loses no receipt; and
    the summary of a run that returns says exactly what was committed and why it ended. *)
Theorem routing_commits_prefix source_id read_batch path routed_at limit elsewhere b cursors b' cursors' out :
  BusInv cfg b -> BusInv cfg (elsewhere b) -> strip (cs_policy cursors) = cs_policy cursors ->
  route_runner_signals cfg target_resolver source_id read_batch path routed_at limit elsewhere (b, cursors) = (b', cursors', out) ->
  BusInv cfg b' /\
  ((exists e, out = Err e) /\ (b' = b \/ b' = elsewhere b)
   \/ exists t batch n new, normalize_aware_utc routed_at = Ok t
      /\ read_checked (strip source_id) read_batch (cursor_of (strip source_id) b) limit = Ok batch /\ (n <= length (rb_records batch))%nat
      /\ receipts b' = receipts (fst (bind_route_source cfg (rb_descriptor batch) (cs_policy cursors) (Aware t) (elsewhere b))) ++ new
      /\ (continues (rb_descriptor batch) (elsewhere b) -> receipts b' = receipts (elsewhere b) ++ new)
      /\ Forall2 (routed_as (strip source_id) (cs_policy cursors) t) (firstn n (rb_records batch)) new
      /\ match out with Err _ => True | Ok s => reports (strip source_id) (cursor_of (strip source_id) b) t (rb_records batch) n new b' s end).
Proof.
  intros I Ie Hp Hrun. unfold route_runner_signals in Hrun. cbv zeta in Hrun. unfold guarded in Hrun.
  match type of Hrun with match ?x with _ => _ end = _ => destruct x as [t|e] eqn:Ht end; [|injection Hrun as <- <- <-; eauto 6].
  destruct (negb _ || _); [done|].
  destruct (route_cursor _ b) as [observed|e] eqn:Hobs; [|injection Hrun as <- <- <-; eauto 6].
  apply validated_cursor in Hobs; [|apply strip_idem]. rewrite Hobs in Hrun.
  destruct (read_checked _ _ _ _) as [batch|e] eqn:Hread; [|injection Hrun as <- <- <-; eauto 6].
  destruct (cursors_bind _ _) as [cs|e] eqn:Hcs; [|injection Hrun as <- <- <-; eauto 6].
  destruct (confirm_cursor _ _ _) as [[]|e] eqn:Hconf; [|injection Hrun as <- <- <-; eauto 6].
  destruct (route_batch _ _ _ _ _ _ _ _ _) as [b2 summary] eqn:Hbatch. injection Hrun as <- <- <-.
  apply confirm_cursor_spec in Hconf; [|apply strip_idem]. apply cursors_bind_policy in Hcs. rewrite Hcs in Hbatch.
  pose proof (read_checked_spec _ _ _ _ _ Hread) as (Hd & Hid & Hok & _). rewrite <- Hid in Hbatch.
  eapply route_batch_spec in Hbatch as (I2 & n & new & Hn & Hrec & Hnew & Hrep); [|done..|by rewrite Hid].
  rewrite Hid in *. split; [done|]. right. exists t, batch, n, new. split_and!; try done.
  intros Hcont. by rewrite Hrec, (bind_receipts _ _ _ _ _ Hd Hcont).
Qed.
End Commits.

(** ** A witness: one signal routed, one with no target, one not available yet *)

Definition demo_route_signal (event : Z) (content : string) : SignalEnvelope :=
  {| s_signal_id := None; s_event_time := event; s_available_at := event + 1; s_expires_at := 100 * us_per_second; s_content := content |}.

Definition demo_route_batch (after limit : Z) : res RunnerSignalBatch :=
  Ok {| rb_descriptor := {| d_source_id := "strategy-a"; d_generation_id := hexes 1; d_strategy_spec := hexes 2; d_first_sequence := 1; d_high_watermark := 3 |};
        rb_after_sequence := after; rb_limit := limit;
        rb_records := [{| rn_sequence := 1; rn_signal := Legacy (demo_route_signal 1 "buy") |};
                       {| rn_sequence := 2; rn_signal := Legacy (demo_route_signal 2 "watch") |};
                       {| rn_sequence := 3; rn_signal := Legacy (demo_route_signal (50 * us_per_second) "sell!") |}] |}.

Definition demo_resolver (f : SignalEnvelopeFamily) : res RoutingDecision :=
  if eqs (s_content (family_envelope f)) "watch" then decision_no_target (hexes 3) "no_rule" else decision_route (hexes 3) [demo_target].

Definition demo_cursors : SignalRouteCursorStore := {| cs_policy := hexes 3; cs_bus := None |}.

Abbreviation demo_routing :=
  (@route_runner_signals demo_codec demo_cfg demo_resolver "strategy-a" demo_route_batch "/bus.sqlite3" (sec 10) 10 (fun b => b)
    (@fresh_bus demo_codec demo_cfg "t", demo_cursors)).

Lemma routing_commits_prefix_witness :
  match snd demo_routing with Ok s => su_last_sequence s = 2 /\ n_routed (su_counts s) = 1 /\ n_no_target (su_counts s) = 1 /\ n_deferred (su_counts s) = 1
  | Err _ => False end /\ @BusInv demo_codec demo_cfg (fst (fst demo_routing)).
Proof.
  split; [vm_compute; done|].
  destruct demo_routing as [[b' cs'] out] eqn:E. cbn [fst].
  destruct (@fresh_BusInv demo_codec demo_cfg demo_cfg_ok "t") as [I _].
  apply (@routing_commits_prefix demo_codec demo_laws demo_cfg demo_cfg_ok demo_resolver "strategy-a" demo_route_batch "/bus.sqlite3" (sec 10) 10 (fun b => b)
    (@fresh_bus demo_codec demo_cfg "t") demo_cursors b' cs' out I I ltac:(vm_compute; reflexivity) E).
Defined.
