(* ===== verification/RoutingPolicy.v ===== *)
(** * Frozen routing policies ([runtime_routing_policy.py])

    A policy document is a list of rules; [from_document] turns it into a table from a strategy, its
    version and an action to delivery targets, and the resolver looks a signal up in it.  The theorem
    says that a document is accepted exactly when no two rules name the same target, and that the
    resolver then answers every signal with exactly the targets of its enabled rules. *)

From Stdlib Require Import ZArith Lia Bool.
From stdpp Require Import base list strings sorting.
From S2P Require Import Prelude Clock DeliveryContracts SignalBus SignalBusInv SignalRouter.
Open Scope Z_scope.
Open Scope rq_scope.

Inductive SignalAction := WATCH | B_INTENT | REDUCE | S_INTENT | CANCEL.

#[export] Instance action_eq_dec : EqDecision SignalAction.
Proof. solve_decision. Defined.

Definition action_value (a : SignalAction) : string :=
  match a with WATCH => "watch" | B_INTENT => "b_intent" | REDUCE => "reduce" | S_INTENT => "s_intent" | CANCEL => "cancel" end.

Record RoutingPolicyRule := {
  ru_strategy_id : string; ru_strategy_version : string; ru_action : SignalAction; ru_recipient_id : string;
  ru_channel : DeliveryChannel; ru_enabled : bool
}.

Definition validate_rule (r : RoutingPolicyRule) : res RoutingPolicyRule :=
  let r := {| ru_strategy_id := strip (ru_strategy_id r); ru_strategy_version := strip (ru_strategy_version r); ru_action := ru_action r;
              ru_recipient_id := strip (ru_recipient_id r); ru_channel := ru_channel r; ru_enabled := ru_enabled r |} in
  raise_if negb (nonempty (ru_strategy_id r) && nonempty (ru_strategy_version r) && nonempty (ru_recipient_id r))
    as ValueError saying "String should have at least 1 character" ;;
  Ok r.

(** A lower-case letter or a digit, then up to 127 of these and [_.-]. *)
Definition reason_head (c : Ascii.ascii) : bool :=
  let n := Ascii.nat_of_ascii c in ((97 <=? n) && (n <=? 122))%nat || ((48 <=? n) && (n <=? 57))%nat.
Definition reason_char (c : Ascii.ascii) : bool :=
  let n := Ascii.nat_of_ascii c in reason_head c || (n =? 95)%nat || (n =? 46)%nat || (n =? 45)%nat.

Fixpoint reason_tail (s : string) : bool := match s with EmptyString => true | String c s => reason_char c && reason_tail s end.

Definition reason_syntax (s : string) : bool :=
  match s with EmptyString => false | String c s => reason_head c && reason_tail s && (String.length s <=? 127)%nat end.

Record RoutingPolicyDocument := { pd_default_reason : string; pd_rules : list RoutingPolicyRule }.

Definition validate_document (p : RoutingPolicyDocument) : res RoutingPolicyDocument :=
  let reason := strip (pd_default_reason p) in
  raise_if negb (reason_syntax reason) as ValueError saying "String should match pattern" ;;
  rules <~ rmap validate_rule (pd_rules p) ;;
  Ok {| pd_default_reason := reason; pd_rules := rules |}.

Definition RouteKey : Type := string * string * SignalAction.
Definition rule_key (r : RoutingPolicyRule) : RouteKey := (ru_strategy_id r, ru_strategy_version r, ru_action r).
Definition rule_target (r : RoutingPolicyRule) : DeliveryTarget := {| recipient_id := ru_recipient_id r; channel := ru_channel r |}.
Definition target_key (r : RoutingPolicyRule) : RouteKey * DeliveryTarget := (rule_key r, rule_target r).

Definition routes : Type := list (RouteKey * list DeliveryTarget).

(** [routes[key].append(target)] of a [defaultdict(list)]. *)
Fixpoint append_route (k : RouteKey) (t : DeliveryTarget) (rs : routes) : routes :=
  match rs with
  | [] => [(k, [t])]
  | (k', ts) :: rs => if bool_decide (k' = k) then (k', ts ++ [t]) :: rs else (k', ts) :: append_route k t rs
  end.

Fixpoint collect_routes (rules : list RoutingPolicyRule) (seen : list (RouteKey * DeliveryTarget)) (rs : routes) : res routes :=
  match rules with
  | [] => Ok rs
  | r :: rules =>
      raise_if bool_decide (target_key r ∈ seen) as RoutingPolicyConflictError
        saying "routing policy contains a duplicate or conflicting target" ;;
      rs <~ (if ru_enabled r then target <~ validate_target (rule_target r) ;; Ok (append_route (rule_key r) target rs) else Ok rs) ;;
      collect_routes rules (target_key r :: seen) rs
  end.

Definition key_le (a b : RouteKey * list DeliveryTarget) : Prop :=
  match String.compare (fst (fst (fst a))) (fst (fst (fst b))) with
  | Lt => True
  | Gt => False
  | Eq => match String.compare (snd (fst (fst a))) (snd (fst (fst b))) with
          | Lt => True
          | Gt => False
          | Eq => String.compare (action_value (snd (fst a))) (action_value (snd (fst b))) <> Gt
          end
  end.
#[export] Instance key_le_dec : RelDecision key_le.
Proof. intros a b. unfold key_le. do 2 (destruct (String.compare _ _); try apply _). Defined.

Record FrozenRoutingPolicyResolver := { fr_fingerprint : string; fr_default_reason : string; fr_routes : routes }.

Definition from_document (content_sha256 : string) (policy : RoutingPolicyDocument) : res FrozenRoutingPolicyResolver :=
  rs <~ collect_routes (pd_rules policy) [] [] ;;
  Ok {| fr_fingerprint := content_sha256; fr_default_reason := pd_default_reason policy; fr_routes := merge_sort key_le rs |}.

Definition targets_for (k : RouteKey) (rs : routes) : list DeliveryTarget :=
  default [] (snd <$> List.find (fun kv => bool_decide (fst kv = k)) rs).

(** [signal_key] reads a signal's strategy, version and action. *)
Definition resolve_targets (signal_key : SignalEnvelope -> RouteKey) (fr : FrozenRoutingPolicyResolver) (signal : SignalEnvelopeFamily) : res RoutingDecision :=
  let targets := targets_for (signal_key (family_envelope signal)) (fr_routes fr) in
  if bool_decide (targets = []) then decision_no_target (fr_fingerprint fr) (fr_default_reason fr)
  else decision_route (fr_fingerprint fr) targets.

(** ** The table *)

Lemma targets_append k k' t rs : targets_for k (append_route k' t rs) = targets_for k rs ++ (if bool_decide (k' = k) then [t] else []).
Proof.
  unfold targets_for. induction rs as [|[k0 ts] rs IH]; cbn [append_route List.find fst].
  - by destruct (bool_decide (k' = k)).
  - destruct (bool_decide (k0 = k')) eqn:E1; cbn [List.find fst]; destruct (bool_decide (k0 = k)) eqn:E2; cbn; bool_hyps; try exact IH.
    + rewrite bool_decide_eq_true_2 by congruence. done.
    + rewrite bool_decide_eq_false_2 by congruence. by rewrite app_nil_r.
    + rewrite bool_decide_eq_false_2 by congruence. by rewrite app_nil_r.
Qed.

Lemma append_keys k t rs : forall k', In k' (map fst (append_route k t rs)) <-> k' = k \/ In k' (map fst rs).
Proof.
  induction rs as [|[k0 ts] rs IH]; intros k'; cbn [append_route]; [cbn; naive_solver|].
  case_bool_decide; cbn; [naive_solver|]. rewrite IH. naive_solver.
Qed.

Lemma append_NoDup k t rs : List.NoDup (map fst rs) -> List.NoDup (map fst (append_route k t rs)).
Proof.
  induction rs as [|[k0 ts] rs IH]; cbn [append_route]; intros Hn; [repeat constructor; by intros []|]. inversion Hn as [|? ? Hni Hnd]; subst.
  case_bool_decide; cbn; [done|]. constructor; [|by apply IH]. rewrite append_keys. intros [->|Hk]; done.
Qed.

(** The table does not depend on the order of its keys. *)
Lemma targets_perm k rs rs' : List.NoDup (map fst rs) -> Permutation rs rs' -> targets_for k rs = targets_for k rs'.
Proof.
  intros Hn Hp. induction Hp as [|[k0 ts] l l' Hp IH|[k0 ts] [k1 us] l|l l' l'' H1 IH1 H2 IH2]; [done| | |].
  - cbn in Hn. inversion Hn; subst. unfold targets_for in *. cbn. case_bool_decide; [done|by apply IH].
  - unfold targets_for. cbn. repeat case_bool_decide; try done. subst. inversion Hn as [|? ? Hx]; subst. exfalso. apply Hx. by left.
  - rewrite IH1 by done. apply IH2. by eapply Permutation_NoDup; [apply Permutation_map|].
Qed.

Definition rule_ok (r : RoutingPolicyRule) : Prop := strip (ru_recipient_id r) = ru_recipient_id r /\ nonempty (ru_recipient_id r) = true.

Lemma validate_rule_target r : rule_ok r -> validate_target (rule_target r) = Ok (rule_target r).
Proof. intros [Hs Hn]. unfold validate_target. cbn. rewrite Hs, Hn. by destruct r. Qed.

(** The targets of the enabled rules of a key. *)
Definition enabled_targets (k : RouteKey) (rules : list RoutingPolicyRule) : list DeliveryTarget :=
  map rule_target (List.filter (fun r => ru_enabled r && bool_decide (rule_key r = k)) rules).

Lemma collect_spec rules seen rs : Forall rule_ok rules -> List.NoDup (map fst rs) ->
  match collect_routes rules seen rs with
  | Ok rs' => List.NoDup (map target_key rules) /\ (forall x, In x seen -> ~ In x (map target_key rules)) /\ List.NoDup (map fst rs')
              /\ forall k, targets_for k rs' = targets_for k rs ++ enabled_targets k rules
  | Err e => exn_cls e = RoutingPolicyConflictError /\ ~ (List.NoDup (map target_key rules) /\ forall x, In x seen -> ~ In x (map target_key rules))
  end.
Proof.
  intros Hok. revert seen rs. induction Hok as [|r rules Hr Hok IH]; intros seen rs Hn; cbn [collect_routes map].
  - split_and!; [constructor|by intros ? _ []|done|]. intros k. by rewrite app_nil_r.
  - case_bool_decide as Hseen; cbn [rbind].
    { apply list_elem_of_In in Hseen. split; [done|]. intros [_ Hd]. apply (Hd _ Hseen). by left. }
    assert (Hseen' : ~ In (target_key r) seen) by (by rewrite <- list_elem_of_In). clear Hseen.
    set (rs1 := if ru_enabled r then append_route (rule_key r) (rule_target r) rs else rs).
    assert (Hrs1 : List.NoDup (map fst rs1)) by (unfold rs1; destruct (ru_enabled r); [by apply append_NoDup|done]).
    replace (if ru_enabled r then _ else _) with (Ok rs1 : res routes)
      by (unfold rs1; destruct (ru_enabled r); [by rewrite validate_rule_target|done]).
    cbn [rbind]. specialize (IH (target_key r :: seen) rs1 Hrs1). destruct (collect_routes _ _ _) as [rs'|e].
    + destruct IH as (H1 & H2 & H3 & H4). split_and!; [| |done|].
      * constructor; [|done]. apply H2. by left.
      * intros x Hx [<-|Hin]; [done|]. apply (H2 x); [by right|done].
      * intros k. rewrite H4. unfold rs1, enabled_targets. cbn [List.filter]. destruct (ru_enabled r); cbn [andb]; [|done].
        rewrite targets_append, <- app_assoc. by case_bool_decide.
    + destruct IH as [He Hnot]. split; [done|]. intros [H1 H2]. inversion H1 as [|? ? Hni Hnd]; subst. apply Hnot. split; [done|].
      intros x [<-|Hx] Hin; [done|]. apply (H2 x Hx). by right.
Qed.

(** ** Decisions *)

Lemma channel_value_inj a b : channel_value a = channel_value b -> a = b.
Proof. by destruct a, b. Qed.

Lemma target_compare_eq a b : target_compare a b = Eq -> a = b.
Proof.
  unfold target_compare. destruct (String.compare (recipient_id a) _) eqn:E1; try done. intros E2.
  apply String.compare_eq_iff in E1, E2. apply channel_value_inj in E2. destruct a, b. cbn in *. congruence.
Qed.

Lemma In_insert_target t x l : In x (insert_target t l) <-> x = t \/ In x l.
Proof.
  split; [apply insert_target_In|]. induction l as [|u l IH]; cbn; [naive_solver|].
  destruct (target_compare t u) eqn:E; cbn; [|naive_solver..]. apply target_compare_eq in E as ->. naive_solver.
Qed.

Lemma canonical_targets_set ts : Forall target_ok ts ->
  exists out, canonical_delivery_targets ts = Ok out /\ Forall target_ok out /\ forall t, In t out <-> In t ts.
Proof.
  intros Hok. assert (Hv : rmap validate_target ts = Ok ts).
  { apply rmap_ok_Forall2. induction Hok as [|[r c] ts [Hs Hn] _ IH]; constructor; [|done]. unfold validate_target. cbn in *. by rewrite Hs, Hn. }
  pose proof (canonical_targets_ok ts) as K. unfold canonical_delivery_targets in *. rewrite Hv in *. cbn [rbind] in *.
  eexists. split; [reflexivity|]. split; [apply List.Forall_forall; by apply K|].
  assert (H : forall l acc t, In t (fold_left (fun acc t => insert_target t acc) l acc) <-> In t l \/ In t acc).
  { clear. induction l as [|x l IH]; intros acc t; cbn; [naive_solver|]. rewrite IH, In_insert_target. naive_solver. }
  intros t. rewrite H. naive_solver.
Qed.

(** A decision whose fields fit is kept, with its targets in canonical order. *)
Definition decision_ok (r : RoutingDecision) : Prop :=
  is_hex64 (rd_policy r) = true /\ Forall target_ok (rd_targets r)
  /\ match rd_action r with
     | ROUTE => rd_targets r <> [] /\ rd_reason_code r = None
     | NO_TARGET => rd_targets r = [] /\ exists reason, rd_reason_code r = Some reason /\ strip reason = reason /\ nonempty reason = true
     end.

Lemma same_nil {A} (l l' : list A) : (forall x, In x l <-> In x l') -> l = [] <-> l' = [].
Proof. intros H. split; intros ->; [destruct l' as [|x l']|destruct l as [|x l]]; try done; exfalso; by apply (H x); left. Qed.

Lemma validate_decision_keeps r : decision_ok r -> exists r', validate_decision r = Ok r' /\ decision_ok r' /\ rd_policy r' = rd_policy r
  /\ rd_action r' = rd_action r /\ rd_reason_code r' = rd_reason_code r /\ forall t, In t (rd_targets r') <-> In t (rd_targets r).
Proof.
  intros (Hp & Ht & Ha). unfold validate_decision. rewrite (strip_hex64 _ Hp), Hp.
  destruct (canonical_targets_set _ Ht) as (out & -> & Hout & Hset). pose proof (same_nil _ _ Hset) as Hnil.
  destruct (rd_action r) eqn:Eact.
  - destruct Ha as [Hne ->]. cbn. rewrite (bool_decide_eq_false_2 (out = [])) by naive_solver. cbn. eexists. split; [reflexivity|].
    unfold decision_ok. cbn. split_and!; try done. naive_solver.
  - destruct Ha as (He & reason & -> & Hs & Hn). cbn. rewrite Hs, Hn. cbn. rewrite (bool_decide_eq_true_2 (out = [])) by naive_solver. cbn.
    eexists. split; [reflexivity|]. unfold decision_ok. cbn. split_and!; try done; naive_solver.
Qed.

Lemma reason_syntax_nonempty s : reason_syntax s = true -> nonempty s = true.
Proof. by destruct s. Qed.

(** ** What a policy means *)

(** Two rules at different places name the same strategy, version, action, recipient and channel. *)
Definition conflict (rules : list RoutingPolicyRule) : Prop :=
  exists i j r r', (i < j)%nat /\ rules !! i = Some r /\ rules !! j = Some r'
    /\ ru_strategy_id r = ru_strategy_id r' /\ ru_strategy_version r = ru_strategy_version r' /\ ru_action r = ru_action r'
    /\ ru_recipient_id r = ru_recipient_id r' /\ ru_channel r = ru_channel r'.

(** An enabled rule of the strategy, version and action names the target. *)
Definition routed_to (strategy version : string) (action : SignalAction) (rules : list RoutingPolicyRule) (t : DeliveryTarget) : Prop :=
  exists r, In r rules /\ ru_enabled r = true /\ ru_strategy_id r = strategy /\ ru_strategy_version r = version /\ ru_action r = action
    /\ ru_recipient_id r = recipient_id t /\ ru_channel r = channel t.

(** The decision a policy means for a strategy, version and action. *)
Definition decides (fingerprint default_reason : string) (k : string * string * SignalAction) (rules : list RoutingPolicyRule)
    (r : RoutingDecision) : Prop :=
  rd_policy r = fingerprint /\ (forall t, In t (rd_targets r) <-> routed_to (fst (fst k)) (snd (fst k)) (snd k) rules t)
  /\ match rd_action r with
     | ROUTE => rd_targets r <> [] /\ rd_reason_code r = None
     | NO_TARGET => rd_targets r = [] /\ rd_reason_code r = Some default_reason
     end.

Lemma same_target_key r r' : target_key r = target_key r' <->
  ru_strategy_id r = ru_strategy_id r' /\ ru_strategy_version r = ru_strategy_version r' /\ ru_action r = ru_action r'
  /\ ru_recipient_id r = ru_recipient_id r' /\ ru_channel r = ru_channel r'.
Proof. unfold target_key, rule_key, rule_target. split; [by intros [= -> -> -> -> ->]|by intros (-> & -> & -> & -> & ->)]. Qed.

Lemma conflict_repeats rules : conflict rules -> ~ List.NoDup (map target_key rules).
Proof.
  intros (i & j & r & r' & Hij & Hi & Hj & Hk) Hn. apply same_target_key in Hk. rewrite <- NoDup_ListNoDup, NoDup_alt in Hn.
  enough (i = j) by lia. apply (Hn i j (target_key r)); change @map with @list_fmap; rewrite list_lookup_fmap, ?Hi, ?Hj; cbn; congruence.
Qed.

Lemma repeats_conflict rules : ~ List.NoDup (map target_key rules) -> conflict rules.
Proof.
  induction rules as [|r rules IH]; intros Hn; [destruct Hn; constructor|]. destruct (decide (target_key r ∈ map target_key rules)) as [Hin|Hin].
  - rewrite list_elem_of_In, in_map_iff in Hin. destruct Hin as (r' & Hk & Hr'). rewrite <- list_elem_of_In, list_elem_of_lookup in Hr'.
    destruct Hr' as [j Hj]. exists 0%nat, (S j), r, r'. split; [lia|]. split; [done|]. split; [done|]. by apply same_target_key.
  - destruct IH as (i & j & r1 & r2 & Hij & Hi & Hj & Hk).
    + intros Hnd. apply Hn. cbn. constructor; [by rewrite <- list_elem_of_In|done].
    + exists (S i), (S j), r1, r2. split; [lia|]. done.
Qed.

Lemma enabled_routed k rules t : In t (enabled_targets k rules) <-> routed_to (fst (fst k)) (snd (fst k)) (snd k) rules t.
Proof.
  unfold enabled_targets, routed_to. destruct k as [[sid v] a], t as [n c]. rewrite in_map_iff. cbn. split.
  - intros (r & [= <- <-] & Hr). apply filter_In in Hr as [Hr Hg]. apply andb_true_iff in Hg as [He Hk]. apply bool_decide_eq_true in Hk.
    injection Hk as <- <- <-. by exists r.
  - intros (r & Hr & He & <- & <- & <- & <- & <-). exists r. split; [done|]. apply filter_In. split; [done|]. by rewrite He, bool_decide_eq_true_2.
Qed.

Lemma validate_document_ok p0 p : validate_document p0 = Ok p ->
  strip (pd_default_reason p) = pd_default_reason p /\ nonempty (pd_default_reason p) = true /\ Forall rule_ok (pd_rules p).
Proof.
  unfold validate_document. cbv zeta. intros H. pass_guard H. apply rbind_ok in H as (rules & Hr & H). injection H as <-. bool_hyps. cbn.
  split; [apply strip_idem|]. split; [by apply reason_syntax_nonempty|]. apply rmap_ok_Forall2 in Hr. clear -Hr.
  induction Hr as [|x y l l' Hxy _ IH]; constructor; [|done]. unfold validate_rule in Hxy. ok_inv Hxy. bool_hyps. split; cbn in *; [apply strip_idem|done].
Qed.

(** C27: a validated document is refused exactly when two of its rules name the same strategy, version, action, recipient and
    channel; otherwise the resolver answers every signal, and the router accepts its answer under the policy's own
    fingerprint: it routes to exactly the targets of the enabled rules of the signal's strategy, version and action, or,
    when there are none, gives the document's reason. *)
Theorem policy_resolves_exactly p0 p sha256 : validate_document p0 = Ok p -> is_hex64 sha256 = true ->
  match from_document sha256 p with
  | Err e => exn_cls e = RoutingPolicyConflictError /\ conflict (pd_rules p)
  | Ok fr => ~ conflict (pd_rules p) /\ forall signal_key signal, exists decision,
      resolve (resolve_targets signal_key fr) sha256 signal = Ok decision
      /\ decides sha256 (pd_default_reason p) (signal_key (family_envelope signal)) (pd_rules p) decision
  end.
Proof.
  intros Hp Hsha. apply validate_document_ok in Hp as (Hreason & Hne & Hrules). unfold from_document.
  pose proof (collect_spec (pd_rules p) [] [] Hrules (List.NoDup_nil _)) as Hc. destruct (collect_routes _ _ _) as [rs|e]; cbn [rbind].
  2:{ destruct Hc as [He Hn]. split; [done|]. apply repeats_conflict. intros Hd. apply Hn. split; [done|]. by intros ? []. }
  destruct Hc as (Hnd & _ & Hkeys & Htargets). split; [intros Hcf; by apply (conflict_repeats _ Hcf)|]. intros signal_key signal. set (k := signal_key (family_envelope signal)).
  unfold resolve, resolve_targets. cbn [fr_routes fr_fingerprint fr_default_reason]. fold k.
  rewrite <- (targets_perm k rs) by (done || (symmetry; apply merge_sort_Permutation)). rewrite Htargets. cbn [app].
  assert (Hok : Forall target_ok (enabled_targets k (pd_rules p))).
  { apply List.Forall_forall. intros t Ht. unfold enabled_targets in Ht. apply in_map_iff in Ht as (r & <- & Hr). apply filter_In in Hr as [Hr _].
    rewrite List.Forall_forall in Hrules. exact (Hrules r Hr). }
  change (targets_for k [] ++ enabled_targets k (pd_rules p)) with (enabled_targets k (pd_rules p)).
  set (asked := if bool_decide (enabled_targets k (pd_rules p) = [])
                then {| rd_policy := sha256; rd_action := NO_TARGET; rd_targets := []; rd_reason_code := Some (pd_default_reason p) |}
                else {| rd_policy := sha256; rd_action := ROUTE; rd_targets := enabled_targets k (pd_rules p); rd_reason_code := None |}).
  assert (Hasked : decision_ok asked /\ decides sha256 (pd_default_reason p) k (pd_rules p) asked).
  { unfold asked, decision_ok, decides. case_bool_decide as E; cbn; (split; [split_and!; try done; by exists (pd_default_reason p)|]);
      (split; [done|]); (split; [|done]); intros t; rewrite <- enabled_routed; by rewrite ?E. }
  destruct Hasked as [Hask Hdec]. destruct (validate_decision_keeps _ Hask) as (r1 & H1 & Hok1 & P1 & A1 & R1 & T1).
  destruct (validate_decision_keeps _ Hok1) as (r2 & H2 & _ & P2 & A2 & R2 & T2). exists r2.
  replace (if bool_decide _ then _ else _) with (Ok r1 : res RoutingDecision) by (rewrite <- H1; unfold asked; by case_bool_decide).
  cbn [rbind]. rewrite H2. cbn [rbind]. destruct Hdec as (D1 & D2 & D3). rewrite P2, P1, D1, eqs_refl. cbn [negb].
  split; [done|]. split; [congruence|]. split; [intros t; by rewrite T2, T1|]. rewrite A2, A1, R2, R1.
  assert (rd_targets r2 = [] <-> rd_targets asked = []) as Hnil by (apply same_nil; intros t; by rewrite T2, T1).
  destruct (rd_action asked); by rewrite Hnil.
Qed.

(** ** A witness *)

Definition demo_rule (recipient : string) (c : DeliveryChannel) (action : SignalAction) (enabled : bool) : RoutingPolicyRule :=
  {| ru_strategy_id := "alpha"; ru_strategy_version := "1"; ru_action := action; ru_recipient_id := recipient; ru_channel := c; ru_enabled := enabled |}.

(** One recipient on two channels, one twice with different actions, one disabled. *)
Definition demo_policy : RoutingPolicyDocument :=
  {| pd_default_reason := "no_rule"; pd_rules := [demo_rule "bob" PUSHPLUS B_INTENT true; demo_rule "alice" PUSHPLUS B_INTENT true;
       demo_rule "bob" PUSHDEER B_INTENT true; demo_rule "carol" PUSHPLUS B_INTENT false; demo_rule "bob" PUSHPLUS CANCEL true] |}.

Definition demo_policy_sha : string := Eval vm_compute in String.concat "" (repeat "0123456789abcdef" 4).

Definition demo_key (s : SignalEnvelope) : RouteKey := ("alpha", "1", if eqs (s_content s) "buy" then B_INTENT else WATCH).

Definition demo_signal (content : string) : SignalEnvelopeFamily :=
  Legacy {| s_signal_id := None; s_event_time := 1; s_available_at := 1; s_expires_at := 2; s_content := content |}.

Definition demo_bob (c : DeliveryChannel) : DeliveryTarget := {| recipient_id := "bob"; channel := c |}.

Lemma policy_resolves_exactly_witness : validate_document demo_policy = Ok demo_policy
  /\ exists fr, from_document demo_policy_sha demo_policy = Ok fr /\ ~ conflict (pd_rules demo_policy)
  /\ exists decision, resolve (resolve_targets demo_key fr) demo_policy_sha (demo_signal "buy") = Ok decision
       /\ decides demo_policy_sha "no_rule" ("alpha", "1", B_INTENT) (pd_rules demo_policy) decision
       /\ In (demo_bob PUSHPLUS) (rd_targets decision) /\ In (demo_bob PUSHDEER) (rd_targets decision).
Proof.
  assert (validate_document demo_policy = Ok demo_policy) as Hv by (vm_compute; reflexivity).
  assert (is_hex64 demo_policy_sha = true) as Hs by (vm_compute; reflexivity).
  assert (is_ok (from_document demo_policy_sha demo_policy) = true) as Hok by (vm_compute; reflexivity).
  split; [exact Hv|]. pose proof (policy_resolves_exactly demo_policy demo_policy demo_policy_sha Hv Hs) as Ht.
  destruct (from_document demo_policy_sha demo_policy) as [fr|]; [|discriminate Hok]. exists fr. split; [reflexivity|].
  destruct Ht as [Hn Hd]. split; [exact Hn|]. destruct (Hd demo_key (demo_signal "buy")) as (d & Hr & Hdec). exists d.
  split; [exact Hr|]. split; [exact Hdec|]. destruct Hdec as (_ & Hts & _).
  split; apply Hts; [exists (demo_rule "bob" PUSHPLUS B_INTENT true)|exists (demo_rule "bob" PUSHDEER B_INTENT true)]; (split; [|easy]).
  - left. reflexivity.
  - right. right. left. reflexivity.
Defined.
