(* ===== verification/RunnerSource.v ===== *)
(** * Reading a strategy's signals ([StrategyRunnerSignalSource] of [signal_router_runtime.py])

    The source of the router: a bounded read of the signals a strategy runner has stored.  Lengths are
    in bytes, as SQLite and the code count them; the JSON decoder is a parameter.  The theorem says when
    a read succeeds, that it is the asked slice, and that the router's own checks then hold. *)

From Stdlib Require Import ZArith Lia Bool.
From stdpp Require Import base list strings sorting.
From S2P Require Import Prelude Sequences Clock DeliveryContracts SignalBus SignalBusInv SignalBusRoutes SignalBusThms SignalRouter.
Open Scope Z_scope.
Open Scope rq_scope.

(** ** The stored rows *)

Record signal_row := { sw_sequence : Z; sw_signal_id : string; sw_payload : string }.

(** The singleton rows of [runner_metadata] and [runner_source_identity]. *)
Record runner_identity := { ri_strategy_spec : string; ri_evaluator_contract : string; ri_generation_id : string }.
Record runner_db := { rn_identity : option runner_identity; rn_rows : list signal_row }.

Record source_snapshot := { sn_identity : runner_identity; sn_high_watermark : Z }.

(** [SELECT max(sequence)], 0 for an empty table. *)
Definition max_row_sequence (rows : list signal_row) : Z :=
  match rows with [] => 0 | r :: rows => fold_left (fun m r => Z.max m (sw_sequence r)) rows (sw_sequence r) end.

Definition query_source_snapshot (db : runner_db) : res source_snapshot :=
  match rn_identity db with
  | None => Err (Raise ValueError "runner source identity is unavailable")
  | Some i =>
      let i := {| ri_strategy_spec := strip (ri_strategy_spec i); ri_evaluator_contract := strip (ri_evaluator_contract i);
                  ri_generation_id := strip (ri_generation_id i) |} in
      let high := max_row_sequence (rn_rows db) in
      raise_if negb (is_hex64 (ri_strategy_spec i) && is_hex64 (ri_evaluator_contract i) && is_hex64 (ri_generation_id i) && (0 <=? high))
        as ValueError saying "field out of range" ;;
      Ok {| sn_identity := i; sn_high_watermark := high |}
  end.

Definition validate_batch_request (after_sequence limit : Z) : res unit :=
  raise_if after_sequence <? 0 as ValueError saying "signal sequence must be nonnegative" ;;
  raise_if limit <? 0 as ValueError saying "signal batch limit must be nonnegative" ;;
  Ok tt.

Record read_budget := { bu_max_records : Z; bu_max_raw_bytes : Z; bu_max_record_bytes : Z; bu_fetch_size : Z }.

Definition validate_read_budget (b : read_budget) : res read_budget :=
  raise_if negb ((1 <=? bu_max_records b) && (1 <=? bu_max_raw_bytes b) && (1 <=? bu_max_record_bytes b)
                 && (1 <=? bu_fetch_size b) && (bu_fetch_size b <=? 10000)) as ValueError saying "field out of range" ;;
  raise_if bu_max_raw_bytes b <? bu_max_record_bytes b as ValueError saying "runner record byte budget cannot exceed total byte budget" ;;
  Ok b.

(** ** Bounded JSON *)

Definition MAX_JSON_DEPTH : Z := 64.
Definition MAX_JSON_NODES : Z := 100000.

Definition code (c : Ascii.ascii) : Z := Z.of_nat (Ascii.nat_of_ascii c).

(** A byte string that [decode("utf-8")] accepts. *)
Definition continuation (lo hi : Z) (c : Ascii.ascii) : bool := (lo <=? code c) && (code c <=? hi).

Fixpoint utf8_valid (s : string) : bool :=
  match s with
  | EmptyString => true
  | String a s =>
      let x := code a in
      if x <? 128 then utf8_valid s
      else match s with
      | String b s1 =>
          if (194 <=? x) && (x <=? 223) then continuation 128 191 b && utf8_valid s1
          else match s1 with
          | String c s2 =>
              if (224 <=? x) && (x <=? 239) then
                continuation (if x =? 224 then 160 else 128) (if x =? 237 then 159 else 191) b && continuation 128 191 c && utf8_valid s2
              else match s2 with
              | String d s3 =>
                  (240 <=? x) && (x <=? 244) && continuation (if x =? 240 then 144 else 128) (if x =? 244 then 143 else 191) b
                  && continuation 128 191 c && continuation 128 191 d && utf8_valid s3
              | EmptyString => false
              end
          | EmptyString => false
          end
      | EmptyString => false
      end
  end.

(** The state of the scan: outside, in a string (after a backslash or not) or in another atom. *)
Inductive scan_mode := Outside | InString (escaped : bool) | InAtom.

Definition is_space (x : Z) : bool := (x =? 32) || (x =? 9) || (x =? 13) || (x =? 10).

(** A character outside strings and atoms; [None] is past the depth budget. *)
Definition scan_outside (x depth nodes : Z) : option (scan_mode * Z * Z) :=
  if x =? 34 then Some (InString false, depth, nodes + 1)
  else if (x =? 91) || (x =? 123) then (if MAX_JSON_DEPTH <? depth + 1 then None else Some (Outside, depth + 1, nodes + 1))
  else if (x =? 93) || (x =? 125) then Some (Outside, depth - 1, nodes)
  else if is_space x || (x =? 44) || (x =? 58) then Some (Outside, depth, nodes)
  else Some (InAtom, depth, nodes + 1).

(** The scan of the text.  Bytes of a character beyond ASCII are read one by one: none of them is a
    delimiter, so that they open at most one atom, as the character does. *)
Fixpoint scan_json (s : string) (mode : scan_mode) (depth nodes : Z) : res unit :=
  match s with
  | EmptyString => Ok tt
  | String c s =>
      let x := code c in
      let outside :=
        match scan_outside x depth nodes with
        | None => Err (Raise ValueError "runner signal payload exceeds the JSON depth budget")
        | Some (mode, depth, nodes) =>
            raise_if MAX_JSON_NODES <? nodes as ValueError saying "runner signal payload exceeds the JSON node budget" ;;
            scan_json s mode depth nodes
        end in
      match mode with
      | InString true => scan_json s (InString false) depth nodes
      | InString false => scan_json s (if x =? 92 then InString true else if x =? 34 then Outside else InString false) depth nodes
      | InAtom => if is_space x || (x =? 44) || (x =? 93) || (x =? 125) then outside else scan_json s InAtom depth nodes
      | Outside => outside
      end
  end.

Definition byte_length (s : string) : Z := Z.of_nat (String.length s).

Definition preflight_json_text (raw : string) (maximum_bytes : Z) : res unit :=
  raise_if maximum_bytes <? byte_length raw as ValueError saying "runner signal payload exceeds the byte budget" ;;
  raise_if negb (utf8_valid raw) as ValueError saying "runner signal payload is not valid UTF-8" ;;
  scan_json raw Outside 0 0.

(** ** Reading *)

Definition row_le (a b : signal_row) : Prop := sw_sequence a <= sw_sequence b.
#[export] Instance row_le_dec : RelDecision row_le.
Proof. intros a b. unfold row_le. apply _. Defined.

(** [WHERE sequence > ? AND sequence <= ? ORDER BY sequence LIMIT ?] *)
Definition bounded_rows (db : runner_db) (after high limit : Z) : list signal_row :=
  firstn (Z.to_nat limit)
    (merge_sort row_le (select (fun r => (after <? sw_sequence r) && (sw_sequence r <=? high)) (rn_rows db))).

Definition raw_bytes_of (rows : list signal_row) : Z := sumZ (fun r => byte_length (sw_payload r)) rows.
Definition max_bytes_of (rows : list signal_row) : Z := fold_left (fun m r => Z.max m (byte_length (sw_payload r))) rows 0.

Section Source.
Context `{Codec}.
(** [json.loads] with its duplicate-key hook: the object of the signal ([None] when the text is no object)
    and the number of values in it, which the source counts with an explicit stack.  It raises nothing but
    what the source catches around it: [ValueError] (a text that is no JSON, a duplicate key), [TypeError] and
    [RecursionError]. *)
Context (json_loads : string -> res (option signal_json * Z)).

Definition bounded_json_loads (raw : string) (maximum_bytes : Z) : res (option signal_json) :=
  bind _ from preflight_json_text raw maximum_bytes ;;
  match json_loads raw with
  | Err _ => Err (Raise ValueError "runner signal payload is invalid")
  | Ok (decoded, nodes) =>
      raise_if MAX_JSON_NODES <? nodes as ValueError saying "runner signal payload exceeds the JSON node budget" ;;
      Ok decoded
  end.

(** The record of a decoded row. *)
Definition record_of (row : signal_row) (decoded : option signal_json) : res RunnerSignalRecord :=
  match decoded with
  | None => Err (Raise TypeError "runner signal payload must be a JSON object")
  | Some decoded =>
      signal <~ parse_decoded decoded ;;
      raise_if negb (bool_decide (s_signal_id (family_envelope signal) = Some (sw_signal_id row)))
        as ValueError saying "runner stored signal_id does not match signal payload" ;;
      validate_record {| rn_sequence := sw_sequence row; rn_signal := signal |}
  end.

Definition decode_row (budget : read_budget) (row : signal_row) : res RunnerSignalRecord :=
  decoded <~ bounded_json_loads (sw_payload row) (bu_max_record_bytes budget) ;;
  match record_of row decoded with
  | Ok r => Ok r
  | Err _ => Err (Raise ValueError "runner signal payload is invalid")
  end.

Fixpoint read_rows (budget : read_budget) (rows : list signal_row) (consumed : Z) (records : list RunnerSignalRecord)
    : res (Z * list RunnerSignalRecord) :=
  match rows with
  | [] => Ok (consumed, records)
  | row :: rows =>
      raise_if bu_max_record_bytes budget <? byte_length (sw_payload row) as ValueError saying "runner signal record exceeds the byte budget" ;;
      let consumed := consumed + byte_length (sw_payload row) in
      raise_if bu_max_raw_bytes budget <? consumed as ValueError saying "runner signal batch exceeds the raw byte budget" ;;
      raise_if bu_max_records budget <? Z.of_nat (length records) + 1 as ValueError saying "runner signal batch exceeds the record budget" ;;
      record <~ decode_row budget row ;;
      read_rows budget rows consumed (records ++ [record])
  end.

Definition query_signal_records (db : runner_db) (after high limit : Z) (budget : read_budget) : res (list RunnerSignalRecord) :=
  if negb (sql_int after && sql_int high && sql_int limit) then too_large else
  let rows := bounded_rows db after high limit in
  let record_count := Z.of_nat (length rows) in
  raise_if bu_max_records budget <? record_count as ValueError saying "runner signal batch exceeds the record budget" ;;
  raise_if bu_max_record_bytes budget <? max_bytes_of rows as ValueError saying "runner signal record exceeds the byte budget" ;;
  raise_if bu_max_raw_bytes budget <? raw_bytes_of rows as ValueError saying "runner signal batch exceeds the raw byte budget" ;;
  bind (consumed, records) from read_rows budget rows 0 [] ;;
  raise_if negb (Z.of_nat (length records) =? record_count) || negb (consumed =? raw_bytes_of rows)
    as ValueError saying "runner signal batch changed after its budget preflight" ;;
  Ok records.

Definition read_batch (source_id : string) (budget : read_budget) (db : runner_db) (after limit : Z) : res RunnerSignalBatch :=
  bind _ from validate_batch_request after limit ;;
  snapshot <~ query_source_snapshot db ;;
  records <~ query_signal_records db after (sn_high_watermark snapshot) limit budget ;;
  d <~ validate_descriptor {| d_source_id := source_id; d_generation_id := ri_generation_id (sn_identity snapshot);
         d_strategy_spec := ri_strategy_spec (sn_identity snapshot); d_first_sequence := 1; d_high_watermark := sn_high_watermark snapshot |} ;;
  validate_batch {| rb_descriptor := d; rb_after_sequence := after; rb_limit := limit; rb_records := records |}.

(** ** The loop's own checks never fail after the preflight *)

Lemma max_bytes_bound rows r : In r rows -> byte_length (sw_payload r) <= max_bytes_of rows.
Proof.
  unfold max_bytes_of. assert (K : forall l m, m <= fold_left (fun m r => Z.max m (byte_length (sw_payload r))) l m
    /\ forall r, In r l -> byte_length (sw_payload r) <= fold_left (fun m r => Z.max m (byte_length (sw_payload r))) l m).
  { induction l as [|x l IH]; intros m; cbn; [split; [lia|by intros ? []]|]. destruct (IH (Z.max m (byte_length (sw_payload x)))) as [H1 H2].
    split; [lia|]. intros y [<-|Hy]; [lia|by apply H2]. }
  apply K.
Qed.

Lemma raw_bytes_nonneg rows : 0 <= raw_bytes_of rows.
Proof. apply sumZ_nonneg. intros r _. unfold byte_length. lia. Qed.

Lemma read_rows_spec budget rows consumed records : (forall r, In r rows -> byte_length (sw_payload r) <= bu_max_record_bytes budget) ->
  consumed + raw_bytes_of rows <= bu_max_raw_bytes budget -> Z.of_nat (length records) + Z.of_nat (length rows) <= bu_max_records budget ->
  read_rows budget rows consumed records = (new <~ rmap (decode_row budget) rows ;; Ok (consumed + raw_bytes_of rows, records ++ new)).
Proof.
  revert consumed records. induction rows as [|row rows IH]; intros consumed records Hmax Hraw Hlen; cbn [read_rows rmap].
  - cbn [rbind]. rewrite app_nil_r. by rewrite Z.add_0_r.
  - unfold raw_bytes_of in *. rewrite sumZ_cons in *. pose proof (raw_bytes_nonneg rows) as Hnn. unfold raw_bytes_of in Hnn. cbn [length] in Hlen. cbv beta in *.
    rewrite !(proj2 (Z.ltb_ge _ _)); [|solve [apply Hmax; by left | lia]..]. destruct (decode_row budget row) as [record|e]; [|done]. cbn [rbind].
    rewrite IH; [|intros; apply Hmax; by right|lia|rewrite length_app; cbn [length]; lia].
    destruct (rmap _ rows) as [new|e]; [|done]. cbn [rbind]. rewrite <- app_assoc. cbn [app]. by rewrite Z.add_assoc.
Qed.

(** What the preflight asks of the rows. *)
Definition fits (budget : read_budget) (rows : list signal_row) : Prop :=
  Z.of_nat (length rows) <= bu_max_records budget /\ max_bytes_of rows <= bu_max_record_bytes budget /\ raw_bytes_of rows <= bu_max_raw_bytes budget.

Lemma query_signal_records_spec db after high limit budget records :
  query_signal_records db after high limit budget = Ok records <->
  sql_int after && sql_int high && sql_int limit = true /\ fits budget (bounded_rows db after high limit)
  /\ rmap (decode_row budget) (bounded_rows db after high limit) = Ok records.
Proof.
  unfold query_signal_records, fits. cbv zeta. set (rows := bounded_rows db after high limit). destruct (_ && _ && _); cbn [negb]; [|split; [done|by intros [? _]]].
  destruct (Z.ltb_spec (bu_max_records budget) (Z.of_nat (length rows))); [split; [done|lia]|].
  destruct (Z.ltb_spec (bu_max_record_bytes budget) (max_bytes_of rows)); [split; [done|lia]|].
  destruct (Z.ltb_spec (bu_max_raw_bytes budget) (raw_bytes_of rows)); [split; [done|lia]|].
  rewrite read_rows_spec; [|intros r Hr; pose proof (max_bytes_bound rows r Hr); lia|lia|cbn; lia].
  destruct (rmap _ rows) as [new|e] eqn:E; cbn [rbind]; [|split; [done|by intros (_ & _ & ?)]].
  apply rmap_ok_Forall2, Forall2_length in E. cbn [app]. rewrite E, Z.add_0_l, !Z.eqb_refl. cbn [negb orb]. split; [intros [= ->]; split_and!; done || lia|by intros (_ & _ & [= ->])].
Qed.

(** ** Batches of numbered rows *)

Lemma numbered_length_max rows : numbered_by sw_sequence 0 rows -> max_row_sequence rows = Z.of_nat (length rows).
Proof.
  destruct rows as [|r rows]; [done|]. intros Hn. cbn [max_row_sequence]. pose proof (numbered_head _ _ _ Hn) as Hr. apply numbered_tail in Hn.
  cbn [length]. rewrite Hr. replace (Z.of_nat (S (length rows))) with (0 + 1 + Z.of_nat (length rows)) by lia. revert Hn. generalize (0 + 1).
  clear. induction rows as [|r rows IH]; intros k Hn; cbn [fold_left length]; [lia|].
  pose proof (numbered_head _ _ _ Hn) as Hr. apply numbered_tail in Hn. rewrite Hr. replace (Z.max k (k + 1)) with (k + 1) by lia.
  rewrite IH by done. lia.
Qed.

Lemma bounded_slice db after limit : numbered_by sw_sequence 0 (rn_rows db) -> 0 <= after ->
  bounded_rows db after (Z.of_nat (length (rn_rows db))) limit = take (Z.to_nat limit) (drop (Z.to_nat after) (rn_rows db)).
Proof.
  intros Hn Ha. unfold bounded_rows. f_equal. set (n := length (rn_rows db)).
  assert (Hs : select (in_page sw_sequence after (Z.of_nat n)) (rn_rows db) = drop (Z.to_nat after) (rn_rows db)).
  { destruct (decide (Z.to_nat after <= n)%nat) as [Hle|Hgt].
    - pose proof (select_slice (rn_rows db) 0 (Z.to_nat after) n Hn Hle) as E. rewrite Z2Nat.id in E by done. rewrite !Z.add_0_l in E. rewrite E.
      apply take_ge. rewrite length_drop. lia.
    - rewrite drop_ge by lia. unfold select. destruct (List.filter _ _) as [|x l] eqn:E; [done|]. exfalso.
      assert (Hx : In x (x :: l)) by (by left). rewrite <- E in Hx. apply filter_In in Hx as [Hx Hp]. apply In_nth_error in Hx as [i Hi].
      pose proof (Hn i x Hi). unfold in_page in Hp. bool_hyps. lia. }
  unfold in_page in Hs. rewrite Hs. eapply (numbered_sorted (key := sw_sequence) row_le); [done|]. by apply numbered_drop.
Qed.

Lemma revalidated c s s' : validate_signal c s = Ok s' -> validate_signal c s' = Ok s'.
Proof.
  unfold validate_signal. destruct (_ <? _) eqn:E1; [done|]. destruct (_ <=? _) eqn:E2; [done|]. cbv zeta. destruct (s_signal_id s) as [id|] eqn:Ei.
  - destruct (negb _) eqn:E3; [done|]. intros [= <-]. by rewrite E1, E2, Ei, E3.
  - intros [= <-]. cbn [s_available_at s_event_time s_expires_at s_signal_id]. rewrite E1, E2. unfold signal_identity. cbn. by rewrite eqs_refl.
Qed.

Lemma validate_record_again r r' : validate_record r = Ok r' -> validate_record r' = Ok r' /\ rn_sequence r' = rn_sequence r.
Proof.
  unfold validate_record. destruct (_ <? 1) eqn:E1; [done|]. intros Hr. apply rbind_ok in Hr as (f & Hf & Hr). injection Hr as <-. split; [|done].
  cbn [rn_sequence rn_signal]. rewrite E1. destruct (rn_signal r) as [s|s]; cbn [revalidate_signal] in Hf; apply rbind_ok in Hf as (s' & Hs & Hf); injection Hf as <-;
    cbn [revalidate_signal]; by rewrite (revalidated _ _ _ Hs).
Qed.

Lemma decode_row_valid budget row r : decode_row budget row = Ok r -> validate_record r = Ok r /\ rn_sequence r = sw_sequence row.
Proof.
  unfold decode_row. intros Hr. apply rbind_ok in Hr as (decoded & _ & Hr). destruct (record_of row decoded) as [r'|] eqn:Hrec; [|done]. injection Hr as <-.
  unfold record_of in Hrec. destruct decoded as [j|]; [|done]. apply rbind_ok in Hrec as (f & _ & Hrec). pass_guard Hrec. by apply validate_record_again in Hrec.
Qed.

Lemma decoded_sequences budget k rows records : numbered_by sw_sequence k rows -> rmap (decode_row budget) rows = Ok records ->
  check_sequences (k + 1) records = Ok tt /\ rmap validate_record records = Ok records /\ length records = length rows
  /\ last_sequence_of records = (if bool_decide (rows = []) then None else Some (k + Z.of_nat (length rows))).
Proof.
  intros Hn Hr. apply rmap_ok_Forall2 in Hr. revert k Hn. induction Hr as [|row r rows records Hrow Hr IH]; intros k Hn; [done|].
  apply decode_row_valid in Hrow as [Hv Hs]. pose proof (numbered_head _ _ _ Hn) as Hk. destruct (IH (k + 1) (numbered_tail _ _ _ Hn)) as (H1 & H2 & H3 & H4).
  cbn [check_sequences rmap length]. rewrite Hs, Hk, Z.eqb_refl. cbn [negb]. rewrite Hv, H2, H3. split_and!; try done.
  rewrite bool_decide_eq_false_2 by done. unfold last_sequence_of in *. destruct records as [|r' records].
  - inversion Hr; subst. cbn. f_equal. lia.
  - change (last (r :: r' :: records)) with (last (r' :: records)). rewrite H4. rewrite bool_decide_eq_false_2 by (inversion Hr; by subst). f_equal. lia.
Qed.

Lemma snapshot_facts db sn : numbered_by sw_sequence 0 (rn_rows db) -> query_source_snapshot db = Ok sn ->
  sn_high_watermark sn = Z.of_nat (length (rn_rows db)) /\ is_hex64 (ri_generation_id (sn_identity sn)) = true
  /\ is_hex64 (ri_strategy_spec (sn_identity sn)) = true.
Proof.
  intros Hn Hsn. unfold query_source_snapshot in Hsn. destruct (rn_identity db) as [i|]; [|done]. cbv zeta in Hsn. pass_guard Hsn. injection Hsn as <-.
  bool_hyps. cbn. split; [by apply numbered_length_max|done].
Qed.

(** The descriptor a read reports. *)
Definition reported (source_id : string) (sn : source_snapshot) : RouteSourceDescriptor :=
  {| d_source_id := strip source_id; d_generation_id := ri_generation_id (sn_identity sn); d_strategy_spec := ri_strategy_spec (sn_identity sn);
     d_first_sequence := 1; d_high_watermark := sn_high_watermark sn |}.

Lemma reported_valid source_id sn : 0 <= sn_high_watermark sn -> is_hex64 (ri_generation_id (sn_identity sn)) = true ->
  is_hex64 (ri_strategy_spec (sn_identity sn)) = true -> nonempty (strip source_id) = true ->
  validate_descriptor {| d_source_id := source_id; d_generation_id := ri_generation_id (sn_identity sn); d_strategy_spec := ri_strategy_spec (sn_identity sn);
    d_first_sequence := 1; d_high_watermark := sn_high_watermark sn |} = Ok (reported source_id sn)
  /\ validate_descriptor (reported source_id sn) = Ok (reported source_id sn).
Proof.
  intros Hh Hg Hs Hid. unfold validate_descriptor, reported. cbn [d_source_id d_generation_id d_strategy_spec d_first_sequence d_high_watermark].
  rewrite !strip_idem, !(strip_hex64 _ Hg), !(strip_hex64 _ Hs), Hid, Hg, Hs, (proj2 (Z.leb_le 0 _)), (proj2 (Z.ltb_ge _ _)) by lia. done.
Qed.

Lemma validated_batch d after limit records : validate_descriptor d = Ok d -> 0 <= after -> 0 <= limit -> rmap validate_record records = Ok records ->
  Z.of_nat (length records) <= limit ->
  validate_batch {| rb_descriptor := d; rb_after_sequence := after; rb_limit := limit; rb_records := records |}
  = Ok {| rb_descriptor := d; rb_after_sequence := after; rb_limit := limit; rb_records := records |}.
Proof.
  intros Hd Ha Hl Hr Hn. unfold validate_batch. cbn [rb_descriptor rb_after_sequence rb_limit rb_records]. rewrite Hd. cbn [rbind].
  rewrite !(proj2 (Z.ltb_ge _ 0)) by done. cbn [orb]. rewrite Hr. cbn [rbind]. by rewrite (proj2 (Z.ltb_ge _ _)).
Qed.

(** C26: a read of a runner's numbered signals succeeds exactly when the request is valid, the rows asked for fit the
    budget and all of them decode, and it returns the records of exactly these rows: the checks made again while reading never
    fail after the preflight.  The router then accepts the batch: its sequences follow the cursor and it misses no tail. *)
Theorem runner_batches_exact source_id budget db sn after limit batch : numbered_by sw_sequence 0 (rn_rows db) ->
  query_source_snapshot db = Ok sn -> nonempty (strip source_id) = true ->
  let high := Z.of_nat (length (rn_rows db)) in
  let rows := take (Z.to_nat limit) (drop (Z.to_nat after) (rn_rows db)) in
  (read_batch source_id budget db after limit = Ok batch <->
   0 <= after /\ 0 <= limit /\ sql_int after && sql_int high && sql_int limit = true /\ fits budget rows
   /\ rb_descriptor batch = reported source_id sn /\ d_high_watermark (rb_descriptor batch) = high
   /\ rb_after_sequence batch = after /\ rb_limit batch = limit /\ rmap (decode_row budget) rows = Ok (rb_records batch))
  /\ (read_batch source_id budget db after limit = Ok batch -> after <= high -> 1 <= limit ->
      check_sequences (after + 1) (rb_records batch) = Ok tt /\ check_tail after limit high (rb_records batch) = Ok tt).
Proof.
  intros Hn Hsn Hid high rows. destruct (snapshot_facts _ _ Hn Hsn) as (Hh & Hg & Hspec). fold high in Hh.
  destruct (reported_valid source_id sn ltac:(lia) Hg Hspec Hid) as [Hd Hd'].
  assert (Hdec : forall records, 0 <= after -> rmap (decode_row budget) rows = Ok records -> check_sequences (after + 1) records = Ok tt
    /\ rmap validate_record records = Ok records /\ length records = length rows
    /\ last_sequence_of records = (if bool_decide (rows = []) then None else Some (after + Z.of_nat (length rows)))).
  { intros records Ha Hr. eapply decoded_sequences; [|done]. replace after with (0 + Z.of_nat (Z.to_nat after)) at 1 by lia. by apply numbered_take, numbered_drop. }
  assert (Hlen : Z.of_nat (length rows) = Z.max 0 (Z.min limit (high - Z.max 0 after))) by (unfold rows, high; rewrite length_take, length_drop; lia).
  assert (Hread : 0 <= after -> forall records, query_signal_records db after high limit budget = Ok records <->
    sql_int after && sql_int high && sql_int limit = true /\ fits budget rows /\ rmap (decode_row budget) rows = Ok records).
  { intros Ha records. rewrite query_signal_records_spec. unfold rows, high. by rewrite bounded_slice. }
  assert (Hiff : read_batch source_id budget db after limit = Ok batch <-> 0 <= after /\ 0 <= limit /\ sql_int after && sql_int high && sql_int limit = true
    /\ fits budget rows /\ rb_descriptor batch = reported source_id sn /\ d_high_watermark (rb_descriptor batch) = high
    /\ rb_after_sequence batch = after /\ rb_limit batch = limit /\ rmap (decode_row budget) rows = Ok (rb_records batch)).
  { unfold read_batch, validate_batch_request. destruct (Z.ltb_spec after 0) as [|Ha]; [split; [done|lia]|].
    destruct (Z.ltb_spec limit 0) as [|Hl]; [split; [done|lia]|]. cbn [rbind]. rewrite Hsn. cbn [rbind]. rewrite Hd, Hh. split.
    - intros Hb. apply rbind_ok in Hb as (records & Hq & Hb). cbn [rbind] in Hb. apply Hread in Hq as (H1 & H2 & H3); [|done].
      destruct (Hdec records Ha H3) as (_ & Hv & Hrl & _). rewrite validated_batch in Hb by (done || lia). by injection Hb as <-.
    - intros (_ & _ & H1 & H2 & H3 & _ & H4 & H5 & H6). assert (Hq : query_signal_records db after high limit budget = Ok (rb_records batch)) by (by apply Hread).
      rewrite Hq. cbn [rbind]. destruct (Hdec _ Ha H6) as (_ & Hv & Hrl & _). rewrite validated_batch by (done || lia). f_equal. destruct batch. cbn in *. congruence. }
  split; [exact Hiff|]. intros Hb Hah Hl1. apply Hiff in Hb as (Ha & Hl & _ & _ & _ & _ & _ & _ & Hr). destruct (Hdec _ Ha Hr) as (Hseq & _ & Hrl & Hlast).
  split; [done|]. unfold check_tail. rewrite Hlast, Hrl. case_bool_decide as Hnil.
  - rewrite Hnil in Hlen. cbn in Hlen. by rewrite (proj2 (Z.ltb_ge _ _)) by lia.
  - rewrite (proj2 (Z.ltb_ge _ _)) by lia. destruct (Z.ltb_spec (Z.of_nat (length rows)) limit); [|done]. cbn [andb]. by rewrite (proj2 (Z.ltb_ge _ _)) by lia.
Qed.
End Source.

(** ** A witness: three stored signals, read two at a time after the first *)

Definition demo_stored (raw : string) : SignalEnvelope :=
  {| s_signal_id := None; s_event_time := 1; s_available_at := 2; s_expires_at := 100 * us_per_second; s_content := raw |}.

Definition demo_loads (raw : string) : res (option signal_json * Z) := Ok (Some {| j_envelope_schema := None; j_fields := demo_stored raw |}, 2).

Definition demo_row (n : Z) (raw : string) : signal_row :=
  {| sw_sequence := n; sw_signal_id := @signal_identity demo_codec false (demo_stored raw); sw_payload := raw |}.

Definition demo_runner : runner_db :=
  {| rn_identity := Some {| ri_strategy_spec := hexes 2; ri_evaluator_contract := hexes 4; ri_generation_id := hexes 1 |};
     rn_rows := [demo_row 1 "[1]"; demo_row 2 "[1,{},3]"; demo_row 3 "[[]]"] |}.

Definition demo_budget : read_budget := {| bu_max_records := 10; bu_max_raw_bytes := 1000; bu_max_record_bytes := 100; bu_fetch_size := 5 |}.

Lemma runner_batches_exact_witness : exists batch,
  @read_batch demo_codec demo_loads "strategy-a" demo_budget demo_runner 1 2 = Ok batch /\ map rn_sequence (rb_records batch) = [2; 3]
  /\ check_sequences (1 + 1) (rb_records batch) = Ok tt /\ check_tail 1 2 (Z.of_nat (length (rn_rows demo_runner))) (rb_records batch) = Ok tt.
Proof.
  destruct (@read_batch demo_codec demo_loads "strategy-a" demo_budget demo_runner 1 2) as [batch|e] eqn:E; [|vm_compute in E; discriminate].
  assert (Hn : numbered_by sw_sequence 0 (rn_rows demo_runner)) by (intros [|[|[|[|i]]]] r Hr; vm_compute in Hr; try discriminate Hr; injection Hr as <-; reflexivity).
  destruct (query_source_snapshot demo_runner) as [sn|e] eqn:Hsn; [|vm_compute in Hsn; discriminate].
  exists batch. split; [done|]. split; [vm_compute in E; injection E as <-; reflexivity|].
  pose proof (@runner_batches_exact demo_codec demo_loads "strategy-a" demo_budget demo_runner sn 1 2 batch Hn Hsn eq_refl) as [_ Haccepted].
  apply Haccepted; [exact E|cbn; lia|lia].
Defined.

(** Nesting past the depth budget and bad UTF-8 are refused before decoding. *)
Example preflight_examples :
  preflight_json_text "[1, [2, {}]]" 100 = Ok tt
  /\ preflight_json_text (String.concat "" (repeat "[" 65)) 100 = Err (Raise ValueError "runner signal payload exceeds the JSON depth budget")
  /\ preflight_json_text (String (Ascii.ascii_of_nat 237) (String (Ascii.ascii_of_nat 160) (String (Ascii.ascii_of_nat 128) ""))) 100
     = Err (Raise ValueError "runner signal payload is not valid UTF-8").
Proof. vm_compute. done. Qed.
